(* ===== verification/_CoqProject ===== *)
-Q . S2P
Prelude.v
PyStr.v
Encoding.v
Digest.v
Json.v
JsonText.v
JsonRound.v
PyTime.v
Url.v
Ip.v
Config.v
Db.v
Effects.v
Crypto.v
Keys.v
Reencrypt.v
Engine.v
Pathglob.v
Web.v
Events.v
Passwords.v
Sessions.v
Decision.v
RateLimit.v
PublicGate.v
Gateway.v
Check.v
Dpop.v
Pkce.v
Tokens.v
Grants.v
TokenEndpoint.v
SecondFactor.v
Flows.v
Pages.v
Authorize.v
ResourceServer.v
Login.v
LoginSafety.v
WebAuthn.v
WebAuthnLogin.v
WebAuthnSafety.v
LoginHistory.v
AdminDeps.v
GatewayLogin.v
Cascade.v
Users.v
UsersSafety.v
Routes.v
Schemas.v
IsoTime.v
Access.v
Resources.v
ResourcesSafety.v
Viewers.v
Portal.v
PortalSafety.v
SealedToken.v
Guac.v
Rtsp.v
StreamUrl.v
GrantSafety.v
TunnelSafety.v
UiLogs.v
Shipping.v
Bridge.v
BridgeSafety.v
Cli.v
CliSafety.v
Logs.v
LogFiles.v
LogTail.v
LogSetup.v
Ddns.v
Apps.v
Schema.v
Migrations.v
