(* ===== verification/Prelude.v ===== *)
(** * hyproxy control plane: a verification library (root file)

    hyproxy puts the services of a home network behind a login: a data plane (Go) asks,
    for each HTTP request, whether it may pass; the control plane, a Python program under
    src/server/src/hyproxy, answers.  This library models the control plane.

    ** The program and its parts

    Five processes share one PostgreSQL database.  The identity provider (idp/) logs users
    in with two factors and hands out authorization codes and tokens bound to a key
    (DPoP).  The authorization service (authz/) is its client: it turns a code into a
    gateway session, and decides each request of the data plane with the policy engine
    (policy/).  The administration API (admin/) is a resource server of the same tokens,
    and writes what the engine reads.  The brokers (guac/, rtsp/) hand out one-use tokens
    for remote desktops and cameras, which the bridges redeem.  The command line (cli.py)
    prepares the deployment, rotates keys, collects the rows that have had their time, and
    ships the audit tables (audit/).

    ** How the code is modelled

    A handler or a service function is a computation [M A] of [Effects]: it takes the
    environment (settings, clock, random source, time of the transaction) and the state
    (the tables, the number of draws made) to a value or an exception and the new state.
    [db_session] is the unit of work of db/engine.py: an exception gives its changes up, a
    commit in the middle keeps them.  A table is a finite map from its key to a record of
    the columns ([Db]).  A function that is given a mapped object is given its key and
    reads the row, since the identity map of the session makes all holders of the object
    see one row.  What several requests can do to one another is stated over sequences of
    handler runs, each with an environment of its own ([reachable], [steps], and the like
    in the safety files); the rotating log files and the bridge, where steps of processes
    mix, are step relations of their own, and so are the runs of the export between the
    commits of the other processes.

    Libraries are parameters with their documented laws as named hypotheses or as the
    fields of a class: Argon2 ([Argon]), AES-GCM ([Aead]), JWT and JWS ([Jwt], [Jose]), TOTP
    and QR codes ([Otp]), py_webauthn ([WebAuthnLib]), AES-CBC with PKCS #7
    ([CbcCipher]), the HTTP exchanges with the issuer, with qBittorrent and with the
    DNS provider.  Each theorem with such a law has a witness that gives concrete
    functions.  Python's standard library is modelled, not assumed: strings, hexadecimal
    and base64, SHA-256, JSON, URL parsing, IP networks, ISO 8601 texts.

    ** The files

    Foundations.  [Prelude] (tactics, hints, list lemmas), [PyStr], [Encoding], [Digest],
    [Json], [JsonText], [JsonRound], [PyTime], [IsoTime], [Url], [Ip] (Python's library);
    [Config] (config.py), [Db] (db/models.py, db/engine.py), [Effects] (the monad,
    core/time.py), [Web] (requests, responses, core/netutil.py), [Cascade] (the foreign keys
    of db/models.py under deletion).

    Secrets and keys.  [Crypto] (core/crypto.py, core/secrets.py), [Keys] (core/keys.py),
    [Reencrypt] (core/reencrypt.py; the interface [Sealed] is an entry of its table list),
    [SealedToken] (core/sealedtoken.py).

    Policy and the data plane's questions.  [Engine], [Pathglob] (policy/), [Decision],
    [Check], [PublicGate], [Gateway], [GatewayLogin], [Routes] (authz/), [RateLimit]
    (security/ratelimit.py).

    Identity provider.  [Events] (audit/events.py), [Passwords], [SecondFactor], [Pkce],
    [WebAuthn] (security/), [Sessions], [Flows] (idp/), [Dpop], [Tokens], [Grants],
    [TokenEndpoint], [Authorize], [ResourceServer] (idp/oidc/), [Pages], [Login],
    [WebAuthnLogin] (idp/web/); [LoginSafety], [WebAuthnSafety] and [LoginHistory] hold
    their theorems.  The replay cache of [Dpop] is an interface, as in the code, and the
    PostgreSQL cache implements it.

    Administration.  [AdminDeps] (admin/deps.py), [Users] (users.py, changes.py), [Access]
    (roles.py, user_roles.py, policies.py), [Schemas] (schemas.py), [Resources]
    (resources.py, connections.py, guac/connections.py), [Viewers], [Portal] (portal.py,
    qbit.py), [UiLogs], with [UsersSafety], [ResourcesSafety] and [PortalSafety].

    Brokers and bridge.  [Guac] (guac/broker.py, guac/token.py, authz/guac.py), [Rtsp]
    (rtsp/urls.py, rtsp/broker.py, authz/rtsp.py), [Bridge] (rtsp/app.py), with
    [GrantSafety] (the interface [GrantTable] of their two grant tables), [TunnelSafety],
    [StreamUrl] and [BridgeSafety].

    Operations.  [Shipping] (audit/shipping.py), [Cli] and [CliSafety] (cli.py), [Logs],
    [LogFiles], [LogTail] and [LogSetup] (logs.py), [Ddns] (ops/ddns.py), [Apps] (what idp/app.py,
    admin/app.py and authz/app.py add to the handlers), [Schema] (the tables db/models.py
    declares) and [Migrations] (src/server/alembic/versions).

    ** What the theorems show

    - The decision: [check_allow_sound] and [check_allow_complete] say what an allow
      rests on and that nothing more is needed; [evaluate_spec] and [matches_spec] equate
      the engine and the glob matcher with declarative readings; [gate_submit_grants],
      [throttle_failure_spec] cover the password gate and the delays.
    - Login: behind every session that the served requests can lead to is a request whose
      password was verified for its user, and a later one on the same flow whose second
      factor was ([sessions_have_two_factors]); a passkey needs a stored challenge, a live
      flow and the counter of its credential ([webauthn_verify_sound]).
    - Codes and tokens: what an authorize answer, a code exchange and a refresh need
      ([authorize_code_sound], [code_exchange_sound], [refresh_rotation_sound]), that a
      code is used once and what a replay revokes ([code_single_use],
      [code_replay_revokes], [refresh_reuse_revokes]), that a proof is not replayed
      ([dpop_replay_rejected], a refinement against the cache's interface), what a request
      to a resource server needs ([check_request_sound], [admin_gate_sound]), and the
      gateway's side ([callback_sound], [gateway_sign_in_accepted]).
    - Administration: the public resources stay coherent ([resources_coherent]), an
      administrator keeps a passkey ([admin_keys_kept]), downloads pass a review
      ([downloads_reviewed]), the portal lists what may be reached
      ([my_resources_complete]), paging is complete and ends ([pages_complete]), the
      ingest of browser logs is the bucket it says ([bucket_is_rule]).
    - Brokers: a token opens one tunnel or stream ([token_single_use]), a fresh one does
      open it ([tunnel_token_opens]), to the target the administrator stored, whatever
      credentials are typed ([stream_target_fixed], [stream_token_sound]); the bridge counts its slots, orders
      its frames, and leaves its loop soon after its deadline ([slots_stay_exact],
      [frames_in_order], [stream_bounded]).
    - Keys and secrets: one active signing key ([one_active_signing_key]), a rotation of the
      master key changes no plaintext ([rotation_preserves_and_is_idempotent]), what is
      sealed opens ([Crypto.envelope_roundtrip]).
    - Operations: what the cursor of the export has reached was written out, but for rows
      committed behind it, and each run sends the next rows ([shipped_at_least_once]), the
      collection is invisible to later requests ([gc_invisible]), the log lines parse back
      ([log_line_sound]), and the rotated files are bounded and hold the newest lines
      ([directory_well_kept], [newest_lines_kept]).  The headers of the applications and
      their content security policies, as a browser reads them, are in [Apps].
    - The schema: the migrations run without an error from an empty database and build
      what the classes declare ([migrations_build_models]); beside it, which revisions can
      be taken back, and what their statements do to rows.

    Beside these, the files hold theorems on the refusals of the handlers and on loops that
    end, and concrete runs of the theorems under the names that end in [_witness].

    ** Fuel, bounds and widths

    Python integers are unbounded, and so are [Z]; the words of [Digest] are reduced modulo
    2^32.  Recursion that is not structural has fuel taken from the length of its input
    (JSON, base64, globs, the digits of a number); [JsonRound] proves that the fuel of the
    JSON reader is enough for all that is written.  Loops over what is awaited (the bridge's pump,
    the paging client) are shown to end by measures on what is left, not assumed to.
    A [datetime] is not bounded: times outside the years 1 to 9999 occur only where a
    document is read back, and are the ValueError of that reading.

    ** What the model leaves out

    - Texts are their UTF-8 bytes: [lower], [strip], [isdigit] and the character classes act
      on ASCII, except where a finding is about the other digits.  Order by name is byte
      order.  NUL bytes in text columns are not refused.  JSON in UTF-16 or UTF-32, which
      [json.loads] would detect, is refused.  A float of a JSON document is its text.
    - Exceptions carry the message where the code reads it; a library's message is
      abridged.  Out-of-range timestamps are one ValueError.
    - Logging calls in handlers have no effect.  Row locks have no effect on a run that is
      alone; requests interleave at transactions, not inside them.
    - The framework types a body before the handler runs; the fields reach the handler, or
      the validator, typed.
    - The database: [INET] is canonical text, the key order of JSONB is not kept, a query
      without ORDER BY gives rows in key order, the existence checks of the foreign keys of
      the audit tables and [log_ship_cursors.updated_at] are left out.
    - The password of nobody ([dummy_verify]) is hashed anew each time, where the code
      keeps it; the exchange of the gateway with the issuer is one sequential call.
    - A run of [token_single_use] assumes that a token that was used and collected is not
      drawn again.
    - Bridge: the frames are those sent or whose sending was attempted; processes and
      sockets are what awaiting them gives and how long that takes.  Computing takes no
      time, and what follows the loop (the error frame, stopping ffmpeg, the close) is
      not timed.
    - Export: the ids of the rows are a parameter, any that differ; the sink is the one of
      JSON lines, and the file sink has theorems of its own.
    - Log files: rotation is one step, being under a lock; inode numbers are not reused;
      the file system raises no error, except that [LogSetup] looks at directories
      that cannot be made or take no files.  The loggers are those of [logging] without
      filters; a placeholder in the tree is a logger that hands on.
    - The output of ship-logs is its transaction.
    - The operations of a migration have the meaning PostgreSQL and Alembic document, on
      schemas; the text of a check or of a default is compared, not interpreted.

    Not modelled: the registration of routers and the framework's middleware (dispatch,
    CORS, static files), the Alembic runner, the development scripts, and the data plane, the tunnel and the user interface, which are in other
    languages. *)

From stdpp Require Export base gmap strings list pretty sorting.
From Stdlib Require Export Lia ZArith Ascii.

(** ** Scopes *)

Declare Scope hyproxy_scope.
Delimit Scope hyproxy_scope with hyproxy.

(** ** Hint databases *)

Create HintDb hyproxy.
Create Rewrite HintDb pystr.
Create Rewrite HintDb tables.

(** ** Tactics shared by the development *)

(** Invert a hypothesis and clean up. *)
Ltac invc H := inversion H; subst; clear H.

(** Split every [bool_decide] and [andb]/[orb] in sight into propositions. *)
Ltac bool_simpl :=
  repeat match goal with
  | H : _ && _ = true |- _ => apply andb_true_iff in H; destruct H
  | H : _ || _ = false |- _ => apply orb_false_iff in H; destruct H
  | H : negb _ = true |- _ => apply negb_true_iff in H
  | H : negb _ = false |- _ => apply negb_false_iff in H
  | H : bool_decide _ = true |- _ => apply bool_decide_eq_true_1 in H
  | H : bool_decide _ = false |- _ => apply bool_decide_eq_false_1 in H
  | H : (_ <=? _)%Z = true |- _ => apply Z.leb_le in H
  | H : (_ <=? _)%Z = false |- _ => apply Z.leb_gt in H
  | H : (_ <? _)%Z = true |- _ => apply Z.ltb_lt in H
  | H : (_ <? _)%Z = false |- _ => apply Z.ltb_ge in H
  | H : (_ =? _)%Z = true |- _ => apply Z.eqb_eq in H
  | H : (_ =? _)%Z = false |- _ => apply Z.eqb_neq in H
  end.

(** ** Options and lists *)

Lemma existsb_True {A} (f : A -> bool) (l : list A) :
  existsb f l = true <-> exists x, x ∈ l /\ f x = true.
Proof.
  rewrite existsb_exists. by setoid_rewrite list_elem_of_In.
Qed.

Lemma existsb_False {A} (f : A -> bool) (l : list A) :
  existsb f l = false <-> forall x, x ∈ l -> f x = false.
Proof.
  rewrite <- not_true_iff_false, existsb_True. split.
  - intros H x Hx. destruct (f x) eqn:E; [|done]. exfalso; eauto.
  - intros H (x & Hx & E). by rewrite (H x Hx) in E.
Qed.
