(* ===== verification/PyStr.v ===== *)
(** * PyStr: the Python string operations the control plane uses

    A [str] is modelled by the bytes of its UTF-8 encoding, held in a
    [string] of eight-bit characters, and a [bytes] object is the same type, so
    [encode]/[decode] are the identity.  Operations that look at characters
    ([lower], [strip], [split], ...) treat the ASCII ones as Python does and
    pass every other byte through. *)

From S2P Require Import Prelude.

(** ** Characters *)

Definition ord (c : ascii) : Z := Z.of_N (Ascii.N_of_ascii c).
Definition chr (n : Z) : ascii := Ascii.ascii_of_N (Z.to_N n).

Definition char_between (lo hi : ascii) (c : ascii) : bool :=
  (ord lo <=? ord c)%Z && (ord c <=? ord hi)%Z.

Definition is_upper (c : ascii) : bool := char_between "A" "Z" c.
Definition is_lower (c : ascii) : bool := char_between "a" "z" c.
Definition is_digit (c : ascii) : bool := char_between "0" "9" c.
Definition is_alpha (c : ascii) : bool := is_upper c || is_lower c.
Definition is_alnum (c : ascii) : bool := is_alpha c || is_digit c.

(** [str.isspace] on ASCII: tab .. carriage return, the four separators, blank. *)
Definition is_space (c : ascii) : bool :=
  ((9 <=? ord c)%Z && (ord c <=? 13)%Z) || ((28 <=? ord c)%Z && (ord c <=? 32)%Z).

Definition lower_char (c : ascii) : ascii :=
  if is_upper c then chr (ord c + 32) else c.
Definition upper_char (c : ascii) : ascii :=
  if is_lower c then chr (ord c - 32) else c.

(** ** Maps, tests and filters over the characters of a string *)

Fixpoint map_chars (f : ascii -> ascii) (s : string) : string :=
  match s with
  | EmptyString => EmptyString
  | String c s' => String (f c) (map_chars f s')
  end.

Fixpoint all_chars (p : ascii -> bool) (s : string) : bool :=
  match s with
  | EmptyString => true
  | String c s' => p c && all_chars p s'
  end.

Fixpoint filter_chars (p : ascii -> bool) (s : string) : string :=
  match s with
  | EmptyString => EmptyString
  | String c s' => if p c then String c (filter_chars p s') else filter_chars p s'
  end.

Definition lower : string -> string := map_chars lower_char.
Definition upper : string -> string := map_chars upper_char.

(** [c] does not occur in [s]. *)
Definition no_char (c : ascii) (s : string) : bool :=
  all_chars (fun d => negb (bool_decide (d = c))) s.

(** ** Stripping *)

Fixpoint lstrip_by (p : ascii -> bool) (s : string) : string :=
  match s with
  | EmptyString => EmptyString
  | String c s' => if p c then lstrip_by p s' else s
  end.

Fixpoint rstrip_by (p : ascii -> bool) (s : string) : string :=
  match s with
  | EmptyString => EmptyString
  | String c s' =>
      match rstrip_by p s' with
      | EmptyString => if p c then EmptyString else String c EmptyString
      | t => String c t
      end
  end.

Definition strip (s : string) : string := rstrip_by is_space (lstrip_by is_space s).
Definition rstrip_char (c : ascii) : string -> string :=
  rstrip_by (fun d => bool_decide (d = c)).
Definition lstrip_char (c : ascii) : string -> string :=
  lstrip_by (fun d => bool_decide (d = c)).

(** ** Prefixes, substrings, partition and split *)

Fixpoint strip_prefix (p s : string) : option string :=
  match p, s with
  | EmptyString, _ => Some s
  | String a p', String b s' => if bool_decide (a = b) then strip_prefix p' s' else None
  | String _ _, EmptyString => None
  end.

Definition startswith (s p : string) : bool := bool_decide (is_Some (strip_prefix p s)).

(** [s.partition(sep)]: [Some (head, tail)] at the first occurrence of the
    separator, [None] when it does not occur ([(s, '', '')] in Python). *)
Fixpoint partition (sep s : string) : option (string * string) :=
  match strip_prefix sep s with
  | Some rest => Some (EmptyString, rest)
  | None =>
      match s with
      | EmptyString => None
      | String c s' =>
          match partition sep s' with
          | Some (h, t) => Some (String c h, t)
          | None => None
          end
      end
  end.

(** [s.rpartition(sep)]: split at the last occurrence. *)
Fixpoint rpartition (sep s : string) : option (string * string) :=
  match s with
  | EmptyString => None
  | String c s' =>
      match rpartition sep s' with
      | Some (h, t) => Some (String c h, t)
      | None =>
          match strip_prefix sep s with
          | Some rest => Some (EmptyString, rest)
          | None => None
          end
      end
  end.

Definition contains (sub s : string) : bool := bool_decide (is_Some (partition sub s)).

(** [s.split(sep, 1)[0]]. *)
Definition before (sep s : string) : string :=
  match partition sep s with Some (h, _) => h | None => s end.

(** [s.split(c)] for a one-character separator. *)
Fixpoint split_char (c : ascii) (s : string) : list string :=
  match s with
  | EmptyString => [EmptyString]
  | String d s' =>
      if bool_decide (d = c) then EmptyString :: split_char c s'
      else match split_char c s' with
           | h :: t => String d h :: t
           | [] => []
           end
  end.

(** [s.split()]: maximal runs of non-blank characters. *)
Fixpoint words_go (s : string) (cur : string) : list string :=
  match s with
  | EmptyString => match cur with EmptyString => [] | _ => [cur] end
  | String c s' =>
      if is_space c
      then match cur with
           | EmptyString => words_go s' EmptyString
           | _ => cur :: words_go s' EmptyString
           end
      else words_go s' (cur +:+ String c EmptyString)
  end.
Definition words (s : string) : list string := words_go s EmptyString.

(** [s.replace(sub, '')], scanning left to right; [skip] counts the characters
    of a removed occurrence still to be dropped. *)
Fixpoint remove_sub_go (sub : string) (skip : nat) (s : string) : string :=
  match s with
  | EmptyString => EmptyString
  | String c s' =>
      match skip with
      | S k => remove_sub_go sub k s'
      | O => if startswith s sub
             then remove_sub_go sub (pred (String.length sub)) s'
             else String c (remove_sub_go sub O s')
      end
  end.
Definition remove_sub (sub s : string) : string := remove_sub_go sub O s.

(** [sep.join(l)]. *)
Fixpoint join (sep : string) (l : list string) : string :=
  match l with
  | [] => EmptyString
  | [s] => s
  | s :: l' => s +:+ sep +:+ join sep l'
  end.

(** [s.count(c)]. *)
Fixpoint count_char (c : ascii) (s : string) : nat :=
  match s with
  | EmptyString => O
  | String d s' => if bool_decide (d = c) then S (count_char c s') else count_char c s'
  end.

(** [s.splitlines()] on ASCII line boundaries; [\r\n] is one boundary. *)
Definition is_linebreak (c : ascii) : bool :=
  ((10 <=? ord c)%Z && (ord c <=? 13)%Z) || ((28 <=? ord c)%Z && (ord c <=? 30)%Z).

Fixpoint splitlines_go (s : string) (cur : string) : list string :=
  match s with
  | EmptyString => match cur with EmptyString => [] | _ => [cur] end
  | String c s' =>
      if is_linebreak c
      then match bool_decide (ord c = 13%Z), s' with
           | true, String d s'' =>
               if bool_decide (ord d = 10%Z) then cur :: splitlines_go s'' EmptyString
               else cur :: splitlines_go s' EmptyString
           | _, _ => cur :: splitlines_go s' EmptyString
           end
      else splitlines_go s' (cur +:+ String c EmptyString)
  end.
Definition splitlines (s : string) : list string := splitlines_go s EmptyString.

(** [len] of a text: the bytes that do not continue a UTF-8 sequence. *)
Definition char_len (s : string) : Z :=
  Z.of_nat (String.length (filter_chars (fun c => negb (Z.land (ord c) 192 =? 128)%Z) s)).

(** ** Laws *)

Lemma app_cons c s t : String c s +:+ t = String c (s +:+ t).
Proof. done. Qed.

Lemma app_empty_l s : EmptyString +:+ s = s.
Proof. done. Qed.

Lemma app_empty_r s : s +:+ EmptyString = s.
Proof. induction s as [|c s IH]; [done|]. by rewrite app_cons, IH. Qed.

Lemma app_assoc_str a b c : (a +:+ b) +:+ c = a +:+ b +:+ c.
Proof. induction a as [|d a IH]; [done|]. by rewrite !app_cons, IH. Qed.

#[export] Hint Rewrite app_cons app_empty_l app_empty_r app_assoc_str : pystr.

Lemma str_length_app a b :
  String.length (a +:+ b) = (String.length a + String.length b)%nat.
Proof. induction a as [|c a IH]; [done|]. rewrite app_cons. simpl. by rewrite IH. Qed.

Lemma app_inj_l a b c : a +:+ b = a +:+ c -> b = c.
Proof. induction a as [|d a IH]; rewrite ?app_empty_l, ?app_cons; naive_solver. Qed.

Lemma app_inj_r a b c : a +:+ c = b +:+ c -> a = b.
Proof.
  revert b. induction a as [|d a IH]; intros [|e b]; rewrite ?app_cons, ?app_empty_l; intros H.
  - done.
  - apply (f_equal String.length) in H. simpl in H. rewrite str_length_app in H. lia.
  - apply (f_equal String.length) in H. simpl in H. rewrite str_length_app in H. lia.
  - simplify_eq. f_equal. by apply IH.
Qed.

Lemma all_chars_app p a b : all_chars p (a +:+ b) = all_chars p a && all_chars p b.
Proof.
  induction a as [|c a IH]; [done|]. rewrite app_cons. simpl. by rewrite IH, andb_assoc.
Qed.

Lemma all_chars_impl (p q : ascii -> bool) s :
  (forall c, p c = true -> q c = true) -> all_chars p s = true -> all_chars q s = true.
Proof.
  intros Hpq. induction s as [|c s IH]; [done|]. simpl. intros [Hc Hs]%andb_true_iff.
  rewrite (Hpq _ Hc). by apply IH.
Qed.

Lemma no_char_app c a b : no_char c (a +:+ b) = no_char c a && no_char c b.
Proof. apply all_chars_app. Qed.

Lemma no_char_cons c d s : no_char c (String d s) = negb (bool_decide (d = c)) && no_char c s.
Proof. done. Qed.

#[export] Hint Rewrite all_chars_app no_char_app no_char_cons : pystr.

Lemma strip_prefix_Some p s t : strip_prefix p s = Some t <-> s = p +:+ t.
Proof.
  revert s. induction p as [|a p IH]; intros s; simpl.
  - rewrite app_empty_l. naive_solver.
  - destruct s as [|b s]; [rewrite app_cons; naive_solver|].
    rewrite app_cons. case_bool_decide; [rewrite IH|]; naive_solver.
Qed.

Lemma strip_prefix_app p s : strip_prefix p (p +:+ s) = Some s.
Proof. by apply strip_prefix_Some. Qed.

Lemma startswith_spec s p : startswith s p = true <-> exists t, s = p +:+ t.
Proof.
  unfold startswith. rewrite bool_decide_eq_true. unfold is_Some.
  by setoid_rewrite strip_prefix_Some.
Qed.

Lemma startswith_app s p : startswith (p +:+ s) p = true.
Proof. apply startswith_spec. eauto. Qed.

(** Cutting at a separator loses nothing. *)
Lemma partition_Some sep s h t : partition sep s = Some (h, t) -> s = h +:+ sep +:+ t.
Proof.
  revert h t. induction s as [|c s IH]; intros h t; simpl.
  - destruct (strip_prefix sep EmptyString) eqn:E; [|done].
    apply strip_prefix_Some in E. intros [= <- <-]. exact E.
  - destruct (strip_prefix sep (String c s)) eqn:E.
    + apply strip_prefix_Some in E. intros [= <- <-]. exact E.
    + destruct (partition sep s) as [[h' t']|] eqn:E'; [|done].
      intros [= <- <-]. by rewrite app_cons, (IH _ _ eq_refl).
Qed.

Lemma rpartition_Some sep s h t : rpartition sep s = Some (h, t) -> s = h +:+ sep +:+ t.
Proof.
  revert h t. induction s as [|c s IH]; intros h t; simpl; [done|].
  destruct (rpartition sep s) as [[h' t']|] eqn:E'.
  - intros [= <- <-]. by rewrite app_cons, (IH _ _ eq_refl).
  - destruct (strip_prefix sep (String c s)) eqn:E; [|done].
    apply strip_prefix_Some in E. intros [= <- <-]. exact E.
Qed.

(** With a one-character separator, the cut is at its first occurrence. *)
Lemma partition_char c h t :
  no_char c h = true ->
  partition (String c EmptyString) (h +:+ String c t) = Some (h, t).
Proof.
  induction h as [|d h IH].
  - intros _. simpl. by rewrite bool_decide_eq_true_2.
  - rewrite no_char_cons, app_cons. intros [Hd Hh]%andb_true_iff.
    apply negb_true_iff, bool_decide_eq_false_1 in Hd. simpl.
    rewrite bool_decide_eq_false_2 by done. by rewrite IH.
Qed.

Lemma partition_char_None c s :
  partition (String c EmptyString) s = None <-> no_char c s = true.
Proof.
  induction s as [|d s IH]; [done|]. rewrite no_char_cons. simpl.
  destruct (decide (d = c)) as [->|Hne].
  - rewrite !bool_decide_eq_true_2 by done. done.
  - rewrite !bool_decide_eq_false_2 by done. simpl. rewrite <- IH.
    destruct (partition _ s) as [[??]|]; naive_solver.
Qed.

Lemma partition_char_head c s h t :
  partition (String c EmptyString) s = Some (h, t) -> no_char c h = true.
Proof.
  revert h t. induction s as [|d s IH]; intros h t; simpl; [done|].
  destruct (decide (c = d)) as [->|Hne].
  - rewrite bool_decide_eq_true_2 by done. by intros [= <- <-].
  - rewrite bool_decide_eq_false_2 by done.
    destruct (partition _ s) as [[h' t']|] eqn:E; [|done].
    intros [= <- <-]. rewrite no_char_cons, bool_decide_eq_false_2 by done. simpl. eauto.
Qed.

Lemma rpartition_char_None c s :
  rpartition (String c EmptyString) s = None <-> no_char c s = true.
Proof.
  induction s as [|d s IH]; [done|]. rewrite no_char_cons. simpl.
  destruct (rpartition _ s) as [[h t]|].
  - split; [done|]. intros [_ H0]%andb_true_iff. by apply IH in H0.
  - destruct (decide (c = d)) as [->|Hne].
    + rewrite !bool_decide_eq_true_2 by done. done.
    + rewrite !bool_decide_eq_false_2 by done. simpl. naive_solver.
Qed.

Lemma rpartition_char c h t :
  no_char c t = true ->
  rpartition (String c EmptyString) (h +:+ String c t) = Some (h, t).
Proof.
  intros Ht. induction h as [|d h IH].
  - simpl. apply rpartition_char_None in Ht. rewrite Ht.
    by rewrite bool_decide_eq_true_2.
  - rewrite app_cons. simpl. by rewrite IH.
Qed.

(** Everything past the last separator is free of it. *)
Lemma rpartition_char_tail c s h t :
  rpartition (String c EmptyString) s = Some (h, t) -> no_char c t = true.
Proof.
  revert h t. induction s as [|d s IH]; intros h t; simpl; [done|].
  destruct (rpartition _ s) as [[h' t']|] eqn:E.
  - intros [= <- <-]. eauto.
  - destruct (decide (c = d)) as [->|Hne].
    + rewrite bool_decide_eq_true_2 by done. intros [= <- <-].
      by apply rpartition_char_None.
    + by rewrite bool_decide_eq_false_2.
Qed.

(** [split] and [join] are inverse. *)
Lemma split_char_cons c s : exists h t, split_char c s = h :: t.
Proof.
  induction s as [|d s [h [t IH]]]; simpl; [eauto|].
  case_bool_decide; [eauto|]. rewrite IH. eauto.
Qed.

Lemma join_split_char c s : join (String c EmptyString) (split_char c s) = s.
Proof.
  induction s as [|d s IH]; [done|]. simpl.
  destruct (split_char_cons c s) as (h & t & E). rewrite E in *.
  case_bool_decide as Hd.
  - rewrite Hd. change (join (String c EmptyString) (EmptyString :: h :: t))
      with (EmptyString +:+ String c EmptyString +:+ join (String c EmptyString) (h :: t)).
    by rewrite IH.
  - rewrite <- IH. by destruct t.
Qed.

Lemma lower_app a b : lower (a +:+ b) = lower a +:+ lower b.
Proof.
  unfold lower. induction a as [|c a IH]; [done|]. rewrite !app_cons. simpl.
  by rewrite app_cons, IH.
Qed.

Lemma lower_char_idem c : lower_char (lower_char c) = lower_char c.
Proof. destruct c as [[] [] [] [] [] [] [] []]; reflexivity. Qed.

Lemma lower_idem s : lower (lower s) = lower s.
Proof.
  unfold lower. induction s as [|c s IH]; [done|]. simpl. by rewrite lower_char_idem, IH.
Qed.

Lemma rstrip_by_no p s : all_chars (fun c => negb (p c)) s = true -> rstrip_by p s = s.
Proof.
  induction s as [|c s IH]; [done|]. simpl. intros [Hc Hs]%andb_true_iff.
  rewrite (IH Hs). destruct s; [|done]. by apply negb_true_iff in Hc as ->.
Qed.

Lemma rstrip_by_idem p s : rstrip_by p (rstrip_by p s) = rstrip_by p s.
Proof.
  induction s as [|c s IH]; [done|]. simpl.
  destruct (rstrip_by p s) as [|d t] eqn:E.
  - destruct (p c) eqn:Ec; simpl; by rewrite ?Ec.
  - change (rstrip_by p (String c (String d t))) with
      (match rstrip_by p (String d t) with
       | EmptyString => if p c then EmptyString else String c EmptyString
       | t => String c t end).
    by rewrite IH.
Qed.

Lemma char_len_le s : (char_len s <= Z.of_nat (String.length s))%Z.
Proof.
  unfold char_len. apply inj_le. induction s as [|c s IH]; [done|].
  cbn [filter_chars]. destruct (negb _); simpl; lia.
Qed.
