(* ===== verification/Encoding.v ===== *)
(** * Encoding: hexadecimal, base64, UUID text and SHA-256

    The parts of Python's [base64], [binascii], [uuid] and [hashlib] the control
    plane relies on, executable, with their round trips. *)

From S2P Require Import Prelude PyStr.
Local Open Scope Z_scope.

(** ** Characters and their codes *)

Lemma ord_range c : 0 <= ord c < 256.
Proof. destruct c as [[] [] [] [] [] [] [] []]; unfold ord; cbn; lia. Qed.

Lemma chr_ord c : chr (ord c) = c.
Proof. unfold chr, ord. by rewrite N2Z.id, ascii_N_embedding. Qed.

Lemma ord_chr n : 0 <= n < 256 -> ord (chr n) = n.
Proof.
  intros H. unfold chr, ord. rewrite N_ascii_embedding by lia. lia.
Qed.

Lemma ord_inj c d : ord c = ord d -> c = d.
Proof. intros H. by rewrite <- (chr_ord c), <- (chr_ord d), H. Qed.

(** Every statement about a character can be checked on the 256 of them. *)
Definition all_ascii : list ascii := map (fun n => chr (Z.of_nat n)) (List.seq 0 256).

Lemma all_ascii_complete c : c ∈ all_ascii.
Proof.
  unfold all_ascii. apply list_elem_of_In, in_map_iff.
  exists (Z.to_nat (ord c)). pose proof (ord_range c). split.
  - rewrite Z2Nat.id by lia. apply chr_ord.
  - apply in_seq. lia.
Qed.

Lemma ascii_forall (P : ascii -> bool) :
  forallb P all_ascii = true -> forall c, P c = true.
Proof.
  intros H c. rewrite forallb_forall in H.
  apply H, list_elem_of_In, all_ascii_complete.
Qed.

(** ** Hexadecimal *)

Definition hex_digit (n : Z) : ascii :=
  if n <? 10 then chr (48 + n) else chr (87 + n).
Definition hex_digit_upper (n : Z) : ascii :=
  if n <? 10 then chr (48 + n) else chr (55 + n).

Definition hex_value (c : ascii) : option Z :=
  if is_digit c then Some (ord c - 48)
  else if char_between "a" "f" c then Some (ord c - 87)
  else if char_between "A" "F" c then Some (ord c - 55)
  else None.

Lemma hex_value_digit n : 0 <= n < 16 -> hex_value (hex_digit n) = Some n.
Proof.
  intros H.
  assert (n ∈ map Z.of_nat (List.seq 0 16)) as Hin.
  { apply list_elem_of_In, in_map_iff. exists (Z.to_nat n).
    split; [lia|]. apply in_seq. lia. }
  revert Hin. clear H. simpl. intros H.
  repeat (apply elem_of_cons in H as [->|H]; [reflexivity|]). by apply elem_of_nil in H.
Qed.

(** [bytes.hex()] *)
Fixpoint hexlify (s : string) : string :=
  match s with
  | EmptyString => EmptyString
  | String c s' =>
      String (hex_digit (ord c / 16)) (String (hex_digit (ord c mod 16)) (hexlify s'))
  end.

(** [n] digits of a non-negative integer, most significant first. *)
Fixpoint hex_fixed (n : nat) (z : Z) : string :=
  match n with
  | O => EmptyString
  | S n' => hex_fixed n' (z / 16) +:+ String (hex_digit (z mod 16)) EmptyString
  end.

Fixpoint hex_acc (s : string) (acc : Z) : option Z :=
  match s with
  | EmptyString => Some acc
  | String c s' =>
      match hex_value c with
      | Some d => hex_acc s' (acc * 16 + d)
      | None => None
      end
  end.

Lemma hex_acc_app a b acc :
  hex_acc (a +:+ b) acc =
  match hex_acc a acc with Some x => hex_acc b x | None => None end.
Proof.
  revert acc. induction a as [|c a IH]; intros acc; [done|]. rewrite app_cons. simpl.
  destruct (hex_value c); [apply IH|done].
Qed.

Lemma hex_fixed_length n z : String.length (hex_fixed n z) = n.
Proof.
  revert z. induction n as [|n IH]; intros z; [done|]. simpl.
  rewrite str_length_app, IH. simpl. lia.
Qed.

Lemma hex_acc_fixed n z acc :
  0 <= z < 16 ^ Z.of_nat n -> hex_acc (hex_fixed n z) acc = Some (acc * 16 ^ Z.of_nat n + z).
Proof.
  revert z. induction n as [|n IH]; intros z Hz.
  - simpl in *. f_equal. lia.
  - rewrite Nat2Z.inj_succ, Z.pow_succ_r in * by lia. simpl.
    assert (0 <= z mod 16 < 16) by (apply Z.mod_pos_bound; lia).
    rewrite hex_acc_app, IH.
    + simpl. rewrite hex_value_digit by done. f_equal.
      pose proof (Z.div_mod z 16 ltac:(lia)). lia.
    + split; [apply Z.div_pos; lia|]. apply Z.div_lt_upper_bound; lia.
Qed.

Definition is_hex_lower (c : ascii) : bool := is_digit c || char_between "a" "f" c.

Lemma hex_digit_lower n : 0 <= n < 16 -> is_hex_lower (hex_digit n) = true.
Proof.
  intros H.
  assert (n ∈ map Z.of_nat (List.seq 0 16)) as Hin.
  { apply list_elem_of_In, in_map_iff. exists (Z.to_nat n).
    split; [lia|]. apply in_seq. lia. }
  revert Hin. clear H. simpl. intros H.
  repeat (apply elem_of_cons in H as [->|H]; [reflexivity|]). by apply elem_of_nil in H.
Qed.

Lemma hex_fixed_chars n z : all_chars is_hex_lower (hex_fixed n z) = true.
Proof.
  revert z. induction n as [|n IH]; intros z; [done|]. simpl.
  rewrite all_chars_app, IH. simpl. rewrite hex_digit_lower; [done|].
  apply Z.mod_pos_bound. lia.
Qed.

(** ** UUIDs: [uuid.UUID(text)] and [str(uuid)], a UUID being its 128-bit integer *)

Definition UUID_MAX : Z := 2 ^ 128.

(** [str(u)]: 8-4-4-4-12 lower-case digits. *)
Definition uuid_str (u : Z) : string :=
  hex_fixed 8 (u / 16 ^ 24) +:+ String "-" (
  hex_fixed 4 (u / 16 ^ 20 mod 16 ^ 4) +:+ String "-" (
  hex_fixed 4 (u / 16 ^ 16 mod 16 ^ 4) +:+ String "-" (
  hex_fixed 4 (u / 16 ^ 12 mod 16 ^ 4) +:+ String "-" (
  hex_fixed 12 (u mod 16 ^ 12))))).

(** [u.hex]. *)
Definition uuid_hex (u : Z) : string := hex_fixed 32 u.

(** [int(s, 16)] on the digit part: single underscores may separate digits. *)
Fixpoint int16_digits (s : string) (acc : Z) (after_digit : bool) : option Z :=
  match s with
  | EmptyString => if after_digit then Some acc else None
  | String c s' =>
      if bool_decide (c = "_"%char)
      then if after_digit then int16_digits s' acc false else None
      else match hex_value c with
           | Some d => int16_digits s' (acc * 16 + d) true
           | None => None
           end
  end.

(** [int(s, 16)]: surrounding blanks, a sign, an optional [0x] prefix (which an
    underscore may follow), then the digits. *)
Definition int16_body (s : string) : option Z :=
  match s with
  | String "0" (String x rest) =>
      if bool_decide (lower_char x = "x"%char)
      then match rest with
           | String "_" rest' => int16_digits rest' 0 false
           | _ => int16_digits rest 0 false
           end
      else int16_digits s 0 false
  | _ => int16_digits s 0 false
  end.

Definition int16 (s : string) : option Z :=
  match strip s with
  | String "+" t => int16_body t
  | String "-" t => option_map Z.opp (int16_body t)
  | t => int16_body t
  end.

Definition is_brace (c : ascii) : bool := bool_decide (c = "{"%char) || bool_decide (c = "}"%char).

(** [uuid.UUID(text)]; [None] is its ValueError. *)
Definition uuid_parse (s : string) : option Z :=
  let hex := remove_sub "uuid:" (remove_sub "urn:" s) in
  let hex := rstrip_by is_brace (lstrip_by is_brace hex) in
  let hex := filter_chars (fun c => negb (bool_decide (c = "-"%char))) hex in
  if bool_decide (String.length hex = 32%nat)
  then match int16 hex with
       | Some n => if (0 <=? n) && (n <? UUID_MAX) then Some n else None
       | None => None
       end
  else None.

(** ** Base64 *)

Definition b64_char (n : Z) : ascii :=
  if n <? 26 then chr (65 + n)
  else if n <? 52 then chr (71 + n)
  else if n <? 62 then chr (n - 4)
  else if n =? 62 then "+"%char else "/"%char.

Definition b64_value (c : ascii) : option Z :=
  if is_upper c then Some (ord c - 65)
  else if is_lower c then Some (ord c - 71)
  else if is_digit c then Some (ord c + 4)
  else if bool_decide (c = "+"%char) then Some 62
  else if bool_decide (c = "/"%char) then Some 63
  else None.

Definition b64_pad : ascii := "=".

(** [base64.b64encode]. *)
Fixpoint b64encode (s : string) : string :=
  match s with
  | EmptyString => EmptyString
  | String x EmptyString =>
      let a := ord x in
      String (b64_char (a / 4)) (String (b64_char (a mod 4 * 16))
        (String b64_pad (String b64_pad EmptyString)))
  | String x (String y EmptyString) =>
      let a := ord x in let b := ord y in
      String (b64_char (a / 4)) (String (b64_char (a mod 4 * 16 + b / 16))
        (String (b64_char (b mod 16 * 4)) (String b64_pad EmptyString)))
  | String x (String y (String z s')) =>
      let a := ord x in let b := ord y in let c := ord z in
      String (b64_char (a / 4)) (String (b64_char (a mod 4 * 16 + b / 16))
        (String (b64_char (b mod 16 * 4 + c / 64)) (String (b64_char (c mod 64))
          (b64encode s'))))
  end.

(** [binascii.a2b_base64], not strict: characters outside the alphabet are
    skipped, a complete pad sequence ends the input.  [q] is the position in the
    current quad, [left] the bits carried over, [pads] the pad characters seen. *)
Fixpoint a2b_go (s : string) (q left pads : Z) : option string :=
  match s with
  | EmptyString => if q =? 0 then Some EmptyString else None
  | String c s' =>
      if bool_decide (c = b64_pad) then
        if (2 <=? q) && (4 <=? q + (pads + 1)) then Some EmptyString
        else a2b_go s' q left (if 2 <=? q then pads + 1 else pads)
      else match b64_value c with
      | None => a2b_go s' q left pads
      | Some d =>
          if q =? 0 then a2b_go s' 1 d 0
          else if q =? 1 then
            option_map (String (chr (left * 4 + d / 16))) (a2b_go s' 2 (d mod 16) 0)
          else if q =? 2 then
            option_map (String (chr (left * 16 + d / 4))) (a2b_go s' 3 (d mod 4) 0)
          else
            option_map (String (chr (left * 64 + d))) (a2b_go s' 0 0 0)
      end
  end.

Definition is_ascii_str (s : string) : bool := all_chars (fun c => ord c <? 128) s.

(** [base64.b64decode(str)]; [None] is a ValueError ([binascii.Error] is one). *)
Definition b64decode (s : string) : option string :=
  if is_ascii_str s then a2b_go s 0 0 0 else None.

(** The URL-safe alphabet, as a translation of the standard one. *)
Definition to_urlsafe (c : ascii) : ascii :=
  if bool_decide (c = "+"%char) then "-"%char
  else if bool_decide (c = "/"%char) then "_"%char else c.
Definition from_urlsafe (c : ascii) : ascii :=
  if bool_decide (c = "-"%char) then "+"%char
  else if bool_decide (c = "_"%char) then "/"%char else c.

Definition urlsafe_b64encode (s : string) : string := map_chars to_urlsafe (b64encode s).
Definition urlsafe_b64decode (s : string) : option string :=
  b64decode (map_chars from_urlsafe s).

(** Unpadded base64url, and its decoder [urlsafe_b64decode(s + '=' * (-len(s) % 4))]. *)
Definition b64url_nopad (s : string) : string := rstrip_char "=" (urlsafe_b64encode s).

Fixpoint repeat_char (c : ascii) (n : nat) : string :=
  match n with O => EmptyString | S n' => String c (repeat_char c n') end.

Definition b64url_repad (s : string) : string :=
  s +:+ repeat_char "=" (Z.to_nat ((- Z.of_nat (String.length s)) mod 4)).

(** ** Laws of the UUID text *)

Lemma all_chars_true_impl p q s :
  forallb (fun c => implb (p c) (q c)) all_ascii = true ->
  all_chars p s = true -> all_chars q s = true.
Proof.
  intros H. apply all_chars_impl. intros c Hc.
  pose proof (ascii_forall _ H c) as Hi. simpl in Hi. by rewrite Hc in Hi.
Qed.

Lemma filter_chars_all p s : all_chars p s = true -> filter_chars p s = s.
Proof.
  induction s as [|c s IH]; [done|]. simpl. intros [-> Hs]%andb_true_iff. by rewrite IH.
Qed.

Lemma filter_chars_app p a b : filter_chars p (a +:+ b) = filter_chars p a +:+ filter_chars p b.
Proof.
  induction a as [|c a IH]; [done|]. rewrite app_cons. simpl.
  destruct (p c); by rewrite ?app_cons, IH.
Qed.

Lemma lstrip_by_no p s : all_chars (fun c => negb (p c)) s = true -> lstrip_by p s = s.
Proof. destruct s as [|c s]; [done|]. simpl. by destruct (p c). Qed.

Lemma remove_sub_absent c sub s :
  no_char c s = true -> remove_sub (String c sub) s = s.
Proof.
  unfold remove_sub. induction s as [|d s IH]; [done|]. rewrite no_char_cons.
  intros [Hd Hs]%andb_true_iff. apply negb_true_iff, bool_decide_eq_false_1 in Hd.
  cbn [remove_sub_go]. unfold startswith. cbn [strip_prefix].
  rewrite (bool_decide_eq_false_2 (c = d)) by congruence.
  rewrite bool_decide_eq_false_2 by apply is_Some_None. by rewrite IH.
Qed.

(** Text of a UUID: lower-case hexadecimal digits and dashes only. *)
Definition is_uuid_char (c : ascii) : bool := is_hex_lower c || bool_decide (c = "-"%char).

Lemma hex_fixed_uuid_chars n z : all_chars is_uuid_char (hex_fixed n z) = true.
Proof.
  eapply all_chars_true_impl; [|apply hex_fixed_chars]. vm_compute. reflexivity.
Qed.

Lemma uuid_str_chars u : all_chars is_uuid_char (uuid_str u) = true.
Proof.
  unfold uuid_str. rewrite !all_chars_app.
  repeat (cbn [all_chars]; rewrite ?all_chars_app, ?hex_fixed_uuid_chars). reflexivity.
Qed.

Lemma uuid_str_no_dot u : no_char "." (uuid_str u) = true.
Proof. eapply all_chars_true_impl, uuid_str_chars. vm_compute. reflexivity. Qed.

Definition not_dash (c : ascii) : bool := negb (bool_decide (c = "-"%char)).

Lemma filter_dash_hex n z : filter_chars not_dash (hex_fixed n z) = hex_fixed n z.
Proof.
  apply filter_chars_all. eapply all_chars_true_impl, hex_fixed_chars.
  vm_compute. reflexivity.
Qed.

Lemma filter_dash_cons s : filter_chars not_dash (String "-" s) = filter_chars not_dash s.
Proof. reflexivity. Qed.

Lemma hex_fixed_app n m z :
  0 <= z -> hex_fixed n (z / 16 ^ Z.of_nat m) +:+ hex_fixed m (z mod 16 ^ Z.of_nat m)
  = hex_fixed (n + m) z.
Proof.
  revert z. induction m as [|m IH]; intros z Hz.
  - rewrite Nat.add_0_r. simpl. by rewrite Z.div_1_r, app_empty_r.
  - rewrite Nat.add_succ_r. cbn [hex_fixed].
    rewrite Nat2Z.inj_succ, Z.pow_succ_r by lia.
    rewrite <- app_assoc_str. f_equal.
    + rewrite <- Z.div_div by (try apply Z.pow_nonzero; lia).
      replace (z mod (16 * 16 ^ Z.of_nat m) / 16)
        with ((z / 16) mod 16 ^ Z.of_nat m).
      * rewrite IH by (apply Z.div_pos; lia). done.
      * rewrite Z.rem_mul_r by (try apply Z.pow_pos_nonneg; lia).
        rewrite Z.add_comm, Z.mul_comm, Z.div_add_l by lia.
        rewrite (Z.div_small (z mod 16)) by (apply Z.mod_pos_bound; lia). lia.
    + f_equal. f_equal.
      rewrite Z.rem_mul_r by (try apply Z.pow_pos_nonneg; lia).
      rewrite Z.mul_comm, Z.add_mod, Z.mod_mul, Z.add_0_r by lia.
      rewrite !Z.mod_mod; lia.
Qed.

Lemma uuid_str_filtered u : 0 <= u -> filter_chars not_dash (uuid_str u) = hex_fixed 32 u.
Proof.
  intros Hu. unfold uuid_str.
  repeat rewrite ?filter_chars_app, ?filter_dash_cons, ?filter_dash_hex.
  change 24 with (Z.of_nat 24). change 20 with (Z.of_nat 20). change 12 with (Z.of_nat 12).
  assert (forall i j : nat, u / 16 ^ Z.of_nat (i + j) = u / 16 ^ Z.of_nat j / 16 ^ Z.of_nat i)
    as Hdd.
  { intros i j. rewrite Nat2Z.inj_add, Z.pow_add_r by lia.
    rewrite Z.div_div by (try apply Z.pow_nonzero; try apply Z.pow_pos_nonneg; lia).
    f_equal. lia. }
  change 24%nat with (4 + 20)%nat. rewrite (Hdd 4%nat 20%nat).
  assert (forall k, 0 <= u / 16 ^ Z.of_nat k) as Hpos.
  { intros k. apply Z.div_pos; [done|]. apply Z.pow_pos_nonneg; lia. }
  rewrite <- !app_assoc_str.
  change (16 ^ 4) with (16 ^ Z.of_nat 4).
  rewrite (hex_fixed_app 8 4) by apply Hpos.
  change 20%nat with (4 + 16)%nat. rewrite (Hdd 4%nat 16%nat).
  change (16 ^ 16) with (16 ^ Z.of_nat 16).
  rewrite (hex_fixed_app (8 + 4) 4) by apply Hpos.
  change 16%nat with (4 + 12)%nat at 1. rewrite (Hdd 4%nat 12%nat).
  rewrite (hex_fixed_app (8 + 4 + 4) 4) by apply Hpos.
  by rewrite (hex_fixed_app (8 + 4 + 4 + 4) 12).
Qed.

Lemma int16_digits_hex s acc b :
  all_chars is_hex_lower s = true -> s <> EmptyString \/ b = true ->
  int16_digits s acc b = hex_acc s acc.
Proof.
  revert acc b. induction s as [|c s IH]; intros acc b; simpl.
  - intros _ [?| ->]; done.
  - intros [Hc Hs]%andb_true_iff _.
    rewrite bool_decide_eq_false_2 by (intros ->; done).
    destruct (hex_value c); [|done]. apply IH; auto.
Qed.

Lemma int16_hex_fixed n z :
  0 <= z < 16 ^ Z.of_nat (S n) -> int16 (hex_fixed (S n) z) = Some z.
Proof.
  intros Hz. pose proof (hex_fixed_chars (S n) z) as Hc.
  pose proof (hex_acc_fixed (S n) z 0 Hz) as Hv. rewrite Z.mul_0_l, Z.add_0_l in Hv.
  pose proof (hex_fixed_length (S n) z) as Hl.
  set (s := hex_fixed (S n) z) in *. clearbody s.
  assert (strip s = s) as Hstrip.
  { assert (all_chars (fun c => negb (is_space c)) s = true) as Hns.
    { eapply all_chars_true_impl, Hc. vm_compute. reflexivity. }
    unfold strip. rewrite lstrip_by_no by done. by apply rstrip_by_no. }
  unfold int16. rewrite Hstrip. destruct s as [|c s]; [done|].
  assert (c <> "+"%char /\ c <> "-"%char) as [Hp Hm].
  { simpl in Hc. apply andb_true_iff in Hc as [Hc _]. split; intros ->; done. }
  assert (int16_body (String c s) = Some z) as Hb.
  { unfold int16_body. rewrite <- Hv, <- (int16_digits_hex _ 0 false) by auto.
    destruct c as [[] [] [] [] [] [] [] []]; try reflexivity.
    destruct s as [|x s]; [reflexivity|].
    rewrite bool_decide_eq_false_2; [done|]. simpl in Hc.
    apply andb_true_iff in Hc as [Hx _].
    intros E. revert Hx E. clear. destruct x as [[] [] [] [] [] [] [] []]; vm_compute; done. }
  destruct c as [[] [] [] [] [] [] [] []]; done.
Qed.

(** [uuid.UUID(str(u)) = u]. *)
Lemma uuid_parse_str u : 0 <= u < UUID_MAX -> uuid_parse (uuid_str u) = Some u.
Proof.
  intros Hu. pose proof (uuid_str_chars u) as Hc. unfold uuid_parse.
  assert (forall c, is_uuid_char c = false -> no_char c (uuid_str u) = true) as Hno.
  { intros c Hcn. eapply all_chars_impl; [|apply Hc]. intros d Hd. simpl.
    apply negb_true_iff, bool_decide_eq_false_2. intros ->. by rewrite Hd in Hcn. }
  rewrite !remove_sub_absent by (rewrite ?remove_sub_absent; by apply Hno).
  assert (all_chars (fun c => negb (is_brace c)) (uuid_str u) = true) as Hb.
  { eapply all_chars_true_impl, Hc. vm_compute. reflexivity. }
  rewrite lstrip_by_no, rstrip_by_no by done.
  change (fun c => negb (bool_decide (c = "-"%char))) with not_dash.
  rewrite uuid_str_filtered by lia. rewrite hex_fixed_length, bool_decide_eq_true_2 by done.
  rewrite int16_hex_fixed by (unfold UUID_MAX in Hu; simpl; lia).
  by rewrite (proj2 (Z.leb_le 0 u)), (proj2 (Z.ltb_lt u UUID_MAX)) by lia.
Qed.

(** ** Laws of base64 *)

Lemma Z_in_seq n k : 0 <= n < Z.of_nat k -> n ∈ map Z.of_nat (List.seq 0 k).
Proof.
  intros H. apply list_elem_of_In, in_map_iff. exists (Z.to_nat n).
  split; [lia|]. apply in_seq. lia.
Qed.

(** A boolean fact about [0 <= n < k] is checked on the [k] values. *)
Lemma Z_forall_below (P : Z -> bool) k :
  forallb P (map Z.of_nat (List.seq 0 k)) = true ->
  forall n, 0 <= n < Z.of_nat k -> P n = true.
Proof.
  intros H n Hn. rewrite forallb_forall in H. by apply H, list_elem_of_In, Z_in_seq.
Qed.

Lemma b64_value_char n : 0 <= n < 64 -> b64_value (b64_char n) = Some n.
Proof.
  intros Hn.
  pose proof (Z_forall_below (fun n => bool_decide (b64_value (b64_char n) = Some n)) 64) as H.
  eapply bool_decide_eq_true_1, (H ltac:(vm_compute; reflexivity)). lia.
Qed.

Lemma b64_char_not_pad n : 0 <= n < 64 -> bool_decide (b64_char n = b64_pad) = false.
Proof.
  intros Hn.
  pose proof (Z_forall_below (fun n => negb (bool_decide (b64_char n = b64_pad))) 64) as H.
  apply negb_true_iff, (H ltac:(vm_compute; reflexivity)). lia.
Qed.

Lemma a2b_go_char n s q left pads :
  0 <= n < 64 ->
  a2b_go (String (b64_char n) s) q left pads =
    (if q =? 0 then a2b_go s 1 n 0
     else if q =? 1 then option_map (String (chr (left * 4 + n / 16))) (a2b_go s 2 (n mod 16) 0)
     else if q =? 2 then option_map (String (chr (left * 16 + n / 4))) (a2b_go s 3 (n mod 4) 0)
     else option_map (String (chr (left * 64 + n))) (a2b_go s 0 0 0)).
Proof.
  intros Hn. cbn [a2b_go]. by rewrite b64_char_not_pad, b64_value_char by done.
Qed.

Lemma chr_eq n c : n = ord c -> chr n = c.
Proof. intros ->. apply chr_ord. Qed.

Ltac divmod := Z.div_mod_to_equations; lia.

Lemma a2b_go_pad2 left :
  a2b_go (String b64_pad (String b64_pad EmptyString)) 2 left 0 = Some EmptyString.
Proof. reflexivity. Qed.

Lemma a2b_go_pad3 left : a2b_go (String b64_pad EmptyString) 3 left 0 = Some EmptyString.
Proof. reflexivity. Qed.

Lemma a2b_go_encode s : a2b_go (b64encode s) 0 0 0 = Some s.
Proof.
  assert (forall n s, (String.length s <= n)%nat -> a2b_go (b64encode s) 0 0 0 = Some s)
    as H; [|by apply (H (String.length s))].
  clear s. induction n as [|n IH]; intros s Hs.
  { destruct s; simpl in Hs; [done|lia]. }
  destruct s as [|x [|y [|z s]]]; [done|..]; cbn [b64encode];
    pose proof (ord_range x); rewrite a2b_go_char by divmod; cbn [Z.eqb];
    rewrite a2b_go_char by (try pose proof (ord_range y); divmod).
  - change (1 =? 0) with false. change (1 =? 1) with true. cbv iota.
    rewrite a2b_go_pad2. cbn [option_map]. do 2 f_equal. apply chr_eq. divmod.
  - pose proof (ord_range y). change (1 =? 0) with false. change (1 =? 1) with true. cbv iota.
    rewrite a2b_go_char by divmod. change (2 =? 0) with false. change (2 =? 1) with false.
    change (2 =? 2) with true. cbv iota.
    rewrite a2b_go_pad3. cbn [option_map]. do 2 f_equal.
    + apply chr_eq. divmod.
    + f_equal. apply chr_eq. divmod.
  - pose proof (ord_range y). pose proof (ord_range z).
    change (1 =? 0) with false. change (1 =? 1) with true. cbv iota.
    rewrite a2b_go_char by divmod. change (2 =? 0) with false. change (2 =? 1) with false.
    change (2 =? 2) with true. cbv iota.
    rewrite a2b_go_char by divmod. change (3 =? 0) with false. change (3 =? 1) with false.
    change (3 =? 2) with false. cbv iota.
    rewrite IH by (simpl in Hs; lia). cbn [option_map]. do 2 f_equal.
    + apply chr_eq. divmod.
    + f_equal; [|f_equal].
      * apply chr_eq. divmod.
      * apply chr_eq. divmod.
Qed.

Definition is_b64_char (c : ascii) : bool :=
  is_alnum c || bool_decide (c = "+"%char) || bool_decide (c = "/"%char)
  || bool_decide (c = b64_pad).

Lemma b64_char_ok n : 0 <= n < 64 -> is_b64_char (b64_char n) = true.
Proof.
  intros Hn. eapply (Z_forall_below (fun n => is_b64_char (b64_char n)) 64); [|lia].
  vm_compute. reflexivity.
Qed.

Lemma b64encode_chars s : all_chars is_b64_char (b64encode s) = true.
Proof.
  assert (forall n s, (String.length s <= n)%nat -> all_chars is_b64_char (b64encode s) = true)
    as H; [|by apply (H (String.length s))].
  clear s. induction n as [|n IH]; intros s Hs.
  { destruct s; simpl in Hs; [done|lia]. }
  destruct s as [|x [|y [|z s]]]; [done|..]; cbn [b64encode all_chars];
    pose proof (ord_range x); try pose proof (ord_range y); try pose proof (ord_range z);
    rewrite !b64_char_ok by divmod; cbn [andb]; try reflexivity.
  apply IH. simpl in Hs. lia.
Qed.

(** [b64decode(b64encode(s)) = s]. *)
Lemma b64decode_encode s : b64decode (b64encode s) = Some s.
Proof.
  unfold b64decode, is_ascii_str.
  erewrite all_chars_true_impl; [apply a2b_go_encode| |apply b64encode_chars].
  vm_compute. reflexivity.
Qed.

Lemma urlsafe_char_back c : is_b64_char c = true -> from_urlsafe (to_urlsafe c) = c.
Proof.
  intros Hc.
  assert (forallb (fun c => implb (is_b64_char c)
    (bool_decide (from_urlsafe (to_urlsafe c) = c))) all_ascii = true) as Hall
    by (vm_compute; reflexivity).
  pose proof (ascii_forall _ Hall c) as H. simpl in H. rewrite Hc in H.
  by apply bool_decide_eq_true_1 in H.
Qed.

Lemma map_urlsafe_back s :
  all_chars is_b64_char s = true -> map_chars from_urlsafe (map_chars to_urlsafe s) = s.
Proof.
  induction s as [|c s IH]; [done|]. simpl. intros [Hc Hs]%andb_true_iff.
  by rewrite urlsafe_char_back, IH.
Qed.

Lemma urlsafe_b64_round s : urlsafe_b64decode (urlsafe_b64encode s) = Some s.
Proof.
  unfold urlsafe_b64decode, urlsafe_b64encode.
  rewrite map_urlsafe_back by apply b64encode_chars. apply b64decode_encode.
Qed.

(** ** The shape of unpadded base64url *)

Definition is_b64url_char (c : ascii) : bool :=
  is_alnum c || bool_decide (c = "-"%char) || bool_decide (c = "_"%char).

Definition is_data_char (c : ascii) : bool :=
  is_alnum c || bool_decide (c = "+"%char) || bool_decide (c = "/"%char).

Lemma b64_char_data n : 0 <= n < 64 -> is_data_char (b64_char n) = true.
Proof.
  intros Hn. eapply (Z_forall_below (fun n => is_data_char (b64_char n)) 64); [|lia].
  vm_compute. reflexivity.
Qed.

Lemma b64encode_shape s : exists body k,
  b64encode s = body +:+ repeat_char b64_pad k /\ all_chars is_data_char body = true
  /\ String.length body = ((4 * String.length s + 2) / 3)%nat.
Proof.
  assert (forall n s, (String.length s <= n)%nat -> exists body k,
    b64encode s = body +:+ repeat_char b64_pad k /\ all_chars is_data_char body = true
    /\ String.length body = ((4 * String.length s + 2) / 3)%nat) as H;
    [|by apply (H (String.length s))].
  clear s. induction n as [|n IH]; intros s Hs.
  { destruct s; simpl in Hs; [|lia]. by exists "", 0%nat. }
  destruct s as [|x [|y [|z s]]]; [by exists "", 0%nat|..]; cbn [b64encode];
    pose proof (ord_range x); try pose proof (ord_range y); try pose proof (ord_range z).
  - eexists (String _ (String _ "")), 2%nat. split; [reflexivity|]. split; [|done].
    cbn [all_chars]. rewrite !b64_char_data by divmod. done.
  - eexists (String _ (String _ (String _ ""))), 1%nat. split; [reflexivity|]. split; [|done].
    cbn [all_chars]. rewrite !b64_char_data by divmod. done.
  - destruct (IH s) as (body & k & -> & Hc & Hl); [simpl in Hs; lia|].
    eexists (String _ (String _ (String _ (String _ body)))), k. split; [reflexivity|].
    cbn [all_chars String.length]. rewrite !b64_char_data, Hc, Hl by divmod. split; [done|].
    replace (4 * S (S (S (String.length s))) + 2)%nat
      with (4 * String.length s + 2 + 4 * 3)%nat by lia.
    rewrite Nat.div_add by lia. lia.
Qed.

Lemma map_chars_app f a b : map_chars f (a +:+ b) = map_chars f a +:+ map_chars f b.
Proof.
  induction a as [|c a IH]; [done|].
  change (String (f c) (map_chars f (a +:+ b)) = String (f c) (map_chars f a +:+ map_chars f b)).
  by rewrite IH.
Qed.

Lemma map_chars_length f s : String.length (map_chars f s) = String.length s.
Proof. induction s; simpl; congruence. Qed.

Lemma map_chars_all (p q : ascii -> bool) f s :
  forallb (fun c => implb (p c) (q (f c))) all_ascii = true ->
  all_chars p s = true -> all_chars q (map_chars f s) = true.
Proof.
  intros H. induction s as [|c s IH]; [done|]. simpl. intros [Hc Hs]%andb_true_iff.
  pose proof (ascii_forall _ H c) as Hi. simpl in Hi. rewrite Hc in Hi. simpl in Hi. by rewrite Hi, IH.
Qed.

Lemma rstrip_pads c s k :
  no_char c s = true -> rstrip_char c (s +:+ repeat_char c k) = s.
Proof.
  intros Hn. unfold rstrip_char.
  assert (Hp : rstrip_by (fun d => bool_decide (d = c)) (repeat_char c k) = "").
  { induction k; simpl; [done|]. by rewrite IHk, bool_decide_eq_true_2. }
  induction s as [|d s IH]; [exact Hp|].
  unfold no_char in Hn. simpl in Hn. apply andb_true_iff in Hn as [Hd Hn].
  rewrite app_cons. cbn [rstrip_by]. rewrite (IH Hn). apply negb_true_iff in Hd.
  rewrite Hd. by destruct s.
Qed.

Lemma b64url_nopad_shape s :
  all_chars is_b64url_char (b64url_nopad s) = true
  /\ String.length (b64url_nopad s) = ((4 * String.length s + 2) / 3)%nat.
Proof.
  destruct (b64encode_shape s) as (body & k & E & Hc & Hl).
  assert (Hu : all_chars is_b64url_char (map_chars to_urlsafe body) = true).
  { eapply map_chars_all, Hc. vm_compute. reflexivity. }
  assert (E' : b64url_nopad s = map_chars to_urlsafe body).
  { unfold b64url_nopad, urlsafe_b64encode. rewrite E, map_chars_app.
    replace (map_chars to_urlsafe (repeat_char b64_pad k)) with (repeat_char b64_pad k)
      by (clear; induction k; simpl; [done|by rewrite <- IHk]).
    apply rstrip_pads. unfold no_char. eapply all_chars_true_impl, Hu. vm_compute. reflexivity. }
  rewrite E', map_chars_length. auto.
Qed.
