(* ===== verification/Digest.v ===== *)
(** * Digest: SHA-256 as the control plane uses it

    [hashlib.sha256] executable over 32-bit words held in [Z] (every sum is
    reduced modulo [2^32]), and [core/crypto.py]'s two text renderings of it. *)

From S2P Require Import Prelude PyStr Encoding.
Local Open Scope Z_scope.

(** ** Words *)

Definition w32 (x : Z) : Z := Z.land x 0xffffffff.
Definition rotr (n x : Z) : Z := Z.lor (Z.shiftr x n) (w32 (Z.shiftl x (32 - n))).

Definition big_sigma0 x := Z.lxor (rotr 2 x) (Z.lxor (rotr 13 x) (rotr 22 x)).
Definition big_sigma1 x := Z.lxor (rotr 6 x) (Z.lxor (rotr 11 x) (rotr 25 x)).
Definition small_sigma0 x := Z.lxor (rotr 7 x) (Z.lxor (rotr 18 x) (Z.shiftr x 3)).
Definition small_sigma1 x := Z.lxor (rotr 17 x) (Z.lxor (rotr 19 x) (Z.shiftr x 10)).
Definition ch x y z := Z.lxor (Z.land x y) (Z.land (Z.lxor x 0xffffffff) z).
Definition maj x y z := Z.lxor (Z.land x y) (Z.lxor (Z.land x z) (Z.land y z)).

(** The fractional bits of the cube roots of the first 64 primes. *)
Definition sha_k : list Z :=
  [1116352408; 1899447441; 3049323471; 3921009573; 961987163; 1508970993;
   2453635748; 2870763221; 3624381080; 310598401; 607225278; 1426881987;
   1925078388; 2162078206; 2614888103; 3248222580; 3835390401; 4022224774;
   264347078; 604807628; 770255983; 1249150122; 1555081692; 1996064986;
   2554220882; 2821834349; 2952996808; 3210313671; 3336571891; 3584528711;
   113926993; 338241895; 666307205; 773529912; 1294757372; 1396182291;
   1695183700; 1986661051; 2177026350; 2456956037; 2730485921; 2820302411;
   3259730800; 3345764771; 3516065817; 3600352804; 4094571909; 275423344;
   430227734; 506948616; 659060556; 883997877; 958139571; 1322822218;
   1537002063; 1747873779; 1955562222; 2024104815; 2227730452; 2361852424;
   2428436474; 2756734187; 3204031479; 3329325298].

(** The fractional bits of the square roots of the first 8 primes. *)
Definition sha_iv : list Z :=
  [1779033703; 3144134277; 1013904242; 2773480762; 1359893119; 2600822924;
   528734635; 1541459225].

(** ** Padding and blocks *)

Fixpoint str_ords (s : string) : list Z :=
  match s with EmptyString => [] | String c s' => ord c :: str_ords s' end.

Fixpoint be_bytes (n : nat) (z : Z) : list Z :=
  match n with O => [] | S n' => be_bytes n' (z / 256) ++ [z mod 256] end.

(** One bit, zeros up to eight bytes short of a block, the length in bits. *)
Definition sha_pad (m : list Z) : list Z :=
  let len := Z.of_nat (List.length m) in
  m ++ [128] ++ replicate (Z.to_nat ((55 - len) mod 64)) 0 ++ be_bytes 8 (8 * len).

Fixpoint words_of (l : list Z) : list Z :=
  match l with
  | a :: b :: c :: d :: l' => (((a * 256 + b) * 256 + c) * 256 + d) :: words_of l'
  | _ => []
  end.

(** The message schedule, most recent word first. *)
Fixpoint schedule (n : nat) (ws : list Z) : list Z :=
  match n with
  | O => ws
  | S n' =>
      let w := w32 (small_sigma1 (nth 1 ws 0) + nth 6 ws 0
                    + small_sigma0 (nth 14 ws 0) + nth 15 ws 0) in
      schedule n' (w :: ws)
  end.

Definition sha_round (st : list Z) (kw : Z * Z) : list Z :=
  match st with
  | [a; b; c; d; e; f; g; h] =>
      let t1 := h + big_sigma1 e + ch e f g + kw.1 + kw.2 in
      let t2 := big_sigma0 a + maj a b c in
      [w32 (t1 + t2); a; b; c; w32 (d + t1); e; f; g]
  | _ => st
  end.

Definition sha_block (h : list Z) (block : list Z) : list Z :=
  let w := rev (schedule 48 (rev block)) in
  zip_with (fun x y => w32 (x + y)) h (foldl sha_round h (zip sha_k w)).

Fixpoint sha_blocks (fuel : nat) (h : list Z) (ws : list Z) : list Z :=
  match fuel with
  | O => h
  | S f =>
      match ws with
      | [] => h
      | _ => sha_blocks f (sha_block h (take 16 ws)) (drop 16 ws)
      end
  end.

Fixpoint of_ords (l : list Z) : string :=
  match l with [] => EmptyString | n :: l' => String (chr n) (of_ords l') end.

(** [hashlib.sha256(s).digest()].  One unit of fuel per block of sixteen words;
    the number of words is more than enough. *)
Definition sha256 (s : string) : string :=
  let ws := words_of (sha_pad (str_ords s)) in
  of_ords (mjoin (map (be_bytes 4) (sha_blocks (List.length ws) sha_iv ws))).

(** ** core/crypto.py *)

Definition sha256_hex (data : string) : string := hexlify (sha256 data).
Definition sha256_b64url (data : string) : string := b64url_nopad (sha256 data).

(** [hmac.compare_digest(a.encode(), b.encode())]. *)
Definition constant_time_equals (a b : string) : bool := bool_decide (a = b).

(** ** Test vectors *)

Example sha256_abc :
  sha256_hex "abc" = "ba7816bf8f01cfea414140de5dae2223b00361a396177a9cb410ff61f20015ad".
Proof. vm_compute. reflexivity. Qed.

Example sha256_two_blocks :
  sha256_hex "abcdbcdecdefdefgefghfghighijhijkijkljklmklmnlmnomnopnopq"
  = "248d6a61d20638b8e5c026930c3e6039a33ce45964ff2167f6ecedd419db06c1".
Proof. vm_compute. reflexivity. Qed.

(** ** The digest is 32 bytes *)

Lemma sha_round_length st kw : List.length st = 8%nat -> List.length (sha_round st kw) = 8%nat.
Proof. by destruct st as [|? [|? [|? [|? [|? [|? [|? [|? [|]]]]]]]]]. Qed.

Lemma sha_block_length h b : List.length h = 8%nat -> List.length (sha_block h b) = 8%nat.
Proof.
  intros Hh. unfold sha_block. rewrite length_zip_with, Hh.
  assert (forall l st, List.length st = 8%nat -> List.length (foldl sha_round st l) = 8%nat) as Hf.
  { induction l as [|x l IH]; [done|]. intros st Hst. by apply IH, sha_round_length. }
  by rewrite (Hf _ h Hh).
Qed.

Lemma sha_blocks_length fuel : forall h ws,
  List.length h = 8%nat -> List.length (sha_blocks fuel h ws) = 8%nat.
Proof.
  induction fuel as [|n IH]; [done|]. intros h ws Hh. simpl.
  destruct ws; [done|]. by apply IH, sha_block_length.
Qed.

Lemma be_bytes_length n z : List.length (be_bytes n z) = n.
Proof.
  revert z. induction n as [|n IH]; intros z; [done|]. simpl. rewrite length_app, IH. simpl. lia.
Qed.

Lemma of_ords_length l : String.length (of_ords l) = List.length l.
Proof. induction l; simpl; congruence. Qed.

Lemma sha256_length s : String.length (sha256 s) = 32%nat.
Proof.
  unfold sha256. rewrite of_ords_length.
  assert (forall l, List.length (mjoin (map (be_bytes 4) l)) = (4 * List.length l)%nat) as H.
  { induction l as [|x l IH]; [done|].
    change (mjoin (map (be_bytes 4) (x :: l))) with (be_bytes 4 x ++ mjoin (map (be_bytes 4) l)).
    rewrite length_app, IH, be_bytes_length. simpl. lia. }
  rewrite H, sha_blocks_length; done.
Qed.

(** The S256 challenge of RFC 7636 is 43 characters of the URL-safe alphabet. *)
Lemma sha256_b64url_shape s :
  all_chars is_b64url_char (sha256_b64url s) = true /\ String.length (sha256_b64url s) = 43%nat.
Proof.
  destruct (b64url_nopad_shape (sha256 s)) as [Hc Hl]. split; [exact Hc|].
  unfold sha256_b64url. by rewrite Hl, sha256_length.
Qed.

#[global] Opaque sha256.
