(* ===== verification/Json.v ===== *)
(** * Json: the values a JSONB column or a [dict[str, Any]] holds

    A value keeps the order of an object's keys, as a Python [dict] does. *)

From S2P Require Import Prelude PyStr.
Local Open Scope Z_scope.

(** A float is given by a decimal text that denotes it. *)
Inductive json : Type :=
| JNull
| JBool (b : bool)
| JInt (n : Z)
| JFloat (text : string)
| JStr (s : string)
| JArr (l : list json)
| JObj (fields : list (string * json)).

(** The mantissa has no digit but zeros (a literal small enough to underflow is not
    counted as zero). *)
Definition float_zero (text : string) : bool :=
  all_chars (fun c => bool_decide (c = "0"%char) || bool_decide (c = "."%char)
                      || bool_decide (c = "-"%char)) (before "e" (lower text)).

(** Python's truth value of an object. *)
Definition truthy (j : json) : bool :=
  match j with
  | JNull => false
  | JBool b => b
  | JInt n => negb (n =? 0)
  | JFloat t => negb (float_zero t)
  | JStr s => negb (bool_decide (s = ""))
  | JArr l => negb (bool_decide (List.length l = 0%nat))
  | JObj fs => negb (bool_decide (List.length fs = 0%nat))
  end.

(** [d.get(k)] on an association list in insertion order. *)
Fixpoint assoc {A} (k : string) (fs : list (string * A)) : option A :=
  match fs with
  | [] => None
  | (k', v) :: fs' => if bool_decide (k = k') then Some v else assoc k fs'
  end.

(** [d[k] = v]: in place when the key is present, at the end when it is new. *)
Fixpoint assoc_set {A} (k : string) (v : A) (fs : list (string * A)) : list (string * A) :=
  match fs with
  | [] => [(k, v)]
  | (k', v') :: fs' =>
      if bool_decide (k = k') then (k, v) :: fs' else (k', v') :: assoc_set k v fs'
  end.

(** [d.update(e)]. *)
Definition assoc_update {A} (d e : list (string * A)) : list (string * A) :=
  foldl (fun acc kv => assoc_set kv.1 kv.2 acc) d e.

(** [isinstance(j, str)] and its value. *)
Definition as_str (j : json) : option string :=
  match j with JStr s => Some s | _ => None end.
Definition as_obj (j : json) : option (list (string * json)) :=
  match j with JObj fs => Some fs | _ => None end.
(** [isinstance(j, int)]: a [bool] is an [int]. *)
Definition as_int (j : json) : option Z :=
  match j with
  | JInt n => Some n
  | JBool b => Some (if b then 1 else 0)
  | _ => None
  end.

(** [j == s] for a string [s]. *)
Definition is_str (s : string) (j : json) : bool :=
  match j with JStr t => bool_decide (t = s) | _ => false end.

Lemma assoc_set_get {A} k (v : A) fs : assoc k (assoc_set k v fs) = Some v.
Proof.
  induction fs as [|[k' v'] fs IH]; simpl.
  - by rewrite bool_decide_eq_true_2.
  - case_bool_decide; simpl; [by rewrite bool_decide_eq_true_2|].
    by rewrite bool_decide_eq_false_2.
Qed.

Lemma assoc_set_get_ne {A} k k' (v : A) fs :
  k <> k' -> assoc k (assoc_set k' v fs) = assoc k fs.
Proof.
  intros Hne. induction fs as [|[k2 v2] fs IH]; simpl.
  - by rewrite bool_decide_eq_false_2.
  - case_bool_decide; simplify_eq; simpl.
    + by rewrite !bool_decide_eq_false_2.
    + case_bool_decide; [done|apply IH].
Qed.
