(* ===== verification/JsonText.v ===== *)
(** * JsonText: the [json] module's [dumps] and [loads]

    [json_loads] reads bytes in UTF-8 (a text in UTF-16 or UTF-32, which the module
    also detects, is refused here); [None] is a ValueError.  [json_dumps] escapes
    everything outside ASCII, as the module does by default. *)

From S2P Require Import Prelude PyStr Encoding Json.
Local Open Scope Z_scope.

(** ** UTF-8 *)

Definition is_cont (c : ascii) : bool := Z.land (ord c) 192 =? 128.
Definition cont_bits (c : ascii) : Z := Z.land (ord c) 63.

(** The first code point of a text and the rest; [None] on bytes that are not UTF-8.
    Surrogates pass. *)
Definition utf8_next (s : string) : option (Z * string) :=
  match s with
  | EmptyString => None
  | String a s1 =>
      if ord a <? 128 then Some (ord a, s1)
      else match s1 with
      | EmptyString => None
      | String b s2 =>
          if negb (is_cont b) then None
          else if (194 <=? ord a) && (ord a <? 224)
          then Some (Z.land (ord a) 31 * 64 + cont_bits b, s2)
          else match s2 with
          | EmptyString => None
          | String c s3 =>
              if negb (is_cont c) then None
              else if (224 <=? ord a) && (ord a <? 240) then
                let n := Z.land (ord a) 15 * 4096 + cont_bits b * 64 + cont_bits c in
                if n <? 2048 then None else Some (n, s3)
              else match s3 with
              | EmptyString => None
              | String d s4 =>
                  if negb (is_cont d) || negb ((240 <=? ord a) && (ord a <? 245)) then None
                  else
                    let n := Z.land (ord a) 7 * 262144 + cont_bits b * 4096 + cont_bits c * 64
                             + cont_bits d in
                    if (n <? 65536) || (1114111 <? n) then None else Some (n, s4)
              end
          end
      end
  end.

Fixpoint utf8_ok_go (fuel : nat) (s : string) : bool :=
  match fuel, s with
  | _, EmptyString => true
  | O, _ => false
  | S fuel', _ => match utf8_next s with Some (_, s') => utf8_ok_go fuel' s' | None => false end
  end.
Definition utf8_ok (s : string) : bool := utf8_ok_go (String.length s) s.

Definition utf8_encode (n : Z) : string :=
  if n <? 128 then String (chr n) ""
  else if n <? 2048 then String (chr (192 + n / 64)) (String (chr (128 + n mod 64)) "")
  else if n <? 65536 then
    String (chr (224 + n / 4096)) (String (chr (128 + n / 64 mod 64)) (String (chr (128 + n mod 64)) ""))
  else
    String (chr (240 + n / 262144)) (String (chr (128 + n / 4096 mod 64))
      (String (chr (128 + n / 64 mod 64)) (String (chr (128 + n mod 64)) ""))).

(** ** Reading *)

Definition DQ : ascii := chr 34.
Definition is_ws (c : ascii) : bool := bool_decide (c ∈ [" "%char; chr 9; chr 10; chr 13]).
Definition skip_ws : string -> string := lstrip_by is_ws.

Definition hex4 (s : string) : option (Z * string) :=
  match s with
  | String a (String b (String c (String d rest))) =>
      match hex_value a, hex_value b, hex_value c, hex_value d with
      | Some x, Some y, Some z, Some w => Some (((x * 16 + y) * 16 + z) * 16 + w, rest)
      | _, _, _, _ => None
      end
  | _ => None
  end.

Definition simple_escape (c : ascii) : option ascii :=
  if bool_decide (c = DQ) then Some DQ
  else if bool_decide (c = "\"%char) then Some "\"%char
  else if bool_decide (c = "/"%char) then Some "/"%char
  else if bool_decide (c = "b"%char) then Some (chr 8)
  else if bool_decide (c = "f"%char) then Some (chr 12)
  else if bool_decide (c = "n"%char) then Some (chr 10)
  else if bool_decide (c = "r"%char) then Some (chr 13)
  else if bool_decide (c = "t"%char) then Some (chr 9)
  else None.

(** After a [\u] escape: the code point, joined with a following low surrogate. *)
Definition unicode_escape (s : string) : option (Z * string) :=
  match hex4 s with
  | None => None
  | Some (u, rest) =>
      if (55296 <=? u) && (u <=? 56319) then
        match rest with
        | String "\" (String "u" rest') =>
            match hex4 rest' with
            | None => None
            | Some (v, rest'') =>
                if (56320 <=? v) && (v <=? 57343)
                then Some (65536 + (u - 55296) * 1024 + (v - 56320), rest'')
                else Some (u, rest)
            end
        | _ => Some (u, rest)
        end
      else Some (u, rest)
  end.

(** [py_scanstring] after the opening quote. *)
Fixpoint scan_string (fuel : nat) (s : string) : option (string * string) :=
  match fuel, s with
  | O, _ | _, EmptyString => None
  | S fuel', String c s' =>
      if bool_decide (c = DQ) then Some ("", s')
      else if bool_decide (c = "\"%char) then
        match s' with
        | EmptyString => None
        | String d s'' =>
            if bool_decide (d = "u"%char) then
              match unicode_escape s'' with
              | None => None
              | Some (n, rest) =>
                  match scan_string fuel' rest with
                  | Some (t, r) => Some (utf8_encode n +:+ t, r)
                  | None => None
                  end
              end
            else
              match simple_escape d with
              | None => None
              | Some x =>
                  match scan_string fuel' s'' with
                  | Some (t, r) => Some (String x t, r)
                  | None => None
                  end
              end
        end
      else if ord c <? 32 then None
      else match scan_string fuel' s' with
           | Some (t, r) => Some (String c t, r)
           | None => None
           end
  end.

(** The longest run of digits. *)
Fixpoint span (p : ascii -> bool) (s : string) : string * string :=
  match s with
  | EmptyString => ("", "")
  | String c s' => if p c then let '(h, t) := span p s' in (String c h, t) else ("", s)
  end.

Fixpoint digits_value (s : string) (acc : Z) : Z :=
  match s with
  | EmptyString => acc
  | String c s' => digits_value s' (acc * 10 + (ord c - 48))
  end.

Definition INT_MAX_STR_DIGITS : nat := 4300.

(** The fraction and the exponent, when they match in full. *)
Definition scan_frac (s : string) : string * string :=
  match s with
  | String "." s' =>
      match span is_digit s' with
      | (EmptyString, _) => ("", s)
      | (ds, rest) => ("." +:+ ds, rest)
      end
  | _ => ("", s)
  end.
Definition scan_exp (s : string) : string * string :=
  match s with
  | String e s' =>
      if bool_decide (e = "e"%char) || bool_decide (e = "E"%char) then
        let '(sign, s'') :=
          match s' with
          | String "+" r => ("+", r)
          | String "-" r => ("-", r)
          | _ => ("", s')
          end in
        match span is_digit s'' with
        | (EmptyString, _) => ("", s)
        | (ds, rest) => (String e sign +:+ ds, rest)
        end
      else ("", s)
  | EmptyString => ("", s)
  end.

(** A number, after an optional minus sign. *)
Definition scan_number (neg : bool) (s : string) : option (json * string) :=
  let int_part :=
    match s with
    | String "0" rest => Some ("0", rest)
    | _ => match span is_digit s with
           | (EmptyString, _) => None
           | (ds, rest) => Some (ds, rest)
           end
    end in
  match int_part with
  | None => None
  | Some (ds, rest) =>
      let '(frac, rest1) := scan_frac rest in
      let '(exp, rest2) := scan_exp rest1 in
      if bool_decide (frac = "") && bool_decide (exp = "") then
        if (INT_MAX_STR_DIGITS <? String.length ds)%nat then None
        else Some (JInt (if neg then - digits_value ds 0 else digits_value ds 0), rest2)
      else Some (JFloat ((if neg then "-" else "") +:+ ds +:+ frac +:+ exp), rest2)
  end.

Definition scan_constant (s : string) : option (json * string) :=
  match strip_prefix "null" s with Some r => Some (JNull, r) | None =>
  match strip_prefix "true" s with Some r => Some (JBool true, r) | None =>
  match strip_prefix "false" s with Some r => Some (JBool false, r) | None =>
  match strip_prefix "NaN" s with Some r => Some (JFloat "nan", r) | None =>
  match strip_prefix "Infinity" s with Some r => Some (JFloat "inf", r) | None =>
  match strip_prefix "-Infinity" s with Some r => Some (JFloat "-inf", r) | None => None
  end end end end end end.

(** [scan_once] and the loops of [JSONObject] and [JSONArray]; the fuel bounds the
    characters read. *)
Fixpoint scan_value (fuel : nat) (s : string) : option (json * string) :=
  match fuel with
  | O => None
  | S n =>
      match s with
      | EmptyString => None
      | String c s' =>
          if bool_decide (c = DQ) then
            match scan_string (String.length s) s' with
            | Some (t, r) => Some (JStr t, r)
            | None => None
            end
          else if bool_decide (c = "{"%char) then
            match skip_ws s' with
            | String "}" r => Some (JObj [], r)
            | s1 => match scan_members n s1 [] with
                    | Some (ms, r) => Some (JObj ms, r)
                    | None => None
                    end
            end
          else if bool_decide (c = "["%char) then
            match skip_ws s' with
            | String "]" r => Some (JArr [], r)
            | s1 => match scan_elems n s1 with
                    | Some (es, r) => Some (JArr es, r)
                    | None => None
                    end
            end
          else
            match scan_constant s with
            | Some v => Some v
            | None =>
                match s with
                | String "-" s1 => scan_number true s1
                | _ => scan_number false s
                end
            end
      end
  end
with scan_elems (fuel : nat) (s : string) : option (list json * string) :=
  match fuel with
  | O => None
  | S n =>
      match scan_value n s with
      | None => None
      | Some (v, r) =>
          match skip_ws r with
          | String "]" r' => Some ([v], r')
          | String "," r' =>
              match scan_elems n (skip_ws r') with
              | Some (vs, r'') => Some (v :: vs, r'')
              | None => None
              end
          | _ => None
          end
      end
  end
with scan_members (fuel : nat) (s : string) (acc : list (string * json))
  : option (list (string * json) * string) :=
  match fuel with
  | O => None
  | S n =>
      match s with
      | EmptyString => None
      | String c s0 =>
          if negb (bool_decide (c = DQ)) then None
          else match scan_string (String.length s) s0 with
          | None => None
          | Some (key, r0) =>
              match skip_ws r0 with
              | String ":" r1 =>
                  match scan_value n (skip_ws r1) with
                  | None => None
                  | Some (v, r2) =>
                      let acc' := assoc_set key v acc in
                      match skip_ws r2 with
                      | String "}" r3 => Some (acc', r3)
                      | String "," r3 => scan_members n (skip_ws r3) acc'
                      | _ => None
                      end
                  end
              | _ => None
              end
          end
      end
  end.

Definition BOM : string := String (chr 239) (String (chr 187) (String (chr 191) "")).

(** [json.loads] of a text, and of bytes. *)
Definition json_loads_str (s : string) : option json :=
  match scan_value (S (String.length s)) (skip_ws s) with
  | Some (v, r) => if bool_decide (skip_ws r = "") then Some v else None
  | None => None
  end.
Definition json_loads (b : string) : option json :=
  let b := default b (strip_prefix BOM b) in
  if utf8_ok b then json_loads_str b else None.

(** ** Writing *)

Fixpoint dec_digits (fuel : nat) (n : Z) (acc : string) : string :=
  match fuel with
  | O => acc
  | S f =>
      let acc' := String (chr (48 + n mod 10)) acc in
      if n <? 10 then acc' else dec_digits f (n / 10) acc'
  end.
Definition dec_nat (n : Z) : string := dec_digits (S (Z.to_nat (Z.log2 n))) n "".
(** [str(n)]. *)
Definition dec_str (n : Z) : string := if n <? 0 then "-" +:+ dec_nat (- n) else dec_nat n.

Definition u_escape (n : Z) : string := "\u" +:+ hex_fixed 4 n.

Definition escape_char (n : Z) : string :=
  if n =? 34 then String "\" (String DQ "")
  else if n =? 92 then "\\"
  else if n =? 10 then "\n"
  else if n =? 13 then "\r"
  else if n =? 9 then "\t"
  else if n =? 12 then "\f"
  else if n =? 8 then "\b"
  else if (32 <=? n) && (n <=? 126) then String (chr n) ""
  else if n <? 65536 then u_escape n
  else u_escape (55296 + (n - 65536) / 1024) +:+ u_escape (56320 + (n - 65536) mod 1024).

Fixpoint escape_go (fuel : nat) (s : string) : string :=
  match fuel, s with
  | O, _ | _, EmptyString => ""
  | S f, String c s' =>
      match utf8_next s with
      | Some (n, rest) => escape_char n +:+ escape_go f rest
      | None => escape_char (ord c) +:+ escape_go f s'
      end
  end.
Definition dumps_str (s : string) : string :=
  String DQ (escape_go (String.length s) s) +:+ String DQ "".

(** [json.dumps(j, separators=(item, key))]. *)
Fixpoint json_dumps (item key : string) (j : json) : string :=
  match j with
  | JNull => "null"
  | JBool b => if b then "true" else "false"
  | JInt n => dec_str n
  | JFloat t => t
  | JStr s => dumps_str s
  | JArr l => "[" +:+ join item (map (json_dumps item key) l) +:+ "]"
  | JObj fs =>
      "{" +:+ join item (map (fun kv => dumps_str kv.1 +:+ key +:+ json_dumps item key kv.2) fs) +:+ "}"
  end.

Definition dumps_compact : json -> string := json_dumps "," ":".
Definition dumps_default : json -> string := json_dumps ", " ": ".

Example dumps_example :
  json_loads (dumps_compact (JObj [("a", JArr [JInt (-12); JNull; JBool true]); ("b", JStr "x/y")]))
  = Some (JObj [("a", JArr [JInt (-12); JNull; JBool true]); ("b", JStr "x/y")]).
Proof. vm_compute. reflexivity. Qed.

(** ** [str(j)] of a decoded value

    [repr] of a text with the escapes of the control characters; a character above
    U+007F is taken to be printable, and a float is shown by its text. *)
Definition repr_char (quote : ascii) (c : ascii) : string :=
  let n := ord c in
  if n =? 92 then "\\"
  else if bool_decide (c = quote) then String (chr 92) (String c "")
  else if n =? 10 then "\n"
  else if n =? 13 then "\r"
  else if n =? 9 then "\t"
  else if (n <? 32) || (n =? 127) then "\x" +:+ hex_fixed 2 n
  else String c "".

Fixpoint repr_go (quote : ascii) (s : string) : string :=
  match s with EmptyString => "" | String c s' => repr_char quote c +:+ repr_go quote s' end.

Definition repr_str (s : string) : string :=
  let quote := if contains "'" s && negb (contains (String DQ "") s) then DQ else "'"%char in
  String quote (repr_go quote s) +:+ String quote "".

Fixpoint py_repr (j : json) : string :=
  match j with
  | JNull => "None"
  | JBool b => if b then "True" else "False"
  | JInt n => dec_str n
  | JFloat t => t
  | JStr s => repr_str s
  | JArr l => "[" +:+ join ", " (map py_repr l) +:+ "]"
  | JObj fs =>
      "{" +:+ join ", " (map (fun kv => repr_str kv.1 +:+ ": " +:+ py_repr kv.2) fs) +:+ "}"
  end.

Definition py_str (j : json) : string := match j with JStr s => s | _ => py_repr j end.

Example py_str_example :
  py_str (JObj [("a", JArr [JStr "it's"; JNull; JBool true]); ("b", JStr "x")])
  = "{'a': [" +:+ String DQ ("it's" +:+ String DQ ", None, True], 'b': 'x'}").
Proof. vm_compute. reflexivity. Qed.
