(* ===== verification/JsonRound.v ===== *)
(** * JsonRound: what [json.dumps] writes, [json.loads] reads back

    For values without floats whose texts are Unicode without surrogates, whose integers
    stay below the limit of the digits Python reads, and whose keys are distinct. *)

From S2P Require Import Prelude PyStr Encoding Json JsonText.
Local Open Scope Z_scope.

(** ** Texts as code points *)

Definition scalar_code (n : Z) : Prop := 0 <= n < 55296 \/ 57344 <= n <= 1114111.

Fixpoint text_of (codes : list Z) : string :=
  match codes with [] => "" | n :: ns => utf8_encode n +:+ text_of ns end.

Definition good_text (s : string) : Prop := exists codes, Forall scalar_code codes /\ s = text_of codes.

Lemma cont_char x : 0 <= x < 64 -> is_cont (chr (128 + x)) = true /\ cont_bits (chr (128 + x)) = x.
Proof.
  intros Hx.
  pose proof (Z_forall_below (fun x => is_cont (chr (128 + x)) && (cont_bits (chr (128 + x)) =? x)) 64
    ltac:(vm_compute; reflexivity) x ltac:(lia)) as H. cbv beta in H. by bool_simpl.
Qed.

Lemma lead_char base width x : (base, width) ∈ [(192, 32); (224, 16); (240, 8)] -> 0 <= x < width ->
  ord (chr (base + x)) = base + x /\ Z.land (base + x) (width - 1) = x.
Proof.
  intros Hin Hx.
  repeat (apply elem_of_cons in Hin as [[= -> ->]|Hin]; [
    match goal with |- ord (chr (?b + _)) = _ /\ Z.land _ (?w - 1) = _ =>
      pose proof (Z_forall_below (fun x => (ord (chr (b + x)) =? b + x) && (Z.land (b + x) (w - 1) =? x))
        (Z.to_nat w) ltac:(vm_compute; reflexivity) x ltac:(lia)) as H end;
    cbv beta in H; by bool_simpl|]).
  by apply elem_of_nil in Hin.
Qed.

Lemma utf8_next_encode n rest : scalar_code n -> utf8_next (utf8_encode n +:+ rest) = Some (n, rest).
Proof.
  intros Hn. unfold scalar_code in Hn. unfold utf8_encode.
  destruct (n <? 128) eqn:E1; [|destruct (n <? 2048) eqn:E2; [|destruct (n <? 65536) eqn:E3]]; bool_simpl.
  - rewrite app_cons, app_empty_l. unfold utf8_next. rewrite ord_chr by lia.
    by rewrite (proj2 (Z.ltb_lt _ _)) by lia.
  - rewrite !app_cons, app_empty_l. unfold utf8_next.
    destruct (lead_char 192 32 (n / 64)) as [L1 L2]; [by left| |].
    { split; [apply Z.div_pos; lia|apply Z.div_lt_upper_bound; lia]. }
    destruct (cont_char (n mod 64)) as [C1 C2]; [apply Z.mod_pos_bound; lia|].
    rewrite L1, C1, C2. change (32 - 1) with 31 in L2. rewrite L2.
    assert (0 <= n / 64 < 32) by (split; [apply Z.div_pos; lia|apply Z.div_lt_upper_bound; lia]).
    assert (2 <= n / 64) by (apply Z.div_le_lower_bound; lia).
    rewrite (proj2 (Z.ltb_ge _ _)), (proj2 (Z.leb_le 194 _)), (proj2 (Z.ltb_lt _ 224)) by lia. simpl.
    do 2 f_equal. pose proof (Z.div_mod n 64 ltac:(lia)). lia.
  - rewrite !app_cons, app_empty_l. unfold utf8_next.
    assert (0 <= n / 4096 < 16) as H0 by (split; [apply Z.div_pos; lia|apply Z.div_lt_upper_bound; lia]).
    destruct (lead_char 224 16 (n / 4096)) as [L1 L2]; [right; by left|done|].
    destruct (cont_char (n / 64 mod 64)) as [C1 C2]; [apply Z.mod_pos_bound; lia|].
    destruct (cont_char (n mod 64)) as [D1 D2]; [apply Z.mod_pos_bound; lia|].
    rewrite L1, C1, C2, D1, D2. change (16 - 1) with 15 in L2. rewrite L2.
    rewrite (proj2 (Z.ltb_ge _ 128)), (proj2 (Z.leb_le 194 _)), (proj2 (Z.ltb_ge _ 224)), (proj2 (Z.leb_le 224 _)),
      (proj2 (Z.ltb_lt _ 240)) by lia. cbn [negb andb].
    assert (n / 4096 * 4096 + n / 64 mod 64 * 64 + n mod 64 = n) as ->.
    { replace (n / 4096) with (n / 64 / 64) by (rewrite Z.div_div by lia; done).
      pose proof (Z.div_mod n 64 ltac:(lia)). pose proof (Z.div_mod (n / 64) 64 ltac:(lia)). lia. }
    by rewrite (proj2 (Z.ltb_ge n 2048)) by lia.
  - rewrite !app_cons, app_empty_l. unfold utf8_next.
    assert (0 <= n / 262144 < 5) as H0 by (split; [apply Z.div_pos; lia|apply Z.div_lt_upper_bound; lia]).
    destruct (lead_char 240 8 (n / 262144)) as [L1 L2]; [right; right; by left|lia|].
    destruct (cont_char (n / 4096 mod 64)) as [B1 B2]; [apply Z.mod_pos_bound; lia|].
    destruct (cont_char (n / 64 mod 64)) as [C1 C2]; [apply Z.mod_pos_bound; lia|].
    destruct (cont_char (n mod 64)) as [D1 D2]; [apply Z.mod_pos_bound; lia|].
    rewrite L1, B1, B2, C1, C2, D1, D2. change (8 - 1) with 7 in L2. rewrite L2.
    rewrite (proj2 (Z.ltb_ge _ 128)), (proj2 (Z.leb_le 194 _)), (proj2 (Z.ltb_ge _ 224)), (proj2 (Z.leb_le 224 _)),
      (proj2 (Z.ltb_ge _ 240)), (proj2 (Z.leb_le 240 _)), (proj2 (Z.ltb_lt _ 245)) by lia. cbn [negb andb orb].
    assert (n / 262144 * 262144 + n / 4096 mod 64 * 4096 + n / 64 mod 64 * 64 + n mod 64 = n) as ->.
    { replace (n / 262144) with (n / 64 / 64 / 64) by (rewrite !Z.div_div by lia; done).
      replace (n / 4096) with (n / 64 / 64) by (rewrite Z.div_div by lia; done).
      pose proof (Z.div_mod n 64 ltac:(lia)). pose proof (Z.div_mod (n / 64) 64 ltac:(lia)).
      pose proof (Z.div_mod (n / 64 / 64) 64 ltac:(lia)). lia. }
    by rewrite (proj2 (Z.ltb_ge n 65536)), (proj2 (Z.ltb_ge 1114111 n)) by lia.
Qed.

(** ** Strings *)

Fixpoint escapes (codes : list Z) : string :=
  match codes with [] => "" | n :: ns => escape_char n +:+ escapes ns end.

Lemma utf8_encode_cons n : exists c s, utf8_encode n = String c s.
Proof. unfold utf8_encode. repeat case_match; eauto. Qed.

Lemma escape_go_text codes : Forall scalar_code codes -> forall fuel,
  (String.length (text_of codes) <= fuel)%nat -> escape_go fuel (text_of codes) = escapes codes.
Proof.
  induction 1 as [|n ns Hn Hns IH]; intros fuel Hf; [by destruct fuel|]. simpl in *.
  destruct (utf8_encode_cons n) as (c & s & Ec). rewrite str_length_app, Ec in Hf. simpl in Hf.
  destruct fuel as [|fuel]; [lia|]. pose proof (utf8_next_encode n (text_of ns) Hn) as Hx.
  rewrite Ec in *. rewrite app_cons in *. cbn [escape_go]. rewrite Hx, IH by lia. done.
Qed.

Lemma dumps_text codes : Forall scalar_code codes ->
  dumps_str (text_of codes) = String DQ (escapes codes +:+ String DQ "").
Proof. intros H. unfold dumps_str. by rewrite escape_go_text. Qed.

Lemma hex_fixed_4 n : hex_fixed 4 n = String (hex_digit (n / 16 / 16 / 16 mod 16))
  (String (hex_digit (n / 16 / 16 mod 16)) (String (hex_digit (n / 16 mod 16)) (String (hex_digit (n mod 16)) ""))).
Proof. reflexivity. Qed.

Lemma hex4_fixed n rest : 0 <= n < 65536 -> hex4 (hex_fixed 4 n +:+ rest) = Some (n, rest).
Proof.
  intros Hn. rewrite hex_fixed_4, !app_cons, app_empty_l. unfold hex4.
  rewrite !hex_value_digit by (apply Z.mod_pos_bound; lia). do 2 f_equal.
  assert (n / 16 / 16 / 16 < 16) by (rewrite !Z.div_div by lia; apply Z.div_lt_upper_bound; lia).
  assert (0 <= n / 16 / 16 / 16) by (rewrite !Z.div_div by lia; apply Z.div_pos; lia).
  rewrite (Z.mod_small (n / 16 / 16 / 16) 16) by lia.
  pose proof (Z.div_mod n 16 ltac:(lia)). pose proof (Z.div_mod (n / 16) 16 ltac:(lia)).
  pose proof (Z.div_mod (n / 16 / 16) 16 ltac:(lia)). lia.
Qed.

Lemma unicode_escape_single n rest : 0 <= n < 65536 -> ~ (55296 <= n <= 56319) ->
  unicode_escape (hex_fixed 4 n +:+ rest) = Some (n, rest).
Proof.
  intros Hn Hs. unfold unicode_escape. rewrite hex4_fixed by done.
  destruct ((55296 <=? n) && (n <=? 56319)) eqn:E; [|done]. bool_simpl. lia.
Qed.

Lemma unicode_escape_pair n rest : 65536 <= n <= 1114111 ->
  unicode_escape (hex_fixed 4 (55296 + (n - 65536) / 1024) +:+ u_escape (56320 + (n - 65536) mod 1024) +:+ rest)
  = Some (n, rest).
Proof.
  intros Hn. set (hi := (n - 65536) / 1024). set (lo := (n - 65536) mod 1024).
  assert (0 <= hi < 1024) by (split; [apply Z.div_pos; lia|apply Z.div_lt_upper_bound; lia]).
  assert (0 <= lo < 1024) by (apply Z.mod_pos_bound; lia).
  assert (n = 65536 + hi * 1024 + lo) as En by (pose proof (Z.div_mod (n - 65536) 1024 ltac:(lia)); lia).
  unfold unicode_escape. rewrite hex4_fixed by lia.
  rewrite (proj2 (Z.leb_le 55296 _)), (proj2 (Z.leb_le _ 56319)) by lia. cbn [andb].
  unfold u_escape. change ("\u" +:+ hex_fixed 4 (56320 + lo)) with (String "\" (String "u" (hex_fixed 4 (56320 + lo)))).
  rewrite !app_cons. cbn beta iota. rewrite hex4_fixed by lia.
  rewrite (proj2 (Z.leb_le 56320 _)), (proj2 (Z.leb_le _ 57343)) by lia. cbn [andb]. do 2 f_equal. lia.
Qed.

Definition after_code (n : Z) (o : option (string * string)) : option (string * string) :=
  match o with Some (t, r) => Some (utf8_encode n +:+ t, r) | None => None end.

Lemma scan_escape_u n s rest fuel : unicode_escape s = Some (n, rest) ->
  scan_string (S fuel) ("\u" +:+ s) = after_code n (scan_string fuel rest).
Proof.
  intros E. change ("\u" +:+ s) with (String "\" (String "u" s)).
  change (scan_string (S fuel) (String "\" (String "u" s))) with
    (match unicode_escape s with
     | None => None
     | Some (n, rest) => match scan_string fuel rest with
                         | Some (t, r) => Some (utf8_encode n +:+ t, r)
                         | None => None
                         end
     end). by rewrite E.
Qed.

Definition plain_code (n : Z) : bool :=
  (n <? 32) || (n =? 34) || (n =? 92)
  || negb (bool_decide (chr n = DQ)) && negb (bool_decide (chr n = "\"%char)) && negb (ord (chr n) <? 32).

Lemma printable n : 32 <= n <= 126 -> n <> 34 -> n <> 92 ->
  bool_decide (chr n = DQ) = false /\ bool_decide (chr n = "\"%char) = false /\ (ord (chr n) <? 32) = false.
Proof.
  intros H1 H2 H3.
  assert (plain_code n = true) as H by (apply (Z_forall_below plain_code 127); [vm_compute; reflexivity|lia]).
  unfold plain_code in H.
  rewrite (proj2 (Z.ltb_ge n 32)), (proj2 (Z.eqb_neq n 34)), (proj2 (Z.eqb_neq n 92)) in H by lia. cbn [orb] in H.
  apply andb_true_iff in H as [H H4]. apply andb_true_iff in H as [H5 H6]. by rewrite !negb_true_iff in *.
Qed.

Lemma scan_escaped n fuel s : scalar_code n ->
  scan_string (S fuel) (escape_char n +:+ s) = after_code n (scan_string fuel s).
Proof.
  intros Hn. unfold escape_char.
  repeat match goal with |- context [if n =? ?k then _ else _] => destruct (n =? k) eqn:?; [|] end;
  bool_simpl; subst; try reflexivity.
  destruct ((32 <=? n) && (n <=? 126)) eqn:Ep.
  - bool_simpl. destruct (printable n) as (A & B & C); [lia..|].
    change (String (chr n) "" +:+ s) with (String (chr n) s). cbn [scan_string]. rewrite A, B, C.
    unfold after_code, utf8_encode. by rewrite (proj2 (Z.ltb_lt n 128)) by lia.
  - unfold scalar_code in Hn. destruct (n <? 65536) eqn:E; bool_simpl.
    + unfold u_escape. rewrite app_assoc_str. apply scan_escape_u, unicode_escape_single; lia.
    + unfold u_escape at 1. rewrite !app_assoc_str. apply scan_escape_u, unicode_escape_pair. lia.
Qed.

Lemma escape_char_cons n : exists c s, escape_char n = String c s.
Proof. unfold escape_char, u_escape. repeat case_match; eexists _, _; reflexivity. Qed.

Lemma scan_text codes : Forall scalar_code codes -> forall fuel rest,
  (List.length codes < fuel)%nat ->
  scan_string fuel (escapes codes +:+ String DQ rest) = Some (text_of codes, rest).
Proof.
  induction 1 as [|n ns Hn Hns IH]; intros fuel rest Hf; (destruct fuel as [|fuel]; [simpl in Hf; lia|]).
  - reflexivity.
  - simpl in Hf. cbn [escapes text_of]. rewrite app_assoc_str, scan_escaped by done. rewrite IH by lia. done.
Qed.

Lemma escapes_length codes : (List.length codes <= String.length (escapes codes))%nat.
Proof.
  induction codes as [|n ns IH]; [done|]. simpl. destruct (escape_char_cons n) as (c & s & ->).
  rewrite str_length_app. simpl. lia.
Qed.

(** A text as it is read: from the opening quote. *)
Lemma scan_dumps s rest : good_text s -> exists body,
  dumps_str s +:+ rest = String DQ (body +:+ String DQ rest)
  /\ forall fuel, (String.length (body +:+ String DQ rest) <= fuel)%nat ->
       scan_string fuel (body +:+ String DQ rest) = Some (s, rest).
Proof.
  intros (codes & Hc & ->). exists (escapes codes). rewrite dumps_text by done. split.
  - by rewrite app_cons, app_assoc_str.
  - intros fuel Hf. apply scan_text; [done|]. rewrite str_length_app in Hf. simpl in Hf.
    pose proof (escapes_length codes). lia.
Qed.

(** ** Integers *)

Lemma digit_cases c : is_digit c = true -> exists k, 0 <= k < 10 /\ c = chr (48 + k).
Proof.
  unfold is_digit, char_between. change (ord "0") with 48. change (ord "9") with 57. intros H. bool_simpl.
  exists (ord c - 48). split; [lia|]. replace (48 + (ord c - 48)) with (ord c) by lia. by rewrite chr_ord.
Qed.

Lemma digit_char k : 0 <= k < 10 -> is_digit (chr (48 + k)) = true /\ ord (chr (48 + k)) = 48 + k.
Proof.
  intros Hk. rewrite ord_chr by lia. split; [|done]. unfold is_digit, char_between. rewrite ord_chr by lia.
  change (ord "0") with 48. change (ord "9") with 57. apply andb_true_iff. split; apply Z.leb_le; lia.
Qed.

(** The digits of a number: not empty, no leading zero but for zero itself, and its value. *)
Record digits_of (n : Z) (ds : string) : Prop := {
  dg_digits : all_chars is_digit ds = true;
  dg_head : exists c s, ds = String c s /\ (c = "0"%char -> ds = "0");
  dg_value : forall a rest, digits_value (ds +:+ rest) a
    = digits_value rest (a * 10 ^ Z.of_nat (String.length ds) + n);
}.

Lemma digits_one n : 0 <= n < 10 -> digits_of n (String (chr (48 + n)) "").
Proof.
  intros Hn. destruct (digit_char n Hn) as [H1 H2]. constructor.
  - simpl. by rewrite H1.
  - exists (chr (48 + n)), "". split; [done|]. intros E. by rewrite E.
  - intros a rest. rewrite app_cons. simpl. rewrite H2. f_equal. lia.
Qed.

Lemma digits_snoc n ds : 10 <= n -> digits_of (n / 10) ds -> digits_of n (ds +:+ String (chr (48 + n mod 10)) "").
Proof.
  intros Hn [H1 (c & s & Ec & H2) H3]. assert (0 <= n mod 10 < 10) as Hm by (apply Z.mod_pos_bound; lia).
  destruct (digit_char _ Hm) as [D1 D2]. constructor.
  - rewrite all_chars_app, H1. simpl. by rewrite D1.
  - exists c, (s +:+ String (chr (48 + n mod 10)) ""). rewrite Ec, app_cons. split; [done|]. intros E.
    specialize (H2 E). exfalso. specialize (H3 0 ""). rewrite H2 in H3. change (0 = n / 10) in H3.
    assert (1 <= n / 10) by (apply Z.div_le_lower_bound; lia). lia.
  - intros a rest. rewrite app_assoc_str, H3, str_length_app, app_cons. simpl. rewrite D2. f_equal.
    rewrite Nat2Z.inj_add, Z.pow_add_r by lia. change (10 ^ Z.of_nat 1) with 10.
    pose proof (Z.div_mod n 10 ltac:(lia)). lia.
Qed.

Lemma dec_digits_spec fuel : forall n acc, 0 <= n < 2 ^ Z.of_nat fuel -> (1 <= fuel)%nat ->
  exists ds, dec_digits fuel n acc = ds +:+ acc /\ digits_of n ds.
Proof.
  induction fuel as [|fuel IH]; intros n acc Hn Hf; [lia|]. cbn [dec_digits]. cbv zeta.
  destruct (n <? 10) eqn:E; bool_simpl.
  - exists (String (chr (48 + n mod 10)) ""). rewrite Z.mod_small by lia. split; [done|]. apply digits_one. lia.
  - rewrite Nat2Z.inj_succ, Z.pow_succ_r in Hn by lia.
    assert (0 <= n / 10 < 2 ^ Z.of_nat fuel) as Hd.
    { split; [apply Z.div_pos; lia|]. apply Z.div_lt_upper_bound; lia. }
    assert (1 <= n / 10) by (apply Z.div_le_lower_bound; lia).
    destruct (IH (n / 10) (String (chr (48 + n mod 10)) acc) Hd) as (ds & -> & Hds).
    { destruct fuel; [simpl in Hd; lia|lia]. }
    exists (ds +:+ String (chr (48 + n mod 10)) ""). split; [|by apply digits_snoc].
    by rewrite app_assoc_str, app_cons, app_empty_l.
Qed.

Lemma dec_nat_digits n : 0 <= n -> digits_of n (dec_nat n).
Proof.
  intros Hn. unfold dec_nat.
  destruct (dec_digits_spec (S (Z.to_nat (Z.log2 n))) n "") as (ds & -> & Hds); [|lia|by rewrite app_empty_r].
  split; [done|]. rewrite Nat2Z.inj_succ, Z2Nat.id by apply Z.log2_nonneg.
  destruct (decide (n = 0)) as [->|]; [done|]. apply Z.log2_spec. lia.
Qed.

(** What may follow a value: the end, or the next sign of an array or object. *)
Definition stops (rest : string) : Prop :=
  match rest with EmptyString => True | String c _ => c = ","%char \/ c = "]"%char \/ c = "}"%char end.

Lemma span_digits ds rest : all_chars is_digit ds = true -> stops rest -> span is_digit (ds +:+ rest) = (ds, rest).
Proof.
  intros Hd Hs. induction ds as [|c ds IH].
  - destruct rest as [|d rest]; [done|]. by destruct Hs as [->|[->| ->]].
  - simpl in Hd. apply andb_true_iff in Hd as [Hc Hd]. rewrite app_cons. simpl. by rewrite Hc, IH.
Qed.

Lemma scan_frac_stops rest : stops rest -> scan_frac rest = ("", rest).
Proof. destruct rest as [|c rest]; [done|]. by intros [->|[->| ->]]. Qed.
Lemma scan_exp_stops rest : stops rest -> scan_exp rest = ("", rest).
Proof. destruct rest as [|c rest]; [done|]. by intros [->|[->| ->]]. Qed.

Lemma scan_number_digits neg n ds rest : digits_of n ds -> (String.length ds <= INT_MAX_STR_DIGITS)%nat ->
  stops rest -> scan_number neg (ds +:+ rest) = Some (JInt (if neg then - n else n), rest).
Proof.
  intros [H1 (c & s & Ec & H2) H3] Hl Hs. unfold scan_number.
  assert (match ds +:+ rest with
          | String "0" r => Some ("0", r)
          | _ => match span is_digit (ds +:+ rest) with
                 | (EmptyString, _) => None
                 | (d, r) => Some (d, r)
                 end
          end = Some (ds, rest)) as ->.
  { rewrite span_digits by done. destruct (decide (c = "0"%char)) as [->|Hc].
    - rewrite (H2 eq_refl). done.
    - rewrite Ec, app_cons. destruct c as [[] [] [] [] [] [] [] []]; try done. }
  rewrite scan_frac_stops, scan_exp_stops by done. cbn beta iota. rewrite !bool_decide_eq_true_2 by done. cbn [andb].
  rewrite (proj2 (Nat.ltb_ge _ _)) by done.
  specialize (H3 0 ""). rewrite app_empty_r in H3. simpl in H3. by rewrite H3.
Qed.

Lemma scan_constant_digit c s : is_digit c = true \/ c = "-"%char /\ (exists d s', s = String d s' /\ is_digit d = true) ->
  scan_constant (String c s) = None.
Proof.
  assert (forall d, is_digit d = true -> d <> "n"%char /\ d <> "t"%char /\ d <> "f"%char /\ d <> "N"%char /\ d <> "I"%char /\ d <> "-"%char) as Hd.
  { intros d H. repeat split; intros ->; done. }
  intros [H|(-> & d & s' & -> & H)].
  - destruct (Hd _ H) as (?&?&?&?&?&?). unfold scan_constant. cbn [strip_prefix].
    by rewrite !bool_decide_eq_false_2 by congruence.
  - destruct (Hd _ H) as (?&?&?&?&?&?). unfold scan_constant. cbn [strip_prefix].
    rewrite !(bool_decide_eq_false_2 (_ = "-"%char)) by done. cbn [strip_prefix].
    by rewrite (bool_decide_eq_true_2 ("-"%char = "-"%char)), (bool_decide_eq_false_2 ("I"%char = d)) by congruence.
Qed.

(** ** Values *)

(** What the writer prints so that the reader gives it back: no float (its text is not
    unique), texts of Unicode scalar values, integers within the digit limit of [int], and
    the distinct keys every [dict] has. *)
Inductive plain_json : json -> Prop :=
| plain_null : plain_json JNull
| plain_bool b : plain_json (JBool b)
| plain_int n : (String.length (dec_nat (Z.abs n)) <= INT_MAX_STR_DIGITS)%nat -> plain_json (JInt n)
| plain_str s : good_text s -> plain_json (JStr s)
| plain_arr l : Forall plain_json l -> plain_json (JArr l)
| plain_obj fs : Forall good_text fs.*1 -> NoDup fs.*1 -> Forall plain_json fs.*2 -> plain_json (JObj fs).

Section json_induction.
Context (P : json -> Prop).
Context (Hnull : P JNull) (Hbool : forall b, P (JBool b)) (Hint : forall n, P (JInt n))
  (Hfloat : forall t, P (JFloat t)) (Hstr : forall s, P (JStr s))
  (Harr : forall l, Forall P l -> P (JArr l)) (Hobj : forall fs, Forall P fs.*2 -> P (JObj fs)).

Fixpoint json_nested (j : json) : P j :=
  match j with
  | JNull => Hnull
  | JBool b => Hbool b
  | JInt n => Hint n
  | JFloat t => Hfloat t
  | JStr s => Hstr s
  | JArr l => Harr l ((fix go (l : list json) : Forall P l :=
      match l with [] => @List.Forall_nil _ _ | j :: l' => @List.Forall_cons _ _ _ _ (json_nested j) (go l') end) l)
  | JObj fs => Hobj fs ((fix go (fs : list (string * json)) : Forall P fs.*2 :=
      match fs with
      | [] => @List.Forall_nil _ _
      | (k, j) :: fs' => @List.Forall_cons _ _ _ _ (json_nested j) (go fs')
      end) fs)
  end.
End json_induction.

(** The first sign of a written value. *)
Definition opens (s : string) : Prop :=
  exists c s', s = String c s' /\ is_ws c = false /\ c <> "]"%char /\ c <> "}"%char.

Lemma opens_skip s : opens s -> skip_ws s = s.
Proof. intros (c & s' & -> & H & _). unfold skip_ws. cbn [lstrip_by]. by rewrite H. Qed.

Lemma stops_skip c s : c = ","%char \/ c = "]"%char \/ c = "}"%char -> skip_ws (String c s) = String c s.
Proof. by intros [->|[->| ->]]. Qed.

Lemma opens_digit c s : is_digit c = true -> opens (String c s).
Proof.
  intros H. exists c, s. split; [done|]. split; [|split; intros ->; done].
  unfold is_ws. apply bool_decide_eq_false_2. rewrite !elem_of_cons, elem_of_nil.
  intros [->|[->|[->|[->|[]]]]]; done.
Qed.

Lemma dumps_opens j rest : plain_json j -> opens (dumps_compact j +:+ rest).
Proof.
  destruct 1 as [|[]|n|s| |]; try (eexists _, _; split; [reflexivity|]; split; [reflexivity|done]).
  - unfold dumps_compact. cbn [json_dumps]. unfold dec_str. destruct (n <? 0) eqn:E; bool_simpl.
    + rewrite app_cons. eexists _, _. split; [reflexivity|]. split; [reflexivity|done].
    + destruct (dec_nat_digits n ltac:(lia)) as [Hd (c & s & Ec & _) _]. rewrite Ec in Hd |- *. rewrite app_cons.
      simpl in Hd. apply andb_true_iff in Hd as [Hd _]. by apply opens_digit.
Qed.

(** How the written elements, and the written members, are laid out. *)
Definition member_text (kv : string * json) : string := dumps_str kv.1 +:+ ":" +:+ dumps_compact kv.2.
Fixpoint elems_text (l : list json) (close : string) : string :=
  match l with
  | [] => close
  | [j] => dumps_compact j +:+ close
  | j :: l' => dumps_compact j +:+ "," +:+ elems_text l' close
  end.
Fixpoint members_text (fs : list (string * json)) (close : string) : string :=
  match fs with
  | [] => close
  | [kv] => member_text kv +:+ close
  | kv :: fs' => member_text kv +:+ "," +:+ members_text fs' close
  end.

Lemma elems_cons j j' l close :
  elems_text (j :: j' :: l) close = dumps_compact j +:+ String "," (elems_text (j' :: l) close).
Proof. done. Qed.
Lemma members_cons kv kv' fs close :
  members_text (kv :: kv' :: fs) close = member_text kv +:+ String "," (members_text (kv' :: fs) close).
Proof. done. Qed.

Lemma members_head kv fs close : exists s, members_text (kv :: fs) close = String DQ s.
Proof. destruct fs; eexists; reflexivity. Qed.

Lemma join_elems l close : join "," (map dumps_compact l) +:+ close = elems_text l close.
Proof.
  induction l as [|j [|j' l] IH]; [done..|].
  change (map dumps_compact (j :: j' :: l)) with (dumps_compact j :: map dumps_compact (j' :: l)).
  rewrite elems_cons, <- IH. cbn [map join]. by rewrite !app_assoc_str.
Qed.

Lemma join_members fs close : join "," (map member_text fs) +:+ close = members_text fs close.
Proof.
  induction fs as [|j [|j' l] IH]; [done..|].
  change (map member_text (j :: j' :: l)) with (member_text j :: map member_text (j' :: l)).
  rewrite members_cons, <- IH. cbn [map join]. by rewrite !app_assoc_str.
Qed.

Lemma dumps_arr l rest : dumps_compact (JArr l) +:+ rest = String "[" (elems_text l (String "]" rest)).
Proof.
  change (dumps_compact (JArr l)) with ("[" +:+ (join "," (map dumps_compact l) +:+ "]")).
  by rewrite app_assoc_str, app_assoc_str, join_elems.
Qed.

Lemma dumps_obj fs rest : dumps_compact (JObj fs) +:+ rest = String "{" (members_text fs (String "}" rest)).
Proof.
  change (dumps_compact (JObj fs)) with ("{" +:+ (join "," (map member_text fs) +:+ "}")).
  by rewrite app_assoc_str, app_assoc_str, join_members.
Qed.

Definition reads (j : json) : Prop := forall fuel rest, stops rest ->
  (String.length (dumps_compact j) <= fuel)%nat -> scan_value fuel (dumps_compact j +:+ rest) = Some (j, rest).

Lemma reads_elems l rest : l <> [] -> Forall plain_json l -> Forall reads l -> forall fuel,
  (String.length (elems_text l "]") <= fuel)%nat ->
  scan_elems fuel (elems_text l (String "]" rest)) = Some (l, rest).
Proof.
  intros Hne Hp Hr. induction Hr as [|j l Hj Hl IH]; [done|]. apply Forall_cons in Hp as [Hp Hpl].
  intros fuel Hf. destruct l as [|j' l]; rewrite ?elems_cons in *; [cbn [elems_text] in *|]; rewrite ?str_length_app in Hf; simpl in Hf;
    (destruct fuel as [|fuel]; [lia|]); cbn [scan_elems].
  - rewrite Hj; [|simpl; tauto|lia]. by rewrite stops_skip by tauto.
  - rewrite Hj; [|simpl; tauto|lia].
    rewrite stops_skip by tauto. rewrite opens_skip; [rewrite IH; [done|done|done|simpl; lia]|].
    apply Forall_cons in Hpl as [Hpl _]. destruct l; by apply dumps_opens.
Qed.

Lemma assoc_set_fresh {A} k (v : A) fs : k ∉ fs.*1 -> assoc_set k v fs = (fs ++ [(k, v)])%list.
Proof.
  induction fs as [|[k' v'] fs IH]; [done|]. cbn. rewrite elem_of_cons. intros H.
  rewrite bool_decide_eq_false_2 by tauto. by rewrite IH by tauto.
Qed.

Lemma skip_colon s : skip_ws (":" +:+ s) = String ":" s.
Proof. done. Qed.

Lemma reads_members fs rest : fs <> [] -> Forall good_text fs.*1 -> Forall plain_json fs.*2 -> Forall reads fs.*2 ->
  forall fuel acc, NoDup (acc ++ fs).*1 -> (String.length (members_text fs "}") <= fuel)%nat ->
  scan_members fuel (members_text fs (String "}" rest)) acc = Some ((acc ++ fs)%list, rest).
Proof.
  intros Hne Hk Hp Hr. induction fs as [|[k j] fs IH]; [done|].
  apply Forall_cons in Hk as [Hk Hks]. apply Forall_cons in Hp as [Hp Hps]. apply Forall_cons in Hr as [Hj Hjs].
  intros fuel acc Hnd Hf. cbn [fst snd] in Hk, Hp, Hj.
  assert (k ∉ acc.*1) as Hfresh.
  { rewrite fmap_app in Hnd. cbn in Hnd. apply NoDup_app in Hnd as (_ & H & _). intros Hin.
    apply (H k Hin). by left. }
  assert (forall tail, exists body, member_text (k, j) +:+ tail
    = String DQ (body +:+ String DQ (":" +:+ dumps_compact j +:+ tail))
    /\ scan_string (String.length (member_text (k, j) +:+ tail)) (body +:+ String DQ (":" +:+ dumps_compact j +:+ tail))
       = Some (k, ":" +:+ dumps_compact j +:+ tail)) as Hkey.
  { intros tail. unfold member_text. cbn [fst snd]. rewrite !app_assoc_str.
    destruct (scan_dumps k (":" +:+ dumps_compact j +:+ tail) Hk) as (body & E & H).
    exists body. split; [done|]. apply H. rewrite E. simpl. lia. }
  destruct fs as [|[k' j'] fs]; rewrite ?members_cons in *; [cbn [members_text] in *|]; unfold member_text in Hf at 1; cbn [fst snd] in Hf;
    rewrite !str_length_app in Hf; simpl in Hf; (destruct fuel as [|fuel]; [lia|]); cbn [scan_members].
  - destruct (Hkey (String "}" rest)) as (body & E & H). rewrite E in H |- *. rewrite bool_decide_eq_true_2 by done.
    cbn [negb]. rewrite H, skip_colon. rewrite opens_skip by by apply dumps_opens.
    rewrite Hj; [|simpl; tauto|lia]. rewrite stops_skip by tauto. by rewrite assoc_set_fresh.
  - destruct (Hkey (String "," (members_text ((k', j') :: fs) (String "}" rest)))) as (body & E & H).
    rewrite E in H |- *. rewrite bool_decide_eq_true_2 by done.
    cbn [negb]. rewrite H, skip_colon. rewrite opens_skip by by apply dumps_opens.
    rewrite Hj; [|simpl; tauto|lia]. rewrite stops_skip by tauto. rewrite assoc_set_fresh by done.
    rewrite opens_skip by (destruct (members_head (k', j') fs (String "}" rest)) as (t & ->); eexists _, _; split; [reflexivity|done]).
    rewrite (IH ltac:(done) Hks Hps Hjs); [by rewrite <- app_assoc|by rewrite <- app_assoc|simpl; lia].
Qed.

Lemma reads_int n fuel rest : (String.length (dec_nat (Z.abs n)) <= INT_MAX_STR_DIGITS)%nat -> stops rest ->
  scan_value (S fuel) (dumps_compact (JInt n) +:+ rest) = Some (JInt n, rest).
Proof.
  intros Hl Hs.
  unfold dumps_compact. cbn [json_dumps]. unfold dec_str.
  destruct (n <? 0) eqn:E; bool_simpl.
  + rewrite Z.abs_neq in Hl by lia. pose proof (dec_nat_digits (- n) ltac:(lia)) as Hd.
    destruct (dg_head _ _ Hd) as (c & s & Ec & _). pose proof (dg_digits _ _ Hd) as Hc. rewrite Ec in Hc.
    simpl in Hc. apply andb_true_iff in Hc as [Hc _].
    rewrite app_assoc_str, app_cons, app_empty_l. cbn [scan_value].
    rewrite !bool_decide_eq_false_2 by done. rewrite scan_constant_digit.
    2: { right. split; [done|]. rewrite Ec, app_cons. eauto. }
    rewrite (scan_number_digits true (- n)) by done. by rewrite Z.opp_involutive.
  + rewrite Z.abs_eq in Hl by lia. pose proof (dec_nat_digits n ltac:(lia)) as Hd.
    destruct (dg_head _ _ Hd) as (c & s & Ec & _). pose proof (dg_digits _ _ Hd) as Hc.
    pose proof (scan_number_digits false n _ rest Hd Hl Hs) as Hn.
    rewrite Ec in Hc, Hn |- *. simpl in Hc. apply andb_true_iff in Hc as [Hc _].
    rewrite app_cons in *. cbn [scan_value].
    rewrite !bool_decide_eq_false_2 by (intros ->; done). rewrite scan_constant_digit by by left.
    destruct c as [[] [] [] [] [] [] [] []]; try done.
Qed.

Lemma reads_plain j : plain_json j -> reads j.
Proof.
  induction j as [|b|n|t|s|l IH|fs IH] using json_nested; intros Hp fuel rest Hs Hf;
    (destruct fuel as [|fuel]; [exfalso; destruct (dumps_opens _ "" Hp) as (? & ? & E & _); rewrite app_empty_r in E; rewrite E in Hf; simpl in Hf; lia|]).
  - done.
  - by destruct b.
  - inversion Hp as [| |? Hl| | |]; subst. by apply reads_int.
  - inversion Hp.
  - inversion Hp as [| | |? Hg| |]; subst. change (dumps_compact (JStr s)) with (dumps_str s).
    destruct (scan_dumps s rest Hg) as (body & -> & H). cbn [scan_value].
    rewrite bool_decide_eq_true_2 by done. rewrite H by (simpl; lia). done.
  - inversion Hp as [| | | |? Hl|]; subst. rewrite dumps_arr. cbn [scan_value].
    rewrite !bool_decide_eq_false_2 by done. rewrite bool_decide_eq_true_2 by done.
    assert (Forall reads l) as Hr.
    { apply Forall_forall. intros j Hj. rewrite Forall_forall in IH, Hl. by apply IH, Hl. }
    destruct l as [|j l]; [done|]. apply Forall_cons in Hl as Hl'. destruct Hl' as [Hj _].
    assert (opens (elems_text (j :: l) (String "]" rest))) as Ho by (destruct l; by apply dumps_opens).
    assert (String.length (elems_text (j :: l) "]") <= fuel)%nat as Hlen.
    { pose proof (dumps_arr (j :: l) "") as E. rewrite app_empty_r in E. rewrite E in Hf. simpl in Hf |- *. lia. }
    rewrite opens_skip by done. pose proof (reads_elems (j :: l) rest ltac:(done) Hl Hr fuel Hlen) as H.
    destruct Ho as (c & s & E & _ & Hc & _). rewrite E in H |- *.
    destruct c as [[] [] [] [] [] [] [] []]; try (by rewrite H). done.
  - inversion Hp as [| | | | |? Hk Hnd Hl]; subst. rewrite dumps_obj. cbn [scan_value].
    rewrite bool_decide_eq_false_2 by done. rewrite bool_decide_eq_true_2 by done.
    assert (Forall reads fs.*2) as Hr.
    { apply Forall_forall. intros j Hj. rewrite Forall_forall in IH, Hl. by apply IH, Hl. }
    destruct fs as [|kv fs]; [done|].
    destruct (members_head kv fs (String "}" rest)) as (s & Ho).
    assert (String.length (members_text (kv :: fs) "}") <= fuel)%nat as Hlen.
    { pose proof (dumps_obj (kv :: fs) "") as E. rewrite app_empty_r in E. rewrite E in Hf. simpl in Hf |- *. lia. }
    pose proof (reads_members (kv :: fs) rest ltac:(done) Hk Hl Hr fuel [] Hnd Hlen) as H.
    rewrite Ho in H |- *. transitivity (match scan_members fuel (String DQ s) [] with
                  | Some (ms, r) => Some (JObj ms, r) | None => None end); [reflexivity|by rewrite H].
Qed.


(** ** The whole document *)

Definition ascii_char (c : ascii) : bool := ord c <? 128.
Notation ascii_text := (all_chars ascii_char).

Lemma ascii_utf8 s : ascii_text s = true -> forall fuel, (String.length s <= fuel)%nat -> utf8_ok_go fuel s = true.
Proof.
  induction s as [|c s IH]; intros H fuel Hf; [by destruct fuel|]. simpl in H, Hf.
  apply andb_true_iff in H as [Hc Hs]. destruct fuel as [|fuel]; [lia|]. cbn [utf8_ok_go].
  unfold ascii_char in Hc. unfold utf8_next. rewrite Hc. apply IH; [done|lia].
Qed.

(** The printable characters: what a text on a single line is made of. *)
Definition line_char (c : ascii) : bool := (32 <=? ord c) && (ord c <=? 126).
Notation line_text := (all_chars line_char).

Lemma line_ascii s : line_text s = true -> ascii_text s = true.
Proof.
  apply all_chars_impl. intros c. unfold line_char, ascii_char. rewrite andb_true_iff, !Z.leb_le, Z.ltb_lt. lia.
Qed.

Lemma escape_line n : line_text (escape_char n) = true.
Proof.
  unfold escape_char. repeat (case_match; [reflexivity|]).
  assert (forall m, line_text (u_escape m) = true) as Hu.
  { intros m. unfold u_escape. rewrite all_chars_app. cbn -[hex_fixed].
    eapply all_chars_impl; [|apply hex_fixed_chars]. intros c. unfold is_hex_lower, is_digit, char_between, line_char.
    change (ord "0") with 48. change (ord "9") with 57. change (ord "a") with 97. change (ord "f") with 102.
    rewrite orb_true_iff, andb_true_iff, !Z.leb_le. intros [Hc|Hc]; bool_simpl; lia. }
  case_match; bool_simpl.
  - simpl. unfold line_char. rewrite ord_chr by lia. rewrite !(proj2 (Z.leb_le _ _)) by lia. done.
  - case_match; [apply Hu|]. by rewrite all_chars_app, !Hu.
Qed.

Lemma dumps_str_line s : good_text s -> line_text (dumps_str s) = true.
Proof.
  intros (codes & Hc & ->). rewrite dumps_text by done.
  assert (line_text (escapes codes) = true) as H; [|by cbn; rewrite all_chars_app, H].
  clear Hc. induction codes as [|n ns IH]; [done|]. cbn [escapes]. by rewrite all_chars_app, escape_line, IH.
Qed.

Lemma digits_line n : 0 <= n -> line_text (dec_nat n) = true.
Proof.
  intros Hn. destruct (dec_nat_digits n Hn) as [H _ _]. revert H. apply all_chars_impl.
  intros c. unfold is_digit, char_between, line_char. change (ord "0") with 48. change (ord "9") with 57.
  rewrite !andb_true_iff, !Z.leb_le. lia.
Qed.

Lemma elems_line l close : line_text close = true -> Forall (fun j => line_text (dumps_compact j) = true) l ->
  line_text (elems_text l close) = true.
Proof.
  intros Hc. induction 1 as [|j [|j' l] Hj Hl IH]; [done| |].
  - cbn [elems_text]. by rewrite all_chars_app, Hj, Hc.
  - rewrite elems_cons, all_chars_app, Hj. cbn [andb all_chars]. by rewrite IH.
Qed.

Lemma members_line fs close : line_text close = true -> Forall good_text fs.*1 ->
  Forall (fun j => line_text (dumps_compact j) = true) fs.*2 -> line_text (members_text fs close) = true.
Proof.
  intros Hc Hk Hv. induction fs as [|[k j] fs IH]; [done|].
  apply Forall_cons in Hk as [Hk Hks]. apply Forall_cons in Hv as [Hv Hvs]. cbn [fst snd] in *.
  assert (line_text (member_text (k, j)) = true) as Hm.
  { unfold member_text. cbn [fst snd]. by rewrite !all_chars_app, dumps_str_line, Hv. }
  destruct fs as [|kv fs].
  - cbn [members_text]. by rewrite all_chars_app, Hm, Hc.
  - rewrite members_cons, all_chars_app, Hm. cbn [andb all_chars]. by rewrite IH.
Qed.

Lemma dumps_line j : plain_json j -> line_text (dumps_compact j) = true.
Proof.
  induction j as [|[]|n|t|s|l IH|fs IH] using json_nested; intros Hp; inversion Hp as [| | |? Hs|? Hl|? Hk ? Hl]; subst; try done.
  - unfold dumps_compact. cbn [json_dumps]. unfold dec_str. case_match; bool_simpl; [|apply digits_line; lia].
    rewrite all_chars_app. cbn. apply digits_line. lia.
  - by apply dumps_str_line.
  - pose proof (dumps_arr l "") as E. rewrite app_empty_r in E. rewrite E. cbn [all_chars].
    rewrite elems_line; [done|done|]. rewrite Forall_forall in *. eauto.
  - pose proof (dumps_obj fs "") as E. rewrite app_empty_r in E. rewrite E. cbn [all_chars].
    rewrite members_line; [done|done|done|]. rewrite Forall_forall in *. eauto.
Qed.

Lemma dumps_ascii j : plain_json j -> ascii_text (dumps_compact j) = true.
Proof. intros H. by apply line_ascii, dumps_line. Qed.

Lemma loads_str_dumps j : plain_json j -> json_loads_str (dumps_compact j) = Some j.
Proof.
  intros Hj. pose proof (dumps_opens j "" Hj) as Ho. rewrite app_empty_r in Ho.
  unfold json_loads_str. rewrite opens_skip by done.
  pose proof (reads_plain j Hj (S (String.length (dumps_compact j))) "" I ltac:(lia)) as H.
  rewrite app_empty_r in H. by rewrite H.
Qed.

Lemma loads_dumps j : plain_json j -> json_loads (dumps_compact j) = Some j.
Proof.
  intros Hj. pose proof (dumps_ascii j Hj) as Ha. unfold json_loads.
  destruct (strip_prefix BOM (dumps_compact j)) as [r|] eqn:E.
  - apply strip_prefix_Some in E. rewrite E in Ha. done.
  - cbn [default]. unfold utf8_ok. rewrite ascii_utf8 by done. by apply loads_str_dumps.
Qed.

(** ASCII texts are good. *)
Lemma good_ascii s : ascii_text s = true -> good_text s.
Proof.
  induction s as [|c s IH]; intros H; [by exists []|].
  cbn [all_chars] in H. apply andb_true_iff in H as [Hc Hs]. destruct (IH Hs) as (codes & H1 & ->).
  unfold ascii_char in Hc. exists (ord c :: codes). split.
  - constructor; [|done]. left. pose proof (ord_range c). bool_simpl. lia.
  - cbn [text_of]. unfold utf8_encode. by rewrite Hc, chr_ord.
Qed.
