(* ===== verification/PyTime.v ===== *)
(** * PyTime: UTC datetimes

    A [datetime] is its number of microseconds since 1970-01-01T00:00Z, a
    [timedelta] a number of microseconds; both are Python's resolution. *)

From S2P Require Import Prelude PyStr.
Local Open Scope Z_scope.

(** [timedelta(seconds=n)] and [timedelta(minutes=n)]. *)
Definition seconds (n : Z) : Z := n * 1000000.
Definition minutes (n : Z) : Z := seconds (60 * n).

Definition DAY_US : Z := seconds 86400.

(** [d.weekday()]: Monday is 0; the epoch was a Thursday. *)
Definition weekday (d : Z) : Z := (d / DAY_US + 3) mod 7.

(** The time of day to the minute, as minutes past midnight. *)
Definition minute_of_day (d : Z) : Z := (d mod DAY_US) / minutes 1.

(** [int(td.total_seconds())]: towards zero. *)
Definition total_seconds_int (td : Z) : Z := Z.quot td 1000000.

(** [int(d.timestamp())]. *)
Definition timestamp_int (d : Z) : Z := Z.quot d 1000000.

(** [datetime.fromtimestamp(n, tz=UTC)]. *)
Definition fromtimestamp (n : Z) : Z := seconds n.

(** [strptime(value, '%H:%M')], in minutes past midnight.  The format compiles to
    [(2[0-3]|[0-1]\d|\d):([0-5]\d|\d)], which must consume the whole text. *)
Definition digit (c : ascii) : option Z := if is_digit c then Some (ord c - 48) else None.

Definition strptime_minute (s : string) : option Z :=
  match s with
  | String a EmptyString => digit a
  | String a (String b EmptyString) =>
      match digit a, digit b with
      | Some x, Some y => if x <=? 5 then Some (10 * x + y) else None
      | _, _ => None
      end
  | _ => None
  end.

Definition strptime_hhmm (s : string) : option Z :=
  match s with
  | String a (String ":" rest) =>
      match digit a, strptime_minute rest with
      | Some h, Some m => Some (60 * h + m)
      | _, _ => None
      end
  | String a (String b (String ":" rest)) =>
      match digit a, digit b, strptime_minute rest with
      | Some x, Some y, Some m =>
          if 10 * x + y <=? 23 then Some (60 * (10 * x + y) + m) else None
      | _, _, _ => None
      end
  | _ => None
  end.

Lemma digit_range c n : digit c = Some n -> 0 <= n <= 9.
Proof.
  unfold digit, is_digit, char_between. change (ord "0") with 48. change (ord "9") with 57.
  destruct (48 <=? ord c) eqn:E1, (ord c <=? 57) eqn:E2; simpl; [|done..].
  intros [= <-]. lia.
Qed.

(** A parsed time is a minute of the day. *)
Lemma strptime_minute_range s m : strptime_minute s = Some m -> 0 <= m < 60.
Proof.
  unfold strptime_minute. destruct s as [|a [|b [|? ?]]]; [done| | |done].
  - intros H%digit_range. lia.
  - destruct (digit a) as [x|] eqn:Ea; [|done]. destruct (digit b) as [y|] eqn:Eb; [|done].
    apply digit_range in Ea, Eb. destruct (x <=? 5) eqn:E; [|done]. intros [= <-]. lia.
Qed.

Lemma minute_of_day_range d : 0 <= minute_of_day d < 1440.
Proof.
  unfold minute_of_day, DAY_US, minutes, seconds.
  pose proof (Z.mod_pos_bound d (86400 * 1000000) ltac:(lia)).
  split; [apply Z.div_pos; lia|]. apply Z.div_lt_upper_bound; lia.
Qed.

Lemma weekday_range d : 0 <= weekday d < 7.
Proof. apply Z.mod_pos_bound. lia. Qed.
