(* ===== verification/Url.v ===== *)
(** * Url: the parts of [urllib.parse] the control plane uses *)

From S2P Require Import Prelude PyStr Encoding.
Local Open Scope Z_scope.

(** ** Percent encoding *)

(** The characters [quote] never encodes. *)
Definition always_safe (c : ascii) : bool :=
  is_alnum c || bool_decide (c = "_"%char) || bool_decide (c = "."%char)
  || bool_decide (c = "-"%char) || bool_decide (c = "~"%char).

(** [quote(s, safe=safe)]; the text is held as UTF-8 bytes already. *)
Fixpoint quote (safe : ascii -> bool) (s : string) : string :=
  match s with
  | EmptyString => EmptyString
  | String c s' =>
      if always_safe c || safe c then String c (quote safe s')
      else String "%" (String (hex_digit_upper (ord c / 16))
             (String (hex_digit_upper (ord c mod 16)) (quote safe s')))
  end.

Definition no_safe (_ : ascii) : bool := false.
Definition quote_all : string -> string := quote no_safe.

(** [quote_plus(s)]: blanks become plus signs. *)
Definition quote_plus (s : string) : string :=
  map_chars (fun c => if bool_decide (c = " "%char) then "+"%char else c)
            (quote (fun c => bool_decide (c = " "%char)) s).

(** [urlencode(params)]. *)
Definition urlencode (params : list (string * string)) : string :=
  join "&" (map (fun kv => quote_plus kv.1 +:+ "=" +:+ quote_plus kv.2) params).

(** What comes out of [quote(s, safe='')]. *)
Definition is_quoted_char (c : ascii) : bool := always_safe c || bool_decide (c = "%"%char).

Lemma hex_digit_upper_safe n : 0 <= n < 16 -> is_quoted_char (hex_digit_upper n) = true.
Proof.
  intros H. eapply (Z_forall_below (fun n => is_quoted_char (hex_digit_upper n)) 16); [|lia].
  vm_compute. reflexivity.
Qed.

Lemma quote_all_chars s : all_chars is_quoted_char (quote_all s) = true.
Proof.
  unfold quote_all. induction s as [|c s IH]; [done|]. simpl. unfold no_safe at 1.
  rewrite orb_false_r. destruct (always_safe c) eqn:E; simpl.
  - unfold is_quoted_char at 1. by rewrite E.
  - pose proof (ord_range c). rewrite !hex_digit_upper_safe, IH; [done|..].
    + apply Z.mod_pos_bound. lia.
    + split; [apply Z.div_pos; lia|]. apply Z.div_lt_upper_bound; lia.
Qed.

(** No delimiter survives quoting. *)
Lemma quote_all_no c s : is_quoted_char c = false -> no_char c (quote_all s) = true.
Proof.
  intros Hc. eapply all_chars_impl, quote_all_chars. intros d Hd. simpl.
  apply negb_true_iff, bool_decide_eq_false_2. intros ->. by rewrite Hd in Hc.
Qed.

(** ** IP literals ([ipaddress]) *)

Definition decimal_value (s : string) : Z :=
  (fix go (s : string) (acc : Z) :=
     match s with EmptyString => acc | String c s' => go s' (10 * acc + (ord c - 48)) end) s 0.

Definition ipv4_octet_ok (s : string) : bool :=
  negb (bool_decide (s = "")) && all_chars is_digit s
  && bool_decide (String.length s <= 3)%nat
  && (negb (startswith s "0") || bool_decide (String.length s = 1%nat))
  && (decimal_value s <=? 255).

Definition ipv4_ok (s : string) : bool :=
  let parts := split_char "." s in
  bool_decide (List.length parts = 4%nat) && forallb ipv4_octet_ok parts.

Definition hextet_ok (s : string) : bool :=
  negb (bool_decide (s = "")) && bool_decide (String.length s <= 4)%nat
  && all_chars (fun c => bool_decide (is_Some (hex_value c))) s.

(** The parts of an address after an IPv4-style suffix became two hextets. *)
Definition ipv6_expand (parts : list string) : option (list string) :=
  match last parts with
  | Some p =>
      if contains "." p
      then if ipv4_ok p then Some (take (List.length parts - 1) parts ++ ["0"; "0"]) else None
      else Some parts
  | None => None
  end.

Definition ipv6_ok (s : string) : bool :=
  let addr := match partition "%" s with
              | None => Some s
              | Some (a, scope) =>
                  if bool_decide (scope = "") || contains "%" scope then None else Some a
              end in
  match addr with
  | None => false
  | Some a =>
      let parts := split_char ":" a in
      if bool_decide (List.length parts < 3)%nat then false
      else match ipv6_expand parts with
      | None => false
      | Some parts =>
          let n := List.length parts in
          let inner := filter (fun i => parts !! i = Some "") (seq 1 (n - 2)) in
          let edge i := bool_decide (parts !! i = Some "") in
          if bool_decide (9 < n)%nat then false
          else match inner with
          | [] => bool_decide (n = 8%nat) && negb (edge O) && negb (edge (n - 1)%nat)
                  && forallb hextet_ok parts
          | [k] =>
              let hi := if edge O then pred k else k in
              let lo := if edge (n - 1)%nat then (n - k - 2)%nat else (n - k - 1)%nat in
              (negb (edge O) || bool_decide (hi = O))
              && (negb (edge (n - 1)%nat) || bool_decide (lo = O))
              && bool_decide (hi + lo <= 7)%nat
              && forallb hextet_ok (take hi parts)
              && forallb hextet_ok (drop (n - lo) parts)
          | _ => false
          end
      end
  end.

(** ** [urlsplit] *)

Record SplitResult := mkSplit {
  url_scheme : string;
  url_netloc : string;
  url_path : string;
  url_query : string;
  url_fragment : string;
}.

Definition is_c0_or_space (c : ascii) : bool := ord c <=? 32.
Definition is_unsafe_byte (c : ascii) : bool :=
  (ord c =? 9) || (ord c =? 10) || (ord c =? 13).
Definition is_scheme_char (c : ascii) : bool :=
  is_alnum c || bool_decide (c = "+"%char) || bool_decide (c = "-"%char)
  || bool_decide (c = "."%char).

(** The netloc ends at the first of [/?#]. *)
Fixpoint splitnetloc (s : string) : string * string :=
  match s with
  | EmptyString => (EmptyString, EmptyString)
  | String c s' =>
      if bool_decide (c = "/"%char) || bool_decide (c = "?"%char) || bool_decide (c = "#"%char)
      then (EmptyString, s)
      else let '(h, t) := splitnetloc s' in (String c h, t)
  end.

Definition after_last_at (netloc : string) : string :=
  match rpartition "@" netloc with Some (_, t) => t | None => netloc end.

(** IPvFuture: [v], hexadecimal digits, a dot, at least one more character. *)
Definition ipvfuture_ok (h : string) : bool :=
  match strip_prefix "v" h with
  | None => false
  | Some t =>
      match partition "." t with
      | Some (v, rest) =>
          negb (bool_decide (v = "")) && negb (bool_decide (rest = ""))
          && all_chars (fun c => bool_decide (is_Some (hex_value c))) v
          && all_chars (fun c => negb (ord c =? 10)) rest
      | None => false
      end
  end.

Definition bracketed_host_ok (h : string) : bool :=
  if startswith h "v" then ipvfuture_ok h else ipv6_ok h && negb (ipv4_ok h).

Definition bracketed_netloc_ok (netloc : string) : bool :=
  let hp := after_last_at netloc in
  match partition "[" hp with
  | Some (pre, bracketed) =>
      let '(h, port) := match partition "]" bracketed with
                        | Some (h, p) => (h, p) | None => (bracketed, EmptyString) end in
      bool_decide (pre = "") && (bool_decide (port = "") || startswith port ":")
      && bracketed_host_ok h
  | None => bracketed_host_ok (before ":" hp)
  end.

Definition netloc_ok (netloc : string) : bool :=
  let o := contains "[" netloc in
  let c := contains "]" netloc in
  if o && c then bracketed_netloc_ok netloc else negb (xorb o c).

Definition split_at (sep : string) (s : string) : string * string :=
  match partition sep s with Some (h, t) => (h, t) | None => (s, EmptyString) end.

(** [urlsplit(url)]; [None] is a ValueError.  The normalization check on a netloc
    outside ASCII is not modelled: such a netloc is accepted. *)
Definition urlsplit (url : string) : option SplitResult :=
  let url := filter_chars (fun c => negb (is_unsafe_byte c)) (lstrip_by is_c0_or_space url) in
  let '(scheme, rest) :=
    match partition ":" url with
    | Some (String c s, t) =>
        if is_alpha c && all_chars is_scheme_char (String c s)
        then (lower (String c s), t) else (EmptyString, url)
    | _ => (EmptyString, url)
    end in
  let '(netloc, rest) :=
    match strip_prefix "//" rest with
    | Some r => splitnetloc r
    | None => (EmptyString, rest)
    end in
  if negb (netloc_ok netloc) then None
  else
    let '(rest, fragment) := split_at "#" rest in
    let '(path, query) := split_at "?" rest in
    Some (mkSplit scheme netloc path query fragment).

(** The host and port text of the netloc. *)
Definition hostinfo (u : SplitResult) : string * string :=
  let hi := after_last_at (url_netloc u) in
  match partition "[" hi with
  | Some (_, bracketed) =>
      let '(h, p) := split_at "]" bracketed in (h, (split_at ":" p).2)
  | None => split_at ":" hi
  end.

(** [.username]: [None] without user information. *)
Definition username (u : SplitResult) : option string :=
  match rpartition "@" (url_netloc u) with
  | Some (userinfo, _) => Some (split_at ":" userinfo).1
  | None => None
  end.

(** [.hostname]: lower-cased up to a zone identifier, [None] when empty. *)
Definition hostname (u : SplitResult) : option string :=
  match (hostinfo u).1 with
  | EmptyString => None
  | h => Some (match partition "%" h with
               | Some (a, zone) => lower a +:+ "%" +:+ zone
               | None => lower h
               end)
  end.

(** [.port]: [None] is a ValueError, [Some None] no port. *)
Definition url_port (u : SplitResult) : option (option Z) :=
  match (hostinfo u).2 with
  | EmptyString => Some None
  | p => if all_chars is_digit p && (decimal_value p <=? 65535)
         then Some (Some (decimal_value p)) else None
  end.

(** [urlunsplit((scheme, netloc, path, '', ''))] for a non-empty netloc. *)
Definition urlunsplit_path (scheme netloc path : string) : string :=
  let path := if negb (bool_decide (path = "")) && negb (startswith path "/")
              then "/" +:+ path else path in
  let url := "//" +:+ netloc +:+ path in
  if bool_decide (scheme = "") then url else scheme +:+ ":" +:+ url.
