(* ===== verification/Ip.v ===== *)
(** * Ip: the addresses and networks of the [ipaddress] module

    What admin/deps.py uses of it: [ip_address], [ip_network] and membership.  An address
    is its integer; the scope of an IPv6 address plays no part in membership. *)

From S2P Require Import Prelude PyStr Encoding Url.
Local Open Scope Z_scope.

Inductive IpAddress : Type :=
| IPv4Address (ip : Z)
| IPv6Address (ip : Z).

(** A network: its version, its address and its prefix length. *)
Record IpNetwork := mkNetwork { net_v6 : bool; net_address : Z; net_prefixlen : Z }.

Definition max_prefixlen (v6 : bool) : Z := if v6 then 128 else 32.

(** Big-endian digits in base [2 ^ w]. *)
Definition of_digits (w : Z) (ds : list Z) : Z := fold_left (fun acc d => Z.lor (Z.shiftl acc w) d) ds 0.

Definition ipv4_value (s : string) : option Z :=
  if ipv4_ok s then Some (of_digits 8 (map decimal_value (split_char "." s))) else None.

Definition hextet (s : string) : Z := default 0 (hex_acc s 0).

(** The parts with an IPv4-style suffix as two hextets. *)
Definition ipv6_parts (parts : list string) : list string :=
  match last parts with
  | Some p =>
      match (if contains "." p then ipv4_value p else None) with
      | Some v => take (List.length parts - 1) parts
                  ++ [hex_fixed 4 (Z.shiftr v 16); hex_fixed 4 (Z.land v 0xFFFF)]
      | None => parts
      end
  | None => parts
  end.

Definition ipv6_value (s : string) : option Z :=
  if ipv6_ok s && negb (contains "/" s) then
    let parts := ipv6_parts (split_char ":" (before "%" s)) in
    let n := List.length parts in
    let edge i := bool_decide (parts !! i = Some "") in
    match filter (fun i => parts !! i = Some "") (seq 1 (n - 2)) with
    | k :: _ =>
        let hi := if edge O then pred k else k in
        let lo := if edge (n - 1)%nat then (n - k - 2)%nat else (n - k - 1)%nat in
        Some (of_digits 16 (map hextet (take hi parts) ++ repeat 0 (8 - (hi + lo))
                            ++ map hextet (drop (n - lo) parts)))
    | [] => Some (of_digits 16 (map hextet parts))
    end
  else None.

(** [ip_address(s)]; [None] is a ValueError. *)
Definition ip_address (s : string) : option IpAddress :=
  match ipv4_value s with
  | Some v => Some (IPv4Address v)
  | None => option_map IPv6Address (ipv6_value s)
  end.

Definition prefix_string (v6 : bool) (s : string) : option Z :=
  if negb (bool_decide (s = "")) && all_chars is_digit s then
    if decimal_value s <=? max_prefixlen v6 then Some (decimal_value s) else None
  else None.

(** The prefix length of a netmask: all its ones lead. *)
Definition prefix_of_mask (m : Z) : option Z :=
  List.find (fun p => Z.shiftl (Z.ones p) (32 - p) =? m) (map Z.of_nat (seq 0 33)).

(** A prefix length, or for IPv4 a netmask or a hostmask. *)
Definition make_prefix (v6 : bool) (s : string) : option Z :=
  match prefix_string v6 s with
  | Some p => Some p
  | None =>
      if v6 then None
      else match ipv4_value s with
           | Some m => match prefix_of_mask m with
                       | Some p => Some p
                       | None => prefix_of_mask (Z.lxor m (Z.ones 32))
                       end
           | None => None
           end
  end.

Definition netmask (v6 : bool) (prefixlen : Z) : Z :=
  let all_ones := Z.ones (max_prefixlen v6) in Z.lxor all_ones (Z.shiftr all_ones prefixlen).

(** A network of one version; host bits must be clear. *)
Definition network_of (v6 : bool) (s : string) : option IpNetwork :=
  let parts := match split_char "/" s with
               | [a] => Some (a, Some (max_prefixlen v6))
               | [a; m] => Some (a, make_prefix v6 m)
               | _ => None
               end in
  match parts with
  | Some (a, Some p) =>
      match (if v6 then ipv6_value a else ipv4_value a) with
      | Some v => if Z.land v (netmask v6 p) =? v then Some (mkNetwork v6 v p) else None
      | None => None
      end
  | _ => None
  end.

(** [ip_network(s)]; [None] is a ValueError. *)
Definition ip_network (s : string) : option IpNetwork :=
  match network_of false s with
  | Some n => Some n
  | None => network_of true s
  end.

(** [addr in net]. *)
Definition in_network (a : IpAddress) (n : IpNetwork) : bool :=
  match a, net_v6 n with
  | IPv4Address ip, false => Z.land ip (netmask false (net_prefixlen n)) =? net_address n
  | IPv6Address ip, true => Z.land ip (netmask true (net_prefixlen n)) =? net_address n
  | _, _ => false
  end.

Example ip_examples :
  (ip_address "10.0.0.255", ip_address "::ffff:1.2.3.4", ip_network "10.0.0.0/255.0.0.0",
   ip_network "10.1.0.0/8", in_network (IPv4Address 0x0A010203) (mkNetwork false 0x0A000000 8))
  = (Some (IPv4Address 0x0A0000FF), Some (IPv6Address 0xFFFF01020304),
     Some (mkNetwork false 0x0A000000 8), None, true).
Proof. vm_compute. reflexivity. Qed.

(** ** Laws *)

Lemma netmask_bits v6 p i : 0 <= p <= max_prefixlen v6 -> 0 <= i ->
  Z.testbit (netmask v6 p) i = (max_prefixlen v6 - p <=? i) && (i <? max_prefixlen v6).
Proof.
  intros Hp Hi. unfold netmask. rewrite Z.lxor_spec, Z.shiftr_spec by done.
  assert (0 <= max_prefixlen v6) by (destruct v6; simpl; lia).
  rewrite !Z.testbit_ones_nonneg by lia.
  destruct (i <? max_prefixlen v6) eqn:E1, (i + p <? max_prefixlen v6) eqn:E2,
    (max_prefixlen v6 - p <=? i) eqn:E3; simpl; lia || done.
Qed.

Lemma netmask_land v6 p ip net : 0 <= p <= max_prefixlen v6 -> 0 <= ip < 2 ^ max_prefixlen v6 ->
  Z.land net (netmask v6 p) = net ->
  Z.land ip (netmask v6 p) = net
  <-> Z.shiftr ip (max_prefixlen v6 - p) = Z.shiftr net (max_prefixlen v6 - p).
Proof.
  intros Hp Hip Hnet.
  assert (forall i, max_prefixlen v6 <= i -> Z.testbit ip i = false) as Hhigh.
  { intros i Hi. assert (0 <= max_prefixlen v6) by (destruct v6; simpl; lia).
    rewrite <- (Z.mod_small ip (2 ^ max_prefixlen v6)) by done. by apply Z.mod_pow2_bits_high. }
  split; intros E; apply Z.bits_inj'; intros i Hi.
  - rewrite <- E, !Z.shiftr_spec, Z.land_spec, netmask_bits by lia.
    destruct (_ <? max_prefixlen v6) eqn:E1; [|rewrite Hhigh by lia; done].
    destruct (_ <=? _) eqn:E2; [by rewrite andb_true_r|lia].
  - rewrite <- Hnet, !Z.land_spec, netmask_bits by lia.
    destruct (_ <=? _) eqn:E2; simpl; [|by rewrite !andb_false_r].
    pose proof (f_equal (fun z => Z.testbit z (i - (max_prefixlen v6 - p))) E) as Eb. simpl in Eb.
    rewrite !Z.shiftr_spec in Eb by lia. replace (i - (max_prefixlen v6 - p) + (max_prefixlen v6 - p)) with i in Eb by lia.
    by rewrite Eb.
Qed.

(** The address of an address and its version. *)
Definition ip_of (a : IpAddress) : bool * Z :=
  match a with IPv4Address ip => (false, ip) | IPv6Address ip => (true, ip) end.

Record good_network (n : IpNetwork) : Prop := {
  gn_prefix : 0 <= net_prefixlen n <= max_prefixlen (net_v6 n);
  gn_hostbits : Z.land (net_address n) (netmask (net_v6 n) (net_prefixlen n)) = net_address n;
}.

(** Membership is agreement on the bits of the prefix. *)
Lemma in_network_spec a n : good_network n -> 0 <= (ip_of a).2 < 2 ^ max_prefixlen (ip_of a).1 ->
  in_network a n = true <->
  (ip_of a).1 = net_v6 n
  /\ Z.shiftr (ip_of a).2 (max_prefixlen (net_v6 n) - net_prefixlen n)
     = Z.shiftr (net_address n) (max_prefixlen (net_v6 n) - net_prefixlen n).
Proof.
  intros [Hp Hh] Hr. destruct n as [v6 net p]. simpl in *.
  destruct a as [ip|ip], v6; simpl in *; (split; [intros E; try discriminate E|intros [E1 E2]; try done]).
  - split; [done|]. apply Z.eqb_eq in E. by apply (netmask_land false p ip net).
  - apply Z.eqb_eq. by apply (netmask_land false p ip net).
  - split; [done|]. apply Z.eqb_eq in E. by apply (netmask_land true p ip net).
  - apply Z.eqb_eq. by apply (netmask_land true p ip net).
Qed.

Lemma decimal_value_nonneg s : all_chars is_digit s = true -> 0 <= decimal_value s.
Proof.
  intros H. unfold decimal_value.
  assert (forall acc, 0 <= acc -> 0 <= (fix go (s : string) (acc : Z) :=
     match s with EmptyString => acc | String c s' => go s' (10 * acc + (ord c - 48)) end) s acc) as Hg;
    [|by apply Hg].
  induction s as [|c s IH]; intros acc Ha; [done|]. simpl in H. apply andb_true_iff in H as [Hc Hs].
  apply IH; [done|]. unfold is_digit, char_between in Hc. bool_simpl. change (ord "0"%char) with 48 in *. lia.
Qed.

Lemma prefix_string_range v6 s p : prefix_string v6 s = Some p -> 0 <= p <= max_prefixlen v6.
Proof.
  unfold prefix_string. intros H. destruct (_ && all_chars is_digit s) eqn:E; [|done].
  destruct (_ <=? _) eqn:El; [|done]. injection H as <-. apply andb_true_iff in E as [_ E].
  apply decimal_value_nonneg in E. lia.
Qed.

Lemma prefix_of_mask_range m p : prefix_of_mask m = Some p -> 0 <= p <= 32.
Proof.
  intros H. apply find_some in H as [H _]. apply in_map_iff in H as (k & <- & Hk).
  apply in_seq in Hk. lia.
Qed.

Lemma make_prefix_range v6 s p : make_prefix v6 s = Some p -> 0 <= p <= max_prefixlen v6.
Proof.
  unfold make_prefix. destruct (prefix_string v6 s) as [q|] eqn:E.
  { intros [= <-]. by eapply prefix_string_range. }
  destruct v6; [done|]. destruct (ipv4_value s) as [m|]; [|done].
  destruct (prefix_of_mask m) eqn:E1; [intros [= <-]; by eapply prefix_of_mask_range|].
  apply prefix_of_mask_range.
Qed.

Lemma network_of_good v6 s n : network_of v6 s = Some n -> good_network n /\ net_v6 n = v6.
Proof.
  unfold network_of. intros H.
  destruct (match split_char "/" s with [a] => _ | _ => _ end) as [[a [p|]]|] eqn:E; [|done..].
  assert (0 <= p <= max_prefixlen v6) as Hp.
  { destruct (split_char "/" s) as [|x [|y [|z l]]]; [done| | |done].
    - injection E as _ <-. destruct v6; simpl; lia.
    - injection E as _ E. by eapply make_prefix_range. }
  destruct (if v6 then _ else _) as [v|]; [|done]. destruct (_ =? _) eqn:Ee; [|done].
  injection H as <-. split; [|done]. constructor; simpl; [done|]. by apply Z.eqb_eq.
Qed.

(** Every network the parser returns is well formed: a prefix of its version, no host bits. *)
Lemma ip_network_good s n : ip_network s = Some n -> good_network n.
Proof.
  unfold ip_network. destruct (network_of false s) eqn:E; [intros [= <-]|intros E2].
  - by eapply network_of_good.
  - by eapply network_of_good.
Qed.
