(* ===== verification/Db.v ===== *)
(** * Db: db/models.py and db/engine.py, the tables and the unit of work

    A row is a [Record] of the columns of its class without the primary key,
    which is the key of the table.  A UUID is its integer, a timestamp its
    microseconds, [INET] an address in canonical text, [CITEXT] a text compared
    through [citext_eq].  A check on the values of a [Text] column is stated by
    the class as a constraint and not repeated in the type. *)

From S2P Require Import Prelude PyStr Json Config.
Local Open Scope Z_scope.

(** [CITEXT] equality. *)
Definition citext_eq (a b : string) : bool := bool_decide (lower a = lower b).

(** ** Core control-plane tables *)

Record User := mkUser {
  u_external_id : string;
  u_email : string;
  u_display_name : string;
  u_status : string;
  u_auth_tier : string;
  u_password_hash : string;
  u_is_protected : bool;
  u_created_at : Z;
  u_updated_at : Z;
}.

Record Role := mkRole {
  ro_name : string;
  ro_description : option string;
}.

Record Resource := mkResource {
  r_name : string;
  r_protocol : string;
  r_public_host : option string;
  r_host : string;
  r_ports : list Z;
  r_path_prefix : option string;
  r_description : option string;
  r_enabled : bool;
  r_public_access : bool;
  r_public_paths : option (list string);
  r_public_password_hash : option string;
  r_public_password_set_at : option Z;
}.

Record ResourceConnection := mkResourceConnection {
  rc_resource_id : Z;
  rc_protocol : string;
  rc_hostname : string;
  rc_port : Z;
  rc_params_json : list (string * json);
  rc_secret_ciphertext : option string;
  rc_key_id : option string;
  rc_secret_keys : list string;
  rc_created_at : Z;
  rc_updated_at : Z;
}.

Record GuacGrant := mkGuacGrant {
  gg_user_id : Z;
  gg_resource_id : Z;
  gg_connection_id : Z;
  gg_source_ip : string;
  gg_issued_at : Z;
  gg_expires_at : Z;
  gg_consumed_at : option Z;
}.

Record RtspGrant := mkRtspGrant {
  rg_user_id : Z;
  rg_resource_id : Z;
  rg_connection_id : Z;
  rg_source_ip : string;
  rg_issued_at : Z;
  rg_expires_at : Z;
  rg_consumed_at : option Z;
}.

Record Policy := mkPolicy {
  p_role_id : Z;
  p_resource_id : Z;
  p_allowed_ports : option (list Z);
  p_allowed_paths : option (list string);
  p_action : string;
  p_conditions_json : list (string * json);
  p_enabled : bool;
  p_created_at : Z;
}.

Record DownloadRequest := mkDownloadRequest {
  dr_user_id : Z;
  dr_magnet : string;
  dr_target : string;
  dr_status : string;
  dr_created_at : Z;
  dr_reviewed_by : option Z;
  dr_reviewed_at : option Z;
  dr_submitted_at : option Z;
  dr_error : option string;
}.

Record Session := mkSession {
  s_user_id : Z;
  s_cookie_secret_hash : string;
  s_source_ip : string;
  s_auth_tier : string;
  s_amr : list string;
  s_mfa_verified : bool;
  s_dpop_jkt : option string;
  s_issued_at : Z;
  s_last_seen_at : Z;
  s_absolute_expires_at : Z;
  s_step_up_verified_at : option Z;
  s_stepup_challenge : option string;
  s_stale : bool;
  s_revoked_at : option Z;
  s_revoke_reason : option string;
}.

(** An append-only table is a list, oldest row first; its key is the position and
    [ts] the transaction time. *)

Record PolicyChange := mkPolicyChange {
  pc_ts : Z;
  pc_actor_id : Z;
  pc_entity_type : string;
  pc_entity_id : option Z;
  pc_action : string;
  pc_change_json : list (string * json);
}.

Record AuditLog := mkAuditLog {
  al_ts : Z;
  al_user_id : option Z;
  al_resource_id : option Z;
  al_port : option Z;
  al_decision : string;
  al_reason : string;
  al_source_ip : string;
}.

Record AuthEvent := mkAuthEvent {
  ae_ts : Z;
  ae_event_type : string;
  ae_user_id : option Z;
  ae_session_id : option Z;
  ae_client_id : option string;
  ae_source_ip : string;
  ae_success : bool;
  ae_detail : list (string * json);
}.

(** ** IdP tables *)

Record OAuthClient := mkOAuthClient {
  oc_client_id : string;
  oc_client_name : string;
  oc_redirect_uris : list string;
  oc_token_endpoint_auth_method : string;
  oc_require_dpop : bool;
  oc_allowed_scopes : list string;
  oc_enabled : bool;
  oc_created_at : Z;
}.

Record AuthCode := mkAuthCode {
  ac_client_id : string;
  ac_user_id : Z;
  ac_session_id : Z;
  ac_redirect_uri : string;
  ac_scope : string;
  ac_nonce : string;
  ac_code_challenge : string;
  ac_code_challenge_method : string;
  ac_auth_time : Z;
  ac_expires_at : Z;
  ac_consumed_at : option Z;
}.

Record RefreshToken := mkRefreshToken {
  rt_token_hash : string;
  rt_session_id : Z;
  rt_family_id : Z;
  rt_parent_id : option Z;
  rt_client_id : string;
  rt_user_id : Z;
  rt_dpop_jkt : string;
  rt_scope : string;
  rt_issued_at : Z;
  rt_expires_at : Z;
  rt_used_at : option Z;
  rt_revoked_at : option Z;
}.

Record SigningKey := mkSigningKey {
  sk_kid : string;
  sk_alg : string;
  sk_state : string;
  sk_public_jwk : list (string * json);
  sk_private_key_ciphertext : string;
  sk_key_id : string;
  sk_created_at : Z;
  sk_activated_at : option Z;
  sk_retiring_at : option Z;
  sk_retired_at : option Z;
}.

Record UserTotp := mkUserTotp {
  ut_secret_ciphertext : string;
  ut_key_id : string;
  ut_created_at : Z;
  ut_confirmed_at : option Z;
}.

Record WebAuthnCredential := mkWebAuthnCredential {
  wc_user_id : Z;
  wc_credential_id : string;
  wc_public_key : string;
  wc_sign_count : Z;
  wc_transports : option (list string);
  wc_aaguid : option Z;
  wc_friendly_name : string;
  wc_break_glass : bool;
  wc_created_at : Z;
  wc_last_used_at : option Z;
}.

Record RecoveryCode := mkRecoveryCode {
  rcd_user_id : Z;
  rcd_batch_id : Z;
  rcd_code_hash : string;
  rcd_used_at : option Z;
  rcd_created_at : Z;
}.

Record LoginFlow := mkLoginFlow {
  lf_csrf_token_hash : string;
  lf_source_ip : string;
  lf_stage : string;
  lf_user_id : option Z;
  lf_webauthn_challenge : option string;
  lf_recovery_used : bool;
  lf_oidc_request : list (string * string);
  lf_completed_session_id : option Z;
  lf_created_at : Z;
  lf_expires_at : Z;
}.

(** ** Gateway and public access *)

Record GatewaySession := mkGatewaySession {
  gs_user_id : Z;
  gs_idp_session_id : Z;
  gs_cookie_secret_hash : string;
  gs_source_ip : string;
  gs_created_at : Z;
  gs_revoked_at : option Z;
}.

Record GatewayLoginState := mkGatewayLoginState {
  gl_code_verifier : string;
  gl_nonce : string;
  gl_return_url : string;
  gl_source_ip : string;
  gl_created_at : Z;
  gl_expires_at : Z;
}.

Record PublicSession := mkPublicSession {
  ps_resource_id : Z;
  ps_cookie_secret_hash : string;
  ps_source_ip : option string;
  ps_created_at : Z;
  ps_expires_at : Z;
  ps_last_seen_at : Z;
  ps_revoked_at : option Z;
}.

Record AuthThrottle := mkAuthThrottle {
  at_failure_count : Z;
  at_window_started_at : Z;
  at_next_allowed_at : Z;
}.

(** ** Attribute assignment [row.column = v] *)

Definition set_r_public_password_hash (v : option string) (x : Resource) : Resource :=
  mkResource (r_name x) (r_protocol x) (r_public_host x) (r_host x) (r_ports x)
    (r_path_prefix x) (r_description x) (r_enabled x) (r_public_access x) (r_public_paths x)
    v (r_public_password_set_at x).
Definition set_r_public_password_set_at (v : option Z) (x : Resource) : Resource :=
  mkResource (r_name x) (r_protocol x) (r_public_host x) (r_host x) (r_ports x)
    (r_path_prefix x) (r_description x) (r_enabled x) (r_public_access x) (r_public_paths x)
    (r_public_password_hash x) v.

Definition set_rc_secret_ciphertext (v : option string) (x : ResourceConnection) : ResourceConnection :=
  mkResourceConnection (rc_resource_id x) (rc_protocol x) (rc_hostname x) (rc_port x)
    (rc_params_json x) v (rc_key_id x) (rc_secret_keys x) (rc_created_at x) (rc_updated_at
    x).
Definition set_rc_key_id (v : option string) (x : ResourceConnection) : ResourceConnection :=
  mkResourceConnection (rc_resource_id x) (rc_protocol x) (rc_hostname x) (rc_port x)
    (rc_params_json x) (rc_secret_ciphertext x) v (rc_secret_keys x) (rc_created_at x)
    (rc_updated_at x).

Definition set_u_display_name (v : string) (x : User) : User :=
  mkUser (u_external_id x) (u_email x) v (u_status x) (u_auth_tier x) (u_password_hash x)
    (u_is_protected x) (u_created_at x) (u_updated_at x).
Definition set_u_status (v : string) (x : User) : User :=
  mkUser (u_external_id x) (u_email x) (u_display_name x) v (u_auth_tier x)
    (u_password_hash x) (u_is_protected x) (u_created_at x) (u_updated_at x).
Definition set_u_auth_tier (v : string) (x : User) : User :=
  mkUser (u_external_id x) (u_email x) (u_display_name x) (u_status x) v (u_password_hash
    x) (u_is_protected x) (u_created_at x) (u_updated_at x).
Definition set_u_password_hash (v : string) (x : User) : User :=
  mkUser (u_external_id x) (u_email x) (u_display_name x) (u_status x) (u_auth_tier x) v
    (u_is_protected x) (u_created_at x) (u_updated_at x).
Definition set_u_updated_at (v : Z) (x : User) : User :=
  mkUser (u_external_id x) (u_email x) (u_display_name x) (u_status x) (u_auth_tier x)
    (u_password_hash x) (u_is_protected x) (u_created_at x) v.

Definition set_wc_sign_count (v : Z) (x : WebAuthnCredential) : WebAuthnCredential :=
  mkWebAuthnCredential (wc_user_id x) (wc_credential_id x) (wc_public_key x) v
    (wc_transports x) (wc_aaguid x) (wc_friendly_name x) (wc_break_glass x) (wc_created_at
    x) (wc_last_used_at x).
Definition set_wc_last_used_at (v : option Z) (x : WebAuthnCredential) : WebAuthnCredential :=
  mkWebAuthnCredential (wc_user_id x) (wc_credential_id x) (wc_public_key x)
    (wc_sign_count x) (wc_transports x) (wc_aaguid x) (wc_friendly_name x) (wc_break_glass
    x) (wc_created_at x) v.

Definition set_dr_status (v : string) (x : DownloadRequest) : DownloadRequest :=
  mkDownloadRequest (dr_user_id x) (dr_magnet x) (dr_target x) v (dr_created_at x)
    (dr_reviewed_by x) (dr_reviewed_at x) (dr_submitted_at x) (dr_error x).
Definition set_dr_reviewed_by (v : option Z) (x : DownloadRequest) : DownloadRequest :=
  mkDownloadRequest (dr_user_id x) (dr_magnet x) (dr_target x) (dr_status x)
    (dr_created_at x) v (dr_reviewed_at x) (dr_submitted_at x) (dr_error x).
Definition set_dr_reviewed_at (v : option Z) (x : DownloadRequest) : DownloadRequest :=
  mkDownloadRequest (dr_user_id x) (dr_magnet x) (dr_target x) (dr_status x)
    (dr_created_at x) (dr_reviewed_by x) v (dr_submitted_at x) (dr_error x).
Definition set_dr_submitted_at (v : option Z) (x : DownloadRequest) : DownloadRequest :=
  mkDownloadRequest (dr_user_id x) (dr_magnet x) (dr_target x) (dr_status x)
    (dr_created_at x) (dr_reviewed_by x) (dr_reviewed_at x) v (dr_error x).
Definition set_dr_error (v : option string) (x : DownloadRequest) : DownloadRequest :=
  mkDownloadRequest (dr_user_id x) (dr_magnet x) (dr_target x) (dr_status x)
    (dr_created_at x) (dr_reviewed_by x) (dr_reviewed_at x) (dr_submitted_at x) v.

Definition set_gg_consumed_at (v : option Z) (x : GuacGrant) : GuacGrant :=
  mkGuacGrant (gg_user_id x) (gg_resource_id x) (gg_connection_id x) (gg_source_ip x)
    (gg_issued_at x) (gg_expires_at x) v.

Definition set_rg_consumed_at (v : option Z) (x : RtspGrant) : RtspGrant :=
  mkRtspGrant (rg_user_id x) (rg_resource_id x) (rg_connection_id x) (rg_source_ip x)
    (rg_issued_at x) (rg_expires_at x) v.

Definition set_s_cookie_secret_hash (v : string) (x : Session) : Session :=
  mkSession (s_user_id x) v (s_source_ip x) (s_auth_tier x) (s_amr x) (s_mfa_verified x)
    (s_dpop_jkt x) (s_issued_at x) (s_last_seen_at x) (s_absolute_expires_at x)
    (s_step_up_verified_at x) (s_stepup_challenge x) (s_stale x) (s_revoked_at x)
    (s_revoke_reason x).
Definition set_s_last_seen_at (v : Z) (x : Session) : Session :=
  mkSession (s_user_id x) (s_cookie_secret_hash x) (s_source_ip x) (s_auth_tier x) (s_amr x)
    (s_mfa_verified x) (s_dpop_jkt x) (s_issued_at x) v (s_absolute_expires_at x)
    (s_step_up_verified_at x) (s_stepup_challenge x) (s_stale x) (s_revoked_at x)
    (s_revoke_reason x).
Definition set_s_stale (v : bool) (x : Session) : Session :=
  mkSession (s_user_id x) (s_cookie_secret_hash x) (s_source_ip x) (s_auth_tier x) (s_amr x)
    (s_mfa_verified x) (s_dpop_jkt x) (s_issued_at x) (s_last_seen_at x)
    (s_absolute_expires_at x) (s_step_up_verified_at x) (s_stepup_challenge x) v
    (s_revoked_at x) (s_revoke_reason x).
Definition set_s_revoked_at (v : option Z) (x : Session) : Session :=
  mkSession (s_user_id x) (s_cookie_secret_hash x) (s_source_ip x) (s_auth_tier x) (s_amr x)
    (s_mfa_verified x) (s_dpop_jkt x) (s_issued_at x) (s_last_seen_at x)
    (s_absolute_expires_at x) (s_step_up_verified_at x) (s_stepup_challenge x) (s_stale x) v
    (s_revoke_reason x).
Definition set_s_revoke_reason (v : option string) (x : Session) : Session :=
  mkSession (s_user_id x) (s_cookie_secret_hash x) (s_source_ip x) (s_auth_tier x) (s_amr x)
    (s_mfa_verified x) (s_dpop_jkt x) (s_issued_at x) (s_last_seen_at x)
    (s_absolute_expires_at x) (s_step_up_verified_at x) (s_stepup_challenge x) (s_stale x)
    (s_revoked_at x) v.
Definition set_s_step_up_verified_at (v : option Z) (x : Session) : Session :=
  mkSession (s_user_id x) (s_cookie_secret_hash x) (s_source_ip x) (s_auth_tier x) (s_amr x)
    (s_mfa_verified x) (s_dpop_jkt x) (s_issued_at x) (s_last_seen_at x)
    (s_absolute_expires_at x) v (s_stepup_challenge x) (s_stale x) (s_revoked_at x)
    (s_revoke_reason x).
Definition set_s_stepup_challenge (v : option string) (x : Session) : Session :=
  mkSession (s_user_id x) (s_cookie_secret_hash x) (s_source_ip x) (s_auth_tier x) (s_amr x)
    (s_mfa_verified x) (s_dpop_jkt x) (s_issued_at x) (s_last_seen_at x)
    (s_absolute_expires_at x) (s_step_up_verified_at x) v (s_stale x) (s_revoked_at x)
    (s_revoke_reason x).

Definition set_ac_consumed_at (v : option Z) (x : AuthCode) : AuthCode :=
  mkAuthCode (ac_client_id x) (ac_user_id x) (ac_session_id x) (ac_redirect_uri x) (ac_scope
    x) (ac_nonce x) (ac_code_challenge x) (ac_code_challenge_method x) (ac_auth_time x)
    (ac_expires_at x) v.

Definition set_rt_used_at (v : option Z) (x : RefreshToken) : RefreshToken :=
  mkRefreshToken (rt_token_hash x) (rt_session_id x) (rt_family_id x) (rt_parent_id x)
    (rt_client_id x) (rt_user_id x) (rt_dpop_jkt x) (rt_scope x) (rt_issued_at x)
    (rt_expires_at x) v (rt_revoked_at x).
Definition set_rt_revoked_at (v : option Z) (x : RefreshToken) : RefreshToken :=
  mkRefreshToken (rt_token_hash x) (rt_session_id x) (rt_family_id x) (rt_parent_id x)
    (rt_client_id x) (rt_user_id x) (rt_dpop_jkt x) (rt_scope x) (rt_issued_at x)
    (rt_expires_at x) (rt_used_at x) v.

Definition set_sk_state (v : string) (x : SigningKey) : SigningKey :=
  mkSigningKey (sk_kid x) (sk_alg x) v (sk_public_jwk x) (sk_private_key_ciphertext x)
    (sk_key_id x) (sk_created_at x) (sk_activated_at x) (sk_retiring_at x) (sk_retired_at
    x).
Definition set_sk_activated_at (v : option Z) (x : SigningKey) : SigningKey :=
  mkSigningKey (sk_kid x) (sk_alg x) (sk_state x) (sk_public_jwk x)
    (sk_private_key_ciphertext x) (sk_key_id x) (sk_created_at x) v (sk_retiring_at x)
    (sk_retired_at x).
Definition set_sk_retiring_at (v : option Z) (x : SigningKey) : SigningKey :=
  mkSigningKey (sk_kid x) (sk_alg x) (sk_state x) (sk_public_jwk x)
    (sk_private_key_ciphertext x) (sk_key_id x) (sk_created_at x) (sk_activated_at x) v
    (sk_retired_at x).
Definition set_sk_retired_at (v : option Z) (x : SigningKey) : SigningKey :=
  mkSigningKey (sk_kid x) (sk_alg x) (sk_state x) (sk_public_jwk x)
    (sk_private_key_ciphertext x) (sk_key_id x) (sk_created_at x) (sk_activated_at x)
    (sk_retiring_at x) v.
Definition set_sk_private_key_ciphertext (v : string) (x : SigningKey) : SigningKey :=
  mkSigningKey (sk_kid x) (sk_alg x) (sk_state x) (sk_public_jwk x) v (sk_key_id x)
    (sk_created_at x) (sk_activated_at x) (sk_retiring_at x) (sk_retired_at x).
Definition set_sk_key_id (v : string) (x : SigningKey) : SigningKey :=
  mkSigningKey (sk_kid x) (sk_alg x) (sk_state x) (sk_public_jwk x)
    (sk_private_key_ciphertext x) v (sk_created_at x) (sk_activated_at x) (sk_retiring_at x)
    (sk_retired_at x).

Definition set_ut_secret_ciphertext (v : string) (x : UserTotp) : UserTotp :=
  mkUserTotp v (ut_key_id x) (ut_created_at x) (ut_confirmed_at x).
Definition set_ut_key_id (v : string) (x : UserTotp) : UserTotp :=
  mkUserTotp (ut_secret_ciphertext x) v (ut_created_at x) (ut_confirmed_at x).
Definition set_ut_confirmed_at (v : option Z) (x : UserTotp) : UserTotp :=
  mkUserTotp (ut_secret_ciphertext x) (ut_key_id x) (ut_created_at x) v.

Definition set_rcd_used_at (v : option Z) (x : RecoveryCode) : RecoveryCode :=
  mkRecoveryCode (rcd_user_id x) (rcd_batch_id x) (rcd_code_hash x) v (rcd_created_at x).

Definition set_lf_csrf_token_hash (v : string) (x : LoginFlow) : LoginFlow :=
  mkLoginFlow v (lf_source_ip x) (lf_stage x) (lf_user_id x) (lf_webauthn_challenge x)
    (lf_recovery_used x) (lf_oidc_request x) (lf_completed_session_id x) (lf_created_at x)
    (lf_expires_at x).
Definition set_lf_source_ip (v : string) (x : LoginFlow) : LoginFlow :=
  mkLoginFlow (lf_csrf_token_hash x) v (lf_stage x) (lf_user_id x) (lf_webauthn_challenge x)
    (lf_recovery_used x) (lf_oidc_request x) (lf_completed_session_id x) (lf_created_at x)
    (lf_expires_at x).
Definition set_lf_stage (v : string) (x : LoginFlow) : LoginFlow :=
  mkLoginFlow (lf_csrf_token_hash x) (lf_source_ip x) v (lf_user_id x)
    (lf_webauthn_challenge x) (lf_recovery_used x) (lf_oidc_request x)
    (lf_completed_session_id x) (lf_created_at x) (lf_expires_at x).
Definition set_lf_user_id (v : option Z) (x : LoginFlow) : LoginFlow :=
  mkLoginFlow (lf_csrf_token_hash x) (lf_source_ip x) (lf_stage x) v (lf_webauthn_challenge
    x) (lf_recovery_used x) (lf_oidc_request x) (lf_completed_session_id x) (lf_created_at
    x) (lf_expires_at x).
Definition set_lf_webauthn_challenge (v : option string) (x : LoginFlow) : LoginFlow :=
  mkLoginFlow (lf_csrf_token_hash x) (lf_source_ip x) (lf_stage x) (lf_user_id x) v
    (lf_recovery_used x) (lf_oidc_request x) (lf_completed_session_id x) (lf_created_at x)
    (lf_expires_at x).
Definition set_lf_recovery_used (v : bool) (x : LoginFlow) : LoginFlow :=
  mkLoginFlow (lf_csrf_token_hash x) (lf_source_ip x) (lf_stage x) (lf_user_id x)
    (lf_webauthn_challenge x) v (lf_oidc_request x) (lf_completed_session_id x)
    (lf_created_at x) (lf_expires_at x).
Definition set_lf_completed_session_id (v : option Z) (x : LoginFlow) : LoginFlow :=
  mkLoginFlow (lf_csrf_token_hash x) (lf_source_ip x) (lf_stage x) (lf_user_id x)
    (lf_webauthn_challenge x) (lf_recovery_used x) (lf_oidc_request x) v (lf_created_at x)
    (lf_expires_at x).

Definition set_gs_revoked_at (v : option Z) (x : GatewaySession) : GatewaySession :=
  mkGatewaySession (gs_user_id x) (gs_idp_session_id x) (gs_cookie_secret_hash x)
    (gs_source_ip x) (gs_created_at x) v.

Definition set_ps_revoked_at (v : option Z) (x : PublicSession) : PublicSession :=
  mkPublicSession (ps_resource_id x) (ps_cookie_secret_hash x) (ps_source_ip x)
    (ps_created_at x) (ps_expires_at x) (ps_last_seen_at x) v.
Definition set_ps_last_seen_at (v : Z) (x : PublicSession) : PublicSession :=
  mkPublicSession (ps_resource_id x) (ps_cookie_secret_hash x) (ps_source_ip x)
    (ps_created_at x) (ps_expires_at x) v (ps_revoked_at x).

(** ** The database *)

Record Db := mkDb {
  users : gmap Z User;
  roles : gmap Z Role;
  user_roles : list (Z * Z);
  resources : gmap Z Resource;
  resource_connections : gmap Z ResourceConnection;
  guac_grants : gmap string GuacGrant;
  rtsp_grants : gmap string RtspGrant;
  policies : gmap Z Policy;
  download_requests : gmap Z DownloadRequest;
  sessions : gmap Z Session;
  policy_changes : list PolicyChange;
  audit_log : list AuditLog;
  auth_events : list AuthEvent;
  log_ship_cursors : gmap string Z;
  oauth_clients : gmap Z OAuthClient;
  auth_codes : gmap string AuthCode;
  refresh_tokens : gmap Z RefreshToken;
  dpop_jti_seen : gmap (string * string) Z;
  signing_keys : gmap Z SigningKey;
  user_totp : gmap Z UserTotp;
  webauthn_credentials : gmap Z WebAuthnCredential;
  recovery_codes : gmap Z RecoveryCode;
  login_flows : gmap Z LoginFlow;
  gateway_sessions : gmap Z GatewaySession;
  gateway_login_states : gmap string GatewayLoginState;
  public_sessions : gmap Z PublicSession;
  auth_throttle : gmap (string * string) AuthThrottle;
}.

Definition empty_db : Db :=
  mkDb ∅ ∅ [] ∅ ∅ ∅ ∅ ∅ ∅ ∅ [] [] [] ∅ ∅ ∅ ∅ ∅ ∅ ∅ ∅ ∅ ∅ ∅ ∅ ∅ ∅.

Definition upd_users (f : gmap Z User -> gmap Z User) (d : Db) : Db :=
  mkDb (f (users d)) (roles d) (user_roles d) (resources d) (resource_connections d)
    (guac_grants d) (rtsp_grants d) (policies d) (download_requests d) (sessions d)
    (policy_changes d) (audit_log d) (auth_events d) (log_ship_cursors d) (oauth_clients d)
    (auth_codes d) (refresh_tokens d) (dpop_jti_seen d) (signing_keys d) (user_totp d)
    (webauthn_credentials d) (recovery_codes d) (login_flows d) (gateway_sessions d)
    (gateway_login_states d) (public_sessions d) (auth_throttle d).
Definition upd_roles (f : gmap Z Role -> gmap Z Role) (d : Db) : Db :=
  mkDb (users d) (f (roles d)) (user_roles d) (resources d) (resource_connections d)
    (guac_grants d) (rtsp_grants d) (policies d) (download_requests d) (sessions d)
    (policy_changes d) (audit_log d) (auth_events d) (log_ship_cursors d) (oauth_clients d)
    (auth_codes d) (refresh_tokens d) (dpop_jti_seen d) (signing_keys d) (user_totp d)
    (webauthn_credentials d) (recovery_codes d) (login_flows d) (gateway_sessions d)
    (gateway_login_states d) (public_sessions d) (auth_throttle d).
Definition upd_user_roles (f : list (Z * Z) -> list (Z * Z)) (d : Db) : Db :=
  mkDb (users d) (roles d) (f (user_roles d)) (resources d) (resource_connections d)
    (guac_grants d) (rtsp_grants d) (policies d) (download_requests d) (sessions d)
    (policy_changes d) (audit_log d) (auth_events d) (log_ship_cursors d) (oauth_clients d)
    (auth_codes d) (refresh_tokens d) (dpop_jti_seen d) (signing_keys d) (user_totp d)
    (webauthn_credentials d) (recovery_codes d) (login_flows d) (gateway_sessions d)
    (gateway_login_states d) (public_sessions d) (auth_throttle d).
Definition upd_resources (f : gmap Z Resource -> gmap Z Resource) (d : Db) : Db :=
  mkDb (users d) (roles d) (user_roles d) (f (resources d)) (resource_connections d)
    (guac_grants d) (rtsp_grants d) (policies d) (download_requests d) (sessions d)
    (policy_changes d) (audit_log d) (auth_events d) (log_ship_cursors d) (oauth_clients d)
    (auth_codes d) (refresh_tokens d) (dpop_jti_seen d) (signing_keys d) (user_totp d)
    (webauthn_credentials d) (recovery_codes d) (login_flows d) (gateway_sessions d)
    (gateway_login_states d) (public_sessions d) (auth_throttle d).
Definition upd_resource_connections (f : gmap Z ResourceConnection -> gmap Z ResourceConnection) (d : Db) : Db :=
  mkDb (users d) (roles d) (user_roles d) (resources d) (f (resource_connections d))
    (guac_grants d) (rtsp_grants d) (policies d) (download_requests d) (sessions d)
    (policy_changes d) (audit_log d) (auth_events d) (log_ship_cursors d) (oauth_clients d)
    (auth_codes d) (refresh_tokens d) (dpop_jti_seen d) (signing_keys d) (user_totp d)
    (webauthn_credentials d) (recovery_codes d) (login_flows d) (gateway_sessions d)
    (gateway_login_states d) (public_sessions d) (auth_throttle d).
Definition upd_guac_grants (f : gmap string GuacGrant -> gmap string GuacGrant) (d : Db) : Db :=
  mkDb (users d) (roles d) (user_roles d) (resources d) (resource_connections d) (f
    (guac_grants d)) (rtsp_grants d) (policies d) (download_requests d) (sessions d)
    (policy_changes d) (audit_log d) (auth_events d) (log_ship_cursors d) (oauth_clients d)
    (auth_codes d) (refresh_tokens d) (dpop_jti_seen d) (signing_keys d) (user_totp d)
    (webauthn_credentials d) (recovery_codes d) (login_flows d) (gateway_sessions d)
    (gateway_login_states d) (public_sessions d) (auth_throttle d).
Definition upd_rtsp_grants (f : gmap string RtspGrant -> gmap string RtspGrant) (d : Db) : Db :=
  mkDb (users d) (roles d) (user_roles d) (resources d) (resource_connections d)
    (guac_grants d) (f (rtsp_grants d)) (policies d) (download_requests d) (sessions d)
    (policy_changes d) (audit_log d) (auth_events d) (log_ship_cursors d) (oauth_clients d)
    (auth_codes d) (refresh_tokens d) (dpop_jti_seen d) (signing_keys d) (user_totp d)
    (webauthn_credentials d) (recovery_codes d) (login_flows d) (gateway_sessions d)
    (gateway_login_states d) (public_sessions d) (auth_throttle d).
Definition upd_policies (f : gmap Z Policy -> gmap Z Policy) (d : Db) : Db :=
  mkDb (users d) (roles d) (user_roles d) (resources d) (resource_connections d)
    (guac_grants d) (rtsp_grants d) (f (policies d)) (download_requests d) (sessions d)
    (policy_changes d) (audit_log d) (auth_events d) (log_ship_cursors d) (oauth_clients d)
    (auth_codes d) (refresh_tokens d) (dpop_jti_seen d) (signing_keys d) (user_totp d)
    (webauthn_credentials d) (recovery_codes d) (login_flows d) (gateway_sessions d)
    (gateway_login_states d) (public_sessions d) (auth_throttle d).
Definition upd_download_requests (f : gmap Z DownloadRequest -> gmap Z DownloadRequest) (d : Db) : Db :=
  mkDb (users d) (roles d) (user_roles d) (resources d) (resource_connections d)
    (guac_grants d) (rtsp_grants d) (policies d) (f (download_requests d)) (sessions d)
    (policy_changes d) (audit_log d) (auth_events d) (log_ship_cursors d) (oauth_clients d)
    (auth_codes d) (refresh_tokens d) (dpop_jti_seen d) (signing_keys d) (user_totp d)
    (webauthn_credentials d) (recovery_codes d) (login_flows d) (gateway_sessions d)
    (gateway_login_states d) (public_sessions d) (auth_throttle d).
Definition upd_sessions (f : gmap Z Session -> gmap Z Session) (d : Db) : Db :=
  mkDb (users d) (roles d) (user_roles d) (resources d) (resource_connections d)
    (guac_grants d) (rtsp_grants d) (policies d) (download_requests d) (f (sessions d))
    (policy_changes d) (audit_log d) (auth_events d) (log_ship_cursors d) (oauth_clients d)
    (auth_codes d) (refresh_tokens d) (dpop_jti_seen d) (signing_keys d) (user_totp d)
    (webauthn_credentials d) (recovery_codes d) (login_flows d) (gateway_sessions d)
    (gateway_login_states d) (public_sessions d) (auth_throttle d).
Definition upd_policy_changes (f : list PolicyChange -> list PolicyChange) (d : Db) : Db :=
  mkDb (users d) (roles d) (user_roles d) (resources d) (resource_connections d)
    (guac_grants d) (rtsp_grants d) (policies d) (download_requests d) (sessions d) (f
    (policy_changes d)) (audit_log d) (auth_events d) (log_ship_cursors d) (oauth_clients d)
    (auth_codes d) (refresh_tokens d) (dpop_jti_seen d) (signing_keys d) (user_totp d)
    (webauthn_credentials d) (recovery_codes d) (login_flows d) (gateway_sessions d)
    (gateway_login_states d) (public_sessions d) (auth_throttle d).
Definition upd_audit_log (f : list AuditLog -> list AuditLog) (d : Db) : Db :=
  mkDb (users d) (roles d) (user_roles d) (resources d) (resource_connections d)
    (guac_grants d) (rtsp_grants d) (policies d) (download_requests d) (sessions d)
    (policy_changes d) (f (audit_log d)) (auth_events d) (log_ship_cursors d) (oauth_clients
    d) (auth_codes d) (refresh_tokens d) (dpop_jti_seen d) (signing_keys d) (user_totp d)
    (webauthn_credentials d) (recovery_codes d) (login_flows d) (gateway_sessions d)
    (gateway_login_states d) (public_sessions d) (auth_throttle d).
Definition upd_auth_events (f : list AuthEvent -> list AuthEvent) (d : Db) : Db :=
  mkDb (users d) (roles d) (user_roles d) (resources d) (resource_connections d)
    (guac_grants d) (rtsp_grants d) (policies d) (download_requests d) (sessions d)
    (policy_changes d) (audit_log d) (f (auth_events d)) (log_ship_cursors d) (oauth_clients
    d) (auth_codes d) (refresh_tokens d) (dpop_jti_seen d) (signing_keys d) (user_totp d)
    (webauthn_credentials d) (recovery_codes d) (login_flows d) (gateway_sessions d)
    (gateway_login_states d) (public_sessions d) (auth_throttle d).
Definition upd_log_ship_cursors (f : gmap string Z -> gmap string Z) (d : Db) : Db :=
  mkDb (users d) (roles d) (user_roles d) (resources d) (resource_connections d)
    (guac_grants d) (rtsp_grants d) (policies d) (download_requests d) (sessions d)
    (policy_changes d) (audit_log d) (auth_events d) (f (log_ship_cursors d)) (oauth_clients
    d) (auth_codes d) (refresh_tokens d) (dpop_jti_seen d) (signing_keys d) (user_totp d)
    (webauthn_credentials d) (recovery_codes d) (login_flows d) (gateway_sessions d)
    (gateway_login_states d) (public_sessions d) (auth_throttle d).
Definition upd_oauth_clients (f : gmap Z OAuthClient -> gmap Z OAuthClient) (d : Db) : Db :=
  mkDb (users d) (roles d) (user_roles d) (resources d) (resource_connections d)
    (guac_grants d) (rtsp_grants d) (policies d) (download_requests d) (sessions d)
    (policy_changes d) (audit_log d) (auth_events d) (log_ship_cursors d) (f (oauth_clients
    d)) (auth_codes d) (refresh_tokens d) (dpop_jti_seen d) (signing_keys d) (user_totp d)
    (webauthn_credentials d) (recovery_codes d) (login_flows d) (gateway_sessions d)
    (gateway_login_states d) (public_sessions d) (auth_throttle d).
Definition upd_auth_codes (f : gmap string AuthCode -> gmap string AuthCode) (d : Db) : Db :=
  mkDb (users d) (roles d) (user_roles d) (resources d) (resource_connections d)
    (guac_grants d) (rtsp_grants d) (policies d) (download_requests d) (sessions d)
    (policy_changes d) (audit_log d) (auth_events d) (log_ship_cursors d) (oauth_clients d)
    (f (auth_codes d)) (refresh_tokens d) (dpop_jti_seen d) (signing_keys d) (user_totp d)
    (webauthn_credentials d) (recovery_codes d) (login_flows d) (gateway_sessions d)
    (gateway_login_states d) (public_sessions d) (auth_throttle d).
Definition upd_refresh_tokens (f : gmap Z RefreshToken -> gmap Z RefreshToken) (d : Db) : Db :=
  mkDb (users d) (roles d) (user_roles d) (resources d) (resource_connections d)
    (guac_grants d) (rtsp_grants d) (policies d) (download_requests d) (sessions d)
    (policy_changes d) (audit_log d) (auth_events d) (log_ship_cursors d) (oauth_clients d)
    (auth_codes d) (f (refresh_tokens d)) (dpop_jti_seen d) (signing_keys d) (user_totp d)
    (webauthn_credentials d) (recovery_codes d) (login_flows d) (gateway_sessions d)
    (gateway_login_states d) (public_sessions d) (auth_throttle d).
Definition upd_dpop_jti_seen (f : gmap (string * string) Z -> gmap (string * string) Z) (d : Db) : Db :=
  mkDb (users d) (roles d) (user_roles d) (resources d) (resource_connections d)
    (guac_grants d) (rtsp_grants d) (policies d) (download_requests d) (sessions d)
    (policy_changes d) (audit_log d) (auth_events d) (log_ship_cursors d) (oauth_clients d)
    (auth_codes d) (refresh_tokens d) (f (dpop_jti_seen d)) (signing_keys d) (user_totp d)
    (webauthn_credentials d) (recovery_codes d) (login_flows d) (gateway_sessions d)
    (gateway_login_states d) (public_sessions d) (auth_throttle d).
Definition upd_signing_keys (f : gmap Z SigningKey -> gmap Z SigningKey) (d : Db) : Db :=
  mkDb (users d) (roles d) (user_roles d) (resources d) (resource_connections d)
    (guac_grants d) (rtsp_grants d) (policies d) (download_requests d) (sessions d)
    (policy_changes d) (audit_log d) (auth_events d) (log_ship_cursors d) (oauth_clients d)
    (auth_codes d) (refresh_tokens d) (dpop_jti_seen d) (f (signing_keys d)) (user_totp d)
    (webauthn_credentials d) (recovery_codes d) (login_flows d) (gateway_sessions d)
    (gateway_login_states d) (public_sessions d) (auth_throttle d).
Definition upd_user_totp (f : gmap Z UserTotp -> gmap Z UserTotp) (d : Db) : Db :=
  mkDb (users d) (roles d) (user_roles d) (resources d) (resource_connections d)
    (guac_grants d) (rtsp_grants d) (policies d) (download_requests d) (sessions d)
    (policy_changes d) (audit_log d) (auth_events d) (log_ship_cursors d) (oauth_clients d)
    (auth_codes d) (refresh_tokens d) (dpop_jti_seen d) (signing_keys d) (f (user_totp d))
    (webauthn_credentials d) (recovery_codes d) (login_flows d) (gateway_sessions d)
    (gateway_login_states d) (public_sessions d) (auth_throttle d).
Definition upd_webauthn_credentials (f : gmap Z WebAuthnCredential -> gmap Z WebAuthnCredential) (d : Db) : Db :=
  mkDb (users d) (roles d) (user_roles d) (resources d) (resource_connections d)
    (guac_grants d) (rtsp_grants d) (policies d) (download_requests d) (sessions d)
    (policy_changes d) (audit_log d) (auth_events d) (log_ship_cursors d) (oauth_clients d)
    (auth_codes d) (refresh_tokens d) (dpop_jti_seen d) (signing_keys d) (user_totp d) (f
    (webauthn_credentials d)) (recovery_codes d) (login_flows d) (gateway_sessions d)
    (gateway_login_states d) (public_sessions d) (auth_throttle d).
Definition upd_recovery_codes (f : gmap Z RecoveryCode -> gmap Z RecoveryCode) (d : Db) : Db :=
  mkDb (users d) (roles d) (user_roles d) (resources d) (resource_connections d)
    (guac_grants d) (rtsp_grants d) (policies d) (download_requests d) (sessions d)
    (policy_changes d) (audit_log d) (auth_events d) (log_ship_cursors d) (oauth_clients d)
    (auth_codes d) (refresh_tokens d) (dpop_jti_seen d) (signing_keys d) (user_totp d)
    (webauthn_credentials d) (f (recovery_codes d)) (login_flows d) (gateway_sessions d)
    (gateway_login_states d) (public_sessions d) (auth_throttle d).
Definition upd_login_flows (f : gmap Z LoginFlow -> gmap Z LoginFlow) (d : Db) : Db :=
  mkDb (users d) (roles d) (user_roles d) (resources d) (resource_connections d)
    (guac_grants d) (rtsp_grants d) (policies d) (download_requests d) (sessions d)
    (policy_changes d) (audit_log d) (auth_events d) (log_ship_cursors d) (oauth_clients d)
    (auth_codes d) (refresh_tokens d) (dpop_jti_seen d) (signing_keys d) (user_totp d)
    (webauthn_credentials d) (recovery_codes d) (f (login_flows d)) (gateway_sessions d)
    (gateway_login_states d) (public_sessions d) (auth_throttle d).
Definition upd_gateway_sessions (f : gmap Z GatewaySession -> gmap Z GatewaySession) (d : Db) : Db :=
  mkDb (users d) (roles d) (user_roles d) (resources d) (resource_connections d)
    (guac_grants d) (rtsp_grants d) (policies d) (download_requests d) (sessions d)
    (policy_changes d) (audit_log d) (auth_events d) (log_ship_cursors d) (oauth_clients d)
    (auth_codes d) (refresh_tokens d) (dpop_jti_seen d) (signing_keys d) (user_totp d)
    (webauthn_credentials d) (recovery_codes d) (login_flows d) (f (gateway_sessions d))
    (gateway_login_states d) (public_sessions d) (auth_throttle d).
Definition upd_gateway_login_states (f : gmap string GatewayLoginState -> gmap string GatewayLoginState) (d : Db) : Db :=
  mkDb (users d) (roles d) (user_roles d) (resources d) (resource_connections d)
    (guac_grants d) (rtsp_grants d) (policies d) (download_requests d) (sessions d)
    (policy_changes d) (audit_log d) (auth_events d) (log_ship_cursors d) (oauth_clients d)
    (auth_codes d) (refresh_tokens d) (dpop_jti_seen d) (signing_keys d) (user_totp d)
    (webauthn_credentials d) (recovery_codes d) (login_flows d) (gateway_sessions d) (f
    (gateway_login_states d)) (public_sessions d) (auth_throttle d).
Definition upd_public_sessions (f : gmap Z PublicSession -> gmap Z PublicSession) (d : Db) : Db :=
  mkDb (users d) (roles d) (user_roles d) (resources d) (resource_connections d)
    (guac_grants d) (rtsp_grants d) (policies d) (download_requests d) (sessions d)
    (policy_changes d) (audit_log d) (auth_events d) (log_ship_cursors d) (oauth_clients d)
    (auth_codes d) (refresh_tokens d) (dpop_jti_seen d) (signing_keys d) (user_totp d)
    (webauthn_credentials d) (recovery_codes d) (login_flows d) (gateway_sessions d)
    (gateway_login_states d) (f (public_sessions d)) (auth_throttle d).
Definition upd_auth_throttle (f : gmap (string * string) AuthThrottle -> gmap (string * string) AuthThrottle) (d : Db) : Db :=
  mkDb (users d) (roles d) (user_roles d) (resources d) (resource_connections d)
    (guac_grants d) (rtsp_grants d) (policies d) (download_requests d) (sessions d)
    (policy_changes d) (audit_log d) (auth_events d) (log_ship_cursors d) (oauth_clients d)
    (auth_codes d) (refresh_tokens d) (dpop_jti_seen d) (signing_keys d) (user_totp d)
    (webauthn_credentials d) (recovery_codes d) (login_flows d) (gateway_sessions d)
    (gateway_login_states d) (public_sessions d) (f (auth_throttle d)).

(** ** Queries *)

(** [select(...).where(p)]: the rows satisfying a predicate, with their keys. *)
Definition select {K A} `{Countable K} (p : K -> A -> bool) (t : gmap K A) : list (K * A) :=
  filter (fun kv => p kv.1 kv.2 = true) (map_to_list t).

(** [db.scalar(...)]: the first of them. *)
Definition scalar {A} (rows : list A) : option A := head rows.

(** [update(...).where(p).values(f)] and its row count. *)
Definition update_where {K A} `{Countable K} (p : K -> A -> bool) (f : A -> A)
    (t : gmap K A) : gmap K A :=
  map_imap (fun k a => Some (if p k a then f a else a)) t.

(** [delete(...).where(p)]. *)
Definition delete_where {K A} `{Countable K} (p : K -> A -> bool) (t : gmap K A) : gmap K A :=
  filter (fun kv => p kv.1 kv.2 = false) t.

(** [order_by(f.desc()).limit(1)]: a row with the greatest value. *)
Fixpoint max_by {A} (f : A -> Z) (rows : list A) : option A :=
  match rows with
  | [] => None
  | a :: rest =>
      match max_by f rest with
      | Some b => if f a <? f b then Some b else Some a
      | None => Some a
      end
  end.

(** [order_by(f)]. *)
Definition le_by {A} (f : A -> Z) (a b : A) : Prop := f a <= f b.
#[global] Instance le_by_dec {A} (f : A -> Z) : RelDecision (le_by f) :=
  fun a b => Z.le_dec (f a) (f b).

Definition order_by {A} (f : A -> Z) (rows : list A) : list A :=
  merge_sort (le_by f) rows.

Definition count_where {K A} `{Countable K} (p : K -> A -> bool) (t : gmap K A) : Z :=
  Z.of_nat (List.length (select p t)).

(** ** Laws of the queries *)

Section Queries.
Context {K A : Type} `{Countable K}.
Implicit Types (p : K -> A -> bool) (t : gmap K A).

Lemma select_In p t k a : (k, a) ∈ select p t <-> t !! k = Some a /\ p k a = true.
Proof.
  unfold select. rewrite list_elem_of_filter, elem_of_map_to_list. simpl. tauto.
Qed.

Lemma scalar_select p t k a :
  scalar (select p t) = Some (k, a) -> t !! k = Some a /\ p k a = true.
Proof.
  intros Hs. apply select_In. unfold scalar in Hs.
  destruct (select p t); simplify_eq/=. left.
Qed.

Lemma scalar_select_None p t k a :
  scalar (select p t) = None -> t !! k = Some a -> p k a = false.
Proof.
  intros Hs Hk. destruct (p k a) eqn:E; [|done].
  assert ((k, a) ∈ select p t) as Hin by by apply select_In.
  unfold scalar in Hs. destruct (select p t); [by apply elem_of_nil in Hin|done].
Qed.

(** When a unique column singles out one row, [scalar] returns it. *)
Lemma scalar_select_unique p t k a :
  t !! k = Some a -> p k a = true ->
  (forall k' a', t !! k' = Some a' -> p k' a' = true -> k' = k) ->
  scalar (select p t) = Some (k, a).
Proof.
  intros Hk Hp Hu. destruct (scalar (select p t)) as [[k' a']|] eqn:E.
  - apply scalar_select in E as [Hk' Hp']. rewrite (Hu _ _ Hk' Hp') in Hk' |- *.
    congruence.
  - pose proof (scalar_select_None _ _ _ _ E Hk). congruence.
Qed.

Lemma lookup_update_where p f t k :
  update_where p f t !! k = (fun a => if p k a then f a else a) <$> t !! k.
Proof. unfold update_where. rewrite map_lookup_imap. by destruct (t !! k). Qed.

Lemma lookup_delete_where p t k :
  delete_where p t !! k = t !! k ≫= fun a => if p k a then None else Some a.
Proof.
  unfold delete_where. rewrite map_lookup_filter.
  destruct (t !! k) as [a|]; [|done]. simpl. destruct (p k a); by simplify_option_eq.
Qed.
End Queries.

Lemma max_by_spec {A} (f : A -> Z) rows a :
  max_by f rows = Some a -> a ∈ rows /\ forall b, b ∈ rows -> f b <= f a.
Proof.
  revert a. induction rows as [|x rows IH]; intros a; simpl; [done|].
  destruct (max_by f rows) as [b|] eqn:E.
  - destruct (IH _ eq_refl) as [Hin Hmax]. destruct (f x <? f b) eqn:El; intros [= <-];
      bool_simpl; split; try set_solver; intros c [->|Hc]%elem_of_cons; try lia;
      specialize (Hmax _ Hc); lia.
  - intros [= <-]. destruct rows as [|y rows]; [|simpl in E; by destruct (max_by f rows); [case_match|]].
    split; [left|]. intros c [->|Hc]%elem_of_cons; [lia|set_solver].
Qed.

Lemma max_by_None {A} (f : A -> Z) rows : max_by f rows = None -> rows = [].
Proof. destruct rows; simpl; [done|]. destruct (max_by f rows); [by case_match|done]. Qed.

Lemma order_by_In {A} (f : A -> Z) rows a : a ∈ order_by f rows <-> a ∈ rows.
Proof. unfold order_by. by rewrite merge_sort_Permutation. Qed.

#[export] Hint Rewrite @lookup_update_where @lookup_delete_where : tables.
