(* ===== verification/Effects.v ===== *)
(** * Effects: errors, the clock, randomness and the database transaction

    A coroutine of the control plane is a [M A]: from an environment (settings,
    clock, random source, transaction time) and a state (the database, a
    counter of the clock readings and random draws made so far) to a result and
    a new state.  An exception keeps the state reached; [db_session] gives up the
    changes of a unit of work that raises. *)

From S2P Require Import Prelude PyStr Json Config Encoding Db.
Local Open Scope Z_scope.

(** The exceptions the modelled code raises or catches. *)
Inductive exn : Type :=
| ValueError (msg : string)
| TypeError (msg : string)
| KeyError (key : string)
| AssertionError
| IntegrityError (table : string)
| RuntimeError (msg : string)
| NoActiveKeyError
| InvalidTag
| JoseError
| DpopError (detail : string)
| TokenError (msg : string)
| RequestAuthError (error detail : string)
| PatternError (msg : string)
| InvalidRegistrationResponse
| InvalidAuthenticationResponse
| LibraryError (name : string)
| HTTPException (status : Z) (detail : string) (headers : list (string * string)).

Inductive result (A : Type) : Type :=
| Ok (a : A)
| Raise (x : exn).
Arguments Ok {A} a.
Arguments Raise {A} x.

Record Env := mkEnv {
  settings : Settings;
  tx_now : Z;
  clock : nat -> Z;
  rng : nat -> Z;
}.

Record St := mkSt { db : Db; tick : nat }.

Definition M (A : Type) : Type := Env -> St -> result A * St.

Definition ret {A} (a : A) : M A := fun _ s => (Ok a, s).
Definition raise {A} (x : exn) : M A := fun _ s => (Raise x, s).
Definition bind {A B} (m : M A) (f : A -> M B) : M B := fun e s =>
  match m e s with
  | (Ok a, s') => f a e s'
  | (Raise x, s') => (Raise x, s')
  end.

Notation "'let!' x ':=' m 'in' k" := (bind m (fun x => k))
  (at level 10, x name, m at level 100, k at level 200) : hyproxy_scope.
Notation "'let!' ' p ':=' m 'in' k" := (bind m (fun p => k))
  (at level 10, p strict pattern, m at level 100, k at level 200) : hyproxy_scope.
Notation "m ';;' k" := (bind m (fun _ => k))
  (at level 100, k at level 200, right associativity) : hyproxy_scope.
Open Scope hyproxy_scope.

(** [try: m except h]: [h] returns [None] for an exception it does not catch. *)
Definition try_ {A} (m : M A) (h : exn -> option (M A)) : M A := fun e s =>
  match m e s with
  | (Raise x, s') => match h x with Some k => k e s' | None => (Raise x, s') end
  | r => r
  end.

Definition asks {A} (f : Settings -> A) : M A := fun e s => (Ok (f (settings e)), s).
Definition gets {A} (f : Db -> A) : M A := fun _ s => (Ok (f (db s)), s).
Definition moddb (f : Db -> Db) : M unit := fun _ s => (Ok tt, mkSt (f (db s)) (tick s)).
Definition lift {A} (r : result A) : M A := fun _ s => (r, s).
Definition server_now : M Z := fun e s => (Ok (tx_now e), s).

(** [SystemClock.now()] and one draw of the operating system's random source. *)
Definition utcnow : M Z := fun e s => (Ok (clock e (tick s)), mkSt (db s) (S (tick s))).
Definition draw : M Z := fun e s => (Ok (rng e (tick s)), mkSt (db s) (S (tick s))).

Definition when (b : bool) (m : M unit) : M unit := if b then m else ret tt.

Fixpoint for_ {A} (l : list A) (body : A -> M unit) : M unit :=
  match l with
  | [] => ret tt
  | a :: l' => body a;; for_ l' body
  end.

(** [assert x is not None]. *)
Definition assert_some {A} (o : option A) : M A :=
  match o with Some a => ret a | None => raise AssertionError end.

(** [async with db_session() as db: m]: commits on success, rolls back on error. *)
Definition db_session {A} (m : M A) : M A := fun e s =>
  match m e s with
  | (Ok a, s') => (Ok a, s')
  | (Raise x, s') => (Raise x, mkSt (db s) (tick s'))
  end.

(** ** Random values *)

Fixpoint bytes_of (n : nat) (z : Z) : string :=
  match n with
  | O => EmptyString
  | S n' => String (chr (z / 256 ^ Z.of_nat n' mod 256)) (bytes_of n' z)
  end.

Lemma bytes_of_length n z : String.length (bytes_of n z) = n.
Proof. induction n; simpl; congruence. Qed.

#[global] Arguments bytes_of : simpl never.

Definition token_bytes (n : nat) : M string :=
  let! z := draw in ret (bytes_of n z).

(** [secrets.token_urlsafe(n)]. *)
Definition token_urlsafe (n : nat) : M string :=
  let! b := token_bytes n in ret (b64url_nopad b).

(** [uuid.uuid4()]: 122 random bits, version 4, variant 10. *)
Definition uuid4_of (z : Z) : Z :=
  Z.lor (Z.land (z mod UUID_MAX) 0xFFFFFFFFFFFF0FFF3FFFFFFFFFFFFFFF) 0x40008000000000000000.

Definition uuid4 : M Z := let! z := draw in ret (uuid4_of z).

(** [secrets.choice(l)] for a non-empty alphabet. *)
Definition choice (alphabet : string) : M ascii :=
  let! z := draw in
  ret (match String.get (Z.to_nat (z mod Z.of_nat (String.length alphabet))) alphabet with
       | Some c => c
       | None => zero
       end).

(** [db.add(row)] and its flush: a duplicate primary key, or a row that clashes on a
    unique column, is refused. *)
Definition db_add {K A} `{Countable K} (name : string) (tbl : Db -> gmap K A)
    (upd : (gmap K A -> gmap K A) -> Db -> Db) (clash : A -> bool) (k : K) (row : A) : M unit :=
  let! t := gets tbl in
  match t !! k with
  | Some _ => raise (IntegrityError name)
  | None =>
      if bool_decide (select (fun _ => clash) t = []) then moddb (upd <[k := row]>)
      else raise (IntegrityError name)
  end.

(** A table without unique columns besides its key. *)
Definition no_clash {A} (_ : A) : bool := false.

(** ** Inversion of a run *)

Lemma bind_Ok {A B} (m : M A) (f : A -> M B) e s b s' :
  bind m f e s = (Ok b, s') ->
  exists a s1, m e s = (Ok a, s1) /\ f a e s1 = (Ok b, s').
Proof. unfold bind. destruct (m e s) as [[a|x] s1]; [eauto|done]. Qed.

Lemma bind_Raise {A B} (m : M A) (f : A -> M B) e s x s' :
  bind m f e s = (Raise x, s') ->
  m e s = (Raise x, s') \/ exists a s1, m e s = (Ok a, s1) /\ f a e s1 = (Raise x, s').
Proof. unfold bind. destruct (m e s) as [[a|y] s1]; [eauto|intros [= -> ->]; auto]. Qed.

Lemma bind_run {A B} (m : M A) (f : A -> M B) e s a s1 :
  m e s = (Ok a, s1) -> bind m f e s = f a e s1.
Proof. unfold bind. by intros ->. Qed.

Lemma bind_run_raise {A B} (m : M A) (f : A -> M B) e s x s1 :
  m e s = (Raise x, s1) -> bind m f e s = (Raise x, s1).
Proof. unfold bind. by intros ->. Qed.

Lemma bind_gets {A B} (f : Db -> A) (k : A -> M B) e s : bind (gets f) k e s = k (f (db s)) e s.
Proof. done. Qed.

Lemma bind_moddb {B} (f : Db -> Db) (k : unit -> M B) e s :
  bind (moddb f) k e s = k tt e (mkSt (f (db s)) (tick s)).
Proof. done. Qed.

Lemma db_session_Ok {A} (m : M A) e s a s' :
  db_session m e s = (Ok a, s') -> m e s = (Ok a, s').
Proof. unfold db_session. destruct (m e s) as [[b|x] s1]; intros; by simplify_eq. Qed.

(** A unit of work that raises leaves the database as it was. *)
Lemma db_session_rollback {A} (m : M A) e s x s' :
  db_session m e s = (Raise x, s') -> db s' = db s.
Proof. unfold db_session. destruct (m e s) as [[b|y] s1]; intros; by simplify_eq. Qed.

Lemma select_nil {K A} `{Countable K} (p : K -> A -> bool) (t : gmap K A) :
  select p t = [] <-> forall k a, t !! k = Some a -> p k a = false.
Proof.
  split.
  - intros Hn k a Hk. destruct (p k a) eqn:E; [|done].
    assert ((k, a) ∈ select p t) as Hin by by apply select_In. rewrite Hn in Hin. set_solver.
  - intros Hf. destruct (select p t) as [|[k a] l] eqn:E; [done|].
    assert ((k, a) ∈ select p t) as [Hk Hp]%select_In by (rewrite E; left).
    by rewrite (Hf _ _ Hk) in Hp.
Qed.

Lemma db_add_Ok {K A} `{Countable K} name (tbl : Db -> gmap K A) upd clash k row e s u s' :
  db_add name tbl upd clash k row e s = (Ok u, s') ->
  tbl (db s) !! k = None /\ (forall k' a, tbl (db s) !! k' = Some a -> clash a = false)
  /\ db s' = upd <[k := row]> (db s) /\ tick s' = tick s.
Proof.
  unfold db_add, bind, gets, moddb, raise. destruct (_ !! k); [done|].
  case_bool_decide as Hc; [|done]. intros [= <- <-]. split_and!; [done| |done..].
  by apply (select_nil (fun _ => clash)).
Qed.

Lemma db_add_runs {K A} `{Countable K} name (tbl : Db -> gmap K A) upd k row e s :
  tbl (db s) !! k = None ->
  db_add name tbl upd no_clash k row e s = (Ok tt, mkSt (upd <[k := row]> (db s)) (tick s)).
Proof.
  intros Hn. unfold db_add, bind, gets, moddb. rewrite Hn, bool_decide_eq_true_2; [done|].
  by apply (select_nil (fun _ => no_clash)).
Qed.

Lemma pair_Ok {A} (a b : A) (s s' : St) : (Ok a, s) = (Ok b, s') -> a = b /\ s = s'.
Proof. by intros [= -> ->]. Qed.

(** [H : (Ok a, s) = (Ok b, s')]. *)
Ltac pair_inv H :=
  let H' := fresh "Hs" in
  apply pair_Ok in H; destruct H as [H H'];
  first [injection H; clear H; intros; subst | subst];
  repeat match goal with E : ?x = ?x |- _ => clear E end.

(** [minv H] inverts a successful run of a computation into its steps. *)
Ltac minv H :=
  cbn beta in H;
  lazymatch type of H with
  | bind (gets ?f) ?k ?e ?s = ?r => change (k (f (db s)) e s = r) in H; minv H
  | bind (asks ?f) ?k ?e ?s = ?r => change (k (f (settings e)) e s = r) in H; minv H
  | bind server_now ?k ?e ?s = ?r => change (k (tx_now e) e s = r) in H; minv H
  | bind (ret ?a) ?k ?e ?s = ?r => change (k a e s = r) in H; minv H
  | bind (moddb ?f) ?k ?e ?s = ?r =>
      change (k tt e (mkSt (f (db s)) (tick s)) = r) in H; minv H
  | bind utcnow ?k ?e ?s = ?r =>
      change (k (clock e (tick s)) e (mkSt (db s) (S (tick s))) = r) in H; minv H
  | bind draw ?k ?e ?s = ?r =>
      change (k (rng e (tick s)) e (mkSt (db s) (S (tick s))) = r) in H; minv H
  | bind _ _ _ _ = (Ok _, _) =>
      let a := fresh "a" in let s := fresh "s" in
      let H1 := fresh "Hm" in let H2 := fresh "Hk" in
      apply bind_Ok in H; destruct H as (a & s & H1 & H2);
      minv H1; minv H2
  | ret _ _ _ = _ => unfold ret in H; pair_inv H
  | asks _ _ _ = _ => unfold asks in H; pair_inv H
  | gets _ _ _ = _ => unfold gets in H; pair_inv H
  | moddb _ _ _ = _ => unfold moddb in H; pair_inv H
  | utcnow _ _ = _ => unfold utcnow in H; pair_inv H
  | draw _ _ = _ => unfold draw in H; pair_inv H
  | server_now _ _ = _ => unfold server_now in H; pair_inv H
  | raise _ _ _ = _ => discriminate H
  | assert_some ?o _ _ = _ =>
      let E := fresh "Eo" in
      destruct o eqn:E; unfold assert_some, ret, raise in H; [pair_inv H|discriminate H]
  | (match ?p with (_, _) => _ end) _ _ = _ =>
      let a := fresh "a" in let b := fresh "b" in destruct p as [a b]; minv H
  | db_session _ _ _ = (Ok _, _) => apply db_session_Ok in H; minv H
  | _ => idtac
  end.

(** [mread H] runs the reads and writes at the head of [H]. *)
Ltac mread H :=
  cbn beta in H;
  lazymatch type of H with
  | bind (gets ?f) ?k ?e ?s = ?r => change (k (f (db s)) e s = r) in H; mread H
  | bind (asks ?f) ?k ?e ?s = ?r => change (k (f (settings e)) e s = r) in H; mread H
  | bind server_now ?k ?e ?s = ?r => change (k (tx_now e) e s = r) in H; mread H
  | bind (ret ?a) ?k ?e ?s = ?r => change (k a e s = r) in H; mread H
  | bind (moddb ?f) ?k ?e ?s = ?r =>
      change (k tt e (mkSt (f (db s)) (tick s)) = r) in H; mread H
  | bind utcnow ?k ?e ?s = ?r =>
      change (k (clock e (tick s)) e (mkSt (db s) (S (tick s))) = r) in H; mread H
  | bind draw ?k ?e ?s = ?r =>
      change (k (rng e (tick s)) e (mkSt (db s) (S (tick s))) = r) in H; mread H
  | _ => unfold id in H
  end.

(** [mlift H a E] takes a step that lifts a pure result, [E] its success. *)
Ltac mlift H a E :=
  cbn beta in H; apply bind_Ok in H;
  let s1 := fresh "s" in let H1 := fresh "H" in
  destruct H as (a & s1 & H1 & H); unfold lift in H1;
  apply pair_equal_spec in H1; destruct H1 as [E H1]; subst s1; cbn beta in H.

(** [mstep H a s1 H1] takes one step of the run [H]. *)
Ltac mstep H a s1 H1 :=
  cbn beta in H; apply bind_Ok in H; destruct H as (a & s1 & H1 & H); cbn beta in H.

(** Random tokens as opaque values. *)
Lemma token_urlsafe_Ok n e s t s' :
  token_urlsafe n e s = (Ok t, s') -> db s' = db s /\ tick s' = S (tick s).
Proof. unfold token_urlsafe, token_bytes, bind, draw, ret. by intros [= <- <-]. Qed.

(** ** What a computation does to the database

    [steps R m]: every run of [m], successful or not, relates the database
    before and after by the preorder [R]. *)

Definition steps {A} (R : Db -> Db -> Prop) (m : M A) : Prop :=
  forall e s, R (db s) (db (m e s).2).

(** The computation leaves a view of the database as it was. *)
Definition same {X} (view : Db -> X) (d d' : Db) : Prop := view d' = view d.

#[export] Instance same_preorder {X} (view : Db -> X) : PreOrder (same view).
Proof. split; unfold same; [by intros d|by intros a b c -> ->]. Qed.

Section Steps.
Context (R : Db -> Db -> Prop) `{!PreOrder R}.

Lemma steps_ret {A} (a : A) : steps R (ret a).
Proof. intros e s. simpl. reflexivity. Qed.
Lemma steps_raise {A} x : steps R (@raise A x).
Proof. intros e s. simpl. reflexivity. Qed.
Lemma steps_lift {A} (r : result A) : steps R (lift r).
Proof. intros e s. simpl. reflexivity. Qed.
Lemma steps_asks {A} (f : Settings -> A) : steps R (asks f).
Proof. intros e s. simpl. reflexivity. Qed.
Lemma steps_gets {A} (f : Db -> A) : steps R (gets f).
Proof. intros e s. simpl. reflexivity. Qed.
Lemma steps_server_now : steps R server_now.
Proof. intros e s. simpl. reflexivity. Qed.
Lemma steps_utcnow : steps R utcnow.
Proof. intros e s. simpl. reflexivity. Qed.
Lemma steps_draw : steps R draw.
Proof. intros e s. simpl. reflexivity. Qed.
Lemma steps_assert_some {A} (o : option A) : steps R (assert_some o).
Proof. destruct o; [apply steps_ret|apply steps_raise]. Qed.

Lemma steps_bind {A B} (m : M A) (f : A -> M B) :
  steps R m -> (forall a, steps R (f a)) -> steps R (bind m f).
Proof.
  intros Hm Hf e s. unfold bind. pose proof (Hm e s) as H1.
  destruct (m e s) as [[a|x] s1]; simpl in *; [|done].
  etransitivity; [exact H1|apply Hf].
Qed.

Lemma steps_moddb f : (forall d, R d (f d)) -> steps R (moddb f).
Proof. intros Hf e s. apply Hf. Qed.

Lemma steps_try {A} (m : M A) h :
  steps R m -> (forall x k, h x = Some k -> steps R k) -> steps R (try_ m h).
Proof.
  intros Hm Hh e s. unfold try_. pose proof (Hm e s) as H1.
  destruct (m e s) as [[a|x] s1]; simpl in *; [done|].
  destruct (h x) as [k|] eqn:E; [|done]. etransitivity; [exact H1|by eapply Hh].
Qed.

Lemma steps_when b m : steps R m -> steps R (when b m).
Proof. destruct b; [done|intros; apply steps_ret]. Qed.

Lemma steps_for {A} (l : list A) body :
  (forall a, steps R (body a)) -> steps R (for_ l body).
Proof.
  intros Hb. induction l; simpl; [apply steps_ret|by apply steps_bind].
Qed.

Lemma steps_token_bytes n : steps R (token_bytes n).
Proof. apply steps_bind; [apply steps_draw|intros; apply steps_ret]. Qed.
Lemma steps_token_urlsafe n : steps R (token_urlsafe n).
Proof. apply steps_bind; [apply steps_token_bytes|intros; apply steps_ret]. Qed.
Lemma steps_uuid4 : steps R uuid4.
Proof. apply steps_bind; [apply steps_draw|intros; apply steps_ret]. Qed.
Lemma steps_choice a : steps R (choice a).
Proof. apply steps_bind; [apply steps_draw|intros; apply steps_ret]. Qed.

Lemma steps_db_add {K A} `{Countable K} name (tbl : Db -> gmap K A) upd clash k row :
  (forall d, tbl d !! k = None -> R d (upd <[k := row]> d)) ->
  steps R (db_add name tbl upd clash k row).
Proof.
  intros Hr e s. unfold db_add, bind, gets.
  destruct (tbl (db s) !! k) eqn:E; simpl; [reflexivity|].
  case_bool_decide; simpl; [by apply Hr|reflexivity].
Qed.
End Steps.

(** A unit of work relates the databases as its body does. *)
Lemma steps_db_session {A} R `{!PreOrder R} (m : M A) : steps R m -> steps R (db_session m).
Proof.
  intros Hm e s. unfold db_session. pose proof (Hm e s).
  destruct (m e s) as [[a|x] s1]; simpl in *; [done|reflexivity].
Qed.

(** ** Monotone tables

    [grows tbl dead key]: no row of [tbl] disappears, none leaves the [dead] states,
    and the columns [key] of a row never change. *)

Definition grows {K A X} `{Countable K} (tbl : Db -> gmap K A) (dead : A -> Prop) (key : A -> X)
    (d d' : Db) : Prop :=
  forall k a, tbl d !! k = Some a ->
    exists a', tbl d' !! k = Some a' /\ (dead a -> dead a') /\ key a' = key a.

Section Grows.
Context {K A X : Type} `{Countable K} (tbl : Db -> gmap K A) (dead : A -> Prop) (key : A -> X).

#[export] Instance grows_preorder : PreOrder (grows tbl dead key).
Proof.
  split.
  - intros d k a Hk. eauto.
  - intros d1 d2 d3 H12 H23 k a Hk. destruct (H12 _ _ Hk) as (b & Hb & Hd & Hx).
    destruct (H23 _ _ Hb) as (c & Hc & Hd' & Hx'). exists c. split_and!; [done|auto|congruence].
Qed.

Lemma grows_same d d' : tbl d' = tbl d -> grows tbl dead key d d'.
Proof. intros E k a Hk. rewrite E. eauto. Qed.

Lemma grows_alter d d' f k0 :
  tbl d' = alter f k0 (tbl d) ->
  (forall a, tbl d !! k0 = Some a -> (dead a -> dead (f a)) /\ key (f a) = key a) ->
  grows tbl dead key d d'.
Proof.
  intros E Hf k a Hk. rewrite E. destruct (decide (k = k0)) as [->|Hne].
  - rewrite lookup_alter_eq, Hk. simpl. destruct (Hf _ Hk). eauto.
  - rewrite lookup_alter_ne by done. eauto.
Qed.

Lemma grows_insert d d' k0 a0 :
  tbl d' = <[k0 := a0]> (tbl d) -> tbl d !! k0 = None -> grows tbl dead key d d'.
Proof.
  intros E Hn k a Hk. rewrite E. exists a. rewrite lookup_insert_ne by congruence. auto.
Qed.

Lemma grows_update d d' p f :
  tbl d' = update_where p f (tbl d) ->
  (forall a, (dead a -> dead (f a)) /\ key (f a) = key a) ->
  grows tbl dead key d d'.
Proof.
  intros E Hf k a Hk. rewrite E, lookup_update_where, Hk. simpl. eexists. split; [done|].
  destruct (p k a); [apply Hf|auto].
Qed.
End Grows.

Lemma same_steps_eq {X A} (view : Db -> X) (m : M A) e s r s' :
  steps (same view) m -> m e s = (r, s') -> view (db s') = view (db s).
Proof. intros Hs Hr. pose proof (Hs e s) as H. by rewrite Hr in H. Qed.

Lemma steps_same_grows {K A X B} `{Countable K} (tbl : Db -> gmap K A) (dead : A -> Prop)
    (key : A -> X) (m : M B) :
  steps (same tbl) m -> steps (grows tbl dead key) m.
Proof. intros Hs e s. apply grows_same, Hs. Qed.

#[export] Hint Resolve steps_ret steps_raise steps_lift steps_asks steps_gets steps_server_now
  steps_utcnow steps_draw steps_assert_some steps_token_bytes steps_token_urlsafe steps_uuid4
  steps_choice : hyproxy.
#[export] Hint Extern 1 (PreOrder _) => typeclasses eauto : hyproxy.

(** [steps_auto] walks down a computation; what is left is what the writes do. *)
Ltac steps_auto :=
  repeat first
    [ match goal with |- forall _, _ => intro end
    | solve [auto 3 with hyproxy]
    | lazymatch goal with
      | |- steps _ (bind _ _) => apply steps_bind; [typeclasses eauto| |]
      | |- steps _ (try_ _ _) => apply steps_try; [typeclasses eauto| |]
      | |- steps _ (when _ _) => apply steps_when; [typeclasses eauto|]
      | |- steps _ (for_ _ _) => apply steps_for; [typeclasses eauto|]
      | |- steps _ (db_session _) => apply steps_db_session; [typeclasses eauto|]
      | |- steps _ (db_add _ _ _ _ _ _) => apply steps_db_add; [typeclasses eauto|]
      | |- steps _ (moddb _) =>
          apply steps_moddb; [solve [intros; first [done | reflexivity | by apply grows_same]]]
      | |- steps _ (match ?x with _ => _ end) => destruct x
      end ].

(** The primary key drawn by [gen_random_uuid()]. *)
Lemma uuid4_of_range z : 0 <= uuid4_of z < UUID_MAX.
Proof.
  unfold uuid4_of, UUID_MAX. set (m := z mod 2 ^ 128).
  assert (0 <= m < 2 ^ 128) as Hm by (apply Z.mod_pos_bound; lia).
  assert (forall x, 0 <= x -> Z.log2 x < 128 -> x < 2 ^ 128) as Hlog.
  { intros x Hx Hl. destruct (decide (x = 0)) as [->|]; [lia|].
    apply Z.log2_lt_pow2; lia. }
  set (k1 := 0xFFFFFFFFFFFF0FFF3FFFFFFFFFFFFFFF). set (k2 := 0x40008000000000000000).
  assert (0 <= Z.land m k1) as Hl by (apply Z.land_nonneg; lia).
  assert (0 <= Z.lor (Z.land m k1) k2) as Hn by (apply Z.lor_nonneg; lia).
  split; [done|]. apply Hlog; [done|].
  rewrite Z.log2_lor by (lia || done). apply Z.max_lub_lt; [|reflexivity].
  eapply Z.le_lt_trans; [apply Z.log2_land; lia|].
  apply Z.min_lt_iff. right. reflexivity.
Qed.
