(* ===== verification/Crypto.v ===== *)
(** * Crypto: core/crypto.py and core/secrets.py

    The master keys, their parsing and pinning at start-up, and the envelope
    encryption under them.  AES-GCM is an operation of the environment ([Aead]);
    its law is that decryption under the same key, nonce and associated data
    gives the plaintext back. *)

From S2P Require Import Prelude PyStr Encoding Digest Json PyTime Config Db Effects.
Local Open Scope Z_scope.

Class Aead := {
  aes_gcm_encrypt : forall (key nonce plaintext aad : string), string;
  aes_gcm_decrypt : forall (key nonce ct aad : string), option string;
}.

Class AeadLaws `{Aead} := {
  aes_gcm_round : forall key nonce p aad,
    aes_gcm_decrypt key nonce (aes_gcm_encrypt key nonce p aad) aad = Some p;
}.

Definition NONCE_BYTES : nat := 12.
Definition MASTER_KEY_BYTES : Z := 32.

(** ** core/secrets.py *)

Definition master_key_fingerprint (key : string) : string := String.substring 0 16 (sha256_hex key).

Record SecretsBackend := mkBackend {
  b_keys : gmap string string;
  b_current : string;
}.

Definition current_key_id (b : SecretsBackend) : string := b_current b.
Definition get_master_key (b : SecretsBackend) (key_id : string) : result string :=
  match b_keys b !! key_id with
  | Some key => Ok key
  | None => Raise (KeyError key_id)
  end.
Definition current_fingerprint (b : SecretsBackend) : result string :=
  match b_keys b !! b_current b with
  | Some key => Ok (master_key_fingerprint key)
  | None => Raise (KeyError (b_current b))
  end.

(** A line of the key file that is neither blank nor a comment, as its key id and
    its encoded key ([line.partition(":")]). *)
Definition significant (raw : string) : bool :=
  let line := strip raw in negb (bool_decide (line = "") || startswith line "#").
Definition key_line (raw : string) : string * string :=
  match partition ":" (strip raw) with
  | Some (key_id, b64) => (key_id, b64)
  | None => (strip raw, "")
  end.

Fixpoint parse_lines (lines : list string) (keys : gmap string string) (current : option string)
  : result (gmap string string * option string) :=
  match lines with
  | [] => Ok (keys, current)
  | raw :: rest =>
      if negb (significant raw) then parse_lines rest keys current
      else
        let '(key_id, b64) := key_line raw in
        match b64decode b64 with
        | None => Raise (ValueError "base64")
        | Some key =>
            if negb (Z.of_nat (String.length key) =? MASTER_KEY_BYTES)
            then Raise (ValueError ("master key " +:+ key_id +:+ " is not 32 bytes"))
            else parse_lines rest (<[key_id := key]> keys) (Some key_id)
        end
  end.

Definition parse_master_keys (text : string) : result (gmap string string * string) :=
  match parse_lines (splitlines text) ∅ None with
  | Raise x => Raise x
  | Ok (_, None) => Raise (ValueError "no master keys found")
  | Ok (keys, Some current) => Ok (keys, current)
  end.

Definition TpmSecretsBackend (unsealed : string) : result SecretsBackend :=
  match parse_master_keys unsealed with
  | Raise x => Raise x
  | Ok (keys, current) => Ok (mkBackend keys current)
  end.

(** What running [tpm2_unseal] gives. *)
Inductive ProcessResult : Type :=
| FileNotFound
| CalledProcessError (stderr : string)
| Completed (stdout : string).

Definition tpm_unseal (run : list string -> ProcessResult) (s : Settings) : result string :=
  let blob := tpm_sealed_blob s in
  let pcrs := "pcr:" +:+ tpm_pcrs s in
  if bool_decide (blob = "")
  then Raise (RuntimeError
    "HYPROXY_TPM_SEALED_BLOB is empty; set it to the persistent handle of the TPM-sealed master key (e.g. 0x81010001)")
  else
    match run ["tpm2_unseal"; "-c"; blob; "-p"; pcrs] with
    | FileNotFound => Raise (RuntimeError
        "tpm2_unseal not found; install tpm2-tools in the runtime environment")
    | CalledProcessError stderr => Raise (RuntimeError
        ("tpm2_unseal failed for handle " +:+ blob +:+ " under " +:+ pcrs
         +:+ " (PCR state drift after a firmware/kernel update requires resealing; see docs/TPM_STEPS.md): "
         +:+ strip stderr))
    | Completed stdout =>
        if bool_decide (strip stdout = "")
        then Raise (RuntimeError "tpm2_unseal returned an empty payload")
        else Ok stdout
    end.

Definition verify_fingerprint (b : SecretsBackend) (expected_fp : string) : result unit :=
  if bool_decide (expected_fp = "") then Ok tt
  else match current_fingerprint b with
       | Raise x => Raise x
       | Ok actual_fp =>
           if negb (bool_decide (actual_fp = expected_fp))
           then Raise (RuntimeError
             ("master key fingerprint mismatch: the unsealed master key (" +:+ actual_fp
              +:+ ") is not the one this deployment is pinned to (HYPROXY_MASTER_KEY_FP="
              +:+ expected_fp
              +:+ "). The TPM blob was resealed or replaced without re-wrapping the database, so stored ciphertext cannot be decrypted. Restore the original key from the FIPS backup and reseal, or re-wrap to the new key; see docs/TPM_STEPS.md."))
           else Ok tt
       end.

Definition get_secrets_backend (run : list string -> ProcessResult) (s : Settings)
  : result SecretsBackend :=
  match tpm_unseal run s with
  | Raise x => Raise x
  | Ok text =>
      match TpmSecretsBackend text with
      | Raise x => Raise x
      | Ok b =>
          match verify_fingerprint b (master_key_fp s) with
          | Raise x => Raise x
          | Ok _ => Ok b
          end
      end
  end.

(** ** core/crypto.py *)

Definition encrypt_blob `{Aead} (b : SecretsBackend) (plaintext aad : string)
  : M (string * string) :=
  let key_id := current_key_id b in
  let! nonce := token_bytes NONCE_BYTES in
  let! key := lift (get_master_key b key_id) in
  ret (key_id, nonce +:+ aes_gcm_encrypt key nonce plaintext aad).

Definition drop_str (n : nat) (s : string) : string := String.substring n (String.length s - n) s.

Definition decrypt_blob `{Aead} (b : SecretsBackend) (key_id blob aad : string) : result string :=
  let nonce := String.substring 0 NONCE_BYTES blob in
  let ct := drop_str NONCE_BYTES blob in
  match get_master_key b key_id with
  | Raise x => Raise x
  | Ok key =>
      match aes_gcm_decrypt key nonce ct aad with
      | Some p => Ok p
      | None => Raise InvalidTag
      end
  end.

(** [new_token]: 32 random bytes in the URL-safe alphabet. *)
Definition new_token : M string := token_urlsafe 32.

(** ** Lemmas *)

Lemma substring_full s : String.substring 0 (String.length s) s = s.
Proof. induction s; simpl; congruence. Qed.

Lemma substring_app_l a b : String.substring 0 (String.length a) (a +:+ b) = a.
Proof.
  induction a as [|c a IH]; [by destruct b|]. rewrite app_cons. simpl. by rewrite IH.
Qed.

Lemma drop_str_app a b : drop_str (String.length a) (a +:+ b) = b.
Proof.
  unfold drop_str. rewrite str_length_app.
  replace (String.length a + String.length b - String.length a)%nat with (String.length b) by lia.
  induction a as [|c a IH]; [rewrite app_empty_l; apply substring_full|].
  by rewrite app_cons.
Qed.

Section Envelope.
Context `{Aead}.

Lemma encrypt_blob_spec b p aad e s kid blob s' :
  encrypt_blob b p aad e s = (Ok (kid, blob), s') ->
  kid = b_current b /\ db s' = db s /\ tick s' = S (tick s) /\
  exists key nonce, b_keys b !! kid = Some key /\ String.length nonce = NONCE_BYTES /\
    blob = nonce +:+ aes_gcm_encrypt key nonce p aad.
Proof.
  unfold encrypt_blob, token_bytes. intros Hm. minv Hm.
  unfold lift, get_master_key, current_key_id in *. destruct (b_keys b !! b_current b) eqn:E; simplify_eq.
  split_and!; [done..|]. eexists _, _. split_and!; [done| |done]. apply bytes_of_length.
Qed.

Lemma encrypt_blob_runs b p aad e s :
  is_Some (b_keys b !! b_current b) ->
  exists kid blob s', encrypt_blob b p aad e s = (Ok (kid, blob), s').
Proof.
  intros [key Hk]. unfold encrypt_blob, token_bytes, bind, draw, ret, lift, get_master_key,
    current_key_id. rewrite Hk. eauto.
Qed.

Lemma steps_encrypt_blob R `{!PreOrder R} b p aad : steps R (encrypt_blob b p aad).
Proof. unfold encrypt_blob. steps_auto. Qed.

Lemma decrypt_encrypt `{!AeadLaws} b p aad e s kid blob s' :
  encrypt_blob b p aad e s = (Ok (kid, blob), s') -> decrypt_blob b kid blob aad = Ok p.
Proof.
  intros (_ & _ & _ & key & nonce & Hk & Hl & ->)%encrypt_blob_spec.
  unfold decrypt_blob, get_master_key. rewrite Hk, <- Hl, substring_app_l, drop_str_app.
  by rewrite aes_gcm_round.
Qed.
End Envelope.

#[export] Hint Resolve steps_encrypt_blob : hyproxy.

(** The key lines of a text, as the parser reads them. *)
Definition key_lines (text : string) : list (string * string) :=
  map key_line (List.filter significant (splitlines text)).

Definition good_key_line (kl : string * string) : Prop :=
  exists key, b64decode kl.2 = Some key /\ Z.of_nat (String.length key) = MASTER_KEY_BYTES.

Definition line_key (kl : string * string) : string := default "" (b64decode kl.2).

Lemma parse_lines_spec lines : forall keys cur keys' cur',
  parse_lines lines keys cur = Ok (keys', cur') <->
  Forall good_key_line (map key_line (List.filter significant lines))
  /\ keys' = foldl (fun m kl => <[kl.1 := line_key kl]> m) keys
       (map key_line (List.filter significant lines))
  /\ cur' = match last (map key_line (List.filter significant lines)) with
            | Some kl => Some kl.1 | None => cur end.
Proof.
  induction lines as [|raw lines IH]; intros keys cur keys' cur'; simpl.
  { split; [intros [= <- <-]|intros (_ & -> & ->)]; repeat constructor. }
  destruct (significant raw); simpl; [|apply IH].
  destruct (key_line raw) as [kid b64]. rewrite Forall_cons.
  unfold good_key_line at 1, line_key at 2. simpl.
  destruct (b64decode b64) as [key|] eqn:Eb; [|naive_solver].
  destruct (Z.of_nat (String.length key) =? MASTER_KEY_BYTES) eqn:El; simpl.
  - apply Z.eqb_eq in El. rewrite IH, last_cons.
    destruct (last _) as [kl|]; simpl; naive_solver.
  - apply Z.eqb_neq in El. split; [done|]. intros [[(k & Hk & Hl) _] _]. simplify_eq.
Qed.

Lemma foldl_insert_last {V} (f : string * string -> V) l : forall (m : gmap string V) kl,
  last l = Some kl ->
  foldl (fun m kl => <[kl.1 := f kl]> m) m l !! kl.1 = Some (f kl).
Proof.
  induction l as [|x l IH] using rev_ind; intros m kl Hl; [done|].
  rewrite last_snoc in Hl. simplify_eq. rewrite foldl_snoc. apply lookup_insert_eq.
Qed.

Lemma foldl_insert_forall {V} (f : string * string -> V) (P : V -> Prop) l : forall m : gmap string V,
  map_Forall (fun _ v => P v) m -> Forall (fun kl => P (f kl)) l ->
  map_Forall (fun _ v => P v) (foldl (fun m kl => <[kl.1 := f kl]> m) m l).
Proof.
  induction l as [|x l IH]; intros m Hm Hl; [done|]. apply Forall_cons in Hl as [Hx Hl].
  simpl. apply IH; [by apply map_Forall_insert_2|done].
Qed.

(** A stand-in for AES-GCM that satisfies the law, for the witnesses: the
    associated data travels in front of the plaintext and is checked. *)
Definition clear_aead : Aead := {|
  aes_gcm_encrypt _ _ p aad := aad +:+ p;
  aes_gcm_decrypt _ _ ct aad := strip_prefix aad ct;
|}.

Lemma clear_aead_laws : @AeadLaws clear_aead.
Proof. constructor. intros. apply strip_prefix_app. Qed.

(** A backend with two 32-byte keys, and an environment, for the witnesses. *)
Definition demo_key (c : ascii) : string := repeat_char c 32.
Definition demo_backend : SecretsBackend :=
  mkBackend (<["mk-1" := demo_key "a"]> (<["mk-2" := demo_key "b"]> ∅)) "mk-2".
Definition demo_env : Env :=
  mkEnv example_settings (seconds 1000000) (fun n => seconds 1000000) (fun n => Z.of_nat n * 7919 + 13).
Definition demo_st (d : Db) : St := mkSt d 0.

(** ** Theorems *)

(** A key file parses exactly when it has a key line and each of them decodes to 32
    bytes; the current key is that of the last line, and every key kept is 32 bytes. *)
Theorem parse_master_keys_spec text :
  ((exists r, parse_master_keys text = Ok r) <->
   key_lines text <> [] /\ Forall good_key_line (key_lines text))
  /\ forall keys cur, parse_master_keys text = Ok (keys, cur) ->
     (exists kl, last (key_lines text) = Some kl /\ cur = kl.1 /\ keys !! cur = b64decode kl.2)
     /\ map_Forall (fun _ k => Z.of_nat (String.length k) = MASTER_KEY_BYTES) keys.
Proof.
  unfold parse_master_keys, key_lines. set (kls := map _ _).
  destruct (parse_lines _ _ _) as [[m c]|x] eqn:E.
  - apply parse_lines_spec in E as (Hg & Hm & Hc). fold kls in Hg, Hm, Hc.
    destruct (last kls) as [kl|] eqn:El; subst c.
    + assert (kls <> []) by (intros E0; by rewrite E0 in El).
      split; [split; eauto|]. intros ? ? [= <- <-]. split.
      * exists kl. split_and!; [done..|]. rewrite Hm, foldl_insert_last by done.
        assert (kl ∈ kls) as Hin by by apply last_Some_elem_of.
        rewrite Forall_forall in Hg. destruct (Hg _ Hin) as (k & Hk & _).
        unfold line_key. by rewrite Hk.
      * rewrite Hm. apply foldl_insert_forall; [apply map_Forall_empty|].
        eapply Forall_impl; [exact Hg|]. intros kl' (k & Hk & Hl). unfold line_key. by rewrite Hk.
    + apply last_None in El. split; [|done]. split; [by intros [? ?]|]. naive_solver.
  - split; [|done]. split; [by intros [? ?]|]. intros [_ Hg]. exfalso.
    pose proof (proj2 (parse_lines_spec (splitlines text) ∅ None _ _)
                  (conj Hg (conj eq_refl eq_refl))). congruence.
Qed.

Lemma parse_master_keys_current text keys cur :
  parse_master_keys text = Ok (keys, cur) ->
  exists key, keys !! cur = Some key /\ Z.of_nat (String.length key) = MASTER_KEY_BYTES.
Proof.
  unfold parse_master_keys. destruct (parse_lines _ _ _) as [[m c]|x] eqn:E; [|done].
  apply parse_lines_spec in E as (Hg & Hm & Hc). destruct (last _) as [kl|] eqn:El; subst c; [|done].
  intros [= <- <-]. rewrite Hm, foldl_insert_last by done. eexists. split; [done|].
  rewrite Forall_forall in Hg. apply last_Some_elem_of in El.
  destruct (Hg _ El) as (k & Hk & Hl). unfold line_key. by rewrite Hk.
Qed.

(** A process that starts has a 32-byte current master key, and when the
    deployment pins a fingerprint, it is the fingerprint of that key. *)
Theorem startup_key_pinned run s b (H : get_secrets_backend run s = Ok b) :
  exists key, get_master_key b (current_key_id b) = Ok key
  /\ Z.of_nat (String.length key) = MASTER_KEY_BYTES
  /\ (master_key_fp s <> "" -> master_key_fingerprint key = master_key_fp s).
Proof.
  unfold get_secrets_backend, TpmSecretsBackend in H.
  destruct (tpm_unseal run s) as [text|]; [|done].
  destruct (parse_master_keys text) as [[keys cur]|] eqn:Ep; [|done].
  destruct (verify_fingerprint _ _) eqn:Ev; [|done]. simplify_eq.
  apply parse_master_keys_current in Ep as (key & Hk & Hl). exists key.
  unfold get_master_key, current_key_id. simpl. rewrite Hk. split_and!; [done..|].
  intros Hfp. unfold verify_fingerprint, current_fingerprint in Ev. simpl in Ev. rewrite Hk in Ev.
  rewrite bool_decide_eq_false_2 in Ev by done. by case_bool_decide.
Qed.

Definition demo_unseal (args : list string) : ProcessResult :=
  Completed ("# hyproxy" +:+ String (chr 10) ("mk-1:" +:+ b64encode (demo_key "k"))).
Definition unsealed_backend : SecretsBackend :=
  mkBackend (<["mk-1" := demo_key "k"]> ∅) "mk-1".

Example startup_key_pinned_witness :
  get_secrets_backend demo_unseal example_settings = Ok unsealed_backend
  /\ exists key, get_master_key unsealed_backend "mk-1" = Ok key
     /\ Z.of_nat (String.length key) = MASTER_KEY_BYTES
     /\ (master_key_fp example_settings <> "" ->
         master_key_fingerprint key = master_key_fp example_settings).
Proof.
  assert (get_secrets_backend demo_unseal example_settings = Ok unsealed_backend) as H
    by reflexivity.
  split; [exact H|]. exact (startup_key_pinned demo_unseal example_settings _ H).
Defined.

(** What [encrypt_blob] seals, [decrypt_blob] opens under the recorded key id, with
    any backend that still serves the key. *)
Theorem envelope_roundtrip `{AeadLaws} b b' p aad e s kid blob s'
    (Henc : encrypt_blob b p aad e s = (Ok (kid, blob), s'))
    (Hkeep : b_keys b !! kid = b_keys b' !! kid) :
  kid = current_key_id b /\ decrypt_blob b' kid blob aad = Ok p /\ db s' = db s.
Proof.
  pose proof (encrypt_blob_spec _ _ _ _ _ _ _ _ Henc) as (-> & Hdb & _).
  split_and!; [done| |done]. rewrite <- (decrypt_encrypt _ _ _ _ _ _ _ _ Henc).
  unfold decrypt_blob, get_master_key. by rewrite Hkeep.
Qed.

Definition sealed_demo : string * string :=
  ("mk-2", bytes_of NONCE_BYTES 13 +:+ "user_totp" +:+ "JBSWY3DP").

Example envelope_roundtrip_witness :
  (encrypt_blob (H := clear_aead) demo_backend "JBSWY3DP" "user_totp" demo_env (demo_st empty_db)
     = (Ok sealed_demo, mkSt empty_db 1))
  /\ decrypt_blob (H := clear_aead) demo_backend "mk-2" sealed_demo.2 "user_totp" = Ok "JBSWY3DP".
Proof.
  assert (encrypt_blob (H := clear_aead) demo_backend "JBSWY3DP" "user_totp" demo_env
            (demo_st empty_db) = (Ok sealed_demo, mkSt empty_db 1)) as H by reflexivity.
  split; [exact H|].
  exact (proj1 (proj2 (envelope_roundtrip (H := clear_aead) (H0 := clear_aead_laws) demo_backend
    demo_backend "JBSWY3DP" "user_totp" demo_env (demo_st empty_db) "mk-2" sealed_demo.2
    (mkSt empty_db 1) H eq_refl))).
Defined.
