(* ===== verification/Keys.v ===== *)
(** * Keys: core/keys.py, the life cycle of the OIDC signing keys

    pending (published, not signing) to active (the one that signs) to retiring
    (still published) to retired.  [reachable] is the set of the databases that
    sequences of the four operations build. *)

From S2P Require Import Prelude PyStr Encoding Json PyTime Config Db Effects Crypto.
Local Open Scope Z_scope.

(** [joserfc]'s [ECKey]: a private key is given by its PEM text. *)
Class EcKeys := {
  ec_generate : Z -> string;
  ec_public : string -> list (string * json);
  ec_import : string -> result string;
}.

Definition RETIRE_BUFFER : Z := minutes 15.
Definition PUBLISHED_STATES : list string := ["pending"; "active"; "retiring"].
Definition KEYS_AAD : string := "signing_keys".

Section Keys.
Context `{Aead, EcKeys}.

Definition generate (b : SecretsBackend) : M SigningKey :=
  let! z := draw in
  let key := ec_generate z in
  let! u := uuid4 in
  let kid := uuid_hex u in
  let public :=
    assoc_set "alg" (JStr "ES256")
      (assoc_set "use" (JStr "sig") (assoc_set "kid" (JStr kid) (ec_public key))) in
  let! '(key_id, blob) := encrypt_blob b key KEYS_AAD in
  let! created := server_now in
  ret (mkSigningKey kid "ES256" "pending" public blob key_id created None None None).

Definition create_pending (b : SecretsBackend) : M Z :=
  let! row := generate b in
  let! id := uuid4 in
  db_add "signing_keys" signing_keys upd_signing_keys
    (fun r => bool_decide (sk_kid r = sk_kid row)) id row;;
  ret id.

Definition demote (now : Z) (k : SigningKey) : SigningKey :=
  set_sk_retiring_at (Some now) (set_sk_state "retiring" k).
Definition promote (now : Z) (k : SigningKey) : SigningKey :=
  set_sk_activated_at (Some now) (set_sk_state "active" k).
Definition retire (now : Z) (k : SigningKey) : SigningKey :=
  set_sk_retired_at (Some now) (set_sk_state "retired" k).

Definition in_state (s : string) (_ : Z) (k : SigningKey) : bool :=
  bool_decide (sk_state k = s).

Definition activate_pending (now : Z) : M Z :=
  let! keys := gets signing_keys in
  match max_by (fun kv => sk_created_at kv.2) (select (in_state "pending") keys) with
  | None => raise NoActiveKeyError
  | Some (pending, _) =>
      moddb (upd_signing_keys (update_where (in_state "active") (demote now)));;
      moddb (upd_signing_keys (alter (promote now) pending));;
      ret pending
  end.

Definition bootstrap_if_empty (b : SecretsBackend) (now : Z) : M unit :=
  let! keys := gets signing_keys in
  match scalar (map_to_list keys) with
  | None => create_pending b;; activate_pending now;; ret tt
  | Some _ => ret tt
  end.

Definition get_active_signing_key (b : SecretsBackend) : M (string * string) :=
  let! keys := gets signing_keys in
  match scalar (select (in_state "active") keys) with
  | None => raise NoActiveKeyError
  | Some (_, row) =>
      let! pem := lift (decrypt_blob b (sk_key_id row) (sk_private_key_ciphertext row) KEYS_AAD) in
      let! key := lift (ec_import pem) in
      ret (sk_kid row, key)
  end.

Definition published (k : SigningKey) : bool := bool_decide (sk_state k ∈ PUBLISHED_STATES).

Definition get_verification_jwks : M (list (list (string * json))) :=
  let! keys := gets signing_keys in
  ret (map (fun kv => sk_public_jwk kv.2)
         (order_by (fun kv => sk_created_at kv.2) (select (fun _ => published) keys))).

Definition grace_over (now : Z) (_ : Z) (k : SigningKey) : bool :=
  bool_decide (sk_state k = "retiring")
  && match sk_retiring_at k with Some t => t <=? now - RETIRE_BUFFER | None => false end.

Definition gc_retired (now : Z) : M Z :=
  let! keys := gets signing_keys in
  moddb (upd_signing_keys (update_where (grace_over now) (retire now)));;
  ret (count_where (grace_over now) keys).

(** ** The operations as steps *)

Inductive key_op : Type :=
| OpCreate
| OpActivate (now : Z)
| OpBootstrap (now : Z)
| OpGc (now : Z).

Definition run_op (b : SecretsBackend) (op : key_op) : M unit :=
  db_session
    match op with
    | OpCreate => create_pending b;; ret tt
    | OpActivate now => activate_pending now;; ret tt
    | OpBootstrap now => bootstrap_if_empty b now
    | OpGc now => gc_retired now;; ret tt
    end.

Inductive reachable (b : SecretsBackend) : Db -> Prop :=
| Reach_start d : signing_keys d = ∅ -> reachable b d
| Reach_op d op e n : reachable b d -> reachable b (db (run_op b op e (mkSt d n)).2).

(** ** What each operation does to the table *)

Implicit Types (t : gmap Z SigningKey).

Definition activated (now : Z) (id : Z) t : gmap Z SigningKey :=
  alter (promote now) id (update_where (in_state "active") (demote now) t).

Lemma generate_spec b e s row s' :
  generate b e s = (Ok row, s') ->
  sk_state row = "pending" /\ sk_retiring_at row = None /\ db s' = db s.
Proof.
  unfold generate, uuid4. intros Hm. minv Hm.
  match goal with Hx : encrypt_blob _ _ _ _ _ = _ |- _ =>
    apply encrypt_blob_spec in Hx as (_ & Hd & _) end.
  simpl in *. done.
Qed.

(** One write of the table. *)
Inductive tstep : gmap Z SigningKey -> gmap Z SigningKey -> Prop :=
| T_create t id row :
    t !! id = None -> sk_state row = "pending" -> sk_retiring_at row = None ->
    tstep t (<[id := row]> t)
| T_activate t now id row :
    t !! id = Some row -> sk_state row = "pending" ->
    (forall id' row', t !! id' = Some row' -> sk_state row' = "pending" ->
       sk_created_at row' <= sk_created_at row) ->
    tstep t (activated now id t)
| T_retire t now : tstep t (update_where (grace_over now) (retire now) t).

Lemma create_pending_spec b e s id s' :
  create_pending b e s = (Ok id, s') ->
  exists row, signing_keys (db s) !! id = None /\ sk_state row = "pending"
    /\ sk_retiring_at row = None
    /\ signing_keys (db s') = <[id := row]> (signing_keys (db s)).
Proof.
  unfold create_pending, uuid4. intros Hm. minv Hm.
  match goal with Hx : generate _ _ _ = _ |- _ => apply generate_spec in Hx as (? & ? & Hd) end.
  match goal with Hx : db_add _ _ _ _ _ _ _ _ = _ |- _ =>
    apply db_add_Ok in Hx as (? & _ & Hdb & _) end.
  simpl in *. rewrite Hd in *. rewrite Hdb. eauto.
Qed.

Lemma activate_pending_spec now e s id s' :
  activate_pending now e s = (Ok id, s') ->
  exists row, signing_keys (db s) !! id = Some row /\ sk_state row = "pending"
    /\ (forall id' row', signing_keys (db s) !! id' = Some row' -> sk_state row' = "pending" ->
          sk_created_at row' <= sk_created_at row)
    /\ signing_keys (db s') = activated now id (signing_keys (db s)).
Proof.
  unfold activate_pending, bind, gets, raise. destruct (max_by _ _) as [[i row]|] eqn:E; [|done].
  intros [= <- <-]. simpl. apply max_by_spec in E as [Hin Hmax].
  apply select_In in Hin as [Hk Hp]. unfold in_state in Hp. bool_simpl.
  exists row. split_and!; [done|done| |done].
  intros id' row' Hk' Hs'. apply (Hmax (id', row')). apply select_In. split; [done|].
  by apply bool_decide_eq_true_2.
Qed.

Lemma bootstrap_spec b now e s s' :
  bootstrap_if_empty b now e s = (Ok tt, s') ->
  (signing_keys (db s) <> ∅ /\ s' = s) \/
  (signing_keys (db s) = ∅ /\ exists t1, tstep ∅ t1 /\ tstep t1 (signing_keys (db s')) /\
     exists id row, signing_keys (db s') = {[ id := row ]} /\ sk_state row = "active").
Proof.
  unfold bootstrap_if_empty. intros Hm. minv Hm.
  destruct (scalar (map_to_list (signing_keys (db s)))) as [[k a]|] eqn:E.
  - minv Hm. left. split; [|done]. intros Hn. by rewrite Hn, map_to_list_empty in E.
  - right. assert (signing_keys (db s) = ∅) as Hemp.
    { apply map_to_list_empty_iff. unfold scalar in E. by destruct (map_to_list _). }
    split; [done|]. minv Hm.
    match goal with Hx : create_pending _ _ _ = _ |- _ =>
      apply create_pending_spec in Hx as (row & ? & Hp & Hr & Ht) end.
    match goal with Hx : activate_pending _ _ _ = _ |- _ =>
      apply activate_pending_spec in Hx as (row' & Hl & Hp' & Hmax & Ht') end.
    rewrite Hemp in *. rewrite Ht in *. rewrite insert_empty in *.
    exists {[ a := row ]}. split_and!.
    + rewrite <- insert_empty. by constructor.
    + rewrite Ht'. by econstructor.
    + apply lookup_singleton_Some in Hl as [-> <-]. eexists _, (promote now row). split; [|reflexivity].
      rewrite Ht'. unfold activated. apply map_eq. intros i.
      destruct (decide (i = a0)) as [->|Hne].
      * rewrite lookup_alter_eq, lookup_update_where, !lookup_singleton_eq. simpl.
        unfold in_state. rewrite Hp. simpl. done.
      * by rewrite lookup_alter_ne, lookup_update_where, !lookup_singleton_ne by done.
Qed.

Definition tsteps : relation (gmap Z SigningKey) := rtc tstep.

Lemma run_op_tsteps b op e s :
  tsteps (signing_keys (db s)) (signing_keys (db (run_op b op e s).2)).
Proof.
  unfold run_op. destruct (db_session _ e s) as [[u|x] s'] eqn:E; simpl.
  2: { apply db_session_rollback in E. rewrite E. reflexivity. }
  destruct op; minv E.
  - apply create_pending_spec in Hm as (row & ? & ? & ? & ->). by apply rtc_once, T_create.
  - apply activate_pending_spec in Hm as (row & ? & ? & ? & ->). by eapply rtc_once, T_activate.
  - destruct u. apply bootstrap_spec in E as [[_ ->]|(-> & t1 & H1 & H2 & _)]; [reflexivity|].
    by eapply rtc_l, rtc_once.
  - unfold gc_retired in Hm. minv Hm. apply rtc_once, T_retire.
Qed.

Definition active (k : SigningKey) : Prop := sk_state k = "active".

Definition at_most_one_active t : Prop :=
  forall i j ki kj, t !! i = Some ki -> t !! j = Some kj -> active ki -> active kj -> i = j.

Definition has_active t : Prop := exists i k, t !! i = Some k /\ active k.

Lemma activated_lookup now id t i row k :
  t !! id = Some row -> sk_state row = "pending" -> activated now id t !! i = Some k ->
  (i = id /\ k = promote now row) \/
  (i <> id /\ exists k0, t !! i = Some k0 /\
     ((active k0 /\ k = demote now k0) \/ (~ active k0 /\ k = k0))).
Proof.
  unfold activated, active. intros Hid Hp. destruct (decide (i = id)) as [->|Hne].
  - rewrite lookup_alter_eq, lookup_update_where, Hid. simpl. unfold in_state. rewrite Hp. simpl.
    intros [= <-]. auto.
  - rewrite lookup_alter_ne, lookup_update_where by done.
    destruct (t !! i) as [k0|]; simpl; [|done]. intros [= <-]. right. split; [done|].
    exists k0. split; [done|]. unfold in_state. case_bool_decide; auto.
Qed.

Lemma retire_lookup now t i k :
  update_where (grace_over now) (retire now) t !! i = Some k ->
  exists k0, t !! i = Some k0 /\
    ((grace_over now i k0 = true /\ k = retire now k0) \/ (grace_over now i k0 = false /\ k = k0)).
Proof.
  rewrite lookup_update_where. destruct (t !! i) as [k0|]; simpl; [|done]. intros [= <-].
  exists k0. destruct (grace_over now i k0); auto.
Qed.

Lemma tstep_single t t' : tstep t t' -> at_most_one_active t -> at_most_one_active t'.
Proof.
  intros [t0 id row Hn Hp _|t0 now id row Hid Hp _|t0 now] Ht i j ki kj Hi Hj Ai Aj.
  - apply lookup_insert_Some in Hi as [[<- <-]|[_ Hi]]; [unfold active in Ai; congruence|].
    apply lookup_insert_Some in Hj as [[<- <-]|[_ Hj]]; [unfold active in Aj; congruence|].
    by eapply Ht.
  - eapply activated_lookup in Hi; [|done..]. eapply activated_lookup in Hj; [|done..].
    unfold active in *.
    destruct Hi as [[-> _]|(_ & k1 & ? & [[? ->]|[? ->]])]; [|done..].
    by destruct Hj as [[-> _]|(_ & k2 & ? & [[? ->]|[? ->]])].
  - apply retire_lookup in Hi as (k1 & Hi & [[_ ->]|[_ ->]]); [done|].
    apply retire_lookup in Hj as (k2 & Hj & [[_ ->]|[_ ->]]); [done|]. by eapply Ht.
Qed.

Lemma tstep_has_active t t' : tstep t t' -> has_active t -> has_active t'.
Proof.
  intros [t0 id row Hn Hp _|t0 now id row Hid Hp _|t0 now] (i & k & Hi & Ha).
  - exists i, k. split; [|done]. apply lookup_insert_Some. right. split; [|done]. congruence.
  - exists id, (promote now row). split; [|done]. unfold activated.
    rewrite lookup_alter_eq, lookup_update_where, Hid. simpl. unfold in_state. by rewrite Hp.
  - exists i, k. split; [|done]. rewrite lookup_update_where, Hi. simpl.
    unfold grace_over. unfold active in Ha. by rewrite Ha.
Qed.

(** A key is never deleted and its published half never changes; it leaves the
    published set only when its grace has passed. *)
Definition kept (now : option Z) t t' : Prop :=
  forall i k, t !! i = Some k -> exists k', t' !! i = Some k'
    /\ sk_kid k' = sk_kid k /\ sk_public_jwk k' = sk_public_jwk k
    /\ (published k = true -> published k' = false ->
        exists n r, now = Some n /\ sk_state k = "retiring" /\ sk_retiring_at k = Some r
          /\ r + RETIRE_BUFFER <= n).

Lemma kept_insert now t id row : t !! id = None -> kept now t (<[id := row]> t).
Proof.
  intros Hn i k Hi. exists k. split; [|by split_and!; [..|congruence]].
  apply lookup_insert_Some. right. split; [congruence|done].
Qed.

Lemma kept_activated now t n id row :
  t !! id = Some row -> sk_state row = "pending" -> kept now t (activated n id t).
Proof.
  intros Hid Hp i k Hi. unfold activated. destruct (decide (i = id)) as [->|Hne].
  - rewrite lookup_alter_eq, lookup_update_where, Hi. simpl. eexists. split; [reflexivity|].
    unfold in_state. simplify_eq. rewrite Hp. done.
  - rewrite lookup_alter_ne, lookup_update_where, Hi by done. simpl. eexists.
    split; [reflexivity|]. unfold in_state. case_bool_decide; [done|].
    split_and!; [done..|congruence].
Qed.

Lemma kept_retire t n : kept (Some n) t (update_where (grace_over n) (retire n) t).
Proof.
  intros i k Hi. rewrite lookup_update_where, Hi. simpl. eexists. split; [reflexivity|].
  unfold grace_over. destruct (bool_decide _) eqn:Es; simpl; [|split_and!; [done..|congruence]].
  destruct (sk_retiring_at k) as [r|]; [|split_and!; [done..|congruence]].
  destruct (r <=? n - RETIRE_BUFFER) eqn:El; [|split_and!; [done..|congruence]].
  bool_simpl. split_and!; [done..|]. intros _ _. eexists _, _. split_and!; [done..|lia].
Qed.

Lemma kept_refl now t : kept now t t.
Proof. intros i k Hi. exists k. split_and!; [done..|congruence]. Qed.

Lemma run_op_kept b op e s :
  kept (match op with OpGc n => Some n | _ => None end)
    (signing_keys (db s)) (signing_keys (db (run_op b op e s).2)).
Proof.
  unfold run_op. destruct (db_session _ e s) as [[u|x] s'] eqn:E; simpl.
  2: { apply db_session_rollback in E. rewrite E. apply kept_refl. }
  destruct op; minv E.
  - apply create_pending_spec in Hm as (row & ? & ? & ? & ->). by apply kept_insert.
  - apply activate_pending_spec in Hm as (row & ? & ? & ? & ->). by eapply kept_activated.
  - destruct u. apply bootstrap_spec in E as [[_ ->]|(-> & _)]; [apply kept_refl|].
    intros i k Hi. by rewrite lookup_empty in Hi.
  - unfold gc_retired in Hm. minv Hm. apply kept_retire.
Qed.

(** C23: In every database the operations build, at most one key is active, and from
    the first activation on there is one; at bootstrap of an empty table there is. *)
Theorem one_active_signing_key b d (Hd : reachable b d) :
  at_most_one_active (signing_keys d)
  /\ (forall op e n, has_active (signing_keys d) ->
       has_active (signing_keys (db (run_op b op e (mkSt d n)).2)))
  /\ (forall now e n s', signing_keys d = ∅ ->
       run_op b (OpBootstrap now) e (mkSt d n) = (Ok tt, s') -> has_active (signing_keys (db s'))).
Proof.
  split_and!.
  - induction Hd as [d Hd|d op e t Hd IH].
    + intros i j ki kj Hi. by rewrite Hd, lookup_empty in Hi.
    + pose proof (run_op_tsteps b op e (mkSt d t)) as Hs. simpl in Hs.
      induction Hs; [done|]. eauto using tstep_single.
  - intros op e n Ha. pose proof (run_op_tsteps b op e (mkSt d n)) as Hs. simpl in Hs.
    induction Hs; [done|]. eauto using tstep_has_active.
  - intros now e n s' Hn Hr. unfold run_op in Hr. minv Hr.
    apply bootstrap_spec in Hr as [[? _]|(_ & _ & _ & _ & id & row & -> & Ha)]; [done|].
    exists id, row. split; [apply lookup_singleton_eq|done].
Qed.

(** No operation deletes a key or changes what it publishes; one that is published
    leaves the published set only in [gc_retired], while retiring, and 15 minutes or
    more after it was demoted. *)
Theorem published_until_grace b op e s i k
    (Hi : signing_keys (db s) !! i = Some k) :
  exists k', signing_keys (db (run_op b op e s).2) !! i = Some k'
  /\ sk_kid k' = sk_kid k /\ sk_public_jwk k' = sk_public_jwk k
  /\ (published k = true -> published k' = false ->
      exists now r, op = OpGc now /\ sk_state k = "retiring" /\ sk_retiring_at k = Some r
        /\ r + RETIRE_BUFFER <= now).
Proof.
  destruct (run_op_kept b op e s i k Hi) as (k' & Hk' & H1 & H2 & H3).
  exists k'. split_and!; [done..|]. intros Hp Hn. destruct (H3 Hp Hn) as (n & r & Hop & ? & ? & ?).
  destruct op; simplify_eq. eauto 7.
Qed.

(** The key that signs is an active row and its public half is in the JWKS. *)
Theorem signing_key_is_published b e s kid key s'
    (Hk : get_active_signing_key b e s = (Ok (kid, key), s')) :
  exists id row jwks, signing_keys (db s) !! id = Some row /\ active row /\ sk_kid row = kid
  /\ get_verification_jwks e s = (Ok jwks, s) /\ sk_public_jwk row ∈ jwks
  /\ s' = s.
Proof.
  unfold get_active_signing_key in Hk. minv Hk.
  destruct (scalar _) as [[id row]|] eqn:E; [|done]. minv Hk.
  unfold lift in *. simplify_eq.
  apply scalar_select in E as [Hid Ha]. unfold in_state in Ha. bool_simpl.
  eexists id, row, _. split_and!; [done|done|done|reflexivity| |done].
  apply list_elem_of_fmap. exists (id, row). split; [done|]. apply order_by_In, select_In.
  split; [done|]. unfold published. rewrite Ha. done.
Qed.
End Keys.

(** ** Witnesses *)

Definition demo_ec : EcKeys := {|
  ec_generate z := "PEM" +:+ hex_fixed 8 z;
  ec_public pem := [("kty", JStr "EC"); ("x", JStr pem)];
  ec_import pem := Ok pem;
|}.

Definition demo_row (state : string) : SigningKey :=
  mkSigningKey "k0" "ES256" state [("kid", JStr "k0")] ("123456789012signing_keysPEM") "mk-2" 0
    (Some 0) (Some 0) None.
Definition demo_keys (state : string) : Db :=
  upd_signing_keys (fun _ => {[ 7 := demo_row state ]}) empty_db.

Example one_active_signing_key_witness :
  at_most_one_active (signing_keys
    (db (run_op (H := clear_aead) (H0 := demo_ec) demo_backend (OpBootstrap 5) demo_env
           (mkSt empty_db 0)).2)).
Proof.
  refine (proj1 (one_active_signing_key (H := clear_aead) (H0 := demo_ec) demo_backend _ _)).
  apply Reach_op. apply Reach_start. reflexivity.
Defined.

Example published_until_grace_witness :
  exists k', signing_keys (db (run_op (H := clear_aead) (H0 := demo_ec) demo_backend
      (OpGc (minutes 20)) demo_env (mkSt (demo_keys "retiring") 0)).2) !! 7 = Some k'
  /\ published k' = false.
Proof.
  destruct (published_until_grace (H := clear_aead) (H0 := demo_ec) demo_backend
    (OpGc (minutes 20)) demo_env (mkSt (demo_keys "retiring") 0) 7 (demo_row "retiring") eq_refl)
    as (k' & Hk' & _).
  exists k'. split; [exact Hk'|]. vm_compute in Hk'. injection Hk' as <-. reflexivity.
Defined.

Example signing_key_is_published_witness :
  exists id row jwks, signing_keys (demo_keys "active") !! id = Some row /\ active row
  /\ sk_kid row = "k0"
  /\ get_verification_jwks demo_env (mkSt (demo_keys "active") 0)
     = (Ok jwks, mkSt (demo_keys "active") 0)
  /\ sk_public_jwk row ∈ jwks /\ mkSt (demo_keys "active") 0 = mkSt (demo_keys "active") 0.
Proof.
  apply (signing_key_is_published (H := clear_aead) (H0 := demo_ec) demo_backend demo_env
    (mkSt (demo_keys "active") 0) "k0" "PEM"). reflexivity.
Defined.
