(* ===== verification/Reencrypt.v ===== *)
(** * Reencrypt: core/reencrypt.py, the rotation of the master key

    [Sealed A] is the interface of a table with a sealed column: one entry of the
    list [_SEALED].  The pass over a table is proved once, against the interface,
    and used for the three tables. *)

From S2P Require Import Prelude PyStr Encoding Json Config Db Effects Crypto.
Local Open Scope Z_scope.

Record Sealed (A : Type) := mkSealed {
  sl_name : string;
  sl_aad : string;
  sl_rows : Db -> gmap Z A;
  sl_upd : (gmap Z A -> gmap Z A) -> Db -> Db;
  sl_blob : A -> option string;
  sl_kid : A -> option string;
  sl_seal : string -> string -> A -> A;
}.
Arguments mkSealed {A}.
Arguments sl_name {A}. Arguments sl_aad {A}. Arguments sl_rows {A}. Arguments sl_upd {A}.
Arguments sl_blob {A}. Arguments sl_kid {A}. Arguments sl_seal {A}.

Class SealedLaws {A} (T : Sealed A) := {
  sl_rows_upd : forall f d, sl_rows T (sl_upd T f d) = f (sl_rows T d);
  sl_blob_seal : forall kid blob a, sl_blob T (sl_seal T kid blob a) = Some blob;
  sl_kid_seal : forall kid blob a, sl_kid T (sl_seal T kid blob a) = Some kid;
  sl_upd_id : forall d, sl_upd T id d = d;
}.

Definition sealed_signing_keys : Sealed SigningKey :=
  mkSealed "signing_keys" "signing_keys" signing_keys upd_signing_keys
    (fun r => Some (sk_private_key_ciphertext r)) (fun r => Some (sk_key_id r))
    (fun kid blob r => set_sk_key_id kid (set_sk_private_key_ciphertext blob r)).
Definition sealed_user_totp : Sealed UserTotp :=
  mkSealed "user_totp" "user_totp" user_totp upd_user_totp
    (fun r => Some (ut_secret_ciphertext r)) (fun r => Some (ut_key_id r))
    (fun kid blob r => set_ut_key_id kid (set_ut_secret_ciphertext blob r)).
Definition sealed_connections : Sealed ResourceConnection :=
  mkSealed "resource_connections" "resource_connections" resource_connections
    upd_resource_connections rc_secret_ciphertext rc_key_id
    (fun kid blob r => set_rc_key_id (Some kid) (set_rc_secret_ciphertext (Some blob) r)).

Record RotationResult := mkRotation {
  target_key_id : string;
  rewrapped : list (string * Z);
}.
Definition total (r : RotationResult) : Z := foldr (fun kv n => kv.2 + n) 0 (rewrapped r).

Section Rotate.
Context `{Aead}.

(** [decrypt_blob] with a nullable key id. *)
Definition decrypt_opt (b : SecretsBackend) (kid : option string) (blob aad : string)
  : result string :=
  match kid with
  | Some k => decrypt_blob b k blob aad
  | None => Raise (KeyError "None")
  end.

(** The loop over the rows of one table. *)
Fixpoint rotate_rows {A} (T : Sealed A) (b : SecretsBackend) (rows : list (Z * A)) (n : Z) : M Z :=
  match rows with
  | [] => ret n
  | (id, row) :: rest =>
      match sl_blob T row with
      | None => rotate_rows T b rest n
      | Some blob =>
          if bool_decide (sl_kid T row = Some (current_key_id b)) then rotate_rows T b rest n
          else
            let! plaintext := lift (decrypt_opt b (sl_kid T row) blob (sl_aad T)) in
            let! '(new_kid, new_blob) := encrypt_blob b plaintext (sl_aad T) in
            moddb (sl_upd T <[id := sl_seal T new_kid new_blob row]>);;
            rotate_rows T b rest (n + 1)
      end
  end.

Definition rotate_table {A} (T : Sealed A) (b : SecretsBackend) : M Z :=
  let! t := gets (sl_rows T) in rotate_rows T b (map_to_list t) 0.

Definition rotate_to_current (b : SecretsBackend) : M RotationResult :=
  let! n1 := rotate_table sealed_signing_keys b in
  let! n2 := rotate_table sealed_user_totp b in
  let! n3 := rotate_table sealed_connections b in
  ret (mkRotation (current_key_id b)
    [(sl_name sealed_signing_keys, n1); (sl_name sealed_user_totp, n2);
     (sl_name sealed_connections, n3)]).

(** ** Specification of the pass over one table *)

(** What the pass makes of a row: nothing when it is unsealed or already under the
    current key, else the same row with a new envelope of the same plaintext. *)
Definition due {A} (T : Sealed A) (b : SecretsBackend) (row : A) : bool :=
  match sl_blob T row with
  | None => false
  | Some _ => negb (bool_decide (sl_kid T row = Some (current_key_id b)))
  end.

Inductive rewrap {A} (T : Sealed A) (b : SecretsBackend) (row : A) : A -> Prop :=
| Rewrap_skip : due T b row = false -> rewrap T b row row
| Rewrap_seal kid blob p new_blob :
    sl_kid T row = Some kid -> sl_blob T row = Some blob ->
    decrypt_blob b kid blob (sl_aad T) = Ok p ->
    decrypt_blob b (current_key_id b) new_blob (sl_aad T) = Ok p ->
    rewrap T b row (sl_seal T (current_key_id b) new_blob row).

Definition rotated {A} (T : Sealed A) (b : SecretsBackend) (d d' : Db) : Prop :=
  forall id, match sl_rows T d !! id, sl_rows T d' !! id with
             | Some row, Some row' => rewrap T b row row'
             | None, None => True
             | _, _ => False
             end.

(** Every sealed row is under the current key. *)
Definition current {A} (T : Sealed A) (b : SecretsBackend) (d : Db) : Prop :=
  forall id row, sl_rows T d !! id = Some row -> due T b row = false.

Section Table.
Context {A : Type} (T : Sealed A) `{!SealedLaws T} `{!AeadLaws}.

Lemma due_seal b blob row : due T b (sl_seal T (current_key_id b) blob row) = false.
Proof.
  unfold due. rewrite sl_blob_seal, sl_kid_seal. by rewrite bool_decide_eq_true_2.
Qed.

Lemma rotate_rows_spec b rows : forall n e s n' s',
  NoDup rows.*1 -> (forall id row, (id, row) ∈ rows -> sl_rows T (db s) !! id = Some row) ->
  rotate_rows T b rows n e s = (Ok n', s') ->
  (forall id row, (id, row) ∈ rows ->
     exists row', sl_rows T (db s') !! id = Some row' /\ rewrap T b row row')
  /\ (forall id, id ∉ rows.*1 -> sl_rows T (db s') !! id = sl_rows T (db s) !! id).
Proof.
  induction rows as [|[id row] rows IH]; intros n e s n' s' Hnd Hin Hrun; simpl in Hrun.
  { minv Hrun. split; [|done]. intros ? ? []%elem_of_nil. }
  simpl in Hnd. apply NoDup_cons in Hnd as [Hid Hnd].
  assert (Htail : forall s1 row', rewrap T b row row' -> sl_rows T (db s1) !! id = Some row' ->
    (forall i, i <> id -> sl_rows T (db s1) !! i = sl_rows T (db s) !! i) ->
    forall m, rotate_rows T b rows m e s1 = (Ok n', s') ->
    (forall i r, (i, r) ∈ (id, row) :: rows ->
       exists r', sl_rows T (db s') !! i = Some r' /\ rewrap T b r r')
    /\ (forall i, i ∉ id :: rows.*1 -> sl_rows T (db s') !! i = sl_rows T (db s) !! i)).
  { intros s1 row' Hrw Hrow' Hother m Hm.
    destruct (IH m e s1 n' s' Hnd) as [H1 H2]; [|exact Hm|].
    - intros i r Hi. rewrite Hother; [apply Hin; by right|]. intros ->.
      apply Hid, list_elem_of_fmap. by exists (id, r).
    - split.
      + intros i r [[= -> ->]|Hi]%elem_of_cons; [|by apply H1].
        exists row'. by rewrite H2.
      + intros i Hi. apply not_elem_of_cons in Hi as [Hne Hi]. by rewrite H2, Hother. }
  assert (Hrow : sl_rows T (db s) !! id = Some row) by (apply Hin; left).
  destruct (due T b row) eqn:Ed; unfold due in Ed.
  - destruct (sl_blob T row) as [blob|] eqn:Eb; [|done].
    destruct (bool_decide _) eqn:Ek; [done|]. minv Hrun. unfold lift in *.
    destruct (sl_kid T row) as [kid|] eqn:Ekid; [|done]. simpl in *. simplify_eq.
    match goal with Hx : encrypt_blob _ _ _ _ _ = _ |- _ =>
      pose proof (decrypt_encrypt _ _ _ _ _ _ _ _ Hx) as Hdec;
      apply encrypt_blob_spec in Hx as (-> & Hd & _) end.
    eapply Htail; [| | |eassumption]; simpl.
    + eapply Rewrap_seal; eauto.
    + by rewrite sl_rows_upd, lookup_insert_eq.
    + intros i Hi. by rewrite sl_rows_upd, lookup_insert_ne, Hd by done.
  - assert (rotate_rows T b rows n e s = (Ok n', s')) as Hrun'.
    { destruct (sl_blob T row); [|done]. by destruct (bool_decide _). }
    eapply Htail; [|exact Hrow|done|exact Hrun'].
    by apply Rewrap_skip.
Qed.

Lemma rotate_table_spec b e s n s' :
  rotate_table T b e s = (Ok n, s') ->
  rotated T b (db s) (db s') /\ current T b (db s').
Proof.
  unfold rotate_table. intros Hr. minv Hr.
  apply rotate_rows_spec in Hr as [H1 H2].
  2: apply NoDup_fst_map_to_list. 2: { intros id row. by rewrite elem_of_map_to_list. }
  assert (rotated T b (db s) (db s')) as Hrot.
  { intros id. destruct (sl_rows T (db s) !! id) as [row|] eqn:E.
    - destruct (H1 id row) as (row' & -> & ?); [by apply elem_of_map_to_list|done].
    - rewrite H2, E; [done|]. intros Hin. apply list_elem_of_fmap in Hin as ([i r] & -> & Hin).
      apply elem_of_map_to_list in Hin. simpl in E. congruence. }
  split; [done|]. intros id row' Hrow'. specialize (Hrot id). rewrite Hrow' in Hrot.
  destruct (sl_rows T (db s) !! id) as [row|]; [|done].
  destruct Hrot as [Hd|kid blob p new_blob]; [done|apply due_seal].
Qed.

Lemma rotate_rows_idle b rows : forall n e s,
  (forall id row, (id, row) ∈ rows -> due T b row = false) ->
  rotate_rows T b rows n e s = (Ok n, s).
Proof.
  induction rows as [|[id row] rows IH]; intros n e s Hd; [done|]. simpl.
  assert (due T b row = false) as Hrow by (apply (Hd id); left). unfold due in Hrow.
  destruct (sl_blob T row); [destruct (bool_decide _); [|done]|]; apply IH; intros; eapply Hd;
    by right.
Qed.

Lemma rotate_table_idle b e s :
  current T b (db s) -> rotate_table T b e s = (Ok 0, s).
Proof.
  intros Hc. unfold rotate_table, bind, gets. apply rotate_rows_idle.
  intros id row Hin%elem_of_map_to_list. by eapply Hc.
Qed.

(** The pass succeeds when every sealed row opens under its recorded key. *)
Definition openable b (d : Db) : Prop :=
  forall id row blob, sl_rows T d !! id = Some row -> sl_blob T row = Some blob ->
    exists p, decrypt_opt b (sl_kid T row) blob (sl_aad T) = Ok p.

Lemma rotate_rows_runs b rows : forall n e s,
  is_Some (b_keys b !! b_current b) ->
  (forall id row blob, (id, row) ∈ rows -> sl_blob T row = Some blob ->
     exists p, decrypt_opt b (sl_kid T row) blob (sl_aad T) = Ok p) ->
  exists n' s', rotate_rows T b rows n e s = (Ok n', s').
Proof.
  induction rows as [|[id row] rows IH]; intros n e s Hk Ho; simpl; [eauto|].
  assert (forall m s1, exists n' s', rotate_rows T b rows m e s1 = (Ok n', s')) as IH'.
  { intros m s1. apply IH; [done|]. intros. eapply Ho; [by right|done]. }
  destruct (sl_blob T row) as [blob|] eqn:Eb; [|apply IH'].
  case_bool_decide; [apply IH'|].
  destruct (Ho id row blob ltac:(left) Eb) as [p Hp].
  destruct (encrypt_blob_runs b p (sl_aad T) e s Hk) as (kid & nb & s1 & He).
  unfold bind at 1, lift. rewrite Hp. unfold bind at 1. rewrite He. apply IH'.
Qed.

Lemma steps_rotate_table R `{!PreOrder R} b :
  (forall f d, R d (sl_upd T f d)) -> steps R (rotate_table T b).
Proof.
  intros HR. unfold rotate_table. apply steps_bind; [done|apply steps_gets; done|].
  intros t. generalize 0. induction (map_to_list t) as [|[id row] rows IH]; intros n; simpl.
  - by apply steps_ret.
  - destruct (sl_blob T row); [|done]. case_bool_decide; [done|].
    steps_auto.
Qed.
End Table.
End Rotate.

#[export] Instance sealed_signing_keys_laws : SealedLaws sealed_signing_keys.
Proof. split; intros; try done. by destruct d. Qed.
#[export] Instance sealed_user_totp_laws : SealedLaws sealed_user_totp.
Proof. split; intros; try done. by destruct d. Qed.
#[export] Instance sealed_connections_laws : SealedLaws sealed_connections.
Proof. split; intros; try done. by destruct d. Qed.

#[export] Hint Unfold same : hyproxy.

(** ** Theorems *)

Section Rotation.
Context `{AeadLaws}.

Lemma rotate_frame {A B} (T : Sealed A) (U : Sealed B) b e s n s' :
  rotate_table T b e s = (Ok n, s') ->
  (forall f d, sl_rows U (sl_upd T f d) = sl_rows U d) ->
  sl_rows U (db s') = sl_rows U (db s).
Proof.
  intros Hr Hf.
  pose proof (steps_rotate_table T (same (sl_rows U)) b ltac:(intros; apply Hf) e s) as Hs.
  by rewrite Hr in Hs.
Qed.

Lemma rotated_ext {A} (T : Sealed A) b d1 d1' d2 d2' :
  sl_rows T d1' = sl_rows T d1 -> sl_rows T d2' = sl_rows T d2 ->
  rotated T b d1 d2 -> rotated T b d1' d2'.
Proof. unfold rotated. by intros -> ->. Qed.

Lemma current_ext {A} (T : Sealed A) b d d' :
  sl_rows T d' = sl_rows T d -> current T b d -> current T b d'.
Proof. unfold current. by intros ->. Qed.

Lemma openable_ext {A} (T : Sealed A) b d d' :
  sl_rows T d' = sl_rows T d -> openable T b d -> openable T b d'.
Proof. unfold openable. by intros ->. Qed.

Lemma rotate_table_runs {A} (T : Sealed A) b e s :
  is_Some (b_keys b !! b_current b) -> openable T b (db s) ->
  exists n s', rotate_table T b e s = (Ok n, s').
Proof.
  intros Hk Ho. unfold rotate_table, bind, gets. cbn beta iota.
  apply rotate_rows_runs; [done|].
  intros id row blob Hin%elem_of_map_to_list Hb. by apply (Ho id row).
Qed.

(** C24: A rotation leaves every sealed row of the three tables under the current master
    key with the plaintext it had and its other columns unchanged, and a second
    rotation finds nothing to do. *)
Theorem rotation_preserves_and_is_idempotent b e s r s'
    (Hr : rotate_to_current b e s = (Ok r, s')) :
  (rotated sealed_signing_keys b (db s) (db s') /\ current sealed_signing_keys b (db s'))
  /\ (rotated sealed_user_totp b (db s) (db s') /\ current sealed_user_totp b (db s'))
  /\ (rotated sealed_connections b (db s) (db s') /\ current sealed_connections b (db s'))
  /\ target_key_id r = current_key_id b
  /\ forall e', exists r', rotate_to_current b e' s' = (Ok r', s') /\ total r' = 0.
Proof.
  unfold rotate_to_current in Hr. minv Hr.
  rename Hm into H1, Hm0 into H2, Hm1 into H3.
  pose proof (rotate_table_spec _ _ _ _ _ _ H1) as [R1 C1].
  pose proof (rotate_table_spec _ _ _ _ _ _ H2) as [R2 C2].
  pose proof (rotate_table_spec _ _ _ _ _ _ H3) as [R3 C3].
  pose proof (rotate_frame _ sealed_user_totp _ _ _ _ _ H1 (fun _ _ => eq_refl)) as F12.
  pose proof (rotate_frame _ sealed_connections _ _ _ _ _ H1 (fun _ _ => eq_refl)) as F13.
  pose proof (rotate_frame _ sealed_signing_keys _ _ _ _ _ H2 (fun _ _ => eq_refl)) as F21.
  pose proof (rotate_frame _ sealed_connections _ _ _ _ _ H2 (fun _ _ => eq_refl)) as F23.
  pose proof (rotate_frame _ sealed_signing_keys _ _ _ _ _ H3 (fun _ _ => eq_refl)) as F31.
  pose proof (rotate_frame _ sealed_user_totp _ _ _ _ _ H3 (fun _ _ => eq_refl)) as F32.
  assert (current sealed_signing_keys b (db s')) as C1'
    by (eapply current_ext; [|exact C1]; congruence).
  assert (current sealed_user_totp b (db s')) as C2'
    by (eapply current_ext; [|exact C2]; congruence).
  split_and!; try done.
  - eapply rotated_ext; [reflexivity| |exact R1]. congruence.
  - eapply rotated_ext; [| |exact R2]; congruence.
  - eapply rotated_ext; [|reflexivity|exact R3]. congruence.
  - intros e'. unfold rotate_to_current, bind.
    rewrite !rotate_table_idle by done. eexists. split; [reflexivity|done].
Qed.

(** A rotation succeeds when the backend serves the current key and every sealed
    row opens under the key it records. *)
Theorem rotation_succeeds b e s
    (Hk : is_Some (b_keys b !! b_current b))
    (H1 : openable sealed_signing_keys b (db s))
    (H2 : openable sealed_user_totp b (db s))
    (H3 : openable sealed_connections b (db s)) :
  exists r s', rotate_to_current b e s = (Ok r, s').
Proof.
  unfold rotate_to_current.
  destruct (rotate_table_runs _ b e s Hk H1) as (n1 & s1 & R1).
  apply (openable_ext _ _ _ (db s1)) in H2;
    [|exact (rotate_frame _ sealed_user_totp _ _ _ _ _ R1 (fun _ _ => eq_refl))].
  apply (openable_ext _ _ _ (db s1)) in H3;
    [|exact (rotate_frame _ sealed_connections _ _ _ _ _ R1 (fun _ _ => eq_refl))].
  destruct (rotate_table_runs _ b e s1 Hk H2) as (n2 & s2 & R2).
  apply (openable_ext _ _ _ (db s2)) in H3;
    [|exact (rotate_frame _ sealed_connections _ _ _ _ _ R2 (fun _ _ => eq_refl))].
  destruct (rotate_table_runs _ b e s2 Hk H3) as (n3 & s3 & R3).
  unfold bind. rewrite R1, R2, R3. unfold ret. eauto.
Qed.
End Rotation.

(** ** Witnesses *)

Definition totp_row (kid : string) : UserTotp :=
  mkUserTotp ("123456789012" +:+ "user_totp" +:+ "JBSWY3DP") kid 0 None.
Definition rotate_db : Db := upd_user_totp (fun _ => {[ 7 := totp_row "mk-1" ]}) empty_db.
Definition rotate_run := rotate_to_current (H := clear_aead) demo_backend demo_env (mkSt rotate_db 0).

Example rotation_witness :
  exists r s', rotate_run = (Ok r, s') /\ total r = 1
  /\ rotated (H := clear_aead) sealed_user_totp demo_backend rotate_db (db s')
  /\ current sealed_user_totp demo_backend (db s').
Proof.
  destruct rotate_run as [[r|x] s'] eqn:E; [|vm_compute in E; discriminate E].
  exists r, s'. split; [reflexivity|]. split.
  - vm_compute in E. injection E as <- <-. reflexivity.
  - pose proof (rotation_preserves_and_is_idempotent (H := clear_aead) (H0 := clear_aead_laws)
      demo_backend demo_env (mkSt rotate_db 0) r s' E) as (_ & H2 & _). exact H2.
Defined.

Example rotation_succeeds_witness : exists r s', rotate_run = (Ok r, s').
Proof.
  apply (rotation_succeeds (H := clear_aead)).
  - vm_compute. eauto.
  - intros id row blob Hid. vm_compute in Hid. discriminate Hid.
  - intros id row blob Hid Hb. simpl in Hid. apply lookup_singleton_Some in Hid as [<- <-].
    injection Hb as <-. exists "JBSWY3DP". reflexivity.
  - intros id row blob Hid. vm_compute in Hid. discriminate Hid.
Defined.
