(* ===== verification/Engine.v ===== *)
(** * Engine: policy/engine.py, the policy decision core

    Pure functions over the rules of a user's roles: a rule applies when it is
    enabled, names the resource and a role of the user, and its port, path and
    time-window conditions hold; a deny wins, and the default is deny. *)

From S2P Require Import Prelude PyStr Json PyTime.
Local Open Scope Z_scope.

Definition DAY_KEYS : list string := ["mon"; "tue"; "wed"; "thu"; "fri"; "sat"; "sun"].

Record PolicyRule := mkRule {
  role_id : Z;
  resource_id : Z;
  action : string;
  allowed_ports : option (list Z);
  allowed_paths : option (list string);
  conditions : list (string * json);
  enabled : bool;
}.

Record Decision := mkDecision { allowed : bool; reason : string }.

(** [_parse_hhmm]: [None] for a value that is not text of the form HH:MM. *)
Definition parse_hhmm (value : json) : option Z :=
  match value with JStr s => strptime_hhmm s | _ => None end.

Definition day_key (now : Z) : string := nth (Z.to_nat (weekday now)) DAY_KEYS "".

(** The body of the loop over the windows: [true] is [return True], [false] goes on. *)
Definition window_matches (now : Z) (window : json) : bool :=
  match window with
  | JObj w =>
      let days_skip :=
        match assoc "days" w with
        | None | Some JNull => false
        | Some (JArr days) => negb (existsb (is_str (day_key now)) days)
        | Some _ => true
        end in
      if days_skip then false
      else
        match parse_hhmm (default (JStr "00:00") (assoc "start" w)),
              parse_hhmm (default (JStr "23:59") (assoc "end" w)) with
        | Some start, Some stop =>
            let current := minute_of_day now in
            if start <=? stop then (start <=? current) && (current <=? stop)
            else (start <=? current) || (current <=? stop)
        | _, _ => false
        end
  | _ => false
  end.

Definition time_window_matches (conditions : list (string * json)) (now : Z) : bool :=
  match assoc "time_windows" conditions with
  | None => true
  | Some windows =>
      if negb (truthy windows) then true
      else match windows with
           | JArr ws => existsb (window_matches now) ws
           | _ => false
           end
  end.

(** One entry of [allowed_paths]. *)
Definition path_allowed (path prefix : string) : bool :=
  bool_decide (path = prefix)
  || startswith path (rstrip_char "/" prefix +:+ "/")
  || bool_decide (prefix = "/").

Definition rule_applies (rule : PolicyRule) (user_role_ids : gset Z) (rid port : Z)
    (path : string) (now : Z) : bool :=
  if negb (enabled rule) then false
  else if negb (resource_id rule =? rid) then false
  else if negb (bool_decide (role_id rule ∈ user_role_ids)) then false
  else if match allowed_ports rule with
          | None => false
          | Some ports => negb (existsb (Z.eqb port) ports)
          end then false
  else if match allowed_paths rule with
          | None => false
          | Some paths => negb (existsb (path_allowed path) paths)
          end then false
  else time_window_matches (conditions rule) now.

Definition evaluate (rules : list PolicyRule) (user_role_ids : gset Z) (rid port : Z)
    (path : string) (now : Z) : Decision :=
  let applicable :=
    filter (fun r => rule_applies r user_role_ids rid port path now = true) rules in
  if existsb (fun r => bool_decide (action r = "deny")) applicable
  then mkDecision false "explicit_deny"
  else if existsb (fun r => bool_decide (action r = "allow")) applicable
  then mkDecision true "allow"
  else mkDecision false "default_deny".

(** ** Specification: when a rule applies *)

(** A minute lies on the arc of the 24-hour clock that runs from [start] to [stop]. *)
Definition on_arc (start stop current : Z) : Prop :=
  (current - start) mod 1440 <= (stop - start) mod 1440.

Inductive window_open (now : Z) : json -> Prop :=
| Window_open w start stop :
    (forall days, assoc "days" w = Some days -> days <> JNull ->
       exists ds, days = JArr ds /\ JStr (day_key now) ∈ ds) ->
    parse_hhmm (default (JStr "00:00") (assoc "start" w)) = Some start ->
    parse_hhmm (default (JStr "23:59") (assoc "end" w)) = Some stop ->
    on_arc start stop (minute_of_day now) ->
    window_open now (JObj w).

Definition time_open (conds : list (string * json)) (now : Z) : Prop :=
  forall windows, assoc "time_windows" conds = Some windows -> truthy windows = true ->
    exists ws w, windows = JArr ws /\ w ∈ ws /\ window_open now w.

(** A path lies under a prefix when the prefix is a whole number of its segments. *)
Definition under (prefix path : string) : Prop :=
  prefix = "/" \/ path = prefix \/ exists rest, path = rstrip_char "/" prefix +:+ "/" +:+ rest.

Record applies (rule : PolicyRule) (roles : gset Z) (rid port : Z) (path : string) (now : Z)
  : Prop := {
  ap_enabled : enabled rule = true;
  ap_resource : resource_id rule = rid;
  ap_role : role_id rule ∈ roles;
  ap_port : forall ports, allowed_ports rule = Some ports -> port ∈ ports;
  ap_path : forall ps, allowed_paths rule = Some ps -> exists p, p ∈ ps /\ under p path;
  ap_time : time_open (conditions rule) now;
}.

(** ** Lemmas *)

Lemma parse_hhmm_range v m : parse_hhmm v = Some m -> 0 <= m < 1440.
Proof.
  destruct v; try done. simpl. unfold strptime_hhmm.
  destruct s as [|a [|b [|c rest]]]; try done.
  all: repeat (case_match; try done); intros; simplify_eq;
    repeat match goal with
    | H : digit _ = Some _ |- _ => apply digit_range in H
    | H : strptime_minute _ = Some _ |- _ => apply strptime_minute_range in H
    end; bool_simpl; lia.
Qed.

Lemma arc_spec start stop cur :
  0 <= start < 1440 -> 0 <= stop < 1440 -> 0 <= cur < 1440 ->
  (if start <=? stop then (start <=? cur) && (cur <=? stop)
   else (start <=? cur) || (cur <=? stop)) = true <-> on_arc start stop cur.
Proof.
  intros H1 H2 H3. unfold on_arc.
  destruct (start <=? stop) eqn:E1, (start <=? cur) eqn:E2, (cur <=? stop) eqn:E3;
    bool_simpl; simpl; split; intros; try done; try (Z.div_mod_to_equations; lia).
Qed.

Lemma is_str_true s j : is_str s j = true <-> j = JStr s.
Proof.
  destruct j; simpl; try (split; [done|congruence]).
  rewrite bool_decide_eq_true. split; congruence.
Qed.

Lemma window_matches_spec now w : window_matches now w = true <-> window_open now w.
Proof.
  split.
  - destruct w as [| | | | | |w]; try done. simpl.
    destruct (match assoc "days" w with None | Some JNull => false | Some (JArr _) => _
              | Some _ => true end) eqn:Ed; [done|].
    destruct (parse_hhmm (default _ (assoc "start" w))) as [a|] eqn:Ea; [|done].
    destruct (parse_hhmm (default _ (assoc "end" w))) as [b|] eqn:Eb; [|done].
    intros Harc. apply arc_spec in Harc; eauto using parse_hhmm_range, minute_of_day_range.
    econstructor; eauto. intros days Hdays Hn. rewrite Hdays in Ed.
    destruct days as [| | | | |l|]; try done. exists l. split; [done|].
    apply negb_false_iff, existsb_True in Ed as (x & Hx & ->%is_str_true). done.
  - intros [w' a b Hd Ha Hb Harc]. simpl. rewrite Ha, Hb.
    apply arc_spec in Harc; eauto using parse_hhmm_range, minute_of_day_range.
    destruct (assoc "days" w') as [days|] eqn:E; [|done].
    destruct days; try done;
      destruct (Hd _ eq_refl ltac:(done)) as (ds & [= <-] & Hin).
    assert (existsb (is_str (day_key now)) l = true) as ->; [|done].
    apply existsb_True. eexists. split; [done|by apply is_str_true].
Qed.

Lemma time_window_matches_spec conds now :
  time_window_matches conds now = true <-> time_open conds now.
Proof.
  unfold time_window_matches, time_open. destruct (assoc _ conds) as [w|]; [|by split].
  destruct (truthy w) eqn:Et; simpl; [|split; [intros; congruence|done]]. split.
  - intros Hm ? [= <-] _. destruct w; try done.
    apply existsb_True in Hm as (x & Hx & Hw%window_matches_spec). eauto.
  - intros H. destruct (H _ eq_refl Et) as (ws & x & -> & Hx & Hw).
    apply existsb_True. exists x. by rewrite window_matches_spec.
Qed.

Lemma path_allowed_spec path prefix : path_allowed path prefix = true <-> under prefix path.
Proof.
  unfold path_allowed, under. rewrite !orb_true_iff, !bool_decide_eq_true, startswith_spec.
  setoid_rewrite app_assoc_str. naive_solver.
Qed.

Lemma guard_spec {A} (o : option A) (test : A -> bool) :
  (match o with None => false | Some a => negb (test a) end) = false
  <-> forall a, o = Some a -> test a = true.
Proof.
  destruct o; [|by split]. rewrite negb_false_iff. naive_solver.
Qed.

Lemma if_false_true (b c : bool) : (if b then false else c) = true <-> b = false /\ c = true.
Proof. destruct b; naive_solver. Qed.

Lemma port_allowed_spec port ports : existsb (Z.eqb port) ports = true <-> port ∈ ports.
Proof.
  rewrite existsb_True. setoid_rewrite Z.eqb_eq. naive_solver.
Qed.

Lemma paths_allowed_spec path ps :
  existsb (path_allowed path) ps = true <-> exists p, p ∈ ps /\ under p path.
Proof. rewrite existsb_True. by setoid_rewrite path_allowed_spec. Qed.

Lemma rule_applies_spec r roles rid port path now :
  rule_applies r roles rid port path now = true <-> applies r roles rid port path now.
Proof.
  unfold rule_applies.
  rewrite !if_false_true, !guard_spec, !negb_false_iff, Z.eqb_eq, bool_decide_eq_true,
    time_window_matches_spec.
  setoid_rewrite port_allowed_spec. setoid_rewrite paths_allowed_spec.
  split; [intros (?&?&?&?&?&?); by constructor|by intros []].
Qed.

Lemma applicable_action a rules roles rid port path now :
  existsb (fun r => bool_decide (action r = a))
    (filter (fun r => rule_applies r roles rid port path now = true) rules) = true
  <-> exists r, r ∈ rules /\ action r = a /\ applies r roles rid port path now.
Proof.
  rewrite existsb_True. setoid_rewrite list_elem_of_filter.
  setoid_rewrite bool_decide_eq_true. setoid_rewrite rule_applies_spec. naive_solver.
Qed.

(** ** Theorems *)

(** C25: [evaluate] grants exactly when an allow rule applies and no deny rule does;
    the reason is [explicit_deny] exactly when a deny rule applies, and what is
    neither is the default deny. *)
Theorem evaluate_spec rules roles rid port path now :
  let d := evaluate rules roles rid port path now in
  let some a := exists r, r ∈ rules /\ action r = a /\ applies r roles rid port path now in
  (allowed d = true <-> some "allow" /\ ~ some "deny")
  /\ (reason d = "explicit_deny" <-> some "deny")
  /\ (reason d = "default_deny" <-> ~ some "deny" /\ ~ some "allow")
  /\ (allowed d = true <-> reason d = "allow").
Proof.
  cbv zeta. rewrite <- !applicable_action. unfold evaluate.
  set (deny := existsb _ _). set (allow := existsb _ _).
  destruct deny, allow; simpl; intuition congruence.
Qed.
