(* ===== verification/Pathglob.v ===== *)
(** * Pathglob: policy/pathglob.py, glob patterns of the public path allowlist

    The translation goes to the atoms of the anchored regular expression; its
    source text is [regex_source].  [fullmatch] is what [re] gives those atoms:
    the segment class excludes the slash, the dot the newline. *)

From S2P Require Import Prelude PyStr Encoding Digest Json Effects.
Local Open Scope Z_scope.

Definition MAX_PATTERN_LENGTH : Z := 512.
Definition MAX_PATTERNS : Z := 64.

(** ** Translation *)

Inductive atom : Type :=
| Lit (c : ascii)
| Seg
| Any.

Fixpoint translate (pattern : string) : list atom :=
  match pattern with
  | EmptyString => []
  | String "*" (String "*" rest) => Any :: translate rest
  | String "*" rest => Seg :: translate rest
  | String c rest => Lit c :: translate rest
  end.

(** [re.escape] of one character. *)
Definition re_escape (c : ascii) : string :=
  if negb (no_char c (of_ords [9; 10; 11; 12; 13] +:+ " #$&()*+-.?[\]^{|}~"))
  then String "\" (String c "") else String c "".

Definition atom_source (a : atom) : string :=
  match a with Lit c => re_escape c | Seg => "[^/]*" | Any => ".*" end.

(** [_translate]. *)
Definition regex_source (pattern : string) : string :=
  "\A" +:+ join "" (map atom_source (translate pattern)) +:+ "\Z".

Definition NL : ascii := chr 10.

(** ** Matching *)

(** A run of characters of a class, then the rest. *)
Fixpoint star (cls : ascii -> bool) (rest : string -> bool) (s : string) : bool :=
  rest s
  || match s with
     | EmptyString => false
     | String c s' => cls c && star cls rest s'
     end.

Definition not_slash (c : ascii) : bool := negb (bool_decide (c = "/"%char)).
Definition not_newline (c : ascii) : bool := negb (bool_decide (c = NL)).

Fixpoint fullmatch (rx : list atom) (s : string) : bool :=
  match rx with
  | [] => bool_decide (s = "")
  | Lit c :: rx' =>
      match s with
      | String d s' => bool_decide (d = c) && fullmatch rx' s'
      | EmptyString => false
      end
  | Seg :: rx' => star not_slash (fullmatch rx') s
  | Any :: rx' => star not_newline (fullmatch rx') s
  end.

Definition compile_patterns (patterns : list string) : list (list atom) :=
  map translate patterns.

(** [matches]: [None] and the empty list expose nothing. *)
Definition matches (patterns : option (list string)) (path : string) : bool :=
  match patterns with
  | None => false
  | Some ps => existsb (fun rx => fullmatch rx path) (compile_patterns ps)
  end.

(** ** Validation *)

Definition validate_pattern (pattern : string) : result string :=
  let p := strip pattern in
  if bool_decide (p = "") then Raise (PatternError "pattern is empty")
  else if MAX_PATTERN_LENGTH <? char_len p
  then Raise (PatternError "pattern is longer than 512 characters")
  else if contains (String zero "") p then Raise (PatternError "pattern contains a NUL byte")
  else if negb (startswith p "/") then Raise (PatternError "pattern must start with '/'")
  else if startswith p "//" then Raise (PatternError "pattern must not start with '//'")
  else if contains "\" p then Raise (PatternError "pattern must not contain a backslash")
  else if existsb (fun seg => bool_decide (seg = "..")) (split_char "/" p)
  then Raise (PatternError "pattern must not contain a '..' segment")
  else if bool_decide (p ∈ ["/*"; "/**"; "/"])
  then Raise (PatternError
    "pattern would expose the whole host; list the paths to publish instead")
  else Ok p.

(** The loop of [validate_patterns]: [seen] holds the elements of [out]. *)
Fixpoint validate_loop (patterns : list string) (out : list string) : result (list string) :=
  match patterns with
  | [] => Ok out
  | raw :: rest =>
      match validate_pattern raw with
      | Raise x => Raise x
      | Ok p => validate_loop rest (if bool_decide (p ∈ out) then out else out ++ [p])
      end
  end.

Definition validate_patterns (patterns : list string) : result (list string) :=
  if MAX_PATTERNS <? Z.of_nat (List.length patterns)
  then Raise (PatternError "at most 64 patterns are allowed")
  else match validate_loop patterns [] with
       | Raise x => Raise x
       | Ok [] => Raise (PatternError "at least one path pattern is required")
       | Ok out => Ok out
       end.

Definition literal_prefix (pattern : string) : string :=
  let head := before "*" pattern in
  if bool_decide (head = "") then "/" else head.

(** ** Specification: what a pattern means *)

Inductive glob : string -> string -> Prop :=
| Glob_end : glob "" ""
| Glob_lit c p s : c <> "*"%char -> glob p s -> glob (String c p) (String c s)
| Glob_seg p u s :
    startswith p "*" = false -> all_chars not_slash u = true -> glob p s ->
    glob (String "*" p) (u +:+ s)
| Glob_any p u s :
    all_chars not_newline u = true -> glob p s ->
    glob (String "*" (String "*" p)) (u +:+ s).

Example glob_doc_examples :
  map (fun pq => matches (Some [pq.1]) pq.2)
    [("/my/uri/path", "/my/uri/path"); ("/my/uri/path", "/my/uri/path/x");
     ("/my/uri/path/*", "/my/uri/path/example"); ("/my/uri/path/*", "/my/uri/path/a/b");
     ("/my/uri/path/**", "/my/uri/path/a/b/c"); ("/assets/*.js", "/assets/app.js");
     ("/assets/*.js", "/assets/x/app.js"); ("/a.b", "/acb")]
  = [true; false; true; false; true; true; false; false].
Proof. reflexivity. Qed.

Example source_example : regex_source "/a.b/*/**" = "\A/a\.b/[^/]*/.*\Z".
Proof. reflexivity. Qed.

(** ** Lemmas *)

Lemma star_spec cls rest s :
  star cls rest s = true <->
  exists u v, s = u +:+ v /\ all_chars cls u = true /\ rest v = true.
Proof.
  induction s as [|c s IH]; simpl.
  - rewrite orb_false_r. split.
    + intros H. by exists "", "".
    + intros ([|? ?] & v & E & _ & H); [|done]. rewrite app_empty_l in E. by subst.
  - rewrite orb_true_iff, andb_true_iff, IH. split.
    + intros [H|[Hc (u & v & -> & Hu & Hv)]]; [by exists "", (String c s)|].
      exists (String c u), v. simpl. by rewrite Hc, Hu.
    + intros ([|d u] & v & E & Hu & Hv).
      * rewrite app_empty_l in E. subst. by left.
      * rewrite app_cons in E. simplify_eq. simpl in Hu. bool_simpl. right. eauto 6.
Qed.

Lemma startswith_star p : startswith p "*" = match p with String "*" _ => true | _ => false end.
Proof.
  destruct p as [|c p]; [done|]. destruct c as [[] [] [] [] [] [] [] []]; reflexivity.
Qed.

Lemma translate_lit c p : c <> "*"%char -> translate (String c p) = Lit c :: translate p.
Proof. intros Hn. destruct c as [[] [] [] [] [] [] [] []]; done. Qed.

Lemma translate_seg p :
  startswith p "*" = false -> translate (String "*" p) = Seg :: translate p.
Proof.
  rewrite startswith_star. destruct p as [|c p]; [done|].
  destruct c as [[] [] [] [] [] [] [] []]; done.
Qed.

Lemma glob_fullmatch p s : glob p s -> fullmatch (translate p) s = true.
Proof.
  induction 1.
  - done.
  - rewrite translate_lit by done. simpl. by rewrite bool_decide_eq_true_2.
  - rewrite translate_seg by done. simpl. apply star_spec. eauto.
  - simpl. apply star_spec. eauto.
Qed.

Lemma fullmatch_glob n : forall p s, (String.length p <= n)%nat ->
  fullmatch (translate p) s = true -> glob p s.
Proof.
  induction n as [|n IH]; intros [|c p] s Hlen H; simpl in Hlen; try lia.
  1, 2: apply bool_decide_eq_true_1 in H; subst; constructor.
  destruct (decide (c = "*"%char)) as [->|Hc].
  - destruct (startswith p "*") eqn:E.
    + destruct p as [|c p]; [done|]. rewrite startswith_star in E.
      destruct c as [[] [] [] [] [] [] [] []]; try done. simpl in H, Hlen.
      apply star_spec in H as (u & v & -> & Hu & Hv). constructor; [done|]. apply IH; [lia|done].
    + rewrite translate_seg in H by done. simpl in H.
      apply star_spec in H as (u & v & -> & Hu & Hv). constructor; [done..|]. apply IH; [lia|done].
  - rewrite translate_lit in H by done. simpl in H. destruct s as [|d s]; [done|]. bool_simpl.
    subst. constructor; [done|]. apply IH; [lia|done].
Qed.

Lemma fullmatch_spec p s : fullmatch (translate p) s = true <-> glob p s.
Proof. split; [by eapply fullmatch_glob|apply glob_fullmatch]. Qed.

Lemma matches_In ps path :
  matches (Some ps) path = true <-> exists p, p ∈ ps /\ glob p path.
Proof.
  simpl. unfold compile_patterns. rewrite existsb_True. setoid_rewrite list_elem_of_fmap.
  setoid_rewrite <- fullmatch_spec. naive_solver.
Qed.

Lemma glob_literal_app q p s :
  no_char "*" q = true -> glob (q +:+ p) s <-> exists t, s = q +:+ t /\ glob p t.
Proof.
  revert s. induction q as [|c q IH]; intros s Hq.
  - rewrite app_empty_l. setoid_rewrite app_empty_l. naive_solver.
  - rewrite no_char_cons in Hq. bool_simpl. rewrite app_cons. split.
    + inversion 1; subst; [|congruence..].
      destruct (proj1 (IH s0 ltac:(done)) ltac:(done)) as (t & -> & Ht).
      exists t. by rewrite app_cons.
    + intros (t & -> & Ht). rewrite app_cons. constructor; [done|]. apply IH; eauto.
Qed.

Lemma glob_empty s : glob "" s <-> s = "".
Proof. split; [by inversion 1|intros ->; constructor]. Qed.

Lemma glob_star_end s : glob "*" s <-> all_chars not_slash s = true.
Proof.
  split.
  - inversion 1 as [|? ? ? Hc|? u t _ Hu Ht|]; subst; [done|].
    apply glob_empty in Ht as ->. by rewrite app_empty_r.
  - intros Hs. rewrite <- (app_empty_r s). by repeat constructor.
Qed.

Lemma glob_any_end s : glob "**" s <-> all_chars not_newline s = true.
Proof.
  split.
  - inversion 1 as [|? ? ? Hc|? u t Hp|? u t Hu Ht]; subst; [done|done|].
    apply glob_empty in Ht as ->. by rewrite app_empty_r.
  - intros Hs. rewrite <- (app_empty_r s). by repeat constructor.
Qed.

Lemma contains_char_no c s : contains (String c "") s = false -> no_char c s = true.
Proof.
  unfold contains. intros H%bool_decide_eq_false_1. destruct (no_char c s) eqn:E; [done|].
  exfalso. apply H. clear H. induction s as [|d s IH]; [done|].
  rewrite no_char_cons in E. simpl. case_bool_decide as Hd; simpl in *.
  - subst. rewrite bool_decide_eq_true_2 by done. eauto.
  - rewrite bool_decide_eq_false_2 by congruence.
    destruct (IH E) as [[h t] ->]. eauto.
Qed.

(** What a validated pattern is. *)
Record good_pattern (p : string) : Prop := {
  gp_slash : exists c q, p = String "/" (String c q) /\ c <> "/"%char;
  gp_length : char_len p <= MAX_PATTERN_LENGTH;
  gp_nul : no_char zero p = true;
  gp_backslash : no_char "\" p = true;
  gp_dots : ".." ∉ split_char "/" p;
  gp_host : p <> "/*" /\ p <> "/**";
  gp_stripped : strip p = p;
}.

Lemma lstrip_head p s : match lstrip_by p s with String c _ => p c = false | "" => True end.
Proof. induction s as [|c s IH]; simpl; [done|]. by destruct (p c) eqn:E. Qed.

Lemma lstrip_by_fix p s :
  match s with String c _ => p c = false | "" => True end -> lstrip_by p s = s.
Proof. destruct s; simpl; [done|by intros ->]. Qed.

Lemma rstrip_head p s :
  match s with String c _ => p c = false | "" => True end ->
  match rstrip_by p s with String c _ => p c = false | "" => True end.
Proof.
  destruct s as [|c s]; simpl; [done|]. intros Hc. rewrite Hc. by destruct (rstrip_by p s).
Qed.

Lemma strip_idem s : strip (strip s) = strip s.
Proof.
  unfold strip. rewrite (lstrip_by_fix _ (rstrip_by _ _)) by apply rstrip_head, lstrip_head.
  apply rstrip_by_idem.
Qed.

Lemma validate_pattern_good raw p :
  validate_pattern raw = Ok p -> p = strip raw /\ good_pattern p.
Proof.
  unfold validate_pattern. intros H.
  repeat (match type of H with (if ?b then _ else _) = _ => destruct b eqn:? end; [done|]).
  simplify_eq. split; [done|].
  pose proof (strip_idem raw) as Hidem. remember (strip raw) as p eqn:Ep. clear Ep.
  bool_simpl. match goal with H : startswith _ "/" = true |- _ => apply startswith_spec in H as [t Ht] end.
  constructor; try done.
  - change ("/" +:+ t) with (String "/" t) in Ht. subst p. destruct t as [|c q].
    + set_solver.
    + exists c, q. split; [done|]. intros ->. done.
  - by apply contains_char_no.
  - by apply contains_char_no.
  - match goal with H : existsb _ _ = false |- _ =>
      rewrite existsb_False in H; intros Hin; apply H in Hin; by bool_simpl end.
  - set_solver.
Qed.

Lemma no_char_contains c s : no_char c s = true -> contains (String c "") s = false.
Proof.
  unfold contains. intros H. apply bool_decide_eq_false_2. intros [[h t] E].
  apply partition_Some in E. subst. rewrite no_char_app in H. bool_simpl.
  rewrite no_char_app, no_char_cons, bool_decide_eq_true_2 in * by done. by bool_simpl.
Qed.

Lemma validate_pattern_complete p : good_pattern p -> validate_pattern p = Ok p.
Proof.
  intros [(c & q & Hp & Hc) Hl Hn Hb Hd [Hh1 Hh2] Hs]. unfold validate_pattern. rewrite Hs.
  rewrite bool_decide_eq_false_2 by (by subst).
  rewrite (proj2 (Z.ltb_ge _ _)) by done.
  rewrite !no_char_contains by done.
  assert (startswith p "/" = true) as -> by (subst; apply (startswith_app (String c q) "/")).
  assert (startswith p "//" = false) as ->.
  { apply not_true_iff_false. rewrite startswith_spec. intros [t Ht].
    change ("//" +:+ t) with (String "/" (String "/" t)) in Ht. congruence. }
  assert (existsb (fun seg => bool_decide (seg = "..")) (split_char "/" p) = false) as ->.
  { apply existsb_False. intros seg Hin. apply bool_decide_eq_false_2. by intros ->. }
  rewrite bool_decide_eq_false_2; [done|]. subst. set_solver.
Qed.

Lemma validate_loop_spec raws : forall acc out,
  NoDup acc -> Forall good_pattern acc -> validate_loop raws acc = Ok out ->
  NoDup out /\ Forall good_pattern out
  /\ (forall p, p ∈ out <-> p ∈ acc \/ p ∈ map strip raws)
  /\ (List.length out <= List.length acc + List.length raws)%nat
  /\ prefix acc out.
Proof.
  induction raws as [|raw raws IH]; intros acc out Hnd Hgood H; simpl in *.
  { simplify_eq. split_and!; [done|done|set_solver|lia|done]. }
  destruct (validate_pattern raw) as [p|x] eqn:Ev; [|done].
  apply validate_pattern_good in Ev as [-> Hg].
  apply IH in H as (H1 & H2 & H3 & H4 & H5); [|case_bool_decide..].
  - split_and!; [done|done| | |].
    + intros p. rewrite H3, elem_of_cons. case_bool_decide.
      * split; [tauto|]. intros [?|[->|?]]; tauto.
      * rewrite elem_of_app, list_elem_of_singleton. tauto.
    + case_bool_decide; [lia|]. rewrite length_app in H4. simpl in H4. lia.
    + case_bool_decide; [done|]. etransitivity; [|exact H5]. by apply prefix_app_r.
  - done.
  - apply NoDup_app. split_and!; [done| |apply NoDup_singleton].
    intros x Hx ->%list_elem_of_singleton. done.
  - done.
  - apply Forall_app. auto.
Qed.

Lemma validate_loop_fix good : forall acc,
  NoDup (acc ++ good) -> Forall good_pattern good ->
  validate_loop good acc = Ok (acc ++ good).
Proof.
  induction good as [|p good IH]; intros acc Hnd Hg; simpl; [by rewrite app_nil_r|].
  apply Forall_cons in Hg as [Hp Hg]. rewrite validate_pattern_complete by done.
  rewrite bool_decide_eq_false_2.
  - rewrite IH, <- app_assoc; [done|by rewrite <- app_assoc|done].
  - apply NoDup_app in Hnd as (_ & Hd & _). set_solver.
Qed.

(** ** Theorems *)

(** C26: [matches] exposes exactly the paths that some pattern of the allowlist
    denotes as a glob, and nothing for a resource without patterns. *)
Theorem matches_spec patterns path :
  matches patterns path = true <->
  exists ps p, patterns = Some ps /\ p ∈ ps /\ glob p path.
Proof.
  destruct patterns as [ps|]; [rewrite matches_In|simpl]; naive_solver.
Qed.

(** The shapes of the module's table: a pattern without a star is an exact
    path, a final [/*] one more segment, a final [/**] anything below. *)
Theorem matches_shapes q path (Hq : no_char "*" q = true) :
  (matches (Some [q]) path = true <-> path = q)
  /\ (matches (Some [q +:+ "/*"]) path = true <->
      exists seg, path = q +:+ "/" +:+ seg /\ all_chars not_slash seg = true)
  /\ (matches (Some [q +:+ "/**"]) path = true <->
      exists t, path = q +:+ "/" +:+ t /\ all_chars not_newline t = true).
Proof.
  assert (forall p, matches (Some [p]) path = true <-> glob p path) as Hm.
  { intros p. rewrite matches_In. setoid_rewrite list_elem_of_singleton. naive_solver. }
  assert (no_char "*" (q +:+ "/") = true) as Hs by (by rewrite no_char_app, Hq).
  rewrite !Hm. split_and!.
  - rewrite <- (app_empty_r q) at 1. rewrite glob_literal_app by done.
    setoid_rewrite glob_empty. split; [intros (t & -> & ->)|intros ->]; [apply app_empty_r|].
    exists "". by rewrite app_empty_r.
  - change "/*" with ("/" +:+ "*"). rewrite <- app_assoc_str, glob_literal_app by done.
    setoid_rewrite glob_star_end. by setoid_rewrite app_assoc_str.
  - change "/**" with ("/" +:+ "**"). rewrite <- app_assoc_str, glob_literal_app by done.
    setoid_rewrite glob_any_end. by setoid_rewrite app_assoc_str.
Qed.

Example matches_shapes_witness :
  no_char "*" "/my/uri" = true
  /\ (matches (Some ["/my/uri/*"]) "/my/uri/x" = true <->
      exists seg, "/my/uri/x" = "/my/uri" +:+ "/" +:+ seg /\ all_chars not_slash seg = true).
Proof.
  split; [reflexivity|]. exact (proj1 (proj2 (matches_shapes "/my/uri" "/my/uri/x" eq_refl))).
Defined.

(** An accepted allowlist is between one and 64 distinct patterns, the stripped
    inputs, each absolute, of at most 512 characters, without a [..] segment, a NUL
    or a backslash and not one of the three whole-host shapes; validating it again
    changes nothing. *)
Theorem validate_patterns_sound raws out (H : validate_patterns raws = Ok out) :
  Forall good_pattern out /\ NoDup out /\ (1 <= List.length out <= 64)%nat
  /\ (forall p, p ∈ out <-> p ∈ map strip raws)
  /\ validate_patterns out = Ok out.
Proof.
  unfold validate_patterns in H. destruct (MAX_PATTERNS <? _) eqn:Em; [done|].
  apply Z.ltb_ge in Em. unfold MAX_PATTERNS in Em.
  destruct (validate_loop raws []) as [[|p ps]|] eqn:E; [done| |done]. simplify_eq.
  apply validate_loop_spec in E as (H1 & H2 & H3 & H4 & _); [|constructor..].
  split_and!; [done..|simpl in *; lia|simpl in *; lia|set_solver|].
  unfold validate_patterns. rewrite (proj2 (Z.ltb_ge _ _)) by (unfold MAX_PATTERNS; simpl in *; lia).
  by rewrite (validate_loop_fix (p :: ps) []).
Qed.

Example validate_patterns_sound_witness :
  validate_patterns [" /a/* "; "/b"; "/a/*"] = Ok ["/a/*"; "/b"]
  /\ NoDup ["/a/*"; "/b"].
Proof.
  split; [reflexivity|].
  exact (proj1 (proj2 (validate_patterns_sound [" /a/* "; "/b"; "/a/*"] ["/a/*"; "/b"] eq_refl))).
Defined.

(** The link shown for a validated pattern is a leading part of every path the
    pattern exposes. *)
Theorem literal_prefix_sound raw p path
    (Hv : validate_pattern raw = Ok p) (Hm : matches (Some [p]) path = true) :
  startswith path (literal_prefix p) = true.
Proof.
  apply validate_pattern_good in Hv as [_ [(c & q & Hp & _) _ _ _ _ _ _]].
  apply matches_In in Hm as (p' & ->%list_elem_of_singleton & Hg).
  unfold literal_prefix, before. destruct (partition "*" p) as [[h t]|] eqn:E.
  - pose proof (partition_char_head _ _ _ _ E) as Hno. apply partition_Some in E.
    rewrite E in Hg. apply glob_literal_app in Hg as (u & -> & _); [|done].
    destruct h as [|d h]; [subst; done|]. simpl. apply startswith_app.
  - assert (no_char "*" p = true) as Hno.
    { apply contains_char_no. unfold contains. by rewrite E, bool_decide_eq_false_2 by (by intros []). }
    rewrite <- (app_empty_r p) in Hg. apply glob_literal_app in Hg as (u & -> & ->%glob_empty); [|done].
    rewrite Hp. simpl. apply startswith_app.
Qed.

Example literal_prefix_sound_witness :
  validate_pattern "/assets/*.js" = Ok "/assets/*.js"
  /\ startswith "/assets/app.js" (literal_prefix "/assets/*.js") = true.
Proof.
  split; [reflexivity|].
  exact (literal_prefix_sound "/assets/*.js" "/assets/*.js" "/assets/app.js" eq_refl eq_refl).
Defined.

(** Validation lets a run of three stars through, and that pattern exposes every
    path of the host, like the two shapes it rejects by name. *)
Theorem triple_star_exposes_host :
  validate_patterns ["/***"] = Ok ["/***"]
  /\ forall t, all_chars not_newline t = true -> matches (Some ["/***"]) (String "/" t) = true.
Proof.
  split; [reflexivity|]. intros t Ht. apply matches_In. exists "/***". split; [set_solver|].
  constructor; [done|]. rewrite <- (app_empty_r t). constructor; [done|].
  change "" with (EmptyString +:+ EmptyString) at 2. constructor; [done..|constructor].
Qed.
