(* ===== verification/Web.v ===== *)
(** * Web: the requests and responses of the handlers, and core/netutil.py

    The framework's objects as data: what a handler reads of a request and what it
    puts in a response.  Header names are in lower case. *)

From S2P Require Import Prelude PyStr Json Config Db Effects.
Local Open Scope Z_scope.

Record Request := mkRequest {
  rq_headers : list (string * string);
  rq_cookies : list (string * string);
  rq_client : option string;
}.

Definition header (r : Request) (name : string) : option string := assoc name (rq_headers r).
Definition cookie (r : Request) (name : string) : option string := assoc name (rq_cookies r).

(** [resp.set_cookie(...)] and [resp.delete_cookie(...)]. *)
Inductive CookieOp : Type :=
| SetCookie (name value : string) (httponly secure : bool) (samesite path : string)
    (domain : option string) (max_age : option Z)
| DeleteCookie (name path : string) (domain : option string).

(** A value handed to a template. *)
Inductive CtxValue : Type :=
| CNone
| CStr (text : string)
| CInt (n : Z)
| CList (items : list string)
| CUser (user : User).

Definition c_opt (o : option string) : CtxValue :=
  match o with Some text => CStr text | None => CNone end.

Inductive Body : Type :=
| NoBody
| PlainText (text : string)
| JsonBody (j : json)
| Template (name : string) (context : list (string * CtxValue))
| RedirectTo (url : string).

Record Response := mkResponse {
  rs_status : Z;
  rs_body : Body;
  rs_headers : list (string * string);
  rs_cookies : list CookieOp;
}.

Definition plain (status : Z) (text : string) : Response :=
  mkResponse status (PlainText text) [] [].
Definition json_response (status : Z) (j : json) : Response :=
  mkResponse status (JsonBody j) [] [].
Definition redirect (status : Z) (url : string) : Response :=
  mkResponse status (RedirectTo url) [] [].

Definition add_header (name value : string) (r : Response) : Response :=
  mkResponse (rs_status r) (rs_body r) (assoc_set name value (rs_headers r)) (rs_cookies r).
Definition add_cookie (op : CookieOp) (r : Response) : Response :=
  mkResponse (rs_status r) (rs_body r) (rs_headers r) (rs_cookies r ++ [op]).

(** [s or None] and [not s] on optional text. *)
Definition nonempty (o : option string) : option string :=
  match o with
  | Some s => if bool_decide (s = "") then None else Some s
  | None => None
  end.

(** [resolve_client_ip]. *)
Definition resolve_client_ip (request : Request) : M string :=
  let! trust := asks trust_forwarded_for in
  let peer := assert_some (rq_client request) in
  if trust then
    match nonempty (header request "x-forwarded-for") with
    | Some forwarded =>
        let first := strip (before "," forwarded) in
        if bool_decide (first = "") then peer else ret first
    | None => peer
    end
  else peer.

Lemma steps_resolve_client_ip R `{!PreOrder R} rq : steps R (resolve_client_ip rq).
Proof. unfold resolve_client_ip. steps_auto. Qed.
#[export] Hint Resolve steps_resolve_client_ip : hyproxy.

(** The address a request is recorded under, as a function of the request. *)
Definition client_ip_of (cfg : Settings) (rq : Request) : option string :=
  let first := strip (before "," (default "" (header rq "x-forwarded-for"))) in
  if bool_decide (trust_forwarded_for cfg = true /\ first <> "") then Some first else rq_client rq.

Lemma resolve_client_ip_run rq e s :
  resolve_client_ip rq e s =
    (match client_ip_of (settings e) rq with Some ip => Ok ip | None => Raise AssertionError end, s).
Proof.
  unfold resolve_client_ip, client_ip_of, bind, asks, assert_some, nonempty, ret, raise. cbv zeta.
  destruct (trust_forwarded_for (settings e)).
  2: { rewrite bool_decide_eq_false_2 by (by intros [? _]). by destruct (rq_client rq). }
  destruct (header rq "x-forwarded-for") as [f|].
  2: { rewrite bool_decide_eq_false_2 by (intros [_ H]; by apply H). by destruct (rq_client rq). }
  case_bool_decide as Ef.
  { subst f. rewrite bool_decide_eq_false_2 by (intros [_ H]; by apply H). by destruct (rq_client rq). }
  change (default "" (Some f)) with f.
  case_bool_decide as E1.
  - rewrite bool_decide_eq_false_2 by tauto. by destruct (rq_client rq).
  - by rewrite bool_decide_eq_true_2.
Qed.
