(* ===== verification/Events.v ===== *)
(** * Events: audit/events.py, the trail of authentication events

    [emit] writes in the caller's transaction. *)

From S2P Require Import Prelude PyStr Json Config Db Effects.
Local Open Scope Z_scope.

Inductive AuthEventType : Type :=
| LOGIN_PASSWORD_SUCCESS
| LOGIN_PASSWORD_FAILURE
| LOGIN_TOTP_SUCCESS
| LOGIN_TOTP_FAILURE
| LOGIN_WEBAUTHN_SUCCESS
| LOGIN_WEBAUTHN_FAILURE
| LOGIN_RECOVERY_CODE_USED
| LOGIN_RECOVERY_CODE_FAILURE
| LOGIN_BREAK_GLASS_USED
| ENROLL_TOTP
| ENROLL_WEBAUTHN
| OIDC_CODE_ISSUED
| OIDC_CODE_REPLAY_DETECTED
| OIDC_TOKEN_ISSUED
| OIDC_TOKEN_REFRESHED
| OIDC_REFRESH_REUSE_DETECTED
| OIDC_TOKEN_REVOKED
| SESSION_CREATED
| SESSION_REVOKED
| SESSION_STALE_IP
| SESSION_IDLE_TIMEOUT
| STEPUP_SUCCESS
| STEPUP_FAILURE
| THROTTLE_APPLIED
| ADMIN_TOTP_RESET
| ADMIN_PASSWORD_RESET
| USER_PASSWORD_CHANGED
| USER_PASSWORD_CHANGE_FAILED
| DOWNLOAD_REQUESTED
| DOWNLOAD_APPROVED
| DOWNLOAD_DENIED
| DOWNLOAD_SUBMITTED
| DOWNLOAD_SUBMIT_FAILED.

Definition event_value (t : AuthEventType) : string :=
  match t with
  | LOGIN_PASSWORD_SUCCESS => "login.password.success"
  | LOGIN_PASSWORD_FAILURE => "login.password.failure"
  | LOGIN_TOTP_SUCCESS => "login.totp.success"
  | LOGIN_TOTP_FAILURE => "login.totp.failure"
  | LOGIN_WEBAUTHN_SUCCESS => "login.webauthn.success"
  | LOGIN_WEBAUTHN_FAILURE => "login.webauthn.failure"
  | LOGIN_RECOVERY_CODE_USED => "login.recovery_code.used"
  | LOGIN_RECOVERY_CODE_FAILURE => "login.recovery_code.failure"
  | LOGIN_BREAK_GLASS_USED => "login.break_glass.used"
  | ENROLL_TOTP => "enroll.totp"
  | ENROLL_WEBAUTHN => "enroll.webauthn"
  | OIDC_CODE_ISSUED => "oidc.code.issued"
  | OIDC_CODE_REPLAY_DETECTED => "oidc.code.replay_detected"
  | OIDC_TOKEN_ISSUED => "oidc.token.issued"
  | OIDC_TOKEN_REFRESHED => "oidc.token.refreshed"
  | OIDC_REFRESH_REUSE_DETECTED => "oidc.refresh.reuse_detected"
  | OIDC_TOKEN_REVOKED => "oidc.token.revoked"
  | SESSION_CREATED => "session.created"
  | SESSION_REVOKED => "session.revoked"
  | SESSION_STALE_IP => "session.stale_ip"
  | SESSION_IDLE_TIMEOUT => "session.idle_timeout"
  | STEPUP_SUCCESS => "stepup.success"
  | STEPUP_FAILURE => "stepup.failure"
  | THROTTLE_APPLIED => "throttle.applied"
  | ADMIN_TOTP_RESET => "admin.totp_reset"
  | ADMIN_PASSWORD_RESET => "admin.password_reset"
  | USER_PASSWORD_CHANGED => "user.password_changed"
  | USER_PASSWORD_CHANGE_FAILED => "user.password_change_failed"
  | DOWNLOAD_REQUESTED => "download.requested"
  | DOWNLOAD_APPROVED => "download.approved"
  | DOWNLOAD_DENIED => "download.denied"
  | DOWNLOAD_SUBMITTED => "download.submitted"
  | DOWNLOAD_SUBMIT_FAILED => "download.submit_failed"
  end.

Definition ALLOWED_DETAIL_KEYS : list string :=
  ["reason"; "stage"; "kid"; "scope"; "grant_type"; "credential_id"; "friendly_name";
   "batch_id"; "family_id"; "entity_type"; "entity_id"; "throttle_scope"; "retry_after";
   "old_ip"; "new_ip"; "email"; "target"].

Definition short_scalar (v : json) : bool :=
  match v with
  | JStr s => negb (256 <? char_len s)
  | JInt _ | JBool _ | JFloat _ => true
  | _ => false
  end.

Definition validate_detail (detail : list (string * json)) : result unit :=
  if negb (forallb (fun kv => bool_decide (kv.1 ∈ ALLOWED_DETAIL_KEYS)) detail)
  then Raise (ValueError "disallowed audit detail keys")
  else if negb (forallb (fun kv => short_scalar kv.2) detail)
  then Raise (ValueError "audit detail must be a short scalar")
  else Ok tt.

Definition emit (event_type : AuthEventType) (source_ip : string) (success : bool)
    (user_id session_id : option Z) (client_id : option string)
    (detail : list (string * json)) : M unit :=
  lift (validate_detail detail);;
  let! ts := server_now in
  moddb (upd_auth_events (fun l => l ++
    [mkAuthEvent ts (event_value event_type) user_id session_id client_id source_ip success detail])).

Lemma validate_detail_Ok detail :
  validate_detail detail = Ok tt <->
  Forall (fun kv => kv.1 ∈ ALLOWED_DETAIL_KEYS /\ short_scalar kv.2 = true) detail.
Proof.
  unfold validate_detail. rewrite Forall_and, !Forall_forall.
  destruct (forallb _ detail) eqn:E1; simpl.
  - destruct (forallb (fun kv => short_scalar kv.2) detail) eqn:E2; simpl.
    + rewrite forallb_forall in E1, E2. split; [|done].
      intros _. split; intros x Hx%list_elem_of_In; [apply E1 in Hx; by bool_simpl|by apply E2].
    + split; [done|]. intros [_ H]. exfalso. apply not_true_iff_false in E2. apply E2.
      apply forallb_forall. intros x Hx. by apply H, list_elem_of_In.
  - split; [done|]. intros [H _]. exfalso. apply not_true_iff_false in E1. apply E1.
    apply forallb_forall. intros x Hx. apply bool_decide_eq_true_2, H. by apply list_elem_of_In.
Qed.

Lemma emit_run t ip ok uid sid cid detail e s :
  validate_detail detail = Ok tt ->
  emit t ip ok uid sid cid detail e s =
    (Ok tt, mkSt (upd_auth_events (fun l => l ++
       [mkAuthEvent (tx_now e) (event_value t) uid sid cid ip ok detail]) (db s)) (tick s)).
Proof. unfold emit, bind, lift. by intros ->. Qed.

Lemma emit_Ok t ip ok uid sid cid detail e s u s' :
  emit t ip ok uid sid cid detail e s = (Ok u, s') ->
  validate_detail detail = Ok tt /\
  db s' = upd_auth_events (fun l => l ++
       [mkAuthEvent (tx_now e) (event_value t) uid sid cid ip ok detail]) (db s)
  /\ tick s' = tick s.
Proof.
  unfold emit, bind, lift. destruct (validate_detail detail) as [[]|]; [|done].
  cbn. intros [= <- <-]. done.
Qed.

(** [emit] writes nothing but the event. *)
Lemma steps_emit R `{!PreOrder R} t ip ok uid sid cid detail :
  (forall d f, R d (upd_auth_events f d)) -> steps R (emit t ip ok uid sid cid detail).
Proof. intros HR. unfold emit. steps_auto. Qed.

#[export] Hint Extern 2 (steps _ (emit _ _ _ _ _ _ _)) =>
  apply steps_emit; [typeclasses eauto|solve [intros; first [done | reflexivity | by apply grows_same]]] : hyproxy.

Lemma event_value_inj a b : event_value a = event_value b -> a = b.
Proof. destruct a, b; first [reflexivity | discriminate]. Qed.

(** An event is recorded exactly when every key of its detail is on the whitelist
    and every value a scalar of at most 256 characters; a refused event raises and
    leaves the trail as it was; distinct event types have distinct names. *)
Theorem emit_whitelisted t ip ok uid sid cid detail e s :
  (Forall (fun kv => kv.1 ∈ ALLOWED_DETAIL_KEYS /\ short_scalar kv.2 = true) detail ->
     exists ev, emit t ip ok uid sid cid detail e s
       = (Ok tt, mkSt (upd_auth_events (fun l => l ++ [ev]) (db s)) (tick s))
     /\ ae_detail ev = detail /\ ae_event_type ev = event_value t /\ ae_ts ev = tx_now e)
  /\ (~ Forall (fun kv => kv.1 ∈ ALLOWED_DETAIL_KEYS /\ short_scalar kv.2 = true) detail ->
     exists x, emit t ip ok uid sid cid detail e s = (Raise x, s))
  /\ (forall t', event_value t = event_value t' -> t = t').
Proof.
  rewrite <- validate_detail_Ok. split_and!.
  - intros H. rewrite emit_run by done. by eexists.
  - intros H. unfold emit, bind, lift. destruct (validate_detail detail) as [[]|x]; [done|eauto].
  - intros t'. apply event_value_inj.
Qed.
