(* ===== verification/Passwords.v ===== *)
(** * Passwords: security/passwords.py

    Argon2 is an operation of the environment ([Argon]). *)

From S2P Require Import Prelude PyStr Json Config Db Effects.
Local Open Scope Z_scope.

(** What [PasswordHasher.verify] does: returns, raises [VerificationError], or raises
    on a text that is not a hash. *)
Inductive VerifyResult : Type :=
| Verified
| VerificationError
| InvalidHash.

Class Argon := {
  argon_hash : forall (salt : Z) (password : string), string;
  argon_verify : forall (hash password : string), VerifyResult;
  check_needs_rehash : string -> bool;
}.

Class ArgonLaws {argon : Argon} := {
  argon_round : forall salt p, argon_verify (argon_hash salt p) p = Verified;
  argon_wellformed : forall salt p q, argon_verify (argon_hash salt p) q <> InvalidHash;
}.

Section Passwords.
Context {argon : Argon}.

Definition hash_password (password : string) : M string :=
  let! salt := draw in ret (argon_hash salt password).

Definition verify_password (password_hash password : string) : M bool :=
  match argon_verify password_hash password with
  | Verified => ret true
  | VerificationError => ret false
  | InvalidHash => raise (ValueError "InvalidHash")
  end.

(** [dummy_verify]: a verification whose answer is thrown away. *)
Definition dummy_verify : M unit :=
  let! hash := hash_password "dummy-password-for-timing-equalization" in
  match argon_verify hash "not-the-password" with
  | InvalidHash => raise (ValueError "InvalidHash")
  | _ => ret tt
  end.

Definition needs_rehash (password_hash : string) : bool := check_needs_rehash password_hash.

Lemma verify_password_run hash password e s b s' :
  verify_password hash password e s = (Ok b, s') ->
  s' = s /\ (b = true <-> argon_verify hash password = Verified).
Proof.
  unfold verify_password. destruct (argon_verify hash password); [| |done];
    unfold ret; intros [= <- <-]; done.
Qed.

Lemma steps_hash_password R `{!PreOrder R} p : steps R (hash_password p).
Proof. unfold hash_password. steps_auto. Qed.
Lemma steps_verify_password R `{!PreOrder R} h p : steps R (verify_password h p).
Proof. unfold verify_password. steps_auto. Qed.
#[local] Hint Resolve steps_hash_password : hyproxy.
Lemma steps_dummy_verify R `{!PreOrder R} : steps R dummy_verify.
Proof. unfold dummy_verify. steps_auto. Qed.
End Passwords.

#[export] Hint Resolve steps_hash_password steps_verify_password steps_dummy_verify : hyproxy.

(** A hash that writes down the password, for examples. *)
Definition demo_argon : Argon := {|
  argon_hash salt p := "$argon2id$" +:+ p;
  argon_verify h p := if bool_decide (h = "$argon2id$" +:+ p) then Verified else VerificationError;
  check_needs_rehash _ := false;
|}.

Lemma demo_argon_laws : @ArgonLaws demo_argon.
Proof.
  constructor; simpl; [intros; by rewrite bool_decide_eq_true_2|].
  intros _ p q. by case_bool_decide.
Qed.
