(* ===== verification/Sessions.v ===== *)
(** * Sessions: idp/sessions.py, the IdP session row

    Creation, the cookie binding, the liveness gate and revocation.  A function
    that receives a [Session] object receives here its key and reads the row, which
    is what the identity map of the unit of work gives every holder of the object.
    [check_request] is in the file [ResourceServer]. *)

From S2P Require Import Prelude PyStr Encoding Digest Json PyTime Config Db Effects Crypto Web.
From S2P Require Import Events.
Local Open Scope Z_scope.

Definition SESSION_COOKIE : string := "__Host-idp_sid".

(** [f"{id}.{secret}"]. *)
Definition cookie_of (id : Z) (secret : string) : string := uuid_str id +:+ "." +:+ secret.

(** The id and the secret of a cookie value; [None] where the code returns early:
    no cookie, no dot, or an id that is not a UUID. *)
Definition split_cookie (cookie_value : option string) : option (Z * string) :=
  match nonempty cookie_value with
  | None => None
  | Some v =>
      match partition "." v with
      | None => None
      | Some (sid_str, secret) =>
          match uuid_parse sid_str with
          | None => None
          | Some sid => Some (sid, secret)
          end
      end
  end.

(** The row of a session object in hand. *)
Definition session_row (sid : Z) : M Session :=
  let! t := gets sessions in assert_some (t !! sid).

Definition set_session (sid : Z) (f : Session -> Session) : M unit :=
  moddb (upd_sessions (alter f sid)).

(** [Session(...)] with the column defaults. *)
Definition new_session (user_id : Z) (user : User) (source_ip : string) (amr : list string)
    (now ttl : Z) (secret : string) : Session :=
  mkSession user_id (sha256_hex secret) source_ip (u_auth_tier user) amr true None now now
    (now + seconds ttl) None None false None None.

Definition create_session (user_id : Z) (user : User) (source_ip : string) (amr : list string)
    (now : Z) : M (Z * string) :=
  let! secret := new_token in
  let! ttl := asks refresh_abs_ttl in
  let! id := uuid4 in
  db_add "sessions" sessions upd_sessions no_clash id
    (new_session user_id user source_ip amr now ttl secret);;
  emit SESSION_CREATED source_ip true (Some user_id) (Some id) None [];;
  ret (id, cookie_of id secret).

Definition reissue_cookie (sid : Z) : M string :=
  let! secret := new_token in
  set_session sid (set_s_cookie_secret_hash (sha256_hex secret));;
  ret (cookie_of sid secret).

Definition set_session_cookie (cookie_value : string) (r : Response) : M Response :=
  let! max_age := asks refresh_abs_ttl in
  ret (add_cookie (SetCookie SESSION_COOKIE cookie_value true true "lax" "/" None (Some max_age)) r).

Definition clear_session_cookie (r : Response) : Response :=
  add_cookie (DeleteCookie SESSION_COOKIE "/" None) r.

Definition revoke (sid : Z) (reason source_ip : string) : M unit :=
  let! session := session_row sid in
  match s_revoked_at session with
  | Some _ => ret tt
  | None =>
      let! now := utcnow in
      set_session sid (fun s => set_s_revoke_reason (Some reason) (set_s_revoked_at (Some now) s));;
      let event := if bool_decide (reason = "idle_timeout") then SESSION_IDLE_TIMEOUT
                   else SESSION_REVOKED in
      emit event source_ip true (Some (s_user_id session)) (Some sid) None
        [("reason", JStr reason)]
  end.

Definition touch (sid : Z) (now : Z) : M unit :=
  let! session := session_row sid in
  let! interval := asks session_touch_interval in
  if seconds interval <=? now - s_last_seen_at session
  then set_session sid (set_s_last_seen_at now) else ret tt.

Definition check_liveness (sid : Z) (source_ip : string) (now : Z) (enforce_ip : bool) : M bool :=
  let! session := session_row sid in
  let! idle := asks idle_ttl in
  if bool_decide (s_revoked_at session <> None) || s_stale session then ret false
  else if s_absolute_expires_at session <=? now then ret false
  else if seconds idle <? now - s_last_seen_at session then
    revoke sid "idle_timeout" source_ip;; ret false
  else if enforce_ip && negb (bool_decide (s_source_ip session = source_ip)) then
    set_session sid (set_s_stale true);;
    emit SESSION_STALE_IP source_ip false (Some (s_user_id session)) (Some sid) None
      [("old_ip", JStr (s_source_ip session)); ("new_ip", JStr source_ip)];;
    ret false
  else touch sid now;; ret true.

Definition get_session_from_cookie (cookie_value : option string) (source_ip : string) (now : Z)
  : M (option Z) :=
  match split_cookie cookie_value with
  | None => ret None
  | Some (sid, secret) =>
      let! t := gets sessions in
      match t !! sid with
      | None => ret None
      | Some session =>
          if negb (constant_time_equals (sha256_hex secret) (s_cookie_secret_hash session))
          then ret None
          else
            let! live := check_liveness sid source_ip now false in
            if live then ret (Some sid) else ret None
      end
  end.

(** ** Specification *)

Definition s_dead (s : Session) : Prop := s_revoked_at s <> None \/ s_stale s = true.

(** The columns of a session that are fixed at login. *)
Definition s_login (s : Session) :=
  (s_user_id s, s_absolute_expires_at s, s_source_ip s, s_auth_tier s, s_amr s, s_mfa_verified s).

(** Sessions are never deleted, never come back from revoked or stale, and keep their
    user, origin, tier and absolute bound. *)
Definition sess_mono : Db -> Db -> Prop := grows sessions s_dead s_login.

(** What the liveness gate asks of a row. *)
Record live_at (cfg : Settings) (s : Session) (now : Z) : Prop := {
  la_revoked : s_revoked_at s = None;
  la_stale : s_stale s = false;
  la_bound : now < s_absolute_expires_at s;
  la_idle : now - s_last_seen_at s <= seconds (idle_ttl cfg);
}.

#[export] Instance sess_mono_preorder : PreOrder sess_mono.
Proof. apply grows_preorder. Qed.

(** ** Lemmas *)

Lemma s_revoked_dead s : s_revoked_at s <> None -> s_dead s.
Proof. by left. Qed.

Lemma partition_dot_uuid id secret :
  partition "." (cookie_of id secret) = Some (uuid_str id, secret).
Proof. unfold cookie_of. apply partition_char, uuid_str_no_dot. Qed.

Lemma split_cookie_of id secret :
  0 <= id < UUID_MAX -> split_cookie (Some (cookie_of id secret)) = Some (id, secret).
Proof.
  intros Hid. unfold split_cookie, nonempty. rewrite bool_decide_eq_false_2.
  - by rewrite partition_dot_uuid, uuid_parse_str.
  - intros E. pose proof (partition_dot_uuid id secret) as Hp. by rewrite E in Hp.
Qed.

Lemma grows_sessions_alter d sid f :
  (forall s, (s_dead s -> s_dead (f s)) /\ s_login (f s) = s_login s) ->
  sess_mono d (upd_sessions (alter f sid) d).
Proof. intros Hf. eapply grows_alter; [done|]. eauto. Qed.

Lemma steps_session_row R `{!PreOrder R} sid : steps R (session_row sid).
Proof. unfold session_row. steps_auto. Qed.
#[export] Hint Resolve steps_session_row : hyproxy.

Lemma sess_mono_set sid f :
  (forall s, (s_dead s -> s_dead (f s)) /\ s_login (f s) = s_login s) ->
  steps sess_mono (set_session sid f).
Proof. intros Hf e s. by apply grows_sessions_alter. Qed.

Lemma sess_mono_revoke sid reason ip : steps sess_mono (revoke sid reason ip).
Proof.
  unfold revoke. steps_auto. apply sess_mono_set. intros s. split; [|done]. by left.
Qed.

Lemma sess_mono_touch sid now : steps sess_mono (touch sid now).
Proof. unfold touch. steps_auto. by apply sess_mono_set. Qed.

#[export] Hint Resolve sess_mono_revoke sess_mono_touch : hyproxy.

Lemma sess_mono_check_liveness sid ip now enf : steps sess_mono (check_liveness sid ip now enf).
Proof.
  unfold check_liveness. steps_auto. apply sess_mono_set. intros s. split; [|done]. by right.
Qed.
#[export] Hint Resolve sess_mono_check_liveness : hyproxy.

Lemma sess_mono_get_session c ip now : steps sess_mono (get_session_from_cookie c ip now).
Proof. unfold get_session_from_cookie. steps_auto. Qed.

Lemma sess_mono_reissue sid : steps sess_mono (reissue_cookie sid).
Proof. unfold reissue_cookie, new_token. steps_auto. by apply sess_mono_set. Qed.

Lemma sess_mono_create uid u ip amr now : steps sess_mono (create_session uid u ip amr now).
Proof.
  unfold create_session, new_token. steps_auto. by eapply grows_insert.
Qed.
#[export] Hint Resolve sess_mono_get_session sess_mono_reissue sess_mono_create : hyproxy.

(** Nothing of the session component but the session rows and the event trail. *)
Definition outside {X} (view : Db -> X) : Prop :=
  (forall f d, view (upd_sessions f d) = view d) /\ (forall f d, view (upd_auth_events f d) = view d).

Lemma same_set_session {X} (view : Db -> X) sid f : outside view -> steps (same view) (set_session sid f).
Proof. intros [H _] e s. apply H. Qed.

Lemma same_emit {X} (view : Db -> X) t ip ok uid sid cid detail :
  outside view -> steps (same view) (emit t ip ok uid sid cid detail).
Proof. intros [_ H]. apply steps_emit; [apply _|]. intros d f. apply H. Qed.

Lemma same_check_liveness {X} (view : Db -> X) sid ip now enf :
  outside view -> steps (same view) (check_liveness sid ip now enf).
Proof.
  intros Ho. pose proof (same_set_session view) as Hs. pose proof (same_emit view) as He.
  unfold check_liveness, revoke, touch. steps_auto; auto.
Qed.

(** The rows left, and the answer, on each path of the gate. *)
Definition gate (cfg : Settings) (s : Session) (ip : string) (now : Z) (enf : bool) (revoked : Z)
  : bool * Session :=
  if bool_decide (s_revoked_at s <> None) || s_stale s then (false, s)
  else if s_absolute_expires_at s <=? now then (false, s)
  else if seconds (idle_ttl cfg) <? now - s_last_seen_at s
  then (false, set_s_revoke_reason (Some "idle_timeout") (set_s_revoked_at (Some revoked) s))
  else if enf && negb (bool_decide (s_source_ip s = ip)) then (false, set_s_stale true s)
  else (true, if seconds (session_touch_interval cfg) <=? now - s_last_seen_at s
              then set_s_last_seen_at now s else s).

Lemma bind_session_row {B} sid row (k : Session -> M B) e s :
  sessions (db s) !! sid = Some row -> bind (session_row sid) k e s = k row e s.
Proof. intros H. unfold session_row, bind, gets. by rewrite H. Qed.

Lemma alter_insert_row (t : gmap Z Session) sid row f :
  t !! sid = Some row -> alter f sid t = <[sid := f row]> t.
Proof.
  intros H. apply map_eq. intros i. destruct (decide (i = sid)) as [->|].
  - by rewrite lookup_alter_eq, H, lookup_insert_eq.
  - by rewrite lookup_alter_ne, lookup_insert_ne.
Qed.

Lemma revoke_Ok sid reason ip e s row u s' :
  sessions (db s) !! sid = Some row -> s_revoked_at row = None ->
  revoke sid reason ip e s = (Ok u, s') ->
  sessions (db s') = <[sid := set_s_revoke_reason (Some reason)
    (set_s_revoked_at (Some (clock e (tick s))) row)]> (sessions (db s)).
Proof.
  intros Hrow Hr. unfold revoke. rewrite (bind_session_row _ _ _ _ _ Hrow), Hr. intros Hc.
  minv Hc. unfold set_session in *. minv Hm. apply emit_Ok in Hk as (_ & -> & _). simpl.
  by rewrite (alter_insert_row _ _ _ _ Hrow).
Qed.

(** Whatever it finds, [revoke] leaves a revoked row, and the other tables as they were. *)
Lemma revoke_dead sid reason ip e s u s' row :
  sessions (db s) !! sid = Some row -> revoke sid reason ip e s = (Ok u, s') ->
  exists row', sessions (db s') !! sid = Some row' /\ s_dead row'.
Proof.
  intros Hrow Hr. destruct (s_revoked_at row) eqn:E.
  - unfold revoke in Hr. rewrite (bind_session_row _ _ _ _ _ Hrow), E in Hr.
    unfold ret in Hr. injection Hr as _ <-. exists row. split; [done|]. left. by rewrite E.
  - rewrite (revoke_Ok _ _ _ _ _ _ _ _ Hrow E Hr), lookup_insert_eq. eexists. split; [done|].
    by left.
Qed.

(** ... and, when it was not revoked, the reason. *)
Lemma revoke_revoked sid reason ip e s u s' row :
  sessions (db s) !! sid = Some row -> revoke sid reason ip e s = (Ok u, s') ->
  exists row', sessions (db s') !! sid = Some row' /\ s_revoked_at row' <> None
  /\ (s_revoked_at row = None -> s_revoke_reason row' = Some reason).
Proof.
  intros Hrow Hr. destruct (s_revoked_at row) eqn:E.
  - unfold revoke in Hr. rewrite (bind_session_row _ _ _ _ _ Hrow), E in Hr.
    unfold ret in Hr. injection Hr as _ <-. exists row. by rewrite E.
  - rewrite (revoke_Ok _ _ _ _ _ _ _ _ Hrow E Hr), lookup_insert_eq. by eexists.
Qed.

Lemma revoke_runs sid reason ip e s row :
  sessions (db s) !! sid = Some row -> char_len reason <= 256 ->
  exists s', revoke sid reason ip e s = (Ok tt, s').
Proof.
  intros Hrow Hl. unfold revoke. rewrite (bind_session_row _ _ _ _ _ Hrow).
  destruct (s_revoked_at row); [eexists; reflexivity|].
  unfold utcnow, set_session, moddb, bind. rewrite emit_run; [eexists; reflexivity|].
  apply validate_detail_Ok, Forall_singleton. split; [unfold ALLOWED_DETAIL_KEYS; set_solver|].
  simpl. apply negb_true_iff, Z.ltb_ge. exact Hl.
Qed.

Lemma same_revoke {X} (view : Db -> X) sid reason ip :
  outside view -> steps (same view) (revoke sid reason ip).
Proof.
  intros Ho. pose proof (same_set_session view) as Hs. pose proof (same_emit view) as He.
  unfold revoke. steps_auto; auto.
Qed.

Lemma touch_Ok sid now e s row u s' :
  sessions (db s) !! sid = Some row -> touch sid now e s = (Ok u, s') ->
  sessions (db s') =
    <[sid := if seconds (session_touch_interval (settings e)) <=? now - s_last_seen_at row
             then set_s_last_seen_at now row else row]> (sessions (db s)).
Proof.
  intros Hrow. unfold touch. rewrite (bind_session_row _ _ _ _ _ Hrow). intros Hc. minv Hc.
  destruct (_ <=? _); [unfold set_session in Hc|]; minv Hc; simpl;
    [by rewrite (alter_insert_row _ _ _ _ Hrow)|by rewrite insert_id].
Qed.

Lemma check_liveness_gate sid ip now enf e s row b s' :
  sessions (db s) !! sid = Some row ->
  check_liveness sid ip now enf e s = (Ok b, s') ->
  sessions (db s') = <[sid := (gate (settings e) row ip now enf (clock e (tick s))).2]> (sessions (db s))
  /\ b = (gate (settings e) row ip now enf (clock e (tick s))).1.
Proof.
  intros Hrow. unfold check_liveness, gate. rewrite (bind_session_row _ _ _ _ _ Hrow). intros Hc.
  minv Hc.
  destruct (_ || s_stale row) eqn:E0; [minv Hc; simpl; by rewrite insert_id|].
  destruct (s_absolute_expires_at row <=? now); [minv Hc; simpl; by rewrite insert_id|].
  apply orb_false_iff in E0 as [Hrv%bool_decide_eq_false_1%dec_stable _].
  destruct (seconds (idle_ttl _) <? _); [|destruct (enf && _)].
  - minv Hc. eapply revoke_Ok in Hm; eauto.
  - minv Hc. unfold set_session in *. minv Hm. apply emit_Ok in Hm0 as (_ & -> & _). simpl.
    split; [|done]. by rewrite (alter_insert_row _ _ _ _ Hrow).
  - minv Hc. eapply touch_Ok in Hm; eauto.
Qed.

Lemma gate_true cfg s ip now enf r :
  (gate cfg s ip now enf r).1 = true <-> live_at cfg s now /\ (enf = true -> s_source_ip s = ip).
Proof.
  unfold gate. split.
  - destruct (_ || _) eqn:E0; [done|]. apply orb_false_iff in E0 as [H1 H2].
    apply bool_decide_eq_false_1, dec_stable in H1.
    destruct (_ <=? now) eqn:E1; [done|]. destruct (_ <? _) eqn:E2; [done|].
    destruct (enf && _) eqn:E3; [done|]. intros _. bool_simpl. split; [by split|].
    intros ->. apply andb_false_iff in E3 as [|E3]; [done|]. by bool_simpl.
  - intros [[-> -> H3 H4] H5]. simpl. apply Z.leb_gt in H3. apply Z.ltb_ge in H4.
    rewrite H3, H4. destruct enf; [|done]. by rewrite H5, bool_decide_eq_true_2.
Qed.

Lemma check_liveness_accepts sid ip now enf e s row :
  sessions (db s) !! sid = Some row -> live_at (settings e) row now ->
  (enf = true -> s_source_ip row = ip) ->
  exists s', check_liveness sid ip now enf e s = (Ok true, s').
Proof.
  intros Hrow [H1 H2 H3 H4] Hip. apply Z.leb_gt in H3. apply Z.ltb_ge in H4.
  unfold check_liveness. rewrite (bind_session_row _ _ _ _ _ Hrow).
  unfold bind at 1, asks. cbn beta iota. rewrite H1, H2, H3, H4. simpl.
  assert (enf && negb (bool_decide (s_source_ip row = ip)) = false) as ->.
  { destruct enf; [|done]. by rewrite bool_decide_eq_true_2 by auto. }
  unfold touch, bind at 1. rewrite (bind_session_row _ _ _ _ _ Hrow).
  unfold bind, asks. destruct (seconds (session_touch_interval _) <=? _); eexists; reflexivity.
Qed.

Lemma check_liveness_live sid ip now e s row :
  sessions (db s) !! sid = Some row -> live_at (settings e) row now ->
  exists s', check_liveness sid ip now false e s = (Ok true, s').
Proof. intros. by eapply check_liveness_accepts. Qed.

(** A live session seen from another address is marked stale, and the event recorded. *)
Lemma check_liveness_stale sid ip now e s row :
  sessions (db s) !! sid = Some row -> live_at (settings e) row now -> s_source_ip row <> ip ->
  char_len ip <= 256 -> char_len (s_source_ip row) <= 256 ->
  exists s', check_liveness sid ip now true e s = (Ok false, s')
  /\ sessions (db s') !! sid = Some (set_s_stale true row).
Proof.
  intros Hrow [H1 H2 H3 H4] Hip Hl1 Hl2. apply Z.leb_gt in H3. apply Z.ltb_ge in H4.
  unfold check_liveness. rewrite (bind_session_row _ _ _ _ _ Hrow).
  unfold bind at 1, asks. cbn beta iota. rewrite H1, H2, H3, H4. simpl.
  rewrite bool_decide_eq_false_2 by done. cbn [negb andb].
  erewrite bind_run; [|reflexivity]. cbn beta. erewrite bind_run; [|apply emit_run].
  - eexists. split; [reflexivity|]. simpl. by rewrite lookup_alter_eq, Hrow.
  - apply validate_detail_Ok. repeat (apply Forall_cons; split; [|]); [..|apply Forall_nil; done];
      (split; [unfold ALLOWED_DETAIL_KEYS; set_solver|simpl; by apply negb_true_iff, Z.ltb_ge]).
Qed.

Lemma get_session_Some cookie ip now e s sid s' :
  get_session_from_cookie cookie ip now e s = (Ok (Some sid), s') ->
  exists secret row, split_cookie cookie = Some (sid, secret)
  /\ sessions (db s) !! sid = Some row /\ s_cookie_secret_hash row = sha256_hex secret
  /\ live_at (settings e) row now
  /\ check_liveness sid ip now false e s = (Ok true, s').
Proof.
  unfold get_session_from_cookie. intros Hr.
  destruct (split_cookie cookie) as [[sid0 secret]|]; mread Hr; [|done].
  destruct (sessions (db s) !! sid0) as [row|] eqn:Erow; [|done].
  destruct (constant_time_equals _ _) eqn:Eh; simpl in Hr; [|done].
  mstep Hr live s1 H1. destruct live; [|done]. unfold ret in Hr. injection Hr as <- <-.
  destruct (check_liveness_gate _ _ _ _ _ _ _ _ _ Erow H1) as [_ Hb].
  symmetry in Hb. apply gate_true in Hb as [Hl _].
  unfold constant_time_equals in Eh. bool_simpl. exists secret, row. split_and!; done.
Qed.

Lemma get_session_runs sid secret ip now e s row :
  0 <= sid < UUID_MAX -> sessions (db s) !! sid = Some row ->
  s_cookie_secret_hash row = sha256_hex secret -> live_at (settings e) row now ->
  exists s', get_session_from_cookie (Some (cookie_of sid secret)) ip now e s = (Ok (Some sid), s').
Proof.
  intros Hid Hrow Hh Hl. unfold get_session_from_cookie. rewrite split_cookie_of by done.
  unfold bind at 1, gets. cbn beta iota. rewrite Hrow. unfold constant_time_equals.
  rewrite bool_decide_eq_true_2 by done. simpl.
  destruct (check_liveness_live sid ip now e s row Hrow Hl) as [s' Hs'].
  exists s'. by rewrite (bind_run _ _ _ _ _ _ Hs').
Qed.

Lemma create_session_Ok uid u ip amr now e s sid c s' :
  create_session uid u ip amr now e s = (Ok (sid, c), s') ->
  exists secret, 0 <= sid < UUID_MAX /\ sessions (db s) !! sid = None
  /\ sessions (db s') = <[sid := new_session uid u ip amr now (refresh_abs_ttl (settings e)) secret]>
                          (sessions (db s))
  /\ c = cookie_of sid secret.
Proof.
  unfold create_session, new_token, token_urlsafe, token_bytes, uuid4. intros Hc. minv Hc.
  repeat match goal with Hx : db_add _ _ _ _ _ _ _ _ = _ |- _ =>
    apply db_add_Ok in Hx as (Hn & _ & Hdb & _) end.
  repeat match goal with Hx : emit _ _ _ _ _ _ _ _ _ = _ |- _ =>
    apply emit_Ok in Hx as (_ & Hdb' & _) end.
  eexists. split_and!; [apply uuid4_of_range..|exact Hn| |reflexivity].
  rewrite Hdb', Hdb. reflexivity.
Qed.

(** ** Theorems *)

(** The liveness gate answers yes exactly for a session that is neither revoked nor
    stale, before its absolute bound, not idle too long and (when the address is
    enforced) from its own address; the row it leaves is that of [gate]: revoked on the
    idle timeout, stale on a changed address, touched at most once per interval. *)
Theorem check_liveness_spec sid ip now enf e s row b s'
    (Hrow : sessions (db s) !! sid = Some row)
    (Hrun : check_liveness sid ip now enf e s = (Ok b, s')) :
  (b = true <-> live_at (settings e) row now /\ (enf = true -> s_source_ip row = ip))
  /\ sessions (db s') !! sid = Some (gate (settings e) row ip now enf (clock e (tick s))).2
  /\ (forall sid', sid' <> sid -> sessions (db s') !! sid' = sessions (db s) !! sid').
Proof.
  destruct (check_liveness_gate _ _ _ _ _ _ _ _ _ Hrow Hrun) as [-> ->].
  rewrite lookup_insert_eq, gate_true. split_and!; [done..|].
  intros sid' Hne. by rewrite lookup_insert_ne.
Qed.

(** A cookie is accepted only with the secret whose hash the session records, for a
    live session; the cookie that login hands out is accepted for as long as the session
    is live. *)
Theorem session_cookie_spec cookie ip now e s :
  (forall sid s', get_session_from_cookie cookie ip now e s = (Ok (Some sid), s') ->
     exists secret row, split_cookie cookie = Some (sid, secret)
     /\ sessions (db s) !! sid = Some row /\ s_cookie_secret_hash row = sha256_hex secret
     /\ live_at (settings e) row now)
  /\ (forall sid secret row, cookie = Some (cookie_of sid secret) -> 0 <= sid < UUID_MAX ->
     sessions (db s) !! sid = Some row -> s_cookie_secret_hash row = sha256_hex secret ->
     live_at (settings e) row now ->
     exists s', get_session_from_cookie cookie ip now e s = (Ok (Some sid), s')).
Proof.
  split.
  - intros sid s' (secret & row & H1 & H2 & H3 & H4 & _)%get_session_Some. by exists secret, row.
  - intros sid secret row -> Hid Hrow Hh Hl. by eapply get_session_runs.
Qed.

(** A session just created is found again through the cookie returned, and the
    database holds only the hash of its secret. *)
Theorem create_session_roundtrip uid u ip ip' amr now now' e s sid c s'
    (Hc : create_session uid u ip amr now e s = (Ok (sid, c), s'))
    (Hnow : now <= now' < now + seconds (refresh_abs_ttl (settings e)))
    (Hidle : now' - now <= seconds (idle_ttl (settings e))) :
  exists row secret s'', sessions (db s') !! sid = Some row
  /\ s_user_id row = uid /\ s_source_ip row = ip /\ s_auth_tier row = u_auth_tier u
  /\ s_cookie_secret_hash row = sha256_hex secret /\ c = cookie_of sid secret
  /\ get_session_from_cookie (Some c) ip' now' e s' = (Ok (Some sid), s'').
Proof.
  destruct (create_session_Ok _ _ _ _ _ _ _ _ _ _ Hc) as (secret & Hsid & _ & Ht & ->).
  set (row := new_session _ _ _ _ _ _ _) in Ht.
  assert (Hrow : sessions (db s') !! sid = Some row) by (rewrite Ht; apply lookup_insert_eq).
  destruct (get_session_runs sid secret ip' now' e s' row) as [s'' Hs'']; [done..| |].
  { subst row. split; simpl; try done; lia. }
  by exists row, secret, s''.
Qed.

(** ** Witnesses *)

Definition demo_user : User :=
  mkUser "sub-1" "ada@example.com" "Ada" "active" "standard" "argon2" false 0 0.
Definition T0 : Z := seconds 1000000.
Definition demo_session (secret : string) : Session :=
  new_session 11 demo_user "10.0.0.1" ["pwd"; "otp"] T0 21600 secret.
Definition demo_session_db : Db :=
  upd_users (fun _ => {[ 11 := demo_user ]})
    (upd_sessions (fun _ => {[ 7 := demo_session "s3cret" ]}) empty_db).

Example check_liveness_spec_witness :
  exists b s', check_liveness 7 "10.0.0.2" T0 true demo_env (mkSt demo_session_db 0) = (Ok b, s')
  /\ (b = true <-> live_at example_settings (demo_session "s3cret") T0
                   /\ (true = true -> "10.0.0.1" = "10.0.0.2")).
Proof.
  destruct (check_liveness 7 "10.0.0.2" T0 true demo_env (mkSt demo_session_db 0))
    as [[b|x] s'] eqn:E; [|discriminate E].
  exists b, s'. split; [reflexivity|].
  exact (proj1 (check_liveness_spec 7 "10.0.0.2" T0 true demo_env (mkSt demo_session_db 0)
                  (demo_session "s3cret") b s' eq_refl E)).
Defined.

Example create_session_roundtrip_witness :
  exists sid c s' s'',
    create_session 11 demo_user "10.0.0.1" ["pwd"; "otp"] T0 demo_env (mkSt empty_db 0)
      = (Ok (sid, c), s')
    /\ get_session_from_cookie (Some c) "10.0.0.2" (T0 + seconds 60) demo_env s'
      = (Ok (Some sid), s'').
Proof.
  destruct (create_session 11 demo_user "10.0.0.1" ["pwd"; "otp"] T0 demo_env (mkSt empty_db 0))
    as [[[sid c]|x] s'] eqn:E; [|discriminate E].
  destruct (create_session_roundtrip 11 demo_user "10.0.0.1" "10.0.0.2" ["pwd"; "otp"] T0
    (T0 + seconds 60) demo_env (mkSt empty_db 0) sid c s' E) as (row & secret & s'' & H).
  - split; vm_compute; [discriminate|reflexivity].
  - vm_compute. discriminate.
  - exists sid, c, s', s''. split; [reflexivity|]. apply H.
Defined.
