(* ===== verification/Decision.v ===== *)
(** * Decision: authz/decision.py, the gathering of an access decision

    The roles of the user and the policies of the resource are read from the
    database and given to the engine; [host_stable] is the promise that lets the
    data plane cache an allow for the whole host. *)

From S2P Require Import Prelude PyStr Json PyTime Config Db Effects Engine.
Local Open Scope Z_scope.

Record AccessDecision := mkAccess {
  decision : Engine.Decision;
  role_names : list string;
  host_stable : bool;
}.

(** [sorted(names)]. *)
Definition str_le (a b : string) : Prop := String.leb a b = true.
#[export] Instance str_le_dec : RelDecision str_le := fun a b => bool_eq_dec (String.leb a b) true.
Definition sorted_names (l : list string) : list string := merge_sort str_le l.

(** The rules that can apply on some path at some time. *)
Definition relevant (r : PolicyRule) (role_ids : gset Z) (rid port : Z) : bool :=
  enabled r && (resource_id r =? rid) && bool_decide (role_id r ∈ role_ids)
  && match allowed_ports r with None => true | Some ports => existsb (Z.eqb port) ports end.

(** The body of the loop over the relevant rules. *)
Definition unconstrained_allow (r : PolicyRule) : bool :=
  if negb (bool_decide (action r = "allow")) || bool_decide (allowed_paths r <> None) then false
  else if match assoc "time_windows" (conditions r) with Some w => truthy w | None => false end
  then false
  else if existsb (fun kv => negb (bool_decide (kv.1 = "time_windows"))) (conditions r) then false
  else true.

Definition compute_host_stable (rules : list PolicyRule) (is_allowed : bool) (role_ids : gset Z)
    (rid port : Z) : bool :=
  if negb is_allowed then false
  else
    let rel := List.filter (fun r => relevant r role_ids rid port) rules in
    if existsb (fun r => bool_decide (action r = "deny")) rel then false
    else existsb unconstrained_allow rel.

Definition rule_of (p : Policy) : PolicyRule :=
  mkRule (p_role_id p) (p_resource_id p) (p_action p) (p_allowed_ports p) (p_allowed_paths p)
    (p_conditions_json p) (p_enabled p).

(** [select(Role.id, Role.name).join(UserRole).where(user_id == ...)]. *)
Definition roles_of (d : Db) (user_id : Z) : list (Z * string) :=
  omap (fun ur : Z * Z =>
    if ur.1 =? user_id then (fun r => (ur.2, ro_name r)) <$> roles d !! ur.2 else None)
    (user_roles d).

Definition rules_of (d : Db) (rid : Z) : list PolicyRule :=
  map (fun kp => rule_of kp.2) (select (fun _ p => p_resource_id p =? rid) (policies d)).

(** [evaluate_access], which only reads. *)
Definition access_of (d : Db) (user_id rid port : Z) (path : string) (now : Z) : AccessDecision :=
  let role_rows := roles_of d user_id in
  let role_ids : gset Z := list_to_set (map fst role_rows) in
  let names := sorted_names (map snd role_rows) in
  let rules := rules_of d rid in
  let dec := evaluate rules role_ids rid port path now in
  mkAccess dec names (compute_host_stable rules (allowed dec) role_ids rid port).

Definition evaluate_access (user_id rid port : Z) (path : string) (now : Z) : M AccessDecision :=
  let! d := gets id in ret (access_of d user_id rid port path now).

(** ** Lemmas *)

Lemma relevant_applies r roles rid port path now :
  applies r roles rid port path now -> relevant r roles rid port = true.
Proof.
  unfold relevant. intros [-> -> Hr Hp _ _]. rewrite Z.eqb_refl, bool_decide_eq_true_2 by done.
  simpl. destruct (allowed_ports r) as [ports|]; [|done]. apply port_allowed_spec. auto.
Qed.

Lemma unconstrained_applies r roles rid port path now :
  relevant r roles rid port = true -> unconstrained_allow r = true ->
  action r = "allow" /\ applies r roles rid port path now.
Proof.
  unfold relevant, unconstrained_allow. intros Hrel Hu.
  destruct (negb (bool_decide (action r = "allow"))) eqn:Ea; [done|].
  destruct (allowed_paths r) eqn:Ep; [by rewrite bool_decide_eq_true_2 in Hu|]. simpl in Hu.
  destruct (match assoc _ (conditions r) with Some w => truthy w | None => false end) eqn:Et; [done|].
  bool_simpl. split; [done|]. constructor; try done.
  - intros ports Hports.
    match goal with H : match allowed_ports r with _ => _ end = true |- _ =>
      rewrite Hports in H; by apply port_allowed_spec end.
  - congruence.
  - intros w Hw Htr. rewrite Hw in Et. congruence.
Qed.

#[global] Arguments access_of : simpl never.

Lemma steps_evaluate_access R `{!PreOrder R} uid rid port path now :
  steps R (evaluate_access uid rid port path now).
Proof. unfold evaluate_access. steps_auto. Qed.
#[export] Hint Resolve steps_evaluate_access : hyproxy.

Lemma host_stable_allows d uid rid port path now :
  host_stable (access_of d uid rid port path now) = true ->
  forall path' now', decision (access_of d uid rid port path' now') = mkDecision true "allow"
  /\ role_names (access_of d uid rid port path' now') = role_names (access_of d uid rid port path now).
Proof.
  intros H path' now'. split; [|done]. unfold access_of in *. cbn in *.
  set (rules := rules_of d rid) in *. set (ids := list_to_set _) in *.
  unfold compute_host_stable in H. destruct (allowed _) eqn:Eall; [|done]. simpl in H.
  destruct (existsb (fun r => bool_decide (action r = "deny")) _) eqn:Ed; [done|].
  apply existsb_True in H as (r & Hr & Hu). apply list_elem_of_In, filter_In in Hr as [Hr Hrel].
  destruct (unconstrained_applies r ids rid port path' now' Hrel Hu) as [Ha Happ].
  assert (~ exists r, r ∈ rules /\ action r = "deny" /\ applies r ids rid port path' now') as Hnd.
  { intros (r' & Hr' & Hd & Happ'). rewrite existsb_False in Ed.
    assert (r' ∈ List.filter (fun r => relevant r ids rid port) rules) as Hin.
    { apply list_elem_of_In, filter_In. split; [by apply list_elem_of_In|].
      by eapply relevant_applies. }
    apply Ed in Hin. by bool_simpl. }
  unfold evaluate.
  rewrite <- applicable_action in Hnd. apply not_true_iff_false in Hnd. rewrite Hnd.
  assert (exists r, r ∈ rules /\ action r = "allow" /\ applies r ids rid port path' now') as Hal
    by (exists r; split_and!; [by apply list_elem_of_In|done..]).
  apply applicable_action in Hal. by rewrite Hal.
Qed.

(** ** Theorems *)

(** An allow that is declared host-stable holds on every path of the host and at
    every time, for the same user, resource and port. *)
Theorem host_stable_sound d uid rid port path now
    (H : host_stable (access_of d uid rid port path now) = true) :
  forall path' now', decision (access_of d uid rid port path' now') = mkDecision true "allow"
  /\ role_names (access_of d uid rid port path' now') = role_names (access_of d uid rid port path now).
Proof. exact (host_stable_allows d uid rid port path now H). Qed.

(** ** Witness *)

Definition demo_policy (paths : option (list string)) (act : string) : Policy :=
  mkPolicy 3 5 None paths act [] true 0.
Definition demo_access_db : Db :=
  upd_policies (fun _ => {[ 1 := demo_policy None "allow" ]})
    (upd_roles (fun _ => {[ 3 := mkRole "media" None ]})
       (upd_user_roles (fun _ => [(11, 3)]) empty_db)).

Example host_stable_sound_witness :
  host_stable (access_of demo_access_db 11 5 443 "/a" 0) = true
  /\ decision (access_of demo_access_db 11 5 443 "/b" 99) = mkDecision true "allow".
Proof.
  assert (host_stable (access_of demo_access_db 11 5 443 "/a" 0) = true) as H by (vm_compute; reflexivity).
  split; [exact H|].
  exact (proj1 (host_stable_sound demo_access_db 11 5 443 "/a" 0 H "/b" 99)).
Defined.
