(* ===== verification/RateLimit.v ===== *)
(** * RateLimit: security/ratelimit.py, progressive delays on failed attempts

    Two counters per attempt, one for the source address and one for the account,
    each with a window and a next allowed time. *)

From S2P Require Import Prelude PyStr Json PyTime Config Db Effects Crypto.
Local Open Scope Z_scope.

Record ThrottleDecision := mkThrottle { td_allowed : bool; retry_after : Z }.

Definition delay_seconds (s : Settings) (scope : string) (failure_count : Z) : Z :=
  let '(free, cap) :=
    if bool_decide (scope = "account")
    then (throttle_account_free_failures s, throttle_account_max_delay s)
    else (throttle_ip_free_failures s, throttle_ip_max_delay s) in
  if failure_count <=? free then 0
  else Z.min (Z.shiftl 1 (failure_count - free)) cap.

Definition throttle_keys (source_ip : string) (account_key : option string)
  : list (string * string) :=
  ("ip", source_ip) :: match account_key with Some k => [("account", k)] | None => [] end.

(** The loop of [check] over the keys. *)
Definition check_key (t : gmap (string * string) AuthThrottle) (now : Z)
    (worst : ThrottleDecision) (key : string * string) : ThrottleDecision :=
  match t !! key with
  | Some row =>
      if now <? at_next_allowed_at row then
        let retry := total_seconds_int (at_next_allowed_at row - now) + 1 in
        if retry_after worst <? retry then mkThrottle false retry else worst
      else worst
  | None => worst
  end.

Definition check_throttle (source_ip : string) (account_key : option string) (now : Z)
  : M ThrottleDecision :=
  let! t := gets auth_throttle in
  ret (foldl (check_key t now) (mkThrottle true 0) (throttle_keys source_ip account_key)).

(** The row after one more failure. *)
Definition failure_row (s : Settings) (scope : string) (now : Z) (old : AuthThrottle)
  : AuthThrottle :=
  let reset := seconds (throttle_window s) <? now - at_window_started_at old in
  let count := (if reset then 0 else at_failure_count old) + 1 in
  let started := if reset then now else at_window_started_at old in
  mkAuthThrottle count started (now + seconds (delay_seconds s scope count)).

Definition fresh_row (now : Z) : AuthThrottle := mkAuthThrottle 0 now now.

(** One iteration: the upsert, then the locked update. *)
Definition register_key (now : Z) (key : string * string) : M unit :=
  let! s := asks id in
  moddb (upd_auth_throttle (fun t =>
    match t !! key with Some _ => t | None => <[key := fresh_row now]> t end));;
  let! t := gets auth_throttle in
  let! row := assert_some (t !! key) in
  moddb (upd_auth_throttle <[key := failure_row s key.1 now row]>).

Definition register_failure (source_ip : string) (account_key : option string) (now : Z) : M unit :=
  for_ (throttle_keys source_ip account_key) (register_key now).

Definition reset_account (account_key : string) : M unit :=
  moddb (upd_auth_throttle (delete ("account", account_key))).

(** ** Lemmas *)

Definition scope_cap (s : Settings) (scope : string) : Z :=
  if bool_decide (scope = "account") then throttle_account_max_delay s else throttle_ip_max_delay s.
Definition scope_free (s : Settings) (scope : string) : Z :=
  if bool_decide (scope = "account") then throttle_account_free_failures s
  else throttle_ip_free_failures s.

Lemma delay_eq s scope n :
  delay_seconds s scope n =
    if n <=? scope_free s scope then 0 else Z.min (2 ^ (n - scope_free s scope)) (scope_cap s scope).
Proof.
  unfold delay_seconds, scope_free, scope_cap. destruct (bool_decide _).
  all: destruct (n <=? _) eqn:E; [done|]; bool_simpl; rewrite Z.shiftl_1_l; done.
Qed.

Lemma delay_bounds s scope n :
  0 <= scope_cap s scope -> 0 <= delay_seconds s scope n <= scope_cap s scope.
Proof.
  intros Hc. rewrite delay_eq. destruct (n <=? _) eqn:E; [lia|]. bool_simpl.
  pose proof (Z.pow_pos_nonneg 2 (n - scope_free s scope) ltac:(lia) ltac:(lia)). lia.
Qed.

Lemma delay_mono s scope n m :
  0 <= scope_cap s scope -> n <= m -> delay_seconds s scope n <= delay_seconds s scope m.
Proof.
  intros Hc Hnm. pose proof (delay_bounds s scope m Hc). revert H. rewrite !delay_eq.
  destruct (n <=? _) eqn:E1, (m <=? _) eqn:E2; bool_simpl; try lia.
  pose proof (Z.pow_le_mono_r 2 (n - scope_free s scope) (m - scope_free s scope)
                ltac:(lia) ltac:(lia)). lia.
Qed.

Lemma register_key_run now key e s :
  register_key now key e s =
    (Ok tt, mkSt (upd_auth_throttle
       (<[key := failure_row (settings e) key.1 now
                   (default (fresh_row now) (auth_throttle (db s) !! key))]>) (db s)) (tick s)).
Proof.
  unfold register_key, bind, asks, moddb, gets, assert_some, ret. simpl.
  destruct (auth_throttle (db s) !! key) eqn:E; simpl; rewrite ?E, ?lookup_insert_eq; simpl.
  - unfold upd_auth_throttle at 2. simpl. rewrite E. by destruct (db s).
  - unfold upd_auth_throttle. simpl. by rewrite E, insert_insert_eq.
Qed.

(** The table after a failure. *)
Definition throttled (s : Settings) (ip : string) (acct : option string) (now : Z)
    (t : gmap (string * string) AuthThrottle) : gmap (string * string) AuthThrottle :=
  foldl (fun t key => <[key := failure_row s key.1 now (default (fresh_row now) (t !! key))]> t)
    t (throttle_keys ip acct).

Lemma register_failure_run ip acct now e s :
  register_failure ip acct now e s =
    (Ok tt, mkSt (upd_auth_throttle (throttled (settings e) ip acct now) (db s)) (tick s)).
Proof.
  unfold register_failure, throttled, throttle_keys.
  destruct acct as [k|]; simpl; unfold bind; rewrite !register_key_run; done.
Qed.

Lemma throttled_lookup s ip acct now t scope k :
  (scope, k) ∈ throttle_keys ip acct ->
  throttled s ip acct now t !! (scope, k)
    = Some (failure_row s scope now (default (fresh_row now) (t !! (scope, k)))).
Proof.
  unfold throttled, throttle_keys. destruct acct as [a|]; simpl.
  - intros [[= -> ->]|[= -> ->]%list_elem_of_singleton]%elem_of_cons.
    + rewrite lookup_insert_ne by done. by rewrite lookup_insert_eq.
    + by rewrite lookup_insert_eq, lookup_insert_ne by done.
  - intros [= -> ->]%list_elem_of_singleton. by rewrite lookup_insert_eq.
Qed.

Lemma retry_pos d : 0 < d -> 1 <= total_seconds_int d + 1.
Proof. unfold total_seconds_int. intros. rewrite Z.quot_div_nonneg by lia.
  pose proof (Z.div_pos d 1000000 ltac:(lia) ltac:(lia)). lia. Qed.

Lemma check_key_inv t now worst key :
  (td_allowed worst = true <-> retry_after worst = 0) -> 0 <= retry_after worst ->
  let w := check_key t now worst key in
  (td_allowed w = true <-> retry_after w = 0) /\ retry_after worst <= retry_after w
  /\ (td_allowed w = true <-> td_allowed worst = true /\
        forall row, t !! key = Some row -> at_next_allowed_at row <= now).
Proof.
  intros Hw H0. unfold check_key. destruct (t !! key) as [row|] eqn:E; [|naive_solver lia].
  destruct (now <? at_next_allowed_at row) eqn:El; bool_simpl.
  - pose proof (retry_pos (at_next_allowed_at row - now) ltac:(lia)) as Hp.
    set (r := total_seconds_int _ + 1) in *.
    destruct (retry_after worst <? r) eqn:Er; bool_simpl; simpl.
    + split_and!; [split; [done|lia]|lia|]. split; [done|]. intros [_ Hn].
      specialize (Hn _ eq_refl). lia.
    + split_and!; [done|lia|]. split; [|naive_solver]. intros Ha. exfalso. apply Hw in Ha. lia.
  - split_and!; [done|lia|]. split; [|tauto]. intros Ha. split; [done|]. intros ? [= <-]. lia.
Qed.

Lemma check_throttle_allowed t now keys : forall worst,
  (td_allowed worst = true <-> retry_after worst = 0) -> 0 <= retry_after worst ->
  let w := foldl (check_key t now) worst keys in
  (td_allowed w = true <-> retry_after w = 0) /\ 0 <= retry_after w /\
  (td_allowed w = true <-> td_allowed worst = true /\
     forall key row, key ∈ keys -> t !! key = Some row -> at_next_allowed_at row <= now).
Proof.
  induction keys as [|key keys IH]; intros worst Hw H0; simpl.
  - split_and!; [done..|]. split; [|tauto]. intros. split; [done|]. intros ? ? []%elem_of_nil.
  - destruct (check_key_inv t now worst key Hw H0) as (H1 & H2 & H3).
    destruct (IH _ H1 ltac:(lia)) as (I1 & I2 & I3). split_and!; [done..|].
    rewrite I3, H3. setoid_rewrite elem_of_cons. naive_solver.
Qed.

Lemma steps_register_failure R `{!PreOrder R} ip acct now :
  (forall d f, R d (upd_auth_throttle f d)) -> steps R (register_failure ip acct now).
Proof.
  intros HR e s. rewrite register_failure_run. apply HR.
Qed.
Lemma steps_check_throttle R `{!PreOrder R} ip acct now : steps R (check_throttle ip acct now).
Proof. unfold check_throttle. steps_auto. Qed.
#[export] Hint Resolve steps_check_throttle : hyproxy.
#[export] Hint Extern 2 (steps _ (register_failure _ _ _)) =>
  apply steps_register_failure;
    [typeclasses eauto|solve [intros; first [done | reflexivity | by apply grows_same]]] : hyproxy.

(** The outcome of the check, and that it only reads. *)
Lemma check_throttle_Ok ip acct now e s d s' :
  check_throttle ip acct now e s = (Ok d, s') ->
  s' = s /\ (td_allowed d = true -> forall key row, key ∈ throttle_keys ip acct ->
    auth_throttle (db s) !! key = Some row -> at_next_allowed_at row <= now).
Proof.
  unfold check_throttle, bind, gets, ret. intros [= <- <-]. split; [done|].
  destruct (check_throttle_allowed (auth_throttle (db s)) now (throttle_keys ip acct) (mkThrottle true 0))
    as (_ & _ & H); [done|done|]. intros Ha. by apply H in Ha as [_ Ha].
Qed.

(** ** Theorems *)

(** An attempt is let through exactly when neither its address nor its account is
    inside a delay; a refusal comes with a positive Retry-After, a pass with none. *)
Theorem throttle_check_spec ip acct now e s :
  exists d, check_throttle ip acct now e s = (Ok d, s)
  /\ (td_allowed d = true <-> forall key row, key ∈ throttle_keys ip acct ->
        auth_throttle (db s) !! key = Some row -> at_next_allowed_at row <= now)
  /\ (td_allowed d = false <-> 1 <= retry_after d) /\ (td_allowed d = true <-> retry_after d = 0).
Proof.
  eexists. split; [reflexivity|].
  destruct (check_throttle_allowed (auth_throttle (db s)) now (throttle_keys ip acct)
              (mkThrottle true 0) ltac:(done) ltac:(simpl; lia)) as (H1 & H2 & H3).
  split_and!; [|rewrite <- not_true_iff_false; rewrite H1; lia|done].
  rewrite H3. simpl. tauto.
Qed.

(** One more failure of a key whose row was [before]: the count and the start of its
    window, and the time before which the next attempt is refused. *)
Record counted (window_secs free cap now : Z) (before : option AuthThrottle) (row : AuthThrottle) : Prop := {
  cf_first : before = None -> at_failure_count row = 1 /\ at_window_started_at row = now;
  cf_more : forall old, before = Some old -> now - at_window_started_at old <= 1000000 * window_secs ->
    at_failure_count row = at_failure_count old + 1 /\ at_window_started_at row = at_window_started_at old;
  cf_again : forall old, before = Some old -> 1000000 * window_secs < now - at_window_started_at old ->
    at_failure_count row = 1 /\ at_window_started_at row = now;
  cf_free : at_failure_count row <= free -> at_next_allowed_at row = now;
  cf_delay : free < at_failure_count row ->
    at_next_allowed_at row = now + 1000000 * Z.min (2 ^ (at_failure_count row - free)) cap;
}.

Lemma failure_counted s scope now before :
  counted (throttle_window s) (scope_free s scope) (scope_cap s scope) now before
    (failure_row s scope now (default (fresh_row now) before)).
Proof.
  unfold failure_row. rewrite delay_eq.
  constructor; cbn [at_failure_count at_window_started_at at_next_allowed_at].
  - intros ->. cbn. by destruct (_ <? _).
  - intros old ->. cbn. unfold seconds. intros H. by rewrite (proj2 (Z.ltb_ge _ _)) by lia.
  - intros old ->. cbn. unfold seconds. intros H. by rewrite (proj2 (Z.ltb_lt _ _)) by lia.
  - intros H. rewrite (proj2 (Z.leb_le _ _)) by done. unfold seconds. lia.
  - intros H. rewrite (proj2 (Z.leb_gt _ _)) by done. unfold seconds. lia.
Qed.

Lemma throttled_other s ip acct now t key : key ∉ throttle_keys ip acct -> throttled s ip acct now t !! key = t !! key.
Proof.
  unfold throttled, throttle_keys. destruct acct as [a|]; simpl; rewrite !not_elem_of_cons; intros H.
  - by rewrite !lookup_insert_ne by (intros <-; tauto).
  - by rewrite lookup_insert_ne by (intros <-; tauto).
Qed.

(** After the longest delay of a failure the next attempt is let through. *)
Lemma throttled_passes cfg ip acct now t later e' s' :
  0 <= throttle_ip_max_delay cfg -> 0 <= throttle_account_max_delay cfg ->
  now + seconds (Z.max (throttle_ip_max_delay cfg) (throttle_account_max_delay cfg)) <= later ->
  auth_throttle (db s') = throttled cfg ip acct now t ->
  check_throttle ip acct later e' s' = (Ok (mkThrottle true 0), s').
Proof.
  intros Hip Hac Hl Ht.
  assert (forall scope, 0 <= scope_cap cfg scope
    <= Z.max (throttle_ip_max_delay cfg) (throttle_account_max_delay cfg)) as Hcap
    by (intros; unfold scope_cap; destruct (bool_decide _); lia).
  unfold check_throttle, bind, gets, ret. f_equal. f_equal. rewrite Ht.
  destruct (check_throttle_allowed (throttled cfg ip acct now t)
              later (throttle_keys ip acct) (mkThrottle true 0) ltac:(done) ltac:(simpl; lia)) as (H1 & _ & H3).
  set (w := foldl _ _ _) in *. assert (td_allowed w = true) as Ha.
  { apply H3. split; [done|]. intros [scope k] row Hin Hrow.
    rewrite throttled_lookup in Hrow by done. simplify_eq. unfold failure_row. simpl.
    match goal with |- now + seconds (delay_seconds _ _ ?n) <= _ =>
      pose proof (delay_bounds cfg scope n ltac:(apply Hcap)); specialize (Hcap scope) end.
    unfold seconds in *. lia. }
  pose proof (proj1 H1 Ha). destruct w; simpl in *. by subst.
Qed.

(** C39: A failed attempt is counted for its source address and, when one is named, for its
    account, and for nothing else: the count is one more in a running window and one in a
    new window, which starts now; within the free failures there is no delay, and n
    failures past them delay the next attempt by 2^n seconds, at most the cap of the scope;
    so that no account or address stays locked: once the caps have passed the attempt is
    let through. (The caps are not negative.) *)
Theorem throttle_failure_spec ip acct now e s
    (Hip : 0 <= throttle_ip_max_delay (settings e))
    (Hac : 0 <= throttle_account_max_delay (settings e)) :
  exists s', register_failure ip acct now e s = (Ok tt, s')
  /\ (exists row, auth_throttle (db s') !! ("ip", ip) = Some row
      /\ counted (throttle_window (settings e)) (throttle_ip_free_failures (settings e))
           (throttle_ip_max_delay (settings e)) now (auth_throttle (db s) !! ("ip", ip)) row)
  /\ (forall a, acct = Some a -> exists row, auth_throttle (db s') !! ("account", a) = Some row
      /\ counted (throttle_window (settings e)) (throttle_account_free_failures (settings e))
           (throttle_account_max_delay (settings e)) now (auth_throttle (db s) !! ("account", a)) row)
  /\ (forall key, key <> ("ip", ip) -> (forall a, acct = Some a -> key <> ("account", a)) ->
      auth_throttle (db s') !! key = auth_throttle (db s) !! key)
  /\ (forall later e',
        now + 1000000 * Z.max (throttle_ip_max_delay (settings e))
                              (throttle_account_max_delay (settings e)) <= later ->
        check_throttle ip acct later e' s' = (Ok (mkThrottle true 0), s')).
Proof.
  eexists. split; [apply register_failure_run|]. split_and!.
  - eexists. split; [apply throttled_lookup; left|]. apply (failure_counted (settings e) "ip").
  - intros a ->. eexists. split; [apply throttled_lookup; right; left|]. apply (failure_counted (settings e) "account").
  - intros key H1 H2. apply throttled_other. unfold throttle_keys. destruct acct as [a|].
    + rewrite !not_elem_of_cons. split_and!; [done|by apply H2|apply not_elem_of_nil].
    + rewrite not_elem_of_cons. split; [done|apply not_elem_of_nil].
  - intros later e' Hl. apply (throttled_passes (settings e) ip acct now (auth_throttle (db s))); [done|done| |done].
    unfold seconds. rewrite (Z.mul_comm _ 1000000). exact Hl.
Qed.

Example throttle_failure_spec_witness :
  exists s', register_failure "10.0.0.1" (Some "public:5") 0 demo_env (mkSt empty_db 0) = (Ok tt, s')
  /\ check_throttle "10.0.0.1" (Some "public:5") (seconds 60) demo_env s'
     = (Ok (mkThrottle true 0), s').
Proof.
  destruct (throttle_failure_spec "10.0.0.1" (Some "public:5") 0 demo_env (mkSt empty_db 0))
    as (s' & H1 & _ & _ & _ & H2); [vm_compute; discriminate..|].
  exists s'. split; [exact H1|]. apply H2. vm_compute. discriminate.
Defined.
