(* ===== verification/PublicGate.v ===== *)
(** * PublicGate: authz/publicgate.py

    The password gate of a public resource: the access cookie and its session, the
    sanitised return path, the form and its submission.  Logging has no effect
    in the model. *)

From S2P Require Import Prelude PyStr Encoding Digest Json PyTime Config Db Effects Crypto Web.
From S2P Require Import Passwords Pathglob Sessions RateLimit.
Local Open Scope Z_scope.

Definition PUBLIC_GATE_PREFIX : string := "/__hyproxy/".
Definition PUBLIC_GATE_PATH : string := "/__hyproxy/gate".
Definition PASSWORD_ALPHABET : string := "ABCDEFGHJKLMNPQRSTUVWXYZ23456789".
Definition PASSWORD_GROUPS : nat := 4.
Definition PASSWORD_GROUP_LEN : nat := 5.

Section Gate.
Context {argon : Argon}.

(** ** The share password *)

Fixpoint generate_group (n : nat) : M string :=
  match n with
  | O => ret ""
  | S n' => let! c := choice PASSWORD_ALPHABET in
            let! rest := generate_group n' in ret (String c rest)
  end.

Fixpoint generate_groups (n : nat) : M (list string) :=
  match n with
  | O => ret []
  | S n' => let! g := generate_group PASSWORD_GROUP_LEN in
            let! rest := generate_groups n' in ret (g :: rest)
  end.

Definition generate_password : M string :=
  let! groups := generate_groups PASSWORD_GROUPS in ret (join "-" groups).

Definition set_public_password (rid now : Z) : M string :=
  let! password := generate_password in
  let! hash := hash_password password in
  moddb (upd_resources (alter (fun r =>
    set_r_public_password_set_at (Some now) (set_r_public_password_hash (Some hash) r)) rid));;
  ret password.

Definition live_for (rid : Z) (_ : Z) (p : PublicSession) : bool :=
  (ps_resource_id p =? rid) && bool_decide (ps_revoked_at p = None).

Definition revoke_public_sessions (rid : Z) : M Z :=
  let! t := gets public_sessions in
  let! now := utcnow in
  moddb (upd_public_sessions (update_where (live_for rid) (set_ps_revoked_at (Some now))));;
  ret (count_where (live_for rid) t).

(** ** Cookies and the session behind them *)

Definition set_public_cookie (value : string) (max_age : Z) (r : Response) : M Response :=
  let! name := asks public_cookie_name in
  ret (add_cookie (SetCookie name value true true "lax" "/" None (Some max_age)) r).

Definition csrf_cookie_name : M string :=
  let! name := asks public_cookie_name in ret (name +:+ "_csrf").

(** [str(row.source_ip)]. *)
Definition str_opt (o : option string) : string := default "None" o.

Definition resolve_public_session (cookie_value : option string) (rid : Z) (source_ip : string)
    (now : Z) : M (option Z) :=
  match split_cookie cookie_value with
  | None => ret None
  | Some (sid, secret) =>
      let! t := gets public_sessions in
      let! bind_ip := asks public_session_bind_ip in
      match t !! sid with
      | None => ret None
      | Some row =>
          if bool_decide (ps_revoked_at row <> None) then ret None
          else if negb (ps_resource_id row =? rid) then ret None
          else if negb (constant_time_equals (sha256_hex secret) (ps_cookie_secret_hash row))
          then ret None
          else if ps_expires_at row <=? now then ret None
          else if bind_ip && negb (bool_decide (str_opt (ps_source_ip row) = source_ip))
          then ret None
          else
            moddb (upd_public_sessions (alter (set_ps_last_seen_at now) sid));;
            ret (Some sid)
      end
  end.

(** [Resource.public_host == host]: never true of NULL. *)
Definition host_is (host : string) (r : Resource) : bool :=
  match r_public_host r with Some h => citext_eq h host | None => false end.

Definition forwarded_host (forwarded : string) : string :=
  let host := rstrip_char "." (lower (strip (before "," forwarded))) in
  if bool_decide (host = "") then ""
  else if startswith host "[" then lstrip_char "[" (before "]" host)
  else if bool_decide (count_char ":" host = 1%nat) then before ":" host
  else host.

Definition resource_for_request (request : Request) : M (option (Z * Resource)) :=
  let host := forwarded_host (default "" (header request "x-forwarded-host")) in
  if bool_decide (host = "") then ret None
  else
    let! t := gets resources in
    ret (scalar (select (fun _ r => host_is host r && r_enabled r && r_public_access r) t)).

Definition first_pattern (r : Resource) : string :=
  match r_public_paths r with
  | Some (p :: _) => p
  | _ => "/"
  end.

Definition safe_rd (rd : string) (resource : Resource) : string :=
  let fallback := literal_prefix (first_pattern resource) in
  if bool_decide (rd = "") || negb (startswith rd "/") || startswith rd "//" || contains "\" rd
  then fallback
  else
    let path := before "#" (before "?" rd) in
    if negb (matches (r_public_paths resource) path) then fallback else rd.

Definition harden (r : Response) : Response :=
  add_header "content-security-policy"
    "default-src 'none'; style-src 'unsafe-inline'; form-action 'self'; frame-ancestors 'none'; base-uri 'none'"
  (add_header "x-frame-options" "DENY"
  (add_header "x-content-type-options" "nosniff"
  (add_header "referrer-policy" "no-referrer"
  (add_header "x-robots-tag" "noindex, nofollow"
  (add_header "pragma" "no-cache"
  (add_header "cache-control" "no-store" r)))))).

Definition gate_audit (rid : option Z) (decision reason source_ip : string) : M unit :=
  let! ts := server_now in
  moddb (upd_audit_log (fun l => l ++ [mkAuditLog ts None rid None decision reason source_ip])).

Definition render (resource : Resource) (rd csrf error : string) (status_code retry_after : Z)
  : M Response :=
  let! name := csrf_cookie_name in
  let! max_age := asks public_gate_csrf_ttl in
  let response :=
    add_cookie (SetCookie name csrf true true "lax" "/" None (Some max_age))
      (mkResponse status_code
         (Template "gate.html" [("resource_name", CStr (r_name resource)); ("rd", CStr rd); ("csrf", CStr csrf);
            ("error", CStr error); ("action", CStr PUBLIC_GATE_PATH)]) [] []) in
  ret (harden (if negb (retry_after =? 0)
               then add_header "retry-after" (pretty retry_after) response else response)).

(** ** The handlers *)

Definition gate_form (request : Request) (rd : string) : M Response :=
  let! resource := resource_for_request request in
  match resource with
  | None => ret (harden (mkResponse 404 NoBody [] []))
  | Some (_, r) =>
      let! csrf := token_urlsafe 16 in
      render r (safe_rd rd r) csrf "" 200 0
  end.

Definition account_key_of (rid : Z) : string := "public:" +:+ uuid_str rid.

(** The outcome of the password check against the stored hash. *)
Definition password_ok (stored : option string) (password : string) : M bool :=
  match stored with
  | None => dummy_verify;; ret false
  | Some hash => verify_password hash password
  end.

Definition gate_submit (request : Request) (password rd csrf : string) : M Response :=
  let! cfg := asks id in
  let! now := utcnow in
  let! resource := resource_for_request request in
  match resource with
  | None => ret (harden (mkResponse 404 NoBody [] []))
  | Some (rid, r) =>
      let! source_ip := resolve_client_ip request in
      let target := safe_rd rd r in
      let! csrf_name := csrf_cookie_name in
      let cookie_csrf := default "" (cookie request csrf_name) in
      if bool_decide (csrf = "") || bool_decide (cookie_csrf = "")
         || negb (constant_time_equals csrf cookie_csrf)
      then
        let! fresh := token_urlsafe 16 in
        render r target fresh "That form expired. Try again." 400 0
      else
        let! throttle := check_throttle source_ip (Some (account_key_of rid)) now in
        if negb (td_allowed throttle) then
          gate_audit (Some rid) "deny" "public_throttled" source_ip;;
          let! fresh := token_urlsafe 16 in
          render r target fresh "Too many attempts. Wait a moment and try again." 429
            (retry_after throttle)
        else
          let! ok := password_ok (r_public_password_hash r) password in
          if negb ok then
            register_failure source_ip (Some (account_key_of rid)) now;;
            gate_audit (Some rid) "deny" "public_bad_password" source_ip;;
            let! fresh := token_urlsafe 16 in
            render r target fresh "Incorrect password." 401 0
          else
            let! secret := new_token in
            let! sid := uuid4 in
            let! ts := server_now in
            db_add "public_sessions" public_sessions upd_public_sessions no_clash sid
              (mkPublicSession rid (sha256_hex secret)
                 (if public_session_bind_ip cfg then Some source_ip else None) ts
                 (now + seconds (public_session_ttl cfg)) now None);;
            gate_audit (Some rid) "allow" "public_password_accepted" source_ip;;
            let! response :=
              set_public_cookie (cookie_of sid secret) (public_session_ttl cfg) (redirect 303 target) in
            ret (harden (add_cookie (DeleteCookie csrf_name "/" None) response))
  end.

Definition gone (now : Z) (_ : Z) (p : PublicSession) : bool :=
  (ps_expires_at p <=? now) || bool_decide (ps_revoked_at p <> None).

Definition gc_public_sessions (now : Z) : M Z :=
  let! t := gets public_sessions in
  moddb (upd_public_sessions (delete_where (gone now)));;
  ret (count_where (gone now) t).
End Gate.

(** ** Specification *)

(** What makes a row a live session of a resource for a secret and an address. *)
Record public_live (cfg : Settings) (row : PublicSession) (rid : Z) (secret ip : string) (now : Z)
  : Prop := {
  pl_resource : ps_resource_id row = rid;
  pl_secret : ps_cookie_secret_hash row = sha256_hex secret;
  pl_unrevoked : ps_revoked_at row = None;
  pl_unexpired : now < ps_expires_at row;
  pl_ip : public_session_bind_ip cfg = true -> str_opt (ps_source_ip row) = ip;
}.

(** A return path that the browser resolves on the same origin. *)
Definition same_origin (t : string) : Prop :=
  startswith t "/" = true /\ startswith t "//" = false /\ no_char "\" t = true.

(** ** Lemmas *)

Lemma resolve_public_run cookie rid ip now e s :
  exists o s', resolve_public_session cookie rid ip now e s = (Ok o, s')
  /\ (forall sid, o = Some sid <-> exists secret row, split_cookie cookie = Some (sid, secret)
        /\ public_sessions (db s) !! sid = Some row
        /\ public_live (settings e) row rid secret ip now)
  /\ match o with
     | None => s' = s
     | Some sid => s' = mkSt (upd_public_sessions (alter (set_ps_last_seen_at now) sid) (db s)) (tick s)
     end.
Proof.
  unfold resolve_public_session.
  destruct (split_cookie cookie) as [[sid secret]|].
  2: { exists None, s. split_and!; [done| |done]. intros; split; [done|by intros (?&?&?&_)]. }
  unfold bind, gets, asks. cbn beta iota.
  destruct (public_sessions (db s) !! sid) as [row|] eqn:Er.
  2: { exists None, s. split_and!; [done| |done]. intros; split; [done|].
       intros (?&?&[= <- <-]&?&_). congruence. }
  assert (Hno : (forall sid', None = Some sid' <-> exists secret' row',
      Some (sid, secret) = Some (sid', secret') /\ public_sessions (db s) !! sid' = Some row'
      /\ public_live (settings e) row' rid secret' ip now)
    <-> ~ public_live (settings e) row rid secret ip now).
  { split.
    - intros Hs Hl. assert (@None Z = Some sid) by (apply Hs; eauto). done.
    - intros Hn sid'. split; [done|]. intros (? & ? & [= <- <-] & ? & ?). simplify_eq. done. }
  destruct (bool_decide (ps_revoked_at row <> None)) eqn:E1.
  { exists None, s. split_and!; [done| |done]. apply Hno. intros [? ? ? ? ?]. by bool_simpl. }
  destruct (ps_resource_id row =? rid) eqn:E2; simpl.
  2: { exists None, s. split_and!; [done| |done]. apply Hno. intros [? ? ? ? ?]. by bool_simpl. }
  destruct (constant_time_equals _ _) eqn:E3; unfold constant_time_equals in E3; simpl.
  2: { exists None, s. split_and!; [done| |done]. apply Hno. intros [? ? ? ? ?]. by bool_simpl. }
  destruct (ps_expires_at row <=? now) eqn:E4.
  { exists None, s. split_and!; [done| |done]. apply Hno. intros [? ? ? ? ?]. bool_simpl. lia. }
  destruct (public_session_bind_ip (settings e) && _) eqn:E5.
  { exists None, s. split_and!; [done| |done]. apply Hno. intros [? ? ? ? ?]. bool_simpl. auto. }
  eexists (Some sid), _. split_and!; [reflexivity| |done].
  bool_simpl. apply dec_stable in E1.
  assert (public_live (settings e) row rid secret ip now).
  { constructor; try done. intros Hb. rewrite Hb in E5. simpl in E5. by bool_simpl. }
  intros sid'. split; [intros [= <-]; eauto|]. by intros (? & ? & [= <- <-] & _).
Qed.

Lemma contains_backslash_no s : contains "\" s = false <-> no_char "\" s = true.
Proof. split; [apply contains_char_no|apply no_char_contains]. Qed.

Lemma literal_prefix_same_origin p : good_pattern p -> same_origin (literal_prefix p).
Proof.
  intros [(c & q & Hp & Hc) _ _ Hb _ _ _]. unfold literal_prefix, before.
  assert (Hsplit : exists h t, match partition "*" p with Some (h, _) => h | None => p end = h
            /\ p = h +:+ t).
  { destruct (partition "*" p) as [[h t]|] eqn:E.
    - apply partition_Some in E. eauto.
    - exists p, "". by rewrite app_empty_r. }
  destruct Hsplit as (h & t & -> & Ht).
  case_bool_decide as Eh; [by split_and!|].
  rewrite Ht, no_char_app in Hb. bool_simpl.
  destruct h as [|a [|b h]]; [done| |].
  - rewrite Hp in Ht. rewrite app_cons in Ht. simplify_eq. by split_and!.
  - rewrite Hp in Ht. rewrite !app_cons in Ht. simplify_eq. split_and!; [|apply not_true_iff_false|done].
    + apply (startswith_app _ "/").
    + rewrite startswith_spec. intros [u Hu].
      change ("//" +:+ u) with (String "/" (String "/" u)) in Hu. congruence.
Qed.

Section GateLemmas.
Context {argon : Argon}.

Lemma csrf_name_ne name : name +:+ "_csrf" <> name.
Proof. intros E. apply (f_equal String.length) in E. rewrite str_length_app in E. simpl in E. lia. Qed.

(** No cookie of the response grants access. *)
Definition no_grant (name : string) (r : Response) : Prop :=
  forall v a b c d e f, SetCookie name v a b c d e f ∉ rs_cookies r.

Lemma render_no_grant r rd csrf err code ra e s resp s' :
  render r rd csrf err code ra e s = (Ok resp, s') ->
  s' = s /\ no_grant (public_cookie_name (settings e)) resp /\ rs_status resp = code.
Proof.
  unfold render, csrf_cookie_name. intros Hr. minv Hr.
  assert (forall rs, rs_cookies (harden rs) = rs_cookies rs) as Hh by done.
  split_and!; [done| |].
  - intros v a b c d g f. rewrite Hh. destruct (negb (ra =? 0)); simpl;
      intros [= E _]%list_elem_of_singleton; by apply (csrf_name_ne (public_cookie_name (settings e))).
  - by destruct (negb (ra =? 0)).
Qed.

(** The sessions and the trail of decisions are all the gate writes, besides the throttle. *)
Lemma password_ok_spec stored pw e s ok s' :
  password_ok stored pw e s = (Ok ok, s') ->
  db s' = db s /\ (ok = true <-> exists hash, stored = Some hash /\ argon_verify hash pw = Verified).
Proof.
  unfold password_ok. destruct stored as [hash|].
  - unfold verify_password. destruct (argon_verify hash pw) eqn:E; intros Hm; minv Hm.
    + split; [done|]. split; eauto.
    + split; [done|]. split; [done|]. intros (h & [= <-] & Hv). congruence.
  - unfold dummy_verify, hash_password. intros Hm. minv Hm.
    match goal with Hx : match argon_verify ?h ?p with _ => _ end _ _ = _ |- _ =>
      destruct (argon_verify h p); minv Hx end.
    all: split; [done|]; split; [done|by intros (?&?&?)].
Qed.
End GateLemmas.

(** ** Theorems *)

(** Changing what a link grants kills it: after [revoke_public_sessions] no cookie
    opens the resource, and the sessions of the other resources are as they were. *)
Theorem revocation_closes_link rid e s n s'
    (Hr : revoke_public_sessions rid e s = (Ok n, s')) :
  (forall cookie ip now e', exists s'', resolve_public_session cookie rid ip now e' s' = (Ok None, s''))
  /\ (forall sid row, public_sessions (db s) !! sid = Some row -> ps_resource_id row <> rid ->
        public_sessions (db s') !! sid = Some row).
Proof.
  unfold revoke_public_sessions in Hr. minv Hr. simpl. split.
  - intros cookie ip now e'.
    match goal with |- exists _, resolve_public_session _ _ _ _ _ ?st = _ =>
      destruct (resolve_public_run cookie rid ip now e' st) as (o & s1 & -> & Ho & _) end.
    destruct o as [sid|]; [|eauto]. exfalso.
    destruct (proj1 (Ho sid) eq_refl) as (secret & row & _ & Hrow & [H1 _ H3 _ _]). simpl in Hrow.
    rewrite lookup_update_where in Hrow.
    destruct (public_sessions (db s) !! sid) as [row0|]; [|done]. simpl in Hrow.
    injection Hrow as <-.
    revert H1 H3. unfold live_for. destruct (ps_resource_id row0 =? rid) eqn:E1; simpl.
    + destruct (bool_decide _) eqn:E2; [done|]. bool_simpl. done.
    + intros. bool_simpl. done.
  - intros sid row Hrow Hne. rewrite lookup_update_where, Hrow. simpl. unfold live_for.
    apply Z.eqb_neq in Hne. by rewrite Hne.
Qed.

(** The return path of the gate is never another origin, and unless it is the
    fallback link of the resource it is the requested one, whose path the resource
    exposes. *)
Theorem safe_rd_sound rd r
    (Hp : forall ps, r_public_paths r = Some ps -> Forall good_pattern ps) :
  same_origin (safe_rd rd r)
  /\ (safe_rd rd r = literal_prefix (first_pattern r)
      \/ safe_rd rd r = rd /\ matches (r_public_paths r) (before "#" (before "?" rd)) = true).
Proof.
  assert (Hfb : same_origin (literal_prefix (first_pattern r))).
  { unfold first_pattern. destruct (r_public_paths r) as [[|p ps]|]; [by split_and!| |by split_and!].
    apply literal_prefix_same_origin. exact (Forall_inv (Hp _ eq_refl)). }
  unfold safe_rd. destruct (_ || contains "\" rd) eqn:E1; [auto|].
  apply orb_false_iff in E1 as [E1 E4]. apply orb_false_iff in E1 as [E1 E3].
  apply orb_false_iff in E1 as [E1 E2]. apply negb_false_iff in E2.
  destruct (matches _ _) eqn:E5; simpl; [|auto].
  split; [|auto]. split_and!; [done..|]. by apply contains_backslash_no.
Qed.

Section GateTheorems.
Context {argon : Argon}.

Definition gate_row (cfg : Settings) (rid : Z) (secret ip : string) (now ts : Z) : PublicSession :=
  mkPublicSession rid (sha256_hex secret) (if public_session_bind_ip cfg then Some ip else None) ts
    (now + seconds (public_session_ttl cfg)) now None.

(** What a submission that grants access has found and done. *)
Record granted (rq : Request) (password csrf : string) (e : Env) (s s' : St) (resp : Response)
    (rid sid : Z) (r : Resource) (secret ip : string) : Prop := {
  gr_resource : resources (db s) !! rid = Some r /\ r_enabled r = true /\ r_public_access r = true
    /\ host_is (forwarded_host (default "" (header rq "x-forwarded-host"))) r = true;
  gr_ip : client_ip_of (settings e) rq = Some ip;
  gr_csrf : csrf <> "" /\ cookie rq (public_cookie_name (settings e) +:+ "_csrf") = Some csrf;
  gr_throttle : forall key row, key ∈ throttle_keys ip (Some (account_key_of rid)) ->
    auth_throttle (db s) !! key = Some row -> at_next_allowed_at row <= clock e (tick s);
  gr_password : exists hash, r_public_password_hash r = Some hash
    /\ argon_verify hash password = Verified;
  gr_session : public_sessions (db s) !! sid = None /\ public_sessions (db s') =
    <[sid := gate_row (settings e) rid secret ip (clock e (tick s)) (tx_now e)]> (public_sessions (db s));
  gr_id : 0 <= sid < UUID_MAX;
  gr_cookie : SetCookie (public_cookie_name (settings e)) (cookie_of sid secret) true true "lax" "/"
    None (Some (public_session_ttl (settings e))) ∈ rs_cookies resp;
}.

(** A form that is asked again grants nothing. *)
Lemma asked_again_no_grant r rd err code ra e s resp s' :
  (let! fresh := token_urlsafe 16 in render r rd fresh err code ra) e s = (Ok resp, s') ->
  db s' = db s /\ no_grant (public_cookie_name (settings e)) resp.
Proof.
  intros H. mstep H tok s1 H1. apply token_urlsafe_Ok in H1 as [H1 _].
  apply render_no_grant in H as (-> & Hn & _). done.
Qed.

(** A session the gate wrote opens its resource until it expires. *)
Lemma fresh_session_opens rid sid secret ip now t e e' s later : 0 <= sid < UUID_MAX ->
  public_sessions (db s) !! sid = Some (gate_row (settings e) rid secret ip now t) ->
  settings e' = settings e -> later < now + seconds (public_session_ttl (settings e)) ->
  exists s', resolve_public_session (Some (cookie_of sid secret)) rid ip later e' s = (Ok (Some sid), s').
Proof.
  intros Hsid Hrow He' Hlater.
  destruct (resolve_public_run (Some (cookie_of sid secret)) rid ip later e' s) as (o & s' & -> & Ho & _).
  assert (o = Some sid) as ->; [|eauto]. apply Ho. eexists _, _. split_and!; [by apply split_cookie_of|exact Hrow|].
  constructor; simpl; try done. rewrite He'. by intros ->.
Qed.

Lemma resource_for_request_run rq e s o s' :
  resource_for_request rq e s = (Ok o, s') ->
  s' = s /\ forall rid r, o = Some (rid, r) -> resources (db s) !! rid = Some r
    /\ r_enabled r = true /\ r_public_access r = true
    /\ host_is (forwarded_host (default "" (header rq "x-forwarded-host"))) r = true.
Proof.
  unfold resource_for_request. intros Hm. case_bool_decide; minv Hm; [by split|].
  split; [done|]. intros rid r Hs. apply scalar_select in Hs as [Hr Hp]. bool_simpl. done.
Qed.

Lemma gate_audit_Ok rid d r ip e s u s' :
  gate_audit rid d r ip e s = (Ok u, s') ->
  public_sessions (db s') = public_sessions (db s) /\ tick s' = tick s.
Proof. unfold gate_audit. intros Hm. by minv Hm. Qed.

(** C27: A submission of the gate creates a session only for an enabled public resource of
    the forwarded host, with a matching one-shot token, outside every delay, and with a
    password the stored hash verifies; the session is new and bound to the resource and
    the address, its cookie is the one set, and it opens that resource until it expires.
    Any other submission leaves the sessions alone and sets no access cookie. *)
Theorem gate_submit_grants rq password rd csrf e s resp s'
    (Hrun : gate_submit rq password rd csrf e s = (Ok resp, s')) :
  (public_sessions (db s') = public_sessions (db s)
     /\ no_grant (public_cookie_name (settings e)) resp)
  \/ exists rid sid r secret ip, granted rq password csrf e s s' resp rid sid r secret ip
     /\ rs_body resp = RedirectTo (safe_rd rd r)
     /\ forall e' later, settings e' = settings e ->
          later < clock e (tick s) + seconds (public_session_ttl (settings e)) ->
          exists s'', resolve_public_session (Some (cookie_of sid secret)) rid ip later e' s'
            = (Ok (Some sid), s'').
Proof.
  unfold gate_submit in Hrun.
  mstep Hrun cfg s1 H1. unfold asks in H1. injection H1 as <- <-.
  mstep Hrun now s1 H1. unfold utcnow in H1. injection H1 as <- <-.
  mstep Hrun o s1 H1. apply resource_for_request_run in H1 as [-> Hres].
  destruct o as [[rid r]|].
  2: { minv Hrun. left. split; [done|]. intros v ? ? ? ? ? ?. by intros []%elem_of_nil. }
  destruct (Hres _ _ eq_refl) as (Hr & Hen & Hpub & Hhost). simpl in Hr. clear Hres.
  mstep Hrun ip s1 H1. rewrite resolve_client_ip_run in H1. cbn [settings] in H1.
  destruct (client_ip_of (settings e) rq) as [ip'|] eqn:Eip; [|done]. injection H1 as -> <-.
  mstep Hrun name s1 H1. unfold csrf_cookie_name in H1. minv H1.
  destruct (_ || negb (constant_time_equals csrf _)) eqn:Ecsrf.
  { left. apply asked_again_no_grant in Hrun as [-> Hn]. done. }
  mstep Hrun th s1 H1.
  destruct (throttle_check_spec ip (Some (account_key_of rid)) (clock e (tick s)) e
    (mkSt (db s) (S (tick s)))) as (d & Hd & Hallow & _). rewrite Hd in H1. injection H1 as <- <-.
  destruct (td_allowed d) eqn:Etd; cbn [negb] in Hrun.
  2: { left. mstep Hrun u s1 H1. apply asked_again_no_grant in Hrun as [Hd' Hn]. split; [|done].
       apply gate_audit_Ok in H1 as [E1 _]. rewrite Hd'. simpl in *. congruence. }
  mstep Hrun ok s1 H1. apply password_ok_spec in H1 as [Hdb Hok].
  destruct ok; cbn [negb] in Hrun.
  2: { left. mstep Hrun u s2 H2. mstep Hrun v s3 H3. apply asked_again_no_grant in Hrun as [Hd' Hn].
       split; [|done]. apply gate_audit_Ok in H3 as [E3 _]. rewrite register_failure_run in H2.
       injection H2 as <- <-. rewrite Hd'. simpl in *. congruence. }
  right. unfold new_token, token_urlsafe, token_bytes, uuid4 in Hrun.
  mstep Hrun secret s2 H2. minv H2. mstep Hrun sid s3 H3. minv H3.
  mstep Hrun ts s4 H4. unfold server_now in H4. injection H4 as <- <-.
  mstep Hrun u s5 H5. apply db_add_Ok in H5 as (Hnew & _ & Hdb5 & _).
  mstep Hrun v s6 H6. apply gate_audit_Ok in H6 as [Hdb6 _].
  unfold set_public_cookie in Hrun. minv Hrun.
  match goal with |- context [cookie_of ?i ?x] => set (sid := i) in *; set (secret := x) in * end.
  simpl in Hdb, Hnew, Hr, Hallow, Hdb5, Hdb6. rewrite Hdb in *.
  assert (Hps : public_sessions (db s') =
    <[sid := gate_row (settings e) rid secret ip (clock e (tick s)) (tx_now e)]> (public_sessions (db s)))
    by (by rewrite Hdb6, Hdb5).
  assert (Hsid : 0 <= sid < UUID_MAX) by apply uuid4_of_range.
  apply orb_false_iff in Ecsrf as [Ecsrf E3]. apply orb_false_iff in Ecsrf as [E1 E2].
  unfold constant_time_equals in E3. bool_simpl.
  exists rid, sid, r, secret, ip. split_and!; [|done|].
  - constructor; try done.
    + split; [done|]. destruct (cookie _ _) as [c|]; simpl in *; [by subst|done].
    + by apply Hallow.
    + by apply Hok.
    + simpl. set_solver.
  - intros e' later He' Hlater. eapply fresh_session_opens; [done| |done|done]. rewrite Hps. apply lookup_insert_eq.
Qed.
End GateTheorems.

(** ** Witnesses *)


Definition demo_resource : Resource :=
  mkResource "photos" "http" (Some "photos.example.com") "10.0.0.5" [8080] None None true true
    (Some ["/album/*"]) (Some "$argon2id$open") (Some 0).
Definition demo_gate_db : Db := upd_resources (fun _ => {[ 5 := demo_resource ]}) empty_db.
Definition demo_gate_request : Request :=
  mkRequest [("x-forwarded-host", "photos.example.com"); ("x-forwarded-for", "192.0.2.7")]
    [("__Host-hypublic_csrf", "tok")] (Some "10.0.0.1").

Example gate_submit_grants_witness :
  exists resp s', gate_submit (argon := demo_argon) demo_gate_request "open" "/album/1" "tok" demo_env
      (mkSt demo_gate_db 0) = (Ok resp, s')
  /\ rs_body resp = RedirectTo "/album/1".
Proof.
  destruct (gate_submit (argon := demo_argon) demo_gate_request "open" "/album/1" "tok" demo_env
      (mkSt demo_gate_db 0)) as [[resp|x] s'] eqn:E; [|discriminate E].
  exists resp, s'. split; [reflexivity|].
  destruct (gate_submit_grants (argon := demo_argon) demo_gate_request "open" "/album/1" "tok" demo_env
      (mkSt demo_gate_db 0) resp s' E) as [[_ Hn]|(rid & sid & r & secret & ip & Hg & Hb & _)].
  - exfalso. injection E as <- _. eapply Hn. simpl. left.
  - destruct Hg as [(Hr & _) _ _ _ _ _ _ _]. simpl in Hr.
    apply lookup_singleton_Some in Hr as [<- <-]. exact Hb.
Defined.

Example safe_rd_sound_witness :
  safe_rd "//evil.example/" demo_resource = "/album/"
  /\ same_origin (safe_rd "//evil.example/" demo_resource).
Proof.
  split; [reflexivity|]. apply (safe_rd_sound "//evil.example/" demo_resource).
  intros ps Hps. injection Hps as <-. constructor; [|constructor].
  apply (validate_pattern_good "/album/*" "/album/*"). reflexivity.
Defined.

Definition demo_public_row : PublicSession :=
  mkPublicSession 5 (sha256_hex "s3cret") (Some "192.0.2.7") 0 (seconds 43200) 0 None.
Definition demo_public_db : Db := upd_public_sessions (fun _ => {[ 9 := demo_public_row ]}) empty_db.

Example revocation_closes_link_witness :
  exists n s' s'', revoke_public_sessions 5 demo_env (mkSt demo_public_db 0) = (Ok n, s')
  /\ resolve_public_session (Some (cookie_of 9 "s3cret")) 5 "192.0.2.7" 0 demo_env s'
     = (Ok None, s'').
Proof.
  destruct (revoke_public_sessions 5 demo_env (mkSt demo_public_db 0)) as [[n|x] s'] eqn:E;
    [|discriminate E].
  destruct (proj1 (revocation_closes_link 5 demo_env (mkSt demo_public_db 0) n s' E)
    (Some (cookie_of 9 "s3cret")) "192.0.2.7" 0 demo_env) as [s'' Hs''].
  exists n, s', s''. split; [reflexivity|exact Hs''].
Defined.
