(* ===== verification/Gateway.v ===== *)
(** * Gateway: authz/gateway.py, the gateway session and the start of its login

    The resolution of the gateway cookie, the open-redirect guard, the start of the
    sign-in, logout and garbage collection.  The callback is in [GatewayLogin]. *)

From S2P Require Import Prelude PyStr Encoding Digest Json PyTime Url Config Db Effects Crypto.
From S2P Require Import Web Events Sessions PublicGate.
Local Open Scope Z_scope.

(** One entry of the loop over the configured origins: [Some true] returns. *)
Definition origin_matches (origin : string) (host : string) : result bool :=
  if bool_decide (origin = "") then Ok false
  else match urlsplit origin with
       | None => Raise (ValueError "urlsplit")
       | Some u => Ok (bool_decide (hostname u = Some host))
       end.

Definition host_registered (host : string) (t : gmap Z Resource) : option (Z * Resource) :=
  scalar (select (fun _ r => host_is host r && r_enabled r) t).

Definition valid_return_url (rd : string) : M bool :=
  let! cfg := asks id in
  match urlsplit rd with
  | None => ret false
  | Some parts =>
      match hostname parts with
      | None => ret false
      | Some host =>
          if negb (bool_decide (url_scheme parts = external_scheme cfg)) then ret false
          else
            let! admin := lift (origin_matches (admin_ui_origin cfg) host) in
            if admin then ret true
            else
              let! portal := lift (origin_matches (portal_origin cfg) host) in
              if portal then ret true
              else
                let! t := gets resources in
                ret (bool_decide (is_Some (host_registered host t)))
      end
  end.

Definition gateway_redirect_uri (cfg : Settings) : string :=
  external_scheme cfg +:+ "://" +:+ auth_host cfg +:+ "/gateway/callback".

Definition start (request : Request) (rd : string) : M Response :=
  let! cfg := asks id in
  let! now := utcnow in
  let! valid := if bool_decide (rd = "") then ret false else valid_return_url rd in
  if negb valid then ret (plain 400 "invalid return URL")
  else
    let! state := token_urlsafe 24 in
    let! verifier := token_urlsafe 48 in
    let! nonce := token_urlsafe 24 in
    let! ip := resolve_client_ip request in
    let! ts := server_now in
    db_add "gateway_login_states" gateway_login_states upd_gateway_login_states no_clash
      (sha256_hex state)
      (mkGatewayLoginState verifier nonce rd ip ts (now + seconds (gateway_state_ttl cfg)));;
    let params :=
      [("client_id", gateway_client_id cfg);
       ("redirect_uri", gateway_redirect_uri cfg);
       ("response_type", "code");
       ("scope", "openid profile email");
       ("state", state);
       ("nonce", nonce);
       ("code_challenge", sha256_b64url verifier);
       ("code_challenge_method", "S256")] in
    ret (redirect 303 (issuer_base cfg +:+ "/oidc/authorize?" +:+ urlencode params)).

Definition set_gateway_cookie (value : string) (r : Response) : M Response :=
  let! cfg := asks id in
  ret (add_cookie (SetCookie (gateway_cookie_name cfg) value true true "lax" "/"
         (nonempty (Some (gateway_cookie_domain cfg))) (Some (refresh_abs_ttl cfg))) r).

Definition resolve_gateway_session (cookie_value : option string) (source_ip : string) (now : Z)
    (enforce_ip : bool) : M (option (Z * GatewaySession)) :=
  match split_cookie cookie_value with
  | None => ret None
  | Some (gw_id, secret) =>
      let! t := gets gateway_sessions in
      match t !! gw_id with
      | None => ret None
      | Some gw =>
          if bool_decide (gs_revoked_at gw <> None) then ret None
          else if negb (constant_time_equals (sha256_hex secret) (gs_cookie_secret_hash gw))
          then ret None
          else if enforce_ip && negb (bool_decide (gs_source_ip gw = source_ip)) then ret None
          else
            let! ss := gets sessions in
            match ss !! gs_idp_session_id gw with
            | None => ret None
            | Some _ =>
                let! live := check_liveness (gs_idp_session_id gw) source_ip now false in
                if live then ret (Some (gw_id, gw)) else ret None
            end
      end
  end.

Definition logout (request : Request) : M Response :=
  let! cfg := asks id in
  let! now := utcnow in
  let! ip := resolve_client_ip request in
  let! gw := resolve_gateway_session (cookie request (gateway_cookie_name cfg)) ip now true in
  match gw with
  | Some (gid, _) => moddb (upd_gateway_sessions (alter (set_gs_revoked_at (Some now)) gid))
  | None => ret tt
  end;;
  ret (add_cookie (DeleteCookie (gateway_cookie_name cfg) "/"
                     (nonempty (Some (gateway_cookie_domain cfg))))
         (json_response 200 (JObj [("ok", JBool true)]))).

Definition expired_state (now : Z) (_ : string) (g : GatewayLoginState) : bool :=
  gl_expires_at g <=? now.

Definition gc_login_states (now : Z) : M Z :=
  let! t := gets gateway_login_states in
  moddb (upd_gateway_login_states (delete_where (expired_state now)));;
  ret (count_where (expired_state now) t).

(** ** Specification *)

(** A gateway cookie that opens: its own row and the IdP session behind it. *)
Record gateway_live (cfg : Settings) (d : Db) (cookie : option string) (ip : string) (now : Z)
    (enforce : bool) (gid : Z) (gw : GatewaySession) (idp : Session) : Prop := {
  gw_secret : exists secret, split_cookie cookie = Some (gid, secret)
    /\ gs_cookie_secret_hash gw = sha256_hex secret;
  gw_row : gateway_sessions d !! gid = Some gw;
  gw_unrevoked : gs_revoked_at gw = None;
  gw_ip : enforce = true -> gs_source_ip gw = ip;
  gw_session : sessions d !! gs_idp_session_id gw = Some idp;
  gw_live : live_at cfg idp now;
}.

(** ** Lemmas *)

Lemma resolve_gateway_Some cookie ip now enf e s gid gw s' :
  resolve_gateway_session cookie ip now enf e s = (Ok (Some (gid, gw)), s') ->
  exists idp, gateway_live (settings e) (db s) cookie ip now enf gid gw idp.
Proof.
  unfold resolve_gateway_session. destruct (split_cookie cookie) as [[id secret]|] eqn:Ec;
    intros Hr; minv Hr; [|done].
  destruct (gateway_sessions (db s) !! id) as [row|] eqn:Erow; minv Hr; [|done].
  destruct (bool_decide (gs_revoked_at row <> None)) eqn:E1; minv Hr; [done|].
  destruct (constant_time_equals _ _) eqn:E2; simpl in Hr; minv Hr; [|done].
  destruct (enf && _) eqn:E3; minv Hr; [done|].
  destruct (sessions (db s) !! gs_idp_session_id row) as [idp|] eqn:E4; minv Hr; [|done].
  destruct (check_liveness_gate _ _ _ _ _ _ _ _ _ E4 Hm) as [_ Hb].
  destruct a; minv Hk; [|done]. symmetry in Hb. apply gate_true in Hb as [Hl _].
  unfold constant_time_equals in E2. bool_simpl. apply dec_stable in E1.
  exists idp. constructor; eauto.
  intros ->. simpl in E3. by bool_simpl.
Qed.

Lemma resolve_gateway_live cookie ip now enf e s gid gw idp :
  gateway_live (settings e) (db s) cookie ip now enf gid gw idp ->
  exists s', resolve_gateway_session cookie ip now enf e s = (Ok (Some (gid, gw)), s').
Proof.
  intros [(secret & Hc & Hh) Hrow Hrv Hip Hs Hl]. unfold resolve_gateway_session. rewrite Hc.
  unfold bind at 1, gets. cbn beta iota. rewrite Hrow, Hrv.
  rewrite bool_decide_eq_false_2 by (intros Hn; by apply Hn).
  unfold constant_time_equals. rewrite bool_decide_eq_true_2 by done. simpl.
  assert (enf && negb (bool_decide (gs_source_ip gw = ip)) = false) as ->.
  { destruct enf; [|done]. by rewrite Hip, bool_decide_eq_true_2. }
  unfold bind at 1. cbn beta iota. rewrite Hs.
  destruct (check_liveness_live _ ip _ _ _ _ Hs Hl) as [s' Hs']. exists s'.
  by rewrite (bind_run _ _ _ _ _ _ Hs').
Qed.

Lemma same_resolve_gateway {X} (view : Db -> X) cookie ip now enf :
  outside view -> steps (same view) (resolve_gateway_session cookie ip now enf).
Proof.
  intros Ho. pose proof (same_check_liveness view) as Hc.
  unfold resolve_gateway_session. steps_auto; auto.
Qed.

Lemma sess_mono_resolve_gateway cookie ip now enf :
  steps sess_mono (resolve_gateway_session cookie ip now enf).
Proof. unfold resolve_gateway_session. steps_auto. Qed.
#[export] Hint Resolve sess_mono_resolve_gateway : hyproxy.

Lemma steps_valid_return_url R `{!PreOrder R} rd : steps R (valid_return_url rd).
Proof. unfold valid_return_url. steps_auto. Qed.
#[export] Hint Resolve steps_valid_return_url : hyproxy.

Lemma host_registered_spec host t :
  is_Some (host_registered host t) <->
  exists id r, t !! id = Some r /\ host_is host r = true /\ r_enabled r = true.
Proof.
  unfold host_registered. split.
  - intros [[id r] H]. apply scalar_select in H as [Hr Hp]. bool_simpl. eauto.
  - intros (id & r & Hr & H1 & H2). destruct (scalar _) as [x|] eqn:E; [eauto|].
    apply (scalar_select_None _ _ _ _ E) in Hr. by rewrite H1, H2 in Hr.
Qed.

(** A host the deployment itself serves. *)
Definition own_host (cfg : Settings) (d : Db) (host : string) : Prop :=
  (exists origin u, (origin = admin_ui_origin cfg \/ origin = portal_origin cfg)
     /\ urlsplit origin = Some u /\ hostname u = Some host)
  \/ exists id r, resources d !! id = Some r /\ host_is host r = true /\ r_enabled r = true.

Lemma origin_matches_true origin host :
  origin_matches origin host = Ok true ->
  exists u, urlsplit origin = Some u /\ hostname u = Some host.
Proof.
  unfold origin_matches. case_bool_decide; [done|]. destruct (urlsplit origin) as [u|]; [|done].
  intros [= E]. bool_simpl. eauto.
Qed.

Lemma valid_return_url_true rd e s s' :
  valid_return_url rd e s = (Ok true, s') ->
  s' = s /\ exists u host, urlsplit rd = Some u /\ url_scheme u = external_scheme (settings e)
    /\ hostname u = Some host /\ own_host (settings e) (db s) host.
Proof.
  unfold valid_return_url. intros Hr. minv Hr.
  destruct (urlsplit rd) as [u|]; [|by minv Hr].
  destruct (hostname u) as [host|] eqn:Eh; [|by minv Hr].
  case_bool_decide as Es; simpl in Hr; [|by minv Hr].
  mstep Hr a s1 H1. unfold lift in H1. injection H1 as Ha <-. destruct a.
  { minv Hr. split; [done|]. exists u, host. split_and!; try done. left.
    apply origin_matches_true in Ha as (v & ? & ?). eauto 6. }
  mstep Hr b s1 H1. unfold lift in H1. injection H1 as Hb <-. destruct b.
  { minv Hr. split; [done|]. exists u, host. split_and!; try done. left.
    apply origin_matches_true in Hb as (v & ? & ?). eauto 6. }
  mstep Hr t s1 H1. unfold gets in H1. injection H1 as <- <-. unfold ret in Hr.
  injection Hr as Hb' <-. split; [done|]. exists u, host. split_and!; try done. right.
  apply host_registered_spec. by apply bool_decide_eq_true_1 in Hb'.
Qed.

Lemma logout_runs rq e s ip gid gw idp :
  client_ip_of (settings e) rq = Some ip ->
  gateway_live (settings e) (db s) (cookie rq (gateway_cookie_name (settings e))) ip
    (clock e (tick s)) true gid gw idp ->
  exists resp s', logout rq e s = (Ok resp, s').
Proof.
  intros Hip Hlive. unfold logout, bind at 1, asks. cbn beta iota. unfold bind at 1, utcnow.
  cbn beta iota. unfold bind at 1. rewrite resolve_client_ip_run, Hip. unfold bind at 1.
  destruct (resolve_gateway_live _ _ _ _ e (mkSt (db s) (S (tick s))) _ _ _ Hlive) as [s2 Hs2].
  unfold id. rewrite Hs2. unfold bind, moddb, ret. eauto.
Qed.

(** ** Theorems *)

(** The open-redirect guard: a return URL is accepted only with the scheme of the
    deployment and a host that is a configured console origin or the public host of an
    enabled resource; [start] parks an accepted URL, and nothing else, under the hash of
    a fresh state, with the challenge of the parked verifier. *)
Theorem start_parks_own_host rq rd e s resp s'
    (Hr : start rq rd e s = (Ok resp, s')) :
  (gateway_login_states (db s') = gateway_login_states (db s) /\ resp = plain 400 "invalid return URL")
  \/ exists u host state row,
     urlsplit rd = Some u /\ url_scheme u = external_scheme (settings e)
     /\ hostname u = Some host /\ own_host (settings e) (db s) host
     /\ gateway_login_states (db s) !! sha256_hex state = None
     /\ gateway_login_states (db s') = <[sha256_hex state := row]> (gateway_login_states (db s))
     /\ gl_return_url row = rd /\ client_ip_of (settings e) rq = Some (gl_source_ip row)
     /\ gl_expires_at row = clock e (tick s) + seconds (gateway_state_ttl (settings e))
     /\ rs_body resp = RedirectTo (issuer_base (settings e) +:+ "/oidc/authorize?" +:+ urlencode
          [("client_id", gateway_client_id (settings e));
           ("redirect_uri", gateway_redirect_uri (settings e));
           ("response_type", "code"); ("scope", "openid profile email"); ("state", state);
           ("nonce", gl_nonce row); ("code_challenge", sha256_b64url (gl_code_verifier row));
           ("code_challenge_method", "S256")]).
Proof.
  unfold start in Hr.
  mstep Hr cfg s1 H1. unfold asks in H1. injection H1 as <- <-.
  mstep Hr now s1 H1. unfold utcnow in H1. injection H1 as <- <-.
  mstep Hr v s1 H1. destruct v; simpl in Hr.
  2: { minv Hr. left. split; [|done]. case_bool_decide; [by minv H1|].
       pose proof (steps_valid_return_url (same gateway_login_states) rd e
         (mkSt (db s) (S (tick s)))) as Hs. by rewrite H1 in Hs. }
  case_bool_decide; [by minv H1|].
  apply valid_return_url_true in H1 as [-> (u & host & Hu & Hsch & Hh & Hown)].
  mstep Hr state s1 H1. apply token_urlsafe_Ok in H1 as [D1 _].
  mstep Hr verifier s2 H1. apply token_urlsafe_Ok in H1 as [D2 _].
  mstep Hr nonce s3 H1. apply token_urlsafe_Ok in H1 as [D3 _].
  assert (db s3 = db s) as D by (by rewrite D3, D2, D1).
  mstep Hr ip s4 H1. rewrite resolve_client_ip_run in H1.
  destruct (client_ip_of _ rq) as [ip'|] eqn:Eip; [|done]. injection H1 as -> <-.
  mstep Hr ts s4 H1. unfold server_now in H1. injection H1 as <- <-.
  mstep Hr w s4 H1. apply db_add_Ok in H1 as (Hnew & _ & Hdb & _). minv Hr.
  rewrite D in Hnew, Hdb. right. exists u, host, state. eexists. split_and!.
  1-5: assumption.
  { rewrite Hdb. reflexivity. }
  all: first [reflexivity | assumption].
Qed.

(** A gateway cookie resolves exactly to an unrevoked gateway session with its secret
    (and its address, when that is enforced) whose IdP session is live. *)
Theorem resolve_gateway_session_spec cookie ip now enf e s :
  (forall gid gw s', resolve_gateway_session cookie ip now enf e s = (Ok (Some (gid, gw)), s') ->
     exists idp, gateway_live (settings e) (db s) cookie ip now enf gid gw idp)
  /\ (forall gid gw idp, gateway_live (settings e) (db s) cookie ip now enf gid gw idp ->
     exists s', resolve_gateway_session cookie ip now enf e s = (Ok (Some (gid, gw)), s')).
Proof.
  split; [apply resolve_gateway_Some|apply resolve_gateway_live].
Qed.

(** After a logout the gateway cookie of the request opens nothing, at any time and
    from any address. *)
Theorem logout_closes_gateway rq e s resp s' ip gid gw idp
    (Hip : client_ip_of (settings e) rq = Some ip)
    (Hlive : gateway_live (settings e) (db s) (cookie rq (gateway_cookie_name (settings e))) ip
       (clock e (tick s)) true gid gw idp)
    (Hr : logout rq e s = (Ok resp, s')) :
  forall ip' now enf e' g s'',
    resolve_gateway_session (cookie rq (gateway_cookie_name (settings e))) ip' now enf e' s'
      <> (Ok (Some g), s'').
Proof.
  intros ip' now enf e' [gid' gw'] s'' Hres.
  unfold logout in Hr.
  mstep Hr cfg s1 H1. unfold asks in H1. injection H1 as <- <-.
  mstep Hr t s1 H1. unfold utcnow in H1. injection H1 as <- <-.
  mstep Hr ip1 s1 H1. rewrite resolve_client_ip_run, Hip in H1. injection H1 as <- <-.
  destruct (resolve_gateway_live _ _ _ _ e (mkSt (db s) (S (tick s))) _ _ _ Hlive) as [s2 Hs2].
  simpl in Hr. unfold id in Hr. mstep Hr g s1 H1. rewrite Hs2 in H1. injection H1 as <- <-. minv Hr.
  apply resolve_gateway_Some in Hres as (idp' & [(secret' & Hc' & _) Hrow Hrv _ _ _]).
  destruct Hlive as [(secret & Hc & _) _ _ _ _ _]. rewrite Hc in Hc'. injection Hc' as <- <-.
  simpl in Hrow. rewrite lookup_alter_eq in Hrow.
  destruct (gateway_sessions (db s2) !! gid); simplify_eq/=.
Qed.

(** ** Witnesses *)

Definition demo_gw : GatewaySession := mkGatewaySession 11 7 (sha256_hex "gwsecret") "192.0.2.7" T0 None.
Definition demo_app : Resource :=
  mkResource "wiki" "http" (Some "wiki.example.com") "10.0.0.6" [8080; 8443] None None true false
    None None None.
Definition demo_world : Db :=
  upd_gateway_sessions (fun _ => {[ 21 := demo_gw ]})
    (upd_resources (fun _ => <[6 := demo_app]> {[ 5 := demo_resource ]})
       (upd_policies (fun _ => {[ 1 := mkPolicy 3 6 None None "allow" [] true 0 ]})
          (upd_roles (fun _ => {[ 3 := mkRole "media" None ]})
             (upd_user_roles (fun _ => [(11, 3)]) demo_session_db)))).
Definition demo_gw_cookie : string := cookie_of 21 "gwsecret".
Definition demo_gw_request : Request :=
  mkRequest [("x-forwarded-for", "192.0.2.7")] [("__Secure-gw", demo_gw_cookie)] (Some "10.0.0.1").

Lemma demo_gw_split : split_cookie (Some demo_gw_cookie) = Some (21, "gwsecret").
Proof. apply split_cookie_of. vm_compute. split; [discriminate|reflexivity]. Qed.

Lemma demo_session_live : live_at example_settings (demo_session "s3cret") T0.
Proof. split; [reflexivity..| |]; vm_compute; [reflexivity|discriminate]. Qed.

Lemma demo_gw_live enf :
  gateway_live example_settings demo_world (Some demo_gw_cookie) "192.0.2.7" T0 enf 21 demo_gw
    (demo_session "s3cret").
Proof.
  constructor; try reflexivity.
  - exists "gwsecret". split; [apply demo_gw_split|reflexivity].
  - apply demo_session_live.
Qed.

Example start_parks_own_host_witness :
  exists resp s', start demo_gw_request "https://evil.example/" demo_env (mkSt demo_world 0) = (Ok resp, s')
  /\ gateway_login_states (db s') = ∅.
Proof.
  destruct (start demo_gw_request "https://evil.example/" demo_env (mkSt demo_world 0))
    as [[resp|x] s'] eqn:E; [|discriminate E].
  exists resp, s'. split; [reflexivity|].
  destruct (start_parks_own_host demo_gw_request "https://evil.example/" demo_env (mkSt demo_world 0)
    resp s' E) as [[Hs _]|(u & host & state & row & Hu & _ & Hh & Hown & _)]; [exact Hs|].
  exfalso. vm_compute in Hu. injection Hu as <-. vm_compute in Hh. injection Hh as <-.
  destruct Hown as [(o & v & [->| ->] & Ho & Hv)|(id & r & Hr & Hi & _)].
  - vm_compute in Ho. injection Ho as <-. vm_compute in Hv. discriminate Hv.
  - vm_compute in Ho. injection Ho as <-. vm_compute in Hv. discriminate Hv.
  - simpl in Hr. apply lookup_insert_Some in Hr as [[<- <-]|[_ Hr]]; [discriminate Hi|].
    apply lookup_singleton_Some in Hr as [<- <-]. discriminate Hi.
Defined.

Example logout_closes_gateway_witness :
  exists resp s', logout demo_gw_request demo_env (mkSt demo_world 0) = (Ok resp, s')
  /\ forall g s'', resolve_gateway_session (Some demo_gw_cookie) "192.0.2.7" T0 true demo_env s'
       <> (Ok (Some g), s'').
Proof.
  destruct (logout_runs demo_gw_request demo_env (mkSt demo_world 0) "192.0.2.7" 21 demo_gw
    (demo_session "s3cret") eq_refl (demo_gw_live true)) as (resp & s' & E).
  exists resp, s'. split; [exact E|]. intros g s''.
  exact (logout_closes_gateway demo_gw_request demo_env (mkSt demo_world 0) resp s' "192.0.2.7"
    21 demo_gw (demo_session "s3cret") eq_refl (demo_gw_live true) E "192.0.2.7" T0 true demo_env g s'').
Defined.
