(* ===== verification/Check.v ===== *)
(** * Check: authz/check.py, the authorization decision of the data plane

    [check] is POST /authz/check: it resolves the resource of the host, sends a
    public resource to [check_public], and otherwise asks the gateway session, the
    user and the policies; every decision is written to the audit log. *)

From S2P Require Import Prelude PyStr Encoding Digest Json PyTime Url Config Db Effects Crypto.
From S2P Require Import Web Events Engine Pathglob Sessions Decision PublicGate Gateway.
Local Open Scope Z_scope.

Record CheckRequest := mkCheck {
  ck_host : string;
  ck_method : string;
  ck_uri : string;
  ck_source_ip : string;
  ck_backend_port : option Z;
  ck_gateway_cookie : option string;
  ck_public_cookie : option string;
}.

Record CheckResponse := mkCheckResponse {
  cr_decision : string;
  cr_reason : string;
  cr_headers : list (string * string);
  cr_redirect : string;
  cr_cache_scope : string;
  cr_cache_ttl_secs : Z;
}.

Definition answer (decision reason redirect : string) : CheckResponse :=
  mkCheckResponse decision reason [] redirect "none" 0.

Definition check_audit (user_id resource_id port : option Z) (decision reason source_ip : string)
  : M unit :=
  let! ts := server_now in
  moddb (upd_audit_log (fun l => l ++ [mkAuditLog ts user_id resource_id port decision reason source_ip])).

(** [_admin_console_host]. *)
Definition admin_console_host (s : Settings) : result (option string) :=
  let origin := admin_ui_origin s in
  if bool_decide (origin = "") then Ok None
  else match urlsplit origin with
       | None => Raise (ValueError "urlsplit")
       | Some u => Ok (nonempty (Some (lower (default "" (hostname u)))))
       end.

(** [body.uri or "/"]. *)
Definition uri_or_root (body : CheckRequest) : string :=
  if bool_decide (ck_uri body = "") then "/" else ck_uri body.

Definition check_public (body : CheckRequest) (rid : Z) (resource : Resource) (host path : string)
    (now : Z) : M CheckResponse :=
  let! cfg := asks id in
  if negb (matches (r_public_paths resource) path) then
    check_audit None (Some rid) (ck_backend_port body) "deny" "public_path_unmatched"
      (ck_source_ip body);;
    ret (answer "not_found" "public_path_unmatched" "")
  else
    let! session := resolve_public_session (ck_public_cookie body) rid (ck_source_ip body) now in
    match session with
    | None =>
        let redirect := external_scheme cfg +:+ "://" +:+ host +:+ PUBLIC_GATE_PATH
                        +:+ "?rd=" +:+ quote_all (uri_or_root body) in
        check_audit None (Some rid) (ck_backend_port body) "deny" "public_unauthenticated"
          (ck_source_ip body);;
        ret (answer "auth_required" "public_unauthenticated" redirect)
    | Some _ =>
        check_audit None (Some rid) (ck_backend_port body) "allow" "public_allowed"
          (ck_source_ip body);;
        ret (answer "allow" "public_allowed" "")
    end.

(** [body.backend_port or (resource.ports[0] if resource.ports else 0)]. *)
Definition port_of (body : CheckRequest) (resource : Resource) : Z :=
  let fallback := match r_ports resource with p :: _ => p | [] => 0 end in
  match ck_backend_port body with
  | Some p => if p =? 0 then fallback else p
  | None => fallback
  end.

Definition request_host (body : CheckRequest) : string :=
  rstrip_char "." (lower (strip (ck_host body))).
Definition request_path (body : CheckRequest) : string := before "?" (uri_or_root body).

(** The response to a decision of the engine. *)
Definition respond (cfg : Settings) (user : User) (access : AccessDecision) : CheckResponse :=
  if negb (allowed (decision access)) then answer "deny" (reason (decision access)) ""
  else
    let cacheable := host_stable access && (0 <? authz_cache_ttl cfg) in
    mkCheckResponse "allow" (reason (decision access))
      [("X-Forwarded-User", u_email user); ("X-Auth-User-Id", u_external_id user);
       ("X-Auth-Roles", join "," (role_names access))] ""
      (if cacheable then "host" else "none") (if cacheable then authz_cache_ttl cfg else 0).

Definition check_private (body : CheckRequest) (rid : Z) (resource : Resource) (host path : string)
    (now : Z) : M CheckResponse :=
  let! cfg := asks id in
  let! gw := resolve_gateway_session (ck_gateway_cookie body) (ck_source_ip body) now true in
  match gw with
  | None =>
      let original := external_scheme cfg +:+ "://" +:+ host +:+ uri_or_root body in
      let redirect := external_scheme cfg +:+ "://" +:+ auth_host cfg
                      +:+ "/gateway/start?rd=" +:+ quote_all original in
      check_audit None (Some rid) (ck_backend_port body) "deny" "unauthenticated"
        (ck_source_ip body);;
      ret (answer "auth_required" "unauthenticated" redirect)
  | Some (_, gw) =>
      let! us := gets users in
      match us !! gs_user_id gw with
      | None =>
          check_audit (Some (gs_user_id gw)) (Some rid) (ck_backend_port body) "deny"
            "user_inactive" (ck_source_ip body);;
          ret (answer "deny" "user_inactive" "")
      | Some user =>
          if negb (bool_decide (u_status user = "active")) then
            check_audit (Some (gs_user_id gw)) (Some rid) (ck_backend_port body) "deny"
              "user_inactive" (ck_source_ip body);;
            ret (answer "deny" "user_inactive" "")
          else
            let! console := if bool_decide (u_auth_tier user = "admin") then ret None
                            else lift (admin_console_host cfg) in
            if negb (bool_decide (u_auth_tier user = "admin")) && bool_decide (console = Some host)
            then
              check_audit (Some (gs_user_id gw)) (Some rid) (ck_backend_port body) "deny"
                "tier_forbidden" (ck_source_ip body);;
              ret (answer "auth_required" "tier_forbidden" (issuer_base cfg +:+ "/auth/done"))
            else
              let port := port_of body resource in
              let! access := evaluate_access (gs_user_id gw) rid port path now in
              check_audit (Some (gs_user_id gw)) (Some rid) (Some port)
                (if allowed (decision access) then "allow" else "deny")
                (reason (decision access)) (ck_source_ip body);;
              ret (respond cfg user access)
      end
  end.

Definition check (body : CheckRequest) : M CheckResponse :=
  let! now := utcnow in
  let host := request_host body in
  let! t := gets resources in
  match host_registered host t with
  | None =>
      check_audit None None (ck_backend_port body) "deny" "unknown_resource" (ck_source_ip body);;
      ret (answer "deny" "unknown_resource" "")
  | Some (rid, resource) =>
      let path := request_path body in
      if r_public_access resource then check_public body rid resource host path now
      else check_private body rid resource host path now
  end.

(** ** Specification *)

(** The facts behind an allow for a signed-in user. *)
Record private_allow (cfg : Settings) (d : Db) (body : CheckRequest) (now : Z) (rid : Z)
    (r : Resource) (user : User) (gid : Z) (gw : GatewaySession) (idp : Session)
    (access : AccessDecision) : Prop := {
  pa_resource : host_registered (request_host body) (resources d) = Some (rid, r);
  pa_private : r_public_access r = false;
  pa_gateway : gateway_live cfg d (ck_gateway_cookie body) (ck_source_ip body) now true gid gw idp;
  pa_user : users d !! gs_user_id gw = Some user;
  pa_active : u_status user = "active";
  pa_tier : u_auth_tier user <> "admin" -> admin_console_host cfg <> Ok (Some (request_host body));
  pa_access : access = access_of d (gs_user_id gw) rid (port_of body r) (request_path body) now;
  pa_allowed : decision access = mkDecision true "allow";
}.

(** The facts behind an allow for a visitor of a public resource. *)
Record public_allow (cfg : Settings) (d : Db) (body : CheckRequest) (now : Z) (rid : Z)
    (r : Resource) : Prop := {
  pu_resource : host_registered (request_host body) (resources d) = Some (rid, r);
  pu_public : r_public_access r = true;
  pu_path : matches (r_public_paths r) (request_path body) = true;
  pu_session : exists sid secret row, split_cookie (ck_public_cookie body) = Some (sid, secret)
    /\ public_sessions d !! sid = Some row
    /\ public_live cfg row rid secret (ck_source_ip body) now;
}.

(** The row of a host: enabled, and the only one of its host name, which is case-insensitive. *)
Definition serves (d : Db) (host : string) (rid : Z) (r : Resource) : Prop :=
  resources d !! rid = Some r /\ r_enabled r = true /\ (exists h, r_public_host r = Some h /\ lower h = lower host)
  /\ forall rid' r' h, resources d !! rid' = Some r' -> r_public_host r' = Some h -> lower h = lower host -> rid' = rid.

(** The policies that grant or refuse: some policy of the action applies to the user's roles
    on the resource, at the port, the path and the time. *)
Definition some_policy (d : Db) (act : string) (uid rid port : Z) (path : string) (now : Z) : Prop :=
  exists pid p roles_held, policies d !! pid = Some p /\ p_action p = act
  /\ (forall role, role ∈ roles_held <-> (uid, role) ∈ user_roles d /\ is_Some (roles d !! role))
  /\ applies (rule_of p) roles_held rid port path now.

(** The names of the roles of a user, one for each, in order. *)
Definition names_of_roles (d : Db) (uid : Z) (names : list string) : Prop :=
  Sorted str_le names
  /\ Permutation names
       (omap (fun ur => if ur.1 =? uid then ro_name <$> roles d !! ur.2 else None) (user_roles d)).

(** What entitles a signed-in user to an allow. *)
Record may_enter (cfg : Settings) (d : Db) (body : CheckRequest) (now : Z) (rid : Z)
    (r : Resource) (user : User) (gid : Z) (gw : GatewaySession) (idp : Session) : Prop := {
  me_resource : serves d (request_host body) rid r;
  me_private : r_public_access r = false;
  me_gateway : gateway_live cfg d (ck_gateway_cookie body) (ck_source_ip body) now true gid gw idp;
  me_user : users d !! gs_user_id gw = Some user;
  me_active : u_status user = "active";
  me_tier : u_auth_tier user = "admin"
    \/ exists console, admin_console_host cfg = Ok console /\ console <> Some (request_host body);
  me_allow : some_policy d "allow" (gs_user_id gw) rid (port_of body r) (request_path body) now;
  me_no_deny : ~ some_policy d "deny" (gs_user_id gw) rid (port_of body r) (request_path body) now;
}.

(** What entitles a visitor of a public resource. *)
Record may_visit (cfg : Settings) (d : Db) (body : CheckRequest) (now : Z) (rid : Z) (r : Resource)
    (sid : Z) (secret : string) (row : PublicSession) : Prop := {
  mv_resource : serves d (request_host body) rid r;
  mv_public : r_public_access r = true;
  mv_path : matches (r_public_paths r) (request_path body) = true;
  mv_cookie : split_cookie (ck_public_cookie body) = Some (sid, secret);
  mv_row : public_sessions d !! sid = Some row;
  mv_live : public_live cfg row rid secret (ck_source_ip body) now;
}.

(** ** Lemmas *)

Lemma check_audit_Ok uid rid port d r ip e s u s' :
  check_audit uid rid port d r ip e s = (Ok u, s') ->
  db s' = upd_audit_log (fun l => l ++ [mkAuditLog (tx_now e) uid rid port d r ip]) (db s).
Proof. unfold check_audit. intros Hm. by minv Hm. Qed.

Lemma decision_allow d : allowed d = true -> reason d = "allow" -> d = mkDecision true "allow".
Proof. destruct d; simpl; by intros -> ->. Qed.

Lemma evaluate_allowed rules roles rid port path now :
  allowed (evaluate rules roles rid port path now) = true ->
  evaluate rules roles rid port path now = mkDecision true "allow".
Proof. unfold evaluate. destruct (existsb _ _); [done|]. by destruct (existsb _ _). Qed.

(** The tables a decision reads besides the sessions. *)
Definition policy_view (d : Db) :=
  (users d, roles d, user_roles d, policies d, resources d, gateway_sessions d, public_sessions d,
   audit_log d).

Lemma access_of_view d d' uid rid port path now :
  policy_view d' = policy_view d -> access_of d' uid rid port path now = access_of d uid rid port path now.
Proof.
  unfold policy_view. intros E. injection E as E1 E2 E3 E4 _ _ _ _.
  unfold access_of, roles_of, rules_of. by rewrite E2, E3, E4.
Qed.

Lemma resolve_gateway_view cookie ip now enf e s r s' :
  resolve_gateway_session cookie ip now enf e s = (r, s') -> policy_view (db s') = policy_view (db s).
Proof.
  intros Hr. assert (outside policy_view) as Ho by (split; done).
  pose proof (same_resolve_gateway policy_view cookie ip now enf Ho e s) as Hs. by rewrite Hr in Hs.
Qed.

(** One audit row was appended, and it agrees with the response. *)
Definition audited (body : CheckRequest) (resp : CheckResponse) (d d' : Db) : Prop :=
  exists row, audit_log d' = audit_log d ++ [row]
  /\ al_decision row = (if bool_decide (cr_decision resp = "allow") then "allow" else "deny")
  /\ al_reason row = cr_reason resp /\ al_source_ip row = ck_source_ip body.

Lemma audited_after body resp uid rid port dec rsn ip e s u s' d0 :
  check_audit uid rid port dec rsn ip e s = (Ok u, s') ->
  audit_log (db s) = audit_log d0 ->
  dec = (if bool_decide (cr_decision resp = "allow") then "allow" else "deny") ->
  rsn = cr_reason resp -> ip = ck_source_ip body -> audited body resp d0 (db s').
Proof.
  intros ->%check_audit_Ok E -> -> ->. unfold audited. simpl. rewrite E.
  exists (mkAuditLog (tx_now e) uid rid port
    (if bool_decide (cr_decision resp = "allow") then "allow" else "deny") (cr_reason resp)
    (ck_source_ip body)). done.
Qed.

Lemma respond_allow cfg user access :
  cr_decision (respond cfg user access) = "allow" <-> allowed (decision access) = true.
Proof. unfold respond. destruct (allowed _); simpl; split; done. Qed.

Lemma respond_host cfg user access :
  cr_cache_scope (respond cfg user access) = "host" ->
  allowed (decision access) = true /\ host_stable access = true /\ 0 < authz_cache_ttl cfg
  /\ cr_cache_ttl_secs (respond cfg user access) = authz_cache_ttl cfg.
Proof.
  unfold respond. destruct (allowed (decision access)); [|done].
  destruct (host_stable access && (0 <? authz_cache_ttl cfg)) eqn:E; [|done]. intros _.
  apply andb_true_iff in E as [? ?%Z.ltb_lt]. done.
Qed.

Lemma respond_headers cfg user access :
  allowed (decision access) = true ->
  cr_headers (respond cfg user access) =
    [("X-Forwarded-User", u_email user); ("X-Auth-User-Id", u_external_id user);
     ("X-Auth-Roles", join "," (role_names access))].
Proof. unfold respond. by intros ->. Qed.

Lemma check_public_spec body rid r host path now e s resp s' :
  check_public body rid r host path now e s = (Ok resp, s') ->
  audited body resp (db s) (db s')
  /\ (cr_decision resp = "allow" ->
      matches (r_public_paths r) path = true /\ resp = answer "allow" "public_allowed" "" /\
      exists sid secret row, split_cookie (ck_public_cookie body) = Some (sid, secret)
        /\ public_sessions (db s) !! sid = Some row
        /\ public_live (settings e) row rid secret (ck_source_ip body) now).
Proof.
  unfold check_public. intros Hr. mstep Hr cfg s1 H1. unfold asks in H1. injection H1 as <- <-.
  destruct (matches _ path) eqn:Em; cbn [negb] in Hr.
  2: { mstep Hr u s1 H1. minv Hr. split; [by eapply audited_after|done]. }
  destruct (resolve_public_run (ck_public_cookie body) rid (ck_source_ip body) now e s)
    as (o & s1 & Hres & Ho & Hs1).
  mstep Hr o' s2 H1. rewrite Hres in H1. injection H1 as <- <-.
  destruct o as [sid|].
  - mstep Hr u s2 H1. minv Hr. split; [eapply audited_after; [exact H1|by subst|done..]|].
    intros _. split_and!; [done..|]. exists sid. by apply Ho.
  - mstep Hr u s2 H1. minv Hr. split; [|done]. eapply audited_after; [exact H1|by subst|done..].
Qed.

Lemma check_private_spec body rid r host path now e s resp s' :
  check_private body rid r host path now e s = (Ok resp, s') ->
  audited body resp (db s) (db s')
  /\ (cr_decision resp = "allow" -> exists user gid gw idp,
      gateway_live (settings e) (db s) (ck_gateway_cookie body) (ck_source_ip body) now true gid gw idp
      /\ users (db s) !! gs_user_id gw = Some user /\ u_status user = "active"
      /\ (u_auth_tier user <> "admin" -> admin_console_host (settings e) <> Ok (Some host))
      /\ allowed (decision (access_of (db s) (gs_user_id gw) rid (port_of body r) path now)) = true
      /\ resp = respond (settings e) user
                  (access_of (db s) (gs_user_id gw) rid (port_of body r) path now)).
Proof.
  unfold check_private. intros Hr. mstep Hr cfg s1 H1. unfold asks in H1. injection H1 as <- <-.
  mstep Hr o s1 Hgw. pose proof (resolve_gateway_view _ _ _ _ _ _ _ _ Hgw) as Hv.
  assert (audit_log (db s1) = audit_log (db s)) as Hau by (by injection Hv).
  assert (users (db s1) = users (db s)) as Hus by (by injection Hv).
  destruct o as [[gid gw]|].
  2: { mstep Hr u s2 H1. minv Hr. split; [by eapply audited_after|done]. }
  apply resolve_gateway_Some in Hgw as [idp Hlive].
  mstep Hr us s2 H1. unfold gets in H1. injection H1 as <- <-. rewrite Hus in Hr.
  destruct (users (db s) !! gs_user_id gw) as [user|] eqn:Eu.
  2: { mstep Hr u s2 H1. minv Hr. split; [by eapply audited_after|done]. }
  case_bool_decide as Eact; cbn [negb] in Hr.
  2: { mstep Hr u s2 H1. minv Hr. split; [by eapply audited_after|done]. }
  mstep Hr console s2 Hcon.
  assert (s2 = s1 /\ (u_auth_tier user <> "admin" ->
    admin_console_host (id (settings e)) = Ok console)) as [-> Hconsole].
  { case_bool_decide; unfold ret, lift in Hcon; [by injection Hcon as <- <-|].
    injection Hcon as Hcon <-. split; [done|]. intros _. exact Hcon. }
  clear Hcon. unfold id in *.
  destruct (negb _ && bool_decide (console = Some host)) eqn:Et.
  { mstep Hr u s2 H1. minv Hr. split; [by eapply audited_after|done]. }
  mstep Hr access s2 H1. unfold evaluate_access in H1. minv H1. unfold id in *.
  rewrite (access_of_view _ _ _ _ _ _ _ Hv) in Hr.
  set (access := access_of _ _ _ _ _ _) in *.
  mstep Hr u s3 H1. minv Hr. split.
  - eapply audited_after; [exact H1|done| | |done]; unfold respond;
      destruct (allowed (decision access)); done.
  - intros Ha. apply respond_allow in Ha. exists user, gid, gw, idp.
    split_and!; try done. intros Hta. rewrite Hconsole by done. intros [= ->].
    rewrite bool_decide_eq_false_2 in Et by done. simpl in Et. by bool_simpl.
Qed.

(** ** Theorems *)

(** C1: The decision point is sound.  Every allow is for the enabled resource of the
    host, and either the caller holds the cookie of a live gateway session over a live
    IdP session of an active user whom the policies allow (and the identity headers are
    that user's), or the resource is public, the path is on its allowlist, the caller
    holds a live session of that very resource, and no identity header is set. *)
Theorem check_allow_sound body e s resp s'
    (Hrun : check body e s = (Ok resp, s')) (Hallow : cr_decision resp = "allow") :
  (exists rid r user gid gw idp access,
     private_allow (settings e) (db s) body (clock e (tick s)) rid r user gid gw idp access
     /\ cr_headers resp = [("X-Forwarded-User", u_email user); ("X-Auth-User-Id", u_external_id user);
                          ("X-Auth-Roles", join "," (role_names access))])
  \/ (exists rid r, public_allow (settings e) (db s) body (clock e (tick s)) rid r
     /\ cr_headers resp = [] /\ cr_cache_scope resp = "none").
Proof.
  unfold check in Hrun. mstep Hrun now s1 H1. unfold utcnow in H1. injection H1 as <- <-.
  mstep Hrun t s1 H1. unfold gets in H1. injection H1 as <- <-. simpl in Hrun.
  destruct (host_registered _ _) as [[rid r]|] eqn:Eh.
  2: { mstep Hrun u s1 H1. by minv Hrun. }
  destruct (r_public_access r) eqn:Ep.
  - right. apply check_public_spec in Hrun as [_ Hs]. destruct (Hs Hallow) as (Hm & -> & Hsess).
    exists rid, r. split_and!; [by constructor|done..].
  - left. apply check_private_spec in Hrun as [_ Hs].
    destruct (Hs Hallow) as (user & gid & gw & idp & Hlive & Hu & Ha & Ht & Hal & ->).
    eexists rid, r, user, gid, gw, idp, _. split.
    + constructor; [done..|]. by apply evaluate_allowed.
    + unfold respond. simpl in Hal |- *. by rewrite Hal.
Qed.

(** Every answer of the decision point, whatever it is, comes with exactly one new
    row of the audit log, which records allow exactly for an allow, with the reason and
    the source address of the request. *)
Theorem check_audits_once body e s resp s' (Hrun : check body e s = (Ok resp, s')) :
  audited body resp (db s) (db s').
Proof.
  unfold check in Hrun. mstep Hrun now s1 H1. unfold utcnow in H1. injection H1 as <- <-.
  mstep Hrun t s1 H1. unfold gets in H1. injection H1 as <- <-. simpl in Hrun.
  destruct (host_registered _ _) as [[rid r]|] eqn:Eh.
  2: { mstep Hrun u s1 H1. minv Hrun. by eapply audited_after. }
  destruct (r_public_access r).
  - apply check_public_spec in Hrun as [Ha _]. exact Ha.
  - apply check_private_spec in Hrun as [Ha _]. exact Ha.
Qed.

Lemma check_private_complete body rid r host path now e s gid gw idp user :
  gateway_live (settings e) (db s) (ck_gateway_cookie body) (ck_source_ip body) now true gid gw idp ->
  users (db s) !! gs_user_id gw = Some user -> u_status user = "active" ->
  u_auth_tier user = "admin" \/ (exists console, admin_console_host (settings e) = Ok console /\ console <> Some host) ->
  exists s', check_private body rid r host path now e s =
    (Ok (respond (settings e) user (access_of (db s) (gs_user_id gw) rid (port_of body r) path now)), s').
Proof.
  intros Hlive Hu Ha Ht. unfold check_private, bind at 1, asks. cbn beta iota. unfold id.
  destruct (resolve_gateway_live _ _ _ _ e s _ _ _ Hlive) as [s1 Hs1].
  pose proof (resolve_gateway_view _ _ _ _ _ _ _ _ Hs1) as Hv.
  assert (users (db s1) = users (db s)) as Hus by (by injection Hv).
  rewrite (bind_run _ _ _ _ _ _ Hs1). unfold bind at 1, gets. cbn beta iota. rewrite Hus, Hu.
  rewrite Ha. cbn [negb bool_decide decide]. rewrite bool_decide_eq_true_2 by done. simpl.
  unfold bind at 1.
  assert (Hcase : exists c, (if bool_decide (u_auth_tier user = "admin") then ret None
      else lift (admin_console_host (settings e))) e s1 = (Ok c, s1)
    /\ negb (bool_decide (u_auth_tier user = "admin")) && bool_decide (c = Some host) = false).
  { case_bool_decide as Etier; [by exists None|]. destruct Ht as [|(console & Hc & Ht)]; [done|].
    exists console. rewrite Hc. split; [done|]. simpl. by apply bool_decide_eq_false_2. }
  destruct Hcase as (c & -> & ->).
  assert (evaluate_access (gs_user_id gw) rid (port_of body r) path now e s1
    = (Ok (access_of (db s) (gs_user_id gw) rid (port_of body r) path now), s1)) as Hacc
    by (rewrite <- (access_of_view _ _ _ _ _ _ _ Hv); reflexivity).
  rewrite (bind_run _ _ _ _ _ _ Hacc). eexists. reflexivity.
Qed.

Lemma serves_registered d host rid r : serves d host rid r -> host_registered host (resources d) = Some (rid, r).
Proof.
  intros (Hr & He & (h & Hh & Hl) & Hu). apply scalar_select_unique; [done|..]; unfold host_is, citext_eq.
  - by rewrite Hh, He, bool_decide_eq_true_2.
  - intros rid' r' Hr' Hp. destruct (r_public_host r') as [h'|] eqn:E; [|done]. bool_simpl. by apply (Hu rid' r' h').
Qed.

Lemma elem_of_held d uid role : role ∈ (list_to_set (map fst (roles_of d uid)) : gset Z)
  <-> (uid, role) ∈ user_roles d /\ is_Some (roles d !! role).
Proof.
  rewrite elem_of_list_to_set. change (map fst (roles_of d uid)) with (fst <$> roles_of d uid).
  rewrite list_elem_of_fmap. unfold roles_of. setoid_rewrite list_elem_of_omap. split.
  - intros ([x n] & -> & [u y] & Hin & Hf). cbn in *. destruct (Z.eqb_spec u uid) as [->|]; [|done].
    destruct (roles d !! y) as [ro|] eqn:Er; [|done]. injection Hf as -> _. by split; [|exists ro].
  - intros [Hin [ro Hro]]. exists (role, ro_name ro). split; [done|]. exists (uid, role). split; [done|]. cbn.
    by rewrite Z.eqb_refl, Hro.
Qed.

Lemma some_policy_rule d act uid rid port path now : some_policy d act uid rid port path now <->
  exists rule, rule ∈ rules_of d rid /\ action rule = act
    /\ applies rule (list_to_set (map fst (roles_of d uid))) rid port path now.
Proof.
  unfold some_policy, rules_of. split.
  - intros (pid & p & held & Hp & Ha & Hheld & Happ).
    assert (held = list_to_set (map fst (roles_of d uid))) as -> by (apply set_eq; intros x; by rewrite Hheld, elem_of_held).
    exists (rule_of p). split_and!; [|done..]. apply list_elem_of_In, in_map_iff. exists (pid, p). split; [done|].
    apply list_elem_of_In, select_In. split; [done|]. apply Z.eqb_eq. by destruct Happ.
  - intros (rule & Hin & Ha & Happ). apply list_elem_of_In, in_map_iff in Hin as ([pid p] & <- & Hin).
    apply list_elem_of_In, select_In in Hin as [Hp _]. exists pid, p, (list_to_set (map fst (roles_of d uid))).
    split_and!; [done..| |done]. apply elem_of_held.
Qed.

Lemma decision_allows d uid rid port path now : some_policy d "allow" uid rid port path now ->
  ~ some_policy d "deny" uid rid port path now -> decision (access_of d uid rid port path now) = mkDecision true "allow".
Proof.
  rewrite !some_policy_rule, <- !applicable_action. intros Ha Hd. apply not_true_iff_false in Hd.
  unfold access_of, evaluate. cbv zeta. cbn [decision]. by rewrite Ha, Hd.
Qed.

Lemma role_names_spec d uid rid port path now : names_of_roles d uid (role_names (access_of d uid rid port path now)).
Proof.
  unfold names_of_roles, access_of. cbn [role_names]. unfold sorted_names. split.
  - apply Sorted_merge_sort. intros a b. unfold str_le. destruct (String.leb_total a b); auto.
  - rewrite merge_sort_Permutation. unfold roles_of. generalize (user_roles d) as l.
    induction l as [|[u y] l IH]; [done|]. cbn. destruct (u =? uid); [|done]. destruct (roles d !! y); [|done]. cbn. by f_equiv.
Qed.

Lemma check_public_complete body rid r host path now e s sid secret row :
  matches (r_public_paths r) path = true -> split_cookie (ck_public_cookie body) = Some (sid, secret) ->
  public_sessions (db s) !! sid = Some row ->
  public_live (settings e) row rid secret (ck_source_ip body) now ->
  exists s', check_public body rid r host path now e s
    = (Ok (mkCheckResponse "allow" "public_allowed" [] "" "none" 0), s').
Proof.
  intros Hm Hc Hrow Hl. unfold check_public, bind at 1, asks. cbn beta iota. rewrite Hm. cbn [negb].
  destruct (resolve_public_run (ck_public_cookie body) rid (ck_source_ip body) now e s) as (o & s1 & Hrun & Ho & _).
  rewrite (bind_run _ _ _ _ _ _ Hrun). rewrite (proj2 (Ho sid)) by (by exists secret, row). by eexists.
Qed.

(** C4: No spurious refusal.  A signed-in user with a live gateway session, active, some
    policy allowing and none denying, asking for a private resource (and not, without
    being an admin, for the console), is answered allow with exactly the headers of the
    user, the mail address, the subject and the names of the roles in order, and a hint to
    cache for the host or none.  A visitor of a public resource on a path of its allowlist,
    with a live session of the resource, is answered allow with no header and no hint.
    (For a user who is not an admin, the configured origin of the console must parse.) *)
Theorem check_allow_complete body e s rid r :
  (forall user gid gw idp,
     may_enter (settings e) (db s) body (clock e (tick s)) rid r user gid gw idp ->
     exists names scope ttl s', check body e s = (Ok (mkCheckResponse "allow" "allow"
         [("X-Forwarded-User", u_email user); ("X-Auth-User-Id", u_external_id user);
          ("X-Auth-Roles", join "," names)] "" scope ttl), s')
       /\ names_of_roles (db s) (gs_user_id gw) names
       /\ (scope = "host" /\ ttl = authz_cache_ttl (settings e) /\ 0 < ttl \/ scope = "none" /\ ttl = 0))
  /\ (forall sid secret row,
     may_visit (settings e) (db s) body (clock e (tick s)) rid r sid secret row ->
     exists s', check body e s = (Ok (mkCheckResponse "allow" "public_allowed" [] "" "none" 0), s')).
Proof.
  split.
  - intros user gid gw idp [Hr%serves_registered Hp Hg Hu Ha Ht Hal Hd].
    destruct (check_private_complete body rid r (request_host body) (request_path body)
      (clock e (tick s)) e (mkSt (db s) (S (tick s))) gid gw idp user Hg Hu Ha Ht) as [s' Hs'].
    pose proof (decision_allows _ _ _ _ _ _ Hal Hd) as Hdec. cbn [db] in Hs'. set (access := access_of _ _ _ _ _ _) in *.
    exists (role_names access), (cr_cache_scope (respond (settings e) user access)),
      (cr_cache_ttl_secs (respond (settings e) user access)), s'.
    split; [|split; [apply role_names_spec|]].
    + unfold check, bind, utcnow, gets. cbn. rewrite Hr, Hp, Hs'. unfold respond. by rewrite Hdec.
    + unfold respond. rewrite Hdec. cbn. destruct (host_stable access), (0 <? authz_cache_ttl (settings e)) eqn:E; cbn; auto.
      left. by apply Z.ltb_lt in E.
  - intros sid secret row [Hr%serves_registered Hp Hm Hc Hrow Hl].
    destruct (check_public_complete body rid r (request_host body) (request_path body)
      (clock e (tick s)) e (mkSt (db s) (S (tick s))) sid secret row Hm Hc Hrow Hl) as [s' Hs'].
    exists s'. unfold check, bind, utcnow, gets. cbn. by rewrite Hr, Hp, Hs'.
Qed.

(** When an answer may be cached for the host, the policies allow the same user every
    path of that host at every time, with the same identity headers. *)
Theorem check_cacheable_sound body e s resp s'
    (Hrun : check body e s = (Ok resp, s')) (Hc : cr_cache_scope resp = "host") :
  exists rid r user gid gw idp access,
    private_allow (settings e) (db s) body (clock e (tick s)) rid r user gid gw idp access
    /\ cr_cache_ttl_secs resp = authz_cache_ttl (settings e) /\ 0 < cr_cache_ttl_secs resp
    /\ forall path' now',
         decision (access_of (db s) (gs_user_id gw) rid (port_of body r) path' now')
           = mkDecision true "allow"
         /\ cr_headers (respond (settings e) user
              (access_of (db s) (gs_user_id gw) rid (port_of body r) path' now')) = cr_headers resp.
Proof.
  unfold check in Hrun. mstep Hrun now s1 H1. unfold utcnow in H1. injection H1 as <- <-.
  mstep Hrun t s1 H1. unfold gets in H1. injection H1 as <- <-. simpl in Hrun.
  destruct (host_registered _ _) as [[rid r]|] eqn:Eh.
  2: { mstep Hrun u s1 H1. by minv Hrun. }
  assert (Hd : cr_decision resp = "allow" \/ cr_decision resp <> "allow")
    by (destruct (decide (cr_decision resp = "allow")); auto).
  destruct (r_public_access r) eqn:Ep.
  { exfalso. unfold check_public in Hrun. mstep Hrun cfg s1 H1. destruct (negb _).
    - mstep Hrun u s2 H2. by minv Hrun.
    - mstep Hrun o s2 H2. destruct o; mstep Hrun u s3 H3; by minv Hrun. }
  pose proof Hrun as Hrun0. apply check_private_spec in Hrun as [_ Hs].
  destruct Hd as [Hd|Hd].
  - destruct (Hs Hd) as (user & gid & gw & idp & Hlive & Hu & Ha & Ht & Hal & ->). cbn [db] in *.
    destruct (respond_host _ _ _ Hc) as (_ & Hst & Httl & Htt).
    eexists rid, r, user, gid, gw, idp, _. split_and!.
    + constructor; try done. by apply evaluate_allowed.
    + exact Htt.
    + by rewrite Htt.
    + intros path' now'. destruct (host_stable_allows _ _ _ _ _ _ Hst path' now') as [H1 H2].
      split; [done|]. rewrite !respond_headers by (done || by rewrite H1). by rewrite H2.
  - exfalso. revert Hrun0. unfold check_private. intros Hr.
    mstep Hr cfg s1 H1. mstep Hr o s2 H2. destruct o as [[gid gw]|].
    2: { mstep Hr u s3 H3. by minv Hr. }
    mstep Hr us s3 H3. destruct (us !! _) as [user|]; [|mstep Hr u s4 H4; by minv Hr].
    destruct (negb (bool_decide (u_status user = "active"))); [mstep Hr u s4 H4; by minv Hr|].
    mstep Hr con s4 H4. destruct (negb _ && _); [mstep Hr u s5 H5; by minv Hr|].
    mstep Hr access s5 H5. mstep Hr u s6 H6. minv Hr. apply Hd, respond_allow.
    by apply respond_host in Hc as (? & _).
Qed.

(** ** Witnesses *)

Definition demo_check (path : string) : CheckRequest :=
  mkCheck "Wiki.Example.com." "GET" path "192.0.2.7" None (Some demo_gw_cookie) None.

Lemma demo_serves : serves demo_world "wiki.example.com" 6 demo_app.
Proof.
  split_and!; [reflexivity..|exists "wiki.example.com"; done|]. intros rid' r' h Hr Hh Hl. simpl in Hr.
  apply lookup_insert_Some in Hr as [[<- <-]|[_ Hr]]; [done|].
  apply lookup_singleton_Some in Hr as [<- <-]. injection Hh as <-. discriminate Hl.
Qed.

Lemma demo_may_enter :
  may_enter example_settings demo_world (demo_check "/page?x=1") T0 6 demo_app demo_user 21 demo_gw
    (demo_session "s3cret").
Proof.
  constructor; try reflexivity.
  - apply demo_serves.
  - apply demo_gw_live.
  - right. exists (Some "admin.example.com"). split; [reflexivity|discriminate].
  - apply some_policy_rule, applicable_action. vm_compute. reflexivity.
  - rewrite some_policy_rule, <- applicable_action. vm_compute. discriminate.
Qed.

Example check_allow_complete_witness :
  exists names scope ttl s', check (demo_check "/page?x=1") demo_env (mkSt demo_world 0)
    = (Ok (mkCheckResponse "allow" "allow" [("X-Forwarded-User", "ada@example.com"); ("X-Auth-User-Id", "sub-1");
            ("X-Auth-Roles", join "," names)] "" scope ttl), s')
    /\ names_of_roles demo_world 11 names.
Proof.
  destruct (proj1 (check_allow_complete (demo_check "/page?x=1") demo_env (mkSt demo_world 0) 6 demo_app)
    demo_user 21 demo_gw (demo_session "s3cret") demo_may_enter) as (names & scope & ttl & s' & H & Hn & _).
  exists names, scope, ttl, s'. split; [exact H|exact Hn].
Defined.

Definition demo_answer : CheckResponse :=
  respond example_settings demo_user (access_of demo_world 11 6 8080 "/page" T0).

Lemma demo_check_runs :
  exists s', check (demo_check "/page?x=1") demo_env (mkSt demo_world 0) = (Ok demo_answer, s').
Proof.
  eexists. vm_compute. reflexivity.
Qed.

Example check_allow_sound_witness :
  exists s', check (demo_check "/page?x=1") demo_env (mkSt demo_world 0) = (Ok demo_answer, s')
  /\ cr_headers demo_answer = [("X-Forwarded-User", "ada@example.com"); ("X-Auth-User-Id", "sub-1");
       ("X-Auth-Roles", "media")]
  /\ ((exists rid r user gid gw idp access,
     private_allow example_settings demo_world (demo_check "/page?x=1") T0 rid r user gid gw idp access
     /\ cr_headers demo_answer = [("X-Forwarded-User", u_email user);
          ("X-Auth-User-Id", u_external_id user); ("X-Auth-Roles", join "," (role_names access))])
     \/ (exists rid r, public_allow example_settings demo_world (demo_check "/page?x=1") T0 rid r
     /\ cr_headers demo_answer = [] /\ cr_cache_scope demo_answer = "none")).
Proof.
  destruct demo_check_runs as [s' E]. exists s'. split; [exact E|]. split; [vm_compute; reflexivity|].
  exact (check_allow_sound (demo_check "/page?x=1") demo_env (mkSt demo_world 0) demo_answer s' E
    ltac:(vm_compute; reflexivity)).
Defined.

Example check_audits_once_witness :
  exists s', check (demo_check "/page?x=1") demo_env (mkSt demo_world 0) = (Ok demo_answer, s')
  /\ audited (demo_check "/page?x=1") demo_answer demo_world (db s').
Proof.
  destruct demo_check_runs as [s' E]. exists s'. split; [exact E|].
  exact (check_audits_once _ _ _ _ _ E).
Defined.

Example check_cacheable_sound_witness :
  exists s', check (demo_check "/page?x=1") demo_env (mkSt demo_world 0) = (Ok demo_answer, s')
  /\ cr_cache_ttl_secs demo_answer = 20.
Proof.
  destruct demo_check_runs as [s' E]. exists s'. split; [exact E|].
  destruct (check_cacheable_sound (demo_check "/page?x=1") demo_env (mkSt demo_world 0) demo_answer s' E
    ltac:(vm_compute; reflexivity)) as (rid & r & user & gid & gw & idp & access & _ & Ht & _).
  exact Ht.
Defined.
