(* ===== verification/Dpop.v ===== *)
(** * Dpop: idp/oidc/dpop.py and idp/oidc/replay.py, proofs of possession

    The signature library is the interface [Jose]; the replay cache is the interface
    [ReplayCache], which the PostgreSQL cache implements, so that the validator is
    proved against the interface, as the code injects it. *)

From S2P Require Import Prelude PyStr Encoding Digest Json JsonText PyTime Url Config Db Effects.
From S2P Require Import Crypto.
Local Open Scope Z_scope.

(** [joserfc]: importing a public JWK, verifying a compact JWS under a key (the payload,
    or [None] for a [JoseError]), signing one, and the RFC 7638 thumbprint. *)
Class Jose := {
  jwk_import : list (string * json) -> result string;
  jws_verify : string -> string -> option string;
  jws_sign : json -> string -> string -> string;
  key_thumbprint : string -> string;
}.

Definition ALLOWED_ALGS : list string := ["ES256"].
Definition JTI_MIN : Z := 8.
Definition JTI_MAX : Z := 256.
Definition FORBIDDEN_JWK_MEMBERS : list string :=
  ["d"; "p"; "q"; "dp"; "dq"; "qi"; "k"; "x5c"; "x5u"; "x5t"; "x5t#S256"; "kid"].

Record DpopProof := mkProof { pr_jkt : string; pr_jti : string; pr_iat : Z }.

Definition dpop_fail {A} (detail : string) : result A := Raise (DpopError detail).

Definition b64u_decode (segment : string) : result string :=
  match urlsafe_b64decode (b64url_repad segment) with
  | Some b => Ok b
  | None => dpop_fail "malformed base64url segment"
  end.

Definition b64u_json (segment : string) : result (list (string * json)) :=
  match b64u_decode segment with
  | Raise x => Raise x
  | Ok b =>
      match json_loads b with
      | None => dpop_fail "malformed JSON segment"
      | Some (JObj fields) => Ok fields
      | Some _ => dpop_fail "segment is not a JSON object"
      end
  end.

Definition normalize_htu (url : string) : option string :=
  match urlsplit url with
  | None => None
  | Some parts =>
      match url_port parts with
      | None => None
      | Some port =>
          match hostname parts with
          | None => None
          | Some host0 =>
              if negb (bool_decide (url_scheme parts = "http")
                       || bool_decide (url_scheme parts = "https")) then None
              else
                let scheme := lower (url_scheme parts) in
                let host := lower host0 in
                let dflt := if bool_decide (scheme = "https") then 443 else 80 in
                let netloc :=
                  match port with
                  | None => host
                  | Some p => if p =? dflt then host else host +:+ ":" +:+ dec_str p
                  end in
                let path := if bool_decide (url_path parts = "") then "/" else url_path parts in
                Some (urlunsplit_path scheme netloc path)
          end
      end
  end.

Definition ath_of (access_token : string) : string := b64url_nopad (sha256 access_token).

(** [datetime.fromtimestamp(n, tz=UTC)] outside the years 1 to 9999 raises. *)
Definition fromtimestamp_checked (n : Z) : result Z :=
  if (-62135596800 <=? n) && (n <=? 253402300799) then Ok (fromtimestamp n)
  else Raise (ValueError "year is out of range").

Definition get (k : string) (fs : list (string * json)) : json := default JNull (assoc k fs).

Section Validator.
Context `{Jose}.

(** The header checks, up to the imported key. *)
Definition check_header (header : list (string * json)) : result string :=
  if negb (is_str "dpop+jwt" (get "typ" header)) then dpop_fail "typ must be dpop+jwt"
  else
    match get "alg" header with
    | JArr _ | JObj _ => Raise (TypeError "unhashable type")
    | alg =>
        if negb (existsb (fun a => is_str a alg) ALLOWED_ALGS) then dpop_fail "alg not allowed"
        else
          match get "jwk" header with
          | JObj jwk =>
              if existsb (fun kv => bool_decide (kv.1 ∈ FORBIDDEN_JWK_MEMBERS)) jwk
              then dpop_fail "forbidden jwk members"
              else if negb (is_str "EC" (get "kty" jwk)) || negb (is_str "P-256" (get "crv" jwk))
                      || bool_decide (assoc "x" jwk = None) || bool_decide (assoc "y" jwk = None)
              then dpop_fail "jwk must be a public P-256 EC key"
              else
                match jwk_import jwk with
                | Ok key => Ok key
                | Raise JoseError | Raise (ValueError _) => dpop_fail "invalid jwk"
                | Raise x => Raise x
                end
          | _ => dpop_fail "missing embedded jwk"
          end
    end.

(** The claim checks, up to the time of issue. *)
Definition check_claims (claims : list (string * json)) (htm htu : string)
    (now iat_window iat_future_skew : Z) (access_token : option string) : result (string * Z) :=
  match get "jti" claims with
  | JStr jti =>
      if negb ((JTI_MIN <=? char_len jti) && (char_len jti <=? JTI_MAX)) then dpop_fail "invalid jti"
      else if negb (is_str htm (get "htm" claims)) then dpop_fail "htm mismatch"
      else
        match get "htu" claims with
        | JStr claimed_htu =>
            match normalize_htu claimed_htu, normalize_htu htu with
            | Some normalized_claim, Some normalized_actual =>
                if negb (bool_decide (normalized_claim = normalized_actual))
                then dpop_fail "htu mismatch"
                else
                  match as_int (get "iat" claims) with
                  | None => dpop_fail "missing iat"
                  | Some iat =>
                      match fromtimestamp_checked iat with
                      | Raise x => Raise x
                      | Ok iat_dt =>
                          if iat_dt <? now - seconds iat_window then dpop_fail "stale iat"
                          else if now + seconds iat_future_skew <? iat_dt
                          then dpop_fail "iat in the future"
                          else
                            match access_token with
                            | None => Ok (jti, iat_dt)
                            | Some t =>
                                match get "ath" claims with
                                | JStr ath =>
                                    if constant_time_equals ath (ath_of t) then Ok (jti, iat_dt)
                                    else dpop_fail "ath mismatch"
                                | _ => dpop_fail "ath mismatch"
                                end
                            end
                      end
                  end
            | _, _ => dpop_fail "unnormalizable htu"
            end
        | _ => dpop_fail "missing htu"
        end
  | _ => dpop_fail "invalid jti"
  end.

Definition verify_proof_offline (proof htm htu : string) (now iat_window iat_future_skew : Z)
    (access_token expected_jkt : option string) : result DpopProof :=
  match split_char "." proof with
  | [p0; p1; p2] =>
      if bool_decide (p0 = "") || bool_decide (p1 = "") || bool_decide (p2 = "")
      then dpop_fail "not a compact JWS"
      else
        match b64u_json p0 with
        | Raise x => Raise x
        | Ok header =>
            match check_header header with
            | Raise x => Raise x
            | Ok key =>
                match jws_verify proof key with
                | None => dpop_fail "signature verification failed"
                | Some payload =>
                    match json_loads payload with
                    | None => Raise (ValueError "json")
                    | Some (JObj claims) =>
                        match check_claims claims htm htu now iat_window iat_future_skew access_token with
                        | Raise x => Raise x
                        | Ok (jti, iat_dt) =>
                            let jkt := key_thumbprint key in
                            match expected_jkt with
                            | Some e =>
                                if constant_time_equals jkt e then Ok (mkProof jkt jti iat_dt)
                                else dpop_fail "jkt does not match token binding"
                            | None => Ok (mkProof jkt jti iat_dt)
                            end
                        end
                    | Some _ => dpop_fail "claims must be a JSON object"
                    end
                end
            end
        end
  | _ => dpop_fail "not a compact JWS"
  end.
End Validator.

(** ** The replay cache *)

Class ReplayCache := {
  check_and_store : string -> string -> Z -> M bool;
  seen : Db -> string * string -> Prop;
}.

(** What the validator is promised: an answer, [true] exactly for a pair not seen,
    which is seen from then on. *)
Class ReplayLaws `{ReplayCache} := {
  replay_answers : forall jkt jti exp e s, exists b s',
    check_and_store jkt jti exp e s = (Ok b, s') /\
    (b = true <-> ~ seen (db s) (jkt, jti)) /\ seen (db s') (jkt, jti) /\
    (forall k, k <> (jkt, jti) -> seen (db s') k <-> seen (db s) k);
}.

Definition verify_proof `{Jose, ReplayCache} (proof htm htu : string)
    (now iat_window iat_future_skew : Z) (access_token expected_jkt : option string)
  : M DpopProof :=
  let! result :=
    lift (verify_proof_offline proof htm htu now iat_window iat_future_skew access_token expected_jkt) in
  let! fresh := check_and_store (pr_jkt result) (pr_jti result) (now + seconds iat_window) in
  if negb fresh then raise (DpopError "jti replay") else ret result.

(** [PgJtiReplayCache]: INSERT ... ON CONFLICT DO NOTHING, and whether it inserted. *)
Definition pg_check_and_store (jkt jti : string) (expires_at : Z) : M bool :=
  let! t := gets dpop_jti_seen in
  match t !! (jkt, jti) with
  | Some _ => ret false
  | None => moddb (upd_dpop_jti_seen <[(jkt, jti) := expires_at]>);; ret true
  end.

#[export] Instance PgJtiReplayCache : ReplayCache := {|
  check_and_store := pg_check_and_store;
  seen d k := is_Some (dpop_jti_seen d !! k);
|}.

#[export] Instance pg_replay_laws : ReplayLaws.
Proof.
  constructor. intros jkt jti exp e s. simpl. unfold pg_check_and_store, bind, gets, moddb, ret.
  destruct (dpop_jti_seen (db s) !! (jkt, jti)) as [x|] eqn:E.
  - exists false, s. split_and!; [done|split; [done|intros Hn; destruct Hn; eauto]|eauto|done].
  - eexists true, _. split_and!; [reflexivity|split; [by intros _ [? ?]|done]| |].
    + simpl. rewrite lookup_insert_eq. eauto.
    + intros k Hk. simpl. by rewrite lookup_insert_ne.
Qed.

(** ** Specification of an accepted proof *)

Record good_proof `{Jose} (proof htm htu : string) (now window skew : Z)
    (access_token expected_jkt : option string) (r : DpopProof) (key : string)
    (header claims : list (string * json)) (jwk : list (string * json)) (payload : string) : Prop := {
  gp_segments : exists p0 p1 p2, split_char "." proof = [p0; p1; p2] /\ p0 <> "" /\ p1 <> ""
    /\ p2 <> "" /\ b64u_json p0 = Ok header;
  gp_typ : get "typ" header = JStr "dpop+jwt";
  gp_alg : get "alg" header = JStr "ES256";
  gp_jwk : get "jwk" header = JObj jwk;
  gp_public : forall k v, (k, v) ∈ jwk -> k ∉ FORBIDDEN_JWK_MEMBERS;
  gp_curve : get "kty" jwk = JStr "EC" /\ get "crv" jwk = JStr "P-256"
    /\ is_Some (assoc "x" jwk) /\ is_Some (assoc "y" jwk);
  gp_key : jwk_import jwk = Ok key;
  gp_signature : jws_verify proof key = Some payload;
  gp_claims : json_loads payload = Some (JObj claims);
  gp_jti : get "jti" claims = JStr (pr_jti r) /\ JTI_MIN <= char_len (pr_jti r) <= JTI_MAX;
  gp_htm : get "htm" claims = JStr htm;
  gp_htu : exists claimed n, get "htu" claims = JStr claimed /\ normalize_htu claimed = Some n
    /\ normalize_htu htu = Some n;
  gp_iat : exists iat, as_int (get "iat" claims) = Some iat /\ pr_iat r = seconds iat
    /\ now - seconds window <= pr_iat r <= now + seconds skew;
  gp_ath : forall t, access_token = Some t -> get "ath" claims = JStr (ath_of t);
  gp_jkt : pr_jkt r = key_thumbprint key /\ forall x, expected_jkt = Some x -> pr_jkt r = x;
}.

(** ** Lemmas *)

Section Offline.
Context `{Jose}.

Lemma is_str_get s k fs : is_str s (get k fs) = true <-> get k fs = JStr s.
Proof.
  destruct (get k fs); simpl; try (split; [done|congruence]).
  rewrite bool_decide_eq_true. split; congruence.
Qed.

Lemma check_header_spec header key :
  check_header header = Ok key <->
  get "typ" header = JStr "dpop+jwt" /\ get "alg" header = JStr "ES256" /\
  exists jwk, get "jwk" header = JObj jwk
    /\ (forall k v, (k, v) ∈ jwk -> k ∉ FORBIDDEN_JWK_MEMBERS)
    /\ get "kty" jwk = JStr "EC" /\ get "crv" jwk = JStr "P-256"
    /\ is_Some (assoc "x" jwk) /\ is_Some (assoc "y" jwk) /\ jwk_import jwk = Ok key.
Proof.
  unfold check_header. rewrite <- (is_str_get "dpop+jwt"), <- (is_str_get "ES256").
  destruct (is_str "dpop+jwt" _); simpl; [|split; [done|by intros []]].
  assert (Halg : (match get "alg" header with JArr _ | JObj _ => True | _ => False end) \/
    existsb (fun a => is_str a (get "alg" header)) ALLOWED_ALGS = is_str "ES256" (get "alg" header)
    /\ (match get "alg" header with JArr _ | JObj _ => False | _ => True end)).
  { destruct (get "alg" header); simpl; rewrite ?orb_false_r; auto. }
  destruct Halg as [Ha|[Ha Hn]].
  { destruct (get "alg" header); try done; (split; [done|by intros (_ & ? & _)]). }
  replace (match get "alg" header with JArr _ | JObj _ => _ | _ => _ end) with
    (if negb (existsb (fun a => is_str a (get "alg" header)) ALLOWED_ALGS)
     then dpop_fail "alg not allowed"
     else match get "jwk" header with
          | JObj jwk =>
              if existsb (fun kv => bool_decide (kv.1 ∈ FORBIDDEN_JWK_MEMBERS)) jwk
              then dpop_fail "forbidden jwk members"
              else if negb (is_str "EC" (get "kty" jwk)) || negb (is_str "P-256" (get "crv" jwk))
                      || bool_decide (assoc "x" jwk = None) || bool_decide (assoc "y" jwk = None)
              then dpop_fail "jwk must be a public P-256 EC key"
              else match jwk_import jwk with
                   | Ok key => Ok key
                   | Raise JoseError | Raise (ValueError _) => dpop_fail "invalid jwk"
                   | Raise x => Raise x
                   end
          | _ => dpop_fail "missing embedded jwk"
          end) by (by destruct (get "alg" header)).
  rewrite Ha. destruct (is_str "ES256" _); simpl; [|split; [done|by intros (_ & ? & _)]].
  destruct (get "jwk" header) as [| | | | | |jwk];
    try (split; [done|by intros (_ & _ & ? & ? & _)]).
  destruct (existsb _ jwk) eqn:Ef.
  { split; [done|]. intros (_ & _ & j & [= <-] & Hforb & _).
    apply existsb_True in Ef as ([k v] & Hin & Hk). bool_simpl. by destruct (Hforb k v Hin). }
  rewrite existsb_False in Ef.
  assert (forall k v, (k, v) ∈ jwk -> k ∉ FORBIDDEN_JWK_MEMBERS) as Hforb.
  { intros k v Hin. specialize (Ef _ Hin). by bool_simpl. }
  destruct (negb _ || negb _ || _ || _) eqn:Ec.
  { split; [done|]. intros (_ & _ & j & [= <-] & _ & Hkty & Hcrv & [x Hx] & [y Hy] & _).
    rewrite Hkty, Hcrv, Hx, Hy in Ec. simpl in Ec. done. }
  apply orb_false_iff in Ec as [Ec Hy]. apply orb_false_iff in Ec as [Ec Hx].
  apply orb_false_iff in Ec as [Hkty Hcrv]. bool_simpl. rewrite is_str_get in Hkty, Hcrv.
  split.
  - intros Hi. split_and!; [done..|]. exists jwk. split_and!; try done.
    + by destruct (assoc "x" jwk); [eauto|].
    + by destruct (assoc "y" jwk); [eauto|].
    + destruct (jwk_import jwk) as [k|x]; [by injection Hi as ->|]. by destruct x.
  - intros (_ & _ & j & [= <-] & _ & _ & _ & _ & _ & ->). done.
Qed.

Lemma check_claims_spec claims htm htu now window skew at_ jti iat_dt :
  check_claims claims htm htu now window skew at_ = Ok (jti, iat_dt) <->
  get "jti" claims = JStr jti /\ JTI_MIN <= char_len jti <= JTI_MAX
  /\ get "htm" claims = JStr htm
  /\ (exists claimed n, get "htu" claims = JStr claimed /\ normalize_htu claimed = Some n
        /\ normalize_htu htu = Some n)
  /\ (exists iat, as_int (get "iat" claims) = Some iat /\ fromtimestamp_checked iat = Ok iat_dt
        /\ now - seconds window <= iat_dt <= now + seconds skew)
  /\ (forall t, at_ = Some t -> get "ath" claims = JStr (ath_of t)).
Proof.
  unfold check_claims. destruct (get "jti" claims) as [| | | |j| |];
    try (split; [done|by intros (? & _)]).
  destruct ((JTI_MIN <=? char_len j) && (char_len j <=? JTI_MAX)) eqn:Ej; simpl.
  2: { split; [done|]. intros ([= ->] & Hl & _). apply andb_false_iff in Ej as [Ej|Ej]; bool_simpl; lia. }
  rewrite <- (is_str_get htm). destruct (is_str htm _); simpl; [|split; [done|by intros (_ & _ & ? & _)]].
  destruct (get "htu" claims) as [| | | |u| |];
    try (split; [done|by intros (_ & _ & _ & (? & ? & ? & _) & _)]).
  destruct (normalize_htu u) as [n1|] eqn:E1.
  2: { split; [done|]. intros (_ & _ & _ & (? & ? & [= <-] & ? & _) & _). congruence. }
  destruct (normalize_htu htu) as [n2|] eqn:E2.
  2: { split; [done|]. intros (_ & _ & _ & (? & ? & _ & _ & ?) & _). congruence. }
  case_bool_decide as En; simpl.
  2: { split; [done|]. intros (_ & _ & _ & (? & ? & [= <-] & ? & ?) & _). congruence. }
  destruct (as_int (get "iat" claims)) as [iat|] eqn:Ei.
  2: { split; [done|]. by intros (_ & _ & _ & _ & (? & ? & _) & _). }
  destruct (fromtimestamp_checked iat) as [d|x] eqn:Ed.
  2: { split; [done|]. intros (_ & _ & _ & _ & (? & [= <-] & ? & _) & _). congruence. }
  destruct (d <? now - seconds window) eqn:Ew.
  { split; [done|]. intros (_ & _ & _ & _ & (? & [= <-] & Hd & ?) & _). bool_simpl.
    rewrite Ed in Hd. injection Hd as <-. lia. }
  destruct (now + seconds skew <? d) eqn:Es.
  { split; [done|]. intros (_ & _ & _ & _ & (? & [= <-] & Hd & ?) & _). bool_simpl.
    rewrite Ed in Hd. injection Hd as <-. lia. }
  bool_simpl.
  assert (Hath : (match at_ with
      | None => Ok (j, d)
      | Some t => match get "ath" claims with
                  | JStr ath => if constant_time_equals ath (ath_of t) then Ok (j, d)
                                else dpop_fail "ath mismatch"
                  | _ => dpop_fail "ath mismatch"
                  end
      end = Ok (jti, iat_dt)) <->
    (j = jti /\ d = iat_dt /\ forall t, at_ = Some t -> get "ath" claims = JStr (ath_of t))).
  { destruct at_ as [t|]; [|split; [intros [= <- <-]; done|by intros (-> & -> & _)]].
    destruct (get "ath" claims) as [| | | |a| |];
      try (split; [done|intros (_ & _ & Hx); by discriminate (Hx _ eq_refl)]).
    unfold constant_time_equals. case_bool_decide as Ea.
    - subst a. split; [intros [= <- <-]; split_and!; [done..|by intros ? [= <-]]|by intros (-> & -> & _)].
    - split; [done|]. intros (_ & _ & Hx). specialize (Hx _ eq_refl). congruence. }
  rewrite Hath. split.
  - intros (-> & -> & Ht). split_and!; try done; [exists u, n1; by subst|]. by exists iat.
  - intros ([= ->] & _ & _ & _ & (? & [= <-] & Hd & _) & Ht). rewrite Ed in Hd.
    by injection Hd as ->.
Qed.

Lemma fromtimestamp_checked_Ok iat d : fromtimestamp_checked iat = Ok d -> d = seconds iat.
Proof. unfold fromtimestamp_checked. destruct (_ && _); [|done]. by intros [= <-]. Qed.

Lemma offline_sound proof htm htu now window skew at_ jkt r :
  verify_proof_offline proof htm htu now window skew at_ jkt = Ok r ->
  exists key header claims jwk payload,
    good_proof proof htm htu now window skew at_ jkt r key header claims jwk payload.
Proof.
  unfold verify_proof_offline. intros Hv.
  destruct (split_char "." proof) as [|p0 [|p1 [|p2 [|? ?]]]] eqn:Es; try done.
  destruct (_ || bool_decide (p2 = "")) eqn:En; [done|].
  destruct (b64u_json p0) as [header|] eqn:Eh; [|done].
  destruct (check_header header) as [key|] eqn:Ek; [|done].
  destruct (jws_verify proof key) as [payload|] eqn:Ej; [|done].
  destruct (json_loads payload) as [[| | | | | |claims]|] eqn:Ep; try done.
  destruct (check_claims _ _ _ _ _ _ _) as [[jti d]|] eqn:Ec; [|done].
  apply check_header_spec in Ek as (Ht & Ha & jwk & Hj & Hf & Hkty & Hcrv & Hx & Hy & Hi).
  apply check_claims_spec in Ec as (H1 & H2 & H3 & H4 & (iat & H5 & H5' & H5'') & H6).
  apply orb_false_iff in En as [En N2]. apply orb_false_iff in En as [N0 N1]. bool_simpl.
  assert (r = mkProof (key_thumbprint key) jti d /\ (forall x, jkt = Some x -> key_thumbprint key = x))
    as [-> Hjkt].
  { destruct jkt as [x|]; [|by injection Hv as <-].
    unfold constant_time_equals in Hv. case_bool_decide; [|done]. injection Hv as <-.
    split; [done|]. by intros ? [= <-]. }
  exists key, header, claims, jwk, payload. constructor; simpl; try done.
  - exists p0, p1, p2. done.
  - exists iat. split_and!; [done|by apply fromtimestamp_checked_Ok|lia..].
Qed.
End Offline.

(** ** Theorems *)

(** An accepted proof of possession is a compact JWS of type dpop+jwt whose signature
    verifies under its own embedded key, an ES256 public P-256 key with no private or
    trust-shortcut member; it names the method and, up to RFC 9449 normalization, the URL
    of the request, was issued inside the freshness window, carries the hash of the access
    token presented, and its thumbprint is the expected binding. *)
Theorem dpop_proof_sound `{Jose} proof htm htu now window skew at_ jkt r
    (Hv : verify_proof_offline proof htm htu now window skew at_ jkt = Ok r) :
  exists key header claims jwk payload,
    good_proof proof htm htu now window skew at_ jkt r key header claims jwk payload.
Proof. by apply offline_sound. Qed.

(** C20: A proof is accepted once: after [verify_proof] accepts a pair of key and jti, every
    proof with that pair is refused as a replay for as long as the cache remembers it,
    whatever else is verified in between; and a valid proof whose pair the cache does not
    remember is accepted and then remembered, never refused as a replay. *)
Theorem dpop_replay_rejected `{Jose, ReplayLaws} proof htm htu now window skew at_ jkt e s r s'
    (Hv : verify_proof proof htm htu now window skew at_ jkt e s = (Ok r, s')) :
  ~ seen (db s) (pr_jkt r, pr_jti r)
  /\ (forall proof2 htm2 htu2 now2 window2 skew2 at2 jkt2 e2 s2 r2,
       (forall k, seen (db s') k -> seen (db s2) k) ->
       verify_proof_offline proof2 htm2 htu2 now2 window2 skew2 at2 jkt2 = Ok r2 ->
       pr_jkt r2 = pr_jkt r -> pr_jti r2 = pr_jti r ->
       (exists s3, verify_proof proof2 htm2 htu2 now2 window2 skew2 at2 jkt2 e2 s2
         = (Raise (DpopError "jti replay"), s3)))
  /\ (forall proof2 htm2 htu2 now2 window2 skew2 at2 jkt2 e2 s2 r2,
       verify_proof_offline proof2 htm2 htu2 now2 window2 skew2 at2 jkt2 = Ok r2 ->
       ~ seen (db s2) (pr_jkt r2, pr_jti r2) ->
       exists s3, verify_proof proof2 htm2 htu2 now2 window2 skew2 at2 jkt2 e2 s2 = (Ok r2, s3)
         /\ seen (db s3) (pr_jkt r2, pr_jti r2)).
Proof.
  unfold verify_proof in Hv. mstep Hv r0 s1 H1'. unfold lift in H1'. injection H1' as Hoff <-.
  destruct (replay_answers (pr_jkt r0) (pr_jti r0) (now + seconds window) e s)
    as (b & s1 & Hrun & Hb & Hseen & _).
  mstep Hv b' s1' H1'. rewrite Hrun in H1'. injection H1' as <- <-.
  destruct b; simpl in Hv; [|done]. unfold ret in Hv. injection Hv as <- <-.
  split; [by apply Hb|].
  split; intros proof2 htm2 htu2 now2 window2 skew2 at2 jkt2 e2 s2 r2;
    [intros Hkeep Hoff2 Hj Hi|intros Hoff2 Hnew]; unfold verify_proof, bind, lift; rewrite Hoff2;
    destruct (replay_answers (pr_jkt r2) (pr_jti r2) (now2 + seconds window2) e2 s2)
      as (b2 & s3 & -> & Hb2 & Hs2 & _); exists s3; destruct b2; try done.
  - exfalso. apply Hb2; [done|]. rewrite Hj, Hi. by apply Hkeep.
  - exfalso. apply Bool.diff_false_true. by apply Hb2.
Qed.

(** [cli gc] drops the pairs whose expiry has passed. *)
Definition gc_jtis (now : Z) : M unit :=
  moddb (upd_dpop_jti_seen (delete_where (fun _ exp => exp <=? now))).

Section Determined.
Context `{Jose}.

Lemma offline_determined proof htm1 htu1 now1 w1 k1 a1 j1 r1 htm2 htu2 now2 w2 k2 a2 j2 r2 :
  verify_proof_offline proof htm1 htu1 now1 w1 k1 a1 j1 = Ok r1 ->
  verify_proof_offline proof htm2 htu2 now2 w2 k2 a2 j2 = Ok r2 -> r1 = r2.
Proof.
  intros (key & hd & cl & jwk & pl & G)%offline_sound (key' & hd' & cl' & jwk' & pl' & G')%offline_sound.
  destruct G as [(? & ? & ? & E1 & _ & _ & _ & Eh) _ _ Ej _ _ Ek Es Ec [Ei _] _ _ (iat & Eiat & Er & _) _ [Et _]].
  destruct G' as [(? & ? & ? & E1' & _ & _ & _ & Eh') _ _ Ej' _ _ Ek' Es' Ec' [Ei' _] _ _ (iat' & Eiat' & Er' & _) _ [Et' _]].
  rewrite E1 in E1'. injection E1' as <- <- <-. rewrite Eh in Eh'. injection Eh' as <-.
  rewrite Ej in Ej'. injection Ej' as <-. rewrite Ek in Ek'. injection Ek' as <-.
  rewrite Es in Es'. injection Es' as <-. rewrite Ec in Ec'. injection Ec' as <-.
  rewrite Ei in Ei'. injection Ei' as Ei'. rewrite Eiat in Eiat'. injection Eiat' as <-.
  destruct r1, r2. simpl in *. congruence.
Qed.

Lemma verify_proof_pg proof htm htu now window skew at_ jkt e s r s' :
  verify_proof proof htm htu now window skew at_ jkt e s = (Ok r, s') ->
  verify_proof_offline proof htm htu now window skew at_ jkt = Ok r
  /\ dpop_jti_seen (db s) !! (pr_jkt r, pr_jti r) = None
  /\ db s' = upd_dpop_jti_seen <[(pr_jkt r, pr_jti r) := now + seconds window]> (db s)
  /\ tick s' = tick s.
Proof.
  unfold verify_proof. intros Hv. mstep Hv r0 s1 H1. unfold lift in H1. injection H1 as Ho <-.
  mstep Hv b s1 H1. simpl in H1. unfold pg_check_and_store, bind, gets, moddb, ret in H1.
  destruct (dpop_jti_seen (db s) !! _) eqn:E; injection H1 as <- <-; simpl in Hv; [done|].
  unfold ret in Hv. injection Hv as <- <-. done.
Qed.

Lemma verify_proof_unseen proof htm htu now window skew at_ jkt e s r :
  verify_proof_offline proof htm htu now window skew at_ jkt = Ok r ->
  dpop_jti_seen (db s) !! (pr_jkt r, pr_jti r) = None ->
  verify_proof proof htm htu now window skew at_ jkt e s =
    (Ok r, mkSt (upd_dpop_jti_seen <[(pr_jkt r, pr_jti r) := now + seconds window]> (db s)) (tick s)).
Proof.
  intros Ho Hn. unfold verify_proof, bind, lift. rewrite Ho. simpl.
  unfold pg_check_and_store, bind, gets, moddb, ret. by rewrite Hn.
Qed.

Lemma steps_verify_proof R `{!PreOrder R} proof htm htu now window skew at_ jkt :
  (forall d f, R d (upd_dpop_jti_seen f d)) ->
  steps R (verify_proof proof htm htu now window skew at_ jkt).
Proof.
  intros HR. unfold verify_proof. simpl. unfold pg_check_and_store. steps_auto.
Qed.
End Determined.

#[export] Hint Extern 2 (steps _ (verify_proof _ _ _ _ _ _ _ _)) =>
  apply steps_verify_proof;
    [typeclasses eauto|solve [intros; first [done | reflexivity | by apply grows_same]]] : hyproxy.

(** The cache forgets a pair only [iat_window] seconds after it was presented.  A proof
    issued before that presentation is stale by then, so that it is never accepted again,
    whenever expired pairs are collected. *)
Theorem jti_retention_covers_past_proofs `{Jose} proof htm htu now window skew at_ jkt e s r s'
    (Hv : verify_proof proof htm htu now window skew at_ jkt e s = (Ok r, s'))
    (Hiat : pr_iat r < now) :
  forall collected later e2 s2 s3, collected <= later ->
    dpop_jti_seen (db s2) !! (pr_jkt r, pr_jti r) = dpop_jti_seen (db s') !! (pr_jkt r, pr_jti r) ->
    gc_jtis collected e2 s2 = (Ok tt, s3) ->
    forall htm3 htu3 skew3 at3 jkt3 e3 r3 s4,
      verify_proof proof htm3 htu3 later window skew3 at3 jkt3 e3 s3 <> (Ok r3, s4).
Proof.
  intros collected later e2 s2 s3 Hle Hkeep Hgc htm3 htu3 skew3 at3 jkt3 e3 r3 s4 Hv3.
  apply verify_proof_pg in Hv as (Ho & _ & Hdb & _).
  apply verify_proof_pg in Hv3 as (Ho3 & Hn3 & _).
  pose proof (offline_determined _ _ _ _ _ _ _ _ _ _ _ _ _ _ _ _ _ Ho Ho3) as <-.
  unfold gc_jtis in Hgc. minv Hgc. simpl in Hn3. rewrite lookup_delete_where, Hkeep, Hdb in Hn3.
  simpl in Hn3. rewrite lookup_insert_eq in Hn3. simpl in Hn3.
  destruct (now + seconds window <=? collected) eqn:E; [|done]. bool_simpl.
  apply offline_sound in Ho3 as (? & ? & ? & ? & ? & [_ _ _ _ _ _ _ _ _ _ _ _ (? & _ & _ & Hi) _ _]).
  lia.
Qed.

(** ** Witnesses *)

Definition dotted (s : string) : string * string * string :=
  match split_char "." s with [a; b; c] => (a, b, c) | _ => ("", "", "") end.

(** A signature scheme without secrets: the payload is the second segment. *)
Definition clear_jose : Jose := {|
  jwk_import jwk := Ok (match get "x" jwk with JStr x => x | _ => "" end);
  jws_verify proof key :=
    match b64u_decode (dotted proof).1.2 with Ok p => Some p | Raise _ => None end;
  jws_sign h p k := b64url_nopad (dumps_compact h) +:+ "." +:+ b64url_nopad p +:+ "." +:+ b64url_nopad k;
  key_thumbprint key := key;
|}.

Definition demo_jwk : json :=
  JObj [("kty", JStr "EC"); ("crv", JStr "P-256"); ("x", JStr "K1"); ("y", JStr "y")].
Definition demo_claims (iat : Z) : json :=
  JObj [("jti", JStr "jti-0001"); ("htm", JStr "POST");
        ("htu", JStr "https://IDP.example.com:443/oidc/token?x=1"); ("iat", JInt iat)].
Definition demo_proof (iat : Z) : string :=
  jws_sign (Jose := clear_jose)
    (JObj [("typ", JStr "dpop+jwt"); ("alg", JStr "ES256"); ("jwk", demo_jwk)])
    (dumps_compact (demo_claims iat)) "K1".
Definition demo_htu : string := "https://idp.example.com/oidc/token".

Definition demo_verify (iat now : Z) := verify_proof (H := clear_jose) (demo_proof iat) "POST" demo_htu
  (seconds now) 300 30 None None demo_env.

Definition demo_offline (iat now : Z) : result DpopProof :=
  verify_proof_offline (H := clear_jose) (demo_proof iat) "POST" demo_htu (seconds now) 300 30 None None.

Lemma demo_offline_past :
  demo_offline 999990 1000000 = Ok (mkProof "K1" "jti-0001" (seconds 999990)).
Proof. vm_compute. reflexivity. Qed.
Lemma demo_offline_future :
  demo_offline 1000030 1000000 = Ok (mkProof "K1" "jti-0001" (seconds 1000030)).
Proof. vm_compute. reflexivity. Qed.
Lemma demo_offline_later :
  demo_offline 1000030 1000301 = Ok (mkProof "K1" "jti-0001" (seconds 1000030)).
Proof. vm_compute. reflexivity. Qed.

Example dpop_proof_sound_witness :
  exists key header claims jwk payload,
    good_proof (H := clear_jose) (demo_proof 999990) "POST" demo_htu (seconds 1000000) 300 30 None None
      (mkProof "K1" "jti-0001" (seconds 999990)) key header claims jwk payload.
Proof.
  exact (dpop_proof_sound (H := clear_jose) _ _ _ _ _ _ _ _ _ demo_offline_past).
Defined.

Lemma demo_verify_past : exists s',
  demo_verify 999990 1000000 (mkSt empty_db 0) = (Ok (mkProof "K1" "jti-0001" (seconds 999990)), s')
  /\ dpop_jti_seen (db s') = {[ ("K1", "jti-0001") := seconds 1000300 ]}.
Proof.
  eexists. split.
  - apply (verify_proof_unseen (H := clear_jose) _ _ _ _ _ _ _ _ demo_env (mkSt empty_db 0) _
      demo_offline_past). reflexivity.
  - reflexivity.
Qed.

Example dpop_replay_rejected_witness :
  exists s' s3, demo_verify 999990 1000000 (mkSt empty_db 0)
      = (Ok (mkProof "K1" "jti-0001" (seconds 999990)), s')
  /\ demo_verify 999990 1000000 s' = (Raise (DpopError "jti replay"), s3).
Proof.
  destruct demo_verify_past as (s' & Hv & _). exists s'.
  destruct (proj1 (proj2 (dpop_replay_rejected (H := clear_jose) _ _ _ _ _ _ _ _ _ _ _ _ Hv))
    (demo_proof 999990) "POST" demo_htu (seconds 1000000) 300 30 None None demo_env s' _
    (fun k Hk => Hk) demo_offline_past eq_refl eq_refl) as [s3 Hs3].
  exists s3. split; [exact Hv|exact Hs3].
Defined.

Example jti_retention_covers_past_proofs_witness :
  exists s' s3, demo_verify 999990 1000000 (mkSt empty_db 0)
      = (Ok (mkProof "K1" "jti-0001" (seconds 999990)), s')
  /\ gc_jtis (seconds 1000400) demo_env s' = (Ok tt, s3)
  /\ forall r3 s4, demo_verify 999990 1000400 s3 <> (Ok r3, s4).
Proof.
  destruct demo_verify_past as (s' & Hv & Ht).
  exists s', (mkSt (upd_dpop_jti_seen (delete_where (fun _ exp => exp <=? seconds 1000400)) (db s')) (tick s')).
  split; [exact Hv|]. split; [reflexivity|]. intros r3 s4.
  assert (Hp : seconds 999990 < seconds 1000000) by reflexivity.
  assert (Hle : seconds 1000400 <= seconds 1000400) by (vm_compute; discriminate).
  exact (jti_retention_covers_past_proofs (H := clear_jose) (demo_proof 999990) "POST" demo_htu
    (seconds 1000000) 300 30 None None demo_env (mkSt empty_db 0)
    (mkProof "K1" "jti-0001" (seconds 999990)) s' Hv Hp (seconds 1000400) (seconds 1000400)
    demo_env s' _ Hle eq_refl eq_refl "POST" demo_htu 30 None None demo_env r3 s4).
Defined.

(** A proof dated in the tolerated future outlives its entry in the cache: accepted at
    one time, it is accepted again 301 seconds later once expired pairs are collected. *)
Theorem jti_retention_gap :
  exists r s1 s2 s3,
    demo_verify 1000030 1000000 (mkSt empty_db 0) = (Ok r, s1)
    /\ gc_jtis (seconds 1000301) demo_env s1 = (Ok tt, s2)
    /\ demo_verify 1000030 1000301 s2 = (Ok r, s3).
Proof.
  eexists _, _, _, _. split_and!.
  - apply (verify_proof_unseen (H := clear_jose) _ _ _ _ _ _ _ _ demo_env (mkSt empty_db 0) _
      demo_offline_future). reflexivity.
  - reflexivity.
  - apply (verify_proof_unseen (H := clear_jose) _ _ _ _ _ _ _ _ demo_env _ _ demo_offline_later).
    vm_compute. reflexivity.
Qed.

(** A proof whose signed payload is not JSON raises a [ValueError] and not a [DpopError]. *)
Lemma dpop_payload_not_json :
  verify_proof_offline (H := clear_jose)
    (jws_sign (Jose := clear_jose)
       (JObj [("typ", JStr "dpop+jwt"); ("alg", JStr "ES256"); ("jwk", demo_jwk)]) "not json" "K1")
    "POST" demo_htu (seconds 1000000) 300 30 None None = Raise (ValueError "json").
Proof. vm_compute. reflexivity. Qed.
