(* ===== verification/Pkce.v ===== *)
(** * Pkce: security/pkce.py, the S256 proof key of a code exchange

    The two regular expressions are read as what they match: a [$] holds at the end
    of the text and also before one final newline. *)

From S2P Require Import Prelude PyStr Encoding Digest.
Local Open Scope Z_scope.

Definition NEWLINE : ascii := ascii_of_nat 10.

(** [re.match] of [^[class]{43,128}$] for a class without the newline. *)
Definition matches_43_128 (class : ascii -> bool) (s : string) : bool :=
  let body := match rpartition (String NEWLINE "") s with Some (b, "") => b | _ => s end in
  all_chars class body && (43 <=? Z.of_nat (String.length body))
  && (Z.of_nat (String.length body) <=? 128).

Definition verifier_char (c : ascii) : bool :=
  is_alnum c || bool_decide (c = "-"%char) || bool_decide (c = "."%char)
  || bool_decide (c = "_"%char) || bool_decide (c = "~"%char).

Definition challenge_char (c : ascii) : bool :=
  is_alnum c || bool_decide (c = "-"%char) || bool_decide (c = "_"%char).

Definition valid_challenge (challenge : string) : bool := matches_43_128 challenge_char challenge.

Definition verify_s256 (verifier challenge : string) : bool :=
  if negb (matches_43_128 verifier_char verifier) || negb (valid_challenge challenge) then false
  else constant_time_equals (sha256_b64url verifier) challenge.

(** ** Theorems *)

Lemma matches_43_128_no_newline class s :
  no_char NEWLINE s = true ->
  matches_43_128 class s = all_chars class s && (43 <=? Z.of_nat (String.length s))
    && (Z.of_nat (String.length s) <=? 128).
Proof.
  intros Hn. unfold matches_43_128. by rewrite (proj2 (rpartition_char_None _ _) Hn).
Qed.

Lemma matches_43_128_newline class s :
  no_char NEWLINE s = true ->
  matches_43_128 class (s +:+ String NEWLINE "") = matches_43_128 class s.
Proof.
  intros Hn. rewrite (matches_43_128_no_newline class s) by done. unfold matches_43_128.
  by rewrite (rpartition_char NEWLINE s EmptyString eq_refl).
Qed.

Lemma valid_challenge_s256 verifier : valid_challenge (sha256_b64url verifier) = true.
Proof.
  destruct (sha256_b64url_shape verifier) as [Hc Hl]. unfold valid_challenge.
  rewrite matches_43_128_no_newline.
  2: { unfold no_char. eapply all_chars_true_impl, Hc. vm_compute. reflexivity. }
  rewrite Hl. change challenge_char with is_b64url_char. rewrite Hc. reflexivity.
Qed.

(** What RFC 7636 asks of a verifier. *)
Definition good_verifier (v : string) : Prop :=
  all_chars verifier_char v = true /\ 43 <= Z.of_nat (String.length v) <= 128.

Lemma matches_43_128_good v :
  matches_43_128 verifier_char v = true <->
  good_verifier v \/ exists w, v = w +:+ String NEWLINE "" /\ good_verifier w.
Proof.
  assert (Hno : forall w, all_chars verifier_char w = true -> no_char NEWLINE w = true).
  { intros w Hw. unfold no_char. eapply all_chars_true_impl, Hw. vm_compute. reflexivity. }
  assert (Hg : forall w, good_verifier w <-> all_chars verifier_char w
    && (43 <=? Z.of_nat (String.length w)) && (Z.of_nat (String.length w) <=? 128) = true).
  { intros w. unfold good_verifier. rewrite !andb_true_iff, !Z.leb_le. tauto. }
  split.
  - intros Hm. unfold matches_43_128 in Hm.
    destruct (rpartition (String NEWLINE "") v) as [[b t]|] eqn:E; [|left; by apply Hg].
    destruct t as [|c t]; [|left; by apply Hg].
    right. exists b. split; [|by apply Hg]. by apply rpartition_Some in E.
  - intros [Hv|(w & -> & Hw)].
    + rewrite matches_43_128_no_newline by (apply Hno, Hv). by apply Hg.
    + rewrite matches_43_128_newline by (apply Hno, Hw).
      rewrite matches_43_128_no_newline by (apply Hno, Hw). by apply Hg.
Qed.

(** The exchange accepts a verifier exactly when it is a well-formed one (up to a final
    newline, which the expression lets through) and the challenge is the unpadded
    base64url of its SHA-256. *)
Theorem verify_s256_spec verifier challenge :
  verify_s256 verifier challenge = true <->
  (good_verifier verifier \/ exists w, verifier = w +:+ String NEWLINE "" /\ good_verifier w)
  /\ challenge = b64url_nopad (sha256 verifier).
Proof.
  rewrite <- matches_43_128_good. unfold verify_s256, constant_time_equals.
  destruct (matches_43_128 verifier_char verifier); simpl; [|split; [done|by intros []]].
  destruct (valid_challenge challenge) eqn:Ec; simpl.
  - rewrite bool_decide_eq_true. split; [intros <-; done|by intros [_ ->]].
  - split; [done|]. intros [_ ->]. 
    pose proof (valid_challenge_s256 verifier) as Hv. unfold sha256_b64url in Hv. congruence.
Qed.

(** The expression's end anchor accepts a newline after the 128 characters. *)
Lemma challenge_final_newline c :
  all_chars challenge_char c = true -> valid_challenge c = true ->
  valid_challenge (c +:+ String NEWLINE "") = true.
Proof.
  intros Hc Hv. unfold valid_challenge. rewrite matches_43_128_newline; [exact Hv|].
  unfold no_char. eapply all_chars_true_impl, Hc. vm_compute. reflexivity.
Qed.

Lemma verify_s256_true verifier challenge :
  all_chars verifier_char verifier && (43 <=? Z.of_nat (String.length verifier))
    && (Z.of_nat (String.length verifier) <=? 128) = true ->
  challenge = sha256_b64url verifier -> verify_s256 verifier challenge = true.
Proof.
  intros Hv ->. unfold verify_s256. rewrite valid_challenge_s256.
  rewrite (proj2 (matches_43_128_good verifier)).
  - unfold constant_time_equals. by rewrite bool_decide_eq_true_2.
  - left. unfold good_verifier. rewrite !andb_true_iff, !Z.leb_le in Hv. tauto.
Qed.
