(* ===== verification/Tokens.v ===== *)
(** * Tokens: idp/oidc/tokens.py, access and ID tokens

    Minting with the active signing key and verification against the active and the
    retiring ones.  The signature library is the interface [Jwt]. *)

From S2P Require Import Prelude PyStr Encoding Digest Json JsonText PyTime Config Db Effects.
From S2P Require Import Crypto Keys Dpop.
Local Open Scope Z_scope.

(** [joserfc.jwt]: encoding claims under a header and a private key, and decoding under
    a public one (the claims, or [None] for a [JoseError] or a [ValueError]). *)
Class Jwt := {
  jwt_encode : list (string * json) -> list (string * json) -> string -> string;
  jwt_decode : string -> string -> option (list (string * json));
}.

Record AccessClaims := mkClaims {
  cl_sub : string;
  cl_aud : string;
  cl_sid : Z;
  cl_scope : string;
  cl_auth_tier : string;
  cl_amr : list string;
  cl_jkt : string;
  cl_jti : string;
  cl_exp : Z;
}.

Definition token_fail {A} (msg : string) : result A := Raise (TokenError msg).

Definition header_of (token : string) : result (list (string * json)) :=
  let segment := before "." token in
  match urlsafe_b64decode (b64url_repad segment) with
  | None => token_fail "malformed token"
  | Some b =>
      match json_loads b with
      | None => token_fail "malformed token"
      | Some (JObj parsed) => Ok parsed
      | Some _ => token_fail "malformed token header"
      end
  end.

(** The keys a token may be signed with. *)
Definition verifies (kid : string) (_ : Z) (k : SigningKey) : bool :=
  bool_decide (sk_kid k = kid) && bool_decide (sk_state k ∈ ["active"; "retiring"]).

Section Tokens.
Context {aead : Aead} {ec : EcKeys} {jose : Jose} {jwt : Jwt}.

(** The claims minted, before signing. *)
Definition access_claims (cfg : Settings) (user : User) (sid : Z) (session : Session)
    (client_id scope jkt : string) (now jti : Z) : list (string * json) :=
  [("iss", JStr (issuer_base cfg));
   ("sub", JStr (u_external_id user));
   ("aud", JStr client_id);
   ("exp", JInt (timestamp_int (now + seconds (access_ttl cfg))));
   ("iat", JInt (timestamp_int now));
   ("jti", JStr (uuid_hex jti));
   ("sid", JStr (uuid_str sid));
   ("scope", JStr scope);
   ("auth_tier", JStr (s_auth_tier session));
   ("amr", JArr (map JStr (s_amr session)));
   ("cnf", JObj [("jkt", JStr jkt)])].

Definition mint_access_token (backend : SecretsBackend) (user : User) (sid : Z) (session : Session)
    (client_id scope jkt : string) (now : Z) : M string :=
  let! cfg := asks id in
  let! '(kid, key) := get_active_signing_key backend in
  let! jti := uuid4 in
  ret (jwt_encode [("alg", JStr "ES256"); ("kid", JStr kid); ("typ", JStr "at+jwt")]
         (access_claims cfg user sid session client_id scope jkt now jti) key).

Definition id_claims (cfg : Settings) (user : User) (sid : Z) (session : Session)
    (client_id nonce : string) (auth_time now : Z) : list (string * json) :=
  [("iss", JStr (issuer_base cfg));
   ("sub", JStr (u_external_id user));
   ("aud", JStr client_id);
   ("exp", JInt (timestamp_int (now + seconds (access_ttl cfg))));
   ("iat", JInt (timestamp_int now));
   ("auth_time", JInt (timestamp_int auth_time));
   ("nonce", JStr nonce);
   ("amr", JArr (map JStr (s_amr session)));
   ("acr", JStr ("tier:" +:+ s_auth_tier session));
   ("sid", JStr (uuid_str sid))].

Definition mint_id_token (backend : SecretsBackend) (user : User) (sid : Z) (session : Session)
    (client_id nonce : string) (auth_time now : Z) : M string :=
  let! cfg := asks id in
  let! '(kid, key) := get_active_signing_key backend in
  ret (jwt_encode [("alg", JStr "ES256"); ("kid", JStr kid); ("typ", JStr "JWT")]
         (id_claims cfg user sid session client_id nonce auth_time now) key).

(** The row of the key that [kid] names, and the claims it verifies. *)
Definition decode_with (kid token : string) : M (list (string * json)) :=
  let! keys := gets signing_keys in
  match scalar (select (verifies kid) keys) with
  | None => raise (TokenError "unknown or retired signing key")
  | Some (_, row) =>
      let! key := lift (jwk_import (sk_public_jwk row)) in
      match jwt_decode token key with
      | None => raise (TokenError "signature verification failed")
      | Some claims => ret claims
      end
  end.

(** [not isinstance(exp, int) or datetime.fromtimestamp(exp, tz=UTC) <= now]; the time of
    expiry of a token that passes. *)
Definition check_exp (claims : list (string * json)) (now : Z) : result Z :=
  match as_int (get "exp" claims) with
  | None => token_fail "expired"
  | Some exp =>
      match fromtimestamp_checked exp with
      | Raise x => Raise x
      | Ok t => if t <=? now then token_fail "expired" else Ok t
      end
  end.

Definition verify_id_token (token client_id : string) (now : Z) : M (list (string * json)) :=
  let! cfg := asks id in
  let! header := lift (header_of token) in
  if negb (is_str "ES256" (get "alg" header)) then raise (TokenError "bad alg")
  else
    let! claims := decode_with (py_str (get "kid" header)) token in
    if negb (is_str (issuer_base cfg) (get "iss" claims)) then raise (TokenError "wrong issuer")
    else if negb (is_str client_id (get "aud" claims)) then raise (TokenError "wrong audience")
    else lift (check_exp claims now);; ret claims.

(** [str(claims.get(k, ""))]. *)
Definition claim_str (k : string) (claims : list (string * json)) : string :=
  py_str (default (JStr "") (assoc k claims)).

(** The claims as the resource server reads them. *)
Definition read_claims (claims : list (string * json)) (exp : Z) : result AccessClaims :=
  let jkt := match get "cnf" claims with JObj cnf => get "jkt" cnf | _ => JNull end in
  match uuid_parse (py_str (get "sid" claims)) with
  | None => token_fail "bad sid"
  | Some sid =>
      match jkt with
      | JStr jkt =>
          let amr := match get "amr" claims with JArr l => l | _ => [] end in
          Ok (mkClaims (claim_str "sub" claims) (claim_str "aud" claims) sid
                (claim_str "scope" claims) (claim_str "auth_tier" claims) (map py_str amr) jkt
                (claim_str "jti" claims) exp)
      | _ => token_fail "missing cnf.jkt"
      end
  end.

Definition verify_access_token (token : string) (now : Z) : M AccessClaims :=
  let! cfg := asks id in
  let! header := lift (header_of token) in
  if negb (is_str "ES256" (get "alg" header)) then raise (TokenError "bad alg")
  else
    match get "kid" header with
    | JStr kid =>
        let! claims := decode_with kid token in
        if negb (is_str (issuer_base cfg) (get "iss" claims)) then raise (TokenError "wrong issuer")
        else
          let! exp := lift (check_exp claims now) in
          lift (read_claims claims exp)
    | _ => raise (TokenError "missing kid")
    end.

(** ** Specification *)

(** What an accepted access token is: signed by a key of the issuer that is not retired,
    from the issuer, not expired, and bound to the session and the key it names. *)
Record good_access (cfg : Settings) (d : Db) (token : string) (now : Z) (c : AccessClaims)
    (kid : string) (rid : Z) (row : SigningKey) (claims : list (string * json)) : Prop := {
  ga_header : exists header, header_of token = Ok header
    /\ get "alg" header = JStr "ES256" /\ get "kid" header = JStr kid;
  ga_row : signing_keys d !! rid = Some row /\ sk_kid row = kid
    /\ (sk_state row = "active" \/ sk_state row = "retiring");
  ga_signed : exists key, jwk_import (sk_public_jwk row) = Ok key
    /\ jwt_decode token key = Some claims;
  ga_issuer : get "iss" claims = JStr (issuer_base cfg);
  ga_exp : exists n, as_int (get "exp" claims) = Some n /\ cl_exp c = seconds n /\ now < cl_exp c;
  ga_jkt : exists cnf, get "cnf" claims = JObj cnf /\ get "jkt" cnf = JStr (cl_jkt c);
  ga_sid : uuid_parse (py_str (get "sid" claims)) = Some (cl_sid c);
  ga_rest : cl_sub c = claim_str "sub" claims /\ cl_aud c = claim_str "aud" claims
    /\ cl_scope c = claim_str "scope" claims;
}.

(** ** Lemmas *)

Lemma decode_with_Ok kid token e s claims s' :
  decode_with kid token e s = (Ok claims, s') ->
  s' = s /\ exists rid row key, signing_keys (db s) !! rid = Some row /\ sk_kid row = kid
  /\ (sk_state row = "active" \/ sk_state row = "retiring")
  /\ jwk_import (sk_public_jwk row) = Ok key /\ jwt_decode token key = Some claims.
Proof.
  unfold decode_with. intros Hr. mread Hr.
  destruct (scalar _) as [[rid row]|] eqn:Es; [|done]. apply scalar_select in Es as [Hrow Hv].
  mlift Hr key Hk.
  destruct (jwt_decode token key) as [c|] eqn:Ed; [|done]. minv Hr. split; [done|].
  unfold verifies in Hv. bool_simpl. exists rid, row, key. split_and!; try done. set_solver.
Qed.

Lemma check_exp_Ok claims now t :
  check_exp claims now = Ok t ->
  exists n, as_int (get "exp" claims) = Some n /\ t = seconds n /\ now < t.
Proof.
  unfold check_exp, fromtimestamp_checked. destruct (as_int _) as [n|]; [|done].
  destruct (_ && _); [|done]. destruct (_ <=? now) eqn:E; [done|]. intros [= <-]. bool_simpl.
  exists n. auto.
Qed.

Lemma read_claims_Ok claims exp c :
  read_claims claims exp = Ok c ->
  cl_exp c = exp /\ uuid_parse (py_str (get "sid" claims)) = Some (cl_sid c)
  /\ (exists cnf, get "cnf" claims = JObj cnf /\ get "jkt" cnf = JStr (cl_jkt c))
  /\ cl_sub c = claim_str "sub" claims /\ cl_aud c = claim_str "aud" claims
  /\ cl_scope c = claim_str "scope" claims.
Proof.
  unfold read_claims. destruct (uuid_parse _) as [sid|]; [|done].
  destruct (get "cnf" claims) as [| | | | | |cnf]; try done.
  destruct (get "jkt" cnf) eqn:Ej; try done. intros [= <-]. simpl. split_and!; eauto.
Qed.

Lemma verify_access_token_Ok token now e s c s' :
  verify_access_token token now e s = (Ok c, s') ->
  s' = s /\ exists kid rid row claims, good_access (settings e) (db s) token now c kid rid row claims.
Proof.
  unfold verify_access_token. intros Hr. mread Hr. mlift Hr header Hh. destruct (is_str "ES256" _) eqn:Ea; [|done]. cbn [negb] in Hr.
  apply is_str_get in Ea. destruct (get "kid" header) as [| | | |kid| |] eqn:Ek; try done.
  mstep Hr claims s1 H1. apply decode_with_Ok in H1 as (-> & rid & row & key & H1).
  destruct (is_str (issuer_base _) _) eqn:Ei; [|done]. cbn [negb] in Hr. apply is_str_get in Ei.
  mlift Hr exp He. unfold lift in Hr. injection Hr as Hr <-.
  split; [done|]. apply check_exp_Ok in He as (n & He & -> & Hlt).
  apply read_claims_Ok in Hr as (Hx & Hsid & Hj & H3).
  destruct H1 as (Hrow & Hkid & Hst & Himp & Hdec). destruct H3 as (H3 & H4 & H5).
  exists kid, rid, row, claims. constructor; eauto. rewrite Hx. eauto.
Qed.

Lemma steps_verify_access R `{!PreOrder R} token now : steps R (verify_access_token token now).
Proof. unfold verify_access_token, decode_with. steps_auto. Qed.

Lemma steps_active_key R `{!PreOrder R} b : steps R (get_active_signing_key b).
Proof. unfold get_active_signing_key. steps_auto. Qed.
#[local] Hint Resolve steps_active_key : hyproxy.

Lemma steps_mint_access R `{!PreOrder R} b u sid se cid sc jkt now :
  steps R (mint_access_token b u sid se cid sc jkt now).
Proof. unfold mint_access_token. steps_auto. Qed.

Lemma steps_mint_id R `{!PreOrder R} b u sid se cid n at_ now :
  steps R (mint_id_token b u sid se cid n at_ now).
Proof. unfold mint_id_token. steps_auto. Qed.
End Tokens.

#[export] Hint Resolve steps_verify_access steps_mint_access steps_mint_id : hyproxy.

(** A signature scheme without secrets, for the witnesses: the third segment names the key. *)
Definition demo_jwt : Jwt := {|
  jwt_encode h c k :=
    b64url_nopad (dumps_compact (JObj h)) +:+ "." +:+ b64url_nopad (dumps_compact (JObj c))
    +:+ "." +:+ k;
  jwt_decode token key :=
    match split_char "." token with
    | [_; payload; k] =>
        if bool_decide (k = key) then
          match urlsafe_b64decode (b64url_repad payload) with
          | Some p => match json_loads p with Some (JObj c) => Some c | _ => None end
          | None => None
          end
        else None
    | _ => None
    end;
|}.
