(* ===== verification/Grants.v ===== *)
(** * Grants: idp/oidc/codes.py and idp/oidc/refresh.py

    The single-use authorization code and the rotation of refresh tokens. *)

From S2P Require Import Prelude PyStr Encoding Digest Json PyTime Config Db Effects Crypto.
Local Open Scope Z_scope.

(** ** codes.py *)

Definition issue_code (sid : Z) (session : Session)
    (client_id redirect_uri scope nonce code_challenge : string) (now : Z) : M string :=
  let! code := new_token in
  let! ttl := asks auth_code_ttl in
  db_add "auth_codes" auth_codes upd_auth_codes no_clash (sha256_hex code)
    (mkAuthCode client_id (s_user_id session) sid redirect_uri scope nonce code_challenge "S256"
       (s_issued_at session) (now + seconds ttl) None);;
  ret code.

(** The rows the conditional UPDATE matches. *)
Definition consumable (code_hash : string) (now : Z) (h : string) (c : AuthCode) : bool :=
  bool_decide (h = code_hash) && bool_decide (ac_consumed_at c = None) && (now <? ac_expires_at c).

Definition consume_code (code : string) (now : Z) : M (option AuthCode) :=
  let code_hash := sha256_hex code in
  let! t := gets auth_codes in
  match scalar (select (consumable code_hash now) t) with
  | None => ret None
  | Some _ =>
      moddb (upd_auth_codes
               (update_where (consumable code_hash now) (set_ac_consumed_at (Some now))));;
      gets (fun d => auth_codes d !! code_hash)
  end.

Definition find_consumed (code : string) : M (option AuthCode) :=
  let! t := gets auth_codes in
  match t !! sha256_hex code with
  | Some row => ret (if bool_decide (ac_consumed_at row = None) then None else Some row)
  | None => ret None
  end.

(** ** refresh.py *)

Definition same_token_hash (h : string) (r : RefreshToken) : bool := bool_decide (rt_token_hash r = h).

Definition issue_family (sid : Z) (session : Session) (client_id scope jkt : string) (now : Z)
  : M string :=
  let! token := token_urlsafe 48 in
  let! family_id := uuid4 in
  let! id := uuid4 in
  db_add "refresh_tokens" refresh_tokens upd_refresh_tokens (same_token_hash (sha256_hex token)) id
    (mkRefreshToken (sha256_hex token) sid family_id None client_id (s_user_id session) jkt scope
       now (s_absolute_expires_at session) None None);;
  ret token.

Definition find (token : string) : M (option (Z * RefreshToken)) :=
  let! t := gets refresh_tokens in
  ret (scalar (select (fun _ => same_token_hash (sha256_hex token)) t)).

Definition rotate (id : Z) (row : RefreshToken) (now : Z) : M string :=
  moddb (upd_refresh_tokens (alter (set_rt_used_at (Some now)) id));;
  let! token := token_urlsafe 48 in
  let! child := uuid4 in
  db_add "refresh_tokens" refresh_tokens upd_refresh_tokens (same_token_hash (sha256_hex token)) child
    (mkRefreshToken (sha256_hex token) (rt_session_id row) (rt_family_id row) (Some id)
       (rt_client_id row) (rt_user_id row) (rt_dpop_jkt row) (rt_scope row) now
       (rt_expires_at row) None None);;
  ret token.

Definition in_family (family_id : Z) (_ : Z) (r : RefreshToken) : bool :=
  (rt_family_id r =? family_id) && bool_decide (rt_revoked_at r = None).
Definition of_session (session_id : Z) (_ : Z) (r : RefreshToken) : bool :=
  (rt_session_id r =? session_id) && bool_decide (rt_revoked_at r = None).

Definition revoke_family (family_id : Z) : M unit :=
  let! now := utcnow in
  moddb (upd_refresh_tokens (update_where (in_family family_id) (set_rt_revoked_at (Some now)))).

Definition revoke_for_session (session_id : Z) : M unit :=
  let! now := utcnow in
  moddb (upd_refresh_tokens (update_where (of_session session_id) (set_rt_revoked_at (Some now)))).

(** ** Specification *)

(** A code that was consumed, a refresh token that was used or revoked: neither comes back. *)
Definition code_spent (c : AuthCode) : Prop := ac_consumed_at c <> None.
Definition refresh_spent (r : RefreshToken) : Prop := rt_used_at r <> None \/ rt_revoked_at r <> None.

(** The columns fixed when the row is written. *)
Definition code_fixed (c : AuthCode) :=
  (ac_client_id c, ac_session_id c, ac_redirect_uri c, ac_scope c, ac_code_challenge c, ac_expires_at c).
Definition refresh_fixed (r : RefreshToken) :=
  (rt_token_hash r, rt_session_id r, rt_family_id r, rt_client_id r, rt_dpop_jkt r, rt_scope r,
   rt_expires_at r).

Definition codes_mono : Db -> Db -> Prop := grows auth_codes code_spent code_fixed.
Definition refresh_mono : Db -> Db -> Prop := grows refresh_tokens refresh_spent refresh_fixed.

#[export] Instance codes_mono_preorder : PreOrder codes_mono.
Proof. apply grows_preorder. Qed.
#[export] Instance refresh_mono_preorder : PreOrder refresh_mono.
Proof. apply grows_preorder. Qed.

(** Every refresh token ends no later than its session. *)
Definition refresh_bounded (d : Db) : Prop := forall i r, refresh_tokens d !! i = Some r ->
  exists s, sessions d !! rt_session_id r = Some s /\ rt_expires_at r <= s_absolute_expires_at s.

(** ** Lemmas *)

Lemma spent_revoked v r : (refresh_spent r -> refresh_spent (set_rt_revoked_at (Some v) r))
  /\ refresh_fixed (set_rt_revoked_at (Some v) r) = refresh_fixed r.
Proof. split; [|done]. by right. Qed.

Lemma spent_used v r : (refresh_spent r -> refresh_spent (set_rt_used_at (Some v) r))
  /\ refresh_fixed (set_rt_used_at (Some v) r) = refresh_fixed r.
Proof. split; [|done]. by left. Qed.

Lemma refresh_mono_family f : steps refresh_mono (revoke_family f).
Proof.
  unfold revoke_family. steps_auto. apply steps_moddb. intros d.
  eapply grows_update; [reflexivity|]. intros. apply spent_revoked.
Qed.

Lemma refresh_mono_session sid : steps refresh_mono (revoke_for_session sid).
Proof.
  unfold revoke_for_session. steps_auto. apply steps_moddb. intros d.
  eapply grows_update; [reflexivity|]. intros. apply spent_revoked.
Qed.

Lemma refresh_mono_issue sid se cid sc jkt now : steps refresh_mono (issue_family sid se cid sc jkt now).
Proof. unfold issue_family. steps_auto. by eapply grows_insert. Qed.

Lemma refresh_mono_rotate id row now : steps refresh_mono (rotate id row now).
Proof.
  unfold rotate. steps_auto.
  - apply steps_moddb. intros d. eapply grows_alter; [reflexivity|].
    intros. apply spent_used.
  - by eapply grows_insert.
Qed.

Lemma codes_mono_consume code now : steps codes_mono (consume_code code now).
Proof.
  unfold consume_code. steps_auto. apply steps_moddb. intros d.
  eapply grows_update; [reflexivity|]. intros c. by split.
Qed.

Lemma codes_mono_issue sid se cid ru sc n ch now :
  steps codes_mono (issue_code sid se cid ru sc n ch now).
Proof. unfold issue_code, new_token. steps_auto. by eapply grows_insert. Qed.

Lemma codes_mono_find code : steps codes_mono (find_consumed code).
Proof. unfold find_consumed. steps_auto. Qed.

Lemma consume_code_Some code now e s row s' :
  consume_code code now e s = (Ok (Some row), s') ->
  exists row0, auth_codes (db s) !! sha256_hex code = Some row0 /\ ac_consumed_at row0 = None
  /\ now < ac_expires_at row0 /\ row = set_ac_consumed_at (Some now) row0
  /\ s' = mkSt (upd_auth_codes (update_where (consumable (sha256_hex code) now)
                                  (set_ac_consumed_at (Some now))) (db s)) (tick s)
  /\ auth_codes (db s') !! sha256_hex code = Some row.
Proof.
  unfold consume_code. intros Hr. mread Hr. destruct (scalar _) as [[h row0]|] eqn:Es; [|done].
  apply scalar_select in Es as [Hrow Hc]. mread Hr. unfold gets in Hr. injection Hr as Hrow' <-.
  pose proof Hc as Hc'. unfold consumable in Hc'. bool_simpl.
  match goal with E : h = sha256_hex code |- _ => subst h end.
  simpl in Hrow' |- *. rewrite lookup_update_where, Hrow in Hrow' |- *. simpl in Hrow' |- *.
  rewrite Hc in Hrow' |- *. injection Hrow' as <-. eauto 10.
Qed.

Lemma consume_code_None code now e s s' :
  consume_code code now e s = (Ok None, s') ->
  s' = s /\ forall row, auth_codes (db s) !! sha256_hex code = Some row ->
    ac_consumed_at row <> None \/ ac_expires_at row <= now.
Proof.
  unfold consume_code. intros Hr. mread Hr. destruct (scalar _) as [[h row0]|] eqn:Es.
  - mread Hr. unfold gets in Hr. injection Hr as Hrow' _. simpl in Hrow'.
    apply scalar_select in Es as [Hrow Hc]. pose proof Hc as Hc'. unfold consumable in Hc'.
    bool_simpl. match goal with E : h = sha256_hex code |- _ => subst h end.
    rewrite lookup_update_where, Hrow in Hrow'. done.
  - unfold ret in Hr. injection Hr as <-. split; [done|]. intros row Hrow.
    apply scalar_select_None with (k := sha256_hex code) (a := row) in Es; [|done].
    unfold consumable in Es. rewrite bool_decide_eq_true_2 in Es by done. simpl in Es.
    apply andb_false_iff in Es as [Es|Es]; bool_simpl; auto.
Qed.

Lemma find_consumed_run code e s :
  find_consumed code e s =
    (Ok (match auth_codes (db s) !! sha256_hex code with
         | Some row => if bool_decide (ac_consumed_at row = None) then None else Some row
         | None => None
         end), s).
Proof. unfold find_consumed, bind, gets. by destruct (_ !! _). Qed.

Lemma find_Some token e s id row s' :
  find token e s = (Ok (Some (id, row)), s') ->
  s' = s /\ refresh_tokens (db s) !! id = Some row /\ rt_token_hash row = sha256_hex token.
Proof.
  unfold find. intros Hr. mread Hr. unfold ret in Hr. injection Hr as Hs <-.
  apply scalar_select in Hs as [Hrow Hh]. unfold same_token_hash in Hh. by bool_simpl.
Qed.

Lemma issue_family_Ok sid se cid sc jkt now e s t s' :
  issue_family sid se cid sc jkt now e s = (Ok t, s') ->
  exists id fam, refresh_tokens (db s) !! id = None
  /\ db s' = upd_refresh_tokens <[id := mkRefreshToken (sha256_hex t) sid fam None cid (s_user_id se)
       jkt sc now (s_absolute_expires_at se) None None]> (db s).
Proof.
  unfold issue_family. intros Hr. mstep Hr tok s1 H1. apply token_urlsafe_Ok in H1 as [Hd _].
  unfold uuid4 in Hr. minv Hr. apply db_add_Ok in Hm as (Hn & _ & Hdb & _). simpl in Hn, Hdb.
  rewrite Hd in Hn, Hdb. eauto.
Qed.

Lemma rotate_Ok id row0 row now e s t s' :
  refresh_tokens (db s) !! id = Some row0 -> rotate id row now e s = (Ok t, s') ->
  exists child, refresh_tokens (db s) !! child = None
  /\ db s' = upd_refresh_tokens (fun tbl => <[child := mkRefreshToken (sha256_hex t)
       (rt_session_id row) (rt_family_id row) (Some id) (rt_client_id row) (rt_user_id row)
       (rt_dpop_jkt row) (rt_scope row) now (rt_expires_at row) None None]>
       (alter (set_rt_used_at (Some now)) id tbl)) (db s).
Proof.
  intros Hid. unfold rotate. intros Hr. mread Hr. mstep Hr tok s1 H1.
  apply token_urlsafe_Ok in H1 as [Hd _].
  unfold uuid4 in Hr. minv Hr. apply db_add_Ok in Hm as (Hn & _ & Hdb & _). simpl in Hn, Hdb.
  rewrite Hd in Hn, Hdb. simpl in Hn, Hdb. exists (uuid4_of (rng e (tick s1))).
  split; [|exact Hdb]. destruct (decide (uuid4_of (rng e (tick s1)) = id)) as [E|Hne].
  - rewrite E, lookup_alter_eq, Hid in Hn. done.
  - by rewrite lookup_alter_ne in Hn.
Qed.

Lemma revoke_for_session_run sid e s :
  revoke_for_session sid e s =
    (Ok tt, mkSt (upd_refresh_tokens (update_where (of_session sid)
       (set_rt_revoked_at (Some (clock e (tick s))))) (db s)) (S (tick s))).
Proof. done. Qed.

Lemma revoke_family_run fam e s :
  revoke_family fam e s =
    (Ok tt, mkSt (upd_refresh_tokens (update_where (in_family fam)
       (set_rt_revoked_at (Some (clock e (tick s))))) (db s)) (S (tick s))).
Proof. done. Qed.

(** After the UPDATE every matching row is revoked. *)
Lemma revoked_where (p : Z -> RefreshToken -> bool) (q : RefreshToken -> Prop) v t i r :
  (forall k a, q a -> p k a = bool_decide (rt_revoked_at a = None)) ->
  (forall a, q (set_rt_revoked_at (Some v) a) -> q a) ->
  update_where p (set_rt_revoked_at (Some v)) t !! i = Some r -> q r -> rt_revoked_at r <> None.
Proof.
  intros Hp Hq. rewrite lookup_update_where. destruct (t !! i) as [a|]; [|done]. simpl.
  intros [= <-]. destruct (p i a) eqn:E; [done|]. intros Hr. rewrite (Hp _ _ Hr) in E.
  by bool_simpl.
Qed.

Lemma revoked_session sid v t i r :
  update_where (of_session sid) (set_rt_revoked_at (Some v)) t !! i = Some r ->
  rt_session_id r = sid -> rt_revoked_at r <> None.
Proof.
  intros Hi. eapply (revoked_where _ (fun r => rt_session_id r = sid)); [|done|exact Hi].
  intros k a <-. unfold of_session. by rewrite Z.eqb_refl.
Qed.

Lemma revoked_family fam v t i r :
  update_where (in_family fam) (set_rt_revoked_at (Some v)) t !! i = Some r ->
  rt_family_id r = fam -> rt_revoked_at r <> None.
Proof.
  intros Hi. eapply (revoked_where _ (fun r => rt_family_id r = fam)); [|done|exact Hi].
  intros k a <-. unfold in_family. by rewrite Z.eqb_refl.
Qed.
