(* ===== verification/TokenEndpoint.v ===== *)
(** * TokenEndpoint: idp/oidc/token.py, POST /oidc/token

    The authorization code and the refresh token grants, with their replay defences. *)

From S2P Require Import Prelude PyStr Encoding Digest Json PyTime Config Db Effects Crypto Web.
From S2P Require Import Keys Events Sessions Dpop Pkce Tokens Grants.
Local Open Scope Z_scope.

Definition error (code : string) (status : Z) : Response :=
  json_response status (JObj [("error", JStr code)]).

Definition invalid_grant : Response := error "invalid_grant" 400.

Definition token_htu (cfg : Settings) : string := issuer_base cfg +:+ "/oidc/token".

(** The client of a request. *)
Definition enabled_client (client_id : string) (_ : Z) (c : OAuthClient) : bool :=
  bool_decide (oc_client_id c = client_id) && oc_enabled c.

Definition find_client (client_id : string) : M (option OAuthClient) :=
  let! t := gets oauth_clients in
  ret (option_map snd (scalar (select (enabled_client client_id) t))).

(** [db.get(Session, id)]. *)
Definition get_session (sid : Z) : M (option Session) := gets (fun d => sessions d !! sid).
Definition get_user (uid : Z) : M (option User) := gets (fun d => users d !! uid).

Definition live_session (sid : Z) (ip : string) (now : Z) : M (option Session) :=
  let! session := get_session sid in
  match session with
  | None => ret None
  | Some _ =>
      let! live := check_liveness sid ip now false in
      if live then get_session sid else ret None
  end.

(** [None] where the caller is refused: [user is None or user.status != "active"]. *)
Definition active_user (uid : Z) : M (option User) :=
  let! user := get_user uid in
  ret (match user with
       | Some u => if bool_decide (u_status u = "active") then Some u else None
       | None => None
       end).

(** [secrets.get_secrets_backend()], for a given outcome of the unsealing tool. *)
Definition secrets_backend (run : list string -> ProcessResult) : M SecretsBackend :=
  let! cfg := asks id in lift (get_secrets_backend run cfg).

(** The body of a handler's [except DpopError]: [None] for a proof that is refused. *)
Definition proof_or_none (m : M DpopProof) : M (option DpopProof) :=
  try_ (let! p := m in ret (Some p))
    (fun x => match x with DpopError _ => Some (ret None) | _ => None end).

Section Endpoint.
Context {aead : Aead} {ec : EcKeys} {jose : Jose} {jwt : Jwt}.
Context (run : list string -> ProcessResult).

Definition verify_dpop (dpop : option string) (now : Z) : M DpopProof :=
  match nonempty dpop with
  | None => raise (DpopError "missing DPoP header")
  | Some p =>
      let! cfg := asks id in
      verify_proof p "POST" (token_htu cfg) now (dpop_iat_window cfg) (dpop_iat_future_skew cfg)
        None None
  end.

(** A consumed code presented again. *)
Definition on_code_replay (client : OAuthClient) (replayed : AuthCode) (ip : string) : M unit :=
  let! session := get_session (ac_session_id replayed) in
  match session with
  | Some _ =>
      revoke_for_session (ac_session_id replayed);;
      revoke (ac_session_id replayed) "auth_code_replay" ip
  | None => ret tt
  end;;
  emit OIDC_CODE_REPLAY_DETECTED ip false (Some (ac_user_id replayed))
    (Some (ac_session_id replayed)) (Some (oc_client_id client)) [].

(** The tokens of a code that passed every check. *)
Definition issue_tokens (client : OAuthClient) (proof : DpopProof) (row : AuthCode)
    (session : Session) (user : User) (ip : string) (now : Z) : M Response :=
  let! backend := secrets_backend run in
  let sid := ac_session_id row in
  let! access_token := mint_access_token backend user sid session (oc_client_id client)
                         (ac_scope row) (pr_jkt proof) now in
  let! id_token := mint_id_token backend user sid session (oc_client_id client) (ac_nonce row)
                     (ac_auth_time row) now in
  let! new_refresh := issue_family sid session (oc_client_id client) (ac_scope row)
                        (pr_jkt proof) now in
  emit OIDC_TOKEN_ISSUED ip true (Some (s_user_id session)) (Some sid) (Some (oc_client_id client))
    [("grant_type", JStr "authorization_code"); ("scope", JStr (ac_scope row))];;
  let! cfg := asks id in
  ret (json_response 200 (JObj
    [("access_token", JStr access_token);
     ("token_type", JStr "DPoP");
     ("expires_in", JInt (access_ttl cfg));
     ("refresh_token", JStr new_refresh);
     ("id_token", JStr id_token);
     ("scope", JStr (ac_scope row))])).

Definition authorization_code_grant (client : OAuthClient) (proof : DpopProof)
    (code redirect_uri code_verifier ip : string) (now : Z) : M Response :=
  if bool_decide (code = "") || bool_decide (redirect_uri = "") || bool_decide (code_verifier = "")
  then ret (error "invalid_request" 400)
  else
    let! row := consume_code code now in
    match row with
    | None =>
        let! replayed := find_consumed code in
        match replayed with Some r => on_code_replay client r ip | None => ret tt end;;
        ret invalid_grant
    | Some row =>
        if negb (bool_decide (ac_client_id row = oc_client_id client)) then ret invalid_grant
        else if negb (bool_decide (ac_redirect_uri row = redirect_uri)) then ret invalid_grant
        else if negb (verify_s256 code_verifier (ac_code_challenge row)) then ret invalid_grant
        else
          let! session := live_session (ac_session_id row) ip now in
          match session with
          | None => ret invalid_grant
          | Some session =>
              let! user := active_user (s_user_id session) in
              match user with
              | None => ret invalid_grant
              | Some user => issue_tokens client proof row session user ip now
              end
          end
    end.

(** A used refresh token presented again. *)
Definition on_refresh_reuse (client : OAuthClient) (row : RefreshToken) (ip : string) : M unit :=
  revoke_family (rt_family_id row);;
  let! session := get_session (rt_session_id row) in
  match session with
  | Some _ => revoke (rt_session_id row) "refresh_reuse" ip
  | None => ret tt
  end;;
  emit OIDC_REFRESH_REUSE_DETECTED ip false (Some (rt_user_id row)) (Some (rt_session_id row))
    (Some (oc_client_id client)) [("family_id", JStr (uuid_str (rt_family_id row)))].

Definition rotate_tokens (client : OAuthClient) (proof : DpopProof) (id_ : Z) (row : RefreshToken)
    (session : Session) (user : User) (ip : string) (now : Z) : M Response :=
  let! new_refresh := rotate id_ row now in
  let! backend := secrets_backend run in
  let! access_token := mint_access_token backend user (rt_session_id row) session
                         (oc_client_id client) (rt_scope row) (pr_jkt proof) now in
  emit OIDC_TOKEN_REFRESHED ip true (Some (s_user_id session)) (Some (rt_session_id row))
    (Some (oc_client_id client)) [("family_id", JStr (uuid_str (rt_family_id row)))];;
  let! cfg := asks id in
  ret (json_response 200 (JObj
    [("access_token", JStr access_token);
     ("token_type", JStr "DPoP");
     ("expires_in", JInt (access_ttl cfg));
     ("refresh_token", JStr new_refresh);
     ("scope", JStr (rt_scope row))])).

Definition refresh_grant (client : OAuthClient) (proof : DpopProof) (refresh_token ip : string)
    (now : Z) : M Response :=
  if bool_decide (refresh_token = "") then ret (error "invalid_request" 400)
  else
    let! found := find refresh_token in
    match found with
    | None => ret invalid_grant
    | Some (id_, row) =>
        if negb (bool_decide (rt_client_id row = oc_client_id client)) then ret invalid_grant
        else if bool_decide (rt_used_at row <> None) then
          on_refresh_reuse client row ip;; ret invalid_grant
        else if bool_decide (rt_revoked_at row <> None) || (rt_expires_at row <=? now)
        then ret invalid_grant
        else if negb (bool_decide (rt_dpop_jkt row = pr_jkt proof)) then ret invalid_grant
        else
          let! session := live_session (rt_session_id row) ip now in
          match session with
          | None => ret invalid_grant
          | Some session =>
              let! user := active_user (s_user_id session) in
              match user with
              | None => ret invalid_grant
              | Some user => rotate_tokens client proof id_ row session user ip now
              end
          end
    end.

Definition token_endpoint (request : Request)
    (grant_type client_id code redirect_uri code_verifier refresh_token : string)
    (dpop : option string) : M Response :=
  let! now := utcnow in
  let! ip := resolve_client_ip request in
  let! client := find_client client_id in
  match client with
  | None => ret (error "invalid_client" 401)
  | Some client =>
      let! proof := proof_or_none (verify_dpop dpop now) in
      match proof with
      | None => ret (error "invalid_dpop_proof" 400)
      | Some proof =>
          if bool_decide (grant_type = "authorization_code")
          then authorization_code_grant client proof code redirect_uri code_verifier ip now
          else if bool_decide (grant_type = "refresh_token")
          then refresh_grant client proof refresh_token ip now
          else ret (error "unsupported_grant_type" 400)
      end
  end.

(** ** Specification *)

(** What stands behind the tokens of a code: the row of a code that was neither consumed
    nor expired, of this client and redirect URI, whose challenge the verifier answers; its
    live session; and the active user of the session. *)
Record code_good (cfg : Settings) (d : Db) (cid code redirect_uri verifier : string) (now : Z)
    (row : AuthCode) (session : Session) (user : User) : Prop := {
  cg_row : auth_codes d !! sha256_hex code = Some row;
  cg_unused : ac_consumed_at row = None;
  cg_fresh : now < ac_expires_at row;
  cg_client : ac_client_id row = cid;
  cg_redirect : ac_redirect_uri row = redirect_uri;
  cg_pkce : verify_s256 verifier (ac_code_challenge row) = true;
  cg_session : sessions d !! ac_session_id row = Some session;
  cg_live : live_at cfg session now;
  cg_user : users d !! s_user_id session = Some user;
  cg_active : u_status user = "active";
}.

(** An access token minted for these claims, under the key in the table. *)
Definition minted (cfg : Settings) (token : string) (user : User) (sid : Z) (session : Session)
    (cid scope jkt : string) (now : Z) : Prop :=
  exists kid key jti, token =
    jwt_encode [("alg", JStr "ES256"); ("kid", JStr kid); ("typ", JStr "at+jwt")]
      (access_claims cfg user sid session cid scope jkt now jti) key.

(** ** Lemmas *)

(** The tables that the session gate leaves alone. *)
Definition kept_by_gate (d d' : Db) : Prop :=
  refresh_tokens d' = refresh_tokens d /\ auth_codes d' = auth_codes d /\ users d' = users d
  /\ signing_keys d' = signing_keys d.

Lemma check_liveness_kept sid ip now enf e s r s' :
  check_liveness sid ip now enf e s = (r, s') -> kept_by_gate (db s) (db s').
Proof.
  intros Hr. assert (forall {X} (view : Db -> X), outside view -> view (db s') = view (db s)) as Hv.
  { intros X view Ho. pose proof (same_check_liveness view sid ip now enf Ho e s) as H.
    by rewrite Hr in H. }
  unfold kept_by_gate. split_and!; by apply Hv.
Qed.

Lemma live_session_Some sid ip now e s se s' :
  live_session sid ip now e s = (Ok (Some se), s') ->
  exists se0, sessions (db s) !! sid = Some se0 /\ live_at (settings e) se0 now
  /\ sessions (db s') !! sid = Some se /\ s_login se = s_login se0
  /\ kept_by_gate (db s) (db s') /\ sess_mono (db s) (db s').
Proof.
  unfold live_session, get_session. intros Hr. mread Hr.
  destruct (sessions (db s) !! sid) as [se0|] eqn:E0; [|done].
  mstep Hr live s1 H1. destruct live; [|done]. unfold gets in Hr. injection Hr as Hse <-.
  pose proof (sess_mono_check_liveness sid ip now false e s) as Hm. rewrite H1 in Hm. simpl in Hm.
  pose proof (check_liveness_kept _ _ _ _ _ _ _ _ H1) as Hk.
  destruct (check_liveness_gate _ _ _ _ _ _ _ _ _ E0 H1) as [_ Hg]. symmetry in Hg.
  apply gate_true in Hg as [Hl _]. destruct (Hm _ _ E0) as (se' & Hse' & _ & Hx).
  rewrite Hse in Hse'. injection Hse' as <-. exists se0. auto 7.
Qed.

Lemma active_user_Some uid e s u s' :
  active_user uid e s = (Ok (Some u), s') ->
  s' = s /\ users (db s) !! uid = Some u /\ u_status u = "active".
Proof.
  unfold active_user, get_user. intros Hr. mread Hr. unfold ret in Hr. injection Hr as Hu <-.
  destruct (users (db s) !! uid) as [x|]; [|done]. case_bool_decide; [|done].
  by injection Hu as ->.
Qed.

Lemma find_client_Some cid e s c s' :
  find_client cid e s = (Ok (Some c), s') ->
  s' = s /\ oc_client_id c = cid /\ oc_enabled c = true
  /\ exists i, oauth_clients (db s) !! i = Some c.
Proof.
  unfold find_client. intros Hr. mread Hr. unfold ret in Hr. injection Hr as Hc <-.
  destruct (scalar _) as [[i c']|] eqn:Es; [|done]. injection Hc as ->.
  apply scalar_select in Es as [Hi Hp]. unfold enabled_client in Hp. bool_simpl. eauto.
Qed.

(** The proof of a request that goes on, and what checking it wrote. *)
Lemma proof_or_none_Some dpop now e s p s' :
  proof_or_none (verify_dpop dpop now) e s = (Ok (Some p), s') ->
  (exists text, dpop = Some text /\
     verify_proof_offline text "POST" (token_htu (settings e)) now (dpop_iat_window (settings e))
       (dpop_iat_future_skew (settings e)) None None = Ok p)
  /\ db s' = upd_dpop_jti_seen <[(pr_jkt p, pr_jti p) := now + seconds (dpop_iat_window (settings e))]>
               (db s)
  /\ tick s' = tick s.
Proof.
  unfold proof_or_none, try_, verify_dpop, nonempty. destruct dpop as [text|]; [|done].
  case_bool_decide; [done|]. unfold bind at 1.
  destruct ((let! cfg := asks id in _) e s) as [[p'|x] s1] eqn:E; [|by destruct x].
  intros Hr. unfold ret in Hr. injection Hr as -> ->. mread E.
  apply verify_proof_pg in E as (Ho & _ & Hdb & Ht). split; [|done]. eauto.
Qed.

Lemma mint_access_Ok b user sid se cid sc jkt now e s t s' :
  mint_access_token b user sid se cid sc jkt now e s = (Ok t, s') ->
  minted (settings e) t user sid se cid sc jkt now /\ db s' = db s.
Proof.
  intros Hr. pose proof (steps_mint_access (same id) b user sid se cid sc jkt now e s) as Hs.
  rewrite Hr in Hs. split; [|exact Hs].
  unfold mint_access_token in Hr. mread Hr. mstep Hr kk s1 H1. destruct kk as [kid key].
  unfold uuid4 in Hr. mstep Hr jti s2 H2. unfold ret in Hr. injection Hr as <- _.
  unfold minted. eauto.
Qed.

Lemma mint_id_same b user sid se cid n at_ now e s t s' :
  mint_id_token b user sid se cid n at_ now e s = (Ok t, s') -> db s' = db s.
Proof.
  intros Hr. pose proof (steps_mint_id (same id) b user sid se cid n at_ now e s) as Hs.
  by rewrite Hr in Hs.
Qed.

Lemma issue_tokens_Ok client proof row se user ip now e s resp s' :
  issue_tokens client proof row se user ip now e s = (Ok resp, s') ->
  exists access idt refresh id fam,
    minted (settings e) access user (ac_session_id row) se (oc_client_id client) (ac_scope row)
      (pr_jkt proof) now
    /\ rs_status resp = 200
    /\ rs_body resp = JsonBody (JObj
         [("access_token", JStr access); ("token_type", JStr "DPoP");
          ("expires_in", JInt (access_ttl (settings e))); ("refresh_token", JStr refresh);
          ("id_token", JStr idt); ("scope", JStr (ac_scope row))])
    /\ refresh_tokens (db s) !! id = None
    /\ refresh_tokens (db s') = <[id := mkRefreshToken (sha256_hex refresh) (ac_session_id row) fam
         None (oc_client_id client) (s_user_id se) (pr_jkt proof) (ac_scope row) now
         (s_absolute_expires_at se) None None]> (refresh_tokens (db s))
    /\ sessions (db s') = sessions (db s) /\ auth_codes (db s') = auth_codes (db s).
Proof.
  unfold issue_tokens, secrets_backend. intros Hr. mstep Hr b s1 H1. mread H1. unfold lift in H1.
  injection H1 as _ <-. mstep Hr at_ s1 H1. apply mint_access_Ok in H1 as [Hmint Hd1].
  mstep Hr idt s2 H2. apply mint_id_same in H2.
  mstep Hr rf s3 H3. apply issue_family_Ok in H3 as (id & fam & Hn & Hd3).
  mstep Hr u s4 H4. apply emit_Ok in H4 as (_ & Hd4 & _). mread Hr.
  unfold ret in Hr. injection Hr as <- <-. rewrite H2, Hd1 in Hn, Hd3.
  exists at_, idt, rf, id, fam. rewrite Hd4, Hd3. by split_and!.
Qed.

(** Either no tokens, and then no refresh token is added or brought back; or the tokens of
    a good code. *)
Lemma code_grant_200 client proof code ru cv ip now e s resp s' :
  authorization_code_grant client proof code ru cv ip now e s = (Ok resp, s') ->
  rs_status resp = 200 ->
  exists row se0 se user sm,
    code_good (settings e) (db s) (oc_client_id client) code ru cv now row se0 user
    /\ issue_tokens client proof (set_ac_consumed_at (Some now) row) se user ip now e sm = (Ok resp, s')
    /\ sessions (db sm) !! ac_session_id row = Some se /\ s_login se = s_login se0
    /\ sess_mono (db s) (db sm) /\ refresh_tokens (db sm) = refresh_tokens (db s)
    /\ (exists row', auth_codes (db sm) !! sha256_hex code = Some row' /\ code_spent row').
Proof.
  unfold authorization_code_grant. intros Hr H200.
  destruct (_ || _); [unfold ret in Hr; injection Hr as <- _; done|].
  mstep Hr row s1 H1. destruct row as [row|].
  2: { mstep Hr rep s2 H2. mstep Hr u s3 H3. unfold ret in Hr. injection Hr as <- _. done. }
  apply consume_code_Some in H1 as (row0 & Hrow & Hun & Hfr & -> & -> & Hrow').
  cbn [ac_client_id ac_redirect_uri ac_code_challenge ac_session_id set_ac_consumed_at] in Hr.
  case_bool_decide as Hc; [|unfold ret in Hr; injection Hr as <- _; done].
  case_bool_decide as Hu; [|unfold ret in Hr; injection Hr as <- _; done].
  destruct (verify_s256 cv _) eqn:Hp; [|unfold ret in Hr; injection Hr as <- _; done].
  cbn [negb] in Hr. mstep Hr se s2 H2. destruct se as [se|].
  2: { unfold ret in Hr. injection Hr as <- _. done. }
  apply live_session_Some in H2 as (se0 & Hs0 & Hl & Hse & Hlog & (Hrt & Hac & Hus & _) & Hm).
  mstep Hr user s3 H3. destruct user as [user|].
  2: { unfold ret in Hr. injection Hr as <- _. done. }
  apply active_user_Some in H3 as (-> & Huser & Hact).
  exists row0, se0, se, user, s2. rewrite Hus in Huser.
  assert (s_user_id se = s_user_id se0) as Euid
    by (unfold s_login in Hlog; congruence). rewrite Euid in Huser.
  split_and!; [by constructor|exact Hr|done|done| |done|].
  - etransitivity; [|exact Hm]. by apply grows_same.
  - rewrite Hac. eexists. split; [exact Hrow'|]. done.
Qed.

Lemma find_client_same cid e s r s' : find_client cid e s = (r, s') -> s' = s.
Proof. unfold find_client, bind, gets, ret. by intros [= _ <-]. Qed.

Lemma proof_or_none_same dpop now e s r s' :
  proof_or_none (verify_dpop dpop now) e s = (r, s') -> refresh_tokens (db s') = refresh_tokens (db s).
Proof.
  intros Hr. assert (Hst : steps (same refresh_tokens) (proof_or_none (verify_dpop dpop now))).
  { unfold proof_or_none, verify_dpop. steps_auto.
    match goal with Hx : _ = Some _ |- _ => destruct x; simplify_eq end. steps_auto. }
  specialize (Hst e s). by rewrite Hr in Hst.
Qed.

(** A request that reaches its grant: the client is enabled, the proof is good, and nothing
    but the replay cache has changed. *)
Record admitted (rq : Request) (cid : string) (dpop : option string) (e : Env) (s s1 : St)
    (client : OAuthClient) (proof : DpopProof) (ip : string) (now : Z) : Prop := {
  ad_now : now = clock e (tick s);
  ad_ip : client_ip_of (settings e) rq = Some ip;
  ad_client : oc_client_id client = cid;
  ad_enabled : oc_enabled client = true;
  ad_proof : exists text, dpop = Some text /\
    verify_proof_offline text "POST" (token_htu (settings e)) now (dpop_iat_window (settings e))
      (dpop_iat_future_skew (settings e)) None None = Ok proof;
  ad_db : exists f, db s1 = upd_dpop_jti_seen f (db s);
}.

(** The request of an enabled client with a good proof that was not seen before: what the
    endpoint asks of every request before it looks at the grant. *)
Record admissible (rq : Request) (cid text : string) (e : Env) (d : Db) (now : Z)
    (client : OAuthClient) (proof : DpopProof) (ip : string) : Prop := {
  am_ip : client_ip_of (settings e) rq = Some ip;
  am_client : exists i, oauth_clients d !! i = Some client /\ oc_client_id client = cid
    /\ oc_enabled client = true
    /\ forall j c, oauth_clients d !! j = Some c -> oc_client_id c = cid -> j = i;
  am_text : text <> "";
  am_proof : verify_proof_offline text "POST" (token_htu (settings e)) now (dpop_iat_window (settings e))
    (dpop_iat_future_skew (settings e)) None None = Ok proof;
  am_unseen : dpop_jti_seen d !! (pr_jkt proof, pr_jti proof) = None;
}.

Lemma token_endpoint_inv rq gt cid code ru cv rt dpop e s resp s' :
  token_endpoint rq gt cid code ru cv rt dpop e s = (Ok resp, s') ->
  (rs_status resp <> 200 /\ resp <> invalid_grant /\ refresh_tokens (db s') = refresh_tokens (db s))
  \/ exists client proof ip now s1, admitted rq cid dpop e s s1 client proof ip now
     /\ (if bool_decide (gt = "authorization_code")
         then authorization_code_grant client proof code ru cv ip now
         else refresh_grant client proof rt ip now) e s1 = (Ok resp, s')
     /\ (gt = "authorization_code" \/ gt = "refresh_token").
Proof.
  unfold token_endpoint. intros Hr. mread Hr. mstep Hr ip s1 H1.
  rewrite resolve_client_ip_run in H1. destruct (client_ip_of _ _) as [ip'|] eqn:Eip; [|done].
  injection H1 as <- <-. mstep Hr client s1 H1. destruct client as [client|].
  2: { apply find_client_same in H1 as ->. unfold ret in Hr. injection Hr as <- <-. left. done. }
  apply find_client_Some in H1 as (-> & Hc & He & _).
  mstep Hr proof s1 H1. destruct proof as [proof|].
  2: { apply proof_or_none_same in H1. unfold ret in Hr. injection Hr as <- <-. left. done. }
  apply proof_or_none_Some in H1 as (Hp & Hdb & _).
  assert (Ha : admitted rq cid dpop e s s1 client proof ip' (clock e (tick s)))
    by (constructor; eauto).
  destruct (decide (gt = "authorization_code")) as [->|E1].
  { right. exists client, proof, ip', (clock e (tick s)), s1. auto. }
  rewrite (bool_decide_eq_false_2 (gt = "authorization_code") E1) in Hr |- *.
  destruct (decide (gt = "refresh_token")) as [->|E2].
  { right. exists client, proof, ip', (clock e (tick s)), s1. auto. }
  rewrite (bool_decide_eq_false_2 (gt = "refresh_token") E2) in Hr.
  unfold ret in Hr. injection Hr as <- <-. left. by rewrite Hdb.
Qed.

Lemma code_good_jti cfg d f cid code ru cv now row se u :
  code_good cfg (upd_dpop_jti_seen f d) cid code ru cv now row se u ->
  code_good cfg d cid code ru cv now row se u.
Proof. intros []. by constructor. Qed.

(** C3: A code exchange that hands out tokens redeems a code that was issued to this client
    for this redirect URI, neither used nor expired, whose challenge the verifier answers,
    with a live session of an active user; the access token names that user and session
    and is bound to the key of the proof, and one refresh token is added, of the same key,
    which ends with the session. *)
Theorem code_exchange_sound rq cid code ru cv rt dpop e s resp s'
    (Hrun : token_endpoint rq "authorization_code" cid code ru cv rt dpop e s = (Ok resp, s'))
    (H200 : rs_status resp = 200) :
  exists client proof ip now row se user se' access idt refresh id fam s1,
    admitted rq cid dpop e s s1 client proof ip now
    /\ code_good (settings e) (db s) cid code ru cv now row se user
    /\ s_login se' = s_login se
    /\ minted (settings e) access user (ac_session_id row) se' cid (ac_scope row) (pr_jkt proof) now
    /\ rs_body resp = JsonBody (JObj
         [("access_token", JStr access); ("token_type", JStr "DPoP");
          ("expires_in", JInt (access_ttl (settings e))); ("refresh_token", JStr refresh);
          ("id_token", JStr idt); ("scope", JStr (ac_scope row))])
    /\ refresh_tokens (db s) !! id = None
    /\ refresh_tokens (db s') = <[id := mkRefreshToken (sha256_hex refresh) (ac_session_id row) fam
         None cid (s_user_id se) (pr_jkt proof) (ac_scope row) now (s_absolute_expires_at se)
         None None]> (refresh_tokens (db s))
    /\ exists row', auth_codes (db s') !! sha256_hex code = Some row' /\ code_spent row'.
Proof.
  apply token_endpoint_inv in Hrun as [[Hn _]|(client & proof & ip & now & s1 & Ha & Hg & _)]; [done|].
  rewrite bool_decide_eq_true_2 in Hg by done. pose proof Ha as [_ _ Hcid _ _ [f Hdb]].
  apply code_grant_200 in Hg as (row & se & se' & user & sm & Hgood & Hi & Hse' & Hlog & _ & Hrt & Hsp);
    [|done].
  apply issue_tokens_Ok in Hi as (at_ & idt & rf & id & fam & Hm & _ & Hb & Hnew & Htab & _ & Hac).
  rewrite Hdb in Hgood, Hrt. apply code_good_jti in Hgood.
  exists client, proof, ip, now, row, se, user, se', at_, idt, rf, id, fam, s1.
  rewrite Hac. rewrite Hrt in Hnew, Htab. unfold s_login in Hlog.
  assert (s_user_id se' = s_user_id se /\ s_absolute_expires_at se' = s_absolute_expires_at se)
    as [Eu Ex] by (split; congruence).
  rewrite Eu, Ex in Htab. subst cid. split_and!; try done.
Qed.

(** ** A code is redeemed once *)

Lemma replay_revokes client row ip e s u s' se :
  on_code_replay client row ip e s = (Ok u, s') ->
  sessions (db s) !! ac_session_id row = Some se ->
  (forall i r, refresh_tokens (db s') !! i = Some r -> rt_session_id r = ac_session_id row ->
     rt_revoked_at r <> None)
  /\ exists se', sessions (db s') !! ac_session_id row = Some se' /\ s_revoked_at se' <> None
       /\ (s_revoked_at se = None -> s_revoke_reason se' = Some "auth_code_replay").
Proof.
  unfold on_code_replay, get_session. intros Hr Hse. mread Hr. rewrite Hse in Hr.
  mstep Hr u1 s1 H1. apply bind_Ok in H1 as (u2 & s2 & H2 & H1).
  rewrite revoke_for_session_run in H2. injection H2 as <- <-.
  apply emit_Ok in Hr as (_ & Hdb & _).
  assert (refresh_tokens (db s1) = update_where (of_session (ac_session_id row))
    (set_rt_revoked_at (Some (clock e (tick s)))) (refresh_tokens (db s))) as Hrt.
  { eapply (same_steps_eq refresh_tokens) in H1; [exact H1|]. by apply same_revoke. }
  eapply revoke_revoked in H1; [|exact Hse]. rewrite Hdb. simpl. split; [|exact H1].
  intros i r. rewrite Hrt. apply revoked_session.
Qed.

(** ** What the endpoint never undoes *)

Section Monotone.
Context (R : Db -> Db -> Prop) `{!PreOrder R}.
Context (R_events : forall d f, R d (upd_auth_events f d)).
Context (R_jti : forall d f, R d (upd_dpop_jti_seen f d)).
Context (R_live : forall sid ip now, steps R (check_liveness sid ip now false)).
Context (R_revoke : forall sid reason ip, steps R (revoke sid reason ip)).
Context (R_consume : forall code now, steps R (consume_code code now)).
Context (R_issue : forall sid se cid sc jkt now, steps R (issue_family sid se cid sc jkt now)).
Context (R_rotate : forall i row now, steps R (rotate i row now)).
Context (R_family : forall fam, steps R (revoke_family fam)).
Context (R_session : forall sid, steps R (revoke_for_session sid)).

Lemma steps_emit_ctx t ip ok uid sid cid detail : steps R (emit t ip ok uid sid cid detail).
Proof. by apply steps_emit. Qed.
Lemma steps_proof_ctx p htm htu now w k a j : steps R (verify_proof p htm htu now w k a j).
Proof. by apply steps_verify_proof. Qed.
#[local] Hint Resolve steps_emit_ctx steps_proof_ctx R_live R_revoke R_consume R_issue R_rotate
  R_family R_session : hyproxy.

Lemma steps_live_session sid ip now : steps R (live_session sid ip now).
Proof. unfold live_session, get_session. steps_auto. Qed.
#[local] Hint Resolve steps_live_session : hyproxy.

Lemma steps_code_grant client proof code ru cv ip now :
  steps R (authorization_code_grant client proof code ru cv ip now).
Proof.
  unfold authorization_code_grant, find_consumed, on_code_replay, get_session, active_user, get_user,
    issue_tokens, secrets_backend. steps_auto.
Qed.

Lemma steps_refresh_grant client proof rt ip now : steps R (refresh_grant client proof rt ip now).
Proof.
  unfold refresh_grant, find, on_refresh_reuse, get_session, active_user, get_user, rotate_tokens,
    secrets_backend. steps_auto.
Qed.
#[local] Hint Resolve steps_code_grant steps_refresh_grant : hyproxy.

Lemma steps_token_endpoint rq gt cid code ru cv rt dpop :
  steps R (token_endpoint rq gt cid code ru cv rt dpop).
Proof.
  unfold token_endpoint, find_client, proof_or_none, verify_dpop. steps_auto.
  match goal with Hx : _ = Some _ |- _ => destruct x; simplify_eq end. steps_auto.
Qed.
End Monotone.

Lemma endpoint_codes rq gt cid code ru cv rt dpop :
  steps codes_mono (token_endpoint rq gt cid code ru cv rt dpop).
Proof.
  apply steps_token_endpoint; try apply _; intros; try by apply grows_same.
  - apply steps_same_grows. by apply same_check_liveness.
  - apply steps_same_grows. by apply same_revoke.
  - apply codes_mono_consume.
  - apply steps_same_grows. unfold issue_family. steps_auto. done.
  - apply steps_same_grows. unfold rotate. steps_auto. done.
  - apply steps_same_grows. unfold revoke_family. steps_auto.
  - apply steps_same_grows. unfold revoke_for_session. steps_auto.
Qed.

Lemma endpoint_refresh rq gt cid code ru cv rt dpop :
  steps refresh_mono (token_endpoint rq gt cid code ru cv rt dpop).
Proof.
  apply steps_token_endpoint; try apply _; intros; try by apply grows_same.
  - apply steps_same_grows. by apply same_check_liveness.
  - apply steps_same_grows. by apply same_revoke.
  - apply steps_same_grows. unfold consume_code. steps_auto.
  - apply refresh_mono_issue.
  - apply refresh_mono_rotate.
  - apply refresh_mono_family.
  - apply refresh_mono_session.
Qed.

Lemma endpoint_sessions rq gt cid code ru cv rt dpop :
  steps sess_mono (token_endpoint rq gt cid code ru cv rt dpop).
Proof.
  apply steps_token_endpoint; try apply _; intros; try by apply grows_same.
  - apply sess_mono_check_liveness.
  - apply sess_mono_revoke.
  - apply steps_same_grows. unfold consume_code. steps_auto.
  - apply steps_same_grows. unfold issue_family. steps_auto. done.
  - apply steps_same_grows. unfold rotate. steps_auto. done.
  - apply steps_same_grows. unfold revoke_family. steps_auto.
  - apply steps_same_grows. unfold revoke_for_session. steps_auto.
Qed.

(** No request to the token endpoint, whatever its outcome, brings back a consumed
    code, a used or revoked refresh token, or a dead session, nor changes what they are
    bound to. *)
Theorem token_endpoint_monotone rq gt cid code ru cv rt dpop e s :
  let d' := db (token_endpoint rq gt cid code ru cv rt dpop e s).2 in
  codes_mono (db s) d' /\ refresh_mono (db s) d' /\ sess_mono (db s) d'.
Proof.
  split_and!; [apply endpoint_codes|apply endpoint_refresh|apply endpoint_sessions].
Qed.

(** C7: A code is redeemed at most once: after an exchange that handed out tokens, no
    later exchange of the same code does, whatever client, proof and verifier come with
    it, as long as codes only grow older in between. *)
Theorem code_single_use rq cid code ru cv rt dpop e s resp s'
    (Hrun : token_endpoint rq "authorization_code" cid code ru cv rt dpop e s = (Ok resp, s'))
    (H200 : rs_status resp = 200) :
  forall d2 n2 e2 rq2 cid2 ru2 cv2 rt2 dpop2 resp2 s3,
    codes_mono (db s') d2 ->
    token_endpoint rq2 "authorization_code" cid2 code ru2 cv2 rt2 dpop2 e2 (mkSt d2 n2)
      = (Ok resp2, s3) ->
    rs_status resp2 <> 200.
Proof.
  intros d2 n2 e2 rq2 cid2 ru2 cv2 rt2 dpop2 resp2 s3 Hmono Hrun2 H2.
  assert (exists row, auth_codes (db s') !! sha256_hex code = Some row /\ code_spent row)
    as (row & Hrow & Hsp).
  { apply token_endpoint_inv in Hrun as [[Hn _]|(client & proof & ip & now & s1 & Ha & Hg & _)];
      [done|].
    rewrite bool_decide_eq_true_2 in Hg by done.
    apply code_grant_200 in Hg as (row & se & se' & user & sm & _ & Hi & _ & _ & _ & _ & Hsp); [|done].
    apply issue_tokens_Ok in Hi as (? & ? & ? & ? & ? & _ & _ & _ & _ & _ & _ & ->). exact Hsp. }
  destruct (Hmono _ _ Hrow) as (row2 & Hrow2 & Hsp2 & _).
  apply token_endpoint_inv in Hrun2 as [[Hn _]|(client & proof & ip & now & s1 & Ha & Hg & _)];
    [done|].
  rewrite bool_decide_eq_true_2 in Hg by done. destruct Ha as [_ _ _ _ _ [f Hdb]].
  apply code_grant_200 in Hg as (row3 & ? & ? & ? & ? & [Hrow3 Hun _ _ _ _ _ _ _ _] & _); [|done].
  rewrite Hdb in Hrow3. simpl in Hrow3. rewrite Hrow2 in Hrow3. injection Hrow3 as ->.
  by apply Hsp2.
Qed.

(** ** The rotation of refresh tokens *)

(** What stands behind a rotation: an unspent token of this client, not expired, bound to
    the key of the proof, whose session is live and whose user is active. *)
Record refresh_good (cfg : Settings) (d : Db) (cid token jkt : string) (now : Z)
    (i : Z) (row : RefreshToken) (session : Session) (user : User) : Prop := {
  rg_row : refresh_tokens d !! i = Some row;
  rg_token : rt_token_hash row = sha256_hex token;
  rg_client : rt_client_id row = cid;
  rg_unspent : rt_used_at row = None /\ rt_revoked_at row = None;
  rg_fresh : now < rt_expires_at row;
  rg_key : rt_dpop_jkt row = jkt;
  rg_session : sessions d !! rt_session_id row = Some session;
  rg_live : live_at cfg session now;
  rg_user : users d !! s_user_id session = Some user;
  rg_active : u_status user = "active";
}.

Lemma rotate_tokens_Ok client proof i row se user ip now e s resp s' :
  refresh_tokens (db s) !! i = Some row ->
  rotate_tokens client proof i row se user ip now e s = (Ok resp, s') ->
  exists access refresh child,
    minted (settings e) access user (rt_session_id row) se (oc_client_id client) (rt_scope row)
      (pr_jkt proof) now
    /\ rs_status resp = 200
    /\ rs_body resp = JsonBody (JObj
         [("access_token", JStr access); ("token_type", JStr "DPoP");
          ("expires_in", JInt (access_ttl (settings e))); ("refresh_token", JStr refresh);
          ("scope", JStr (rt_scope row))])
    /\ refresh_tokens (db s) !! child = None
    /\ refresh_tokens (db s') = <[child := mkRefreshToken (sha256_hex refresh) (rt_session_id row)
         (rt_family_id row) (Some i) (rt_client_id row) (rt_user_id row) (rt_dpop_jkt row)
         (rt_scope row) now (rt_expires_at row) None None]>
         (<[i := set_rt_used_at (Some now) row]> (refresh_tokens (db s)))
    /\ sessions (db s') = sessions (db s).
Proof.
  intros Hrow. unfold rotate_tokens, secrets_backend. intros Hr.
  mstep Hr rf s1 H1. apply (rotate_Ok _ _ _ _ _ _ _ _ Hrow) in H1 as (child & Hn & Hd1).
  mstep Hr b s2 H2. mread H2. unfold lift in H2. injection H2 as _ <-.
  mstep Hr at_ s2 H2. apply mint_access_Ok in H2 as [Hmint Hd2].
  mstep Hr u s3 H3. apply emit_Ok in H3 as (_ & Hd3 & _). mread Hr.
  unfold ret in Hr. injection Hr as <- <-.
  exists at_, rf, child. rewrite Hd3. cbn [refresh_tokens sessions upd_auth_events].
  rewrite Hd2, Hd1. cbn [refresh_tokens sessions upd_refresh_tokens].
  assert (alter (set_rt_used_at (Some now)) i (refresh_tokens (db s))
          = <[i := set_rt_used_at (Some now) row]> (refresh_tokens (db s))) as ->.
  { apply map_eq. intros k. destruct (decide (k = i)) as [->|Hne].
    - by rewrite lookup_alter_eq, lookup_insert_eq, Hrow.
    - by rewrite lookup_alter_ne, lookup_insert_ne. }
  by split_and!.
Qed.

Lemma refresh_grant_200 client proof token ip now e s resp s' :
  refresh_grant client proof token ip now e s = (Ok resp, s') ->
  rs_status resp = 200 ->
  exists i row se0 se user sm,
    refresh_good (settings e) (db s) (oc_client_id client) token (pr_jkt proof) now i row se0 user
    /\ rotate_tokens client proof i row se user ip now e sm = (Ok resp, s')
    /\ s_login se = s_login se0 /\ sess_mono (db s) (db sm)
    /\ refresh_tokens (db sm) = refresh_tokens (db s).
Proof.
  unfold refresh_grant. intros Hr H200.
  case_bool_decide; [unfold ret in Hr; injection Hr as <- _; done|].
  mstep Hr found s1 H1. destruct found as [[i row]|].
  2: { unfold ret in Hr. injection Hr as <- _. done. }
  apply find_Some in H1 as (-> & Hrow & Hh).
  case_bool_decide as Hc; [|unfold ret in Hr; injection Hr as <- _; done]. cbn [negb] in Hr.
  case_bool_decide as Hu.
  { mstep Hr u s2 H2. unfold ret in Hr. injection Hr as <- _. done. }
  destruct (_ || _) eqn:Ex; [unfold ret in Hr; injection Hr as <- _; done|].
  apply orb_false_iff in Ex as [Hrv Hx]. apply bool_decide_eq_false_1, dec_stable in Hrv.
  apply Z.leb_gt in Hx.
  case_bool_decide as Hj; [|unfold ret in Hr; injection Hr as <- _; done]. cbn [negb] in Hr.
  mstep Hr se s2 H2. destruct se as [se|].
  2: { unfold ret in Hr. injection Hr as <- _. done. }
  apply live_session_Some in H2 as (se0 & Hs0 & Hl & Hse & Hlog & (Hrt & _ & Hus & _) & Hm).
  mstep Hr user s3 H3. destruct user as [user|].
  2: { unfold ret in Hr. injection Hr as <- _. done. }
  apply active_user_Some in H3 as (-> & Huser & Hact). rewrite Hus in Huser.
  assert (s_user_id se = s_user_id se0) as Euid by (unfold s_login in Hlog; congruence).
  rewrite Euid in Huser. exists i, row, se0, se, user, s2. split_and!; try done.
Qed.

Lemma refresh_good_jti cfg d f cid t jkt now i row se u :
  refresh_good cfg (upd_dpop_jti_seen f d) cid t jkt now i row se u ->
  refresh_good cfg d cid t jkt now i row se u.
Proof. intros []. by constructor. Qed.

(** C9: A refresh that hands out tokens uses up an unspent token of this client and of the
    key of the proof, of a live session of an active user, and adds one child, of the same
    family, session, client, key and scope, that expires when its parent would. *)
Theorem refresh_rotation_sound rq cid code ru cv rt dpop e s resp s'
    (Hrun : token_endpoint rq "refresh_token" cid code ru cv rt dpop e s = (Ok resp, s'))
    (H200 : rs_status resp = 200) :
  exists client proof ip now i row se user se' access refresh child s1,
    admitted rq cid dpop e s s1 client proof ip now
    /\ refresh_good (settings e) (db s) cid rt (pr_jkt proof) now i row se user
    /\ s_login se' = s_login se
    /\ minted (settings e) access user (rt_session_id row) se' cid (rt_scope row) (pr_jkt proof) now
    /\ rs_body resp = JsonBody (JObj
         [("access_token", JStr access); ("token_type", JStr "DPoP");
          ("expires_in", JInt (access_ttl (settings e))); ("refresh_token", JStr refresh);
          ("scope", JStr (rt_scope row))])
    /\ refresh_tokens (db s) !! child = None
    /\ refresh_tokens (db s') = <[child := mkRefreshToken (sha256_hex refresh) (rt_session_id row)
         (rt_family_id row) (Some i) cid (rt_user_id row) (rt_dpop_jkt row) (rt_scope row) now
         (rt_expires_at row) None None]>
         (<[i := set_rt_used_at (Some now) row]> (refresh_tokens (db s))).
Proof.
  apply token_endpoint_inv in Hrun as [[Hn _]|(client & proof & ip & now & s1 & Ha & Hg & _)]; [done|].
  rewrite bool_decide_eq_false_2 in Hg by done. pose proof Ha as [_ _ Hcid _ _ [f Hdb]].
  apply refresh_grant_200 in Hg as (i & row & se & se' & user & sm & Hgood & Hi & Hlog & _ & Hrt); [|done].
  rewrite Hdb in Hgood, Hrt. apply refresh_good_jti in Hgood. simpl in Hrt. subst cid.
  pose proof Hgood as [Hrow _ Hc _ _ _ _ _ _ _].
  apply rotate_tokens_Ok in Hi as (at_ & rf & child & Hm & _ & Hb & Hnew & Htab & _);
    [|by rewrite Hrt].
  rewrite Hrt in Hnew, Htab. rewrite Hc in Htab.
  exists client, proof, ip, now, i, row, se, user, se', at_, rf, child, s1. by split_and!.
Qed.

(** [token_hash] is unique. *)
Definition hashes_unique (d : Db) : Prop := forall i j r r',
  refresh_tokens d !! i = Some r -> refresh_tokens d !! j = Some r' ->
  rt_token_hash r = rt_token_hash r' -> i = j.

Lemma find_unique d token i row e s :
  hashes_unique d -> refresh_tokens d = refresh_tokens (db s) ->
  refresh_tokens d !! i = Some row -> rt_token_hash row = sha256_hex token ->
  find token e s = (Ok (Some (i, row)), s).
Proof.
  intros Hu Hd Hrow Hh. unfold find, bind, gets, ret. rewrite <- Hd.
  rewrite (scalar_select_unique _ _ _ _ Hrow); [done| |].
  - unfold same_token_hash. by rewrite bool_decide_eq_true_2.
  - intros j r Hj Hr. unfold same_token_hash in Hr. bool_simpl.
    apply (Hu j i r row Hj Hrow). congruence.
Qed.

Lemma reuse_revokes client row ip e s u s' se :
  on_refresh_reuse client row ip e s = (Ok u, s') ->
  sessions (db s) !! rt_session_id row = Some se ->
  (forall i r, refresh_tokens (db s') !! i = Some r -> rt_family_id r = rt_family_id row ->
     rt_revoked_at r <> None)
  /\ exists se', sessions (db s') !! rt_session_id row = Some se' /\ s_revoked_at se' <> None
       /\ (s_revoked_at se = None -> s_revoke_reason se' = Some "refresh_reuse").
Proof.
  unfold on_refresh_reuse, get_session. intros Hr Hse. mstep Hr u1 s1 H1.
  rewrite revoke_family_run in H1. injection H1 as <- <-. mread Hr. simpl in Hr. rewrite Hse in Hr.
  mstep Hr u1 s1 H1. apply emit_Ok in Hr as (_ & Hdb & _).
  assert (refresh_tokens (db s1) = update_where (in_family (rt_family_id row))
    (set_rt_revoked_at (Some (clock e (tick s)))) (refresh_tokens (db s))) as Hrt.
  { eapply (same_steps_eq refresh_tokens) in H1; [exact H1|]. by apply same_revoke. }
  eapply revoke_revoked in H1; [|exact Hse]. rewrite Hdb. simpl. split; [|exact H1].
  intros i r. rewrite Hrt. apply revoked_family.
Qed.

(** ** Refresh tokens end with their session *)

Lemma bounded_mono d d' :
  refresh_bounded d -> sess_mono d d' -> refresh_mono d d' ->
  (forall i r, refresh_tokens d' !! i = Some r -> refresh_tokens d !! i = None ->
     exists se, sessions d' !! rt_session_id r = Some se
     /\ rt_expires_at r <= s_absolute_expires_at se) ->
  refresh_bounded d'.
Proof.
  intros Hb Hs Hr Hnew i r Hi. destruct (refresh_tokens d !! i) as [r0|] eqn:E; [|by eapply Hnew].
  destruct (Hr _ _ E) as (r1 & Hr1 & _ & Hx). rewrite Hi in Hr1. injection Hr1 as <-.
  unfold refresh_fixed in Hx. destruct (Hb _ _ E) as (se & Hse & Hle).
  destruct (Hs _ _ Hse) as (se' & Hse' & _ & Hy). unfold s_login in Hy.
  assert (rt_session_id r = rt_session_id r0 /\ rt_expires_at r = rt_expires_at r0) as [-> ->]
    by (split; congruence).
  assert (s_absolute_expires_at se' = s_absolute_expires_at se) by congruence.
  exists se'. split; [done|lia].
Qed.

(** No refresh token is added. *)
Definition no_new (d d' : Db) : Prop :=
  forall i, refresh_tokens d !! i = None -> refresh_tokens d' !! i = None.

#[local] Instance no_new_preorder : PreOrder no_new.
Proof. split; [by intros d i|]. intros a b c Hab Hbc i Hi. by apply Hbc, Hab. Qed.

Lemma no_new_same {A} (m : M A) : steps (same refresh_tokens) m -> steps no_new m.
Proof. intros Hs e s i Hi. pose proof (Hs e s) as H. by rewrite H. Qed.

Lemma no_new_update p f d : no_new d (upd_refresh_tokens (update_where p f) d).
Proof. intros i Hi. simpl. by rewrite lookup_update_where, Hi. Qed.

Lemma no_new_family fam : steps no_new (revoke_family fam).
Proof. unfold revoke_family. steps_auto. apply steps_moddb. apply no_new_update. Qed.
Lemma no_new_session sid : steps no_new (revoke_for_session sid).
Proof. unfold revoke_for_session. steps_auto. apply steps_moddb. apply no_new_update. Qed.
Lemma no_new_revoke sid reason ip : steps no_new (revoke sid reason ip).
Proof. apply no_new_same. by apply same_revoke. Qed.
Lemma no_new_live sid ip now : steps no_new (check_liveness sid ip now false).
Proof. apply no_new_same. by apply same_check_liveness. Qed.
Lemma no_new_consume code now : steps no_new (consume_code code now).
Proof. apply no_new_same. unfold consume_code. steps_auto. Qed.
Lemma no_new_emit t ip ok uid sid cid detail : steps no_new (emit t ip ok uid sid cid detail).
Proof. apply no_new_same. by apply same_emit. Qed.
#[local] Hint Resolve no_new_family no_new_session no_new_revoke no_new_live no_new_consume
  no_new_emit : hyproxy.

Ltac no_new_step Hr x s1 H1 :=
  mstep Hr x s1 H1;
  match type of H1 with ?m ?e ?s = _ =>
    let Hn := fresh "Hn" in
    assert (Hn : no_new (db s) (db s1)) by
      (assert (Hst : steps no_new m) by (unfold live_session, on_code_replay, on_refresh_reuse,
         find_consumed, active_user, get_session, get_user, find; steps_auto);
       specialize (Hst e s); rewrite H1 in Hst; exact Hst)
  end.
Ltac no_new_ret Hr :=
  unfold ret in Hr; injection Hr as <- <-; repeat (etransitivity; [eassumption|]); reflexivity.

Lemma code_grant_no_new client proof code ru cv ip now e s resp s' :
  authorization_code_grant client proof code ru cv ip now e s = (Ok resp, s') ->
  rs_status resp <> 200 -> no_new (db s) (db s').
Proof.
  unfold authorization_code_grant. intros Hr Hn. destruct (_ || _); [no_new_ret Hr|].
  no_new_step Hr row s1 H1. destruct row as [row|].
  2: { no_new_step Hr rep s2 H2. no_new_step Hr u s3 H3. no_new_ret Hr. }
  repeat (case_bool_decide; cbn [negb] in Hr; [|no_new_ret Hr]).
  destruct (verify_s256 _ _); cbn [negb] in Hr; [|no_new_ret Hr].
  no_new_step Hr se s2 H2. destruct se as [se|]; [|no_new_ret Hr].
  no_new_step Hr u s3 H3. destruct u as [u|]; [|no_new_ret Hr].
  apply issue_tokens_Ok in Hr as (? & ? & ? & ? & ? & _ & H200 & _). done.
Qed.

Lemma refresh_grant_no_new client proof rt ip now e s resp s' :
  refresh_grant client proof rt ip now e s = (Ok resp, s') ->
  rs_status resp <> 200 -> no_new (db s) (db s').
Proof.
  unfold refresh_grant. intros Hr Hn. destruct (bool_decide (rt = "")); [no_new_ret Hr|].
  no_new_step Hr found s1 H1. destruct found as [[i row]|]; [|no_new_ret Hr].
  destruct (bool_decide (rt_client_id row = _)); cbn [negb] in Hr; [|no_new_ret Hr].
  destruct (bool_decide (rt_used_at row <> None)).
  { no_new_step Hr u s2 H2. no_new_ret Hr. }
  destruct (_ || _); [no_new_ret Hr|].
  destruct (bool_decide (rt_dpop_jkt row = _)); cbn [negb] in Hr; [|no_new_ret Hr].
  no_new_step Hr se s2 H2. destruct se as [se|]; [|no_new_ret Hr].
  no_new_step Hr u s3 H3. destruct u as [u|]; [|no_new_ret Hr].
  unfold rotate_tokens in Hr. exfalso. apply Hn. mstep Hr rf s4 H4. mstep Hr b s5 H5.
  mstep Hr at_ s6 H6. mstep Hr u' s7 H7. mread Hr. unfold ret in Hr. by injection Hr as <- _.
Qed.

(** No refresh token outlives its session's absolute bound: the endpoint keeps that
    every token in the table expires no later than its session does. *)
Theorem refresh_bounded_preserved rq gt cid code ru cv rt dpop e s resp s'
    (Hrun : token_endpoint rq gt cid code ru cv rt dpop e s = (Ok resp, s'))
    (Hb : refresh_bounded (db s)) :
  refresh_bounded (db s').
Proof.
  pose proof (endpoint_sessions rq gt cid code ru cv rt dpop e s) as Hs.
  pose proof (endpoint_refresh rq gt cid code ru cv rt dpop e s) as Hm.
  rewrite Hrun in Hs, Hm. simpl in Hs, Hm. apply (bounded_mono _ _ Hb Hs Hm).
  apply token_endpoint_inv in Hrun as [(_ & _ & Heq)|(client & proof & ip & now & s1 & Ha & Hg & Hgt)].
  { intros i r Hi Hn. rewrite Heq, Hn in Hi. done. }
  destruct Ha as [_ _ _ _ _ [f Hdb]].
  destruct (decide (rs_status resp = 200)) as [H200|Hn2].
  - intros i r Hi Hnone. destruct (bool_decide (gt = _)).
    + apply code_grant_200 in Hg as (row & se & se' & user & sm & _ & Hi' & Hse & _ & _ & Hrt & _); [|done].
      apply issue_tokens_Ok in Hi' as (? & ? & ? & id & ? & _ & _ & _ & _ & Htab & Hss & _).
      rewrite Htab, Hrt, Hdb in Hi. simpl in Hi. rewrite Hss.
      destruct (decide (i = id)) as [->|Hne].
      * rewrite lookup_insert_eq in Hi. injection Hi as <-. simpl. exists se'. split; [done|lia].
      * rewrite lookup_insert_ne in Hi by done. congruence.
    + apply refresh_grant_200 in Hg as (j & row & se & se' & user & sm & Hgood & Hi' & Hlog & Hm2 & Hrt); [|done].
      rewrite Hdb in Hgood, Hrt. simpl in Hrt. pose proof Hgood as [Hrow _ _ _ _ _ _ _ _ _].
      simpl in Hrow. apply rotate_tokens_Ok in Hi' as (? & ? & child & _ & _ & _ & _ & Htab & Hss);
        [|by rewrite Hrt].
      rewrite Htab, Hrt in Hi. rewrite Hss. destruct (decide (i = child)) as [->|Hne].
      * rewrite lookup_insert_eq in Hi. injection Hi as <-. simpl.
        destruct (Hb _ _ Hrow) as (sr & Hsr & Hle).
        assert (sessions (db s1) !! rt_session_id row = Some sr) as Hsr1 by (by rewrite Hdb).
        destruct (Hm2 _ _ Hsr1) as (sr' & Hsr' & _ & Hy). exists sr'. split; [done|].
        unfold s_login in Hy. assert (s_absolute_expires_at sr' = s_absolute_expires_at sr) by congruence.
        lia.
      * rewrite lookup_insert_ne in Hi by done. destruct (decide (i = j)) as [->|Hne2]; [congruence|].
        rewrite lookup_insert_ne in Hi by done. congruence.
  - intros i r Hi Hnone. assert (no_new (db s1) (db s')) as Hno.
    { destruct (bool_decide (gt = _)); [by eapply code_grant_no_new|by eapply refresh_grant_no_new]. }
    assert (refresh_tokens (db s1) !! i = None) as Hn1 by (by rewrite Hdb).
    rewrite (Hno _ Hn1) in Hi. done.
Qed.

(** ** A good request succeeds *)

(** The draws of a run give ids and tokens that are not in the table yet. *)
Definition fresh_draws (e : Env) (t : gmap Z RefreshToken) : Prop :=
  (forall n, t !! uuid4_of (rng e n) = None)
  /\ forall n i r, t !! i = Some r ->
       rt_token_hash r <> sha256_hex (b64url_nopad (bytes_of 48 (rng e n))).

Lemma active_key_run b e s s2 kk :
  signing_keys (db s2) = signing_keys (db s) ->
  get_active_signing_key b e s = (Ok kk, s) -> get_active_signing_key b e s2 = (Ok kk, s2).
Proof.
  intros E. unfold get_active_signing_key, bind, gets. rewrite E.
  destruct (scalar _) as [[i row]|]; [|done]. unfold lift.
  destruct (decrypt_blob _ _ _ _); [|done]. destruct (ec_import a); [|done].
  unfold ret. by intros [= ->].
Qed.

Lemma live_session_runs sid ip now e s se0 :
  sessions (db s) !! sid = Some se0 -> live_at (settings e) se0 now ->
  exists se s', live_session sid ip now e s = (Ok (Some se), s').
Proof.
  intros Hs Hl. destruct (check_liveness_live _ ip _ e s _ Hs Hl) as [s1 H1].
  pose proof (sess_mono_check_liveness sid ip now false e s) as Hm. rewrite H1 in Hm.
  destruct (Hm _ _ Hs) as (se & Hse & _). simpl in Hse. exists se, s1.
  unfold live_session, get_session. unfold bind at 1, gets at 1. rewrite Hs.
  erewrite bind_run; [|exact H1]. unfold gets. by rewrite Hse.
Qed.

Lemma active_user_runs uid e s u :
  users (db s) !! uid = Some u -> u_status u = "active" ->
  active_user uid e s = (Ok (Some u), s).
Proof.
  intros Hu Ha. unfold active_user, get_user, bind, gets, ret. rewrite Hu.
  by rewrite bool_decide_eq_true_2.
Qed.

Lemma mint_access_runs b u sid se cid sc jkt now e s kk :
  get_active_signing_key b e s = (Ok kk, s) ->
  exists t s', mint_access_token b u sid se cid sc jkt now e s = (Ok t, s') /\ db s' = db s.
Proof.
  intros Hk. destruct kk as [kid key]. unfold mint_access_token. unfold bind at 1, asks.
  erewrite bind_run; [|exact Hk]. unfold uuid4, draw, bind, ret. simpl. eauto.
Qed.

Lemma mint_id_runs b u sid se cid n at_ now e s kk :
  get_active_signing_key b e s = (Ok kk, s) ->
  exists t s', mint_id_token b u sid se cid n at_ now e s = (Ok t, s') /\ db s' = db s.
Proof.
  intros Hk. destruct kk as [kid key]. unfold mint_id_token. unfold bind at 1, asks.
  erewrite bind_run; [|exact Hk]. unfold ret. eauto.
Qed.

Lemma issue_family_runs sid se cid sc jkt now e s :
  fresh_draws e (refresh_tokens (db s)) ->
  exists t s' f, issue_family sid se cid sc jkt now e s = (Ok t, s')
    /\ db s' = upd_refresh_tokens f (db s).
Proof.
  intros [Hid Hh]. unfold issue_family, token_urlsafe, token_bytes, uuid4, db_add.
  unfold bind, draw, ret, gets. simpl. rewrite Hid.
  rewrite (proj2 (select_nil _ _)).
  - eexists _, _, _. split; reflexivity.
  - intros i r Hi. unfold same_token_hash. apply bool_decide_eq_false_2. exact (Hh _ _ _ Hi).
Qed.

Lemma rotate_runs i row now e s :
  refresh_tokens (db s) !! i = Some row ->
  fresh_draws e (refresh_tokens (db s)) ->
  exists t s' f, rotate i row now e s = (Ok t, s') /\ db s' = upd_refresh_tokens f (db s).
Proof.
  intros Hi [Hid Hh]. unfold rotate, token_urlsafe, token_bytes, uuid4, db_add.
  unfold bind, draw, ret, gets, moddb. simpl.
  assert (forall k f, alter f i (refresh_tokens (db s)) !! uuid4_of (rng e k) = None) as Hid'.
  { intros k f. specialize (Hid k). destruct (decide (i = uuid4_of (rng e k))) as [->|Hne];
      [by rewrite lookup_alter_eq, Hid|by rewrite lookup_alter_ne]. }
  rewrite Hid', (proj2 (select_nil _ _)).
  - eexists _, _, (fun t => <[_ := _]> (alter _ i t)). split; reflexivity.
  - intros j r Hj. unfold same_token_hash. apply bool_decide_eq_false_2.
    destruct (decide (i = j)) as [->|Hne].
    + rewrite lookup_alter_eq, Hi in Hj. injection Hj as <-. exact (Hh _ _ _ Hi).
    + rewrite lookup_alter_ne in Hj by done. exact (Hh _ _ _ Hj).
Qed.

Lemma family_detail_ok fam : validate_detail [("family_id", JStr (uuid_str fam))] = Ok tt.
Proof.
  apply validate_detail_Ok, Forall_singleton. split; [unfold ALLOWED_DETAIL_KEYS; set_solver|].
  simpl. apply negb_true_iff, Z.ltb_ge. pose proof (char_len_le (uuid_str fam)) as Hl.
  unfold uuid_str in Hl at 2.
  repeat (rewrite str_length_app in Hl; cbn [String.length] in Hl).
  rewrite !hex_fixed_length in Hl. lia.
Qed.

Lemma code_grant_complete client proof code ru cv ip now e s b kk row se user :
  code_good (settings e) (db s) (oc_client_id client) code ru cv now row se user ->
  code <> "" -> ru <> "" -> cv <> "" ->
  get_secrets_backend run (settings e) = Ok b ->
  get_active_signing_key b e s = (Ok kk, s) ->
  fresh_draws e (refresh_tokens (db s)) -> char_len (ac_scope row) <= 256 ->
  exists resp s', authorization_code_grant client proof code ru cv ip now e s = (Ok resp, s')
    /\ rs_status resp = 200.
Proof.
  intros [Hrow Hun Hfr Hc Hu Hp Hse Hl Huser Hact] Hne1 Hne2 Hne3 Hb Hk Hfresh Hsc.
  unfold authorization_code_grant. rewrite !bool_decide_eq_false_2 by done. cbn [orb].
  assert (exists s1, consume_code code now e s = (Ok (Some (set_ac_consumed_at (Some now) row)), s1)
    /\ sessions (db s1) = sessions (db s) /\ users (db s1) = users (db s)
    /\ signing_keys (db s1) = signing_keys (db s) /\ refresh_tokens (db s1) = refresh_tokens (db s))
    as (s1 & H1 & Es & Eu & Ek & Er).
  { unfold consume_code, bind, gets, moddb, ret. simpl.
    assert (Hcon : consumable (sha256_hex code) now (sha256_hex code) row = true).
    { unfold consumable. rewrite !bool_decide_eq_true_2 by done. by apply Z.ltb_lt. }
    rewrite (scalar_select_unique _ _ _ _ Hrow Hcon).
    - rewrite lookup_update_where, Hrow. simpl. rewrite Hcon. eexists. by split_and!.
    - intros h a _ Ha. unfold consumable in Ha. by bool_simpl. }
  erewrite bind_run; [|exact H1]. cbn [ac_client_id ac_redirect_uri ac_code_challenge ac_session_id
    set_ac_consumed_at]. rewrite Hc, Hu, !bool_decide_eq_true_2, Hp by done. cbn [negb].
  rewrite <- Es in Hse. destruct (live_session_runs _ ip _ e s1 _ Hse Hl) as (se' & s2 & H2).
  erewrite bind_run; [|exact H2].
  apply live_session_Some in H2 as (se0 & Hs0 & _ & _ & Hlog & (Er2 & _ & Eu2 & Ek2) & _).
  rewrite Hse in Hs0. injection Hs0 as <-. unfold s_login in Hlog.
  assert (s_user_id se' = s_user_id se) as -> by congruence.
  erewrite bind_run; [|apply active_user_runs; [rewrite Eu2, Eu; exact Huser|exact Hact]].
  cbn beta iota. unfold issue_tokens, secrets_backend.
  erewrite bind_run; [|unfold bind, asks, lift, id; rewrite Hb; reflexivity]. cbn beta zeta.
  assert (Hk2 : get_active_signing_key b e s2 = (Ok kk, s2)).
  { apply (active_key_run b e s); [by rewrite Ek2, Ek|exact Hk]. }
  match goal with |- context [mint_access_token ?a1 ?a2 ?a3 ?a4 ?a5 ?a6 ?a7 ?a8] =>
    destruct (mint_access_runs a1 a2 a3 a4 a5 a6 a7 a8 e s2 kk Hk2) as (at_ & s3 & H3 & E3) end.
  erewrite bind_run; [|exact H3]. cbn beta.
  assert (Hk3 : get_active_signing_key b e s3 = (Ok kk, s3)).
  { apply (active_key_run b e s2); [by rewrite E3|exact Hk2]. }
  match goal with |- context [mint_id_token ?a1 ?a2 ?a3 ?a4 ?a5 ?a6 ?a7 ?a8] =>
    destruct (mint_id_runs a1 a2 a3 a4 a5 a6 a7 a8 e s3 kk Hk3) as (idt & s4 & H4 & E4) end.
  erewrite bind_run; [|exact H4]. cbn beta.
  match goal with |- context [issue_family ?a1 ?a2 ?a3 ?a4 ?a5 ?a6] =>
    destruct (issue_family_runs a1 a2 a3 a4 a5 a6 e s4) as (rf & s5 & f & H5 & E5) end.
  { by rewrite E4, E3, Er2, Er. }
  erewrite bind_run; [|exact H5]. cbn beta.
  erewrite bind_run; [|apply emit_run].
  - unfold bind, asks, ret. eexists _, _. split; reflexivity.
  - apply validate_detail_Ok. apply Forall_cons. split.
    { split; [|done]. unfold ALLOWED_DETAIL_KEYS. set_solver. }
    apply Forall_singleton. split; [unfold ALLOWED_DETAIL_KEYS; set_solver|].
    simpl. apply negb_true_iff, Z.ltb_ge. exact Hsc.
Qed.

Lemma refresh_grant_complete client proof token ip now e s b kk i row se user :
  refresh_good (settings e) (db s) (oc_client_id client) token (pr_jkt proof) now i row se user ->
  hashes_unique (db s) -> token <> "" ->
  get_secrets_backend run (settings e) = Ok b ->
  get_active_signing_key b e s = (Ok kk, s) ->
  fresh_draws e (refresh_tokens (db s)) ->
  exists resp s', refresh_grant client proof token ip now e s = (Ok resp, s')
    /\ rs_status resp = 200.
Proof.
  intros [Hrow Hh Hc [Hus Hrv] Hfr Hj Hse Hl Huser Hact] Hu Hne Hb Hk Hfresh.
  unfold refresh_grant. rewrite bool_decide_eq_false_2 by done.
  erewrite bind_run; [|by apply (find_unique (db s))]. cbn beta iota.
  rewrite Hus, Hrv, Hj, (bool_decide_eq_true_2 (rt_client_id row = _)) by done.
  rewrite !(bool_decide_eq_false_2 (None <> None)) by (intros Hf; by apply Hf).
  rewrite (proj2 (Z.leb_gt _ _)), bool_decide_eq_true_2 by done. cbn [negb orb].
  destruct (live_session_runs _ ip _ e s _ Hse Hl) as (se' & s2 & H2).
  erewrite bind_run; [|exact H2].
  apply live_session_Some in H2 as (se0 & Hs0 & _ & _ & Hlog & (Er2 & _ & Eu2 & Ek2) & _).
  rewrite Hse in Hs0. injection Hs0 as <-. unfold s_login in Hlog.
  assert (s_user_id se' = s_user_id se) as -> by congruence.
  erewrite bind_run; [|apply active_user_runs; [rewrite Eu2; exact Huser|exact Hact]].
  cbn beta iota. unfold rotate_tokens.
  destruct (rotate_runs i row now e s2) as (rf & s3 & f & H3 & E3).
  { rewrite Er2. exact Hrow. }
  { by rewrite Er2. }
  erewrite bind_run; [|exact H3]. cbn beta. unfold secrets_backend.
  erewrite bind_run; [|unfold bind, asks, lift, id; rewrite Hb; reflexivity]. cbn beta zeta.
  assert (Hk3 : get_active_signing_key b e s3 = (Ok kk, s3)).
  { apply (active_key_run b e s); [by rewrite E3|exact Hk]. }
  match goal with |- context [mint_access_token ?a1 ?a2 ?a3 ?a4 ?a5 ?a6 ?a7 ?a8] =>
    destruct (mint_access_runs a1 a2 a3 a4 a5 a6 a7 a8 e s3 kk Hk3) as (at_ & s4 & H4 & E4) end.
  erewrite bind_run; [|exact H4]. cbn beta.
  erewrite bind_run; [|apply emit_run].
  - unfold bind, asks, ret. eexists _, _. split; reflexivity.
  - apply family_detail_ok.
Qed.

(** The checks before the grant pass, and what they leave. *)
Lemma token_endpoint_admits rq gt cid code ru cv rt text e s ip client i proof :
  client_ip_of (settings e) rq = Some ip ->
  scalar (select (enabled_client cid) (oauth_clients (db s))) = Some (i, client) ->
  text <> "" ->
  verify_proof_offline text "POST" (token_htu (settings e)) (clock e (tick s))
    (dpop_iat_window (settings e)) (dpop_iat_future_skew (settings e)) None None = Ok proof ->
  dpop_jti_seen (db s) !! (pr_jkt proof, pr_jti proof) = None ->
  exists f, token_endpoint rq gt cid code ru cv rt (Some text) e s =
    (if bool_decide (gt = "authorization_code")
     then authorization_code_grant client proof code ru cv ip (clock e (tick s))
     else if bool_decide (gt = "refresh_token")
     then refresh_grant client proof rt ip (clock e (tick s))
     else ret (error "unsupported_grant_type" 400)) e
    (mkSt (upd_dpop_jti_seen f (db s)) (S (tick s))).
Proof.
  intros Hip Hc Hne Hv Hj. eexists. unfold token_endpoint. unfold bind at 1, utcnow at 1.
  erewrite bind_run; [|rewrite resolve_client_ip_run, Hip; reflexivity].
  unfold bind at 1, find_client at 1, bind at 1, gets at 1, ret at 1. cbn [db]. rewrite Hc.
  cbn [option_map snd]. erewrite bind_run.
  2: { unfold proof_or_none, try_, verify_dpop, nonempty. rewrite bool_decide_eq_false_2 by done.
       unfold bind at 1. unfold bind at 1, asks at 1. unfold id.
       erewrite verify_proof_unseen; [reflexivity|exact Hv|exact Hj]. }
  cbn beta iota. reflexivity.
Qed.

Lemma admissible_runs rq gt cid code ru cv rt text e s client proof ip :
  admissible rq cid text e (db s) (clock e (tick s)) client proof ip ->
  exists f, token_endpoint rq gt cid code ru cv rt (Some text) e s =
    (if bool_decide (gt = "authorization_code")
     then authorization_code_grant client proof code ru cv ip (clock e (tick s))
     else if bool_decide (gt = "refresh_token")
     then refresh_grant client proof rt ip (clock e (tick s))
     else ret (error "unsupported_grant_type" 400)) e
    (mkSt (upd_dpop_jti_seen f (db s)) (S (tick s))).
Proof.
  intros [Hip (i & Hc & Hid & He & Hu) Hne Hv Hj]. eapply (token_endpoint_admits _ _ _ _ _ _ _ _ _ _ _ _ i); try done.
  apply scalar_select_unique; [done|..]; unfold enabled_client.
  - by rewrite Hid, He, bool_decide_eq_true_2.
  - intros j c Hcj Hp. bool_simpl. by eapply Hu.
Qed.

Lemma get_session_run sid e s : get_session sid e s = (Ok (sessions (db s) !! sid), s).
Proof. done. Qed.

Lemma on_code_replay_runs client row ip e s se :
  sessions (db s) !! ac_session_id row = Some se ->
  exists s', on_code_replay client row ip e s = (Ok tt, s').
Proof.
  intros Hse. unfold on_code_replay. erewrite bind_run; [|apply get_session_run]. rewrite Hse.
  destruct (revoke_runs (ac_session_id row) "auth_code_replay" ip e
    (revoke_for_session (ac_session_id row) e s).2 se) as [s2 H2];
    [exact Hse|vm_compute; discriminate|].
  assert ((revoke_for_session (ac_session_id row);; revoke (ac_session_id row) "auth_code_replay" ip)
            e s = (Ok tt, s2)) as H3 by exact H2.
  erewrite bind_run; [|exact H3]. rewrite emit_run by reflexivity. eauto.
Qed.

Lemma on_refresh_reuse_runs client row ip e s se :
  sessions (db s) !! rt_session_id row = Some se ->
  exists s', on_refresh_reuse client row ip e s = (Ok tt, s').
Proof.
  intros Hse. unfold on_refresh_reuse. erewrite bind_run; [|apply revoke_family_run].
  erewrite bind_run; [|apply get_session_run]. cbn [db sessions upd_refresh_tokens]. rewrite Hse.
  destruct (revoke_runs (rt_session_id row) "refresh_reuse" ip e
    (revoke_family (rt_family_id row) e s).2 se) as [s2 H2]; [exact Hse|vm_compute; discriminate|].
  erewrite bind_run; [|exact H2]. rewrite emit_run by apply family_detail_ok. eauto.
Qed.

Lemma code_replay_runs client proof code ru cv ip now e s row se :
  auth_codes (db s) !! sha256_hex code = Some row -> code_spent row ->
  sessions (db s) !! ac_session_id row = Some se ->
  code <> "" -> ru <> "" -> cv <> "" ->
  exists s', authorization_code_grant client proof code ru cv ip now e s = (Ok invalid_grant, s')
  /\ (forall i r, refresh_tokens (db s') !! i = Some r -> rt_session_id r = ac_session_id row ->
       rt_revoked_at r <> None)
  /\ exists se', sessions (db s') !! ac_session_id row = Some se' /\ s_revoked_at se' <> None
       /\ (s_revoked_at se = None -> s_revoke_reason se' = Some "auth_code_replay").
Proof.
  intros Hrow Hsp Hse Hn1 Hn2 Hn3. unfold authorization_code_grant.
  rewrite !bool_decide_eq_false_2 by done. cbn [orb].
  assert (consume_code code now e s = (Ok None, s)) as H1.
  { unfold consume_code, bind, gets, ret. simpl.
    destruct (scalar _) as [[h a]|] eqn:Es; [|done]. apply scalar_select in Es as [Ha Hc].
    unfold consumable in Hc. bool_simpl. subst h. rewrite Hrow in Ha. by injection Ha as <-. }
  erewrite bind_run; [|exact H1]. cbn beta iota.
  erewrite bind_run; [|apply find_consumed_run]. rewrite Hrow, bool_decide_eq_false_2 by exact Hsp.
  destruct (on_code_replay_runs client _ ip e _ _ Hse) as [s2 H2].
  erewrite bind_run; [|exact H2]. eexists. split; [reflexivity|]. by eapply replay_revokes.
Qed.

Lemma refresh_reuse_runs client proof token ip now e s i row se :
  hashes_unique (db s) -> refresh_tokens (db s) !! i = Some row ->
  rt_token_hash row = sha256_hex token -> rt_client_id row = oc_client_id client ->
  rt_used_at row <> None -> sessions (db s) !! rt_session_id row = Some se -> token <> "" ->
  exists s', refresh_grant client proof token ip now e s = (Ok invalid_grant, s')
  /\ (forall j r, refresh_tokens (db s') !! j = Some r -> rt_family_id r = rt_family_id row ->
       rt_revoked_at r <> None)
  /\ exists se', sessions (db s') !! rt_session_id row = Some se' /\ s_revoked_at se' <> None
       /\ (s_revoked_at se = None -> s_revoke_reason se' = Some "refresh_reuse").
Proof.
  intros Hu Hrow Hh Hc Hused Hse Hne. unfold refresh_grant. rewrite bool_decide_eq_false_2 by done.
  erewrite bind_run; [|by apply (find_unique (db s))]. cbn beta iota.
  rewrite !bool_decide_eq_true_2 by done. cbn [negb].
  destruct (on_refresh_reuse_runs client _ ip e _ _ Hse) as [s2 H2].
  erewrite bind_run; [|exact H2]. eexists. split; [reflexivity|]. by eapply reuse_revokes.
Qed.

(** C10: Presenting a code that was already redeemed kills what it gave.  The request of any
    enabled client with a good proof, with none of the code, the redirect URI and the
    verifier empty (right or wrong), is answered 400 [invalid_grant]; the session behind the
    code is revoked (with the reason [auth_code_replay] if it was not before), and so is
    every refresh token of that session.  (A code's session is a row of the table, as the
    foreign key of the code has it.) *)
Theorem code_replay_revokes rq cid code ru cv rt text e s client proof ip row se
    (Hreq : admissible rq cid text e (db s) (clock e (tick s)) client proof ip)
    (Hargs : code <> "" /\ ru <> "" /\ cv <> "")
    (Hrow : auth_codes (db s) !! sha256_hex code = Some row)
    (Hspent : ac_consumed_at row <> None)
    (Hse : sessions (db s) !! ac_session_id row = Some se) :
  exists s', token_endpoint rq "authorization_code" cid code ru cv rt (Some text) e s
      = (Ok (json_response 400 (JObj [("error", JStr "invalid_grant")])), s')
  /\ (forall i r, refresh_tokens (db s') !! i = Some r -> rt_session_id r = ac_session_id row ->
        rt_revoked_at r <> None)
  /\ exists se', sessions (db s') !! ac_session_id row = Some se' /\ s_revoked_at se' <> None
       /\ (s_revoked_at se = None -> s_revoke_reason se' = Some "auth_code_replay").
Proof.
  destruct Hargs as (H1 & H2 & H3).
  destruct (admissible_runs rq "authorization_code" cid code ru cv rt text e s client proof ip Hreq) as [f ->].
  rewrite bool_decide_eq_true_2 by done. by eapply code_replay_runs.
Qed.

(** C11: Presenting a refresh token that was already used kills its family.  The request of
    the client the token was issued to, enabled and with a good proof (of whatever key), is
    answered 400 [invalid_grant]; every token of the family is revoked, and so is the
    session (with the reason [refresh_reuse] if it was not before).  (The hashes of the
    tokens are unique and the token's session is a row, as the constraints of the table
    have it.) *)
Theorem refresh_reuse_revokes rq code ru cv rt text e s client proof ip i row se
    (Hreq : admissible rq (rt_client_id row) text e (db s) (clock e (tick s)) client proof ip)
    (Hunique : hashes_unique (db s))
    (Hrow : refresh_tokens (db s) !! i = Some row)
    (Htoken : rt_token_hash row = sha256_hex rt /\ rt <> "")
    (Hused : rt_used_at row <> None)
    (Hse : sessions (db s) !! rt_session_id row = Some se) :
  exists s', token_endpoint rq "refresh_token" (rt_client_id row) code ru cv rt (Some text) e s
      = (Ok (json_response 400 (JObj [("error", JStr "invalid_grant")])), s')
  /\ (forall j r, refresh_tokens (db s') !! j = Some r -> rt_family_id r = rt_family_id row ->
        rt_revoked_at r <> None)
  /\ exists se', sessions (db s') !! rt_session_id row = Some se' /\ s_revoked_at se' <> None
       /\ (s_revoked_at se = None -> s_revoke_reason se' = Some "refresh_reuse").
Proof.
  destruct Htoken as [Hh Hne]. pose proof Hreq as [_ (k & _ & Hid & _) _ _ _].
  destruct (admissible_runs rq "refresh_token" (rt_client_id row) code ru cv rt text e s client proof ip Hreq) as [f ->].
  rewrite bool_decide_eq_false_2 by done. rewrite bool_decide_eq_true_2 by done. by eapply refresh_reuse_runs.
Qed.
End Endpoint.

(** ** Witnesses *)

#[local] Existing Instances clear_aead demo_ec clear_jose demo_jwt.

Definition demo_client : OAuthClient :=
  mkOAuthClient "spa" "Console" ["https://app.example.com/cb"] "none" true
    ["openid"; "profile"; "email"] true 0.
Definition demo_verifier : string := "verifier-verifier-verifier-verifier-verifier".
Definition demo_code (consumed : option Z) : AuthCode :=
  mkAuthCode "spa" 11 21 "https://app.example.com/cb" "openid email" "n-1"
    (sha256_b64url demo_verifier) "S256" T0 (T0 + seconds 60) consumed.
Definition demo_refresh (used : option Z) : RefreshToken :=
  mkRefreshToken (sha256_hex "refresh-1") 21 77 None "spa" 11 "K1" "openid email" T0
    (T0 + seconds 21600) used None.
Definition demo_signing : SigningKey :=
  mkSigningKey "k0" "ES256" "active" [("x", JStr "PEM"); ("kid", JStr "k0")]
    "123456789012signing_keysPEM" "mk-1" 0 (Some 0) None None.

Definition demo_oidc (code : AuthCode) (refresh : RefreshToken) : Db :=
  upd_oauth_clients (fun _ => {[ 1 := demo_client ]})
  (upd_users (fun _ => {[ 11 := demo_user ]})
  (upd_sessions (fun _ => {[ 21 := demo_session "s" ]})
  (upd_signing_keys (fun _ => {[ 7 := demo_signing ]})
  (upd_auth_codes (fun _ => {[ sha256_hex "code-1" := code ]})
  (upd_refresh_tokens (fun _ => {[ 5 := refresh ]}) empty_db))))).

Definition oidc_env : Env := mkEnv example_settings T0 (fun _ => T0) (fun _ => 13).
Definition oidc_st (code : AuthCode) (refresh : RefreshToken) : St := mkSt (demo_oidc code refresh) 0.
Definition demo_rq : Request := mkRequest [] [] (Some "10.0.0.9").

Definition demo_token (grant code refresh : string) (s : St) : result Response * St :=
  token_endpoint demo_unseal demo_rq grant "spa" code "https://app.example.com/cb" demo_verifier
    refresh (Some (demo_proof 999990)) oidc_env s.

Lemma demo_admissible code refresh :
  admissible demo_rq "spa" (demo_proof 999990) oidc_env (demo_oidc code refresh) T0 demo_client
    (mkProof "K1" "jti-0001" (seconds 999990)) "10.0.0.9".
Proof.
  constructor; [reflexivity| | |exact demo_offline_past|reflexivity].
  - exists 1. split_and!; [reflexivity..|]. intros j c Hj _. simpl in Hj. by apply lookup_singleton_Some in Hj as [<- _].
  - intros E. apply (f_equal String.length) in E. vm_compute in E. discriminate.
Qed.

Lemma demo_admits grant code refresh c r :
  exists f, demo_token grant code refresh (oidc_st c r) =
    (if bool_decide (grant = "authorization_code")
     then authorization_code_grant demo_unseal demo_client (mkProof "K1" "jti-0001" (seconds 999990))
            code "https://app.example.com/cb" demo_verifier "10.0.0.9" T0
     else if bool_decide (grant = "refresh_token")
     then refresh_grant demo_unseal demo_client (mkProof "K1" "jti-0001" (seconds 999990)) refresh
            "10.0.0.9" T0
     else ret (error "unsupported_grant_type" 400)) oidc_env
    (mkSt (upd_dpop_jti_seen f (demo_oidc c r)) 1).
Proof.
  unfold demo_token, oidc_st.
  assert (Hne : demo_proof 999990 <> "").
  { intros E. apply (f_equal String.length) in E. vm_compute in E. discriminate. }
  pose proof (token_endpoint_admits demo_unseal demo_rq grant "spa" code "https://app.example.com/cb"
    demo_verifier refresh (demo_proof 999990) oidc_env (mkSt (demo_oidc c r) 0) "10.0.0.9" demo_client 1
    (mkProof "K1" "jti-0001" (seconds 999990)) eq_refl eq_refl Hne demo_offline_past eq_refl) as H.
  cbn [db tick clock oidc_env] in H. exact H.
Qed.

Lemma demo_backend_unsealed : get_secrets_backend demo_unseal example_settings = Ok unsealed_backend.
Proof. vm_compute. reflexivity. Qed.

Lemma demo_active_key d n : signing_keys d = {[ 7 := demo_signing ]} ->
  get_active_signing_key unsealed_backend oidc_env (mkSt d n) = (Ok ("k0", "PEM"), mkSt d n).
Proof.
  intros Hd. apply (active_key_run unsealed_backend oidc_env
    (mkSt (upd_signing_keys (fun _ => {[ 7 := demo_signing ]}) empty_db) 0)); [exact Hd|].
  vm_compute. reflexivity.
Qed.

Lemma demo_live : live_at example_settings (demo_session "s") T0.
Proof. constructor; vm_compute; done. Qed.

Lemma demo_code_good : code_good example_settings (demo_oidc (demo_code None) (demo_refresh None)) "spa"
  "code-1" "https://app.example.com/cb" demo_verifier T0 (demo_code None) (demo_session "s") demo_user.
Proof.
  constructor; [apply lookup_singleton_eq|done|done|done|done| |done|exact demo_live|done|done].
  apply verify_s256_true; [vm_compute; reflexivity|reflexivity].
Qed.

Lemma demo_refresh_good : refresh_good example_settings (demo_oidc (demo_code None) (demo_refresh None))
  "spa" "refresh-1" "K1" T0 5 (demo_refresh None) (demo_session "s") demo_user.
Proof. constructor; try reflexivity; [done|exact demo_live]. Qed.

Lemma demo_hashes_unique c r : hashes_unique (demo_oidc c r).
Proof.
  intros i j x y Hi Hj _. simpl in Hi, Hj. apply lookup_singleton_Some in Hi as [<- _].
  by apply lookup_singleton_Some in Hj as [<- _].
Qed.

Lemma demo_fresh_draws c used : fresh_draws oidc_env (refresh_tokens (demo_oidc c (demo_refresh used))).
Proof.
  split.
  - intros n. apply lookup_singleton_ne. vm_compute. discriminate.
  - intros n i r Hr. simpl in Hr. apply lookup_singleton_Some in Hr as [_ <-]. simpl. intros E.
    assert (bool_decide (sha256_hex "refresh-1" = sha256_hex (b64url_nopad (bytes_of 48 13))) = false)
      as Hne%bool_decide_eq_false_1 by (vm_compute; reflexivity).
    by apply Hne.
Qed.

Lemma demo_exchange_runs : exists resp s',
  demo_token "authorization_code" "code-1" "" (oidc_st (demo_code None) (demo_refresh None))
    = (Ok resp, s') /\ rs_status resp = 200.
Proof.
  destruct (demo_admits "authorization_code" "code-1" "" (demo_code None) (demo_refresh None)) as [f ->].
  rewrite bool_decide_eq_true_2 by reflexivity.
  refine (code_grant_complete demo_unseal demo_client _ _ _ _ _ _ oidc_env
    (mkSt (upd_dpop_jti_seen f (demo_oidc (demo_code None) (demo_refresh None))) 1) unsealed_backend
    ("k0", "PEM") (demo_code None) (demo_session "s") demo_user _ _ _ _ demo_backend_unsealed _
    (demo_fresh_draws (demo_code None) None) _).
  - destruct demo_code_good as [H1 H2 H3 H4 H5 H6 H7 H8 H9 H10]. constructor; assumption.
  - discriminate.
  - discriminate.
  - discriminate.
  - apply demo_active_key. reflexivity.
  - vm_compute. discriminate.
Qed.

Lemma demo_refresh_runs : exists resp s',
  demo_token "refresh_token" "" "refresh-1" (oidc_st (demo_code None) (demo_refresh None))
    = (Ok resp, s') /\ rs_status resp = 200.
Proof.
  destruct (demo_admits "refresh_token" "" "refresh-1" (demo_code None) (demo_refresh None)) as [f ->].
  rewrite bool_decide_eq_false_2 by discriminate. rewrite bool_decide_eq_true_2 by reflexivity.
  refine (refresh_grant_complete demo_unseal demo_client _ _ _ _ oidc_env
    (mkSt (upd_dpop_jti_seen f (demo_oidc (demo_code None) (demo_refresh None))) 1) unsealed_backend
    ("k0", "PEM") 5 (demo_refresh None) (demo_session "s") demo_user _
    (demo_hashes_unique (demo_code None) (demo_refresh None)) _ demo_backend_unsealed _
    (demo_fresh_draws (demo_code None) None)).
  - destruct demo_refresh_good as [H1 H2 H3 H4 H5 H6 H7 H8 H9 H10]. constructor; assumption.
  - discriminate.
  - apply demo_active_key. reflexivity.
Qed.

Example code_exchange_sound_witness : exists resp s' id r,
  demo_token "authorization_code" "code-1" "" (oidc_st (demo_code None) (demo_refresh None))
    = (Ok resp, s')
  /\ refresh_tokens (db s') !! id = Some r /\ rt_client_id r = "spa".
Proof.
  destruct demo_exchange_runs as (resp & s' & Hrun & H200).
  pose proof Hrun as Hr. unfold demo_token in Hr.
  destruct (code_exchange_sound demo_unseal _ _ _ _ _ _ _ _ _ _ _ Hr H200)
    as (client & proof & ip & now & row & se & user & se' & at_ & idt & rf & id & fam & s1 & _ & _ & _
        & _ & _ & _ & Htab & _).
  exists resp, s', id. rewrite Htab, lookup_insert_eq. eexists. split; [exact Hrun|]. split; reflexivity.
Defined.

Example code_single_use_witness : exists resp s',
  demo_token "authorization_code" "code-1" "" (oidc_st (demo_code None) (demo_refresh None))
    = (Ok resp, s') /\ rs_status resp = 200
  /\ forall resp2 s3, demo_token "authorization_code" "code-1" "" s' = (Ok resp2, s3) ->
       rs_status resp2 <> 200.
Proof.
  destruct demo_exchange_runs as (resp & [d' n'] & Hrun & H200). exists resp, (mkSt d' n').
  split; [exact Hrun|]. split; [exact H200|]. intros resp2 s3 Hrun2.
  pose proof Hrun as Hr. unfold demo_token in Hr, Hrun2.
  eapply (code_single_use demo_unseal _ _ _ _ _ _ _ _ _ _ _ Hr H200 d' n'); [|exact Hrun2].
  reflexivity.
Defined.

Example code_replay_revokes_witness : exists s' se',
  demo_token "authorization_code" "code-1" "" (oidc_st (demo_code (Some T0)) (demo_refresh None))
    = (Ok (json_response 400 (JObj [("error", JStr "invalid_grant")])), s')
  /\ sessions (db s') !! 21 = Some se' /\ s_revoke_reason se' = Some "auth_code_replay".
Proof.
  destruct (code_replay_revokes demo_unseal demo_rq "spa" "code-1" "https://app.example.com/cb" demo_verifier ""
    (demo_proof 999990) oidc_env (oidc_st (demo_code (Some T0)) (demo_refresh None)) _ _ _ (demo_code (Some T0))
    (demo_session "s") (demo_admissible _ _)) as (s' & Hrun & _ & se' & Hse & _ & Hr);
    [split_and!; discriminate|apply lookup_singleton_eq|discriminate|reflexivity|].
  exists s', se'. split; [exact Hrun|]. split; [exact Hse|]. apply Hr. reflexivity.
Defined.

Example refresh_rotation_sound_witness : exists resp s' child r,
  demo_token "refresh_token" "" "refresh-1" (oidc_st (demo_code None) (demo_refresh None))
    = (Ok resp, s')
  /\ refresh_tokens (db s') !! child = Some r /\ rt_client_id r = "spa".
Proof.
  destruct demo_refresh_runs as (resp & s' & Hrun & H200).
  pose proof Hrun as Hr. unfold demo_token in Hr.
  destruct (refresh_rotation_sound demo_unseal _ _ _ _ _ _ _ _ _ _ _ Hr H200)
    as (client & proof & ip & now & i & row & se & user & se' & at_ & rf & child & s1 & _ & _ & _
        & _ & _ & _ & Htab).
  exists resp, s', child. rewrite Htab, lookup_insert_eq. eexists. split; [exact Hrun|]. split; reflexivity.
Defined.

Example refresh_reuse_revokes_witness : exists s' se',
  demo_token "refresh_token" "" "refresh-1" (oidc_st (demo_code None) (demo_refresh (Some T0)))
    = (Ok (json_response 400 (JObj [("error", JStr "invalid_grant")])), s')
  /\ sessions (db s') !! 21 = Some se' /\ s_revoke_reason se' = Some "refresh_reuse".
Proof.
  destruct (refresh_reuse_revokes demo_unseal demo_rq "" "https://app.example.com/cb" demo_verifier "refresh-1"
    (demo_proof 999990) oidc_env (oidc_st (demo_code None) (demo_refresh (Some T0))) _ _ _ 5 (demo_refresh (Some T0))
    (demo_session "s") (demo_admissible _ _) (demo_hashes_unique _ _)) as (s' & Hrun & _ & se' & Hse & _ & Hr);
    [reflexivity|split; [reflexivity|discriminate]|discriminate|reflexivity|].
  exists s', se'. split; [exact Hrun|]. split; [exact Hse|]. apply Hr. reflexivity.
Defined.

Example refresh_bounded_preserved_witness : exists resp s',
  demo_token "refresh_token" "" "refresh-1" (oidc_st (demo_code None) (demo_refresh None))
    = (Ok resp, s') /\ rs_status resp = 200 /\ refresh_bounded (db s').
Proof.
  destruct demo_refresh_runs as (resp & s' & Hrun & H200). exists resp, s'.
  split; [exact Hrun|]. split; [exact H200|].
  pose proof Hrun as Hr. unfold demo_token in Hr.
  refine (refresh_bounded_preserved demo_unseal _ _ _ _ _ _ _ _ _ _ _ _ Hr _).
  intros i r Hi. simpl in Hi. apply lookup_singleton_Some in Hi as [_ <-].
  exists (demo_session "s"). split; [reflexivity|]. vm_compute. discriminate.
Defined.
