(* ===== verification/SecondFactor.v ===== *)
(** * SecondFactor: security/totp.py and security/recovery.py

    The authenticator secret of a user, sealed at rest, and the one-time recovery codes.
    The TOTP and QR libraries are operations of the environment ([Otp]). *)

From S2P Require Import Prelude PyStr Encoding Digest Json JsonText PyTime Config Db Effects Crypto.
From S2P Require Import Passwords.
Local Open Scope Z_scope.

(** [pyotp] and [segno]: a secret drawn at random, the provisioning URI of a secret, the
    verification of a code at a time within a window of steps, and the QR image. *)
Class Otp := {
  random_base32 : Z -> string;
  otp_uri : forall (secret name issuer : string), string;
  otp_verify : forall (secret code : string) (for_time valid_window : Z), bool;
  qr_svg : string -> string;
}.

Definition TOTP_AAD : string := "user_totp".

Section Totp.
Context {aead : Aead} {otp : Otp}.

Definition generate_secret : M string := let! z := draw in ret (random_base32 z).

Definition provisioning_uri (secret email issuer : string) : string := otp_uri secret email issuer.

Definition provisioning_qr_svg (uri : string) : string := qr_svg uri.

(** One step of drift either way, at [at_] or at the time of the call. *)
Definition verify_code (secret code : string) (at_ : option Z) : M bool :=
  match at_ with
  | Some t => ret (otp_verify secret code t 1)
  | None => let! t := utcnow in ret (otp_verify secret code t 1)
  end.

Definition store_pending_secret (backend : SecretsBackend) (uid : Z) (secret : string) : M unit :=
  let! t := gets user_totp in
  match t !! uid with
  | Some _ => moddb (upd_user_totp (delete uid))
  | None => ret tt
  end;;
  let! '(key_id, blob) := encrypt_blob backend secret TOTP_AAD in
  let! created := server_now in
  db_add "user_totp" user_totp upd_user_totp no_clash uid (mkUserTotp blob key_id created None).

Definition decrypt_secret (backend : SecretsBackend) (row : UserTotp) : result string :=
  match decrypt_blob backend (ut_key_id row) (ut_secret_ciphertext row) TOTP_AAD with
  | Raise x => Raise x
  | Ok b => if utf8_ok b then Ok b else Raise (ValueError "utf-8")
  end.

Definition get_totp_row (uid : Z) (confirmed_only : bool) : M (option UserTotp) :=
  let! t := gets user_totp in
  ret (match t !! uid with
       | None => None
       | Some row =>
           if confirmed_only && bool_decide (ut_confirmed_at row = None) then None else Some row
       end).
End Totp.

(** ** recovery.py *)

Definition ALPHABET : string := "23456789ABCDEFGHJKMNPQRSTUVWXYZ".
Definition CODE_LENGTH : nat := 10.
Definition BATCH_SIZE : nat := 10.

Fixpoint choices (n : nat) : M string :=
  match n with
  | O => ret ""
  | S n' => let! c := choice ALPHABET in let! rest := choices n' in ret (String c rest)
  end.

Definition generate_code : M string :=
  let! raw := choices CODE_LENGTH in
  ret (String.substring 0 5 raw +:+ "-" +:+ drop_str 5 raw).

Definition normalize (code : string) : string :=
  filter_chars (fun c => negb (bool_decide (c = " "%char)))
    (filter_chars (fun c => negb (bool_decide (c = "-"%char))) (upper (strip code))).

Fixpoint repeat_ {A} (n : nat) (m : M A) : M (list A) :=
  match n with
  | O => ret []
  | S n' => let! a := m in let! rest := repeat_ n' m in ret (a :: rest)
  end.

Definition unused_of (uid : Z) (_ : Z) (r : RecoveryCode) : bool :=
  (rcd_user_id r =? uid) && bool_decide (rcd_used_at r = None).

Section Recovery.
Context {argon : Argon}.

Definition add_code (uid batch_id : Z) (code : string) : M unit :=
  let! hash := hash_password (normalize code) in
  let! id := uuid4 in
  let! created := server_now in
  db_add "recovery_codes" recovery_codes upd_recovery_codes no_clash id
    (mkRecoveryCode uid batch_id hash None created).

Definition issue_batch (uid : Z) : M (list string) :=
  moddb (upd_recovery_codes (delete_where (unused_of uid)));;
  let! batch_id := uuid4 in
  let! codes := repeat_ BATCH_SIZE generate_code in
  for_ codes (add_code uid batch_id);;
  ret codes.

(** The loop over the user's unused codes: the first that verifies is marked. *)
Fixpoint consume_first (rows : list (Z * RecoveryCode)) (normalized : string) (now : Z) : M bool :=
  match rows with
  | [] => ret false
  | (id, row) :: rest =>
      let! ok := verify_password (rcd_code_hash row) normalized in
      if ok then
        moddb (upd_recovery_codes (alter (set_rcd_used_at (Some now)) id));; ret true
      else consume_first rest normalized now
  end.

Definition consume (uid : Z) (code : string) (now : Z) : M bool :=
  let normalized := normalize code in
  let! t := gets recovery_codes in
  consume_first (select (unused_of uid) t) normalized now.
End Recovery.

(** ** Lemmas *)

Section TotpLemmas.
Context {aead : Aead} {otp : Otp}.

Lemma get_totp_row_run uid confirmed_only e s :
  get_totp_row uid confirmed_only e s =
    (Ok (match user_totp (db s) !! uid with
         | None => None
         | Some row =>
             if confirmed_only && bool_decide (ut_confirmed_at row = None) then None else Some row
         end), s).
Proof. done. Qed.

Lemma store_pending_secret_Ok backend uid secret e s u s' :
  store_pending_secret backend uid secret e s = (Ok u, s') ->
  exists key_id blob s0, encrypt_blob backend secret TOTP_AAD e s0 = (Ok (key_id, blob), mkSt (db s0) (tick s'))
  /\ db s' = upd_user_totp (fun t => <[uid := mkUserTotp blob key_id (tx_now e) None]> (delete uid t)) (db s).
Proof.
  unfold store_pending_secret. rewrite bind_gets. intros Hr. mstep Hr u1 s1 H1.
  assert (db s1 = upd_user_totp (delete uid) (db s)) as Hd.
  { destruct (user_totp (db s) !! uid) eqn:E.
    - unfold moddb in H1. by injection H1 as <- <-.
    - unfold ret in H1. injection H1 as <- <-. destruct (db s). unfold upd_user_totp. simpl.
      f_equal. symmetry. by apply delete_id. }
  mstep Hr kb s2 H2. destruct kb as [key_id blob]. cbn beta iota in Hr. mread Hr.
  apply db_add_Ok in Hr as (_ & _ & Hdb & Ht).
  assert (db s2 = db s1) as Hd2.
  { change (id (db s2) = id (db s1)). eapply same_steps_eq; [|exact H2]. apply steps_encrypt_blob. apply _. }
  exists key_id, blob, s1. rewrite Ht. split.
  - rewrite H2. f_equal. destruct s2. simpl in *. by subst.
  - rewrite Hdb, Hd2, Hd. done.
Qed.
End TotpLemmas.

Section RecoveryLemmas.
Context {argon : Argon}.

Lemma consume_first_true rows n now e s b s' :
  consume_first rows n now e s = (Ok b, s') ->
  (b = true -> exists id row, (id, row) ∈ rows /\ argon_verify (rcd_code_hash row) n = Verified
     /\ db s' = upd_recovery_codes (alter (set_rcd_used_at (Some now)) id) (db s))
  /\ (b = false -> s' = s /\ forall id row, (id, row) ∈ rows -> argon_verify (rcd_code_hash row) n <> Verified).
Proof.
  revert s. induction rows as [|[id row] rows IH]; intros s; simpl; intros Hr.
  - unfold ret in Hr. injection Hr as <- <-. split; [done|]. intros _. split; [done|]. set_solver.
  - mstep Hr ok s1 H1. apply verify_password_run in H1 as [-> Hok]. destruct ok.
    + mread Hr. unfold ret in Hr. injection Hr as <- <-. split; [|done]. intros _. exists id, row.
      split_and!; [left|by apply Hok|done].
    + destruct (IH _ Hr) as [IH1 IH2]. split.
      * intros Hb. destruct (IH1 Hb) as (i & r & Hin & Hv & Hdb). exists i, r. split; [by right|done].
      * intros Hb. destruct (IH2 Hb) as [-> Hall]. split; [done|].
        intros i r [[= -> ->]|Hin]%elem_of_cons; [|by eapply Hall]. intros Hv. by apply Hok in Hv.
Qed.

(** No hash in the list is malformed: the loop answers, and finds a code that is there. *)
Lemma consume_first_runs rows n now e s :
  (forall id row, (id, row) ∈ rows -> argon_verify (rcd_code_hash row) n <> InvalidHash) ->
  exists b s', consume_first rows n now e s = (Ok b, s').
Proof.
  induction rows as [|[id row] rows IH]; intros Hw; simpl; [eexists _, _; reflexivity|].
  unfold verify_password, bind at 1. pose proof (Hw id row ltac:(left)) as Hi.
  destruct (argon_verify (rcd_code_hash row) n); [eexists _, _; reflexivity| |done].
  apply IH. intros i r Hin. apply (Hw i r). by right.
Qed.

Lemma unused_of_true uid id r : unused_of uid id r = true <-> rcd_user_id r = uid /\ rcd_used_at r = None.
Proof. unfold unused_of. rewrite andb_true_iff, Z.eqb_eq, bool_decide_eq_true. done. Qed.

(** A code row of the batch: for this user, unused, of the hash of a code. *)
Definition batch_row (uid : Z) (code : string) (r : RecoveryCode) : Prop :=
  rcd_user_id r = uid /\ rcd_used_at r = None
  /\ exists salt, rcd_code_hash r = argon_hash salt (normalize code).

Lemma add_code_Ok uid b code e s u s' :
  add_code uid b code e s = (Ok u, s') ->
  exists id r, recovery_codes (db s) !! id = None /\ batch_row uid code r
  /\ recovery_codes (db s') = <[id := r]> (recovery_codes (db s)).
Proof.
  unfold add_code. intros Hr. mstep Hr h s1 H1. unfold hash_password in H1. mread H1.
  unfold ret in H1. injection H1 as <- <-. mstep Hr rid s2 H2. unfold uuid4 in H2. mread H2.
  unfold ret in H2. injection H2 as <- <-. mread Hr.
  apply db_add_Ok in Hr as (Hn & _ & Hdb & _). simpl in Hn, Hdb. eexists _, _.
  split_and!; [exact Hn| |by rewrite Hdb]. split_and!; [done|done|]. eexists. reflexivity.
Qed.

Lemma add_codes_Ok uid b codes e s u s' :
  for_ codes (add_code uid b) e s = (Ok u, s') ->
  (forall id r, recovery_codes (db s) !! id = Some r -> recovery_codes (db s') !! id = Some r)
  /\ (forall id r, recovery_codes (db s') !! id = Some r ->
       recovery_codes (db s) !! id = Some r \/ exists c, c ∈ codes /\ batch_row uid c r)
  /\ (forall c, c ∈ codes -> exists id r, recovery_codes (db s') !! id = Some r /\ batch_row uid c r).
Proof.
  revert s. induction codes as [|c codes IH]; intros s; simpl; intros Hr.
  - unfold ret in Hr. injection Hr as _ <-. split_and!; [done|auto|set_solver].
  - mstep Hr u1 s1 H1. apply add_code_Ok in H1 as (id & r & Hn & Hb & Ht).
    destruct (IH _ Hr) as (I1 & I2 & I3). rewrite Ht in *. split_and!.
    + intros i x Hi. apply I1. rewrite lookup_insert_ne; [done|]. congruence.
    + intros i x Hi. destruct (I2 _ _ Hi) as [H|(c' & Hc & Hb')]; [|right; exists c'; by set_solver].
      destruct (decide (i = id)) as [->|Hne].
      * rewrite lookup_insert_eq in H. injection H as <-. right. exists c. by set_solver.
      * rewrite lookup_insert_ne in H by done. by left.
    + intros c' [->|Hc]%elem_of_cons; [|by apply I3]. exists id, r. split; [|done].
      apply I1, lookup_insert_eq.
Qed.

Lemma repeat_length {A} n (m : M A) e s l s' : repeat_ n m e s = (Ok l, s') -> List.length l = n.
Proof.
  revert s l. induction n as [|n IH]; intros s l; simpl; intros Hr.
  - by minv Hr.
  - mstep Hr a s1 H1. mstep Hr rest s2 H2. unfold ret in Hr. injection Hr as <- <-.
    simpl. f_equal. by eapply IH.
Qed.

Lemma steps_choices R `{!PreOrder R} n : steps R (choices n).
Proof. induction n; simpl; steps_auto. Qed.
Lemma steps_repeat {A} R `{!PreOrder R} n (m : M A) : steps R m -> steps R (repeat_ n m).
Proof. intros Hm. induction n; simpl; steps_auto; done. Qed.
Lemma steps_generate_code R `{!PreOrder R} : steps R generate_code.
Proof. unfold generate_code. steps_auto. apply steps_choices. apply _. Qed.

Lemma consume_cases uid code now e s b s' :
  consume uid code now e s = (Ok b, s') ->
  (b = true -> exists id row, recovery_codes (db s) !! id = Some row
     /\ rcd_user_id row = uid /\ rcd_used_at row = None
     /\ argon_verify (rcd_code_hash row) (normalize code) = Verified
     /\ db s' = upd_recovery_codes <[id := set_rcd_used_at (Some now) row]> (db s))
  /\ (b = false -> s' = s /\ forall id row, recovery_codes (db s) !! id = Some row ->
       rcd_user_id row = uid -> rcd_used_at row = None ->
       argon_verify (rcd_code_hash row) (normalize code) <> Verified).
Proof.
  intros Hrun. unfold consume in Hrun. cbv zeta in Hrun. mread Hrun. apply consume_first_true in Hrun as [H1 H2].
  split; intros Hb.
  - destruct (H1 Hb) as (id & row & [Hrow Hu]%select_In & Hv & Hdb). apply unused_of_true in Hu as [Hu1 Hu2].
    exists id, row. split_and!; [done..|]. rewrite Hdb. unfold upd_recovery_codes. f_equal.
    apply map_eq. intros i. destruct (decide (i = id)) as [->|Hne].
    + by rewrite lookup_alter_eq, Hrow, lookup_insert_eq.
    + by rewrite lookup_alter_ne, lookup_insert_ne.
  - destruct (H2 Hb) as [-> Hall]. split; [done|]. intros id row Hrow Hu1 Hu2.
    apply (Hall id). apply select_In. split; [done|]. by apply unused_of_true.
Qed.

(** ** Theorems *)

(** A recovery code is accepted exactly once: acceptance marks one unused code of this
    user, whose hash the normalised text answers, and changes nothing else; refusal
    changes nothing, and means that no unused code of the user answers. *)
Theorem consume_spec uid code now e s b s' (Hrun : consume uid code now e s = (Ok b, s')) :
  (b = true -> exists id row, recovery_codes (db s) !! id = Some row
     /\ rcd_user_id row = uid /\ rcd_used_at row = None
     /\ argon_verify (rcd_code_hash row) (normalize code) = Verified
     /\ db s' = upd_recovery_codes <[id := set_rcd_used_at (Some now) row]> (db s))
  /\ (b = false -> s' = s /\ forall id row, recovery_codes (db s) !! id = Some row ->
       rcd_user_id row = uid -> rcd_used_at row = None ->
       argon_verify (rcd_code_hash row) (normalize code) <> Verified).
Proof. exact (consume_cases _ _ _ _ _ _ _ Hrun). Qed.

(** A new batch replaces the unused codes of the user: afterwards those are the ten codes
    shown, each of which is accepted; the used codes and those of other users stay. *)
Theorem issue_batch_roundtrip {laws : ArgonLaws} uid e s codes s'
    (Hrun : issue_batch uid e s = (Ok codes, s')) :
  List.length codes = BATCH_SIZE
  /\ (forall id r, recovery_codes (db s) !! id = Some r ->
       rcd_user_id r <> uid \/ rcd_used_at r <> None -> recovery_codes (db s') !! id = Some r)
  /\ (forall id r, recovery_codes (db s') !! id = Some r -> rcd_user_id r = uid ->
       rcd_used_at r = None -> exists c, c ∈ codes /\ batch_row uid c r)
  /\ forall c now e2 n, c ∈ codes ->
       exists s2, consume uid c now e2 (mkSt (db s') n) = (Ok true, s2).
Proof.
  unfold issue_batch in Hrun. mread Hrun. mstep Hrun b s1 H1. mstep Hrun cs s2 H2.
  mstep Hrun u s3 H3. unfold ret in Hrun. injection Hrun as <- <-.
  assert (recovery_codes (db s2) = delete_where (unused_of uid) (recovery_codes (db s))) as Hdel.
  { assert (id (db s2) = id (db s1)) as Hd.
    { eapply same_steps_eq; [|exact H2]. apply steps_repeat; [apply _|]. apply steps_generate_code, _. }
    unfold id in Hd. rewrite Hd. unfold uuid4 in H1. minv H1. done. }
  apply repeat_length in H2 as Hlen. clear H2. apply add_codes_Ok in H3 as (I1 & I2 & I3). rewrite Hdel in *.
  assert (forall id r, recovery_codes (db s3) !! id = Some r -> rcd_user_id r = uid ->
       rcd_used_at r = None -> exists c, c ∈ cs /\ batch_row uid c r) as Hnew.
  { intros id r Hr Hu1 Hu2. destruct (I2 _ _ Hr) as [H|H]; [|done]. exfalso.
    rewrite lookup_delete_where in H. destruct (recovery_codes (db s) !! id) as [x|]; [|done].
    simpl in H. destruct (unused_of uid id x) eqn:E; [done|]. injection H as ->.
    rewrite (proj2 (unused_of_true uid id r) (conj Hu1 Hu2)) in E. discriminate E. }
  split_and!; [done| |done|].
  - intros id r Hr Hk. apply I1. rewrite lookup_delete_where, Hr. simpl.
    destruct (unused_of uid id r) eqn:E; [|done]. apply unused_of_true in E as [E1 E2].
    exfalso. destruct Hk as [Hk|Hk]; [exact (Hk E1)|exact (Hk E2)].
  - intros c now e2 n Hc. unfold consume. rewrite bind_gets. cbn [db].
    destruct (consume_first_runs (select (unused_of uid) (recovery_codes (db s3))) (normalize c) now e2
      (mkSt (db s3) n)) as (ok & s4 & H4).
    { intros i r [Hr Hu]%select_In. apply unused_of_true in Hu as [Hu1 Hu2].
      destruct (Hnew _ _ Hr Hu1 Hu2) as (c' & _ & _ & _ & salt & ->). apply argon_wellformed. }
    exists s4. rewrite H4. apply consume_first_true in H4 as [_ Hf]. destruct ok; [done|]. exfalso.
    destruct (I3 _ Hc) as (i & r & Hr & Hu1 & Hu2 & salt & Hh).
    apply (proj2 (Hf eq_refl) i r); [apply select_In; split; [exact Hr|by apply unused_of_true]|].
    rewrite Hh. apply argon_round.
Qed.
End RecoveryLemmas.

(** ** Witnesses *)

Definition demo_codes : Db :=
  upd_recovery_codes (fun _ => {[ 3 := mkRecoveryCode 11 1 "$argon2id$ABCDE23456" None 0 ]}) empty_db.

Example consume_spec_witness : exists s' id row,
  consume (argon := demo_argon) 11 "abcde-23456 " 5 demo_env (mkSt demo_codes 0) = (Ok true, s')
  /\ recovery_codes demo_codes !! id = Some row
  /\ db s' = upd_recovery_codes <[id := set_rcd_used_at (Some 5) row]> demo_codes.
Proof.
  destruct (consume (argon := demo_argon) 11 "abcde-23456 " 5 demo_env (mkSt demo_codes 0))
    as [[[]|x] s'] eqn:E; [|exfalso; revert E; vm_compute; discriminate..].
  destruct (proj1 (consume_spec (argon := demo_argon) 11 "abcde-23456 " 5 demo_env (mkSt demo_codes 0)
    true s' E) eq_refl) as (id & row & Hr & _ & _ & _ & Hdb).
  exists s', id, row. split_and!; [reflexivity|exact Hr|exact Hdb].
Defined.

(** A random source that counts. *)
Definition counting_env : Env := mkEnv example_settings 0 (fun _ => 0) (fun n => Z.of_nat n).

Example issue_batch_roundtrip_witness : exists codes s',
  issue_batch (argon := demo_argon) 11 counting_env (mkSt demo_codes 0) = (Ok codes, s')
  /\ List.length codes = 10%nat.
Proof.
  destruct (issue_batch (argon := demo_argon) 11 counting_env (mkSt demo_codes 0))
    as [[codes|x] s'] eqn:E; [|exfalso; revert E; vm_compute; discriminate].
  destruct (issue_batch_roundtrip (argon := demo_argon) (laws := demo_argon_laws) 11 counting_env
    (mkSt demo_codes 0) codes s' E) as [Hl _].
  exists codes, s'. split; [reflexivity|exact Hl].
Defined.
