(* ===== verification/Flows.v ===== *)
(** * Flows: idp/flows.py, the login flow

    The row that carries a login from the authorize request through the factors.  A
    function that receives a [LoginFlow] object receives here its key and reads the
    row, as the identity map of the unit of work does. *)

From S2P Require Import Prelude PyStr Encoding Digest Json PyTime Config Db Effects Crypto Web.
Local Open Scope Z_scope.

Definition required_second_factor (user : User) : string :=
  if bool_decide (u_auth_tier user = "admin") then "webauthn" else "totp".

Definition flow_row (fid : Z) : M LoginFlow :=
  let! t := gets login_flows in assert_some (t !! fid).

Definition set_flow (fid : Z) (f : LoginFlow -> LoginFlow) : M unit :=
  moddb (upd_login_flows (alter f fid)).

(** [LoginFlow(...)] with the column defaults. *)
Definition new_flow (csrf_token source_ip : string) (oidc_request : list (string * string))
    (created now ttl : Z) : LoginFlow :=
  mkLoginFlow (sha256_hex csrf_token) source_ip "password" None None false oidc_request None
    created (now + seconds ttl).

Definition create_flow (source_ip : string) (oidc_request : list (string * string)) (now : Z)
  : M (Z * string) :=
  let! csrf_token := new_token in
  let! ttl := asks login_flow_ttl in
  let! id := uuid4 in
  let! created := server_now in
  db_add "login_flows" login_flows upd_login_flows no_clash id
    (new_flow csrf_token source_ip oidc_request created now ttl);;
  ret (id, csrf_token).

(** What a flow in the table must satisfy to be handed out. *)
Definition flow_usable (flow : LoginFlow) (source_ip : string) (now : Z) (enforce_ip : bool) : bool :=
  if lf_expires_at flow <=? now then false
  else if enforce_ip && bool_decide (lf_user_id flow <> None)
          && negb (bool_decide (lf_source_ip flow = source_ip))
  then false
  else true.

(** Locking the row ([for_update]) has no effect on a run that is alone. *)
Definition get_valid_flow (flow_id : option string) (source_ip : string) (now : Z) (enforce_ip : bool)
  : M (option Z) :=
  match nonempty flow_id with
  | None => ret None
  | Some text =>
      match uuid_parse text with
      | None => ret None
      | Some fid =>
          let! t := gets login_flows in
          match t !! fid with
          | None => ret None
          | Some flow =>
              ret (if flow_usable flow source_ip now enforce_ip then Some fid else None)
          end
      end
  end.

Definition verify_flow_csrf (flow : LoginFlow) (csrf_token : string) : bool :=
  constant_time_equals (sha256_hex csrf_token) (lf_csrf_token_hash flow).

Definition rotate_csrf (fid : Z) : M string :=
  let! csrf_token := new_token in
  set_flow fid (set_lf_csrf_token_hash (sha256_hex csrf_token));;
  ret csrf_token.

Definition delete_flow (fid : Z) : M unit := moddb (upd_login_flows (delete fid)).

(** ** Lemmas *)

Lemma steps_flow_row R `{!PreOrder R} fid : steps R (flow_row fid).
Proof. unfold flow_row. steps_auto. Qed.
Lemma steps_get_valid_flow R `{!PreOrder R} id ip now enf : steps R (get_valid_flow id ip now enf).
Proof. unfold get_valid_flow. steps_auto. Qed.
#[export] Hint Resolve steps_flow_row steps_get_valid_flow : hyproxy.

(** A relation that does not see the flows. *)
Definition blind_to_flows (R : Db -> Db -> Prop) : Prop :=
  forall d f, R d (upd_login_flows f d).

Section FlowSteps.
Context (R : Db -> Db -> Prop) `{!PreOrder R} (HR : blind_to_flows R).

Lemma steps_set_flow fid f : steps R (set_flow fid f).
Proof. intros e s. apply HR. Qed.
Lemma steps_delete_flow fid : steps R (delete_flow fid).
Proof. intros e s. apply HR. Qed.
#[local] Hint Resolve steps_set_flow : hyproxy.
Lemma steps_rotate_csrf fid : steps R (rotate_csrf fid).
Proof. unfold rotate_csrf, new_token. steps_auto. Qed.
Lemma steps_create_flow ip oidc now : steps R (create_flow ip oidc now).
Proof. unfold create_flow, new_token. steps_auto. Qed.
End FlowSteps.

#[export] Hint Extern 2 (steps _ (set_flow _ _)) =>
  apply steps_set_flow; solve [intros ??; first [reflexivity | by apply grows_same]] : hyproxy.
#[export] Hint Extern 2 (steps _ (delete_flow _)) =>
  apply steps_delete_flow; solve [intros ??; first [reflexivity | by apply grows_same]] : hyproxy.
#[export] Hint Extern 2 (steps _ (rotate_csrf _)) =>
  apply steps_rotate_csrf;
    [typeclasses eauto|solve [intros ??; first [reflexivity | by apply grows_same]]] : hyproxy.
#[export] Hint Extern 2 (steps _ (create_flow _ _ _)) =>
  apply steps_create_flow;
    [typeclasses eauto|solve [intros ??; first [reflexivity | by apply grows_same]]] : hyproxy.

Lemma get_valid_flow_Some id ip now enf e s fid s' :
  get_valid_flow id ip now enf e s = (Ok (Some fid), s') ->
  s' = s /\ exists text row, id = Some text /\ uuid_parse text = Some fid
  /\ login_flows (db s) !! fid = Some row /\ now < lf_expires_at row
  /\ (enf = true -> lf_user_id row <> None -> lf_source_ip row = ip).
Proof.
  unfold get_valid_flow. intros Hr. destruct id as [text|]; [|done]. unfold nonempty in Hr.
  case_bool_decide; [done|]. destruct (uuid_parse text) as [f|] eqn:Eu; [|done]. mread Hr.
  destruct (login_flows (db s) !! f) as [row|] eqn:Erow; [|done].
  unfold ret in Hr. injection Hr as Hu <-. unfold flow_usable in Hu.
  destruct (_ <=? _) eqn:El; [done|]. destruct (_ && _) eqn:Ei; [done|]. injection Hu as <-.
  split; [done|]. exists text, row. bool_simpl. split_and!; [done..|]. intros -> Huser. simpl in Ei.
  apply andb_false_iff in Ei as [Ei|Ei]; bool_simpl; [by destruct Ei|done].
Qed.

Lemma create_flow_Ok ip oidc now e s fid csrf s' :
  create_flow ip oidc now e s = (Ok (fid, csrf), s') ->
  login_flows (db s) !! fid = None /\ 0 <= fid < UUID_MAX /\
  db s' = upd_login_flows
    <[fid := new_flow csrf ip oidc (tx_now e) now (login_flow_ttl (settings e))]> (db s).
Proof.
  unfold create_flow, new_token. intros Hr. mstep Hr tok s1 H1.
  apply token_urlsafe_Ok in H1 as [Hd _]. unfold uuid4 in Hr. minv Hr.
  apply db_add_Ok in Hm as (Hn & _ & Hdb & _). simpl in Hn, Hdb. rewrite Hd in Hn, Hdb.
  split_and!; [done|apply uuid4_of_range..|done].
Qed.

Lemma rotate_csrf_Ok fid e s csrf s' :
  rotate_csrf fid e s = (Ok csrf, s') ->
  db s' = upd_login_flows (alter (set_lf_csrf_token_hash (sha256_hex csrf)) fid) (db s).
Proof.
  unfold rotate_csrf, new_token. intros Hr. mstep Hr tok s1 H1.
  apply token_urlsafe_Ok in H1 as [Hd _]. unfold set_flow in Hr. minv Hr. simpl. by rewrite Hd.
Qed.
