(* ===== verification/Pages.v ===== *)
(** * Pages: the helpers of idp/web/routes.py shared by the authorize endpoint and the
    login pages *)

From S2P Require Import Prelude PyStr Encoding Json Config Db Effects Web.
Local Open Scope Z_scope.

Definition FLOW_COOKIE : string := "__Host-login_flow".

Definition client_ip (request : Request) : M string := resolve_client_ip request.

(** A cookie without an age: it lasts as long as the browser. *)
Definition set_flow_cookie (flow_id : string) (r : Response) : Response :=
  add_cookie (SetCookie FLOW_COOKIE flow_id true true "lax" "/" None None) r.

Definition template (status : Z) (name : string) (context : list (string * CtxValue)) : Response :=
  mkResponse status (Template name context) [] [].

Definition login_page (flow_id csrf_token : string) (error : option string) (status : Z) : Response :=
  set_flow_cookie flow_id
    (template status "login.html"
       [("flow_id", CStr flow_id); ("csrf_token", CStr csrf_token); ("error", c_opt error)]).

Definition error_page (message : string) (status : Z) : Response :=
  template status "error.html" [("message", CStr message)].

Lemma steps_client_ip R `{!PreOrder R} rq : steps R (client_ip rq).
Proof. unfold client_ip. auto with hyproxy. Qed.
#[export] Hint Resolve steps_client_ip : hyproxy.

Lemma client_ip_Ok rq e s ip s' :
  client_ip rq e s = (Ok ip, s') -> s' = s /\ client_ip_of (settings e) rq = Some ip.
Proof.
  unfold client_ip. rewrite resolve_client_ip_run. destruct (client_ip_of _ rq); [|done].
  by intros [= <- <-].
Qed.
