(* ===== verification/Authorize.v ===== *)
(** * Authorize: idp/oidc/authorize.py, GET /oidc/authorize and GET /oidc/logout

    The order of the validation is that of the code: an error is shown locally until
    the redirect URI is known to be registered, and only then sent there. *)

From S2P Require Import Prelude PyStr Encoding Digest Json PyTime Url Config Db Effects Crypto Web.
From S2P Require Import Events Sessions Pkce Grants TokenEndpoint Flows Pages.
Local Open Scope Z_scope.

Definition STATE_MIN : Z := 16.
Definition STATE_MAX : Z := 512.

(** [request.query_params.get(k)]: the last value of a repeated parameter. *)
Definition query_get (q : list (string * string)) (k : string) : option string := assoc k (rev q).

(** [redirect_uri + "?" + urlencode(params)]. *)
Definition with_query (url : string) (params : list (string * string)) : string :=
  url +:+ "?" +:+ urlencode params.

(** The entry of an optional parameter: left out when [None] or empty. *)
Definition opt_param (k : string) (v : option string) : list (string * string) :=
  match nonempty v with Some x => [(k, x)] | None => [] end.

Definition redirect_error (redirect_uri err : string) (state description : option string) : Response :=
  redirect 302 (with_query redirect_uri
    ([("error", err)] ++ opt_param "error_description" description ++ opt_param "state" state)).

(** What the checks of step 3 leave: the error to redirect with, or the parameters. *)
Record AuthRequest := mkAuthRequest {
  ar_scope : string;
  ar_state : string;
  ar_nonce : string;
  ar_challenge : string;
}.

Definition valid_state (state : option string) : option string :=
  match state with
  | Some t => if (STATE_MIN <=? char_len t) && (char_len t <=? STATE_MAX) then Some t else None
  | None => None
  end.

Definition scopes_ok (scope : string) (client : OAuthClient) : bool :=
  bool_decide ("openid" ∈ words scope)
  && forallb (fun x => bool_decide (x ∈ oc_allowed_scopes client)) (words scope).

Definition check_params (q : list (string * string)) (redirect_uri : string) (client : OAuthClient)
  : Response + AuthRequest :=
  match valid_state (query_get q "state") with
  | None => inl (redirect_error redirect_uri "invalid_request" None (Some "state required"))
  | Some state =>
  let fail err description := inl (redirect_error redirect_uri err (Some state) description) in
  if negb (bool_decide (query_get q "response_type" = Some "code"))
  then fail "unsupported_response_type" None
  else
  let scope := default "" (query_get q "scope") in
  if negb (scopes_ok scope client) then fail "invalid_scope" None
  else
  match nonempty (query_get q "nonce") with
  | None => fail "invalid_request" (Some "nonce required")
  | Some nonce =>
  if 512 <? char_len nonce then fail "invalid_request" (Some "nonce required")
  else
  if negb (bool_decide (query_get q "code_challenge_method" = Some "S256"))
  then fail "invalid_request" (Some "code_challenge_method must be S256")
  else
  match nonempty (query_get q "code_challenge") with
  | None => fail "invalid_request" (Some "invalid code_challenge")
  | Some code_challenge =>
  if negb (valid_challenge code_challenge)
  then fail "invalid_request" (Some "invalid code_challenge")
  else inr (mkAuthRequest scope state nonce code_challenge)
  end end end.

(** Steps 4 and 5: park the request in a login flow, or issue the code. *)
Definition park_request (client_id redirect_uri : string) (a : AuthRequest) (ip : string) (now : Z)
  : M Response :=
  let oidc_request :=
    [("client_id", client_id); ("redirect_uri", redirect_uri); ("response_type", "code");
     ("scope", ar_scope a); ("state", ar_state a); ("nonce", ar_nonce a);
     ("code_challenge", ar_challenge a); ("code_challenge_method", "S256")] in
  let! ' (flow, _) := create_flow ip oidc_request now in
  ret (set_flow_cookie (uuid_str flow) (redirect 303 ("/auth/login?flow=" +:+ uuid_str flow))).

Definition grant_code (client : OAuthClient) (redirect_uri : string) (a : AuthRequest) (sid : Z)
    (session : Session) (ip : string) (now : Z) : M Response :=
  let! code := issue_code sid session (oc_client_id client) redirect_uri (ar_scope a) (ar_nonce a)
                 (ar_challenge a) now in
  emit OIDC_CODE_ISSUED ip true (Some (s_user_id session)) (Some sid) (Some (oc_client_id client))
    [("scope", JStr (ar_scope a))];;
  ret (redirect 302 (with_query redirect_uri [("code", code); ("state", ar_state a)])).

Definition authorize (request : Request) (q : list (string * string)) : M Response :=
  let! now := utcnow in
  let! ip := client_ip request in
  let! client :=
    match nonempty (query_get q "client_id") with
    | Some client_id => find_client client_id
    | None => ret None
    end in
  match client with
  | None => ret (error_page "Unknown application." 400)
  | Some client =>
      match nonempty (query_get q "redirect_uri") with
      | None => ret (error_page "Invalid redirect URI for this application." 400)
      | Some redirect_uri =>
          if negb (bool_decide (redirect_uri ∈ oc_redirect_uris client))
          then ret (error_page "Invalid redirect URI for this application." 400)
          else
            match check_params q redirect_uri client with
            | inl refused => ret refused
            | inr a =>
                let! found := get_session_from_cookie (cookie request SESSION_COOKIE) ip now in
                match found with
                | None => park_request (default "" (query_get q "client_id")) redirect_uri a ip now
                | Some sid =>
                    let! session := session_row sid in
                    grant_code client redirect_uri a sid session ip now
                end
            end
      end
  end.

(** ** RP-initiated logout *)

Definition origin_of (url : string) : result (string * string) :=
  match urlsplit url with
  | None => Raise (ValueError "urlsplit")
  | Some u => Ok (url_scheme u, url_netloc u)
  end.

Fixpoint origins_of (urls : list string) : result (list (string * string)) :=
  match urls with
  | [] => Ok []
  | u :: rest =>
      match origin_of u, origins_of rest with
      | Ok o, Ok os => Ok (o :: os)
      | Raise x, _ => Raise x
      | _, Raise x => Raise x
      end
  end.

(** The post-logout target: the requested URL when its origin is one of the client's. *)
Definition logout_target (q : list (string * string)) : M string :=
  match nonempty (query_get q "client_id"), nonempty (query_get q "post_logout_redirect_uri") with
  | Some client_id, Some requested =>
      let! client := find_client client_id in
      match client with
      | None => ret "/auth/login"
      | Some client =>
          let! want := lift (origin_of requested) in
          let! allowed := lift (origins_of (oc_redirect_uris client)) in
          ret (if bool_decide (want ∈ allowed) then requested else "/auth/login")
      end
  | _, _ => ret "/auth/login"
  end.

Definition oidc_logout (request : Request) (q : list (string * string)) : M Response :=
  let! now := utcnow in
  let! ip := client_ip request in
  let! found := get_session_from_cookie (cookie request SESSION_COOKIE) ip now in
  match found with
  | Some sid => Sessions.revoke sid "logout" ip
  | None => ret tt
  end;;
  let! target := logout_target q in
  ret (clear_session_cookie (redirect 303 target)).

(** ** Specification *)

(** The parameters accepted by step 3. *)
Record valid_params (q : list (string * string)) (client : OAuthClient) (a : AuthRequest) : Prop := {
  vp_state : query_get q "state" = Some (ar_state a);
  vp_state_len : STATE_MIN <= char_len (ar_state a) <= STATE_MAX;
  vp_response_type : query_get q "response_type" = Some "code";
  vp_scope : ar_scope a = default "" (query_get q "scope");
  vp_openid : "openid" ∈ words (ar_scope a);
  vp_allowed : Forall (fun x => x ∈ oc_allowed_scopes client) (words (ar_scope a));
  vp_nonce : query_get q "nonce" = Some (ar_nonce a);
  vp_nonce_len : ar_nonce a <> "" /\ char_len (ar_nonce a) <= 512;
  vp_method : query_get q "code_challenge_method" = Some "S256";
  vp_challenge : query_get q "code_challenge" = Some (ar_challenge a);
  vp_challenge_ok : valid_challenge (ar_challenge a) = true;
}.

(** Steps 1 and 2: the enabled client of the request, and one of its redirect URIs. *)
Record known_client (d : Db) (q : list (string * string)) (client : OAuthClient) (redirect_uri : string)
  : Prop := {
  kc_row : exists i, oauth_clients d !! i = Some client;
  kc_enabled : oc_enabled client = true;
  kc_id : query_get q "client_id" = Some (oc_client_id client);
  kc_uri : query_get q "redirect_uri" = Some redirect_uri;
  kc_member : redirect_uri ∈ oc_redirect_uris client;
}.

(** What the code recorded for a request stands for. *)
Definition code_row (cfg : Settings) (client : OAuthClient) (redirect_uri : string) (a : AuthRequest)
    (sid : Z) (session : Session) (now : Z) : AuthCode :=
  mkAuthCode (oc_client_id client) (s_user_id session) sid redirect_uri (ar_scope a) (ar_nonce a)
    (ar_challenge a) "S256" (s_issued_at session) (now + seconds (auth_code_ttl cfg)) None.

(** ** Lemmas *)

Lemma nonempty_Some o x : nonempty o = Some x <-> o = Some x /\ x <> "".
Proof.
  unfold nonempty. destruct o as [y|]; [|naive_solver].
  case_bool_decide; naive_solver.
Qed.

Lemma valid_state_Some o t :
  valid_state o = Some t <-> o = Some t /\ STATE_MIN <= char_len t <= STATE_MAX.
Proof.
  unfold valid_state. destruct o as [y|]; [|naive_solver].
  destruct (_ && _) eqn:E; bool_simpl; [naive_solver|].
  split; [done|]. intros ([= ->] & H1 & H2). apply andb_false_iff in E as [E|E]; bool_simpl; lia.
Qed.

Lemma scopes_ok_true scope client :
  scopes_ok scope client = true <->
  "openid" ∈ words scope /\ Forall (fun x => x ∈ oc_allowed_scopes client) (words scope).
Proof.
  unfold scopes_ok. rewrite andb_true_iff, bool_decide_eq_true, forallb_forall, Forall_forall.
  setoid_rewrite bool_decide_eq_true. by setoid_rewrite list_elem_of_In.
Qed.

(** An error of step 3 goes to the redirect URI, with [error] first. *)
Definition error_redirect (redirect_uri : string) (r : Response) : Prop :=
  exists err rest, r = redirect 302 (with_query redirect_uri (("error", err) :: rest)).

Lemma redirect_error_shape redirect_uri err st desc : error_redirect redirect_uri (redirect_error redirect_uri err st desc).
Proof. eexists err, _. reflexivity. Qed.

Lemma check_params_inl q ru client r : check_params q ru client = inl r -> error_redirect ru r.
Proof.
  unfold check_params. intros H.
  repeat (match type of H with context [match ?x with _ => _ end] => destruct x end; try discriminate H);
    injection H as <-; apply redirect_error_shape.
Qed.

Lemma check_params_inr q ru client a : check_params q ru client = inr a <-> valid_params q client a.
Proof.
  unfold check_params. split.
  - destruct (valid_state _) as [t|] eqn:E1; [|done]. apply valid_state_Some in E1 as [E1 L1].
    case_bool_decide as E2; simpl; [|done].
    destruct (scopes_ok _ _) eqn:E3; simpl; [|done]. apply scopes_ok_true in E3 as [E3 E3'].
    destruct (nonempty (query_get q "nonce")) as [n|] eqn:E4; [|done].
    apply nonempty_Some in E4 as [E4 N4]. destruct (512 <? _) eqn:E5; [done|].
    case_bool_decide as E6; simpl; [|done].
    destruct (nonempty (query_get q "code_challenge")) as [c|] eqn:E7; [|done].
    apply nonempty_Some in E7 as [E7 N7]. destruct (valid_challenge c) eqn:E8; simpl; [|done].
    intros [= <-]. bool_simpl. constructor; simpl; done.
  - intros [H1 L1 H2 H3 H4 H5 H6 [N6 L6] H7 H8 H9].
    rewrite (proj2 (valid_state_Some _ _) (conj H1 L1)), H2, H7, <- H3.
    rewrite !bool_decide_eq_true_2 by done. simpl.
    rewrite (proj2 (scopes_ok_true _ _) (conj H4 H5)). simpl.
    rewrite (proj2 (nonempty_Some _ _) (conj H6 N6)).
    apply Z.ltb_ge in L6. rewrite L6.
    rewrite (proj2 (nonempty_Some _ (ar_challenge a))), H9; [by destruct a|].
    split; [done|]. intros E. by rewrite E in H9.
Qed.

Lemma grant_code_Ok client ru a sid se ip now e s resp s' :
  grant_code client ru a sid se ip now e s = (Ok resp, s') ->
  exists code, auth_codes (db s) !! sha256_hex code = None
  /\ auth_codes (db s') = <[sha256_hex code := code_row (settings e) client ru a sid se now]>
                            (auth_codes (db s))
  /\ resp = redirect 302 (with_query ru [("code", code); ("state", ar_state a)])
  /\ sessions (db s') = sessions (db s) /\ users (db s') = users (db s).
Proof.
  unfold grant_code, issue_code, new_token. intros Hr. mstep Hr code s1 H1.
  mstep H1 tok s2 H2. apply token_urlsafe_Ok in H2 as [Hd _]. minv H1.
  apply db_add_Ok in Hm as (Hn & _ & Hdb & _). minv Hr. apply emit_Ok in Hm as (_ & Hdb' & _).
  exists code. rewrite Hdb', Hdb. simpl. rewrite Hd in *. done.
Qed.

(** The request at the door: its time, address, client and redirect URI. *)
Record at_door (e : Env) (s : St) (rq : Request) (q : list (string * string)) (s1 : St)
    (client : OAuthClient) (ru ip : string) (now : Z) : Prop := {
  ad_now : now = clock e (tick s);
  ad_ip : client_ip_of (settings e) rq = Some ip;
  ad_client : known_client (db s) q client ru;
  ad_st : db s1 = db s;
}.

(** The answers of the endpoint. *)
Inductive outcome (rq : Request) (q : list (string * string)) (e : Env) (s s' : St) (resp : Response)
  : Prop :=
| local_error text :
    resp = error_page text 400 -> db s' = db s -> outcome rq q e s s' resp
| sent_back s1 client ru ip now :
    at_door e s rq q s1 client ru ip now -> error_redirect ru resp -> db s' = db s ->
    (forall a, ~ valid_params q client a) -> outcome rq q e s s' resp
| parked s1 s2 client ru ip now a :
    at_door e s rq q s1 client ru ip now -> valid_params q client a ->
    get_session_from_cookie (cookie rq SESSION_COOKIE) ip now e s1 = (Ok None, s2) ->
    park_request (oc_client_id client) ru a ip now e s2 = (Ok resp, s') -> outcome rq q e s s' resp
| granted s1 s2 client ru ip now a sid se :
    at_door e s rq q s1 client ru ip now -> valid_params q client a ->
    get_session_from_cookie (cookie rq SESSION_COOKIE) ip now e s1 = (Ok (Some sid), s2) ->
    sessions (db s2) !! sid = Some se ->
    grant_code client ru a sid se ip now e s2 = (Ok resp, s') -> outcome rq q e s s' resp.

Lemma authorize_outcome rq q e s resp s' :
  authorize rq q e s = (Ok resp, s') -> outcome rq q e s s' resp.
Proof.
  unfold authorize. intros Hr. mread Hr. mstep Hr ip s1 H1. apply client_ip_Ok in H1 as [-> Hip].
  mstep Hr oc s1 H1.
  assert (db s1 = db s /\ forall c, oc = Some c -> query_get q "client_id" = Some (oc_client_id c)
    /\ oc_enabled c = true /\ exists i, oauth_clients (db s) !! i = Some c) as [Hdb Hc].
  { destruct (nonempty (query_get q "client_id")) as [cid|] eqn:E.
    - apply nonempty_Some in E as [E _]. pose proof (find_client_same _ _ _ _ _ H1) as ->. split; [done|].
      intros c ->. apply find_client_Some in H1 as (_ & <- & He & Hi). auto.
    - unfold ret in H1. injection H1 as <- <-. by split. }
  destruct oc as [client|]; [|unfold ret in Hr; injection Hr as <- <-; by eapply local_error].
  destruct (Hc _ eq_refl) as (Hid & Hen & Hrow).
  destruct (nonempty (query_get q "redirect_uri")) as [ru|] eqn:E;
    [|unfold ret in Hr; injection Hr as <- <-; by eapply local_error].
  apply nonempty_Some in E as [Eru _].
  case_bool_decide as Em; simpl in Hr; [|unfold ret in Hr; injection Hr as <- <-; by eapply local_error].
  assert (Had : at_door e s rq q s1 client ru ip (clock e (tick s))) by (repeat constructor; done).
  destruct (check_params q ru client) as [r|a] eqn:Ep.
  { unfold ret in Hr. injection Hr as <- <-. eapply sent_back; [done|by eapply check_params_inl|done|].
    intros a Ha. apply (check_params_inr q ru) in Ha. congruence. }
  apply check_params_inr in Ep. mstep Hr found s2 H2. destruct found as [sid|].
  - unfold session_row in Hr. minv Hr. eapply granted; done.
  - rewrite Hid in Hr. by eapply parked.
Qed.

Lemma get_session_kept c ip now {X} (view : Db -> X) :
  outside view -> steps (same view) (get_session_from_cookie c ip now).
Proof.
  intros Ho. pose proof (same_check_liveness view) as Hl. unfold get_session_from_cookie.
  steps_auto.
Qed.

Lemma get_session_frame c ip now e s r s' :
  get_session_from_cookie c ip now e s = (r, s') ->
  forall {X} (view : Db -> X), outside view -> view (db s') = view (db s).
Proof. intros Hr X view Ho. eapply same_steps_eq; [by apply get_session_kept|exact Hr]. Qed.

Lemma park_request_Ok cid ru a ip now e s resp s' :
  park_request cid ru a ip now e s = (Ok resp, s') ->
  exists fid flow, 0 <= fid < UUID_MAX /\ login_flows (db s) !! fid = None
  /\ db s' = upd_login_flows <[fid := flow]> (db s)
  /\ lf_stage flow = "password" /\ lf_user_id flow = None /\ lf_completed_session_id flow = None
  /\ lf_source_ip flow = ip /\ lf_expires_at flow = now + seconds (login_flow_ttl (settings e))
  /\ assoc "redirect_uri" (lf_oidc_request flow) = Some ru
  /\ assoc "client_id" (lf_oidc_request flow) = Some cid
  /\ resp = set_flow_cookie (uuid_str fid) (redirect 303 ("/auth/login?flow=" +:+ uuid_str fid)).
Proof.
  unfold park_request. intros Hr. cbv zeta in Hr. mstep Hr p s1 H1. destruct p as [fid csrf].
  apply create_flow_Ok in H1 as (Hn & Hid & Hdb). unfold ret in Hr. injection Hr as <- <-.
  eexists fid, _. split_and!; [apply Hid|apply Hid|exact Hn|exact Hdb|reflexivity..].
Qed.

(** [client_id] is unique. *)
Definition unique_client (d : Db) (client : OAuthClient) : Prop := forall i c,
  oauth_clients d !! i = Some c -> oc_client_id c = oc_client_id client -> c = client.

Lemma find_client_runs i client e s :
  oauth_clients (db s) !! i = Some client -> oc_enabled client = true -> unique_client (db s) client ->
  find_client (oc_client_id client) e s = (Ok (Some client), s).
Proof.
  intros Hi Hen Huniq. unfold find_client, bind, gets, ret.
  destruct (scalar _) as [[j c]|] eqn:Es.
  - apply scalar_select in Es as [Hj Hp]. unfold enabled_client in Hp. bool_simpl.
    simpl. by rewrite (Huniq _ _ Hj).
  - apply (scalar_select_None _ _ i client) in Es; [|done]. unfold enabled_client in Es.
    by rewrite bool_decide_eq_true_2, Hen in Es.
Qed.

Lemma authorize_client_run rq q e s client ru ip :
  client_ip_of (settings e) rq = Some ip -> known_client (db s) q client ru ->
  unique_client (db s) client -> oc_client_id client <> "" -> ru <> "" ->
  authorize rq q e s =
    (match check_params q ru client with
     | inl refused => ret refused
     | inr a =>
         let! found := get_session_from_cookie (cookie rq SESSION_COOKIE) ip (clock e (tick s)) in
         match found with
         | None => park_request (oc_client_id client) ru a ip (clock e (tick s))
         | Some sid =>
             let! session := session_row sid in
             grant_code client ru a sid session ip (clock e (tick s))
         end
     end) e (mkSt (db s) (S (tick s))).
Proof.
  intros Hip [[i Hi] Hen Hid Hru Hm] Huniq Hc Hr. unfold authorize, utcnow, bind at 1. cbv beta iota.
  erewrite bind_run; [|unfold client_ip; rewrite resolve_client_ip_run, Hip; reflexivity].
  cbn beta. rewrite (proj2 (nonempty_Some _ _) (conj Hid Hc)).
  erewrite bind_run; [|by eapply find_client_runs].
  cbn beta iota. rewrite (proj2 (nonempty_Some _ _) (conj Hru Hr)), bool_decide_eq_true_2 by done.
  cbn [negb]. rewrite Hid. reflexivity.
Qed.

(** The random source does not repeat a code. *)
Definition fresh_codes (e : Env) (d : Db) : Prop := forall n,
  auth_codes d !! sha256_hex (b64url_nopad (bytes_of 32 (rng e n))) = None.

Lemma issue_code_runs sid se cid ru sc n ch now e s :
  fresh_codes e (db s) ->
  let code := b64url_nopad (bytes_of 32 (rng e (tick s))) in
  issue_code sid se cid ru sc n ch now e s =
    (Ok code, mkSt (upd_auth_codes <[sha256_hex code :=
       mkAuthCode cid (s_user_id se) sid ru sc n ch "S256" (s_issued_at se)
         (now + seconds (auth_code_ttl (settings e))) None]> (db s)) (S (tick s))).
Proof.
  intros Hf code. unfold issue_code. erewrite bind_run; [|reflexivity]. cbn beta.
  erewrite bind_run; [|reflexivity]. cbn beta.
  erewrite bind_run; [|by apply db_add_runs, Hf]. reflexivity.
Qed.

Lemma grant_code_runs client ru a sid se ip now e s :
  fresh_codes e (db s) -> char_len (ar_scope a) <= 256 ->
  let code := b64url_nopad (bytes_of 32 (rng e (tick s))) in
  exists s', grant_code client ru a sid se ip now e s =
      (Ok (redirect 302 (with_query ru [("code", code); ("state", ar_state a)])), s')
  /\ auth_codes (db s') !! sha256_hex code = Some (code_row (settings e) client ru a sid se now)
  /\ sessions (db s') = sessions (db s) /\ users (db s') = users (db s).
Proof.
  intros Hf Hl code. unfold grant_code. erewrite bind_run; [|by apply issue_code_runs]. cbn beta.
  erewrite bind_run; [|apply emit_run, validate_detail_Ok, Forall_singleton].
  - eexists. split; [reflexivity|]. split; [apply lookup_insert_eq|done].
  - split; [unfold ALLOWED_DETAIL_KEYS; set_solver|]. simpl. by apply negb_true_iff, Z.ltb_ge.
Qed.

Lemma origin_of_Ok url o : origin_of url = Ok o <->
  exists u, urlsplit url = Some u /\ o = (url_scheme u, url_netloc u).
Proof. unfold origin_of. destruct (urlsplit url); naive_solver. Qed.

Lemma origins_of_Ok urls os : origins_of urls = Ok os -> forall o, o ∈ os <-> exists u, u ∈ urls /\ origin_of u = Ok o.
Proof.
  revert os. induction urls as [|u urls IH]; intros os; simpl.
  - intros [= <-] o. set_solver.
  - destruct (origin_of u) as [o'|] eqn:Eo; [|done]. destruct (origins_of urls) as [os'|]; [|done].
    intros [= <-] o. rewrite elem_of_cons, IH by done. split.
    + intros [->|(v & Hv & Ho)]; [exists u|exists v]; (split; [set_solver|done]).
    + intros (v & [->|Hv]%elem_of_cons & Ho); [left; congruence|right; eauto].
Qed.

Lemma logout_target_Ok q e s t s' :
  logout_target q e s = (Ok t, s') -> s' = s /\ (t = "/auth/login" \/
    exists client u o, oc_enabled client = true /\ query_get q "client_id" = Some (oc_client_id client)
    /\ (exists i, oauth_clients (db s) !! i = Some client)
    /\ query_get q "post_logout_redirect_uri" = Some t
    /\ u ∈ oc_redirect_uris client /\ origin_of u = Ok o /\ origin_of t = Ok o).
Proof.
  unfold logout_target. intros Hr.
  destruct (nonempty (query_get q "client_id")) as [cid|] eqn:E1; [|injection Hr as <- <-; auto].
  destruct (nonempty (query_get q "post_logout_redirect_uri")) as [rq|] eqn:E2; [|injection Hr as <- <-; auto].
  apply nonempty_Some in E1 as [E1 _], E2 as [E2 _].
  mstep Hr oc s1 H1. destruct oc as [client|].
  2: { pose proof (find_client_same _ _ _ _ _ H1) as ->. injection Hr as <- <-. auto. }
  apply find_client_Some in H1 as (-> & <- & Hen & Hi).
  mlift Hr want Ew. mlift Hr allowed Ea. unfold ret in Hr. injection Hr as <- <-. split; [done|].
  case_bool_decide as Em; [|auto]. right.
  apply (origins_of_Ok _ _ Ea) in Em as (u & Hu & Ho). exists client, u, want. auto 9.
Qed.

(** A request that is granted: a registered client, accepted parameters and a browser that
    holds the cookie of a live session. *)
Record grantable (e : Env) (s : St) (rq : Request) (q : list (string * string)) (client : OAuthClient)
    (ru : string) (a : AuthRequest) (sid : Z) (row : Session) : Prop := {
  gt_ip : exists ip, client_ip_of (settings e) rq = Some ip;
  gt_client : known_client (db s) q client ru;
  gt_unique : unique_client (db s) client;
  gt_nonempty : oc_client_id client <> "" /\ ru <> "";
  gt_params : valid_params q client a;
  gt_cookie : exists secret, cookie rq SESSION_COOKIE = Some (cookie_of sid secret)
    /\ s_cookie_secret_hash row = sha256_hex secret;
  gt_sid : 0 <= sid < UUID_MAX;
  gt_row : sessions (db s) !! sid = Some row;
  gt_live : live_at (settings e) row (clock e (tick s));
  gt_fresh : fresh_codes e (db s);
}.

Lemma authorize_session_found e s rq q client ru a sid row :
  grantable e s rq q client ru a sid row ->
  exists ip s1 se1, authorize rq q e s = grant_code client ru a sid se1 ip (clock e (tick s)) e s1
  /\ sessions (db s1) !! sid = Some se1 /\ s_login se1 = s_login row
  /\ auth_codes (db s1) = auth_codes (db s) /\ users (db s1) = users (db s).
Proof.
  intros [[ip Hip] Hk Huniq [Hc Hr] Hv (secret & Hck & Hh) Hid Hrow Hl Hf].
  rewrite (authorize_client_run _ _ _ _ _ _ _ Hip Hk Huniq Hc Hr).
  rewrite (proj2 (check_params_inr _ _ _ _) Hv).
  destruct (get_session_runs sid secret ip (clock e (tick s)) e (mkSt (db s) (S (tick s))) row)
    as [s1 H1]; [done..|].
  rewrite Hck. erewrite bind_run; [|exact H1]. cbn beta iota.
  pose proof (get_session_frame _ _ _ _ _ _ _ H1 auth_codes ltac:(by split)) as Ka.
  pose proof (get_session_frame _ _ _ _ _ _ _ H1 users ltac:(by split)) as Ku.
  pose proof (sess_mono_get_session (Some (cookie_of sid secret)) ip (clock e (tick s)) e
    (mkSt (db s) (S (tick s)))) as Hm.
  rewrite H1 in Hm. destruct (Hm _ _ Hrow) as (se1 & Hse1 & _ & Hx). simpl in Hse1, Ka, Ku.
  rewrite (bind_session_row _ _ _ _ _ Hse1). by exists ip, s1, se1.
Qed.

Lemma authorize_grants e s rq q client ru a sid row :
  grantable e s rq q client ru a sid row -> char_len (ar_scope a) <= 256 ->
  exists code s' se1, authorize rq q e s =
      (Ok (redirect 302 (with_query ru [("code", code); ("state", ar_state a)])), s')
  /\ auth_codes (db s) !! sha256_hex code = None
  /\ auth_codes (db s') !! sha256_hex code =
       Some (code_row (settings e) client ru a sid se1 (clock e (tick s)))
  /\ sessions (db s') !! sid = Some se1 /\ s_login se1 = s_login row
  /\ users (db s') = users (db s).
Proof.
  intros Hg Hl. destruct (authorize_session_found _ _ _ _ _ _ _ _ _ Hg)
    as (ip & s1 & se1 & -> & Hse & Hx & Ka & Ku).
  pose proof (gt_fresh _ _ _ _ _ _ _ _ _ Hg) as Hf.
  destruct (grant_code_runs client ru a sid se1 ip (clock e (tick s)) e s1)
    as (s2 & -> & Hcode & Hses & Hus); [intros n; rewrite Ka; apply Hf|done|].
  eexists _, s2, se1. rewrite Hses, Hus. split_and!; done.
Qed.

(** A scope that names an allowed scope often enough passes the checks and is then too
    long for the event that records it: the request fails with no answer of its own. *)
Lemma authorize_long_scope e s rq q client ru a sid row :
  grantable e s rq q client ru a sid row -> 256 < char_len (ar_scope a) ->
  exists s', authorize rq q e s = (Raise (ValueError "audit detail must be a short scalar"), s').
Proof.
  intros Hg Hl. destruct (authorize_session_found _ _ _ _ _ _ _ _ _ Hg)
    as (ip & s1 & se1 & -> & _ & _ & Ka & _).
  unfold grant_code. erewrite bind_run.
  2: { apply issue_code_runs. intros n. rewrite Ka. apply (gt_fresh _ _ _ _ _ _ _ _ _ Hg). }
  cbn beta. eexists. apply bind_run_raise. unfold emit, bind, lift, validate_detail. simpl.
  apply Z.ltb_lt in Hl. by rewrite Hl.
Qed.

(** ** Theorems *)

(** C13: A code that appears during an authorize request was issued to the enabled client the
    request names, for one of its registered redirect URIs, with accepted parameters and
    a well-formed S256 challenge, in the name of the user of the live session whose
    cookie secret the browser holds; it is unused, and the answer sends it, with the
    caller's state, to that redirect URI and nowhere else. *)
Theorem authorize_code_sound rq q e s resp s' h row
    (Hrun : authorize rq q e s = (Ok resp, s'))
    (Hold : auth_codes (db s) !! h = None) (Hnew : auth_codes (db s') !! h = Some row) :
  exists client ru a sid secret se0 se code,
    known_client (db s) q client ru /\ valid_params q client a
    /\ split_cookie (cookie rq SESSION_COOKIE) = Some (sid, secret)
    /\ sessions (db s) !! sid = Some se0 /\ s_cookie_secret_hash se0 = sha256_hex secret
    /\ live_at (settings e) se0 (clock e (tick s)) /\ s_user_id se = s_user_id se0
    /\ h = sha256_hex code
    /\ row = code_row (settings e) client ru a sid se (clock e (tick s))
    /\ resp = redirect 302 (with_query ru [("code", code); ("state", ar_state a)])
    /\ forall h', h' <> h -> auth_codes (db s') !! h' = auth_codes (db s) !! h'.
Proof.
  apply authorize_outcome in Hrun as
    [text _ Hdb|s1 client ru ip now _ _ Hdb _|s1 s2 client ru ip now a Had Hv Hg Hp
    |s1 s2 client ru ip now a sid se Had Hv Hg Hse Hc].
  - by rewrite Hdb, Hold in Hnew.
  - by rewrite Hdb, Hold in Hnew.
  - apply park_request_Ok in Hp as (fid & flow & _ & _ & Hdb & _).
    pose proof (get_session_frame _ _ _ _ _ _ _ Hg auth_codes ltac:(by split)) as Hk.
    rewrite Hdb in Hnew. simpl in Hnew. destruct Had as [_ _ _ Hs1]. congruence.
  - pose proof (get_session_frame _ _ _ _ _ _ _ Hg auth_codes ltac:(by split)) as Hk.
    pose proof (sess_mono_get_session (cookie rq SESSION_COOKIE) ip now e s1) as Hm. rewrite Hg in Hm.
    apply get_session_Some in Hg as (secret & se0 & Hck & Hrow & Hh & Hl & _).
    destruct (Hm _ _ Hrow) as (se' & Hse' & _ & Hx). simpl in Hse'. rewrite Hse in Hse'. injection Hse' as <-.
    apply grant_code_Ok in Hc as (code & Hn & Htab & -> & _ & _). destruct Had as [-> _ Hkc Hdb].
    rewrite Hk, Hdb in Htab. rewrite Htab in Hnew. rewrite Hdb in Hrow. rewrite Htab. unfold s_login in Hx.
    destruct (decide (h = sha256_hex code)) as [->|Hne].
    + rewrite lookup_insert_eq in Hnew. injection Hnew as <-.
      exists client, ru, a, sid, secret, se0, se, code. split_and!; try done; [congruence|].
      intros h' Hh'. by rewrite lookup_insert_ne.
    + rewrite lookup_insert_ne in Hnew by done. congruence.
Qed.

(** The authorize endpoint only redirects to the login page or to a redirect URI that
    is registered, byte for byte, for the enabled client of the request; any other
    request is answered by a local error page and changes nothing. *)
Theorem authorize_redirects_registered rq q e s resp s'
    (Hrun : authorize rq q e s = (Ok resp, s')) :
  (exists text, resp = error_page text 400 /\ db s' = db s)
  \/ exists url, rs_body resp = RedirectTo url /\ exists client ru, known_client (db s) q client ru
     /\ ((exists params, url = with_query ru params)
         \/ exists fid flow, url = "/auth/login?flow=" +:+ uuid_str fid
            /\ login_flows (db s') !! fid = Some flow /\ lf_user_id flow = None
            /\ lf_stage flow = "password" /\ assoc "redirect_uri" (lf_oidc_request flow) = Some ru).
Proof.
  apply authorize_outcome in Hrun as
    [text H1 Hdb|s1 client ru ip now Had (err & rest & ->) _ _|s1 s2 client ru ip now a Had Hv Hg Hp
    |s1 s2 client ru ip now a sid se Had Hv Hg Hse Hc]; [eauto|..]; right.
  - destruct Had as [_ _ Hk _]. eexists. split; [done|]. exists client, ru. split; [done|]. left. eauto.
  - apply park_request_Ok in Hp as (fid & flow & Hid & Hn & Hdb & Hst & Hu & _ & _ & _ & Hr & _ & ->).
    destruct Had as [_ _ Hk _]. eexists. split; [done|]. exists client, ru. split; [done|]. right.
    exists fid, flow. rewrite Hdb. simpl. rewrite lookup_insert_eq. auto.
  - apply grant_code_Ok in Hc as (code & _ & _ & -> & _ & _).
    destruct Had as [_ _ Hk _]. eexists. split; [done|]. exists client, ru. split; [done|]. left. eauto.
Qed.

(** After a logout that answers, the session of the browser's cookie is revoked, the
    cookie is deleted, and the browser is sent to the login page or to a URL of the same
    scheme and authority as a redirect URI of the enabled client named. *)
Theorem oidc_logout_spec rq q e s resp s' (Hrun : oidc_logout rq q e s = (Ok resp, s')) :
  DeleteCookie SESSION_COOKIE "/" None ∈ rs_cookies resp
  /\ (forall sid secret row ip, client_ip_of (settings e) rq = Some ip ->
       cookie rq SESSION_COOKIE = Some (cookie_of sid secret) ->
       0 <= sid < UUID_MAX -> sessions (db s) !! sid = Some row ->
       s_cookie_secret_hash row = sha256_hex secret -> live_at (settings e) row (clock e (tick s)) ->
       exists row', sessions (db s') !! sid = Some row' /\ s_dead row')
  /\ exists url, rs_body resp = RedirectTo url /\ (url = "/auth/login" \/
       exists client u o, oc_enabled client = true
         /\ query_get q "client_id" = Some (oc_client_id client)
         /\ u ∈ oc_redirect_uris client /\ origin_of u = Ok o /\ origin_of url = Ok o).
Proof.
  unfold oidc_logout in Hrun. mread Hrun. mstep Hrun ip s1 H1. apply client_ip_Ok in H1 as [-> Hip].
  mstep Hrun found s2 H2. mstep Hrun u s3 H3. mstep Hrun target s4 H4.
  apply logout_target_Ok in H4 as [-> Ht]. unfold ret in Hrun. injection Hrun as <- <-.
  split_and!; [set_solver| |].
  - intros sid secret row ip' Hip' Hck Hid Hrow Hh Hl. rewrite Hip in Hip'. injection Hip' as <-.
    destruct (get_session_runs sid secret ip (clock e (tick s)) e (mkSt (db s) (S (tick s))) row) as [sx Hx]; [done..|].
    rewrite Hck, Hx in H2. injection H2 as <- <-.
    apply get_session_Some in Hx as (_ & row0 & _ & Hrow0 & _ & _ & Hchk).
    simpl in Hrow0. rewrite Hrow in Hrow0. injection Hrow0 as <-.
    pose proof (check_liveness_gate _ _ _ _ _ (mkSt (db s) (S (tick s))) _ _ _ Hrow Hchk) as [Htab _].
    eapply revoke_dead; [|exact H3]. rewrite Htab. apply lookup_insert_eq.
  - exists target. split; [done|]. destruct Ht as [->|(c & u' & o & Hc & Hcid & _ & _ & Hu & Ho & Ho')]; [auto|].
    right. exists c, u', o. auto.
Qed.

(** A request of a registered client with accepted parameters, from a browser with a
    live session, is answered with a code; and until it expires, that code is good at
    the token endpoint for this client, this redirect URI and any verifier of the
    challenge, as long as the session stays live and the user active. *)
Theorem authorize_code_redeemable rq q e s client ru a sid row user
    (Hg : grantable e s rq q client ru a sid row) (Hscope : char_len (ar_scope a) <= 256)
    (Hu : users (db s) !! s_user_id row = Some user) (Hact : u_status user = "active") :
  exists code s' arow, authorize rq q e s =
      (Ok (redirect 302 (with_query ru [("code", code); ("state", ar_state a)])), s')
  /\ forall verifier now' se, verify_s256 verifier (ar_challenge a) = true ->
       now' < clock e (tick s) + seconds (auth_code_ttl (settings e)) ->
       sessions (db s') !! sid = Some se -> live_at (settings e) se now' ->
       code_good (settings e) (db s') (oc_client_id client) code ru verifier now' arow se user.
Proof.
  destruct (authorize_grants _ _ _ _ _ _ _ _ _ Hg Hscope)
    as (code & s' & se1 & -> & _ & Hcode & Hses & Hx & Hus).
  eexists code, s', _. split; [done|]. intros verifier now' se Hpk Hnow Hse Hlive.
  rewrite Hses in Hse. injection Hse as <-. unfold s_login in Hx.
  econstructor; try done; simpl; try done.
  rewrite Hus. by assert (s_user_id se1 = s_user_id row) as -> by congruence.
Qed.

(** ** Witnesses *)

Definition demo_query : list (string * string) :=
  [("client_id", "spa"); ("redirect_uri", "https://app.example.com/cb"); ("response_type", "code");
   ("scope", "openid"); ("state", "state-state-state"); ("nonce", "n-1");
   ("code_challenge", sha256_b64url demo_verifier); ("code_challenge_method", "S256")].

Definition demo_auth_request : AuthRequest :=
  mkAuthRequest "openid" "state-state-state" "n-1" (sha256_b64url demo_verifier).

Definition demo_browser : Request :=
  mkRequest [] [(SESSION_COOKIE, cookie_of 21 "s")] (Some "10.0.0.9").

Definition auth_st : St := oidc_st (demo_code None) (demo_refresh None).

Lemma demo_unique_client : unique_client (db auth_st) demo_client.
Proof. intros i c Hi _. simpl in Hi. by apply lookup_singleton_Some in Hi as [_ <-]. Qed.

Lemma demo_grantable : grantable oidc_env auth_st demo_browser demo_query demo_client
  "https://app.example.com/cb" demo_auth_request 21 (demo_session "s").
Proof.
  constructor.
  - by exists "10.0.0.9".
  - constructor; [exists 1; reflexivity|reflexivity..|simpl; left].
  - apply demo_unique_client.
  - done.
  - constructor; simpl; try done.
    + assert (words "openid" = ["openid"]) as -> by reflexivity. left.
    + assert (words "openid" = ["openid"]) as -> by reflexivity. apply Forall_singleton.
      left.
  - by exists "s".
  - vm_compute. split; [discriminate|reflexivity].
  - reflexivity.
  - exact demo_live.
  - intros n. apply lookup_singleton_ne. vm_compute. discriminate.
Qed.

Example authorize_code_sound_witness : exists resp s' h row sid secret,
  authorize demo_browser demo_query oidc_env auth_st = (Ok resp, s')
  /\ auth_codes (db s') !! h = Some row
  /\ split_cookie (cookie demo_browser SESSION_COOKIE) = Some (sid, secret)
  /\ ac_session_id row = sid.
Proof.
  destruct (authorize_grants _ _ _ _ _ _ _ _ _ demo_grantable) as
    (code & s' & se & Hrun & Hold & Hnew & _); [vm_compute; discriminate|].
  destruct (authorize_code_sound _ _ _ _ _ _ _ _ Hrun Hold Hnew)
    as (c & ru & a & sid & secret & se0 & se' & code' & _ & _ & Hc & _ & _ & _ & _ & _ & Hrow & _).
  eexists _, s', _, _, sid, secret. split_and!; [exact Hrun|exact Hnew|exact Hc|].
  rewrite Hrow. reflexivity.
Defined.

Example authorize_redirects_registered_witness : exists resp s',
  authorize demo_browser demo_query oidc_env auth_st = (Ok resp, s')
  /\ ((exists text, resp = error_page text 400 /\ db s' = db auth_st)
      \/ exists url, rs_body resp = RedirectTo url).
Proof.
  destruct (authorize_grants _ _ _ _ _ _ _ _ _ demo_grantable) as
    (code & s' & se & Hrun & _); [vm_compute; discriminate|].
  eexists _, s'. split; [exact Hrun|].
  destruct (authorize_redirects_registered _ _ _ _ _ _ Hrun) as [H|(url & H & _)]; [left; exact H|].
  right. exists url. exact H.
Defined.

Example authorize_code_redeemable_witness : exists code s',
  authorize demo_browser demo_query oidc_env auth_st =
    (Ok (redirect 302 (with_query "https://app.example.com/cb"
       [("code", code); ("state", "state-state-state")])), s').
Proof.
  destruct (authorize_code_redeemable demo_browser demo_query oidc_env auth_st demo_client
    "https://app.example.com/cb" demo_auth_request 21 (demo_session "s") demo_user demo_grantable)
    as (code & s' & arow & Hrun & _); [vm_compute; discriminate|reflexivity|reflexivity|].
  exists code, s'. exact Hrun.
Defined.

Example oidc_logout_spec_witness : exists resp s' row',
  oidc_logout demo_browser [] oidc_env auth_st = (Ok resp, s')
  /\ sessions (db s') !! 21 = Some row' /\ s_dead row'.
Proof.
  destruct (oidc_logout demo_browser [] oidc_env auth_st) as [[resp|x] s'] eqn:E.
  - destruct (oidc_logout_spec _ _ _ _ _ _ E) as (_ & H & _).
    destruct (H 21 "s" (demo_session "s") "10.0.0.9" eq_refl eq_refl) as (row' & Hr & Hd);
      [vm_compute; split; [discriminate|reflexivity]|reflexivity|reflexivity|exact demo_live|].
    exists resp, s', row'. split_and!; [reflexivity|exact Hr|exact Hd].
  - exfalso. revert E. vm_compute. discriminate.
Defined.
