(* ===== verification/ResourceServer.v ===== *)
(** * ResourceServer: sessions.check_request, idp/oidc/userinfo.py, revoke.py, discovery.py

    The check that every resource request goes through, and the endpoints that use a
    token or the key it is bound to. *)

From S2P Require Import Prelude PyStr Encoding Digest Json JsonText PyTime Config Db Effects Crypto Web.
From S2P Require Import Keys Events Sessions Dpop Tokens Grants TokenEndpoint Pages.
Local Open Scope Z_scope.

Record AuthedRequest := mkAuthed {
  au_sid : Z;
  au_session : Session;
  au_uid : Z;
  au_user : User;
  au_claims : AccessClaims;
}.

(** [try: m except TokenError], and [except DpopError], of the check. *)
Definition or_token_error {A} (m : M A) : M A :=
  try_ m (fun x => match x with
                   | TokenError msg => Some (raise (RequestAuthError "invalid_token" msg))
                   | _ => None
                   end).
Definition or_dpop_error {A} (m : M A) : M A :=
  try_ m (fun x => match x with
                   | DpopError detail => Some (raise (RequestAuthError "invalid_dpop_proof" detail))
                   | _ => None
                   end).

Definition unauthorized (err : string) : Response :=
  add_header "www-authenticate" ("DPoP error=" +:+ String DQ err +:+ String DQ ", algs=" +:+
    String DQ "ES256" +:+ String DQ "")
    (json_response 401 (JObj [("error", JStr err)])).

(** [s.removeprefix(p)]. *)
Definition removeprefix (s p : string) : string := default s (strip_prefix p s).

Section ResourceServer.
Context {aead : Aead} {ec : EcKeys} {jose : Jose} {jwt : Jwt}.

(** Steps 3 and 4: the session of the token and its user. *)
Definition authed_session (claims : AccessClaims) (source_ip : string) (now : Z) : M AuthedRequest :=
  let! session := get_session (cl_sid claims) in
  match session with
  | None => raise (RequestAuthError "invalid_token" "unknown session")
  | Some _ =>
      let! live := check_liveness (cl_sid claims) source_ip now true in
      if negb live then raise (RequestAuthError "invalid_token" "session not live")
      else
        let! session := session_row (cl_sid claims) in
        let! user := active_user (s_user_id session) in
        match user with
        | None => raise (RequestAuthError "invalid_token" "user not active")
        | Some user => ret (mkAuthed (cl_sid claims) session (s_user_id session) user claims)
        end
  end.

Definition check_request (authorization dpop_proof : option string) (htm htu source_ip : string)
    (now : Z) : M AuthedRequest :=
  match authorization with
  | None => raise (RequestAuthError "invalid_token" "missing DPoP authorization")
  | Some authorization =>
      if negb (startswith authorization "DPoP ")
      then raise (RequestAuthError "invalid_token" "missing DPoP authorization")
      else
        let access_token := strip (removeprefix authorization "DPoP ") in
        let! claims := or_token_error (verify_access_token access_token now) in
        match nonempty dpop_proof with
        | None => raise (RequestAuthError "invalid_dpop_proof" "missing DPoP header")
        | Some proof =>
            let! cfg := asks id in
            or_dpop_error (verify_proof proof htm htu now (dpop_iat_window cfg)
              (dpop_iat_future_skew cfg) (Some access_token) (Some (cl_jkt claims)));;
            authed_session claims source_ip now
        end
  end.

(** ** userinfo.py *)

Definition userinfo_claims (authed : AuthedRequest) : list (string * json) :=
  let scopes := words (cl_scope (au_claims authed)) in
  [("sub", JStr (u_external_id (au_user authed)))]
  ++ (if bool_decide ("email" ∈ scopes) then [("email", JStr (u_email (au_user authed)))] else [])
  ++ (if bool_decide ("profile" ∈ scopes)
      then [("name", JStr (u_display_name (au_user authed)));
            ("auth_tier", JStr (s_auth_tier (au_session authed)))]
      else []).

Definition userinfo (request : Request) : M Response :=
  let! now := utcnow in
  let! cfg := asks id in
  let! authed :=
    try_ (let! ip := client_ip request in
          let! authed := check_request (header request "authorization") (header request "dpop") "GET"
            (issuer_base cfg +:+ "/oidc/userinfo") ip now in
          ret (inr authed))
      (fun x => match x with
                | RequestAuthError err _ => Some (ret (inl err))
                | _ => None
                end) in
  match authed with
  | inl err => ret (unauthorized err)
  | inr authed => ret (json_response 200 (JObj (userinfo_claims authed)))
  end.

(** ** revoke.py *)

(** The revocation of a token whose key signed the proof. *)
Definition revoke_token (row : RefreshToken) (ip : string) : M unit :=
  revoke_family (rt_family_id row);;
  let! session := get_session (rt_session_id row) in
  match session with
  | Some _ => Sessions.revoke (rt_session_id row) "revoked_by_client" ip
  | None => ret tt
  end;;
  emit OIDC_TOKEN_REVOKED ip true (Some (rt_user_id row)) (Some (rt_session_id row))
    (Some (rt_client_id row)) [("family_id", JStr (uuid_str (rt_family_id row)))].

Definition revoke_endpoint (request : Request) (token : string) (dpop : option string) : M Response :=
  let! now := utcnow in
  let! ip := client_ip request in
  let! cfg := asks id in
  match nonempty dpop with
  | None => ret (json_response 400 (JObj [("error", JStr "invalid_dpop_proof")]))
  | Some dpop =>
      let! proof := proof_or_none (verify_proof dpop "POST" (issuer_base cfg +:+ "/oidc/revoke") now
        (dpop_iat_window cfg) (dpop_iat_future_skew cfg) None None) in
      match proof with
      | None => ret (json_response 400 (JObj [("error", JStr "invalid_dpop_proof")]))
      | Some proof =>
          let! row := find token in
          match row with
          | Some (_, row) =>
              if bool_decide (rt_dpop_jkt row = pr_jkt proof) then revoke_token row ip else ret tt
          | None => ret tt
          end;;
          ret (json_response 200 (JObj []))
      end
  end.
End ResourceServer.

(** ** discovery.py *)

Definition strs (l : list string) : json := JArr (map JStr l).

Definition openid_configuration (cfg : Settings) : list (string * json) :=
  let issuer := issuer_base cfg in
  [("issuer", JStr issuer);
   ("authorization_endpoint", JStr (issuer +:+ "/oidc/authorize"));
   ("token_endpoint", JStr (issuer +:+ "/oidc/token"));
   ("userinfo_endpoint", JStr (issuer +:+ "/oidc/userinfo"));
   ("revocation_endpoint", JStr (issuer +:+ "/oidc/revoke"));
   ("jwks_uri", JStr (issuer +:+ "/oidc/jwks"));
   ("response_types_supported", strs ["code"]);
   ("grant_types_supported", strs ["authorization_code"; "refresh_token"]);
   ("subject_types_supported", strs ["public"]);
   ("scopes_supported", strs ["openid"; "profile"; "email"]);
   ("code_challenge_methods_supported", strs ["S256"]);
   ("id_token_signing_alg_values_supported", strs ["ES256"]);
   ("dpop_signing_alg_values_supported", strs ["ES256"]);
   ("token_endpoint_auth_methods_supported", strs ["none"]);
   ("claims_supported", strs ["sub"; "email"; "name"; "auth_tier"; "auth_time"; "amr"; "acr"])].

Definition jwks : M Response :=
  let! keys := get_verification_jwks in
  let! max_age := asks jwks_cache_max_age in
  ret (add_header "cache-control" ("max-age=" +:+ dec_str max_age)
         (json_response 200 (JObj [("keys", JArr (map JObj keys))]))).

(** ** Lemmas *)

Section Lemmas.
Context {aead : Aead} {ec : EcKeys} {jose : Jose} {jwt : Jwt}.

Lemma or_token_error_Ok {A} (m : M A) e s a s' : or_token_error m e s = (Ok a, s') -> m e s = (Ok a, s').
Proof. unfold or_token_error, try_. destruct (m e s) as [[b|x] s1]; [done|]. by destruct x. Qed.

Lemma or_dpop_error_Ok {A} (m : M A) e s a s' : or_dpop_error m e s = (Ok a, s') -> m e s = (Ok a, s').
Proof. unfold or_dpop_error, try_. destruct (m e s) as [[b|x] s1]; [done|]. by destruct x. Qed.

Lemma removeprefix_startswith s p : startswith s p = true -> s = p +:+ removeprefix s p.
Proof.
  intros [t ->]%startswith_spec. unfold removeprefix. by rewrite strip_prefix_app.
Qed.

(** The session and the user behind an accepted request. *)
Record authed_by (cfg : Settings) (d d' : Db) (claims : AccessClaims) (ip : string) (now : Z)
    (au : AuthedRequest) : Prop := {
  ab_claims : au_claims au = claims /\ au_sid au = cl_sid claims;
  ab_session : exists se, sessions d !! cl_sid claims = Some se /\ live_at cfg se now
    /\ s_source_ip se = ip /\ s_login (au_session au) = s_login se;
  ab_row : sessions d' !! cl_sid claims = Some (au_session au);
  ab_user : users d !! s_user_id (au_session au) = Some (au_user au)
    /\ au_uid au = s_user_id (au_session au) /\ u_status (au_user au) = "active";
}.

Lemma authed_session_Ok claims ip now e s au s' :
  authed_session claims ip now e s = (Ok au, s') ->
  authed_by (settings e) (db s) (db s') claims ip now au.
Proof.
  unfold authed_session, get_session. intros Hr. mread Hr.
  destruct (sessions (db s) !! cl_sid claims) as [se|] eqn:E; [|done].
  mstep Hr live s1 H1. destruct live; cbn [negb] in Hr; [|done].
  pose proof (check_liveness_kept _ _ _ _ _ _ _ _ H1) as (_ & _ & Ku & _).
  pose proof (sess_mono_check_liveness (cl_sid claims) ip now true e s) as Hm. rewrite H1 in Hm.
  destruct (check_liveness_gate _ _ _ _ _ _ _ _ _ E H1) as [_ Hg]. symmetry in Hg.
  apply gate_true in Hg as [Hl Hip]. destruct (Hm _ _ E) as (se' & Hse' & _ & Hx). simpl in Hse'.
  rewrite (bind_session_row _ _ _ _ _ Hse') in Hr. mstep Hr u s2 H2. destruct u as [u|]; [|done].
  apply active_user_Some in H2 as (-> & Hu & Ha). rewrite Ku in Hu. unfold ret in Hr.
  injection Hr as <- <-. constructor; simpl; eauto 6.
Qed.

Lemma check_request_Ok auth dpop htm htu ip now e s au s' :
  check_request auth dpop htm htu ip now e s = (Ok au, s') ->
  exists rest text claims p s1, auth = Some ("DPoP " +:+ rest) /\ dpop = Some text
  /\ verify_access_token (strip rest) now e s = (Ok claims, s)
  /\ verify_proof text htm htu now (dpop_iat_window (settings e)) (dpop_iat_future_skew (settings e))
       (Some (strip rest)) (Some (cl_jkt claims)) e s = (Ok p, s1)
  /\ authed_session claims ip now e s1 = (Ok au, s').
Proof.
  unfold check_request. intros Hr. destruct auth as [a|]; [|done].
  destruct (startswith a "DPoP ") eqn:Ep; cbn [negb] in Hr; [|done].
  pose proof (removeprefix_startswith _ _ Ep) as Ha.
  set (rest := removeprefix a "DPoP ") in *. clearbody rest. subst a.
  mstep Hr claims s1 H1. apply or_token_error_Ok in H1.
  pose proof (verify_access_token_Ok _ _ _ _ _ _ H1) as [-> _].
  destruct dpop as [text|]; [|done]. unfold nonempty in Hr. case_bool_decide; [done|]. mread Hr.
  mstep Hr p s2 H2. apply or_dpop_error_Ok in H2. eauto 10.
Qed.

Lemma sess_mono_authed claims ip now : steps sess_mono (authed_session claims ip now).
Proof. unfold authed_session, active_user, get_session, get_user. steps_auto. Qed.

Lemma steps_verify_proof_pg R `{!PreOrder R} p htm htu now w k a j :
  (forall d f, R d (upd_dpop_jti_seen f d)) -> steps R (verify_proof p htm htu now w k a j).
Proof.
  intros HR. unfold verify_proof. steps_auto. simpl. unfold pg_check_and_store. steps_auto.
Qed.

(** ** Theorems *)

(** The grounds on which a request is accepted. *)
Definition accepted_request (cfg : Settings) (d d' : Db) (auth dpop : option string)
    (htm htu ip : string) (now : Z) (au : AuthedRequest) : Prop := exists rest text p,
  auth = Some ("DPoP " +:+ rest) /\ dpop = Some text
  /\ (exists kid rid row claims, good_access cfg d (strip rest) now (au_claims au) kid rid row claims)
  /\ (exists key header claims jwk payload,
        good_proof text htm htu now (dpop_iat_window cfg) (dpop_iat_future_skew cfg)
          (Some (strip rest)) (Some (cl_jkt (au_claims au))) p key header claims jwk payload)
  /\ pr_jkt p = cl_jkt (au_claims au)
  /\ dpop_jti_seen d !! (pr_jkt p, pr_jti p) = None
  /\ is_Some (dpop_jti_seen d' !! (pr_jkt p, pr_jti p))
  /\ authed_by cfg d d' (au_claims au) ip now au.

Lemma check_request_accepted auth dpop htm htu ip now e s au s' :
  check_request auth dpop htm htu ip now e s = (Ok au, s') ->
  accepted_request (settings e) (db s) (db s') auth dpop htm htu ip now au.
Proof.
  intros Hrun.
  apply check_request_Ok in Hrun as (rest & text & claims & p & s1 & -> & -> & Hv & Hp & Ha).
  apply verify_access_token_Ok in Hv as [_ Hg]. apply verify_proof_pg in Hp as (Hoff & Hnew & Hdb & _).
  apply offline_sound in Hoff as (key & hd & cl & jwk & pl & Hgood).
  assert (dpop_jti_seen (db s') = dpop_jti_seen (db s1)) as Hj.
  { eapply same_steps_eq; [|exact Ha]. unfold authed_session, active_user, get_session, get_user.
    pose proof (same_check_liveness dpop_jti_seen) as Hc. steps_auto. by apply Hc. }
  apply authed_session_Ok in Ha as [[Hc Hsid] Hse Hrow Hu]. rewrite Hdb in Hse, Hu. subst claims.
  exists rest, text, p. rewrite Hj, Hdb. simpl. rewrite lookup_insert_eq.
  pose proof (gp_jkt _ _ _ _ _ _ _ _ _ _ _ _ _ _ Hgood) as [_ Hb]. specialize (Hb _ eq_refl).
  split_and!; eauto 7. by constructor.
Qed.

(** C14: A request that passes the resource server's check carries an access token of the
    issuer, signed by a key that is not retired and not expired; a DPoP proof for this
    method and URL made over that very token with the very key the token is bound to, not
    seen before and remembered from now on; and the session the token names is live, was
    opened from the same address, and belongs to an active user. *)
Theorem check_request_sound auth dpop htm htu ip now e s au s'
    (Hrun : check_request auth dpop htm htu ip now e s = (Ok au, s')) :
  accepted_request (settings e) (db s) (db s') auth dpop htm htu ip now au.
Proof. by apply check_request_accepted. Qed.

(** A proof refused leaves no trace; a proof accepted is remembered. *)
Lemma proof_or_none_cases (m : M DpopProof) e s r s' :
  proof_or_none m e s = (Ok r, s') ->
  match r with Some p => m e s = (Ok p, s') | None => exists d, m e s = (Raise (DpopError d), s') end.
Proof.
  unfold proof_or_none, try_, bind, ret. destruct (m e s) as [[p|x] s1].
  - by intros [= <- <-].
  - destruct x; try done. intros [= <- <-]. eauto.
Qed.

Lemma verify_proof_refused p htm htu now w k a j e s x s' :
  verify_proof p htm htu now w k a j e s = (Raise x, s') -> s' = s.
Proof.
  unfold verify_proof, bind, lift. destruct (verify_proof_offline _ _ _ _ _ _ _ _) as [r|y].
  - simpl. unfold pg_check_and_store, bind, gets, moddb, ret.
    destruct (dpop_jti_seen (db s) !! _); simpl; [by intros [= _ <-]|done].
  - by intros [= _ <-].
Qed.

Lemma revoke_token_Ok row ip e s u s' :
  revoke_token row ip e s = (Ok u, s') ->
  (exists v, refresh_tokens (db s') = update_where (in_family (rt_family_id row))
     (set_rt_revoked_at (Some v)) (refresh_tokens (db s)))
  /\ (forall se, sessions (db s) !! rt_session_id row = Some se ->
       exists se', sessions (db s') !! rt_session_id row = Some se' /\ s_dead se').
Proof.
  unfold revoke_token, get_session. intros Hr. erewrite bind_run in Hr; [|apply revoke_family_run].
  mread Hr. mstep Hr u1 s1 H1. apply emit_Ok in Hr as (_ & Hdb & _). rewrite Hdb. simpl. simpl in H1.
  destruct (sessions (db s) !! rt_session_id row) as [se|] eqn:E.
  - split.
    + exists (clock e (tick s)).
      pose proof (same_revoke refresh_tokens (rt_session_id row) "revoked_by_client" ip (conj (fun _ _ => eq_refl) (fun _ _ => eq_refl))) as Hs.
      by rewrite (same_steps_eq _ _ _ _ _ _ Hs H1).
    + intros se0 _. eapply revoke_dead; [|exact H1]. exact E.
  - unfold ret in H1. injection H1 as _ <-. split; [by eexists|done].
Qed.

(** The revocation endpoint touches nothing unless the proof is accepted and made with
    the key the token is bound to; then every token of the family is revoked and the
    session ended.  An unknown token or another key gets the same answer as success. *)
Theorem revoke_endpoint_spec rq token dpop e s resp s'
    (Hu : hashes_unique (db s)) (Hrun : revoke_endpoint rq token dpop e s = (Ok resp, s')) :
  (rs_status resp = 400 /\ refresh_tokens (db s') = refresh_tokens (db s) /\ sessions (db s') = sessions (db s))
  \/ exists text p, dpop = Some text /\ resp = json_response 200 (JObj [])
     /\ verify_proof_offline text "POST" (issuer_base (settings e) +:+ "/oidc/revoke")
          (clock e (tick s)) (dpop_iat_window (settings e)) (dpop_iat_future_skew (settings e)) None None = Ok p
     /\ ((refresh_tokens (db s') = refresh_tokens (db s) /\ sessions (db s') = sessions (db s)
           /\ forall i row, refresh_tokens (db s) !! i = Some row -> rt_token_hash row = sha256_hex token ->
                rt_dpop_jkt row <> pr_jkt p)
         \/ exists i row, refresh_tokens (db s) !! i = Some row /\ rt_token_hash row = sha256_hex token
           /\ rt_dpop_jkt row = pr_jkt p
           /\ (forall j r, refresh_tokens (db s') !! j = Some r -> rt_family_id r = rt_family_id row ->
                 rt_revoked_at r <> None)
           /\ (forall j r, refresh_tokens (db s) !! j = Some r -> rt_family_id r <> rt_family_id row ->
                 refresh_tokens (db s') !! j = Some r)
           /\ (forall se, sessions (db s) !! rt_session_id row = Some se ->
                 exists se', sessions (db s') !! rt_session_id row = Some se' /\ s_dead se')).
Proof.
  unfold revoke_endpoint in Hrun. mread Hrun. mstep Hrun ip s1 H1. apply client_ip_Ok in H1 as [-> _].
  mread Hrun. destruct (nonempty dpop) as [text|] eqn:En.
  2: { unfold ret in Hrun. injection Hrun as <- <-. by left. }
  unfold nonempty in En. destruct dpop as [text'|]; [|done]. case_bool_decide; [done|].
  injection En as ->. mstep Hrun o s1 H1. apply proof_or_none_cases in H1. destruct o as [p|].
  2: { destruct H1 as [d H1]. apply verify_proof_refused in H1 as ->. unfold ret in Hrun.
       injection Hrun as <- <-. by left. }
  apply verify_proof_pg in H1 as (Hoff & _ & Hdb & _). right. exists text, p.
  mstep Hrun found s2 H2. mstep Hrun u s3 H3. unfold ret in Hrun. injection Hrun as <- <-.
  split_and!; [done|done|exact Hoff|].
  assert (forall i row, refresh_tokens (db s) !! i = Some row -> rt_token_hash row = sha256_hex token ->
    found = Some (i, row) /\ s2 = s1) as Hfound.
  { intros i row Hi Hh. rewrite (find_unique (db s) token i row e s1) in H2; [|done|by rewrite Hdb|done..].
    by injection H2 as <- <-. }
  destruct found as [[i row]|].
  - apply find_Some in H2 as (-> & Hi & Hh). rewrite Hdb in Hi. simpl in Hi.
    case_bool_decide as Ej.
    + apply revoke_token_Ok in H3 as [[v Ht] Hs]. rewrite Hdb in Ht, Hs. simpl in Ht, Hs. right.
      exists i, row. split_and!; [done..| | |done].
      * rewrite Ht. intros j r. apply revoked_family.
      * intros j r Hj Hf. rewrite Ht, lookup_update_where, Hj. simpl. unfold in_family.
        apply Z.eqb_neq in Hf. by rewrite Hf.
    + unfold ret in H3. injection H3 as _ <-. left. rewrite Hdb. split_and!; [done..|].
      intros i' row' Hi' Hh'. destruct (Hfound _ _ Hi' Hh') as [[= <- <-] _]. done.
  - unfold ret in H3. injection H3 as _ <-. left. unfold find in H2. mread H2. injection H2 as _ <-.
    rewrite Hdb. split_and!; [done..|]. intros i row Hi Hh. by destruct (Hfound _ _ Hi Hh).
Qed.

(** A token and a proof that pass, up to the session. *)
Record admitted_request (e : Env) (s : St) (auth dpop : option string) (htm htu : string) (now : Z)
    (claims : AccessClaims) (p : DpopProof) : Prop := {
  ar_token : exists rest text, auth = Some ("DPoP " +:+ rest) /\ dpop = Some text /\ text <> ""
    /\ verify_access_token (strip rest) now e s = (Ok claims, s)
    /\ verify_proof_offline text htm htu now (dpop_iat_window (settings e))
         (dpop_iat_future_skew (settings e)) (Some (strip rest)) (Some (cl_jkt claims)) = Ok p;
  ar_unseen : dpop_jti_seen (db s) !! (pr_jkt p, pr_jti p) = None;
}.

(** The state in which the session is looked up. *)
Definition with_jti (e : Env) (s : St) (p : DpopProof) (now : Z) : St :=
  mkSt (upd_dpop_jti_seen
    <[(pr_jkt p, pr_jti p) := now + seconds (dpop_iat_window (settings e))]> (db s)) (tick s).

Lemma check_request_admitted auth dpop htm htu ip now e s claims p :
  admitted_request e s auth dpop htm htu now claims p ->
  check_request auth dpop htm htu ip now e s = authed_session claims ip now e (with_jti e s p now).
Proof.
  intros [(rest & text & -> & -> & Hne & Hv & Hoff) Hun]. unfold check_request.
  rewrite startswith_app. cbn [negb]. unfold removeprefix. rewrite strip_prefix_app.
  change (default _ (Some rest)) with rest. cbv zeta.
  erewrite bind_run; [|unfold or_token_error, try_; rewrite Hv; reflexivity]. cbn beta.
  unfold nonempty. rewrite bool_decide_eq_false_2 by done.
  erewrite bind_run; [|reflexivity]. cbn beta. unfold id.
  erewrite bind_run; [reflexivity|]. unfold or_dpop_error, try_.
  by rewrite (verify_proof_unseen _ _ _ _ _ _ _ _ _ _ _ Hoff Hun).
Qed.

Lemma authed_session_accepts claims ip now e s se u :
  sessions (db s) !! cl_sid claims = Some se -> live_at (settings e) se now -> s_source_ip se = ip ->
  users (db s) !! s_user_id se = Some u -> u_status u = "active" ->
  exists au s', authed_session claims ip now e s = (Ok au, s') /\ au_user au = u
    /\ au_sid au = cl_sid claims /\ au_claims au = claims.
Proof.
  intros Hse Hl Hip Hu Ha. unfold authed_session, get_session. rewrite bind_gets, Hse.
  destruct (check_liveness_accepts _ ip now true e s se Hse Hl (fun _ => Hip)) as [s2 H2].
  erewrite bind_run; [|exact H2]. cbn beta iota delta [negb].
  pose proof (check_liveness_kept _ _ _ _ _ _ _ _ H2) as (_ & _ & Ku & _).
  pose proof (sess_mono_check_liveness (cl_sid claims) ip now true e s) as Hm. rewrite H2 in Hm.
  destruct (Hm _ _ Hse) as (se' & Hse' & _ & Hx). simpl in Hse'. unfold s_login in Hx.
  rewrite (bind_session_row _ _ _ _ _ Hse').
  assert (s_user_id se' = s_user_id se) as -> by congruence.
  erewrite bind_run; [|apply active_user_runs; [rewrite Ku; exact Hu|exact Ha]].
  eexists _, _. split; [reflexivity|]. done.
Qed.

Lemma authed_session_stale claims ip now e s se :
  sessions (db s) !! cl_sid claims = Some se -> live_at (settings e) se now -> s_source_ip se <> ip ->
  char_len ip <= 256 -> char_len (s_source_ip se) <= 256 ->
  exists s', authed_session claims ip now e s
    = (Raise (RequestAuthError "invalid_token" "session not live"), s')
  /\ sessions (db s') !! cl_sid claims = Some (set_s_stale true se).
Proof.
  intros Hse Hl Hip Hl1 Hl2. unfold authed_session, get_session. rewrite bind_gets, Hse.
  destruct (check_liveness_stale _ ip now e s se Hse Hl Hip Hl1 Hl2) as (s2 & H2 & Hst).
  erewrite bind_run; [|exact H2]. eexists. split; [reflexivity|exact Hst].
Qed.

(** A request with a valid token and a fresh, bound proof is accepted when its session
    is live, of the same address and of an active user; from another address it is
    refused, and the session is left stale. *)
Theorem check_request_decides auth dpop htm htu ip now e s claims p se u
    (Had : admitted_request e s auth dpop htm htu now claims p)
    (Hse : sessions (db s) !! cl_sid claims = Some se) (Hl : live_at (settings e) se now)
    (Hu : users (db s) !! s_user_id se = Some u) (Ha : u_status u = "active")
    (Hlen : char_len ip <= 256 /\ char_len (s_source_ip se) <= 256) :
  (s_source_ip se = ip -> exists au s',
     check_request auth dpop htm htu ip now e s = (Ok au, s') /\ au_user au = u
     /\ au_sid au = cl_sid claims /\ au_claims au = claims)
  /\ (s_source_ip se <> ip -> exists s',
     check_request auth dpop htm htu ip now e s
       = (Raise (RequestAuthError "invalid_token" "session not live"), s')
     /\ sessions (db s') !! cl_sid claims = Some (set_s_stale true se)).
Proof.
  rewrite (check_request_admitted _ _ _ _ ip _ _ _ _ _ Had). destruct Hlen as [Hl1 Hl2].
  split; intros Hip.
  - by eapply authed_session_accepts.
  - by apply authed_session_stale.
Qed.

(** The user-info answer is that of an accepted request: the subject always, the email
    exactly with the [email] scope, the name and the tier exactly with [profile]. *)
Theorem userinfo_scoped rq e s resp s'
    (Hrun : userinfo rq e s = (Ok resp, s')) (H200 : rs_status resp = 200) :
  exists ip au s1 claims, client_ip_of (settings e) rq = Some ip
    /\ check_request (header rq "authorization") (header rq "dpop") "GET"
         (issuer_base (settings e) +:+ "/oidc/userinfo") ip (clock e (tick s)) e s1 = (Ok au, s')
    /\ db s1 = db s /\ rs_body resp = JsonBody (JObj claims)
    /\ assoc "sub" claims = Some (JStr (u_external_id (au_user au)))
    /\ assoc "email" claims = (if bool_decide ("email" ∈ words (cl_scope (au_claims au)))
                               then Some (JStr (u_email (au_user au))) else None)
    /\ assoc "name" claims = (if bool_decide ("profile" ∈ words (cl_scope (au_claims au)))
                              then Some (JStr (u_display_name (au_user au))) else None).
Proof.
  unfold userinfo in Hrun. mread Hrun. mstep Hrun r s1 H1. unfold try_ in H1.
  destruct (bind _ _ _ _) as [[au|x] s2] eqn:E.
  - mstep E ip s3 H3. apply client_ip_Ok in H3 as [-> Hip]. mstep E au' s3 H3.
    unfold ret in E. injection E as <- <-. injection H1 as <- <-. unfold ret in Hrun.
    injection Hrun as <- <-. eexists ip, au', _, _. split_and!; [done|exact H3|done|reflexivity|reflexivity|..].
    + unfold userinfo_claims. by repeat case_bool_decide.
    + unfold userinfo_claims. by repeat case_bool_decide.
  - destruct x; try done. unfold ret in H1. injection H1 as <- <-. unfold ret in Hrun.
    injection Hrun as <- <-. done.
Qed.
End Lemmas.

(** ** Witnesses *)

#[local] Existing Instances clear_jose demo_jwt.

Definition demo_access : string :=
  jwt_encode [("alg", JStr "ES256"); ("kid", JStr "k0"); ("typ", JStr "at+jwt")]
    (access_claims example_settings demo_user 21 (demo_session "s") "spa" "openid email" "K1" T0 5) "PEM".

Definition demo_access_claims : AccessClaims :=
  mkClaims "sub-1" "spa" 21 "openid email" "standard" ["pwd"; "otp"] "K1" (uuid_hex 5)
    (T0 + seconds 600).

Definition demo_userinfo_htu : string := "https://idp.example.com/oidc/userinfo".

Definition demo_api_proof : string :=
  jws_sign (JObj [("typ", JStr "dpop+jwt"); ("alg", JStr "ES256"); ("jwk", demo_jwk)])
    (dumps_compact (JObj [("jti", JStr "jti-0002"); ("htm", JStr "GET");
       ("htu", JStr demo_userinfo_htu); ("iat", JInt 1000000); ("ath", JStr (ath_of demo_access))]))
    "K1".

Definition demo_used_proof : DpopProof := mkProof "K1" "jti-0002" T0.

Lemma demo_access_header : header_of demo_access =
  Ok [("alg", JStr "ES256"); ("kid", JStr "k0"); ("typ", JStr "at+jwt")].
Proof. vm_compute. reflexivity. Qed.

Lemma demo_access_decodes : jwt_decode demo_access "PEM" =
  Some (access_claims example_settings demo_user 21 (demo_session "s") "spa" "openid email" "K1" T0 5).
Proof. vm_compute. reflexivity. Qed.

Lemma demo_access_ok s : signing_keys (db s) = {[ 7 := demo_signing ]} ->
  verify_access_token demo_access T0 oidc_env s = (Ok demo_access_claims, s).
Proof.
  intros Hk. unfold verify_access_token. erewrite bind_run; [|reflexivity]. cbn beta.
  rewrite demo_access_header. erewrite bind_run; [|reflexivity]. cbn beta.
  change (negb (is_str "ES256" _)) with false. cbn beta iota.
  change (get "kid" _) with (JStr "k0"). cbn beta iota.
  erewrite bind_run.
  2: { unfold decode_with. rewrite bind_gets, Hk.
       assert (scalar (select (verifies "k0") {[ 7 := demo_signing ]}) = Some (7, demo_signing))
         as -> by (vm_compute; reflexivity).
       cbn beta iota. assert (jwk_import (sk_public_jwk demo_signing) = Ok "PEM") as -> by reflexivity.
       erewrite bind_run; [|reflexivity]. cbn beta. rewrite demo_access_decodes. reflexivity. }
  vm_compute. reflexivity.
Qed.

Lemma demo_api_offline : verify_proof_offline demo_api_proof "GET" demo_userinfo_htu T0 300 30
  (Some demo_access) (Some "K1") = Ok demo_used_proof.
Proof. vm_compute. reflexivity. Qed.

Definition demo_auth : option string := Some ("DPoP " +:+ demo_access).

Definition api_st (n : nat) : St := mkSt (demo_oidc (demo_code None) (demo_refresh None)) n.

Lemma demo_admitted n : admitted_request oidc_env (api_st n) demo_auth
  (Some demo_api_proof) "GET" demo_userinfo_htu T0 demo_access_claims demo_used_proof.
Proof.
  constructor; [|reflexivity]. exists demo_access, demo_api_proof.
  assert (strip demo_access = demo_access) as -> by (vm_compute; reflexivity).
  split_and!; [reflexivity|reflexivity| |by apply demo_access_ok|exact demo_api_offline].
  intros E. apply (f_equal String.length) in E. vm_compute in E. discriminate.
Qed.

Lemma demo_request_accepted n : exists au s',
  check_request demo_auth (Some demo_api_proof) "GET" demo_userinfo_htu "10.0.0.1" T0 oidc_env (api_st n)
    = (Ok au, s') /\ au_user au = demo_user /\ au_sid au = 21 /\ au_claims au = demo_access_claims.
Proof.
  rewrite (check_request_admitted _ _ _ _ _ _ _ _ _ _ (demo_admitted n)).
  by apply (authed_session_accepts demo_access_claims "10.0.0.1" T0 oidc_env _ (demo_session "s") demo_user);
    [..|exact demo_live|reflexivity|reflexivity|reflexivity].
Qed.

Example check_request_sound_witness : exists au s' p,
  check_request demo_auth (Some demo_api_proof) "GET" demo_userinfo_htu "10.0.0.1" T0 oidc_env (api_st 0)
    = (Ok au, s')
  /\ pr_jkt p = cl_jkt (au_claims au) /\ is_Some (dpop_jti_seen (db s') !! (pr_jkt p, pr_jti p)).
Proof.
  destruct (demo_request_accepted 0) as (au & s' & Hrun & _).
  destruct (check_request_sound _ _ _ _ _ _ _ _ _ _ Hrun)
    as (rest & text & p & _ & _ & _ & _ & Hj & _ & Hs & _).
  exists au, s', p. split_and!; [exact Hrun|exact Hj|exact Hs].
Defined.

Example check_request_decides_witness :
  (exists au s', check_request demo_auth (Some demo_api_proof) "GET" demo_userinfo_htu "10.0.0.1" T0
     oidc_env (api_st 0) = (Ok au, s'))
  /\ exists s', sessions (db s') !! 21 = Some (set_s_stale true (demo_session "s")).
Proof.
  split.
  - destruct (proj1 (check_request_decides demo_auth (Some demo_api_proof) "GET" demo_userinfo_htu
      "10.0.0.1" T0 oidc_env (api_st 0) demo_access_claims demo_used_proof (demo_session "s") demo_user
      (demo_admitted 0) eq_refl demo_live eq_refl eq_refl
      ltac:(split; vm_compute; discriminate)) eq_refl) as (au & s' & H & _).
    exists au, s'. exact H.
  - destruct (proj2 (check_request_decides demo_auth (Some demo_api_proof) "GET" demo_userinfo_htu
      "10.0.0.2" T0 oidc_env (api_st 0) demo_access_claims demo_used_proof (demo_session "s") demo_user
      (demo_admitted 0) eq_refl demo_live eq_refl eq_refl
      ltac:(split; vm_compute; discriminate)) ltac:(discriminate)) as (s' & _ & H).
    exists s'. exact H.
Defined.

Definition demo_api_request : Request :=
  mkRequest [("authorization", "DPoP " +:+ demo_access); ("dpop", demo_api_proof)] [] (Some "10.0.0.1").

Lemma demo_userinfo_runs : exists au s', au_user au = demo_user /\ au_claims au = demo_access_claims
  /\ userinfo demo_api_request oidc_env (api_st 0) = (Ok (json_response 200 (JObj (userinfo_claims au))), s').
Proof.
  destruct (demo_request_accepted 1) as (au & s' & Hrun & Hu & _ & Hc). exists au, s'.
  split_and!; [exact Hu|exact Hc|]. unfold userinfo.
  erewrite bind_run; [|reflexivity]. cbn beta. erewrite bind_run; [|reflexivity]. cbn beta.
  erewrite bind_run; [|unfold try_; erewrite bind_run;
    [|unfold client_ip; rewrite resolve_client_ip_run; reflexivity]; cbn beta;
    erewrite bind_run; [|exact Hrun]; reflexivity]. reflexivity.
Qed.

Example userinfo_scoped_witness : exists resp s' claims,
  userinfo demo_api_request oidc_env (api_st 0) = (Ok resp, s') /\ rs_body resp = JsonBody (JObj claims).
Proof.
  destruct demo_userinfo_runs as (au0 & s' & _ & _ & E).
  destruct (userinfo_scoped _ _ _ _ _ E eq_refl) as (ip & au & s1 & claims & _ & _ & _ & Hb & _).
  eexists _, s', claims. split; [exact E|exact Hb].
Defined.

Definition demo_revoke_proof : string :=
  jws_sign (JObj [("typ", JStr "dpop+jwt"); ("alg", JStr "ES256"); ("jwk", demo_jwk)])
    (dumps_compact (JObj [("jti", JStr "jti-0003"); ("htm", JStr "POST");
       ("htu", JStr "https://idp.example.com/oidc/revoke"); ("iat", JInt 1000000)])) "K1".

Example revoke_endpoint_spec_witness : exists resp s',
  revoke_endpoint demo_rq "refresh-1" (Some demo_revoke_proof) oidc_env (api_st 0) = (Ok resp, s')
  /\ resp = json_response 200 (JObj [])
  /\ forall r, refresh_tokens (db s') !! 5 = Some r -> rt_family_id r = 77 -> rt_revoked_at r <> None.
Proof.
  destruct (revoke_endpoint demo_rq "refresh-1" (Some demo_revoke_proof) oidc_env (api_st 0))
    as [[resp|x] s'] eqn:E; [|exfalso; revert E; vm_compute; discriminate].
  destruct (revoke_endpoint_spec _ _ _ _ (api_st 0) _ _ (demo_hashes_unique (demo_code None) (demo_refresh None)) E)
    as [(H & _)|(text & p & Ht & Hr & Hoff & [(_ & _ & H)|(i & row & Hi & _ & _ & Hf & _)])].
  - exfalso. revert E. vm_compute. intros E. injection E as <- _. discriminate H.
  - exfalso. apply (H 5 (demo_refresh None) eq_refl eq_refl). injection Ht as <-.
    assert (pr_jkt p = "K1") as ->; [|reflexivity].
    revert Hoff. vm_compute. intros Hoff. injection Hoff as <-. reflexivity.
  - exists resp, s'. split_and!; [reflexivity|exact Hr|]. intros r Hr' Hfam. apply (Hf 5 r Hr').
    simpl in Hi. apply lookup_singleton_Some in Hi as [_ <-]. exact Hfam.
Defined.
