(* ===== verification/Login.v ===== *)
(** * Login: idp/web/routes.py, the login pages

    The password step, the second factors of a standard user (TOTP, its enrollment and
    the recovery codes) and the completion of a login.  The form fields and the query
    parameter [flow] are arguments of the handlers. *)

From S2P Require Import Prelude PyStr Encoding Digest Json JsonText PyTime Url Config Db Effects.
From S2P Require Import Crypto Web Events Passwords Sessions RateLimit TokenEndpoint.
From S2P Require Import SecondFactor Flows Pages.
Local Open Scope Z_scope.

Definition EXPIRED : string := "Your sign-in session expired. Please start over.".
Definition expired_page : Response := error_page EXPIRED 400.
Definition invalid_page : Response := error_page "Invalid request. Please start over." 400.

(** The 429 page of a throttled attempt. *)
Definition throttled_page (retry_after : Z) : Response :=
  add_header "retry-after" (dec_str retry_after)
    (error_page "Too many attempts. Please wait and try again." 429).

Definition amr_of (flow : LoginFlow) : list string :=
  if lf_recovery_used flow then ["pwd"; "rc"; "otp"] else ["pwd"; "otp"].

(** [f"/oidc/authorize?{urlencode(oidc_request)}" if oidc_request else None]. *)
Definition continue_url (flow : LoginFlow) : option string :=
  match lf_oidc_request flow with
  | [] => None
  | oidc_request => Some ("/oidc/authorize?" +:+ urlencode oidc_request)
  end.

Section Login.
Context {aead : Aead} {argon : Argon} {otp : Otp}.
Context (run : list string -> ProcessResult).

Definition redirect_if_authenticated (request : Request) : M (option Response) :=
  let! ip := client_ip request in
  let! now := utcnow in
  let! session := get_session_from_cookie (cookie request SESSION_COOKIE) ip now in
  ret (match session with Some _ => Some (redirect 303 "/auth/done") | None => None end).

(** ** The password step *)

Definition login_form (request : Request) (flow : option string) : M Response :=
  let! already := redirect_if_authenticated request in
  match already with
  | Some r => ret r
  | None =>
      let! now := utcnow in
      let! ip := client_ip request in
      let! existing := get_valid_flow flow ip now true in
      let! existing :=
        match existing with
        | Some fid =>
            let! row := flow_row fid in
            if bool_decide (lf_stage row <> "password") then delete_flow fid;; ret None
            else ret (Some fid)
        | None => ret None
        end in
      match existing with
      | None =>
          let! '(fid, csrf_token) := create_flow ip [] now in
          ret (login_page (uuid_str fid) csrf_token None 200)
      | Some fid =>
          let! csrf_token := rotate_csrf fid in
          ret (login_page (uuid_str fid) csrf_token None 200)
      end
  end.

(** [select(User).where(User.email == email)], a case-insensitive column. *)
Definition user_by_email (email : string) : M (option (Z * User)) :=
  let! t := gets users in
  ret (scalar (select (fun _ u => citext_eq (u_email u) email) t)).

(** Whether the password of an active user is right; otherwise a hash is burned. *)
Definition password_matches (user : option (Z * User)) (password : string) : M bool :=
  match user with
  | Some (_, u) =>
      if bool_decide (u_status u = "active") then verify_password (u_password_hash u) password
      else dummy_verify;; ret false
  | None => dummy_verify;; ret false
  end.

Definition login_submit (request : Request) (flow csrf_token email password : string) : M Response :=
  let! now := utcnow in
  let! ip := client_ip request in
  let! found := get_valid_flow (Some flow) ip now true in
  match found with
  | None => ret expired_page
  | Some fid =>
      if negb (bool_decide (cookie request FLOW_COOKIE = Some flow)) then ret expired_page
      else
        let! row := flow_row fid in
        if negb (verify_flow_csrf row csrf_token) || negb (bool_decide (lf_stage row = "password"))
        then ret invalid_page
        else
          let email := lower (strip email) in
          let! throttle := check_throttle ip (Some email) now in
          if negb (td_allowed throttle) then
            emit THROTTLE_APPLIED ip false None None None [("retry_after", JInt (retry_after throttle))];;
            ret (throttled_page (retry_after throttle))
          else
            let! user := user_by_email email in
            let! ok := password_matches user password in
            match user with
            | Some (uid, u) =>
                if ok then
                  reset_account email;;
                  emit LOGIN_PASSWORD_SUCCESS ip true (Some uid) None None [];;
                  let second := required_second_factor u in
                  set_flow fid (fun f => set_lf_source_ip ip (set_lf_stage second (set_lf_user_id (Some uid) f)));;
                  ret (redirect 303 ("/auth/" +:+ second +:+ "?flow=" +:+ flow))
                else
                  register_failure ip (Some email) now;;
                  emit LOGIN_PASSWORD_FAILURE ip false (Some uid) None None [];;
                  ret (login_page flow csrf_token (Some "Incorrect email or password.") 401)
            | None =>
                register_failure ip (Some email) now;;
                emit LOGIN_PASSWORD_FAILURE ip false None None None [];;
                ret (login_page flow csrf_token (Some "Incorrect email or password.") 401)
            end
  end.

(** ** The second factor *)

Definition get_stage_flow (request : Request) (flow_id : option string) (stage : string) : M (option Z) :=
  let! now := utcnow in
  let! ip := client_ip request in
  let! found := get_valid_flow flow_id ip now false in
  match found with
  | None => ret None
  | Some fid =>
      let! row := flow_row fid in
      if negb (bool_decide (lf_stage row = stage)) || bool_decide (lf_user_id row = None) then ret None
      else if negb (bool_decide (cookie request FLOW_COOKIE = Some (uuid_str fid))) then ret None
      else ret (Some fid)
  end.

(** The active user of a flow, with their key. *)
Definition flow_user (row : LoginFlow) : M (option (Z * User)) :=
  let! uid := assert_some (lf_user_id row) in
  let! user := active_user uid in
  ret (option_map (pair uid) user).

Definition login_response (user : User) (cookie_value : string) (url : option string) : M Response :=
  let resp := match url with
              | Some url => redirect 303 url
              | None => template 200 "signedin.html" [("user", CUser user)]
              end in
  set_session_cookie cookie_value resp.

Definition resume_completed_login (row : LoginFlow) (request : Request) : M (option (string * option string)) :=
  let! sid := assert_some (lf_completed_session_id row) in
  let! session := get_session sid in
  match session with
  | None => ret None
  | Some _ =>
      let! ip := client_ip request in
      let! now := utcnow in
      let! live := check_liveness sid ip now true in
      if negb live then ret None
      else
        let! cookie_value := reissue_cookie sid in
        ret (Some (cookie_value, continue_url row))
  end.

Definition finalize_login (fid uid : Z) (user : User) (amr : list string) (ip : string)
  : M (string * option string) :=
  let! now := utcnow in
  let! '(sid, cookie_value) := create_session uid user ip amr now in
  set_flow fid (set_lf_completed_session_id (Some sid));;
  let! row := flow_row fid in
  ret (cookie_value, continue_url row).

Definition complete_second_factor (request : Request) (fid uid : Z) (user : User) (amr : list string)
  : M Response :=
  let! ip := client_ip request in
  let! '(cookie_value, url) := finalize_login fid uid user amr ip in
  login_response user cookie_value url.

Definition second_factor_throttle (request : Request) (uid : Z) (user : User) : M (option Response) :=
  let! now := utcnow in
  let! ip := client_ip request in
  let! decision := check_throttle ip (Some (u_email user)) now in
  if td_allowed decision then ret None
  else
    emit THROTTLE_APPLIED ip false (Some uid) None None [("retry_after", JInt (retry_after decision))];;
    ret (Some (throttled_page (retry_after decision))).

Definition to_enroll (fid : Z) : Response := redirect 303 ("/auth/enroll/totp?flow=" +:+ uuid_str fid).

Definition totp_page (fid : Z) (csrf_token : string) (error : option string) (status : Z) : Response :=
  template status "totp.html"
    [("flow_id", CStr (uuid_str fid)); ("csrf_token", CStr csrf_token); ("error", c_opt error)].

Definition totp_form (request : Request) (flow : option string) : M Response :=
  let! found := get_stage_flow request flow "totp" in
  match found with
  | None => ret expired_page
  | Some fid =>
      let! row := flow_row fid in
      let! user := flow_user row in
      match user with
      | None => ret expired_page
      | Some (uid, _) =>
          let! totp := get_totp_row uid true in
          match totp with
          | None => ret (to_enroll fid)
          | Some _ => let! csrf_token := rotate_csrf fid in ret (totp_page fid csrf_token None 200)
          end
      end
  end.

(** [onward or error_page(...)], for a form without a usable flow. *)
Definition onward (request : Request) : M Response :=
  let! r := redirect_if_authenticated request in
  ret (default invalid_page r).

(** The flow of a second-factor form whose CSRF token is right. *)
Definition form_flow (request : Request) (flow csrf_token : string) : M (option Z) :=
  let! found := get_stage_flow request (Some flow) "totp" in
  match found with
  | None => ret None
  | Some fid =>
      let! row := flow_row fid in
      ret (if verify_flow_csrf row csrf_token then Some fid else None)
  end.

(** The code is checked against a confirmed secret. *)
Definition totp_verify (request : Request) (fid uid : Z) (user : User) (code ip : string) (now : Z)
  : M Response :=
  let! totp := get_totp_row uid true in
  match totp with
  | None => ret (to_enroll fid)
  | Some totp =>
      let! backend := secrets_backend run in
      let! secret := lift (decrypt_secret backend totp) in
      let! ok := verify_code secret (strip code) None in
      if negb ok then
        register_failure ip (Some (u_email user)) now;;
        emit LOGIN_TOTP_FAILURE ip false (Some uid) None None [];;
        let! new_csrf := rotate_csrf fid in
        ret (totp_page fid new_csrf (Some "Incorrect code.") 401)
      else
        reset_account (u_email user);;
        emit LOGIN_TOTP_SUCCESS ip true (Some uid) None None [];;
        let! row := flow_row fid in
        complete_second_factor request fid uid user (amr_of row)
  end.

Definition totp_submit (request : Request) (flow csrf_token code : string) : M Response :=
  let! now := utcnow in
  let! ip := client_ip request in
  let! found := form_flow request flow csrf_token in
  match found with
  | None => onward request
  | Some fid =>
      let! row := flow_row fid in
      let! user := flow_user row in
      if bool_decide (lf_completed_session_id row <> None) then
        let! resumed := resume_completed_login row request in
        match resumed, user with
        | Some (cookie_value, url), Some (_, u) => login_response u cookie_value url
        | _, _ => ret expired_page
        end
      else
        match user with
        | None => ret expired_page
        | Some (uid, u) =>
            let! throttled := second_factor_throttle request uid u in
            match throttled with
            | Some r => ret r
            | None => totp_verify request fid uid u code ip now
            end
        end
  end.

(** ** Enrollment *)

Definition enroll_page (fid : Z) (csrf_token secret uri : string) (error : option string) (status : Z)
  : Response :=
  template status "enroll_totp.html"
    [("flow_id", CStr (uuid_str fid)); ("csrf_token", CStr csrf_token); ("secret", CStr secret);
     ("otpauth_uri", CStr uri); ("qr_svg", CStr (provisioning_qr_svg uri)); ("error", c_opt error)].

(** The secret to show: the pending one, or a new one. *)
Definition pending_secret (uid : Z) (backend : SecretsBackend) : M string :=
  let! pending := get_totp_row uid false in
  match pending with
  | None =>
      let! secret := generate_secret in
      store_pending_secret backend uid secret;; ret secret
  | Some pending => lift (decrypt_secret backend pending)
  end.

Definition enroll_totp_form (request : Request) (flow : option string) : M Response :=
  let! found := get_stage_flow request flow "totp" in
  match found with
  | None => ret expired_page
  | Some fid =>
      let! row := flow_row fid in
      let! user := flow_user row in
      match user with
      | None => ret expired_page
      | Some (uid, u) =>
          if bool_decide (u_auth_tier u = "admin")
          then ret (error_page "Admin accounts use passkeys, not TOTP." 403)
          else
            let! confirmed := get_totp_row uid true in
            match confirmed with
            | Some _ => ret (redirect 303 ("/auth/totp?flow=" +:+ uuid_str fid))
            | None =>
                let! backend := secrets_backend run in
                let! secret := pending_secret uid backend in
                let! csrf_token := rotate_csrf fid in
                let uri := provisioning_uri secret (u_email u) "hyproxy" in
                ret (enroll_page fid csrf_token secret uri None 200)
            end
      end
  end.

(** The enrollment is confirmed: a session is created and the flow is spent. *)
Definition finish_enrollment (fid uid : Z) (user : User) (ip : string) (now : Z) : M Response :=
  moddb (upd_user_totp (alter (set_ut_confirmed_at (Some now)) uid));;
  reset_account (u_email user);;
  emit ENROLL_TOTP ip true (Some uid) None None [];;
  let! codes := issue_batch uid in
  let! row := flow_row fid in
  let session_resp := template 200 "recovery_codes.html"
    [("codes", CList codes); ("continue_url", c_opt (continue_url row))] in
  let! '(_, cookie_value) := create_session uid user ip (amr_of row) now in
  delete_flow fid;;
  let! r := set_session_cookie cookie_value session_resp in
  ret (add_cookie (DeleteCookie FLOW_COOKIE "/" None) r).

(** The code is checked against the pending secret. *)
Definition enroll_verify (fid uid : Z) (user : User) (code ip : string) (now : Z) : M Response :=
  let! pending := get_totp_row uid false in
  let refused := error_page "No enrollment in progress. Please start over." 400 in
  match pending with
  | None => ret refused
  | Some pending =>
      if bool_decide (ut_confirmed_at pending <> None) then ret refused
      else
        let! backend := secrets_backend run in
        let! secret := lift (decrypt_secret backend pending) in
        let! ok := verify_code secret (strip code) None in
        if negb ok then
          register_failure ip (Some (u_email user)) now;;
          let uri := provisioning_uri secret (u_email user) "hyproxy" in
          let! new_csrf := rotate_csrf fid in
          ret (enroll_page fid new_csrf secret uri
                 (Some "Incorrect code. Scan the secret and try again.") 401)
        else finish_enrollment fid uid user ip now
  end.

Definition enroll_totp_submit (request : Request) (flow csrf_token code : string) : M Response :=
  let! now := utcnow in
  let! ip := client_ip request in
  let! found := form_flow request flow csrf_token in
  match found with
  | None => onward request
  | Some fid =>
      let! row := flow_row fid in
      let! user := flow_user row in
      match user with
      | None => ret expired_page
      | Some (uid, u) =>
          if bool_decide (u_auth_tier u = "admin") then ret expired_page
          else
            let! throttled := second_factor_throttle request uid u in
            match throttled with
            | Some r => ret r
            | None => enroll_verify fid uid u code ip now
            end
      end
  end.

(** ** Recovery codes *)

Definition recovery_page (fid : Z) (csrf_token : string) (error : option string) (status : Z) : Response :=
  template status "recovery.html"
    [("flow_id", CStr (uuid_str fid)); ("csrf_token", CStr csrf_token); ("error", c_opt error)].

Definition recovery_form (request : Request) (flow : option string) : M Response :=
  let! found := get_stage_flow request flow "totp" in
  match found with
  | None => ret expired_page
  | Some fid => let! csrf_token := rotate_csrf fid in ret (recovery_page fid csrf_token None 200)
  end.

(** A recovery code is tried; when accepted, the authenticator is dropped. *)
Definition recovery_verify (fid uid : Z) (user : User) (code ip : string) (now : Z) : M Response :=
  let! ok := consume uid code now in
  if negb ok then
    register_failure ip (Some (u_email user)) now;;
    emit LOGIN_RECOVERY_CODE_FAILURE ip false (Some uid) None None [];;
    let! new_csrf := rotate_csrf fid in
    ret (recovery_page fid new_csrf (Some "That recovery code is not valid.") 401)
  else
    reset_account (u_email user);;
    emit LOGIN_RECOVERY_CODE_USED ip true (Some uid) None None [];;
    moddb (upd_user_totp (delete uid));;
    set_flow fid (set_lf_recovery_used true);;
    ret (to_enroll fid).

Definition recovery_submit (request : Request) (flow csrf_token code : string) : M Response :=
  let! now := utcnow in
  let! ip := client_ip request in
  let! found := form_flow request flow csrf_token in
  match found with
  | None => onward request
  | Some fid =>
      let! row := flow_row fid in
      let! user := flow_user row in
      match user with
      | None => ret expired_page
      | Some (uid, u) =>
          let! throttled := second_factor_throttle request uid u in
          match throttled with
          | Some r => ret r
          | None => recovery_verify fid uid u code ip now
          end
      end
  end.
End Login.
