(* ===== verification/LoginSafety.v ===== *)
(** * LoginSafety: what the login pages guarantee

    A session cookie is only handed out after a verified factor, the password step only
    identifies a flow after the password was right, and a recovery code does not log in. *)

From S2P Require Import Prelude PyStr Encoding Digest Json JsonText PyTime Url Config Db Effects.
From S2P Require Import Crypto Web Events Passwords Sessions RateLimit TokenEndpoint.
From S2P Require Import SecondFactor Flows Pages Authorize Login.
Local Open Scope Z_scope.

(** ** Frames *)

(** A computation that only reads. *)
Lemma readonly {A} (m : M A) e s r s' : steps (same (@id Db)) m -> m e s = (r, s') -> db s' = db s.
Proof. intros Hs Hr. exact (same_steps_eq (@id Db) _ _ _ _ _ Hs Hr). Qed.

Section Login.
Context {aead : Aead} {argon : Argon} {otp : Otp}.
Context (run : list string -> ProcessResult).

(** The flow behind a second-factor form. *)
Record stage_flow (e : Env) (d : Db) (rq : Request) (fid : Z) (row : LoginFlow) (stage : string)
    (now : Z) : Prop := {
  sf_row : login_flows d !! fid = Some row;
  sf_live : now < lf_expires_at row;
  sf_stage : lf_stage row = stage;
  sf_user : is_Some (lf_user_id row);
  sf_cookie : cookie rq FLOW_COOKIE = Some (uuid_str fid);
}.

Lemma flow_row_Ok fid e s row s' :
  flow_row fid e s = (Ok row, s') -> s' = s /\ login_flows (db s) !! fid = Some row.
Proof. unfold flow_row. intros Hr. minv Hr. done. Qed.

Lemma bind_flow_row {B} fid row (k : LoginFlow -> M B) e s :
  login_flows (db s) !! fid = Some row -> bind (flow_row fid) k e s = k row e s.
Proof. intros H. unfold flow_row, bind, gets. by rewrite H. Qed.

Lemma get_stage_flow_Some rq flow stage e s fid s' :
  get_stage_flow rq flow stage e s = (Ok (Some fid), s') ->
  db s' = db s /\ tick s' = S (tick s) /\ uuid_parse (default "" flow) = Some fid
  /\ exists row, stage_flow e (db s) rq fid row stage (clock e (tick s)).
Proof.
  unfold get_stage_flow. intros Hr. mread Hr. mstep Hr ip s1 H1. apply client_ip_Ok in H1 as [-> _].
  mstep Hr found s2 H2. destruct found as [f|]; [|done].
  apply get_valid_flow_Some in H2 as (-> & text & row & -> & Hparse & Hrow & Hlive & _). simpl in Hrow.
  erewrite bind_flow_row in Hr; [|exact Hrow].
  destruct (negb _ || _) eqn:E1; [done|]. destruct (negb (bool_decide (cookie _ _ = _))) eqn:E2; [done|].
  unfold ret in Hr. injection Hr as <- <-. split; [done|]. split; [done|]. split; [done|]. exists row.
  bool_simpl. constructor; try done. destruct (lf_user_id row); [eauto|]. done.
Qed.

Lemma form_flow_Some rq flow csrf e s fid s' :
  form_flow rq flow csrf e s = (Ok (Some fid), s') ->
  db s' = db s /\ tick s' = S (tick s) /\ uuid_parse flow = Some fid
  /\ exists row, stage_flow e (db s) rq fid row "totp" (clock e (tick s))
    /\ lf_csrf_token_hash row = sha256_hex csrf.
Proof.
  unfold form_flow. intros Hr. mstep Hr found s1 H1. destruct found as [f|]; [|done].
  apply get_stage_flow_Some in H1 as (Hdb & Htk & Hparse & row & Hsf). pose proof Hsf as [Hrow _ _ _ _].
  rewrite <- Hdb in Hrow. rewrite (bind_flow_row _ _ _ _ _ Hrow) in Hr. unfold ret in Hr.
  injection Hr as Hv <-. destruct (verify_flow_csrf row csrf) eqn:E; [|done]. injection Hv as ->.
  split; [done|]. split; [done|]. split; [done|]. exists row. split; [done|]. unfold verify_flow_csrf, constant_time_equals in E.
  by bool_simpl.
Qed.

Lemma flow_user_Some row e s uid u s' :
  flow_user row e s = (Ok (Some (uid, u)), s') ->
  s' = s /\ lf_user_id row = Some uid /\ users (db s) !! uid = Some u /\ u_status u = "active".
Proof.
  unfold flow_user. intros Hr. mstep Hr i s1 H1. destruct (lf_user_id row) as [j|]; [|done].
  unfold assert_some, ret in H1. injection H1 as <- <-. mstep Hr ou s2 H2. unfold ret in Hr.
  destruct ou as [u'|]; [|done]. injection Hr as <- <- <-. apply active_user_Some in H2 as (-> & Hu & Ha).
  auto.
Qed.

Lemma steps_flow_user R `{!PreOrder R} row : steps R (flow_user row).
Proof. unfold flow_user, active_user, get_user. steps_auto. Qed.
Lemma steps_get_stage_flow R `{!PreOrder R} rq flow stage : steps R (get_stage_flow rq flow stage).
Proof. unfold get_stage_flow. steps_auto. Qed.
#[local] Hint Resolve steps_flow_user steps_get_stage_flow : hyproxy.
Lemma steps_form_flow R `{!PreOrder R} rq flow csrf : steps R (form_flow rq flow csrf).
Proof. unfold form_flow. steps_auto. Qed.

(** A throttle check that lets the attempt through only reads. *)
Lemma second_factor_throttle_None rq uid u e s s' :
  second_factor_throttle rq uid u e s = (Ok None, s') ->
  db s' = db s /\ tick s' = S (tick s) /\ exists ip, client_ip_of (settings e) rq = Some ip
    /\ forall key row, key ∈ throttle_keys ip (Some (u_email u)) ->
         auth_throttle (db s) !! key = Some row -> at_next_allowed_at row <= clock e (tick s).
Proof.
  unfold second_factor_throttle. intros Hr. mread Hr. mstep Hr ip s1 H1.
  apply client_ip_Ok in H1 as [-> Hip]. mstep Hr d s2 H2. apply check_throttle_Ok in H2 as [-> Hal].
  destruct (td_allowed d) eqn:E.
  - unfold ret in Hr. injection Hr as <-. split; [done|]. split; [done|]. exists ip. split; [done|by apply Hal].
  - mstep Hr u1 s3 H3. done.
Qed.

Lemma login_response_Ok user c url e s resp s' :
  login_response user c url e s = (Ok resp, s') ->
  s' = s /\ rs_cookies resp =
    [SetCookie SESSION_COOKIE c true true "lax" "/" None (Some (refresh_abs_ttl (settings e)))].
Proof.
  unfold login_response, set_session_cookie. intros Hr. mread Hr. unfold ret in Hr.
  injection Hr as <- <-. split; [done|]. by destruct url.
Qed.

(** No cookie of the answer carries a session. *)
Definition no_session_cookie (r : Response) : Prop :=
  forall v a b c d f g, SetCookie SESSION_COOKIE v a b c d f g ∉ rs_cookies r.

Definition sets_session (r : Response) (v : string) : Prop :=
  exists a b c d f g, SetCookie SESSION_COOKIE v a b c d f g ∈ rs_cookies r.

Lemma sets_no_session r v : no_session_cookie r -> sets_session r v -> False.
Proof. intros Hn (a & b & c & d & f & g & H). by eapply Hn. Qed.

Lemma no_cookies_none r : rs_cookies r = [] -> no_session_cookie r.
Proof. intros H v a b c d f g. rewrite H. set_solver. Qed.

Lemma onward_no_cookie rq e s r s' : onward rq e s = (Ok r, s') -> rs_cookies r = [].
Proof.
  unfold onward, redirect_if_authenticated. intros Hr. mstep Hr o s1 H1. mstep H1 ip s2 H2. mread H1.
  mstep H1 f s3 H3. unfold ret in H1, Hr. injection H1 as <- _. injection Hr as <- _. by destruct f.
Qed.

Lemma throttle_page_no_cookie rq uid u e s r s' :
  second_factor_throttle rq uid u e s = (Ok (Some r), s') -> rs_cookies r = [].
Proof.
  unfold second_factor_throttle. intros Hr. mread Hr. mstep Hr ip s1 H1. mstep Hr d s2 H2.
  destruct (td_allowed d); [done|]. mstep Hr u1 s3 H3. unfold ret in Hr. by injection Hr as <- _.
Qed.

(** The gate never adds a session. *)
Lemma onward_frame rq e s r s' : onward rq e s = (Ok r, s') ->
  (forall sid, sessions (db s) !! sid = None -> sessions (db s') !! sid = None)
  /\ recovery_codes (db s') = recovery_codes (db s) /\ user_totp (db s') = user_totp (db s).
Proof.
  intros Hr. split.
  - unfold onward, redirect_if_authenticated in Hr. mstep Hr o s1 H1. mstep H1 ip s2 H2.
    apply client_ip_Ok in H2 as [-> _]. mread H1. mstep H1 f s3 H3. unfold ret in H1, Hr.
    injection H1 as <- <-. injection Hr as _ <-. unfold get_session_from_cookie in H3.
    destruct (split_cookie _) as [[i sec]|]; [|unfold ret in H3; by injection H3 as _ <-].
    rewrite bind_gets in H3. simpl in H3. destruct (sessions (db s) !! i) as [se|] eqn:E;
      [|unfold ret in H3; by injection H3 as _ <-].
    destruct (negb _); [unfold ret in H3; by injection H3 as _ <-|]. mstep H3 live s4 H4.
    assert (s3 = s4) as -> by (destruct live; unfold ret in H3; by injection H3 as _ <-).
    destruct (check_liveness_gate _ _ _ _ e (mkSt (db s) (S (tick s))) _ _ _ E H4) as [-> _].
    intros sid Hn. simpl. rewrite lookup_insert_ne; [done|]. congruence.
  - split; (eapply same_steps_eq; [|exact Hr]); unfold onward, redirect_if_authenticated;
      pose proof (get_session_kept (cookie rq SESSION_COOKIE)) as Hk; steps_auto; by apply Hk.
Qed.

(** The session a completed login creates. *)
Definition created (e : Env) (d d' : Db) (uid : Z) (u : User) (amr : list string) (v : string) : Prop :=
  exists sid secret ip now, sessions d !! sid = None
    /\ sessions d' = <[sid := new_session uid u ip amr now (refresh_abs_ttl (settings e)) secret]> (sessions d)
    /\ v = cookie_of sid secret.

Lemma finalize_login_Ok fid uid u amr ip e s v url s' :
  finalize_login fid uid u amr ip e s = (Ok (v, url), s') ->
  created e (db s) (db s') uid u amr v
  /\ (exists sid, login_flows (db s') = alter (set_lf_completed_session_id (Some sid)) fid (login_flows (db s)))
  /\ webauthn_credentials (db s') = webauthn_credentials (db s).
Proof.
  unfold finalize_login. intros Hr. mread Hr. mstep Hr q s3 H3. destruct q as [sid c]. cbn beta iota in Hr.
  pose proof H3 as Hf. apply (same_steps_eq login_flows) in Hf; [|unfold create_session, new_token; steps_auto; done].
  pose proof H3 as Hw. apply (same_steps_eq webauthn_credentials) in Hw; [|unfold create_session, new_token; steps_auto; done].
  apply create_session_Ok in H3 as (secret & _ & Hn & Hs & ->). unfold set_flow in Hr. mread Hr.
  mstep Hr row s4 H4. apply flow_row_Ok in H4 as [-> _]. unfold ret in Hr. injection Hr as <- _ <-. simpl.
  split_and!; [|exists sid; by rewrite Hf|done]. exists sid, secret, ip, (clock e (tick s)). done.
Qed.

Lemma only_session_cookie r c (secs : Z) v :
  rs_cookies r = [SetCookie SESSION_COOKIE c true true "lax" "/" None (Some secs)] ->
  sets_session r v -> v = c.
Proof.
  intros Hck (a & b & c' & d & f & g & Hin). rewrite Hck in Hin.
  apply list_elem_of_singleton in Hin. by injection Hin as -> _ _ _ _ _ _.
Qed.

Lemma complete_second_factor_Ok rq fid uid u amr e s resp s' v :
  complete_second_factor rq fid uid u amr e s = (Ok resp, s') -> sets_session resp v ->
  created e (db s) (db s') uid u amr v.
Proof.
  unfold complete_second_factor. intros Hr Hv. mstep Hr ip s1 H1.
  apply client_ip_Ok in H1 as [-> _]. mstep Hr p s2 H2. destruct p as [c url]. cbn beta iota in Hr.
  apply finalize_login_Ok in H2 as [Hc _]. apply login_response_Ok in Hr as [-> Hck].
  by rewrite (only_session_cookie _ _ _ _ Hck Hv).
Qed.

(** A factor that was verified: a confirmed secret of the user, and a code it answers at
    the time [t]. *)
Definition totp_verified (e : Env) (d : Db) (uid : Z) (code : string) (t : Z) : Prop :=
  exists row backend secret, user_totp d !! uid = Some row /\ ut_confirmed_at row <> None
    /\ get_secrets_backend run (settings e) = Ok backend /\ decrypt_secret backend row = Ok secret
    /\ otp_verify secret (strip code) t 1 = true.

Lemma secrets_backend_Ok e s b s' :
  secrets_backend run e s = (Ok b, s') -> s' = s /\ get_secrets_backend run (settings e) = Ok b.
Proof. unfold secrets_backend. intros Hr. mread Hr. unfold lift in Hr. by injection Hr as <- <-. Qed.

Lemma verify_code_None secret code e s b s' :
  verify_code secret code None e s = (Ok b, s') ->
  db s' = db s /\ b = otp_verify secret code (clock e (tick s)) 1.
Proof. unfold verify_code. intros Hr. mread Hr. unfold ret in Hr. by injection Hr as <- <-. Qed.

Lemma totp_verify_session rq fid uid u code ip now e s resp s' row v :
  totp_verify run rq fid uid u code ip now e s = (Ok resp, s') -> sets_session resp v ->
  login_flows (db s) !! fid = Some row ->
  totp_verified e (db s) uid code (clock e (tick s)) /\ created e (db s) (db s') uid u (amr_of row) v.
Proof.
  unfold totp_verify. intros Hr Hv Hrow. erewrite bind_run in Hr; [|apply get_totp_row_run].
  destruct (user_totp (db s) !! uid) as [t|] eqn:Et.
  2: { unfold ret in Hr. injection Hr as <- _. exfalso. by eapply sets_no_session, Hv; apply no_cookies_none. }
  cbn [andb] in Hr. case_bool_decide as Ec.
  { unfold ret in Hr. injection Hr as <- _. exfalso. by eapply sets_no_session, Hv; apply no_cookies_none. }
  mstep Hr b s1 H1. apply secrets_backend_Ok in H1 as [-> Hb]. mlift Hr secret Hs.
  mstep Hr ok s2 H2. apply verify_code_None in H2 as [Hd2 Hok]. destruct ok; cbn [negb] in Hr.
  - unfold reset_account in Hr. mread Hr. mstep Hr u1 s3 H3. apply emit_Ok in H3 as (_ & Hd3 & _).
    mstep Hr row' s4 H4. apply flow_row_Ok in H4 as [-> Hrow']. rewrite Hd3 in Hrow'. simpl in Hrow'.
    rewrite Hd2, Hrow in Hrow'. injection Hrow' as <-.
    eapply complete_second_factor_Ok in Hr; [|exact Hv]. split.
    + exists t, b, secret. done.
    + unfold created in *. rewrite Hd3 in Hr. simpl in Hr. by rewrite Hd2 in Hr.
  - exfalso. mstep Hr u1 s3 H3. mstep Hr u2 s4 H4. mstep Hr c s5 H5. unfold ret in Hr.
    injection Hr as <- _. by eapply sets_no_session, Hv; apply no_cookies_none.
Qed.

(** The session of a completed flow, handed out again. *)
Definition replayed (e : Env) (d d' : Db) (sid : Z) (rq : Request) (v : string) (now : Z) : Prop :=
  exists se ip secret, sessions d !! sid = Some se /\ live_at (settings e) se now
    /\ client_ip_of (settings e) rq = Some ip /\ s_source_ip se = ip /\ v = cookie_of sid secret
    /\ forall i, i <> sid -> sessions d' !! i = sessions d !! i.

Lemma resume_Ok row rq e s c url s' :
  resume_completed_login row rq e s = (Ok (Some (c, url)), s') ->
  exists sid, lf_completed_session_id row = Some sid /\ replayed e (db s) (db s') sid rq c (clock e (tick s)).
Proof.
  unfold resume_completed_login, get_session. intros Hr. mstep Hr sid s1 H1.
  destruct (lf_completed_session_id row) as [i|]; [|done]. unfold assert_some, ret in H1.
  injection H1 as <- <-. exists i. split; [done|]. mread Hr.
  destruct (sessions (db s) !! i) as [se|] eqn:E; [|done]. mstep Hr ip s1 H1.
  apply client_ip_Ok in H1 as [-> Hip]. mread Hr. mstep Hr live s2 H2. destruct live; [|done].
  cbn [negb] in Hr. destruct (check_liveness_gate _ _ _ _ e (mkSt (db s) (S (tick s))) _ _ _ E H2) as [Ht Hg].
  symmetry in Hg. apply gate_true in Hg as [Hl Hi]. mstep Hr c' s3 H3. unfold ret in Hr.
  injection Hr as <- _ <-. unfold reissue_cookie, new_token in H3. mstep H3 tok s4 H4.
  apply token_urlsafe_Ok in H4 as [Hd4 _]. unfold set_session in H3. mread H3. unfold ret in H3.
  injection H3 as <- <-. exists se, ip, tok. split_and!; [done|done|done|by apply Hi|done|].
  intros j Hj. simpl. rewrite lookup_alter_ne by done. rewrite Hd4, Ht. by rewrite lookup_insert_ne.
Qed.

(** The TOTP form sets a session cookie only for a live flow past the password step, with
    the browser's flow cookie and the right CSRF token, whose user is active: either a
    code the user's confirmed secret answers was given and a new session of that user is
    created; or the flow was completed already, and the cookie is for that same session,
    live and of the same address, and no session is added. *)
Theorem totp_submit_sound rq flow csrf code e s resp s' v
    (Hrun : totp_submit run rq flow csrf code e s = (Ok resp, s')) (Hv : sets_session resp v) :
  exists fid row uid u, stage_flow e (db s) rq fid row "totp" (clock e (1 + tick s))
    /\ lf_csrf_token_hash row = sha256_hex csrf
    /\ lf_user_id row = Some uid /\ users (db s) !! uid = Some u /\ u_status u = "active"
    /\ ((lf_completed_session_id row = None /\ totp_verified e (db s) uid code (clock e (3 + tick s))
          /\ created e (db s) (db s') uid u (amr_of row) v)
        \/ exists sid, lf_completed_session_id row = Some sid
             /\ replayed e (db s) (db s') sid rq v (clock e (2 + tick s))).
Proof.
  unfold totp_submit in Hrun. mread Hrun. mstep Hrun ip s1 H1. apply client_ip_Ok in H1 as [-> Hip].
  mstep Hrun found s2 H2. destruct found as [fid|].
  2: { exfalso. apply onward_no_cookie in Hrun. by eapply sets_no_session, Hv; apply no_cookies_none. }
  apply form_flow_Some in H2 as (Hd2 & Ht2 & _ & row & Hsf & Hcsrf). simpl in Hd2, Ht2, Hsf.
  pose proof Hsf as [Hrow _ _ _ _]. rewrite <- Hd2 in Hrow. rewrite (bind_flow_row _ _ _ _ _ Hrow) in Hrun.
  mstep Hrun ou s3 H3. assert (db s3 = db s2) as Hd3 by (eapply readonly; [apply steps_flow_user, _|exact H3]).
  exists fid, row. case_bool_decide as Ec.
  - mstep Hrun res s4 H4. destruct res as [[c url]|].
    2: { exfalso. destruct ou as [[]|]; unfold ret in Hrun; injection Hrun as <- _;
         by eapply sets_no_session, Hv; apply no_cookies_none. }
    destruct ou as [[uid u]|].
    2: { exfalso. unfold ret in Hrun; injection Hrun as <- _.
         by eapply sets_no_session, Hv; apply no_cookies_none. }
    apply flow_user_Some in H3 as (-> & Hu & Huser & Ha). rewrite Hd2 in Huser.
    apply resume_Ok in H4 as (sid & Hsid & Hrep). apply login_response_Ok in Hrun as [-> Hck].
    exists uid, u. rewrite Hd2, Ht2 in Hrep. split_and!; try done. right. exists sid. split; [done|].
    by rewrite (only_session_cookie _ _ _ _ Hck Hv).
  - destruct ou as [[uid u]|].
    2: { exfalso. unfold ret in Hrun; injection Hrun as <- _.
         by eapply sets_no_session, Hv; apply no_cookies_none. }
    apply flow_user_Some in H3 as (-> & Hu & Huser & Ha). rewrite Hd2 in Huser.
    mstep Hrun th s4 H4. destruct th as [r|].
    { exfalso. apply throttle_page_no_cookie in H4. unfold ret in Hrun. injection Hrun as <- _.
      by eapply sets_no_session, Hv; apply no_cookies_none. }
    apply second_factor_throttle_None in H4 as (Hd4 & Ht4 & _).
    eapply totp_verify_session in Hrun as [Hver Hcr]; [|exact Hv|by rewrite Hd4, Hrow].
    rewrite Hd4, Hd2 in Hver, Hcr. rewrite Ht4, Ht2 in Hver. exists uid, u. split_and!; try done. left.
    split_and!; [|done|done]. destruct (lf_completed_session_id row); [|done]. by destruct Ec.
Qed.

(** ** The password step *)

(** The step that identifies a flow: the flow of the form, before it, and the user whose
    password was right. *)
Record identified (e : Env) (d d' : Db) (rq : Request) (flow csrf email password : string)
    (now : Z) (fid : Z) (f : LoginFlow) (uid : Z) (u : User) (ip : string) : Prop := {
  id_flow : login_flows d !! fid = Some f /\ uuid_parse flow = Some fid;
  id_live : now < lf_expires_at f
    /\ forall key row, key ∈ throttle_keys ip (Some (lower (strip email))) ->
         auth_throttle d !! key = Some row -> at_next_allowed_at row <= now;
  id_stage : lf_stage f = "password";
  id_browser : cookie rq FLOW_COOKIE = Some flow /\ lf_csrf_token_hash f = sha256_hex csrf;
  id_ip : client_ip_of (settings e) rq = Some ip;
  id_user : users d !! uid = Some u /\ citext_eq (u_email u) (lower (strip email)) = true
    /\ u_status u = "active";
  id_password : argon_verify (u_password_hash u) password = Verified;
  id_after : login_flows d' = alter (fun f => set_lf_source_ip ip
    (set_lf_stage (required_second_factor u) (set_lf_user_id (Some uid) f))) fid (login_flows d);
}.

Lemma user_by_email_Ok email e s o s' :
  user_by_email email e s = (Ok o, s') -> s' = s /\ forall uid u, o = Some (uid, u) ->
    users (db s) !! uid = Some u /\ citext_eq (u_email u) email = true.
Proof.
  unfold user_by_email. intros Hr. mread Hr. unfold ret in Hr. injection Hr as <- <-. split; [done|].
  intros uid u Hs. by apply scalar_select in Hs.
Qed.

Lemma password_matches_Ok o password e s b s' :
  password_matches o password e s = (Ok b, s') ->
  db s' = db s /\ (b = true -> exists uid u, o = Some (uid, u) /\ u_status u = "active"
    /\ argon_verify (u_password_hash u) password = Verified).
Proof.
  unfold password_matches. intros Hr. split.
  { eapply readonly; [|exact Hr]. destruct o as [[uid u]|]; steps_auto. }
  intros ->. destruct o as [[uid u]|].
  - case_bool_decide.
    + apply verify_password_run in Hr as [_ Hv]. exists uid, u. split_and!; [done..|by apply Hv].
    + mstep Hr x s1 H1. done.
  - mstep Hr x s1 H1. done.
Qed.

(** The password form never sets a session cookie nor touches a session; it identifies
    a flow only when the attempt is not throttled, the flow is live, unidentified, of this
    browser and of the right CSRF token, and the password is right for the active user of
    that address; the second factor is then the one of the user's tier and the flow is
    pinned to the client's address. *)
Theorem login_submit_sound rq flow csrf email password e s resp s'
    (Hrun : login_submit rq flow csrf email password e s = (Ok resp, s')) :
  no_session_cookie resp /\ sessions (db s') = sessions (db s)
  /\ (login_flows (db s') = login_flows (db s)
      \/ exists fid f uid u ip, identified e (db s) (db s') rq flow csrf email password (clock e (tick s)) fid f uid u ip
         /\ resp = redirect 303 ("/auth/" +:+ required_second_factor u +:+ "?flow=" +:+ flow)
         /\ auth_throttle (db s') !! ("account", lower (strip email)) = None).
Proof.
  unfold login_submit in Hrun. mread Hrun. mstep Hrun ip s1 H1. apply client_ip_Ok in H1 as [-> Hip].
  mstep Hrun found s2 H2. destruct found as [fid|].
  2: { unfold ret in Hrun. injection Hrun as <- <-. apply (readonly _ _ _ _ _ (steps_get_valid_flow _ _ _ _ _)) in H2.
       rewrite H2. split_and!; [by apply no_cookies_none|done|by left]. }
  apply get_valid_flow_Some in H2 as (-> & text & row & [= <-] & Hparse & Hrow & Hlive & _). simpl in Hrow.
  case_bool_decide as Eck; cbn [negb] in Hrun.
  2: { unfold ret in Hrun. injection Hrun as <- <-. split_and!; [by apply no_cookies_none|done|by left]. }
  erewrite bind_flow_row in Hrun; [|exact Hrow].
  destruct (negb (verify_flow_csrf row csrf) || _) eqn:Ecs.
  { unfold ret in Hrun. injection Hrun as <- <-. split_and!; [by apply no_cookies_none|done|by left]. }
  apply orb_false_iff in Ecs as [Ecs Est]. unfold verify_flow_csrf, constant_time_equals in Ecs. bool_simpl.
  mstep Hrun th s3 H3. apply check_throttle_Ok in H3 as [-> Hth]. simpl in Hth.
  destruct (td_allowed th); cbn [negb] in Hrun.
  2: { mstep Hrun u1 s4 H4. apply emit_Ok in H4 as (_ & Hd4 & _). unfold ret in Hrun.
       injection Hrun as <- <-. rewrite Hd4. split_and!; [by apply no_cookies_none|done|by left]. }
  mstep Hrun ou s4 H4. apply user_by_email_Ok in H4 as [-> Hou]. mstep Hrun ok s5 H5.
  apply password_matches_Ok in H5 as [Hd5 Hok]. simpl in Hd5, Hou.
  assert (forall o e1 s6 r s7, (register_failure ip (Some (lower (strip email))) (clock e (tick s));;
      emit LOGIN_PASSWORD_FAILURE ip false o None None [];;
      ret (login_page flow csrf (Some "Incorrect email or password.") 401)) e1 s6 = (Ok r, s7) ->
      no_session_cookie r /\ sessions (db s7) = sessions (db s6) /\ login_flows (db s7) = login_flows (db s6))
    as Hfail.
  { intros o e1 s6 r s7 Hr. erewrite bind_run in Hr; [|apply register_failure_run].
    mstep Hr u2 s8 H8. apply emit_Ok in H8 as (_ & Hd8 & _). unfold ret in Hr. injection Hr as <- <-.
    rewrite Hd8. split_and!; [|done|done]. unfold no_session_cookie. simpl. intros v a b c d f g.
    intros [=]%list_elem_of_singleton. }
  destruct ou as [[uid u]|]; [|apply Hfail in Hrun as (? & Hs & Hf); rewrite Hs, Hf, Hd5; by auto].
  destruct ok; [|apply Hfail in Hrun as (? & Hs & Hf); rewrite Hs, Hf, Hd5; by auto].
  destruct (Hok eq_refl) as (uid' & u' & [= <- <-] & Hact & Hpw). destruct (Hou _ _ eq_refl) as [Huser Hce].
  unfold reset_account in Hrun. mread Hrun. mstep Hrun u1 s6 H6. apply emit_Ok in H6 as (_ & Hd6 & _).
  unfold set_flow in Hrun. mread Hrun. unfold ret in Hrun. injection Hrun as <- <-. simpl.
  rewrite Hd6. simpl. rewrite Hd5. split_and!; [by apply no_cookies_none|done|]. right.
  exists fid, row, uid, u, ip. split_and!; [|done|apply lookup_delete_eq].
  constructor; try done. split; [done|]. by apply Hth.
Qed.

(** ** Recovery *)

Lemma recovery_verify_Ok fid uid u code ip now e s resp s' :
  recovery_verify fid uid u code ip now e s = (Ok resp, s') ->
  rs_cookies resp = [] /\ sessions (db s') = sessions (db s)
  /\ ((recovery_codes (db s') = recovery_codes (db s) /\ user_totp (db s') = user_totp (db s)
       /\ resp <> to_enroll fid
       /\ forall id row, recovery_codes (db s) !! id = Some row -> rcd_user_id row = uid ->
            rcd_used_at row = None -> argon_verify (rcd_code_hash row) (normalize code) <> Verified)
      \/ exists id row, resp = to_enroll fid /\ recovery_codes (db s) !! id = Some row
         /\ rcd_user_id row = uid /\ rcd_used_at row = None
         /\ argon_verify (rcd_code_hash row) (normalize code) = Verified
         /\ recovery_codes (db s') = <[id := set_rcd_used_at (Some now) row]> (recovery_codes (db s))
         /\ user_totp (db s') = delete uid (user_totp (db s))
         /\ login_flows (db s') = alter (set_lf_recovery_used true) fid (login_flows (db s))).
Proof.
  unfold recovery_verify. intros Hr. mstep Hr ok s1 H1. apply consume_cases in H1 as [Ht Hf].
  destruct ok; cbn [negb] in Hr.
  - destruct (Ht eq_refl) as (id & row & Hrow & Hu1 & Hu2 & Hv & Hd1). unfold reset_account in Hr. mread Hr.
    mstep Hr u1 s2 H2. apply emit_Ok in H2 as (_ & Hd2 & _). unfold set_flow in Hr. mread Hr.
    unfold ret in Hr. injection Hr as <- <-. simpl. rewrite Hd2. simpl. rewrite Hd1. simpl.
    split_and!; [done|done|]. right. exists id, row. split_and!; done.
  - destruct (Hf eq_refl) as [-> Hall]. erewrite bind_run in Hr; [|apply register_failure_run].
    mstep Hr u1 s2 H2. apply emit_Ok in H2 as (_ & Hd2 & _). mstep Hr c s3 H3.
    apply rotate_csrf_Ok in H3. unfold ret in Hr. injection Hr as <- <-. rewrite H3, Hd2.
    split_and!; [done|done|]. left. split_and!; done.
Qed.

(** A recovery code does not log in: the form never sets a cookie nor touches a session.
    It sends the browser to a fresh enrollment exactly when one unused code of the flow's
    user was consumed; the old authenticator is then gone and the flow says so. *)
Theorem recovery_submit_sound rq flow csrf code e s resp s'
    (Hrun : recovery_submit rq flow csrf code e s = (Ok resp, s')) :
  rs_cookies resp = [] /\ (forall sid, sessions (db s) !! sid = None -> sessions (db s') !! sid = None)
  /\ ((recovery_codes (db s') = recovery_codes (db s) /\ user_totp (db s') = user_totp (db s))
      \/ exists fid f uid id row, stage_flow e (db s) rq fid f "totp" (clock e (1 + tick s))
         /\ lf_csrf_token_hash f = sha256_hex csrf /\ lf_user_id f = Some uid
         /\ resp = to_enroll fid /\ recovery_codes (db s) !! id = Some row
         /\ rcd_user_id row = uid /\ rcd_used_at row = None
         /\ argon_verify (rcd_code_hash row) (normalize code) = Verified
         /\ (exists t, recovery_codes (db s') = <[id := set_rcd_used_at (Some t) row]> (recovery_codes (db s)))
         /\ user_totp (db s') !! uid = None
         /\ exists f', login_flows (db s') !! fid = Some f' /\ lf_recovery_used f' = true).
Proof.
  unfold recovery_submit in Hrun. mread Hrun. mstep Hrun ip s1 H1. apply client_ip_Ok in H1 as [-> Hip].
  mstep Hrun found s2 H2. destruct found as [fid|].
  2: { assert (db s2 = db s) as Hd2 by (apply readonly in H2; [done|apply steps_form_flow, _]).
       destruct (onward_frame _ _ _ _ _ Hrun) as (Hse & Hrc & Ht). rewrite Hd2 in Hse, Hrc, Ht.
       split_and!; [by eapply onward_no_cookie|done|by left]. }
  apply form_flow_Some in H2 as (Hd2 & _ & _ & row & Hsf & Hcsrf). simpl in Hd2, Hsf.
  pose proof Hsf as [Hrow _ _ _ _]. pose proof Hrow as Hrow2. rewrite <- Hd2 in Hrow2.
  rewrite (bind_flow_row _ _ _ _ _ Hrow2) in Hrun. mstep Hrun ou s3 H3.
  assert (db s3 = db s2) as Hd3 by (eapply readonly; [apply steps_flow_user, _|exact H3]).
  destruct ou as [[uid u]|].
  2: { unfold ret in Hrun. injection Hrun as <- <-. rewrite Hd3, Hd2. split_and!; [done|done|by left]. }
  apply flow_user_Some in H3 as (-> & Hu & _). mstep Hrun th s4 H4. destruct th as [r|].
  { assert (sessions (db s4) = sessions (db s2) /\ recovery_codes (db s4) = recovery_codes (db s2)
      /\ user_totp (db s4) = user_totp (db s2)) as (E1 & E2 & E3).
    { split_and!; (eapply same_steps_eq; [|exact H4]); unfold second_factor_throttle; steps_auto. }
    apply throttle_page_no_cookie in H4. unfold ret in Hrun. injection Hrun as <- <-.
    rewrite E1, E2, E3, Hd2. split_and!; [done|done|by left]. }
  apply second_factor_throttle_None in H4 as [Hd4 _].
  apply recovery_verify_Ok in Hrun as (Hc & Hs & H). rewrite Hd4, Hd2 in Hs, H.
  split_and!; [done|by rewrite Hs|]. destruct H as [(H1 & H2 & _)|(id & rc & -> & Hr & Hu1 & Hu2 & Hv & Ht & Hto & Hfl)];
    [by left|right].
  exists fid, row, uid, id, rc. rewrite Hto, Hfl. split_and!; try done.
  - by eexists.
  - apply lookup_delete_eq.
  - eexists. by rewrite lookup_alter_eq, Hrow.
Qed.
End Login.
