(* ===== verification/WebAuthn.v ===== *)
(** * WebAuthn: security/webauthn.py, the wrapper of py_webauthn

    The library builds options and checks the authenticator's answers; it is a
    parameter.  What the wrapper decides is the relying party and the origin, both
    read off the issuer, and what of a credential row takes part in a check. *)

From S2P Require Import Prelude PyStr Encoding Url Config Db Effects.
Local Open Scope Z_scope.

(** [VerifiedRegistration] of the library. *)
Record VerifiedRegistration := mkVerifiedRegistration {
  vr_credential_id : string;
  vr_credential_public_key : string;
  vr_sign_count : Z;
  vr_aaguid : string;
}.

(** py_webauthn: a challenge from one random draw, options as JSON text, and the two
    verifications, which raise when they refuse. *)
Class WebAuthnLib := {
  wa_challenge : Z -> string;
  wa_registration_options : forall (rp_id rp_name user_id user_name user_display_name : string)
    (exclude_credentials : list string) (challenge : string), string;
  wa_authentication_options : forall (rp_id : string) (allow_credentials : list string)
    (challenge : string), string;
  wa_verify_registration : forall (credential challenge rp_id origin : string)
    (require_user_verification : bool), result VerifiedRegistration;
  wa_verify_authentication : forall (credential challenge rp_id origin public_key : string)
    (sign_count : Z) (require_user_verification : bool), result Z;
}.

Record RegistrationResult := mkRegistrationResult {
  rr_credential_id : string;
  rr_public_key : string;
  rr_sign_count : Z;
  rr_aaguid : option Z;
}.

(** [urlsplit] that raises. *)
Definition split_url (url : string) : result SplitResult :=
  match urlsplit url with Some u => Ok u | None => Raise (ValueError "urlsplit") end.

Section WebAuthn.
Context {wa : WebAuthnLib}.

Definition rp_id : M string :=
  let! cfg := asks id in
  let! parts := lift (split_url (issuer cfg)) in
  assert_some (hostname parts).

Definition expected_origin : M string :=
  let! cfg := asks id in
  let! parts := lift (split_url (issuer cfg)) in
  ret (url_scheme parts +:+ "://" +:+ url_netloc parts).

Definition registration_options_json (user : User) (existing : list WebAuthnCredential)
  : M (string * string) :=
  let! rp := rp_id in
  let! z := draw in
  let challenge := wa_challenge z in
  ret (wa_registration_options rp "hyproxy" (u_external_id user) (u_email user)
         (u_display_name user) (map wc_credential_id existing) challenge, challenge).

Definition verify_registration (credential_json challenge : string) : M RegistrationResult :=
  let! rp := rp_id in
  let! origin := expected_origin in
  let! verified := lift (wa_verify_registration credential_json challenge rp origin false) in
  ret (mkRegistrationResult (vr_credential_id verified) (vr_credential_public_key verified)
         (vr_sign_count verified) (uuid_parse (vr_aaguid verified))).

Definition authentication_options_json (credentials : list WebAuthnCredential)
  : M (string * string) :=
  let! rp := rp_id in
  let! z := draw in
  let challenge := wa_challenge z in
  ret (wa_authentication_options rp (map wc_credential_id credentials) challenge, challenge).

Definition verify_assertion (credential_json challenge : string) (credential : WebAuthnCredential)
  : M Z :=
  let! rp := rp_id in
  let! origin := expected_origin in
  lift (wa_verify_authentication credential_json challenge rp origin (wc_public_key credential)
          (wc_sign_count credential) false).

(** ** Lemmas *)

Lemma steps_rp_id R `{!PreOrder R} : steps R rp_id.
Proof. unfold rp_id. steps_auto. Qed.
Lemma steps_expected_origin R `{!PreOrder R} : steps R expected_origin.
Proof. unfold expected_origin. steps_auto. Qed.
#[local] Hint Resolve steps_rp_id steps_expected_origin : hyproxy.
Lemma steps_registration_options R `{!PreOrder R} u l : steps R (registration_options_json u l).
Proof. unfold registration_options_json. cbv zeta. steps_auto. Qed.
Lemma steps_authentication_options R `{!PreOrder R} l : steps R (authentication_options_json l).
Proof. unfold authentication_options_json. cbv zeta. steps_auto. Qed.
Lemma steps_verify_registration R `{!PreOrder R} c ch : steps R (verify_registration c ch).
Proof. unfold verify_registration. steps_auto. Qed.
Lemma steps_verify_assertion R `{!PreOrder R} c ch row : steps R (verify_assertion c ch row).
Proof. unfold verify_assertion. steps_auto. Qed.

(** The site the credentials are bound to: host and origin of the issuer. *)
Definition site (cfg : Settings) (rp origin : string) : Prop := exists parts,
  urlsplit (issuer cfg) = Some parts /\ hostname parts = Some rp
  /\ origin = url_scheme parts +:+ "://" +:+ url_netloc parts.

Lemma rp_id_Ok e s rp s' : rp_id e s = (Ok rp, s') ->
  s' = s /\ exists parts, urlsplit (issuer (settings e)) = Some parts /\ hostname parts = Some rp.
Proof.
  unfold rp_id, split_url. intros Hr. mread Hr. mlift Hr parts Hp.
  destruct (urlsplit _) as [p|] eqn:E; [|done]. injection Hp as ->. minv Hr. eauto.
Qed.

Lemma expected_origin_Ok e s o s' : expected_origin e s = (Ok o, s') ->
  s' = s /\ exists parts, urlsplit (issuer (settings e)) = Some parts
    /\ o = url_scheme parts +:+ "://" +:+ url_netloc parts.
Proof.
  unfold expected_origin, split_url. intros Hr. mread Hr. mlift Hr parts Hp.
  destruct (urlsplit _) as [p|] eqn:E; [|done]. injection Hp as ->. minv Hr. eauto.
Qed.

Lemma verify_assertion_Ok c ch row e s n s' : verify_assertion c ch row e s = (Ok n, s') ->
  s' = s /\ exists rp origin, site (settings e) rp origin
    /\ wa_verify_authentication c ch rp origin (wc_public_key row) (wc_sign_count row) false = Ok n.
Proof.
  unfold verify_assertion. intros Hr. mstep Hr rp s1 H1. apply rp_id_Ok in H1 as (-> & p & Hp & Hh).
  mstep Hr o s2 H2. apply expected_origin_Ok in H2 as (-> & p' & Hp' & ->). rewrite Hp in Hp'.
  injection Hp' as <-. unfold lift in Hr. injection Hr as Hv <-. split; [done|].
  exists rp, (url_scheme p +:+ "://" +:+ url_netloc p). split; [by exists p|done].
Qed.

Lemma verify_registration_Ok c ch e s r s' : verify_registration c ch e s = (Ok r, s') ->
  s' = s /\ exists rp origin v, site (settings e) rp origin
    /\ wa_verify_registration c ch rp origin false = Ok v
    /\ rr_credential_id r = vr_credential_id v /\ rr_public_key r = vr_credential_public_key v
    /\ rr_sign_count r = vr_sign_count v /\ rr_aaguid r = uuid_parse (vr_aaguid v).
Proof.
  unfold verify_registration. intros Hr. mstep Hr rp s1 H1. apply rp_id_Ok in H1 as (-> & p & Hp & Hh).
  mstep Hr o s2 H2. apply expected_origin_Ok in H2 as (-> & p' & Hp' & ->). rewrite Hp in Hp'.
  injection Hp' as <-. mlift Hr v Hv. unfold ret in Hr. injection Hr as <- <-. split; [done|].
  exists rp, (url_scheme p +:+ "://" +:+ url_netloc p), v. split_and!; [by exists p|done..].
Qed.
End WebAuthn.

#[export] Hint Resolve steps_registration_options steps_authentication_options
  steps_verify_registration steps_verify_assertion : hyproxy.
