(* ===== verification/WebAuthnLogin.v ===== *)
(** * WebAuthnLogin: idp/web/webauthn_routes.py, passkeys

    The assertion that completes an administrator's login, the bootstrap enrollment
    during a login and the step-up assertion on a live session.  The fields of the JSON
    bodies, already validated by their models, are arguments of the handlers. *)

From S2P Require Import Prelude PyStr Encoding Digest Json JsonText PyTime Url Config Db Effects.
From S2P Require Import Crypto Web Events Sessions RateLimit TokenEndpoint Flows Pages Login WebAuthn.
Local Open Scope Z_scope.

Definition json_error (message : string) (status : Z) : Response :=
  json_response status (JObj [("error", JStr message)]).

(** [base64.urlsafe_b64decode] of the credential id, [None] when absent or malformed. *)
Definition credential_id_from_response (credential : list (string * json)) : option string :=
  let get key := default JNull (assoc key credential) in
  match (if truthy (get "rawId") then get "rawId" else get "id") with
  | JStr raw_id => urlsafe_b64decode (b64url_repad raw_id)
  | _ => None
  end.

Definition of_user (uid : Z) (_ : Z) (row : WebAuthnCredential) : bool := bool_decide (wc_user_id row = uid).

Definition user_credentials (uid : Z) : M (list WebAuthnCredential) :=
  let! t := gets webauthn_credentials in
  ret (order_by wc_created_at (map snd (select (of_user uid) t))).

Definition bad_flow : Response := json_error "invalid or expired sign-in flow" 400.

(** [json.loads] of the options the library wrote. *)
Definition options_response (options_json : string) : M Response :=
  match json_loads_str options_json with
  | Some j => ret (json_response 200 j)
  | None => raise (ValueError "json")
  end.

(** The credential row a response names. *)
Definition credential_row (credential : list (string * json)) : M (option (Z * WebAuthnCredential)) :=
  match nonempty (credential_id_from_response credential) with
  | None => ret None
  | Some cred_id =>
      let! t := gets webauthn_credentials in
      ret (scalar (select (fun _ r => bool_decide (wc_credential_id r = cred_id)) t))
  end.

Definition set_credential (cid : Z) (f : WebAuthnCredential -> WebAuthnCredential) : M unit :=
  moddb (upd_webauthn_credentials (alter f cid)).

Definition set_challenge (fid : Z) (challenge : option string) : M unit :=
  set_flow fid (set_lf_webauthn_challenge challenge).

Definition bootstrap_enroll_allowed (creds : list WebAuthnCredential) (flow : LoginFlow) : bool :=
  forallb (fun cred => lf_created_at flow <=? wc_created_at cred) creds.

(** The post-step-up target must have a configured origin. *)
Definition valid_stepup_return (return_to : string) : M bool :=
  let! cfg := asks id in
  let origins := List.filter (fun o => negb (bool_decide (o = ""))) [admin_ui_origin cfg; portal_origin cfg] in
  if bool_decide (origins = []) || bool_decide (return_to = "") then ret false
  else
    let! parts := lift (split_url return_to) in
    if negb (bool_decide (url_scheme parts ∈ ["https"; "http"])) || bool_decide (hostname parts = None)
       || bool_decide (is_Some (nonempty (username parts)))
    then ret false
    else ret (bool_decide (url_scheme parts +:+ "://" +:+ url_netloc parts ∈ origins)).

Section WebAuthnLogin.
Context {wa : WebAuthnLib}.

(** ** Login assertion *)

Definition guarded_flow (request : Request) (flow csrf_token : string) : M (option (Z * (Z * User))) :=
  let! found := get_stage_flow request (Some flow) "webauthn" in
  match found with
  | None => ret None
  | Some fid =>
      let! row := flow_row fid in
      if negb (verify_flow_csrf row csrf_token) then ret None
      else
        let! user := flow_user row in
        ret (option_map (pair fid) user)
  end.

Definition webauthn_page (request : Request) (flow : option string) : M Response :=
  let! found := get_stage_flow request flow "webauthn" in
  match found with
  | None => ret expired_page
  | Some fid =>
      let! row := flow_row fid in
      let! user := flow_user row in
      match user with
      | None => ret expired_page
      | Some (uid, _) =>
          let! creds := user_credentials uid in
          if bool_decide (List.length creds = 0%nat)
          then ret (redirect 303 ("/auth/enroll/webauthn?flow=" +:+ uuid_str fid))
          else
            let! csrf_token := rotate_csrf fid in
            ret (template 200 "webauthn.html"
                   [("flow_id", CStr (uuid_str fid)); ("csrf_token", CStr csrf_token)])
      end
  end.

Definition webauthn_options (request : Request) (flow csrf_token : string) : M Response :=
  let! guarded := guarded_flow request flow csrf_token in
  match guarded with
  | None => ret bad_flow
  | Some (fid, (uid, _)) =>
      let! creds := user_credentials uid in
      if bool_decide (List.length creds = 0%nat) then ret (json_error "no credentials enrolled" 400)
      else
        let! '(options_json, challenge) := authentication_options_json creds in
        set_challenge fid (Some challenge);;
        options_response options_json
  end.

(** The new sign count of an accepted assertion; [None] when the library refuses it. *)
Definition assertion_count (credential : list (string * json)) (challenge : string)
    (row : WebAuthnCredential) : M (option Z) :=
  try_ (let! n := verify_assertion (dumps_default (JObj credential)) challenge row in ret (Some n))
    (fun x => match x with InvalidAuthenticationResponse => Some (ret None) | _ => None end).

(** An assertion by a credential of this user. *)
Definition user_assertion (credential : list (string * json)) (challenge : string) (uid : Z)
  : M (option (Z * WebAuthnCredential * Z)) :=
  let! found := credential_row credential in
  match found with
  | None => ret None
  | Some (cid, row) =>
      if negb (bool_decide (wc_user_id row = uid)) then ret None
      else
        let! count := assertion_count credential challenge row in
        ret (option_map (pair (cid, row)) count)
  end.

(** [JSONResponse({"redirect": ...})] with the session cookie. *)
Definition redirect_json (cookie_value : string) (url : option string) : M Response :=
  set_session_cookie cookie_value
    (json_response 200 (JObj [("redirect", JStr (default "/auth/done" url))])).

(** What follows an accepted assertion. *)
Definition assertion_accepted (fid uid : Z) (user : User) (cid : Z) (row : WebAuthnCredential)
    (new_count : Z) (ip : string) (now : Z) : M Response :=
  set_credential cid (fun r => set_wc_last_used_at (Some now) (set_wc_sign_count new_count r));;
  reset_account (u_email user);;
  emit LOGIN_WEBAUTHN_SUCCESS ip true (Some uid) None None [("friendly_name", JStr (wc_friendly_name row))];;
  when (wc_break_glass row)
    (emit LOGIN_BREAK_GLASS_USED ip true (Some uid) None None
       [("friendly_name", JStr (wc_friendly_name row))]);;
  let! '(cookie_value, url) := finalize_login fid uid user ["pwd"; "webauthn"] ip in
  redirect_json cookie_value url.

(** The challenge of the flow is spent, and the assertion checked against it. *)
Definition assertion_verify (fid uid : Z) (user : User) (challenge : option string)
    (credential : list (string * json)) (ip : string) (now : Z) : M Response :=
  set_challenge fid None;;
  match challenge with
  | None => ret (json_error "no assertion in progress" 400)
  | Some challenge =>
      let! accepted := user_assertion credential challenge uid in
      match accepted with
      | None =>
          register_failure ip (Some (u_email user)) now;;
          emit LOGIN_WEBAUTHN_FAILURE ip false (Some uid) None None [];;
          ret (json_error "verification failed" 401)
      | Some ((cid, row), new_count) => assertion_accepted fid uid user cid row new_count ip now
      end
  end.

Definition webauthn_verify (request : Request) (flow csrf_token : string)
    (credential : list (string * json)) : M Response :=
  let! now := utcnow in
  let! ip := client_ip request in
  let! guarded := guarded_flow request flow csrf_token in
  match guarded with
  | None => ret bad_flow
  | Some (fid, (uid, user)) =>
      let! row := flow_row fid in
      if bool_decide (lf_completed_session_id row <> None) then
        let! resumed := resume_completed_login row request in
        match resumed with
        | None => ret (json_error "sign-in expired, start over" 400)
        | Some (cookie_value, url) => redirect_json cookie_value url
        end
      else
        let! throttled := second_factor_throttle request uid user in
        match throttled with
        | Some _ => ret (json_error "too many attempts" 429)
        | None => assertion_verify fid uid user (lf_webauthn_challenge row) credential ip now
        end
  end.

Definition done_page (request : Request) : M Response :=
  let! now := utcnow in
  let! ip := client_ip request in
  let! session := get_session_from_cookie (cookie request SESSION_COOKIE) ip now in
  match session with
  | None => ret (redirect 303 "/auth/login")
  | Some sid =>
      let! row := session_row sid in
      let! user := get_user (s_user_id row) in
      ret (template 200 "signedin.html" [("user", match user with Some u => CUser u | None => CNone end)])
  end.

(** ** Bootstrap enrollment *)

Definition enroll_webauthn_page (request : Request) (flow : option string) : M Response :=
  let! found := get_stage_flow request flow "webauthn" in
  match found with
  | None => ret expired_page
  | Some fid =>
      let! row := flow_row fid in
      let! user := flow_user row in
      match user with
      | None => ret expired_page
      | Some (uid, _) =>
          let! creds := user_credentials uid in
          if negb (bootstrap_enroll_allowed creds row)
          then ret (error_page "Passkeys are already enrolled. Sign in with your passkey." 403)
          else
            let! csrf_token := rotate_csrf fid in
            ret (template 200 "enroll_webauthn.html"
                   [("flow_id", CStr (uuid_str fid)); ("csrf_token", CStr csrf_token);
                    ("enrolled", CInt (Z.of_nat (List.length creds)))])
      end
  end.

Definition enroll_webauthn_options (request : Request) (flow csrf_token : string) : M Response :=
  let! guarded := guarded_flow request flow csrf_token in
  match guarded with
  | None => ret bad_flow
  | Some (fid, (uid, user)) =>
      let! row := flow_row fid in
      let! creds := user_credentials uid in
      if negb (bootstrap_enroll_allowed creds row) then ret (json_error "enrollment not allowed" 403)
      else
        let! '(options_json, challenge) := registration_options_json user creds in
        set_challenge fid (Some challenge);;
        options_response options_json
  end.

(** The library's verdict on a registration; [None] when it refuses it. *)
Definition registration_result (credential : list (string * json)) (challenge : string)
  : M (option RegistrationResult) :=
  try_ (let! r := verify_registration (dumps_default (JObj credential)) challenge in ret (Some r))
    (fun x => match x with InvalidRegistrationResponse => Some (ret None) | _ => None end).

Definition new_credential (uid : Z) (r : RegistrationResult) (friendly_name : string)
    (break_glass : bool) (now : Z) : WebAuthnCredential :=
  mkWebAuthnCredential uid (rr_credential_id r) (rr_public_key r) (rr_sign_count r) None
    (rr_aaguid r) friendly_name break_glass now None.

Definition same_credential (r : RegistrationResult) (row : WebAuthnCredential) : bool :=
  bool_decide (wc_credential_id row = rr_credential_id r).

Definition enroll_credential (uid : Z) (r : RegistrationResult) (friendly_name : string)
    (break_glass : bool) (enrolled : nat) (ip : string) (now : Z) : M Response :=
  let! cid := uuid4 in
  db_add "webauthn_credentials" webauthn_credentials upd_webauthn_credentials (same_credential r) cid
    (new_credential uid r friendly_name break_glass now);;
  emit ENROLL_WEBAUTHN ip true (Some uid) None None [("friendly_name", JStr friendly_name)];;
  ret (json_response 200 (JObj [("enrolled", JInt (Z.of_nat enrolled + 1))])).

Definition enroll_webauthn_verify (request : Request) (flow csrf_token : string)
    (credential : list (string * json)) (friendly_name : string) (break_glass : bool) : M Response :=
  let! now := utcnow in
  let! ip := client_ip request in
  let! guarded := guarded_flow request flow csrf_token in
  match guarded with
  | None => ret bad_flow
  | Some (fid, (uid, user)) =>
      let! row := flow_row fid in
      let! creds := user_credentials uid in
      if negb (bootstrap_enroll_allowed creds row) then ret (json_error "enrollment not allowed" 403)
      else
        set_challenge fid None;;
        match lf_webauthn_challenge row with
        | None => ret (json_error "no enrollment in progress" 400)
        | Some challenge =>
            let! result := registration_result credential challenge in
            match result with
            | None =>
                emit ENROLL_WEBAUTHN ip false (Some uid) None None [];;
                ret (json_error "registration failed" 400)
            | Some r => enroll_credential uid r friendly_name break_glass (List.length creds) ip now
            end
        end
  end.

(** ** Step-up *)

(** The live session of the cookie and its user, when an administrator. *)
Definition stepup_session (request : Request) (ip : string) (now : Z) : M (option (Z * option (Z * User))) :=
  let! found := get_session_from_cookie (cookie request SESSION_COOKIE) ip now in
  match found with
  | None => ret None
  | Some sid =>
      let! row := session_row sid in
      let! user := get_user (s_user_id row) in
      ret (Some (sid, match user with
                      | Some u => if bool_decide (u_auth_tier u = "admin")
                                  then Some (s_user_id row, u) else None
                      | None => None
                      end))
  end.

Definition stepup_page (request : Request) (return_to : string) : M Response :=
  let! valid := valid_stepup_return return_to in
  if negb valid then ret (error_page "Invalid step-up request." 400)
  else
    let! now := utcnow in
    let! ip := client_ip request in
    let! found := stepup_session request ip now in
    match found with
    | None => ret (error_page "Your session expired. Please sign in again." 401)
    | Some (_, None) => ret (error_page "Step-up requires an admin passkey." 403)
    | Some (_, Some _) => ret (template 200 "stepup.html" [("return_to", CStr return_to)])
    end.

Definition stepup_options (request : Request) : M Response :=
  let! now := utcnow in
  let! ip := client_ip request in
  let! found := stepup_session request ip now in
  match found with
  | None => ret (json_error "not signed in" 401)
  | Some (_, None) => ret (json_error "step-up requires an admin passkey" 403)
  | Some (sid, Some (uid, _)) =>
      let! t := gets webauthn_credentials in
      let creds := map snd (select (of_user uid) t) in
      if bool_decide (List.length creds = 0%nat) then ret (json_error "no credentials enrolled" 400)
      else
        let! '(options_json, challenge) := authentication_options_json creds in
        set_session sid (set_s_stepup_challenge (Some challenge));;
        options_response options_json
  end.

(** The challenge of the session is spent, and the assertion checked against it. *)
Definition stepup_check (sid uid : Z) (challenge : option string) (credential : list (string * json))
    (ip : string) (now : Z) : M Response :=
  set_session sid (set_s_stepup_challenge None);;
  match challenge with
  | None => ret (json_error "no step-up in progress" 400)
  | Some challenge =>
      let! accepted := user_assertion credential challenge uid in
      match accepted with
      | None =>
          emit STEPUP_FAILURE ip false (Some uid) None None [];;
          ret (json_error "verification failed" 401)
      | Some ((cid, _), new_count) =>
          set_credential cid (fun r => set_wc_last_used_at (Some now) (set_wc_sign_count new_count r));;
          set_session sid (set_s_step_up_verified_at (Some now));;
          emit STEPUP_SUCCESS ip true (Some uid) (Some sid) None [];;
          ret (json_response 200 (JObj [("ok", JBool true)]))
      end
  end.

Definition stepup_verify (request : Request) (credential : list (string * json)) : M Response :=
  let! now := utcnow in
  let! ip := client_ip request in
  let! found := stepup_session request ip now in
  match found with
  | None => ret (json_error "not signed in" 401)
  | Some (_, None) => ret (json_error "step-up requires an admin passkey" 403)
  | Some (sid, Some (uid, _)) =>
      let! session := session_row sid in
      stepup_check sid uid (s_stepup_challenge session) credential ip now
  end.
End WebAuthnLogin.
