(* ===== verification/WebAuthnSafety.v ===== *)
(** * WebAuthnSafety: what the passkey pages guarantee

    A session, a step-up and a bootstrap enrollment each need an answer of an
    authenticator to a challenge that was stored by an earlier request and is spent by
    the attempt. *)

From S2P Require Import Prelude PyStr Encoding Digest Json JsonText PyTime Url Config Db Effects.
From S2P Require Import Crypto Web Events Passwords Sessions RateLimit TokenEndpoint.
From S2P Require Import Flows Pages Authorize Login LoginSafety WebAuthn WebAuthnLogin.
Local Open Scope Z_scope.

Section Safety.
Context {wa : WebAuthnLib}.

(** The credential row [c] of the user answered the challenge, for the issuer's host and
    origin, with the new sign count [n]. *)
Definition asserted (e : Env) (d : Db) (credential : list (string * json)) (challenge : string)
    (uid cid : Z) (c : WebAuthnCredential) (n : Z) : Prop :=
  webauthn_credentials d !! cid = Some c /\ wc_user_id c = uid
  /\ credential_id_from_response credential = Some (wc_credential_id c)
  /\ exists rp origin, site (settings e) rp origin
     /\ wa_verify_authentication (dumps_default (JObj credential)) challenge rp origin
          (wc_public_key c) (wc_sign_count c) false = Ok n.

Lemma steps_user_credentials R `{!PreOrder R} uid : steps R (user_credentials uid).
Proof. unfold user_credentials. steps_auto. Qed.
Lemma steps_credential_row R `{!PreOrder R} c : steps R (credential_row c).
Proof. unfold credential_row. steps_auto. Qed.
Lemma steps_guarded_flow R `{!PreOrder R} rq flow csrf : steps R (guarded_flow rq flow csrf).
Proof.
  pose proof (steps_get_stage_flow R) as H1. pose proof (steps_flow_user R) as H2.
  unfold guarded_flow. steps_auto; auto.
Qed.
Lemma steps_assertion_count R `{!PreOrder R} c ch row : steps R (assertion_count c ch row).
Proof.
  unfold assertion_count. apply steps_try; [apply _|steps_auto|]. intros [] k; try done; intros [= <-]; steps_auto.
Qed.
Lemma steps_registration_result R `{!PreOrder R} c ch : steps R (registration_result c ch).
Proof.
  unfold registration_result. apply steps_try; [apply _|steps_auto|]. intros [] k; try done; intros [= <-]; steps_auto.
Qed.
#[local] Hint Resolve steps_credential_row steps_assertion_count : hyproxy.
Lemma steps_user_assertion R `{!PreOrder R} c ch uid : steps R (user_assertion c ch uid).
Proof. unfold user_assertion. steps_auto. Qed.
Lemma steps_options_response R `{!PreOrder R} t : steps R (options_response t).
Proof. unfold options_response. steps_auto. Qed.

Lemma guarded_flow_Some rq flow csrf e s fid uid u s' :
  guarded_flow rq flow csrf e s = (Ok (Some (fid, (uid, u))), s') ->
  db s' = db s /\ tick s' = S (tick s) /\ uuid_parse flow = Some fid
  /\ exists row, stage_flow e (db s) rq fid row "webauthn" (clock e (tick s))
    /\ lf_csrf_token_hash row = sha256_hex csrf /\ lf_user_id row = Some uid
    /\ users (db s) !! uid = Some u /\ u_status u = "active".
Proof.
  unfold guarded_flow. intros Hr. mstep Hr found s1 H1. destruct found as [f|]; [|done].
  apply get_stage_flow_Some in H1 as (Hdb & Htk & Hparse & row & Hsf). pose proof Hsf as [Hrow _ _ _ _].
  rewrite <- Hdb in Hrow. rewrite (bind_flow_row _ _ _ _ _ Hrow) in Hr.
  destruct (verify_flow_csrf row csrf) eqn:E; cbn [negb] in Hr; [|done]. mstep Hr ou s2 H2.
  unfold ret in Hr. destruct ou as [[i v]|]; [|done]. injection Hr as <- <- <- <-.
  apply flow_user_Some in H2 as (-> & Hu & Hus & Ha). rewrite Hdb in Hus. split_and!; [done..|].
  unfold verify_flow_csrf, constant_time_equals in E. bool_simpl. exists row. split_and!; done.
Qed.

Lemma assertion_count_Some c ch row e s n s' : assertion_count c ch row e s = (Ok (Some n), s') ->
  s' = s /\ verify_assertion (dumps_default (JObj c)) ch row e s = (Ok n, s).
Proof.
  unfold assertion_count, try_, bind. intros Hr.
  destruct (verify_assertion _ _ _ e s) as [[m|x] s1] eqn:E.
  - unfold ret in Hr. injection Hr as <- <-. apply verify_assertion_Ok in E as E'. by destruct E' as [-> _].
  - destruct x; done.
Qed.

Lemma registration_result_Some c ch e s r s' : registration_result c ch e s = (Ok (Some r), s') ->
  s' = s /\ verify_registration (dumps_default (JObj c)) ch e s = (Ok r, s).
Proof.
  unfold registration_result, try_, bind. intros Hr.
  destruct (verify_registration _ _ e s) as [[m|x] s1] eqn:E.
  - unfold ret in Hr. injection Hr as <- <-. apply verify_registration_Ok in E as E'. by destruct E' as [-> _].
  - destruct x; done.
Qed.

Lemma user_assertion_Some credential ch uid e s cid c n s' :
  user_assertion credential ch uid e s = (Ok (Some ((cid, c), n)), s') ->
  s' = s /\ asserted e (db s) credential ch uid cid c n.
Proof.
  unfold user_assertion, credential_row. intros Hr. mstep Hr found s1 H1.
  destruct (credential_id_from_response credential) as [i|] eqn:Ei; [|by injection H1 as <- <-].
  unfold nonempty in H1. case_bool_decide; [by injection H1 as <- <-|]. mread H1. unfold ret in H1.
  injection H1 as Hf <-. destruct found as [[k row]|]; [|done].
  apply scalar_select in Hf as [Hrow Hp]. bool_simpl.
  case_bool_decide as Hu; cbn [negb] in Hr; [|done]. mstep Hr count s2 H2. unfold ret in Hr.
  destruct count as [m|]; [|done]. injection Hr as <- <- <- <-.
  apply assertion_count_Some in H2 as [-> H2].
  apply verify_assertion_Ok in H2 as (_ & rp & origin & Hs & Hv). split; [done|].
  split_and!; [done|done|congruence|by exists rp, origin].
Qed.

Lemma redirect_json_Ok c url e s resp s' : redirect_json c url e s = (Ok resp, s') ->
  s' = s /\ rs_cookies resp =
    [SetCookie SESSION_COOKIE c true true "lax" "/" None (Some (refresh_abs_ttl (settings e)))].
Proof.
  unfold redirect_json, set_session_cookie. intros Hr. mread Hr. unfold ret in Hr.
  by injection Hr as <- <-.
Qed.

(** The flow is completed by a session and its challenge gone. *)
Definition spent (d : Db) (fid : Z) : Prop := exists f,
  login_flows d !! fid = Some f /\ lf_webauthn_challenge f = None
  /\ lf_completed_session_id f <> None.

Lemma assertion_accepted_Ok fid uid u cid row n ip now e s resp s' v f :
  assertion_accepted fid uid u cid row n ip now e s = (Ok resp, s') -> sets_session resp v ->
  login_flows (db s) !! fid = Some f -> lf_webauthn_challenge f = None ->
  created e (db s) (db s') uid u ["pwd"; "webauthn"] v /\ spent (db s') fid
  /\ webauthn_credentials (db s')
     = alter (fun r => set_wc_last_used_at (Some now) (set_wc_sign_count n r)) cid
         (webauthn_credentials (db s)).
Proof.
  unfold assertion_accepted, set_credential, reset_account. intros Hr Hv Hf Hc.
  rewrite !bind_moddb in Hr. mstep Hr u1 s1 H1. apply emit_Ok in H1 as (_ & Hd1 & _).
  mstep Hr u2 s2 H2. assert (sessions (db s2) = sessions (db s1) /\ login_flows (db s2) = login_flows (db s1)
    /\ webauthn_credentials (db s2) = webauthn_credentials (db s1)) as (E1 & E2 & E3).
  { destruct (wc_break_glass row); simpl in H2; [|by injection H2 as _ <-].
    by apply emit_Ok in H2 as (_ & -> & _). }
  mstep Hr p s3 H3. destruct p as [c url]. cbn beta iota in Hr.
  apply finalize_login_Ok in H3 as (Hcr & (sid & Hfl) & Hw). apply redirect_json_Ok in Hr as [-> Hck].
  rewrite (only_session_cookie _ _ _ _ Hck Hv). split_and!.
  - unfold created in *. by rewrite E1, Hd1 in Hcr.
  - rewrite E2, Hd1 in Hfl. simpl in Hfl. exists (set_lf_completed_session_id (Some sid) f).
    rewrite Hfl, lookup_alter_eq, Hf. done.
  - rewrite Hw, E3, Hd1. done.
Qed.

Lemma json_no_session r v : rs_cookies r = [] -> sets_session r v -> False.
Proof. intros H. by apply sets_no_session, no_cookies_none. Qed.

Lemma assertion_verify_Ok fid uid u challenge credential ip now e s resp s' v f :
  assertion_verify fid uid u challenge credential ip now e s = (Ok resp, s') -> sets_session resp v ->
  login_flows (db s) !! fid = Some f ->
  exists ch cid c n, challenge = Some ch /\ asserted e (db s) credential ch uid cid c n
    /\ created e (db s) (db s') uid u ["pwd"; "webauthn"] v /\ spent (db s') fid
    /\ webauthn_credentials (db s') !! cid
       = Some (set_wc_last_used_at (Some now) (set_wc_sign_count n c)).
Proof.
  unfold assertion_verify, set_challenge, set_flow. intros Hr Hv Hf. rewrite bind_moddb in Hr.
  destruct challenge as [ch|].
  2: { unfold ret in Hr. injection Hr as <- _. exfalso. by eapply json_no_session, Hv. }
  mstep Hr acc s1 H1. destruct acc as [[[cid c] n]|].
  - apply user_assertion_Some in H1 as [-> Ha].
    eapply assertion_accepted_Ok in Hr as (Hcr & Hsp & Hw);
      [|exact Hv|simpl; by rewrite lookup_alter_eq, Hf|done].
    exists ch, cid, c, n. split_and!; try done. rewrite Hw. simpl.
    destruct Ha as (Hrow & _). simpl in Hrow. by rewrite lookup_alter_eq, Hrow.
  - exfalso. erewrite bind_run in Hr; [|apply register_failure_run]. mstep Hr u1 s2 H2. unfold ret in Hr.
    injection Hr as <- _. by eapply json_no_session, Hv.
Qed.

(** C15: The passkey endpoint hands out a session cookie only for a live flow past the password
    step at the webauthn stage, with the browser's flow cookie and the right CSRF token,
    whose user is active: either a credential of that user answered the challenge the flow
    held, for the issuer's own host and origin, and a new session of that user is created,
    the challenge is spent, the flow completed and the credential's sign count advanced;
    or the flow was completed before and the cookie is for that same live session. *)
Theorem webauthn_verify_sound rq flow csrf credential e s resp s' v
    (Hrun : webauthn_verify rq flow csrf credential e s = (Ok resp, s')) (Hv : sets_session resp v) :
  exists fid row uid u, stage_flow e (db s) rq fid row "webauthn" (clock e (1 + tick s))
    /\ lf_csrf_token_hash row = sha256_hex csrf
    /\ lf_user_id row = Some uid /\ users (db s) !! uid = Some u /\ u_status u = "active"
    /\ ((lf_completed_session_id row = None
         /\ exists challenge cid c n, lf_webauthn_challenge row = Some challenge
            /\ asserted e (db s) credential challenge uid cid c n
            /\ created e (db s) (db s') uid u ["pwd"; "webauthn"] v /\ spent (db s') fid
            /\ webauthn_credentials (db s') !! cid
               = Some (set_wc_last_used_at (Some (clock e (tick s))) (set_wc_sign_count n c)))
        \/ exists sid, lf_completed_session_id row = Some sid
             /\ replayed e (db s) (db s') sid rq v (clock e (2 + tick s))).
Proof.
  unfold webauthn_verify in Hrun. mread Hrun. mstep Hrun ip s1 H1. apply client_ip_Ok in H1 as [-> Hip].
  mstep Hrun g s2 H2. destruct g as [[fid [uid u]]|].
  2: { unfold ret in Hrun. injection Hrun as <- _. exfalso. by eapply json_no_session, Hv. }
  apply guarded_flow_Some in H2 as (Hd2 & Ht2 & _ & row & Hsf & Hcsrf & Hu & Hus & Ha). simpl in Hd2, Ht2, Hsf, Hus.
  pose proof Hsf as [Hrow _ _ _ _]. pose proof Hrow as Hrow2. rewrite <- Hd2 in Hrow2.
  rewrite (bind_flow_row _ _ _ _ _ Hrow2) in Hrun.
  exists fid, row, uid, u. split_and!; [done..|]. case_bool_decide as Ec.
  - right. mstep Hrun res s3 H3. destruct res as [[c url]|].
    2: { unfold ret in Hrun. injection Hrun as <- _. exfalso. by eapply json_no_session, Hv. }
    apply resume_Ok in H3 as (sid & Hsid & Hrep). apply redirect_json_Ok in Hrun as [-> Hck].
    exists sid. rewrite (only_session_cookie _ _ _ _ Hck Hv). by rewrite Hd2, Ht2 in Hrep.
  - left. mstep Hrun th s3 H3. destruct th as [r|].
    { unfold ret in Hrun. injection Hrun as <- _. exfalso. by eapply json_no_session, Hv. }
    apply second_factor_throttle_None in H3 as (Hd3 & _).
    eapply assertion_verify_Ok in Hrun as (ch & cid & c & n & Hch & Has & Hcr & Hsp & Hw);
      [|exact Hv|by rewrite Hd3].
    rewrite Hd3, Hd2 in Has, Hcr. split; [destruct (lf_completed_session_id row); [by destruct Ec|done]|].
    exists ch, cid, c, n. split_and!; done.
Qed.
(** ** Bootstrap enrollment *)

Lemma user_credentials_Ok uid e s creds s' : user_credentials uid e s = (Ok creds, s') ->
  s' = s /\ forall k c, webauthn_credentials (db s) !! k = Some c -> wc_user_id c = uid -> c ∈ creds.
Proof.
  unfold user_credentials. intros Hr. mread Hr. unfold ret in Hr. injection Hr as <- <-.
  split; [done|]. intros k c Hk Hu. apply order_by_In, list_elem_of_In, in_map_iff.
  exists (k, c). split; [done|]. apply list_elem_of_In, select_In. split; [done|].
  by apply bool_decide_eq_true.
Qed.

(** The registration the library accepted, as the new row keeps it. *)
Definition registered (e : Env) (credential : list (string * json)) (ch : string)
    (r : RegistrationResult) : Prop :=
  exists rp origin v, site (settings e) rp origin
    /\ wa_verify_registration (dumps_default (JObj credential)) ch rp origin false = Ok v
    /\ rr_credential_id r = vr_credential_id v /\ rr_public_key r = vr_credential_public_key v
    /\ rr_sign_count r = vr_sign_count v.

Lemma enroll_credential_Ok uid r name bg k ip now e s resp s' :
  enroll_credential uid r name bg k ip now e s = (Ok resp, s') ->
  exists cid, webauthn_credentials (db s) !! cid = None
    /\ (forall i c, webauthn_credentials (db s) !! i = Some c -> wc_credential_id c <> rr_credential_id r)
    /\ webauthn_credentials (db s') = <[cid := new_credential uid r name bg now]> (webauthn_credentials (db s))
    /\ sessions (db s') = sessions (db s) /\ login_flows (db s') = login_flows (db s).
Proof.
  unfold enroll_credential, uuid4. intros Hr. mstep Hr cid s0 H0. minv H0.
  mstep Hr u1 s1 H1. apply db_add_Ok in H1 as (Hn & Hc & Hd & _).
  mstep Hr u2 s2 H2. apply emit_Ok in H2 as (_ & Hd2 & _). unfold ret in Hr. injection Hr as _ <-.
  eexists. split_and!; [exact Hn| |rewrite Hd2; simpl; by rewrite Hd..].
  intros i c Hi. specialize (Hc _ _ Hi). unfold same_credential in Hc. by bool_simpl.
Qed.

(** A passkey is enrolled during a login only for a live flow past the password step, of
    this browser and with the right CSRF token, whose active user had no passkey when the
    flow began: every passkey the user has was created during it.  The library accepted
    the registration against the challenge the flow held, which is spent; the new row is
    the user's, with an identifier no other row has; no session is touched. *)
Theorem bootstrap_enrollment_sound rq flow csrf credential name bg e s resp s'
    (Hrun : enroll_webauthn_verify rq flow csrf credential name bg e s = (Ok resp, s')) :
  sessions (db s') = sessions (db s)
  /\ (webauthn_credentials (db s') = webauthn_credentials (db s)
      \/ exists fid row uid u ch r cid, stage_flow e (db s) rq fid row "webauthn" (clock e (1 + tick s))
         /\ lf_csrf_token_hash row = sha256_hex csrf /\ lf_user_id row = Some uid
         /\ users (db s) !! uid = Some u /\ u_status u = "active"
         /\ (forall k c, webauthn_credentials (db s) !! k = Some c -> wc_user_id c = uid ->
               lf_created_at row <= wc_created_at c /\ wc_credential_id c <> rr_credential_id r)
         /\ lf_webauthn_challenge row = Some ch /\ registered e credential ch r
         /\ webauthn_credentials (db s) !! cid = None
         /\ webauthn_credentials (db s')
            = <[cid := new_credential uid r name bg (clock e (tick s))]> (webauthn_credentials (db s))
         /\ login_flows (db s') = alter (set_lf_webauthn_challenge None) fid (login_flows (db s))).
Proof.
  unfold enroll_webauthn_verify in Hrun. mread Hrun. mstep Hrun ip s1 H1. apply client_ip_Ok in H1 as [-> Hip].
  mstep Hrun g s2 H2. destruct g as [[fid [uid u]]|].
  2: { apply (readonly _ _ _ _ _ (steps_guarded_flow _ _ _ _)) in H2. unfold ret in Hrun.
       injection Hrun as _ <-. rewrite H2. by auto. }
  apply guarded_flow_Some in H2 as (Hd2 & Ht2 & _ & row & Hsf & Hcsrf & Hu & Hus & Ha). simpl in Hd2, Ht2, Hsf, Hus.
  pose proof Hsf as [Hrow _ _ _ _]. pose proof Hrow as Hrow2. rewrite <- Hd2 in Hrow2.
  rewrite (bind_flow_row _ _ _ _ _ Hrow2) in Hrun. mstep Hrun creds s3 H3.
  apply user_credentials_Ok in H3 as [-> Hcr]. rewrite Hd2 in Hcr.
  destruct (bootstrap_enroll_allowed creds row) eqn:Eb; cbn [negb] in Hrun.
  2: { unfold ret in Hrun. injection Hrun as _ <-. rewrite Hd2. by auto. }
  unfold set_challenge, set_flow in Hrun. rewrite bind_moddb in Hrun.
  destruct (lf_webauthn_challenge row) as [ch|] eqn:Ech.
  2: { unfold ret in Hrun. injection Hrun as _ <-. simpl. rewrite Hd2. by auto. }
  mstep Hrun res s3 H3. destruct res as [r|].
  2: { apply (readonly _ _ _ _ _ (steps_registration_result _ _ _)) in H3. mstep Hrun u1 s4 H4.
       apply emit_Ok in H4 as (_ & Hd4 & _). unfold ret in Hrun. injection Hrun as _ <-.
       rewrite Hd4. simpl. rewrite H3. simpl. rewrite Hd2. by auto. }
  apply registration_result_Some in H3 as [-> H3].
  apply verify_registration_Ok in H3 as (_ & rp & o & v & Hs & Hv & E1 & E2 & E3 & _).
  apply enroll_credential_Ok in Hrun as (cid & Hn & Hdis & Hd & Hse & Hfl). simpl in *. rewrite Hd2 in *.
  split; [done|]. right. exists fid, row, uid, u, ch, r, cid.
  split_and!; try done.
  - intros k c Hk Hc. split; [|by eapply Hdis]. pose proof (Hcr _ _ Hk Hc) as Hin.
    unfold bootstrap_enroll_allowed in Eb. rewrite forallb_forall in Eb.
    apply list_elem_of_In, Eb in Hin. by apply Z.leb_le.
  - by exists rp, o, v.
Qed.

(** ** Step-up *)

(** When each session last passed a step-up. *)
Definition stepups (d : Db) : gmap Z (option Z) := s_step_up_verified_at <$> sessions d.

Lemma stepups_set_session sid f : (forall x, s_step_up_verified_at (f x) = s_step_up_verified_at x) ->
  steps (same stepups) (set_session sid f).
Proof.
  intros Hf e s. unfold same, stepups. simpl. apply map_eq. intros i. rewrite !lookup_fmap.
  destruct (decide (i = sid)) as [->|Hne]; [|by rewrite lookup_alter_ne].
  rewrite lookup_alter_eq. destruct (sessions (db s) !! sid); simpl; [by rewrite Hf|done].
Qed.
#[local] Hint Extern 1 (steps (same stepups) (set_session _ _)) =>
  apply stepups_set_session; reflexivity : hyproxy.

Lemma stepups_liveness sid ip now enf : steps (same stepups) (check_liveness sid ip now enf).
Proof. unfold check_liveness, revoke, touch. steps_auto. Qed.
#[local] Hint Resolve stepups_liveness : hyproxy.
Lemma stepups_session rq ip now : steps (same stepups) (stepup_session rq ip now).
Proof. unfold stepup_session, get_user, get_session_from_cookie. steps_auto. Qed.

Record admin_session (e : Env) (d : Db) (rq : Request) (sid : Z) (se : Session) (u : User)
    (now : Z) : Prop := {
  as_cookie : exists secret, split_cookie (cookie rq SESSION_COOKIE) = Some (sid, secret)
    /\ s_cookie_secret_hash se = sha256_hex secret;
  as_row : sessions d !! sid = Some se;
  as_live : live_at (settings e) se now;
  as_user : users d !! s_user_id se = Some u;
  as_admin : u_auth_tier u = "admin";
}.

Lemma stepup_session_Some rq ip now e s sid uid u s' :
  stepup_session rq ip now e s = (Ok (Some (sid, Some (uid, u))), s') ->
  exists se se', admin_session e (db s) rq sid se u now /\ s_user_id se = uid
    /\ sessions (db s') = <[sid := se']> (sessions (db s))
    /\ s_stepup_challenge se' = s_stepup_challenge se
    /\ webauthn_credentials (db s') = webauthn_credentials (db s).
Proof.
  unfold stepup_session. intros Hr. mstep Hr found s1 H1. destruct found as [i|]; [|done].
  apply get_session_Some in H1 as (secret & se & Hc & Hse & Hh & Hl & Hchk).
  pose proof (same_check_liveness users i ip now false ltac:(by split)) as Hsu.
  apply (same_steps_eq users _ _ _ _ _ Hsu) in Hchk as Hus.
  pose proof (same_check_liveness webauthn_credentials i ip now false ltac:(by split)) as Hsw.
  apply (same_steps_eq webauthn_credentials _ _ _ _ _ Hsw) in Hchk as Hw. clear Hsu Hsw.
  eapply check_liveness_gate in Hchk as [Hs _]; [|exact Hse].
  set (se' := (gate _ se ip now false _).2) in Hs.
  assert (s_user_id se' = s_user_id se /\ s_stepup_challenge se' = s_stepup_challenge se) as [Hu1 Hu2].
  { unfold se', gate. clear. repeat case_match; done. }
  rewrite (bind_session_row _ se') in Hr by (by rewrite Hs, lookup_insert_eq).
  unfold get_user in Hr. mread Hr. unfold ret in Hr.
  destruct (users (db s1) !! s_user_id se') as [u'|] eqn:Eu; [|done].
  case_bool_decide as Ea; [|done]. injection Hr as <- <- <- <-. rewrite Hu1, Hus in Eu.
  exists se, se'. split_and!; [|done..]. constructor; eauto.
Qed.

(** A session passes the step-up only when the request's cookie names that live session,
    its user is an administrator, and a credential of that user answered the challenge the
    session held; the challenge is then spent, and no other session changes. *)
Theorem stepup_verify_sound rq credential e s resp s'
    (Hrun : stepup_verify rq credential e s = (Ok resp, s')) :
  stepups (db s') = stepups (db s)
  \/ exists sid se u ch cid c n se', admin_session e (db s) rq sid se u (clock e (tick s))
     /\ s_stepup_challenge se = Some ch /\ asserted e (db s) credential ch (s_user_id se) cid c n
     /\ sessions (db s') = <[sid := se']> (sessions (db s))
     /\ s_step_up_verified_at se' = Some (clock e (tick s)) /\ s_stepup_challenge se' = None.
Proof.
  unfold stepup_verify in Hrun. mread Hrun. mstep Hrun ip s1 H1. apply client_ip_Ok in H1 as [-> Hip].
  mstep Hrun found s2 H2. pose proof (same_steps_eq _ _ _ _ _ _ (stepups_session _ _ _) H2) as Hk.
  simpl in Hk. destruct found as [[sid [[uid u]|]]|];
    [|unfold ret in Hrun; injection Hrun as _ <-; by left..].
  apply stepup_session_Some in H2 as (se & se' & Has & <- & Hs & Hch & Hw). simpl in Has, Hs, Hw.
  rewrite (bind_session_row _ se') in Hrun by (by rewrite Hs, lookup_insert_eq). rewrite Hch in Hrun.
  unfold stepup_check in Hrun. mstep Hrun u0 s3 H3.
  pose proof (stepups_set_session sid (set_s_stepup_challenge None) ltac:(done) e s2) as Hk3.
  rewrite H3 in Hk3. unfold same in Hk3. simpl in Hk3. rewrite Hk in Hk3.
  destruct (s_stepup_challenge se) as [ch|] eqn:Ech; [|unfold ret in Hrun; injection Hrun as _ <-; by left].
  mstep Hrun acc s4 H4. destruct acc as [[[cid c] n]|].
  2: { apply (readonly _ _ _ _ _ (steps_user_assertion _ _ _ _)) in H4. mstep Hrun u1 s5 H5.
       apply emit_Ok in H5 as (_ & Hd5 & _). unfold ret in Hrun. injection Hrun as _ <-. left.
       rewrite Hd5. unfold stepups in *. simpl. by rewrite H4. }
  apply user_assertion_Some in H4 as [-> Ha]. unfold set_session, set_credential in Hrun, H3.
  minv H3. rewrite !bind_moddb in Hrun. mstep Hrun u1 s5 H5. apply emit_Ok in H5 as (_ & Hd5 & _).
  unfold ret in Hrun. injection Hrun as _ <-. right.
  exists sid, se, u, ch, cid, c, n,
    (set_s_step_up_verified_at (Some (clock e (tick s))) (set_s_stepup_challenge None se')).
  split_and!; try done.
  - unfold asserted in *. simpl in Ha. by rewrite Hw in Ha.
  - rewrite Hd5. simpl. rewrite Hs. rewrite <- !alter_insert_row with (row := se') at 1 || idtac.
    apply map_eq. intros i. destruct (decide (i = sid)) as [->|Hne].
    + by rewrite !lookup_alter_eq, !lookup_insert_eq.
    + by rewrite !lookup_alter_ne, !lookup_insert_ne.
Qed.

(** The page a step-up returns to has the origin of a configured user interface: the
    scheme is http or https, there is no user name, and scheme and network location
    together are one of the two configured origins. *)
Theorem valid_stepup_return_sound rt e s s'
    (Hrun : valid_stepup_return rt e s = (Ok true, s')) :
  s' = s /\ exists o parts, o ∈ [admin_ui_origin (settings e); portal_origin (settings e)] /\ o <> ""
    /\ urlsplit rt = Some parts /\ url_scheme parts ∈ ["https"; "http"] /\ hostname parts <> None
    /\ nonempty (username parts) = None /\ o = url_scheme parts +:+ "://" +:+ url_netloc parts.
Proof.
  unfold valid_stepup_return in Hrun. mread Hrun.
  destruct (bool_decide (_ = []) || _); [done|]. mlift Hrun parts Hp. unfold split_url in Hp.
  destruct (urlsplit rt) as [p|]; [|done]. injection Hp as ->.
  destruct (_ || _) eqn:E; [done|]. unfold ret in Hrun. injection Hrun as Hin <-. split; [done|].
  bool_simpl.
  change (url_scheme parts +:+ "://" +:+ url_netloc parts ∈
    List.filter (fun o => negb (bool_decide (o = ""))) [admin_ui_origin (settings e); portal_origin (settings e)])
    in Hin.
  apply list_elem_of_In, filter_In in Hin as [Hin Hne].
  exists (url_scheme parts +:+ "://" +:+ url_netloc parts), parts.
  apply list_elem_of_In in Hin. bool_simpl. split_and!; try done.
  destruct (nonempty (username parts)); [|done]. exfalso. eauto.
Qed.
End Safety.

(** ** Witnesses *)

Definition demo_wa : WebAuthnLib := {|
  wa_challenge _ := "challenge";
  wa_registration_options _ _ _ _ _ _ challenge := "{}";
  wa_authentication_options _ _ challenge := "{}";
  wa_verify_registration _ challenge rp _ _ :=
    if bool_decide (challenge = "challenge") then Ok (mkVerifiedRegistration "new-cred" "new-key" 0 "")
    else Raise InvalidRegistrationResponse;
  wa_verify_authentication _ challenge rp _ key count _ :=
    if bool_decide (challenge = "challenge") && bool_decide (key = "key") then Ok (count + 1)
    else Raise InvalidAuthenticationResponse;
|}.

Definition wa_env : Env := mkEnv example_settings T0 (fun _ => T0) (fun n => Z.of_nat n).
Definition wa_user : User :=
  mkUser "sub-2" "root@example.com" "Root" "active" "admin" "hash" false 0 0.
Definition wa_fid : Z := uuid4_of 3.
Definition wa_flow : LoginFlow :=
  mkLoginFlow (sha256_hex "csrf") "10.0.0.1" "webauthn" (Some 11) (Some "challenge") false [] None
    T0 (T0 + seconds 600).
Definition wa_cred : WebAuthnCredential :=
  mkWebAuthnCredential 11 "cred" "key" 7 None None "yubikey" false 0 None.
Definition wa_sid : Z := uuid4_of 9.
Definition wa_session : Session :=
  mkSession 11 (sha256_hex "secret") "10.0.0.1" "admin" ["pwd"; "webauthn"] true None T0 T0
    (T0 + seconds 3600) None (Some "challenge") false None None.

(** A database with the flow, the session and the given passkeys of the user. *)
Definition wa_db (creds : gmap Z WebAuthnCredential) : Db :=
  upd_users (fun _ => {[ 11 := wa_user ]})
  (upd_login_flows (fun _ => {[ wa_fid := wa_flow ]})
  (upd_sessions (fun _ => {[ wa_sid := wa_session ]})
  (upd_webauthn_credentials (fun _ => creds) empty_db))).

Definition wa_browser : Request :=
  mkRequest [] [(FLOW_COOKIE, uuid_str wa_fid); (SESSION_COOKIE, cookie_of wa_sid "secret")]
    (Some "10.0.0.1").
Definition wa_credential : list (string * json) := [("rawId", JStr "Y3JlZA")].

Lemma wa_verify_runs : exists resp s' v,
  webauthn_verify (wa := demo_wa) wa_browser (uuid_str wa_fid) "csrf" wa_credential wa_env
    (mkSt (wa_db {[ 5 := wa_cred ]}) 0) = (Ok resp, s') /\ sets_session resp v.
Proof.
  destruct (webauthn_verify (wa := demo_wa) wa_browser (uuid_str wa_fid) "csrf" wa_credential wa_env
    (mkSt (wa_db {[ 5 := wa_cred ]}) 0)) as [r s'] eqn:E.
  assert (match r with Ok resp => map (fun op => match op with SetCookie n _ _ _ _ _ _ _ => n | _ => "" end)
            (rs_cookies resp) | Raise _ => [] end = [SESSION_COOKIE]) as Hc.
  { change r with (fst (r, s')). rewrite <- E. vm_compute. reflexivity. }
  destruct r as [resp|x]; [|discriminate Hc]. exists resp, s'.
  destruct (rs_cookies resp) as [|[n v a b c d f g|] l] eqn:Ec; [discriminate Hc| |discriminate Hc].
  injection Hc as -> _. exists v. split; [reflexivity|]. exists a, b, c, d, f, g. rewrite Ec. left.
Qed.

Example webauthn_verify_sound_witness : exists fid row uid,
  stage_flow wa_env (wa_db {[ 5 := wa_cred ]}) wa_browser fid row "webauthn" T0
  /\ lf_user_id row = Some uid.
Proof.
  destruct wa_verify_runs as (resp & s' & v & Hr & Hv).
  destruct (webauthn_verify_sound (wa := demo_wa) _ _ _ _ _ _ _ _ _ Hr Hv)
    as (fid & row & uid & u & Hsf & _ & Hu & _).
  exists fid, row, uid. split; [exact Hsf|exact Hu].
Defined.

Example bootstrap_enrollment_sound_witness : exists resp s',
  enroll_webauthn_verify (wa := demo_wa) wa_browser (uuid_str wa_fid) "csrf" wa_credential "key ring" false
    wa_env (mkSt (wa_db ∅) 0) = (Ok resp, s')
  /\ sessions (db s') = sessions (wa_db ∅) /\ bool_decide (webauthn_credentials (db s') = ∅) = false.
Proof.
  destruct (enroll_webauthn_verify (wa := demo_wa) wa_browser (uuid_str wa_fid) "csrf" wa_credential
    "key ring" false wa_env (mkSt (wa_db ∅) 0)) as [[resp|x] s'] eqn:E.
  - destruct (bootstrap_enrollment_sound (wa := demo_wa) _ _ _ _ _ _ _ _ _ _ E) as [Hs _].
    exists resp, s'. split_and!; [reflexivity|exact Hs|].
    change s' with ((Ok resp, s').2). rewrite <- E. vm_compute. reflexivity.
  - exfalso. revert E. vm_compute. discriminate.
Defined.

Example stepup_verify_sound_witness : exists sid se u ch cid c n s' resp,
  stepup_verify (wa := demo_wa) wa_browser wa_credential wa_env (mkSt (wa_db {[ 5 := wa_cred ]}) 0)
    = (Ok resp, s')
  /\ admin_session wa_env (wa_db {[ 5 := wa_cred ]}) wa_browser sid se u T0
  /\ asserted (wa := demo_wa) wa_env (wa_db {[ 5 := wa_cred ]}) wa_credential ch (s_user_id se) cid c n.
Proof.
  destruct (stepup_verify (wa := demo_wa) wa_browser wa_credential wa_env
    (mkSt (wa_db {[ 5 := wa_cred ]}) 0)) as [[resp|x] s'] eqn:E.
  - destruct (stepup_verify_sound (wa := demo_wa) _ _ _ _ _ _ E)
      as [H|(sid & se & u & ch & cid & c & n & se' & H1 & _ & H2 & _)].
    + exfalso. assert (bool_decide (stepups (db (Ok resp, s').2) = stepups (wa_db {[ 5 := wa_cred ]})) = true)
        as Hb by (apply bool_decide_eq_true; exact H).
      revert Hb. rewrite <- E. vm_compute. discriminate.
    + exists sid, se, u, ch, cid, c, n, s', resp. split_and!; [reflexivity|exact H1|exact H2].
  - exfalso. revert E. vm_compute. discriminate.
Defined.

Example valid_stepup_return_sound_witness : exists s', exists o parts,
  valid_stepup_return "https://admin.example.com/users" wa_env (mkSt empty_db 0) = (Ok true, s')
  /\ urlsplit "https://admin.example.com/users" = Some parts
  /\ o = url_scheme parts +:+ "://" +:+ url_netloc parts.
Proof.
  destruct (valid_stepup_return "https://admin.example.com/users" wa_env (mkSt empty_db 0)) as [r s'] eqn:E.
  assert (r = Ok true) as -> by (change r with ((r, s').1); rewrite <- E; vm_compute; reflexivity).
  destruct (valid_stepup_return_sound _ _ _ _ E) as (_ & o & parts & _ & _ & H1 & _ & _ & _ & H2).
  exists s', o, parts. split_and!; [reflexivity|exact H1|exact H2].
Defined.
