(* ===== verification/LoginHistory.v ===== *)
(** * LoginHistory: the requests behind every session

    An invariant of the states the login pages, the passkey endpoints and the authorize
    endpoint can reach, over the history of the requests that were served: an identified
    flow has a request in the history whose password was verified against the row of its
    user, and a session has such a request and a later one, on the same flow, whose second
    factor was verified.  What was verified is stated over the state and the clock each
    request met, not over what the code recorded of it. *)

From S2P Require Import Prelude PyStr Encoding Digest Json JsonText PyTime Url Config Db Effects.
From S2P Require Import Crypto Web Events Passwords Sessions RateLimit Grants TokenEndpoint.
From S2P Require Import SecondFactor Flows Pages Authorize Login LoginSafety.
From S2P Require Import WebAuthn WebAuthnLogin WebAuthnSafety.
Local Open Scope Z_scope.

(** What the history needs of a flow: who it names, and where it stands. *)
Definition lf_key (f : LoginFlow) := (lf_user_id f, lf_recovery_used f, lf_stage f).

Section Handlers.
Context {aead : Aead} {argon : Argon} {otp : Otp} {wa : WebAuthnLib}.
Context (run : list string -> ProcessResult).

(** What is known to have been proved: the password of a user on a flow, a recovery code of
    a user on a flow, and both factors of a user, of the methods a session claims. *)
Context (pw rc : Z -> Z -> Prop) (fac : Z -> list string -> Prop).

(** A flow that names a user stands on that user's password, and one that says a recovery
    code was used on the code. *)
Definition flow_backed (fid : Z) (f : LoginFlow) : Prop :=
  match lf_user_id f with
  | None => lf_recovery_used f = false
  | Some uid => pw fid uid /\ (lf_recovery_used f = true -> rc fid uid) /\ lf_stage f <> "password"
  end.

Definition flows_backed (d : Db) : Prop := forall fid f, login_flows d !! fid = Some f -> flow_backed fid f.

(** What a step may do: add a session, or change who a flow names, only with what was
    proved. *)
Record justified (d d' : Db) : Prop := {
  ju_sessions : forall sid se', sessions d' !! sid = Some se' ->
    (exists se, sessions d !! sid = Some se /\ s_user_id se' = s_user_id se /\ s_amr se' = s_amr se)
    \/ fac (s_user_id se') (s_amr se');
  ju_flows : forall fid f', login_flows d' !! fid = Some f' ->
    (exists f, login_flows d !! fid = Some f /\ lf_key f' = lf_key f) \/ flow_backed fid f';
}.

Lemma backed_key fid f f' : lf_key f' = lf_key f -> flow_backed fid f -> flow_backed fid f'.
Proof. unfold flow_backed, lf_key. intros [= -> -> ->]. done. Qed.

#[local] Instance justified_preorder : PreOrder justified.
Proof.
  split.
  - intros d. split; eauto.
  - intros a b c [S1 F1] [S2 F2]. split.
    + intros sid se Hs. destruct (S2 _ _ Hs) as [(se1 & H1 & -> & ->)|H]; [|by right]. by apply S1.
    + intros fid f Hf. destruct (F2 _ _ Hf) as [(f1 & H1 & Hk)|H]; [|by right].
      destruct (F1 _ _ H1) as [(f0 & H0 & Hk0)|H]; [left; exists f0; by rewrite Hk|right; by eapply backed_key].
Qed.

Lemma justified_flows d d' : justified d d' -> flows_backed d -> flows_backed d'.
Proof.
  intros [_ F] H fid f Hf. destruct (F _ _ Hf) as [(f0 & H0 & Hk)|Hb]; [|done]. eapply backed_key; [exact Hk|by apply H].
Qed.

(** ** Steps that are justified by themselves *)

Lemma justified_same d d' : sessions d' = sessions d -> login_flows d' = login_flows d -> justified d d'.
Proof. intros S F. split; [rewrite S; eauto|rewrite F; eauto]. Qed.

Lemma justified_set_session sid f d :
  (forall s, s_user_id (f s) = s_user_id s /\ s_amr (f s) = s_amr s) ->
  justified d (upd_sessions (alter f sid) d).
Proof.
  intros Hf. split; simpl; [|eauto].
  intros i se' Hs. left. destruct (decide (i = sid)) as [->|Hne].
  - rewrite lookup_alter_eq in Hs. destruct (sessions d !! sid) as [se|]; [|done].
    injection Hs as <-. destruct (Hf se). eauto.
  - rewrite lookup_alter_ne in Hs by done. eauto.
Qed.

Lemma justified_set_flow fid f d :
  (forall x, login_flows d !! fid = Some x -> lf_key (f x) = lf_key x \/ flow_backed fid (f x)) ->
  justified d (upd_login_flows (alter f fid) d).
Proof.
  intros Hf. split; simpl; [eauto|].
  intros i f' Hs. destruct (decide (i = fid)) as [->|Hne].
  - rewrite lookup_alter_eq in Hs. destruct (login_flows d !! fid) as [g|] eqn:E; [|done].
    injection Hs as <-. destruct (Hf g eq_refl); [left|right]; eauto.
  - rewrite lookup_alter_ne in Hs by done. eauto.
Qed.

Lemma ju_moddb f : (forall d, sessions (f d) = sessions d /\ login_flows (f d) = login_flows d) ->
  steps justified (moddb f).
Proof. intros Hf. apply steps_moddb. intros d. destruct (Hf d) as (? & ?). by apply justified_same. Qed.
#[local] Hint Extern 2 (steps justified (moddb _)) => apply ju_moddb; intros ?; split_and!; reflexivity : hyproxy.
#[local] Hint Extern 2 (justified _ _) => apply justified_same; reflexivity : hyproxy.

Lemma ju_emit t ip ok uid sid cid detail : steps justified (emit t ip ok uid sid cid detail).
Proof. unfold emit. steps_auto. Qed.
#[local] Hint Resolve ju_emit : hyproxy.

Lemma ju_set_session sid f :
  (forall s, s_user_id (f s) = s_user_id s /\ s_amr (f s) = s_amr s) -> steps justified (set_session sid f).
Proof. intros Hf e s. by apply justified_set_session. Qed.
#[local] Hint Extern 2 (steps justified (set_session _ _)) => apply ju_set_session; intros ?; split; reflexivity : hyproxy.

Lemma ju_set_flow fid f : (forall x, lf_key (f x) = lf_key x) -> steps justified (set_flow fid f).
Proof. intros Hf e s. apply justified_set_flow. auto. Qed.
#[local] Hint Extern 1 (steps justified (set_flow _ _)) => apply ju_set_flow; reflexivity : hyproxy.

Lemma ju_delete_flow fid : steps justified (delete_flow fid).
Proof.
  unfold delete_flow. apply steps_moddb. intros d. split; simpl; [eauto|]. intros i f' Hs. left.
  apply lookup_delete_Some in Hs as [_ Hs]. eauto.
Qed.
Lemma ju_rotate fid : steps justified (rotate_csrf fid).
Proof. unfold rotate_csrf, new_token. steps_auto. Qed.
Lemma ju_create_flow ip q now : steps justified (create_flow ip q now).
Proof.
  unfold create_flow, new_token. steps_auto. split; simpl; [eauto|]. intros i f' Hs.
  apply lookup_insert_Some in Hs as [[_ <-]|[_ Hs]]; [by right|]. left. eauto.
Qed.
#[local] Hint Resolve ju_delete_flow ju_rotate ju_create_flow : hyproxy.

Lemma ju_revoke sid reason ip : steps justified (Sessions.revoke sid reason ip).
Proof. unfold Sessions.revoke. steps_auto. Qed.
Lemma ju_touch sid now : steps justified (touch sid now).
Proof. unfold touch. steps_auto. Qed.
#[local] Hint Resolve ju_revoke ju_touch : hyproxy.
Lemma ju_liveness sid ip now enf : steps justified (check_liveness sid ip now enf).
Proof. unfold check_liveness. steps_auto. Qed.
#[local] Hint Resolve ju_liveness : hyproxy.
Lemma ju_get_session c ip now : steps justified (get_session_from_cookie c ip now).
Proof. unfold get_session_from_cookie. steps_auto. Qed.
Lemma ju_reissue sid : steps justified (reissue_cookie sid).
Proof. unfold reissue_cookie, new_token. steps_auto. Qed.
#[local] Hint Resolve ju_get_session ju_reissue : hyproxy.
Lemma ju_failure ip acct now : steps justified (register_failure ip acct now).
Proof. apply steps_register_failure; [apply _|]. intros d f. by apply justified_same. Qed.
#[local] Hint Resolve ju_failure : hyproxy.

Lemma ju_step {A} (m : M A) e s r s' : steps justified m -> m e s = (r, s') -> justified (db s) (db s').
Proof. intros Hm Hr. pose proof (Hm e s) as H. by rewrite Hr in H. Qed.

(** A session of a user whose factors were proved. *)
Lemma ju_create_session uid u ip amr now : fac uid amr -> steps justified (create_session uid u ip amr now).
Proof.
  intros Hf. unfold create_session, new_token. steps_auto.
  split; simpl; [|eauto]. intros i se Hs. apply lookup_insert_Some in Hs as [[_ <-]|[_ Hs]]; [by right|left; eauto].
Qed.

(** ** The handlers *)

Lemma ju_redirect_authed rq : steps justified (redirect_if_authenticated rq).
Proof. unfold redirect_if_authenticated. steps_auto. Qed.
#[local] Hint Resolve ju_redirect_authed : hyproxy.

Lemma ju_login_form rq flow : steps justified (login_form rq flow).
Proof. unfold login_form. steps_auto. Qed.

Lemma ju_stage rq flow stage : steps justified (get_stage_flow rq flow stage).
Proof. apply steps_get_stage_flow, _. Qed.
Lemma ju_form rq flow csrf : steps justified (form_flow rq flow csrf).
Proof. apply steps_form_flow, _. Qed.
Lemma ju_user row : steps justified (flow_user row).
Proof. apply steps_flow_user, _. Qed.
#[local] Hint Resolve ju_stage ju_form ju_user : hyproxy.

Lemma ju_totp_row uid c : steps justified (get_totp_row uid c).
Proof. unfold get_totp_row. steps_auto. Qed.
#[local] Hint Resolve ju_totp_row : hyproxy.

Lemma ju_totp_form rq flow : steps justified (totp_form rq flow).
Proof. unfold totp_form. steps_auto. Qed.
Lemma ju_recovery_form rq flow : steps justified (recovery_form rq flow).
Proof. unfold recovery_form. steps_auto. Qed.

Lemma ju_backend : steps justified (secrets_backend run).
Proof. unfold secrets_backend. steps_auto. Qed.
Lemma ju_pending uid b : steps justified (pending_secret uid b).
Proof. unfold pending_secret, generate_secret, store_pending_secret. steps_auto. Qed.
#[local] Hint Resolve ju_backend ju_pending : hyproxy.
Lemma ju_enroll_form rq flow : steps justified (enroll_totp_form run rq flow).
Proof. unfold enroll_totp_form. steps_auto. Qed.

Lemma ju_throttle rq uid u : steps justified (second_factor_throttle rq uid u).
Proof. unfold second_factor_throttle. steps_auto. Qed.
Lemma ju_reset acct : steps justified (reset_account acct).
Proof. unfold reset_account. steps_auto. Qed.
Lemma ju_consume_first rows n now : steps justified (consume_first rows n now).
Proof. induction rows as [|[]]; simpl; steps_auto. Qed.
#[local] Hint Resolve ju_throttle ju_reset ju_consume_first : hyproxy.
Lemma ju_consume uid code now : steps justified (consume uid code now).
Proof. unfold consume. cbv zeta. steps_auto. Qed.
#[local] Hint Resolve ju_consume : hyproxy.
Lemma ju_onward rq : steps justified (onward rq).
Proof. unfold onward. steps_auto. Qed.
#[local] Hint Resolve ju_onward : hyproxy.
Lemma ju_find_client cid : steps justified (find_client cid).
Proof. unfold find_client. steps_auto. Qed.
#[local] Hint Resolve ju_find_client : hyproxy.
Lemma ju_authorize rq q : steps justified (authorize rq q).
Proof. unfold authorize, park_request, grant_code, issue_code, new_token. steps_auto. Qed.
Lemma ju_oidc_logout rq q : steps justified (oidc_logout rq q).
Proof. unfold oidc_logout, logout_target. steps_auto. Qed.

(** *** The password step *)

Lemma login_submit_justified rq flow csrf email password e s resp s' :
  flows_backed (db s) ->
  (forall fid uid u, uuid_parse flow = Some fid -> users (db s) !! uid = Some u -> u_status u = "active" ->
     lower (u_email u) = lower (strip email) -> argon_verify (u_password_hash u) password = Verified -> pw fid uid) ->
  login_submit rq flow csrf email password e s = (Ok resp, s') -> justified (db s) (db s').
Proof.
  intros Hb Hpw Hr. apply login_submit_sound in Hr as (_ & Hs & [Hf|(fid & f & uid & u & ip & Hi & _)]);
    [by apply justified_same|].
  destruct Hi as [[Hf Hparse] _ Hst _ _ (Hu & He & Ha) Hv Hafter]. unfold citext_eq in He. bool_simpl.
  split; [rewrite Hs; eauto|]. rewrite Hafter. intros i f' Hi.
  destruct (decide (i = fid)) as [->|Hne]; [|rewrite lookup_alter_ne in Hi by done; eauto].
  rewrite lookup_alter_eq, Hf in Hi. injection Hi as <-. right. specialize (Hb _ _ Hf). unfold flow_backed in *. simpl.
  destruct (lf_user_id f) as [v|]; [by destruct Hb as (_ & _ & Hb)|]. rewrite Hb. split_and!; [|done|].
  - eapply Hpw; try done. by rewrite He, lower_idem.
  - unfold required_second_factor. by case_bool_decide.
Qed.

(** *** The second factor *)

Lemma ju_finalize fid uid u amr ip : fac uid amr -> steps justified (finalize_login fid uid u amr ip).
Proof. intros Hf. pose proof (fun now => ju_create_session uid u ip amr now Hf). unfold finalize_login. steps_auto; auto. Qed.

Lemma ju_login_response u c url : steps justified (login_response u c url).
Proof. unfold login_response, set_session_cookie. steps_auto. Qed.
#[local] Hint Resolve ju_login_response : hyproxy.

Lemma ju_complete rq fid uid u amr : fac uid amr -> steps justified (complete_second_factor rq fid uid u amr).
Proof. intros Hf. pose proof (fun ip => ju_finalize fid uid u amr ip Hf). unfold complete_second_factor. steps_auto; auto. Qed.

Lemma totp_verify_justified rq fid uid u code ip now e s resp s' row :
  totp_verify run rq fid uid u code ip now e s = (Ok resp, s') -> login_flows (db s) !! fid = Some row ->
  (totp_verified run e (db s) uid code (clock e (tick s)) -> fac uid (amr_of row)) -> justified (db s) (db s').
Proof.
  unfold totp_verify. intros Hr Hrow Hfac. erewrite bind_run in Hr; [|apply get_totp_row_run].
  destruct (user_totp (db s) !! uid) as [t|] eqn:Et; [|unfold ret in Hr; injection Hr as _ <-; reflexivity].
  cbn [andb] in Hr. case_bool_decide as Ec; [unfold ret in Hr; injection Hr as _ <-; reflexivity|].
  mstep Hr b s1 H1. apply secrets_backend_Ok in H1 as [-> Hb]. mlift Hr secret Hs.
  mstep Hr ok s2 H2. apply verify_code_None in H2 as [Hd2 Hok]. rewrite <- Hd2 in *.
  destruct ok; cbn [negb] in Hr; [|eapply ju_step; [|exact Hr]; steps_auto].
  assert (fac uid (amr_of row)) as Hf by (apply Hfac; exists t, b, secret; done).
  unfold reset_account in Hr. mread Hr. mstep Hr u1 s3 H3. apply emit_Ok in H3 as (_ & Hd3 & _). simpl in Hd3.
  mstep Hr row' s4 H4. apply flow_row_Ok in H4 as [-> Hrow']. rewrite Hd3 in Hrow'. simpl in Hrow'.
  rewrite Hrow in Hrow'. injection Hrow' as <-.
  transitivity (db s3); [rewrite Hd3; by apply justified_same|]. eapply ju_step; [by apply ju_complete|exact Hr].
Qed.

(** The flow and the user of a form past the password step. *)
Lemma form_user rq flow csrf e s fid s1 row uid u s2 :
  form_flow rq flow csrf e s = (Ok (Some fid), s1) -> login_flows (db s1) !! fid = Some row ->
  flow_user row e s1 = (Ok (Some (uid, u)), s2) ->
  db s2 = db s /\ tick s2 = S (tick s) /\ uuid_parse flow = Some fid /\ login_flows (db s) !! fid = Some row
  /\ lf_user_id row = Some uid.
Proof.
  intros H1 Hrow H2. apply form_flow_Some in H1 as (Hd & Ht & Hp & _).
  apply flow_user_Some in H2 as (-> & Hu & _). by rewrite <- Hd.
Qed.

Lemma totp_submit_justified rq flow csrf code e s resp s' :
  (forall fid row uid, uuid_parse flow = Some fid -> login_flows (db s) !! fid = Some row ->
     lf_user_id row = Some uid -> totp_verified run e (db s) uid code (clock e (3 + tick s)) -> fac uid (amr_of row)) ->
  totp_submit run rq flow csrf code e s = (Ok resp, s') -> justified (db s) (db s').
Proof.
  unfold totp_submit. intros Hfac Hr. mread Hr. mstep Hr ip s1 H1. apply client_ip_Ok in H1 as [-> _].
  mstep Hr found s2 H2. pose proof (ju_step _ _ _ _ _ (ju_form _ _ _) H2) as J2. simpl in J2.
  destruct found as [fid|]; [|etransitivity; [exact J2|]; eapply ju_step; [|exact Hr]; steps_auto].
  mstep Hr row s3 H3. apply flow_row_Ok in H3 as [-> Hrow]. mstep Hr ou s4 H4.
  pose proof (ju_step _ _ _ _ _ (ju_user _) H4) as J4. case_bool_decide.
  { etransitivity; [exact J2|]. etransitivity; [exact J4|]. eapply ju_step; [|exact Hr].
    unfold resume_completed_login, get_session. steps_auto. }
  destruct ou as [[uid u]|];
    [|etransitivity; [exact J2|]; etransitivity; [exact J4|]; eapply ju_step; [|exact Hr]; steps_auto].
  destruct (form_user _ _ _ _ (mkSt (db s) (S (tick s))) _ _ _ _ _ _ H2 Hrow H4) as (Hd4 & Ht4 & Hp & Hf & Hu).
  simpl in Hd4, Ht4, Hf. mstep Hr th s5 H5. destruct th as [r|].
  { unfold ret in Hr. injection Hr as _ <-. rewrite <- Hd4. by eapply ju_step; [apply ju_throttle|exact H5]. }
  apply second_factor_throttle_None in H5 as (Hd5 & Ht5 & _). rewrite Hd4 in Hd5. rewrite Ht4 in Ht5.
  eapply totp_verify_justified in Hr; rewrite ?Hd5, ?Ht5 in *; eauto.
Qed.

(** *** Enrollment *)

Lemma ju_hash p : steps justified (hash_password p).
Proof. apply steps_hash_password, _. Qed.
#[local] Hint Resolve ju_hash : hyproxy.
Lemma ju_issue_batch uid : steps justified (issue_batch uid).
Proof.
  pose proof (steps_repeat justified BATCH_SIZE generate_code (steps_generate_code _)) as Hg.
  unfold issue_batch, add_code. steps_auto.
Qed.
#[local] Hint Resolve ju_issue_batch : hyproxy.

Lemma ju_session_cookie c r : steps justified (set_session_cookie c r).
Proof. unfold set_session_cookie. steps_auto. Qed.
#[local] Hint Resolve ju_session_cookie : hyproxy.

Lemma flows_issue_batch uid : steps (same login_flows) (issue_batch uid).
Proof.
  pose proof (steps_repeat (same login_flows) BATCH_SIZE generate_code (steps_generate_code _)) as Hg.
  pose proof (steps_hash_password (same login_flows)) as Hh. unfold issue_batch, add_code. steps_auto; done.
Qed.

Lemma finish_justified fid uid u ip now e s resp s' row :
  finish_enrollment fid uid u ip now e s = (Ok resp, s') -> login_flows (db s) !! fid = Some row ->
  fac uid (amr_of row) -> justified (db s) (db s').
Proof.
  unfold finish_enrollment, reset_account. intros Hr Hrow Hf. rewrite !bind_moddb in Hr. mstep Hr u1 s3 H3.
  apply emit_Ok in H3 as (_ & Hd3 & _). simpl in Hd3.
  transitivity (db s3); [rewrite Hd3; by apply justified_same|].
  mstep Hr codes s4 H4. pose proof (same_steps_eq _ _ _ _ _ _ (flows_issue_batch uid) H4) as Hfl.
  rewrite Hd3 in Hfl. simpl in Hfl. apply (ju_step _ _ _ _ _ (ju_issue_batch uid)) in H4.
  etransitivity; [exact H4|]. mstep Hr row' s5 H5. apply flow_row_Ok in H5 as [-> Hrow'].
  rewrite Hfl, Hrow in Hrow'. injection Hrow' as <-.
  eapply ju_step; [|exact Hr]. pose proof (ju_create_session uid u ip (amr_of row) now Hf). steps_auto.
Qed.

(** The code answers a secret of the user that is still to be confirmed. *)
Definition pending_verified (e : Env) (d : Db) (uid : Z) (code : string) (t : Z) : Prop :=
  exists row backend secret, user_totp d !! uid = Some row /\ ut_confirmed_at row = None
    /\ get_secrets_backend run (settings e) = Ok backend /\ decrypt_secret backend row = Ok secret
    /\ otp_verify secret (strip code) t 1 = true.

#[local] Opaque finish_enrollment.
Lemma enroll_verify_justified fid uid u code ip now e s resp s' row :
  enroll_verify run fid uid u code ip now e s = (Ok resp, s') -> login_flows (db s) !! fid = Some row ->
  (pending_verified e (db s) uid code (clock e (tick s)) -> fac uid (amr_of row)) -> justified (db s) (db s').
Proof.
  unfold enroll_verify. cbv zeta. intros Hr Hrow Hfac. erewrite bind_run in Hr; [|apply get_totp_row_run].
  destruct (user_totp (db s) !! uid) as [t|] eqn:Et; [|unfold ret in Hr; injection Hr as _ <-; reflexivity].
  cbn [andb] in Hr. case_bool_decide as Ec; [unfold ret in Hr; injection Hr as _ <-; reflexivity|].
  mstep Hr b s1 H1. apply secrets_backend_Ok in H1 as [-> Hb]. mlift Hr secret Hs.
  mstep Hr ok s2 H2. apply verify_code_None in H2 as [Hd2 Hok]. rewrite <- Hd2 in *.
  destruct ok; cbn [negb] in Hr.
  - eapply finish_justified; [exact Hr|exact Hrow|]. apply Hfac. exists t, b, secret.
    split_and!; done.
  - eapply ju_step; [|exact Hr]. steps_auto.
Qed.

Lemma enroll_submit_justified rq flow csrf code e s resp s' :
  (forall fid row uid, uuid_parse flow = Some fid -> login_flows (db s) !! fid = Some row ->
     lf_user_id row = Some uid -> pending_verified e (db s) uid code (clock e (3 + tick s)) -> fac uid (amr_of row)) ->
  enroll_totp_submit run rq flow csrf code e s = (Ok resp, s') -> justified (db s) (db s').
Proof.
  unfold enroll_totp_submit. intros Hfac Hr. mread Hr. mstep Hr ip s1 H1. apply client_ip_Ok in H1 as [-> _].
  mstep Hr found s2 H2. pose proof (ju_step _ _ _ _ _ (ju_form _ _ _) H2) as J2. simpl in J2.
  destruct found as [fid|]; [|etransitivity; [exact J2|]; eapply ju_step; [|exact Hr]; steps_auto].
  mstep Hr row s3 H3. apply flow_row_Ok in H3 as [-> Hrow]. mstep Hr ou s4 H4.
  pose proof (ju_step _ _ _ _ _ (ju_user _) H4) as J4.
  destruct ou as [[uid u]|];
    [|etransitivity; [exact J2|]; etransitivity; [exact J4|]; eapply ju_step; [|exact Hr]; steps_auto].
  destruct (form_user _ _ _ _ (mkSt (db s) (S (tick s))) _ _ _ _ _ _ H2 Hrow H4) as (Hd4 & Ht4 & Hp & Hf & Hu).
  simpl in Hd4, Ht4, Hf.
  case_bool_decide; [unfold ret in Hr; injection Hr as _ <-; by rewrite <- Hd4|].
  mstep Hr th s5 H5. destruct th as [r|].
  { unfold ret in Hr. injection Hr as _ <-. rewrite <- Hd4. by eapply ju_step; [apply ju_throttle|exact H5]. }
  apply second_factor_throttle_None in H5 as (Hd5 & Ht5 & _). rewrite Hd4 in Hd5. rewrite Ht4 in Ht5.
  eapply enroll_verify_justified in Hr; rewrite ?Hd5, ?Ht5 in *; eauto.
Qed.

(** *** Recovery *)

Lemma recovery_verify_justified fid uid u code ip now e s resp s' row :
  flows_backed (db s) -> recovery_verify fid uid u code ip now e s = (Ok resp, s') ->
  login_flows (db s) !! fid = Some row -> lf_user_id row = Some uid ->
  (forall id c, recovery_codes (db s) !! id = Some c -> rcd_user_id c = uid -> rcd_used_at c = None ->
     argon_verify (rcd_code_hash c) (normalize code) = Verified -> rc fid uid) ->
  justified (db s) (db s').
Proof.
  unfold recovery_verify. intros Hb Hr Hrow Hu Hrc. mstep Hr ok s1 H1.
  pose proof (consume_cases _ _ _ _ _ _ _ H1) as [Ht _]. apply (ju_step _ _ _ _ _ (ju_consume _ _ _)) in H1 as J1.
  pose proof (justified_flows _ _ J1 Hb) as Hb1. etransitivity; [exact J1|].
  destruct ok; cbn [negb] in Hr; [|eapply ju_step; [|exact Hr]; steps_auto].
  destruct (Ht eq_refl) as (id & c & Hc & Hcu & Hun & Hv & Hd1). specialize (Hrc _ _ Hc Hcu Hun Hv).
  unfold reset_account, set_flow in Hr. mread Hr. mstep Hr u1 s2 H2. apply emit_Ok in H2 as (_ & Hd2 & _). simpl in Hd2.
  rewrite !bind_moddb in Hr. unfold ret in Hr. injection Hr as _ <-. cbn [db].
  transitivity (db s2); [rewrite Hd2; by apply justified_same|].
  etransitivity; [|apply (justified_set_flow fid)].
  - by apply justified_same.
  - intros x. simpl. rewrite Hd2. simpl. rewrite Hd1. simpl. rewrite Hrow. intros [= <-]. right.
    specialize (Hb _ _ Hrow). unfold flow_backed in *. simpl. rewrite Hu in *. tauto.
Qed.

Lemma recovery_submit_justified rq flow csrf code e s resp s' :
  flows_backed (db s) ->
  (forall fid row uid id c, uuid_parse flow = Some fid -> login_flows (db s) !! fid = Some row ->
     lf_user_id row = Some uid -> recovery_codes (db s) !! id = Some c -> rcd_user_id c = uid ->
     rcd_used_at c = None -> argon_verify (rcd_code_hash c) (normalize code) = Verified -> rc fid uid) ->
  recovery_submit rq flow csrf code e s = (Ok resp, s') -> justified (db s) (db s').
Proof.
  unfold recovery_submit. intros Hb Hrc Hr. mread Hr. mstep Hr ip s1 H1. apply client_ip_Ok in H1 as [-> _].
  mstep Hr found s2 H2. pose proof (ju_step _ _ _ _ _ (ju_form _ _ _) H2) as J2. simpl in J2.
  destruct found as [fid|]; [|etransitivity; [exact J2|]; eapply ju_step; [|exact Hr]; steps_auto].
  mstep Hr row s3 H3. apply flow_row_Ok in H3 as [-> Hrow]. mstep Hr ou s4 H4.
  pose proof (ju_step _ _ _ _ _ (ju_user _) H4) as J4.
  destruct ou as [[uid u]|];
    [|etransitivity; [exact J2|]; etransitivity; [exact J4|]; eapply ju_step; [|exact Hr]; steps_auto].
  destruct (form_user _ _ _ _ (mkSt (db s) (S (tick s))) _ _ _ _ _ _ H2 Hrow H4) as (Hd4 & _ & Hp & Hf & Hu).
  simpl in Hd4, Hf. mstep Hr th s5 H5. destruct th as [r|].
  { unfold ret in Hr. injection Hr as _ <-. rewrite <- Hd4. by eapply ju_step; [apply ju_throttle|exact H5]. }
  apply second_factor_throttle_None in H5 as (Hd5 & _). rewrite Hd4 in Hd5.
  eapply recovery_verify_justified in Hr; rewrite ?Hd5 in *; eauto.
Qed.

(** *** Passkeys *)

#[local] Hint Resolve steps_user_credentials steps_guarded_flow steps_user_assertion
  steps_registration_result steps_options_response : hyproxy.
Lemma ju_set_challenge fid c : steps justified (set_challenge fid c).
Proof. unfold set_challenge. auto with hyproxy. Qed.
Lemma ju_redirect_json c url : steps justified (redirect_json c url).
Proof. unfold redirect_json, set_session_cookie. steps_auto. Qed.
#[local] Hint Resolve ju_set_challenge ju_redirect_json : hyproxy.

Lemma ju_webauthn_page rq flow : steps justified (webauthn_page rq flow).
Proof. unfold webauthn_page. steps_auto. Qed.
Lemma ju_webauthn_options rq flow csrf : steps justified (webauthn_options rq flow csrf).
Proof. unfold webauthn_options. steps_auto. Qed.
Lemma ju_done_page rq : steps justified (done_page rq).
Proof. unfold done_page, get_user. steps_auto. Qed.
Lemma ju_enroll_wa_page rq flow : steps justified (enroll_webauthn_page rq flow).
Proof. unfold enroll_webauthn_page. steps_auto. Qed.
Lemma ju_enroll_wa_options rq flow csrf : steps justified (enroll_webauthn_options rq flow csrf).
Proof. unfold enroll_webauthn_options. steps_auto. Qed.
Lemma ju_enroll_wa_verify rq flow csrf c name bg :
  steps justified (enroll_webauthn_verify rq flow csrf c name bg).
Proof. unfold enroll_webauthn_verify, enroll_credential. steps_auto. Qed.

Lemma ju_stepup_session rq ip now : steps justified (stepup_session rq ip now).
Proof. unfold stepup_session, get_user. steps_auto. Qed.
#[local] Hint Resolve ju_stepup_session : hyproxy.
Lemma ju_stepup_page rq rt : steps justified (stepup_page rq rt).
Proof. unfold stepup_page, valid_stepup_return. cbv zeta. steps_auto. Qed.
Lemma ju_stepup_options rq : steps justified (stepup_options rq).
Proof. unfold stepup_options. cbv zeta. steps_auto. Qed.
Lemma ju_stepup_verify rq c : steps justified (stepup_verify rq c).
Proof. unfold stepup_verify, stepup_check, set_credential. steps_auto. Qed.

Lemma assertion_verify_justified fid uid u ch c ip now e s resp s' :
  (forall challenge cid row n, ch = Some challenge -> asserted e (db s) c challenge uid cid row n ->
     fac uid ["pwd"; "webauthn"]) ->
  assertion_verify fid uid u ch c ip now e s = (Ok resp, s') -> justified (db s) (db s').
Proof.
  unfold assertion_verify, set_challenge, set_flow. intros Hfac Hr. rewrite bind_moddb in Hr.
  transitivity (upd_login_flows (alter (set_lf_webauthn_challenge None) fid) (db s)).
  { apply justified_set_flow. auto. }
  destruct ch as [ch|]; [|unfold ret in Hr; by injection Hr as _ <-].
  mstep Hr acc s1 H1. destruct acc as [[[cid row] n]|].
  - apply user_assertion_Some in H1 as [-> Ha]. specialize (Hfac ch cid row n eq_refl Ha).
    unfold assertion_accepted, set_credential in Hr.
    pose proof (ju_finalize fid uid u ["pwd"; "webauthn"] ip Hfac). eapply ju_step in Hr; [exact Hr|]. steps_auto.
  - apply (readonly _ _ _ _ _ (steps_user_assertion _ _ _ _)) in H1. simpl in H1. rewrite <- H1.
    eapply ju_step; [|exact Hr]; steps_auto.
Qed.

Lemma webauthn_verify_justified rq flow csrf c e s resp s' :
  (forall fid row uid challenge cid cred n, uuid_parse flow = Some fid -> login_flows (db s) !! fid = Some row ->
     lf_user_id row = Some uid -> lf_webauthn_challenge row = Some challenge ->
     asserted e (db s) c challenge uid cid cred n -> fac uid ["pwd"; "webauthn"]) ->
  webauthn_verify rq flow csrf c e s = (Ok resp, s') -> justified (db s) (db s').
Proof.
  unfold webauthn_verify. intros Hfac Hr. mread Hr. mstep Hr ip s1 H1. apply client_ip_Ok in H1 as [-> _].
  mstep Hr g s2 H2. pose proof (readonly _ _ _ _ _ (steps_guarded_flow _ _ _ _) H2) as Hd2.
  simpl in Hd2. destruct g as [[fid [uid u]]|]; [|unfold ret in Hr; injection Hr as _ <-; by rewrite Hd2].
  apply guarded_flow_Some in H2 as (_ & _ & Hp & row & [Hrow _ _ _ _] & _ & Hu & _). simpl in Hrow.
  pose proof Hrow as Hrow2. rewrite <- Hd2 in Hrow2. rewrite (bind_flow_row _ _ _ _ _ Hrow2) in Hr. rewrite <- Hd2 in *.
  case_bool_decide.
  { eapply ju_step; [|exact Hr]. unfold resume_completed_login, get_session. steps_auto. }
  mstep Hr th s5 H5. destruct th as [r|].
  { unfold ret in Hr. injection Hr as _ <-. by eapply ju_step; [apply ju_throttle|exact H5]. }
  apply second_factor_throttle_None in H5 as [Hd5 _]. rewrite <- Hd5 in *.
  eapply assertion_verify_justified; [|exact Hr]. eauto.
Qed.

End Handlers.

(** ** Histories *)

Inductive login_op : Type :=
| LoginForm (rq : Request) (flow : option string)
| LoginSubmit (rq : Request) (flow csrf email password : string)
| TotpForm (rq : Request) (flow : option string)
| TotpSubmit (rq : Request) (flow csrf code : string)
| EnrollForm (rq : Request) (flow : option string)
| EnrollSubmit (rq : Request) (flow csrf code : string)
| RecoveryForm (rq : Request) (flow : option string)
| RecoverySubmit (rq : Request) (flow csrf code : string)
| AuthorizeGet (rq : Request) (q : list (string * string))
| LogoutGet (rq : Request) (q : list (string * string))
| WebauthnPage (rq : Request) (flow : option string)
| WebauthnOptions (rq : Request) (flow csrf : string)
| WebauthnVerify (rq : Request) (flow csrf : string) (credential : list (string * json))
| DonePage (rq : Request)
| EnrollWaPage (rq : Request) (flow : option string)
| EnrollWaOptions (rq : Request) (flow csrf : string)
| EnrollWaVerify (rq : Request) (flow csrf : string) (credential : list (string * json))
    (friendly_name : string) (break_glass : bool)
| StepupPage (rq : Request) (return_to : string)
| StepupOptions (rq : Request)
| StepupVerify (rq : Request) (credential : list (string * json)).

(** A request that was served: with what environment, over which state. *)
Record served := mkServed {
  sv_op : login_op;
  sv_env : Env;
  sv_db : Db;
  sv_tick : nat;
}.

Section History.
Context {aead : Aead} {argon : Argon} {otp : Otp} {wa : WebAuthnLib}.
Context (run : list string -> ProcessResult).

Definition serve (op : login_op) : M Response :=
  match op with
  | LoginForm rq flow => login_form rq flow
  | LoginSubmit rq flow csrf email password => login_submit rq flow csrf email password
  | TotpForm rq flow => totp_form rq flow
  | TotpSubmit rq flow csrf code => totp_submit run rq flow csrf code
  | EnrollForm rq flow => enroll_totp_form run rq flow
  | EnrollSubmit rq flow csrf code => enroll_totp_submit run rq flow csrf code
  | RecoveryForm rq flow => recovery_form rq flow
  | RecoverySubmit rq flow csrf code => recovery_submit rq flow csrf code
  | AuthorizeGet rq q => authorize rq q
  | LogoutGet rq q => oidc_logout rq q
  | WebauthnPage rq flow => webauthn_page rq flow
  | WebauthnOptions rq flow csrf => webauthn_options rq flow csrf
  | WebauthnVerify rq flow csrf credential => webauthn_verify rq flow csrf credential
  | DonePage rq => done_page rq
  | EnrollWaPage rq flow => enroll_webauthn_page rq flow
  | EnrollWaOptions rq flow csrf => enroll_webauthn_options rq flow csrf
  | EnrollWaVerify rq flow csrf credential name bg => enroll_webauthn_verify rq flow csrf credential name bg
  | StepupPage rq return_to => stepup_page rq return_to
  | StepupOptions rq => stepup_options rq
  | StepupVerify rq credential => stepup_verify rq credential
  end.

(** What the other parts of the system do between two requests: anything that neither adds
    a session nor touches a flow but to drop it. *)
Record elsewhere (d d' : Db) : Prop := {
  el_flows : forall fid f, login_flows d' !! fid = Some f -> login_flows d !! fid = Some f;
  el_sessions : forall sid se', sessions d' !! sid = Some se' ->
    exists se, sessions d !! sid = Some se /\ s_user_id se' = s_user_id se /\ s_amr se' = s_amr se;
}.

(** From a database without flows and sessions, requests are served one after the other,
    each in a transaction of its own, in any environment; the history is kept. *)
Inductive login_reachable : list served -> Db -> Prop :=
| reach_start d : login_flows d = ∅ -> sessions d = ∅ -> login_reachable [] d
| reach_elsewhere h d d' : login_reachable h d -> elsewhere d d' -> login_reachable h d'
| reach_serve h d op e n r s' :
    login_reachable h d -> db_session (serve op) e (mkSt d n) = (r, s') ->
    login_reachable (h ++ [mkServed op e d n]) (db s').

(** The password form on the flow, with the password of the active user of the address. *)
Definition password_ok (x : served) (fid uid : Z) : Prop :=
  exists rq flow csrf email password u, sv_op x = LoginSubmit rq flow csrf email password
    /\ uuid_parse flow = Some fid /\ users (sv_db x) !! uid = Some u /\ u_status u = "active"
    /\ lower (u_email u) = lower (strip email) /\ argon_verify (u_password_hash u) password = Verified.

(** The recovery form on the flow, with an unused recovery code of the user. *)
Definition recovery_ok (x : served) (fid uid : Z) : Prop :=
  exists rq flow csrf code id c, sv_op x = RecoverySubmit rq flow csrf code
    /\ uuid_parse flow = Some fid /\ recovery_codes (sv_db x) !! id = Some c
    /\ rcd_user_id c = uid /\ rcd_used_at c = None
    /\ argon_verify (rcd_code_hash c) (normalize code) = Verified.

(** The authenticator's form on the flow, with a code the user's secret answers at the time
    of the request: the form of a confirmed secret, or the enrollment of a pending one. *)
Definition otp_ok (x : served) (fid uid : Z) : Prop :=
  exists rq flow csrf code row backend secret,
    (sv_op x = TotpSubmit rq flow csrf code /\ ut_confirmed_at row <> None
     \/ sv_op x = EnrollSubmit rq flow csrf code /\ ut_confirmed_at row = None)
    /\ uuid_parse flow = Some fid /\ user_totp (sv_db x) !! uid = Some row
    /\ get_secrets_backend run (settings (sv_env x)) = Ok backend /\ decrypt_secret backend row = Ok secret
    /\ otp_verify secret (strip code) (clock (sv_env x) (3 + sv_tick x)) 1 = true.

(** The passkey endpoint on the flow: a credential of the user answered, for the issuer's
    host and origin, the challenge the flow held. *)
Definition key_ok (x : served) (fid uid : Z) : Prop :=
  exists rq flow csrf credential f challenge cid c n rp origin,
    sv_op x = WebauthnVerify rq flow csrf credential
    /\ uuid_parse flow = Some fid /\ login_flows (sv_db x) !! fid = Some f
    /\ lf_webauthn_challenge f = Some challenge
    /\ webauthn_credentials (sv_db x) !! cid = Some c /\ wc_user_id c = uid
    /\ credential_id_from_response credential = Some (wc_credential_id c)
    /\ site (settings (sv_env x)) rp origin
    /\ wa_verify_authentication (dumps_default (JObj credential)) challenge rp origin
         (wc_public_key c) (wc_sign_count c) false = Ok n.

(** The requests behind the methods a session claims: a second factor on some flow, and
    before it the password, and the recovery code if one is claimed, on the same flow. *)
Definition two_factors (h : list served) (uid : Z) (amr : list string) : Prop :=
  exists before x after fid, h = before ++ x :: after
    /\ (exists y, y ∈ before /\ password_ok y fid uid)
    /\ (amr = ["pwd"; "webauthn"] /\ key_ok x fid uid
        \/ amr = ["pwd"; "otp"] /\ otp_ok x fid uid
        \/ amr = ["pwd"; "rc"; "otp"] /\ otp_ok x fid uid /\ exists z, z ∈ before /\ recovery_ok z fid uid).

(** The invariant: who a flow names has proved the password on it, and a session has two
    factors behind it. *)
Record login_inv (h : list served) (d : Db) : Prop := {
  li_flows : flows_backed (fun fid uid => exists x, x ∈ h /\ password_ok x fid uid)
    (fun fid uid => exists x, x ∈ h /\ recovery_ok x fid uid) d;
  li_sessions : forall sid se, sessions d !! sid = Some se -> two_factors h (s_user_id se) (s_amr se);
}.

Lemma two_factors_snoc h x uid amr : two_factors h uid amr -> two_factors (h ++ [x]) uid amr.
Proof.
  intros (b & y & a & fid & -> & H). exists b, y, (a ++ [x]), fid. split; [|done]. by rewrite <- app_assoc.
Qed.

Lemma backed_mono (pw pw' rc rc' : Z -> Z -> Prop) d : (forall f u, pw f u -> pw' f u) -> (forall f u, rc f u -> rc' f u) ->
  flows_backed pw rc d -> flows_backed pw' rc' d.
Proof.
  intros Hp Hr H fid f Hf. specialize (H _ _ Hf). unfold flow_backed in *. destruct (lf_user_id f); [|done].
  naive_solver.
Qed.

Section Served.
Context (h : list served) (op : login_op) (e : Env) (s : St).
Let x : served := mkServed op e (db s) (tick s).
Let pw (fid uid : Z) : Prop := exists y, y ∈ h ++ [x] /\ password_ok y fid uid.
Let rc (fid uid : Z) : Prop := exists y, y ∈ h ++ [x] /\ recovery_ok y fid uid.
Let fac : Z -> list string -> Prop := two_factors (h ++ [x]).

Lemma earlier (P : served -> Prop) : ~ P x -> (exists y, y ∈ h ++ [x] /\ P y) -> exists y, y ∈ h /\ P y.
Proof.
  intros Hn (y & [Hy|Hy%list_elem_of_singleton]%elem_of_app & HP); [by exists y|]. by subst y.
Qed.

Lemma otp_factor fid f uid : flows_backed pw rc (db s) -> login_flows (db s) !! fid = Some f ->
  lf_user_id f = Some uid -> otp_ok x fid uid -> fac uid (amr_of f).
Proof.
  intros Hb Hf Hu Ho. specialize (Hb _ _ Hf). unfold flow_backed in Hb. rewrite Hu in Hb. destruct Hb as (Hp & Hr & _).
  assert (forall P : served -> Prop, (forall y, P y -> (exists a b c d g, sv_op y = LoginSubmit a b c d g)
    \/ exists a b c d, sv_op y = RecoverySubmit a b c d) -> ~ P x) as Hn.
  { intros P HP Hx. destruct Ho as (? & ? & ? & ? & ? & ? & ? & [[E _]|[E _]] & _);
      destruct (HP _ Hx) as [(?&?&?&?&?&E')|(?&?&?&?&E')]; congruence. }
  exists h, x, [], fid. split; [done|]. split.
  { apply earlier; [|exact Hp]. apply (Hn (fun y => password_ok y fid uid)). intros y (?&?&?&?&?&?&?&_). eauto 10. }
  unfold amr_of. destruct (lf_recovery_used f); [|by auto]. right. right. split_and!; [done..|].
  apply earlier; [|by apply Hr]. apply (Hn (fun y => recovery_ok y fid uid)). intros y (?&?&?&?&?&?&?&_). eauto 10.
Qed.

Lemma key_factor fid f uid : flows_backed pw rc (db s) -> login_flows (db s) !! fid = Some f ->
  lf_user_id f = Some uid -> key_ok x fid uid -> fac uid ["pwd"; "webauthn"].
Proof.
  intros Hb Hf Hu Hk. specialize (Hb _ _ Hf). unfold flow_backed in Hb. rewrite Hu in Hb. destruct Hb as (Hp & _).
  exists h, x, [], fid. split; [done|]. split; [|by left]. apply earlier; [|exact Hp].
  intros (?&?&?&?&?&?&E&_). destruct Hk as (?&?&?&?&?&?&?&?&?&?&?&E'&_). congruence.
Qed.

Lemma serve_justified resp s' : flows_backed pw rc (db s) -> serve op e s = (Ok resp, s') ->
  justified pw rc fac (db s) (db s').
Proof.
  intros Hb Hr. remember op as o eqn:Eo in Hr. assert (sv_op x = o) as Ex by done.
  destruct o; simpl in Hr; clear Eo.
  - eapply ju_step; [apply ju_login_form|exact Hr].
  - eapply login_submit_justified; [exact Hb| |exact Hr]. intros fid uid u Hp Hu Ha He Hv. exists x.
    split; [set_solver|]. by exists rq, flow, csrf, email, password, u.
  - eapply ju_step; [apply ju_totp_form|exact Hr].
  - eapply totp_submit_justified; [|exact Hr]. intros fid f uid Hp Hf Hu (row & b & sec & H1 & H2 & H3 & H4 & H5).
    eapply otp_factor; [exact Hb|exact Hf|exact Hu|]. exists rq, flow, csrf, code, row, b, sec. split_and!; try done. by left.
  - eapply ju_step; [apply ju_enroll_form|exact Hr].
  - eapply enroll_submit_justified; [|exact Hr]. intros fid f uid Hp Hf Hu (row & b & sec & H1 & H2 & H3 & H4 & H5).
    eapply otp_factor; [exact Hb|exact Hf|exact Hu|]. exists rq, flow, csrf, code, row, b, sec. split_and!; try done. by right.
  - eapply ju_step; [apply ju_recovery_form|exact Hr].
  - eapply (recovery_submit_justified run); [exact Hb| |exact Hr]. intros fid f uid id c Hp Hf Hu Hc Hcu Hun Hv. exists x.
    split; [set_solver|]. by exists rq, flow, csrf, code, id, c.
  - eapply ju_step; [apply (ju_authorize run)|exact Hr].
  - eapply ju_step; [apply (ju_oidc_logout run)|exact Hr].
  - eapply ju_step; [apply (ju_webauthn_page run)|exact Hr].
  - eapply ju_step; [apply (ju_webauthn_options run)|exact Hr].
  - eapply (webauthn_verify_justified run); [|exact Hr].
    intros fid f uid ch cid c n Hp Hf Hu Hch (H1 & H2 & H3 & rp & origin & H4 & H5).
    eapply key_factor; [exact Hb|exact Hf|exact Hu|]. by exists rq, flow, csrf, credential, f, ch, cid, c, n, rp, origin.
  - eapply ju_step; [apply (ju_done_page run)|exact Hr].
  - eapply ju_step; [apply (ju_enroll_wa_page run)|exact Hr].
  - eapply ju_step; [apply (ju_enroll_wa_options run)|exact Hr].
  - eapply ju_step; [apply (ju_enroll_wa_verify run)|exact Hr].
  - eapply ju_step; [apply (ju_stepup_page run)|exact Hr].
  - eapply ju_step; [apply (ju_stepup_options run)|exact Hr].
  - eapply ju_step; [apply (ju_stepup_verify run)|exact Hr].
Qed.
End Served.

Lemma inv_snoc h x d : login_inv h d -> login_inv (h ++ [x]) d.
Proof.
  intros [Hf Hs]. split.
  - eapply backed_mono, Hf; intros f u (y & Hy & H); exists y; (split; [set_solver|done]).
  - intros sid se Hse. by apply two_factors_snoc, (Hs sid).
Qed.

(** C2: Two factors behind every session.  In every state the login pages, the passkey
    endpoints and the authorize endpoint reach, whatever they are asked in whatever order
    (and whatever the rest of the system does in between that neither adds a session nor
    touches a flow), a session claims one of three lists of methods, and in the history of the
    requests served there is one whose second factor of that user was verified, against the
    rows and the clock it met, and an earlier one, on the same login flow, whose password
    was verified for that user's active account: for [pwd, webauthn] an assertion of a
    credential of the user to the flow's challenge, for [pwd, otp] a code of the user's
    confirmed authenticator or of the one being enrolled, for [pwd, rc, otp] the same after
    an earlier unused recovery code of the user.  And a flow names a user only with such
    a password behind it. *)
Theorem sessions_have_two_factors h d (Hd : login_reachable h d) : login_inv h d.
Proof.
  induction Hd as [d Hf Hs|h d d' _ IH Hel|h d op e n r s' _ IH Hrun].
  - split; [intros fid f; rewrite Hf|rewrite Hs]; intros; set_solver.
  - destruct IH as [Hf Hs], Hel as [Ef Es]. split; [intros fid f H; by apply Hf, Ef|].
    intros sid se' H. destruct (Es _ _ H) as (se & Hse & -> & ->). by apply (Hs sid).
  - apply (inv_snoc _ (mkServed op e d n)) in IH as IH'. destruct r as [resp|x].
    + apply db_session_Ok in Hrun. destruct IH' as [Hf Hs].
      pose proof (serve_justified h op e (mkSt d n) resp s' Hf Hrun) as J. split.
      * by apply (justified_flows _ _ _ _ _ J).
      * intros sid se Hse. destruct J as [Js _]. destruct (Js _ _ Hse) as [(se0 & H0 & -> & ->)|H]; [by apply (Hs sid)|done].
    + apply db_session_rollback in Hrun. by rewrite Hrun.
Qed.
End History.

(** ** Witnesses *)

Definition demo_otp : Otp := {|
  random_base32 _ := "JBSWY3DP";
  otp_uri secret name issuer := "otpauth://totp/" +:+ issuer +:+ ":" +:+ name +:+ "?secret=" +:+ secret;
  otp_verify _ code _ _ := bool_decide (code = "123456");
  qr_svg uri := uri;
|}.

Definition login_env : Env := mkEnv example_settings T0 (fun _ => T0) (fun n => Z.of_nat n).

Definition demo_login_user : User :=
  mkUser "sub-1" "ada@example.com" "Ada" "active" "standard" "$argon2id$hunter2" false 0 0.

Definition demo_login_db : Db :=
  upd_users (fun _ => {[ 11 := demo_login_user ]})
  (upd_user_totp (fun _ => {[ 11 := mkUserTotp "123456789012user_totpJBSWY3DP" "mk-1" 0 (Some 1) ]})
  (upd_recovery_codes (fun _ => {[ 3 := mkRecoveryCode 11 1 "$argon2id$ABCDE23456" None 0 ]}) empty_db)).

Definition demo_fid : Z := uuid4_of 3.
Definition demo_csrf : string := b64url_nopad (bytes_of 32 2).
Definition demo_flow_browser : Request :=
  mkRequest [] [(FLOW_COOKIE, uuid_str demo_fid)] (Some "10.0.0.1").

(** One request after the other, in transactions of their own. *)
Definition demo_serve (op : login_op) (d : Db) : result Response * St :=
  db_session (serve (aead := clear_aead) (argon := demo_argon) (otp := demo_otp) (wa := demo_wa) demo_unseal op)
    login_env (mkSt d 0).

Definition after_form : Db := db (demo_serve (LoginForm (mkRequest [] [] (Some "10.0.0.1")) None) demo_login_db).2.
Definition after_password : Db :=
  db (demo_serve (LoginSubmit demo_flow_browser (uuid_str demo_fid) demo_csrf " Ada@Example.com" "hunter2")
        after_form).2.
Definition after_totp : Db :=
  db (demo_serve (TotpSubmit demo_flow_browser (uuid_str demo_fid) demo_csrf "123456") after_password).2.

Definition demo_reachable : list served -> Db -> Prop :=
  login_reachable (aead := clear_aead) (argon := demo_argon) (otp := demo_otp) (wa := demo_wa) demo_unseal.

Lemma demo_reach h d op :
  demo_reachable h d -> demo_reachable (h ++ [mkServed op login_env d 0]) (db (demo_serve op d).2).
Proof.
  intros Hd. eapply (reach_serve _ h d op login_env 0%nat (demo_serve op d).1 (demo_serve op d).2); [exact Hd|].
  exact (surjective_pairing (demo_serve op d)).
Qed.

(** The three requests of a login. *)
Definition demo_history : list served :=
  [mkServed (LoginForm (mkRequest [] [] (Some "10.0.0.1")) None) login_env demo_login_db 0;
   mkServed (LoginSubmit demo_flow_browser (uuid_str demo_fid) demo_csrf " Ada@Example.com" "hunter2") login_env after_form 0;
   mkServed (TotpSubmit demo_flow_browser (uuid_str demo_fid) demo_csrf "123456") login_env after_password 0].

Lemma demo_after_totp : demo_reachable demo_history after_totp.
Proof. apply (demo_reach [_; _]), (demo_reach [_]), (demo_reach []). by apply reach_start. Qed.

Lemma demo_session_created :
  map (fun kv => s_user_id kv.2) (map_to_list (sessions after_totp)) = [11].
Proof. vm_compute. reflexivity. Qed.

Example sessions_have_two_factors_witness : exists sid se,
  sessions after_totp !! sid = Some se /\ s_user_id se = 11
  /\ two_factors (aead := clear_aead) (argon := demo_argon) (otp := demo_otp) (wa := demo_wa) demo_unseal demo_history 11
       (s_amr se).
Proof.
  pose proof (sessions_have_two_factors (aead := clear_aead) (argon := demo_argon) (otp := demo_otp) (wa := demo_wa)
    demo_unseal demo_history after_totp demo_after_totp) as [_ Hs].
  pose proof demo_session_created as Hm.
  destruct (map_to_list (sessions after_totp)) as [|[sid se] l] eqn:E; [discriminate Hm|].
  assert (sessions after_totp !! sid = Some se) as Hse.
  { apply elem_of_map_to_list. rewrite E. left. }
  assert (s_user_id se = 11) as Hu by (injection Hm; intros _ H; exact H).
  exists sid, se. split_and!; [exact Hse|exact Hu|]. rewrite <- Hu. exact (Hs sid se Hse).
Defined.

Lemma demo_totp_runs : exists resp s' v,
  totp_submit (aead := clear_aead) (otp := demo_otp) demo_unseal demo_flow_browser
    (uuid_str demo_fid) demo_csrf "123456" login_env (mkSt after_password 0) = (Ok resp, s')
  /\ sets_session resp v.
Proof.
  destruct (totp_submit (aead := clear_aead) (otp := demo_otp) demo_unseal
    demo_flow_browser (uuid_str demo_fid) demo_csrf "123456" login_env (mkSt after_password 0))
    as [r s'] eqn:E.
  assert (match r with Ok resp => map (fun op => match op with SetCookie n _ _ _ _ _ _ _ => n | _ => "" end)
            (rs_cookies resp) | Raise _ => [] end = [SESSION_COOKIE]) as Hc.
  { change r with (fst (r, s')). rewrite <- E. vm_compute. reflexivity. }
  destruct r as [resp|x]; [|discriminate Hc]. exists resp, s'.
  destruct (rs_cookies resp) as [|[n v a b c d f g|] l] eqn:Ec; [discriminate Hc| |discriminate Hc].
  injection Hc as -> _. exists v. split; [reflexivity|]. exists a, b, c, d, f, g. rewrite Ec. left.
Qed.

Example totp_submit_sound_witness : exists fid row uid,
  stage_flow login_env after_password demo_flow_browser fid row "totp" T0
  /\ lf_user_id row = Some uid /\ is_Some (users after_password !! uid).
Proof.
  destruct demo_totp_runs as (resp & s' & v & Hr & Hv).
  destruct (totp_submit_sound (aead := clear_aead) (otp := demo_otp) demo_unseal
    _ _ _ _ _ _ _ _ _ Hr Hv) as (fid & row & uid & u & Hsf & _ & Hu & Hus & _).
  exists fid, row, uid. split_and!; [exact Hsf|exact Hu|exists u; exact Hus].
Defined.

Example login_submit_sound_witness : exists resp s',
  login_submit (argon := demo_argon) demo_flow_browser (uuid_str demo_fid) demo_csrf " Ada@Example.com"
    "hunter2" login_env (mkSt after_form 0) = (Ok resp, s')
  /\ no_session_cookie resp /\ sessions (db s') = sessions after_form.
Proof.
  destruct (login_submit (argon := demo_argon) demo_flow_browser (uuid_str demo_fid) demo_csrf
    " Ada@Example.com" "hunter2" login_env (mkSt after_form 0)) as [[resp|x] s'] eqn:E.
  - destruct (login_submit_sound (argon := demo_argon) _ _ _ _ _ _ _ _ _ E) as (H1 & H2 & _).
    exists resp, s'. split_and!; [reflexivity|exact H1|exact H2].
  - exfalso. revert E. vm_compute. discriminate.
Defined.

Example recovery_submit_sound_witness : exists resp s',
  recovery_submit (argon := demo_argon) demo_flow_browser (uuid_str demo_fid) demo_csrf "abcde-23456"
    login_env (mkSt after_password 0) = (Ok resp, s')
  /\ rs_cookies resp = [].
Proof.
  destruct (recovery_submit (argon := demo_argon) demo_flow_browser (uuid_str demo_fid) demo_csrf
    "abcde-23456" login_env (mkSt after_password 0)) as [[resp|x] s'] eqn:E.
  - destruct (recovery_submit_sound (argon := demo_argon) _ _ _ _ _ _ _ _ E) as [H1 _].
    exists resp, s'. split; [reflexivity|exact H1].
  - exfalso. revert E. vm_compute. discriminate.
Defined.
