(* ===== verification/AdminDeps.v ===== *)
(** * AdminDeps: admin/deps.py, who may call the administration API

    The dependencies of the API's endpoints.  A dependency that refuses raises an
    [HTTPException], and the unit of work of the request is given up with it. *)

From S2P Require Import Prelude PyStr Encoding JsonText Json PyTime Url Ip Config Db Effects Crypto Web.
From S2P Require Import Keys Sessions Dpop Tokens ResourceServer.
Local Open Scope Z_scope.

(** What the dependencies read of the framework's request: its headers and peer, the
    method, the URL and the path. *)
Record ApiRequest := mkApiRequest {
  rq_request : Request;
  rq_method : string;
  rq_url : string;
  rq_path : string;
}.

Definition client_ip (request : ApiRequest) : M string := resolve_client_ip (rq_request request).

(** [map f] of an operation that may raise. *)
Fixpoint all_ok {A} (l : list (option A)) : option (list A) :=
  match l with
  | [] => Some []
  | o :: rest => match o, all_ok rest with Some a, Some r => Some (a :: r) | _, _ => None end
  end.

Definition lan_networks (cidrs : string) : option (list IpNetwork) :=
  all_ok (map (fun c => ip_network (strip c))
    (List.filter (fun c => negb (bool_decide (strip c = ""))) (split_char "," cidrs))).

Definition LAN_DETAIL : string := "admin console is restricted to the local network".

Definition require_lan_client (request : ApiRequest) : M unit :=
  let! cfg := asks id in
  if bool_decide (admin_lan_cidrs cfg = "") then ret tt
  else
    let! ip := client_ip request in
    match ip_address ip with
    | None => raise (HTTPException 403 LAN_DETAIL [])
    | Some addr =>
        match lan_networks (admin_lan_cidrs cfg) with
        | None => raise (ValueError "ip_network")
        | Some nets =>
            if existsb (in_network addr) nets then ret tt
            else raise (HTTPException 403 LAN_DETAIL [])
        end
    end.

(** The configured origin the forwarded host selects; the first one by default. *)
Fixpoint origin_for (fwd_host : string) (origins : list string) (default : string) : result string :=
  match origins with
  | [] => Ok default
  | candidate :: rest =>
      match urlsplit candidate with
      | None => Raise (ValueError "urlsplit")
      | Some u => if bool_decide (lower (url_netloc u) = fwd_host) then Ok candidate
                  else origin_for fwd_host rest default
      end
  end.

Definition expected_htu (request : ApiRequest) : M string :=
  let! cfg := asks id in
  let origins := List.filter (fun o => negb (bool_decide (o = ""))) [admin_ui_origin cfg; portal_origin cfg] in
  match origins with
  | [] => ret (rq_url request)
  | first :: _ =>
      let fwd_host := lower (strip (before "," (default "" (header (rq_request request) "x-forwarded-host")))) in
      let! origin := lift (if bool_decide (fwd_host = "") then Ok first
                           else origin_for fwd_host origins first) in
      ret (rstrip_char "/" origin +:+ rq_path request)
  end.

(** The 401 of a request the resource server's check refuses. *)
Definition unauthenticated (err : string) : exn :=
  HTTPException 401 err
    [("WWW-Authenticate", "DPoP error=" +:+ String DQ err +:+ String DQ ", algs=" +:+
        String DQ "ES256" +:+ String DQ "")].

Section Deps.
Context {aead : Aead} {ec : EcKeys} {jose : Jose} {jwt : Jwt}.

Definition check_token (request : ApiRequest) : M AuthedRequest :=
  try_ (let! htu := expected_htu request in
        let! ip := client_ip request in
        let! now := utcnow in
        check_request (header (rq_request request) "authorization") (header (rq_request request) "dpop")
          (rq_method request) htu ip now)
    (fun x => match x with
              | RequestAuthError err _ => Some (raise (unauthenticated err))
              | _ => None
              end).

Definition is_admin (authed : AuthedRequest) : bool :=
  bool_decide (s_auth_tier (au_session authed) = "admin") && bool_decide (u_auth_tier (au_user authed) = "admin").

Definition admin_tier_only (authed : AuthedRequest) : M AuthedRequest :=
  if is_admin authed then ret authed else raise (HTTPException 403 "admin tier required" []).

Definition require_admin (request : ApiRequest) : M AuthedRequest :=
  require_lan_client request;;
  let! authed := check_token request in
  admin_tier_only authed.

Definition require_user (request : ApiRequest) : M AuthedRequest := check_token request.

Definition require_portal_admin (request : ApiRequest) : M AuthedRequest :=
  let! authed := check_token request in
  admin_tier_only authed.

Definition require_recent_stepup (request : ApiRequest) : M AuthedRequest :=
  let! authed := require_admin request in
  let! max_age := asks stepup_max_age in
  let! now := utcnow in
  match s_step_up_verified_at (au_session authed) with
  | None => raise (HTTPException 403 "stepup_required" [])
  | Some verified =>
      if seconds max_age <? now - verified then raise (HTTPException 403 "stepup_required" [])
      else ret authed
  end.

(** ** Specification *)

(** The client is inside one of the configured networks, or none is configured. *)
Definition on_lan (cfg : Settings) (request : ApiRequest) : Prop :=
  admin_lan_cidrs cfg = "" \/
  exists ip addr nets n, client_ip_of cfg (rq_request request) = Some ip /\ ip_address ip = Some addr
    /\ lan_networks (admin_lan_cidrs cfg) = Some nets /\ n ∈ nets /\ in_network addr n = true.

(** The URL a proof must be made for never takes more than the choice of a configured
    origin from the request's headers. *)
Definition htu_of (cfg : Settings) (request : ApiRequest) (htu : string) : Prop :=
  (admin_ui_origin cfg = "" /\ portal_origin cfg = "" /\ htu = rq_url request)
  \/ exists o, o ∈ [admin_ui_origin cfg; portal_origin cfg] /\ o <> ""
     /\ htu = rstrip_char "/" o +:+ rq_path request.

(** A request accepted by the token check, from the state [d]. *)
Definition token_checked (cfg : Settings) (d d' : Db) (request : ApiRequest) (au : AuthedRequest) : Prop :=
  exists htu ip now, htu_of cfg request htu /\ client_ip_of cfg (rq_request request) = Some ip
    /\ accepted_request cfg d d' (header (rq_request request) "authorization")
         (header (rq_request request) "dpop") (rq_method request) htu ip now au.

Definition admin_tier (au : AuthedRequest) : Prop :=
  s_auth_tier (au_session au) = "admin" /\ u_auth_tier (au_user au) = "admin".

(** ** Lemmas *)

Lemma api_client_ip_Ok rq e s ip s' :
  client_ip rq e s = (Ok ip, s') -> s' = s /\ client_ip_of (settings e) (rq_request rq) = Some ip.
Proof. apply Pages.client_ip_Ok. Qed.

Lemma require_lan_Ok rq e s u s' : require_lan_client rq e s = (Ok u, s') ->
  s' = s /\ on_lan (settings e) rq.
Proof.
  unfold require_lan_client. intros Hr. mread Hr. case_bool_decide as E.
  - unfold ret in Hr. injection Hr as _ <-. split; [done|by left].
  - mstep Hr ip s1 H1. apply api_client_ip_Ok in H1 as [-> Hip].
    destruct (ip_address ip) as [addr|] eqn:Ea; [|done].
    destruct (lan_networks _) as [nets|] eqn:En; [|done]. destruct (existsb _ _) eqn:Ex; [|done].
    unfold ret in Hr. injection Hr as _ <-. split; [done|]. right.
    apply existsb_exists in Ex as (n & Hn & Hin). exists ip, addr, nets, n.
    split_and!; try done. by apply list_elem_of_In.
Qed.

Lemma origin_for_Ok h os d o : origin_for h os d = Ok o -> o ∈ os \/ o = d.
Proof.
  induction os as [|c os IH]; simpl; [intros [= ->]; by right|].
  destruct (urlsplit c); [|done]. case_bool_decide; [intros [= <-]; left; left|].
  intros H1. destruct (IH H1); [left; by right|by right].
Qed.

Lemma expected_htu_Ok rq e s htu s' : expected_htu rq e s = (Ok htu, s') ->
  s' = s /\ htu_of (settings e) rq htu.
Proof.
  unfold expected_htu. intros Hr. mread Hr.
  set (origins := List.filter _ _) in Hr.
  assert (forall o, o ∈ origins -> o ∈ [admin_ui_origin (settings e); portal_origin (settings e)] /\ o <> "") as Hf.
  { intros o Ho. apply list_elem_of_In, filter_In in Ho as [Hi Hn]. split; [by apply list_elem_of_In|].
    by bool_simpl. }
  destruct origins as [|first rest] eqn:Eo.
  - unfold ret in Hr. injection Hr as <- <-. split; [done|]. left.
    unfold origins in Eo. simpl in Eo. revert Eo. repeat case_bool_decide; simpl; intros Eo; done.
  - mlift Hr o Ho. unfold ret in Hr. injection Hr as <- <-. split; [done|]. right. exists o.
    assert (o ∈ first :: rest) as Hin.
    { case_bool_decide; [injection Ho as <-; left|]. apply origin_for_Ok in Ho as [Ho|Ho]; [done|].
      rewrite Ho. left. }
    destruct (Hf o Hin). split_and!; done.
Qed.

(** The token is checked at the first reading of the clock. *)
Lemma check_token_at rq e s au s' : check_token rq e s = (Ok au, s') ->
  exists htu ip, htu_of (settings e) rq htu /\ client_ip_of (settings e) (rq_request rq) = Some ip
    /\ accepted_request (settings e) (db s) (db s') (header (rq_request rq) "authorization")
         (header (rq_request rq) "dpop") (rq_method rq) htu ip (clock e (tick s)) au.
Proof.
  unfold check_token, try_. intros Hr.
  destruct ((let! htu := expected_htu rq in _) e s) as [[a|x] s1] eqn:E.
  - injection Hr as -> ->. mstep E htu s2 H2. apply expected_htu_Ok in H2 as [-> Hh].
    mstep E ip s3 H3. apply api_client_ip_Ok in H3 as [-> Hip]. mread E.
    apply check_request_accepted in E. exists htu, ip. done.
  - destruct x; done.
Qed.

Lemma check_token_Ok rq e s au s' : check_token rq e s = (Ok au, s') ->
  token_checked (settings e) (db s) (db s') rq au.
Proof. intros (htu & ip & H)%check_token_at. by exists htu, ip, (clock e (tick s)). Qed.

Lemma admin_tier_only_Ok au e s au' s' : admin_tier_only au e s = (Ok au', s') ->
  s' = s /\ au' = au /\ admin_tier au.
Proof.
  unfold admin_tier_only, is_admin. intros Hr. destruct (_ && _) eqn:E; [|done].
  unfold ret in Hr. injection Hr as <- <-. bool_simpl. done.
Qed.

Lemma require_admin_inv rq e s au s' : require_admin rq e s = (Ok au, s') ->
  on_lan (settings e) rq /\ admin_tier au /\ check_token rq e s = (Ok au, s').
Proof.
  unfold require_admin. intros Hr. mstep Hr u s1 H1. apply require_lan_Ok in H1 as [-> Hl].
  mstep Hr a s2 H2. apply admin_tier_only_Ok in Hr as (-> & -> & Ha). done.
Qed.

Lemma require_admin_Ok rq e s au s' : require_admin rq e s = (Ok au, s') ->
  on_lan (settings e) rq /\ admin_tier au /\ token_checked (settings e) (db s) (db s') rq au.
Proof. intros (H1 & H2 & H3%check_token_Ok)%require_admin_inv. done. Qed.

(** What a sensitive action of the administration API stands on. *)
Record stepped_up (e : Env) (d d' : Db) (rq : ApiRequest) (au : AuthedRequest) : Prop := {
  su_lan : on_lan (settings e) rq;
  su_tier : admin_tier au;
  su_token : token_checked (settings e) d d' rq au;
  su_fresh : exists t now, s_step_up_verified_at (au_session au) = Some t
    /\ now - t <= seconds (stepup_max_age (settings e));
}.

Lemma require_stepup_inv rq e s au s' : require_recent_stepup rq e s = (Ok au, s') ->
  exists s1 t, require_admin rq e s = (Ok au, s1) /\ s' = mkSt (db s1) (S (tick s1))
  /\ s_step_up_verified_at (au_session au) = Some t
  /\ clock e (tick s1) - t <= seconds (stepup_max_age (settings e)).
Proof.
  unfold require_recent_stepup. intros Hr. mstep Hr a s1 H1. mread Hr.
  destruct (s_step_up_verified_at _) as [t|] eqn:Et; [|done]. destruct (_ <? _) eqn:El; [done|].
  unfold ret in Hr. injection Hr as <- <-. exists s1, t. split_and!; [done..|]. by apply Z.ltb_ge.
Qed.

Lemma require_stepup_Ok rq e s au s' : require_recent_stepup rq e s = (Ok au, s') ->
  stepped_up e (db s) (db s') rq au.
Proof.
  intros (s1 & t & H1 & -> & Ht & Hl)%require_stepup_inv.
  apply require_admin_Ok in H1 as (H1 & H2 & H3). constructor; try done. by exists t, (clock e (tick s1)).
Qed.

(** What the dependencies may do to the database: remember the proof and touch, stale or
    revoke the session. *)
Section Frame.
Context (R : Db -> Db -> Prop) `{!PreOrder R}.
Context (Hjti : forall d f, R d (upd_dpop_jti_seen f d)).
Context (Hlive : forall sid ip now enf, steps R (check_liveness sid ip now enf)).

Lemma steps_lan rq : steps R (require_lan_client rq).
Proof. unfold require_lan_client, client_ip. steps_auto. Qed.
Lemma steps_check_token rq : steps R (check_token rq).
Proof.
  pose proof (steps_verify_proof_pg R) as Hp.
  unfold check_token. apply steps_try; [apply _| |intros [] k; try done; intros [= <-]; steps_auto].
  unfold expected_htu, client_ip, check_request, or_token_error, or_dpop_error, authed_session,
    TokenEndpoint.active_user, TokenEndpoint.get_user, TokenEndpoint.get_session. cbv zeta. steps_auto;
    match goal with H : match ?x with _ => _ end = Some _ |- _ =>
      destruct x; try done; injection H as <-; steps_auto end.
Qed.
#[local] Hint Resolve steps_lan steps_check_token : hyproxy.
Lemma steps_admin_only au : steps R (admin_tier_only au).
Proof. unfold admin_tier_only. steps_auto. Qed.
#[local] Hint Resolve steps_admin_only : hyproxy.
Lemma steps_require_admin rq : steps R (require_admin rq).
Proof. unfold require_admin. steps_auto. Qed.
#[local] Hint Resolve steps_require_admin : hyproxy.
Lemma steps_require_stepup rq : steps R (require_recent_stepup rq).
Proof. unfold require_recent_stepup. steps_auto. Qed.
Lemma steps_require_user rq : steps R (require_user rq).
Proof. unfold require_user. steps_auto. Qed.
Lemma steps_require_portal rq : steps R (require_portal_admin rq).
Proof. unfold require_portal_admin. steps_auto. Qed.
End Frame.

(** ** Theorems *)

(** C16: A sensitive action of the administration API runs only for a client inside the
    configured networks (if any are), whose token and proof pass the resource server's
    check, at the first reading of the clock, for a URL on a configured origin (the
    request's own when none is configured), whose session was opened at the admin tier and
    whose user is still of that tier, and whose last step-up is at most the configured age
    old at the last reading of the clock. *)
Theorem admin_gate_sound rq e s au s' (Hrun : require_recent_stepup rq e s = (Ok au, s')) :
  on_lan (settings e) rq
  /\ s_auth_tier (au_session au) = "admin" /\ u_auth_tier (au_user au) = "admin"
  /\ (exists htu ip, htu_of (settings e) rq htu /\ client_ip_of (settings e) (rq_request rq) = Some ip
      /\ accepted_request (settings e) (db s) (db s') (header (rq_request rq) "authorization")
           (header (rq_request rq) "dpop") (rq_method rq) htu ip (clock e (tick s)) au)
  /\ exists t, s_step_up_verified_at (au_session au) = Some t
      /\ clock e (Nat.pred (tick s')) - t <= 1000000 * stepup_max_age (settings e).
Proof.
  apply require_stepup_inv in Hrun as (s1 & t & H1 & -> & Ht & Hl).
  apply require_admin_inv in H1 as (Hlan & [Hs Hu] & H1). split_and!; try done.
  - exact (check_token_at _ _ _ _ _ H1).
  - exists t. split; [done|]. unfold seconds in Hl. rewrite Z.mul_comm. exact Hl.
Qed.
End Deps.

(** ** Witnesses *)

#[local] Existing Instances clear_jose demo_jwt.

Definition demo_admin : User :=
  mkUser "sub-1" "root@example.com" "Root" "active" "admin" "hash" false 0 0.
Definition demo_admin_session : Session :=
  set_s_step_up_verified_at (Some (T0 - seconds 60))
    (new_session 11 demo_admin "10.0.0.1" ["pwd"; "webauthn"] T0 21600 "s").

(** A call of the administrator, and the database it meets. *)
Definition demo_admin_call (method path : string) : ApiRequest :=
  mkApiRequest (mkRequest
    [("authorization", default "" demo_auth);
     ("dpop", jws_sign (JObj [("typ", JStr "dpop+jwt"); ("alg", JStr "ES256"); ("jwk", demo_jwk)])
        (dumps_compact (JObj [("jti", JStr "jti-0003"); ("htm", JStr method);
           ("htu", JStr ("https://admin.example.com" +:+ path)); ("iat", JInt 1000000);
           ("ath", JStr (ath_of demo_access))])) "K1");
     ("x-forwarded-host", "Admin.example.com")] [] (Some "10.0.0.1"))
    method ("http://admin-backend" +:+ path) path.

Definition demo_admin_db (d : Db) : Db :=
  upd_users <[ 11 := demo_admin ]>
  (upd_sessions <[ 21 := demo_admin_session ]>
  (upd_signing_keys (fun _ => {[ 7 := TokenEndpoint.demo_signing ]}) d)).

Definition admin_env : Env := mkEnv example_settings T0 (fun _ => T0) (fun n => Z.of_nat n).

Example admin_gate_sound_witness : exists au s',
  require_recent_stepup (demo_admin_call "PATCH" "/api/v1/users/11") admin_env
    (mkSt (demo_admin_db empty_db) 0) = (Ok au, s')
  /\ on_lan example_settings (demo_admin_call "PATCH" "/api/v1/users/11")
  /\ exists t, s_step_up_verified_at (au_session au) = Some t
      /\ T0 - t <= 1000000 * stepup_max_age example_settings.
Proof.
  destruct (require_recent_stepup (demo_admin_call "PATCH" "/api/v1/users/11") admin_env
    (mkSt (demo_admin_db empty_db) 0)) as [[au|x] s'] eqn:E.
  - exists au, s'. split; [reflexivity|].
    destruct (admin_gate_sound _ _ _ _ _ E) as (H1 & _ & _ & _ & H2). split; [exact H1|exact H2].
  - exfalso. revert E. vm_compute. discriminate.
Defined.
