(* ===== verification/GatewayLogin.v ===== *)
(** * GatewayLogin: gateway.callback and authz/gwkey.py

    The gateway as a client of the issuer: its DPoP key and proofs, and the callback that
    exchanges the authorization code for tokens over HTTP and opens a gateway session.
    The key derivation and the elliptic-curve library are parameters, and so is the HTTP
    exchange, a computation that may do anything the issuer does. *)

From S2P Require Import Prelude PyStr Encoding Digest Json JsonText PyTime Config Db Effects Crypto Web.
From S2P Require Import Keys Events Sessions Dpop Tokens TokenEndpoint Pages Gateway.
Local Open Scope Z_scope.

(** HKDF-SHA256, a private key from its scalar, and the public JWK of a key. *)
Class GwCrypto := {
  hkdf : forall (length : nat) (salt info key : string), string;
  derive_private_key : Z -> string;
  public_jwk : string -> json;
}.

Definition P256_ORDER : Z := 0xFFFFFFFF00000000FFFFFFFFFFFFFFFFBCE6FAADA7179E84F3B9CAC2FC632551.

(** [int.from_bytes(b)], big endian. *)
Fixpoint int_of_bytes_acc (b : string) (acc : Z) : Z :=
  match b with EmptyString => acc | String c b' => int_of_bytes_acc b' (acc * 256 + ord c) end.
Definition int_of_bytes (b : string) : Z := int_of_bytes_acc b 0.

Record HttpResponse := mkHttpResponse { hr_status : Z; hr_content : string }.

Section GatewayLogin.
Context {aead : Aead} {ec : EcKeys} {jose : Jose} {jwt : Jwt} {gwc : GwCrypto}.
Context (run : list string -> ProcessResult).
(** [idp_http.post(path, data, headers={"DPoP": ...})]; [None] is an [httpx.HTTPError]. *)
Context (idp_post : string -> list (string * string) -> string -> M (option HttpResponse)).

(** ** gwkey.py *)

Definition key_scalar (okm : string) : Z := int_of_bytes okm mod (P256_ORDER - 1) + 1.

Definition gateway_dpop_key (backend : SecretsBackend) : result string :=
  match get_master_key backend (current_key_id backend) with
  | Raise x => Raise x
  | Ok master => Ok (derive_private_key (key_scalar (hkdf 32 "hyproxy-gateway-dpop" "v1" master)))
  end.

Definition make_proof (key htm htu : string) (access_token : option string) : M string :=
  let! jti := uuid4 in
  let! now := utcnow in
  let claims :=
    [("jti", JStr (uuid_hex jti)); ("htm", JStr htm); ("htu", JStr htu); ("iat", JInt (timestamp_int now))]
    ++ match access_token with Some t => [("ath", JStr (ath_of t))] | None => [] end in
  ret (jws_sign (JObj [("typ", JStr "dpop+jwt"); ("alg", JStr "ES256"); ("jwk", public_jwk key)])
         (dumps_default (JObj claims)) key).

(** ** gateway.py *)

Definition failed : Response := plain 400 "sign-in failed, start over".

(** [body[k]] of the parsed answer, as the token it is used for. *)
Definition token_of (body : json) (k : string) : M string :=
  match body with
  | JObj fields =>
      match assoc k fields with
      | Some (JStr t) => ret t
      | Some _ => raise (LibraryError "AttributeError")
      | None => raise (KeyError k)
      end
  | _ => raise (TypeError "indices")
  end.

(** The tokens of a successful answer, verified; [None] when they are refused. *)
Definition read_tokens (content : string) (now : Z) : M (option (AccessClaims * list (string * json))) :=
  try_
    (let! cfg := asks id in
     match json_loads content with
     | None => raise (ValueError "json")
     | Some body =>
         let! token := token_of body "access_token" in
         let! access := verify_access_token token now in
         let! token := token_of body "id_token" in
         let! claims := verify_id_token token (gateway_client_id cfg) now in
         ret (Some (access, claims))
     end)
    (fun x => match x with
              | TokenError _ | KeyError _ | ValueError _ => Some (ret None)
              | _ => None
              end).

(** The gateway session of a verified login. *)
Definition open_gateway_session (access : AccessClaims) (return_url ip : string) : M Response :=
  let! cfg := asks id in
  let! session := get_session (cl_sid access) in
  match session with
  | None => ret failed
  | Some session =>
      let! secret := new_token in
      let! gid := uuid4 in
      let! ts := server_now in
      db_add "gateway_sessions" gateway_sessions upd_gateway_sessions no_clash gid
        (mkGatewaySession (s_user_id session) (cl_sid access) (sha256_hex secret) ip ts None);;
      emit SESSION_CREATED ip true (Some (s_user_id session)) (Some (cl_sid access))
        (Some (gateway_client_id cfg)) [("stage", JStr "gateway")];;
      set_gateway_cookie (cookie_of gid secret) (redirect 303 return_url)
  end.

(** What follows the answer of the token endpoint. *)
Definition finish_login (row : GatewayLoginState) (answer : option HttpResponse) (ip : string) (now : Z)
  : M Response :=
  match answer with
  | None => ret (plain 502 "sign-in temporarily unavailable, try again")
  | Some r =>
      if negb (hr_status r =? 200) then ret failed
      else
        let! tokens := read_tokens (hr_content r) now in
        match tokens with
        | None => ret failed
        | Some (access, claims) =>
            if negb (is_str (gl_nonce row) (get "nonce" claims)) then ret failed
            else open_gateway_session access (gl_return_url row) ip
        end
  end.

Definition state_usable (row : GatewayLoginState) (ip : string) (now : Z) : bool :=
  (now <? gl_expires_at row) && bool_decide (gl_source_ip row = ip).

Definition callback (request : Request) (code state error : string) : M Response :=
  let! cfg := asks id in
  let! now := utcnow in
  let! ip := resolve_client_ip request in
  if negb (bool_decide (error = "")) then ret (plain 400 ("sign-in failed: " +:+ error))
  else if bool_decide (code = "") || bool_decide (state = "")
  then ret (plain 400 "missing code or state")
  else
    let! t := gets gateway_login_states in
    match t !! sha256_hex state with
    | None => ret (plain 400 "sign-in expired, start over")
    | Some row =>
        if negb (state_usable row ip now) then ret (plain 400 "sign-in expired, start over")
        else
          moddb (upd_gateway_login_states (delete (sha256_hex state)));;
          let! backend := secrets_backend run in
          let! key := lift (gateway_dpop_key backend) in
          let! proof := make_proof key "POST" (token_htu cfg) None in
          let! answer := idp_post "/oidc/token"
            [("grant_type", "authorization_code"); ("client_id", gateway_client_id cfg); ("code", code);
             ("redirect_uri", gateway_redirect_uri cfg); ("code_verifier", gl_code_verifier row)] proof in
          finish_login row answer ip now
    end.

(** ** Lemmas *)

(** The derived scalar is a valid private key of the group. *)
Lemma key_scalar_range okm : 1 <= key_scalar okm < P256_ORDER.
Proof.
  unfold key_scalar. assert (0 < P256_ORDER - 1) by (unfold P256_ORDER; lia).
  pose proof (Z.mod_pos_bound (int_of_bytes okm) (P256_ORDER - 1) ltac:(done)). lia.
Qed.

Lemma steps_make_proof R `{!PreOrder R} k htm htu a : steps R (make_proof k htm htu a).
Proof. unfold make_proof. cbv zeta. steps_auto. Qed.

Lemma read_tokens_Some content now e s access claims s' :
  read_tokens content now e s = (Ok (Some (access, claims)), s') ->
  s' = s /\ exists body at_ it, json_loads content = Some (JObj body)
    /\ assoc "access_token" body = Some (JStr at_) /\ assoc "id_token" body = Some (JStr it)
    /\ verify_access_token at_ now e s = (Ok access, s)
    /\ verify_id_token it (gateway_client_id (settings e)) now e s = (Ok claims, s).
Proof.
  assert (forall t c n e0 s0 r s1, verify_id_token t c n e0 s0 = (Ok r, s1) -> s1 = s0) as Hid.
  { intros t c n e0 s0 r s1 H. unfold verify_id_token in H. mread H. mlift H h Hh.
    destruct (negb _); [done|]. mstep H cl s2 H2.
    assert (s2 = s0) as ->.
    { unfold decode_with in H2. mread H2. destruct (scalar _) as [[k row]|]; [|done].
      mlift H2 key Hk. destruct (jwt_decode t key); [|done]. unfold ret in H2. by injection H2 as _ <-. }
    destruct (negb _); [done|]. destruct (negb _); [done|]. mlift H x Hx. unfold ret in H.
    by injection H as _ <-. }
  unfold read_tokens, try_. intros Hr.
  destruct ((let! cfg := asks id in _) e s) as [[[[a c]|]|x] s1] eqn:E.
  - injection Hr as -> -> ->. mread E. destruct (json_loads content) as [[]|] eqn:Ej; try done.
    unfold token_of in E. destruct (assoc "access_token" _) as [[]|] eqn:E1; try done. mread E.
    mstep E ac s2 H2. pose proof (verify_access_token_Ok _ _ _ _ _ _ H2) as [-> _].
    destruct (assoc "id_token" _) as [[]|] eqn:E2; try done. mread E. mstep E cl s3 H3.
    pose proof (Hid _ _ _ _ _ _ _ H3) as ->. unfold ret in E. injection E as <- <- <-. eauto 10.
  - done.
  - destruct x; done.
Qed.

(** ** Specification *)

(** The exchange with the issuer leaves the gateway's own tables alone. *)
Definition gateway_tables (d : Db) := (gateway_login_states d, gateway_sessions d).
Definition idp_keeps : Prop := forall path data proof, steps (same gateway_tables) (idp_post path data proof).

(** The tokens of the answer, as verified in the state the exchange left. *)
Definition tokens_good (e : Env) (d : Db) (now : Z) (nonce : string) (access : AccessClaims) : Prop :=
  exists at_ it claims, (exists kid rid row cl, good_access (settings e) d at_ now access kid rid row cl)
    /\ (exists s0, db s0 = d /\ verify_id_token it (gateway_client_id (settings e)) now e s0 = (Ok claims, s0))
    /\ get "nonce" claims = JStr nonce.

(** The gateway session a callback opens, and its answer. *)
Record gateway_opened (e : Env) (d d' : Db) (row : GatewayLoginState) (ip : string) (now : Z)
    (resp : Response) : Prop := {
  go_session : exists d1 access se gid secret, tokens_good e d1 now (gl_nonce row) access
    /\ sessions d1 !! cl_sid access = Some se
    /\ gateway_sessions d !! gid = None
    /\ gateway_sessions d' = <[gid := mkGatewaySession (s_user_id se) (cl_sid access) (sha256_hex secret)
                                        ip (tx_now e) None]> (gateway_sessions d)
    /\ rs_cookies resp = [SetCookie (gateway_cookie_name (settings e)) (cookie_of gid secret) true true
         "lax" "/" (nonempty (Some (gateway_cookie_domain (settings e)))) (Some (refresh_abs_ttl (settings e)))];
  go_redirect : rs_status resp = 303 /\ rs_body resp = RedirectTo (gl_return_url row);
}.

Lemma open_gateway_session_Ok access url ip e s resp s' :
  open_gateway_session access url ip e s = (Ok resp, s') ->
  gateway_login_states (db s') = gateway_login_states (db s)
  /\ ((gateway_sessions (db s') = gateway_sessions (db s) /\ rs_cookies resp = [])
      \/ exists se gid secret, sessions (db s) !! cl_sid access = Some se
         /\ gateway_sessions (db s) !! gid = None
         /\ gateway_sessions (db s') = <[gid := mkGatewaySession (s_user_id se) (cl_sid access)
                                    (sha256_hex secret) ip (tx_now e) None]> (gateway_sessions (db s))
         /\ rs_cookies resp = [SetCookie (gateway_cookie_name (settings e)) (cookie_of gid secret) true true
              "lax" "/" (nonempty (Some (gateway_cookie_domain (settings e)))) (Some (refresh_abs_ttl (settings e)))]
         /\ rs_status resp = 303 /\ rs_body resp = RedirectTo url).
Proof.
  unfold open_gateway_session, get_session. intros Hr. mread Hr.
  destruct (sessions (db s) !! cl_sid access) as [se|] eqn:E.
  2: { unfold ret in Hr. injection Hr as <- <-. split; [done|]. by left. }
  unfold new_token in Hr. mstep Hr secret s1 H1. apply token_urlsafe_Ok in H1 as [Hd1 _].
  unfold uuid4 in Hr. mstep Hr gid s2 H2. minv H2. mread Hr. mstep Hr u3 s3 H3.
  apply db_add_Ok in H3 as (Hn & _ & Hd3 & _). simpl in Hn, Hd3. mstep Hr u4 s4 H4.
  apply emit_Ok in H4 as (_ & Hd4 & _). unfold set_gateway_cookie in Hr. mread Hr. unfold ret in Hr.
  injection Hr as <- <-. rewrite Hd4. simpl. rewrite Hd3. simpl. rewrite Hd1 in *. split; [done|]. right.
  exists se. eexists _, secret. split_and!; [done|exact Hn|done..].
Qed.

Lemma finish_login_Ok row answer ip now e s resp s' :
  finish_login row answer ip now e s = (Ok resp, s') ->
  gateway_login_states (db s') = gateway_login_states (db s)
  /\ ((gateway_sessions (db s') = gateway_sessions (db s) /\ rs_cookies resp = [])
      \/ gateway_opened e (db s) (db s') row ip now resp).
Proof.
  unfold finish_login. intros Hr.
  destruct answer as [r|]; [|unfold ret in Hr; injection Hr as <- <-; by auto].
  destruct (negb _); [unfold ret in Hr; injection Hr as <- <-; by auto|].
  mstep Hr tokens s1 H1. destruct tokens as [[access claims]|].
  2: { assert (db s1 = db s) as Hd.
       { apply (same_steps_eq (@id Db)) in H1; [exact H1|]. unfold read_tokens, token_of.
         apply steps_try; [apply _| |intros [] k; try done; intros [= <-]; steps_auto].
         unfold verify_access_token, verify_id_token, decode_with. steps_auto. }
       unfold ret in Hr. injection Hr as <- <-. rewrite Hd. by auto. }
  apply read_tokens_Some in H1 as (-> & body & at_ & it & _ & _ & _ & Ha & Hi).
  destruct (is_str (gl_nonce row) _) eqn:En; cbn [negb] in Hr;
    [|unfold ret in Hr; injection Hr as <- <-; by auto].
  apply open_gateway_session_Ok in Hr as [Hl [H|(se & gid & secret & H1 & H2 & H3 & H4 & H5 & H6)]]; [by auto|].
  split; [done|]. right. apply verify_access_token_Ok in Ha as [_ Hg]. constructor; [|done].
  exists (db s), access, se, gid, secret. split_and!; try done. exists at_, it, claims.
  split_and!; [done|by exists s|by apply is_str_get].
Qed.

(** C17: The callback opens a gateway session only for a login this browser started: the state
    parameter names a parked login that has not expired at the time of the request and was
    started from this address; the tokens of the exchange verify under the issuer's keys and
    the ID token carries the nonce of that very login; the session is for the user of the
    issuer's session the access token names, bound to the address, and the browser is sent
    to the parked URL.  The attempt on such a login spends it: whatever comes of the
    exchange, an answer of any kind, the parked login is gone and at most that session is
    new; and a callback on anything else changes nothing.  (An exception ends the request
    without an answer and takes all back.  The exchange with the issuer leaves the
    gateway's own tables alone.) *)
Theorem callback_sound rq code state error e s resp s' (Hidp : idp_keeps)
    (Hrun : callback rq code state error e s = (Ok resp, s')) :
  (forall row ip, error = "" -> code <> "" -> state <> "" ->
     gateway_login_states (db s) !! sha256_hex state = Some row ->
     clock e (tick s) < gl_expires_at row -> client_ip_of (settings e) rq = Some ip -> gl_source_ip row = ip ->
     gateway_login_states (db s') = delete (sha256_hex state) (gateway_login_states (db s)))
  /\ ((gateway_login_states (db s') = gateway_login_states (db s)
        /\ gateway_sessions (db s') = gateway_sessions (db s) /\ rs_cookies resp = [])
      \/ exists row ip, gateway_login_states (db s) !! sha256_hex state = Some row
         /\ clock e (tick s) < gl_expires_at row /\ client_ip_of (settings e) rq = Some ip
         /\ gl_source_ip row = ip /\ code <> ""
         /\ gateway_login_states (db s') = delete (sha256_hex state) (gateway_login_states (db s))
         /\ ((gateway_sessions (db s') = gateway_sessions (db s) /\ rs_cookies resp = [])
             \/ gateway_opened e (db s) (db s') row ip (clock e (tick s)) resp)).
Proof.
  unfold callback in Hrun. mread Hrun. mstep Hrun ip s1 H1.
  apply Pages.client_ip_Ok in H1 as [-> Hip].
  destruct (negb _) eqn:Ee; [unfold ret in Hrun; injection Hrun as <- <-; split; [|by left]|].
  { intros row ip' ->. done. }
  destruct (bool_decide (code = "") || _) eqn:Ec; [unfold ret in Hrun; injection Hrun as <- <-; split; [|by left]|].
  { intros row ip' _ H1 H2. rewrite !bool_decide_eq_false_2 in Ec by done. done. }
  mread Hrun. cbn [db] in Hrun.
  destruct (gateway_login_states (db s) !! sha256_hex state) as [row|] eqn:Erow;
    [|unfold ret in Hrun; injection Hrun as <- <-; split; [done|by left]].
  destruct (state_usable row ip _) eqn:Eu; cbn [negb] in Hrun.
  2: { unfold ret in Hrun; injection Hrun as <- <-. split; [|by left].
       intros row' ip' _ _ _ [= <-] Hl Hip' Hs. unfold state_usable in Eu. rewrite Hip in Hip'. injection Hip' as <-.
       by rewrite (proj2 (Z.ltb_lt _ _) Hl), bool_decide_eq_true_2 in Eu. }
  enough (gateway_login_states (db s') = delete (sha256_hex state) (gateway_login_states (db s))
    /\ ((gateway_sessions (db s') = gateway_sessions (db s) /\ rs_cookies resp = [])
        \/ gateway_opened e (db s) (db s') row ip (clock e (tick s)) resp)) as [Hg Hor].
  { split; [done|]. right. exists row, ip. unfold state_usable in Eu. bool_simpl. by split_and!. }
  rewrite bind_moddb in Hrun. mstep Hrun b s2 H2.
  assert (db s2 = upd_gateway_login_states (delete (sha256_hex state)) (db s)) as Hd2.
  { unfold secrets_backend in H2. mread H2. unfold lift in H2. injection H2 as _ <-. done. }
  mlift Hrun key Hk. mstep Hrun proof s3 H3. apply (same_steps_eq (@id Db)) in H3; [|apply steps_make_proof, _].
  unfold id in H3. mstep Hrun answer s4 H4.
  pose proof (same_steps_eq gateway_tables _ _ _ _ _ (Hidp _ _ _) H4) as Hg. unfold gateway_tables in Hg.
  rewrite H3, Hd2 in Hg. injection Hg as Hg1 Hg2. simpl in Hg1, Hg2.
  apply finish_login_Ok in Hrun as [Hf Hor]. rewrite Hf, Hg1. split; [done|].
  destruct Hor as [[Ea Eb]|[(d1 & ac & se & gid & sec & Ht & Hse & Hn & Hi & Hc) Hred]].
  - left. by rewrite Ea.
  - right. rewrite Hg2 in Hn, Hi. constructor; [|done]. by exists d1, ac, se, gid, sec.
Qed.
End GatewayLogin.

(** ** Witnesses *)

#[local] Existing Instances clear_jose demo_jwt.

Definition demo_gwc : GwCrypto := {|
  hkdf _ salt info key := salt +:+ info +:+ key;
  derive_private_key scalar := dec_str scalar;
  public_jwk _ := demo_jwk;
|}.

Definition demo_gw_access : string :=
  jwt_encode [("alg", JStr "ES256"); ("kid", JStr "k0"); ("typ", JStr "at+jwt")]
    (access_claims example_settings demo_user 21 (demo_session "s") "gateway" "openid" "K1" T0 5) "PEM".
Definition demo_gw_id : string :=
  jwt_encode [("alg", JStr "ES256"); ("kid", JStr "k0"); ("typ", JStr "JWT")]
    (id_claims example_settings demo_user 21 (demo_session "s") "gateway" "nonce-1" T0 T0) "PEM".

(** An issuer that answers with these tokens, and touches nothing. *)
Definition demo_issuer (_ : string) (_ : list (string * string)) (_ : string) : M (option HttpResponse) :=
  ret (Some (mkHttpResponse 200
    (dumps_compact (JObj [("access_token", JStr demo_gw_access); ("id_token", JStr demo_gw_id)])))).

Lemma demo_issuer_keeps : idp_keeps demo_issuer.
Proof. intros path data proof. unfold demo_issuer. steps_auto. Qed.

Definition demo_parked : GatewayLoginState :=
  mkGatewayLoginState "verifier" "nonce-1" "https://app.example.com/x" "10.0.0.1" T0 (T0 + seconds 600).
Definition demo_callback_db : Db :=
  upd_gateway_login_states (fun _ => {[ sha256_hex "state-1" := demo_parked ]})
    (demo_oidc (demo_code None) (demo_refresh None)).

Example callback_sound_witness : exists resp s' row ip,
  callback (gwc := demo_gwc) demo_unseal demo_issuer
    (mkRequest [] [] (Some "10.0.0.1")) "code" "state-1" "" oidc_env (mkSt demo_callback_db 0) = (Ok resp, s')
  /\ gateway_opened oidc_env demo_callback_db (db s') row ip T0 resp.
Proof.
  destruct (callback (gwc := demo_gwc) demo_unseal demo_issuer
    (mkRequest [] [] (Some "10.0.0.1")) "code" "state-1" "" oidc_env (mkSt demo_callback_db 0))
    as [r s'] eqn:E.
  assert (match r with Ok resp => rs_status resp | Raise _ => 0 end = 303) as Hst.
  { change r with ((r, s').1). rewrite <- E. vm_compute. reflexivity. }
  assert (match r with Ok resp => List.length (rs_cookies resp) | Raise _ => 0%nat end = 1%nat) as Hck.
  { change r with ((r, s').1). rewrite <- E. vm_compute. reflexivity. }
  destruct r as [resp|x]; [|discriminate Hst].
  destruct (callback_sound (gwc := demo_gwc) demo_unseal demo_issuer _ _ _ _ _ _ _ _
    demo_issuer_keeps E) as [_ [(_ & _ & Hc)|(row & ip & _ & _ & _ & _ & _ & _ & [(_ & Hc)|Ho])]].
  - exfalso. rewrite Hc in Hck. discriminate Hck.
  - exfalso. rewrite Hc in Hck. discriminate Hck.
  - exists resp, s', row, ip. split; [reflexivity|exact Ho].
Defined.
