(* ===== verification/Cascade.v ===== *)
(** * Cascade: the foreign keys of db/models.py when a row is deleted

    [ON DELETE CASCADE] and [ON DELETE SET NULL] of the tables that refer to users,
    sessions, roles and resources, and the refusal where a key has no such clause. *)

From S2P Require Import Prelude Json Config Db Effects.
Local Open Scope Z_scope.

(** The rows that refer to the sessions a predicate takes, and these sessions. *)
Definition drop_sessions (gone : Session -> bool) (d : Db) : Db :=
  let of_gone sid := match sessions d !! sid with Some se => gone se | None => false end in
  upd_auth_codes (delete_where (fun _ r => of_gone (ac_session_id r)))
  (upd_refresh_tokens (delete_where (fun _ r => of_gone (rt_session_id r)))
  (upd_login_flows (delete_where (fun _ r =>
     match lf_completed_session_id r with Some sid => of_gone sid | None => false end))
  (upd_gateway_sessions (delete_where (fun _ r => of_gone (gs_idp_session_id r)))
  (upd_sessions (delete_where (fun _ r => gone r)) d)))).

Definition of_uid (uid : Z) (owner : Z) : bool := bool_decide (owner = uid).

(** [DELETE FROM users] of one row. *)
Definition drop_user (uid : Z) (d : Db) : Db :=
  upd_users (delete uid)
  (upd_user_roles (List.filter (fun ur => negb (of_uid uid ur.1)))
  (upd_guac_grants (delete_where (fun _ r => of_uid uid (gg_user_id r)))
  (upd_rtsp_grants (delete_where (fun _ r => of_uid uid (rg_user_id r)))
  (upd_download_requests (fun t =>
     update_where (fun _ r => bool_decide (dr_reviewed_by r = Some uid)) (set_dr_reviewed_by None)
       (delete_where (fun _ r => of_uid uid (dr_user_id r)) t))
  (upd_user_totp (delete uid)
  (upd_webauthn_credentials (delete_where (fun _ r => of_uid uid (wc_user_id r)))
  (upd_recovery_codes (delete_where (fun _ r => of_uid uid (rcd_user_id r)))
  (upd_login_flows (delete_where (fun _ r => bool_decide (lf_user_id r = Some uid)))
  (upd_gateway_sessions (delete_where (fun _ r => of_uid uid (gs_user_id r)))
  (upd_auth_codes (delete_where (fun _ r => of_uid uid (ac_user_id r)))
  (upd_refresh_tokens (delete_where (fun _ r => of_uid uid (rt_user_id r)))
  (drop_sessions (fun se => of_uid uid (s_user_id se)) d)))))))))))).

(** A change in the history refers to its actor without a clause: the delete is refused. *)
Definition db_delete_user (uid : Z) : M unit :=
  let! changes := gets policy_changes in
  if existsb (fun c => of_uid uid (pc_actor_id c)) changes then raise (IntegrityError "policy_changes")
  else moddb (drop_user uid).

Definition db_delete_role (rid : Z) : M unit :=
  moddb (fun d =>
    upd_roles (delete rid)
    (upd_user_roles (List.filter (fun ur => negb (of_uid rid ur.2)))
    (upd_policies (delete_where (fun _ p => of_uid rid (p_role_id p))) d))).

Definition db_delete_resource (rid : Z) : M unit :=
  moddb (fun d =>
    upd_resources (delete rid)
    (upd_resource_connections (delete_where (fun _ r => of_uid rid (rc_resource_id r)))
    (upd_guac_grants (delete_where (fun _ r => of_uid rid (gg_resource_id r)))
    (upd_rtsp_grants (delete_where (fun _ r => of_uid rid (rg_resource_id r)))
    (upd_policies (delete_where (fun _ r => of_uid rid (p_resource_id r)))
    (upd_public_sessions (delete_where (fun _ r => of_uid rid (ps_resource_id r))) d)))))).

(** ** Laws *)

(** Nothing that a deleted user could still act with remains. *)
Record forgotten (d : Db) (uid : Z) : Prop := {
  fg_user : users d !! uid = None;
  fg_roles : forall r, (uid, r) ∉ user_roles d;
  fg_sessions : forall sid se, sessions d !! sid = Some se -> s_user_id se <> uid;
  fg_gateway : forall k r, gateway_sessions d !! k = Some r -> gs_user_id r <> uid;
  fg_codes : forall k r, auth_codes d !! k = Some r -> ac_user_id r <> uid;
  fg_refresh : forall k r, refresh_tokens d !! k = Some r -> rt_user_id r <> uid;
  fg_credentials : forall k r, webauthn_credentials d !! k = Some r -> wc_user_id r <> uid;
  fg_totp : user_totp d !! uid = None;
  fg_recovery : forall k r, recovery_codes d !! k = Some r -> rcd_user_id r <> uid;
  fg_flows : forall k r, login_flows d !! k = Some r -> lf_user_id r <> Some uid;
}.

Lemma delete_where_Some {K A} `{Countable K} (p : K -> A -> bool) t k a :
  delete_where p t !! k = Some a -> t !! k = Some a /\ p k a = false.
Proof.
  rewrite lookup_delete_where. destruct (t !! k) as [b|]; [|done]. simpl.
  destruct (p k b) eqn:E; [done|]. by intros [= <-].
Qed.

Lemma of_uid_false uid o : of_uid uid o = false -> o <> uid.
Proof. unfold of_uid. by rewrite bool_decide_eq_false. Qed.

Lemma drop_user_forgets uid d : forgotten (drop_user uid d) uid.
Proof.
  constructor; simpl.
  - apply lookup_delete_eq.
  - intros r Hin. apply list_elem_of_In, filter_In in Hin as [_ Hin]. simpl in Hin.
    unfold of_uid in Hin. by rewrite bool_decide_eq_true_2 in Hin.
  - intros k r [_ H%of_uid_false]%delete_where_Some. done.
  - intros k r [_ H%of_uid_false]%delete_where_Some. done.
  - intros k r [_ H%of_uid_false]%delete_where_Some. done.
  - intros k r [_ H%of_uid_false]%delete_where_Some. done.
  - intros k r [_ H%of_uid_false]%delete_where_Some. done.
  - apply lookup_delete_eq.
  - intros k r [_ H%of_uid_false]%delete_where_Some. done.
  - intros k r [_ H]%delete_where_Some. by bool_simpl.
Qed.

(** Another user keeps their row, their sessions and their passkeys. *)
Lemma drop_user_others uid d :
  (forall v, v <> uid -> users (drop_user uid d) !! v = users d !! v)
  /\ (forall sid se, sessions d !! sid = Some se -> s_user_id se <> uid ->
        sessions (drop_user uid d) !! sid = Some se)
  /\ (forall k c, webauthn_credentials d !! k = Some c -> wc_user_id c <> uid ->
        webauthn_credentials (drop_user uid d) !! k = Some c).
Proof.
  split_and!; simpl.
  - intros v Hv. by rewrite lookup_delete_ne.
  - intros sid se Hs Hu. rewrite lookup_delete_where, Hs. simpl. unfold of_uid.
    by rewrite bool_decide_eq_false_2.
  - intros k c Hs Hu. rewrite lookup_delete_where, Hs. simpl. unfold of_uid.
    by rewrite bool_decide_eq_false_2.
Qed.

(** ** Counting rows *)

Section Counting.
Context {K A : Type} `{Countable K}.
Implicit Types (p : K -> A -> bool) (t : gmap K A).

Lemma select_NoDup p t : NoDup (select p t).
Proof. unfold select. apply NoDup_filter, NoDup_map_to_list. Qed.

Lemma count_where_ext p t1 t2 :
  (forall k a, t1 !! k = Some a /\ p k a = true <-> t2 !! k = Some a /\ p k a = true) ->
  count_where p t1 = count_where p t2.
Proof.
  intros E. unfold count_where. f_equal. apply Permutation_length, NoDup_Permutation; [apply select_NoDup..|].
  intros [k a]. by rewrite !select_In.
Qed.

Lemma count_where_delete p t k a : t !! k = Some a -> p k a = true ->
  count_where p (delete k t) = count_where p t - 1.
Proof.
  intros Hk Hp. unfold count_where.
  assert (select p t ≡ₚ (k, a) :: select p (delete k t)) as ->; [|simpl; lia].
  apply NoDup_Permutation; [apply select_NoDup|apply NoDup_cons; split; [|apply select_NoDup]|].
  - rewrite select_In, lookup_delete_eq. by intros [? _].
  - intros [i b]. rewrite elem_of_cons, !select_In, lookup_delete_Some. split.
    + intros [Hi Hb]. destruct (decide (k = i)) as [->|]; [left|right]; [congruence|done].
    + intros [[= -> ->]|[[Hne Hi] Hb]]; done.
Qed.

Lemma count_where_delete_other p t k a : t !! k = Some a -> p k a = false ->
  count_where p (delete k t) = count_where p t.
Proof.
  intros Hk Hp. apply count_where_ext. intros i b. rewrite lookup_delete_Some. split; [tauto|].
  intros [Hi Hb]. split; [|done]. split; [|done]. intros ->. congruence.
Qed.
End Counting.
