(* ===== verification/Users.v ===== *)
(** * Users: admin/routes/users.py and admin/changes.py

    The administration of users.  A handler starts with its dependency; a refusal is an
    [HTTPException]. *)

From S2P Require Import Prelude PyStr Encoding Json PyTime Config Db Effects Crypto Web Cascade.
From S2P Require Import Events Keys Passwords Sessions Dpop Tokens Grants TokenEndpoint ResourceServer.
From S2P Require Import AdminDeps.
Local Open Scope Z_scope.

(** ** changes.py *)

Definition opt_obj (o : option (list (string * json))) : json :=
  match o with Some fields => JObj fields | None => JNull end.

Definition record_change (actor_id : Z) (entity_type : string) (entity_id : option Z) (action : string)
    (before after : option (list (string * json))) : M unit :=
  let! ts := server_now in
  moddb (upd_policy_changes (fun l => l ++
    [mkPolicyChange ts actor_id entity_type entity_id action
       [("before", opt_obj before); ("after", opt_obj after)]])).

(** ** users.py *)

Record UserCreate := mkUserCreate {
  uc_email : string; uc_display_name : string; uc_auth_tier : string; uc_temp_password : string }.
Record UserPatch := mkUserPatch {
  up_display_name : option string; up_status : option string; up_auth_tier : option string }.

Record UserOut := mkUserOut {
  uo_id : Z; uo_external_id : string; uo_email : string; uo_display_name : string; uo_status : string;
  uo_auth_tier : string; uo_is_protected : bool; uo_created_at : Z }.
Definition user_out (uid : Z) (u : User) : UserOut :=
  mkUserOut uid (u_external_id u) (u_email u) (u_display_name u) (u_status u) (u_auth_tier u)
    (u_is_protected u) (u_created_at u).

Record CredentialOut := mkCredentialOut {
  co_id : Z; co_friendly_name : string; co_break_glass : bool; co_created_at : Z;
  co_last_used_at : option Z }.
Definition credential_out (id : Z) (c : WebAuthnCredential) : CredentialOut :=
  mkCredentialOut id (wc_friendly_name c) (wc_break_glass c) (wc_created_at c) (wc_last_used_at c).

Record SessionOut := mkSessionOut {
  so_id : Z; so_source_ip : string; so_auth_tier : string; so_issued_at : Z; so_last_seen_at : Z;
  so_stale : bool; so_revoked_at : option Z }.
Definition session_out (id : Z) (se : Session) : SessionOut :=
  mkSessionOut id (s_source_ip se) (s_auth_tier se) (s_issued_at se) (s_last_seen_at se) (s_stale se)
    (s_revoked_at se).

Definition user_snapshot (u : User) : list (string * json) :=
  [("email", JStr (u_email u)); ("display_name", JStr (u_display_name u));
   ("status", JStr (u_status u)); ("auth_tier", JStr (u_auth_tier u))].

Definition get_user_or_404 (uid : Z) : M User :=
  let! t := gets users in
  match t !! uid with
  | Some u => ret u
  | None => raise (HTTPException 404 "user not found" [])
  end.

Definition strong_of (uid : Z) (_ : Z) (c : WebAuthnCredential) : bool :=
  bool_decide (wc_user_id c = uid) && negb (wc_break_glass c).

Definition strong_credential_count (uid : Z) : M Z :=
  let! t := gets webauthn_credentials in ret (count_where (strong_of uid) t).

(** The sessions an administrator's revocation takes. *)
Definition revocable (uid : Z) (exclude : option Z) (sid : Z) (se : Session) : bool :=
  bool_decide (s_user_id se = uid) && bool_decide (s_revoked_at se = None)
  && negb (bool_decide (exclude = Some sid)).

Definition revoke_user_sessions (uid : Z) (ip reason : string) (exclude : option Z) : M unit :=
  let! t := gets sessions in
  for_ (select (revocable uid exclude) t) (fun row =>
    revoke_for_session row.1;;
    Sessions.revoke row.1 reason ip).

Definition set_user (uid : Z) (f : User -> User) : M unit := moddb (upd_users (alter f uid)).

Section Users.
Context {aead : Aead} {ec : EcKeys} {jose : Jose} {jwt : Jwt} {argon : Argon}.

Definition list_users (request : ApiRequest) : M (list UserOut) :=
  require_admin request;;
  let! t := gets users in
  ret (map (fun kv => user_out kv.1 kv.2) (order_by (fun kv => u_created_at kv.2) (map_to_list t))).

Definition get_user_out (request : ApiRequest) (uid : Z) : M UserOut :=
  require_admin request;;
  let! u := get_user_or_404 uid in ret (user_out uid u).

(** The clash of a new user with the unique columns. *)
Definition same_user (external_id email : string) (u : User) : bool :=
  bool_decide (u_external_id u = external_id) || citext_eq (u_email u) email.

Definition create_user (request : ApiRequest) (body : UserCreate) : M UserOut :=
  let! authed := require_recent_stepup request in
  let! t := gets users in
  match scalar (select (fun _ u => citext_eq (u_email u) (uc_email body)) t) with
  | Some _ => raise (HTTPException 409 "email already exists" [])
  | None =>
      let! n := uuid4 in
      let external_id := "user-" +:+ uuid_str n in
      let! password_hash := hash_password (uc_temp_password body) in
      let! uid := uuid4 in
      let! ts := server_now in
      let user := mkUser external_id (uc_email body) (uc_display_name body) "active"
                    (uc_auth_tier body) password_hash false ts ts in
      db_add "users" users upd_users (same_user external_id (uc_email body)) uid user;;
      record_change (au_uid authed) "user" (Some uid) "create" None (Some (user_snapshot user));;
      ret (user_out uid user)
  end.

(** The patched row. *)
Definition patched (body : UserPatch) (now : Z) (u : User) : User :=
  set_u_updated_at now
    (set_u_status (default (u_status u) (up_status body))
      (set_u_auth_tier (default (u_auth_tier u) (up_auth_tier body))
        (match up_display_name body with Some n => set_u_display_name n u | None => u end))).

Definition patch_user (request : ApiRequest) (uid : Z) (body : UserPatch) : M UserOut :=
  let! authed := require_recent_stepup request in
  let! user := get_user_or_404 uid in
  let new_tier := default (u_auth_tier user) (up_auth_tier body) in
  let new_status := default (u_status user) (up_status body) in
  if u_is_protected user && (bool_decide (new_status = "disabled") || negb (bool_decide (new_tier = "admin")))
  then raise (HTTPException 409 "the bootstrap admin cannot be disabled or demoted" [])
  else
    let! short :=
      (if bool_decide (new_tier = "admin") && negb (bool_decide (u_auth_tier user = "admin"))
       then let! n := strong_credential_count uid in ret (n <? 2)
       else ret false) in
    if short
    then raise (HTTPException 409 "admin tier requires two enrolled non-break-glass passkeys" [])
    else
      let! now := utcnow in
      set_user uid (patched body now);;
      let user' := patched body now user in
      when (bool_decide (u_status user = "active") && bool_decide (u_status user' = "disabled"))
        (let! ip := client_ip request in revoke_user_sessions uid ip "admin_action" None);;
      record_change (au_uid authed) "user" (Some uid) "update" (Some (user_snapshot user))
        (Some (user_snapshot user'));;
      ret (user_out uid user').

Definition delete_user (request : ApiRequest) (uid : Z) : M unit :=
  let! authed := require_recent_stepup request in
  let! user := get_user_or_404 uid in
  if bool_decide (uid = au_uid authed) then raise (HTTPException 409 "cannot delete yourself" [])
  else if u_is_protected user
  then raise (HTTPException 409 "the bootstrap admin cannot be deleted" [])
  else
    let! ip := client_ip request in
    revoke_user_sessions uid ip "admin_action" None;;
    db_delete_user uid;;
    record_change (au_uid authed) "user" (Some uid) "delete" (Some (user_snapshot user)) None.

Definition list_credentials (request : ApiRequest) (uid : Z) : M (list CredentialOut) :=
  require_admin request;;
  get_user_or_404 uid;;
  let! t := gets webauthn_credentials in
  ret (map (fun kv => credential_out kv.1 kv.2)
    (order_by (fun kv => wc_created_at kv.2)
      (select (fun _ c => bool_decide (wc_user_id c = uid)) t))).

Definition delete_credential (request : ApiRequest) (uid cid : Z) : M unit :=
  let! authed := require_recent_stepup request in
  let! user := get_user_or_404 uid in
  let! t := gets webauthn_credentials in
  match t !! cid with
  | None => raise (HTTPException 404 "credential not found" [])
  | Some row =>
      if negb (bool_decide (wc_user_id row = uid))
      then raise (HTTPException 404 "credential not found" [])
      else
        let! short :=
          (if bool_decide (u_auth_tier user = "admin") && bool_decide (u_status user = "active")
              && negb (wc_break_glass row)
           then let! n := strong_credential_count uid in ret (n <=? 2)
           else ret false) in
        if short
        then raise (HTTPException 409 "active admin must keep two non-break-glass passkeys" [])
        else
          moddb (upd_webauthn_credentials (delete cid));;
          record_change (au_uid authed) "webauthn_credential" (Some cid) "delete"
            (Some [("friendly_name", JStr (wc_friendly_name row)); ("user_id", JStr (uuid_str uid))])
            None
  end.

Definition list_sessions (request : ApiRequest) (uid : Z) : M (list SessionOut) :=
  require_admin request;;
  get_user_or_404 uid;;
  let! t := gets sessions in
  ret (map (fun kv => session_out kv.1 kv.2)
    (order_by (fun kv => - s_issued_at kv.2) (select (fun _ se => bool_decide (s_user_id se = uid)) t))).

Definition revoke_sessions (request : ApiRequest) (uid : Z) : M unit :=
  let! authed := require_recent_stepup request in
  get_user_or_404 uid;;
  let! ip := client_ip request in
  revoke_user_sessions uid ip "admin_action" None;;
  record_change (au_uid authed) "session" (Some uid) "update" None (Some [("revoked", JStr "all")]).

Definition unused_code_of (uid : Z) (_ : Z) (r : RecoveryCode) : bool :=
  bool_decide (rcd_user_id r = uid) && bool_decide (rcd_used_at r = None).

Definition reset_totp (request : ApiRequest) (uid : Z) : M unit :=
  let! authed := require_recent_stepup request in
  let! user := get_user_or_404 uid in
  if bool_decide (u_auth_tier user = "admin")
  then raise (HTTPException 409 "admin accounts do not use TOTP" [])
  else
    let! ip := client_ip request in
    moddb (upd_user_totp (delete uid));;
    moddb (upd_recovery_codes (delete_where (unused_code_of uid)));;
    revoke_user_sessions uid ip "admin_action" None;;
    record_change (au_uid authed) "totp_reset" (Some uid) "update" None None;;
    emit ADMIN_TOTP_RESET ip true (Some uid) None None [("entity_id", JStr (uuid_str uid))].

Definition reset_password (request : ApiRequest) (uid : Z) (temp_password : string) : M unit :=
  let! authed := require_recent_stepup request in
  let! _ := get_user_or_404 uid in
  let! ip := client_ip request in
  let! hash := hash_password temp_password in
  let! now := utcnow in
  set_user uid (fun u => set_u_updated_at now (set_u_password_hash hash u));;
  revoke_user_sessions uid ip "admin_action" None;;
  record_change (au_uid authed) "password_reset" (Some uid) "update" None None;;
  emit ADMIN_PASSWORD_RESET ip true (Some uid) None None [("entity_id", JStr (uuid_str uid))].
End Users.
