(* ===== verification/UsersSafety.v ===== *)
(** * UsersSafety: what the administration of users guarantees *)

From S2P Require Import Prelude PyStr Encoding Json PyTime Config Db Effects Crypto Web Cascade.
From S2P Require Import Events Keys Passwords Sessions Dpop Tokens Grants TokenEndpoint ResourceServer.
From S2P Require Import AdminDeps Users.
Local Open Scope Z_scope.

(** ** Revocation of a user's sessions *)

(** The session exists and is revoked; the refresh token exists and is revoked. *)
Definition ended (d : Db) (sid : Z) : Prop := exists se,
  sessions d !! sid = Some se /\ s_revoked_at se <> None.
Definition token_ended (d : Db) (id : Z) : Prop := exists r,
  refresh_tokens d !! id = Some r /\ rt_revoked_at r <> None.

Lemma session_tokens_revoked t i (T : gmap Z RefreshToken) id r : T !! id = Some r ->
  exists r', update_where (of_session i) (set_rt_revoked_at (Some t)) T !! id = Some r'
  /\ rt_session_id r' = rt_session_id r
  /\ (rt_revoked_at r <> None \/ rt_session_id r = i -> rt_revoked_at r' <> None).
Proof.
  intros H. rewrite lookup_update_where, H. simpl. eexists. split; [done|]. unfold of_session.
  destruct (rt_session_id r =? i) eqn:E1; [|simpl; split; [done|]; intros [?|?]; [done|lia]].
  case_bool_decide; simpl; split; done.
Qed.

Lemma revoke_step sid reason ip e s u s' se : sessions (db s) !! sid = Some se ->
  (revoke_for_session sid;; Sessions.revoke sid reason ip) e s = (Ok u, s') ->
  (exists se', sessions (db s') = <[sid := se']> (sessions (db s)) /\ s_revoked_at se' <> None)
  /\ (exists t, refresh_tokens (db s')
        = update_where (of_session sid) (set_rt_revoked_at (Some t)) (refresh_tokens (db s))).
Proof.
  intros Hse Hr. erewrite bind_run in Hr; [|apply revoke_for_session_run]. split.
  - destruct (s_revoked_at se) as [t|] eqn:E.
    + unfold Sessions.revoke in Hr. rewrite (bind_session_row _ se) in Hr by exact Hse. rewrite E in Hr.
      unfold ret in Hr. injection Hr as _ <-. exists se. simpl. rewrite insert_id by done.
      split; [done|]. by rewrite E.
    + eapply revoke_Ok in Hr; [|exact Hse|exact E]. eexists. split; [exact Hr|]. done.
  - pose proof (same_revoke refresh_tokens sid reason ip ltac:(by split)) as Hs.
    rewrite (same_steps_eq _ _ _ _ _ _ Hs Hr). by eexists.
Qed.

Lemma revoke_loop (l : list (Z * Session)) reason ip e : forall s u s',
  (forall sid se, (sid, se) ∈ l -> exists x, sessions (db s) !! sid = Some x) ->
  for_ l (fun row => revoke_for_session row.1;; Sessions.revoke row.1 reason ip) e s = (Ok u, s') ->
  (forall sid se, (sid, se) ∈ l -> ended (db s') sid)
  /\ (forall sid, ended (db s) sid -> ended (db s') sid)
  /\ (forall sid, sid ∉ l.*1 -> sessions (db s') !! sid = sessions (db s) !! sid)
  /\ (forall id, token_ended (db s) id -> token_ended (db s') id)
  /\ (forall id r, refresh_tokens (db s) !! id = Some r -> rt_session_id r ∈ l.*1 -> token_ended (db s') id).
Proof.
  induction l as [|[i row] l IH]; intros s u s' Hl Hr.
  - simpl in Hr. unfold ret in Hr. injection Hr as _ <-. split_and!; try done; intros; set_solver.
  - simpl in Hr. apply bind_Ok in Hr as (u1 & s1 & H1 & Hr).
    destruct (Hl i row ltac:(left)) as [x Hx].
    destruct (revoke_step _ _ _ _ _ _ _ _ Hx H1) as [(se' & Hs & Hrv) (t & Ht)].
    assert (ended (db s1) i) as Hi by (exists se'; by rewrite Hs, lookup_insert_eq).
    assert (forall sid, ended (db s) sid -> ended (db s1) sid) as Hk.
    { intros sid (y & Hy & Hyr). destruct (decide (sid = i)) as [->|Hne]; [done|].
      exists y. by rewrite Hs, lookup_insert_ne. }
    assert (forall id r, refresh_tokens (db s) !! id = Some r -> exists r', refresh_tokens (db s1) !! id = Some r'
      /\ rt_session_id r' = rt_session_id r
      /\ (rt_revoked_at r <> None \/ rt_session_id r = i -> rt_revoked_at r' <> None)) as Htk.
    { intros id r Hid. rewrite Ht. by apply session_tokens_revoked. }
    destruct (IH s1 u s') as (A & B & C & D & F); [|exact Hr|].
    { intros sid se Hin. destruct (Hl sid se ltac:(by right)) as [y Hy]. rewrite Hs.
      destruct (decide (sid = i)) as [->|]; [rewrite lookup_insert_eq|rewrite lookup_insert_ne by done]; eauto. }
    split_and!.
    + intros sid se Hin. apply elem_of_cons in Hin as [[= -> ->]|Hin]; [by apply B|by eapply A].
    + intros sid H. by apply B, Hk.
    + intros sid Hin. simpl in Hin. apply not_elem_of_cons in Hin as [Hne Hin].
      rewrite C by done. by rewrite Hs, lookup_insert_ne.
    + intros id (r & Hid & Hrr). apply D. destruct (Htk _ _ Hid) as (r' & H1' & _ & H2'). exists r'. auto.
    + intros id r Hid Hin. simpl in Hin. destruct (Htk _ _ Hid) as (r' & H1' & E' & H2').
      apply elem_of_cons in Hin as [E|Hin]; [apply D; exists r'; auto|].
      apply (F id r'); [done|by rewrite E'].
Qed.

(** Every live session of the user but the spared one is revoked with its refresh tokens;
    the other sessions are as they were. *)
Record sessions_ended (d d' : Db) (uid : Z) (exclude : option Z) : Prop := {
  se_ended : forall sid se, sessions d !! sid = Some se -> s_user_id se = uid ->
    exclude <> Some sid -> ended d' sid;
  se_others : forall sid se, sessions d !! sid = Some se -> s_user_id se <> uid \/ exclude = Some sid ->
    sessions d' !! sid = Some se;
  se_tokens : forall id r se, refresh_tokens d !! id = Some r -> sessions d !! rt_session_id r = Some se ->
    revocable uid exclude (rt_session_id r) se = true -> token_ended d' id;
}.

Lemma revoke_user_sessions_Ok uid ip reason exclude e s u s' :
  revoke_user_sessions uid ip reason exclude e s = (Ok u, s') ->
  sessions_ended (db s) (db s') uid exclude.
Proof.
  unfold revoke_user_sessions. intros Hr. mread Hr.
  pose proof (fun sid se => select_In (revocable uid exclude) (sessions (db s)) sid se) as Hsel.
  apply revoke_loop in Hr as (A & B & C & D & F); [|intros sid se Hin%Hsel; by exists se; apply Hin].
  assert (forall sid, sid ∈ (select (revocable uid exclude) (sessions (db s))).*1 <->
    exists se, sessions (db s) !! sid = Some se /\ revocable uid exclude sid se = true) as Hfst.
  { intros sid. rewrite list_elem_of_fmap. split.
    - intros ([i se] & -> & Hin%Hsel). eauto.
    - intros (se & Hin%Hsel). by exists (sid, se). }
  constructor.
  - intros sid se Hs Hu Hex. destruct (s_revoked_at se) as [t|] eqn:E.
    + apply B. exists se. by rewrite E.
    + eapply A, Hsel. split; [exact Hs|]. unfold revocable.
      rewrite !bool_decide_eq_true_2, bool_decide_eq_false_2 by done. done.
  - intros sid se Hs Hor. rewrite C; [done|]. rewrite Hfst. intros (se' & Hs' & Hrv).
    rewrite Hs in Hs'. injection Hs' as <-. unfold revocable in Hrv. bool_simpl. naive_solver.
  - intros id r se Hid Hs Hrv. eapply F; [exact Hid|]. apply Hfst. eauto.
Qed.

(** What the revocation leaves alone. *)
Lemma steps_revoke_user R `{!PreOrder R} uid ip reason exclude :
  (forall d f, R d (upd_refresh_tokens f d)) -> (forall sid, steps R (Sessions.revoke sid reason ip)) ->
  steps R (revoke_user_sessions uid ip reason exclude).
Proof. intros H1 H2. unfold revoke_user_sessions, revoke_for_session. steps_auto. Qed.

(** A view that neither the dependencies, nor a revocation, nor the change log touch. *)
Record apart {X} (view : Db -> X) : Prop := {
  ap_outside : outside view;
  ap_jti : forall f d, view (upd_dpop_jti_seen f d) = view d;
  ap_refresh : forall f d, view (upd_refresh_tokens f d) = view d;
  ap_changes : forall f d, view (upd_policy_changes f d) = view d;
}.

Section Safety.
Context {aead : Aead} {ec : EcKeys} {jose : Jose} {jwt : Jwt} {argon : Argon}.

Section Frame.
Context {X} (view : Db -> X) (Hv : apart view).

Lemma apart_revoke uid ip reason exclude : steps (same view) (revoke_user_sessions uid ip reason exclude).
Proof.
  apply steps_revoke_user; [apply _|intros d f; apply Hv|intros sid; apply same_revoke, Hv].
Qed.
Lemma apart_change a t i k b c : steps (same view) (record_change a t i k b c).
Proof. unfold record_change. steps_auto. apply steps_moddb. intros d. apply Hv. Qed.
Lemma apart_stepup rq : steps (same view) (require_recent_stepup rq).
Proof.
  apply steps_require_stepup; [apply _|intros d f; apply Hv|]. intros. apply same_check_liveness, Hv.
Qed.
Lemma apart_admin rq : steps (same view) (require_admin rq).
Proof.
  apply steps_require_admin; [apply _|intros d f; apply Hv|]. intros. apply same_check_liveness, Hv.
Qed.
Lemma apart_emit t ip ok uid sid cid detail : steps (same view) (emit t ip ok uid sid cid detail).
Proof. apply same_emit, Hv. Qed.
End Frame.

(** The dependency takes no session away, changes none but the caller's, and revives none. *)
Lemma stepup_sessions rq e s au s1 : require_recent_stepup rq e s = (Ok au, s1) -> sess_mono (db s) (db s1).
Proof.
  intros Hr. assert (steps sess_mono (require_recent_stepup rq)) as Hs.
  { apply steps_require_stepup; [apply _| |intros; apply sess_mono_check_liveness].
    intros d f. by apply grows_same. }
  specialize (Hs e s). by rewrite Hr in Hs.
Qed.

Lemma get_user_Ok uid e s u s' : get_user_or_404 uid e s = (Ok u, s') ->
  s' = s /\ users (db s) !! uid = Some u.
Proof.
  unfold get_user_or_404. intros Hr. mread Hr. destruct (users (db s) !! uid); [|done].
  unfold ret in Hr. by injection Hr as -> <-.
Qed.

Definition strong_count (d : Db) (uid : Z) : Z := count_where (strong_of uid) (webauthn_credentials d).

Lemma count_Ok uid e s n s' : strong_credential_count uid e s = (Ok n, s') ->
  s' = s /\ n = strong_count (db s) uid.
Proof. unfold strong_credential_count. intros Hr. mread Hr. unfold ret in Hr. by injection Hr as <- <-. Qed.

(** Through the dependency, sessions keep their keys and their users. *)
Lemma mono_session_user d d' sid se : sess_mono d d' -> sessions d !! sid = Some se ->
  exists se', sessions d' !! sid = Some se' /\ s_user_id se' = s_user_id se.
Proof.
  intros Hm Hs. destruct (Hm _ _ Hs) as (se' & Hs' & _ & Hx). exists se'. split; [done|].
  unfold s_login in Hx. by injection Hx.
Qed.

Lemma ended_from d d1 d' uid : sess_mono d d1 -> sessions_ended d1 d' uid None ->
  forall sid se, sessions d !! sid = Some se -> s_user_id se = uid -> ended d' sid.
Proof.
  intros Hm He sid se Hs Hu. destruct (mono_session_user _ _ _ _ Hm Hs) as (se1 & Hs1 & Hu1).
  eapply (se_ended _ _ _ _ He); [exact Hs1|by rewrite Hu1|done].
Qed.

Lemma change_Ok a t i k b c e s u s' : record_change a t i k b c e s = (Ok u, s') ->
  exists row, db s' = upd_policy_changes (fun l => l ++ [row]) (db s) /\ pc_actor_id row = a.
Proof. unfold record_change. intros Hr. minv Hr. by eexists. Qed.

(** ** Patching a user *)

(** The row after the patch: a protected administrator stays one, and nobody is promoted
    without two passkeys that are not for emergencies. *)
Record patch_allowed (d : Db) (uid : Z) (u u' : User) : Prop := {
  pa_protected : u_is_protected u = true -> u_auth_tier u' = "admin" /\ u_status u' <> "disabled";
  pa_promotion : u_auth_tier u' = "admin" -> u_auth_tier u <> "admin" -> 2 <= strong_count d uid;
}.

Lemma patched_tier body now u : u_auth_tier (patched body now u) = default (u_auth_tier u) (up_auth_tier body).
Proof. unfold patched. by destruct (up_display_name body). Qed.
Lemma patched_status body now u : u_status (patched body now u) = default (u_status u) (up_status body).
Proof. unfold patched. by destruct (up_display_name body). Qed.

Lemma patch_user_Ok rq uid body e s out s' : patch_user rq uid body e s = (Ok out, s') ->
  exists au d1 u now, stepped_up e (db s) d1 rq au /\ users (db s) !! uid = Some u
    /\ patch_allowed (db s) uid u (patched body now u)
    /\ users (db s') = <[uid := patched body now u]> (users (db s))
    /\ webauthn_credentials (db s') = webauthn_credentials (db s)
    /\ (u_status u = "active" -> u_status (patched body now u) = "disabled" ->
        forall sid se, sessions (db s) !! sid = Some se -> s_user_id se = uid -> ended (db s') sid)
    /\ out = user_out uid (patched body now u).
Proof.
  unfold patch_user. intros Hr. mstep Hr au s1 H1.
  pose proof (same_steps_eq users _ _ _ _ _ (apart_stepup users ltac:(by repeat split) rq) H1) as Hus1.
  pose proof (same_steps_eq webauthn_credentials _ _ _ _ _ (apart_stepup webauthn_credentials ltac:(by repeat split) rq) H1) as Hw1.
  pose proof (stepup_sessions _ _ _ _ _ H1) as Hm. apply require_stepup_Ok in H1.
  mstep Hr u s2 H2. apply get_user_Ok in H2 as [-> Hu]. cbv zeta in Hr. rewrite Hus1 in Hu.
  destruct (u_is_protected u && _) eqn:Ep; [done|]. mstep Hr short s3 H3.
  assert (s3 = s1 /\ (short = false -> u_auth_tier u <> "admin" ->
    default (u_auth_tier u) (up_auth_tier body) = "admin" -> 2 <= strong_count (db s) uid)) as [-> Hshort].
  { destruct (bool_decide (default _ _ = "admin") && negb _) eqn:Et.
    - mstep H3 n s4 H4. apply count_Ok in H4 as [-> ->]. unfold ret in H3. injection H3 as <- <-.
      split; [done|]. intros Hn _ _. unfold strong_count in *. rewrite Hw1 in Hn. lia.
    - unfold ret in H3. injection H3 as <- <-. split; [done|]. intros _ Ha Hb.
      by rewrite bool_decide_eq_true_2, bool_decide_eq_false_2 in Et by done. }
  destruct short; [done|]. mread Hr. unfold set_user in Hr. rewrite bind_moddb in Hr.
  set (u' := patched body (clock e (tick s1)) u) in *.
  mstep Hr u2 s4 H4. mstep Hr u3 s5 H5. apply change_Ok in H5 as (row & Hd5 & _).
  unfold ret in Hr. injection Hr as <- <-. rewrite Hd5. simpl.
  assert (users (db s4) = <[uid := u']> (users (db s)) /\ webauthn_credentials (db s4) = webauthn_credentials (db s)
    /\ (u_status u = "active" -> u_status u' = "disabled" ->
        forall sid se, sessions (db s) !! sid = Some se -> s_user_id se = uid -> ended (db s4) sid)) as (A & B & C).
  { assert (alter (patched body (clock e (tick s1))) uid (users (db s1)) = <[uid := u']> (users (db s))) as Ha.
    { rewrite Hus1. apply map_eq. intros i. destruct (decide (i = uid)) as [->|].
      - by rewrite lookup_alter_eq, Hu, lookup_insert_eq.
      - by rewrite lookup_alter_ne, lookup_insert_ne. }
    destruct (bool_decide (u_status u = "active") && _) eqn:Es; unfold when in H4.
    - mstep H4 ip s6 H6. apply api_client_ip_Ok in H6 as [-> _].
      pose proof (apart_revoke users ltac:(by repeat split) uid ip "admin_action" None) as Ru.
      pose proof (apart_revoke webauthn_credentials ltac:(by repeat split) uid ip "admin_action" None) as Rw.
      split_and!.
      + rewrite (same_steps_eq _ _ _ _ _ _ Ru H4). exact Ha.
      + rewrite (same_steps_eq _ _ _ _ _ _ Rw H4). exact Hw1.
      + intros _ _ sid se Hs Hsu. apply revoke_user_sessions_Ok in H4.
        eapply (ended_from (db s)); [|exact H4|exact Hs|exact Hsu]. exact Hm.
    - unfold ret in H4. injection H4 as _ <-. split_and!; [exact Ha|exact Hw1|].
      intros E1 E2. rewrite E1, E2 in Es. done. }
  exists au, (db s1), u, (clock e (tick s1)). split_and!; try done.
  constructor; rewrite patched_tier, ?patched_status.
  - intros Hp. rewrite Hp in Ep. simpl in Ep. apply orb_false_iff in Ep as [E1 E2]. by bool_simpl.
  - intros Ht Hn. by apply Hshort.
Qed.

(** An administrator's change of a user is only made after a step-up; it never disables
    nor demotes the protected administrator, never promotes a user with fewer than two
    passkeys that are not for emergencies, and replaces that user's row alone.  When it
    disables an active user, every session of the user ends with it. *)
Theorem patch_user_sound rq uid body e s out s' (Hrun : patch_user rq uid body e s = (Ok out, s')) :
  exists au d1 u now, stepped_up e (db s) d1 rq au /\ users (db s) !! uid = Some u
    /\ patch_allowed (db s) uid u (patched body now u)
    /\ users (db s') = <[uid := patched body now u]> (users (db s))
    /\ webauthn_credentials (db s') = webauthn_credentials (db s)
    /\ (u_status u = "active" -> u_status (patched body now u) = "disabled" ->
        forall sid se, sessions (db s) !! sid = Some se -> s_user_id se = uid -> ended (db s') sid)
    /\ out = user_out uid (patched body now u).
Proof. by apply patch_user_Ok. Qed.

(** ** Deleting a user *)

Lemma db_delete_user_Ok uid e s u s' : db_delete_user uid e s = (Ok u, s') ->
  db s' = drop_user uid (db s) /\ forall c, c ∈ policy_changes (db s) -> pc_actor_id c <> uid.
Proof.
  unfold db_delete_user. intros Hr. mread Hr. destruct (existsb _ _) eqn:Ex; [done|].
  unfold moddb in Hr. injection Hr as _ <-. split; [done|]. intros c Hc E.
  assert (existsb (fun c => of_uid uid (pc_actor_id c)) (policy_changes (db s)) = true) as Ht; [|congruence].
  apply existsb_exists. exists c. split; [by apply list_elem_of_In|]. unfold of_uid.
  by rewrite bool_decide_eq_true_2.
Qed.

Lemma delete_user_Ok rq uid e s r s' : delete_user rq uid e s = (Ok r, s') ->
  exists au d1 u d2, stepped_up e (db s) d1 rq au /\ users (db s) !! uid = Some u
    /\ uid <> au_uid au /\ u_is_protected u = false
    /\ users d2 = users (db s) /\ webauthn_credentials d2 = webauthn_credentials (db s)
    /\ policy_changes d2 = policy_changes (db s)
    /\ (forall c, c ∈ policy_changes (db s) -> pc_actor_id c <> uid)
    /\ exists row, db s' = upd_policy_changes (fun l => l ++ [row]) (drop_user uid d2)
       /\ pc_actor_id row = au_uid au.
Proof.
  unfold delete_user. intros Hr. mstep Hr au s1 H1.
  pose proof (same_steps_eq users _ _ _ _ _ (apart_stepup users ltac:(by repeat split) rq) H1) as Hus1.
  pose proof (same_steps_eq webauthn_credentials _ _ _ _ _ (apart_stepup webauthn_credentials ltac:(by repeat split) rq) H1) as Hw1.
  assert (policy_changes (db s1) = policy_changes (db s)) as Hc1.
  { eapply same_steps_eq; [|exact H1]. apply steps_require_stepup; [apply _|done|].
    intros. by apply same_check_liveness. }
  apply require_stepup_Ok in H1. mstep Hr u s2 H2. apply get_user_Ok in H2 as [-> Hu].
  case_bool_decide as Ei; [done|]. destruct (u_is_protected u) eqn:Ep; [done|].
  mstep Hr ip s3 H3. apply api_client_ip_Ok in H3 as [-> _]. mstep Hr u4 s4 H4.
  pose proof (apart_revoke users ltac:(by repeat split) uid ip "admin_action" None) as Ru.
  pose proof (apart_revoke webauthn_credentials ltac:(by repeat split) uid ip "admin_action" None) as Rw.
  assert (policy_changes (db s4) = policy_changes (db s1)) as Hc4.
  { eapply same_steps_eq; [|exact H4].
    apply steps_revoke_user; [apply _|done|intros; by apply same_revoke]. }
  pose proof (same_steps_eq _ _ _ _ _ _ Ru H4) as Hus4. pose proof (same_steps_eq _ _ _ _ _ _ Rw H4) as Hw4.
  mstep Hr u5 s5 H5. apply db_delete_user_Ok in H5 as [Hd5 Hno]. rewrite Hc4, Hc1 in Hno.
  apply change_Ok in Hr as (row & Hd & Hact). exists au, (db s1), u, (db s4).
  rewrite Hus1 in Hu. rewrite Hc4, Hc1, Hus4, Hus1, Hw4, Hw1. split_and!; try done.
  exists row. split; [rewrite Hd, Hd5; reflexivity|exact Hact].
Qed.

Lemma forgotten_change f d uid : forgotten d uid -> forgotten (upd_policy_changes f d) uid.
Proof. intros []. constructor; assumption. Qed.

(** Deleting a user is only done after a step-up, never to oneself nor to the protected
    administrator, and never to someone the change history names as an actor.  Afterwards
    nothing remains that the user could act with, and every other user keeps their row. *)
Theorem delete_user_sound rq uid e s r s' (Hrun : delete_user rq uid e s = (Ok r, s')) :
  exists au d1 u, stepped_up e (db s) d1 rq au /\ users (db s) !! uid = Some u
    /\ uid <> au_uid au /\ u_is_protected u = false
    /\ (forall c, c ∈ policy_changes (db s) -> pc_actor_id c <> uid)
    /\ forgotten (db s') uid /\ (forall v, v <> uid -> users (db s') !! v = users (db s) !! v).
Proof.
  apply delete_user_Ok in Hrun as (au & d1 & u & d2 & H1 & H2 & H3 & H4 & Hu & Hw & Hc & Hno & row & Hd & _).
  exists au, d1, u. rewrite Hd. split_and!; try done.
  - apply forgotten_change, drop_user_forgets.
  - intros v Hv. simpl. destruct (drop_user_others uid d2) as [Ho _]. rewrite <- Hu. by apply Ho.
Qed.

(** ** Two passkeys for every active administrator *)

(** An active administrator with fewer than two passkeys that are not for emergencies. *)
Definition short (d : Db) (uid : Z) : Prop := exists u,
  users d !! uid = Some u /\ u_auth_tier u = "admin" /\ u_status u = "active" /\ strong_count d uid < 2.

Lemma short_same d d' uid : users d' = users d -> webauthn_credentials d' = webauthn_credentials d ->
  short d' uid -> short d uid.
Proof. unfold short, strong_count. by intros -> ->. Qed.

Inductive user_op : Type :=
| CreateUser (body : UserCreate)
| PatchUser (uid : Z) (body : UserPatch)
| DeleteUser (uid : Z)
| DeleteCredential (uid cid : Z)
| RevokeSessions (uid : Z)
| ResetTotp (uid : Z)
| ResetPassword (uid : Z) (temp_password : string).

Definition serve_user (request : ApiRequest) (op : user_op) : M unit :=
  match op with
  | CreateUser body => create_user request body;; ret tt
  | PatchUser uid body => patch_user request uid body;; ret tt
  | DeleteUser uid => delete_user request uid
  | DeleteCredential uid cid => delete_credential request uid cid
  | RevokeSessions uid => revoke_sessions request uid
  | ResetTotp uid => reset_totp request uid
  | ResetPassword uid p => reset_password request uid p
  end.

(** The rows of users and passkeys. *)
Definition who (d : Db) := (users d, webauthn_credentials d).
Lemma apart_who : apart who.
Proof. by repeat split. Qed.
Lemma who_stepup rq e s au s1 : require_recent_stepup rq e s = (Ok au, s1) -> who (db s1) = who (db s).
Proof. apply same_steps_eq, apart_stepup, apart_who. Qed.
Lemma who_revoke uid ip r x e s u s1 : revoke_user_sessions uid ip r x e s = (Ok u, s1) -> who (db s1) = who (db s).
Proof. apply same_steps_eq, apart_revoke, apart_who. Qed.
Lemma who_change a t i k b c e s u s1 : record_change a t i k b c e s = (Ok u, s1) -> who (db s1) = who (db s).
Proof. apply same_steps_eq, apart_change, apart_who. Qed.
Lemma short_who d d' uid : who d' = who d -> short d' uid -> short d uid.
Proof. intros [= E1 E2]. by apply short_same. Qed.

Lemma count_delete_other uid v (t : gmap Z WebAuthnCredential) : v <> uid ->
  count_where (strong_of v) (delete_where (fun _ r => of_uid uid (wc_user_id r)) t) = count_where (strong_of v) t.
Proof.
  intros Hne. apply count_where_ext. intros k c. rewrite lookup_delete_where.
  destruct (t !! k) as [x|]; simpl; [|naive_solver]. unfold of_uid, strong_of.
  destruct (bool_decide (wc_user_id x = uid)) eqn:E; [|done]. split; [by intros [? _]|].
  intros [[= ->] Hs]. bool_simpl. congruence.
Qed.

Lemma create_user_Ok rq body e s out s' : create_user rq body e s = (Ok out, s') ->
  exists uid u, users (db s) !! uid = None /\ users (db s') = <[uid := u]> (users (db s))
    /\ webauthn_credentials (db s') = webauthn_credentials (db s) /\ u_auth_tier u = uc_auth_tier body
    /\ u_status u = "active" /\ u_is_protected u = false.
Proof.
  unfold create_user. intros Hr. mstep Hr au s1 H1. apply who_stepup in H1. mread Hr.
  destruct (scalar _); [done|]. unfold uuid4 in Hr. mstep Hr n s2 H2. minv H2. unfold hash_password in Hr.
  mstep Hr h s3 H3. minv H3. mstep Hr uid s4 H4. minv H4. mread Hr. cbv zeta in Hr.
  mstep Hr u5 s5 H5. apply db_add_Ok in H5 as (Hn & _ & Hd & _). simpl in Hn, Hd.
  mstep Hr u6 s6 H6. apply who_change in H6. unfold ret in Hr. injection Hr as _ <-.
  unfold who in *. injection H1 as E1 E2. injection H6 as E3 E4. rewrite E3, E4, Hd. simpl. rewrite <- E1, <- E2.
  eexists _, _. by split_and!.
Qed.

Lemma delete_credential_Ok rq uid cid e s r s' : delete_credential rq uid cid e s = (Ok r, s') ->
  exists u row, users (db s) !! uid = Some u /\ webauthn_credentials (db s) !! cid = Some row
    /\ wc_user_id row = uid
    /\ (u_auth_tier u = "admin" -> u_status u = "active" -> wc_break_glass row = false ->
        2 < strong_count (db s) uid)
    /\ users (db s') = users (db s)
    /\ webauthn_credentials (db s') = delete cid (webauthn_credentials (db s)).
Proof.
  unfold delete_credential. intros Hr. mstep Hr au s1 H1. apply who_stepup in H1. unfold who in H1.
  injection H1 as E1 E2. mstep Hr u s2 H2. apply get_user_Ok in H2 as [-> Hu]. mread Hr.
  destruct (webauthn_credentials (db s1) !! cid) as [row|] eqn:Erow; [|done].
  case_bool_decide as Eu; cbn [negb] in Hr; [|done]. mstep Hr sh s3 H3.
  assert (s3 = s1 /\ (sh = false -> u_auth_tier u = "admin" -> u_status u = "active" ->
    wc_break_glass row = false -> 2 < strong_count (db s1) uid)) as [-> Hsh].
  { destruct (_ && negb _) eqn:Et.
    - mstep H3 n s4 H4. apply count_Ok in H4 as [-> ->]. unfold ret in H3. injection H3 as <- <-.
      split; [done|]. intros Hn _ _ _. lia.
    - unfold ret in H3. injection H3 as <- <-. split; [done|]. intros _ Ha Hb Hc.
      by rewrite !bool_decide_eq_true_2, Hc in Et by done. }
  destruct sh; [done|]. rewrite bind_moddb in Hr. apply who_change in Hr. unfold who in Hr. simpl in Hr.
  injection Hr as E3 E4. exists u, row. unfold strong_count in *. rewrite E1 in Hu. rewrite E2 in Erow, Hsh.
  rewrite E3, E4, E1, E2. split_and!; try done. by apply Hsh.
Qed.

Lemma reset_password_Ok rq uid p e s r s' : reset_password rq uid p e s = (Ok r, s') ->
  exists h now, users (db s') = alter (fun u => set_u_updated_at now (set_u_password_hash h u)) uid (users (db s))
    /\ webauthn_credentials (db s') = webauthn_credentials (db s).
Proof.
  unfold reset_password. intros Hr. mstep Hr au s1 H1. apply who_stepup in H1. mstep Hr u s2 H2.
  apply get_user_Ok in H2 as [-> Hu]. mstep Hr ip s3 H3. apply api_client_ip_Ok in H3 as [-> _].
  unfold hash_password in Hr. mstep Hr h s4 H4. minv H4. mread Hr. unfold set_user in Hr. rewrite bind_moddb in Hr.
  mstep Hr u5 s5 H5. apply who_revoke in H5. mstep Hr u6 s6 H6. apply who_change in H6.
  apply emit_Ok in Hr as (_ & Hd & _). unfold who in *. simpl in H5. rewrite Hd. simpl.
  injection H1 as E1 E2. injection H5 as E3 E4. injection H6 as E5 E6. rewrite E5, E3, E6, E4, E1, E2. eauto.
Qed.

(** What cannot shorten an administrator of passkeys. *)
Lemma delete_user_short rq uid e s r s' v : delete_user rq uid e s = (Ok r, s') ->
  short (db s') v -> short (db s) v.
Proof.
  intros Hrun Hshort. apply delete_user_Ok in Hrun as (_ & _ & u & d2 & _ & _ & _ & _ & Hu2 & Hw2 & _ & _ & row & Hd & _).
  destruct Hshort as (x & Hx & Hxt & Hxs & Hc). rewrite Hd in Hx. unfold strong_count in Hc. rewrite Hd in Hc.
  change (delete uid (users d2) !! v = Some x) in Hx. apply lookup_delete_Some in Hx as [Hne Hx].
  change (count_where (strong_of v)
    (delete_where (fun _ r => of_uid uid (wc_user_id r)) (webauthn_credentials d2)) < 2) in Hc.
  rewrite count_delete_other in Hc by done. exists x. unfold strong_count. rewrite <- Hu2, <- Hw2. done.
Qed.

Lemma delete_credential_short rq uid cid e s r s' v : delete_credential rq uid cid e s = (Ok r, s') ->
  short (db s') v -> short (db s) v.
Proof.
  intros Hrun Hshort. apply delete_credential_Ok in Hrun as (u & row & Hu & Hrow & Ho & Hk & Hus & Hw).
  destruct Hshort as (x & Hx & Hxt & Hxs & Hc). rewrite Hus in Hx. unfold strong_count in Hc. rewrite Hw in Hc.
  exists x. split_and!; try done. unfold strong_count in *.
  destruct (strong_of v cid row) eqn:Es.
  + assert (v = uid) as -> by (unfold strong_of in Es; bool_simpl; congruence).
    rewrite Hu in Hx. injection Hx as <-. rewrite (count_where_delete _ _ _ _ Hrow Es) in Hc.
    unfold strong_of in Es. bool_simpl. specialize (Hk Hxt Hxs ltac:(done)). lia.
  + by rewrite (count_where_delete_other _ _ _ _ Hrow Es) in Hc.
Qed.

Lemma revoke_sessions_short rq uid e s r s' v : revoke_sessions rq uid e s = (Ok r, s') ->
  short (db s') v -> short (db s) v.
Proof.
  intros Hrun Hshort. revert Hshort. apply short_who. unfold revoke_sessions in Hrun. mstep Hrun au s1 H1.
  apply who_stepup in H1. mstep Hrun u s2 H2. apply get_user_Ok in H2 as [-> _]. mstep Hrun ip s3 H3.
  apply api_client_ip_Ok in H3 as [-> _]. mstep Hrun u4 s4 H4. apply who_revoke in H4. apply who_change in Hrun.
  by rewrite Hrun, H4.
Qed.

Lemma reset_totp_short rq uid e s r s' v : reset_totp rq uid e s = (Ok r, s') ->
  short (db s') v -> short (db s) v.
Proof.
  intros Hrun Hshort. revert Hshort. apply short_who. unfold reset_totp in Hrun. mstep Hrun au s1 H1.
  apply who_stepup in H1. mstep Hrun u s2 H2. apply get_user_Ok in H2 as [-> _]. case_bool_decide; [done|].
  mstep Hrun ip s3 H3. apply api_client_ip_Ok in H3 as [-> _]. rewrite !bind_moddb in Hrun.
  mstep Hrun u4 s4 H4. apply who_revoke in H4. mstep Hrun u5 s5 H5. apply who_change in H5.
  apply emit_Ok in Hrun as (_ & Hd & _). rewrite Hd. unfold who in *. simpl in *. by rewrite H5, H4.
Qed.

Lemma reset_password_short rq uid p e s r s' v : reset_password rq uid p e s = (Ok r, s') ->
  short (db s') v -> short (db s) v.
Proof.
  intros Hrun Hshort. apply reset_password_Ok in Hrun as (h & now & Hus & Hw).
  destruct Hshort as (x & Hx & Hxt & Hxs & Hc). unfold strong_count in Hc. rewrite Hw in Hc. rewrite Hus in Hx.
  destruct (decide (v = uid)) as [->|Hne].
  + rewrite lookup_alter_eq in Hx. destruct (users (db s) !! uid) as [y|] eqn:E; [|done].
    injection Hx as <-. by exists y.
  + rewrite lookup_alter_ne in Hx by done. by exists x.
Qed.

(** C19: No operation on users leaves an active administrator with fewer than two passkeys that
    are not for emergencies, unless the administrator was short of them before, was just
    created as an administrator, or was an administrator without being active and is made
    active again. *)
Theorem admin_keys_kept rq op e s r s' v
    (Hrun : serve_user rq op e s = (Ok r, s')) (Hshort : short (db s') v) :
  short (db s) v
  \/ (exists body, op = CreateUser body /\ uc_auth_tier body = "admin" /\ users (db s) !! v = None)
  \/ (exists body u, op = PatchUser v body /\ users (db s) !! v = Some u /\ u_auth_tier u = "admin"
      /\ u_status u <> "active").
Proof.
  destruct op as [body|uid body|uid|uid cid|uid|uid|uid p]; simpl in Hrun.
  - mstep Hrun out s1 H1. unfold ret in Hrun. injection Hrun as _ <-.
    apply create_user_Ok in H1 as (uid & u & Hn & Hus & Hw & Ht & _).
    destruct (decide (v = uid)) as [->|Hne].
    + right. left. exists body. destruct Hshort as (x & Hx & Hxt & _). rewrite Hus, lookup_insert_eq in Hx.
      injection Hx as <-. by rewrite <- Ht.
    + left. destruct Hshort as (x & Hx & Hr). rewrite Hus, lookup_insert_ne in Hx by done.
      exists x. unfold strong_count in *. by rewrite Hw in Hr.
  - mstep Hrun out s1 H1. unfold ret in Hrun. injection Hrun as _ <-.
    apply patch_user_Ok in H1 as (_ & _ & u & now & _ & Hu & [_ Hpro] & Hus & Hw & _).
    destruct Hshort as (x & Hx & Hxt & Hxs & Hc). unfold strong_count in Hc. rewrite Hw in Hc.
    destruct (decide (v = uid)) as [->|Hne].
    + rewrite Hus, lookup_insert_eq in Hx. injection Hx as <-.
      destruct (decide (u_auth_tier u = "admin")) as [Ha|Ha].
      * destruct (decide (u_status u = "active")) as [Hst|Hst]; [left; by exists u|].
        right. right. by exists body, u.
      * specialize (Hpro Hxt Ha). unfold strong_count in Hpro. lia.
    + rewrite Hus, lookup_insert_ne in Hx by done. left. by exists x.
  - left. by eapply delete_user_short.
  - left. by eapply delete_credential_short.
  - left. by eapply revoke_sessions_short.
  - left. by eapply reset_totp_short.
  - left. by eapply reset_password_short.
Qed.
End Safety.

(** ** Witnesses *)

#[local] Existing Instances clear_jose demo_jwt.

Definition users_demo : Db :=
  demo_admin_db
  (upd_users (fun _ => {[ 12 := mkUser "sub-12" "ada@example.com" "Ada" "active" "standard" "h" false 0 0;
                          13 := mkUser "sub-13" "bob@example.com" "Bob" "disabled" "admin" "h" false 0 0 ]})
  (upd_webauthn_credentials (fun _ => {[ 1 := mkWebAuthnCredential 12 "c1" "k1" 0 None None "a" false 0 None;
                                         2 := mkWebAuthnCredential 12 "c2" "k2" 0 None None "b" false 0 None ]})
  empty_db)).

Definition promote_12 : UserPatch := mkUserPatch None None (Some "admin").
Definition reactivate_13 : UserPatch := mkUserPatch None (Some "active") None.
Definition users_call : ApiRequest := demo_admin_call "PATCH" "/api/v1/users".

Example patch_user_sound_witness : exists out s',
  patch_user users_call 12 promote_12 admin_env (mkSt users_demo 0) = (Ok out, s')
  /\ exists u now, users users_demo !! 12 = Some u
     /\ users (db s') = <[12 := patched promote_12 now u]> (users users_demo).
Proof.
  destruct (patch_user users_call 12 promote_12 admin_env (mkSt users_demo 0)) as [[out|x] s'] eqn:E.
  - exists out, s'. split; [reflexivity|].
    destruct (patch_user_sound _ _ _ _ _ _ _ E) as (_ & _ & u & now & _ & Hu & _ & Hus & _).
    exists u, now. split; [exact Hu|exact Hus].
  - exfalso. revert E. vm_compute. discriminate.
Defined.

Example delete_user_sound_witness : exists r s',
  delete_user users_call 12 admin_env (mkSt users_demo 0) = (Ok r, s') /\ forgotten (db s') 12.
Proof.
  destruct (delete_user users_call 12 admin_env (mkSt users_demo 0)) as [[r|x] s'] eqn:E.
  - exists r, s'. split; [reflexivity|].
    destruct (delete_user_sound _ _ _ _ _ _ E) as (_ & _ & _ & _ & _ & _ & _ & _ & Hf & _). exact Hf.
  - exfalso. revert E. vm_compute. discriminate.
Defined.

(** Making a disabled administrator active again does not look at their passkeys. *)
Lemma reactivated_short : exists r s',
  serve_user (argon := Passwords.demo_argon) users_call (PatchUser 13 reactivate_13) admin_env
    (mkSt users_demo 0) = (Ok r, s')
  /\ short (db s') 13.
Proof.
  destruct (serve_user (argon := Passwords.demo_argon) users_call (PatchUser 13 reactivate_13) admin_env
    (mkSt users_demo 0)) as [[r|x] s'] eqn:E; [|exfalso; revert E; vm_compute; discriminate].
  exists r, s'. split; [reflexivity|]. change s' with ((Ok r, s').2). rewrite <- E. unfold short.
  eexists. split_and!; [vm_compute; reflexivity..|vm_compute; reflexivity].
Qed.

Example admin_keys_kept_witness : exists body u,
  PatchUser 13 reactivate_13 = PatchUser 13 body /\ users users_demo !! 13 = Some u
  /\ u_auth_tier u = "admin" /\ u_status u <> "active".
Proof.
  destruct reactivated_short as (r & s' & Hr & Hs).
  destruct (admin_keys_kept (argon := Passwords.demo_argon) _ _ _ _ _ _ _ Hr Hs) as [H|[H|H]].
  - exfalso. destruct H as (u & Hu & _ & Ha & _).
    assert (users (db (mkSt users_demo 0)) !! 13
      = Some (mkUser "sub-13" "bob@example.com" "Bob" "disabled" "admin" "h" false 0 0)) as Hu'
      by (vm_compute; reflexivity).
    rewrite Hu' in Hu. injection Hu as <-. discriminate Ha.
  - exfalso. destruct H as (body & H & _). discriminate H.
  - exact H.
Defined.
