(* ===== verification/Routes.v ===== *)
(** * Routes: authz/routes.py, the route table of the data plane *)

From S2P Require Import Prelude PyStr Json JsonText Config Db Effects.
Local Open Scope Z_scope.

Record RouteOut := mkRouteOut {
  ro_backend : option string;
  ro_backend_port : Z;
  ro_guac_tunnel : bool;
  ro_public_gate : bool;
}.

Definition HTTP_PROTOCOLS : list string := ["http"; "https"].

(** A row with a route: enabled, with a public host. *)
Definition routable (_ : Z) (r : Resource) : bool :=
  r_enabled r && bool_decide (r_public_host r <> None).

Definition route_host (r : Resource) : string :=
  rstrip_char "." (lower (strip (default "" (r_public_host r)))).

(** The route of a row: none without a host, for a protocol that is not HTTP, or without a port. *)
Definition route_of (r : Resource) : option RouteOut :=
  if bool_decide (route_host r = "") then None
  else if bool_decide (r_protocol r ∈ HTTP_PROTOCOLS) then
    match r_ports r with
    | [] => None
    | port :: _ =>
        Some (mkRouteOut (Some (r_protocol r +:+ "://" +:+ r_host r +:+ ":" +:+ dec_str port)) port false
                (r_public_access r))
    end
  else None.

(** The loop over the rows: a later row takes over the host of an earlier one. *)
Fixpoint build (rows : list (Z * Resource)) (table : gmap string RouteOut) : gmap string RouteOut :=
  match rows with
  | [] => table
  | (_, r) :: rest =>
      build rest (match route_of r with Some out => <[route_host r := out]> table | None => table end)
  end.

Definition routes : M (gmap string RouteOut) :=
  let! t := gets resources in
  ret (build (select routable t) ∅).

(** ** Laws *)

Lemma build_sound rows : forall table host out, build rows table !! host = Some out ->
  table !! host = Some out \/ exists id r, (id, r) ∈ rows /\ route_host r = host /\ route_of r = Some out.
Proof.
  induction rows as [|[i r] rows IH]; intros table host out H; simpl in H; [by left|].
  apply IH in H as [H|(id & r' & Hin & H1 & H2)].
  - destruct (route_of r) as [o|] eqn:E; [|by left].
    apply lookup_insert_Some in H as [[<- <-]|[_ H]]; [right|by left].
    exists i, r. split; [left|done].
  - right. exists id, r'. split; [by right|done].
Qed.

Lemma build_keeps rows : forall table host, is_Some (table !! host) -> is_Some (build rows table !! host).
Proof.
  induction rows as [|[i r] rows IH]; intros table host H; simpl; [done|]. apply IH.
  destruct (route_of r) as [o|]; [|done]. destruct (decide (route_host r = host)) as [->|].
  - rewrite lookup_insert_eq. by eexists.
  - by rewrite lookup_insert_ne.
Qed.

Lemma build_complete rows id r out : (id, r) ∈ rows -> route_of r = Some out ->
  forall table, is_Some (build rows table !! route_host r).
Proof.
  intros Hin Hr. induction rows as [|[i r'] rows IH]; intros table; [by apply elem_of_nil in Hin|].
  apply elem_of_cons in Hin as [[= <- <-]|Hin]; simpl.
  - rewrite Hr. apply build_keeps. rewrite lookup_insert_eq. by eexists.
  - by apply IH.
Qed.

(** The route table names exactly the hosts of the enabled HTTP resources with a public
    host and a port, and the backend of a route is the address, first port and protocol of
    such a row: nothing of a request takes part, and no tunnelled protocol is routed. *)
Theorem routes_spec e s table s' (Hrun : routes e s = (Ok table, s')) :
  s' = s
  /\ (forall host out, table !! host = Some out -> exists id r port rest,
        resources (db s) !! id = Some r /\ r_enabled r = true /\ route_host r = host /\ host <> ""
        /\ r_protocol r ∈ ["http"; "https"] /\ r_ports r = port :: rest
        /\ out = mkRouteOut (Some (r_protocol r +:+ "://" +:+ r_host r +:+ ":" +:+ dec_str port)) port
                   false (r_public_access r))
  /\ (forall id r, resources (db s) !! id = Some r -> r_enabled r = true ->
        r_protocol r ∈ ["http"; "https"] -> r_ports r <> [] -> route_host r <> "" ->
        is_Some (table !! route_host r)).
Proof.
  unfold routes in Hrun. mread Hrun. unfold ret in Hrun. injection Hrun as <- <-. split_and!; [done| |].
  - intros host out H. apply build_sound in H as [H|(id & r & Hin & Hh & Ho)]; [by rewrite lookup_empty in H|].
    apply select_In in Hin as [Hr Hp]. unfold routable in Hp. apply andb_true_iff in Hp as [He _].
    unfold route_of in Ho. case_bool_decide as E1; [done|]. case_bool_decide as E2; [|done].
    destruct (r_ports r) as [|port rest] eqn:Ep; [done|]. injection Ho as <-.
    exists id, r, port, rest. split_and!; try done. by rewrite <- Hh.
  - intros id r Hr He Hpr Hpo Hh.
    assert (exists out, route_of r = Some out) as [out Ho].
    { unfold route_of. rewrite bool_decide_eq_false_2, bool_decide_eq_true_2 by done.
      destruct (r_ports r); [done|]. by eexists. }
    eapply build_complete; [|exact Ho]. apply select_In. split; [exact Hr|]. unfold routable.
    rewrite He. simpl. apply bool_decide_eq_true. intros E. unfold route_host in Hh. by rewrite E in Hh.
Qed.

Example routes_spec_witness : exists table s',
  routes (mkEnv example_settings 0 (fun _ => 0) (fun _ => 0))
    (mkSt (upd_resources (fun _ => {[ 1 := mkResource "app" "http" (Some "App.example.com.") "10.0.0.5" [8080]
             None None true false None None None ]}) empty_db) 0) = (Ok table, s')
  /\ is_Some (table !! "app.example.com").
Proof.
  eexists _, _. split; [reflexivity|].
  match goal with |- is_Some (?t !! _) =>
    destruct (routes_spec (mkEnv example_settings 0 (fun _ => 0) (fun _ => 0))
      (mkSt (upd_resources (fun _ => {[ 1 := mkResource "app" "http" (Some "App.example.com.") "10.0.0.5" [8080]
             None None true false None None None ]}) empty_db) 0) t _ eq_refl) as (_ & _ & H) end.
  apply (H 1 (mkResource "app" "http" (Some "App.example.com.") "10.0.0.5" [8080]
             None None true false None None None)); [reflexivity|reflexivity|left|discriminate|vm_compute; discriminate].
Defined.
