(* ===== verification/Schemas.v ===== *)
(** * Schemas: admin/schemas.py, the bodies of the administration API

    The framework parses a body into typed fields; the constraints and validators of the
    models are here.  [None] is a validation error, the framework's answer 422.  A model
    whose fields a [before] validator reads has a raw form, with these fields as decoded
    JSON, and a checked form. *)

From S2P Require Import Prelude PyStr Json JsonText Effects Pathglob.
Local Open Scope Z_scope.

(** ** [str.isdigit] beyond ASCII *)

(** The code points above U+007F of Unicode 15.1 with the property Numeric_Type Digit or
    Decimal, as inclusive ranges. *)
Definition digit_ranges : list (Z * Z) :=
  [(178, 179); (185, 185); (1632, 1641); (1776, 1785); (1984, 1993); (2406, 2415); (2534, 2543);
   (2662, 2671); (2790, 2799); (2918, 2927); (3046, 3055); (3174, 3183); (3302, 3311); (3430, 3439);
   (3558, 3567); (3664, 3673); (3792, 3801); (3872, 3881); (4160, 4169); (4240, 4249); (4969, 4977);
   (6112, 6121); (6160, 6169); (6470, 6479); (6608, 6618); (6784, 6793); (6800, 6809); (6992, 7001);
   (7088, 7097); (7232, 7241); (7248, 7257); (8304, 8304); (8308, 8313); (8320, 8329); (9312, 9320);
   (9332, 9340); (9352, 9360); (9450, 9450); (9461, 9469); (9471, 9471); (10102, 10110);
   (10112, 10120); (10122, 10130); (42528, 42537); (43216, 43225); (43264, 43273); (43472, 43481);
   (43504, 43513); (43600, 43609); (44016, 44025); (65296, 65305); (66720, 66729); (68160, 68163);
   (68912, 68921); (69216, 69224); (69714, 69722); (69734, 69743); (69872, 69881); (69942, 69951);
   (70096, 70105); (70384, 70393); (70736, 70745); (70864, 70873); (71248, 71257); (71360, 71369);
   (71472, 71481); (71904, 71913); (72016, 72025); (72784, 72793); (73040, 73049); (73120, 73129);
   (73552, 73561); (92768, 92777); (92864, 92873); (93008, 93017); (120782, 120831); (123200, 123209);
   (123632, 123641); (124144, 124153); (125264, 125273); (127232, 127242); (130032, 130041)].

Definition isdigit (n : Z) : bool :=
  ((48 <=? n) && (n <=? 57)) || existsb (fun r => (r.1 <=? n) && (n <=? r.2)) digit_ranges.

(** [all(p(c) for c in s)] over the characters of a text. *)
Fixpoint all_codes (fuel : nat) (p : Z -> bool) (s : string) : bool :=
  match fuel, s with
  | _, EmptyString => true
  | O, _ => false
  | S f, _ => match utf8_next s with Some (n, rest) => p n && all_codes f p rest | None => false end
  end.

(** ** Public hosts *)

(** The last character of a text. *)
Fixpoint last_char (s : string) : option ascii :=
  match s with
  | EmptyString => None
  | String c EmptyString => Some c
  | String _ s' => last_char s'
  end.

Definition host_code (n : Z) : bool := (n =? 45) || isdigit n || ((97 <=? n) && (n <=? 122)).

Definition label_error (label : string) : option string :=
  if bool_decide (label = "") || (63 <? char_len label)
  then Some "public_host has an empty or over-long label"
  else if bool_decide (String.get 0 label = Some "-"%char) || bool_decide (last_char label = Some "-"%char)
  then Some "public_host label may not start or end with '-'"
  else if negb (all_codes (String.length label) host_code label)
  then Some "public_host may only contain a-z, 0-9, and '-'"
  else None.

(** The loop over the labels. *)
Fixpoint labels_error (labels : list string) : option string :=
  match labels with
  | [] => None
  | l :: rest => match label_error l with Some e => Some e | None => labels_error rest end
  end.

Definition normalize_public_host (v : json) : result (option string) :=
  match v with
  | JNull => Ok None
  | JStr s =>
      let host := rstrip_char "." (lower (strip s)) in
      if bool_decide (host = "") || (253 <? char_len host)
      then Raise (ValueError "public_host must be 1-253 characters")
      else match labels_error (split_char "." host) with
           | Some e => Raise (ValueError e)
           | None => Ok (Some host)
           end
  | _ => Raise (ValueError "public_host must be a string")
  end.

(** ** Public paths *)

Definition normalize_public_paths (v : json) : result (option (list string)) :=
  match v with
  | JNull => Ok None
  | JArr l =>
      match validate_patterns (map py_str l) with
      | Ok ps => Ok (Some ps)
      | Raise (PatternError e) => Raise (ValueError e)
      | Raise x => Raise x
      end
  | _ => Raise (ValueError "public_paths must be a list of path patterns")
  end.

(** [not o] of an optional text or list. *)
Definition no_text (o : option string) : bool := match o with None | Some "" => true | _ => false end.
Definition no_list {A} (o : option (list A)) : bool := match o with None | Some [] => true | _ => false end.

Definition check_public_shape (public_access : bool) (protocol : option string) (public_host : option string)
    (public_paths : option (list string)) : result unit :=
  if negb public_access then Ok tt
  else if match protocol with Some p => negb (bool_decide (p ∈ ["http"; "https"])) | None => false end
  then Raise (ValueError "public access is only available for http/https resources")
  else if no_text public_host
  then Raise (ValueError "a public resource needs a public_host to be reached on")
  else if no_list public_paths
  then Raise (ValueError "a public resource needs at least one public path pattern")
  else Ok tt.

(** ** Resources *)

Definition GUAC_PROTOCOLS : list string := ["vnc"; "rdp"; "ssh"].
Definition TUNNEL_PROTOCOLS : list string := GUAC_PROTOCOLS ++ ["rtsp"].
Definition PROTOCOLS : list string := ["http"; "https"; "tcp"; "vnc"; "rdp"; "ssh"; "rtsp"].

(** [Field(min_length=lo, max_length=hi)]. *)
Definition within (lo hi : Z) (s : string) : bool := (lo <=? char_len s) && (char_len s <=? hi).

Record ResourceConnectionIn := mkConnectionIn {
  ci_hostname : string;
  ci_port : Z;
  ci_params : list (string * string);
  ci_secret_params : option (list (string * string));
}.
Definition connection_fields_ok (c : ResourceConnectionIn) : bool :=
  within 1 255 (ci_hostname c) && (1 <=? ci_port c) && (ci_port c <=? 65535).

Record ResourceCreateRaw := mkCreateRaw {
  rr_name : string;
  rr_protocol : string;
  rr_public_host : json;
  rr_host : string;
  rr_ports : list Z;
  rr_path_prefix : option string;
  rr_description : option string;
  rr_enabled : bool;
  rr_public_access : bool;
  rr_public_paths : json;
  rr_connection : option ResourceConnectionIn;
}.

Record ResourceCreate := mkResourceCreate {
  cr_name : string;
  cr_protocol : string;
  cr_public_host : option string;
  cr_host : string;
  cr_ports : list Z;
  cr_path_prefix : option string;
  cr_description : option string;
  cr_enabled : bool;
  cr_public_access : bool;
  cr_public_paths : option (list string);
  cr_connection : option ResourceConnectionIn;
}.

Definition some_params (o : option (list (string * string))) : bool := negb (no_list o).

Definition check_protocol_shape (b : ResourceCreate) : result unit :=
  let shape := check_public_shape (cr_public_access b) (Some (cr_protocol b)) (cr_public_host b)
                 (cr_public_paths b) in
  if bool_decide (cr_protocol b ∈ TUNNEL_PROTOCOLS) then
    if bool_decide (cr_public_host b <> None)
    then Raise (ValueError "tunnelled resources are reached via the portal and cannot have a public_host")
    else match cr_connection b with
         | None => Raise (ValueError "vnc/rdp/ssh/rtsp resources require connection details")
         | Some c =>
             if bool_decide (cr_protocol b = "rtsp") && some_params (ci_secret_params c)
             then Raise (ValueError "rtsp credentials are supplied per session and are not stored")
             else shape
         end
  else if bool_decide (cr_connection b <> None)
  then Raise (ValueError "connection is only valid for vnc/rdp/ssh/rtsp resources")
  else shape.

(** The fields' constraints, the [before] validators, then the model validator. *)
Definition resource_create (raw : ResourceCreateRaw) : option ResourceCreate :=
  match normalize_public_host (rr_public_host raw), normalize_public_paths (rr_public_paths raw) with
  | Ok host, Ok paths =>
      if within 1 128 (rr_name raw) && bool_decide (rr_protocol raw ∈ PROTOCOLS)
         && within 1 255 (rr_host raw) && negb (bool_decide (rr_ports raw = []))
         && match rr_connection raw with Some c => connection_fields_ok c | None => true end
      then
        let b := mkResourceCreate (rr_name raw) (rr_protocol raw) host (rr_host raw) (rr_ports raw)
                   (rr_path_prefix raw) (rr_description raw) (rr_enabled raw) (rr_public_access raw)
                   paths (rr_connection raw) in
        match check_protocol_shape b with Ok _ => Some b | Raise _ => None end
      else None
  | _, _ => None
  end.

(** A patch: a field that was not sent is [None]; one sent as null is [Some None]. *)
Record ResourcePatchRaw := mkPatchRaw {
  pr_name : option (option string);
  pr_public_host : option json;
  pr_host : option (option string);
  pr_ports : option (option (list Z));
  pr_path_prefix : option (option string);
  pr_description : option (option string);
  pr_enabled : option (option bool);
  pr_public_access : option (option bool);
  pr_public_paths : option json;
}.

Record ResourcePatch := mkResourcePatch {
  rp_name : option (option string);
  rp_public_host : option (option string);
  rp_host : option (option string);
  rp_ports : option (option (list Z));
  rp_path_prefix : option (option string);
  rp_description : option (option string);
  rp_enabled : option (option bool);
  rp_public_access : option (option bool);
  rp_public_paths : option (option (list string));
}.

(** A validator runs on a field that was sent. *)
Definition if_sent {A} (f : json -> result A) (o : option json) : result (option A) :=
  match o with
  | None => Ok None
  | Some v => match f v with Ok a => Ok (Some a) | Raise x => Raise x end
  end.

Definition resource_patch (raw : ResourcePatchRaw) : option ResourcePatch :=
  match if_sent normalize_public_host (pr_public_host raw), if_sent normalize_public_paths (pr_public_paths raw) with
  | Ok host, Ok paths =>
      Some (mkResourcePatch (pr_name raw) host (pr_host raw) (pr_ports raw) (pr_path_prefix raw)
              (pr_description raw) (pr_enabled raw) (pr_public_access raw) paths)
  | _, _ => None
  end.

(** ** Connections *)

Record ResourceConnectionUpsert := mkUpsert {
  cu_protocol : string;
  cu_hostname : string;
  cu_port : Z;
  cu_params : list (string * string);
  cu_secret_params : option (list (string * string));
}.

Definition connection_upsert (raw : ResourceConnectionUpsert) : option ResourceConnectionUpsert :=
  if bool_decide (cu_protocol raw ∈ TUNNEL_PROTOCOLS) && within 1 255 (cu_hostname raw)
     && (1 <=? cu_port raw) && (cu_port raw <=? 65535)
     && negb (bool_decide (cu_protocol raw = "rtsp") && some_params (cu_secret_params raw))
  then Some raw else None.

(** ** Download requests *)

Definition is_hex_char (c : ascii) : bool := is_digit c || char_between "a" "f" c || char_between "A" "F" c.
Definition is_base32_char (c : ascii) : bool := is_alpha c || char_between "2" "7" c.

(** [$]: at the end, or before a final line feed. *)
Definition at_end (s : string) : bool := bool_decide (s = "") || bool_decide (s = String (chr 10) "").

(** The end of the expression: nothing, or an ampersand and characters that are not blank. *)
Fixpoint magnet_params (s : string) : bool :=
  at_end s || match s with String c s' => negb (is_space c) && magnet_params s' | EmptyString => false end.
Definition magnet_tail (s : string) : bool :=
  at_end s || match strip_prefix "&" s with Some rest => magnet_params rest | None => false end.

(** [n] characters of a class, then the tail. *)
Fixpoint magnet_hash (cls : ascii -> bool) (n : nat) (s : string) : bool :=
  match n, s with
  | O, _ => magnet_tail s
  | S n', String c s' => cls c && magnet_hash cls n' s'
  | S _, EmptyString => false
  end.

(** [MAGNET_RE.match(v)]. *)
Definition MAGNET_RE (v : string) : bool :=
  match strip_prefix "magnet:?xt=urn:btih:" v with
  | Some rest => magnet_hash is_hex_char 40 rest || magnet_hash is_base32_char 32 rest
  | None => false
  end.

Record DownloadRequestIn := mkDownloadIn { di_magnet : string; di_target : string }.

Definition download_request (raw : DownloadRequestIn) : option DownloadRequestIn :=
  let v := strip (di_magnet raw) in
  if (char_len (di_magnet raw) <=? 2048) && bool_decide (di_target raw ∈ ["shows"; "movies"]) && MAGNET_RE v
  then Some (mkDownloadIn v (di_target raw)) else None.

(** ** Policies *)

Record PolicyCreate := mkPolicyCreate {
  pc_role_id : Z;
  pc_resource_id : Z;
  pc_policy_action : string;
  pc_allowed_ports : option (list Z);
  pc_allowed_paths : option (list string);
  pc_conditions_json : list (string * json);
  pc_enabled : bool;
}.
Definition policy_create (raw : PolicyCreate) : option PolicyCreate :=
  if bool_decide (pc_policy_action raw ∈ ["allow"; "deny"]) then Some raw else None.

Record PolicyPatch := mkPolicyPatch {
  pp_action : option (option string);
  pp_allowed_ports : option (option (list Z));
  pp_allowed_paths : option (option (list string));
  pp_conditions_json : option (option (list (string * json)));
  pp_enabled : option (option bool);
}.
Definition policy_patch (raw : PolicyPatch) : option PolicyPatch :=
  match pp_action raw with
  | Some (Some a) => if bool_decide (a ∈ ["allow"; "deny"]) then Some raw else None
  | _ => Some raw
  end.

Example magnet_example :
  MAGNET_RE "magnet:?xt=urn:btih:0123456789abcdef0123456789ABCDEF01234567&dn=x" = true
  /\ MAGNET_RE "magnet:?xt=urn:btih:0123456789abcdef0123456789ABCDEF0123456" = false
  /\ MAGNET_RE "http://example.com/?magnet:?xt=urn:btih:" = false.
Proof. by vm_compute. Qed.

(** The host of a public resource may hold digits of any script: an Arabic-Indic three. *)
Example public_host_other_digits :
  normalize_public_host (JStr ("a" +:+ utf8_encode 1635 +:+ ".example.com."))
  = Ok (Some ("a" +:+ utf8_encode 1635 +:+ ".example.com")).
Proof. vm_compute. reflexivity. Qed.

(** ** Laws *)

(** A byte of a host: of a character outside ASCII, or one of the characters allowed. *)
Definition host_byte (c : ascii) : bool := (128 <=? ord c) || host_code (ord c).

(** What a stored public host is. *)
Record good_host (h : string) : Prop := {
  gh_length : h <> "" /\ char_len h <= 253;
  gh_label_length : forall l, l ∈ split_char "." h -> l <> "" /\ char_len l <= 63;
  gh_hyphen : forall l, l ∈ split_char "." h ->
    String.get 0 l <> Some "-"%char /\ last_char l <> Some "-"%char;
  gh_bytes : all_chars (fun c => host_byte c || bool_decide (c = "."%char)) h = true;
  gh_normal : normalize_public_host (JStr h) = Ok (Some h);
}.

Lemma is_cont_high c : is_cont c = true -> (128 <=? ord c) = true.
Proof. destruct c as [[] [] [] [] [] [] [] []]; by vm_compute. Qed.

Lemma utf8_next_split s n rest : utf8_next s = Some (n, rest) -> exists pre, s = pre +:+ rest
  /\ ((exists c, pre = String c "" /\ n = ord c) \/ all_chars (fun c => 128 <=? ord c) pre = true).
Proof.
  unfold utf8_next. intros H.
  repeat match type of H with
  | match ?x with _ => _ end = Some _ => destruct x eqn:?; try discriminate H
  end; injection H as <- <-;
  repeat match goal with E : negb _ = false |- _ => apply negb_false_iff in E; try apply is_cont_high in E
    | E : negb _ || _ = false |- _ => apply orb_false_iff in E as [E _]
    | E : is_cont _ = true |- _ => apply is_cont_high in E
    | E : (ord _ <? 128) = false |- _ => apply Z.ltb_ge, Z.leb_le in E end.
  - eexists (String _ ""). split; [reflexivity|]. left. by eexists.
  - eexists (String _ (String _ "")). split; [reflexivity|]. right. simpl. by rewrite ?Heqb, ?Heqb0, ?Heqb1.
  - eexists (String _ (String _ (String _ ""))). split; [reflexivity|]. right. simpl.
    repeat match goal with E : (128 <=? ord _) = true |- _ => rewrite E; clear E end. done.
  - eexists (String _ (String _ (String _ (String _ "")))). split; [reflexivity|]. right. simpl.
    repeat match goal with E : (128 <=? ord _) = true |- _ => rewrite E; clear E end. done.
Qed.

Lemma all_codes_bytes p fuel : forall s, all_codes fuel p s = true ->
  all_chars (fun c => (128 <=? ord c) || p (ord c)) s = true.
Proof.
  induction fuel as [|f IH]; intros s H; destruct s as [|c s]; try done.
  cbn [all_codes] in H. destruct (utf8_next (String c s)) as [[n rest]|] eqn:E; [|done].
  apply andb_true_iff in H as [Hp H]. apply utf8_next_split in E as (pre & -> & E).
  rewrite all_chars_app, (IH _ H), andb_true_r. destruct E as [(d & -> & ->)|E].
  - simpl. by rewrite Hp, orb_true_r.
  - revert E. apply all_chars_impl. intros d Hd. by rewrite Hd.
Qed.

Lemma label_error_None l : label_error l = None ->
  (l <> "" /\ char_len l <= 63) /\ (String.get 0 l <> Some "-"%char /\ last_char l <> Some "-"%char)
  /\ all_chars host_byte l = true.
Proof.
  unfold label_error. intros H. destruct (bool_decide (l = "") || _) eqn:E1; [done|].
  destruct (bool_decide (String.get 0 l = _) || _) eqn:E2; [done|].
  destruct (all_codes _ _ l) eqn:E3; [|done]. bool_simpl. split_and!; try done.
  by apply all_codes_bytes in E3.
Qed.

Lemma labels_error_None ls : labels_error ls = None -> forall l, l ∈ ls -> label_error l = None.
Proof.
  induction ls as [|l ls IH]; simpl; intros H x Hx; [by apply elem_of_nil in Hx|].
  destruct (label_error l) eqn:E; [done|]. apply elem_of_cons in Hx as [->|Hx]; auto.
Qed.

Lemma all_chars_join p c ls : p c = true -> (forall l, l ∈ ls -> all_chars p l = true) ->
  all_chars p (join (String c "") ls) = true.
Proof.
  intros Hc. induction ls as [|l ls IH]; intros H; [done|].
  assert (all_chars p l = true) as Hl by (apply H; left).
  destruct ls as [|m ls]; [done|]. cbn [join]. rewrite !all_chars_app, Hl. simpl.
  rewrite Hc. apply IH. intros x Hx. apply H. by right.
Qed.

Lemma host_byte_plain c : host_byte c || bool_decide (c = "."%char) = true ->
  negb (is_space c) = true /\ lower_char c = c.
Proof. destruct c as [[] [] [] [] [] [] [] []]; vm_compute; intros H; try done; discriminate H. Qed.

Lemma lower_fix s : (forall c, host_byte c || bool_decide (c = "."%char) = true -> lower_char c = c) ->
  all_chars (fun c => host_byte c || bool_decide (c = "."%char)) s = true -> lower s = s.
Proof.
  intros Hp. induction s as [|c s IH]; [done|]. simpl. intros [H1 H2]%andb_true_iff.
  unfold lower in *. simpl. rewrite (Hp _ H1), IH by done. done.
Qed.

Lemma host_bytes_fix s : all_chars (fun c => host_byte c || bool_decide (c = "."%char)) s = true ->
  lower (strip s) = s.
Proof.
  intros H. assert (all_chars (fun c => negb (is_space c)) s = true) as Hs.
  { revert H. apply all_chars_impl. intros c Hc. by apply host_byte_plain. }
  unfold strip. rewrite lstrip_by_fix.
  2: { destruct s as [|c s]; [done|]. simpl in Hs. apply andb_true_iff in Hs as [Hs _]. by apply negb_true_iff. }
  rewrite rstrip_by_no by done.
  apply lower_fix; [|done]. intros c Hc. by apply host_byte_plain.
Qed.

Lemma normalize_public_host_good v h : normalize_public_host v = Ok (Some h) -> good_host h.
Proof.
  destruct v as [| | | |s| |]; try done. unfold normalize_public_host. intros H.
  set (host := rstrip_char "." (lower (strip s))) in H.
  assert (rstrip_char "." host = host) as Hfix by apply rstrip_by_idem. clearbody host.
  destruct (bool_decide (host = "") || _) eqn:E1; [done|].
  destruct (labels_error (split_char "." host)) eqn:E2; [done|]. injection H as <-.
  pose proof (labels_error_None _ E2) as Hl.
  assert (all_chars (fun c => host_byte c || bool_decide (c = "."%char)) host = true) as Hb.
  { rewrite <- (join_split_char "." host). apply all_chars_join; [done|].
    intros l Hin. pose proof (label_error_None _ (Hl _ Hin)) as (_ & _ & Ha). revert Ha.
    apply all_chars_impl. intros c Hc. by rewrite Hc. }
  constructor; try done.
  - by bool_simpl.
  - intros l Hin. apply label_error_None, Hl, Hin.
  - intros l Hin. destruct (label_error_None _ (Hl _ Hin)) as (_ & H' & _). exact H'.
  - unfold normalize_public_host. rewrite host_bytes_fix, Hfix by done. by rewrite E1, E2.
Qed.

(** A stored host is the route host the data plane is given. *)
Lemma good_host_route h : good_host h -> rstrip_char "." (lower (strip h)) = h.
Proof.
  intros Hg. pose proof (gh_normal _ Hg) as H. unfold normalize_public_host in H.
  set (host := rstrip_char "." (lower (strip h))) in *. destruct (bool_decide (host = "") || _); [done|].
  destruct (labels_error _); [done|]. congruence.
Qed.

Lemma normalize_public_paths_good v ps : normalize_public_paths v = Ok (Some ps) ->
  exists raws, validate_patterns raws = Ok ps.
Proof.
  destruct v as [| | | | |l|]; try done. unfold normalize_public_paths. intros H.
  exists (map py_str l). destruct (validate_patterns _) as [x|x]; [congruence|by destruct x].
Qed.
