(* ===== verification/IsoTime.v ===== *)
(** * IsoTime: the text of a UTC datetime

    [datetime.isoformat] and [str] of an aware datetime in UTC: the calendar date of a
    number of days since the epoch, the time of day, and the microseconds unless zero. *)

From S2P Require Import Prelude PyStr PyTime JsonText.
Local Open Scope Z_scope.

(** The proleptic Gregorian date, from the day number in its 400-year era. *)
Definition date_of_day (day : Z) : Z * Z * Z :=
  let z := day + 719468 in
  let era := z / 146097 in
  let doe := z - era * 146097 in
  let yoe := (doe - doe / 1460 + doe / 36524 - doe / 146096) / 365 in
  let doy := doe - (365 * yoe + yoe / 4 - yoe / 100) in
  let mp := (5 * doy + 2) / 153 in
  let d := doy - (153 * mp + 2) / 5 + 1 in
  let m := if mp <? 10 then mp + 3 else mp - 9 in
  (yoe + era * 400 + (if m <=? 2 then 1 else 0), m, d).

(** A number in at least [n] digits. *)
Definition padded (n : nat) (v : Z) : string :=
  let s := dec_nat v in
  Nat.iter (n - String.length s) (String "0") s.

Definition iso_text (sep : string) (t : Z) : string :=
  let '(y, m, d) := date_of_day (t / DAY_US) in
  let us := t mod DAY_US in
  let secs := us / seconds 1 in
  padded 4 y +:+ "-" +:+ padded 2 m +:+ "-" +:+ padded 2 d +:+ sep
  +:+ padded 2 (secs / 3600) +:+ ":" +:+ padded 2 (secs / 60 mod 60) +:+ ":" +:+ padded 2 (secs mod 60)
  +:+ (if us mod seconds 1 =? 0 then "" else "." +:+ padded 6 (us mod seconds 1)) +:+ "+00:00".

Definition isoformat (t : Z) : string := iso_text "T" t.
Definition datetime_str (t : Z) : string := iso_text " " t.

Example isoformat_example :
  isoformat 0 = "1970-01-01T00:00:00+00:00"
  /\ datetime_str (seconds 1709210096 + 5) = "2024-02-29 12:34:56.000005+00:00".
Proof. by vm_compute. Qed.

