(* ===== verification/Access.v ===== *)
(** * Access: admin/routes/roles.py, user_roles.py and policies.py

    The administration of what the policy engine reads: roles, their members and the
    policies that join a role to a resource. *)

From S2P Require Import Prelude PyStr Encoding Json PyTime Config Db Effects Crypto Web Cascade.
From S2P Require Import Keys Sessions Dpop Tokens ResourceServer Engine Decision AdminDeps Users Schemas.
Local Open Scope Z_scope.

Definition not_found (detail : string) : exn := HTTPException 404 detail [].
Definition conflict (detail : string) : exn := HTTPException 409 detail [].

(** [order_by] of a text column. *)
Definition le_name {A} (f : A -> string) (a b : A) : Prop := str_le (f a) (f b).
#[global] Instance le_name_dec {A} (f : A -> string) : RelDecision (le_name f) :=
  fun a b => str_le_dec (f a) (f b).
Definition order_by_name {A} (f : A -> string) (rows : list A) : list A := merge_sort (le_name f) rows.

(** The range of the column type [integer]. *)
Definition int4 (n : Z) : bool := (- 2147483648 <=? n) && (n <=? 2147483647).
Definition int4_all (o : option (list Z)) : bool :=
  match o with Some l => forallb int4 l | None => true end.
(** A value the driver cannot send. *)
Definition DataError : exn := LibraryError "DBAPIError".

(** [json] values of the columns. *)
Definition j_text (o : option string) : json := match o with Some s => JStr s | None => JNull end.
Definition j_ints (l : list Z) : json := JArr (map JInt l).
Definition j_texts (l : list string) : json := JArr (map JStr l).
Definition j_opt {A} (f : A -> json) (o : option A) : json := match o with Some a => f a | None => JNull end.

Section Access.
Context {aead : Aead} {ec : EcKeys} {jose : Jose} {jwt : Jwt}.

(** ** roles.py *)

Record RoleCreate := mkRoleCreate { rlc_name : string; rlc_description : option string }.
Record RoleOut := mkRoleOut { rlo_id : Z; rlo_name : string; rlo_description : option string }.
Definition role_out (rid : Z) (r : Role) : RoleOut := mkRoleOut rid (ro_name r) (ro_description r).

Definition list_roles (request : ApiRequest) : M (list RoleOut) :=
  require_admin request;;
  let! t := gets roles in
  ret (map (fun kv => role_out kv.1 kv.2) (order_by_name (fun kv => ro_name kv.2) (map_to_list t))).

Definition named (name : string) (r : Role) : bool := bool_decide (ro_name r = name).

Definition create_role (request : ApiRequest) (body : RoleCreate) : M RoleOut :=
  let! authed := require_recent_stepup request in
  let! t := gets roles in
  match scalar (select (fun _ r => named (rlc_name body) r) t) with
  | Some _ => raise (conflict "role name exists")
  | None =>
      let! rid := uuid4 in
      let role := mkRole (rlc_name body) (rlc_description body) in
      db_add "roles" roles upd_roles (named (rlc_name body)) rid role;;
      record_change (au_uid authed) "role" (Some rid) "create" None (Some [("name", JStr (ro_name role))]);;
      ret (role_out rid role)
  end.

Definition delete_role (request : ApiRequest) (rid : Z) : M unit :=
  let! authed := require_recent_stepup request in
  let! t := gets roles in
  match t !! rid with
  | None => raise (not_found "role not found")
  | Some role =>
      db_delete_role rid;;
      record_change (au_uid authed) "role" (Some rid) "delete" (Some [("name", JStr (ro_name role))]) None
  end.

(** ** user_roles.py *)

Definition list_user_roles (request : ApiRequest) (uid : Z) : M (list string) :=
  require_admin request;;
  let! t := gets users in
  match t !! uid with
  | None => raise (not_found "user not found")
  | Some _ => let! d := gets id in ret (map snd (roles_of d uid))
  end.

Definition attach_role (request : ApiRequest) (uid rid : Z) : M unit :=
  let! authed := require_recent_stepup request in
  let! d := gets id in
  match users d !! uid, roles d !! rid with
  | Some _, Some _ =>
      when (negb (bool_decide ((uid, rid) ∈ user_roles d)))
        (moddb (upd_user_roles (fun l => l ++ [(uid, rid)]));;
         record_change (au_uid authed) "user_role" (Some uid) "create" None
           (Some [("role_id", JStr (uuid_str rid))]))
  | _, _ => raise (not_found "user or role not found")
  end.

Definition detach_role (request : ApiRequest) (uid rid : Z) : M unit :=
  let! authed := require_recent_stepup request in
  let! d := gets id in
  if bool_decide ((uid, rid) ∈ user_roles d) then
    moddb (upd_user_roles (List.filter (fun ur => negb (bool_decide (ur = (uid, rid))))));;
    record_change (au_uid authed) "user_role" (Some uid) "delete"
      (Some [("role_id", JStr (uuid_str rid))]) None
  else raise (not_found "assignment not found").

(** ** policies.py *)

Record PolicyOut := mkPolicyOut {
  po_id : Z; po_role_id : Z; po_resource_id : Z; po_action : string; po_allowed_ports : option (list Z);
  po_allowed_paths : option (list string); po_conditions_json : list (string * json); po_enabled : bool }.
Definition policy_out (pid : Z) (p : Policy) : PolicyOut :=
  mkPolicyOut pid (p_role_id p) (p_resource_id p) (p_action p) (p_allowed_ports p) (p_allowed_paths p)
    (p_conditions_json p) (p_enabled p).

Definition policy_snapshot (p : Policy) : list (string * json) :=
  [("role_id", JStr (uuid_str (p_role_id p))); ("resource_id", JStr (uuid_str (p_resource_id p)));
   ("action", JStr (p_action p)); ("allowed_ports", j_opt j_ints (p_allowed_ports p));
   ("allowed_paths", j_opt j_texts (p_allowed_paths p)); ("conditions_json", JObj (p_conditions_json p));
   ("enabled", JBool (p_enabled p))].

Definition list_policies (request : ApiRequest) : M (list PolicyOut) :=
  require_admin request;;
  let! t := gets policies in
  ret (map (fun kv => policy_out kv.1 kv.2) (order_by (fun kv => p_created_at kv.2) (map_to_list t))).

Definition create_policy (request : ApiRequest) (body : PolicyCreate) : M PolicyOut :=
  let! authed := require_recent_stepup request in
  let! d := gets id in
  match roles d !! pc_role_id body with
  | None => raise (not_found "role not found")
  | Some _ =>
      match resources d !! pc_resource_id body with
      | None => raise (not_found "resource not found")
      | Some _ =>
          if negb (int4_all (pc_allowed_ports body)) then raise DataError
          else
            let! pid := uuid4 in
            let! ts := server_now in
            let row := mkPolicy (pc_role_id body) (pc_resource_id body) (pc_allowed_ports body)
                         (pc_allowed_paths body) (pc_policy_action body) (pc_conditions_json body)
                         (pc_enabled body) ts in
            db_add "policies" policies upd_policies no_clash pid row;;
            record_change (au_uid authed) "policy" (Some pid) "create" None (Some (policy_snapshot row));;
            ret (policy_out pid row)
      end
  end.

(** The fields of a patch that were sent take their values; a null in a column that
    cannot hold it is refused when the row is written. *)
Definition sent {A} (o : option A) (old : A) : A := default old o.
Definition sent_nonnull {A} (o : option (option A)) (old : A) : A := default old (default None o).
Definition is_null {A} (o : option (option A)) : bool := match o with Some None => true | _ => false end.

Definition patched_policy (body : PolicyPatch) (p : Policy) : Policy :=
  mkPolicy (p_role_id p) (p_resource_id p) (sent (pp_allowed_ports body) (p_allowed_ports p))
    (sent (pp_allowed_paths body) (p_allowed_paths p)) (sent_nonnull (pp_action body) (p_action p))
    (sent_nonnull (pp_conditions_json body) (p_conditions_json p))
    (sent_nonnull (pp_enabled body) (p_enabled p)) (p_created_at p).

Definition policy_nulls (body : PolicyPatch) : bool :=
  is_null (pp_action body) || is_null (pp_enabled body).
(** A null in the JSON column is written as the JSON null, which the answer's model refuses. *)
Definition ValidationError : exn := LibraryError "ValidationError".

Definition patch_policy (request : ApiRequest) (pid : Z) (body : PolicyPatch) : M PolicyOut :=
  let! authed := require_recent_stepup request in
  let! t := gets policies in
  match t !! pid with
  | None => raise (not_found "policy not found")
  | Some row =>
      if negb (int4_all (default None (pp_allowed_ports body))) then raise DataError
      else if policy_nulls body then raise (IntegrityError "policies")
      else if is_null (pp_conditions_json body) then raise ValidationError
      else
        let row' := patched_policy body row in
        moddb (upd_policies <[pid := row']>);;
        record_change (au_uid authed) "policy" (Some pid) "update" (Some (policy_snapshot row))
          (Some (policy_snapshot row'));;
        ret (policy_out pid row')
  end.

Definition delete_policy (request : ApiRequest) (pid : Z) : M unit :=
  let! authed := require_recent_stepup request in
  let! t := gets policies in
  match t !! pid with
  | None => raise (not_found "policy not found")
  | Some row =>
      moddb (upd_policies (delete pid));;
      record_change (au_uid authed) "policy" (Some pid) "delete" (Some (policy_snapshot row)) None
  end.
End Access.
