(* ===== verification/Resources.v ===== *)
(** * Resources: admin/routes/resources.py, admin/routes/connections.py and
    guac/connections.py

    The administration of the resources, their password-gated public mode and their
    backend connections. *)

From S2P Require Import Prelude PyStr Encoding Json JsonText PyTime IsoTime Config Db Effects Crypto Web Cascade.
From S2P Require Import Keys Passwords Sessions Dpop Tokens Grants TokenEndpoint ResourceServer Decision.
From S2P Require Import PublicGate AdminDeps Users Schemas Access.
Local Open Scope Z_scope.

(** ** guac/connections.py *)

Definition CONNECTION_AAD : string := "resource_connections".

(** [json.dumps(params, separators=(",", ":"))] of a dict of texts. *)
Definition params_json (params : list (string * string)) : list (string * json) :=
  map (fun kv => (kv.1, JStr kv.2)) params.

Definition seal_secret_params {aead : Aead} (backend : SecretsBackend) (params : list (string * string))
  : M (string * string * list string) :=
  let! sealed := encrypt_blob backend (dumps_compact (JObj (params_json params))) CONNECTION_AAD in
  ret (sealed.1, sealed.2, sorted_names (map fst params)).

Definition unseal_secret_params {aead : Aead} (backend : SecretsBackend) (row : ResourceConnection)
  : result (list (string * json)) :=
  match rc_secret_ciphertext row, rc_key_id row with
  | Some blob, Some key_id =>
      match decrypt_blob backend key_id blob CONNECTION_AAD with
      | Raise x => Raise x
      | Ok raw => match json_loads raw with
                  | Some (JObj fields) => Ok fields
                  | Some _ => Raise (TypeError "params")
                  | None => Raise (ValueError "json")
                  end
      end
  | _, _ => Ok []
  end.

(** ** Rows and answers *)

Definition resource_snapshot (r : Resource) : list (string * json) :=
  [("name", JStr (r_name r)); ("protocol", JStr (r_protocol r)); ("public_host", j_text (r_public_host r));
   ("host", JStr (r_host r)); ("ports", j_ints (r_ports r)); ("path_prefix", j_text (r_path_prefix r));
   ("enabled", JBool (r_enabled r)); ("public_access", JBool (r_public_access r));
   ("public_paths", match r_public_paths r with Some (p :: ps) => j_texts (p :: ps) | _ => JNull end);
   ("public_password_set", JBool (bool_decide (r_public_password_hash r <> None)))].

Record ResourceOut := mkResourceOut {
  rso_id : Z; rso_name : string; rso_protocol : string; rso_public_host : option string; rso_host : string;
  rso_ports : list Z; rso_path_prefix : option string; rso_description : option string;
  rso_enabled : bool; rso_public_access : bool; rso_public_paths : option (list string);
  rso_public_password_set : bool }.
Definition resource_out (rid : Z) (r : Resource) : ResourceOut :=
  mkResourceOut rid (r_name r) (r_protocol r) (r_public_host r) (r_host r) (r_ports r) (r_path_prefix r)
    (r_description r) (r_enabled r) (r_public_access r) (r_public_paths r)
    (negb (no_text (r_public_password_hash r))).

(** [ResourceCreateOut]: the answer and the share password. *)
Record ResourceCreateOut := mkResourceCreateOut { rco_resource : ResourceOut; rco_public_password : option string }.

Definition connection_snapshot (c : ResourceConnection) : list (string * json) :=
  [("protocol", JStr (rc_protocol c)); ("hostname", JStr (rc_hostname c)); ("port", JInt (rc_port c));
   ("params", JObj (rc_params_json c)); ("secret_keys", j_texts (rc_secret_keys c));
   ("has_secret", JBool (bool_decide (rc_secret_ciphertext c <> None)))].

Record ResourceConnectionOut := mkConnectionOut {
  cno_id : Z; cno_resource_id : Z; cno_protocol : string; cno_hostname : string; cno_port : Z;
  cno_params : list (string * json); cno_secret_keys : list string; cno_has_secret : bool }.
Definition connection_out (cid : Z) (c : ResourceConnection) : ResourceConnectionOut :=
  mkConnectionOut cid (rc_resource_id c) (rc_protocol c) (rc_hostname c) (rc_port c) (rc_params_json c)
    (rc_secret_keys c) (bool_decide (rc_secret_ciphertext c <> None)).

(** ** Validation against the stored rows *)

Definition unprocessable (detail : string) : exn := HTTPException 422 detail [].

Definition validate_public_shape (r : Resource) : M unit :=
  if negb (r_public_access r) then ret tt
  else if negb (bool_decide (r_protocol r ∈ ["http"; "https"]))
  then raise (unprocessable "public access is only available for http/https resources")
  else if no_text (r_public_host r)
  then raise (unprocessable "a public resource needs a public_host to be reached on")
  else if no_list (r_public_paths r)
  then raise (unprocessable "a public resource needs at least one public path pattern")
  else ret tt.

(** A row other than the excluded one that has the host. *)
Definition host_taken (host : string) (exclude : option Z) (rid : Z) (r : Resource) : bool :=
  host_is host r && negb (bool_decide (exclude = Some rid)).

Definition validate_public_host (public_host : option string) (exclude : option Z) : M unit :=
  match public_host with
  | None => ret tt
  | Some host =>
      let! cfg := asks id in
      if bool_decide (host = rstrip_char "." (lower (strip (auth_host cfg))))
      then raise (conflict "public_host is reserved (auth host)")
      else
        let! t := gets resources in
        match scalar (select (host_taken host exclude) t) with
        | Some _ => raise (conflict "public_host already in use")
        | None => ret tt
        end
  end.

(** The constraints of the table that a write of a row must meet: the unique columns and
    the shape of the public mode. *)
Definition clashes (row r : Resource) : bool :=
  bool_decide (r_name r = r_name row)
  || match r_public_host row with Some h => host_is h r | None => false end.
Definition shape_constraint (r : Resource) : bool :=
  negb (r_public_access r)
  || (bool_decide (r_protocol r ∈ ["http"; "https"]) && bool_decide (r_public_host r <> None)
      && match r_public_paths r with Some (_ :: _) => true | _ => false end).

Section Resources.
Context {aead : Aead} {ec : EcKeys} {jose : Jose} {jwt : Jwt} {argon : Argon}.
Context (run : list string -> ProcessResult).

(** The flush of a changed row. *)
Definition save_resource (rid : Z) (row : Resource) : M unit :=
  if negb (int4_all (Some (r_ports row))) then raise DataError
  else
    let! t := gets resources in
    if negb (shape_constraint row)
       || negb (bool_decide (select (fun k r => negb (k =? rid) && clashes row r) t = []))
    then raise (IntegrityError "resources")
    else moddb (upd_resources <[rid := row]>).

Definition list_resources (request : ApiRequest) : M (list ResourceOut) :=
  require_admin request;;
  let! t := gets resources in
  ret (map (fun kv => resource_out kv.1 kv.2) (order_by_name (fun kv => r_name kv.2) (map_to_list t))).

(** The secret parameters of a new connection, sealed. *)
Definition seal_new (params : option (list (string * string)))
  : M (option string * option string * list string) :=
  match params with
  | None | Some [] => ret (None, None, [])
  | Some ps =>
      let! backend := secrets_backend run in
      let! sealed := seal_secret_params backend ps in
      ret (Some sealed.1.2, Some sealed.1.1, sealed.2)
  end.

Definition add_connection (actor rid : Z) (protocol : string) (c : ResourceConnectionIn) : M unit :=
  let! secret := seal_new (ci_secret_params c) in
  let! cid := uuid4 in
  let! ts := server_now in
  let row := mkResourceConnection rid protocol (ci_hostname c) (ci_port c) (params_json (ci_params c))
               secret.1.1 secret.1.2 secret.2 ts ts in
  db_add "resource_connections" resource_connections upd_resource_connections
    (fun r => rc_resource_id r =? rid) cid row;;
  record_change actor "resource_connection" (Some cid) "create" None (Some (connection_snapshot row)).

(** The share password of a resource created public, with its hash. *)
Definition new_share_password (public : bool) : M (option (string * string)) :=
  if public then
    let! password := generate_password in
    let! hash := hash_password password in
    ret (Some (password, hash))
  else ret None.

(** The policy-facing target of a resource with a connection is the connection's. *)
Definition created_row (body : ResourceCreate) (password : option (string * string)) (now : Z) : Resource :=
  mkResource (cr_name body) (cr_protocol body) (cr_public_host body)
    (match cr_connection body with Some c => ci_hostname c | None => cr_host body end)
    (match cr_connection body with Some c => [ci_port c] | None => cr_ports body end)
    (cr_path_prefix body) (cr_description body) (cr_enabled body) (cr_public_access body)
    (cr_public_paths body) (option_map snd password) (option_map (fun _ => now) password).

Definition create_resource (request : ApiRequest) (body : ResourceCreate) : M ResourceCreateOut :=
  let! authed := require_recent_stepup request in
  let! t := gets resources in
  match scalar (select (fun _ r => bool_decide (r_name r = cr_name body)) t) with
  | Some _ => raise (conflict "resource name exists")
  | None =>
      validate_public_host (cr_public_host body) None;;
      let! now := utcnow in
      let! password := new_share_password (cr_public_access body) in
      let! rid := uuid4 in
      let row := created_row body password now in
      if negb (int4_all (Some (r_ports row))) then raise DataError
      else if negb (shape_constraint row) then raise (IntegrityError "resources")
      else
        db_add "resources" resources upd_resources (clashes row) rid row;;
        record_change (au_uid authed) "resource" (Some rid) "create" None (Some (resource_snapshot row));;
        match cr_connection body with
        | Some c => add_connection (au_uid authed) rid (cr_protocol body) c
        | None => ret tt
        end;;
        ret (mkResourceCreateOut (resource_out rid row) (option_map fst password))
  end.

(** A null in a column that cannot hold it; in [public_access] it counts as false until the
    row is written. *)
Definition resource_nulls (body : ResourcePatch) : bool :=
  is_null (rp_name body) || is_null (rp_host body) || is_null (rp_ports body)
  || is_null (rp_enabled body) || is_null (rp_public_access body).

Definition sent_bool (o : option (option bool)) (old : bool) : bool :=
  match o with Some v => default false v | None => old end.

Definition patched_resource (body : ResourcePatch) (r : Resource) : Resource :=
  mkResource (sent_nonnull (rp_name body) (r_name r)) (r_protocol r)
    (sent (rp_public_host body) (r_public_host r)) (sent_nonnull (rp_host body) (r_host r))
    (sent_nonnull (rp_ports body) (r_ports r)) (sent (rp_path_prefix body) (r_path_prefix r))
    (sent (rp_description body) (r_description r))
    (sent_bool (rp_enabled body) (r_enabled r)) (sent_bool (rp_public_access body) (r_public_access r))
    (sent (rp_public_paths body) (r_public_paths r))
    (r_public_password_hash r) (r_public_password_set_at r).

(** [list(row.public_paths or [])]. *)
Definition paths_list (r : Resource) : list string := default [] (r_public_paths r).

(** Whether a patch changes what the share link grants. *)
Definition grant_changed (body : ResourcePatch) (old new : Resource) : bool :=
  (r_public_access old && negb (r_public_access new))
  || (r_public_access new && negb (bool_decide (paths_list new = paths_list old)))
  || (r_public_access old && bool_decide (rp_enabled body <> None) && negb (r_enabled new)).

(** A resource that is not public keeps no share password. *)
Definition drop_password (r : Resource) : Resource :=
  if r_public_access r then r
  else set_r_public_password_hash None (set_r_public_password_set_at None r).

Definition patch_resource (request : ApiRequest) (rid : Z) (body : ResourcePatch) : M ResourceOut :=
  let! authed := require_recent_stepup request in
  let! t := gets resources in
  match t !! rid with
  | None => raise (not_found "resource not found")
  | Some old =>
      match rp_public_host body with
      | None => ret tt
      | Some host =>
          if bool_decide (host <> None) && bool_decide (r_protocol old ∈ TUNNEL_PROTOCOLS)
          then raise (unprocessable "tunnelled resources are reached via the portal and cannot have a public_host")
          else validate_public_host host (Some rid)
      end;;
      let changed := patched_resource body old in
      validate_public_shape changed;;
      if resource_nulls body then raise (IntegrityError "resources")
      else
        let row := drop_password changed in
        save_resource rid row;;
        when (grant_changed body old changed) (revoke_public_sessions rid;; ret tt);;
        record_change (au_uid authed) "resource" (Some rid) "update" (Some (resource_snapshot old))
          (Some (resource_snapshot row));;
        ret (resource_out rid row)
  end.

Definition rotate_public_password (request : ApiRequest) (rid : Z) : M string :=
  let! authed := require_recent_stepup request in
  let! t := gets resources in
  match t !! rid with
  | None => raise (not_found "resource not found")
  | Some r =>
      if negb (r_public_access r) then raise (unprocessable "resource is not public")
      else
        let! now := utcnow in
        let! password := set_public_password rid now in
        revoke_public_sessions rid;;
        record_change (au_uid authed) "resource" (Some rid) "rotate_public_password" None
          (Some [("public_password_set", JBool true); ("public_password_set_at", JStr (datetime_str now))]);;
        ret password
  end.

Definition delete_resource (request : ApiRequest) (rid : Z) : M unit :=
  let! authed := require_recent_stepup request in
  let! t := gets resources in
  match t !! rid with
  | None => raise (not_found "resource not found")
  | Some r =>
      db_delete_resource rid;;
      record_change (au_uid authed) "resource" (Some rid) "delete" (Some (resource_snapshot r)) None
  end.

(** ** connections.py *)

Definition load_connection (rid : Z) : M (option (Z * ResourceConnection)) :=
  let! t := gets resource_connections in
  ret (scalar (select (fun _ c => rc_resource_id c =? rid) t)).

Definition get_connection (request : ApiRequest) (rid : Z) : M ResourceConnectionOut :=
  require_admin request;;
  let! found := load_connection rid in
  match found with
  | None => raise (not_found "no connection configured")
  | Some (cid, c) => ret (connection_out cid c)
  end.

(** The policy-facing target of a resource, kept in step with its connection. *)
Definition set_target (host : string) (port : Z) (r : Resource) : Resource :=
  mkResource (r_name r) (r_protocol r) (r_public_host r) host [port] (r_path_prefix r) (r_description r)
    (r_enabled r) (r_public_access r) (r_public_paths r) (r_public_password_hash r)
    (r_public_password_set_at r).

(** The secret columns after the body: kept, cleared or sealed anew. *)
Definition secret_columns (params : option (list (string * string)))
    (old : option string * option string * list string) : M (option string * option string * list string) :=
  match params with
  | None => ret old
  | Some ps => seal_new (Some ps)
  end.

Definition old_secret (found : option (Z * ResourceConnection)) : option string * option string * list string :=
  match found with
  | Some (_, c) => (rc_secret_ciphertext c, rc_key_id c, rc_secret_keys c)
  | None => (None, None, [])
  end.

Definition put_connection (request : ApiRequest) (rid : Z) (body : ResourceConnectionUpsert)
  : M ResourceConnectionOut :=
  let! authed := require_recent_stepup request in
  let! t := gets resources in
  match t !! rid with
  | None => raise (not_found "resource not found")
  | Some r =>
      let! found := load_connection rid in
      let! now := utcnow in
      let! secret := secret_columns (cu_secret_params body) (old_secret found) in
      let! ts := server_now in
      let! cid := match found with Some (cid, _) => ret cid | None => uuid4 end in
      let row := mkResourceConnection rid (cu_protocol body) (cu_hostname body) (cu_port body)
                   (params_json (cu_params body)) secret.1.1 secret.1.2 secret.2
                   (match found with Some (_, c) => rc_created_at c | None => ts end) now in
      match found with
      | Some _ => moddb (upd_resource_connections <[cid := row]>)
      | None => db_add "resource_connections" resource_connections upd_resource_connections
                  (fun r => rc_resource_id r =? rid) cid row
      end;;
      moddb (upd_resources (alter (set_target (cu_hostname body) (cu_port body)) rid));;
      record_change (au_uid authed) "resource_connection" (Some cid)
        (match found with Some _ => "update" | None => "create" end)
        (option_map (fun kc => connection_snapshot kc.2) found) (Some (connection_snapshot row));;
      ret (connection_out cid row)
  end.

Definition delete_connection (request : ApiRequest) (rid : Z) : M unit :=
  let! authed := require_recent_stepup request in
  let! found := load_connection rid in
  match found with
  | None => raise (not_found "no connection configured")
  | Some (cid, c) =>
      moddb (upd_resource_connections (delete cid));;
      record_change (au_uid authed) "resource_connection" (Some cid) "delete"
        (Some (connection_snapshot c)) None
  end.
End Resources.
