(* ===== verification/ResourcesSafety.v ===== *)
(** * ResourcesSafety: what the administration of resources guarantees *)

From S2P Require Import Prelude PyStr Encoding Json JsonText PyTime IsoTime Config Db Effects Crypto Web Cascade.
From S2P Require Import Keys Passwords Pathglob Sessions Dpop Tokens Grants TokenEndpoint ResourceServer Decision.
From S2P Require Import PublicGate AdminDeps Users UsersSafety Routes Schemas Access Resources.
Local Open Scope Z_scope.

(** ** Coherence of the stored resources *)

Definition reserved_host (cfg : Settings) : string := rstrip_char "." (lower (strip (auth_host cfg))).

(** A stored resource: what its public mode, host and paths may be. *)
Record resource_ok (cfg : Settings) (r : Resource) : Prop := {
  rk_public : r_public_access r = true -> r_protocol r ∈ ["http"; "https"]
    /\ (exists h, r_public_host r = Some h) /\ (exists p ps, r_public_paths r = Some (p :: ps));
  rk_host : forall h, r_public_host r = Some h -> good_host h /\ h <> reserved_host cfg;
  rk_paths : forall ps, r_public_paths r = Some ps ->
    Forall good_pattern ps /\ NoDup ps /\ (1 <= List.length ps <= 64)%nat;
  rk_password : r_public_access r = false ->
    r_public_password_hash r = None /\ r_public_password_set_at r = None;
}.

Record coherent (cfg : Settings) (d : Db) : Prop := {
  co_ok : forall rid r, resources d !! rid = Some r -> resource_ok cfg r;
  co_names : forall i j r r', resources d !! i = Some r -> resources d !! j = Some r' ->
    r_name r = r_name r' -> i = j;
  co_hosts : forall i j r r' h, resources d !! i = Some r -> resources d !! j = Some r' ->
    r_public_host r = Some h -> r_public_host r' = Some h -> i = j;
}.

Lemma coherent_same cfg d d' : resources d' = resources d -> coherent cfg d -> coherent cfg d'.
Proof. intros E [H1 H2 H3]. constructor; rewrite E; done. Qed.

Lemma host_is_same h r : r_public_host r = Some h -> host_is h r = true.
Proof. intros E. unfold host_is. rewrite E. unfold citext_eq. by apply bool_decide_eq_true. Qed.

Lemma coherent_insert cfg d d' rid row :
  resources d' = <[rid := row]> (resources d) -> coherent cfg d -> resource_ok cfg row ->
  (forall k r, resources d !! k = Some r -> k <> rid -> clashes row r = false) ->
  coherent cfg d'.
Proof.
  intros E [H1 H2 H3] Hok Hno. constructor; rewrite E.
  - intros k r [[_ <-]|[_ Hk]]%lookup_insert_Some; [done|by eapply H1].
  - intros i j r r' [[<- <-]|[Hi Hr]]%lookup_insert_Some [[<- <-]|[Hj Hr']]%lookup_insert_Some En.
    + done.
    + specialize (Hno _ _ Hr' ltac:(done)). unfold clashes in Hno. bool_simpl. congruence.
    + specialize (Hno _ _ Hr ltac:(done)). unfold clashes in Hno. bool_simpl. congruence.
    + by eapply H2.
  - intros i j r r' h [[<- <-]|[Hi Hr]]%lookup_insert_Some [[<- <-]|[Hj Hr']]%lookup_insert_Some Eh Eh'.
    + done.
    + specialize (Hno _ _ Hr' ltac:(done)). unfold clashes in Hno. rewrite Eh in Hno.
      apply orb_false_iff in Hno as [_ Hno]. by rewrite (host_is_same _ _ Eh') in Hno.
    + specialize (Hno _ _ Hr ltac:(done)). unfold clashes in Hno. rewrite Eh' in Hno.
      apply orb_false_iff in Hno as [_ Hno]. by rewrite (host_is_same _ _ Eh) in Hno.
    + by eapply H3.
Qed.

Lemma coherent_alter cfg d d' rid f :
  resources d' = alter f rid (resources d) -> coherent cfg d ->
  (forall r, r_name (f r) = r_name r /\ r_public_host (f r) = r_public_host r) ->
  (forall r, resources d !! rid = Some r -> resource_ok cfg r -> resource_ok cfg (f r)) ->
  coherent cfg d'.
Proof.
  intros E [H1 H2 H3] Hf Hok.
  assert (forall k r, resources d' !! k = Some r -> exists r0, resources d !! k = Some r0
    /\ r_name r = r_name r0 /\ r_public_host r = r_public_host r0 /\ resource_ok cfg r) as Hb.
  { intros k r. rewrite E, lookup_alter_Some. intros [(<- & r0 & Hr & ->)|[_ Hr]].
    - exists r0. destruct (Hf r0). split_and!; try done. apply Hok; [done|by eapply H1].
    - exists r. split_and!; try done. by eapply H1. }
  constructor.
  - intros k r Hr. by apply Hb in Hr as (_ & _ & _ & _ & ?).
  - intros i j r r' Hr Hr' En. apply Hb in Hr as (x & Hx & Ex & _), Hr' as (y & Hy & Ey & _).
    eapply H2; [exact Hx|exact Hy|congruence].
  - intros i j r r' h Hr Hr' Eh Eh'. apply Hb in Hr as (x & Hx & _ & Ex & _), Hr' as (y & Hy & _ & Ey & _).
    eapply (H3 _ _ _ _ h); [exact Hx|exact Hy|congruence|congruence].
Qed.

Lemma coherent_delete cfg d d' rid : resources d' = delete rid (resources d) -> coherent cfg d -> coherent cfg d'.
Proof.
  intros E [H1 H2 H3]. constructor; rewrite E.
  - intros k r [_ Hk]%lookup_delete_Some. by eapply H1.
  - intros i j r r' [_ Hi]%lookup_delete_Some [_ Hj]%lookup_delete_Some. by eapply H2.
  - intros i j r r' h [_ Hi]%lookup_delete_Some [_ Hj]%lookup_delete_Some. by eapply H3.
Qed.

(** ** What the bodies and the validations give *)

Lemma paths_good v ps : normalize_public_paths v = Ok (Some ps) ->
  Forall good_pattern ps /\ NoDup ps /\ (1 <= List.length ps <= 64)%nat.
Proof.
  intros (raws & H)%normalize_public_paths_good. unfold validate_patterns in H.
  destruct (MAX_PATTERNS <? _) eqn:Em; [done|]. destruct (validate_loop raws []) as [out|] eqn:El; [|done].
  apply validate_loop_spec in El as (Hn & Hg & _ & Hl & _); [|constructor|constructor].
  assert (out = ps) as -> by (destruct out; congruence).
  unfold MAX_PATTERNS in Em. bool_simpl. simpl in Hl. split_and!; [done|done| |lia].
  destruct ps; [done|simpl; lia].
Qed.

(** A checked body has a coherent public mode, host and paths. *)
Lemma resource_create_good raw body : resource_create raw = Some body ->
  (forall h, cr_public_host body = Some h -> good_host h)
  /\ (forall ps, cr_public_paths body = Some ps ->
        Forall good_pattern ps /\ NoDup ps /\ (1 <= List.length ps <= 64)%nat)
  /\ (cr_public_access body = true -> cr_protocol body ∈ ["http"; "https"] /\ cr_connection body = None
        /\ (exists h, cr_public_host body = Some h) /\ (exists p ps, cr_public_paths body = Some (p :: ps))).
Proof.
  unfold resource_create. intros H.
  destruct (normalize_public_host (rr_public_host raw)) as [host|] eqn:Eh; [|done].
  destruct (normalize_public_paths (rr_public_paths raw)) as [paths|] eqn:Ep; [|done].
  destruct (_ && _); [|done]. destruct (check_protocol_shape _) eqn:Es; [|done]. injection H as <-. simpl.
  split_and!.
  - intros h ->. by eapply normalize_public_host_good.
  - intros ps ->. by eapply paths_good.
  - intros Ha. unfold check_protocol_shape, check_public_shape in Es. simpl in Es. rewrite Ha in Es. simpl in Es.
    assert (forall p, p ∈ TUNNEL_PROTOCOLS -> p ∈ ["http"; "https"] -> False) as Hdis.
    { intros p Hp Hq. apply list_elem_of_In in Hp, Hq. simpl in Hp, Hq. intuition congruence. }
    destruct (bool_decide (rr_protocol raw ∈ TUNNEL_PROTOCOLS)) eqn:Et.
    + apply bool_decide_eq_true in Et. exfalso. case_bool_decide; [done|]. destruct (rr_connection raw); [|done].
      destruct (_ && _); [done|]. destruct (negb _) eqn:En; [done|]. bool_simpl. by eapply Hdis.
    + destruct (bool_decide (rr_connection raw <> None)) eqn:Ec; [done|].
      destruct (negb _) eqn:En; [done|]. destruct host as [[|c h]|]; try done. destruct paths as [[|p ps]|]; try done.
      bool_simpl. split_and!; [done|by apply dec_stable|by eexists|by eexists _, _].
Qed.

Lemma resource_patch_good raw body : resource_patch raw = Some body ->
  (forall h, rp_public_host body = Some (Some h) -> good_host h)
  /\ (forall ps, rp_public_paths body = Some (Some ps) ->
        Forall good_pattern ps /\ NoDup ps /\ (1 <= List.length ps <= 64)%nat).
Proof.
  destruct raw as [? host ? ? ? ? ? ? paths]. unfold resource_patch, if_sent. simpl. intros H. split.
  - intros h Hh. destruct host as [v|].
    + destruct (normalize_public_host v) as [o|] eqn:E; [|done].
      destruct paths as [w|]; [destruct (normalize_public_paths w); [|done]|];
        injection H as <-; simpl in Hh; injection Hh as ->; by eapply normalize_public_host_good.
    + destruct paths as [w|]; [destruct (normalize_public_paths w); [|done]|]; by injection H as <-.
  - intros ps Hp. destruct paths as [w|].
    + destruct (normalize_public_paths w) as [o|] eqn:E.
      * destruct host as [v|]; [destruct (normalize_public_host v); [|done]|];
          injection H as <-; simpl in Hp; injection Hp as ->; by eapply paths_good.
      * destruct host as [v|]; [by destruct (normalize_public_host v)|done].
    + destruct host as [v|]; [destruct (normalize_public_host v); [|done]|]; by injection H as <-.
Qed.

Lemma apart_resources : apart resources.
Proof. by repeat split. Qed.

Lemma validate_public_host_Ok o ex e s u s' : validate_public_host o ex e s = (Ok u, s') -> s' = s
  /\ forall h, o = Some h -> h <> reserved_host (settings e)
       /\ forall k r, resources (db s) !! k = Some r -> host_taken h ex k r = false.
Proof.
  unfold validate_public_host. destruct o as [h|]; [|intros Hr; unfold ret in Hr; by injection Hr as _ <-].
  intros Hr. mread Hr. case_bool_decide as E; [done|]. mread Hr. destruct (scalar _) eqn:Es; [done|].
  unfold ret in Hr. injection Hr as _ <-. split; [done|]. intros x [= <-]. split; [done|].
  intros k r Hk. by eapply scalar_select_None.
Qed.

Lemma validate_public_shape_Ok r e s u s' : validate_public_shape r e s = (Ok u, s') -> s' = s
  /\ (r_public_access r = true -> r_protocol r ∈ ["http"; "https"]
      /\ (exists h, r_public_host r = Some h) /\ (exists p ps, r_public_paths r = Some (p :: ps))).
Proof.
  unfold validate_public_shape. intros Hr. destruct (r_public_access r); simpl in Hr;
    [|unfold ret in Hr; injection Hr as _ <-; done].
  destruct (negb _) eqn:E1; [done|]. destruct (no_text _) eqn:E2; [done|].
  destruct (no_list _) eqn:E3; [done|]. unfold ret in Hr. injection Hr as _ <-. bool_simpl.
  split; [done|]. intros _. split_and!; [done| |].
  - destruct (r_public_host r) as [[|c h]|]; try done. by eexists.
  - destruct (r_public_paths r) as [[|p ps]|]; try done. by eexists _, _.
Qed.

Section Safety.
Context {aead : Aead} {ec : EcKeys} {jose : Jose} {jwt : Jwt} {argon : Argon}.
Context (run : list string -> ProcessResult).

Lemma stepup_resources rq e s au s1 : require_recent_stepup rq e s = (Ok au, s1) ->
  resources (db s1) = resources (db s).
Proof. apply same_steps_eq, apart_stepup, apart_resources. Qed.
Lemma change_resources a t i k b c e s u s1 : record_change a t i k b c e s = (Ok u, s1) ->
  resources (db s1) = resources (db s).
Proof. apply same_steps_eq, apart_change, apart_resources. Qed.

Lemma steps_seal_new R `{!PreOrder R} params : steps R (seal_new run params).
Proof.
  unfold seal_new, secrets_backend, seal_secret_params, encrypt_blob. destruct params as [[|p ps]|]; steps_auto.
Qed.
Lemma add_connection_resources a rid p c : steps (same resources) (add_connection run a rid p c).
Proof.
  unfold add_connection. apply steps_bind; [apply _|apply steps_seal_new; apply _|]. intros x. steps_auto.
  - reflexivity.
  - apply apart_change, apart_resources.
Qed.

Lemma new_share_password_Ok b e s o s' : new_share_password b e s = (Ok o, s') ->
  db s' = db s /\ (b = true <-> exists x, o = Some x).
Proof.
  intros Hr. split.
  - assert (steps (same id) (new_share_password b)) as Hs.
    { unfold new_share_password. destruct b; [|steps_auto]. apply steps_bind; [apply _| |intros; steps_auto].
      unfold generate_password. apply steps_bind; [apply _| |intros; steps_auto].
      assert (forall n, steps (same id) (generate_group n)) as Hg by (induction n; simpl; steps_auto).
      generalize PASSWORD_GROUPS. induction n; simpl; steps_auto. }
    by apply (same_steps_eq _ _ _ _ _ _ Hs Hr).
  - unfold new_share_password in Hr. destruct b.
    + mstep Hr p s1 H1. mstep Hr h s2 H2. unfold ret in Hr. injection Hr as <- _. split; [|done]. by eexists.
    + unfold ret in Hr. injection Hr as <- _. split; [done|by intros [? ?]].
Qed.

Lemma create_resource_Ok rq body e s out s' : create_resource run rq body e s = (Ok out, s') ->
  exists rid now password, resources (db s) !! rid = None
    /\ resources (db s') = <[rid := created_row body password now]> (resources (db s))
    /\ (cr_public_access body = true <-> exists x, password = Some x)
    /\ (forall h, cr_public_host body = Some h -> h <> reserved_host (settings e))
    /\ (forall k r, resources (db s) !! k = Some r -> clashes (created_row body password now) r = false).
Proof.
  unfold create_resource. intros Hr. mstep Hr au s1 H1. apply stepup_resources in H1. mread Hr.
  destruct (scalar _); [done|]. mstep Hr u s2 H2. apply validate_public_host_Ok in H2 as [-> Hh]. mread Hr.
  mstep Hr pw s3 H3. apply new_share_password_Ok in H3 as [Hd3 Hpw]. unfold uuid4 in Hr.
  mstep Hr rid s4 H4. minv H4. cbv zeta in Hr. destruct (negb _); [done|]. destruct (negb _); [done|].
  mstep Hr u5 s5 H5. apply db_add_Ok in H5 as (Hn & Hcl & Hd5 & _). simpl in Hn, Hcl, Hd5. rewrite Hd3 in Hn, Hcl, Hd5.
  simpl in Hn, Hcl, Hd5. mstep Hr u6 s6 H6. apply change_resources in H6. mstep Hr u7 s7 H7.
  assert (resources (db s7) = resources (db s6)) as H7'.
  { destruct (cr_connection body) as [c|]; [|unfold ret in H7; by injection H7 as _ <-].
    apply (same_steps_eq _ _ _ _ _ _ (add_connection_resources _ _ _ _) H7). }
  unfold ret in Hr. injection Hr as _ <-. rewrite H1 in Hn, Hcl.
  eexists _, _, pw. split_and!; [exact Hn| |exact Hpw| |exact Hcl].
  - rewrite H7', H6, Hd5. simpl. by rewrite H1.
  - intros h E. by apply Hh.
Qed.

(** ** Patching *)

Lemma save_resource_Ok rid row e s u s' : save_resource rid row e s = (Ok u, s') ->
  db s' = upd_resources <[rid := row]> (db s)
  /\ (forall k r, resources (db s) !! k = Some r -> k <> rid -> clashes row r = false).
Proof.
  unfold save_resource. intros Hr. destruct (negb (int4_all _)); [done|]. mread Hr.
  destruct (negb _ || negb _) eqn:E; [done|]. unfold moddb in Hr. injection Hr as _ <-. split; [done|].
  apply orb_false_iff in E as [_ E]. apply negb_false_iff, bool_decide_eq_true in E.
  intros k r Hk Hne. pose proof (proj1 (select_nil _ _) E k r Hk) as Hs. cbv beta in Hs.
  rewrite (proj2 (Z.eqb_neq _ _) Hne) in Hs. exact Hs.
Qed.

(** Every session of the share link that is still live after the patch grants what it
    granted before. *)
Definition link_kept (d' : Db) (rid : Z) (old new : Resource) : Prop :=
  forall sid p, public_sessions d' !! sid = Some p -> ps_resource_id p = rid -> ps_revoked_at p = None ->
    r_public_access old = true ->
    r_public_access new = true /\ paths_list new = paths_list old
    /\ (r_enabled new = false -> r_enabled old = false).

Lemma revoke_public_Ok rid e s n s' : revoke_public_sessions rid e s = (Ok n, s') ->
  resources (db s') = resources (db s)
  /\ (forall sid p, public_sessions (db s') !! sid = Some p -> ps_resource_id p = rid -> ps_revoked_at p <> None)
  /\ (forall sid p, public_sessions (db s) !! sid = Some p -> ps_resource_id p <> rid ->
        public_sessions (db s') !! sid = Some p).
Proof.
  unfold revoke_public_sessions. intros Hr. mread Hr. unfold ret in Hr. injection Hr as _ <-.
  split_and!; [reflexivity| |].
  - intros sid p. cbn [db public_sessions upd_public_sessions]. rewrite lookup_update_where.
    destruct (public_sessions (db s) !! sid) as [q|]; [|done]. simpl. unfold live_for. intros [= <-] Hq.
    destruct (ps_resource_id q =? rid) eqn:E1; simpl in *; [|lia]. by case_bool_decide.
  - intros sid p Hp Hne. cbn [db public_sessions upd_public_sessions]. rewrite lookup_update_where, Hp. simpl.
    unfold live_for. by rewrite (proj2 (Z.eqb_neq _ _) Hne).
Qed.

Lemma drop_password_same r : r_name (drop_password r) = r_name r /\ r_public_host (drop_password r) = r_public_host r
  /\ r_protocol (drop_password r) = r_protocol r /\ r_public_paths (drop_password r) = r_public_paths r
  /\ r_public_access (drop_password r) = r_public_access r /\ r_enabled (drop_password r) = r_enabled r
  /\ paths_list (drop_password r) = paths_list r.
Proof. destruct r as [? ? ? ? ? ? ? ? [] ? ? ?]; by split_and!. Qed.

(** What a successful patch did. *)
Record patched_as (e : Env) (s s' : St) (rq : ApiRequest) (rid : Z) (body : ResourcePatch)
    (old new : Resource) : Prop := {
  pt_gate : exists au d1, stepped_up e (db s) d1 rq au;
  pt_old : resources (db s) !! rid = Some old;
  pt_new : new = drop_password (patched_resource body old);
  pt_rows : resources (db s') = <[rid := new]> (resources (db s));
  pt_clash : forall k r, resources (db s) !! k = Some r -> k <> rid -> clashes new r = false;
  pt_host : forall h, rp_public_host body = Some (Some h) -> h <> reserved_host (settings e);
  pt_public : r_public_access new = true -> r_protocol new ∈ ["http"; "https"]
    /\ (exists h, r_public_host new = Some h) /\ (exists p ps, r_public_paths new = Some (p :: ps));
  pt_links : link_kept (db s') rid old new;
  pt_others : forall sid p, public_sessions (db s) !! sid = Some p -> ps_resource_id p <> rid ->
    public_sessions (db s') !! sid = Some p;
}.

Lemma apart_public_sessions : apart public_sessions.
Proof. by repeat split. Qed.

Lemma patch_resource_Ok rq rid body e s out s' : patch_resource rq rid body e s = (Ok out, s') ->
  exists old new, patched_as e s s' rq rid body old new.
Proof.
  unfold patch_resource. intros Hr. mstep Hr au s1 H1.
  pose proof (stepup_resources _ _ _ _ _ H1) as Hr1.
  pose proof (same_steps_eq public_sessions _ _ _ _ _ (apart_stepup public_sessions apart_public_sessions rq) H1) as Hp1.
  apply require_stepup_Ok in H1. mread Hr. destruct (resources (db s1) !! rid) as [old|] eqn:Eo; [|done].
  mstep Hr u2 s2 H2.
  assert (s2 = s1 /\ forall h, rp_public_host body = Some (Some h) -> h <> reserved_host (settings e)) as [-> Hh].
  { destruct (rp_public_host body) as [host|]; [|unfold ret in H2; injection H2 as _ <-; done].
    destruct (_ && _); [done|]. apply validate_public_host_Ok in H2 as [-> H2]. split; [done|].
    intros h [= ->]. by apply H2. }
  cbv zeta in Hr. mstep Hr u3 s3 H3. apply validate_public_shape_Ok in H3 as [-> Hsh].
  destruct (resource_nulls body); [done|]. mstep Hr u4 s4 H4. apply save_resource_Ok in H4 as [Hd4 Hcl].
  mstep Hr u5 s5 H5. mstep Hr u6 s6 H6. unfold ret in Hr. injection Hr as _ <-.
  pose proof (same_steps_eq public_sessions _ _ _ _ _
    (apart_change public_sessions apart_public_sessions _ _ _ _ _ _) H6) as Hp6.
  apply change_resources in H6. remember (patched_resource body old) as changed eqn:Ech.
  destruct (drop_password_same changed) as (_ & E2 & E3 & E4 & E5 & E6 & E7).
  assert (resources (db s5) = resources (db s4)
    /\ (grant_changed body old changed = true -> forall sid p, public_sessions (db s5) !! sid = Some p ->
          ps_resource_id p = rid -> ps_revoked_at p <> None)
    /\ (forall sid p, public_sessions (db s4) !! sid = Some p -> ps_resource_id p <> rid ->
          public_sessions (db s5) !! sid = Some p)) as (Hr5 & Hrev & Hkeep).
  { destruct (grant_changed body old changed) eqn:Eg; unfold when in H5.
    - mstep H5 n s7 H7. unfold ret in H5. injection H5 as _ <-. apply revoke_public_Ok in H7 as (A & B & C). done.
    - unfold ret in H5. injection H5 as _ <-. done. }
  exists old, (drop_password changed). rewrite Hr1 in Eo. constructor; try done.
  - by exists au, (db s1).
  - by rewrite Ech.
  - rewrite H6, Hr5, Hd4. cbn [db resources upd_resources]. by rewrite Hr1.
  - intros k r Hk. rewrite <- Hr1 in Hk. by apply Hcl.
  - rewrite E2, E3, E4, E5. exact Hsh.
  - intros sid p Hp Hpr Hlive Hpub. rewrite Hp6 in Hp. rewrite E5, E6, E7.
    destruct (grant_changed body old changed) eqn:Eg; [by destruct (Hrev eq_refl sid p Hp Hpr)|].
    unfold grant_changed in Eg. rewrite Hpub in Eg. simpl in Eg.
    destruct (r_public_access changed); simpl in Eg; [|done]. split; [done|].
    apply orb_false_iff in Eg as [Eg1 Eg2]. apply negb_false_iff, bool_decide_eq_true in Eg1. split; [done|].
    intros Hen. rewrite Hen in Eg2. simpl in Eg2. rewrite andb_true_r in Eg2. apply bool_decide_eq_false in Eg2.
    apply dec_stable in Eg2. rewrite Ech in Hen. unfold patched_resource in Hen. simpl in Hen.
    by rewrite Eg2 in Hen.
  - intros sid p Hp Hne. rewrite Hp6. apply Hkeep; [|done]. rewrite Hd4. cbn [db public_sessions upd_resources].
    by rewrite Hp1.
Qed.

(** ** The other operations *)

Lemma same_generate_password : steps (same id) generate_password.
Proof.
  unfold generate_password. apply steps_bind; [apply _| |intros; steps_auto].
  assert (forall n, steps (same id) (generate_group n)) as Hg by (induction n; simpl; steps_auto).
  generalize PASSWORD_GROUPS. induction n; simpl; steps_auto.
Qed.

Definition with_password (hash : string) (now : Z) (r : Resource) : Resource :=
  set_r_public_password_set_at (Some now) (set_r_public_password_hash (Some hash) r).

Lemma set_public_password_Ok rid now e s p s' : set_public_password rid now e s = (Ok p, s') ->
  exists salt, db s' = upd_resources (alter (with_password (argon_hash salt p) now) rid) (db s).
Proof.
  unfold set_public_password. intros Hr. mstep Hr q s1 H1.
  apply (same_steps_eq _ _ _ _ _ _ same_generate_password) in H1. unfold id in H1.
  unfold hash_password in Hr. mstep Hr h s2 H2. minv H2. mread Hr. unfold ret in Hr. injection Hr as <- <-.
  eexists. simpl. rewrite H1. reflexivity.
Qed.

Lemma if_negb {A} (b : bool) (x y : A) : b = true -> (if negb b then x else y) = y.
Proof. by intros ->. Qed.

Lemma rotate_password_Ok rq rid e s p s' : rotate_public_password rq rid e s = (Ok p, s') ->
  exists r salt now, (exists au d1, stepped_up e (db s) d1 rq au)
    /\ resources (db s) !! rid = Some r /\ r_public_access r = true
    /\ resources (db s') = alter (with_password (argon_hash salt p) now) rid (resources (db s))
    /\ (forall sid q, public_sessions (db s') !! sid = Some q -> ps_resource_id q = rid -> ps_revoked_at q <> None).
Proof.
  unfold rotate_public_password. intros Hr. mstep Hr au s1 H1. pose proof (stepup_resources _ _ _ _ _ H1) as Hr1.
  apply require_stepup_Ok in H1. mread Hr. destruct (resources (db s1) !! rid) as [r|] eqn:Er; [|done].
  assert (r_public_access r = true) as Ep by (destruct (r_public_access r); [done|discriminate Hr]).
  rewrite (if_negb _ _ _ Ep) in Hr. erewrite bind_run in Hr; [|reflexivity].
  mstep Hr pw s2 H2.
  apply set_public_password_Ok in H2 as (salt & Hd2). mstep Hr n s3 H3.
  apply revoke_public_Ok in H3 as (Hr3 & Hrev & _). mstep Hr u4 s4 H4.
  pose proof (same_steps_eq public_sessions _ _ _ _ _
    (apart_change public_sessions apart_public_sessions _ _ _ _ _ _) H4) as Hp4.
  apply change_resources in H4. unfold ret in Hr. injection Hr as <- <-. rewrite Hr1 in Er.
  exists r, salt, (clock e (tick s1)). split_and!; [by exists au, (db s1)|done|done| |by rewrite Hp4].
  rewrite H4, Hr3, Hd2. cbn [db resources upd_resources]. by rewrite Hr1.
Qed.

Lemma delete_resource_Ok rq rid e s u s' : delete_resource rq rid e s = (Ok u, s') ->
  resources (db s') = delete rid (resources (db s)).
Proof.
  unfold delete_resource. intros Hr. mstep Hr au s1 H1. apply stepup_resources in H1. mread Hr.
  destruct (resources (db s1) !! rid); [|done]. unfold db_delete_resource in Hr. rewrite bind_moddb in Hr.
  apply change_resources in Hr. rewrite Hr. cbn [db resources upd_resources]. by rewrite <- H1.
Qed.

Lemma put_connection_Ok rq rid body e s out s' : put_connection run rq rid body e s = (Ok out, s') ->
  resources (db s') = alter (set_target (cu_hostname body) (cu_port body)) rid (resources (db s)).
Proof.
  unfold put_connection. intros Hr. mstep Hr au s1 H1. apply stepup_resources in H1. mread Hr.
  destruct (resources (db s1) !! rid); [|done]. unfold load_connection in Hr. mstep Hr found s2 H2. mread H2. unfold ret in H2. injection H2 as <- <-.
  mread Hr. mstep Hr sec s3 H3.
  assert (resources (db s3) = resources (db s1)) as Hr3.
  { unfold secret_columns in H3. destruct (cu_secret_params body) as [ps|].
    - change (resources (db s1)) with (resources (db (mkSt (db s1) (S (tick s1))))).
      revert H3. apply same_steps_eq, steps_seal_new. apply _.
    - unfold ret in H3. by injection H3 as _ <-. }
  mread Hr. mstep Hr cid s4 H4.
  assert (db s4 = db s3) as Hd4.
  { destruct (scalar _) as [[k c]|]; unfold ret in H4; [by injection H4 as _ <-|]. unfold uuid4 in H4. minv H4.
    reflexivity. }
  cbv zeta in Hr. mstep Hr u5 s5 H5.
  assert (resources (db s5) = resources (db s4)) as Hr5.
  { destruct (scalar _) as [[k c]|].
    - unfold moddb in H5. by injection H5 as _ <-.
    - apply db_add_Ok in H5 as (_ & _ & Hd & _). by rewrite Hd. }
  rewrite bind_moddb in Hr. mstep Hr u6 s6 H6. apply change_resources in H6. unfold ret in Hr.
  injection Hr as _ <-. rewrite H6. cbn [db resources upd_resources]. by rewrite Hr5, Hd4, Hr3, H1.
Qed.

Lemma delete_connection_Ok rq rid e s u s' : delete_connection rq rid e s = (Ok u, s') ->
  resources (db s') = resources (db s).
Proof.
  unfold delete_connection, load_connection. intros Hr. mstep Hr au s1 H1. apply stepup_resources in H1.
  mstep Hr found s2 H2. mread H2. unfold ret in H2. injection H2 as <- <-. destruct (scalar _) as [[k c]|]; [|done]. rewrite bind_moddb in Hr.
  apply change_resources in Hr. by rewrite Hr.
Qed.

(** ** The invariant *)

Inductive resource_op : Type :=
| CreateResource (raw : ResourceCreateRaw)
| PatchResource (rid : Z) (raw : ResourcePatchRaw)
| RotatePassword (rid : Z)
| DeleteResource (rid : Z)
| PutConnection (rid : Z) (raw : ResourceConnectionUpsert)
| DeleteConnection (rid : Z).

(** The framework checks the body, answers 422 for one it refuses, and runs the handler in
    a unit of work. *)
Definition checked {A} (o : option A) (k : A -> M unit) : M unit :=
  match o with Some b => k b | None => raise (unprocessable "validation error") end.

Definition serve_resource (rq : ApiRequest) (op : resource_op) : M unit :=
  db_session (match op with
  | CreateResource raw => checked (resource_create raw) (fun b => create_resource run rq b;; ret tt)
  | PatchResource rid raw => checked (resource_patch raw) (fun b => patch_resource rq rid b;; ret tt)
  | RotatePassword rid => rotate_public_password rq rid;; ret tt
  | DeleteResource rid => delete_resource rq rid
  | PutConnection rid raw => checked (connection_upsert raw) (fun b => put_connection run rq rid b;; ret tt)
  | DeleteConnection rid => delete_connection rq rid
  end).

Lemma created_ok cfg raw body password now : resource_create raw = Some body ->
  (cr_public_access body = true <-> exists x, password = Some x) ->
  (forall h, cr_public_host body = Some h -> h <> reserved_host cfg) ->
  resource_ok cfg (created_row body password now).
Proof.
  intros Hb Hpw Hh. destruct (resource_create_good _ _ Hb) as (Gh & Gp & Ga).
  constructor; unfold created_row; simpl.
  - intros Ha. destruct (Ga Ha) as (A & _ & B & C). done.
  - intros h E. split; [by apply Gh|by apply Hh].
  - exact Gp.
  - intros Ha. destruct password as [x|]; [|done]. exfalso.
    assert (cr_public_access body = true) by (apply Hpw; by eexists). congruence.
Qed.

Lemma patched_ok cfg raw body old : resource_patch raw = Some body -> resource_ok cfg old ->
  (forall h, rp_public_host body = Some (Some h) -> h <> reserved_host cfg) ->
  let new := drop_password (patched_resource body old) in
  (r_public_access new = true -> r_protocol new ∈ ["http"; "https"]
    /\ (exists h, r_public_host new = Some h) /\ (exists p ps, r_public_paths new = Some (p :: ps))) ->
  resource_ok cfg new.
Proof.
  intros Hb Hok Hh new Hpub. destruct (resource_patch_good _ _ Hb) as (Gh & Gp).
  destruct (drop_password_same (patched_resource body old)) as (_ & E2 & _ & E4 & E5 & _).
  constructor; [exact Hpub| | |].
  - unfold new. rewrite E2. unfold patched_resource. simpl. intros h.
    destruct (rp_public_host body) as [o|]; simpl; [intros ->; split; [by apply Gh|by apply Hh]|].
    apply (rk_host _ _ Hok).
  - unfold new. rewrite E4. unfold patched_resource. simpl. intros ps.
    destruct (rp_public_paths body) as [o|]; simpl; [intros ->; by apply Gp|]. apply (rk_paths _ _ Hok).
  - unfold new. rewrite E5. intros Hp. unfold drop_password. by rewrite Hp.
Qed.

(** C5: The stored resources stay coherent under every request of the resource and connection
    routers, whatever its body and whether it succeeds or fails: a public resource is an
    HTTP one with a host and at least one path pattern, every stored host is a normalised
    DNS name that is not the authentication host, every stored pattern is a valid one,
    names and hosts are unique, and a resource that is not public keeps no share password. *)
Theorem resources_coherent rq op e s (H : coherent (settings e) (db s)) :
  coherent (settings e) (db (serve_resource rq op e s).2).
Proof.
  unfold serve_resource, db_session.
  destruct (_ e s) as [[u|x] s'] eqn:Hr; [|exact H]. cbn [snd].
  destruct op as [raw|rid raw|rid|rid|rid raw|rid]; cbv beta iota in Hr.
  - unfold checked in Hr. destruct (resource_create raw) as [b|] eqn:Eb; [|done].
    mstep Hr out s1 H1. unfold ret in Hr. injection Hr as _ <-.
    apply create_resource_Ok in H1 as (rid & now & pw & _ & Hrows & Hpw & Hh & Hcl).
    eapply coherent_insert; [exact Hrows|exact H|by eapply created_ok|intros k r Hk _; by eapply Hcl].
  - unfold checked in Hr. destruct (resource_patch raw) as [b|] eqn:Eb; [|done].
    mstep Hr out s1 H1. unfold ret in Hr. injection Hr as _ <-.
    apply patch_resource_Ok in H1 as (old & new & [_ Hold -> Hrows Hcl Hh Hpub _ _]).
    eapply coherent_insert; [exact Hrows|exact H| |exact Hcl].
    eapply patched_ok; [exact Eb|by eapply (co_ok _ _ H)|exact Hh|exact Hpub].
  - mstep Hr p s1 H1. unfold ret in Hr. injection Hr as _ <-.
    apply rotate_password_Ok in H1 as (r & salt & now & _ & Hold & Hpub & Hrows & _).
    eapply coherent_alter; [exact Hrows|exact H|done|]. intros r' Hr' Hok.
    rewrite Hold in Hr'. injection Hr' as <-. destruct Hok as [K1 K2 K3 K4].
    constructor; [exact K1|exact K2|exact K3|]. intros Hf. change (r_public_access r = false) in Hf. congruence.
  - apply delete_resource_Ok in Hr. eapply coherent_delete; [exact Hr|exact H].
  - unfold checked in Hr. destruct (connection_upsert raw) as [b|]; [|done].
    mstep Hr out s1 H1. unfold ret in Hr. injection Hr as _ <-. apply put_connection_Ok in H1.
    eapply coherent_alter; [exact H1|exact H|done|]. intros r' _ [K1 K2 K3 K4]. by constructor.
  - apply delete_connection_Ok in Hr. eapply coherent_same; [exact Hr|exact H].
Qed.

(** A patch of a resource is made only after a step-up, keeps the other rows, never sets a
    share password, and leaves no live session of the share link unless the resource is
    still public with the same paths and was not disabled by the patch; sessions of other
    links are as they were. *)
Theorem patch_resource_sound rq rid body e s out s'
    (Hrun : patch_resource rq rid body e s = (Ok out, s')) :
  exists au d1 old new, stepped_up e (db s) d1 rq au /\ resources (db s) !! rid = Some old
    /\ resources (db s') = <[rid := new]> (resources (db s))
    /\ (r_public_password_hash new = r_public_password_hash old
        \/ r_public_access new = false /\ r_public_password_hash new = None)
    /\ link_kept (db s') rid old new
    /\ (forall sid p, public_sessions (db s) !! sid = Some p -> ps_resource_id p <> rid ->
          public_sessions (db s') !! sid = Some p).
Proof.
  apply patch_resource_Ok in Hrun as (old & new & [(au & d1 & H1) H2 H3 H4 _ _ _ H5 H6]).
  exists au, d1, old, new. split_and!; try done. rewrite H3. unfold drop_password.
  destruct (r_public_access (patched_resource body old)) eqn:E; [by left|]. right. split; [|done].
  change (r_public_access (patched_resource body old) = false). exact E.
Qed.

(** Rotating the share password of a public resource, after a step-up, stores the hash of the
    password that is returned, which verifies, and ends every session of the link. *)
Theorem rotate_password_sound `{!ArgonLaws} rq rid e s p s'
    (Hrun : rotate_public_password rq rid e s = (Ok p, s')) :
  (exists au d1, stepped_up e (db s) d1 rq au)
  /\ (exists r hash, resources (db s') !! rid = Some r /\ r_public_access r = true
        /\ r_public_password_hash r = Some hash /\ argon_verify hash p = Verified
        /\ forall q, argon_verify hash q <> InvalidHash)
  /\ (forall sid q, public_sessions (db s') !! sid = Some q -> ps_resource_id q = rid -> ps_revoked_at q <> None).
Proof.
  apply rotate_password_Ok in Hrun as (r & salt & now & H1 & H2 & H3 & H4 & H5). split_and!; [done| |done].
  exists (with_password (argon_hash salt p) now r), (argon_hash salt p).
  rewrite H4, lookup_alter_eq, H2. split_and!; [done|done|done|apply argon_round|].
  intros q. apply argon_wellformed.
Qed.
End Safety.

(** ** What the data plane and the gate make of coherent rows *)

(** Over coherent resources, the route table sends the host of every enabled public resource
    with a port to that very resource, marked as gated. *)
Theorem public_resource_routed cfg e s table s' rid r h port ports (Hco : coherent cfg (db s))
    (Hrun : routes e s = (Ok table, s')) (Hr : resources (db s) !! rid = Some r)
    (Hen : r_enabled r = true) (Hpub : r_public_access r = true) (Hh : r_public_host r = Some h)
    (Hp : r_ports r = port :: ports) :
  table !! h = Some (mkRouteOut (Some (r_protocol r +:+ "://" +:+ r_host r +:+ ":" +:+ dec_str port)) port
                       false true).
Proof.
  pose proof (co_ok _ _ Hco _ _ Hr) as Hok. destruct (rk_public _ _ Hok Hpub) as (Hproto & _ & _).
  destruct (rk_host _ _ Hok _ Hh) as [Hg _].
  assert (forall r' h', resource_ok cfg r' -> r_public_host r' = Some h' -> route_host r' = h') as Hroute.
  { intros r' h' Hok' E. unfold route_host. rewrite E. simpl. apply good_host_route.
    by apply (rk_host _ _ Hok'). }
  unfold routes in Hrun. mread Hrun. unfold ret in Hrun. injection Hrun as <- _.
  assert (route_of r = Some (mkRouteOut (Some (r_protocol r +:+ "://" +:+ r_host r +:+ ":" +:+ dec_str port))
    port false true)) as Hout.
  { unfold route_of. rewrite (Hroute _ _ Hok Hh), bool_decide_eq_false_2 by apply Hg.
    unfold HTTP_PROTOCOLS. by rewrite bool_decide_eq_true_2, Hp, Hpub by done. }
  assert ((rid, r) ∈ select routable (resources (db s))) as Hin.
  { apply select_In. split; [done|]. unfold routable. by rewrite Hen, Hh. }
  pose proof (build_complete _ _ _ _ Hin Hout ∅) as [out Hb]. rewrite (Hroute _ _ Hok Hh) in Hb.
  rewrite Hb. apply build_sound in Hb as [Hb|(id & r' & Hin' & Hh' & Ho')]; [by rewrite lookup_empty in Hb|].
  apply select_In in Hin' as [Hr' Hrt]. unfold routable in Hrt. apply andb_true_iff in Hrt as [_ Hne].
  apply bool_decide_eq_true in Hne. destruct (r_public_host r') as [h'|] eqn:Eh'; [|done].
  rewrite (Hroute _ _ (co_ok _ _ Hco _ _ Hr') Eh') in Hh'. subst h'.
  assert (id = rid) as -> by (eapply (co_hosts _ _ Hco); [exact Hr'|exact Hr|exact Eh'|exact Hh]).
  rewrite Hr in Hr'. injection Hr' as <-. congruence.
Qed.

(** Over coherent resources, the gate of a resource sends the browser only to a path of the
    same origin, one the resource exposes or the literal head of its first pattern. *)
Theorem coherent_gate_return cfg d rid r rd (Hco : coherent cfg d) (Hr : resources d !! rid = Some r) :
  same_origin (safe_rd rd r)
  /\ (safe_rd rd r = literal_prefix (first_pattern r)
      \/ safe_rd rd r = rd /\ matches (r_public_paths r) (before "#" (before "?" rd)) = true).
Proof.
  apply safe_rd_sound. intros ps Hps. by apply (rk_paths _ _ (co_ok _ _ Hco _ _ Hr)).
Qed.

(** ** Witnesses *)

#[local] Existing Instances clear_aead clear_jose demo_jwt demo_argon.

Definition album_raw : ResourceCreateRaw :=
  mkCreateRaw "album" "https" (JStr " Album.Example.com. ") "10.0.0.7" [8443] None None true true
    (JArr [JStr "/albums/**"]) None.
Definition album_patch : ResourcePatchRaw :=
  mkPatchRaw None None None None None None None (Some (Some false)) None.
Definition album_closed : ResourcePatch :=
  mkResourcePatch None None None None None None None (Some (Some false)) None.
Definition resources_call : ApiRequest := demo_admin_call "PATCH" "/api/v1/resources".
Definition no_run (_ : list string) : ProcessResult := FileNotFound.

Definition album : Resource :=
  mkResource "album" "https" (Some "album.example.com") "10.0.0.7" [8443] None None true true
    (Some ["/albums/**"]) (Some "hash") (Some 0).
Definition album_db : Db :=
  demo_admin_db
  (upd_resources (fun _ => {[ 5 := album ]})
  (upd_public_sessions (fun _ => {[ 31 := mkPublicSession 5 "h" None 0 9000000000000000 0 None ]}) empty_db)).

Lemma album_only rid r : resources album_db !! rid = Some r -> rid = 5 /\ r = album.
Proof.
  change (resources album_db) with ({[5 := album]} : gmap Z Resource).
  by intros [<- <-]%lookup_singleton_Some.
Qed.

Lemma album_coherent cfg : "album.example.com" <> reserved_host cfg -> coherent cfg album_db.
Proof.
  intros Hres. constructor.
  - intros rid r [-> ->]%album_only. constructor; simpl.
    + intros _. split_and!; [by right; left|by eexists|by eexists _, _].
    + intros h [= <-]. split; [|done]. apply (normalize_public_host_good (JStr "album.example.com")).
      vm_compute. reflexivity.
    + intros ps [= <-]. apply (paths_good (JArr [JStr "/albums/**"])). vm_compute. reflexivity.
    + done.
  - by intros i j r r' [-> _]%album_only [-> _]%album_only.
  - by intros i j r r' h [-> _]%album_only [-> _]%album_only.
Qed.

Example resources_coherent_witness : exists s',
  serve_resource no_run resources_call (CreateResource album_raw) admin_env (mkSt (demo_admin_db empty_db) 0) = (Ok tt, s')
  /\ coherent (settings admin_env) (db s')
  /\ map (fun kv => r_public_host kv.2) (map_to_list (resources (db s'))) = [Some "album.example.com"].
Proof.
  destruct (serve_resource no_run resources_call (CreateResource album_raw) admin_env
    (mkSt (demo_admin_db empty_db) 0)) as [[[]|x] s'] eqn:E; [|exfalso; revert E; vm_compute; discriminate].
  exists s'. split; [reflexivity|]. split.
  - change s' with ((Ok tt, s').2). rewrite <- E. apply resources_coherent. constructor; intros *; done.
  - change s' with ((Ok tt, s').2). rewrite <- E. vm_compute. reflexivity.
Defined.

Example patch_resource_sound_witness : exists out s' body,
  resource_patch album_patch = Some body
  /\ patch_resource resources_call 5 body admin_env (mkSt album_db 0) = (Ok out, s')
  /\ exists new, resources (db s') = <[5 := new]> (resources album_db)
     /\ forall sid p, public_sessions (db s') !! sid = Some p -> ps_resource_id p = 5 ->
          ps_revoked_at p = None -> r_public_access new = true.
Proof.
  destruct (patch_resource resources_call 5 album_closed admin_env (mkSt album_db 0)) as [[out|x] s'] eqn:E; [|exfalso; revert E; vm_compute; discriminate].
  exists out, s', album_closed. split; [reflexivity|]. split; [exact E|].
  destruct (patch_resource_sound _ _ _ _ _ _ _ E) as (au & d1 & old & new & _ & Ho & Hn & _ & Hl & _).
  exists new. split; [exact Hn|]. intros sid p H1 H2 H3. eapply Hl; [exact H1|exact H2|exact H3|].
  assert (Some old = Some album) as [= ->] by (rewrite <- Ho; reflexivity). reflexivity.
Defined.

Example rotate_password_sound_witness : exists p s',
  rotate_public_password resources_call 5 admin_env (mkSt album_db 0) = (Ok p, s')
  /\ exists r hash, resources (db s') !! 5 = Some r /\ r_public_password_hash r = Some hash
     /\ argon_verify hash p = Verified.
Proof.
  destruct (rotate_public_password resources_call 5 admin_env (mkSt album_db 0)) as [[p|x] s'] eqn:E;
    [|exfalso; revert E; vm_compute; discriminate].
  exists p, s'. split; [reflexivity|].
  destruct (rotate_password_sound (H := demo_argon_laws) _ _ _ _ _ _ E) as (_ & (r & hash & H1 & _ & H2 & H3 & _) & _).
  exists r, hash. split; [exact H1|]. split; [exact H2|exact H3].
Defined.

Example public_resource_routed_witness : exists table s',
  routes admin_env (mkSt album_db 0) = (Ok table, s')
  /\ table !! "album.example.com" = Some (mkRouteOut (Some "https://10.0.0.7:8443") 8443 false true).
Proof.
  destruct (routes admin_env (mkSt album_db 0)) as [[table|x] s'] eqn:E;
    [|exfalso; revert E; vm_compute; discriminate].
  exists table, s'. split; [reflexivity|].
  apply (public_resource_routed (settings admin_env) admin_env (mkSt album_db 0) table s' 5 album
    "album.example.com" 8443 []); [|exact E|reflexivity..].
  apply album_coherent. vm_compute. discriminate.
Defined.

Example coherent_gate_return_witness :
  coherent (settings admin_env) album_db /\ same_origin (safe_rd "//evil.example.com" album).
Proof.
  assert (coherent (settings admin_env) album_db) as H by (apply album_coherent; vm_compute; discriminate).
  split; [exact H|]. apply (coherent_gate_return _ _ 5 album "//evil.example.com" H). reflexivity.
Defined.
