(* ===== verification/Viewers.v ===== *)
(** * Viewers: admin/routes/viewers.py

    The read-only views of the audit trail, the authentication events and the change
    history, paged by key.  The tables are append-only lists in the order of their ids;
    [ids] is the database's sequence: the id of the n-th row of a table. *)

From S2P Require Import Prelude PyStr Encoding Json PyTime Config Db Effects Crypto Web.
From S2P Require Import Keys Sessions Dpop Tokens ResourceServer AdminDeps Users UsersSafety.
Local Open Scope Z_scope.

Record Page (B : Type) := mkPage { items : list B; next_cursor : option Z }.
Arguments mkPage {B} _ _.
Arguments items {B} _.
Arguments next_cursor {B} _.

Definition numbered {A} (ids : nat -> Z) (l : list A) : list (Z * A) := imap (fun i a => (ids i, a)) l.

(** [id < cursor], when there is a cursor. *)
Definition below (cursor : option Z) (id : Z) : bool :=
  match cursor with Some c => id <? c | None => true end.

(** The query of a page: one row more than the page holds tells whether another follows. *)
Definition keyset {A} (rows : list (Z * A)) (keep : A -> bool) (cursor : option Z) (limit : nat)
  : list (Z * A) :=
  take (S limit) (reverse (List.filter (fun kv => keep kv.2 && below cursor kv.1) rows)).

Definition page {A B} (out : Z -> A -> B) (rows : list (Z * A)) (keep : A -> bool) (cursor : option Z)
    (limit : nat) : Page B :=
  let found := keyset rows keep cursor limit in
  let has_more := (limit <? List.length found)%nat in
  let rows := take limit found in
  mkPage (map (fun kv => out kv.1 kv.2) rows)
    (if has_more then match last rows with Some kv => Some kv.1 | None => None end else None).

(** ** The three views *)

Record AuditAccessOut := mkAccessOut {
  ao_id : Z; ao_ts : Z; ao_user_id : option Z; ao_resource_id : option Z; ao_port : option Z;
  ao_decision : string; ao_reason : string; ao_source_ip : string }.
Definition access_out (id : Z) (a : AuditLog) : AuditAccessOut :=
  mkAccessOut id (al_ts a) (al_user_id a) (al_resource_id a) (al_port a) (al_decision a) (al_reason a)
    (al_source_ip a).

Record AuthEventOut := mkEventOut {
  eo_id : Z; eo_ts : Z; eo_event_type : string; eo_user_id : option Z; eo_session_id : option Z;
  eo_client_id : option string; eo_source_ip : string; eo_success : bool; eo_detail : list (string * json) }.
Definition event_out (id : Z) (a : AuthEvent) : AuthEventOut :=
  mkEventOut id (ae_ts a) (ae_event_type a) (ae_user_id a) (ae_session_id a) (ae_client_id a)
    (ae_source_ip a) (ae_success a) (ae_detail a).

Record PolicyChangeOut := mkChangeOut {
  cho_id : Z; cho_ts : Z; cho_actor_id : Z; cho_actor_email : string; cho_entity_type : string;
  cho_entity_id : option Z; cho_action : string; cho_change_json : list (string * json) }.
Definition change_out (id : Z) (row : PolicyChange * string) : PolicyChangeOut :=
  mkChangeOut id (pc_ts row.1) (pc_actor_id row.1) row.2 (pc_entity_type row.1) (pc_entity_id row.1)
    (pc_action row.1) (pc_change_json row.1).

(** A condition that is only put when its parameter was given. *)
Definition given_eq {A} `{EqDecision A} (param : option A) (column : option A) : bool :=
  match param with Some v => bool_decide (column = Some v) | None => true end.
Definition in_period (since until : option Z) (ts : Z) : bool :=
  match since with Some t => t <=? ts | None => true end
  && match until with Some t => ts <? t | None => true end.

Record AccessFilter := mkAccessFilter {
  af_user_id : option Z; af_resource_id : option Z; af_decision : option string;
  af_since : option Z; af_until : option Z }.
Definition access_keep (f : AccessFilter) (a : AuditLog) : bool :=
  given_eq (af_user_id f) (al_user_id a) && given_eq (af_resource_id f) (al_resource_id a)
  && given_eq (af_decision f) (Some (al_decision a)) && in_period (af_since f) (af_until f) (al_ts a).

Record EventFilter := mkEventFilter {
  ef_user_id : option Z; ef_event_type : option string; ef_success : option bool;
  ef_since : option Z; ef_until : option Z }.
Definition event_keep (f : EventFilter) (a : AuthEvent) : bool :=
  given_eq (ef_user_id f) (ae_user_id a) && given_eq (ef_event_type f) (Some (ae_event_type a))
  && given_eq (ef_success f) (Some (ae_success a)) && in_period (ef_since f) (ef_until f) (ae_ts a).

Record ChangeFilter := mkChangeFilter {
  cf_actor_id : option Z; cf_entity_type : option string; cf_entity_id : option Z }.
Definition change_keep (f : ChangeFilter) (row : PolicyChange * string) : bool :=
  given_eq (cf_actor_id f) (Some (pc_actor_id row.1)) && given_eq (cf_entity_type f) (Some (pc_entity_type row.1))
  && given_eq (cf_entity_id f) (pc_entity_id row.1).

(** [join(User, PolicyChange.actor_id == User.id)], with the address of the actor. *)
Definition with_actor (d : Db) (rows : list (Z * PolicyChange)) : list (Z * (PolicyChange * string)) :=
  omap (fun kv => (fun u => (kv.1, (kv.2, u_email u))) <$> users d !! pc_actor_id kv.2) rows.

(** [Query(ge=1, le=200)]. *)
Definition with_limit {A} (limit : Z) (k : nat -> M A) : M A :=
  if (1 <=? limit) && (limit <=? 200) then k (Z.to_nat limit)
  else raise (HTTPException 422 "validation error" []).

Section Viewers.
Context {aead : Aead} {ec : EcKeys} {jose : Jose} {jwt : Jwt}.
Context (ids : nat -> Z).

Definition list_access_audit (request : ApiRequest) (cursor : option Z) (limit : Z) (f : AccessFilter)
  : M (Page AuditAccessOut) :=
  require_admin request;;
  with_limit limit (fun n =>
    let! t := gets audit_log in
    ret (page access_out (numbered ids t) (access_keep f) cursor n)).

Definition list_auth_events (request : ApiRequest) (cursor : option Z) (limit : Z) (f : EventFilter)
  : M (Page AuthEventOut) :=
  require_admin request;;
  with_limit limit (fun n =>
    let! t := gets auth_events in
    ret (page event_out (numbered ids t) (event_keep f) cursor n)).

Definition list_policy_changes (request : ApiRequest) (cursor : option Z) (limit : Z) (f : ChangeFilter)
  : M (Page PolicyChangeOut) :=
  require_admin request;;
  with_limit limit (fun n =>
    let! d := gets id in
    ret (page change_out (with_actor d (numbered ids (policy_changes d))) (change_keep f) cursor n)).
End Viewers.

(** ** Paging *)

(** Following [next_cursor] from page to page, the n-th page read from the n-th state of
    the table; [None] when the pages do not end within the fuel. *)
Fixpoint walk {A B} (fuel : nat) (out : Z -> A -> B) (ids : nat -> Z) (tables : nat -> list A)
    (keep : A -> bool) (limit : nat) (n : nat) (cursor : option Z) : option (list B) :=
  match fuel with
  | O => None
  | S f =>
      let pg := page out (numbered ids (tables n)) keep cursor limit in
      match next_cursor pg with
      | None => Some (items pg)
      | Some c => option_map (app (items pg)) (walk f out ids tables keep limit (S n) (Some c))
      end
  end.

Section Paging.
Context {A B : Type} (out : Z -> A -> B) (ids : nat -> Z) (keep : A -> bool) (limit : nat).
Context (Hids : forall i j, (i < j)%nat -> ids i < ids j).
Implicit Types (l : list A) (rows : list (Z * A)).

Definition ascending rows : Prop := StronglySorted (fun a b : Z * A => a.1 < b.1) rows.
Definition matching rows : list (Z * A) := List.filter (fun kv => keep kv.2) rows.

Lemma ascending_filter p rows : ascending rows -> ascending (List.filter p rows).
Proof.
  unfold ascending. induction 1 as [|a rows H IH Ha]; simpl; [constructor|].
  destruct (p a); [|done]. constructor; [done|]. apply Forall_forall. intros x Hx.
  apply list_elem_of_In, filter_In in Hx as [Hx _]. rewrite Forall_forall in Ha. apply Ha.
  by apply list_elem_of_In.
Qed.

Lemma numbered_ascending l : ascending (numbered ids l).
Proof.
  unfold ascending, numbered. revert ids Hids. induction l as [|a l IH]; intros ids' H'; [constructor|].
  rewrite imap_cons. constructor.
  - apply (IH (fun i => ids' (S i))). intros i j Hij. apply H'. lia.
  - apply Forall_forall. intros [k b] Hk. apply elem_of_lookup_imap in Hk as (i & y & [= -> ->] & _). simpl.
    apply H'. lia.
Qed.

(** In an ascending list, the elements below one of them are those before it. *)
Lemma filter_below rows1 x rows2 : ascending (rows1 ++ x :: rows2) ->
  List.filter (fun kv => kv.1 <? x.1) (rows1 ++ x :: rows2) = rows1.
Proof.
  unfold ascending. induction rows1 as [|y rows1 IH]; simpl; intros Hs; apply StronglySorted_inv in Hs as [Hs Hf].
  - rewrite Z.ltb_irrefl. rewrite Forall_forall in Hf. clear -Hf. induction rows2 as [|z rows2 IH]; [done|].
    simpl. rewrite (proj2 (Z.ltb_ge _ _)) by (specialize (Hf z ltac:(left)); lia). apply IH.
    intros w Hw. apply Hf. by right.
  - rewrite Forall_forall in Hf. specialize (Hf x ltac:(set_solver)) as Hyx.
    rewrite (proj2 (Z.ltb_lt _ _)) by exact Hyx. f_equal. by apply IH.
Qed.

Lemma filter_and {X} (p q : X -> bool) (l : list X) :
  List.filter (fun x => p x && q x) l = List.filter q (List.filter p l).
Proof. induction l as [|x l IH]; simpl; [done|]. destruct (p x); simpl; [|done]. destruct (q x); by rewrite IH. Qed.

(** The page after a row of the matching ones, newest first: whatever was added since, it
    continues where that row was. *)
Lemma keyset_rest l extra done x rest :
  reverse (matching (numbered ids l)) = done ++ x :: rest ->
  keyset (numbered ids (l ++ extra)) keep (Some x.1) limit = take (S limit) rest.
Proof.
  intros E. unfold keyset. f_equal. rewrite (filter_and (fun kv : Z * A => keep kv.2)).
  fold (matching (numbered ids (l ++ extra))).
  assert (exists more, matching (numbered ids (l ++ extra)) = matching (numbered ids l) ++ more) as [more Em].
  { unfold numbered, matching. rewrite imap_app, List.filter_app. by eexists. }
  apply (f_equal reverse) in E. rewrite reverse_involutive, reverse_app, reverse_cons, <- app_assoc in E. simpl in E.
  pose proof (ascending_filter (fun kv => keep kv.2) _ (numbered_ascending (l ++ extra))) as Hs.
  fold (matching (numbered ids (l ++ extra))) in Hs. rewrite Em, E, <- app_assoc in *. simpl in *.
  rewrite filter_below by done. apply reverse_involutive.
Qed.

Lemma page_of_rest rows cursor rest : (1 <= limit)%nat ->
  keyset rows keep cursor limit = take (S limit) rest ->
  items (page out rows keep cursor limit) = map (fun kv => out kv.1 kv.2) (take limit rest)
  /\ ((List.length rest <= limit)%nat /\ next_cursor (page out rows keep cursor limit) = None
      \/ exists front x tl, rest = front ++ x :: tl /\ take limit rest = front ++ [x]
         /\ next_cursor (page out rows keep cursor limit) = Some x.1).
Proof.
  intros Hl E. unfold page. rewrite E. cbn [items next_cursor]. rewrite take_take, Nat.min_l by lia.
  split; [done|]. rewrite length_take. destruct (decide (List.length rest <= limit)%nat) as [Hle|Hgt].
  - left. split; [done|]. rewrite (proj2 (Nat.ltb_ge _ _)) by lia. done.
  - right. rewrite (proj2 (Nat.ltb_lt _ _)) by lia.
    destruct (last (take limit rest)) as [x|] eqn:El.
    + apply last_Some in El as [front El]. exists front, x, (drop limit rest). split_and!; [|done|done].
      rewrite <- (take_drop limit rest) at 1. rewrite El, <- app_assoc. done.
    + apply last_None in El. apply (f_equal List.length) in El. rewrite length_take in El. simpl in El. lia.
Qed.

Lemma walk_rest (tables : nat -> list A) (Hpre : forall n, prefix (tables O) (tables n)) (Hl : (1 <= limit)%nat) fuel :
  forall n done x rest, reverse (matching (numbered ids (tables O))) = done ++ x :: rest ->
  (List.length rest < fuel)%nat ->
  walk fuel out ids tables keep limit n (Some x.1) = Some (map (fun kv => out kv.1 kv.2) rest).
Proof.
  induction fuel as [|fuel IH]; intros n done x rest E Hf; [lia|]. cbn [walk]. cbv zeta.
  destruct (Hpre n) as [extra Hn].
  pose proof (keyset_rest (tables O) extra done x rest E) as Hk. rewrite <- Hn in Hk.
  destruct (page_of_rest _ _ _ Hl Hk) as [Hi [[Hle Hc]|(front & y & tl & Hr & Ht & Hc)]]; rewrite Hc, Hi.
  - by rewrite take_ge.
  - rewrite (IH (S n) (done ++ x :: front) y tl); simpl.
    + rewrite Ht, Hr, <- map_app, <- app_assoc. done.
    + rewrite E, Hr. by rewrite <- app_assoc.
    + rewrite Hr, length_app in Hf. simpl in Hf. lia.
Qed.
End Paging.

(** C32: Following the cursors of the pages ends, and yields every matching row exactly once,
    newest first, as the table was when the first page was read: rows added to the
    append-only table between two pages neither repeat nor hide one. *)
Theorem pages_complete {A B} (out : Z -> A -> B) ids (tables : nat -> list A) keep limit
    (Hids : forall i j, (i < j)%nat -> ids i < ids j) (Hpre : forall n, prefix (tables O) (tables n))
    (Hl : (1 <= limit)%nat) :
  walk (S (List.length (tables O))) out ids tables keep limit O None
  = Some (map (fun kv => out kv.1 kv.2) (reverse (matching keep (numbered ids (tables O))))).
Proof.
  set (all := reverse (matching keep (numbered ids (tables O)))).
  assert (keyset (numbered ids (tables O)) keep None limit = take (S limit) all) as Hk.
  { unfold keyset, all, matching. do 2 f_equal. apply List.filter_ext. intros kv. apply andb_true_r. }
  assert (List.length all <= List.length (tables O))%nat as Hlen.
  { unfold all, matching. rewrite length_reverse. etransitivity; [apply List.filter_length_le|].
    unfold numbered. by rewrite length_imap. }
  cbn [walk]. cbv zeta.
  destruct (page_of_rest out keep limit _ _ _ Hl Hk) as [Hi [[Hle Hc]|(front & y & tl & Hr & Ht & Hc)]]; rewrite Hc, Hi.
  - by rewrite take_ge.
  - rewrite (walk_rest out ids keep limit Hids tables Hpre Hl _ 1 front y tl Hr); simpl.
    + rewrite Ht, Hr, <- map_app, <- app_assoc. done.
    + rewrite Hr, length_app in Hlen. simpl in Hlen. lia.
Qed.

(** Each view answers an administrator with a page of its table, which it only reads. *)
Section Views.
Context {aead : Aead} {ec : EcKeys} {jose : Jose} {jwt : Jwt} (ids : nat -> Z).

Lemma with_limit_Ok {A} limit (k : nat -> M A) e s a s' : with_limit limit k e s = (Ok a, s') ->
  1 <= limit <= 200 /\ k (Z.to_nat limit) e s = (Ok a, s').
Proof. unfold with_limit. destruct (_ && _) eqn:E; [|done]. intros H. bool_simpl. split; [lia|done]. Qed.

Lemma list_access_audit_Ok rq cursor limit f e s pg s' :
  list_access_audit ids rq cursor limit f e s = (Ok pg, s') ->
  on_lan (settings e) rq /\ (exists au, admin_tier au /\ token_checked (settings e) (db s) (db s') rq au)
  /\ 1 <= limit <= 200
  /\ pg = page access_out (numbered ids (audit_log (db s))) (access_keep f) cursor (Z.to_nat limit)
  /\ audit_log (db s') = audit_log (db s).
Proof.
  unfold list_access_audit. intros Hr. mstep Hr au s1 H1.
  pose proof (same_steps_eq audit_log _ _ _ _ _
    (steps_require_admin (same audit_log) ltac:(reflexivity)
       (fun sid ip now enf => same_check_liveness audit_log sid ip now enf ltac:(by repeat split)) rq) H1) as Ha.
  apply require_admin_Ok in H1 as (H1 & H2 & H3). apply with_limit_Ok in Hr as [Hl Hr]. mread Hr.
  unfold ret in Hr. injection Hr as <- <-. rewrite Ha. split_and!; try done; [by exists au|lia..].
Qed.
End Views.

Example pages_complete_witness :
  walk 4 (fun id (n : Z) => (id, n)) (fun i => 10 * Z.of_nat i)
    (fun n => [7; 8; 9] ++ repeat 8 n) (fun n => negb (n =? 7)) 1 0 None = Some [(20, 9); (10, 8)].
Proof.
  exact (pages_complete (fun id (n : Z) => (id, n)) (fun i => 10 * Z.of_nat i)
    (fun n => [7; 8; 9] ++ repeat 8 n) (fun n => negb (n =? 7)) 1 ltac:(intros i j Hij; cbv beta; lia)
    ltac:(intros n; by apply prefix_app_r) ltac:(lia)).
Defined.
