(* ===== verification/Portal.v ===== *)
(** * Portal: admin/routes/portal.py and admin/qbit.py

    The portal of the standard users: the resources they may reach, their password, and
    the queue of download requests.  qBittorrent is reached over HTTP: its answer to a
    form is a parameter. *)

From S2P Require Import Prelude PyStr Encoding Json JsonText PyTime Config Db Effects Crypto Web.
From S2P Require Import Events Keys Passwords Sessions Dpop Tokens Grants ResourceServer Decision AdminDeps.
From S2P Require Import Users Schemas Access.
Local Open Scope Z_scope.

(** ** qbit.py *)

(** What [client.post] does: raises an [httpx.HTTPError], or answers. *)
Inductive PostOutcome : Type :=
| HTTPError (class_name : string)
| Answered (status_code : Z) (text : string).

Definition torrent_fields (magnet savepath : string) : list (string * string) :=
  [("urls", magnet); ("autoTMM", "false"); ("savepath", savepath); ("rename", ""); ("category", "");
   ("stopped", "false"); ("stopCondition", "None"); ("contentLayout", "Original"); ("dlLimit", "0");
   ("upLimit", "0")].

(** The message of the [QbitError] it raises, or nothing. *)
Definition add_torrent (post : list (string * string) -> PostOutcome) (magnet savepath : string)
  : option string :=
  match post (torrent_fields magnet savepath) with
  | HTTPError name => Some ("qbittorrent unreachable: " +:+ name)
  | Answered status text =>
      if negb (status =? 200) || bool_decide (strip text = "Fails.")
      then Some ("qbittorrent rejected torrent (status " +:+ dec_str status +:+ ")")
      else None
  end.

(** ** portal.py *)

(** [s[:n]], by characters. *)
Fixpoint take_chars (n : nat) (s : string) : string :=
  match s with
  | EmptyString => ""
  | String c s' =>
      if is_cont c then String c (take_chars n s')
      else match n with O => "" | S n' => String c (take_chars n' s') end
  end.

Definition detail_response (status : Z) (detail : string) : Response :=
  json_response status (JObj [("detail", JStr detail)]).
Definition qbit_failed : Response := detail_response 502 "qbittorrent submission failed".

Record MyResourceOut := mkMyResource {
  mr_id : Z; mr_name : string; mr_protocol : string; mr_public_host : option string;
  mr_description : option string }.
Definition my_resource_out (rid : Z) (r : Resource) : MyResourceOut :=
  mkMyResource rid (r_name r) (r_protocol r) (r_public_host r) (r_description r).

(** An enabled allow policy that joins the resource to one of the user's roles. *)
Definition grants_access (d : Db) (uid rid : Z) (p : Policy) : bool :=
  (p_resource_id p =? rid) && bool_decide ((uid, p_role_id p) ∈ user_roles d)
  && bool_decide (p_action p = "allow") && p_enabled p.
Definition reachable_resource (d : Db) (uid rid : Z) (r : Resource) : bool :=
  r_enabled r && existsb (fun kp => grants_access d uid rid kp.2) (map_to_list (policies d)).

Record DownloadRequestOut := mkDownloadOut {
  do_id : Z; do_request : DownloadRequest; do_user_email : option string }.

Definition failed_with (error : string) (r : DownloadRequest) : DownloadRequest := set_dr_error (Some error) r.
Definition approved_by (reviewer now : Z) (r : DownloadRequest) : DownloadRequest :=
  set_dr_error None (set_dr_submitted_at (Some now) (set_dr_reviewed_at (Some now)
    (set_dr_reviewed_by (Some reviewer) (set_dr_status "approved" r)))).
Definition denied_by (reviewer now : Z) (r : DownloadRequest) : DownloadRequest :=
  set_dr_reviewed_at (Some now) (set_dr_reviewed_by (Some reviewer) (set_dr_status "denied" r)).

Definition set_download (id : Z) (row : DownloadRequest) : M unit :=
  moddb (upd_download_requests <[id := row]>).

Definition target_detail (id : Z) (row : DownloadRequest) : list (string * json) :=
  [("entity_id", JStr (uuid_str id)); ("target", JStr (dr_target row))].

Section Portal.
Context {aead : Aead} {ec : EcKeys} {jose : Jose} {jwt : Jwt} {argon : Argon}.
Context (post : list (string * string) -> PostOutcome).

Definition my_resources (request : ApiRequest) : M (list MyResourceOut) :=
  let! authed := require_user request in
  let! d := gets id in
  ret (map (fun kv => my_resource_out kv.1 kv.2)
    (order_by_name (fun kv => r_name kv.2) (select (reachable_resource d (au_uid authed)) (resources d)))).

Definition change_password (request : ApiRequest) (current_password new_password : string)
  : M (option Response) :=
  let! authed := require_user request in
  let! ip := client_ip request in
  let uid := au_uid authed in
  let! ok := verify_password (u_password_hash (au_user authed)) current_password in
  if negb ok then
    emit USER_PASSWORD_CHANGE_FAILED ip false (Some uid) (Some (au_sid authed)) None [];;
    ret (Some (detail_response 403 "current password incorrect"))
  else
    let! hash := hash_password new_password in
    let! now := utcnow in
    set_user uid (fun u => set_u_updated_at now (set_u_password_hash hash u));;
    revoke_user_sessions uid ip "password_change" (Some (au_sid authed));;
    record_change uid "password_change" (Some uid) "update" None None;;
    emit USER_PASSWORD_CHANGED ip true (Some uid) (Some (au_sid authed)) None [];;
    ret None.

(** [select(DownloadRequest, User.email).join(User)] in the order and number of the view. *)
Definition list_downloads (request : ApiRequest) : M (list DownloadRequestOut) :=
  let! authed := require_user request in
  let! d := gets id in
  let visible (_ : Z) (r : DownloadRequest) :=
    is_admin authed || (dr_user_id r =? au_uid authed) in
  let joined := omap (fun kv => (fun u => (kv, u_email u)) <$> users d !! dr_user_id kv.2)
    (select visible (download_requests d)) in
  ret (map (fun row => mkDownloadOut row.1.1 row.1.2 (Some row.2))
    (take 200 (order_by (fun row => - dr_created_at row.1.2) joined))).

(** [_submit]: [None] means success. *)
Definition submit (id : Z) (row : DownloadRequest) (reviewer : Z) (ip : string)
  : M (option Response * DownloadRequest) :=
  let! cfg := asks Datatypes.id in
  let savepath := if bool_decide (dr_target row = "shows") then qbit_savepath_shows cfg
                  else qbit_savepath_movies cfg in
  if bool_decide (savepath = "") || negb (MAGNET_RE (dr_magnet row)) then
    let error := if bool_decide (savepath = "") then "savepath not configured" else "invalid magnet" in
    set_download id (failed_with error row);;
    ret (Some (detail_response 503 ("download target unavailable: " +:+ error)), failed_with error row)
  else
    match add_torrent post (dr_magnet row) savepath with
    | Some exc =>
        set_download id (failed_with exc row);;
        emit DOWNLOAD_SUBMIT_FAILED ip false (Some reviewer) None None
          (target_detail id row ++ [("reason", JStr (take_chars 256 exc))]);;
        ret (Some qbit_failed, failed_with exc row)
    | None =>
        let! now := utcnow in
        let row' := approved_by reviewer now row in
        set_download id row';;
        emit DOWNLOAD_SUBMITTED ip true (Some reviewer) None None (target_detail id row);;
        ret (None, row')
    end.

Definition create_download (request : ApiRequest) (body : DownloadRequestIn)
  : M (DownloadRequestOut + Response) :=
  let! authed := require_user request in
  let! ip := client_ip request in
  let uid := au_uid authed in
  let! id := uuid4 in
  let! ts := server_now in
  let row := mkDownloadRequest uid (di_magnet body) (di_target body) "pending" ts None None None None in
  db_add "download_requests" download_requests upd_download_requests no_clash id row;;
  record_change uid "download_request" (Some id) "create" None
    (Some [("target", JStr (dr_target row)); ("magnet", JStr (take_chars 256 (dr_magnet row)))]);;
  if is_admin authed then
    let! '(failed, row') := submit id row uid ip in
    match failed with
    | Some r => ret (inr r)
    | None => ret (inl (mkDownloadOut id row' (Some (u_email (au_user authed)))))
    end
  else
    emit DOWNLOAD_REQUESTED ip true (Some uid) None None (target_detail id row);;
    ret (inl (mkDownloadOut id row (Some (u_email (au_user authed))))).

Definition pending_or_error (id : Z) : M (DownloadRequest + Response) :=
  let! t := gets download_requests in
  match t !! id with
  | None => ret (inr (detail_response 404 "request not found"))
  | Some row =>
      if negb (bool_decide (dr_status row = "pending"))
      then ret (inr (detail_response 409 ("request already " +:+ dr_status row)))
      else ret (inl row)
  end.

Definition email_of (uid : Z) : M (option string) :=
  let! t := gets users in ret (option_map u_email (t !! uid)).

Definition approve_download (request : ApiRequest) (id : Z) : M (DownloadRequestOut + Response) :=
  let! authed := require_portal_admin request in
  let! found := pending_or_error id in
  match found with
  | inr r => ret (inr r)
  | inl row =>
      let! ip := client_ip request in
      let! '(failed, row') := submit id row (au_uid authed) ip in
      match failed with
      | Some r => ret (inr r)
      | None =>
          record_change (au_uid authed) "download_request" (Some id) "update" None
            (Some [("status", JStr "approved")]);;
          emit DOWNLOAD_APPROVED ip true (Some (au_uid authed)) None None (target_detail id row);;
          let! email := email_of (dr_user_id row) in
          ret (inl (mkDownloadOut id row' email))
      end
  end.

Definition deny_download (request : ApiRequest) (id : Z) : M (DownloadRequestOut + Response) :=
  let! authed := require_portal_admin request in
  let! found := pending_or_error id in
  match found with
  | inr r => ret (inr r)
  | inl row =>
      let! now := utcnow in
      let row' := denied_by (au_uid authed) now row in
      set_download id row';;
      record_change (au_uid authed) "download_request" (Some id) "update" None
        (Some [("status", JStr "denied")]);;
      let! ip := client_ip request in
      emit DOWNLOAD_DENIED ip true (Some (au_uid authed)) None None (target_detail id row);;
      let! email := email_of (dr_user_id row) in
      ret (inl (mkDownloadOut id row' email))
  end.
End Portal.
