(* ===== verification/PortalSafety.v ===== *)
(** * PortalSafety: what the portal guarantees *)

From S2P Require Import Prelude PyStr Encoding Json JsonText PyTime Config Db Effects Crypto Web.
From S2P Require Import Events Keys Passwords Sessions Dpop Tokens Grants ResourceServer Engine Decision AdminDeps.
From S2P Require Import Users UsersSafety Schemas Access Portal.
Local Open Scope Z_scope.

(** ** The listing of resources *)

(** A user the engine lets through has an enabled allow policy for the resource. *)
Lemma allowed_reachable d uid rid r port path now :
  allowed (decision (access_of d uid rid port path now)) = true -> r_enabled r = true ->
  reachable_resource d uid rid r = true.
Proof.
  unfold access_of, reachable_resource. simpl. intros Ha ->. simpl. unfold evaluate in Ha.
  destruct (existsb (fun r => bool_decide (action r = "deny")) _); [done|].
  destruct (existsb (fun r => bool_decide (action r = "allow")) _) eqn:E; [|done].
  apply applicable_action in E as (rule & Hin & Hact & [He Hres Hrole _ _ _]).
  unfold rules_of in Hin. apply list_elem_of_In, in_map_iff in Hin as ([pid p] & <- & Hin).
  apply list_elem_of_In, select_In in Hin as [Hp _]. simpl in *.
  apply existsb_True. exists (pid, p). split; [by apply elem_of_map_to_list|]. unfold grants_access. simpl.
  rewrite (proj2 (Z.eqb_eq _ _) Hres), He, Hact, (bool_decide_eq_true_2 ("allow" = "allow")) by done.
  rewrite bool_decide_eq_true_2; [done|].
  apply elem_of_list_to_set, list_elem_of_fmap in Hrole as ([i n] & -> & Hi).
  unfold roles_of in Hi. apply list_elem_of_omap in Hi as ([u ro] & Hu & Hm). simpl in Hm.
  destruct (u =? uid) eqn:E; [|done]. apply Z.eqb_eq in E as ->. destruct (roles d !! ro); [|done].
  injection Hm as -> _. exact Hu.
Qed.

Section Safety.
Context {aead : Aead} {ec : EcKeys} {jose : Jose} {jwt : Jwt} {argon : Argon}.

Lemma require_user_Ok rq e s au s' : require_user rq e s = (Ok au, s') ->
  token_checked (settings e) (db s) (db s') rq au.
Proof. apply check_token_Ok. Qed.

Section UserFrame.
Context {X} (view : Db -> X) (Hv : apart view).
Lemma apart_require_user rq : steps (same view) (require_user rq).
Proof.
  apply steps_require_user; [apply _|intros d f; apply Hv|]. intros. apply same_check_liveness, Hv.
Qed.
Lemma apart_portal_admin rq : steps (same view) (require_portal_admin rq).
Proof.
  apply steps_require_portal; [apply _|intros d f; apply Hv|]. intros. apply same_check_liveness, Hv.
Qed.
End UserFrame.

(** The tables the engine reads. *)
Definition access_tables (d : Db) := (resources d, policies d, user_roles d, roles d).
Lemma apart_access : apart access_tables.
Proof. by repeat split. Qed.

(** C22: The listing of a user's resources misses none the decision engine would let them reach
    on some port, path and time, and lists only enabled resources an enabled allow policy
    joins to one of their roles. *)
Theorem my_resources_complete rq e s l s' (Hrun : my_resources rq e s = (Ok l, s')) :
  exists au, token_checked (settings e) (db s) (db s') rq au
  /\ (forall rid r port path now, resources (db s) !! rid = Some r -> r_enabled r = true ->
        allowed (decision (access_of (db s) (au_uid au) rid port path now)) = true ->
        my_resource_out rid r ∈ l)
  /\ (forall o, o ∈ l -> exists r pid p, resources (db s) !! mr_id o = Some r /\ r_enabled r = true
        /\ o = my_resource_out (mr_id o) r
        /\ policies (db s) !! pid = Some p /\ p_resource_id p = mr_id o /\ p_action p = "allow"
        /\ p_enabled p = true /\ (au_uid au, p_role_id p) ∈ user_roles (db s)).
Proof.
  unfold my_resources in Hrun. mstep Hrun au s1 H1.
  pose proof (same_steps_eq access_tables _ _ _ _ _ (apart_require_user _ apart_access rq) H1) as Hv.
  injection Hv as E1 E2 E3 E4.
  apply require_user_Ok in H1. mread Hrun. unfold ret in Hrun. injection Hrun as <- <-. exists au.
  assert (forall kv, kv ∈ order_by_name (fun kv : Z * Resource => r_name kv.2)
      (select (reachable_resource (db s1) (au_uid au)) (resources (db s1)))
    <-> resources (db s1) !! kv.1 = Some kv.2 /\ reachable_resource (db s1) (au_uid au) kv.1 kv.2 = true) as Hin.
  { intros [k v]. unfold order_by_name. rewrite merge_sort_Permutation. apply select_In. }
  split_and!; [done| |].
  - intros rid r port path now Hr Hen Hal. apply list_elem_of_In, in_map_iff. exists (rid, r). split; [done|].
    apply list_elem_of_In, Hin. simpl. rewrite E1. split; [done|].
    assert (access_of (db s1) (au_uid au) rid port path now = access_of (db s) (au_uid au) rid port path now) as Ea
      by (unfold access_of, roles_of, rules_of; by rewrite E2, E3, E4).
    rewrite <- Ea in Hal. by eapply allowed_reachable.
  - intros o Ho. apply list_elem_of_In, in_map_iff in Ho as ([k r] & <- & Ho).
    apply list_elem_of_In, Hin in Ho as [Hr Hp]. simpl in *. unfold reachable_resource in Hp.
    apply andb_true_iff in Hp as [Hen Hp]. apply existsb_True in Hp as ([pid p] & Hin' & Hg).
    apply elem_of_map_to_list in Hin'. unfold grants_access in Hg. bool_simpl. rewrite <- E1, <- E2, <- E3.
    exists r, pid, p. by split_and!.
Qed.

(** ** The password *)

(** A password change that succeeds was asked with the current password of an accepted
    session; it stores a hash that verifies the new password, revokes every other session
    of the user with its refresh tokens, spares the session it was asked from, and leaves
    the other users' sessions alone.  A wrong current password changes nothing of users or
    passwords and is answered with 403. *)
Theorem change_password_sound `{!ArgonLaws} rq cur new e s r s'
    (Hrun : change_password rq cur new e s = (Ok r, s')) :
  exists au d1, token_checked (settings e) (db s) d1 rq au
  /\ ((r = None /\ argon_verify (u_password_hash (au_user au)) cur = Verified
        /\ (forall u, users (db s) !! au_uid au = Some u -> exists u', users (db s') !! au_uid au = Some u'
              /\ argon_verify (u_password_hash u') new = Verified /\ u_auth_tier u' = u_auth_tier u)
        /\ sessions_ended d1 (db s') (au_uid au) (Some (au_sid au)))
      \/ (r = Some (detail_response 403 "current password incorrect")
        /\ argon_verify (u_password_hash (au_user au)) cur <> Verified /\ users (db s') = users (db s))).
Proof.
  unfold change_password in Hrun. mstep Hrun au s1 H1.
  pose proof (same_steps_eq users _ _ _ _ _ (apart_require_user users ltac:(by repeat split) rq) H1) as Hu.
  apply require_user_Ok in H1. mstep Hrun ip s2 H2. apply api_client_ip_Ok in H2 as [-> _]. cbv zeta in Hrun.
  mstep Hrun ok s3 H3. apply verify_password_run in H3 as [-> Hok]. exists au, (db s1). split; [done|].
  destruct ok; cbn [negb] in Hrun.
  - left. unfold hash_password in Hrun. mstep Hrun h s4 H4. minv H4. mread Hrun. unfold set_user in Hrun.
    rewrite bind_moddb in Hrun. mstep Hrun u5 s5 H5.
    pose proof (same_steps_eq users _ _ _ _ _
      (apart_revoke users ltac:(by repeat split) _ _ _ _) H5) as Hu5.
    pose proof (revoke_user_sessions_Ok _ _ _ _ _ _ _ _ H5) as Hs5.
    mstep Hrun u6 s6 H6. apply change_Ok in H6 as (row & Hd6 & _).
    mstep Hrun u7 s7 H7. apply emit_Ok in H7 as (_ & Hd7 & _). unfold ret in Hrun. injection Hrun as <- <-.
    split_and!; [done|by apply Hok| |].
    + intros u Hx. rewrite Hd7, Hd6. cbn [users upd_auth_events upd_policy_changes]. rewrite Hu5.
      cbn [db users upd_users]. rewrite lookup_alter_eq, Hu, Hx. eexists. split; [reflexivity|].
      split; [apply argon_round|done].
    + destruct Hs5 as [A B C]. constructor.
      * intros sid se Hs Hus Hex. rewrite Hd7, Hd6. by eapply A.
      * intros sid se Hs Hor. rewrite Hd7, Hd6. by eapply B.
      * intros id t se Ht Hs Hr. rewrite Hd7, Hd6. by eapply C.
  - right. mstep Hrun u4 s4 H4. apply emit_Ok in H4 as (_ & Hd4 & _). unfold ret in Hrun.
    injection Hrun as <- <-. split; [done|]. split; [|by rewrite Hd4].
    intros Hv. apply Hok in Hv. discriminate.
Qed.

(** ** The queue of downloads *)

Section Downloads.
Context (post : list (string * string) -> PostOutcome).

(** The torrent was handed to qBittorrent: the form it was sent has a magnet URI as the one
    URL and the path configured for the target, and the answer was a success. *)
Definition handed_over (cfg : Settings) (row : DownloadRequest) : Prop :=
  MAGNET_RE (dr_magnet row) = true
  /\ exists path text, path <> ""
     /\ (dr_target row = "shows" -> path = qbit_savepath_shows cfg)
     /\ (dr_target row <> "shows" -> path = qbit_savepath_movies cfg)
     /\ post [("urls", dr_magnet row); ("autoTMM", "false"); ("savepath", path); ("rename", ""); ("category", "");
              ("stopped", "false"); ("stopCondition", "None"); ("contentLayout", "Original"); ("dlLimit", "0");
              ("upLimit", "0")] = Answered 200 text
     /\ strip text <> "Fails.".

(** What may become of a pending request: a failed submission notes its error and leaves it
    pending; an approval hands the torrent over and names its reviewer and the time; a denial
    names its reviewer and the time. *)
Inductive review (cfg : Settings) (reviewer : Z) (row : DownloadRequest) : DownloadRequest -> Prop :=
| ReviewFailed error : dr_status row = "pending" ->
    review cfg reviewer row (mkDownloadRequest (dr_user_id row) (dr_magnet row) (dr_target row) "pending"
      (dr_created_at row) (dr_reviewed_by row) (dr_reviewed_at row) (dr_submitted_at row) (Some error))
| ReviewApproved now : dr_status row = "pending" -> handed_over cfg row ->
    review cfg reviewer row (mkDownloadRequest (dr_user_id row) (dr_magnet row) (dr_target row) "approved"
      (dr_created_at row) (Some reviewer) (Some now) (Some now) None)
| ReviewDenied now : dr_status row = "pending" ->
    review cfg reviewer row (mkDownloadRequest (dr_user_id row) (dr_magnet row) (dr_target row) "denied"
      (dr_created_at row) (Some reviewer) (Some now) (dr_submitted_at row) (dr_error row)).

Lemma review_failed cfg reviewer row error : dr_status row = "pending" -> review cfg reviewer row (failed_with error row).
Proof.
  destruct row as [u m t st c rb ra sa er]. cbn. intros ->.
  exact (ReviewFailed cfg reviewer (mkDownloadRequest u m t "pending" c rb ra sa er) error eq_refl).
Qed.
Lemma review_approved cfg reviewer row now : dr_status row = "pending" -> handed_over cfg row ->
  review cfg reviewer row (approved_by reviewer now row).
Proof. exact (ReviewApproved cfg reviewer row now). Qed.
Lemma review_denied cfg reviewer row now : dr_status row = "pending" -> review cfg reviewer row (denied_by reviewer now row).
Proof. exact (ReviewDenied cfg reviewer row now). Qed.

Lemma add_torrent_None magnet path : add_torrent post magnet path = None ->
  exists text, post (torrent_fields magnet path) = Answered 200 text /\ strip text <> "Fails.".
Proof.
  unfold add_torrent. destruct (post _) as [name|status text]; [done|]. destruct (_ || _) eqn:E; [done|]. intros _.
  bool_simpl. subst status. by exists text.
Qed.

Lemma submit_Ok id row reviewer ip e s failed row' s' : dr_status row = "pending" ->
  submit post id row reviewer ip e s = (Ok (failed, row'), s') ->
  review (settings e) reviewer row row'
  /\ (failed = None -> dr_status row' = "approved")
  /\ download_requests (db s') = <[id := row']> (download_requests (db s)).
Proof.
  intros Hp. unfold submit. intros Hr. mread Hr. set (path := if bool_decide (dr_target row = "shows") then _ else _) in Hr.
  destruct (bool_decide (path = "") || _) eqn:E.
  - unfold set_download in Hr. rewrite bind_moddb in Hr. unfold ret in Hr. injection Hr as <- <- <-.
    split; [by apply review_failed|done].
  - apply orb_false_iff in E as [E1 E2]. apply bool_decide_eq_false in E1. apply negb_false_iff in E2.
    destruct (add_torrent post (dr_magnet row) path) as [exc|] eqn:Ea.
    + unfold set_download in Hr. rewrite bind_moddb in Hr. mstep Hr u s1 H1. apply emit_Ok in H1 as (_ & Hd & _).
      unfold ret in Hr. injection Hr as <- <- <-. rewrite Hd. split; [by apply review_failed|done].
    + mread Hr. cbv zeta in Hr. unfold set_download in Hr. rewrite bind_moddb in Hr. mstep Hr u s1 H1.
      apply emit_Ok in H1 as (_ & Hd & _). unfold ret in Hr. injection Hr as <- <- <-. rewrite Hd.
      split; [|done]. apply review_approved; [done|]. split; [done|].
      apply add_torrent_None in Ea as (text & Ep & Ht). exists path, text. unfold path in *.
      split_and!; [done|by intros ->|intros Hn; by rewrite bool_decide_eq_false_2|exact Ep|done].
Qed.

Lemma apart_downloads : apart download_requests.
Proof. by repeat split. Qed.
Lemma downloads_change a t i k b c e s u s1 : record_change a t i k b c e s = (Ok u, s1) ->
  download_requests (db s1) = download_requests (db s).
Proof. apply same_steps_eq, apart_change, apart_downloads. Qed.
Lemma pending_Ok id e s r s' : pending_or_error id e s = (Ok r, s') -> s' = s /\
  forall row, r = inl row -> download_requests (db s) !! id = Some row /\ dr_status row = "pending".
Proof.
  unfold pending_or_error. intros Hr. mread Hr. destruct (download_requests (db s) !! id) as [row|].
  - destruct (negb _) eqn:E; unfold ret in Hr; injection Hr as <- <-; (split; [done|]); intros x Hx; [done|].
    injection Hx as ->. by bool_simpl.
  - unfold ret in Hr. by injection Hr as <- <-.
Qed.

Lemma portal_admin_Ok rq e s au s' : require_portal_admin rq e s = (Ok au, s') ->
  admin_tier au /\ token_checked (settings e) (db s) (db s') rq au.
Proof.
  unfold require_portal_admin. intros Hr. mstep Hr a s1 H1. apply check_token_Ok in H1.
  apply admin_tier_only_Ok in Hr as (-> & -> & Ha). done.
Qed.

Lemma approve_download_Ok rq id e s r s' : approve_download post rq id e s = (Ok r, s') ->
  download_requests (db s') = download_requests (db s) \/
  exists au row row', admin_tier au /\ (exists d1, token_checked (settings e) (db s) d1 rq au)
    /\ download_requests (db s) !! id = Some row /\ review (settings e) (au_uid au) row row'
    /\ download_requests (db s') = <[id := row']> (download_requests (db s)).
Proof.
  unfold approve_download. intros Hr. mstep Hr au s1 H1.
  pose proof (same_steps_eq _ _ _ _ _ _ (apart_portal_admin _ apart_downloads rq) H1) as Hd1.
  apply portal_admin_Ok in H1 as [Ha Ht]. mstep Hr found s2 H2. apply pending_Ok in H2 as [-> Hf].
  destruct found as [row|resp]; [|left; unfold ret in Hr; by injection Hr as _ <-].
  destruct (Hf _ eq_refl) as [Hrow Hp]. mstep Hr ip s3 H3. apply api_client_ip_Ok in H3 as [-> _].
  mstep Hr x s4 H4. destruct x as [failed row']. apply submit_Ok in H4 as (Hrev & _ & Hd4); [|done].
  right. exists au, row, row'. rewrite <- Hd1. split_and!; [done|by exists (db s1)|done|done|].
  destruct failed as [resp|]; [unfold ret in Hr; by injection Hr as _ <-|].
  mstep Hr u5 s5 H5. apply downloads_change in H5. mstep Hr u6 s6 H6. apply emit_Ok in H6 as (_ & Hd6 & _).
  unfold email_of in Hr. minv Hr. rewrite Hd6. cbn [download_requests upd_auth_events]. by rewrite H5.
Qed.

Lemma deny_download_Ok rq id e s r s' : deny_download rq id e s = (Ok r, s') ->
  download_requests (db s') = download_requests (db s) \/
  exists au row row', admin_tier au /\ (exists d1, token_checked (settings e) (db s) d1 rq au)
    /\ download_requests (db s) !! id = Some row /\ review (settings e) (au_uid au) row row'
    /\ download_requests (db s') = <[id := row']> (download_requests (db s)).
Proof.
  unfold deny_download. intros Hr. mstep Hr au s1 H1.
  pose proof (same_steps_eq _ _ _ _ _ _ (apart_portal_admin _ apart_downloads rq) H1) as Hd1.
  apply portal_admin_Ok in H1 as [Ha Ht]. mstep Hr found s2 H2. apply pending_Ok in H2 as [-> Hf].
  destruct found as [row|resp]; [|left; unfold ret in Hr; by injection Hr as _ <-].
  destruct (Hf _ eq_refl) as [Hrow Hp]. mread Hr. cbv zeta in Hr. unfold set_download in Hr.
  rewrite bind_moddb in Hr. mstep Hr u5 s5 H5. apply downloads_change in H5. mstep Hr ip s3 H3.
  apply api_client_ip_Ok in H3 as [-> _]. mstep Hr u6 s6 H6. apply emit_Ok in H6 as (_ & Hd6 & _).
  unfold email_of in Hr. minv Hr. right. eexists au, row, _. rewrite <- Hd1.
  split_and!; [done|by exists (db s1)|done|by apply review_denied|].
  rewrite Hd6. cbn [download_requests upd_auth_events]. rewrite H5. reflexivity.
Qed.
Lemma is_admin_tier au : is_admin au = true -> admin_tier au.
Proof. unfold is_admin. intros H. by bool_simpl. Qed.

(** A new request: pending, unless its author is an administrator and it was submitted. *)
Definition filed (cfg : Settings) (au : AuthedRequest) (body : DownloadRequestIn) (row' : DownloadRequest) : Prop :=
  exists row, dr_user_id row = au_uid au /\ dr_magnet row = di_magnet body /\ dr_target row = di_target body
    /\ dr_status row = "pending" /\ (row' = row \/ admin_tier au /\ review cfg (au_uid au) row row').

Lemma create_download_Ok rq body e s r s' : create_download post rq body e s = (Ok r, s') ->
  exists au id row', (exists d1, token_checked (settings e) (db s) d1 rq au)
    /\ download_requests (db s) !! id = None /\ filed (settings e) au body row'
    /\ download_requests (db s') = <[id := row']> (download_requests (db s)).
Proof.
  unfold create_download. intros Hr. mstep Hr au s1 H1.
  pose proof (same_steps_eq _ _ _ _ _ _ (apart_require_user _ apart_downloads rq) H1) as Hd1.
  apply require_user_Ok in H1. mstep Hr ip s2 H2. apply api_client_ip_Ok in H2 as [-> _]. cbv zeta in Hr.
  unfold uuid4 in Hr. mstep Hr did s3 H3. minv H3. mread Hr.
  set (row := mkDownloadRequest _ _ _ _ _ _ _ _ _) in Hr.
  mstep Hr u4 s4 H4. apply db_add_Ok in H4 as (Hn & _ & Hd4 & _). cbn [db] in Hn, Hd4.
  mstep Hr u5 s5 H5. apply downloads_change in H5. rewrite Hd4 in H5. cbn [download_requests upd_download_requests] in H5.
  rewrite Hd1 in Hn, H5. destruct (is_admin au) eqn:Ea.
  - mstep Hr x s6 H6. destruct x as [failed row']. apply submit_Ok in H6 as (Hrev & _ & Hd6); [|done].
    assert (download_requests (db s') = download_requests (db s6)) as Hd'.
    { destruct failed; unfold ret in Hr; by injection Hr as _ <-. }
    eexists au, _, row'. split_and!; [by exists (db s1)|exact Hn| |rewrite Hd', Hd6, H5; apply insert_insert_eq].
    exists row. split_and!; try done. right. split; [by apply is_admin_tier|done].
  - mstep Hr u6 s6 H6. apply emit_Ok in H6 as (_ & Hd6 & _). unfold ret in Hr. injection Hr as _ <-.
    eexists au, _, row. split_and!; [by exists (db s1)|exact Hn| |rewrite Hd6; exact H5].
    exists row. by split_and!; try left.
Qed.

Inductive download_op : Type :=
| CreateDownload (raw : DownloadRequestIn)
| ApproveDownload (id : Z)
| DenyDownload (id : Z).

Definition serve_download (rq : ApiRequest) (op : download_op) : M unit :=
  match op with
  | CreateDownload raw =>
      match download_request raw with
      | Some body => create_download post rq body;; ret tt
      | None => raise (HTTPException 422 "validation error" [])
      end
  | ApproveDownload id => approve_download post rq id;; ret tt
  | DenyDownload id => deny_download rq id;; ret tt
  end.

(** A request that was reviewed is never touched again, and none is lost. *)
Definition queue_step (cfg : Settings) (rq : ApiRequest) (d d' : Db) : Prop :=
  (forall id row, download_requests d !! id = Some row -> exists row', download_requests d' !! id = Some row'
     /\ (row' = row \/ exists au d1, admin_tier au /\ token_checked cfg d d1 rq au /\ review cfg (au_uid au) row row'))
  /\ (forall id row', download_requests d' !! id = Some row' -> download_requests d !! id = None ->
        MAGNET_RE (dr_magnet row') = true /\ exists au d1 body, token_checked cfg d d1 rq au /\ filed cfg au body row').

Lemma review_magnet cfg au row row' : review cfg au row row' -> dr_magnet row' = dr_magnet row.
Proof. by destruct 1. Qed.

Lemma download_request_magnet raw body : download_request raw = Some body -> MAGNET_RE (di_magnet body) = true.
Proof.
  unfold download_request. destruct (_ && _) eqn:E; [|done]. intros [= <-]. by apply andb_true_iff in E as [_ E].
Qed.

Lemma queue_same cfg rq d d' : download_requests d' = download_requests d -> queue_step cfg rq d d'.
Proof.
  intros E. split; rewrite E; [intros id row H; exists row; auto|intros id row H1 H2; congruence].
Qed.

Lemma queue_reviewed cfg rq d d' id au row row' : admin_tier au -> (exists d1, token_checked cfg d d1 rq au) ->
  download_requests d !! id = Some row -> review cfg (au_uid au) row row' ->
  download_requests d' = <[id := row']> (download_requests d) -> queue_step cfg rq d d'.
Proof.
  intros Ha [d1 Ht] Hrow Hrev E. split; rewrite E.
  - intros i r Hi. destruct (decide (i = id)) as [->|Hne].
    + rewrite lookup_insert_eq. exists row'. split; [done|]. right. assert (r = row) as -> by congruence.
      by exists au, d1.
    + rewrite lookup_insert_ne by done. exists r. auto.
  - intros i r Hi Hn. destruct (decide (i = id)) as [->|Hne]; [congruence|].
    rewrite lookup_insert_ne in Hi by done. congruence.
Qed.

(** C21: The queue of downloads: a request enters it only for the user of an accepted session and
    with a magnet URI; a pending one is only submitted or denied for an administrator.  The
    submission posts qBittorrent a form whose URL is the request's magnet URI and whose save
    path is the one configured for its target, not empty, and the request is approved only
    when the answer has status 200 and is not [Fails.]; a failed submission leaves it
    pending with its error.  A reviewed request never changes again and none is lost.
    (Requests that end in an exception are rolled back.) *)
Theorem downloads_reviewed rq op e s r s' (Hrun : serve_download rq op e s = (Ok r, s')) :
  queue_step (settings e) rq (db s) (db s').
Proof.
  destruct op as [raw|id|id]; simpl in Hrun.
  - destruct (download_request raw) as [body|] eqn:Eb; [|done]. mstep Hrun x s1 H1.
    unfold ret in Hrun. injection Hrun as _ <-. apply download_request_magnet in Eb.
    apply create_download_Ok in H1 as (au & id & row' & [d1 Ht] & Hn & Hf & E). split; rewrite E.
    + intros i row Hi. exists row. rewrite lookup_insert_ne by congruence. auto.
    + intros i row Hi Hni. destruct (decide (i = id)) as [->|Hne].
      * rewrite lookup_insert_eq in Hi. injection Hi as <-. split; [|by exists au, d1, body].
        destruct Hf as (row & _ & Hm & _ & _ & [->|[_ Hrev]]); [by rewrite Hm|].
        by rewrite (review_magnet _ _ _ _ Hrev), Hm.
      * rewrite lookup_insert_ne in Hi by done. congruence.
  - mstep Hrun x s1 H1. unfold ret in Hrun. injection Hrun as _ <-.
    apply approve_download_Ok in H1 as [H1|(au & row & row' & Ha & Ht & Hrow & Hrev & E)];
      [by apply queue_same|by eapply queue_reviewed].
  - mstep Hrun x s1 H1. unfold ret in Hrun. injection Hrun as _ <-.
    apply deny_download_Ok in H1 as [H1|(au & row & row' & Ha & Ht & Hrow & Hrev & E)];
      [by apply queue_same|by eapply queue_reviewed].
Qed.
End Downloads.
End Safety.

(** ** Witnesses *)

#[local] Existing Instances clear_jose demo_jwt demo_argon.

Definition a_magnet : string := "magnet:?xt=urn:btih:0123456789abcdef0123456789ABCDEF01234567&dn=x".
Definition portal_call : ApiRequest := demo_admin_call "POST" "/api/v1/portal".
Definition portal_env : Env :=
  mkEnv example_settings T0 (fun _ => T0) (fun n => Z.of_nat n).
Definition a_request : DownloadRequest := mkDownloadRequest 11 a_magnet "shows" "pending" 0 None None None None.
Definition portal_db : Db :=
  demo_admin_db
  (upd_download_requests (fun _ => {[ 41 := a_request ]})
  (upd_resources (fun _ => {[ 5 := mkResource "media" "http" (Some "media.example.com") "10.0.0.5" [8080]
     None None true false None None None ]})
  (upd_policies (fun _ => {[ 1 := demo_policy None "allow" ]})
  (upd_roles (fun _ => {[ 3 := mkRole "media" None ]})
  (upd_user_roles (fun _ => [(11, 3)]) empty_db))))).

Example my_resources_complete_witness : exists l s',
  my_resources portal_call portal_env (mkSt portal_db 0) = (Ok l, s')
  /\ map mr_id l = [5]
  /\ forall o, o ∈ l -> exists r, resources portal_db !! mr_id o = Some r /\ r_enabled r = true.
Proof.
  destruct (my_resources portal_call portal_env (mkSt portal_db 0)) as [[l|x] s'] eqn:E;
    [|exfalso; revert E; vm_compute; discriminate].
  exists l, s'. split; [reflexivity|]. split.
  - assert (map mr_id l = match (Ok l, s').1 with Ok l => map mr_id l | Raise _ => [] end) as -> by reflexivity.
    rewrite <- E. vm_compute. reflexivity.
  - destruct (my_resources_complete _ _ _ _ _ E) as (au & _ & _ & Hall). intros o Ho.
    destruct (Hall o Ho) as (r & _ & _ & H1 & H2 & _). exists r. split; [exact H1|exact H2].
Defined.

Definition demo_hash_db : Db :=
  upd_users <[ 11 := set_u_password_hash "$argon2id$old-password" demo_admin ]> portal_db.

Example change_password_sound_witness : exists r s',
  change_password portal_call "old-password" "new-password" portal_env (mkSt demo_hash_db 0) = (Ok r, s')
  /\ exists au, (r = None -> argon_verify (u_password_hash (au_user au)) "old-password" = Verified).
Proof.
  destruct (change_password portal_call "old-password" "new-password" portal_env (mkSt demo_hash_db 0))
    as [[r|x] s'] eqn:E; [|exfalso; revert E; vm_compute; discriminate].
  exists r, s'. split; [reflexivity|].
  destruct (change_password_sound (H := demo_argon_laws) _ _ _ _ _ _ _ E) as (au & d1 & _ & [(_ & H & _)|(H & _)]).
  - exists au. intros _. exact H.
  - exists au. intros Hn. rewrite Hn in H. discriminate H.
Defined.

Example downloads_reviewed_witness : exists r s',
  serve_download (fun _ => HTTPError "ConnectError") portal_call (DenyDownload 41) portal_env (mkSt portal_db 0)
  = (Ok r, s')
  /\ queue_step (fun _ => HTTPError "ConnectError") (settings portal_env) portal_call portal_db (db s').
Proof.
  destruct (serve_download (fun _ => HTTPError "ConnectError") portal_call (DenyDownload 41) portal_env
    (mkSt portal_db 0)) as [[r|x] s'] eqn:E; [|exfalso; revert E; vm_compute; discriminate].
  exists r, s'. split; [reflexivity|]. exact (downloads_reviewed _ _ _ _ _ _ _ E).
Defined.
