(* ===== verification/SealedToken.v ===== *)
(** * SealedToken: core/sealedtoken.py, the envelope handed to a bridge

    AES in CBC mode and the PKCS #7 padding are parameters ([cryptography]); the JSON
    documents and the two layers of base64 are the code's own. *)

From S2P Require Import Prelude PyStr Encoding Json JsonText JsonRound PyTime Config Db Effects Crypto.
Local Open Scope Z_scope.

(** A finalizer that refuses its input raises [ValueError]. *)
Class CbcCipher := {
  pkcs7_pad : string -> string;
  pkcs7_unpad : string -> option string;
  aes_cbc_encrypt : forall (key iv data : string), option string;
  aes_cbc_decrypt : forall (key iv data : string), option string;
}.

(** What PKCS #7 and AES-CBC promise: the padding fills blocks of sixteen bytes and is
    taken off again, and whole blocks decrypt to what was encrypted. *)
Class CbcLaws `{CbcCipher} := {
  pkcs7_blocks : forall p, exists n, String.length (pkcs7_pad p) = (16 * n)%nat;
  pkcs7_round : forall p, pkcs7_unpad (pkcs7_pad p) = Some p;
  aes_cbc_round : forall key iv data,
    String.length key = 32%nat -> String.length iv = 16%nat ->
    (exists n, String.length data = (16 * n)%nat) ->
    exists ct, aes_cbc_encrypt key iv data = Some ct /\ aes_cbc_decrypt key iv ct = Some data;
}.

Definition KEY_BYTES : nat := 32.

Definition load_cypher_key (b64_key : string) : result string :=
  match b64decode b64_key with
  | None => Raise (ValueError "base64")
  | Some key =>
      if negb (bool_decide (String.length key = KEY_BYTES))
      then Raise (ValueError "cypher key must be 32 bytes (base64-encoded)")
      else Ok key
  end.

Section Token.
Context {cbc : CbcCipher}.

Definition finalize (o : option string) : result string :=
  match o with Some s => Ok s | None => Raise (ValueError "finalize") end.

Definition mint_token (key : string) (payload : list (string * json)) : M string :=
  if negb (bool_decide (String.length key = KEY_BYTES))
  then raise (ValueError "cypher key must be 32 bytes")
  else
    let! iv := token_bytes 16 in
    let plaintext := dumps_compact (JObj payload) in
    let padded := pkcs7_pad plaintext in
    let! ct := lift (finalize (aes_cbc_encrypt key iv padded)) in
    let envelope := JObj [("iv", JStr (b64encode iv)); ("value", JStr (b64encode ct))] in
    ret (b64encode (dumps_compact envelope)).

(** [base64.b64decode(envelope[name])]. *)
Definition envelope_part (name : string) (envelope : json) : result string :=
  match envelope with
  | JObj fields =>
      match assoc name fields with
      | None => Raise (KeyError name)
      | Some (JStr s) => match b64decode s with
                         | Some b => Ok b
                         | None => Raise (ValueError "base64")
                         end
      | Some _ => Raise (TypeError "argument should be a bytes-like object or ASCII string")
      end
  | JStr _ | JArr _ => Raise (TypeError "indices must be integers or slices, not str")
  | _ => Raise (TypeError "object is not subscriptable")
  end.

Definition decrypt_token (key token : string) : result json :=
  match b64decode token with
  | None => Raise (ValueError "base64")
  | Some raw =>
  match json_loads raw with
  | None => Raise (ValueError "json")
  | Some envelope =>
  match envelope_part "iv" envelope with
  | Raise x => Raise x
  | Ok iv =>
  match envelope_part "value" envelope with
  | Raise x => Raise x
  | Ok ct =>
  match finalize (aes_cbc_decrypt key iv ct) with
  | Raise x => Raise x
  | Ok padded =>
  match finalize (pkcs7_unpad padded) with
  | Raise x => Raise x
  | Ok plaintext => match json_loads plaintext with
                    | Some j => Ok j
                    | None => Raise (ValueError "json")
                    end
  end end end end end end.

(** ** Lemmas *)

Lemma good_b64 s : good_text (b64encode s).
Proof.
  apply good_ascii. eapply all_chars_impl, b64encode_chars. intros c Hc.
  unfold is_b64_char, is_alnum, is_alpha, is_lower, is_upper, is_digit, char_between in Hc. unfold ascii_char.
  rewrite Z.ltb_lt. repeat rewrite orb_true_iff in Hc. rewrite !andb_true_iff, !Z.leb_le in Hc.
  change (ord "9") with 57 in *. change (ord "z") with 122 in *. change (ord "Z") with 90 in *.
  destruct_or?; bool_simpl; subst; try lia; try done.
Qed.

Lemma load_cypher_key_Ok text key : load_cypher_key text = Ok key -> String.length key = 32%nat.
Proof.
  unfold load_cypher_key. destruct (b64decode text) as [k|]; [|done]. case_bool_decide; [|done]. by intros [= <-].
Qed.

Lemma mint_token_Ok key payload e s t s' : mint_token key payload e s = (Ok t, s') ->
  db s' = db s /\ tick s' = S (tick s).
Proof.
  unfold mint_token. case_bool_decide; cbn [negb]; [|done]. intros Hm.
  unfold token_bytes in Hm. mstep Hm iv s1 H1. minv H1. mlift Hm ct Ect. by minv Hm.
Qed.

Lemma mint_opens `{!CbcLaws} key payload e s : String.length key = 32%nat -> plain_json (JObj payload) ->
  exists t, mint_token key payload e s = (Ok t, mkSt (db s) (S (tick s)))
    /\ decrypt_token key t = Ok (JObj payload).
Proof.
  intros Hk Hp. set (iv := bytes_of 16 (rng e (tick s))).
  destruct (aes_cbc_round key iv (pkcs7_pad (dumps_compact (JObj payload))) Hk) as (ct & Ee & Ed);
    [apply bytes_of_length|apply pkcs7_blocks|].
  eexists. split.
  - unfold mint_token. rewrite bool_decide_eq_true_2 by done. cbn [negb].
    erewrite bind_run by (unfold token_bytes; reflexivity). fold iv.
    erewrite bind_run by (unfold lift; rewrite Ee; reflexivity). reflexivity.
  - unfold decrypt_token. rewrite b64decode_encode, loads_dumps.
    + unfold envelope_part. cbn [assoc]. rewrite bool_decide_eq_true_2 by done. rewrite b64decode_encode.
      rewrite bool_decide_eq_false_2, bool_decide_eq_true_2 by done. rewrite b64decode_encode.
      unfold finalize. rewrite Ed, pkcs7_round, loads_dumps by done. reflexivity.
    + constructor; cbn.
      * repeat constructor; apply good_ascii; reflexivity.
      * repeat (constructor; [set_solver|]). constructor.
      * repeat constructor; apply good_b64.
Qed.
End Token.

(** ** A stand-in for the cipher, for the witnesses

    Real PKCS #7, and a block cipher that leaves its blocks as they are. *)

Fixpoint last_char (s : string) : ascii :=
  match s with EmptyString => zero | String c EmptyString => c | String _ s' => last_char s' end.
Definition pad_length (p : string) : nat := 16 - String.length p mod 16.
Definition whole_blocks (s : string) : option string :=
  if bool_decide (String.length s mod 16 = 0)%nat then Some s else None.

Definition clear_cbc : CbcCipher := {|
  pkcs7_pad p := p +:+ repeat_char (chr (Z.of_nat (pad_length p))) (pad_length p);
  pkcs7_unpad s := Some (String.substring 0 (String.length s - Z.to_nat (ord (last_char s))) s);
  aes_cbc_encrypt _ _ data := whole_blocks data;
  aes_cbc_decrypt _ _ data := whole_blocks data;
|}.

Lemma repeat_char_length c n : String.length (repeat_char c n) = n.
Proof. induction n; simpl; congruence. Qed.

Lemma last_char_app a c n : last_char (a +:+ repeat_char c (S n)) = c.
Proof.
  induction a as [|d a IH].
  - rewrite app_empty_l. induction n as [|n IHn]; [done|]. exact IHn.
  - rewrite app_cons. rewrite <- IH at 2. cbn [last_char]. destruct a; reflexivity.
Qed.

Lemma clear_cbc_laws : @CbcLaws clear_cbc.
Proof.
  constructor.
  - intros p. cbn [pkcs7_pad pkcs7_unpad clear_cbc]. rewrite str_length_app, repeat_char_length. unfold pad_length.
    exists (String.length p / 16 + 1)%nat. pose proof (Nat.div_mod_eq (String.length p) 16).
    pose proof (Nat.mod_upper_bound (String.length p) 16 ltac:(lia)). lia.
  - intros p. cbn [pkcs7_pad pkcs7_unpad clear_cbc]. pose proof (Nat.mod_upper_bound (String.length p) 16 ltac:(lia)).
    destruct (pad_length p) as [|n] eqn:E; [unfold pad_length in E; lia|].
    rewrite last_char_app, str_length_app, repeat_char_length, ord_chr, Nat2Z.id
      by (unfold pad_length in E; lia).
    replace (String.length p + S n - S n)%nat with (String.length p) by lia. by rewrite substring_app_l.
  - intros key iv data _ _ (n & Hn). exists data. cbn. unfold whole_blocks. rewrite bool_decide_eq_true_2; [done|].
    rewrite Hn, Nat.mul_comm. by apply Nat.Div0.mod_mul.
Qed.

(** ** Theorem *)

(** A token minted under a 32-byte key opens under that key, and only one draw of
    randomness was spent: [decrypt_token key (mint_token key payload) = payload], for
    every payload that JSON represents exactly. *)
Theorem sealed_token_roundtrip `{!CbcCipher} `{!CbcLaws} b64_key key payload e s
    (Hkey : load_cypher_key b64_key = Ok key) (Hp : plain_json (JObj payload)) :
  exists t, mint_token key payload e s = (Ok t, mkSt (db s) (S (tick s)))
    /\ decrypt_token key t = Ok (JObj payload).
Proof. exact (mint_opens key payload e s (load_cypher_key_Ok _ _ Hkey) Hp). Qed.

Definition demo_payload : list (string * json) :=
  [("stream", JObj [("url", JStr "rtsp://cam:554/"); ("max_seconds", JInt 3600)])].

Lemma demo_payload_plain : plain_json (JObj demo_payload).
Proof.
  repeat first [ apply good_ascii; reflexivity | apply NoDup_singleton
    | constructor; cbn | set_solver | vm_compute; lia ].
Qed.

Example sealed_token_roundtrip_witness : exists t,
  mint_token (cbc := clear_cbc) (repeat_char "g" 32) demo_payload demo_env (demo_st empty_db) = (Ok t, mkSt empty_db 1)
  /\ decrypt_token (cbc := clear_cbc) (repeat_char "g" 32) t = Ok (JObj demo_payload).
Proof.
  exact (@sealed_token_roundtrip clear_cbc clear_cbc_laws (guac_cypher_key example_settings) _ demo_payload
    demo_env (demo_st empty_db) eq_refl demo_payload_plain).
Defined.
