(* ===== verification/Guac.v ===== *)
(** * Guac: guac/broker.py, guac/token.py and authz/guac.py, the tunnel tokens

    A signed-in user asks for a tunnel to a resource: the policy is evaluated, the answer
    audited, and the connection sealed in a token beside a grant of one use.  The data
    plane consumes the grant when the tunnel's socket connects. *)

From S2P Require Import Prelude PyStr Encoding Digest Json JsonText PyTime IsoTime Config Db Effects Crypto Web.
From S2P Require Import Sessions Engine Decision Gateway TokenEndpoint Resources SealedToken.
Local Open Scope Z_scope.

(** ** guac/broker.py *)

Record BrokerResult := mkBrokerResult {
  br_allowed : bool;
  br_reason : string;
  br_token : option string;
  br_protocol : option string;
  br_expires_at : option Z;
}.

Definition refused (reason : string) : BrokerResult := mkBrokerResult false reason None None None.

Definition guac_audit (user_id resource_id port : option Z) (decision reason source_ip : string) : M unit :=
  let! ts := server_now in
  moddb (upd_audit_log (fun l => l ++ [mkAuditLog ts user_id resource_id port decision reason source_ip])).

(** The connection of a resource. *)
Definition connection_of (rid : Z) (_ : Z) (c : ResourceConnection) : bool := rc_resource_id c =? rid.

(** The settings in the token: the stored parameters, the unsealed ones over them, and the
    target of the row over both. *)
Definition conn_settings (c : ResourceConnection) (secret : list (string * json)) : list (string * json) :=
  let stored := map (fun kv => (kv.1, JStr (py_str kv.2))) (rc_params_json c) in
  let merged := assoc_update stored secret in
  assoc_set "port" (JStr (dec_str (rc_port c))) (assoc_set "hostname" (JStr (rc_hostname c)) merged).

Definition conn_obj (c : ResourceConnection) (conn : list (string * json)) : list (string * json) :=
  [("connection", JObj [("type", JStr (rc_protocol c)); ("settings", JObj conn)])].

Section Broker.
Context {aead : Aead} {cbc : CbcCipher}.

Definition issue_tunnel (backend : SecretsBackend) (user_id rid : Z) (source_ip : string) (now : Z)
  : M BrokerResult :=
  let! cfg := asks id in
  if bool_decide (guac_cypher_key cfg = "") then ret (refused "guac_disabled")
  else
    let! rs := gets resources in
    match rs !! rid with
    | None => guac_audit (Some user_id) (Some rid) None "deny" "unknown_resource" source_ip;;
              ret (refused "unknown_resource")
    | Some resource =>
        if negb (r_enabled resource) then
          guac_audit (Some user_id) (Some rid) None "deny" "unknown_resource" source_ip;;
          ret (refused "unknown_resource")
        else
          let! cs := gets resource_connections in
          match scalar (select (connection_of rid) cs) with
          | None => guac_audit (Some user_id) (Some rid) None "deny" "no_connection" source_ip;;
                    ret (refused "no_connection")
          | Some (cid, connection) =>
              let port := rc_port connection in
              let! access := evaluate_access user_id rid port "/" now in
              let decision := decision access in
              guac_audit (Some user_id) (Some rid) (Some port) (if allowed decision then "allow" else "deny")
                (reason decision) source_ip;;
              if negb (allowed decision) then ret (refused (reason decision))
              else
                let! secret := lift (unseal_secret_params backend connection) in
                let! key := lift (load_cypher_key (guac_cypher_key cfg)) in
                let! token := mint_token key (conn_obj connection (conn_settings connection secret)) in
                let expires_at := now + seconds (guac_grant_ttl cfg) in
                let! issued := server_now in
                db_add "guac_grants" guac_grants upd_guac_grants no_clash (sha256_hex token)
                  (mkGuacGrant user_id rid cid source_ip issued expires_at None);;
                ret (mkBrokerResult true "allowed" (Some token) (Some (rc_protocol connection)) (Some expires_at))
          end
    end.

(** The conditions of the update. *)
Definition guac_consumable (h source_ip : string) (now : Z) (user_id : option Z) (k : string) (g : GuacGrant)
  : bool :=
  bool_decide (k = h) && bool_decide (gg_consumed_at g = None) && (now <? gg_expires_at g)
  && bool_decide (gg_source_ip g = source_ip)
  && match user_id with None => true | Some u => gg_user_id g =? u end.

Definition consume_grant (token source_ip : string) (now : Z) (user_id : option Z) : M bool :=
  let p := guac_consumable (sha256_hex token) source_ip now user_id in
  let! t := gets guac_grants in
  moddb (upd_guac_grants (update_where p (set_gg_consumed_at (Some now))));;
  ret (count_where p t =? 1).

(** ** authz/guac.py *)

Record ConsumeRequest := mkConsumeRequest {
  cq_token : string;
  cq_source_ip : option string;
  cq_gateway_cookie : option string;
}.

Definition j_error (status : Z) (error : string) : Response :=
  json_response status (JObj [("error", JStr error)]).
Definition denied (status : Z) (reason : string) : Response :=
  json_response status (JObj [("decision", JStr "deny"); ("reason", JStr reason)]).
Definition admitted : Response := json_response 200 (JObj [("decision", JStr "allow")]).

(** [a or b] on an optional text. *)
Definition or_else (a b : option string) : option string :=
  match nonempty a with Some s => Some s | None => b end.

Context (run : list string -> ProcessResult).

Definition guac_token (resource_id : Z) (request : Request) : M Response :=
  let! cfg := asks id in
  let! now := utcnow in
  let! ip := resolve_client_ip request in
  let! gw := resolve_gateway_session (cookie request (gateway_cookie_name cfg)) ip now true in
  match gw with
  | None => ret (j_error 401 "auth_required")
  | Some (_, gw) =>
      let! backend := secrets_backend run in
      let! result := issue_tunnel backend (gs_user_id gw) resource_id ip now in
      if negb (br_allowed result) then
        ret (j_error (if bool_decide (br_reason result = "guac_disabled") then 503 else 403) (br_reason result))
      else
        let! token := assert_some (br_token result) in
        let! expires_at := assert_some (br_expires_at result) in
        ret (json_response 200 (JObj
          [("token", JStr token); ("protocol", match br_protocol result with Some p => JStr p | None => JNull end);
           ("expires_at", JStr (isoformat expires_at))]))
  end.

(** The address the data plane forwards, or that of the request. *)
Definition consume_ip (body : ConsumeRequest) (request : Request) : M string :=
  match nonempty (cq_source_ip body) with Some ip => ret ip | None => resolve_client_ip request end.

Definition guac_consume (body : ConsumeRequest) (request : Request) : M Response :=
  let! cfg := asks id in
  let! now := utcnow in
  let! ip := consume_ip body request in
  let! gw := resolve_gateway_session
    (or_else (cq_gateway_cookie body) (cookie request (gateway_cookie_name cfg))) ip now true in
  match gw with
  | None => ret (denied 401 "auth_required")
  | Some (_, gw) =>
      let! ok := consume_grant (cq_token body) ip now (Some (gs_user_id gw)) in
      if ok then ret admitted else ret (denied 403 "invalid_grant")
  end.
End Broker.
