(* ===== verification/Rtsp.v ===== *)
(** * Rtsp: rtsp/urls.py, rtsp/broker.py and authz/rtsp.py, the stream tokens

    As the tunnel tokens, with the camera's credentials typed by the viewer: they are
    quoted into the stream's URL, which only the token carries. *)

From S2P Require Import Prelude PyStr Encoding Digest Json JsonText PyTime IsoTime Url Config Db Effects Crypto Web.
From S2P Require Import Sessions Engine Decision Gateway Resources SealedToken Guac.
Local Open Scope Z_scope.

(** ** rtsp/urls.py *)

(** [str(connection.params_json.get("path", "") or "")]. *)
Definition stream_path (c : ResourceConnection) : string :=
  let v := default (JStr "") (assoc "path" (rc_params_json c)) in
  let raw := if truthy v then py_str v else "" in
  if bool_decide (raw = "") then "/" else if startswith raw "/" then raw else "/" +:+ raw.

Definition userinfo (username password : string) : string :=
  if bool_decide (username = "") && bool_decide (password = "") then ""
  else quote_all username +:+ ":" +:+ quote_all password +:+ "@".

Definition build_rtsp_url (c : ResourceConnection) (username password : string) : string :=
  "rtsp://" +:+ userinfo username password +:+ rc_hostname c +:+ ":" +:+ dec_str (rc_port c) +:+ stream_path c.

Definition redact (url : string) : string :=
  match partition "://" url with
  | None => url
  | Some (scheme, rest) =>
      if bool_decide (rest = "") then url
      else match rpartition "@" rest with
           | None => url
           | Some (_, hostpart) => scheme +:+ "://***:***@" +:+ hostpart
           end
  end.

(** ** rtsp/broker.py *)

Definition RTSP_PROTOCOL : string := "rtsp".

Record BrokerResult := mkBrokerResult {
  br_allowed : bool;
  br_reason : string;
  br_token : option string;
  br_expires_at : option Z;
}.

Definition refused (reason : string) : BrokerResult := mkBrokerResult false reason None None.

Definition rtsp_audit (user_id resource_id port : option Z) (decision reason source_ip : string) : M unit :=
  let! ts := server_now in
  moddb (upd_audit_log (fun l => l ++ [mkAuditLog ts user_id resource_id port decision reason source_ip])).

Definition connection_of (rid : Z) (_ : Z) (c : ResourceConnection) : bool := rc_resource_id c =? rid.

(** [params.get("audio")] of the parameters as texts. *)
Definition audio_of (c : ResourceConnection) : string :=
  if bool_decide (option_map py_str (assoc "audio" (rc_params_json c)) = Some "aac") then "aac" else "none".

Definition stream_of (cfg : Settings) (c : ResourceConnection) (user_id : Z) (username password : string)
  : list (string * json) :=
  [("url", JStr (build_rtsp_url c username password)); ("audio", JStr (audio_of c));
   ("max_seconds", JInt (rtsp_max_stream_secs cfg)); ("user_id", JStr (uuid_str user_id))].

Section Broker.
Context {cbc : CbcCipher}.

Definition issue_stream (user_id rid : Z) (rtsp_username rtsp_password source_ip : string) (now : Z)
  : M BrokerResult :=
  let! cfg := asks id in
  if bool_decide (rtsp_cypher_key cfg = "") then ret (refused "rtsp_disabled")
  else
    let! rs := gets resources in
    match rs !! rid with
    | None => rtsp_audit (Some user_id) (Some rid) None "deny" "unknown_resource" source_ip;;
              ret (refused "unknown_resource")
    | Some resource =>
        if negb (r_enabled resource) then
          rtsp_audit (Some user_id) (Some rid) None "deny" "unknown_resource" source_ip;;
          ret (refused "unknown_resource")
        else
          let! cs := gets resource_connections in
          let found := match scalar (select (connection_of rid) cs) with
                       | Some (cid, c) => if bool_decide (rc_protocol c = RTSP_PROTOCOL) then Some (cid, c) else None
                       | None => None
                       end in
          match found with
          | None => rtsp_audit (Some user_id) (Some rid) None "deny" "no_connection" source_ip;;
                    ret (refused "no_connection")
          | Some (cid, connection) =>
              let port := rc_port connection in
              let! access := evaluate_access user_id rid port "/" now in
              let decision := decision access in
              rtsp_audit (Some user_id) (Some rid) (Some port) (if allowed decision then "allow" else "deny")
                (reason decision) source_ip;;
              if negb (allowed decision) then ret (refused (reason decision))
              else
                let stream := stream_of cfg connection user_id rtsp_username rtsp_password in
                let! key := lift (load_cypher_key (rtsp_cypher_key cfg)) in
                let! token := mint_token key [("stream", JObj stream)] in
                let expires_at := now + seconds (rtsp_grant_ttl cfg) in
                let! issued := server_now in
                db_add "rtsp_grants" rtsp_grants upd_rtsp_grants no_clash (sha256_hex token)
                  (mkRtspGrant user_id rid cid source_ip issued expires_at None);;
                ret (mkBrokerResult true "allowed" (Some token) (Some expires_at))
          end
    end.

Definition rtsp_consumable (h source_ip : string) (now : Z) (user_id : option Z) (k : string) (g : RtspGrant)
  : bool :=
  bool_decide (k = h) && bool_decide (rg_consumed_at g = None) && (now <? rg_expires_at g)
  && bool_decide (rg_source_ip g = source_ip)
  && match user_id with None => true | Some u => rg_user_id g =? u end.

Definition consume_grant (token source_ip : string) (now : Z) (user_id : option Z) : M bool :=
  let p := rtsp_consumable (sha256_hex token) source_ip now user_id in
  let! t := gets rtsp_grants in
  moddb (upd_rtsp_grants (update_where p (set_rg_consumed_at (Some now))));;
  ret (count_where p t =? 1).

(** ** authz/rtsp.py *)

(** [TokenRequest]: the fields of the credentials are at most 255 characters. *)
Record TokenRequest := mkTokenRequest {
  tq_resource_id : Z;
  tq_username : string;
  tq_password : string;
}.

Definition rtsp_token (body : TokenRequest) (request : Request) : M Response :=
  let! cfg := asks id in
  let! now := utcnow in
  let! ip := resolve_client_ip request in
  let! gw := resolve_gateway_session (cookie request (gateway_cookie_name cfg)) ip now false in
  match gw with
  | None => ret (Guac.j_error 401 "auth_required")
  | Some (_, gw) =>
      let! result := issue_stream (gs_user_id gw) (tq_resource_id body) (tq_username body) (tq_password body)
                       ip now in
      if negb (br_allowed result) then
        ret (Guac.j_error (if bool_decide (br_reason result = "rtsp_disabled") then 503 else 403)
               (br_reason result))
      else
        let! token := assert_some (br_token result) in
        let! expires_at := assert_some (br_expires_at result) in
        ret (json_response 200 (JObj [("token", JStr token); ("expires_at", JStr (isoformat expires_at))]))
  end.

Definition rtsp_consume (body : Guac.ConsumeRequest) (request : Request) : M Response :=
  let! cfg := asks id in
  let! now := utcnow in
  let! ip := Guac.consume_ip body request in
  let! gw := resolve_gateway_session
    (Guac.or_else (Guac.cq_gateway_cookie body) (cookie request (gateway_cookie_name cfg))) ip now false in
  match gw with
  | None => ret (Guac.denied 401 "auth_required")
  | Some (_, gw) =>
      let! ok := consume_grant (Guac.cq_token body) ip now (Some (gs_user_id gw)) in
      if ok then ret Guac.admitted else ret (Guac.denied 403 "invalid_grant")
  end.
End Broker.
