(* ===== verification/GrantSafety.v ===== *)
(** * GrantSafety: one use of a tunnel or stream token

    The two grant tables share an interface, [GrantTable]; the theorems on consuming a
    grant are proved against it, and hold of both brokers. *)

From S2P Require Import Prelude PyStr Encoding Digest Json JsonText JsonRound PyTime IsoTime Config Db Effects Crypto Web.
From S2P Require Import Sessions Engine Decision Gateway TokenEndpoint Resources SealedToken Cascade Guac Rtsp.
Local Open Scope Z_scope.

(** ** The interface of a table of grants *)

Class GrantTable (G : Type) := {
  g_table : Db -> gmap string G;
  g_upd : (gmap string G -> gmap string G) -> Db -> Db;
  g_user : G -> Z;
  g_ip : G -> string;
  g_expires : G -> Z;
  g_consumed : G -> option Z;
  g_consume : Z -> G -> G;
}.

Definition g_fixed {G} `{GrantTable G} (g : G) := (g_user g, g_ip g, g_expires g).

Class GrantLaws (G : Type) `{GrantTable G} := {
  g_table_upd : forall f d, g_table (g_upd f d) = f (g_table d);
  g_consume_consumed : forall t g, g_consumed (g_consume t g) = Some t;
  g_consume_fixed : forall t g, g_fixed (g_consume t g) = g_fixed g;
}.

#[export] Instance guac_table : GrantTable GuacGrant := {|
  g_table := guac_grants; g_upd := upd_guac_grants; g_user := gg_user_id; g_ip := gg_source_ip;
  g_expires := gg_expires_at; g_consumed := gg_consumed_at; g_consume t := set_gg_consumed_at (Some t);
|}.
#[export] Instance guac_laws : GrantLaws GuacGrant.
Proof. by constructor. Qed.

#[export] Instance rtsp_table : GrantTable RtspGrant := {|
  g_table := rtsp_grants; g_upd := upd_rtsp_grants; g_user := rg_user_id; g_ip := rg_source_ip;
  g_expires := rg_expires_at; g_consumed := rg_consumed_at; g_consume t := set_rg_consumed_at (Some t);
|}.
#[export] Instance rtsp_laws : GrantLaws RtspGrant.
Proof. by constructor. Qed.

Section SingleUse.
Context {G : Type} `{GrantLaws G}.

(** A grant that opens, for an address, an instant and perhaps a user. *)
Definition grant_opens (g : G) (ip : string) (now : Z) (user : option Z) : Prop :=
  g_consumed g = None /\ now < g_expires g /\ g_ip g = ip /\ forall u, user = Some u -> g_user g = u.

Definition grant_where (h ip : string) (now : Z) (user : option Z) (k : string) (g : G) : bool :=
  bool_decide (k = h) && bool_decide (g_consumed g = None) && (now <? g_expires g)
  && bool_decide (g_ip g = ip) && match user with None => true | Some u => g_user g =? u end.

(** The consumption both brokers write out. *)
Definition consume_in (token ip : string) (now : Z) (user : option Z) : M bool :=
  let p := grant_where (sha256_hex token) ip now user in
  let! t := gets g_table in
  moddb (g_upd (update_where p (g_consume now)));;
  ret (count_where p t =? 1).

Lemma grant_where_spec h ip now user k g :
  grant_where h ip now user k g = true <-> k = h /\ grant_opens g ip now user.
Proof.
  unfold grant_where, grant_opens. rewrite !andb_true_iff, !bool_decide_eq_true, Z.ltb_lt.
  destruct user as [u|]; [rewrite Z.eqb_eq|]; naive_solver.
Qed.

Lemma count_one h ip now user (t : gmap string G) :
  (count_where (grant_where h ip now user) t =? 1) = true
  <-> exists g, t !! h = Some g /\ grant_opens g ip now user.
Proof.
  unfold count_where. rewrite Z.eqb_eq. set (p := grant_where h ip now user).
  assert (forall x, x ∈ select p t -> x.1 = h /\ t !! h = Some x.2 /\ grant_opens x.2 ip now user) as Hin.
  { intros [k g] Hx. apply select_In in Hx as [Hk Hp]. apply grant_where_spec in Hp as [-> Ho]. done. }
  split.
  - destruct (select p t) as [|x [|y l]]; simpl; [lia| |lia]. intros _. exists x.2.
    destruct (Hin x) as (_ & ? & ?); [left|done].
  - intros (g & Hg & Ho).
    assert ((h, g) ∈ select p t) as Hx by (apply select_In; split; [done|by apply grant_where_spec]).
    assert (NoDup (select p t)) as Hnd by apply select_NoDup.
    destruct (select p t) as [|x [|y l]]; [by apply elem_of_nil in Hx|done|].
    exfalso. destruct x as [kx gx], y as [ky gy].
    destruct (Hin (kx, gx)) as (E1 & E2 & _); [left|]. destruct (Hin (ky, gy)) as (E3 & E4 & _); [right; left|].
    simpl in *. subst. rewrite E2 in E4. injection E4 as ->. apply NoDup_cons in Hnd as [Hn _]. apply Hn. left.
Qed.

Lemma consume_in_Ok token ip now user e s b s' : consume_in token ip now user e s = (Ok b, s') ->
  (b = true <-> exists g, g_table (db s) !! sha256_hex token = Some g /\ grant_opens g ip now user)
  /\ g_table (db s') = (if b then alter (g_consume now) (sha256_hex token) (g_table (db s)) else g_table (db s)).
Proof.
  unfold consume_in. intros Hm. minv Hm. split; [apply count_one|]. simpl. rewrite g_table_upd.
  apply map_eq. intros k. rewrite lookup_update_where.
  destruct (count_where _ _ =? 1) eqn:Ec.
  - apply count_one in Ec as (g & Hg & Ho). destruct (decide (k = sha256_hex token)) as [->|Hne].
    + rewrite lookup_alter_eq, Hg. simpl. by rewrite (proj2 (grant_where_spec _ _ _ _ _ _)).
    + rewrite lookup_alter_ne by done. destruct (g_table (db s) !! k) as [g'|]; [|done]. simpl.
      destruct (grant_where _ _ _ _ k g') eqn:E; [|done]. by apply grant_where_spec in E as [-> _].
  - destruct (g_table (db s) !! k) as [g|] eqn:Eg; [|done]. simpl.
    destruct (grant_where _ _ _ _ k g) eqn:E; [|done]. apply grant_where_spec in E as [-> Ho].
    apply not_true_iff_false in Ec. exfalso. apply Ec, count_one. eauto.
Qed.

Definition grant_spent (g : G) : Prop := g_consumed g <> None.
Definition grants_mono : Db -> Db -> Prop := grows g_table grant_spent g_fixed.

#[export] Instance grants_mono_preorder : PreOrder grants_mono.
Proof. apply grows_preorder. Qed.

Lemma mono_consume_in token ip now user : steps grants_mono (consume_in token ip now user).
Proof.
  intros e s. unfold consume_in, bind, gets, moddb, ret. simpl.
  eapply grows_update; [apply g_table_upd|]. intros g.
  split; [|apply g_consume_fixed]. unfold grant_spent. by rewrite g_consume_consumed.
Qed.

(** A consumed token stays consumed, and a consumed token never opens. *)
Lemma spent_closed token ip now user e s s' g : g_table (db s) !! sha256_hex token = Some g -> grant_spent g ->
  consume_in token ip now user e s <> (Ok true, s').
Proof.
  intros Hg Hs Hm. apply consume_in_Ok in Hm as [[Hm _] _]. destruct (Hm eq_refl) as (g' & Hg' & Hn & _).
  simplify_eq. done.
Qed.

Lemma consumed_spent token ip now user e s s' : consume_in token ip now user e s = (Ok true, s') ->
  exists g, g_table (db s') !! sha256_hex token = Some g /\ grant_spent g.
Proof.
  intros Hm. apply consume_in_Ok in Hm as [[Hm _] ->]. destruct (Hm eq_refl) as (g & Hg & _).
  exists (g_consume now g). rewrite lookup_alter_eq, Hg. split; [done|]. unfold grant_spent. by rewrite g_consume_consumed.
Qed.
End SingleUse.

Lemma guac_consume_in token ip now user : Guac.consume_grant token ip now user = consume_in (G := GuacGrant) token ip now user.
Proof. done. Qed.
Lemma rtsp_consume_in token ip now user : Rtsp.consume_grant token ip now user = consume_in (G := RtspGrant) token ip now user.
Proof. done. Qed.

(** ** The endpoints *)

Section Endpoints.
Context {aead : Aead} {cbc : CbcCipher} (run : list string -> ProcessResult).

Lemma steps_guac_audit R `{!PreOrder R} uid rid port d r ip :
  (forall f d, R d (upd_audit_log f d)) -> steps R (guac_audit uid rid port d r ip).
Proof. intros Hr. unfold guac_audit. steps_auto. Qed.
Lemma steps_rtsp_audit R `{!PreOrder R} uid rid port d r ip :
  (forall f d, R d (upd_audit_log f d)) -> steps R (rtsp_audit uid rid port d r ip).
Proof. intros Hr. unfold rtsp_audit. steps_auto. Qed.

Lemma steps_mint_token R `{!PreOrder R} key payload : steps R (mint_token key payload).
Proof. unfold mint_token, token_bytes. steps_auto. Qed.
Lemma steps_consume_ip R `{!PreOrder R} body rq : steps R (consume_ip body rq).
Proof. unfold consume_ip. steps_auto. Qed.
Lemma steps_secrets_backend R `{!PreOrder R} : steps R (secrets_backend run).
Proof. unfold secrets_backend. steps_auto. Qed.
End Endpoints.
#[export] Hint Resolve steps_mint_token steps_consume_ip steps_secrets_backend : hyproxy.
#[export] Hint Extern 4 (steps _ (guac_audit _ _ _ _ _ _)) =>
  apply steps_guac_audit; [typeclasses eauto|solve [intros; first [done | reflexivity | by apply grows_same]]] : hyproxy.
#[export] Hint Extern 4 (steps _ (rtsp_audit _ _ _ _ _ _)) =>
  apply steps_rtsp_audit; [typeclasses eauto|solve [intros; first [done | reflexivity | by apply grows_same]]] : hyproxy.

Section Endpoints2.
Context {aead : Aead} {cbc : CbcCipher} (run : list string -> ProcessResult).

Lemma mono_gateway {G} `{GrantTable G} cookie ip now enf : 
  (forall f d, g_table (upd_sessions f d) = g_table d) -> (forall f d, g_table (upd_auth_events f d) = g_table d) ->
  steps grants_mono (resolve_gateway_session cookie ip now enf).
Proof. intros H1 H2. by apply steps_same_grows, same_resolve_gateway. Qed.

Lemma mono_guac_token rid rq : steps (grants_mono (G := GuacGrant)) (guac_token run rid rq).
Proof.
  unfold guac_token, issue_tunnel. pose proof (mono_gateway (G := GuacGrant)) as Hg. steps_auto; auto.
  all: try (by eapply grows_insert).
Qed.

Lemma mono_guac_consume body rq : steps (grants_mono (G := GuacGrant)) (guac_consume body rq).
Proof.
  unfold guac_consume. pose proof (mono_gateway (G := GuacGrant)) as Hg. steps_auto; auto.
  rewrite guac_consume_in. apply mono_consume_in.
Qed.

Lemma mono_rtsp_token body rq : steps (grants_mono (G := RtspGrant)) (rtsp_token body rq).
Proof.
  unfold rtsp_token, issue_stream. pose proof (mono_gateway (G := RtspGrant)) as Hg. cbv zeta. steps_auto; auto.
  all: try (by eapply grows_insert).
Qed.

Lemma mono_rtsp_consume body rq : steps (grants_mono (G := RtspGrant)) (rtsp_consume body rq).
Proof.
  unfold rtsp_consume. pose proof (mono_gateway (G := RtspGrant)) as Hg. steps_auto; auto.
  rewrite rtsp_consume_in. apply mono_consume_in.
Qed.

Lemma same_gateway {X} (view : Db -> X) cookie ip now enf : outside view ->
  steps (same view) (resolve_gateway_session cookie ip now enf).
Proof. apply same_resolve_gateway. Qed.

Lemma rtsp_apart_guac_token rid rq : steps (same rtsp_grants) (guac_token run rid rq).
Proof.
  unfold guac_token, issue_tunnel. pose proof (same_gateway rtsp_grants) as Hg. steps_auto; try apply Hg; split; done.
Qed.
Lemma rtsp_apart_guac_consume body rq : steps (same rtsp_grants) (guac_consume body rq).
Proof.
  unfold guac_consume, Guac.consume_grant. pose proof (same_gateway rtsp_grants) as Hg. steps_auto; try apply Hg; split; done.
Qed.
Lemma guac_apart_rtsp_token body rq : steps (same guac_grants) (rtsp_token body rq).
Proof.
  unfold rtsp_token, issue_stream. pose proof (same_gateway guac_grants) as Hg. cbv zeta. steps_auto; try apply Hg; split; done.
Qed.
Lemma guac_apart_rtsp_consume body rq : steps (same guac_grants) (rtsp_consume body rq).
Proof.
  unfold rtsp_consume, Rtsp.consume_grant. pose proof (same_gateway guac_grants) as Hg. steps_auto; try apply Hg; split; done.
Qed.
End Endpoints2.

(** ** The consume endpoint, against the interface *)

Definition consume_cookie (cfg : Settings) (body : ConsumeRequest) (rq : Request) : option string :=
  or_else (cq_gateway_cookie body) (cookie rq (gateway_cookie_name cfg)).
Definition consume_ip_of (cfg : Settings) (body : ConsumeRequest) (rq : Request) : option string :=
  match nonempty (cq_source_ip body) with Some ip => Some ip | None => client_ip_of cfg rq end.

Section Consume.
Context {G : Type} `{GrantLaws G}.
Context (apart : forall f d, g_table (upd_sessions f d) = g_table d)
  (apart' : forall f d, g_table (upd_auth_events f d) = g_table d).

Definition consume_at (enforce : bool) (body : ConsumeRequest) (rq : Request) : M Response :=
  let! cfg := asks id in
  let! now := utcnow in
  let! ip := consume_ip body rq in
  let! gw := resolve_gateway_session (consume_cookie cfg body rq) ip now enforce in
  match gw with
  | None => ret (denied 401 "auth_required")
  | Some (_, gw) =>
      let! ok := consume_in (cq_token body) ip now (Some (gs_user_id gw)) in
      if ok then ret admitted else ret (denied 403 "invalid_grant")
  end.

(** A token that may be consumed: a live session of the grant's user, and an open grant. *)
Definition may_consume (enforce : bool) (cfg : Settings) (d : Db) (body : ConsumeRequest) (rq : Request)
    (now : Z) : Prop :=
  exists ip gid gw idp g, consume_ip_of cfg body rq = Some ip
  /\ gateway_live cfg d (consume_cookie cfg body rq) ip now enforce gid gw idp
  /\ g_table d !! sha256_hex (cq_token body) = Some g
  /\ grant_opens g ip now (Some (gs_user_id gw)).

Lemma consume_ip_Ok body rq e s ip s' : consume_ip body rq e s = (Ok ip, s') ->
  s' = s /\ consume_ip_of (settings e) body rq = Some ip.
Proof.
  unfold consume_ip, consume_ip_of. destruct (nonempty _); [by intros [= <- <-]|].
  rewrite resolve_client_ip_run. destruct (client_ip_of _ _); [by intros [= <- <-]|done].
Qed.

Lemma gateway_user cfg d c ip now enf gid gw idp gid' gw' idp' :
  gateway_live cfg d c ip now enf gid gw idp -> gateway_live cfg d c ip now enf gid' gw' idp' -> gw' = gw.
Proof. intros [(? & Hc & _) Hr _ _ _ _] [(? & Hc' & _) Hr' _ _ _ _]. congruence. Qed.

Lemma consume_at_Ok enf body rq e s resp s' : consume_at enf body rq e s = (Ok resp, s') ->
  (resp = admitted <-> may_consume enf (settings e) (db s) body rq (clock e (tick s)))
  /\ (resp = admitted -> g_table (db s')
      = alter (g_consume (clock e (tick s))) (sha256_hex (cq_token body)) (g_table (db s)))
  /\ (resp <> admitted -> g_table (db s') = g_table (db s)
      /\ (resp = denied 401 "auth_required" \/ resp = denied 403 "invalid_grant")).
Proof.
  unfold consume_at. intros Hr. mread Hr. mstep Hr ip s1 H1. apply consume_ip_Ok in H1 as [-> Hip].
  mstep Hr o s2 Hgw.
  pose proof (same_steps_eq g_table _ _ _ _ _ (same_resolve_gateway g_table _ _ _ _ (conj apart apart')) Hgw) as Hv.
  simpl in Hv. destruct o as [[gid gw]|].
  - apply resolve_gateway_Some in Hgw as [idp Hlive]. simpl in Hlive. mstep Hr b s3 Hc.
    apply consume_in_Ok in Hc as [Hb Ht]. rewrite Hv in Hb, Ht.
    assert (b = true <-> may_consume enf (settings e) (db s) body rq (clock e (tick s))) as Hm.
    { rewrite Hb. split.
      - intros (g & Hg & Ho). by exists ip, gid, gw, idp, g.
      - intros (ip' & gid' & gw' & idp' & g & Hip' & Hl' & Hg & Ho). rewrite Hip in Hip'. injection Hip' as <-.
        rewrite (gateway_user _ _ _ _ _ _ _ _ _ _ _ _ Hlive Hl') in Ho. eauto. }
    destruct b; minv Hr.
    + split; [by rewrite <- Hm|]. done.
    + split; [rewrite <- Hm; done|]. split; [done|]. auto.
  - minv Hr. split; [|split; [done|auto]]. split; [done|].
    intros (ip' & gid' & gw' & idp' & g & Hip' & Hl' & _). rewrite Hip in Hip'. injection Hip' as <-.
    destruct (resolve_gateway_live _ _ _ _ e (mkSt (db s) (S (tick s))) _ _ _ Hl') as [s'' Hs].
    unfold consume_cookie, id in *. rewrite Hs in Hgw. done.
Qed.

Lemma consume_at_runs enf body rq e s ip gid gw idp : consume_ip_of (settings e) body rq = Some ip ->
  gateway_live (settings e) (db s) (consume_cookie (settings e) body rq) ip (clock e (tick s)) enf gid gw idp ->
  exists r s', consume_at enf body rq e s = (Ok r, s').
Proof.
  intros Hip Hl. unfold consume_at. erewrite bind_run; [|reflexivity]. erewrite bind_run; [|reflexivity].
  assert (consume_ip body rq e (mkSt (db s) (S (tick s))) = (Ok ip, mkSt (db s) (S (tick s)))) as Hc.
  { unfold consume_ip, consume_ip_of in *. destruct (nonempty _); [by injection Hip as ->|].
    rewrite resolve_client_ip_run. by rewrite Hip. }
  rewrite (bind_run _ _ _ _ _ _ Hc).
  destruct (resolve_gateway_live _ _ _ _ e (mkSt (db s) (S (tick s))) _ _ _ Hl) as [s1 Hs].
  unfold id. rewrite (bind_run _ _ _ _ _ _ Hs).
  erewrite bind_run; [|unfold consume_in, bind, gets, moddb, ret; reflexivity].
  destruct (count_where _ _ =? 1); eexists _, _; reflexivity.
Qed.
End Consume.

Lemma guac_consume_at body rq : guac_consume body rq = consume_at (G := GuacGrant) true body rq.
Proof. done. Qed.
Lemma rtsp_consume_at body rq : rtsp_consume body rq = consume_at (G := RtspGrant) false body rq.
Proof. done. Qed.

(** ** Sequences of requests

    The four endpoints, each in a transaction of its own, in any order and with any clock,
    interleaved with any other code, the collection included, that reopens no grant.  An
    admitted consumption is labelled with its protocol and token.  A grant that was
    removed leaves no trace of the token in the database, so a run says what the width of
    the random tokens makes true: a token that was used is not drawn again. *)

Inductive Proto := Tunnel | Stream.

(** The token has a grant, and it has been used; a grant of the token, if any, has been
    used; the token has no grant. *)
Definition used (x : Proto * string) (d : Db) : Prop :=
  match x.1 with
  | Tunnel => exists g, guac_grants d !! sha256_hex x.2 = Some g /\ grant_spent g
  | Stream => exists g, rtsp_grants d !! sha256_hex x.2 = Some g /\ grant_spent g
  end.
Definition absent (x : Proto * string) (d : Db) : Prop :=
  match x.1 with
  | Tunnel => guac_grants d !! sha256_hex x.2 = None
  | Stream => rtsp_grants d !! sha256_hex x.2 = None
  end.
Definition closed (x : Proto * string) (d : Db) : Prop := used x d \/ absent x d.

(** No token of [seen] without a grant is given one. *)
Definition no_reissue (seen : list (Proto * string)) (s s' : St) : Prop :=
  forall x, x ∈ seen -> absent x (db s) -> absent x (db s').

Section Trace.
Context {aead : Aead} {cbc : CbcCipher} (run : list string -> ProcessResult).

Inductive gate_step : St -> option (Proto * string) -> St -> Prop :=
| step_guac_token e s rid rq r s' :
    db_session (guac_token run rid rq) e s = (r, s') -> gate_step s None s'
| step_rtsp_token e s body rq r s' :
    db_session (rtsp_token body rq) e s = (r, s') -> gate_step s None s'
| step_guac_admitted e s body rq s' :
    db_session (guac_consume body rq) e s = (Ok admitted, s') -> gate_step s (Some (Tunnel, cq_token body)) s'
| step_guac_refused e s body rq r s' :
    db_session (guac_consume body rq) e s = (r, s') -> r <> Ok admitted -> gate_step s None s'
| step_rtsp_admitted e s body rq s' :
    db_session (rtsp_consume body rq) e s = (Ok admitted, s') -> gate_step s (Some (Stream, cq_token body)) s'
| step_rtsp_refused e s body rq r s' :
    db_session (rtsp_consume body rq) e s = (r, s') -> r <> Ok admitted -> gate_step s None s'
| step_other s s' :
    (forall x, used x (db s) -> closed x (db s')) -> gate_step s None s'.

(** [seen] are the tokens used so far. *)
Inductive gate_run : list (Proto * string) -> St -> list (Proto * string) -> St -> Prop :=
| run_nil seen s : gate_run seen s [] s
| run_quiet seen s s1 s' tr :
    gate_step s None s1 -> no_reissue seen s s1 -> gate_run seen s1 tr s' -> gate_run seen s tr s'
| run_admit seen s s1 s' x tr :
    gate_step s (Some x) s1 -> no_reissue seen s s1 -> gate_run (x :: seen) s1 tr s' ->
    gate_run seen s (x :: tr) s'.

Definition both_mono (d d' : Db) : Prop := grants_mono (G := GuacGrant) d d' /\ grants_mono (G := RtspGrant) d d'.

Lemma used_mono x d d' : both_mono d d' -> used x d -> used x d'.
Proof.
  intros [Hg Hr]. unfold used. destruct x as [[] t]; intros (g & E & Hs); simpl in *;
    [destruct (Hg _ _ E) as (g' & ? & ? & _)|destruct (Hr _ _ E) as (g' & ? & ? & _)]; eauto.
Qed.

Lemma step_keeps s o s' x : gate_step s o s' -> used x (db s) -> closed x (db s').
Proof.
  intros Hs Hu. assert (forall A (m : M A) e s r s', steps (grants_mono (G := GuacGrant)) m ->
    steps (grants_mono (G := RtspGrant)) m -> db_session m e s = (r, s') -> used x (db s) -> closed x (db s')) as Hm.
  { intros A m e s0 r s1 H1 H2 E H. left. eapply used_mono; [|exact H].
    split; [pose proof (steps_db_session _ m H1 e s0) as Hx|pose proof (steps_db_session _ m H2 e s0) as Hx];
      by rewrite E in Hx. }
  revert Hu. destruct Hs as [e s rid rq r s' E|e s body rq r s' E|e s body rq s' E|e s body rq r s' E _
    |e s body rq s' E|e s body rq r s' E _|s s' Ho]; [..|by apply Ho]; revert E; apply Hm.
  - apply mono_guac_token.
  - apply steps_same_grows, rtsp_apart_guac_token.
  - apply steps_same_grows, guac_apart_rtsp_token.
  - apply mono_rtsp_token.
  - apply mono_guac_consume.
  - apply steps_same_grows, rtsp_apart_guac_consume.
  - apply mono_guac_consume.
  - apply steps_same_grows, rtsp_apart_guac_consume.
  - apply steps_same_grows, guac_apart_rtsp_consume.
  - apply mono_rtsp_consume.
  - apply steps_same_grows, guac_apart_rtsp_consume.
  - apply mono_rtsp_consume.
Qed.

(** An admission finds the grant open and leaves it used. *)
Lemma admit_once s x s' : gate_step s (Some x) s' -> ~ closed x (db s) /\ used x (db s').
Proof.
  inversion 1 as [| |e s0 body rq s1 Hr| |e s0 body rq s1 Hr| |]; subst; apply db_session_Ok in Hr;
    [rewrite guac_consume_at in Hr|rewrite rtsp_consume_at in Hr];
    apply consume_at_Ok in Hr as (Ha & Ht & _); try done;
    specialize (Ht eq_refl); destruct (proj1 Ha eq_refl) as (ip & gid & gw & idp & g & _ & _ & Hg & Hn & _);
    clear Ha; unfold closed, used, absent; cbn [fst snd]; cbn [g_table guac_table rtsp_table] in Hg, Ht;
    rewrite Ht, Hg, lookup_alter_eq, Hg;
    (split; [intros [(g' & [= <-] & Hs)|[=]]; by apply Hs|]); eexists; (split; [reflexivity|done]).
Qed.

Lemma closed_kept s o s' seen x : gate_step s o s' -> no_reissue seen s s' -> x ∈ seen ->
  closed x (db s) -> closed x (db s').
Proof. intros Hs Hn Hx [Hu|Ha]; [by eapply step_keeps|right; by apply Hn]. Qed.

Lemma used_never seen s tr s' x : gate_run seen s tr s' -> x ∈ seen -> closed x (db s) -> x ∉ tr.
Proof.
  induction 1 as [|seen s s1 s' tr Hs Hn _ IH|seen s s1 s' y tr Hs Hn _ IH]; intros Hx Hu.
  - apply not_elem_of_nil.
  - apply IH; [done|]. by eapply closed_kept.
  - apply not_elem_of_cons. split.
    + intros ->. by apply admit_once in Hs as [Hn' _].
    + apply IH; [by right|]. by eapply closed_kept.
Qed.
End Trace.

(** ** Theorems *)

(** C6: A tunnel or stream token is used at most once: in any sequence of requests, in any
    order and at any times, no token is admitted twice by the same endpoint, even when its
    grant has been collected in between. *)
Theorem token_single_use `{!Aead} `{!CbcCipher} run seen s tr s' (Hrun : gate_run run seen s tr s') : NoDup tr.
Proof.
  induction Hrun as [seen s|seen s s1 s' tr Hs _ _ IH|seen s s1 s' x tr Hs _ Hr IH]; [constructor|done|].
  apply NoDup_cons. split; [|done]. eapply used_never; [exact Hr|left|]. left. by apply admit_once in Hs as [_ Hu].
Qed.

(** The consumption of a token is admitted exactly when a live gateway session belongs to
    the user of an unconsumed, unexpired grant of that token and address (the session of
    a tunnel must have the address too); what is not admitted leaves the grants as they
    were. *)
Theorem consume_exact body rq e s r r' s1 s2
    (Htunnel : guac_consume body rq e s = (Ok r, s1)) (Hstream : rtsp_consume body rq e s = (Ok r', s2)) :
  ((r = admitted <-> may_consume (G := GuacGrant) true (settings e) (db s) body rq (clock e (tick s)))
   /\ (r <> admitted -> guac_grants (db s1) = guac_grants (db s)))
  /\ ((r' = admitted <-> may_consume (G := RtspGrant) false (settings e) (db s) body rq (clock e (tick s)))
   /\ (r' <> admitted -> rtsp_grants (db s2) = rtsp_grants (db s))).
Proof.
  rewrite guac_consume_at in Htunnel. rewrite rtsp_consume_at in Hstream.
  apply consume_at_Ok in Htunnel as (H1 & _ & H2); [|done..].
  apply consume_at_Ok in Hstream as (H3 & _ & H4); [|done..].
  split; (split; [done|]); intros Hn; [by apply H2|by apply H4].
Qed.

(** ** Witnesses *)

Definition demo_grants : Db :=
  upd_rtsp_grants (fun _ => {[ sha256_hex "stream" := mkRtspGrant 11 6 9 "192.0.2.7" T0 (T0 + seconds 60) None ]})
    (upd_guac_grants (fun _ => {[ sha256_hex "tunnel" := mkGuacGrant 11 6 9 "192.0.2.7" T0 (T0 + seconds 60) None ]})
       demo_world).
Definition demo_consume (token : string) : ConsumeRequest :=
  mkConsumeRequest token (Some "192.0.2.7") (Some demo_gw_cookie).
Definition bare_request : Request := mkRequest [] [] (Some "10.0.0.1").

Definition tunnel_run := guac_consume (demo_consume "tunnel") bare_request demo_env (mkSt demo_grants 0).
Definition stream_run := rtsp_consume (demo_consume "tunnel") bare_request demo_env (mkSt demo_grants 0).

(** The tunnel's token is used, its grant removed, the stream's token used. *)
Definition without_tunnel (s : St) : St :=
  mkSt (upd_guac_grants (delete (sha256_hex "tunnel")) (db s)) (tick s).

Lemma without_tunnel_step run s : gate_step (aead := clear_aead) (cbc := clear_cbc) run s None (without_tunnel s).
Proof.
  apply step_other. intros [[] t] (g & Hg & Hs); [|left; by exists g]. unfold closed, used, absent. simpl.
  destruct (decide (sha256_hex t = sha256_hex "tunnel")) as [->|Hne]; [right; by rewrite lookup_delete_eq|].
  left. exists g. by rewrite lookup_delete_ne.
Qed.

Lemma without_tunnel_quiet seen s : no_reissue seen s (without_tunnel s).
Proof.
  intros [[] t] _; unfold absent; simpl; [|done]. intros H.
  by rewrite lookup_delete_None; right.
Qed.

Lemma nothing_seen s s' : no_reissue [] s s'.
Proof. intros x Hx. by apply elem_of_nil in Hx. Qed.

Example token_single_use_witness : exists s1 s2,
  tunnel_run = (Ok admitted, s1)
  /\ gate_run (aead := clear_aead) (cbc := clear_cbc) demo_unseal [] (mkSt demo_grants 0)
       [(Tunnel, "tunnel"); (Stream, "stream")] s2
  /\ NoDup [(Tunnel, "tunnel"); (Stream, "stream")].
Proof.
  destruct tunnel_run as [r s1] eqn:E1.
  destruct (rtsp_consume (demo_consume "stream") bare_request demo_env (without_tunnel s1)) as [r2 s2] eqn:E2.
  assert (s1 = tunnel_run.2) as Hs1 by (rewrite E1; reflexivity).
  assert (r = Ok admitted) as -> by (change r with ((r, s1).1); rewrite <- E1; vm_compute; reflexivity).
  assert (r2 = Ok admitted) as ->.
  { change r2 with ((r2, s2).1). rewrite <- E2, Hs1. vm_compute. reflexivity. }
  assert (gate_run (aead := clear_aead) (cbc := clear_cbc) demo_unseal [] (mkSt demo_grants 0)
            [(Tunnel, "tunnel"); (Stream, "stream")] s2) as Hrun.
  { eapply run_admit; [eapply (step_guac_admitted _ demo_env _ (demo_consume "tunnel"))|apply nothing_seen|].
    - unfold db_session. unfold tunnel_run in E1. rewrite E1. reflexivity.
    - eapply run_quiet; [apply without_tunnel_step|apply without_tunnel_quiet|].
      eapply run_admit; [eapply (step_rtsp_admitted _ demo_env _ (demo_consume "stream"))| |apply run_nil].
      + unfold db_session. rewrite E2. reflexivity.
      + intros x Hx. apply list_elem_of_singleton in Hx as ->. unfold absent. cbn [fst snd].
        pose proof (same_steps_eq guac_grants _ _ _ _ _ (guac_apart_rtsp_consume _ _) E2) as ->. done. }
  exists s1, s2. split; [reflexivity|]. split; [exact Hrun|].
  exact (@token_single_use clear_aead clear_cbc demo_unseal [] (mkSt demo_grants 0) _ s2 Hrun).
Defined.

Example consume_exact_witness : exists r r' s1 s2, tunnel_run = (Ok r, s1) /\ stream_run = (Ok r', s2)
  /\ r = admitted /\ rtsp_grants (db s2) = rtsp_grants demo_grants.
Proof.
  assert (tunnel_run.1 = Ok admitted) as H1 by (vm_compute; reflexivity).
  assert (stream_run.1 = Ok (denied 403 "invalid_grant")) as H2 by (vm_compute; reflexivity).
  destruct tunnel_run as [o s1] eqn:E1. destruct stream_run as [o' s2] eqn:E2. cbn [fst] in H1, H2. subst o o'.
  exists admitted, (denied 403 "invalid_grant"), s1, s2. split; [reflexivity|]. split; [reflexivity|]. split; [reflexivity|].
  apply (consume_exact (demo_consume "tunnel") bare_request demo_env (mkSt demo_grants 0) _ _ s1 s2 E1 E2).
  discriminate.
Defined.
