(* ===== verification/TunnelSafety.v ===== *)
(** * TunnelSafety: what a tunnel token is worth

    Who gets a tunnel token, what it carries, and that it opens the tunnel. *)

From S2P Require Import Prelude PyStr Encoding Digest Json JsonText JsonRound PyTime IsoTime Config Db Effects Crypto Web.
From S2P Require Import Sessions Engine Decision Gateway Check TokenEndpoint Resources SealedToken Cascade Guac GrantSafety.
Local Open Scope Z_scope.

(** ** Specification *)

(** The token of an answer. *)
Definition token_of (r : Response) : option string :=
  match rs_body r with
  | JsonBody (JObj fields) => match assoc "token" fields with Some (JStr t) => Some t | _ => None end
  | _ => None
  end.

Definition tunnel_payload (c : ResourceConnection) (secret : list (string * json)) : list (string * json) :=
  conn_obj c (conn_settings c secret).

(** The facts behind a tunnel token: the policy allows the user the connection's port, the
    token seals the connection, one grant and one line of audit were written. *)
Record tunnel_minted `{!Aead} `{!CbcCipher} (run : list string -> ProcessResult) (e : Env) (d : Db) (uid rid : Z)
    (ip : string) (now : Z) (t : string) (d' : Db) : Prop := mkMinted {
  tm_resource : exists r, resources d !! rid = Some r /\ r_enabled r = true;
  tm_sealed : exists cid c backend secret key,
    resource_connections d !! cid = Some c /\ rc_resource_id c = rid
    /\ allowed (decision (access_of d uid rid (rc_port c) "/" now)) = true
    /\ get_secrets_backend run (settings e) = Ok backend /\ unseal_secret_params backend c = Ok secret
    /\ load_cypher_key (guac_cypher_key (settings e)) = Ok key
    /\ (CbcLaws -> plain_json (JObj (tunnel_payload c secret)) ->
        decrypt_token key t = Ok (JObj (tunnel_payload c secret)))
    /\ assoc "hostname" (conn_settings c secret) = Some (JStr (rc_hostname c))
    /\ assoc "port" (conn_settings c secret) = Some (JStr (dec_str (rc_port c)))
    /\ guac_grants d !! sha256_hex t = None
    /\ guac_grants d' = <[sha256_hex t := mkGuacGrant uid rid cid ip (tx_now e)
         (now + seconds (guac_grant_ttl (settings e))) None]> (guac_grants d)
    /\ audit_log d' = (audit_log d ++ [mkAuditLog (tx_now e) (Some uid) (Some rid) (Some (rc_port c)) "allow" "allow" ip])%list;
}.

(** ** Lemmas *)

Lemma access_allowed d uid rid port path now : allowed (decision (access_of d uid rid port path now)) = true ->
  decision (access_of d uid rid port path now) = mkDecision true "allow".
Proof. apply evaluate_allowed. Qed.

Section Issue.
Context {aead : Aead} {cbc : CbcCipher} (run : list string -> ProcessResult).

(** A token that was minted opens, if the cipher keeps its laws. *)
Lemma mint_run_opens `{!CbcLaws} key payload e s t s' : mint_token key payload e s = (Ok t, s') ->
  plain_json (JObj payload) -> decrypt_token key t = Ok (JObj payload).
Proof.
  intros Hm Hp. assert (String.length key = 32%nat) as Hk.
  { unfold mint_token in Hm. case_bool_decide; [done|]. done. }
  destruct (mint_opens key payload e s Hk Hp) as (t' & Hm' & Ho). congruence.
Qed.

Lemma guac_audit_Ok uid rid port d r ip e s u s' : guac_audit uid rid port d r ip e s = (Ok u, s') ->
  db s' = upd_audit_log (fun l => l ++ [mkAuditLog (tx_now e) uid rid port d r ip]) (db s).
Proof. unfold guac_audit. intros Hm. by minv Hm. Qed.

Lemma issue_Ok backend uid rid ip now e s res s' : issue_tunnel backend uid rid ip now e s = (Ok res, s') ->
  br_allowed res = true -> get_secrets_backend run (settings e) = Ok backend ->
  exists t x, br_token res = Some t /\ br_expires_at res = Some x
    /\ tunnel_minted run e (db s) uid rid ip now t (db s').
Proof.
  unfold issue_tunnel. intros Hr Ha Hb. mread Hr. case_bool_decide; [minv Hr; done|].
  mread Hr. destruct (resources (db s) !! rid) as [r|] eqn:Er.
  2: { mstep Hr u s1 H1. minv Hr. done. }
  destruct (r_enabled r) eqn:Een; cbn [negb] in Hr.
  2: { mstep Hr u s1 H1. minv Hr. done. }
  mread Hr. destruct (scalar _) as [[cid c]|] eqn:Ec.
  2: { mstep Hr u s1 H1. minv Hr. done. }
  apply scalar_select in Ec as [Hc Hrid]. unfold connection_of in Hrid. bool_simpl.
  mstep Hr access s1 H1. unfold evaluate_access in H1. minv H1. unfold id in *.
  mstep Hr u s9 H9. apply guac_audit_Ok in H9.
  destruct (allowed _) eqn:Eal; cbn [negb] in Hr.
  2: { minv Hr. done. }
  rewrite (access_allowed _ _ _ _ _ _ Eal) in H9.
  mlift Hr secret Esec. mlift Hr key Ekey. mstep Hr t s2 Hmint. mread Hr.
  mstep Hr u' s3 Hadd. minv Hr.
  pose proof (mint_token_Ok _ _ _ _ _ _ Hmint) as [Hd _].
  apply db_add_Ok in Hadd as (Hnone & _ & Hdb & _). rewrite Hd, H9 in Hnone, Hdb. simpl in Hnone, Hdb.
  eexists _, _. split; [done|]. split; [done|].
  constructor; [by exists r|].
  exists cid, c, backend, secret, key. split_and!; try done.
  - intros Hlaws Hp. by eapply mint_run_opens.
  - unfold conn_settings. rewrite assoc_set_get_ne by done. apply assoc_set_get.
  - apply assoc_set_get.
  - by rewrite Hdb.
  - by rewrite Hdb.
Qed.
End Issue.

Definition resources_of {A B C D E F G H} (v : A * B * C * D * E * F * G * H) : E := v.1.1.1.2.
Definition policy_grants (d : Db) := (policy_view d, resource_connections d, guac_grants d).

Section Endpoint.
Context {aead : Aead} {cbc : CbcCipher} (run : list string -> ProcessResult).

(** The facts do not depend on the sessions. *)
Lemma minted_view e d d0 uid rid ip now t d' : policy_grants d = policy_grants d0 ->
  tunnel_minted run e d uid rid ip now t d' -> tunnel_minted run e d0 uid rid ip now t d'.
Proof.
  intros Hv [(r & Hr & Hen) (cid & c & b & secret & key & Hc & Hrid & Hal & H)].
  assert (policy_view d = policy_view d0) as Hp by exact (f_equal (fun v => v.1.1) Hv).
  assert (resource_connections d = resource_connections d0 /\ guac_grants d = guac_grants d0
    /\ resources d = resources d0 /\ audit_log d = audit_log d0) as (E1 & E2 & E3 & E4)
    by (split_and!; [exact (f_equal (fun v => v.1.2) Hv)|exact (f_equal snd Hv)
                    |exact (f_equal resources_of Hp)|exact (f_equal snd Hp)]).
  rewrite (access_of_view _ _ _ _ _ _ _ Hp) in Hal. rewrite E2, E4 in H. rewrite E1 in Hc. rewrite E3 in Hr.
  constructor; [by exists r|]. by exists cid, c, b, secret, key.
Qed.

Lemma guac_token_Ok rid rq e s resp s' : guac_token run rid rq e s = (Ok resp, s') -> rs_status resp = 200 ->
  exists ip gid gw idp t, client_ip_of (settings e) rq = Some ip
  /\ gateway_live (settings e) (db s) (cookie rq (gateway_cookie_name (settings e))) ip (clock e (tick s)) true gid gw idp
  /\ token_of resp = Some t
  /\ tunnel_minted run e (db s) (gs_user_id gw) rid ip (clock e (tick s)) t (db s').
Proof.
  unfold guac_token. intros Hr Hok. mread Hr. mstep Hr ip s1 H1. rewrite resolve_client_ip_run in H1.
  destruct (client_ip_of _ rq) as [ip'|] eqn:Eip; [|done]. injection H1 as -> <-.
  mstep Hr o s2 Hgw.
  pose proof (same_steps_eq policy_grants _ _ _ _ _ (same_resolve_gateway policy_grants _ _ _ _ ltac:(split; done)) Hgw) as Hv.
  destruct o as [[gid gw]|]; [|minv Hr; done].
  apply resolve_gateway_Some in Hgw as [idp Hlive]. simpl in Hlive, Hv.
  mstep Hr backend s3 Hb. unfold secrets_backend in Hb. mread Hb. unfold lift in Hb.
  apply pair_equal_spec in Hb as [Hb <-].
  mstep Hr res s4 Hi. destruct (br_allowed res) eqn:Ea; cbn [negb] in Hr.
  2: { minv Hr. simpl in Hok. by case_bool_decide. }
  destruct (issue_Ok run _ _ _ _ _ _ _ _ _ Hi Ea Hb) as (t & x & Et & Ex & Hm).
  rewrite Et, Ex in Hr. minv Hr. exists ip, gid, gw, idp, t. split_and!; try done.
  by eapply minted_view.
Qed.
End Endpoint.

(** ** Theorems *)

(** A tunnel token is given only to the holder of a live gateway session whom the
    policies allow the connection's port on an enabled resource; the sealed settings end
    at the host and port of the stored connection, whatever the parameters say; and one
    grant bound to the user and the address, and one line of audit, are written. *)
Theorem tunnel_token_sound `{!Aead} `{!CbcCipher} run rid rq e s resp s'
    (Hrun : guac_token run rid rq e s = (Ok resp, s')) (Hok : rs_status resp = 200) :
  exists ip gid gw idp t, client_ip_of (settings e) rq = Some ip
  /\ gateway_live (settings e) (db s) (cookie rq (gateway_cookie_name (settings e))) ip (clock e (tick s)) true gid gw idp
  /\ token_of resp = Some t
  /\ tunnel_minted run e (db s) (gs_user_id gw) rid ip (clock e (tick s)) t (db s').
Proof. exact (guac_token_Ok run rid rq e s resp s' Hrun Hok). Qed.

(** The gateway session a cookie names. *)
Definition cookie_session (d : Db) (cookie : option string) : option GatewaySession :=
  split_cookie cookie ≫= fun c => gateway_sessions d !! c.1.

(** A connect of the tunnel's socket: after the minting (the grant is still there), from the
    same address, with a live gateway session of the same user, before the expiry. *)
Record connects (e : Env) (s : St) (rq : Request) (t : string) (s1 : St) (body : ConsumeRequest) (rq2 : Request)
    (e2 : Env) (s2 : St) : Prop := {
  cn_token : cq_token body = t;
  cn_kept : guac_grants (db s2) !! sha256_hex t = guac_grants (db s1) !! sha256_hex t;
  cn_time : clock e2 (tick s2) < clock e (tick s) + seconds (guac_grant_ttl (settings e));
  cn_live : exists ip gw0 gid gw idp, client_ip_of (settings e) rq = Some ip
    /\ cookie_session (db s) (cookie rq (gateway_cookie_name (settings e))) = Some gw0
    /\ consume_ip_of (settings e2) body rq2 = Some ip
    /\ gateway_live (settings e2) (db s2) (consume_cookie (settings e2) body rq2) ip (clock e2 (tick s2)) true gid gw idp
    /\ gs_user_id gw = gs_user_id gw0;
}.

(** C18: A tunnel token opens the tunnel, once: while a gateway session of the user lives and
    the grant has not expired, the consumption from the address it was minted for is
    admitted, and from then on it is refused. *)
Theorem tunnel_token_opens `{!Aead} `{!CbcCipher} run rid rq e s resp s1 t body rq2 e2 s2
    (Hmint : guac_token run rid rq e s = (Ok resp, s1)) (Hok : rs_status resp = 200) (Ht : token_of resp = Some t)
    (Hc : connects e s rq t s1 body rq2 e2 s2) :
  exists s3, guac_consume body rq2 e2 s2 = (Ok admitted, s3)
  /\ forall body' rq' e' r s4, cq_token body' = t -> guac_consume body' rq' e' s3 = (Ok r, s4) -> r <> admitted.
Proof.
  destruct (guac_token_Ok run rid rq e s resp s1 Hmint Hok) as (ip' & gid' & gw' & idp' & t' & Hip' & Hl' & Ht' & Hm).
  destruct Hc as [Hbt Hkept Htime (ip & gw0 & gid & gw & idp & Hip & Hgw0 & Hip2 & Hlive & Huser)].
  rewrite Hip in Hip'. injection Hip' as <-. rewrite Ht in Ht'. injection Ht' as <-.
  assert (gw0 = gw') as ->.
  { destruct Hl' as [(sec & Hc & _) Hrow _ _ _ _]. unfold cookie_session in Hgw0. rewrite Hc in Hgw0. simpl in Hgw0. congruence. }
  destruct Hm as [_ (cid & c & b & secret & key & _ & _ & _ & _ & _ & _ & _ & _ & _ & _ & Hg & _)].
  assert (guac_grants (db s2) !! sha256_hex t = Some (mkGuacGrant (gs_user_id gw') rid cid ip (tx_now e)
    (clock e (tick s) + seconds (guac_grant_ttl (settings e))) None)) as Hrow.
  { by rewrite Hkept, Hg, lookup_insert_eq. }
  destruct (consume_at_runs (G := GuacGrant) true body rq2 e2 s2 ip gid gw idp Hip2 Hlive) as (r & s3 & Hrun).
  pose proof Hrun as Hrun2. apply consume_at_Ok in Hrun2 as (Ha & Htbl & _); [|done..].
  assert (r = admitted) as ->.
  { apply Ha. exists ip, gid, gw, idp. eexists. split; [done|]. split; [done|]. rewrite Hbt. split; [exact Hrow|].
    split; [done|]. split; [done|]. split; [done|]. by intros u [= <-]. }
  exists s3. split; [by rewrite guac_consume_at|]. intros body' rq' e' r s4 Ht'' Hrun'. rewrite guac_consume_at in Hrun'.
  apply consume_at_Ok in Hrun' as (Ha' & _); [|done..]. rewrite Ha'.
  intros (ip' & gid2 & gw2 & idp2 & g & _ & _ & Hg' & Hn & _).
  rewrite (Htbl eq_refl), Hbt, Ht'' in Hg'. simpl in Hg'. rewrite lookup_alter_eq, Hrow in Hg'. by injection Hg' as <-.
Qed.

(** ** Witnesses *)

Definition demo_rdp : ResourceConnection :=
  mkResourceConnection 6 "rdp" "10.0.0.6" 8080 [("hostname", JStr "evil.example")] None None [] 0 0.
Definition demo_rdp_world : Db := upd_resource_connections (fun _ => {[ 9 := demo_rdp ]}) demo_world.
Definition demo_mint := guac_token (aead := clear_aead) (cbc := clear_cbc) demo_unseal 6 demo_gw_request demo_env (mkSt demo_rdp_world 0).

Definition minted_response (r : result Response * St) : Response :=
  match r.1 with Ok resp => resp | Raise _ => plain 500 "" end.
Definition minted_token : string := default "" (token_of (minted_response demo_mint)).

Lemma demo_mint_runs : demo_mint = (Ok (minted_response demo_mint), demo_mint.2)
  /\ rs_status (minted_response demo_mint) = 200 /\ token_of (minted_response demo_mint) = Some minted_token.
Proof. vm_compute. done. Qed.

Example tunnel_token_sound_witness : exists t s',
  demo_mint = (Ok (minted_response demo_mint), s')
  /\ tunnel_minted (H := clear_aead) (H0 := clear_cbc) demo_unseal demo_env demo_rdp_world 11 6 "192.0.2.7" T0 t (db s').
Proof.
  destruct demo_mint_runs as (E & Hok & Ht).
  destruct (@tunnel_token_sound clear_aead clear_cbc demo_unseal 6 demo_gw_request demo_env (mkSt demo_rdp_world 0) _ _ E Hok)
    as (ip & gid & gw & idp & t & Hip & Hl & _ & Hm).
  exists t, demo_mint.2. split; [exact E|].
  assert (ip = "192.0.2.7") as -> by (revert Hip; vm_compute; congruence).
  assert (gw = demo_gw) as ->.
  { destruct Hl as [(sec & Hc & _) Hrow _ _ _ _].
    assert (gid = 21) as -> by (change (split_cookie (Some demo_gw_cookie) = Some (gid, sec)) in Hc;
      rewrite demo_gw_split in Hc; congruence).
    change (Some demo_gw = Some gw) in Hrow. congruence. }
  exact Hm.
Defined.

Definition demo_connect : ConsumeRequest := mkConsumeRequest minted_token (Some "192.0.2.7") (Some demo_gw_cookie).
Definition demo_connects : Prop :=
  connects demo_env (mkSt demo_rdp_world 0) demo_gw_request minted_token demo_mint.2 demo_connect bare_request demo_env demo_mint.2.

Lemma minted_world : sessions (db demo_mint.2) = sessions demo_rdp_world
  /\ gateway_sessions (db demo_mint.2) = gateway_sessions demo_rdp_world.
Proof. vm_compute. done. Qed.

Lemma demo_connects_holds : demo_connects.
Proof.
  constructor; [reflexivity|reflexivity|vm_compute; reflexivity|].
  exists "192.0.2.7", demo_gw, 21, demo_gw, (demo_session "s3cret").
  split; [reflexivity|]. split.
  { change (cookie demo_gw_request _) with (Some demo_gw_cookie). unfold cookie_session. rewrite demo_gw_split. reflexivity. }
  split; [reflexivity|]. split; [|reflexivity].
  destruct (demo_gw_live true) as [H1 H2 H3 H4 H5 H6]. destruct minted_world as [E1 E2].
  constructor; [exact H1|rewrite E2; exact H2|exact H3|exact H4|rewrite E1; exact H5|exact H6].
Qed.

Example tunnel_token_opens_witness :
  demo_connects /\ exists s3, guac_consume demo_connect bare_request demo_env demo_mint.2 = (Ok admitted, s3).
Proof.
  destruct demo_mint_runs as (E & Hok & Ht). split; [exact demo_connects_holds|].
  destruct (@tunnel_token_opens clear_aead clear_cbc demo_unseal 6 demo_gw_request demo_env (mkSt demo_rdp_world 0)
    _ _ minted_token demo_connect bare_request demo_env demo_mint.2 E Hok Ht demo_connects_holds) as (s3 & H & _).
  exists s3. exact H.
Defined.
