(* ===== verification/UiLogs.v ===== *)
(** * UiLogs: admin/routes/ui_logs.py, the token bucket of the browser logs

    An endpoint without authentication: what bounds it is a count of the entries admitted
    in the current minute, in all and per client address, kept in memory. *)

From S2P Require Import Prelude PyStr PyTime Config Db Effects Web.
Local Open Scope Z_scope.

Definition MAX_ENTRIES : nat := 20.
Definition PER_IP_PER_MIN : Z := 10.
Definition GLOBAL_PER_MIN : Z := 60.

Record UiLogEntry := mkUiLogEntry {
  ue_level : string;
  ue_msg : string;
  ue_stack : option string;
  ue_url : option string;
  ue_ts : option string;
}.

Definition short (n : Z) (o : option string) : bool :=
  match o with Some s => char_len s <=? n | None => true end.
Definition entry_ok (e : UiLogEntry) : bool :=
  bool_decide (ue_level e ∈ ["info"; "warn"; "error"]) && short 2000 (Some (ue_msg e)) && short 8000 (ue_stack e)
  && short 500 (ue_url e) && short 64 (ue_ts e).
(** [UiLogBatch]: one to twenty entries. *)
Definition batch_ok (entries : list UiLogEntry) : bool :=
  bool_decide (entries <> []) && bool_decide (List.length entries <= MAX_ENTRIES)%nat && forallb entry_ok entries.

Record Bucket := mkBucket {
  window_start : Z;
  global_count : Z;
  per_ip : gmap string Z;
}.
Definition new_bucket : Bucket := mkBucket 0 0 ∅.

(** [int(now // 60)], the time in microseconds. *)
Definition window_of (now : Z) : Z := now / minutes 1.
Definition ip_count (b : Bucket) (ip : string) : Z := default 0 (per_ip b !! ip).

Definition allow (b : Bucket) (ip : string) (now : Z) : bool * Bucket :=
  let window := window_of now in
  let b := if negb (window =? window_start b) then mkBucket window 0 ∅ else b in
  if (GLOBAL_PER_MIN <=? global_count b) || (PER_IP_PER_MIN <=? ip_count b ip) then (false, b)
  else (true, mkBucket (window_start b) (global_count b + 1) (<[ip := ip_count b ip + 1]> (per_ip b))).

(** A line of [ui.log]. *)
Record UiLogLine := mkUiLogLine {
  ul_level : string;
  ul_msg : string;
  ul_src : string;
  ul_stack : option string;
  ul_url : option string;
  ul_client_ts : option string;
}.
Definition line_of (ip : string) (e : UiLogEntry) : UiLogLine :=
  mkUiLogLine (ue_level e) (ue_msg e) ip (ue_stack e) (ue_url e) (ue_ts e).

(** The answer beside the bucket and the lines written: the bucket is process memory, which
    the refusal does not roll back. *)
Definition ingest_ui_logs (b : Bucket) (batch : list UiLogEntry) (request : Request) (now : Z)
  : M (result (list UiLogLine) * Bucket) :=
  let! client_ip := resolve_client_ip request in
  let '(ok, b') := allow b client_ip now in
  if ok then ret (Ok (map (line_of client_ip) batch), b')
  else ret (Raise (HTTPException 429 "rate limited" []), b').

(** ** Specification *)

(** Two times, in microseconds, of one minute of the clock. *)
Definition minute_start (now : Z) : Z := now - now mod 60000000.
Definition same_minute (t now : Z) : bool := (minute_start now <=? t) && (t <? minute_start now + 60000000).

(** A history of admissions, addresses and times, and the rule stated over it: fewer than
    sixty admissions in the minute of a call, and fewer than ten of its address. *)
Definition count (p : string * Z -> bool) (h : list (string * Z)) : Z := Z.of_nat (List.length (List.filter p h)).
Definition may_log (h : list (string * Z)) (ip : string) (now : Z) : bool :=
  (count (fun x => same_minute x.2 now) h <? 60)
  && (count (fun x => bool_decide (x.1 = ip) && same_minute x.2 now) h <? 10).

(** The decisions on a sequence of calls, by the bucket and by the rule. *)
Fixpoint decisions (b : Bucket) (calls : list (string * Z)) : list bool :=
  match calls with
  | [] => []
  | (ip, now) :: rest => let '(ok, b') := allow b ip now in ok :: decisions b' rest
  end.
Fixpoint rule (h : list (string * Z)) (calls : list (string * Z)) : list bool :=
  match calls with
  | [] => []
  | (ip, now) :: rest =>
      let ok := may_log h ip now in
      ok :: rule (if ok then (ip, now) :: h else h) rest
  end.

(** A clock that does not go back to an earlier minute. *)
Fixpoint forward (from : Z) (calls : list (string * Z)) : Prop :=
  match calls with [] => True | (_, now) :: rest => minute_start from <= now /\ forward now rest end.

(** ** Lemmas *)

Lemma window_of_eq t : window_of t = t / 60000000.
Proof. reflexivity. Qed.

(** The window of the bucket is the minute. *)
Lemma same_minute_window t now : same_minute t now = (window_of t =? window_of now).
Proof.
  unfold same_minute, minute_start. rewrite !window_of_eq.
  pose proof (Z.div_mod now 60000000 ltac:(lia)) as Hn. pose proof (Z.mod_pos_bound now 60000000 ltac:(lia)) as Hb.
  pose proof (Z.div_mod t 60000000 ltac:(lia)) as Ht. pose proof (Z.mod_pos_bound t 60000000 ltac:(lia)) as Hb'.
  apply Bool.eq_iff_eq_true. rewrite andb_true_iff, Z.leb_le, Z.ltb_lt, Z.eqb_eq. lia.
Qed.

Lemma minute_start_window from now : minute_start from <= now -> window_of from <= window_of now.
Proof.
  unfold minute_start. rewrite !window_of_eq. intros H.
  pose proof (Z.div_mod now 60000000 ltac:(lia)) as Hn. pose proof (Z.mod_pos_bound now 60000000 ltac:(lia)) as Hb.
  pose proof (Z.div_mod from 60000000 ltac:(lia)) as Ht. pose proof (Z.mod_pos_bound from 60000000 ltac:(lia)) as Hb'. lia.
Qed.

Definition in_window (w : Z) (x : string * Z) : bool := window_of x.2 =? w.
Definition from_ip (ip : string) (w : Z) (x : string * Z) : bool := bool_decide (x.1 = ip) && (window_of x.2 =? w).

(** The bucket counts the history's current minute, which no entry is past. *)
Record tracks (b : Bucket) (h : list (string * Z)) : Prop := {
  tr_past : forall x, x ∈ h -> window_of x.2 <= window_start b;
  tr_global : global_count b = count (in_window (window_start b)) h;
  tr_ip : forall ip, ip_count b ip = count (from_ip ip (window_start b)) h;
  tr_size : Z.of_nat (size (per_ip b)) <= global_count b;
}.

Lemma count_cons p x h : count p (x :: h) = (if p x then 1 else 0) + count p h.
Proof. unfold count. cbn. destruct (p x); simpl; lia. Qed.

Lemma count_none p h : (forall x, x ∈ h -> p x = false) -> count p h = 0.
Proof.
  intros H. induction h as [|x h IH]; [done|]. rewrite count_cons, H by left. rewrite IH; [done|].
  intros y Hy. apply H. by right.
Qed.

Lemma count_ext p q h : (forall x, p x = q x) -> count p h = count q h.
Proof. intros H. induction h as [|x h IH]; [done|]. by rewrite !count_cons, H, IH. Qed.

Lemma may_log_window h ip now : may_log h ip now
  = (count (in_window (window_of now)) h <? GLOBAL_PER_MIN) && (count (from_ip ip (window_of now)) h <? PER_IP_PER_MIN).
Proof.
  unfold may_log. f_equal; f_equal; apply count_ext; intros x; unfold in_window, from_ip; by rewrite same_minute_window.
Qed.

(** A new minute: the bucket is cleared, and the history has nothing in it. *)
Lemma tracks_roll b h w : tracks b h -> window_start b <= w ->
  tracks (if negb (w =? window_start b) then mkBucket w 0 ∅ else b) h
  /\ window_start (if negb (w =? window_start b) then mkBucket w 0 ∅ else b) = w.
Proof.
  intros [H1 H2 H3 H4] Hw. destruct (w =? window_start b) eqn:E; cbn [negb]; bool_simpl; [by split|].
  split; [|done]. assert (forall x, x ∈ h -> window_of x.2 <> w) as Hn by (intros x Hx; specialize (H1 x Hx); lia).
  constructor; cbn.
  - intros x Hx. specialize (H1 x Hx). lia.
  - symmetry. apply count_none. intros x Hx. by apply Z.eqb_neq, Hn.
  - intros ip. unfold ip_count. cbn. rewrite lookup_empty. symmetry. apply count_none. intros x Hx. unfold from_ip.
    rewrite (proj2 (Z.eqb_neq _ _)) by by apply Hn. apply andb_false_r.
  - by rewrite map_size_empty.
Qed.

Lemma size_insert_le (m : gmap string Z) k v : Z.of_nat (size (<[k := v]> m)) <= Z.of_nat (size m) + 1.
Proof. destruct (m !! k) eqn:E; [erewrite map_size_insert_Some by done|rewrite map_size_insert_None by done]; lia. Qed.

Lemma allow_tracks b h ip now : tracks b h -> window_start b <= window_of now ->
  let '(ok, b') := allow b ip now in
  ok = may_log h ip now /\ window_start b' = window_of now
  /\ tracks b' (if ok then (ip, now) :: h else h).
Proof.
  intros Ht Hw. destruct (tracks_roll b h (window_of now) Ht Hw) as [Ht' Hs]. unfold allow. cbv zeta.
  set (b1 := if negb _ then _ else _) in *. destruct Ht' as [H1 H2 H3 H4].
  assert ((GLOBAL_PER_MIN <=? global_count b1) || (PER_IP_PER_MIN <=? ip_count b1 ip)
          = negb (may_log h ip now)) as ->.
  { rewrite may_log_window, H2, H3, Hs, negb_andb. by rewrite <- !Z.leb_antisym. }
  destruct (may_log _ _ _) eqn:E; cbn [negb].
  - split; [done|]. split; [done|]. constructor; cbn.
    + intros x Hx. apply elem_of_cons in Hx as [->|Hx]; [simpl; lia|by apply H1].
    + rewrite count_cons, H2, Hs. unfold in_window at 2. cbn. rewrite Z.eqb_refl. lia.
    + intros ip'. rewrite count_cons. unfold from_ip at 1. cbn. rewrite Hs, Z.eqb_refl, andb_true_r.
      unfold ip_count. cbn. destruct (decide (ip = ip')) as [<-|Hne].
      * rewrite lookup_insert_eq, bool_decide_eq_true_2 by done. cbn. fold (ip_count b1 ip). rewrite H3, Hs. lia.
      * rewrite lookup_insert_ne, bool_decide_eq_false_2 by done. fold (ip_count b1 ip'). by rewrite H3, Hs.
    + pose proof (size_insert_le (per_ip b1) ip (ip_count b1 ip + 1)). lia.
  - by split.
Qed.

Lemma decisions_rule calls : forall b h from, tracks b h -> window_start b = window_of from ->
  forward from calls -> decisions b calls = rule h calls.
Proof.
  induction calls as [|[ip now] calls IH]; intros b h from Ht Hb Hf; [done|].
  destruct Hf as [Hw%minute_start_window Hf]. cbn [decisions rule].
  pose proof (allow_tracks b h ip now Ht ltac:(lia)) as H. destruct (allow b ip now) as [ok b'].
  destruct H as (-> & Hs & Ht'). f_equal. by apply (IH _ _ now).
Qed.

Lemma tracks_new h : h = [] -> tracks new_bucket h.
Proof.
  intros ->. constructor; [by intros x Hx; apply elem_of_nil in Hx|done| |cbn; by rewrite map_size_empty].
  intros ip. unfold ip_count. cbn. by rewrite lookup_empty.
Qed.

(** The memory the bucket keeps is bounded by the calls of a minute, whatever the clock. *)
Definition small (b : Bucket) : Prop :=
  Z.of_nat (size (per_ip b)) <= global_count b <= GLOBAL_PER_MIN
  /\ forall ip, ip_count b ip <= PER_IP_PER_MIN.

Lemma small_empty w : small (mkBucket w 0 ∅).
Proof. split; [cbn [per_ip global_count]; rewrite map_size_empty; unfold GLOBAL_PER_MIN; lia|]. intros ip. unfold ip_count. cbn.
  rewrite lookup_empty. cbn. unfold PER_IP_PER_MIN. lia. Qed.

Lemma small_allow b ip now : small b -> small (allow b ip now).2.
Proof.
  intros Hb. unfold allow. cbv zeta. set (b1 := if negb _ then _ else _).
  assert (small b1) as [[H1 H2] H3] by (unfold b1; case_match; [apply small_empty|done]). clearbody b1.
  destruct (_ || _) eqn:E; cbn [snd]; [by split|]. apply orb_false_iff in E as [E1 E2]. bool_simpl. split; cbn.
  - pose proof (size_insert_le (per_ip b1) ip (ip_count b1 ip + 1)). lia.
  - intros ip'. unfold ip_count at 1. cbn. destruct (decide (ip = ip')) as [<-|Hne].
    + rewrite lookup_insert_eq. cbn. lia.
    + rewrite lookup_insert_ne by done. apply (H3 ip').
Qed.

(** ** Theorems *)

(** C38: The bucket is the rule: over any sequence of calls whose clock does not return to an
    earlier minute, a call is admitted exactly when fewer than sixty calls, and fewer
    than ten of its address, were admitted before it in its minute, the sixty seconds of the
    clock it falls in. *)
Theorem bucket_is_rule calls (H : forward 0 calls) : decisions new_bucket calls = rule [] calls.
Proof. by apply (decisions_rule _ _ _ 0); [apply tracks_new| |]. Qed.

(** The endpoint is bounded: after any calls at any times, the bucket's counts and the
    number of addresses it remembers are at most those of one full minute, and a batch
    that is accepted writes at most twenty lines. *)
Theorem bucket_bounded calls b0 ip now batch (Hb : b0 = foldl (fun b c => (allow b c.1 c.2).2) new_bucket calls)
    (Hbatch : batch_ok batch = true) :
  small (allow b0 ip now).2 /\ (List.length (map (line_of ip) batch) <= 20)%nat.
Proof.
  split.
  - apply small_allow. subst b0. assert (small new_bucket) as H by apply small_empty. revert H. generalize new_bucket.
    induction calls as [|c calls IH]; intros b H; [done|]. apply IH, small_allow, H.
  - rewrite length_map. unfold batch_ok in Hbatch. bool_simpl. done.
Qed.

(** ** Witnesses *)

Definition demo_calls : list (string * Z) :=
  replicate 12 ("192.0.2.7", seconds 65) ++ [("192.0.2.8", seconds 70); ("192.0.2.7", seconds 121)].

Example bucket_is_rule_witness : forward 0 demo_calls /\ decisions new_bucket demo_calls = rule [] demo_calls
  /\ rule [] demo_calls = replicate 10 true ++ [false; false; true; true].
Proof.
  assert (forward 0 demo_calls) as H by (vm_compute; repeat (split; [discriminate|]); exact I).
  split; [exact H|]. split; [exact (bucket_is_rule demo_calls H)|vm_compute; reflexivity].
Defined.

Example bucket_bounded_witness :
  small (allow (foldl (fun b c => (allow b c.1 c.2).2) new_bucket demo_calls) "192.0.2.9" 0).2.
Proof.
  exact (proj1 (bucket_bounded demo_calls _ "192.0.2.9" 0 [mkUiLogEntry "info" "x" None None None] eq_refl eq_refl)).
Defined.
