(* ===== verification/Shipping.v ===== *)
(** * Shipping: audit/shipping.py, the export of the audit tables

    One batch of each table past its cursor is handed to a sink outside the process; the
    cursor moves in the transaction, the sink's output stays whatever becomes of it.  The
    rows of a table are in the order in which they were committed; [ids] says which id each
    was given, and two rows only have different ones: ids are drawn before the commit, so
    that a row can commit after one with a greater id. *)

From S2P Require Import Prelude PyStr Encoding Json JsonText PyTime IsoTime Config Db Effects Events Viewers.
Local Open Scope Z_scope.

Definition HIGH_SEVERITY : list string :=
  map event_value [LOGIN_BREAK_GLASS_USED; OIDC_CODE_REPLAY_DETECTED; OIDC_REFRESH_REUSE_DETECTED;
                   SESSION_STALE_IP; STEPUP_FAILURE; ADMIN_TOTP_RESET].
Definition is_high_severity (event_type : string) : bool := bool_decide (event_type ∈ HIGH_SEVERITY).

(** ** Records *)

Definition Rec : Type := list (string * json).
Definition id_text (o : option Z) : json := match o with Some u => JStr (uuid_str u) | None => JNull end.
Definition text_or_null (o : option string) : json := match o with Some t => JStr t | None => JNull end.
Definition severity (high : bool) : json := JStr (if high then "high" else "informational").

Definition fmt_auth_event (id : Z) (row : AuthEvent) : Rec :=
  [("stream", JStr "auth_events"); ("id", JInt id); ("ts", JStr (isoformat (ae_ts row)));
   ("signature", JStr (ae_event_type row)); ("user", id_text (ae_user_id row));
   ("session_id", id_text (ae_session_id row)); ("app", text_or_null (ae_client_id row));
   ("src", JStr (ae_source_ip row)); ("action", JStr (if ae_success row then "success" else "failure"));
   ("detail", JObj (ae_detail row)); ("severity", severity (is_high_severity (ae_event_type row)))].

Definition fmt_audit_log (id : Z) (row : AuditLog) : Rec :=
  [("stream", JStr "audit_log"); ("id", JInt id); ("ts", JStr (isoformat (al_ts row)));
   ("user", id_text (al_user_id row)); ("resource_id", id_text (al_resource_id row));
   ("dest_port", match al_port row with Some p => JInt p | None => JNull end);
   ("action", JStr (if bool_decide (al_decision row = "allow") then "allowed" else "blocked"));
   ("reason", JStr (al_reason row)); ("src", JStr (al_source_ip row));
   ("severity", severity (bool_decide (al_decision row = "deny")))].

Definition fmt_policy_change (id : Z) (row : PolicyChange) : Rec :=
  [("stream", JStr "policy_changes"); ("id", JInt id); ("ts", JStr (isoformat (pc_ts row)));
   ("user", JStr (uuid_str (pc_actor_id row))); ("object_category", JStr (pc_entity_type row));
   ("object_id", id_text (pc_entity_id row)); ("action", JStr (pc_action row));
   ("change", JObj (pc_change_json row)); ("severity", severity false)].

(** ** Sinks *)

Definition Out : Type := list string.

(** [LogSink]: a batch is taken, or the sink raises; what it has written stays. *)
Class LogSink := { sink_emit : Out -> list Rec -> result unit * Out }.

(** The line of a record. *)
Definition line (r : Rec) : string := dumps_compact (JObj r) +:+ String (chr 10) "".

(** What [ship] relies on: a batch taken was written whole, a batch refused in part. *)
Class SinkLaws `{LogSink} (line_of : Rec -> string) := {
  sink_takes : forall out rs out', sink_emit out rs = (Ok tt, out') -> out' = (out ++ map line_of rs)%list;
  sink_refuses : forall out rs x out', sink_emit out rs = (Raise x, out') -> exists k, out' = (out ++ take k (map line_of rs))%list;
}.

(** [JsonLinesSink] over a stream whose [write] takes a line or raises, as its [flush] may. *)
Fixpoint write_lines (write : Out -> string -> option exn) (out : Out) (ls : list string) : result unit * Out :=
  match ls with
  | [] => (Ok tt, out)
  | l :: rest => match write out l with
                 | Some x => (Raise x, out)
                 | None => write_lines write (out ++ [l])%list rest
                 end
  end.
Definition JsonLinesSink (write : Out -> string -> option exn) (flush : Out -> option exn) : LogSink :=
  {| sink_emit out rs :=
       match write_lines write out (map line rs) with
       | (Ok tt, out') => match flush out' with Some x => (Raise x, out') | None => (Ok tt, out') end
       | refused => refused
       end |}.

(** [RotatingFileSink]: the handler of the logging module reports an error of its own to
    stderr and returns, so a line it cannot write is passed over. *)
Definition file_line (r : Rec) : string := dumps_compact (JObj (assoc_set "service" (JStr "audit") r)) +:+ String (chr 10) "".
Fixpoint handle_lines (write : Out -> string -> option exn) (out : Out) (ls : list string) : Out :=
  match ls with
  | [] => out
  | l :: rest => handle_lines write (match write out l with Some _ => out | None => (out ++ [l])%list end) rest
  end.
Definition RotatingFileSink (write : Out -> string -> option exn) : LogSink :=
  {| sink_emit out rs := (Ok tt, handle_lines write out (map file_line rs)) |}.

(** ** The export *)

(** A coroutine that also writes to a sink. *)
Definition SM (A : Type) : Type := Env -> St * Out -> result A * (St * Out).
Definition sret {A} (a : A) : SM A := fun _ s => (Ok a, s).
Definition sbind {A B} (m : SM A) (f : A -> SM B) : SM B := fun e s =>
  match m e s with (Ok a, s') => f a e s' | (Raise x, s') => (Raise x, s') end.
Definition on_db {A} (m : M A) : SM A := fun e s => let '(r, s') := m e s.1 in (r, (s', s.2)).
Definition to_sink `{LogSink} (rs : list Rec) : SM unit := fun _ s =>
  let '(r, out) := sink_emit s.2 rs in (r, (s.1, out)).

Record ShipResult := mkShipResult { shipped : list (string * Z); high_severity : Z }.
Definition total (r : ShipResult) : Z := foldr Z.add 0 (map snd (shipped r)).

Definition cursor (stream : string) : M Z :=
  let! t := gets log_ship_cursors in ret (default 0 (t !! stream)).
Definition advance (stream : string) (last_id : Z) : M unit :=
  moddb (upd_log_ship_cursors <[stream := last_id]>).

Section Ship.
Context {sink : LogSink} (ids : string -> nat -> Z).

(** The three streams: a name, and the rows of its table as records under their ids. *)
Definition records {A} (name : string) (fmt : Z -> A -> Rec) (rows : list A) : list (Z * Rec) :=
  map (fun kv => (kv.1, fmt kv.1 kv.2)) (numbered (ids name) rows).
Definition STREAMS : list (string * (Db -> list (Z * Rec))) :=
  [("auth_events", fun d => records "auth_events" fmt_auth_event (auth_events d));
   ("audit_log", fun d => records "audit_log" fmt_audit_log (audit_log d));
   ("policy_changes", fun d => records "policy_changes" fmt_policy_change (policy_changes d))].

Definition is_high (r : Rec) : bool :=
  match assoc "severity" r with Some j => is_str "high" j | None => false end.

(** The batch past a cursor: [where(id > cursor).order_by(id).limit(batch_size)]. *)
Definition batch_past (cur : Z) (batch_size : nat) (rows : list (Z * Rec)) : list (Z * Rec) :=
  take batch_size (order_by fst (List.filter (fun kv => cur <? kv.1) rows)).

(** One pass of the loop: how many records were sent, and how many of them are high. *)
Definition ship_stream (batch_size : nat) (stream : string * (Db -> list (Z * Rec))) : SM (Z * Z) :=
  sbind (on_db (cursor stream.1)) (fun cur =>
  sbind (on_db (gets stream.2)) (fun rows =>
  let batch := batch_past cur batch_size rows in
  match last batch with
  | None => sret (0, 0)
  | Some (last_id, _) =>
      let rs := map snd batch in
      sbind (to_sink rs) (fun _ =>
      sbind (on_db (advance stream.1 last_id)) (fun _ =>
      sret (Z.of_nat (List.length rs), Z.of_nat (List.length (List.filter is_high rs)))))
  end)).

Fixpoint ship_loop (batch_size : nat) (streams : list (string * (Db -> list (Z * Rec)))) (acc : ShipResult)
  : SM ShipResult :=
  match streams with
  | [] => sret acc
  | s :: rest =>
      sbind (ship_stream batch_size s) (fun n =>
      ship_loop batch_size rest (mkShipResult (shipped acc ++ [(s.1, n.1)])%list (high_severity acc + n.2)))
  end.

Definition ship (batch_size : nat) : SM ShipResult := ship_loop batch_size STREAMS (mkShipResult [] 0).

(** The command: in a transaction of its own, which a sink that raises takes back. *)
Definition ship_logs (batch_size : nat) : SM ShipResult := fun e s =>
  match ship batch_size e s with
  | (Ok r, s') => (Ok r, s')
  | (Raise x, (s1, out)) => (Raise x, (mkSt (db s.1) (tick s1), out))
  end.
End Ship.

(** ** Specification *)

Section Spec.
Context {sink : LogSink} (line_of : Rec -> string) `{!SinkLaws line_of} (ids : string -> nat -> Z).

Definition cursor_of (d : Db) (stream : string) : Z := default 0 (log_ship_cursors d !! stream).
(** What a stream has still to send, in the order of the ids. *)
Definition pending (d : Db) (s : string * (Db -> list (Z * Rec))) : list (Z * Rec) :=
  order_by fst (List.filter (fun kv => cursor_of d s.1 <? kv.1) (s.2 d)).

(** The rows the export is to send under the name of a stream: all those of the three
    tables, each under its id. *)
Definition exported (d : Db) (stream : string) : list (Z * Rec) :=
  if bool_decide (stream = "auth_events")
  then imap (fun i row => (ids stream i, fmt_auth_event (ids stream i) row)) (auth_events d)
  else if bool_decide (stream = "audit_log")
  then imap (fun i row => (ids stream i, fmt_audit_log (ids stream i) row)) (audit_log d)
  else if bool_decide (stream = "policy_changes")
  then imap (fun i row => (ids stream i, fmt_policy_change (ids stream i) row)) (policy_changes d)
  else [].

(** The number of a stream's rows between its cursor and an id. *)
Definition before_it (d : Db) (stream : string) (id : Z) : nat :=
  List.length (List.filter (fun kv => (cursor_of d stream <? kv.1) && (kv.1 <? id)) (exported d stream)).

(** The tables only grow, and the cursors are the export's own. *)
Record appended (d d' : Db) : Prop := {
  ap_auth : exists l, auth_events d' = (auth_events d ++ l)%list;
  ap_audit : exists l, audit_log d' = (audit_log d ++ l)%list;
  ap_changes : exists l, policy_changes d' = (policy_changes d ++ l)%list;
  ap_cursors : log_ship_cursors d' = log_ship_cursors d;
}.

(** The streams and ids of the rows that [d'] has and [d] has not, when the cursor of their
    stream is past them already: they are committed too late for the export. *)
Definition come_late (d d' : Db) : list (string * Z) :=
  concat (map (fun str => map (fun kv => (str.1, kv.1))
    (List.filter (fun kv => kv.1 <=? cursor_of d str.1) (drop (List.length (str.2 d)) (str.2 d')))) (STREAMS ids)).

(** The database, what has been written out, and the rows that were committed too late. *)
Record Export := mkExport { ex_run : St * Out; ex_late : list (string * Z) }.

(** The rest of the program, and runs of the export with any outcome, whose transaction may
    fail to commit after all. *)
Inductive ship_step : Export -> Export -> Prop :=
| step_append s s' out late : appended (db s) (db s') ->
    ship_step (mkExport (s, out) late) (mkExport (s', out) (late ++ come_late (db s) (db s')))
| step_ship batch e s r s' late : ship_logs ids batch e s = (r, s') -> ship_step (mkExport s late) (mkExport s' late)
| step_uncommitted batch e s r s' late : ship_logs ids batch e s = (r, s') ->
    ship_step (mkExport s late) (mkExport (mkSt (db s.1) (tick s'.1), s'.2) late).
End Spec.

(** ** Lemmas *)

Lemma is_ship_name ids str : str ∈ STREAMS ids -> str.1 ∈ ["auth_events"; "audit_log"; "policy_changes"].
Proof. unfold STREAMS. rewrite !elem_of_cons, elem_of_nil. intros [->|[->|[->|[]]]]; cbn; set_solver. Qed.

Lemma records_imap {A} ids name (fmt : Z -> A -> Rec) rows :
  records ids name fmt rows = imap (fun i row => (ids name i, fmt (ids name i) row)) rows.
Proof. unfold records, numbered. change (map ?f) with (fmap (M:=list) f). by rewrite fmap_imap. Qed.

(** The table of the code names the streams of the specification. *)
Lemma exported_streams ids d stream kv : kv ∈ exported ids d stream ->
  exists str, str ∈ STREAMS ids /\ str.1 = stream /\ str.2 d = exported ids d stream.
Proof.
  assert (forall str, str ∈ STREAMS ids -> str.2 d = exported ids d str.1) as Hall.
  { unfold STREAMS. intros str. rewrite !elem_of_cons, elem_of_nil.
    intros [->|[->|[->|[]]]]; cbn [fst snd]; rewrite records_imap; reflexivity. }
  intros Hin. assert (stream ∈ (STREAMS ids).*1) as Hs.
  { unfold exported in Hin. repeat case_bool_decide; [set_solver..|by apply elem_of_nil in Hin]. }
  apply list_elem_of_fmap in Hs as (str & -> & Hs). exists str. split; [done|]. split; [done|]. by apply Hall.
Qed.

Section Batch.
Context {A : Type}.
Implicit Types rows : list (Z * A).

Lemma filter_above rows1 x rows2 : ascending (rows1 ++ x :: rows2) ->
  List.filter (fun kv => x.1 <? kv.1) (rows1 ++ x :: rows2) = rows2.
Proof.
  unfold ascending. induction rows1 as [|y rows1 IH]; simpl; intros Hs; apply StronglySorted_inv in Hs as [Hs Hf].
  - rewrite Z.ltb_irrefl. rewrite Forall_forall in Hf. clear Hs. induction rows2 as [|z rows2 IH]; [done|].
    simpl. rewrite (proj2 (Z.ltb_lt _ _)) by (apply Hf; left). f_equal. apply IH. intros w Hw. apply Hf. by right.
  - rewrite Forall_forall in Hf. specialize (Hf x ltac:(set_solver)). rewrite (proj2 (Z.ltb_ge _ _)) by lia. by apply IH.
Qed.

Lemma filter_twice (p q : Z * A -> bool) rows : (forall x, x ∈ rows -> q x = true -> p x = true) ->
  List.filter q (List.filter p rows) = List.filter q rows.
Proof.
  induction rows as [|x rows IH]; intros H; [done|]. simpl. assert (forall y, y ∈ rows -> q y = true -> p y = true) as H'.
  { intros y Hy. apply H. by right. }
  specialize (IH H'). destruct (p x) eqn:Ep; simpl.
  - by rewrite IH.
  - destruct (q x) eqn:Eq; [|done]. rewrite (H x) in Ep; [done|left|done].
Qed.

Lemma ascending_le_by rows : ascending rows -> StronglySorted (le_by fst) rows.
Proof.
  unfold ascending. induction 1 as [|x rows _ IH Hf]; constructor; [done|].
  eapply Forall_impl; [exact Hf|]. unfold le_by. cbn. lia.
Qed.

Lemma NoDup_key rows x y : NoDup rows.*1 -> x ∈ rows -> y ∈ rows -> x.1 = y.1 -> x = y.
Proof.
  induction rows as [|z rows IH]; intros Hn Hx Hy E; [by apply elem_of_nil in Hx|].
  rewrite fmap_cons in Hn. apply NoDup_cons in Hn as [Hz Hn].
  apply elem_of_cons in Hx as [->|Hx]; apply elem_of_cons in Hy as [->|Hy]; [done| | |by apply IH].
  - destruct Hz. rewrite E. by apply list_elem_of_fmap_2.
  - destruct Hz. rewrite <- E. by apply list_elem_of_fmap_2.
Qed.

#[local] Instance le_by_total {X} (f : X -> Z) : Total (le_by f).
Proof. intros x y. unfold le_by. lia. Qed.
#[local] Instance le_by_trans {X} (f : X -> Z) : Transitive (le_by f).
Proof. intros x y z. unfold le_by. lia. Qed.

Lemma order_ascending rows : NoDup rows.*1 -> ascending (order_by fst rows).
Proof.
  intros Hn. unfold order_by. pose proof (StronglySorted_merge_sort (le_by (fst (A:=Z) (B:=A))) rows) as Hs.
  assert (NoDup (merge_sort (le_by fst) rows).*1) as Hn' by by rewrite merge_sort_Permutation.
  unfold ascending. induction Hs as [|x l Hs IH Hf]; [constructor|]. rewrite fmap_cons in Hn'.
  apply NoDup_cons in Hn' as [Hx Hn']. constructor; [by apply IH|]. rewrite Forall_forall in *.
  intros y Hy. specialize (Hf y Hy). unfold le_by in Hf.
  assert (x.1 <> y.1); [|lia]. intros E. apply Hx. rewrite E. by apply list_elem_of_fmap_2.
Qed.

Lemma filter_permutation p rows rows' : rows ≡ₚ rows' -> List.filter p rows ≡ₚ List.filter p rows'.
Proof.
  induction 1; simpl; repeat case_match; try done; [by constructor|by constructor|by etrans].
Qed.

(** The order commutes with the selection. *)
Lemma order_filter p rows : NoDup rows.*1 ->
  order_by fst (List.filter p rows) = List.filter p (order_by fst rows).
Proof.
  intros Hn. assert (List.filter p rows ≡ₚ List.filter p (order_by fst rows)) as Hp.
  { apply filter_permutation. unfold order_by. by rewrite merge_sort_Permutation. }
  apply (StronglySorted_unique_strong (le_by fst)).
  - intros x y Hx Hy Hxy Hyx. unfold le_by in *.
    apply (NoDup_key rows); [done| | |lia].
    + apply order_by_In, list_elem_of_In, filter_In in Hx as [Hx _]. by apply list_elem_of_In.
    + apply list_elem_of_In, filter_In in Hy as [Hy _]. by apply list_elem_of_In, order_by_In in Hy.
  - apply (StronglySorted_merge_sort (le_by fst)).
  - by apply ascending_le_by, ascending_filter, order_ascending.
  - unfold order_by at 1. by rewrite merge_sort_Permutation.
Qed.

(** After a batch, what is left past its last id. *)
Lemma past_batch rows c n lid r : NoDup rows.*1 ->
  last (take n (order_by fst (List.filter (fun kv => c <? kv.1) rows))) = Some (lid, r) ->
  c < lid /\ order_by fst (List.filter (fun kv => lid <? kv.1) rows)
    = drop n (order_by fst (List.filter (fun kv => c <? kv.1) rows)).
Proof.
  intros Hn Hl. rewrite !order_filter in * by done. pose proof (order_ascending _ Hn) as Hs.
  revert Hl Hs. generalize (order_by fst rows) as sorted. intros sorted Hl Hs.
  set (f := List.filter (fun kv => c <? kv.1) sorted) in *.
  apply last_Some in Hl as (l & El).
  assert (ascending f) as Hf by by apply ascending_filter.
  assert ((lid, r) ∈ f) as Hin by (rewrite <- (take_drop n f), El; set_solver).
  assert (c < lid) as Hc.
  { unfold f in Hin. apply list_elem_of_In, filter_In in Hin as [_ H]. simpl in H. lia. }
  split; [done|].
  rewrite <- (filter_twice (fun kv => c <? kv.1) (fun kv => lid <? kv.1) sorted).
  2: { intros x _ Hx. apply Z.ltb_lt in Hx. apply Z.ltb_lt. lia. }
  fold f. rewrite <- (take_drop n f) at 1. rewrite El, <- app_assoc. cbn [app].
  apply (filter_above l (lid, r)). change ((lid, r) :: drop n f) with ([(lid, r)] ++ drop n f)%list.
  rewrite app_assoc, <- El, take_drop. done.
Qed.
End Batch.

Section Exports.
Context {sink : LogSink} (line_of : Rec -> string) `{!SinkLaws line_of} (ids : string -> nat -> Z).
Context (Hids : forall s i j, ids s i = ids s j -> i = j).

Definition stable (s : string * (Db -> list (Z * Rec))) : Prop :=
  (forall f d, s.2 (upd_log_ship_cursors f d) = s.2 d) /\ forall d, NoDup (s.2 d).*1.

Lemma records_ids {A} name (fmt : Z -> A -> Rec) rows :
  (records ids name fmt rows).*1 = map (ids name) (seq 0 (List.length rows)).
Proof.
  unfold records, numbered. rewrite <- list_fmap_compose. generalize (ids name). induction rows as [|a rows IH]; intros g; [done|].
  rewrite imap_cons. cbn. f_equal. specialize (IH (fun i => g (S i))). unfold compose in *. rewrite IH.
  by rewrite <- (fmap_S_seq 0), <- list_fmap_compose.
Qed.

Lemma records_distinct {A} name (fmt : Z -> A -> Rec) rows : NoDup (records ids name fmt rows).*1.
Proof. rewrite records_ids. apply NoDup_fmap_2; [intros i j; apply Hids|apply NoDup_seq]. Qed.

Lemma streams_stable : Forall stable (STREAMS ids).
Proof. repeat (constructor; [split; [done|intros d; apply records_distinct]|]). constructor. Qed.

(** The cursor after a batch. *)
Definition moved (b : nat) (d : Db) (str : string * (Db -> list (Z * Rec))) : Z :=
  match last (take b (pending d str)) with Some kv => kv.1 | None => cursor_of d str.1 end.

(** One pass of the loop, when the sink takes the batch: the output gains the batch, the
    stream's rest is what follows it, and nothing else moves. *)
Lemma ship_stream_Ok b str e s n s' : stable str -> ship_stream b str e s = (Ok n, s') ->
  (exists c, db s'.1 = upd_log_ship_cursors (fun t => c t) (db s.1)
    /\ (forall other, other <> str.1 -> c (log_ship_cursors (db s.1)) !! other = log_ship_cursors (db s.1) !! other))
  /\ s'.2 = (s.2 ++ map line_of (map snd (take b (pending (db s.1) str))))%list
  /\ pending (db s'.1) str = drop b (pending (db s.1) str)
  /\ cursor_of (db s'.1) str.1 = moved b (db s.1) str.
Proof.
  intros [Hst Has]. destruct s as [st out]. unfold ship_stream, sbind, on_db, cursor, bind, gets, ret. cbn [fst snd].
  fold (cursor_of (db st) str.1). set (batch := batch_past _ _ _).
  assert (batch = take b (pending (db st) str)) as Eb by done.
  destruct (last batch) as [[lid r]|] eqn:El.
  2: { intros [= <- <-]. cbn. apply last_None in El. rewrite Eb in El. split; [|split; [|split]].
       - exists (fun t => t). split; [by destruct st as [[] ?]|done].
       - rewrite El. cbn. by rewrite app_nil_r.
       - by rewrite <- (take_drop b (pending (db st) str)) at 1; rewrite El.
       - unfold moved. by rewrite El. }
  unfold to_sink. cbn [fst snd]. destruct (sink_emit out _) as [[[]|x] out'] eqn:Es; [|done].
  apply sink_takes in Es as ->. unfold advance, moddb, sret. intros [= <- <-]. cbn [fst snd db].
  rewrite Eb in El. destruct (past_batch _ _ _ _ _ (Has (db st)) El) as [Hc Hf].
  split; [|split; [|split]].
  - exists (<[str.1 := lid]>). split; [done|]. intros o Ho. by rewrite lookup_insert_ne.
  - by rewrite Eb.
  - unfold pending at 1. rewrite Hst. unfold cursor_of. cbn. rewrite lookup_insert_eq. exact Hf.
  - unfold cursor_of at 1, moved. cbn. by rewrite lookup_insert_eq, El.
Qed.

(** Whatever happens, the output only gains lines. *)
Lemma ship_stream_out b str e s r s' : ship_stream b str e s = (r, s') -> exists k, s'.2 = (s.2 ++ k)%list.
Proof.
  destruct s as [st out]. unfold ship_stream, sbind, on_db, cursor, bind, gets, ret. cbn [fst snd].
  destruct (last _) as [[lid rr]|]; [|intros [= _ <-]; exists []; by rewrite app_nil_r].
  unfold to_sink. cbn [fst snd]. destruct (sink_emit out _) as [[[]|x] out'] eqn:Es.
  - apply sink_takes in Es as ->. intros [= _ <-]. eauto.
  - apply sink_refuses in Es as [k ->]. intros [= _ <-]. eauto.
Qed.

Lemma ship_loop_out b streams : forall acc e s r s', ship_loop b streams acc e s = (r, s') -> exists k, s'.2 = (s.2 ++ k)%list.
Proof.
  induction streams as [|str streams IH]; intros acc e s r s'; cbn [ship_loop].
  - intros [= _ <-]. exists []. by rewrite app_nil_r.
  - unfold sbind. destruct (ship_stream b str e s) as [[n|x] s1] eqn:E1; apply ship_stream_out in E1 as [k1 E1].
    + intros H. apply IH in H as [k2 H]. exists (k1 ++ k2)%list. by rewrite H, E1, app_assoc.
    + intros [= _ <-]. eauto.
Qed.

Lemma pending_same c d str : stable str -> c (log_ship_cursors d) !! str.1 = log_ship_cursors d !! str.1 ->
  pending (upd_log_ship_cursors (fun t => c t) d) str = pending d str.
Proof. intros [Hst _] Hc. unfold pending, cursor_of. rewrite Hst. cbn. by rewrite Hc. Qed.

Definition batch_lines (b : nat) (d : Db) (str : string * (Db -> list (Z * Rec))) : list string :=
  map line_of (map snd (take b (pending d str))).

Lemma ship_loop_Ok b streams : Forall stable streams -> NoDup streams.*1 ->
  forall acc e s r s', ship_loop b streams acc e s = (Ok r, s') ->
  (exists c, db s'.1 = upd_log_ship_cursors (fun t => c t) (db s.1)
    /\ forall other, other ∉ streams.*1 -> c (log_ship_cursors (db s.1)) !! other = log_ship_cursors (db s.1) !! other)
  /\ s'.2 = (s.2 ++ concat (map (batch_lines b (db s.1)) streams))%list
  /\ forall str, str ∈ streams -> pending (db s'.1) str = drop b (pending (db s.1) str)
       /\ cursor_of (db s'.1) str.1 = moved b (db s.1) str.
Proof.
  induction 1 as [|str streams Hs Hss IH]; intros Hnd acc e s r s'; cbn [ship_loop].
  - intros [= _ <-]. split; [|split].
    + exists (fun t => t). split; [by destruct s as [[[] ?] ?]|done].
    + cbn. by rewrite app_nil_r.
    + intros str Hin. by apply elem_of_nil in Hin.
  - rewrite fmap_cons in Hnd. apply NoDup_cons in Hnd as [Hn Hnd]. unfold sbind.
    destruct (ship_stream b str e s) as [[n|x] s1] eqn:E1; [|done].
    apply (ship_stream_Ok _ _ _ _ _ _ Hs) in E1 as ((c1 & Ec1 & Ho1) & Eout1 & Ep1 & Em1).
    intros H. apply (IH Hnd) in H as ((c2 & Ec2 & Ho2) & Eout2 & Ep2).
    assert (forall other, other ∈ streams -> pending (db s1.1) other = pending (db s.1) other
      /\ cursor_of (db s1.1) other.1 = cursor_of (db s.1) other.1) as Hsame.
    { intros other Hin. assert (c1 (log_ship_cursors (db s.1)) !! other.1 = log_ship_cursors (db s.1) !! other.1) as Hc.
      { apply Ho1. intros E. apply Hn. rewrite <- E. by apply list_elem_of_fmap_2. }
      rewrite Ec1. split; [apply (pending_same c1); [rewrite Forall_forall in Hss; by apply Hss|done]|].
      unfold cursor_of. cbn. by rewrite Hc. }
    split; [|split].
    + exists (fun t => c2 (c1 t)). split; [rewrite Ec2, Ec1; done|]. intros other Hin. rewrite fmap_cons in Hin.
      apply not_elem_of_cons in Hin as [Hne Hin]. rewrite <- Ho1 by done. specialize (Ho2 _ Hin).
      rewrite Ec1 in Ho2. exact Ho2.
    + rewrite Eout2, Eout1. cbn [map concat]. rewrite <- app_assoc. f_equal. f_equal. f_equal.
      apply map_ext_in. intros other Hin. unfold batch_lines. rewrite (proj1 (Hsame other ltac:(by apply list_elem_of_In))). done.
    + intros other Hin. apply elem_of_cons in Hin as [->|Hin].
      * rewrite Ec2, <- Ep1, <- Em1. specialize (Ho2 _ Hn). split; [by apply (pending_same c2)|].
        unfold cursor_of. cbn. by rewrite Ho2.
      * destruct (Ep2 other Hin) as [H1 H2]. destruct (Hsame other Hin) as [H3 H4]. unfold moved in *.
        by rewrite H1, H2, H3, H4.
Qed.

Lemma names_distinct : NoDup (STREAMS ids).*1.
Proof. cbn. repeat (constructor; [set_solver|]). constructor. Qed.

Lemma ship_Ok b e s r s' : ship ids b e s = (Ok r, s') ->
  s'.2 = (s.2 ++ concat (map (batch_lines b (db s.1)) (STREAMS ids)))%list
  /\ (exists c, db s'.1 = upd_log_ship_cursors (fun t => c t) (db s.1))
  /\ forall str, str ∈ STREAMS ids -> pending (db s'.1) str = drop b (pending (db s.1) str)
       /\ cursor_of (db s'.1) str.1 = moved b (db s.1) str.
Proof.
  intros H. unfold ship in H. apply (ship_loop_Ok _ _ streams_stable names_distinct) in H as ((c & Ec & _) & Eo & Ep).
  split; [done|]. split; [by exists c|done].
Qed.

(** *** Nothing is lost *)

(** The rows of a stream carry the ids of the sequence, and an append only adds rows. *)
Definition keyed (str : string * (Db -> list (Z * Rec))) : Prop :=
  (forall d k id r, str.2 d !! k = Some (id, r) -> id = ids str.1 k)
  /\ forall d d', appended d d' -> exists extra, str.2 d' = (str.2 d ++ extra)%list.

Lemma records_lookup {A} name (fmt : Z -> A -> Rec) rows k id r :
  records ids name fmt rows !! k = Some (id, r) -> id = ids name k.
Proof.
  unfold records, numbered. rewrite list_lookup_fmap, list_lookup_imap.
  destruct (rows !! k); cbn; [by intros [= <- _]|done].
Qed.

Lemma records_app {A} name (fmt : Z -> A -> Rec) rows l :
  exists extra, records ids name fmt (rows ++ l) = (records ids name fmt rows ++ extra)%list.
Proof. unfold records, numbered. rewrite imap_app, map_app. eauto. Qed.

Lemma streams_keyed : Forall keyed (STREAMS ids).
Proof.
  constructor; [|constructor; [|constructor; [|constructor]]];
    (split; [intros d k id r; apply records_lookup|intros d d' [[l1 E1] [l2 E2] [l3 E3] _]; cbn; rewrite ?E1, ?E2, ?E3]);
    apply records_app.
Qed.

(** At or behind a cursor, what was not written came late. *)
Definition export_inv (w : Export) : Prop := forall str, str ∈ STREAMS ids -> forall id r,
  (id, r) ∈ str.2 (db (ex_run w).1) -> id <= cursor_of (db (ex_run w).1) str.1 ->
  line_of r ∈ (ex_run w).2 \/ (str.1, id) ∈ ex_late w.

Lemma append_cursor d d' name : appended d d' -> cursor_of d' name = cursor_of d name.
Proof. intros H. unfold cursor_of. by rewrite (ap_cursors _ _ H). Qed.

Lemma inv_append s s' out late : appended (db s) (db s') -> export_inv (mkExport (s, out) late) ->
  export_inv (mkExport (s', out) (late ++ come_late ids (db s) (db s'))).
Proof.
  intros Hap Hinv str Hstr id r. cbn [ex_run ex_late fst snd]. rewrite (append_cursor _ _ _ Hap).
  pose proof streams_keyed as Hk. rewrite Forall_forall in Hk. destruct (proj2 (Hk str Hstr) _ _ Hap) as [extra E].
  intros Hin Hle. rewrite elem_of_app. rewrite E in Hin. apply elem_of_app in Hin as [Hin|Hin].
  - destruct (Hinv str Hstr id r Hin Hle); auto.
  - right; right. apply list_elem_of_In, in_concat. eexists. split.
    { apply (in_map _ _ str). by apply list_elem_of_In. }
    apply (in_map (fun kv : Z * Rec => (str.1, kv.1)) _ (id, r)), filter_In. rewrite E, drop_app_length.
    split; [by apply list_elem_of_In|]. by apply Z.leb_le.
Qed.

(** A row at or behind the new cursor was behind the old one, or was in the batch. *)
Lemma inv_ship b e s r s' late : ship ids b e s = (Ok r, s') -> export_inv (mkExport s late) -> export_inv (mkExport s' late).
Proof.
  intros Hr Hinv. apply ship_Ok in Hr as (Eo & (c & Ec) & Hp). intros str Hstr id rr. specialize (Hinv str Hstr id rr).
  pose proof streams_stable as Hst. rewrite Forall_forall in Hst. destruct (Hst str Hstr) as [Hs Has].
  destruct (Hp str Hstr) as [Hrest Hcur]. cbn [ex_run ex_late] in *. rewrite Ec, Hs in *. rewrite Hcur. intros Hin Hle.
  rewrite Eo, elem_of_app. destruct (decide (id <= cursor_of (db s.1) str.1)) as [Hold|Hnew]; [destruct Hinv; auto|].
  assert ((id, rr) ∈ pending (db s.1) str) as Hpend.
  { apply order_by_In, list_elem_of_In, filter_In. split; [by apply list_elem_of_In|]. apply Z.ltb_lt. cbn. lia. }
  assert ((id, rr) ∉ pending (upd_log_ship_cursors (fun t => c t) (db s.1)) str) as Hnp.
  { unfold pending. rewrite Hcur. intros H. apply order_by_In, list_elem_of_In, filter_In in H as [_ H].
    apply Z.ltb_lt in H. cbn in H. lia. }
  rewrite Hrest in Hnp. rewrite <- (take_drop b (pending (db s.1) str)) in Hpend.
  apply elem_of_app in Hpend as [Hb|Hb]; [|done]. left; right.
  apply list_elem_of_In, in_concat. exists (batch_lines b (db s.1) str).
  split; [by apply in_map, list_elem_of_In|]. unfold batch_lines. apply (in_map line_of), (in_map snd (take _ _) (id, rr)).
  by apply list_elem_of_In.
Qed.

(** With the cursors where they were, more output does no harm. *)
Lemma inv_grows s late d tk out : export_inv (mkExport s late) -> d = db s.1 -> (exists k, out = s.2 ++ k)%list ->
  export_inv (mkExport (mkSt d tk, out) late).
Proof.
  intros Hinv -> [k ->] str Hstr id r Hin Hle. cbn [ex_run ex_late fst snd db] in *.
  destruct (Hinv str Hstr id r Hin Hle); [left; apply elem_of_app; by left|by right].
Qed.

Lemma ship_logs_out b e s r s' : ship_logs ids b e s = (r, s') -> exists k, s'.2 = (s.2 ++ k)%list.
Proof.
  unfold ship_logs. destruct (ship ids b e s) as [[rr|x] [st out]] eqn:E; intros [= _ <-];
    by apply ship_loop_out in E.
Qed.

Lemma inv_step w w' : ship_step ids w w' -> export_inv w -> export_inv w'.
Proof.
  intros [s s' out late Hap|b e s r s' late Hr|b e s r s' late Hr] Hinv; [by apply inv_append| |].
  - pose proof (ship_logs_out _ _ _ _ _ Hr) as Ho. unfold ship_logs in Hr.
    destruct (ship ids b e s) as [[rr|x] [st out]] eqn:E; injection Hr as _ <-; [by eapply inv_ship|].
    by eapply inv_grows.
  - eapply inv_grows; [done..|]. by eapply ship_logs_out.
Qed.

Lemma inv_start d tk (Hpos : forall s i, 0 < ids s i) (Hcur : log_ship_cursors d = ∅) : export_inv (mkExport (mkSt d tk, []) []).
Proof.
  intros str Hstr id r Hin. cbn [ex_run fst snd db] in *. unfold cursor_of. rewrite Hcur, lookup_empty. cbn.
  pose proof streams_keyed as Hk. rewrite Forall_forall in Hk. destruct (Hk str Hstr) as [Hid _].
  apply list_elem_of_lookup in Hin as [k Hk']. rewrite (Hid _ _ _ _ Hk'). specialize (Hpos str.1 k). lia.
Qed.

(** *** A run sends the next batch *)

(** A row of an ascending list stands after the rows with smaller ids. *)
Lemma ascending_index {A} (rows : list (Z * A)) x : ascending rows -> x ∈ rows ->
  rows !! List.length (List.filter (fun kv => kv.1 <? x.1) rows) = Some x.
Proof.
  unfold ascending. induction 1 as [|y rows Hs IH Hf]; intros Hx; [by apply elem_of_nil in Hx|]. cbn.
  apply elem_of_cons in Hx as [->|Hx].
  - rewrite Z.ltb_irrefl. assert (List.filter (fun kv => kv.1 <? y.1) rows = []) as ->; [|done].
    clear IH Hs. induction Hf as [|z rows Hz _ IH]; [done|]. cbn. by rewrite (proj2 (Z.ltb_ge _ _)) by lia.
  - rewrite Forall_forall in Hf. rewrite (proj2 (Z.ltb_lt _ _)) by by apply Hf. cbn. by apply IH.
Qed.

Lemma in_batch (b : nat) (d : Db) str (id : Z) (r : Rec) : stable str -> (id, r) ∈ str.2 d -> cursor_of d str.1 < id ->
  (List.length (List.filter (fun kv => (cursor_of d str.1 <? kv.1)%Z && (kv.1 <? id)%Z) (str.2 d)) < b)%nat ->
  (id, r) ∈ take b (pending d str) /\ (id, r) ∉ drop b (pending d str).
Proof.
  intros [_ Hn] Hin Hc Hb. assert (ascending (pending d str)) as Ha.
  { unfold pending. rewrite order_filter by apply Hn. by apply ascending_filter, order_ascending. }
  assert ((id, r) ∈ pending d str) as Hp.
  { apply order_by_In, list_elem_of_In, filter_In. split; [by apply list_elem_of_In|]. by apply Z.ltb_lt. }
  pose proof (ascending_index _ _ Ha Hp) as Hi.
  assert (List.filter (fun kv : Z * Rec => kv.1 <? (id, r).1) (pending d str)
    ≡ₚ List.filter (fun kv => (cursor_of d str.1 <? kv.1) && (kv.1 <? id)) (str.2 d)) as Hperm.
  { rewrite filter_and. apply filter_permutation. unfold pending, order_by. by rewrite merge_sort_Permutation. }
  rewrite Hperm in Hi. revert Hi Hb. generalize (List.length (List.filter (fun kv => (cursor_of d str.1 <? kv.1) && (kv.1 <? id)) (str.2 d))).
  intros k Hi Hk. split.
  - apply list_elem_of_lookup. exists k. by rewrite lookup_take_lt.
  - intros [j Hj]%list_elem_of_lookup. rewrite lookup_drop in Hj.
    rewrite <- (take_drop b (pending d str)) in Ha. apply StronglySorted_app in Ha as (Hlt & _ & _).
    specialize (Hlt (id, r) (id, r)). cbn in Hlt. rewrite <- lookup_drop in Hj.
    assert (id < id); [|lia]. apply Hlt; apply list_elem_of_lookup; [exists k; by rewrite lookup_take_lt|by exists j].
Qed.

Lemma ship_sends b e s n s' stream id r : ship_logs ids b e s = (Ok n, s') ->
  (id, r) ∈ exported ids (db s.1) stream -> cursor_of (db s.1) stream < id -> (before_it ids (db s.1) stream id < b)%nat ->
  line_of r ∈ s'.2 /\ id <= cursor_of (db s'.1) stream.
Proof.
  unfold ship_logs, before_it. destruct (ship ids b e s) as [[rr|x] s1] eqn:E; [intros [= _ <-]|by destruct s1].
  intros Hin Hc Hb. destruct (exported_streams _ _ _ _ Hin) as (str & Hstr & <- & Ed). rewrite <- Ed in *.
  pose proof streams_stable as Hst. rewrite Forall_forall in Hst. specialize (Hst str Hstr).
  destruct (in_batch b (db s.1) str id r Hst Hin Hc Hb) as [Ht Hd].
  apply ship_Ok in E as (Eo & (c & Ec) & Hp). destruct (Hp str Hstr) as [Hrest _]. split.
  - rewrite Eo. apply elem_of_app. right. apply list_elem_of_In, in_concat. exists (batch_lines b (db s.1) str).
    split; [by apply in_map, list_elem_of_In|]. unfold batch_lines. apply (in_map line_of), (in_map snd (take _ _) (id, r)).
    by apply list_elem_of_In.
  - apply Z.nlt_ge. intros Hlt. apply Hd. rewrite <- Hrest. apply order_by_In, list_elem_of_In, filter_In.
    split; [|by apply Z.ltb_lt]. apply list_elem_of_In. rewrite Ec. by rewrite (proj1 Hst).
Qed.

(** *** Ids in the order of the commits *)

Section InOrder.
Context (Hup : forall s i j, (i < j)%nat -> ids s i < ids s j).

(** No cursor is past the rows there are, so none comes late. *)
Definition in_order (w : Export) : Prop := ex_late w = []
  /\ forall str, str ∈ STREAMS ids ->
     cursor_of (db (ex_run w).1) str.1 < ids str.1 (List.length (str.2 (db (ex_run w).1))).

Lemma ids_le str i j : (i <= j)%nat -> ids str i <= ids str j.
Proof. intros H. destruct (decide (i = j)) as [->|]; [lia|]. pose proof (Hup str i j). lia. Qed.

Lemma order_append s s' out late : appended (db s) (db s') -> in_order (mkExport (s, out) late) ->
  in_order (mkExport (s', out) (late ++ come_late ids (db s) (db s'))).
Proof.
  intros Hap [Hl Hc]. cbn [ex_run ex_late fst] in *. subst late.
  pose proof streams_keyed as Hk. rewrite Forall_forall in Hk. split.
  - destruct (come_late ids (db s) (db s')) as [|[name id] l] eqn:E; [done|]. exfalso.
    assert (In (name, id) (come_late ids (db s) (db s'))) as Hin by (rewrite E; by left).
    apply in_concat in Hin as (x & (str & <- & Hstr)%in_map_iff & ((id' & r) & [= <- ->] & Hrow)%in_map_iff).
    apply filter_In in Hrow as [Hrow Hle]. apply Z.leb_le in Hle. apply list_elem_of_In in Hstr, Hrow.
    apply list_elem_of_lookup in Hrow as [k Hrow]. rewrite lookup_drop in Hrow.
    apply (proj1 (Hk str Hstr)) in Hrow. specialize (Hc str Hstr). cbn [fst] in Hle.
    pose proof (ids_le str.1 (List.length (str.2 (db s))) (List.length (str.2 (db s)) + k) ltac:(lia)). lia.
  - intros str Hstr. cbn [ex_run fst]. rewrite (append_cursor _ _ _ Hap). destruct (proj2 (Hk str Hstr) _ _ Hap) as [extra ->].
    rewrite length_app. specialize (Hc str Hstr).
    pose proof (ids_le str.1 (List.length (str.2 (db s))) (List.length (str.2 (db s)) + List.length extra) ltac:(lia)). lia.
Qed.

Lemma order_ship b e s r s' late : ship ids b e s = (Ok r, s') -> in_order (mkExport s late) -> in_order (mkExport s' late).
Proof.
  intros Hr [Hl Hc]. split; [done|]. apply ship_Ok in Hr as (_ & (c & Ec) & Hp). intros str Hstr. cbn [ex_run] in *.
  pose proof streams_stable as Hst. rewrite Forall_forall in Hst. destruct (Hst str Hstr) as [Hs _].
  pose proof streams_keyed as Hk. rewrite Forall_forall in Hk. destruct (Hk str Hstr) as [Hid _].
  destruct (Hp str Hstr) as [_ Hcur]. rewrite Hcur, Ec, Hs. unfold moved.
  destruct (last _) as [[lid rl]|] eqn:El; [|by apply Hc]. cbn [fst].
  assert ((lid, rl) ∈ str.2 (db s.1)) as Hin.
  { apply last_Some in El as [l El]. assert ((lid, rl) ∈ pending (db s.1) str) as H.
    { rewrite <- (take_drop b (pending (db s.1) str)), El. set_solver. }
    by apply order_by_In, list_elem_of_In, filter_In in H as [H%list_elem_of_In _]. }
  apply list_elem_of_lookup in Hin as [k Hk']. rewrite (Hid _ _ _ _ Hk'). apply Hup. by eapply lookup_lt_Some.
Qed.

Lemma order_step w w' : ship_step ids w w' -> in_order w -> in_order w'.
Proof.
  intros [s s' out late Hap|b e s r s' late Hr|b e s r s' late Hr] Hinv; [by apply order_append| |exact Hinv].
  unfold ship_logs in Hr. destruct (ship ids b e s) as [[rr|x] [st out]] eqn:E; injection Hr as _ <-; [by eapply order_ship|exact Hinv].
Qed.

Lemma order_start d tk (Hpos : forall s i, 0 < ids s i) (Hcur : log_ship_cursors d = ∅) : in_order (mkExport (mkSt d tk, []) []).
Proof. split; [done|]. intros str _. unfold cursor_of. cbn [ex_run fst db]. rewrite Hcur, lookup_empty. apply Hpos. Qed.
End InOrder.
End Exports.

(** What a step keeps, a run keeps. *)
Lemma rtc_keeps {X} (R : X -> X -> Prop) (P : X -> Prop) x y : (forall x y, R x y -> P x -> P y) -> P x -> rtc R x y -> P y.
Proof. intros Hstep Hx Hr. induction Hr; eauto. Qed.

(** [n] runs of the command, one after the other. *)
Fixpoint ships {sink : LogSink} (ids : string -> nat -> Z) (n b : nat) (e : nat -> Env) (s : St * Out) : option (St * Out) :=
  match n with
  | O => Some s
  | S m => match ship_logs ids b (e m) s with (Ok _, s1) => ships ids m b e s1 | (Raise _, _) => None end
  end.

(** A sink that refuses nothing. *)
Class SinkOpen `{LogSink} := { sink_open : forall out rs x out', sink_emit out rs <> (Raise x, out') }.

Section Drain.
Context {sink : LogSink} (line_of : Rec -> string) `{!SinkLaws line_of} `{!SinkOpen} (ids : string -> nat -> Z).
Context (Hids : forall s i j, ids s i = ids s j -> i = j).

Lemma ship_stream_runs b str e s : exists n s', ship_stream b str e s = (Ok n, s').
Proof.
  destruct s as [st out]. unfold ship_stream, sbind, on_db, cursor, bind, gets, ret. cbn [fst snd].
  destruct (last _) as [[lid r]|]; [|by eexists _, _].
  unfold to_sink. cbn [fst snd]. destruct (sink_emit out _) as [[[]|x] out'] eqn:Es; [by eexists _, _|].
  by apply sink_open in Es.
Qed.

Lemma ship_loop_runs b streams : forall acc e s, exists r s', ship_loop b streams acc e s = (Ok r, s').
Proof.
  induction streams as [|str streams IH]; intros acc e s; cbn [ship_loop]; [by eexists _, _|].
  unfold sbind. destruct (ship_stream_runs b str e s) as (n & s1 & ->). apply IH.
Qed.

Lemma ship_logs_runs b e s : exists r s', ship_logs ids b e s = (Ok r, s') /\ ship ids b e s = (Ok r, s').
Proof. unfold ship_logs, ship. destruct (ship_loop_runs b (STREAMS ids) (mkShipResult [] 0) e s) as (r & s' & ->). eauto. Qed.

(** The lines of the first [k] pending rows of every stream. *)
Definition sent_lines (k : nat) (d : Db) : list string :=
  concat (map (batch_lines line_of k d) (STREAMS ids)).

Lemma concat_split {X} (f g h : X -> list string) l : (forall x, x ∈ l -> h x = (f x ++ g x)%list) ->
  concat (map h l) ≡ₚ (concat (map f l) ++ concat (map g l))%list.
Proof.
  induction l as [|x l IH]; intros Hx; [done|]. cbn [map concat]. rewrite (Hx x) by left. rewrite IH by (intros; apply Hx; by right).
  rewrite <- !app_assoc. f_equiv. rewrite !app_assoc. f_equiv. apply Permutation_app_comm.
Qed.

Lemma sent_more k b d d' : (forall str, str ∈ STREAMS ids -> pending d' str = drop b (pending d str)) ->
  sent_lines (b + k) d ≡ₚ (sent_lines b d ++ sent_lines k d')%list.
Proof.
  intros Hp. apply concat_split. intros str Hstr. unfold batch_lines. rewrite (Hp str Hstr).
  by rewrite <- !map_app, take_take_drop.
Qed.

Lemma ships_Ok n b e : forall s, exists s', ships ids n b e s = Some s'
  /\ s'.2 ≡ₚ (s.2 ++ sent_lines (n * b) (db s.1))%list
  /\ forall str, str ∈ STREAMS ids -> pending (db s'.1) str = drop (n * b) (pending (db s.1) str).
Proof.
  induction n as [|n IH]; intros s; cbn [ships].
  - exists s. split; [done|]. split; [|done]. unfold sent_lines. rewrite (concat_split (fun _ => []) (fun _ => [])); [|done].
    assert (forall l : list (string * (Db -> list (Z * Rec))), concat (map (fun _ => [] : list string) l) = []) as Hn
      by (induction l; done). by rewrite Hn, app_nil_r.
  - destruct (ship_logs_runs b (e n) s) as (r & s1 & -> & Hs). apply (ship_Ok line_of ids Hids) in Hs as (Eo & _ & Hp).
    destruct (IH s1) as (s' & -> & Eo' & Hp'). exists s'. split; [done|]. split.
    + rewrite Eo', Eo, <- app_assoc. f_equiv. cbn [Nat.mul]. rewrite (sent_more (n * b) b (db s.1) (db s1.1)); [done|].
      intros str Hstr. by apply Hp.
    + intros str Hstr. rewrite (Hp' str Hstr), (proj1 (Hp str Hstr)), drop_drop. done.
Qed.
End Drain.

(** *** The sinks *)

Lemma write_lines_Ok write ls : forall out out', write_lines write out ls = (Ok tt, out') -> out' = (out ++ ls)%list.
Proof.
  induction ls as [|l ls IH]; intros out out'; cbn.
  - intros [= <-]. by rewrite app_nil_r.
  - destruct (write out l); [done|]. intros H%IH. by rewrite H, <- app_assoc.
Qed.
Lemma write_lines_Raise write ls x : forall out out', write_lines write out ls = (Raise x, out') -> exists k, out' = (out ++ take k ls)%list.
Proof.
  induction ls as [|l ls IH]; intros out out'; cbn; [done|].
  destruct (write out l).
  - intros [= _ <-]. exists 0%nat. by rewrite app_nil_r.
  - intros [k H]%IH. exists (S k). by rewrite H, <- app_assoc.
Qed.

Lemma json_sink_laws write flush : @SinkLaws (JsonLinesSink write flush) line.
Proof.
  constructor; intros out rs; cbn.
  - intros out'. destruct (write_lines write out (map line rs)) as [[[]|x] o] eqn:E; [|done].
    destruct (flush o); [done|]. intros [= <-]. by apply write_lines_Ok in E.
  - intros x out'. destruct (write_lines write out (map line rs)) as [[[]|y] o] eqn:E.
    + apply write_lines_Ok in E as ->. destruct (flush _); [|done]. intros [= _ <-]. exists (List.length (map line rs)).
      by rewrite firstn_all.
    + intros [= _ <-]. by apply write_lines_Raise in E.
Qed.

Lemma open_json_sink : @SinkOpen (JsonLinesSink (fun _ _ => None) (fun _ => None)).
Proof.
  constructor. intros out rs x out'. cbn.
  assert (forall ls o, write_lines (fun _ _ => None) o ls = (Ok tt, (o ++ ls)%list)) as Hw.
  { induction ls as [|l ls IH]; intros o; cbn; [by rewrite app_nil_r|]. by rewrite IH, <- app_assoc. }
  by rewrite Hw.
Qed.

(** ** Theorems *)

(** C33: With the sink of JSON lines, whatever its stream refuses, whenever the database
    refuses the commit, and whatever the order in which the rows of the three audit tables
    commit: a row whose id the cursor of its stream has reached has been written out, unless
    it was committed when the cursor was at or past its id already.  That gap, which the
    export admits, is the only one, and there is none when the rows of a table commit in
    the order of their ids.  And a run that succeeds writes, and moves the cursor to, every
    row past the cursor that has fewer than [batch] rows between the cursor and itself. *)
Theorem shipped_at_least_once write flush ids d tk w
    (Hids : forall s i j, ids s i = ids s j -> i = j) (Hpos : forall s i, 0 < ids s i)
    (Hstart : log_ship_cursors d = ∅)
    (Hrun : rtc (@ship_step (JsonLinesSink write flush) ids) (mkExport (mkSt d tk, []) []) w) :
  (forall stream id r, (id, r) ∈ exported ids (db (ex_run w).1) stream ->
     id <= cursor_of (db (ex_run w).1) stream -> line r ∈ (ex_run w).2 \/ (stream, id) ∈ ex_late w)
  /\ ((forall s i j, (i < j)%nat -> ids s i < ids s j) -> ex_late w = [])
  /\ (forall batch e n s', @ship_logs (JsonLinesSink write flush) ids batch e (ex_run w) = (Ok n, s') ->
     forall stream id r, (id, r) ∈ exported ids (db (ex_run w).1) stream ->
     cursor_of (db (ex_run w).1) stream < id -> (before_it ids (db (ex_run w).1) stream id < batch)%nat ->
     line r ∈ s'.2 /\ id <= cursor_of (db s'.1) stream).
Proof.
  pose proof (json_sink_laws write flush) as Hlaws. split; [|split].
  - intros stream id r Hin. destruct (exported_streams _ _ _ _ Hin) as (str & Hstr & <- & Ed). rewrite <- Ed in Hin.
    revert str Hstr Ed id r Hin. enough (export_inv line ids w) as H by eauto.
    refine (rtc_keeps _ (export_inv line ids) _ _ _ _ Hrun); [by apply inv_step|by apply inv_start].
  - intros Hup. refine (proj1 (rtc_keeps _ (in_order ids) _ _ _ _ Hrun)); [by eapply order_step|by apply order_start].
  - intros batch e n s' Hs stream id r. by eapply ship_sends.
Qed.

(** The gap: the second row commits with the smaller id after the export of the first. *)
Lemma late_row_skipped :
  let ids := fun (_ : string) i => match i with O => 2 | S O => 1 | _ => Z.of_nat i + 1 end in
  let sink := JsonLinesSink (fun _ _ => None) (fun _ => None) in
  let row port := mkAuditLog 0 None None (Some port) "deny" "unknown_resource" "192.0.2.7" in
  let e := mkEnv example_settings 0 (fun _ => 0) (fun _ => 0) in
  let exported := (@ship_logs sink ids 500 e (mkSt (upd_audit_log (fun _ => [row 80]) empty_db) 0, [])).2 in
  let later := upd_audit_log (fun l => l ++ [row 81])%list (db exported.1) in
  let again := @ship_logs sink ids 500 e (mkSt later 0, exported.2) in
  exported.2 = [line (fmt_audit_log 2 (row 80))] /\ again.2 = (mkSt later 0, exported.2)
  /\ come_late ids (db exported.1) later = [("audit_log", 1)].
Proof. vm_compute. done. Qed.

(** The export drains: [n] runs with batches of [b] rows write every row still to be sent
    exactly once, when no stream has more than [n * b] of them, and leave nothing to send. *)
Theorem shipping_drains {sink : LogSink} line_of `{!SinkLaws line_of} `{!SinkOpen} ids n b e s
    (Hids : forall s i j, ids s i = ids s j -> i = j)
    (Hfew : forall str, str ∈ STREAMS ids -> (List.length (pending (db s.1) str) <= n * b)%nat) :
  exists s', ships ids n b e s = Some s'
  /\ s'.2 ≡ₚ (s.2 ++ concat (map (fun str => map line_of (map snd (pending (db s.1) str))) (STREAMS ids)))%list
  /\ forall str, str ∈ STREAMS ids -> pending (db s'.1) str = [].
Proof.
  destruct (ships_Ok line_of ids Hids n b e s) as (s' & Hr & Eo & Hp). exists s'. split; [done|]. split.
  - rewrite Eo. f_equiv. unfold sent_lines. revert Hfew. generalize (STREAMS ids). intros l Hl.
    rewrite (map_ext_in (batch_lines line_of (n * b) (db s.1)) (fun str => map line_of (map snd (pending (db s.1) str))));
      [done|]. intros str Hin. unfold batch_lines. by rewrite take_ge by (apply Hl; by apply list_elem_of_In).
  - intros str Hstr. by rewrite (Hp str Hstr), drop_ge by by apply Hfew.
Qed.

(** The file sink keeps no such promise: when the handler cannot write, the command
    still succeeds and moves the cursor, and the row is nowhere. *)
Theorem file_sink_loses_rows ids row e (Hpos : forall s, 0 < ids s 0%nat) :
  let d := upd_audit_log (fun _ => [row]) empty_db in
  exists r s', ship_logs (sink := RotatingFileSink (fun _ _ => Some (RuntimeError "OSError"))) ids 500 e (mkSt d 0, [])
    = (Ok r, s')
  /\ cursor_of (db s'.1) "audit_log" = ids "audit_log" 0%nat /\ s'.2 = [].
Proof.
  cbn zeta. set (d := upd_audit_log _ _).
  assert (forall name, name <> "audit_log" -> forall rows b (s : St * Out), rows (db s.1) = [] ->
    @ship_stream (RotatingFileSink (fun _ _ => Some (RuntimeError "OSError"))) b (name, rows) e s = (Ok (0, 0), s)) as Hnone.
  { intros name _ rows b [st out] Hr. unfold ship_stream, sbind, on_db, cursor, bind, gets, ret. cbn [fst snd] in *.
    rewrite Hr. unfold batch_past. cbn. by destruct b. }
  unfold ship_logs, ship, STREAMS. cbn [ship_loop]. unfold sbind at 1. rewrite Hnone by done.
  unfold sbind at 1.
  assert (@ship_stream (RotatingFileSink (fun _ _ => Some (RuntimeError "OSError"))) 500
    ("audit_log", fun d => records ids "audit_log" fmt_audit_log (audit_log d)) e (mkSt d 0, [])
    = (Ok (1, Z.of_nat (List.length (List.filter is_high [fmt_audit_log (ids "audit_log" 0%nat) row]))),
       (mkSt (upd_log_ship_cursors <["audit_log" := ids "audit_log" 0%nat]> d) 0, []))) as ->.
  { assert (batch_past 0 500 (records ids "audit_log" fmt_audit_log [row])
      = [(ids "audit_log" 0%nat, fmt_audit_log (ids "audit_log" 0%nat) row)]) as Hb.
    { unfold batch_past, records, numbered. cbn -[take]. by rewrite (proj2 (Z.ltb_lt _ _)) by apply Hpos. }
    unfold ship_stream, sbind, on_db, cursor, bind, gets, ret, advance, moddb, to_sink, sret. cbn [fst snd].
    change (default 0 (log_ship_cursors (db (mkSt d 0)) !! "audit_log")) with 0.
    change (audit_log (db (mkSt d 0))) with [row]. rewrite Hb. reflexivity. }
  unfold sbind at 1. rewrite Hnone by done. eexists _, _. split; [reflexivity|]. cbn [fst snd]. split; [|done].
  unfold cursor_of. cbn. by rewrite lookup_insert_eq.
Qed.

(** ** Witnesses *)

Definition seq_ids (_ : string) (i : nat) : Z := Z.of_nat i + 1.
Definition demo_ship_env : Env := mkEnv example_settings 0 (fun _ => 0) (fun _ => 0).
Definition shipped_db : Db :=
  upd_audit_log (fun _ => [mkAuditLog 0 None None None "deny" "unknown_resource" "192.0.2.7";
                           mkAuditLog 0 (Some 11) (Some 6) (Some 8080) "allow" "allow" "192.0.2.7"]) empty_db.

Definition allowed_row : AuditLog := mkAuditLog 0 (Some 11) (Some 6) (Some 8080) "allow" "allow" "192.0.2.7".

Example shipped_at_least_once_witness : exists w,
  rtc (@ship_step (JsonLinesSink (fun _ _ => None) (fun _ => None)) seq_ids) (mkExport (mkSt shipped_db 0, []) []) w
  /\ cursor_of (db (ex_run w).1) "audit_log" = 2 /\ ex_late w = [] /\ line (fmt_audit_log 2 allowed_row) ∈ (ex_run w).2
  /\ line (fmt_audit_log 2 allowed_row) ∈ (@ship_logs (JsonLinesSink (fun _ _ => None) (fun _ => None)) seq_ids 2 demo_ship_env
       (mkSt shipped_db 0, [])).2.2.
Proof.
  set (out := @ship_logs (JsonLinesSink (fun _ _ => None) (fun _ => None)) seq_ids 500 demo_ship_env (mkSt shipped_db 0, [])).
  assert (rtc (@ship_step (JsonLinesSink (fun _ _ => None) (fun _ => None)) seq_ids)
    (mkExport (mkSt shipped_db 0, []) []) (mkExport out.2 [])) as Hrun
    by (eapply rtc_l; [exact (step_ship _ 500 demo_ship_env _ out.1 out.2 [] (surjective_pairing out))|reflexivity]).
  assert (forall s i j, seq_ids s i = seq_ids s j -> i = j) as Hids by (intros; unfold seq_ids in *; lia).
  assert (forall s i, 0 < seq_ids s i) as Hpos by (intros; unfold seq_ids; lia).
  destruct (shipped_at_least_once (fun _ _ => None) (fun _ => None) seq_ids shipped_db 0%nat _ Hids Hpos eq_refl Hrun) as (H1 & H2 & _).
  destruct (shipped_at_least_once (fun _ _ => None) (fun _ => None) seq_ids shipped_db 0%nat _ Hids Hpos eq_refl (rtc_refl _ _)) as (_ & _ & H3).
  exists (mkExport out.2 []). split; [exact Hrun|]. split; [vm_compute; reflexivity|]. split; [|split].
  - apply H2. intros; unfold seq_ids; lia.
  - edestruct (H1 "audit_log" 2 (fmt_audit_log 2 allowed_row)) as [Hl|Hl]; [| |exact Hl|by apply elem_of_nil in Hl].
    + vm_compute. right. left.
    + vm_compute. discriminate.
  - edestruct (H3 2%nat demo_ship_env (mkShipResult [("auth_events", 0); ("audit_log", 2); ("policy_changes", 0)] 1)
      _ ltac:(vm_compute; reflexivity) "audit_log" 2 (fmt_audit_log 2 allowed_row)) as [Hl _]; [| | |exact Hl].
    + vm_compute. right. left.
    + vm_compute. reflexivity.
    + vm_compute. repeat constructor.
Defined.

Example shipping_drains_witness : exists s',
  @ships (JsonLinesSink (fun _ _ => None) (fun _ => None)) seq_ids 2 1 (fun _ => demo_ship_env) (mkSt shipped_db 0, []) = Some s'
  /\ List.length s'.2 = 2%nat.
Proof.
  destruct (@shipping_drains (JsonLinesSink (fun _ _ => None) (fun _ => None)) line (json_sink_laws _ _) open_json_sink seq_ids 2 1
    (fun _ => demo_ship_env) (mkSt shipped_db 0, []) ltac:(intros; unfold seq_ids in *; lia)) as (s' & Hr & Hp & _).
  { intros str Hstr. unfold STREAMS in Hstr. rewrite !elem_of_cons, elem_of_nil in Hstr.
    destruct Hstr as [->|[->|[->|[]]]]; vm_compute; repeat constructor. }
  exists s'. split; [exact Hr|]. rewrite Hp. vm_compute. reflexivity.
Defined.

Definition denied_row : AuditLog := mkAuditLog 0 None None None "deny" "unknown_resource" "192.0.2.7".
Example file_sink_loses_rows_witness : exists r s',
  ship_logs (sink := RotatingFileSink (fun _ _ => Some (RuntimeError "OSError"))) seq_ids 500 demo_ship_env
    (mkSt (upd_audit_log (fun _ => [denied_row]) empty_db) 0, []) = (Ok r, s')
  /\ cursor_of (db s'.1) "audit_log" = 1 /\ s'.2 = [].
Proof. exact (file_sink_loses_rows seq_ids denied_row demo_ship_env ltac:(intros; unfold seq_ids; lia)). Defined.
