(* ===== verification/Bridge.v ===== *)
(** * Bridge: rtsp/app.py, the service that turns a camera's stream into frames

    The decisions of the bridge as functions, the processes and the socket as what awaiting
    them gives: what ffprobe answers, and turn by turn how the read and the sends of the
    pump end and after how long. *)

From S2P Require Import Prelude PyStr Encoding Json JsonText PyTime Config Db Effects SealedToken Rtsp.
Local Open Scope Z_scope.

Definition CLOSE_POLICY : Z := 1008.
Definition FIRST_BYTE_TIMEOUT : Z := seconds 20.
Definition SEND_TIMEOUT : Z := seconds 30.
Definition STALL_TIMEOUT : Z := seconds 30.

Definition AVC_PROFILES : list (string * string) :=
  [("Constrained Baseline", "42E0"); ("Baseline", "4200"); ("Main", "4D40"); ("Extended", "5800"); ("High", "6400");
   ("High 10", "6E00"); ("High 4:2:2", "7A00"); ("High 4:4:4 Predictive", "F400")].
Definition FALLBACK_AVC : string := "avc1.4D401F".
Definition MOBILE_HOSTILE_PROFILES : list string := ["High 10"; "High 4:2:2"; "High 4:4:4 Predictive"].
Definition TRANSCODE_ARGS : list string :=
  ["-c:v"; "libx264"; "-preset"; "veryfast"; "-tune"; "zerolatency"; "-profile:v"; "high"; "-level"; "4.1";
   "-pix_fmt"; "yuv420p"; "-g"; "50"].
Definition TRANSCODE_AVC : string := "avc1.640029".

(** [f"{n:02X}"] of a byte. *)
Definition hex_byte (n : Z) : string := String (hex_digit_upper (n / 16)) (String (hex_digit_upper (n mod 16)) "").

(** [profile or ""], as a key; a list or an object is not hashable. *)
Definition profile_key (profile : option json) : result (option string) :=
  match profile with
  | Some (JStr s) => Ok (Some s)
  | Some (JArr (_ :: _)) | Some (JObj (_ :: _)) => Raise (TypeError "unhashable")
  | Some j => Ok (if truthy j then None else Some "")
  | None => Ok (Some "")
  end.

Definition avc_codec_string (key : option string) (level : option Z) : string :=
  match key ≫= (fun k => assoc k AVC_PROFILES), level with
  | Some prefix, Some l =>
      if (l =? 0) || (l <=? 0) || (255 <? l) then FALLBACK_AVC else "avc1." +:+ prefix +:+ hex_byte l
  | _, _ => FALLBACK_AVC
  end.

Definition can_passthrough (codec_name : string) (key : option string) : bool :=
  bool_decide (codec_name = "h264")
  && negb (match key with Some k => bool_decide (k ∈ MOBILE_HOSTILE_PROFILES) | None => false end).

Definition classify_ffmpeg_error (stderr : string) : string :=
  let low := lower stderr in
  if contains "401" low || contains "unauthorized" low then "rtsp_auth_failed"
  else if contains "404" low || contains "not found" low then "rtsp_stream_not_found"
  else if contains "connection refused" low || contains "timed out" low || contains "no route to host" low
  then "rtsp_unreachable"
  else "rtsp_failed".

(** What running ffprobe gives: no answer in [PROBE_TIMEOUT], or its exit. *)
Inductive ProbeOutcome := ProbeTimeout | ProbeExit (returncode : Z) (out err : string).

Definition probe_args (url : string) : list string :=
  ["ffprobe"; "-hide_banner"; "-loglevel"; "error"; "-rtsp_transport"; "tcp"; "-select_streams"; "v:0";
   "-show_entries"; "stream=codec_name,profile,level"; "-of"; "json"; url].

(** [x.get(name)] on a parsed document. *)
Definition get_attr (name : string) (j : json) : result json :=
  match j with
  | JObj fields => Ok (default JNull (assoc name fields))
  | _ => Raise (LibraryError "AttributeError")
  end.

(** [streams[0]] of a true value. *)
Definition first_item (j : json) : result json :=
  match j with
  | JArr (x :: _) => Ok x
  | JStr (String c _) => Ok (JStr (String c ""))
  | JObj _ => Raise (KeyError "0")
  | _ => Raise (TypeError "object is not subscriptable")
  end.

Record Probe := mkProbe { pb_codec : string; pb_profile : option json; pb_level : option Z; pb_error : string }.
Definition probe_failed (error : string) : Probe := mkProbe "" None None error.

(** [isinstance(level, int)]. *)
Definition int_level (j : json) : option Z :=
  match j with JInt n => Some n | JBool b => Some (if b then 1 else 0) | _ => None end.
Definition or_empty (j : json) : string := if truthy j then py_str j else "".

Definition probe (run : list string -> ProbeOutcome) (url : string) : result Probe :=
  match run (probe_args url) with
  | ProbeTimeout => Ok (probe_failed "rtsp_unreachable")
  | ProbeExit code out err =>
      if negb (code =? 0) then Ok (probe_failed (classify_ffmpeg_error err))
      else match json_loads (if bool_decide (out = "") then "{}" else out) with
      | None => Ok (probe_failed "rtsp_failed")
      | Some doc =>
          match get_attr "streams" doc with
          | Raise x => Raise x
          | Ok streams =>
              if negb (truthy streams) then Ok (probe_failed "rtsp_no_video")
              else match first_item streams with
              | Raise x => Raise x
              | Ok first =>
                  match get_attr "level" first, get_attr "codec_name" first, get_attr "profile" first with
                  | Ok level, Ok codec, Ok profile =>
                      Ok (mkProbe (or_empty codec) (Some profile) (int_level level) "")
                  | Raise x, _, _ | _, Raise x, _ | _, _, Raise x => Raise x
                  end
              end
          end
      end
  end.

Definition ffmpeg_args (url : string) (passthrough : bool) (audio : string) : list string :=
  ["ffmpeg"; "-hide_banner"; "-loglevel"; "error"; "-nostdin"; "-rtsp_transport"; "tcp"; "-fflags"; "nobuffer";
   "-flags"; "low_delay"; "-i"; url]
  ++ (if bool_decide (audio = "aac") then ["-c:a"; "aac"; "-b:a"; "64k"; "-ac"; "1"] else ["-an"])
  ++ (if passthrough then ["-c:v"; "copy"] else TRANSCODE_ARGS)
  ++ ["-f"; "mp4"; "-movflags"; "+frag_keyframe+empty_moov+default_base_moof"; "pipe:1"].

(** ** The socket *)

Inductive Frame :=
| FText (message : json)
| FBytes (data : string)
| FClose (code : Z).

(** [_fail]; a send that raises is suppressed, so these are the frames it tries. *)
Definition fail (reason : string) : list Frame :=
  [FText (JObj [("type", JStr "error"); ("reason", JStr reason)]); FClose CLOSE_POLICY].
Definition ready_frame (codec : string) : Frame :=
  FText (JObj [("type", JStr "ready"); ("codec", JStr codec)]).
(** [ws.close()], with the default code. *)
Definition closed : Frame := FClose 1000.

(** What first ends a wait on ffmpeg's output: the browser's departure or a read, which is
    empty at the end of the output. *)
Inductive Arrival := ClientGone | Read (data : string).

(** One turn of the pump: how what it awaits would end, and after how many microseconds;
    [None] for what never ends by itself.  The wait on the read and on the departure, the
    send of the greeting (awaited in the turn of the first chunk only) and the send of the
    chunk, with whether they succeed. *)
Record Turn := mkTurn {
  tn_arrival : option (Z * Arrival);
  tn_greeting : option (Z * bool);
  tn_send : option (Z * bool);
}.

(** An awaited call under a timeout; [None] when the timeout comes first. *)
Definition within {A} (timeout : Z) (call : option (Z * A)) : option (Z * A) :=
  match call with Some (d, x) => if d <=? timeout then Some (d, x) else None | None => None end.

(** How the pump ended: returning at once, leaving the loop, or with an exception. *)
Inductive PumpEnd := Returned | Left (ready : bool) | Broken.

(** What the pump did: the frames it sent or tried to, the beginning and the end of every
    wait on ffmpeg's output, the time at which it ended, and how. *)
Record Pumped := mkPumped { pu_frames : list Frame; pu_waits : list (Z * Z); pu_finish : Z; pu_end : PumpEnd }.
Definition after_turn (frames : list Frame) (wait : Z * Z) (r : Pumped) : Pumped :=
  mkPumped (frames ++ pu_frames r) (wait :: pu_waits r) (pu_finish r) (pu_end r).

(** The loop from the time [now] on; only what it awaits takes time.  [None] while it is
    still running: when the turns are used up, or when the send of the greeting, which has
    no timeout, does not end. *)
Fixpoint pump (deadline : Z) (codec : string) (ready : bool) (now : Z) (turns : list Turn) : option Pumped :=
  match turns with
  | [] => None
  | t :: rest =>
      let stall := if ready then STALL_TIMEOUT else FIRST_BYTE_TIMEOUT in
      let budget := Z.min stall (deadline - now) in
      if budget <=? 0 then Some (mkPumped [] [] now (Left ready))
      else
        match within budget (tn_arrival t) with
        | None =>
            let timeout := now + budget in
            if negb ready then Some (mkPumped (fail "rtsp_unreachable") [(now, timeout)] timeout Returned)
            else Some (mkPumped [] [(now, timeout)] timeout (Left ready))
        | Some (d, ClientGone) => Some (mkPumped [] [(now, now + d)] (now + d) (Left ready))
        | Some (d, Read chunk) =>
            let wait := (now, now + d) in
            if bool_decide (chunk = "") then Some (mkPumped [] [wait] (now + d) (Left ready))
            else
              let first := if ready then [] else [ready_frame codec] in
              match (if ready then Some (0, true) else tn_greeting t) with
              | None => None
              | Some (g, false) => Some (mkPumped first [wait] (now + d + g) Broken)
              | Some (g, true) =>
                  match within SEND_TIMEOUT (tn_send t) with
                  | None =>
                      Some (mkPumped (first ++ [FBytes chunk]) [wait] (now + d + g + SEND_TIMEOUT) (Left true))
                  | Some (w, false) => Some (mkPumped (first ++ [FBytes chunk]) [wait] (now + d + g + w) (Left true))
                  | Some (w, true) =>
                      after_turn (first ++ [FBytes chunk]) wait <$> pump deadline codec true (now + d + g + w) rest
                  end
              end
        end
  end.

(** The codec of the stream, and whether it is copied. *)
Definition stream_codec (p : Probe) (audio : string) : result (bool * string) :=
  let chosen :=
    if bool_decide (pb_codec p = "h264") then
      match profile_key (pb_profile p) with
      | Raise x => Raise x
      | Ok key => if can_passthrough (pb_codec p) key then Ok (true, avc_codec_string key (pb_level p))
                  else Ok (false, TRANSCODE_AVC)
      end
    else Ok (false, TRANSCODE_AVC) in
  match chosen with
  | Raise x => Raise x
  | Ok (passthrough, video) => Ok (passthrough, if bool_decide (audio = "aac") then video +:+ ", mp4a.40.2" else video)
  end.

(** [_run_stream] from the probe's answer on: the frames sent or tried, and the exception
    that reached the caller; [start] is the clock when the loop begins, [stderr] what ffmpeg
    wrote.  The process is stopped and the socket closed on every way out of the loop; the
    time that takes, and the error frame, is not counted. *)
Definition run_stream (p : Probe) (audio : string) (start max_seconds : Z) (turns : list Turn) (stderr : string)
  : option (list Frame * option exn) :=
  if negb (bool_decide (pb_error p = "")) then Some (fail (pb_error p), None)
  else
    match stream_codec p audio with
    | Raise x => Some ([], Some x)
    | Ok (_, codec) =>
        (fun r => match pu_end r with
                  | Left false => (pu_frames r ++ fail (classify_ffmpeg_error stderr) ++ [closed], None)
                  | Broken => (pu_frames r ++ [closed], Some (RuntimeError "websocket"))
                  | _ => (pu_frames r ++ [closed], None)
                  end) <$> pump (start + seconds max_seconds) codec false start turns
    end.

(** ** The ticket *)

(** What a token entitles to. *)
Record Ticket := mkTicket { tk_url : string; tk_user_id : string; tk_max_seconds : Z; tk_audio : string }.

Section Ticket.
Context {cbc : CbcCipher}.

(** The stream of the token, every exception on the way being a refusal. *)
Definition token_stream (cfg : Settings) (token : string) : option (list (string * json) * string) :=
  match load_cypher_key (rtsp_cypher_key cfg) with
  | Raise _ => None
  | Ok key =>
      match decrypt_token key token with
      | Ok (JObj payload) =>
          match assoc "stream" payload with
          | Some (JObj stream) => (fun u => (stream, py_str u)) <$> assoc "url" stream
          | _ => None
          end
      | _ => None
      end
  end.

(** [stream.get(name) or default]. *)
Definition get_or (stream : list (string * json)) (name : string) (default_ : json) : json :=
  match assoc name stream with Some v => if truthy v then v else default_ | None => default_ end.

(** [int(x)] of the numbers; the brokers put an integer there, other values are not
    modelled. *)
Definition int_of (j : json) : result Z :=
  match as_int j with Some n => Ok n | None => Raise (ValueError "int") end.

(** From the socket's query to a ticket, or the reason it is refused. *)
Definition ticket (cfg : Settings) (token : option string) : result (Ticket + string) :=
  if bool_decide (rtsp_cypher_key cfg = "") then Ok (inr "rtsp_disabled")
  else
    let token := default "" token in
    if bool_decide (token = "") then Ok (inr "missing_token")
    else match token_stream cfg token with
    | None => Ok (inr "invalid_token")
    | Some (stream, url) =>
        let user_id := py_str (get_or stream "user_id" (JStr "")) in
        match int_of (get_or stream "max_seconds" (JInt (rtsp_max_stream_secs cfg))) with
        | Raise x => Raise x
        | Ok max_seconds =>
            Ok (inl (mkTicket url user_id max_seconds (py_str (get_or stream "audio" (JStr "none")))))
        end
    end.
End Ticket.

(** ** The slots of a user *)

(** [_active], under its lock: the check and the count up, and the count down at the end. *)
Definition running (active : gmap string Z) (user_id : string) : Z := default 0 (active !! user_id).
Definition take_slot (limit : Z) (active : gmap string Z) (user_id : string) : option (gmap string Z) :=
  if limit <=? running active user_id then None
  else Some (<[user_id := running active user_id + 1]> active).
Definition free_slot (active : gmap string Z) (user_id : string) : gmap string Z :=
  let remaining := default 1 (active !! user_id) - 1 in
  if 0 <? remaining then <[user_id := remaining]> active else delete user_id active.

(** [_serve_stream] up to the stream itself: refused with frames, or started on a slot. *)
Definition start_stream `{!CbcCipher} (cfg : Settings) (active : gmap string Z) (token : option string)
  : result ((Ticket * gmap string Z) + list Frame) :=
  match ticket cfg token with
  | Raise x => Raise x
  | Ok (inr reason) => Ok (inr (fail reason))
  | Ok (inl t) =>
      match take_slot (rtsp_max_streams_per_user cfg) active (tk_user_id t) with
      | None => Ok (inr (fail "too_many_streams"))
      | Some active' => Ok (inl (t, active'))
      end
  end.
