(* ===== verification/Cli.v ===== *)
(** * Cli: cli.py, the management commands

    Each command as the transaction it runs and the text it prints; its randomness and
    clock are drawn outside the transaction, which makes no difference to a run that is
    alone. *)

From S2P Require Import Prelude PyStr Encoding Json JsonText PyTime Config Db Effects Crypto Keys Reencrypt Passwords.
From S2P Require Import Flows Dpop TokenEndpoint Gateway Cascade Users.
Local Open Scope Z_scope.

(** [run_db]: the function in a unit of work of its own. *)
Definition run_db {A} (fn : M A) : M A := db_session fn.

Section Keys.
Context {aead : Aead} {ec : EcKeys} (run : list string -> ProcessResult).

(** The key id of a row. *)
Definition kid_of (id : Z) : M string :=
  let! keys := gets signing_keys in
  let! row := assert_some (keys !! id) in
  ret (sk_kid row).

Definition rotate_signing_key (activate : bool) : M string :=
  let! now := utcnow in
  if activate then
    let! kid := run_db (let! id := activate_pending now in kid_of id) in
    ret ("activated signing key " +:+ kid +:+ "; previous active key is now retiring")
  else
    let! backend := secrets_backend run in
    let! kid := run_db (let! id := create_pending backend in kid_of id) in
    ret ("created pending signing key " +:+ kid +:+ " (published in JWKS; --activate to promote)").

Definition bootstrap_keys : M string :=
  let! backend := secrets_backend run in
  let! now := utcnow in
  run_db (bootstrap_if_empty backend now);;
  ret "signing keys ready".

Definition per_table (counts : list (string * Z)) : string :=
  join ", " (map (fun kv => kv.1 +:+ "=" +:+ dec_str kv.2) counts).

Definition rotate_master_key : M string :=
  let! backend := secrets_backend run in
  let! result := run_db (rotate_to_current backend) in
  ret ("re-wrapped " +:+ dec_str (total result) +:+ " blobs to master key " +:+ target_key_id result
       +:+ " (" +:+ per_table (rewrapped result) +:+ ")").
End Keys.

Section Admin.
Context {argon : Argon}.

Definition user_named (email : string) (_ : Z) (u : User) : bool := citext_eq (u_email u) email.

Definition admin_lines (created : bool) (email temp_password : string) : list string :=
  [if created then "created admin " +:+ email else "admin " +:+ email +:+ " already exists; temporary password reset";
   "temporary password (shown once): " +:+ temp_password;
   "next: sign in at /auth/login and enroll two passkeys at /auth/enroll/webauthn"].

(** Inside the transaction: whether the account is new. *)
Definition put_admin (email display_name password_hash : string) : M bool :=
  let! t := gets users in
  match scalar (select (user_named email) t) with
  | Some (uid, _) =>
      let! now := utcnow in
      moddb (upd_users (alter (fun u => set_u_updated_at now (set_u_password_hash password_hash u)) uid));;
      ret false
  | None =>
      let! n := uuid4 in
      let external_id := "user-" +:+ uuid_str n in
      let! uid := uuid4 in
      let! ts := server_now in
      db_add "users" users upd_users (same_user external_id email) uid
        (mkUser external_id email display_name "active" "admin" password_hash true ts ts);;
      ret true
  end.

Definition bootstrap_admin (email display_name : string) : M (list string) :=
  let! temp_password := token_urlsafe 16 in
  let! password_hash := hash_password temp_password in
  let! created := run_db (put_admin email display_name password_hash) in
  ret (admin_lines created email temp_password).
End Admin.

(** ** OIDC clients *)

Definition client_named (client_id : string) (_ : Z) (c : OAuthClient) : bool := bool_decide (oc_client_id c = client_id).

Definition set_client (client_name : string) (redirect_uris : list string) (c : OAuthClient) : OAuthClient :=
  mkOAuthClient (oc_client_id c) client_name redirect_uris (oc_token_endpoint_auth_method c) (oc_require_dpop c)
    (oc_allowed_scopes c) true (oc_created_at c).

(** The defaults of the columns are the database's. *)
Definition new_client (client_id client_name : string) (redirect_uris : list string) (created_at : Z) : OAuthClient :=
  mkOAuthClient client_id client_name redirect_uris "none" true ["openid"; "profile"; "email"] true created_at.

Definition upsert_client (client_id client_name : string) (redirect_uris : list string) : M bool :=
  let! t := gets oauth_clients in
  match scalar (select (client_named client_id) t) with
  | Some (id, _) => moddb (upd_oauth_clients (alter (set_client client_name redirect_uris) id));; ret false
  | None =>
      let! id := uuid4 in
      let! ts := server_now in
      db_add "oauth_clients" oauth_clients upd_oauth_clients (client_named client_id 0) id
        (new_client client_id client_name redirect_uris ts);;
      ret true
  end.

Definition registered (created : bool) : string := if created then "registered" else "updated".

Definition create_client (client_id client_name : string) (redirect_uris : list string) : M string :=
  let! created := run_db (upsert_client client_id client_name redirect_uris) in
  ret (registered created +:+ " client " +:+ client_id).

Definition bootstrap_gateway_client : M string :=
  let! cfg := asks id in
  let client_id := gateway_client_id cfg in
  let redirect_uri := gateway_redirect_uri cfg in
  let! created := run_db (upsert_client client_id "hyproxy gateway" [redirect_uri]) in
  ret (registered created +:+ " gateway client " +:+ client_id +:+ " -> " +:+ redirect_uri).

(** ** Cypher keys *)

Definition gen_guac_key : M string := let! key := token_bytes 32 in ret (b64encode key).
Definition gen_rtsp_key : M string := let! key := token_bytes 32 in ret (b64encode key).

(** ** Collection *)

Definition expired_jti (now : Z) (_ : string * string) (expires_at : Z) : bool := expires_at <=? now.
Definition spent_grant (now : Z) (_ : string) (g : GuacGrant) : bool :=
  (gg_expires_at g <=? now) || bool_decide (gg_consumed_at g <> None).
Definition expired_flow (now : Z) (_ : Z) (f : LoginFlow) : bool := lf_expires_at f <=? now.

(** [session.execute(delete(table).where(p))], with the row count. *)
Definition delete_rows {K A} `{Countable K} (tbl : Db -> gmap K A) (upd : (gmap K A -> gmap K A) -> Db -> Db)
    (p : K -> A -> bool) : M Z :=
  let! t := gets tbl in
  moddb (upd (delete_where p));;
  ret (count_where p t).

(** Inside the transaction: the counts of pairs, keys, states, grants and flows. *)
Definition collect (now : Z) : M (Z * Z * Z * Z * Z) :=
  let! jtis := delete_rows dpop_jti_seen upd_dpop_jti_seen (expired_jti now) in
  let! grants := delete_rows guac_grants upd_guac_grants (spent_grant now) in
  let! flows := delete_rows login_flows upd_login_flows (expired_flow now) in
  let! retired := gc_retired now in
  let! states := gc_login_states now in
  ret (jtis, retired, states, grants, flows).

Definition gc : M string :=
  let! now := utcnow in
  let! '(jtis, retired, states, grants, flows) := run_db (collect now) in
  ret ("deleted " +:+ dec_str jtis +:+ " expired dpop jtis, " +:+ dec_str states +:+ " login states, "
       +:+ dec_str grants +:+ " guac grants, " +:+ dec_str flows +:+ " login flows; retired "
       +:+ dec_str retired +:+ " signing keys").
