(* ===== verification/CliSafety.v ===== *)
(** * CliSafety: what the management commands promise

    The collection takes only what no later request could have used; the first admin's
    password is the one printed; and the gateway client that was registered is one whose
    sign-in the identity provider accepts. *)

From S2P Require Import Prelude PyStr Encoding Digest Json JsonText PyTime Url Config Db Effects Crypto Keys Passwords Web.
From S2P Require Import Pkce Sessions Flows Dpop TokenEndpoint Gateway GatewayLogin Pages Authorize SealedToken Guac GrantSafety Cascade Users Cli.
Local Open Scope Z_scope.

(** ** Lemmas: the collection *)

(** What [collect] leaves. *)
Definition collected (now : Z) (d : Db) : Db :=
  upd_gateway_login_states (delete_where (expired_state now))
    (upd_signing_keys (update_where (grace_over now) (retire now))
      (upd_login_flows (delete_where (expired_flow now))
        (upd_guac_grants (delete_where (spent_grant now))
          (upd_dpop_jti_seen (delete_where (expired_jti now)) d)))).

Lemma collect_run now e s : exists counts, collect now e s = (Ok counts, mkSt (collected now (db s)) (tick s)).
Proof. eexists. reflexivity. Qed.

Lemma gc_run e s : exists line, gc e s = (Ok line, mkSt (collected (clock e (tick s)) (db s)) (S (tick s))).
Proof. eexists. reflexivity. Qed.

(** Rows that cannot be counted can be deleted first. *)
Lemma count_where_deleted {K A} `{Countable K} (p q : K -> A -> bool) t :
  (forall k a, p k a = true -> q k a = false) -> count_where p (delete_where q t) = count_where p t.
Proof.
  intros Hq. apply count_where_ext. intros k a. rewrite lookup_delete_where. split; intros [Hk Hp]; (split; [|done]).
  - destruct (t !! k) as [b|]; [|done]. simpl in Hk. by destruct (q k b).
  - rewrite Hk. simpl. by rewrite Hq.
Qed.

Lemma deleted_later {K A} `{Countable K} (q : K -> A -> bool) t k a :
  q k a = false -> t !! k = Some a <-> delete_where q t !! k = Some a.
Proof.
  intros Hq. rewrite lookup_delete_where. split.
  - intros ->. simpl. by rewrite Hq.
  - destruct (t !! k) as [b|]; [|done]. simpl. destruct (q k b); [done|]. done.
Qed.

(** The collection is one of the quiet steps of [GrantSafety]: it may take the grant of a
    used token, and gives no token a grant. *)
Lemma gc_quiet `{!Aead} `{!CbcCipher} run seen e s line s' (Hgc : gc e s = (Ok line, s')) :
  gate_step run s None s' /\ no_reissue seen s s'.
Proof.
  destruct (gc_run e s) as (line' & E). rewrite E in Hgc. injection Hgc as _ <-. split.
  - apply step_other. intros [[] t] (g & Hg & Hs); [|left; by exists g]. unfold closed, used, absent. cbn [fst snd db].
    cbn [fst snd] in Hg. unfold collected. simpl. rewrite lookup_delete_where, Hg. simpl. destruct (spent_grant _ _ g); [by right|].
    left. by exists g.
  - intros [[] t] _; unfold absent; [|done]. intros Hno. cbn [fst snd db] in *. unfold collected. simpl.
    by rewrite lookup_delete_where, Hno.
Qed.

(** ** Theorem *)

(** C34: The collection is invisible to the requests that follow: at every later time a
    tunnel token is admitted exactly if it would have been, a login flow and a parked
    sign-in are found exactly if they would have been, a proof whose record has not
    expired is still known, every signing key is published as before unless its grace is
    over, and sessions, users, policies and the audit trail are the same. *)
Theorem gc_invisible e s line s' (Hgc : gc e s = (Ok line, s')) : forall later, clock e (tick s) <= later ->
  (forall token ip user e2 n, (Guac.consume_grant token ip later user e2 (mkSt (db s') n)).1
     = (Guac.consume_grant token ip later user e2 (mkSt (db s) n)).1)
  /\ (forall id ip enforce e2 n, (get_valid_flow id ip later enforce e2 (mkSt (db s') n)).1
     = (get_valid_flow id ip later enforce e2 (mkSt (db s) n)).1)
  /\ (forall h row ip, state_usable row ip later = true ->
      gateway_login_states (db s') !! h = Some row <-> gateway_login_states (db s) !! h = Some row)
  /\ (forall pair expiry, later < expiry -> dpop_jti_seen (db s') !! pair = Some expiry <-> dpop_jti_seen (db s) !! pair = Some expiry)
  /\ (forall id k, grace_over later id k = false ->
      signing_keys (db s) !! id = Some k -> signing_keys (db s') !! id = Some k)
  /\ sessions (db s') = sessions (db s) /\ users (db s') = users (db s) /\ policies (db s') = policies (db s)
  /\ audit_log (db s') = audit_log (db s) /\ auth_events (db s') = auth_events (db s).
Proof.
  intros later Hl. destruct (gc_run e s) as (line' & E). rewrite E in Hgc. injection Hgc as <- <-.
  set (now := clock e (tick s)) in *. cbn [db collected]. split_and!; try done.
  - intros token ip user e2 n. unfold Guac.consume_grant, bind, gets, moddb, ret. cbn [db fst].
    change (guac_grants (collected now (db s))) with (delete_where (spent_grant now) (guac_grants (db s))).
    rewrite count_where_deleted; [done|]. intros k g Hp. unfold guac_consumable in Hp. unfold spent_grant. bool_simpl.
    apply orb_false_iff. rewrite bool_decide_eq_false, Z.leb_gt. split; [lia|]. intros Hn. by apply Hn.
  - intros id ip enforce e2 n. unfold get_valid_flow. destruct (nonempty id) as [text|]; [|done].
    destruct (uuid_parse text) as [fid|]; [|done]. rewrite !bind_gets. cbn [db].
    change (login_flows (collected now (db s))) with (delete_where (expired_flow now) (login_flows (db s))).
    rewrite lookup_delete_where. destruct (login_flows (db s) !! fid) as [f|]; [|done]. simpl.
    destruct (expired_flow now fid f) eqn:Ef; [|done]. unfold expired_flow in Ef. bool_simpl.
    unfold flow_usable. rewrite (proj2 (Z.leb_le _ _)) by lia. done.
  - intros h row ip Hu. symmetry. apply deleted_later. unfold state_usable in Hu. unfold expired_state. bool_simpl.
    apply Z.leb_gt. lia.
  - intros pair expiry Hx. symmetry. apply deleted_later. unfold expired_jti. apply Z.leb_gt. lia.
  - intros id k Hg Hk.
    change (signing_keys (collected now (db s))) with (update_where (grace_over now) (retire now) (signing_keys (db s))).
    rewrite lookup_update_where, Hk. simpl. destruct (grace_over now id k) eqn:En; [|done].
    unfold grace_over in *. bool_simpl. destruct (sk_retiring_at k) as [t|]; [|done]. bool_simpl.
    rewrite bool_decide_eq_true_2, (proj2 (Z.leb_le _ _)) in Hg by (done || lia). done.
Qed.

(** ** Lemmas: the gateway client *)

(** A random URL-safe token: so many characters of the alphabet. *)
Lemma urlsafe_len k z : char_len (b64url_nopad (bytes_of k z)) = Z.of_nat ((4 * k + 2) / 3).
Proof.
  destruct (b64url_nopad_shape (bytes_of k z)) as [Hc Hl]. rewrite bytes_of_length in Hl. rewrite <- Hl.
  generalize dependent (b64url_nopad (bytes_of k z)). intros t Hc _. unfold char_len. f_equal.
  induction t as [|c t IH]; [done|]. cbn [all_chars] in Hc. apply andb_true_iff in Hc as [Hc Ht]. cbn [filter_chars].
  assert (negb (is_b64url_char (chr (ord c))) || negb (Z.land (ord c) 192 =? 128) = true) as Hb.
  { pose proof (ord_range c). apply (Z_forall_below (fun n => negb (is_b64url_char (chr n)) || negb (Z.land n 192 =? 128)) 256);
      [vm_compute; reflexivity|lia]. }
  rewrite chr_ord, Hc in Hb. simpl in Hb. rewrite Hb. simpl. by rewrite IH.
Qed.

(** The parameters of a sign-in that the gateway starts. *)
Definition sign_in (cfg : Settings) (state nonce verifier : string) : list (string * string) :=
  [("client_id", gateway_client_id cfg); ("redirect_uri", gateway_redirect_uri cfg); ("response_type", "code");
   ("scope", "openid profile email"); ("state", state); ("nonce", nonce);
   ("code_challenge", sha256_b64url verifier); ("code_challenge_method", "S256")].

(** What a start parks, and the redirect that goes with it. *)
Lemma start_parks rq rd e s r s' : start rq rd e s = (Ok r, s') -> rs_status r = 303 ->
  exists z1 z2 z3 ip, let state := b64url_nopad (bytes_of 24 z1) in
    let nonce := b64url_nopad (bytes_of 24 z2) in let verifier := b64url_nopad (bytes_of 48 z3) in
    r = redirect 303 (issuer_base (settings e) +:+ "/oidc/authorize?" +:+ urlencode (sign_in (settings e) state nonce verifier))
    /\ client_ip_of (settings e) rq = Some ip
    /\ gateway_login_states (db s) !! sha256_hex state = None
    /\ gateway_login_states (db s') = <[sha256_hex state := mkGatewayLoginState verifier nonce rd ip (tx_now e)
         (clock e (tick s) + seconds (gateway_state_ttl (settings e)))]> (gateway_login_states (db s)).
Proof.
  unfold start. intros Hr Hs. mread Hr. mstep Hr v s1 H1. destruct v; cbn [negb] in Hr; [|minv Hr; done].
  assert (db s1 = db s) as Hd1.
  { case_bool_decide; [by injection H1 as _ <-|]. apply (same_steps_eq (@id Db)) in H1; [exact H1|].
    unfold valid_return_url. steps_auto. }
  unfold token_urlsafe, token_bytes in Hr. mstep Hr state s2 H2. minv H2. mstep Hr verifier s3 H3. minv H3.
  mstep Hr nonce s4 H4. minv H4. mstep Hr ip s5 H5. apply client_ip_Ok in H5 as [-> Hip]. mread Hr. mstep Hr u s6 H6. minv Hr.
  apply db_add_Ok in H6 as (Hn & _ & Hdb & _). simpl in Hn, Hdb. rewrite Hd1 in *.
  eexists _, _, _, ip. cbv zeta. split_and!; [reflexivity|exact Hip|exact Hn|]. by rewrite Hdb.
Qed.

Lemma verifier_answers z : verify_s256 (b64url_nopad (bytes_of 48 z)) (sha256_b64url (b64url_nopad (bytes_of 48 z))) = true.
Proof.
  apply verify_s256_true; [|reflexivity]. destruct (b64url_nopad_shape (bytes_of 48 z)) as [Hc Hl].
  rewrite bytes_of_length in Hl. rewrite Hl. rewrite (all_chars_true_impl is_b64url_char verifier_char _ ltac:(vm_compute; reflexivity) Hc). reflexivity.
Qed.

(** The parameters are the ones the authorization endpoint asks for. *)
Lemma sign_in_valid cfg z1 z2 verifier client :
  Forall (fun x => x ∈ oc_allowed_scopes client) ["openid"; "profile"; "email"] ->
  valid_params (sign_in cfg (b64url_nopad (bytes_of 24 z1)) (b64url_nopad (bytes_of 24 z2)) verifier) client
    (mkAuthRequest "openid profile email" (b64url_nopad (bytes_of 24 z1)) (b64url_nopad (bytes_of 24 z2)) (sha256_b64url verifier)).
Proof.
  intros Hs. pose proof (urlsafe_len 24 z1) as L1. pose proof (urlsafe_len 24 z2) as L2.
  assert (forall k z, k <> 0%nat -> b64url_nopad (bytes_of k z) <> "") as Hne.
  { intros k z Hk E. destruct (b64url_nopad_shape (bytes_of k z)) as [_ Hl]. rewrite E, bytes_of_length in Hl.
    assert (1 <= (4 * k + 2) / 3)%nat by (apply Nat.div_le_lower_bound; lia). change (String.length (String.EmptyString)) with 0%nat in Hl. lia. }
  constructor; try reflexivity; cbn [ar_state ar_nonce ar_scope ar_challenge].
  - rewrite L1. by vm_compute.
  - change (words _) with ["openid"; "profile"; "email"]. set_solver.
  - exact Hs.
  - rewrite L2. split; [by apply Hne|by vm_compute].
  - apply valid_challenge_s256.
Qed.

(** A unique column of the clients. *)
Definition clients_unique (d : Db) : Prop := forall i j a b,
  oauth_clients d !! i = Some a -> oauth_clients d !! j = Some b -> oc_client_id a = oc_client_id b -> i = j.

(** The row an upsert leaves. *)
Definition upserted (d d' : Db) (client_id : string) (redirect_uris : list string) (i : Z) (c : OAuthClient) : Prop :=
  oauth_clients d' !! i = Some c /\ oc_client_id c = client_id /\ oc_enabled c = true /\ oc_redirect_uris c = redirect_uris
  /\ (oc_allowed_scopes c = ["openid"; "profile"; "email"]
      \/ exists c0, oauth_clients d !! i = Some c0 /\ oc_client_id c0 = client_id /\ oc_allowed_scopes c = oc_allowed_scopes c0)
  /\ (forall j, j <> i -> oauth_clients d' !! j = oauth_clients d !! j).

Lemma upsert_client_Ok client_id name uris e s b s' : upsert_client client_id name uris e s = (Ok b, s') ->
  clients_unique (db s) ->
  (exists i c, upserted (db s) (db s') client_id uris i c) /\ clients_unique (db s')
  /\ db s' = upd_oauth_clients (fun _ => oauth_clients (db s')) (db s).
Proof.
  unfold upsert_client. intros Hr Hu. mread Hr. destruct (scalar _) as [[i c]|] eqn:Es.
  - apply scalar_select in Es as [Hc Hid]. unfold client_named in Hid. bool_simpl. minv Hr. split_and!; [|..|done].
    + exists i, (set_client name uris c). unfold upserted. simpl. rewrite lookup_alter_eq, Hc.
      split_and!; try done; [by right; exists c|]. intros j Hj. by rewrite lookup_alter_ne.
    + intros j k a b' Ha Hb Hab. simpl in Ha, Hb. rewrite lookup_alter_Some in Ha, Hb.
      destruct Ha as [(-> & a0 & Ha & ->)|[_ Ha]], Hb as [(-> & b0 & Hb & ->)|[_ Hb]]; [done|..]; by eapply Hu.
  - unfold uuid4 in Hr. mstep Hr j s1 H1. minv H1. mread Hr. mstep Hr u s2 H2. minv Hr.
    apply db_add_Ok in H2 as (Hn & Hno & Hdb & _). simpl in Hn, Hno, Hdb. rewrite Hdb. simpl. split_and!; [|..|done].
    + eexists _, (new_client client_id name uris (tx_now e)). unfold upserted. simpl. rewrite lookup_insert_eq.
      split_and!; [done..|by left|]. intros j Hj. by rewrite lookup_insert_ne.
    + intros j k a b' Ha Hb Hab. simpl in Ha, Hb.
      assert (forall i x, oauth_clients (db s) !! i = Some x -> oc_client_id x = client_id -> False) as Hx.
      { intros i x Hx Hid. specialize (Hno _ _ Hx). unfold client_named in Hno. bool_simpl. done. }
      rewrite lookup_insert_Some in Ha, Hb.
      destruct Ha as [[<- <-]|[_ Ha]], Hb as [[<- <-]|[_ Hb]]; [done|..]; cbn [oc_client_id new_client] in Hab;
        [by destruct (Hx _ _ Hb)|by destruct (Hx _ _ Ha)|by eapply Hu].
Qed.

(** The answers that lead on: to the login page of a flow that holds the request, or back to
    the gateway with the state and a code that the parked verifier answers. *)
Definition leads_on (cfg : Settings) (q : list (string * string)) (state : string) (p : GatewayLoginState) (d : Db)
    (resp : Response) : Prop :=
  (exists fid flow, resp = set_flow_cookie (uuid_str fid) (redirect 303 ("/auth/login?flow=" +:+ uuid_str fid))
     /\ login_flows d !! fid = Some flow /\ lf_oidc_request flow = q)
  \/ (exists code row, resp = redirect 302 (with_query (gateway_redirect_uri cfg) [("code", code); ("state", state)])
     /\ auth_codes d !! sha256_hex code = Some row
     /\ ac_client_id row = gateway_client_id cfg /\ ac_redirect_uri row = gateway_redirect_uri cfg
     /\ ac_nonce row = gl_nonce p /\ verify_s256 (gl_code_verifier p) (ac_code_challenge row) = true).

Lemma park_request_flow cid ru a ip now e s resp s' : park_request cid ru a ip now e s = (Ok resp, s') ->
  exists fid flow, resp = set_flow_cookie (uuid_str fid) (redirect 303 ("/auth/login?flow=" +:+ uuid_str fid))
  /\ login_flows (db s') !! fid = Some flow
  /\ lf_oidc_request flow = [("client_id", cid); ("redirect_uri", ru); ("response_type", "code");
       ("scope", ar_scope a); ("state", ar_state a); ("nonce", ar_nonce a);
       ("code_challenge", ar_challenge a); ("code_challenge_method", "S256")].
Proof.
  unfold park_request. intros Hr. cbv zeta in Hr. mstep Hr p s1 H1. destruct p as [fid csrf].
  apply create_flow_Ok in H1 as (_ & _ & Hdb). unfold ret in Hr. injection Hr as <- <-. rewrite Hdb. simpl.
  eexists fid, _. rewrite lookup_insert_eq. split_and!; reflexivity.
Qed.

Lemma known_leads_on cfg rq z1 z2 z3 p e s resp s' client :
  let state := b64url_nopad (bytes_of 24 z1) in let nonce := b64url_nopad (bytes_of 24 z2) in
  let verifier := b64url_nopad (bytes_of 48 z3) in let q := sign_in cfg state nonce verifier in
  known_client (db s) q client (gateway_redirect_uri cfg) ->
  unique_client (db s) client -> oc_client_id client = gateway_client_id cfg -> gateway_client_id cfg <> "" ->
  Forall (fun x => x ∈ oc_allowed_scopes client) ["openid"; "profile"; "email"] ->
  gl_code_verifier p = verifier -> gl_nonce p = nonce ->
  authorize rq q e s = (Ok resp, s') -> leads_on cfg q state p (db s') resp.
Proof.
  intros state nonce verifier q Hk Hu Hid Hne Hsc Hpv Hpn Hr.
  destruct (client_ip_of (settings e) rq) as [ip|] eqn:Eip.
  2: { unfold authorize in Hr. mread Hr. mstep Hr ip s1 H1. apply client_ip_Ok in H1 as [_ H1]. congruence. }
  assert (gateway_redirect_uri cfg <> "") as Hru.
  { unfold gateway_redirect_uri. intros E. apply (f_equal String.length) in E. rewrite !str_length_app in E. simpl in E. lia. }
  pose proof (sign_in_valid cfg z1 z2 verifier client Hsc) as Hv.
  rewrite (authorize_client_run rq q e s client (gateway_redirect_uri cfg) ip) in Hr by (done || congruence).
  rewrite (proj2 (check_params_inr q (gateway_redirect_uri cfg) client _) Hv) in Hr.
  mstep Hr found s1 H1. destruct found as [sid|].
  - right. mstep Hr se s2 H2. apply grant_code_Ok in Hr as (code & _ & Hc & -> & _).
    eexists code, _. rewrite Hc, lookup_insert_eq. split_and!; [reflexivity..|exact Hid|reflexivity|by rewrite Hpn|].
    rewrite Hpv. apply verifier_answers.
  - left. apply park_request_flow in Hr as (fid & flow & -> & Hf & Ho). exists fid, flow. split_and!; [done..|].
    rewrite Ho, Hid. reflexivity.
Qed.

(** ** Theorem *)

(** C12: Once the gateway's client is registered, a visitor whom the gateway sends to sign in is
    not answered an error by the authorization endpoint.  The start parks, under a fresh
    state, a login with a code verifier, a nonce, the return URL and the address, and sends
    the browser to the authorization endpoint; whatever the browser's session, that
    endpoint, with the registered client, either shows the login page of a flow that holds
    the whole request, or goes back to the gateway's redirect URI with that state and a new
    code, for the gateway's client and that URI, with the parked nonce and a challenge that
    the parked verifier answers.  (This is of the requests that end in an answer, with the
    clients as the registration left them and the gateway's settings the same; client ids
    are unique, the gateway's is not empty, and a client that was registered before has the
    default scopes: registering it again does not change them.) *)
Theorem gateway_sign_in_accepted e s0 line s1 rq rd e2 s2 r s3
    (Hreg : bootstrap_gateway_client e s0 = (Ok line, s1)) (Huniq : clients_unique (db s0))
    (Hscopes : forall i c, oauth_clients (db s0) !! i = Some c -> oc_client_id c = gateway_client_id (settings e) ->
       oc_allowed_scopes c = ["openid"; "profile"; "email"])
    (Hid : gateway_client_id (settings e) <> "") (Hcfg : settings e2 = settings e)
    (Hstart : start rq rd e2 s2 = (Ok r, s3)) (Hok : rs_status r = 303) :
  exists q state parked, r = redirect 303 (issuer_base (settings e) +:+ "/oidc/authorize?" +:+ urlencode q)
  /\ gateway_login_states (db s2) !! sha256_hex state = None
  /\ gateway_login_states (db s3) = <[sha256_hex state := parked]> (gateway_login_states (db s2))
  /\ gl_return_url parked = rd /\ client_ip_of (settings e) rq = Some (gl_source_ip parked)
  /\ gl_expires_at parked = clock e2 (tick s2) + seconds (gateway_state_ttl (settings e))
  /\ forall rq' e3 s4 resp s5, oauth_clients (db s4) = oauth_clients (db s1) ->
     authorize rq' q e3 s4 = (Ok resp, s5) -> leads_on (settings e) q state parked (db s5) resp.
Proof.
  apply start_parks in Hstart as (z1 & z2 & z3 & ip & -> & Hip & Hn & Hst); [|done]. rewrite Hcfg in *.
  eexists _, _, _. split; [reflexivity|]. split; [exact Hn|]. split; [exact Hst|]. split_and!; [done..|].
  intros rq' e3 s4 resp s5 Hsame Ha.
  unfold bootstrap_gateway_client, run_db in Hreg. mread Hreg. mstep Hreg b s6 Hup. minv Hreg.
  apply db_session_Ok, upsert_client_Ok in Hup as ((i & c & Hc & Hcid & Hen & Huris & Hsc & Hoth) & Hu1 & _); [|done].
  eapply (known_leads_on _ _ _ _ _ _ _ _ _ _ c); [| |done|done| |done|done|exact Ha].
  - constructor; [exists i; by rewrite Hsame|done|by rewrite Hcid|done|]. rewrite Huris. by apply list_elem_of_singleton.
  - intros j c' Hj Hjid. rewrite Hsame in Hj. assert (j = i) as -> by (by eapply Hu1). congruence.
  - assert (oc_allowed_scopes c = ["openid"; "profile"; "email"]) as ->.
    { destruct Hsc as [Hsc|(c0 & Hc0 & Hid0 & ->)]; [done|by eapply Hscopes]. }
    rewrite !Forall_cons, Forall_nil. set_solver.
Qed.

Section Admin.
Context {argon : Argon}.

Lemma put_admin_Ok email name h e s b s' : put_admin email name h e s = (Ok b, s') ->
  exists uid u, users (db s') = <[uid := u]> (users (db s)) /\ db s' = upd_users (fun _ => users (db s')) (db s)
  /\ citext_eq (u_email u) email = true /\ u_password_hash u = h
  /\ match users (db s) !! uid with
     | None => b = true /\ u_status u = "active" /\ u_auth_tier u = "admin" /\ u_is_protected u = true
         /\ forall i v, users (db s) !! i = Some v -> citext_eq (u_email v) email = false
     | Some v => b = false /\ exists now, u = set_u_updated_at now (set_u_password_hash h v)
     end.
Proof.
  unfold put_admin. intros Hr. mread Hr. destruct (scalar _) as [[uid v]|] eqn:Es.
  - apply scalar_select in Es as [Hv He]. unfold user_named in He. mread Hr. minv Hr.
    exists uid. eexists (set_u_updated_at _ (set_u_password_hash h v)). cbn [db].
    split.
    { cbn. apply map_eq. intros i. destruct (decide (i = uid)) as [->|Hi];
        [by rewrite lookup_alter_eq, lookup_insert_eq, Hv|by rewrite lookup_alter_ne, lookup_insert_ne]. }
    split; [done|]. split; [done|]. split; [done|]. rewrite Hv. eauto.
  - unfold uuid4 in Hr. mread Hr. mstep Hr n s1 H1. minv H1. mstep Hr uid s2 H2. minv H2. mread Hr. mstep Hr u1 s3 H3. minv Hr.
    apply db_add_Ok in H3 as (Hn & _ & Hdb & _). simpl in Hn, Hdb. rewrite Hdb.
    eexists _, _. split; [reflexivity|]. split; [done|]. cbn.
    split; [by apply bool_decide_eq_true_2|]. split; [done|]. rewrite Hn. split_and!; [done..|].
    intros i v Hv. by apply (scalar_select_None _ _ _ _ Es Hv).
Qed.

(** The account of the email opens with exactly the password printed: if it existed, only
    its password hash and its time of change are new; if not, it is a protected active
    admin under an identifier that was free; and every other user and table is kept. *)
Theorem bootstrap_admin_sound `{!ArgonLaws} email name e s lines s'
    (Hrun : bootstrap_admin email name e s = (Ok lines, s')) : exists uid u password created,
  lines = admin_lines created email password
  /\ users (db s') = <[uid := u]> (users (db s)) /\ db s' = upd_users (fun _ => users (db s')) (db s)
  /\ citext_eq (u_email u) email = true
  /\ argon_verify (u_password_hash u) password = Verified
  /\ match users (db s) !! uid with
     | None => created = true /\ u_status u = "active" /\ u_auth_tier u = "admin" /\ u_is_protected u = true
     | Some v => created = false /\ exists now, u = set_u_updated_at now (set_u_password_hash (u_password_hash u) v)
     end.
Proof.
  unfold bootstrap_admin, run_db, hash_password in Hrun. mstep Hrun password s1 H1. apply token_urlsafe_Ok in H1 as [Hd _].
  mstep Hrun h s2 H2. minv H2. mstep Hrun created s3 H3. minv Hrun. apply db_session_Ok in H3.
  apply put_admin_Ok in H3 as (uid & u & Hu & Hdb & He & Hh & Hm). cbn [db] in Hu, Hdb, Hm. rewrite Hd in Hu, Hdb, Hm.
  exists uid, u, password, created. split_and!; try done.
  - rewrite Hh. apply argon_round.
  - destruct (users (db s) !! uid); [|tauto]. destruct Hm as [-> (now & Hm)]. split; [done|]. exists now. by rewrite Hh.
Qed.
End Admin.

(** ** Witnesses *)

Definition demo_gc_db : Db :=
  upd_guac_grants (fun _ => {[ "live" := mkGuacGrant 11 6 9 "192.0.2.7" T0 (T0 + seconds 30) None;
                               "spent" := mkGuacGrant 11 6 9 "192.0.2.7" T0 (T0 + seconds 30) (Some T0) ]}) demo_world.

Example gc_invisible_witness : exists line s',
  gc demo_env (mkSt demo_gc_db 0) = (Ok line, s') /\ guac_grants (db s') !! "spent" = None
  /\ sessions (db s') = sessions demo_gc_db.
Proof.
  destruct (gc demo_env (mkSt demo_gc_db 0)) as [[line|x] s'] eqn:E; [|discriminate E].
  exists line, s'. split; [reflexivity|].
  destruct (gc_invisible demo_env (mkSt demo_gc_db 0) line s' E T0 ltac:(vm_compute; discriminate))
    as (_ & _ & _ & _ & _ & Hs & _).
  destruct (gc_run demo_env (mkSt demo_gc_db 0)) as (line' & E'). rewrite E' in E. injection E as _ <-.
  split; [vm_compute; reflexivity|exact Hs].
Defined.

(** The two runs of the example: the registration, and a visitor sent to sign in. *)
Definition demo_s0 : St := mkSt demo_world 0.
Definition run_response (r : result Response * St) : Response := match r.1 with Ok resp => resp | Raise _ => plain 500 "" end.
Definition run_line (r : result string * St) : string := match r.1 with Ok t => t | Raise _ => "" end.
Definition demo_line : string := run_line (bootstrap_gateway_client demo_env demo_s0).
Definition demo_s1 : St := (bootstrap_gateway_client demo_env demo_s0).2.
Definition demo_away : Response := run_response (start demo_gw_request "https://portal.example.com/x" demo_env demo_s0).
Definition demo_s3 : St := (start demo_gw_request "https://portal.example.com/x" demo_env demo_s0).2.

Lemma demo_registers : bootstrap_gateway_client demo_env demo_s0 = (Ok demo_line, demo_s1).
Proof. vm_compute. reflexivity. Qed.
Lemma demo_starts : start demo_gw_request "https://portal.example.com/x" demo_env demo_s0 = (Ok demo_away, demo_s3)
  /\ rs_status demo_away = 303.
Proof. vm_compute. done. Qed.

Lemma demo_no_clients : oauth_clients (db demo_s0) = ∅.
Proof. reflexivity. Qed.

Lemma demo_clients_unique : clients_unique (db demo_s0).
Proof. intros i j a b H. rewrite demo_no_clients in H. by apply lookup_empty_Some in H. Qed.

Lemma demo_client_scopes i c : oauth_clients (db demo_s0) !! i = Some c ->
  oc_client_id c = gateway_client_id (settings demo_env) -> oc_allowed_scopes c = ["openid"; "profile"; "email"].
Proof. intros H. rewrite demo_no_clients in H. by apply lookup_empty_Some in H. Qed.

Example gateway_sign_in_accepted_witness : exists q state parked,
  demo_away = redirect 303 (issuer_base (settings demo_env) +:+ "/oidc/authorize?" +:+ urlencode q)
  /\ gl_return_url parked = "https://portal.example.com/x"
  /\ forall rq' e3 s4 resp s5, oauth_clients (db s4) = oauth_clients (db demo_s1) ->
     authorize rq' q e3 s4 = (Ok resp, s5) -> leads_on (settings demo_env) q state parked (db s5) resp.
Proof.
  assert (gateway_client_id (settings demo_env) <> "") as Hne by done.
  destruct demo_starts as [Hstart H303].
  destruct (gateway_sign_in_accepted demo_env demo_s0 demo_line demo_s1 demo_gw_request "https://portal.example.com/x"
    demo_env demo_s0 demo_away demo_s3 demo_registers demo_clients_unique demo_client_scopes Hne eq_refl Hstart H303)
    as (q & state & parked & H1 & _ & _ & H2 & _ & _ & H3).
  exists q, state, parked. split; [exact H1|]. split; [exact H2|exact H3].
Defined.

Definition demo_admin_run := bootstrap_admin (argon := demo_argon) "root@example.com" "Root" demo_env demo_s0.
Definition demo_s2 : St := demo_admin_run.2.
Definition demo_lines : list string := match demo_admin_run.1 with Ok l => l | Raise _ => [] end.

Lemma demo_admin_runs : bootstrap_admin (argon := demo_argon) "root@example.com" "Root" demo_env demo_s0 = (Ok demo_lines, demo_s2).
Proof. vm_compute. reflexivity. Qed.

Example bootstrap_admin_sound_witness : exists uid u password,
  users (db demo_s2) = <[uid := u]> (users (db demo_s0))
  /\ @argon_verify demo_argon (u_password_hash u) password = Verified.
Proof.
  destruct (@bootstrap_admin_sound demo_argon demo_argon_laws "root@example.com" "Root" demo_env demo_s0 demo_lines demo_s2 demo_admin_runs)
    as (uid & u & password & created & _ & Hu & _ & _ & Hv & _).
  exists uid, u, password. split; [exact Hu|exact Hv].
Defined.
