(* ===== verification/Logs.v ===== *)
(** * Logs: logs.py, the lines of the log

    A record is formatted as one JSON object on one line.  The arguments of a record are
    known by what [str] and [int] give of them; an extra that is not a JSON value stands
    as its text ([default=str]). *)

From S2P Require Import Prelude PyStr Encoding Json JsonText JsonRound PyTime IsoTime Config Db Effects.
Local Open Scope Z_scope.

Definition STANDARD_ATTRS : list string :=
  ["args"; "color_message"; "asctime"; "created"; "exc_info"; "exc_text"; "filename"; "funcName"; "levelname"; "levelno";
   "lineno"; "message"; "module"; "msecs"; "msg"; "name"; "pathname"; "process"; "processName"; "relativeCreated";
   "stack_info"; "taskName"; "thread"; "threadName"].

Record Arg := mkArg { arg_str : string; arg_int : result Z }.

Record LogRecord := mkLogRecord {
  lr_name : string;
  lr_levelname : string;
  lr_created : Z;
  lr_message : string;               (* [getMessage()] *)
  lr_args : option (list Arg);       (* [None]: not a tuple *)
  lr_dict : list (string * json);    (* the items of [__dict__] *)
  lr_exc : option string;            (* [formatException(exc_info)] *)
}.

Definition Fields : Type := list (string * json).

(** [int(text)] of a text of digits: too long a text raises [ValueError]. *)
Definition digits_int (s : string) : option Z :=
  if bool_decide (String.length s <= INT_MAX_STR_DIGITS)%nat then Some (digits_value s 0) else None.

Definition source_fields (addr : string) : option Fields :=
  match rpartition ":" addr with
  | Some (src, src_port) =>
      if negb (bool_decide (src_port = "")) && all_chars is_digit src_port
      then (fun p => [("src", JStr src); ("src_port", JInt p)]) <$> digits_int src_port
      else Some (if bool_decide (addr = "") then [] else [("src", JStr addr)])
  | None => Some (if bool_decide (addr = "") then [] else [("src", JStr addr)])
  end.

Definition uri_fields (full_path : string) : Fields :=
  match partition "?" full_path with
  | Some (path, query) =>
      ("uri_path", JStr path) :: (if bool_decide (query = "") then [] else [("uri_query", JStr query)])
  | None => [("uri_path", JStr full_path)]
  end.

(** [None] keeps the packed message; an exception other than the two caught leaves. *)
Definition split_uvicorn_access (r : LogRecord) : result (option Fields) :=
  if negb (bool_decide (lr_name r = "uvicorn.access")) then Ok None
  else match lr_args r with
  | Some [client_addr; method; full_path; http_version; status_code] =>
      match arg_int status_code with
      | Raise (TypeError _) | Raise (ValueError _) => Ok None
      | Raise x => Raise x
      | Ok status =>
          Ok ((fun src => [("msg", JStr "access"); ("http_method", JStr (arg_str method)); ("url", JStr (arg_str full_path));
                           ("status", JInt status); ("http_version", JStr (arg_str http_version))]
                          ++ src ++ uri_fields (arg_str full_path))
              <$> source_fields (arg_str client_addr))
      end
  | _ => Ok None
  end.

(** The extras: not a standard attribute, not private, not taken. *)
Definition add_extra (out : Fields) (kv : string * json) : Fields :=
  if negb (bool_decide (kv.1 ∈ STANDARD_ATTRS)) && negb (startswith kv.1 "_") && bool_decide (assoc kv.1 out = None)
  then assoc_set kv.1 kv.2 out else out.

Definition base_fields (service : string) (r : LogRecord) : Fields :=
  [("ts", JStr (isoformat (lr_created r))); ("level", JStr (lower (lr_levelname r))); ("service", JStr service);
   ("logger", JStr (lr_name r)); ("msg", JStr (lr_message r))].

Definition line_fields (service : string) (r : LogRecord) : result Fields :=
  match split_uvicorn_access r with
  | Raise x => Raise x
  | Ok access =>
      let out := assoc_update (base_fields service r) (default [] access) in
      let out := foldl add_extra out (lr_dict r) in
      Ok (match lr_exc r with Some t => assoc_set "exc" (JStr t) out | None => out end)
  end.

(** [JsonLineFormatter.format]. *)
Definition format (service : string) (r : LogRecord) : result string :=
  match line_fields service r with
  | Raise x => Raise x
  | Ok out => Ok (dumps_compact (JObj out))
  end.

(** ** Specification *)

(** What the texts of a record are: characters that UTF-8 can encode, extras that are JSON
    values, and ASCII arguments with a status of an ordinary size. *)
Record plain_record (service : string) (r : LogRecord) : Prop := {
  pr_base : plain_json (JObj (base_fields service r));
  pr_extras : Forall (fun kv => good_text kv.1 /\ plain_json kv.2) (lr_dict r);
  pr_exc : forall t, lr_exc r = Some t -> good_text t;
  pr_args : forall args, lr_args r = Some args ->
    Forall (fun a => ascii_text (arg_str a) = true /\ forall n, arg_int a = Ok n -> plain_json (JInt n)) args;
}.

(** ** Lemmas *)

Lemma digits_value_bounds s : all_chars is_digit s = true -> forall a, 0 <= a ->
  a * 10 ^ Z.of_nat (String.length s) <= digits_value s a < (a + 1) * 10 ^ Z.of_nat (String.length s).
Proof.
  induction s as [|c s IH]; intros H a Ha; [cbn; lia|]. cbn [all_chars] in H. apply andb_true_iff in H as [Hc Hs].
  cbn [digits_value String.length]. rewrite Nat2Z.inj_succ, Z.pow_succ_r by lia.
  unfold is_digit, char_between in Hc. change (ord "0") with 48 in Hc. change (ord "9") with 57 in Hc. bool_simpl.
  specialize (IH Hs (a * 10 + (ord c - 48)) ltac:(lia)). pose proof (Z.pow_pos_nonneg 10 (Z.of_nat (String.length s))). nia.
Qed.

Lemma dec_nat_length n k : (1 <= k)%nat -> 0 <= n < 10 ^ Z.of_nat k -> (String.length (dec_nat n) <= k)%nat.
Proof.
  intros Hk Hn. destruct (dec_nat_digits n ltac:(lia)) as [Hd (c & s & E & H0) Hv]. specialize (Hv 0 "").
  rewrite app_empty_r in Hv. cbn [digits_value] in Hv. rewrite E in *. cbn [all_chars String.length digits_value] in *.
  apply andb_true_iff in Hd as [Hc Hs].
  destruct (decide (c = "0"%char)) as [Ec|Ec]; [specialize (H0 Ec) as Hz; injection Hz as _ ->; simpl; lia|].
  apply digit_cases in Hc as (d & Hd & ->). assert (1 <= d) by (destruct (decide (d = 0)) as [->|]; [done|lia]).
  rewrite ord_chr in Hv by lia. destruct (digits_value_bounds s Hs (0 * 10 + (48 + d - 48)) ltac:(lia)) as [Hl _].
  assert (Z.of_nat (String.length s) < Z.of_nat k); [|lia].
  apply (Z.pow_lt_mono_r_iff 10); [lia..|]. pose proof (Z.pow_pos_nonneg 10 (Z.of_nat (String.length s))). nia.
Qed.

Lemma digits_int_plain s n : s <> "" -> all_chars is_digit s = true -> digits_int s = Some n -> plain_json (JInt n).
Proof.
  unfold digits_int. intros Hne Hs. case_bool_decide as Hl; [|done]. intros [= <-].
  destruct (digits_value_bounds s Hs 0 ltac:(lia)) as [H1 H2].
  constructor. rewrite Z.abs_eq by lia. transitivity (String.length s); [|done]. apply dec_nat_length; [|lia].
  destruct s; [done|simpl; lia].
Qed.

(** Setting a field keeps an object plain. *)
Lemma assoc_set_keys {A} k (v : A) fs : (assoc_set k v fs).*1 = if bool_decide (k ∈ fs.*1) then fs.*1 else fs.*1 ++ [k].
Proof.
  induction fs as [|[k' v'] fs IH]; [done|]. cbn [assoc_set]. destruct (decide (k = k')) as [->|Hne].
  - rewrite bool_decide_eq_true_2, !fmap_cons by done. cbn [fst]. by rewrite bool_decide_eq_true_2 by set_solver.
  - rewrite bool_decide_eq_false_2, !fmap_cons, IH by done. cbn [fst]. do 2 case_bool_decide; set_solver.
Qed.

Lemma plain_set k v fs : plain_json (JObj fs) -> good_text k -> plain_json v -> plain_json (JObj (assoc_set k v fs)).
Proof.
  intros Hp Hk Hv. inversion Hp as [| | | | |? Hks Hnd Hvs]; subst. constructor.
  - rewrite assoc_set_keys. case_bool_decide; [done|]. apply Forall_app. by rewrite Forall_singleton.
  - rewrite assoc_set_keys. case_bool_decide as E; [done|]. apply NoDup_app. split; [done|].
    split; [|apply NoDup_singleton]. intros x Hx ->%list_elem_of_singleton. done.
  - clear Hp Hks Hnd. induction fs as [|[k' v'] fs IH]; [by repeat constructor|]. cbn in Hvs |- *.
    apply Forall_cons in Hvs as [? ?]. case_bool_decide; cbn; constructor; auto.
Qed.

Lemma plain_update fs out : plain_json (JObj out) -> Forall (fun kv => good_text kv.1 /\ plain_json kv.2) fs ->
  plain_json (JObj (assoc_update out fs)).
Proof.
  unfold assoc_update. intros Ho Hf. revert out Ho. induction Hf as [|[k v] fs [Hk Hv] Hf IH]; intros out Ho; [done|].
  cbn. apply IH. by apply plain_set.
Qed.

Lemma plain_extras fs out : plain_json (JObj out) -> Forall (fun kv => good_text kv.1 /\ plain_json kv.2) fs ->
  plain_json (JObj (foldl add_extra out fs)).
Proof.
  intros Ho Hf. revert out Ho. induction Hf as [|[k v] fs [Hk Hv] Hf IH]; intros out Ho; [done|].
  cbn. apply IH. unfold add_extra. case_match; [by apply plain_set|done].
Qed.

Lemma partition_ascii sep s h t : ascii_text s = true -> partition sep s = Some (h, t) -> ascii_text h = true /\ ascii_text t = true.
Proof. intros Hs ->%partition_Some. rewrite !all_chars_app in Hs. bool_simpl. done. Qed.
Lemma rpartition_ascii sep s h t : ascii_text s = true -> rpartition sep s = Some (h, t) -> ascii_text h = true /\ ascii_text t = true.
Proof. intros Hs ->%rpartition_Some. rewrite !all_chars_app in Hs. bool_simpl. done. Qed.

Notation plain_pairs := (Forall (fun kv : string * json => good_text kv.1 /\ plain_json kv.2)).

Lemma plain_pair k s : ascii_text k = true -> ascii_text s = true -> good_text k /\ plain_json (JStr s).
Proof. intros Hk Hs. split; [by apply good_ascii|]. constructor. by apply good_ascii. Qed.

Lemma source_plain addr fs : ascii_text addr = true -> source_fields addr = Some fs -> plain_pairs fs.
Proof.
  intros Ha. unfold source_fields.
  assert (plain_pairs (if bool_decide (addr = "") then [] else [("src", JStr addr)])) as Hd.
  { case_bool_decide; [constructor|]. apply Forall_singleton. by apply plain_pair. }
  destruct (rpartition ":" addr) as [[src port]|] eqn:E; [|by intros [= <-]].
  destruct (rpartition_ascii _ _ _ _ Ha E) as [Hs Hp].
  destruct (_ && _) eqn:Ed; [|by intros [= <-]]. bool_simpl.
  destruct (digits_int port) as [n|] eqn:En; [|done]. intros [= <-].
  apply Forall_cons. split; [by apply plain_pair|]. apply Forall_singleton. split; [by apply good_ascii|].
  by eapply digits_int_plain.
Qed.

Lemma uri_plain path : ascii_text path = true -> plain_pairs (uri_fields path).
Proof.
  intros Hp. unfold uri_fields. destruct (partition "?" path) as [[p q]|] eqn:E.
  - destruct (partition_ascii _ _ _ _ Hp E) as [H1 H2]. constructor; [by apply plain_pair|].
    case_bool_decide; [constructor|]. apply Forall_singleton. by apply plain_pair.
  - apply Forall_singleton. by apply plain_pair.
Qed.

Lemma access_plain service r fs : plain_record service r -> split_uvicorn_access r = Ok (Some fs) ->
  plain_pairs fs /\ assoc "msg" fs = Some (JStr "access").
Proof.
  intros [_ _ _ Hargs]. unfold split_uvicorn_access. case_bool_decide; cbn [negb]; [|done].
  destruct (lr_args r) as [[|a [|b [|c [|d [|x [|]]]]]]|]; try done. specialize (Hargs _ eq_refl).
  rewrite !Forall_cons in Hargs. destruct Hargs as ([Ha _] & [Hb _] & [Hc _] & [Hd _] & [_ Hx] & _).
  destruct (arg_int x) as [n|[]] eqn:Ei; try done. destruct (source_fields (arg_str a)) as [src|] eqn:Es; [|done].
  intros [= <-]. split; [|done].
  change (plain_pairs ([("msg", JStr "access"); ("http_method", JStr (arg_str b)); ("url", JStr (arg_str c));
    ("status", JInt n); ("http_version", JStr (arg_str d))] ++ src ++ uri_fields (arg_str c))).
  rewrite !Forall_app. split_and!; [|exact (source_plain _ _ Ha Es)|by apply uri_plain].
  repeat (constructor; [first [by apply plain_pair | by split; [apply good_ascii|apply Hx]]|]). constructor.
Qed.

Lemma fields_plain service r out : plain_record service r -> line_fields service r = Ok out -> plain_json (JObj out).
Proof.
  intros Hp. unfold line_fields. destruct (split_uvicorn_access r) as [access|] eqn:Ea; [|done]. intros [= <-].
  assert (plain_json (JObj (foldl add_extra (assoc_update (base_fields service r) (default [] access)) (lr_dict r)))) as H.
  { apply plain_extras; [|apply Hp]. apply plain_update; [apply Hp|]. destruct access as [fs|]; [|constructor].
    by eapply access_plain. }
  destruct (lr_exc r) as [t|] eqn:Et; [|done]. apply plain_set; [done|by apply good_ascii|]. constructor. by eapply pr_exc.
Qed.

Lemma extras_keep k v fs : forall out, assoc k out = Some v -> assoc k (foldl add_extra out fs) = Some v.
Proof.
  induction fs as [|[k' v'] fs IH]; intros out Ho; [done|]. cbn. apply IH. unfold add_extra. cbn [fst snd].
  destruct (_ && bool_decide _) eqn:E; [|done]. bool_simpl. rewrite assoc_set_get_ne; [done|]. intros ->. congruence.
Qed.

Lemma update_keep k (fs : Fields) : forall out : Fields, k ∉ fs.*1 -> assoc k (assoc_update out fs) = assoc k out.
Proof.
  induction fs as [|[k' v'] fs IH]; intros out Hk; [done|]. cbn. apply not_elem_of_cons in Hk as [Hne Hk].
  change (assoc k (assoc_update (assoc_set k' v' out) fs) = assoc k out). rewrite IH by done. by apply assoc_set_get_ne.
Qed.

(** The names of the fields that an access record adds. *)
Lemma access_names r fs k : split_uvicorn_access r = Ok (Some fs) -> k ∈ fs.*1 -> k ∉ ["ts"; "level"; "service"; "logger"].
Proof.
  unfold split_uvicorn_access, source_fields, uri_fields. intros H Hk.
  repeat (match type of H with context [match ?x with _ => _ end] => destruct x end; try discriminate H);
    cbn in H; try (destruct (digits_int _)); simplify_eq/=; cbn in Hk; set_solver.
Qed.

Lemma own_field service r out k : line_fields service r = Ok out -> k ∈ ["ts"; "level"; "service"; "logger"] ->
  assoc k out = assoc k (base_fields service r).
Proof.
  unfold line_fields. destruct (split_uvicorn_access r) as [access|] eqn:Ea; [|done]. intros [= <-] Hk.
  assert (is_Some (assoc k (base_fields service r))) as [v Hv].
  { rewrite !elem_of_cons, elem_of_nil in Hk. destruct Hk as [->|[->|[->|[->|[]]]]]; by eexists. }
  assert (k <> "exc") as Hexc by (intros ->; set_solver).
  assert (assoc k (foldl add_extra (assoc_update (base_fields service r) (default [] access)) (lr_dict r)) = Some v) as H.
  { apply extras_keep. rewrite update_keep; [done|]. destruct access as [fs|]; [|set_solver].
    intros Hin. by eapply access_names in Hin. }
  rewrite Hv. destruct (lr_exc r); [by rewrite assoc_set_get_ne|done].
Qed.

(** ** Theorems *)

(** C37: A record is one line that reads back as one object, whatever its texts and extras hold:
    the line has only printable ASCII characters, so that no part of it can start another
    entry, and the time, level, service and logger it reports are the record's own, which no
    extra and no field of a request can replace. *)
Theorem log_line_sound service r line (Hp : plain_record service r) (H : format service r = Ok line) :
  line_text line = true
  /\ exists out, json_loads line = Some (JObj out)
     /\ assoc "ts" out = Some (JStr (isoformat (lr_created r)))
     /\ assoc "level" out = Some (JStr (lower (lr_levelname r)))
     /\ assoc "service" out = Some (JStr service)
     /\ assoc "logger" out = Some (JStr (lr_name r)).
Proof.
  unfold format in H. destruct (line_fields service r) as [out|] eqn:E; [|done]. injection H as <-.
  pose proof (fields_plain _ _ _ Hp E) as Hj. split; [by apply dumps_line|].
  exists out. rewrite (loads_dumps _ Hj), !(own_field _ _ _ _ E) by set_solver. done.
Qed.

(** The records of every logger but the access log of the server are formatted. *)
Theorem other_lines_formatted service r (H : lr_name r <> "uvicorn.access") : exists line, format service r = Ok line.
Proof.
  unfold format, line_fields, split_uvicorn_access. rewrite bool_decide_eq_false_2 by done. by eexists.
Qed.

(** ** Witness *)

Definition demo_access : LogRecord :=
  mkLogRecord "uvicorn.access" "INFO" (seconds 1000000) "10.0.0.9:4312 - GET /a?b=1 HTTP/1.1 200"
    (Some [mkArg "10.0.0.9:4312" (Raise (ValueError "")); mkArg "GET" (Raise (ValueError ""));
           mkArg "/a?b=1" (Raise (ValueError "")); mkArg "1.1" (Raise (ValueError "")); mkArg "200" (Ok 200)])
    [("service", JStr "forged"); ("note", JStr (String (chr 10) "{}"))] None.

Lemma demo_access_plain : plain_record "idp" demo_access.
Proof.
  constructor.
  - cbn. repeat first [apply good_ascii; reflexivity | constructor; cbn | set_solver].
  - repeat constructor; cbn; apply good_ascii; reflexivity.
  - done.
  - intros args [= <-]. repeat (constructor; [split; [reflexivity|cbn; intros n [=]; subst]|]); [|constructor].
    constructor. vm_compute. lia.
Qed.

Example log_line_sound_witness : exists line, format "idp" demo_access = Ok line /\ line_text line = true
  /\ exists out, json_loads line = Some (JObj out) /\ assoc "service" out = Some (JStr "idp").
Proof.
  assert (exists line, format "idp" demo_access = Ok line) as [line E] by (eexists; vm_compute; reflexivity).
  destruct (log_line_sound "idp" demo_access line demo_access_plain E) as (H & out & Ho & _ & _ & Hs & _).
  exists line. split; [exact E|]. split; [exact H|]. exists out. split; [exact Ho|exact Hs].
Defined.
