(* ===== verification/LogFiles.v ===== *)
(** * LogFiles: logs.py, the rotating files that processes share

    [SafeRotatingFileHandler] over a directory: names refer to files, an open stream keeps
    its file whatever becomes of the name.  A line is logged in four steps, between which
    the other processes run; the rotation, under its lock, is one step, since the other
    processes only touch the live name, which one rename replaces.  The directory is
    writable: errors of the operating system are not modelled. *)

From S2P Require Import Prelude PyStr.
Local Open Scope Z_scope.

(** Name 0 is the live file, name k its k-th archive. *)
Record Files := mkFiles { names : gmap nat nat; contents : gmap nat (list string) }.

Record Limits := mkLimits { maxBytes : Z; backupCount : nat }.

Fixpoint bytes_in (lines : list string) : Z :=
  match lines with [] => 0 | l :: rest => Z.of_nat (String.length l) + bytes_in rest end.
(** [os.path.getsize]; [None] when there is no such file. *)
Definition getsize (fs : Files) : option Z :=
  bytes_in <$> (names fs !! 0%nat ≫= fun f => contents fs !! f).

(** A handler: its open stream, and the file it remembers as the live one. *)
Record Handler := mkHandler { stream : option nat; dev_ino : option nat }.

Definition remember (fs : Files) (h : Handler) : Handler := mkHandler (stream h) (names fs !! 0%nat).

(** The start of [emit]: the live file, and the stream closed if it is another one. *)
Definition look (fs : Files) (h : Handler) : option nat * Handler :=
  let current := names fs !! 0%nat in
  (current,
   if bool_decide (stream h <> None) && negb (bool_decide (current = dev_ino h)) then mkHandler None (dev_ino h) else h).

Definition shouldRollover (lim : Limits) (fs : Files) : bool :=
  if maxBytes lim <=? 0 then false
  else match getsize fs with Some n => maxBytes lim <=? n | None => false end.

(** The chain of renames of the standard handler: the oldest archive goes, every other
    moves up, the live file becomes the first. *)
Fixpoint shift (k : nat) (t : gmap nat nat) : gmap nat nat :=
  match k with
  | O => t
  | S k' =>
      let t' := match t !! k with Some f => <[S k := f]> (delete k t) | None => t end in
      shift k' t'
  end.
Definition rename_live (t : gmap nat nat) : gmap nat nat :=
  match t !! 0%nat with Some f => <[1%nat := f]> (delete 0%nat t) | None => delete 1%nat t end.
Definition rotate (backups : nat) (t : gmap nat nat) : gmap nat nat :=
  match backups with O => t | S k => rename_live (shift k t) end.

(** [doRollover], under the lock: the size is looked at again. *)
Definition doRollover (lim : Limits) (fs : Files) (h : Handler) : Files * Handler :=
  match getsize fs with
  | None => (fs, h)
  | Some n =>
      if n <? maxBytes lim then (fs, h)
      else
        let fs' := mkFiles (rotate (backupCount lim) (names fs)) (contents fs) in
        (fs', remember fs' (mkHandler None (dev_ino h)))
  end.

(** The base handler's write: the live file is opened, or made, if no stream is open, and
    the line is appended to the stream's file. *)
Definition open_live (fs : Files) : nat * Files :=
  match names fs !! 0%nat with
  | Some f => (f, fs)
  | None => let f := fresh (dom (contents fs)) in (f, mkFiles (<[0%nat := f]> (names fs)) (<[f := []]> (contents fs)))
  end.
Definition write (line : string) (fs : Files) (h : Handler) : Files * Handler :=
  let '(f, fs') := match stream h with Some f => (f, fs) | None => open_live fs end in
  (mkFiles (names fs') (alter (fun ls => ls ++ [line]) f (contents fs')), mkHandler (Some f) (dev_ino h)).

Definition settle (current : option nat) (fs : Files) (h : Handler) : Handler :=
  if bool_decide (current = dev_ino h) then h else remember fs h.

(** One process that logs alone, in one go. *)
Definition emit (lim : Limits) (line : string) (fs : Files) (h : Handler) : Files * Handler :=
  let '(current, h1) := look fs h in
  let '(fs2, h2) := if shouldRollover lim fs then doRollover lim fs h1 else (fs, h1) in
  let '(fs3, h3) := write line fs2 h2 in
  (fs3, settle current fs3 h3).

(** ** Processes *)

Inductive Phase :=
| Idle
| Looked (line : string) (current : option nat)
| Full (line : string) (current : option nat)
| Ready (line : string) (current : option nat)
| Written (current : option nat).
Record Proc := mkProc { handler : Handler; phase : Phase }.
Record Host := mkHost { files : Files; procs : gmap nat Proc }.

(** What one process does next. *)
Inductive proc_step (lim : Limits) : Files * Proc -> Files * Proc -> Prop :=
| step_look fs h line : proc_step lim (fs, mkProc h Idle) (fs, mkProc (look fs h).2 (Looked line (look fs h).1))
| step_full fs h line cur : shouldRollover lim fs = true ->
    proc_step lim (fs, mkProc h (Looked line cur)) (fs, mkProc h (Full line cur))
| step_room fs h line cur : shouldRollover lim fs = false ->
    proc_step lim (fs, mkProc h (Looked line cur)) (fs, mkProc h (Ready line cur))
| step_roll fs h line cur :
    proc_step lim (fs, mkProc h (Full line cur))
      ((doRollover lim fs h).1, mkProc (doRollover lim fs h).2 (Ready line cur))
| step_write fs h line cur :
    proc_step lim (fs, mkProc h (Ready line cur)) ((write line fs h).1, mkProc (write line fs h).2 (Written cur))
| step_settle fs h cur : proc_step lim (fs, mkProc h (Written cur)) (fs, mkProc (settle cur fs h) Idle).

Inductive host_step (lim : Limits) : Host -> Host -> Prop :=
| host_proc host p q fs' q' : procs host !! p = Some q -> proc_step lim (files host, q) (fs', q') ->
    host_step lim host (mkHost fs' (<[p := q']> (procs host))).

(** The next step of a process, [line] being what it logs next. *)
Definition advance (lim : Limits) (line : string) (fs : Files) (q : Proc) : Files * Proc :=
  let h := handler q in
  match phase q with
  | Idle => (fs, mkProc (look fs h).2 (Looked line (look fs h).1))
  | Looked l cur => (fs, mkProc h (if shouldRollover lim fs then Full l cur else Ready l cur))
  | Full l cur => ((doRollover lim fs h).1, mkProc (doRollover lim fs h).2 (Ready l cur))
  | Ready l cur => ((write l fs h).1, mkProc (write l fs h).2 (Written cur))
  | Written cur => (fs, mkProc (settle cur fs h) Idle)
  end.

Lemma advance_step lim line fs q : proc_step lim (fs, q) (advance lim line fs q).
Proof.
  destruct q as [h []]; unfold advance; cbn [handler phase]; try constructor.
  destruct (shouldRollover lim fs) eqn:E; by constructor.
Qed.

(** ** Specification *)

Definition size_of (fs : Files) (f : nat) : Z := bytes_in (default [] (contents fs !! f)).

(** The directory holds the live file and at most [backupCount] archives, each of its own
    and each full. *)
Record well_kept (lim : Limits) (fs : Files) : Prop := {
  wk_bound : forall k f, names fs !! k = Some f -> (k <= backupCount lim)%nat;
  wk_own : forall j k f, names fs !! j = Some f -> names fs !! k = Some f -> j = k;
  wk_file : forall k f, names fs !! k = Some f -> is_Some (contents fs !! f);
  wk_full : forall k f, names fs !! S k = Some f -> maxBytes lim <= size_of fs f;
}.

(** A new directory, and processes that have not logged yet. *)
Definition no_files : Files := mkFiles ∅ ∅.
Definition new_proc : Proc := mkProc (mkHandler None None) Idle.
Definition fresh_host (host : Host) : Prop :=
  files host = no_files /\ forall p q, procs host !! p = Some q -> q = new_proc.

(** ** Lemmas *)

Lemma bytes_app a b : bytes_in (a ++ b) = bytes_in a + bytes_in b.
Proof. induction a as [|l a IH]; simpl; lia. Qed.
Lemma bytes_nonneg a : 0 <= bytes_in a.
Proof. induction a; simpl; lia. Qed.

(** What a rename to the next name keeps. *)
Record kept (lim : Limits) (full : nat -> Prop) (t : gmap nat nat) : Prop := {
  kp_bound : forall k f, t !! k = Some f -> (k <= backupCount lim)%nat;
  kp_own : forall j k f, t !! j = Some f -> t !! k = Some f -> j = k;
  kp_full : forall k f, t !! S k = Some f -> full f;
}.

Lemma kept_rename lim full t k f : kept lim full t -> t !! k = Some f -> (S k <= backupCount lim)%nat -> full f ->
  kept lim full (<[S k := f]> (delete k t)).
Proof.
  intros [Hb Ho Hf] Hk Hl Hfull. constructor.
  - intros j g. rewrite lookup_insert_Some, lookup_delete_Some. intros [[<- _]|(_ & _ & Hj)]; [done|by eapply Hb].
  - intros i j g. rewrite !lookup_insert_Some, !lookup_delete_Some.
    intros [[<- <-]|(Hi & Hik & Hig)] [[<- Hg]|(Hj & Hjk & Hjg)]; [done|..].
    + destruct Hjk. by eapply Ho.
    + subst g. destruct Hik. by eapply Ho.
    + by eapply Ho.
  - intros j g. rewrite lookup_insert_Some, lookup_delete_Some. intros [[_ <-]|(_ & _ & Hj)]; [done|by eapply Hf].
Qed.

Lemma kept_shift lim full k t : kept lim full t -> (S k <= backupCount lim)%nat -> kept lim full (shift k t).
Proof.
  revert t. induction k as [|k IH]; intros t Ht Hk; [done|]. cbn [shift]. apply IH; [|lia].
  destruct (t !! S k) as [f|] eqn:E; [|done]. apply kept_rename; [done..|]. by eapply kp_full.
Qed.

Lemma shift_live k t : shift k t !! 0%nat = t !! 0%nat.
Proof.
  revert t. induction k as [|k IH]; intros t; [done|]. cbn [shift]. rewrite IH. destruct (t !! S k); [|done].
  by rewrite lookup_insert_ne, lookup_delete_ne.
Qed.

(** The files that have names are among the old ones. *)
Lemma shift_files k : forall t j f, shift k t !! j = Some f -> exists i, t !! i = Some f.
Proof.
  induction k as [|k IH]; intros t j f H; [by exists j|]. cbn [shift] in H. apply IH in H as (i & H).
  destruct (t !! S k) as [g|] eqn:E; [|by exists i].
  apply lookup_insert_Some in H as [[_ <-]|(_ & H)]; [by exists (S k)|]. apply lookup_delete_Some in H as [_ H]. by exists i.
Qed.

Lemma rotate_kept lim full t f : kept lim full t -> t !! 0%nat = Some f -> full f -> kept lim full (rotate (backupCount lim) t).
Proof.
  intros Ht H0 Hf. unfold rotate. destruct (backupCount lim) as [|k] eqn:E; [done|].
  unfold rename_live. rewrite shift_live, H0.
  apply kept_rename; [apply kept_shift; [done|lia]|by rewrite shift_live|lia|done].
Qed.

Lemma rotate_files b t j f : rotate b t !! j = Some f -> exists i, t !! i = Some f.
Proof.
  destruct b as [|k]; [by exists j|]. unfold rotate, rename_live. rewrite shift_live.
  destruct (t !! 0%nat) as [g|] eqn:E.
  - rewrite lookup_insert_Some, lookup_delete_Some. intros [[_ <-]|(_ & _ & H)]; [by exists 0%nat|by eapply shift_files].
  - rewrite lookup_delete_Some. intros [_ H]. by eapply shift_files.
Qed.

Lemma well_kept_of lim fs : (forall k f, names fs !! k = Some f -> is_Some (contents fs !! f)) ->
  kept lim (fun f => maxBytes lim <= size_of fs f) (names fs) -> well_kept lim fs.
Proof. intros Hc [Hb Ho Hf]. by constructor. Qed.

Lemma roll_well_kept lim fs h : well_kept lim fs -> well_kept lim (doRollover lim fs h).1.
Proof.
  intros [Hb Ho Hc Hf]. unfold doRollover, getsize. destruct (names fs !! 0%nat) as [f|] eqn:E0; [|done]. simpl.
  destruct (contents fs !! f) as [ls|] eqn:Ef; [|done]. simpl. destruct (_ <? _) eqn:El; [done|]. apply Z.ltb_ge in El.
  apply well_kept_of; cbn [names contents fst].
  - intros k g Hk. apply rotate_files in Hk as (i & Hi). by eapply Hc.
  - eapply (rotate_kept _ (fun g => maxBytes lim <= size_of fs g)); [done|exact E0|]. unfold size_of. by rewrite Ef.
Qed.

(** One more line in a file. *)
Definition append (line : string) (f : nat) (fs : Files) : Files :=
  mkFiles (names fs) (alter (fun ls => ls ++ [line]) f (contents fs)).

Lemma append_files line f fs g : is_Some (contents fs !! g) -> is_Some (contents (append line f fs) !! g).
Proof.
  intros Hg. cbn. destruct (decide (f = g)) as [->|Hne]; [rewrite lookup_alter_eq; by apply fmap_is_Some|by rewrite lookup_alter_ne].
Qed.

Lemma append_well_kept lim line f fs : well_kept lim fs -> well_kept lim (append line f fs).
Proof.
  intros [Hb Ho Hc Hf]. constructor; [done|done|intros k g Hk; apply append_files; by eapply Hc|].
  intros k g Hk. specialize (Hf _ _ Hk). unfold size_of, append in *. cbn [contents].
  destruct (decide (f = g)) as [->|Hne]; [|by rewrite lookup_alter_ne]. rewrite lookup_alter_eq.
  destruct (contents fs !! g) as [ls|]; simpl in *; [rewrite bytes_app; pose proof (bytes_nonneg [line]); simpl in *; lia|lia].
Qed.

(** A new live file. *)
Definition create (f : nat) (fs : Files) : Files := mkFiles (<[0%nat := f]> (names fs)) (<[f := []]> (contents fs)).

Lemma create_files f fs g : is_Some (contents fs !! g) -> is_Some (contents (create f fs) !! g).
Proof.
  intros Hg. unfold create. cbn [contents]. destruct (decide (f = g)) as [->|Hne]; [rewrite lookup_insert_eq; by eexists|].
  by rewrite lookup_insert_ne.
Qed.

Lemma create_well_kept lim f fs : well_kept lim fs -> contents fs !! f = None -> well_kept lim (create f fs).
Proof.
  intros [Hb Ho Hc Hf] Hn.
  assert (forall k, names fs !! k <> Some f) as Hfree by (intros k Hk; destruct (Hc _ _ Hk); congruence).
  constructor; unfold create; cbn [names].
  - intros k g. rewrite lookup_insert_Some. intros [[<- _]|[_ H]]; [lia|by eapply Hb].
  - intros i j g. rewrite !lookup_insert_Some.
    intros [[<- <-]|[_ Hi]] [[<- Hg]|[_ Hj]]; [done|by destruct (Hfree j)|subst g; by destruct (Hfree i)|by eapply Ho].
  - intros k g Hk. apply lookup_insert_Some in Hk as [[_ <-]|[_ Hk]]; [cbn; rewrite lookup_insert_eq; by eexists|].
    apply create_files. by eapply Hc.
  - intros k g Hk. apply lookup_insert_Some in Hk as [[? _]|[_ Hk]]; [done|]. specialize (Hf _ _ Hk).
    unfold size_of in *. cbn [contents]. rewrite lookup_insert_ne; [done|]. intros <-. by destruct (Hfree (S k)).
Qed.

Lemma open_live_spec lim fs : well_kept lim fs -> let '(f, fs') := open_live fs in
  well_kept lim fs' /\ is_Some (contents fs' !! f) /\ names fs' !! 0%nat = Some f
  /\ forall g, is_Some (contents fs !! g) -> is_Some (contents fs' !! g).
Proof.
  intros Hw. unfold open_live. destruct (names fs !! 0%nat) as [f|] eqn:E0.
  - split; [done|]. split; [by eapply wk_file|]. by split.
  - set (f := fresh _). assert (contents fs !! f = None) as Hn by apply not_elem_of_dom, is_fresh.
    change (mkFiles (<[0%nat := f]> (names fs)) (<[f := []]> (contents fs))) with (create f fs).
    split; [by apply create_well_kept|]. split; [cbn; rewrite lookup_insert_eq; by eexists|].
    split; [apply lookup_insert_eq|]. intros g. apply create_files.
Qed.

Lemma write_well_kept lim line fs h : well_kept lim fs -> (forall f, stream h = Some f -> is_Some (contents fs !! f)) ->
  well_kept lim (write line fs h).1 /\ (forall f, is_Some (contents fs !! f) -> is_Some (contents (write line fs h).1 !! f))
  /\ (forall f, stream (write line fs h).2 = Some f -> is_Some (contents (write line fs h).1 !! f)).
Proof.
  intros Hw Hs. unfold write. destruct (stream h) as [f|].
  - cbn [fst snd stream]. change (mkFiles _ _) with (append line f fs). split; [by apply append_well_kept|].
    split; [intros; by apply append_files|]. intros g [= <-]. by apply append_files, Hs.
  - pose proof (open_live_spec lim fs Hw) as Ho. destruct (open_live fs) as [f fs']. destruct Ho as (Hw' & Hf & _ & Hk).
    cbn [fst snd stream]. change (mkFiles _ _) with (append line f fs'). split; [by apply append_well_kept|].
    split; [intros; by apply append_files, Hk|]. intros g [= <-]. by apply append_files.
Qed.

(** The invariant of the processes: the directory is well kept and every open stream is a
    file. *)
Definition host_ok (lim : Limits) (host : Host) : Prop :=
  well_kept lim (files host)
  /\ forall p q f, procs host !! p = Some q -> stream (handler q) = Some f -> is_Some (contents (files host) !! f).

Lemma roll_contents lim fs h : contents (doRollover lim fs h).1 = contents fs
  /\ (stream (doRollover lim fs h).2 = stream h \/ stream (doRollover lim fs h).2 = None).
Proof. unfold doRollover. destruct (getsize fs); [case_match|]; auto. Qed.

Lemma proc_keeps lim fs q fs' q' : proc_step lim (fs, q) (fs', q') -> well_kept lim fs ->
  (forall f, stream (handler q) = Some f -> is_Some (contents fs !! f)) ->
  well_kept lim fs' /\ (forall f, is_Some (contents fs !! f) -> is_Some (contents fs' !! f))
  /\ (forall f, stream (handler q') = Some f -> is_Some (contents fs' !! f)).
Proof.
  intros Hst Hw Hs. inversion Hst; subst; cbn [handler] in *.
  - split; [done|]. split; [done|]. intros f Hf. apply Hs. by destruct (_ && _).
  - done.
  - done.
  - destruct (roll_contents lim fs h) as [E Hr]. rewrite E. split; [by apply roll_well_kept|]. split; [done|].
    intros f Hf. apply Hs. destruct Hr; congruence.
  - by apply write_well_kept.
  - split; [done|]. split; [done|]. unfold settle. intros f Hf. apply Hs. by case_match.
Qed.

Lemma host_keeps lim host host' : host_ok lim host -> host_step lim host host' -> host_ok lim host'.
Proof.
  intros [Hw Hs] Hst. destruct Hst as [host p q fs' q' Hp Hst].
  destruct (proc_keeps _ _ _ _ _ Hst Hw (fun f => Hs p q f Hp)) as (Hw' & Hk & Hs'). split; [done|].
  intros i r f. cbn [procs files]. rewrite lookup_insert_Some. intros [[<- <-]|[_ Hi]] Hf; [by apply Hs'|]. by eapply Hk, Hs.
Qed.

(** ** Theorem *)

(** C35: However many processes log to one directory and however their steps interleave, it
    holds the live file and at most [backupCount] archives, no file has two names, and every
    archive is full: two processes that find the file full do not rotate it twice. *)
Theorem directory_well_kept lim host host' (Hfresh : fresh_host host) (Hsteps : rtc (host_step lim) host host') :
  well_kept lim (files host').
Proof.
  assert (host_ok lim host) as H0.
  { destruct Hfresh as [Hf Hp]. split.
    - rewrite Hf. constructor; cbn [names no_files]; intros *; rewrite ?lookup_empty; done.
    - intros p q f Hq. by rewrite (Hp _ _ Hq). }
  assert (host_ok lim host') as [H _]; [|done]. clear Hfresh. induction Hsteps as [|x y z Hxy Hyz IH]; [done|].
  apply IH. by eapply host_keeps.
Qed.

(** ** Runs of a schedule *)

(** The processes named take their next step, one after the other. *)
Fixpoint schedule (lim : Limits) (line : string) (picks : list nat) (host : Host) : Host :=
  match picks with
  | [] => host
  | p :: rest =>
      match procs host !! p with
      | Some q => let '(fs, q') := advance lim line (files host) q in
                  schedule lim line rest (mkHost fs (<[p := q']> (procs host)))
      | None => schedule lim line rest host
      end
  end.

Lemma schedule_steps lim line picks : forall host, rtc (host_step lim) host (schedule lim line picks host).
Proof.
  induction picks as [|p rest IH]; intros host; [apply rtc_refl|]. cbn [schedule].
  destruct (procs host !! p) as [q|] eqn:Hp; [|apply IH].
  pose proof (advance_step lim line (files host) q) as Hst. destruct (advance lim line (files host) q) as [fs q'].
  eapply rtc_l; [by apply (host_proc lim host p q)|apply IH].
Qed.

Definition two_procs : Host := mkHost no_files {[ 0%nat := new_proc; 1%nat := new_proc ]}.

Lemma two_procs_fresh : fresh_host two_procs.
Proof.
  split; [done|]. intros p q. cbn [procs two_procs]. rewrite lookup_insert_Some, lookup_singleton_Some. naive_solver.
Qed.

(** The two processes of the example fill three files. *)
Definition demo_picks : list nat := [0; 0; 0; 0; 1; 1; 1; 1; 1; 0; 0; 0; 0; 1; 1; 1; 1; 1; 0]%nat.
Definition demo_host : Host := schedule (mkLimits 1 2) "x" demo_picks two_procs.

Example directory_well_kept_witness : rtc (host_step (mkLimits 1 2)) two_procs demo_host
  /\ well_kept (mkLimits 1 2) (files demo_host) /\ names (files demo_host) !! 2%nat = Some 1%nat.
Proof.
  pose proof (schedule_steps (mkLimits 1 2) "x" demo_picks two_procs) as H.
  split; [exact H|]. split; [exact (directory_well_kept (mkLimits 1 2) two_procs demo_host two_procs_fresh H)|reflexivity].
Defined.

(** A process that another one overtakes between its write and its second look remembers
    the new live file while its stream is an archive, so that its next line goes to the
    archive: the watch that is to reopen a rotated file does not see it. *)
Theorem rotated_file_kept_open : exists host q f,
  rtc (host_step (mkLimits 1 2)) two_procs host /\ procs host !! 0%nat = Some q /\ phase q = Idle
  /\ stream (handler q) = Some f /\ names (files host) !! 1%nat = Some f
  /\ (look (files host) (handler q)).2 = handler q.
Proof.
  exists demo_host. eexists _, _. split; [apply schedule_steps|]. vm_compute. done.
Qed.
