(* ===== verification/LogTail.v ===== *)
(** * LogTail: what the files of one process hold

    A process that logs alone keeps the newest of its lines, in order. *)

From S2P Require Import Prelude PyStr LogFiles.
Local Open Scope Z_scope.

(** ** Specification *)

Fixpoint emits (lim : Limits) (lines : list string) (st : Files * Handler) : Files * Handler :=
  match lines with [] => st | l :: rest => emits lim rest (emit lim l st.1 st.2) end.

(** The lines under a name, and from the oldest archive to the live file. *)
Definition text (fs : Files) (k : nat) : list string := default [] (names fs !! k ≫= fun f => contents fs !! f).
Fixpoint chain (fs : Files) (k : nat) : list string :=
  match k with O => text fs 0 | S k' => text fs (S k') ++ chain fs k' end.

(** No name is missing below an archive. *)
Definition contiguous (t : gmap nat nat) : Prop := forall j k, (j <= k)%nat -> is_Some (t !! k) -> is_Some (t !! j).

(** The process has lost only its oldest lines, and none before the archives were full. *)
Record tail_kept (lim : Limits) (fs : Files) (h : Handler) (dropped lines : list string) : Prop := {
  tk_well : well_kept lim fs;
  tk_archives : forall j k, (1 <= j <= k)%nat -> is_Some (names fs !! k) -> is_Some (names fs !! j);
  tk_stream : forall f, stream h = Some f -> names fs !! 0%nat = Some f;
  tk_lines : lines = dropped ++ chain fs (backupCount lim);
  tk_dropped : dropped <> [] ->
    0 < maxBytes lim /\ (0 < backupCount lim)%nat /\ is_Some (names fs !! backupCount lim);
}.

(** ** Lemmas *)

Lemma shift_spec k : forall t j, (forall i, (1 <= i <= k)%nat -> is_Some (t !! S i) -> is_Some (t !! i)) ->
  shift k t !! j = if decide (j = 0 \/ k + 1 < j)%nat then t !! j
                   else if decide (j = 1)%nat then (if decide (k = 0)%nat then t !! j else None) else t !! (j - 1)%nat.
Proof.
  induction k as [|k IH]; intros t j Hp.
  - cbn [shift]. repeat (case_decide; try done); lia.
  - cbn [shift]. set (t' := match t !! S k with Some f => _ | None => t end).
    assert (forall i, t' !! i = if decide (i = S (S k)) then t !! S k else if decide (i = S k) then None else t !! i) as Ht'.
    { intros i. subst t'. destruct (t !! S k) as [f|] eqn:E.
      - destruct (decide (i = S (S k))) as [->|]; [by rewrite lookup_insert_eq|]. rewrite lookup_insert_ne by done.
        destruct (decide (i = S k)) as [->|]; [by rewrite lookup_delete_eq|by rewrite lookup_delete_ne].
      - destruct (decide (i = S (S k))) as [->|]; [|destruct (decide (i = S k)); congruence].
        destruct (t !! S (S k)) eqn:E2; [|done]. destruct (Hp (S k)) as [x Hx]; [lia|by rewrite E2|congruence]. }
    rewrite (IH t' j).
    2: { intros i Hi. rewrite !Ht'. repeat (case_decide; try lia); [by intros []|intros; apply Hp; [lia|done]]. }
    rewrite !Ht'. repeat (case_decide; try lia); try done; f_equal; lia.
Qed.

(** After a rotation every name holds what the name before it held. *)
Lemma rotate_spec b t j : contiguous t -> is_Some (t !! 0%nat) -> (forall k f, t !! k = Some f -> (k <= S b)%nat) ->
  rotate (S b) t !! j = match j with O => None | S i => if decide (i <= b)%nat then t !! i else None end.
Proof.
  intros Hc [f Hf] Hb. unfold rotate, rename_live. rewrite shift_live, Hf.
  assert (forall i, (1 <= i <= b)%nat -> is_Some (t !! S i) -> is_Some (t !! i)) as Hp by (intros i _ H; eapply Hc, H; lia).
  destruct j as [|i]; [by rewrite lookup_insert_ne, lookup_delete_eq|].
  destruct i as [|i]; [by rewrite lookup_insert_eq; case_decide; [|lia]|].
  rewrite lookup_insert_ne, lookup_delete_ne, shift_spec by done. case_decide as Ej.
  - rewrite decide_False by lia. destruct (t !! S (S i)) eqn:E; [|done]. apply Hb in E. lia.
  - rewrite !decide_False by lia. rewrite decide_True by lia. f_equal.
Qed.

Lemma text_append lim line f fs k : well_kept lim fs -> names fs !! 0%nat = Some f -> is_Some (contents fs !! f) ->
  text (append line f fs) k = text fs k ++ (if decide (k = 0%nat) then [line] else []).
Proof.
  intros Hw H0 [ls Hf]. unfold text, append. cbn [names contents]. destruct (names fs !! k) as [g|] eqn:Ek.
  - cbn [mbind option_bind]. destruct (decide (k = 0%nat)) as [->|Hk].
    + rewrite H0 in Ek. injection Ek as <-. by rewrite lookup_alter_eq, Hf.
    + rewrite lookup_alter_ne, app_nil_r; [done|]. intros <-. destruct Hk. by eapply wk_own.
  - destruct (decide (k = 0%nat)) as [->|]; [congruence|done].
Qed.

Lemma chain_append lim line f fs b : well_kept lim fs -> names fs !! 0%nat = Some f -> is_Some (contents fs !! f) ->
  chain (append line f fs) b = chain fs b ++ [line].
Proof.
  intros Hw H0 Hf. induction b as [|b IH]; cbn [chain]; rewrite (text_append lim) by done; [done|].
  rewrite decide_False, app_nil_r, IH by done. by rewrite app_assoc.
Qed.

Lemma text_open fs k : (forall k f, names fs !! k = Some f -> is_Some (contents fs !! f)) ->
  text (open_live fs).2 k = text fs k.
Proof.
  intros Hc. unfold open_live. destruct (names fs !! 0%nat) as [f|] eqn:E0; [done|]. cbn [snd].
  set (f := fresh _). assert (contents fs !! f = None) as Hn by apply not_elem_of_dom, is_fresh.
  unfold text. cbn [names contents]. destruct k as [|k].
  - rewrite E0, lookup_insert_eq. cbn. by rewrite lookup_insert_eq.
  - rewrite lookup_insert_ne by done. destruct (names fs !! S k) as [g|] eqn:Ek; [|done]. cbn.
    rewrite lookup_insert_ne; [done|]. intros <-. destruct (Hc _ _ Ek). congruence.
Qed.

Lemma chain_ext fs fs' b : (forall k, text fs' k = text fs k) -> chain fs' b = chain fs b.
Proof. intros H. induction b as [|b IH]; cbn [chain]; by rewrite ?IH, H. Qed.

(** The write of a process whose stream, if open, is the live file. *)
Lemma write_live line fs h : (forall f, stream h = Some f -> names fs !! 0%nat = Some f) ->
  write line fs h = (append line (open_live fs).1 (open_live fs).2, mkHandler (Some (open_live fs).1) (dev_ino h)).
Proof.
  intros Hs. unfold write. destruct (stream h) as [f|]; [|by destruct (open_live fs)].
  unfold open_live. by rewrite (Hs f eq_refl).
Qed.

Lemma look_keeps fs h : (forall f, stream h = Some f -> names fs !! 0%nat = Some f) ->
  forall f, stream (look fs h).2 = Some f -> names fs !! 0%nat = Some f.
Proof. intros Hs f. unfold look. cbn [snd]. case_match; [done|apply Hs]. Qed.

(** The live file is there when any file is. *)
Definition live_first (t : gmap nat nat) : Prop := forall k, is_Some (t !! k) -> is_Some (t !! 0%nat).

Lemma kept_contiguous lim fs h d ls : tail_kept lim fs h d ls -> live_first (names fs) -> contiguous (names fs).
Proof.
  intros [_ Ha _ _ _] Hl j k Hjk Hk. destruct j as [|j]; [by eapply Hl|]. eapply Ha; [|done]. lia.
Qed.

Lemma tail_handler lim fs h h' d ls : (forall f, stream h' = Some f -> stream h = Some f) ->
  tail_kept lim fs h d ls -> tail_kept lim fs h' d ls.
Proof. intros Hs [H1 H2 H3 H4 H5]. constructor; auto. Qed.

Lemma rolled_tail lim fs h d ls f : 0 < maxBytes lim -> tail_kept lim fs h d ls -> live_first (names fs) -> names fs !! 0%nat = Some f ->
  forall h', stream h' = None -> well_kept lim (mkFiles (rotate (backupCount lim) (names fs)) (contents fs)) ->
  exists d', tail_kept lim (mkFiles (rotate (backupCount lim) (names fs)) (contents fs)) h' d' ls.
Proof.
  intros Hm Ht Hl H0 h' Hs Hw'. pose proof (kept_contiguous _ _ _ _ _ Ht Hl) as Hc.
  destruct (decide (backupCount lim = 0%nat)) as [E0|Hb].
  { exists d. rewrite E0. destruct fs. eapply tail_handler, Ht. intros g Hg. congruence. }
  destruct Ht as [Hw Ha _ Hls Hd]. destruct (backupCount lim) as [|b] eqn:Eb; [done|].
  assert (forall j, rotate (S b) (names fs) !! j
    = match j with O => None | S i => if decide (i <= b)%nat then names fs !! i else None end) as Hr.
  { intros j. apply rotate_spec; [done|by exists f|]. intros k g Hk. rewrite <- Eb. exact (wk_bound _ _ Hw _ _ Hk). }
  exists (d ++ text fs (S b)). constructor; rewrite ?Eb; cbn [names contents]; [done|..].
  - intros j k Hjk [g Hk]. rewrite Hr in *. destruct k as [|k]; [done|]. destruct j as [|j]; [lia|].
    case_decide; [|done]. rewrite decide_True by lia. eapply Hc; [|by exists g]. lia.
  - intros g Hg. congruence.
  - rewrite Hls. cbn [chain]. rewrite <- app_assoc. f_equal. f_equal.
    assert (forall k, (k <= b)%nat -> chain (mkFiles (rotate (S b) (names fs)) (contents fs)) (S k) = chain fs k) as Hch.
    { induction k as [|k IH]; intros Hk; cbn [chain]; unfold text at 1; cbn [names contents]; rewrite Hr, decide_True by lia.
      - unfold text. cbn [names contents]. rewrite Hr. cbn. by rewrite app_nil_r.
      - f_equal. apply IH. lia. }
    symmetry. by apply Hch.
  - intros Hne. split; [done|]. split; [lia|]. rewrite Hr, decide_True by lia. apply (Hc b (S b)); [lia|].
    destruct d as [|x d]; [|by apply Hd]. unfold text in Hne. destruct (names fs !! S b); [by eexists|done].
Qed.

Lemma roll_tail lim fs h d ls : tail_kept lim fs h d ls -> live_first (names fs) -> shouldRollover lim fs = true ->
  exists d', tail_kept lim (doRollover lim fs h).1 (doRollover lim fs h).2 d' ls.
Proof.
  intros Ht Hl Hs. pose proof (roll_well_kept lim fs h (tk_well _ _ _ _ _ Ht)) as Hw. revert Hw.
  unfold shouldRollover in Hs. unfold doRollover. destruct (maxBytes lim <=? 0) eqn:Em; [done|]. apply Z.leb_gt in Em.
  destruct (getsize fs) as [n|] eqn:En; [|done]. apply Z.leb_le in Hs. rewrite (proj2 (Z.ltb_ge _ _)) by lia.
  cbn [fst snd]. intros Hw. unfold getsize in En. destruct (names fs !! 0%nat) as [f|] eqn:E0; [|done].
  by eapply rolled_tail.
Qed.

Lemma write_tail lim line fs h d ls : tail_kept lim fs h d ls ->
  tail_kept lim (write line fs h).1 (write line fs h).2 d (ls ++ [line]) /\ is_Some (names (write line fs h).1 !! 0%nat).
Proof.
  intros [Hw Ha Hs Hls Hd]. rewrite (write_live line fs h Hs). cbn [fst snd].
  pose proof (open_live_spec lim fs Hw) as Ho. pose proof (text_open fs) as Htext.
  assert (forall k, names fs !! S k = names (open_live fs).2 !! S k) as Hn.
  { intros k. unfold open_live. destruct (names fs !! 0%nat); [done|]. cbn. by rewrite lookup_insert_ne. }
  assert (forall k, is_Some (names fs !! k) -> is_Some (names (open_live fs).2 !! k)) as Hmono.
  { intros [|k] Hk; [|by rewrite <- Hn]. unfold open_live. destruct Hk as [g Hk]. rewrite Hk. by exists g. }
  destruct (open_live fs) as [f fs'] eqn:E. cbn [fst snd] in *. destruct Ho as (Hw' & Hf & H0 & _).
  split; [|by exists f]. constructor; cbn [append names stream].
  - by apply append_well_kept.
  - intros [|j] [|k] Hjk Hk; [lia..|]. rewrite <- Hn in *. by eapply Ha.
  - by intros g [= <-].
  - rewrite (chain_append lim) by done. rewrite Hls, (chain_ext fs' fs), app_assoc; [done|].
    intros k. symmetry. apply Htext. intros; by eapply wk_file.
  - intros Hne. destruct (Hd Hne) as (? & ? & ?). split_and!; [done..|]. by apply Hmono.
Qed.

Lemma emit_tail lim line fs h d ls : tail_kept lim fs h d ls -> live_first (names fs) ->
  exists d', tail_kept lim (emit lim line fs h).1 (emit lim line fs h).2 d' (ls ++ [line])
  /\ live_first (names (emit lim line fs h).1).
Proof.
  intros Ht Hl. unfold emit. destruct (look fs h) as [cur h1] eqn:El.
  assert (tail_kept lim fs h1 d ls) as Ht1.
  { eapply tail_handler, Ht. intros f. unfold look in El. injection El as _ <-. by case_match. }
  assert (exists d', tail_kept lim (if shouldRollover lim fs then doRollover lim fs h1 else (fs, h1)).1
    (if shouldRollover lim fs then doRollover lim fs h1 else (fs, h1)).2 d' ls) as (d' & Ht2).
  { destruct (shouldRollover lim fs) eqn:Es; [by eapply roll_tail|by exists d]. }
  destruct (if shouldRollover lim fs then doRollover lim fs h1 else (fs, h1)) as [fs2 h2]. cbn [fst snd] in Ht2.
  destruct (write_tail lim line fs2 h2 d' ls Ht2) as [Ht3 H0]. destruct (write line fs2 h2) as [fs3 h3]. cbn [fst snd] in *.
  exists d'. split; [|by intros k _]. eapply tail_handler, Ht3. unfold settle. intros f. by case_match.
Qed.

Lemma emits_tail lim lines : forall fs h d ls, tail_kept lim fs h d ls -> live_first (names fs) ->
  exists d', tail_kept lim (emits lim lines (fs, h)).1 (emits lim lines (fs, h)).2 d' (ls ++ lines).
Proof.
  induction lines as [|l rest IH]; intros fs h d ls Ht Hl; [exists d; by rewrite app_nil_r|]. cbn [emits fst snd].
  destruct (emit_tail lim l fs h d ls Ht Hl) as (d' & Ht' & Hl'). destruct (emit lim l fs h) as [fs' h'].
  destruct (IH fs' h' d' (ls ++ [l]) Ht' Hl') as (d2 & H). exists d2. by rewrite <- app_assoc in H.
Qed.

Lemma archive_full lim fs k : well_kept lim fs -> (1 <= k)%nat -> is_Some (names fs !! k) ->
  maxBytes lim <= bytes_in (text fs k).
Proof.
  intros Hw Hk [f Hf]. destruct k as [|k]; [lia|].
  pose proof (wk_full _ _ Hw _ _ Hf) as Hs. unfold size_of in Hs. unfold text. by rewrite Hf.
Qed.

(** ** Theorem *)

(** C36: A process that logs alone has in its files, from the oldest archive to the live file,
    exactly the newest of the lines it logged, in order; and it has lost an older one only
    if the limits ask for a rotation at all (both are positive) and every one of the
    [backupCount] archives is there and holds at least [maxBytes]. *)
Theorem newest_lines_kept lim lines fs h (H : emits lim lines (no_files, mkHandler None None) = (fs, h)) :
  exists dropped, lines = dropped ++ chain fs (backupCount lim)
  /\ (dropped <> [] -> 0 < maxBytes lim /\ (0 < backupCount lim)%nat
      /\ forall k, (1 <= k <= backupCount lim)%nat ->
           is_Some (names fs !! k) /\ maxBytes lim <= bytes_in (text fs k)).
Proof.
  assert (forall b, chain no_files b = []) as Hn.
  { induction b as [|b IH]; cbn [chain]; unfold text at 1; cbn [names no_files]; rewrite lookup_empty; [done|exact IH]. }
  assert (tail_kept lim no_files (mkHandler None None) [] []) as H0.
  { constructor; cbn [names no_files stream].
    - constructor; cbn [names no_files]; intros *; rewrite ?lookup_empty; done.
    - intros j k _ [f Hf]. by rewrite lookup_empty in Hf.
    - done.
    - by rewrite Hn.
    - done. }
  destruct (emits_tail lim lines _ _ _ _ H0) as (d & Ht); [intros k [f Hf]; cbn [names no_files] in Hf; by rewrite lookup_empty in Hf|].
  rewrite H in Ht. cbn [fst snd] in Ht. destruct Ht as [Hw Ha _ Hls Hd]. exists d. split; [done|].
  intros Hne. destruct (Hd Hne) as (Hm & Hb & Hlast). split; [done|]. split; [done|]. intros k Hk.
  assert (is_Some (names fs !! k)) as Hs by (eapply Ha, Hlast; lia). split; [done|]. apply archive_full; [done|lia|done].
Qed.

(** ** Witness *)

Definition demo_limits : Limits := mkLimits 4 2.

Example newest_lines_kept_witness :
  exists fs h, emits demo_limits ["aa"; "bb"; "cc"; "dd"; "ee"; "ff"; "gg"; "hh"] (no_files, mkHandler None None) = (fs, h)
  /\ chain fs 2 = ["cc"; "dd"; "ee"; "ff"; "gg"; "hh"] /\ 4 <= bytes_in (text fs 1).
Proof.
  destruct (emits demo_limits ["aa"; "bb"; "cc"; "dd"; "ee"; "ff"; "gg"; "hh"] (no_files, mkHandler None None)) as [fs h] eqn:E.
  exists fs, h. split; [reflexivity|]. destruct (newest_lines_kept demo_limits _ fs h E) as (d & Hd & Hfull).
  assert (chain fs 2 = ["cc"; "dd"; "ee"; "ff"; "gg"; "hh"]) as Hc
    by (vm_compute in E; injection E as <- _; vm_compute; reflexivity).
  split; [exact Hc|]. refine (proj2 (proj2 (proj2 (Hfull _)) 1%nat _)); [|split; repeat constructor].
  intros ->. change (backupCount demo_limits) with 2%nat in Hd. rewrite Hc in Hd. discriminate Hd.
Defined.
