(* ===== verification/LogSetup.v ===== *)
(** * LogSetup: logs.py, the loggers of a process

    [setup_logging] and [file_logger] over the tree of loggers of the [logging] module:
    the root, and the named loggers, of which one that was never asked for is as one with
    no level, no handlers, and propagation.  A handler is known by where it writes and by
    the service its formatter names; its lines are those of [Logs], its file that of
    [LogFiles]. *)

From S2P Require Import Prelude PyStr Json Config.
Local Open Scope Z_scope.

(** ** The module's state *)

Inductive Handler : Type :=
| StderrHandler (service : string)
| FileHandler (directory filename service : string).
#[export] Instance Handler_eq_dec : EqDecision Handler.
Proof. solve_decision. Defined.

Record Logger := mkLogger {
  level : Z;
  handlers : list Handler;
  propagate : bool;
}.

(** A logger as [getLogger] makes it. *)
Definition fresh_logger : Logger := mkLogger 0 [] true.

(** The loggers of the process and [_configured]. *)
Record Loggers := mkLoggers {
  root : Logger;
  loggers : gmap string Logger;
  configured : list string;
}.

Definition get_logger (st : Loggers) (name : string) : Logger := default fresh_logger (loggers st !! name).
Definition put_logger (name : string) (l : Logger) (st : Loggers) : Loggers :=
  mkLoggers (root st) (<[name := l]> (loggers st)) (configured st).
Definition put_root (l : Logger) (st : Loggers) : Loggers := mkLoggers l (loggers st) (configured st).

Definition INFO : Z := 20.

(** [Logger.setLevel] of a name; [None] is the ValueError for an unknown one. *)
Definition level_named (name : string) : option Z :=
  assoc name [("CRITICAL", 50); ("FATAL", 50); ("ERROR", 40); ("WARN", 30); ("WARNING", 30);
                    ("INFO", INFO); ("DEBUG", 10); ("NOTSET", 0)].

(** What the disk says of a directory: it is there or can be made, and takes new files. *)
Record Directory := mkDirectory { mkdir_ok : bool; writable : bool }.

Section Setup.
Context (cfg : Settings) (disk : string -> Directory).

(** [_make_file_handler]: the constructor opens nothing ([delay=True]), so that only
    making the directory can fail. *)
Definition make_file_handler (log_dir filename service : string) : option Handler :=
  if mkdir_ok (disk log_dir) then Some (FileHandler log_dir filename service) else None.

(** The handlers of the root of a service. *)
Definition root_handlers (service : string) : list Handler :=
  StderrHandler service ::
  (if bool_decide (log_dir cfg = "") then []
   else match make_file_handler (log_dir cfg) (service +:+ ".log") service with
        | Some h => [h]
        | None => []
        end).

Definition UVICORN : list string := ["uvicorn"; "uvicorn.error"; "uvicorn.access"].

(** [uv.handlers.clear(); uv.propagate = True]. *)
Definition funnel (st : Loggers) (name : string) : Loggers :=
  put_logger name (mkLogger (level (get_logger st name)) [] true) st.

(** The root takes the service's handlers, the loggers of uvicorn hand on to it. *)
Definition configure (service : string) (n : Z) (st : Loggers) : Loggers :=
  foldl funnel (put_root (mkLogger n (root_handlers service) (propagate (root st))) st) UVICORN.

(** The state reached, and whether [setLevel] was content. *)
Definition setup_logging (service : string) (st : Loggers) : bool * Loggers :=
  if bool_decide (service ∈ configured st) then (true, st)
  else
    let st := mkLoggers (root st) (loggers st) (service :: configured st) in
    match level_named (upper (log_level cfg)) with
    | None => (false, st)
    | Some n => (true, configure service n st)
    end.

Definition own_handler (filename service : string) : Handler :=
  let fallback := StderrHandler service in
  if bool_decide (log_dir cfg = "") then fallback
  else default fallback (make_file_handler (log_dir cfg) filename service).

Definition file_logger (name filename service : string) (st : Loggers) : Loggers :=
  let logger := get_logger st name in
  if bool_decide (handlers logger = [])
  then put_logger name (mkLogger INFO (handlers logger ++ [own_handler filename service]) false) st
  else st.

End Setup.

(** ** Logging a record *)

(** The names from a logger up to the root, the nearest first.  The name gets shorter at
    each step, so that its length is fuel enough. *)
Fixpoint chain_go (fuel : nat) (name : string) : list string :=
  match fuel with
  | O => [name]
  | S fuel => match rpartition "." name with
              | Some (parent, _) => name :: chain_go fuel parent
              | None => [name]
              end
  end.
Definition chain (name : string) : list string := chain_go (String.length name) name.

Definition line_of_loggers (st : Loggers) (name : string) : list Logger :=
  map (get_logger st) (chain name) ++ [root st].

(** [getEffectiveLevel]. *)
Definition effective_level (st : Loggers) (name : string) : Z :=
  default 0 (level <$> List.find (fun l => negb (level l =? 0)) (line_of_loggers st name)).

(** [callHandlers]: the handlers up to the first logger that does not propagate. *)
Fixpoint call_handlers (ls : list Logger) : list Handler :=
  match ls with
  | [] => []
  | l :: ls => handlers l ++ (if propagate l then call_handlers ls else [])
  end.

(** [Logger.log]: the handlers a record of a level is given to. *)
Definition dispatch (st : Loggers) (name : string) (lvl : Z) : list Handler :=
  if effective_level st name <=? lvl then call_handlers (line_of_loggers st name) else [].

(** Where its line is in the end: the handler of a directory that takes no files fails to
    open, which the module reports and does not raise. *)
Definition written (disk : string -> Directory) (hs : list Handler) : list Handler :=
  List.filter (fun h => match h with StderrHandler _ => true | FileHandler d _ _ => writable (disk d) end) hs.

(** ** Lemmas *)

Lemma get_put st name l : get_logger (put_logger name l st) name = l.
Proof. unfold get_logger, put_logger. simpl. by rewrite lookup_insert_eq. Qed.
Lemma get_put_ne st name name' l : name <> name' -> get_logger (put_logger name l st) name' = get_logger st name'.
Proof. intros Hn. unfold get_logger, put_logger. simpl. by rewrite lookup_insert_ne. Qed.

(** A logger that hands its records on. *)
Definition plain_logger (l : Logger) : Prop := handlers l = [] /\ propagate l = true.

Lemma call_handlers_plain ls l : Forall plain_logger ls -> call_handlers (ls ++ [l]) = handlers l.
Proof.
  induction 1 as [|x ls [Hh Hp] _ IH]; simpl; [by destruct (propagate l); rewrite app_nil_r|].
  by rewrite Hh, Hp, IH.
Qed.

Lemma funnels names : forall st, let st' := foldl funnel st names in
  root st' = root st /\ configured st' = configured st
  /\ (forall n, n ∈ names -> plain_logger (get_logger st' n))
  /\ (forall n, n ∉ names -> get_logger st' n = get_logger st n).
Proof.
  induction names as [|x names IH]; intros st st'; [split_and!; try done; by intros n ?%elem_of_nil|].
  unfold st'. simpl. destruct (IH (funnel st x)) as (Hr & Hc & Hin & Hout). split_and!.
  - by rewrite Hr.
  - by rewrite Hc.
  - intros n. rewrite elem_of_cons. destruct (decide (n ∈ names)) as [Hn|Hn]; [intros _; by apply Hin|].
    intros [->|?]; [|done]. rewrite Hout by done. unfold funnel. by rewrite get_put.
  - intros n. rewrite not_elem_of_cons. intros [Hx Hn]. rewrite Hout by done. unfold funnel. by rewrite get_put_ne.
Qed.

Lemma chain_head name : exists rest, chain name = name :: rest.
Proof.
  unfold chain. destruct (String.length name); simpl; [by eexists|]. destruct (rpartition "." name) as [[p q]|]; by eexists.
Qed.

Lemma rpartition_shorter name p q : rpartition "." name = Some (p, q) -> (String.length p < String.length name)%nat.
Proof. intros H. apply rpartition_Some in H as ->. rewrite !str_length_app. simpl. lia. Qed.

(** More fuel finds no more ancestors. *)
Lemma chain_fuel fuel : forall name, (String.length name <= fuel)%nat -> chain_go fuel name = chain name.
Proof.
  unfold chain. induction fuel as [fuel IH] using lt_wf_ind. intros name Hf.
  destruct fuel as [|fuel]; [destruct name; [done|simpl in Hf; lia]|].
  destruct (String.length name) as [|k] eqn:El; [by destruct name|].
  simpl. destruct (rpartition "." name) as [[p q]|] eqn:Er; [|done]. apply rpartition_shorter in Er.
  rewrite (IH fuel), (IH k) by lia. done.
Qed.

Section Promises.
Context (cfg : Settings) (disk : string -> Directory).

Lemma configure_spec service n st : let st' := configure cfg disk service n st in
  root st' = mkLogger n (root_handlers cfg disk service) (propagate (root st))
  /\ configured st' = configured st
  /\ (forall name, name ∈ UVICORN -> plain_logger (get_logger st' name))
  /\ (forall name, name ∉ UVICORN -> get_logger st' name = get_logger st name).
Proof.
  unfold configure.
  match goal with |- context [foldl funnel ?s UVICORN] => destruct (funnels UVICORN s) as (-> & -> & H1 & H2) end.
  done.
Qed.
#[local] Opaque configure.

Lemma setup_Ok service st st' : service ∉ configured st -> setup_logging cfg disk service st = (true, st') ->
  exists n, level_named (upper (log_level cfg)) = Some n
  /\ root st' = mkLogger n (root_handlers cfg disk service) (propagate (root st))
  /\ configured st' = service :: configured st
  /\ (forall name, name ∈ UVICORN -> plain_logger (get_logger st' name))
  /\ (forall name, name ∉ UVICORN -> get_logger st' name = get_logger st name).
Proof.
  intros Hs. unfold setup_logging. rewrite bool_decide_eq_false_2 by done.
  destruct (level_named _) as [n|]; [|done]. intros [= <-]. exists n. split; [done|].
  destruct (configure_spec service n (mkLoggers (root st) (loggers st) (service :: configured st)))
    as (-> & -> & H1 & H2). done.
Qed.

(** ** Theorems *)

(** Configuring a service again does nothing; and a level without a name raises once. *)
Theorem setup_once service st ok st' (H : setup_logging cfg disk service st = (ok, st')) :
  setup_logging cfg disk service st' = (true, st')
  /\ (ok = false -> level_named (upper (log_level cfg)) = None /\ root st' = root st).
Proof.
  assert (service ∈ configured st') as Hin.
  { revert H. unfold setup_logging. case_bool_decide as E; [by intros [= _ <-]|].
    destruct (level_named _) as [n|]; intros [= _ <-]; [|left].
    destruct (configure_spec service n (mkLoggers (root st) (loggers st) (service :: configured st)))
      as (_ & -> & _). left. }
  split; [unfold setup_logging at 1; by rewrite bool_decide_eq_true_2|].
  intros ->. revert H. unfold setup_logging. case_bool_decide; [done|].
  destruct (level_named _); [done|]. by intros [= <-].
Qed.

(** The lines of a configured service: a record of a logger that hands on, or of uvicorn,
    goes to the handlers of the service, each once and no other; the line is on stderr,
    and in the service's file where the directory takes it. *)
Theorem service_lines service st st' name lvl (Hnew : service ∉ configured st)
    (Hsetup : setup_logging cfg disk service st = (true, st'))
    (Hplain : forall n, n ∈ chain name -> n ∈ UVICORN \/ plain_logger (get_logger st n))
    (Henabled : effective_level st' name <= lvl) :
  dispatch st' name lvl = root_handlers cfg disk service
  /\ NoDup (dispatch st' name lvl)
  /\ StderrHandler service ∈ written disk (dispatch st' name lvl)
  /\ (log_dir cfg <> "" -> mkdir_ok (disk (log_dir cfg)) = true -> writable (disk (log_dir cfg)) = true ->
      FileHandler (log_dir cfg) (service +:+ ".log") service ∈ written disk (dispatch st' name lvl)).
Proof.
  destruct (setup_Ok _ _ _ Hnew Hsetup) as (n & _ & Hr & _ & Hin & Hout).
  assert (dispatch st' name lvl = root_handlers cfg disk service) as ->.
  { unfold dispatch. rewrite (proj2 (Z.leb_le _ _)) by done. unfold line_of_loggers.
    rewrite call_handlers_plain; [by rewrite Hr|]. apply Forall_forall. intros l.
    rewrite list_elem_of_In, in_map_iff. intros (x & <- & Hx). apply list_elem_of_In in Hx.
    destruct (decide (x ∈ UVICORN)) as [Hu|Hu]; [by apply Hin|]. rewrite Hout by done. by destruct (Hplain x Hx). }
  split; [done|]. split; [|split].
  - unfold root_handlers, make_file_handler. case_bool_decide; [apply NoDup_singleton|].
    destruct (mkdir_ok _); [|apply NoDup_singleton].
    apply NoDup_cons. split; [by intros ?%list_elem_of_singleton|apply NoDup_singleton].
  - unfold root_handlers. simpl. left.
  - intros Hd Hm Hw. unfold root_handlers, make_file_handler. rewrite bool_decide_eq_false_2, Hm by done. simpl.
    rewrite Hw. right. left.
Qed.

(** A logger with a file of its own: its records from INFO up go there and nowhere else,
    asking for it again changes nothing, and neither does configuring a service. *)
Theorem own_file_only name filename service st lvl (Hfresh : handlers (get_logger st name) = [])
    (Hother : name ∉ UVICORN) :
  let st' := file_logger cfg disk name filename service st in
  dispatch st' name lvl = (if INFO <=? lvl then [own_handler cfg disk filename service] else [])
  /\ file_logger cfg disk name filename service st' = st'
  /\ forall other ok st2, setup_logging cfg disk other st' = (ok, st2) -> dispatch st2 name lvl = dispatch st' name lvl.
Proof.
  intros st'. assert (get_logger st' name = mkLogger INFO [own_handler cfg disk filename service] false) as Hl.
  { unfold st', file_logger. rewrite Hfresh, bool_decide_eq_true_2 by done. by rewrite get_put. }
  assert (forall s, get_logger s name = mkLogger INFO [own_handler cfg disk filename service] false ->
    dispatch s name lvl = if INFO <=? lvl then [own_handler cfg disk filename service] else []) as Hd.
  { intros s Hs. unfold dispatch, effective_level, line_of_loggers. destruct (chain_head name) as [rest ->].
    simpl. by rewrite Hs. }
  split; [by apply Hd|]. split.
  - unfold file_logger at 1. by rewrite Hl.
  - intros other ok st2 H. rewrite (Hd st'), (Hd st2); [done| |done]. rewrite <- Hl. revert H. unfold setup_logging.
    case_bool_decide; [by intros [= _ <-]|]. destruct (level_named _) as [n|]; intros [= _ <-]; [|done].
    destruct (configure_spec other n (mkLoggers (root st') (loggers st') (other :: configured st')))
      as (_ & _ & _ & ->); done.
Qed.

(** A directory that is there but takes no files: the handler is made all the same, since
    it opens its file only with the first line, and the lines of a logger with its own
    file are written nowhere, not to stderr either; the module only reports that it could
    not write. *)
Theorem unwritable_lines_lost name filename service st lvl (Hfresh : handlers (get_logger st name) = [])
    (Hother : name ∉ UVICORN) (Hdir : log_dir cfg <> "") (Hthere : mkdir_ok (disk (log_dir cfg)) = true)
    (Hfull : writable (disk (log_dir cfg)) = false) :
  written disk (dispatch (file_logger cfg disk name filename service st) name lvl) = [].
Proof.
  destruct (own_file_only name filename service st lvl Hfresh Hother) as (-> & _).
  destruct (INFO <=? lvl); [|done]. unfold own_handler, make_file_handler.
  rewrite bool_decide_eq_false_2, Hthere by done. simpl. by rewrite Hfull.
Qed.
End Promises.

(** ** Witnesses *)

#[local] Transparent configure.

(** uvicorn has configured its loggers before the application is imported. *)
Definition demo_loggers : Loggers :=
  mkLoggers (mkLogger 30 [] true)
    {[ "uvicorn" := mkLogger INFO [StderrHandler "uvicorn"] false;
       "uvicorn.access" := mkLogger INFO [StderrHandler "uvicorn"] false ]} [].
Definition demo_disk (d : string) : Directory := mkDirectory true (bool_decide (d <> "/full")).

Example service_lines_witness : exists st',
  setup_logging example_settings demo_disk "idp" demo_loggers = (true, st')
  /\ dispatch st' "uvicorn.access" INFO = root_handlers example_settings demo_disk "idp".
Proof.
  eexists. split; [reflexivity|].
  refine (proj1 (service_lines example_settings demo_disk "idp" demo_loggers _ "uvicorn.access" INFO _ eq_refl _ _)).
  - apply not_elem_of_nil.
  - intros n Hn. left. vm_compute in Hn. unfold UVICORN. set_solver.
  - vm_compute. discriminate.
Defined.

Example own_file_only_witness :
  dispatch (file_logger example_settings demo_disk "hyproxy.ui" "ui.log" "ui" demo_loggers) "hyproxy.ui" INFO
  = [own_handler example_settings demo_disk "ui.log" "ui"].
Proof.
  refine (proj1 (own_file_only example_settings demo_disk "hyproxy.ui" "ui.log" "ui" demo_loggers INFO eq_refl _)).
  unfold UVICORN. set_solver.
Defined.

(** A deployment that logs to a directory. *)
Definition with_log_dir (d : string) (c : Settings) : Settings := mkSettings
  (db_url c) (db_pool_size c) (db_max_overflow c) (tpm_sealed_blob c) (tpm_pcrs c) (master_key_fp c)
  (issuer c) (access_ttl c) (refresh_abs_ttl c) (idle_ttl c) (stepup_max_age c) (dpop_iat_window c)
  (dpop_iat_future_skew c) (auth_code_ttl c) (login_flow_ttl c) (session_touch_interval c)
  (authz_cache_ttl c) (jwks_cache_max_age c) (signing_alg c) (gateway_client_id c) (auth_host c)
  (external_scheme c) (gateway_cookie_name c) (gateway_cookie_domain c) (gateway_state_ttl c)
  (public_cookie_name c) (public_session_ttl c) (public_session_bind_ip c) (public_gate_csrf_ttl c)
  (idp_internal_url c) (idp_verify_tls c) (trust_forwarded_for c) (admin_ui_origin c)
  (admin_ui_dist c) (admin_lan_cidrs c) (portal_origin c) (qbit_url c) (qbit_savepath_shows c)
  (qbit_savepath_movies c) (guac_cypher_key c) (guac_grant_ttl c) (rtsp_cypher_key c)
  (rtsp_grant_ttl c) (rtsp_max_stream_secs c) (rtsp_max_streams_per_user c) d (log_level c)
  (log_max_bytes c) (log_backup_count c) (throttle_window c) (throttle_account_free_failures c)
  (throttle_account_max_delay c) (throttle_ip_free_failures c) (throttle_ip_max_delay c).

Example unwritable_lines_lost_witness :
  written demo_disk (dispatch (file_logger (with_log_dir "/full" example_settings) demo_disk "hyproxy.ui" "ui.log" "ui"
    demo_loggers) "hyproxy.ui" 40) = [].
Proof.
  refine (unwritable_lines_lost (with_log_dir "/full" example_settings) demo_disk "hyproxy.ui" "ui.log" "ui"
    demo_loggers 40 eq_refl _ _ eq_refl eq_refl).
  - unfold UVICORN. set_solver.
  - discriminate.
Defined.
