(* ===== verification/Ddns.v ===== *)
(** * Ddns: ops/ddns.py, when the public DNS record is set

    The provider is an operation of the environment with a state of its own; either of its
    calls may raise. *)

From S2P Require Import Prelude PyStr PyTime Config Db Effects.
Local Open Scope Z_scope.

Class DnsProvider (P : Type) := {
  get_record : string -> P -> result (option string) * P;
  set_record : string -> string -> P -> result unit * P;
}.

(** What the record's convergence relies on: a lookup changes nothing, and finds what the last
    set that returned has put there. *)
Class DnsLaws P `{DnsProvider P} := {
  get_keeps : forall host p, (get_record host p).2 = p;
  set_then_get : forall host ip p p', set_record host ip p = (Ok tt, p') -> (get_record host p').1 = Ok (Some ip);
}.

Record UpdateDecision := mkUpdate { ud_update : bool; ud_reason : string }.
Record DdnsState := mkDdns { last_attempt : option Z }.

Definition decide_update (current_ip record_ip : option string) (last : option Z) (now min_interval : Z)
  : UpdateDecision :=
  if bool_decide (current_ip = None) || bool_decide (current_ip = Some "") then mkUpdate false "no_current_ip"
  else if match last with Some t => now - t <? min_interval | None => false end then mkUpdate false "backoff"
  else if bool_decide (current_ip = record_ip) then mkUpdate false "unchanged"
  else mkUpdate true "changed".

Section Update.
Context {P : Type} `{DnsProvider P} (hostname : string) (min_interval : Z).

(** The state object is written before the provider is called, so it keeps the attempt when
    the call raises. *)
Definition update_if_needed (current_ip : option string) (now : Z) (s : DdnsState * P)
  : result UpdateDecision * (DdnsState * P) :=
  let '(st, p) := s in
  match get_record hostname p with
  | (Raise x, p1) => (Raise x, (st, p1))
  | (Ok record, p1) =>
      let decision := decide_update current_ip record (last_attempt st) now min_interval in
      if ud_update decision then
        let st' := mkDdns (Some now) in
        match current_ip with
        | None => (Raise AssertionError, (st', p1))
        | Some ip => match set_record hostname ip p1 with
                     | (Ok _, p2) => (Ok decision, (st', p2))
                     | (Raise x, p2) => (Raise x, (st', p2))
                     end
        end
      else (Ok decision, (st, p1))
  end.

(** The calls of a timer, each with its time and the address found: the times at which the
    provider was asked to set the record. *)
Definition attempts_at (current_ip : option string) (now : Z) (s : DdnsState * P) : list Z :=
  match get_record hostname s.2 with
  | (Ok record, _) =>
      if ud_update (decide_update current_ip record (last_attempt s.1) now min_interval) then [now] else []
  | (Raise _, _) => []
  end.
Fixpoint attempts (calls : list (Z * option string)) (s : DdnsState * P) : list Z :=
  match calls with
  | [] => []
  | (now, ip) :: rest => attempts_at ip now s ++ attempts rest (update_if_needed ip now s).2
  end.

(** ** Specification *)

(** Every attempt comes at least the interval after the one before, [last] being the one
    before the first. *)
Fixpoint spaced (last : option Z) (times : list Z) : Prop :=
  match times with
  | [] => True
  | t :: rest => (forall l, last = Some l -> min_interval <= t - l) /\ spaced (Some t) rest
  end.

(** ** Lemmas *)

Lemma decide_true cur record last now : ud_update (decide_update cur record last now min_interval) = true ->
  (exists ip, cur = Some ip /\ ip <> "" /\ record <> Some ip) /\ forall l, last = Some l -> min_interval <= now - l.
Proof.
  unfold decide_update. destruct (_ || _) eqn:E; [done|]. apply orb_false_iff in E as [E1 E2]. bool_simpl.
  destruct (match last with Some t => _ | None => _ end) eqn:El; [done|]. case_bool_decide; [done|]. intros _. split.
  - destruct cur as [ip|]; [|done]. exists ip. split; [done|]. split; congruence.
  - intros l ->. apply Z.ltb_ge in El. lia.
Qed.

Lemma decide_runs ip record last now : ip <> "" -> record <> Some ip -> (forall l, last = Some l -> min_interval <= now - l) ->
  decide_update (Some ip) record last now min_interval = mkUpdate true "changed".
Proof.
  intros Hne Hr Hl. unfold decide_update. rewrite !bool_decide_eq_false_2 by congruence. cbn.
  destruct last as [l|]; [|done]. by rewrite (proj2 (Z.ltb_ge _ _)) by (specialize (Hl l eq_refl); lia).
Qed.

Lemma attempt_state ip now s :
  last_attempt (update_if_needed ip now s).2.1 = (match attempts_at ip now s with [] => last_attempt s.1 | _ => Some now end).
Proof.
  destruct s as [st p]. unfold update_if_needed, attempts_at. cbn [fst snd].
  destruct (get_record hostname p) as [[record|x] p1]; [|done].
  destruct (ud_update _) eqn:E; [|done]. apply decide_true in E as [(i & -> & _) _].
  by destruct (set_record hostname i p1) as [[]].
Qed.
End Update.

(** ** Theorems *)

(** The provider is never stormed: whatever addresses the timer finds, and whichever calls
    of the provider raise, two attempts to set the record are at least the interval apart. *)
Theorem attempts_spaced {P} `{DnsProvider P} hostname min_interval calls : forall s,
  spaced min_interval (last_attempt s.1) (attempts hostname min_interval calls s).
Proof.
  induction calls as [|[now ip] rest IH]; intros s; [done|]. cbn [attempts].
  specialize (IH (update_if_needed hostname min_interval ip now s).2). rewrite attempt_state in IH.
  unfold attempts_at in *. destruct (get_record hostname s.2) as [[record|x] p1]; [|done].
  destruct (ud_update _) eqn:E; [|done]. cbn. split; [|done]. by eapply decide_true.
Qed.

(** The record follows the address: when the backoff is over, an address that is not the
    record's is set, and if the provider accepts it the record is that address and stays
    untouched as long as the address does. *)
Theorem record_follows {P} `{DnsLaws P} hostname min_interval ip now st p record
    (Hip : ip <> "") (Hget : (get_record hostname p).1 = Ok record) (Hnew : record <> Some ip)
    (Hdue : forall l, last_attempt st = Some l -> min_interval <= now - l)
    (Hset : (set_record hostname ip p).1 = Ok tt) :
  exists s', update_if_needed hostname min_interval (Some ip) now (st, p) = (Ok (mkUpdate true "changed"), s')
  /\ (get_record hostname s'.2).1 = Ok (Some ip)
  /\ forall calls, Forall (fun c => c.2 = Some ip) calls -> attempts hostname min_interval calls s' = [].
Proof.
  unfold update_if_needed. pose proof (get_keeps hostname p) as Hk.
  destruct (get_record hostname p) as [r p1]. cbn [fst snd] in *. subst r p1.
  rewrite decide_runs by done. cbn [ud_update]. destruct (set_record hostname ip p) as [r p2] eqn:Es. cbn [fst] in Hset. subst r.
  exists (mkDdns (Some now), p2). split; [done|]. cbn [fst snd]. pose proof (set_then_get _ _ _ _ Es) as Hg. split; [done|].
  intros calls Hc. assert (forall st', attempts hostname min_interval calls (st', p2) = []) as Ha; [|done].
  clear Es Hdue. induction Hc as [|[t cur] calls Hcur Hc IH]; intros st'; [done|]. cbn [snd] in Hcur. subst cur. cbn [attempts].
  assert (attempts_at hostname min_interval (Some ip) t (st', p2) = []) as E.
  { unfold attempts_at. cbn [snd]. pose proof (get_keeps hostname p2) as Hk. destruct (get_record hostname p2) as [r p1].
    cbn [fst snd] in *. subst r. unfold decide_update. rewrite (bool_decide_eq_true_2 (Some ip = Some ip)) by done.
    by repeat case_match. }
  rewrite E. cbn [app]. unfold update_if_needed. unfold attempts_at in E. cbn [fst snd] in E.
  pose proof (get_keeps hostname p2) as Hk. destruct (get_record hostname p2) as [r p1]. cbn [fst snd] in *. subst r p1.
  destruct (ud_update _); [done|]. apply IH.
Qed.

(** ** Witness *)

(** A zone that holds one record. *)
#[global] Instance zone_provider : DnsProvider (option string) :=
  {| get_record _ p := (Ok p, p); set_record _ ip _ := (Ok tt, Some ip) |}.
#[global] Instance zone_laws : DnsLaws (option string).
Proof. constructor; [done|]. by intros ? ? ? ? [= <-]. Qed.

Example record_follows_witness : exists s',
  update_if_needed "home.example" 300 (Some "192.0.2.9") 1000 (mkDdns (Some 100), Some "192.0.2.8")
    = (Ok (mkUpdate true "changed"), s')
  /\ (get_record "home.example" s'.2).1 = Ok (Some "192.0.2.9").
Proof.
  destruct (record_follows "home.example" 300 "192.0.2.9" 1000 (mkDdns (Some 100)) (Some "192.0.2.8") (Some "192.0.2.8")
    ltac:(done) eq_refl ltac:(done) ltac:(intros l [= <-]; done) eq_refl) as (s' & H1 & H2 & _).
  exists s'. split; [exact H1|exact H2].
Defined.
