(* ===== verification/Apps.v ===== *)
(** * Apps: idp/app.py, admin/app.py and authz/app.py, what the applications add

    The content security policies, the headers set on every response, the origins of the
    cross-origin rules, and the fallback to the page of the user interface.  The routers
    are the handlers of the other files; the framework's dispatch and its CORS middleware
    are not modelled. *)

From S2P Require Import Prelude PyStr Json Url Config Db Effects Crypto Web.
Local Open Scope Z_scope.

(** ** The identity provider *)

(** [_csp] of idp/app.py. *)
Definition idp_csp (cfg : Settings) : string :=
  let domain := gateway_cookie_domain cfg in
  let form_action :=
    "'self'" +:+ if bool_decide (domain = "") then ""
                 else " https://*." +:+ domain +:+ " https://" +:+ domain in
  "default-src 'none'; script-src 'self'; style-src 'self'; img-src 'self'; "
  +:+ "connect-src 'self'; form-action " +:+ form_action +:+ "; "
  +:+ "frame-ancestors 'none'; base-uri 'none'".

(** [response.headers.setdefault]. *)
Definition setdefault (name value : string) (r : Response) : Response :=
  match assoc name (rs_headers r) with
  | Some _ => r
  | None => add_header name value r
  end.

Definition setdefaults (defaults : list (string * string)) (r : Response) : Response :=
  foldl (fun r kv => setdefault kv.1 kv.2 r) r defaults.

Definition idp_headers (csp path : string) : list (string * string) :=
  [("content-security-policy", csp); ("x-content-type-options", "nosniff");
   ("referrer-policy", "no-referrer"); ("x-frame-options", "DENY");
   ("strict-transport-security", "max-age=63072000; includeSubDomains")]
  ++ if startswith path "/auth" || startswith path "/oidc"
     then [("cache-control", "no-store")] else [].

(** The middleware around a handler; a refusal of the handler is a response by then. *)
Definition idp_security_headers (path : string) (call_next : M Response) : M Response :=
  let! csp := asks idp_csp in
  let! response := call_next in
  ret (setdefaults (idp_headers csp path) response).

(** What the CORS middleware is configured with. *)
Record CorsRules := mkCorsRules {
  allow_origins : list string;
  allow_methods : list string;
  allow_headers : list string;
  allow_credentials : bool;
  cors_max_age : Z;
}.

Definition spa_origins (cfg : Settings) : list string :=
  filter (fun o => o <> "") [admin_ui_origin cfg; portal_origin cfg].

Definition idp_cors (cfg : Settings) : option CorsRules :=
  match spa_origins cfg with
  | [] => None
  | origins => Some (mkCorsRules origins ["GET"; "POST"; "OPTIONS"]
                       ["authorization"; "dpop"; "content-type"] false 600)
  end.

(** ** The authorization service *)

Definition authz_cors (cfg : Settings) : option CorsRules :=
  match spa_origins cfg with
  | [] => None
  | origins => Some (mkCorsRules origins ["POST"] ["content-type"] true 600)
  end.

(** The address of the issuer's back channel. *)
Definition idp_base_url (cfg : Settings) : string :=
  rstrip_char "/" (if bool_decide (idp_internal_url cfg = "") then issuer cfg else idp_internal_url cfg).

(** ** The administration API *)

(** [_idp_origin]; [None] is a ValueError. *)
Definition idp_origin (cfg : Settings) : option string :=
  parts ← urlsplit (issuer cfg);
  Some (if bool_decide (url_netloc parts = "") then ""
        else url_scheme parts +:+ "://" +:+ url_netloc parts).

(** The host of [portal_origin], empty without one. *)
Definition portal_host (cfg : Settings) : option string :=
  if bool_decide (portal_origin cfg = "") then Some ""
  else parts ← urlsplit (portal_origin cfg); Some (url_netloc parts).

(** [_csp] of admin/app.py. *)
Definition admin_csp (cfg : Settings) : option string :=
  origin ← idp_origin cfg;
  host ← portal_host cfg;
  let connect :=
    "'self'"
    +:+ (if bool_decide (origin = "") then "" else " " +:+ origin)
    +:+ (" " +:+ external_scheme cfg +:+ "://" +:+ auth_host cfg)
    +:+ (if bool_decide (gateway_cookie_domain cfg = "") then ""
         else " wss://*." +:+ lstrip_char "." (gateway_cookie_domain cfg))
    +:+ (if bool_decide (host = "") then "" else " wss://" +:+ host) in
  Some ("default-src 'none'; " +:+ "script-src 'self'; " +:+ "style-src 'self'; "
        +:+ "img-src 'self' data:; " +:+ "media-src 'self' blob:; "
        +:+ "connect-src " +:+ connect +:+ "; " +:+ "form-action 'self'; "
        +:+ "frame-ancestors 'none'; " +:+ "base-uri 'none'").

Definition admin_headers (csp : string) : list (string * string) :=
  [("content-security-policy", csp); ("x-content-type-options", "nosniff");
   ("referrer-policy", "no-referrer"); ("x-frame-options", "DENY")].

Definition admin_security_headers (csp : string) (call_next : M Response) : M Response :=
  let! response := call_next in
  ret (setdefaults (admin_headers csp) response).

(** [spa_fallback]: what answers a path that no route has taken, the page or a 404. *)
Inductive SpaAnswer : Type :=
| IndexPage
| NotAPage.

Definition spa_fallback (full_path : string) : SpaAnswer :=
  if startswith full_path "api/" || bool_decide (full_path = "healthz") then NotAPage else IndexPage.

(** ** How a browser reads a policy *)

(** The directives between semicolons, each its name and its sources. *)
Definition policy_of (csp : string) : list (list string) := map words (split_char ";" csp).

(** A text that is one word of a policy. *)
Definition policy_char (c : ascii) : bool := negb (is_space c) && negb (bool_decide (c = ";"%char)).
Definition policy_word (s : string) : bool := all_chars policy_char s.

(** ** Lemmas *)

Lemma split_char_app c a b : no_char c a = true ->
  split_char c (a +:+ b) = match split_char c b with h :: t => (a +:+ h) :: t | [] => [] end.
Proof.
  induction a as [|d a IH]; intros Ha; [by destruct (split_char_cons c b) as (h & t & E); rewrite app_empty_l, E|].
  rewrite no_char_cons in Ha. apply andb_true_iff in Ha as [Hd Ha]. rewrite app_cons. cbn [split_char].
  rewrite (IH Ha). destruct (bool_decide (d = c)); [done|].
  by destruct (split_char_cons c b) as (h & t & ->).
Qed.

Lemma split_char_sep c a b : no_char c a = true -> split_char c (a +:+ String c b) = a :: split_char c b.
Proof.
  intros Ha. rewrite split_char_app by done. cbn [split_char]. rewrite bool_decide_eq_true_2 by done.
  by rewrite app_empty_r.
Qed.

Lemma split_char_none c a : no_char c a = true -> split_char c a = [a].
Proof. intros Ha. rewrite <- (app_empty_r a) at 1. rewrite split_char_app by done. simpl. by rewrite app_empty_r. Qed.

Lemma words_go_word w s : forall cur, all_chars (fun c => negb (is_space c)) w = true ->
  words_go (w +:+ s) cur = words_go s (cur +:+ w).
Proof.
  induction w as [|c w IH]; intros cur Hw; [simpl; by rewrite app_empty_r|].
  rewrite app_cons. simpl in Hw |- *. apply andb_true_iff in Hw as [Hc Hw]. apply negb_true_iff in Hc. rewrite Hc.
  rewrite IH by done. f_equal. by rewrite app_assoc_str.
Qed.

Lemma words_one w : w <> "" -> all_chars (fun c => negb (is_space c)) w = true -> words w = [w].
Proof.
  intros Hn Hw. rewrite <- (app_empty_r w) at 1. unfold words. rewrite words_go_word by done. simpl. by destruct w.
Qed.
Lemma words_space s : words (" " +:+ s) = words s.
Proof. done. Qed.

Lemma policy_word_app a b : policy_word (a +:+ b) = policy_word a && policy_word b.
Proof. apply all_chars_app. Qed.

Lemma policy_word_unspaced s : policy_word s = true -> all_chars (fun c => negb (is_space c)) s = true.
Proof. apply all_chars_impl. unfold policy_char. intros c H. by apply andb_true_iff in H as [? _]. Qed.

Lemma policy_word_no_sep s : policy_word s = true -> no_char ";" s = true.
Proof. apply all_chars_impl. unfold policy_char. intros c H. by apply andb_true_iff in H as [_ ?]. Qed.

(** Words with a blank before each, and their reading back. *)
Definition spaced (ws : list string) : string := foldr (fun w acc => " " +:+ w +:+ acc) "" ws.

Lemma spaced_cons w ws : spaced (w :: ws) = " " +:+ w +:+ spaced ws.
Proof. done. Qed.

Definition proper_word (w : string) : Prop := w <> "" /\ policy_word w = true.

Lemma words_spaced ws : Forall proper_word ws -> words (spaced ws) = ws.
Proof.
  induction 1 as [|w ws [Hn Hw] _ IH]; [done|]. apply policy_word_unspaced in Hw.
  cbn [spaced foldr]. rewrite words_space. destruct ws as [|w' ws].
  - cbn [foldr]. rewrite app_empty_r. by apply words_one.
  - rewrite <- IH at 2. cbn [spaced foldr]. unfold words at 1. rewrite words_go_word, app_empty_l by done.
    rewrite !app_cons, !app_empty_l. cbn [words_go is_space]. by destruct w.
Qed.

Lemma spaced_no_sep ws : Forall proper_word ws -> no_char ";" (spaced ws) = true.
Proof.
  induction 1 as [|w ws [_ Hw] _ IH]; [done|]. rewrite spaced_cons, !no_char_app.
  by rewrite (policy_word_no_sep _ Hw), IH.
Qed.

Lemma split_join c l : l <> [] -> Forall (fun s => no_char c s = true) l ->
  split_char c (join (String c EmptyString) l) = l.
Proof.
  intros Hl H. induction H as [|s l Hs _ IH]; [done|]. destruct l as [|s' l]; [by apply split_char_none|].
  change (join _ (s :: s' :: l)) with (s +:+ String c EmptyString +:+ join (String c EmptyString) (s' :: l)).
  rewrite app_cons, app_empty_l, split_char_sep by done. by rewrite IH.
Qed.

Lemma policy_join ds : ds <> [] -> Forall (Forall proper_word) ds -> policy_of (join ";" (map spaced ds)) = ds.
Proof.
  intros Hn H. unfold policy_of. rewrite split_join.
  - rewrite map_map. induction H as [|d ds Hd _ IH]; [done|]. simpl. rewrite words_spaced by done. f_equal.
    destruct ds; [done|]. by apply IH.
  - by destruct ds.
  - apply Forall_map. eapply Forall_impl; [done|]. intros d. apply spaced_no_sep.
Qed.

Lemma policy_lead s : policy_of (" " +:+ s) = policy_of s.
Proof.
  unfold policy_of. rewrite split_char_app by done. by destruct (split_char_cons ";" s) as (h & t & ->).
Qed.

Lemma lstrip_suffix p s : exists a, s = a +:+ lstrip_by p s.
Proof.
  induction s as [|c s [a IH]]; [by exists ""|]. simpl. destruct (p c); [|by exists ""].
  exists (String c a). by rewrite app_cons, <- IH.
Qed.

Lemma policy_word_lstrip p s : policy_word s = true -> policy_word (lstrip_by p s) = true.
Proof.
  destruct (lstrip_suffix p s) as [a E]. rewrite E at 1. rewrite policy_word_app. intros H. by apply andb_true_iff in H as [_ ?].
Qed.

Lemma policy_word_sub a b : policy_word (a +:+ b) = true -> policy_word a = true /\ policy_word b = true.
Proof. rewrite policy_word_app. apply andb_true_iff. Qed.

Lemma policy_word_filter p s : policy_word s = true -> policy_word (filter_chars p s) = true.
Proof.
  induction s as [|c s IH]; [done|]. unfold policy_word in *. simpl. rewrite andb_true_iff. intros [Hc Hs].
  destruct (p c); simpl; [rewrite Hc|]; auto.
Qed.

Lemma policy_word_netloc s : policy_word s = true -> policy_word (splitnetloc s).1 = true.
Proof.
  induction s as [|c s IH]; [done|]. unfold policy_word in *. simpl. rewrite andb_true_iff. intros [Hc Hs].
  case_match; [done|]. destruct (splitnetloc s). simpl in *. by rewrite Hc, IH.
Qed.

Lemma policy_word_lower s : policy_word s = true -> policy_word (lower s) = true.
Proof.
  unfold policy_word, lower. induction s as [|c s IH]; [done|]. simpl. rewrite !andb_true_iff. intros [Hc Hs].
  split; [|auto]. revert Hc. unfold lower_char. destruct c as [[] [] [] [] [] [] [] []]; done.
Qed.

(** The scheme and the authority of a URL that is one word are words. *)
Lemma urlsplit_words url u : urlsplit url = Some u -> policy_word url = true ->
  policy_word (url_scheme u) = true /\ policy_word (url_netloc u) = true.
Proof.
  unfold urlsplit. set (t := filter_chars _ _). intros Hu Hw.
  assert (policy_word t = true) as Ht by (by apply policy_word_filter, policy_word_lstrip).
  clearbody t. clear Hw url.
  set (sr := match partition ":" t with Some (String c s, x) => _ | _ => _ end) in Hu.
  assert (policy_word sr.1 = true /\ policy_word sr.2 = true) as [H1 H2].
  { unfold sr. destruct (partition ":" t) as [[[|c h] r]|] eqn:E; [done| |done].
    destruct (is_alpha c && all_chars is_scheme_char (String c h)); [|done]. apply partition_Some in E. rewrite E in Ht. apply policy_word_sub in Ht as [Hh Hr].
    apply policy_word_sub in Hr as [_ Hr]. split; [by apply policy_word_lower|done]. }
  clearbody sr. destruct sr as [scheme rest]. cbn [fst snd] in H1, H2.
  set (nr := match strip_prefix "//" rest with Some r => _ | None => _ end) in Hu.
  assert (policy_word nr.1 = true) as H3.
  { unfold nr. destruct (strip_prefix "//" rest) as [r|] eqn:E; [|done]. apply strip_prefix_Some in E. subst rest.
    apply policy_word_sub in H2 as [_ H2]. by apply policy_word_netloc. }
  clearbody nr. destruct nr as [netloc rest']. cbn [fst snd] in H3. case_match; [done|].
  destruct (split_at "#" rest') as [r f]. destruct (split_at "?" r) as [p q]. by injection Hu as <-.
Qed.

(** ** Theorems *)

Definition idp_policy (domain : string) : list (list string) :=
  [["default-src"; "'none'"]; ["script-src"; "'self'"]; ["style-src"; "'self'"];
   ["img-src"; "'self'"]; ["connect-src"; "'self'"];
   ["form-action"; "'self'"]
     ++ (if bool_decide (domain = "") then [] else ["https://*." +:+ domain; "https://" +:+ domain]);
   ["frame-ancestors"; "'none'"]; ["base-uri"; "'none'"]].

Ltac proper_words :=
  repeat match goal with
  | |- Forall _ (_ :: _) => constructor
  | |- Forall _ [] => constructor
  | |- Forall _ (_ ++ _) => apply Forall_app; split
  | |- proper_word _ => split; [done|]
  end; try reflexivity.

(** A browser reads the policy of the identity provider as the eight directives it is
    meant to be; the cookie domain adds its two form targets and nothing else. *)
Theorem idp_csp_reads cfg (Hdomain : policy_word (gateway_cookie_domain cfg) = true) :
  policy_of (idp_csp cfg) = idp_policy (gateway_cookie_domain cfg).
Proof.
  rewrite <- policy_lead, <- (policy_join (idp_policy (gateway_cookie_domain cfg))).
  - apply (f_equal policy_of). unfold idp_csp, idp_policy. cbv zeta. generalize (gateway_cookie_domain cfg).
    intros domain. case_bool_decide as E.
    + vm_compute. reflexivity.
    + cbn [map join spaced foldr app]. cbn [String.append]. rewrite ?app_assoc_str. cbn [String.append]. reflexivity.
  - done.
  - unfold idp_policy. case_bool_decide as E; cbn [app]; proper_words; done.
Qed.

(** [setdefault] for a list of defaults, name by name. *)
Lemma setdefaults_assoc l : forall r name,
  assoc name (rs_headers (setdefaults l r))
  = match assoc name (rs_headers r) with Some v => Some v | None => assoc name l end.
Proof.
  induction l as [|[k v] l IH]; intros r name; [simpl; by destruct (assoc name (rs_headers r))|].
  unfold setdefaults in *. cbn [foldl fst snd assoc]. rewrite IH. unfold setdefault.
  destruct (assoc k (rs_headers r)) as [w|] eqn:E.
  - destruct (assoc name (rs_headers r)) eqn:E'; [done|]. by rewrite bool_decide_eq_false_2 by congruence.
  - unfold add_header. cbn [rs_headers]. case_bool_decide as Hk.
    + subst k. by rewrite assoc_set_get, E.
    + by rewrite assoc_set_get_ne.
Qed.

Lemma setdefaults_rest l : forall r, rs_status (setdefaults l r) = rs_status r
  /\ rs_body (setdefaults l r) = rs_body r /\ rs_cookies (setdefaults l r) = rs_cookies r.
Proof.
  induction l as [|[k v] l IH]; intros r; [done|]. unfold setdefaults in *. cbn [foldl fst snd].
  destruct (IH (setdefault k v r)) as (-> & -> & ->). unfold setdefault. by case_match.
Qed.

(** The middleware gives every answer of a handler the headers it lacks, and changes
    nothing else: an answer of the authentication pages is not stored by a cache unless
    the handler said otherwise, and is never framed by another site. *)
Theorem idp_headers_sound path handler e s r s'
    (Hrun : idp_security_headers path handler e s = (Ok r, s')) :
  exists r0, handler e s = (Ok r0, s')
  /\ (forall name, assoc name (rs_headers r)
        = match assoc name (rs_headers r0) with
          | Some v => Some v
          | None => assoc name (idp_headers (idp_csp (settings e)) path)
          end)
  /\ rs_status r = rs_status r0 /\ rs_body r = rs_body r0 /\ rs_cookies r = rs_cookies r0.
Proof.
  unfold idp_security_headers in Hrun. mread Hrun. mstep Hrun r0 s1 H0. minv Hrun. exists r0.
  split; [done|]. split; [|apply setdefaults_rest]. intros name. apply setdefaults_assoc.
Qed.

(** The refusals of a handler that raises go on being raised. *)
Theorem idp_headers_raise path handler e s x s' (Hrun : handler e s = (Raise x, s')) :
  idp_security_headers path handler e s = (Raise x, s').
Proof. unfold idp_security_headers, bind, asks. by rewrite Hrun. Qed.


Definition optional (s prefix : string) : list string :=
  if bool_decide (s = "") then [] else [prefix +:+ s].

Definition connect_sources (cfg : Settings) (origin host : string) : list string :=
  ["'self'"] ++ optional origin "" ++ [external_scheme cfg +:+ "://" +:+ auth_host cfg]
  ++ (if bool_decide (gateway_cookie_domain cfg = "") then []
      else ["wss://*." +:+ lstrip_char "." (gateway_cookie_domain cfg)])
  ++ optional host "wss://".

Definition admin_policy (cfg : Settings) (origin host : string) : list (list string) :=
  [["default-src"; "'none'"]; ["script-src"; "'self'"]; ["style-src"; "'self'"];
   ["img-src"; "'self'"; "data:"]; ["media-src"; "'self'"; "blob:"];
   "connect-src" :: connect_sources cfg origin host;
   ["form-action"; "'self'"]; ["frame-ancestors"; "'none'"]; ["base-uri"; "'none'"]].

Definition words_set (cfg : Settings) : Prop :=
  policy_word (gateway_cookie_domain cfg) = true /\ policy_word (issuer cfg) = true
  /\ policy_word (portal_origin cfg) = true /\ policy_word (external_scheme cfg) = true
  /\ policy_word (auth_host cfg) = true.

Lemma spaced_app a b : spaced (a ++ b) = spaced a +:+ spaced b.
Proof. induction a as [|w a IH]; [done|]. cbn [app]. rewrite !spaced_cons, IH. by rewrite !app_assoc_str. Qed.

Lemma optional_proper s prefix : policy_word prefix = true -> policy_word s = true ->
  Forall proper_word (optional s prefix).
Proof.
  intros Hp Hs. unfold optional. case_bool_decide as En; [constructor|]. constructor; [|constructor].
  split; [|by rewrite policy_word_app, Hp, Hs]. destruct prefix; [by rewrite app_empty_l|done].
Qed.

Lemma connect_proper cfg origin host : words_set cfg -> policy_word origin = true -> policy_word host = true ->
  Forall proper_word (connect_sources cfg origin host).
Proof.
  intros (Hd & _ & _ & Hx & Ha) Ho Hh. unfold connect_sources. rewrite !Forall_app. split_and!.
  - by constructor.
  - by apply optional_proper.
  - constructor; [|constructor]. split; [by destruct (external_scheme cfg)|].
    by rewrite !policy_word_app, Hx, Ha.
  - case_bool_decide; constructor; [|constructor]. split; [done|]. by apply (policy_word_lstrip _ _ Hd).
  - by apply optional_proper.
Qed.

(** A browser reads the policy of the administration pages as the nine directives it is
    meant to be, and may connect to the page's own origin, the issuer, the gateway's
    host, and the sockets of the cookie domain and of the portal. *)
Theorem admin_csp_reads cfg csp (Hset : words_set cfg) (Hcsp : admin_csp cfg = Some csp) :
  exists origin host, idp_origin cfg = Some origin /\ portal_host cfg = Some host
  /\ policy_of csp = admin_policy cfg origin host.
Proof.
  unfold admin_csp in Hcsp. destruct (idp_origin cfg) as [origin|] eqn:Eo; [|done].
  destruct (portal_host cfg) as [host|] eqn:Eh; [|done]. exists origin, host. split; [done|]. split; [done|].
  pose proof Hset as (_ & Hi & Hp & _).
  assert (policy_word origin = true) as Ho.
  { clear Hcsp. unfold idp_origin in Eo. destruct (urlsplit (issuer cfg)) as [u|] eqn:Eu; [|done]. injection Eo as <-.
    apply urlsplit_words in Eu as [H1 H2]; [|done]. case_bool_decide; [done|]. by rewrite !policy_word_app, H1, H2. }
  assert (policy_word host = true) as Hh.
  { clear Hcsp. unfold portal_host in Eh. revert Eh. case_bool_decide; [by intros [= <-]|].
    destruct (urlsplit (portal_origin cfg)) as [u|] eqn:Eu; [|done]. intros [= <-].
    by apply urlsplit_words in Eu as [H1 H2]. }
  pose proof (connect_proper cfg origin host Hset Ho Hh) as Hc.
  rewrite <- policy_lead, <- (policy_join (admin_policy cfg origin host)).
  - apply (f_equal policy_of). revert Hcsp. cbv zeta. intros [= <-].
    unfold admin_policy. cbn [map join]. rewrite (spaced_cons "connect-src"). unfold connect_sources, optional.
    rewrite !spaced_app.
    repeat case_bool_decide; cbn [spaced foldr app]; cbn [String.append]; rewrite ?app_assoc_str, ?app_empty_r;
      cbn [String.append]; rewrite ?app_assoc_str; cbn [String.append]; reflexivity.
  - done.
  - unfold admin_policy. rewrite !Forall_cons. split_and!; first [exact Hc | by constructor | by split].
Qed.

(** What no setting of these can do: the scripts of the administration pages are the
    page's own, whatever the hosts are called. *)
Corollary admin_scripts_self cfg csp (Hset : words_set cfg) (Hcsp : admin_csp cfg = Some csp) :
  forall d, d ∈ policy_of csp -> head d = Some "script-src" -> d = ["script-src"; "'self'"].
Proof.
  destruct (admin_csp_reads cfg csp Hset Hcsp) as (origin & host & _ & _ & ->). intros d Hd.
  unfold admin_policy in Hd. rewrite !elem_of_cons, elem_of_nil in Hd.
  destruct_or! Hd; subst; done.
Qed.

(** A cookie domain written with a leading dot, which the policy of the administration
    pages drops, stays in the form targets of the identity provider: two dots follow the
    asterisk, and no host matches. *)
Theorem leading_dot_kept cfg d csp (Hset : words_set cfg)
    (Hd : gateway_cookie_domain cfg = "." +:+ d) (Hcsp : admin_csp cfg = Some csp) :
  ["form-action"; "'self'"; "https://*.." +:+ d; "https://." +:+ d] ∈ policy_of (idp_csp cfg)
  /\ exists sources, "connect-src" :: sources ∈ policy_of csp /\ "wss://*." +:+ lstrip_char "." d ∈ sources.
Proof.
  split.
  - rewrite idp_csp_reads by (by destruct Hset). rewrite Hd. unfold idp_policy.
    rewrite bool_decide_eq_false_2 by done. do 5 right. left.
  - destruct (admin_csp_reads cfg csp Hset Hcsp) as (origin & host & _ & _ & ->).
    exists (connect_sources cfg origin host). split; [do 5 right; left|].
    unfold connect_sources. rewrite Hd, bool_decide_eq_false_2 by done. rewrite !elem_of_app.
    do 3 right. left. left.
Qed.

(** ** Witnesses *)

Example example_words : words_set example_settings.
Proof. unfold words_set. vm_compute. tauto. Qed.

Example admin_csp_reads_witness : exists csp, admin_csp example_settings = Some csp
  /\ exists origin host, policy_of csp = admin_policy example_settings origin host.
Proof.
  eexists. split; [vm_compute; reflexivity|].
  destruct (admin_csp_reads example_settings _ example_words eq_refl) as (o & h & _ & _ & H). by exists o, h.
Defined.

Example idp_headers_sound_witness : exists r s', idp_security_headers "/auth/login" (ret (plain 200 "ok")) demo_env (mkSt empty_db 0) = (Ok r, s')
  /\ assoc "cache-control" (rs_headers r) = Some "no-store".
Proof.
  destruct (idp_security_headers "/auth/login" (ret (plain 200 "ok")) demo_env (mkSt empty_db 0)) as [[r|x] s'] eqn:E;
    [|discriminate]. exists r, s'. split; [reflexivity|].
  destruct (idp_headers_sound _ _ _ _ _ _ E) as (r0 & H0 & Ha & _). injection H0 as <- <-.
  by rewrite (Ha "cache-control").
Defined.
