(* ===== verification/Schema.v ===== *)
(** * Schema: the tables that db/models.py declares

    The declarations of the classes as a database schema: columns with their types,
    nullability and server defaults, constraints under the names PostgreSQL gives them,
    and indexes.  [Db] holds the rows of these tables; the schema is what the migrations
    of [Migrations] have to build. *)

From S2P Require Import Prelude PyStr.

(** ** Schemas *)

Inductive ColumnType : Type :=
| BigInteger | Boolean | DateTime | Integer | LargeBinary | Text | CITEXT | INET | JSONB | UUID
| ARRAY (item : ColumnType).
#[export] Instance ColumnType_eq_dec : EqDecision ColumnType.
Proof. solve_decision. Defined.

Record Column := mkColumn {
  c_type : ColumnType;
  c_nullable : bool;
  c_default : option string;
  c_serial : bool;
}.
#[export] Instance Column_eq_dec : EqDecision Column.
Proof. solve_decision. Defined.

(** Notations of the declarations. *)
Definition NULL : bool := true.
Definition NOT_NULL : bool := false.
Definition no_default : option string := None.
Definition default_of (expr : string) : option string := Some expr.
Definition col (ty : ColumnType) (nullable : bool) (dflt : option string) : Column :=
  mkColumn ty nullable dflt false.
Definition serial (c : Column) : Column := mkColumn (c_type c) (c_nullable c) (c_default c) true.

Inductive OnDelete : Type := NO_ACTION | CASCADE | SET_NULL.
#[export] Instance OnDelete_eq_dec : EqDecision OnDelete.
Proof. solve_decision. Defined.

Inductive Constraint : Type :=
| PrimaryKey (cols : list string)
| Unique (cols : list string)
| CheckThat (condition : string)
| ForeignKey (cols : list string) (table : string) (refs : list string) (ondelete : OnDelete).
#[export] Instance Constraint_eq_dec : EqDecision Constraint.
Proof. solve_decision. Defined.

Record Index := mkIndex {
  ix_columns : list string;
  ix_unique : bool;
  ix_where : option string;
}.
#[export] Instance Index_eq_dec : EqDecision Index.
Proof. solve_decision. Defined.
Definition index_on (cols : list string) (where_ : option string) : Index := mkIndex cols false where_.
Definition unique_index_on (cols : list string) (where_ : option string) : Index := mkIndex cols true where_.

(** The order of the columns of a table is no part of it. *)
Record Table := mkTable {
  t_columns : gmap string Column;
  t_constraints : gmap string Constraint;
  t_indexes : gmap string Index;
}.
#[export] Instance Table_eq_dec : EqDecision Table.
Proof. solve_decision. Defined.

Notation Schema := (gmap string Table).

(** The name PostgreSQL gives a constraint declared without one. *)
Definition default_name (table : string) (c : Constraint) : string :=
  match c with
  | PrimaryKey _ => table +:+ "_pkey"
  | Unique cols => table +:+ "_" +:+ join "_" cols +:+ "_key"
  | CheckThat _ => table +:+ "_check"
  | ForeignKey cols _ _ _ => table +:+ "_" +:+ join "_" cols +:+ "_fkey"
  end.

Definition named (table : string) (nc : option string * Constraint) : string * Constraint :=
  (default (default_name table nc.2) nc.1, nc.2).

Definition table_of (name : string) (cols : list (string * Column))
    (constraints : list (option string * Constraint)) (indexes : list (string * Index)) : Table :=
  mkTable (list_to_map cols) (list_to_map (map (named name) constraints)) (list_to_map indexes).

(** ** When a schema is consistent *)

Definition constraint_columns (c : Constraint) : list string :=
  match c with
  | PrimaryKey cols | Unique cols | ForeignKey cols _ _ _ => cols
  | CheckThat _ => []
  end.

(** The columns can be referred to: they are a key of the table. *)
Definition is_key (cols : list string) (t : Table) : bool :=
  existsb (fun nc => bool_decide (nc.2 = PrimaryKey cols) || bool_decide (nc.2 = Unique cols))
    (map_to_list (t_constraints t)).

Definition has_columns (t : Table) (cols : list string) : bool :=
  forallb (fun c => bool_decide (is_Some (t_columns t !! c))) cols.

Definition target_ok (s : Schema) (t : Table) (c : Constraint) : bool :=
  match c with
  | ForeignKey cols table refs _ =>
      match s !! table with
      | Some t' =>
          is_key refs t'
          && bool_decide (map (fun c => c_type <$> t_columns t !! c) cols
                          = map (fun c => c_type <$> t_columns t' !! c) refs)
      | None => false
      end
  | _ => true
  end.

Definition table_ok (s : Schema) (t : Table) : bool :=
  forallb (fun nc => has_columns t (constraint_columns nc.2) && target_ok s t nc.2)
    (map_to_list (t_constraints t))
  && forallb (fun nx => has_columns t (ix_columns nx.2)) (map_to_list (t_indexes t)).

Definition index_names (s : Schema) : list string :=
  concat (map (fun nt => map fst (map_to_list (t_indexes nt.2))) (map_to_list s)).

(** Every constraint and index names columns of its table, every foreign key refers to a
    key of the same types, and no two indexes share a name. *)
Definition consistent (s : Schema) : bool :=
  forallb (fun nt => table_ok s nt.2) (map_to_list s) && bool_decide (NoDup (index_names s)).

(** ** The declarations of a class *)

(** A mapped column: declared with a type, or by the column it refers to, whose type it
    then has. *)
Inductive MappedType : Type :=
| Declared (c : Column)
| Referring (nullable : bool) (table ref : string) (ondelete : OnDelete).

Record Mapped := mkMapped {
  m_type : MappedType;
  m_primary : bool;
  m_unique : bool;
}.
Definition mapped (c : Column) : Mapped := mkMapped (Declared c) false false.
Definition references (nullable : bool) (table ref : string) (ondelete : OnDelete) : Mapped :=
  mkMapped (Referring nullable table ref ondelete) false false.
Definition primary (m : Mapped) : Mapped := mkMapped (m_type m) true (m_unique m).
Definition unique (m : Mapped) : Mapped := mkMapped (m_type m) (m_primary m) true.

Record Model := mkModel {
  tablename : string;
  table_args : list (option string * Constraint);
  table_indexes : list (string * Index);
  mapped_columns : list (string * Mapped);
}.

(** The type of a column of the models, through one reference. *)
Definition declared_type (models : list Model) (table c : string) : option ColumnType :=
  m ← List.find (fun m => bool_decide (tablename m = table)) models;
  x ← List.find (fun nm => bool_decide (nm.1 = c)) (mapped_columns m);
  match m_type x.2 with Declared c => Some (c_type c) | Referring _ _ _ _ => None end.

Definition column_of (models : list Model) (m : Mapped) : Column :=
  match m_type m with
  | Declared c => c
  | Referring nullable table ref _ =>
      col (default Text (declared_type models table ref)) nullable no_default
  end.

(** The constraints that the columns of a class declare. *)
Definition column_constraints (m : Model) : list Constraint :=
  let keys := map fst (List.filter (fun nm => m_primary nm.2) (mapped_columns m)) in
  (if bool_decide (keys = []) then [] else [PrimaryKey keys])
  ++ map (fun nm => Unique [nm.1]) (List.filter (fun nm => m_unique nm.2) (mapped_columns m))
  ++ concat (map (fun nm => match m_type nm.2 with
                            | Declared _ => []
                            | Referring _ table ref ondelete => [ForeignKey [nm.1] table [ref] ondelete]
                            end) (mapped_columns m)).

Definition table_of_model (models : list Model) (m : Model) : Table :=
  table_of (tablename m) (map (fun nm => (nm.1, column_of models nm.2)) (mapped_columns m))
    (table_args m ++ map (fun c => (None, c)) (column_constraints m)) (table_indexes m).

Definition schema_of (models : list Model) : Schema :=
  list_to_map (map (fun m => (tablename m, table_of_model models m)) models).

(** ** The classes *)

Definition model_User : Model := mkModel "users"
  [(Some "users_status_check", CheckThat "status IN ('active','disabled')");
   (Some "users_auth_tier_check", CheckThat "auth_tier IN ('standard','admin')")]
  []
  [("id", primary (mapped (col UUID NOT_NULL (default_of "gen_random_uuid()"))));
   ("external_id", unique (mapped (col Text NOT_NULL no_default)));
   ("email", unique (mapped (col CITEXT NOT_NULL no_default)));
   ("display_name", mapped (col Text NOT_NULL no_default));
   ("status", mapped (col Text NOT_NULL (default_of "'active'")));
   ("auth_tier", mapped (col Text NOT_NULL no_default));
   ("password_hash", mapped (col Text NOT_NULL no_default));
   ("is_protected", mapped (col Boolean NOT_NULL (default_of "false")));
   ("created_at", mapped (col DateTime NOT_NULL (default_of "now()")));
   ("updated_at", mapped (col DateTime NOT_NULL (default_of "now()")))].

Definition model_Role : Model := mkModel "roles"
  []
  []
  [("id", primary (mapped (col UUID NOT_NULL (default_of "gen_random_uuid()"))));
   ("name", unique (mapped (col Text NOT_NULL no_default)));
   ("description", mapped (col Text NULL no_default))].

Definition model_UserRole : Model := mkModel "user_roles"
  []
  []
  [("user_id", primary (references NOT_NULL "users" "id" CASCADE));
   ("role_id", primary (references NOT_NULL "roles" "id" CASCADE))].

Definition model_Resource : Model := mkModel "resources"
  [(Some "resources_protocol_check", CheckThat "protocol IN ('http','https','tcp','vnc','rdp','ssh','rtsp')");
   (Some "resources_public_access_shape_check", CheckThat "NOT public_access OR (protocol IN ('http','https') AND public_host IS NOT NULL AND public_paths IS NOT NULL AND array_length(public_paths, 1) >= 1)")]
  []
  [("id", primary (mapped (col UUID NOT_NULL (default_of "gen_random_uuid()"))));
   ("name", unique (mapped (col Text NOT_NULL no_default)));
   ("protocol", mapped (col Text NOT_NULL no_default));
   ("public_host", unique (mapped (col CITEXT NULL no_default)));
   ("host", mapped (col Text NOT_NULL no_default));
   ("ports", mapped (col (ARRAY Integer) NOT_NULL no_default));
   ("path_prefix", mapped (col Text NULL no_default));
   ("description", mapped (col Text NULL no_default));
   ("enabled", mapped (col Boolean NOT_NULL (default_of "true")));
   ("public_access", mapped (col Boolean NOT_NULL (default_of "false")));
   ("public_paths", mapped (col (ARRAY Text) NULL no_default));
   ("public_password_hash", mapped (col Text NULL no_default));
   ("public_password_set_at", mapped (col DateTime NULL no_default))].

Definition model_ResourceConnection : Model := mkModel "resource_connections"
  [(Some "resource_connections_protocol_check", CheckThat "protocol IN ('vnc','rdp','ssh','rtsp')")]
  []
  [("id", primary (mapped (col UUID NOT_NULL (default_of "gen_random_uuid()"))));
   ("resource_id", unique (references NOT_NULL "resources" "id" CASCADE));
   ("protocol", mapped (col Text NOT_NULL no_default));
   ("hostname", mapped (col Text NOT_NULL no_default));
   ("port", mapped (col Integer NOT_NULL no_default));
   ("params_json", mapped (col JSONB NOT_NULL (default_of "'{}'::jsonb")));
   ("secret_ciphertext", mapped (col LargeBinary NULL no_default));
   ("key_id", mapped (col Text NULL no_default));
   ("secret_keys", mapped (col (ARRAY Text) NOT_NULL (default_of "'{}'::text[]")));
   ("created_at", mapped (col DateTime NOT_NULL (default_of "now()")));
   ("updated_at", mapped (col DateTime NOT_NULL (default_of "now()")))].

Definition model_GuacGrant : Model := mkModel "guac_grants"
  []
  [("ix_guac_grants_expires_at", (index_on ["expires_at"] None))]
  [("token_hash", primary (mapped (col Text NOT_NULL no_default)));
   ("user_id", references NOT_NULL "users" "id" CASCADE);
   ("resource_id", references NOT_NULL "resources" "id" CASCADE);
   ("connection_id", mapped (col UUID NOT_NULL no_default));
   ("source_ip", mapped (col INET NOT_NULL no_default));
   ("issued_at", mapped (col DateTime NOT_NULL (default_of "now()")));
   ("expires_at", mapped (col DateTime NOT_NULL no_default));
   ("consumed_at", mapped (col DateTime NULL no_default))].

Definition model_RtspGrant : Model := mkModel "rtsp_grants"
  []
  [("ix_rtsp_grants_expires_at", (index_on ["expires_at"] None))]
  [("token_hash", primary (mapped (col Text NOT_NULL no_default)));
   ("user_id", references NOT_NULL "users" "id" CASCADE);
   ("resource_id", references NOT_NULL "resources" "id" CASCADE);
   ("connection_id", mapped (col UUID NOT_NULL no_default));
   ("source_ip", mapped (col INET NOT_NULL no_default));
   ("issued_at", mapped (col DateTime NOT_NULL (default_of "now()")));
   ("expires_at", mapped (col DateTime NOT_NULL no_default));
   ("consumed_at", mapped (col DateTime NULL no_default))].

Definition model_Policy : Model := mkModel "policies"
  [(Some "policies_action_check", CheckThat "action IN ('allow','deny')")]
  [("ix_policies_role_id", (index_on ["role_id"] None));
   ("ix_policies_resource_id", (index_on ["resource_id"] None))]
  [("id", primary (mapped (col UUID NOT_NULL (default_of "gen_random_uuid()"))));
   ("role_id", references NOT_NULL "roles" "id" CASCADE);
   ("resource_id", references NOT_NULL "resources" "id" CASCADE);
   ("allowed_ports", mapped (col (ARRAY Integer) NULL no_default));
   ("allowed_paths", mapped (col (ARRAY Text) NULL no_default));
   ("action", mapped (col Text NOT_NULL no_default));
   ("conditions_json", mapped (col JSONB NOT_NULL (default_of "'{}'::jsonb")));
   ("enabled", mapped (col Boolean NOT_NULL (default_of "true")));
   ("created_at", mapped (col DateTime NOT_NULL (default_of "now()")))].

Definition model_DownloadRequest : Model := mkModel "download_requests"
  [(Some "download_requests_target_check", CheckThat "target IN ('shows','movies')");
   (Some "download_requests_status_check", CheckThat "status IN ('pending','approved','denied')")]
  [("ix_download_requests_user_id", (index_on ["user_id"] None));
   ("ix_download_requests_status", (index_on ["status"] None))]
  [("id", primary (mapped (col UUID NOT_NULL (default_of "gen_random_uuid()"))));
   ("user_id", references NOT_NULL "users" "id" CASCADE);
   ("magnet", mapped (col Text NOT_NULL no_default));
   ("target", mapped (col Text NOT_NULL no_default));
   ("status", mapped (col Text NOT_NULL (default_of "'pending'")));
   ("created_at", mapped (col DateTime NOT_NULL (default_of "now()")));
   ("reviewed_by", references NULL "users" "id" SET_NULL);
   ("reviewed_at", mapped (col DateTime NULL no_default));
   ("submitted_at", mapped (col DateTime NULL no_default));
   ("error", mapped (col Text NULL no_default))].

Definition model_Session : Model := mkModel "sessions"
  [(Some "sessions_auth_tier_check", CheckThat "auth_tier IN ('standard','admin')")]
  [("ix_sessions_user_id", (index_on ["user_id"] None));
   ("ix_sessions_absolute_expires_at", (index_on ["absolute_expires_at"] None))]
  [("id", primary (mapped (col UUID NOT_NULL (default_of "gen_random_uuid()"))));
   ("user_id", references NOT_NULL "users" "id" CASCADE);
   ("cookie_secret_hash", mapped (col Text NOT_NULL no_default));
   ("source_ip", mapped (col INET NOT_NULL no_default));
   ("auth_tier", mapped (col Text NOT_NULL no_default));
   ("amr", mapped (col (ARRAY Text) NOT_NULL no_default));
   ("mfa_verified", mapped (col Boolean NOT_NULL (default_of "false")));
   ("dpop_jkt", mapped (col Text NULL no_default));
   ("issued_at", mapped (col DateTime NOT_NULL (default_of "now()")));
   ("last_seen_at", mapped (col DateTime NOT_NULL (default_of "now()")));
   ("absolute_expires_at", mapped (col DateTime NOT_NULL no_default));
   ("step_up_verified_at", mapped (col DateTime NULL no_default));
   ("stepup_challenge", mapped (col LargeBinary NULL no_default));
   ("stale", mapped (col Boolean NOT_NULL (default_of "false")));
   ("revoked_at", mapped (col DateTime NULL no_default));
   ("revoke_reason", mapped (col Text NULL no_default))].

Definition model_PolicyChange : Model := mkModel "policy_changes"
  []
  []
  [("id", primary (mapped (serial (col BigInteger NOT_NULL no_default))));
   ("ts", mapped (col DateTime NOT_NULL (default_of "now()")));
   ("actor_id", references NOT_NULL "users" "id" NO_ACTION);
   ("entity_type", mapped (col Text NOT_NULL no_default));
   ("entity_id", mapped (col UUID NULL no_default));
   ("action", mapped (col Text NOT_NULL no_default));
   ("change_json", mapped (col JSONB NOT_NULL no_default))].

Definition model_AuditLog : Model := mkModel "audit_log"
  []
  [("ix_audit_log_ts", (index_on ["ts"] None))]
  [("id", primary (mapped (serial (col BigInteger NOT_NULL no_default))));
   ("ts", mapped (col DateTime NOT_NULL (default_of "now()")));
   ("user_id", mapped (col UUID NULL no_default));
   ("resource_id", mapped (col UUID NULL no_default));
   ("port", mapped (col Integer NULL no_default));
   ("decision", mapped (col Text NOT_NULL no_default));
   ("reason", mapped (col Text NULL no_default));
   ("source_ip", mapped (col INET NOT_NULL no_default))].

Definition model_LogShipCursor : Model := mkModel "log_ship_cursors"
  []
  []
  [("stream", primary (mapped (col Text NOT_NULL no_default)));
   ("last_id", mapped (col BigInteger NOT_NULL (default_of "0")));
   ("updated_at", mapped (col DateTime NOT_NULL (default_of "now()")))].

Definition model_AuthEvent : Model := mkModel "auth_events"
  []
  [("ix_auth_events_ts", (index_on ["ts"] None));
   ("ix_auth_events_user_id_ts", (index_on ["user_id"; "ts"] None))]
  [("id", primary (mapped (serial (col BigInteger NOT_NULL no_default))));
   ("ts", mapped (col DateTime NOT_NULL (default_of "now()")));
   ("event_type", mapped (col Text NOT_NULL no_default));
   ("user_id", mapped (col UUID NULL no_default));
   ("session_id", mapped (col UUID NULL no_default));
   ("client_id", mapped (col Text NULL no_default));
   ("source_ip", mapped (col INET NOT_NULL no_default));
   ("success", mapped (col Boolean NOT_NULL no_default));
   ("detail", mapped (col JSONB NOT_NULL (default_of "'{}'::jsonb")))].

Definition model_OAuthClient : Model := mkModel "oauth_clients"
  []
  []
  [("id", primary (mapped (col UUID NOT_NULL (default_of "gen_random_uuid()"))));
   ("client_id", unique (mapped (col Text NOT_NULL no_default)));
   ("client_name", mapped (col Text NOT_NULL no_default));
   ("redirect_uris", mapped (col (ARRAY Text) NOT_NULL no_default));
   ("token_endpoint_auth_method", mapped (col Text NOT_NULL (default_of "'none'")));
   ("require_dpop", mapped (col Boolean NOT_NULL (default_of "true")));
   ("allowed_scopes", mapped (col (ARRAY Text) NOT_NULL (default_of "ARRAY['openid','profile','email']")));
   ("enabled", mapped (col Boolean NOT_NULL (default_of "true")));
   ("created_at", mapped (col DateTime NOT_NULL (default_of "now()")))].

Definition model_AuthCode : Model := mkModel "auth_codes"
  [(Some "auth_codes_pkce_method_check", CheckThat "code_challenge_method = 'S256'")]
  []
  [("code_hash", primary (mapped (col Text NOT_NULL no_default)));
   ("client_id", references NOT_NULL "oauth_clients" "client_id" NO_ACTION);
   ("user_id", references NOT_NULL "users" "id" CASCADE);
   ("session_id", references NOT_NULL "sessions" "id" CASCADE);
   ("redirect_uri", mapped (col Text NOT_NULL no_default));
   ("scope", mapped (col Text NOT_NULL no_default));
   ("nonce", mapped (col Text NOT_NULL no_default));
   ("code_challenge", mapped (col Text NOT_NULL no_default));
   ("code_challenge_method", mapped (col Text NOT_NULL (default_of "'S256'")));
   ("auth_time", mapped (col DateTime NOT_NULL no_default));
   ("expires_at", mapped (col DateTime NOT_NULL no_default));
   ("consumed_at", mapped (col DateTime NULL no_default))].

Definition model_RefreshToken : Model := mkModel "refresh_tokens"
  []
  [("ix_refresh_tokens_family_id", (index_on ["family_id"] None));
   ("ix_refresh_tokens_session_id", (index_on ["session_id"] None))]
  [("id", primary (mapped (col UUID NOT_NULL (default_of "gen_random_uuid()"))));
   ("token_hash", unique (mapped (col Text NOT_NULL no_default)));
   ("session_id", references NOT_NULL "sessions" "id" CASCADE);
   ("family_id", mapped (col UUID NOT_NULL no_default));
   ("parent_id", mapped (col UUID NULL no_default));
   ("client_id", mapped (col Text NOT_NULL no_default));
   ("user_id", references NOT_NULL "users" "id" CASCADE);
   ("dpop_jkt", mapped (col Text NOT_NULL no_default));
   ("scope", mapped (col Text NOT_NULL no_default));
   ("issued_at", mapped (col DateTime NOT_NULL (default_of "now()")));
   ("expires_at", mapped (col DateTime NOT_NULL no_default));
   ("used_at", mapped (col DateTime NULL no_default));
   ("revoked_at", mapped (col DateTime NULL no_default))].

Definition model_DpopJtiSeen : Model := mkModel "dpop_jti_seen"
  [(Some "dpop_jti_seen_pkey", PrimaryKey ["jkt"; "jti"])]
  [("ix_dpop_jti_seen_expires_at", (index_on ["expires_at"] None))]
  [("jkt", mapped (col Text NOT_NULL no_default));
   ("jti", mapped (col Text NOT_NULL no_default));
   ("expires_at", mapped (col DateTime NOT_NULL no_default))].

Definition model_SigningKey : Model := mkModel "signing_keys"
  [(Some "signing_keys_state_check", CheckThat "state IN ('pending','active','retiring','retired')")]
  [("ux_signing_keys_single_active", (unique_index_on ["state"] (Some "state = 'active'")))]
  [("id", primary (mapped (col UUID NOT_NULL (default_of "gen_random_uuid()"))));
   ("kid", unique (mapped (col Text NOT_NULL no_default)));
   ("alg", mapped (col Text NOT_NULL (default_of "'ES256'")));
   ("state", mapped (col Text NOT_NULL no_default));
   ("public_jwk", mapped (col JSONB NOT_NULL no_default));
   ("private_key_ciphertext", mapped (col LargeBinary NOT_NULL no_default));
   ("key_id", mapped (col Text NOT_NULL no_default));
   ("created_at", mapped (col DateTime NOT_NULL (default_of "now()")));
   ("activated_at", mapped (col DateTime NULL no_default));
   ("retiring_at", mapped (col DateTime NULL no_default));
   ("retired_at", mapped (col DateTime NULL no_default))].

Definition model_UserTotp : Model := mkModel "user_totp"
  []
  []
  [("user_id", primary (references NOT_NULL "users" "id" CASCADE));
   ("secret_ciphertext", mapped (col LargeBinary NOT_NULL no_default));
   ("key_id", mapped (col Text NOT_NULL no_default));
   ("created_at", mapped (col DateTime NOT_NULL (default_of "now()")));
   ("confirmed_at", mapped (col DateTime NULL no_default))].

Definition model_WebAuthnCredential : Model := mkModel "webauthn_credentials"
  []
  [("ix_webauthn_credentials_user_id", (index_on ["user_id"] None))]
  [("id", primary (mapped (col UUID NOT_NULL (default_of "gen_random_uuid()"))));
   ("user_id", references NOT_NULL "users" "id" CASCADE);
   ("credential_id", unique (mapped (col LargeBinary NOT_NULL no_default)));
   ("public_key", mapped (col LargeBinary NOT_NULL no_default));
   ("sign_count", mapped (col BigInteger NOT_NULL (default_of "0")));
   ("transports", mapped (col (ARRAY Text) NULL no_default));
   ("aaguid", mapped (col UUID NULL no_default));
   ("friendly_name", mapped (col Text NOT_NULL no_default));
   ("break_glass", mapped (col Boolean NOT_NULL (default_of "false")));
   ("created_at", mapped (col DateTime NOT_NULL (default_of "now()")));
   ("last_used_at", mapped (col DateTime NULL no_default))].

Definition model_RecoveryCode : Model := mkModel "recovery_codes"
  []
  [("ix_recovery_codes_user_id_unused", (index_on ["user_id"] (Some "used_at IS NULL")))]
  [("id", primary (mapped (col UUID NOT_NULL (default_of "gen_random_uuid()"))));
   ("user_id", references NOT_NULL "users" "id" CASCADE);
   ("batch_id", mapped (col UUID NOT_NULL no_default));
   ("code_hash", mapped (col Text NOT_NULL no_default));
   ("used_at", mapped (col DateTime NULL no_default));
   ("created_at", mapped (col DateTime NOT_NULL (default_of "now()")))].

Definition model_LoginFlow : Model := mkModel "login_flows"
  [(Some "login_flows_stage_check", CheckThat "stage IN ('password','totp','webauthn','done')")]
  []
  [("id", primary (mapped (col UUID NOT_NULL (default_of "gen_random_uuid()"))));
   ("csrf_token_hash", mapped (col Text NOT_NULL no_default));
   ("source_ip", mapped (col INET NOT_NULL no_default));
   ("stage", mapped (col Text NOT_NULL (default_of "'password'")));
   ("user_id", references NULL "users" "id" CASCADE);
   ("webauthn_challenge", mapped (col LargeBinary NULL no_default));
   ("recovery_used", mapped (col Boolean NOT_NULL (default_of "false")));
   ("oidc_request", mapped (col JSONB NOT_NULL (default_of "'{}'::jsonb")));
   ("completed_session_id", references NULL "sessions" "id" CASCADE);
   ("created_at", mapped (col DateTime NOT_NULL (default_of "now()")));
   ("expires_at", mapped (col DateTime NOT_NULL no_default))].

Definition model_GatewaySession : Model := mkModel "gateway_sessions"
  []
  [("ix_gateway_sessions_user_id", (index_on ["user_id"] None))]
  [("id", primary (mapped (col UUID NOT_NULL (default_of "gen_random_uuid()"))));
   ("user_id", references NOT_NULL "users" "id" CASCADE);
   ("idp_session_id", references NOT_NULL "sessions" "id" CASCADE);
   ("cookie_secret_hash", mapped (col Text NOT_NULL no_default));
   ("source_ip", mapped (col INET NOT_NULL no_default));
   ("created_at", mapped (col DateTime NOT_NULL (default_of "now()")));
   ("revoked_at", mapped (col DateTime NULL no_default))].

Definition model_GatewayLoginState : Model := mkModel "gateway_login_states"
  []
  []
  [("state_hash", primary (mapped (col Text NOT_NULL no_default)));
   ("code_verifier", mapped (col Text NOT_NULL no_default));
   ("nonce", mapped (col Text NOT_NULL no_default));
   ("return_url", mapped (col Text NOT_NULL no_default));
   ("source_ip", mapped (col INET NOT_NULL no_default));
   ("created_at", mapped (col DateTime NOT_NULL (default_of "now()")));
   ("expires_at", mapped (col DateTime NOT_NULL no_default))].

Definition model_PublicSession : Model := mkModel "public_sessions"
  []
  [("ix_public_sessions_resource_id", (index_on ["resource_id"] None))]
  [("id", primary (mapped (col UUID NOT_NULL (default_of "gen_random_uuid()"))));
   ("resource_id", references NOT_NULL "resources" "id" CASCADE);
   ("cookie_secret_hash", mapped (col Text NOT_NULL no_default));
   ("source_ip", mapped (col INET NULL no_default));
   ("created_at", mapped (col DateTime NOT_NULL (default_of "now()")));
   ("expires_at", mapped (col DateTime NOT_NULL no_default));
   ("last_seen_at", mapped (col DateTime NOT_NULL (default_of "now()")));
   ("revoked_at", mapped (col DateTime NULL no_default))].

Definition model_AuthThrottle : Model := mkModel "auth_throttle"
  [(Some "auth_throttle_pkey", PrimaryKey ["scope"; "key"]);
   (Some "auth_throttle_scope_check", CheckThat "scope IN ('ip','account')")]
  []
  [("scope", mapped (col Text NOT_NULL no_default));
   ("key", mapped (col Text NOT_NULL no_default));
   ("failure_count", mapped (col Integer NOT_NULL (default_of "0")));
   ("window_started_at", mapped (col DateTime NOT_NULL (default_of "now()")));
   ("next_allowed_at", mapped (col DateTime NOT_NULL (default_of "now()")))].

(** [Base.metadata]. *)
Definition metadata_models : list Model :=
  [model_User;
   model_Role;
   model_UserRole;
   model_Resource;
   model_ResourceConnection;
   model_GuacGrant;
   model_RtspGrant;
   model_Policy;
   model_DownloadRequest;
   model_Session;
   model_PolicyChange;
   model_AuditLog;
   model_LogShipCursor;
   model_AuthEvent;
   model_OAuthClient;
   model_AuthCode;
   model_RefreshToken;
   model_DpopJtiSeen;
   model_SigningKey;
   model_UserTotp;
   model_WebAuthnCredential;
   model_RecoveryCode;
   model_LoginFlow;
   model_GatewaySession;
   model_GatewayLoginState;
   model_PublicSession;
   model_AuthThrottle].

(** The schema that the classes declare. *)
Definition models_schema : Schema := schema_of metadata_models.

(** The foreign keys to a table: the class's table, the column and what a delete does. *)
Definition references_to (table : string) : list (string * string * OnDelete) :=
  concat (map (fun m => concat (map (fun nm =>
    match m_type nm.2 with
    | Referring _ t _ ondelete => if bool_decide (t = table) then [(tablename m, nm.1, ondelete)] else []
    | Declared _ => []
    end) (mapped_columns m))) metadata_models).

(** The reference of a column, if it is one, is to a column declared with a type. *)
Definition resolves (m : Mapped) : bool :=
  match m_type m with
  | Declared _ => true
  | Referring _ table ref _ => bool_decide (is_Some (declared_type metadata_models table ref))
  end.

(** ** Theorems *)

(** The classes declare as many tables as there are classes, every reference is to a
    column with a type, and the schema is consistent. *)
Theorem models_consistent : consistent models_schema = true
  /\ size models_schema = List.length metadata_models
  /\ Forall (fun m => forallb (fun nm => resolves nm.2) (mapped_columns m) = true) metadata_models.
Proof.
  split; [vm_compute; reflexivity|]. split; [vm_compute; reflexivity|]. repeat constructor.
Qed.

(** What a deleted user takes along, what is left without them, and what refuses the
    delete: the keys that [Cascade.drop_user] and [Cascade.db_delete_user] follow. *)
Theorem user_references : references_to "users" =
  [("user_roles", "user_id", CASCADE); ("guac_grants", "user_id", CASCADE); ("rtsp_grants", "user_id", CASCADE);
   ("download_requests", "user_id", CASCADE); ("download_requests", "reviewed_by", SET_NULL);
   ("sessions", "user_id", CASCADE); ("policy_changes", "actor_id", NO_ACTION); ("auth_codes", "user_id", CASCADE);
   ("refresh_tokens", "user_id", CASCADE); ("user_totp", "user_id", CASCADE);
   ("webauthn_credentials", "user_id", CASCADE); ("recovery_codes", "user_id", CASCADE);
   ("login_flows", "user_id", CASCADE); ("gateway_sessions", "user_id", CASCADE)].
Proof. vm_compute. reflexivity. Qed.

(** The same for a session, a resource and a role. *)
Theorem other_references :
  references_to "sessions" = [("auth_codes", "session_id", CASCADE); ("refresh_tokens", "session_id", CASCADE);
    ("login_flows", "completed_session_id", CASCADE); ("gateway_sessions", "idp_session_id", CASCADE)]
  /\ references_to "resources" = [("resource_connections", "resource_id", CASCADE);
    ("guac_grants", "resource_id", CASCADE); ("rtsp_grants", "resource_id", CASCADE);
    ("policies", "resource_id", CASCADE); ("public_sessions", "resource_id", CASCADE)]
  /\ references_to "roles" = [("user_roles", "role_id", CASCADE); ("policies", "role_id", CASCADE)].
Proof. vm_compute. auto. Qed.
