(* ===== verification/Migrations.v ===== *)
(** * Migrations: alembic/versions, the history of the schema

    Each revision file as its two lists of operations, the operations as functions on
    schemas ([None] where the database, or Alembic, raises), and the history that the
    [down_revision] of the files makes.  The statements that two revisions execute on the
    rows are functions on [Db], whose records have the columns of the last revision. *)

From S2P Require Import Prelude PyStr Json Config Db Effects Cascade Schema.
Local Open Scope Z_scope.

(** ** Operations *)

Inductive Statement : Type :=
| MarkFirstAdmin
| ClearGuacHosts
| DeleteRtspConnections
| DeleteRtspResources.

Inductive Op : Type :=
| CreateTable (name : string) (cols : list (string * Column)) (constraints : list (option string * Constraint))
| DropTable (name : string)
| CreateIndex (name table : string) (index : Index)
| DropIndex (name table : string)
| AddColumn (table : string) (column : string * Column)
| DropColumn (table name : string)
| AddConstraint (name : option string) (table : string) (c : Constraint)
| DropConstraint (name : option string) (table : string)
| Execute (statement : Statement).

#[export] Instance Statement_eq_dec : EqDecision Statement.
Proof. solve_decision. Defined.
#[export] Instance Op_eq_dec : EqDecision Op.
Proof. solve_decision. Defined.

Definition on_table (table : string) (f : Table -> option Table) (s : Schema) : option Schema :=
  t ← s !! table; t' ← f t; Some (<[table := t']> s).

(** What the operation makes of the schema, before the database looks at the whole.  A
    column of a table that may have rows is nullable or has a default.  A column is
    dropped with the constraints and the indexes on it; one that a check may mention is
    not dropped here. *)
Definition apply (op : Op) (s : Schema) : option Schema :=
  match op with
  | CreateTable name cols constraints =>
      match s !! name with
      | None => Some (<[name := table_of name cols constraints []]> s)
      | Some _ => None
      end
  | DropTable name => match s !! name with Some _ => Some (delete name s) | None => None end
  | CreateIndex name table index =>
      on_table table (fun t =>
        match t_indexes t !! name with
        | None => Some (mkTable (t_columns t) (t_constraints t) (<[name := index]> (t_indexes t)))
        | Some _ => None
        end) s
  | DropIndex name table =>
      on_table table (fun t =>
        match t_indexes t !! name with
        | Some _ => Some (mkTable (t_columns t) (t_constraints t) (delete name (t_indexes t)))
        | None => None
        end) s
  | AddColumn table (name, c) =>
      on_table table (fun t =>
        match t_columns t !! name with
        | None =>
            if c_nullable c || bool_decide (is_Some (c_default c))
            then Some (mkTable (<[name := c]> (t_columns t)) (t_constraints t) (t_indexes t))
            else None
        | Some _ => None
        end) s
  | DropColumn table name =>
      on_table table (fun t =>
        match t_columns t !! name with
        | Some _ =>
            if existsb (fun nc => match nc.2 with CheckThat e => contains name e | _ => false end)
                 (map_to_list (t_constraints t))
            then None
            else Some (mkTable (delete name (t_columns t))
                         (filter (fun nc => name ∉ constraint_columns nc.2) (t_constraints t))
                         (filter (fun nx => name ∉ ix_columns nx.2) (t_indexes t)))
        | None => None
        end) s
  | AddConstraint name table c =>
      on_table table (fun t =>
        let name := default (default_name table c) name in
        match t_constraints t !! name with
        | None => Some (mkTable (t_columns t) (<[name := c]> (t_constraints t)) (t_indexes t))
        | Some _ => None
        end) s
  | DropConstraint None _ => None   (* the constraint has no name to drop it by *)
  | DropConstraint (Some name) table =>
      on_table table (fun t =>
        match t_constraints t !! name with
        | Some _ => Some (mkTable (t_columns t) (delete name (t_constraints t)) (t_indexes t))
        | None => None
        end) s
  | Execute _ => Some s
  end.

(** An operation that leaves the schema inconsistent is refused. *)
Definition perform (op : Op) (s : Schema) : option Schema :=
  s' ← apply op s; if consistent s' then Some s' else None.

Fixpoint run (ops : list Op) (s : Schema) : option Schema :=
  match ops with
  | [] => Some s
  | op :: ops => s' ← perform op s; run ops s'
  end.

(** ** The revisions *)

Record Revision := mkRevision {
  revision : string;
  down_revision : option string;
  upgrade : list Op;
  downgrade : list Op;
}.
#[export] Instance Revision_eq_dec : EqDecision Revision.
Proof. solve_decision. Defined.

Definition upgrade_0573d487a0cc : list Op :=
  [AddColumn "resources" ("public_host", col CITEXT NULL no_default);
   AddConstraint None "resources" (Unique ["public_host"])].

Definition downgrade_0573d487a0cc : list Op :=
  [DropConstraint None "resources";
   DropColumn "resources" "public_host"].

Definition upgrade_278129ba7514 : list Op :=
  [CreateTable "gateway_login_states"
      [("state_hash", col Text NOT_NULL no_default);
       ("code_verifier", col Text NOT_NULL no_default);
       ("nonce", col Text NOT_NULL no_default);
       ("return_url", col Text NOT_NULL no_default);
       ("source_ip", col INET NOT_NULL no_default);
       ("created_at", col DateTime NOT_NULL (default_of "now()"));
       ("expires_at", col DateTime NOT_NULL no_default)]
      [(None, PrimaryKey ["state_hash"])];
   CreateTable "gateway_sessions"
      [("id", col UUID NOT_NULL (default_of "gen_random_uuid()"));
       ("user_id", col UUID NOT_NULL no_default);
       ("idp_session_id", col UUID NOT_NULL no_default);
       ("cookie_secret_hash", col Text NOT_NULL no_default);
       ("source_ip", col INET NOT_NULL no_default);
       ("created_at", col DateTime NOT_NULL (default_of "now()"));
       ("revoked_at", col DateTime NULL no_default)]
      [(None, ForeignKey ["idp_session_id"] "sessions" ["id"] CASCADE);
       (None, ForeignKey ["user_id"] "users" ["id"] CASCADE);
       (None, PrimaryKey ["id"])];
   CreateIndex "ix_gateway_sessions_user_id" "gateway_sessions" (index_on ["user_id"] None)].

Definition downgrade_278129ba7514 : list Op :=
  [DropIndex "ix_gateway_sessions_user_id" "gateway_sessions";
   DropTable "gateway_sessions";
   DropTable "gateway_login_states"].

Definition upgrade_36ac9803bb39 : list Op :=
  [AddColumn "sessions" ("stepup_challenge", col LargeBinary NULL no_default)].

Definition downgrade_36ac9803bb39 : list Op :=
  [DropColumn "sessions" "stepup_challenge"].

(** The tables of the first revision that refer to no other. *)
Definition initial_tables : list Op :=
  [CreateTable "audit_log"
      [("id", serial (col BigInteger NOT_NULL no_default));
       ("ts", col DateTime NOT_NULL (default_of "now()"));
       ("user_id", col UUID NULL no_default);
       ("resource_id", col UUID NULL no_default);
       ("port", col Integer NULL no_default);
       ("decision", col Text NOT_NULL no_default);
       ("reason", col Text NULL no_default);
       ("source_ip", col INET NOT_NULL no_default)]
      [(None, PrimaryKey ["id"])];
   CreateIndex "ix_audit_log_ts" "audit_log" (index_on ["ts"] None);
   CreateTable "auth_events"
      [("id", serial (col BigInteger NOT_NULL no_default));
       ("ts", col DateTime NOT_NULL (default_of "now()"));
       ("event_type", col Text NOT_NULL no_default);
       ("user_id", col UUID NULL no_default);
       ("session_id", col UUID NULL no_default);
       ("client_id", col Text NULL no_default);
       ("source_ip", col INET NOT_NULL no_default);
       ("success", col Boolean NOT_NULL no_default);
       ("detail", col JSONB NOT_NULL (default_of "'{}'::jsonb"))]
      [(None, PrimaryKey ["id"])];
   CreateIndex "ix_auth_events_ts" "auth_events" (index_on ["ts"] None);
   CreateIndex "ix_auth_events_user_id_ts" "auth_events" (index_on ["user_id"; "ts"] None);
   CreateTable "auth_throttle"
      [("scope", col Text NOT_NULL no_default);
       ("key", col Text NOT_NULL no_default);
       ("failure_count", col Integer NOT_NULL (default_of "0"));
       ("window_started_at", col DateTime NOT_NULL (default_of "now()"));
       ("next_allowed_at", col DateTime NOT_NULL (default_of "now()"))]
      [(Some "auth_throttle_scope_check", CheckThat "scope IN ('ip','account')");
       (Some "auth_throttle_pkey", PrimaryKey ["scope"; "key"])];
   CreateTable "dpop_jti_seen"
      [("jkt", col Text NOT_NULL no_default);
       ("jti", col Text NOT_NULL no_default);
       ("expires_at", col DateTime NOT_NULL no_default)]
      [(Some "dpop_jti_seen_pkey", PrimaryKey ["jkt"; "jti"])];
   CreateIndex "ix_dpop_jti_seen_expires_at" "dpop_jti_seen" (index_on ["expires_at"] None);
   CreateTable "oauth_clients"
      [("id", col UUID NOT_NULL (default_of "gen_random_uuid()"));
       ("client_id", col Text NOT_NULL no_default);
       ("client_name", col Text NOT_NULL no_default);
       ("redirect_uris", col (ARRAY Text) NOT_NULL no_default);
       ("token_endpoint_auth_method", col Text NOT_NULL (default_of "'none'"));
       ("require_dpop", col Boolean NOT_NULL (default_of "true"));
       ("allowed_scopes", col (ARRAY Text) NOT_NULL (default_of "ARRAY['openid','profile','email']"));
       ("enabled", col Boolean NOT_NULL (default_of "true"));
       ("created_at", col DateTime NOT_NULL (default_of "now()"))]
      [(None, PrimaryKey ["id"]);
       (None, Unique ["client_id"])];
   CreateTable "resources"
      [("id", col UUID NOT_NULL (default_of "gen_random_uuid()"));
       ("name", col Text NOT_NULL no_default);
       ("protocol", col Text NOT_NULL no_default);
       ("host", col Text NOT_NULL no_default);
       ("ports", col (ARRAY Integer) NOT_NULL no_default);
       ("path_prefix", col Text NULL no_default);
       ("description", col Text NULL no_default);
       ("enabled", col Boolean NOT_NULL (default_of "true"))]
      [(Some "resources_protocol_check", CheckThat "protocol IN ('http','https','tcp','vnc','rdp','ssh')");
       (None, PrimaryKey ["id"]);
       (None, Unique ["name"])];
   CreateTable "roles"
      [("id", col UUID NOT_NULL (default_of "gen_random_uuid()"));
       ("name", col Text NOT_NULL no_default);
       ("description", col Text NULL no_default)]
      [(None, PrimaryKey ["id"]);
       (None, Unique ["name"])];
   CreateTable "signing_keys"
      [("id", col UUID NOT_NULL (default_of "gen_random_uuid()"));
       ("kid", col Text NOT_NULL no_default);
       ("alg", col Text NOT_NULL (default_of "'ES256'"));
       ("state", col Text NOT_NULL no_default);
       ("public_jwk", col JSONB NOT_NULL no_default);
       ("private_key_ciphertext", col LargeBinary NOT_NULL no_default);
       ("key_id", col Text NOT_NULL no_default);
       ("created_at", col DateTime NOT_NULL (default_of "now()"));
       ("activated_at", col DateTime NULL no_default);
       ("retiring_at", col DateTime NULL no_default);
       ("retired_at", col DateTime NULL no_default)]
      [(Some "signing_keys_state_check", CheckThat "state IN ('pending','active','retiring','retired')");
       (None, PrimaryKey ["id"]);
       (None, Unique ["kid"])];
   CreateIndex "ux_signing_keys_single_active" "signing_keys" (unique_index_on ["state"] (Some "state = 'active'"));
   CreateTable "users"
      [("id", col UUID NOT_NULL (default_of "gen_random_uuid()"));
       ("external_id", col Text NOT_NULL no_default);
       ("email", col CITEXT NOT_NULL no_default);
       ("display_name", col Text NOT_NULL no_default);
       ("status", col Text NOT_NULL (default_of "'active'"));
       ("auth_tier", col Text NOT_NULL no_default);
       ("password_hash", col Text NOT_NULL no_default);
       ("created_at", col DateTime NOT_NULL (default_of "now()"));
       ("updated_at", col DateTime NOT_NULL (default_of "now()"))]
      [(Some "users_auth_tier_check", CheckThat "auth_tier IN ('standard','admin')");
       (Some "users_status_check", CheckThat "status IN ('active','disabled')");
       (None, PrimaryKey ["id"]);
       (None, Unique ["email"]);
       (None, Unique ["external_id"])]].

(** Its tables with foreign keys. *)
Definition initial_dependents : list Op :=
  [CreateTable "login_flows"
      [("id", col UUID NOT_NULL (default_of "gen_random_uuid()"));
       ("csrf_token_hash", col Text NOT_NULL no_default);
       ("source_ip", col INET NOT_NULL no_default);
       ("stage", col Text NOT_NULL (default_of "'password'"));
       ("user_id", col UUID NULL no_default);
       ("webauthn_challenge", col LargeBinary NULL no_default);
       ("oidc_request", col JSONB NOT_NULL (default_of "'{}'::jsonb"));
       ("created_at", col DateTime NOT_NULL (default_of "now()"));
       ("expires_at", col DateTime NOT_NULL no_default)]
      [(Some "login_flows_stage_check", CheckThat "stage IN ('password','totp','webauthn','done')");
       (None, ForeignKey ["user_id"] "users" ["id"] CASCADE);
       (None, PrimaryKey ["id"])];
   CreateTable "policies"
      [("id", col UUID NOT_NULL (default_of "gen_random_uuid()"));
       ("role_id", col UUID NOT_NULL no_default);
       ("resource_id", col UUID NOT_NULL no_default);
       ("allowed_ports", col (ARRAY Integer) NULL no_default);
       ("allowed_paths", col (ARRAY Text) NULL no_default);
       ("action", col Text NOT_NULL no_default);
       ("conditions_json", col JSONB NOT_NULL (default_of "'{}'::jsonb"));
       ("enabled", col Boolean NOT_NULL (default_of "true"));
       ("created_at", col DateTime NOT_NULL (default_of "now()"))]
      [(Some "policies_action_check", CheckThat "action IN ('allow','deny')");
       (None, ForeignKey ["resource_id"] "resources" ["id"] CASCADE);
       (None, ForeignKey ["role_id"] "roles" ["id"] CASCADE);
       (None, PrimaryKey ["id"])];
   CreateIndex "ix_policies_resource_id" "policies" (index_on ["resource_id"] None);
   CreateIndex "ix_policies_role_id" "policies" (index_on ["role_id"] None);
   CreateTable "policy_changes"
      [("id", serial (col BigInteger NOT_NULL no_default));
       ("ts", col DateTime NOT_NULL (default_of "now()"));
       ("actor_id", col UUID NOT_NULL no_default);
       ("entity_type", col Text NOT_NULL no_default);
       ("entity_id", col UUID NULL no_default);
       ("action", col Text NOT_NULL no_default);
       ("change_json", col JSONB NOT_NULL no_default)]
      [(None, ForeignKey ["actor_id"] "users" ["id"] NO_ACTION);
       (None, PrimaryKey ["id"])];
   CreateTable "recovery_codes"
      [("id", col UUID NOT_NULL (default_of "gen_random_uuid()"));
       ("user_id", col UUID NOT_NULL no_default);
       ("batch_id", col UUID NOT_NULL no_default);
       ("code_hash", col Text NOT_NULL no_default);
       ("used_at", col DateTime NULL no_default);
       ("created_at", col DateTime NOT_NULL (default_of "now()"))]
      [(None, ForeignKey ["user_id"] "users" ["id"] CASCADE);
       (None, PrimaryKey ["id"])];
   CreateIndex "ix_recovery_codes_user_id_unused" "recovery_codes" (index_on ["user_id"] (Some "used_at IS NULL"));
   CreateTable "sessions"
      [("id", col UUID NOT_NULL (default_of "gen_random_uuid()"));
       ("user_id", col UUID NOT_NULL no_default);
       ("cookie_secret_hash", col Text NOT_NULL no_default);
       ("source_ip", col INET NOT_NULL no_default);
       ("auth_tier", col Text NOT_NULL no_default);
       ("amr", col (ARRAY Text) NOT_NULL no_default);
       ("mfa_verified", col Boolean NOT_NULL (default_of "false"));
       ("dpop_jkt", col Text NULL no_default);
       ("issued_at", col DateTime NOT_NULL (default_of "now()"));
       ("last_seen_at", col DateTime NOT_NULL (default_of "now()"));
       ("absolute_expires_at", col DateTime NOT_NULL no_default);
       ("step_up_verified_at", col DateTime NULL no_default);
       ("stale", col Boolean NOT_NULL (default_of "false"));
       ("revoked_at", col DateTime NULL no_default);
       ("revoke_reason", col Text NULL no_default)]
      [(Some "sessions_auth_tier_check", CheckThat "auth_tier IN ('standard','admin')");
       (None, ForeignKey ["user_id"] "users" ["id"] CASCADE);
       (None, PrimaryKey ["id"])];
   CreateIndex "ix_sessions_absolute_expires_at" "sessions" (index_on ["absolute_expires_at"] None);
   CreateIndex "ix_sessions_user_id" "sessions" (index_on ["user_id"] None);
   CreateTable "user_roles"
      [("user_id", col UUID NOT_NULL no_default);
       ("role_id", col UUID NOT_NULL no_default)]
      [(None, ForeignKey ["role_id"] "roles" ["id"] CASCADE);
       (None, ForeignKey ["user_id"] "users" ["id"] CASCADE);
       (None, PrimaryKey ["user_id"; "role_id"])];
   CreateTable "user_totp"
      [("user_id", col UUID NOT_NULL no_default);
       ("secret_ciphertext", col LargeBinary NOT_NULL no_default);
       ("key_id", col Text NOT_NULL no_default);
       ("created_at", col DateTime NOT_NULL (default_of "now()"));
       ("confirmed_at", col DateTime NULL no_default)]
      [(None, ForeignKey ["user_id"] "users" ["id"] CASCADE);
       (None, PrimaryKey ["user_id"])];
   CreateTable "webauthn_credentials"
      [("id", col UUID NOT_NULL (default_of "gen_random_uuid()"));
       ("user_id", col UUID NOT_NULL no_default);
       ("credential_id", col LargeBinary NOT_NULL no_default);
       ("public_key", col LargeBinary NOT_NULL no_default);
       ("sign_count", col BigInteger NOT_NULL (default_of "0"));
       ("transports", col (ARRAY Text) NULL no_default);
       ("aaguid", col UUID NULL no_default);
       ("friendly_name", col Text NOT_NULL no_default);
       ("break_glass", col Boolean NOT_NULL (default_of "false"));
       ("created_at", col DateTime NOT_NULL (default_of "now()"));
       ("last_used_at", col DateTime NULL no_default)]
      [(None, ForeignKey ["user_id"] "users" ["id"] CASCADE);
       (None, PrimaryKey ["id"]);
       (None, Unique ["credential_id"])];
   CreateIndex "ix_webauthn_credentials_user_id" "webauthn_credentials" (index_on ["user_id"] None);
   CreateTable "auth_codes"
      [("code_hash", col Text NOT_NULL no_default);
       ("client_id", col Text NOT_NULL no_default);
       ("user_id", col UUID NOT_NULL no_default);
       ("session_id", col UUID NOT_NULL no_default);
       ("redirect_uri", col Text NOT_NULL no_default);
       ("scope", col Text NOT_NULL no_default);
       ("nonce", col Text NOT_NULL no_default);
       ("code_challenge", col Text NOT_NULL no_default);
       ("code_challenge_method", col Text NOT_NULL (default_of "'S256'"));
       ("auth_time", col DateTime NOT_NULL no_default);
       ("expires_at", col DateTime NOT_NULL no_default);
       ("consumed_at", col DateTime NULL no_default)]
      [(Some "auth_codes_pkce_method_check", CheckThat "code_challenge_method = 'S256'");
       (None, ForeignKey ["client_id"] "oauth_clients" ["client_id"] NO_ACTION);
       (None, ForeignKey ["session_id"] "sessions" ["id"] CASCADE);
       (None, ForeignKey ["user_id"] "users" ["id"] CASCADE);
       (None, PrimaryKey ["code_hash"])];
   CreateTable "refresh_tokens"
      [("id", col UUID NOT_NULL (default_of "gen_random_uuid()"));
       ("token_hash", col Text NOT_NULL no_default);
       ("session_id", col UUID NOT_NULL no_default);
       ("family_id", col UUID NOT_NULL no_default);
       ("parent_id", col UUID NULL no_default);
       ("client_id", col Text NOT_NULL no_default);
       ("user_id", col UUID NOT_NULL no_default);
       ("dpop_jkt", col Text NOT_NULL no_default);
       ("scope", col Text NOT_NULL no_default);
       ("issued_at", col DateTime NOT_NULL (default_of "now()"));
       ("expires_at", col DateTime NOT_NULL no_default);
       ("used_at", col DateTime NULL no_default);
       ("revoked_at", col DateTime NULL no_default)]
      [(None, ForeignKey ["session_id"] "sessions" ["id"] CASCADE);
       (None, ForeignKey ["user_id"] "users" ["id"] CASCADE);
       (None, PrimaryKey ["id"]);
       (None, Unique ["token_hash"])];
   CreateIndex "ix_refresh_tokens_family_id" "refresh_tokens" (index_on ["family_id"] None);
   CreateIndex "ix_refresh_tokens_session_id" "refresh_tokens" (index_on ["session_id"] None)].

Definition upgrade_63f071395d1e : list Op := initial_tables ++ initial_dependents.

Definition downgrade_63f071395d1e : list Op :=
  [DropIndex "ix_refresh_tokens_session_id" "refresh_tokens";
   DropIndex "ix_refresh_tokens_family_id" "refresh_tokens";
   DropTable "refresh_tokens";
   DropTable "auth_codes";
   DropIndex "ix_webauthn_credentials_user_id" "webauthn_credentials";
   DropTable "webauthn_credentials";
   DropTable "user_totp";
   DropTable "user_roles";
   DropIndex "ix_sessions_user_id" "sessions";
   DropIndex "ix_sessions_absolute_expires_at" "sessions";
   DropTable "sessions";
   DropIndex "ix_recovery_codes_user_id_unused" "recovery_codes";
   DropTable "recovery_codes";
   DropTable "policy_changes";
   DropIndex "ix_policies_role_id" "policies";
   DropIndex "ix_policies_resource_id" "policies";
   DropTable "policies";
   DropTable "login_flows";
   DropTable "users";
   DropIndex "ux_signing_keys_single_active" "signing_keys";
   DropTable "signing_keys";
   DropTable "roles";
   DropTable "resources";
   DropTable "oauth_clients";
   DropIndex "ix_dpop_jti_seen_expires_at" "dpop_jti_seen";
   DropTable "dpop_jti_seen";
   DropTable "auth_throttle";
   DropIndex "ix_auth_events_user_id_ts" "auth_events";
   DropIndex "ix_auth_events_ts" "auth_events";
   DropTable "auth_events";
   DropIndex "ix_audit_log_ts" "audit_log";
   DropTable "audit_log"].

Definition upgrade_a1c4f7e2b9d0 : list Op :=
  [CreateTable "resource_connections"
      [("id", col UUID NOT_NULL (default_of "gen_random_uuid()"));
       ("resource_id", col UUID NOT_NULL no_default);
       ("protocol", col Text NOT_NULL no_default);
       ("hostname", col Text NOT_NULL no_default);
       ("port", col Integer NOT_NULL no_default);
       ("params_json", col JSONB NOT_NULL (default_of "'{}'::jsonb"));
       ("secret_ciphertext", col LargeBinary NULL no_default);
       ("key_id", col Text NULL no_default);
       ("secret_keys", col (ARRAY Text) NOT_NULL (default_of "'{}'::text[]"));
       ("created_at", col DateTime NOT_NULL (default_of "now()"));
       ("updated_at", col DateTime NOT_NULL (default_of "now()"))]
      [(Some "resource_connections_protocol_check", CheckThat "protocol IN ('vnc','rdp','ssh')");
       (None, ForeignKey ["resource_id"] "resources" ["id"] CASCADE);
       (None, PrimaryKey ["id"]);
       (None, Unique ["resource_id"])];
   CreateTable "guac_grants"
      [("token_hash", col Text NOT_NULL no_default);
       ("user_id", col UUID NOT_NULL no_default);
       ("resource_id", col UUID NOT_NULL no_default);
       ("connection_id", col UUID NOT_NULL no_default);
       ("source_ip", col INET NOT_NULL no_default);
       ("issued_at", col DateTime NOT_NULL (default_of "now()"));
       ("expires_at", col DateTime NOT_NULL no_default);
       ("consumed_at", col DateTime NULL no_default)]
      [(None, ForeignKey ["resource_id"] "resources" ["id"] CASCADE);
       (None, ForeignKey ["user_id"] "users" ["id"] CASCADE);
       (None, PrimaryKey ["token_hash"])];
   CreateIndex "ix_guac_grants_expires_at" "guac_grants" (index_on ["expires_at"] None)].

Definition downgrade_a1c4f7e2b9d0 : list Op :=
  [DropIndex "ix_guac_grants_expires_at" "guac_grants";
   DropTable "guac_grants";
   DropTable "resource_connections"].

Definition upgrade_b66be004150c : list Op :=
  [AddColumn "login_flows" ("recovery_used", col Boolean NOT_NULL (default_of "false"))].

Definition downgrade_b66be004150c : list Op :=
  [DropColumn "login_flows" "recovery_used"].

Definition upgrade_b8f21d7c04ae : list Op :=
  [DropConstraint (Some "resources_protocol_check") "resources";
   AddConstraint (Some "resources_protocol_check") "resources"
      (CheckThat "protocol IN ('http','https','tcp','vnc','rdp','ssh','rtsp')");
   DropConstraint (Some "resource_connections_protocol_check") "resource_connections";
   AddConstraint (Some "resource_connections_protocol_check") "resource_connections"
      (CheckThat "protocol IN ('vnc','rdp','ssh','rtsp')");
   CreateTable "rtsp_grants"
      [("token_hash", col Text NOT_NULL no_default);
       ("user_id", col UUID NOT_NULL no_default);
       ("resource_id", col UUID NOT_NULL no_default);
       ("connection_id", col UUID NOT_NULL no_default);
       ("source_ip", col INET NOT_NULL no_default);
       ("issued_at", col DateTime NOT_NULL (default_of "now()"));
       ("expires_at", col DateTime NOT_NULL no_default);
       ("consumed_at", col DateTime NULL no_default)]
      [(None, ForeignKey ["resource_id"] "resources" ["id"] CASCADE);
       (None, ForeignKey ["user_id"] "users" ["id"] CASCADE);
       (None, PrimaryKey ["token_hash"])];
   CreateIndex "ix_rtsp_grants_expires_at" "rtsp_grants" (index_on ["expires_at"] None)].

Definition downgrade_b8f21d7c04ae : list Op :=
  [DropIndex "ix_rtsp_grants_expires_at" "rtsp_grants";
   DropTable "rtsp_grants";
   Execute DeleteRtspConnections;
   Execute DeleteRtspResources;
   DropConstraint (Some "resource_connections_protocol_check") "resource_connections";
   AddConstraint (Some "resource_connections_protocol_check") "resource_connections"
      (CheckThat "protocol IN ('vnc','rdp','ssh')");
   DropConstraint (Some "resources_protocol_check") "resources";
   AddConstraint (Some "resources_protocol_check") "resources"
      (CheckThat "protocol IN ('http','https','tcp','vnc','rdp','ssh')")].

Definition upgrade_c3e9a1f0b2d7 : list Op :=
  [CreateTable "log_ship_cursors"
      [("stream", col Text NOT_NULL no_default);
       ("last_id", col BigInteger NOT_NULL (default_of "0"));
       ("updated_at", col DateTime NOT_NULL (default_of "now()"))]
      [(None, PrimaryKey ["stream"])]].

Definition downgrade_c3e9a1f0b2d7 : list Op :=
  [DropTable "log_ship_cursors"].

Definition upgrade_c9b7e5a31d84 : list Op :=
  [DropConstraint (Some "download_requests_target_check") "download_requests";
   AddConstraint (Some "download_requests_target_check") "download_requests"
      (CheckThat "target IN ('shows','movies')")].

Definition downgrade_c9b7e5a31d84 : list Op :=
  [DropConstraint (Some "download_requests_target_check") "download_requests";
   AddConstraint (Some "download_requests_target_check") "download_requests"
      (CheckThat "target IN ('alpha','bravo')")].

Definition upgrade_d4a2c1e9f8b7 : list Op :=
  [AddColumn "login_flows" ("completed_session_id", col UUID NULL no_default);
   AddConstraint (Some "login_flows_completed_session_id_fkey") "login_flows" (ForeignKey ["completed_session_id"] "sessions" ["id"] CASCADE)].

Definition downgrade_d4a2c1e9f8b7 : list Op :=
  [DropConstraint (Some "login_flows_completed_session_id_fkey") "login_flows";
   DropColumn "login_flows" "completed_session_id"].

Definition upgrade_d8c31f6b47ae : list Op :=
  [AddColumn "resources" ("public_access", col Boolean NOT_NULL (default_of "false"));
   AddColumn "resources" ("public_paths", col (ARRAY Text) NULL no_default);
   AddColumn "resources" ("public_password_hash", col Text NULL no_default);
   AddColumn "resources" ("public_password_set_at", col DateTime NULL no_default);
   AddConstraint (Some "resources_public_access_shape_check") "resources"
      (CheckThat "NOT public_access OR (protocol IN ('http','https') AND public_host IS NOT NULL AND public_paths IS NOT NULL AND array_length(public_paths, 1) >= 1)");
   CreateTable "public_sessions"
      [("id", col UUID NOT_NULL (default_of "gen_random_uuid()"));
       ("resource_id", col UUID NOT_NULL no_default);
       ("cookie_secret_hash", col Text NOT_NULL no_default);
       ("source_ip", col INET NULL no_default);
       ("created_at", col DateTime NOT_NULL (default_of "now()"));
       ("expires_at", col DateTime NOT_NULL no_default);
       ("last_seen_at", col DateTime NOT_NULL (default_of "now()"));
       ("revoked_at", col DateTime NULL no_default)]
      [(None, ForeignKey ["resource_id"] "resources" ["id"] CASCADE);
       (None, PrimaryKey ["id"])];
   CreateIndex "ix_public_sessions_resource_id" "public_sessions" (index_on ["resource_id"] None)].

Definition downgrade_d8c31f6b47ae : list Op :=
  [DropIndex "ix_public_sessions_resource_id" "public_sessions";
   DropTable "public_sessions";
   DropConstraint (Some "resources_public_access_shape_check") "resources";
   DropColumn "resources" "public_password_set_at";
   DropColumn "resources" "public_password_hash";
   DropColumn "resources" "public_paths";
   DropColumn "resources" "public_access"].

Definition upgrade_e5d0c7a3f1b6 : list Op :=
  [Execute ClearGuacHosts].

Definition downgrade_e5d0c7a3f1b6 : list Op :=
  [].

Definition upgrade_e7b3d9c41a52 : list Op :=
  [AddColumn "users" ("is_protected", col Boolean NOT_NULL (default_of "false"));
   Execute MarkFirstAdmin].

Definition downgrade_e7b3d9c41a52 : list Op :=
  [DropColumn "users" "is_protected"].

Definition upgrade_f2a8c5d17e93 : list Op :=
  [CreateTable "download_requests"
      [("id", col UUID NOT_NULL (default_of "gen_random_uuid()"));
       ("user_id", col UUID NOT_NULL no_default);
       ("magnet", col Text NOT_NULL no_default);
       ("target", col Text NOT_NULL no_default);
       ("status", col Text NOT_NULL (default_of "'pending'"));
       ("created_at", col DateTime NOT_NULL (default_of "now()"));
       ("reviewed_by", col UUID NULL no_default);
       ("reviewed_at", col DateTime NULL no_default);
       ("submitted_at", col DateTime NULL no_default);
       ("error", col Text NULL no_default)]
      [(Some "download_requests_target_check", CheckThat "target IN ('shows','movies')");
       (Some "download_requests_status_check", CheckThat "status IN ('pending','approved','denied')");
       (None, ForeignKey ["user_id"] "users" ["id"] CASCADE);
       (None, ForeignKey ["reviewed_by"] "users" ["id"] SET_NULL);
       (None, PrimaryKey ["id"])];
   CreateIndex "ix_download_requests_user_id" "download_requests" (index_on ["user_id"] None);
   CreateIndex "ix_download_requests_status" "download_requests" (index_on ["status"] None)].

Definition downgrade_f2a8c5d17e93 : list Op :=
  [DropIndex "ix_download_requests_status" "download_requests";
   DropIndex "ix_download_requests_user_id" "download_requests";
   DropTable "download_requests"].

(** The revision files, in the order of their names. *)
Definition revisions : list Revision :=
  [mkRevision "0573d487a0cc" (Some "36ac9803bb39") upgrade_0573d487a0cc downgrade_0573d487a0cc;
   mkRevision "278129ba7514" (Some "0573d487a0cc") upgrade_278129ba7514 downgrade_278129ba7514;
   mkRevision "36ac9803bb39" (Some "b66be004150c") upgrade_36ac9803bb39 downgrade_36ac9803bb39;
   mkRevision "63f071395d1e" None upgrade_63f071395d1e downgrade_63f071395d1e;
   mkRevision "a1c4f7e2b9d0" (Some "278129ba7514") upgrade_a1c4f7e2b9d0 downgrade_a1c4f7e2b9d0;
   mkRevision "b66be004150c" (Some "63f071395d1e") upgrade_b66be004150c downgrade_b66be004150c;
   mkRevision "b8f21d7c04ae" (Some "e5d0c7a3f1b6") upgrade_b8f21d7c04ae downgrade_b8f21d7c04ae;
   mkRevision "c3e9a1f0b2d7" (Some "a1c4f7e2b9d0") upgrade_c3e9a1f0b2d7 downgrade_c3e9a1f0b2d7;
   mkRevision "c9b7e5a31d84" (Some "f2a8c5d17e93") upgrade_c9b7e5a31d84 downgrade_c9b7e5a31d84;
   mkRevision "d4a2c1e9f8b7" (Some "c3e9a1f0b2d7") upgrade_d4a2c1e9f8b7 downgrade_d4a2c1e9f8b7;
   mkRevision "d8c31f6b47ae" (Some "b8f21d7c04ae") upgrade_d8c31f6b47ae downgrade_d8c31f6b47ae;
   mkRevision "e5d0c7a3f1b6" (Some "c9b7e5a31d84") upgrade_e5d0c7a3f1b6 downgrade_e5d0c7a3f1b6;
   mkRevision "e7b3d9c41a52" (Some "d4a2c1e9f8b7") upgrade_e7b3d9c41a52 downgrade_e7b3d9c41a52;
   mkRevision "f2a8c5d17e93" (Some "e7b3d9c41a52") upgrade_f2a8c5d17e93 downgrade_f2a8c5d17e93].

(** ** The history *)

Definition find_revision (id : string) : option Revision :=
  List.find (fun r => bool_decide (revision r = id)) revisions.

(** The revisions that no other revises. *)
Definition heads : list string :=
  map revision (List.filter (fun r =>
    negb (existsb (fun r' => bool_decide (down_revision r' = Some (revision r))) revisions)) revisions).

(** From a revision down to the base, the base first.  One unit of fuel per revision. *)
Fixpoint history_go (fuel : nat) (id : string) (later : list Revision) : option (list Revision) :=
  match fuel with
  | O => None
  | S fuel =>
      r ← find_revision id;
      match down_revision r with
      | None => Some (r :: later)
      | Some id' => history_go fuel id' (r :: later)
      end
  end.
Definition history (id : string) : option (list Revision) := history_go (List.length revisions) id [].

Definition head : string := "d8c31f6b47ae".

(** [alembic upgrade] of a list of revisions, one after the other. *)
Definition upgrade_all (rs : list Revision) (s : Schema) : option Schema :=
  foldl (fun o r => s ← o; run (upgrade r) s) (Some s) rs.

(** Each revision of a list with the schema before it. *)
Fixpoint stages (rs : list Revision) (s : Schema) : list (Revision * Schema) :=
  match rs with
  | [] => []
  | r :: rs => (r, s) :: match run (upgrade r) s with Some s' => stages rs s' | None => [] end
  end.

(** ** The statements on rows *)

(** [ORDER BY created_at, id]. *)
Definition le_created (a b : Z * User) : Prop :=
  u_created_at a.2 < u_created_at b.2 \/ (u_created_at a.2 = u_created_at b.2 /\ a.1 <= b.1).
#[global] Instance le_created_dec : RelDecision le_created.
Proof. intros a b. unfold le_created. apply _. Defined.

Definition first_admin (t : gmap Z User) : option Z :=
  fst <$> list.head (merge_sort le_created (select (fun _ u => bool_decide (u_auth_tier u = "admin")) t)).

Definition protect (u : User) : User :=
  mkUser (u_external_id u) (u_email u) (u_display_name u) (u_status u) (u_auth_tier u) (u_password_hash u)
    true (u_created_at u) (u_updated_at u).

Definition clear_host (r : Resource) : Resource :=
  mkResource (r_name r) (r_protocol r) None (r_host r) (r_ports r) (r_path_prefix r) (r_description r)
    (r_enabled r) (r_public_access r) (r_public_paths r) (r_public_password_hash r)
    (r_public_password_set_at r).

Definition is_guac (protocol : string) : bool := bool_decide (protocol ∈ ["vnc"; "rdp"; "ssh"]).

(** [DELETE FROM resources WHERE ...], with the rows that refer to what it takes. *)
Definition delete_resources (gone : Resource -> bool) (d : Db) : Db :=
  let of_gone rid := match resources d !! rid with Some r => gone r | None => false end in
  upd_resources (delete_where (fun _ r => gone r))
  (upd_resource_connections (delete_where (fun _ r => of_gone (rc_resource_id r)))
  (upd_guac_grants (delete_where (fun _ r => of_gone (gg_resource_id r)))
  (upd_policies (delete_where (fun _ r => of_gone (p_resource_id r)))
  (upd_public_sessions (delete_where (fun _ r => of_gone (ps_resource_id r))) d)))).

Definition execute (q : Statement) (d : Db) : Db :=
  match q with
  | MarkFirstAdmin =>
      match first_admin (users d) with
      | Some uid => upd_users (alter protect uid) d
      | None => d
      end
  | ClearGuacHosts =>
      upd_resources (update_where (fun _ r => is_guac (r_protocol r) && bool_decide (r_public_host r <> None))
                       clear_host) d
  | DeleteRtspConnections =>
      upd_resource_connections (delete_where (fun _ r => bool_decide (rc_protocol r = "rtsp"))) d
  | DeleteRtspResources => delete_resources (fun r => bool_decide (r_protocol r = "rtsp")) d
  end.

(** The statements of a list of operations, in order. *)
Definition execute_all (ops : list Op) (d : Db) : Db :=
  foldl (fun d op => match op with Execute q => execute q d | _ => d end) d ops.

(** ** Specification *)

(** The line of history that ends at the head, the first revision first. *)
Definition the_history : list Revision := default [] (history head).

(** The revision that creates a constraint without a name, and the one that renames the
    values of a check which the revision before it already has. *)
Definition nameless : string := "0573d487a0cc".
Definition renamed : string := "c9b7e5a31d84".

(** A revision can be taken back where the history applies it, to the schema before it,
    and applied again. *)
Definition returns (rs : Revision * Schema) : bool :=
  match run (upgrade rs.1) rs.2 with
  | Some s =>
      match run (downgrade rs.1) s with
      | Some s' =>
          bool_decide (run (upgrade rs.1) s' = Some s)
          && (bool_decide (revision rs.1 = renamed) || bool_decide (s' = rs.2))
      | None => bool_decide (revision rs.1 = nameless)
      end
  | None => false
  end.

Definition target_check (s : Schema) : option Constraint :=
  t ← s !! "download_requests"; t_constraints t !! "download_requests_target_check".

(** The bootstrap admin: no admin was created before. *)
Definition earliest_admin (t : gmap Z User) (uid : Z) (u : User) : Prop :=
  t !! uid = Some u /\ u_auth_tier u = "admin"
  /\ forall v w, t !! v = Some w -> u_auth_tier w = "admin" -> le_created (uid, u) (v, w).

(** ** Lemmas *)

Lemma stages_step rs : forall s r s0, (r, s0) ∈ stages rs s -> r ∈ rs.
Proof.
  induction rs as [|r' rs IH]; intros s r s0; simpl; [by intros ?%elem_of_nil|].
  rewrite elem_of_cons. intros [[= -> ->]|H]; [left|]. destruct (run (upgrade r') s); [|by apply elem_of_nil in H].
  right. by eapply IH.
Qed.

#[local] Instance le_created_trans : Transitive le_created.
Proof. intros a b c. unfold le_created. lia. Qed.
#[local] Instance le_created_total : Total le_created.
Proof. intros a b. unfold le_created. lia. Qed.

Lemma first_admin_Some t uid : first_admin t = Some uid -> exists u, earliest_admin t uid u.
Proof.
  unfold first_admin. set (l := select _ t). intros H.
  destruct (merge_sort le_created l) as [|[k u] rest] eqn:E; [done|]. injection H as ->.
  assert (forall x, x ∈ (uid, u) :: rest <-> x ∈ l) as Hin by (intros x; by rewrite <- E, merge_sort_Permutation).
  pose proof (StronglySorted_merge_sort le_created l) as Hs. rewrite E in Hs. apply StronglySorted_inv in Hs as [_ Hs].
  assert ((uid, u) ∈ l) as H by (apply Hin; left). apply select_In in H as [Hu Ha]. apply bool_decide_eq_true in Ha.
  exists u. split; [done|]. split; [done|]. intros v w Hv Hw.
  assert ((v, w) ∈ l) as Hl by (apply select_In; split; [done|by apply bool_decide_eq_true]).
  apply Hin, elem_of_cons in Hl as [[= -> ->]|Hl]; [unfold le_created; simpl; lia|].
  by eapply Forall_forall in Hs.
Qed.

Lemma first_admin_None t : first_admin t = None -> forall v w, t !! v = Some w -> u_auth_tier w <> "admin".
Proof.
  unfold first_admin. set (l := select _ t). intros H v w Hv Hw.
  assert ((v, w) ∈ merge_sort le_created l) as Hl.
  { rewrite merge_sort_Permutation. apply select_In. split; [done|by apply bool_decide_eq_true]. }
  destruct (merge_sort le_created l); [by apply elem_of_nil in Hl|done].
Qed.

Lemma run_cons op ops s s' : run (op :: ops) s = Some s' -> exists s1, perform op s = Some s1 /\ run ops s1 = Some s'.
Proof. cbn [run]. destruct (perform op s) as [s1|]; [|done]. intros H. by exists s1. Qed.

Lemma run_last op op' s s' : run [op; op'] s = Some s' -> exists s1, perform op s = Some s1 /\ perform op' s1 = Some s'.
Proof. intros (s1 & H1 & (s2 & H2 & [= <-])%run_cons)%run_cons. by exists s1. Qed.

Lemma perform_apply op s s' : perform op s = Some s' -> apply op s = Some s'.
Proof. unfold perform. destruct (apply op s) as [s1|]; [|done]. simpl. by destruct (consistent s1). Qed.

Lemma on_table_Some table f s s' : on_table table f s = Some s' ->
  exists t t', s !! table = Some t /\ f t = Some t' /\ s' = <[table := t']> s.
Proof.
  unfold on_table. intros H. apply bind_Some in H as (t & Ht & H). apply bind_Some in H as (t' & Hf & H).
  injection H as <-. by exists t, t'.
Qed.

(** ** Theorems *)

(** The revision files are one line of history: one head, from which every file is
    reached, none twice, down to the first. *)
Theorem one_history : heads = [head] /\ history head = Some the_history
  /\ NoDup (map revision the_history)
  /\ Forall (fun r => revision r ∈ map revision the_history) revisions
  /\ List.length the_history = List.length revisions.
Proof.
  split; [vm_compute; reflexivity|]. split; [vm_compute; reflexivity|].
  split; [|split; [|vm_compute; reflexivity]]; apply (bool_decide_unpack _); vm_compute; exact I.
Qed.

(** C40: The migrations build the models: from an empty database the history runs without an
    error, and what it leaves is the schema the classes declare, column by column and
    constraint by constraint. *)
Theorem migrations_build_models : upgrade_all the_history ∅ = Some models_schema.
Proof. apply (bool_decide_unpack _). vm_compute. exact I. Qed.

(** Every revision that was applied can be taken back and applied again, which gives the
    schema the history has there; taking it back gives the schema before, but for the
    revision of the renamed values; and only the revision of the constraint without a
    name cannot be taken back. *)
Theorem revisions_return : forall r s, (r, s) ∈ stages the_history ∅ -> revision r <> nameless ->
  exists s' s0, run (upgrade r) s = Some s' /\ run (downgrade r) s' = Some s0
  /\ run (upgrade r) s0 = Some s' /\ (revision r <> renamed -> s0 = s).
Proof.
  assert (forallb returns (stages the_history ∅) = true) as Hall by (vm_compute; reflexivity).
  intros r s Hin Hn. rewrite forallb_forall in Hall. apply list_elem_of_In, Hall in Hin. unfold returns in Hin.
  simpl in Hin. destruct (run (upgrade r) s) as [s'|] eqn:Eu; [|done].
  destruct (run (downgrade r) s') as [s0|] eqn:Ed; [|by bool_simpl]. bool_simpl.
  exists s', s0. split; [done|]. split; [done|]. split; [done|]. intros Hr.
  match goal with H : _ || _ = true |- _ => apply orb_true_iff in H as [H|H]; bool_simpl end; done.
Qed.

(** The constraint of [resources.public_host] was created without a name, and is dropped
    without one: the downgrade of that revision raises on every database. *)
Theorem nameless_downgrade_fails s : run downgrade_0573d487a0cc s = None.
Proof. reflexivity. Qed.

(** Taking back the renamed values leaves the values of before the renaming, on every
    database; the revision before, since it was amended, creates the table with the new
    ones, which are those of the rows. *)
Theorem renamed_downgrade_differs s s' :
  (run downgrade_c9b7e5a31d84 s = Some s' -> target_check s' = Some (CheckThat "target IN ('alpha','bravo')"))
  /\ (run upgrade_f2a8c5d17e93 s = Some s' -> target_check s' = Some (CheckThat "target IN ('shows','movies')")).
Proof.
  split; intros H.
  - apply run_last in H as (s1 & _ & H). apply perform_apply in H. apply on_table_Some in H as (t & t' & _ & Ht & ->).
    unfold target_check. rewrite (lookup_insert_eq s1). simpl in *. destruct (t_constraints t !! _); [done|].
    injection Ht as <-. simpl. by rewrite (lookup_insert_eq (t_constraints t)).
  - apply run_cons in H as (s1 & H1 & H). apply run_cons in H as (s2 & H2 & H3). apply run_cons in H3 as (s3 & H3 & [= <-]).
    apply perform_apply in H1, H2, H3. apply on_table_Some in H2 as (t2 & t2' & E2 & Ht2 & ->).
    apply on_table_Some in H3 as (t3 & t3' & E3 & Ht3 & ->). rewrite (lookup_insert_eq s1) in E3. injection E3 as <-.
    unfold target_check. rewrite (lookup_insert_eq (<[_ := t2']> s1)). simpl in *.
    destruct (t_indexes t2 !! _); [done|]. injection Ht2 as <-. simpl in Ht3.
    destruct (<[_ := _]> (t_indexes t2) !! _); [done|]. injection Ht3 as <-. simpl.
    destruct (s !! "download_requests"); [done|]. injection H1 as <-. rewrite (lookup_insert_eq s) in E2. injection E2 as <-.
    reflexivity.
Qed.

(** Marking the bootstrap admin protects exactly the admin who was created first, if there
    is one, and changes nothing else of the users. *)
Theorem first_admin_protected d : let d' := execute MarkFirstAdmin d in
  ((forall v w, users d !! v = Some w -> u_auth_tier w <> "admin") -> d' = d)
  /\ (forall uid u, earliest_admin (users d) uid u -> users d' = <[uid := protect u]> (users d)).
Proof.
  intros d'. unfold d'. simpl. split.
  - intros Hno. destruct (first_admin (users d)) as [uid|] eqn:E; [|done].
    apply first_admin_Some in E as (u & Hu & Ha & _). by destruct (Hno _ _ Hu).
  - intros uid u (Hu & Ha & Hmin). destruct (first_admin (users d)) as [k|] eqn:E.
    2: { by destruct (first_admin_None _ E _ _ Hu). }
    apply first_admin_Some in E as (w & Hk & Hka & Hkmin).
    assert (k = uid) as ->.
    { specialize (Hmin _ _ Hk Hka). specialize (Hkmin _ _ Hu Ha). unfold le_created in *. simpl in *. lia. }
    simpl. simplify_eq. apply map_eq. intros v. destruct (decide (v = uid)) as [->|Hne].
    + by rewrite lookup_alter_eq, lookup_insert_eq, Hu.
    + by rewrite lookup_alter_ne, lookup_insert_ne.
Qed.

(** Clearing the routing hosts leaves no host on a resource that is reached by a tunnel,
    and every other resource as it was; doing it again changes nothing. *)
Theorem guac_hosts_cleared d : let d' := execute ClearGuacHosts d in
  (forall rid r, resources d' !! rid = Some r -> is_guac (r_protocol r) = true -> r_public_host r = None)
  /\ (forall rid r, is_guac (r_protocol r) = false -> resources d' !! rid = Some r <-> resources d !! rid = Some r)
  /\ resources (execute ClearGuacHosts d') = resources d'.
Proof.
  intros d'. unfold d'. simpl. split_and!.
  - intros rid r. rewrite lookup_update_where. destruct (resources d !! rid) as [r0|]; [|done]. simpl. intros [= <-].
    destruct (is_guac (r_protocol r0)) eqn:Eg; simpl; [|by rewrite Eg].
    case_bool_decide as Eh; [done|]. by intros _.
  - intros rid r Hr. rewrite lookup_update_where. destruct (resources d !! rid) as [r0|]; [|done]. simpl.
    destruct (is_guac (r_protocol r0) && _) eqn:E; [|done]. apply andb_true_iff in E as [Eg _].
    split; intros [= <-]; [simpl in Hr|]; congruence.
  - apply map_eq. intros rid. rewrite !lookup_update_where. destruct (resources d !! rid) as [r0|]; [|done]. simpl.
    f_equal. destruct (is_guac (r_protocol r0) && bool_decide (r_public_host r0 <> None)) eqn:E; [|by rewrite E].
    simpl. try by case_match.
Qed.

(** Before the checks are narrowed again, no row is left that the narrow checks refuse,
    and no row that refers to one that is gone. *)
Theorem rtsp_rows_gone d (Href : forall pid p, policies d !! pid = Some p -> is_Some (resources d !! p_resource_id p)) :
  let d' := execute_all downgrade_b8f21d7c04ae d in
  (forall rid r, resources d' !! rid = Some r <-> resources d !! rid = Some r /\ r_protocol r <> "rtsp")
  /\ (forall cid c, resource_connections d' !! cid = Some c -> rc_protocol c <> "rtsp")
  /\ (forall pid p, policies d' !! pid = Some p -> is_Some (resources d' !! p_resource_id p)).
Proof.
  intros d'. unfold d'. cbn. split_and!.
  - intros rid r. rewrite lookup_delete_where. clear Href. destruct (resources d !! rid) as [r0|]; simpl.
    2: { split; [done|by intros [? _]]. }
    case_bool_decide as E; split; [done|intros [[= <-] Hn]; done|by intros [= <-]|by intros [[= <-] _]].
  - intros cid c Hc. apply delete_where_Some in Hc as [Hc _]. apply delete_where_Some in Hc as [_ Hc].
    by apply bool_decide_eq_false in Hc.
  - intros pid p Hp. apply delete_where_Some in Hp as [Hp Hg]. destruct (Href _ _ Hp) as [r Hr].
    rewrite lookup_delete_where, Hr in *. simpl. by rewrite Hg.
Qed.

(** ** Witnesses *)

Example revisions_return_witness : exists r s s', (r, s) ∈ stages the_history ∅ /\ revision r = "63f071395d1e"
  /\ run (upgrade r) s = Some s' /\ run (downgrade r) s' = Some ∅.
Proof.
  set (x := default (mkRevision "" None [] [], ∅) (stages the_history ∅ !! O)).
  assert ((x.1, x.2) ∈ stages the_history ∅) as Hin
    by (apply list_elem_of_lookup_2 with O; reflexivity).
  destruct (revisions_return x.1 x.2 Hin) as (s' & s0 & Hu & Hd & _ & He); [vm_compute; discriminate|].
  exists x.1, x.2, s'. split; [exact Hin|]. split; [vm_compute; reflexivity|]. split; [exact Hu|].
  rewrite Hd, He by (vm_compute; discriminate). reflexivity.
Defined.
